(* ===== verification/_CoqProject ===== *)
-Q . S2P
Prelude.v
GoStrings.v
Boot.v
Config.v
Store.v
World.v
Paths.v
Lifecycle.v
Guest.v
Tables.v
Gpu.v
NetIP.v
GuestNet.v
Iso.v
CloudInit.v
Ready.v
Daemon.v
Sha1.v
Shacrypt.v
Images.v
Media.v
Vpn.v
KillSwitch.v
Firewall.v
Qemu.v
Machine.v
Storage.v
HostDev.v
Vz.v
Build.v
Templates.v
Runner.v
Gaming.v
Windows.v
Catalogue.v
Seeds.v
Install.v
Identity.v
MacGuest.v
Backup.v
Tunnels.v
