(* ===== verification/Prelude.v ===== *)
(** * vee: a verification development

    vee (the Go program under src/) manages virtual machines on a workstation:
    it assembles a config from templates and options, writes the seed volume a
    guest installs from, keeps a config and a state record per VM, builds QEMU
    command lines and vz machine specs, launches and stops the processes, waits
    for guests to come up, and runs a daemon that restarts wanted VMs, follows
    guest shutdowns and resets, and powers VMs down with the host.

    ** Parts and files

    - [Prelude]: record update, the [GoM] monad for Go functions that return
      [(T, error)] and change the world (an error keeps the effects made before
      it), its invariant calculus ([preserves], [keeps]) with tactics, errors.
    - [GoStrings], [Paths]: what the program uses of [strings], [strconv] and
      [path/filepath], with the facts needed of them.
    - [Config]: [VMConfig], [VMState] and the records below them
      (internal/vm/config.go, state.go; internal/backend/backend.go).
    - [Store]: the store interface ([VMStore], laws in [VMStoreLaws]), its
      SQLite instance ([Db]: internal/vm/db.go, internal/db/db.go) and its file
      instance ([Files]: internal/vm/store.go).  Storage faults are explicit:
      a failing read or write is a state of the store.
    - [World]: the host (internal/platform/platform.go), and the world the
      manager acts on: store, live processes, ports, files, /etc/hosts
      (internal/vm/hostname.go), clock, watcher goroutines.
    - [Boot]: the boot-phase watcher of a serial log that grows in pieces
      (internal/boot/phasewatcher.go).
    - [Lifecycle]: [Start], [Stop], [ForceStop], stale clean-up, [List],
      install-state updates, setters (internal/vm/manager.go, backend.go,
      recovery.go, glfallback.go, resources.go).  Machine construction is behind
      the class [MachineBuilder]; [MachineLaws] and [Launchable] are what the
      lifecycle relies on.
    - [Guest]: a guest's address from neighbour tables, DHCP leases and ARP, SSH
      endpoints, scp operands, known hosts, shell quoting (internal/vm/
      ipresolve_macos.go, scp.go, sshexec.go and parts of manager.go).
    - [Tables]: text cut into lines and fields, and the tables programs print.
    - [NetIP]: what the program uses of package net: addresses, their classes,
      CIDR masks.
    - [GuestNet]: commands in a guest, its health check and listening ports, and
      the diagnosis of its network from tables of interfaces, routes, resolvers
      and firewall rules (internal/vm/guestnet.go, guestports.go and parts of
      manager.go).
    - [Gpu]: PCI devices for passthrough: IOMMU groups, power states and resets,
      driver binding, the readiness check, BAR resizing (internal/gpu).  Sysfs
      is the class [Sysfs]; [PciLaws] is what the kernel documents of it.
    - [HostDev]: data on disks, block devices in use, CPU pinning (internal/vm/
      diskcheck.go, cpupinning.go; internal/blockdev/blockdev.go).
    - [Iso], [CloudInit]: the seed volume, byte for byte, and the documents on
      it (internal/cloudinit).
    - [Ready]: waiting for a guest: boot phases, probes, SSH, cloud-init
      ([WaitReadyWithPhases] of manager.go, waitssh.go, sshport.go).
    - [Daemon]: autostart, the shutdown inhibitor, host shutdown, QMP
      ownership, guest shutdown and reset events (internal/vm/daemon.go,
      qmp_registry.go, [StopAllRunning] of manager.go).
    - [Sha1]: crypto/sha1, from which MAC addresses and vsock ids are derived.
    - [Shacrypt]: SHA-512 and the SHA-512 crypt password hash
      (internal/shacrypt/shacrypt.go).
    - [Images]: the catalogue of operating-system images and the download of
      each kind with its checksum (internal/images).
    - [Media]: media libraries: specs, the plan of each kind of source, the
      collection of passwords (internal/media, cmd/media.go).
    - [Vpn]: WireGuard files and keys, the exchange of a NordVPN token
      (internal/vpn).
    - [KillSwitch]: the commands and files of the guests that may only talk
      through a tunnel (internal/templates/wgkillswitch.go, torrent.go,
      torrent_alpine.go, bitmagnet.go, qbittorrent.go); [Firewall]: what these
      commands do to a guest's packet filter, as an interpreter of iptables and
      ufw, and what packets then leave.
    - [Qemu]: the device records and argument lists of internal/qemu, disk
      image creation and deletion, CPU topology (internal/cpu/topology.go).
    - [Machine]: [buildMachine] step by step, the dispatch to a backend and the
      detached launch; [vee_builder] is the instance of [MachineBuilder].
    - [Storage]: [Create], [MoveBootDisk], [Delete] (internal/vm/manager.go) and
      [ResizeBootDisk] (internal/vm/resize.go).
    - [Vz]: the vz backend: create-time preparation, machine spec, builder and
      launcher, control requests (internal/vm/backend_vz.go,
      internal/vzhelper/vzhelper.go); it meets [vz_laws], the contract [Machine]
      asks of it.
    - [Build]: from options to a config: templates' dispatch, overrides, disks,
      checks, package mirrors (internal/vm/build/build.go, internal/mirror), for
      any record [Templates] of constructors.
    - [Templates], [Runner], [Gaming], [Windows]: the constructors of
      internal/templates, each with its disks, devices, scripts, units and
      files; [Windows] also the answer file, the media rebuild and cached
      downloads (internal/utils/httpclient.go).
    - [Catalogue]: [vee_templates], the record the assembly uses, and what holds
      of every machine it makes; [Seeds]: the user-data of these machines, as a
      YAML reader sees it; [Install]: which disks an install writes.
    - [Identity]: the identity of CI runners on the host: the age identity,
      snapshots of a guest's credentials, SSH keys, the preparation of a runner
      (internal/runnercreds, runnerssh, runnersetup), over the files of ~/.vee
      with every system call able to fail.
    - [MacGuest]: making a macOS guest by restore or import, its first-boot
      script and payload (internal/templates/macos.go, internal/vzfirstboot).
    - [Backup]: backup runs, their tables and cache, and the copying of guest
      directories (internal/backup).
    - [Tunnels]: background tunnels: the registry, the daemon's listeners and
      their reconciliation with it, host-name routing (internal/vm/
      tunnel_registry.go, tunnel_daemon.go, tunnel_router.go, services.go).

    Modules named [Scenario], [ReadyScenario], [MachineExample], [HostExample],
    [DiskExample], [VzExample], [BuildExample], [IsoExample], [SeedExample],
    [GuestNetExample], [GpuExample], [HostDevExample], [TunnelExample],
    [ImagesExample], [MediaExample], [VpnExample], [FirewallExample],
    [GamingExample], [CatalogueExample], [SeedsExample], [InstallExample],
    [IdentityExample], [MacExample] and [BackupExample] hold the concrete
    configs, hosts and worlds on which the hypotheses of the theorems are shown
    to hold.

    ** How state and effects correspond

    A method of [*Manager] is a definition of the same name in [GoM (World S)
    error], for any store [S].  Early returns are [throw], [_ = f()] is
    [ignore], [v, err := f()] whose error is inspected is [attempt].  A pointer
    that is nil-able is an [option]; mutation of a config in place is record
    update followed by passing the new record on.  Logging is left out.  The
    order in which concurrent stops run ([StopAllRunning] starts one goroutine
    per VM) is a permutation the theorems quantify over, as is the order in
    which Go iterates over a map; the daemon's events are an inductive type its
    step function consumes, and the histories of a VM's record are an inductive
    relation.  A wait is a function of the wake-ups it gets: boot events, ticks,
    cancellation, and whatever other processes do to the world in between.  Byte
    buffers are lists of [Z], filled in by [copy_at] in the order of the code.

    Sizes are kept at Go's width where overflow matters: [wrap64] for the sum
    of a relative resize, [wrapu64] for memory sizes, 32-bit words in SHA-1 and
    [u32] for sectors, 64-bit bounds in [Atoi].

    ** What the theorems show

    - Lifecycle and daemon: starts record a live process and a wanted VM, strip
      installer media after an install and never launch twice; stops kill and
      keep exactly the preserved record; the record refines a one-bit intent
      over any sequence of launches, stops, guest power-offs and clean-ups; host
      shutdown stops every VM, whatever the order, and loses no intent; a guest
      reset is a power cycle except during an install.
    - Store: both backings satisfy the interface's laws; the database keeps its
      key invariant under every operation; file writes are atomic.
    - Machine and command line: the real builder starts any plain VM on a
      working host; the machine carries what the config says; controllers
      precede the disks on them; PCI root ports are distinct; the manager and
      the QEMU layer resolve a disk to the same path; only vee's own disk files
      are created or deleted.
    - Storage: a moved or resized boot disk is where the config on record says,
      a failed move never loses it, sizes round-trip and never shrink, deletion
      stays in its directory, a failed creation leaves no record.
    - Assembly and seeds: an option given wins and an option left out keeps the
      template's value; the user's disks are attached as they are and no disk is
      created beside an adopted one; such a VM, created, gives a machine that
      boots the disk; a macOS guest keeps its minimums.  Files written to a seed
      volume are read back from either directory tree, and a YAML reader of the
      user-data finds the configured commands and files.
    - Templates: every machine of the catalogue is well formed, whatever the
      network and the tools answer; secrets reach it only in files of mode 0600;
      its seed delivers the template's commands and files, in order; a Windows
      install writes to the system disk and wipes the scratch disk; a downloaded
      image has its published checksum, and a cached download is whole.
    - Runners, macOS guests, backups: secrets on the host stay readable with its
      identity whichever calls fail, and a runner made again gets its old
      registration back without a token; making a macOS guest touches only the
      VM's directory and a failure leaves nothing of a new one; a backup copies
      what it records, to places under its destination.
    - Tunnelled guests: after the commands of the first boot, packets leave
      through the tunnel or by one of the holes the rules name, and by no other
      way, and a refresh of the endpoint moves only its own hole; WireGuard
      files read back; a token is exchanged for a server of the country asked.
    - Media and passwords: specs are parsed exactly as documented, passwords are
      asked for when needed and confined to files of root, mount units have the
      names systemd expects; a password hash admits its password.
    - Guests: the watcher reports what the whole log says, however it is cut,
      and returns when the console stays silent; a wait ends, and says ready only
      of a VM recorded ready or at the end of an install pass; a wait for SSH
      says ready only after a command ran; the freshest lease gives the address;
      a shell reads quoted text back; scrubbing forgets one host.
    - Network diagnosis: a report without failures on a guest with a VPN says
      that routes, resolvers and the public address are the tunnel's; a guest
      that does not answer is never judged; a kill switch is reported when the
      rules printed by iptables drop what is neither tunnel nor loopback; the
      interface table is read as it is printed.
    - Host devices: the readiness check passes exactly for a device that can be
      handed out, with all of its group; a reset or a binding leaves the drivers
      as promised; resize tables and CPU lists are read as they are written;
      disks in use are not offered and disks with data not overwritten unasked.
    - vz: the backend keeps the lifecycle's contract, its specs are ones the
      helper loads, and what is created can be built for a start.
    - Tunnels: live tunnels are those registered for running VMs, each with a
      listener and port of its own, and a listener that still fits is kept; the
      registry holds one tunnel per VM and service; routes do not depend on map
      order and published names resolve to their tunnel.
    - A few theorems state surprising behaviour of the code as it is:
      [stale_start_reinstalls], [hosts_overmatch], [saveState_ghost_row],
      [adjust_smp_doubles], [new_tunnel_restarted], [loopback_tunnel_routed],
      [debug_line_fails], [scp_ipv6_host_cut], [install_poweroff_misreported],
      [power_cycle_misreported], [late_event_unmarks],
      [relative_disk_refused_late], [asked_disk_stripped], [boot_disk_colon],
      [directory_overflow], [indented_command_cut],
      [unread_lan_resolver_passes], [ipv6_lan_resolver_passes],
      [marked_only_rule_passes], [dead_agent_no_fallback],
      [bare_memory_is_bytes], [vfio_gpu_listed], [failed_rebind_strands],
      [sdp_offered_while_mounted], [nvme_parent], [pinning_unsorted],
      [huge_device_panics], [interrupted_image_accepted], [patch_ten_is_older],
      [index_name_escapes], [block_ro_writable], [hostdir_ro_exported_writable],
      [dashed_path_unit], [units_collide], [ufw_ssh_open],
      [crawler_starts_first], [reject_comes_last], [named_server_cut_off],
      [stale_pin_stays], [cpu_override_breaks_topology],
      [data_disk_is_scratch], [partial_medium_accepted],
      [virtio_rule_misplaced], [password_unquoted],
      [traced_stage_unlabelled], [global_runner_shares_key],
      [orphan_key_stuck], [rsa_key_left_readable],
      [installed_guest_overwritten], [copy_escapes],
      [interrupted_run_forgotten].

    ** Bounds and fuel

    [SHA1.blocks] and [SHA512.blocks] use fuel: they are given the length of the
    padded message and use one unit per block of 64 or 128 bytes; [repeat_to]
    has one unit per byte of its result, and [pad_password] as many as the
    shortest password has characters.  The readers that state what a volume or a
    document means ([read_records], [read_cmds], [read_files]) have one unit per
    byte or line, and use at most one per record of two bytes or more.  Port
    scans recurse on the number of candidates of the range.  An IPv6 address is
    read in at most eight groups; a size of 64 bits is divided by 1000 at most
    six times; the polls of a device make as many looks as their deadline
    allows (50 and 25), the clock moving only while they sleep.  Everything
    else is structural.

    ** What is not modelled

    Programs and services outside src/ are parameters: QEMU, qemu-img, swtpm,
    virtiofsd, the ISO tools, the vz helper process, sysfs, process creation
    ([BuildEnv], [SeedEnv], [AsmEnv], the vz environment), the file system's
    answers ([FsEnv]), the network's ([StartEnv], [ReadyEnv]), a guest's and
    its agent's ([NetEnv]), those of sysfs and block devices ([Sysfs],
    [DiskEnv], [BlockEnv]).  [Create] takes the data check of disks and the seed
    writers as parameters ([CreateEnv]); [HostDev] gives it the check
    ([disk_warnings]) and [Iso] and [CloudInit] model the writers on their own.
    The decoding of the health report's JSON is a parameter, as are the BAR
    sizes read from lspci; the names of pci.ids are left out.  Images
    and templates take the network, the cache's file system and the external
    tools as parameters ([FetchEnv], [WinEnv], [NordEnv], with the JSON answers
    of UUP dump and NordVPN decoded), as well as the random bytes and Curve25519;
    the catalogue takes the constructor of macOS guests as a parameter ([macos])
    and [MacGuest] models it on its own, the vz helper, the download and the
    patch of the guest's disk being parameters there ([MacEnv]).  The identity
    of runners is over interfaces for age, tar and key generation ([CredEnv],
    [Age] with [AgeLaws], [TarReader], [KeyGen]), backups over the database's
    faults, ssh and rsync ([BackupEnv]); the streamed listing of a guest's
    directories is not modelled.  The script of the container that builds a Windows
    ISO is not run, only its choice of a disk is.  The socket protocols of QMP and
    the guest agent, connections and downloads, and the command-line, terminal,
    web and MCP front ends are left out; their effect on the modelled part is
    through the operations above.

    ** Plan

    Next: the import of YAML configs, the SSH loopback proxies, and the
    operations the front ends share. *)
From Stdlib Require Export Ascii.
From stdpp Require Export base tactics list gmap strings sets sorting.
From stdpp Require Import options.
From Stdlib Require Export ZArith Lia.

(** ** Record update

    Go mutates struct fields in place.  [r <| f := v |>] is the record [r]
    with the field [f] replaced.  A record type opts in by giving its
    eta-expansion as an instance of [Settable]; the setter of a projection is
    then computed by abstracting that projection out of the expansion. *)
Class Settable (R : Type) := eta_record : R → R.

Class Setter {R T : Type} (proj : R → T) := update : (T → T) → R → R.
Arguments update {R T} proj {_} _ _ : assert.

Ltac build_setter :=
  match goal with
  | |- @Setter ?R ?T ?proj =>
      let inst := constr:(_ : Settable R) in
      let body := eval hnf in inst in
      match eval pattern proj in body with
      | ?ctx proj => exact (λ g : T → T, ctx (λ r : R, g (proj r)))
      end
  end.

#[global] Hint Extern 0 (Setter _) => build_setter : typeclass_instances.

Declare Scope record_scope.
Open Scope record_scope.

Notation "r <| f := v |>" := (update f (λ _, v) r)
  (at level 1, left associativity, format "r  <| f  :=  v |>") : record_scope.

(** ** Fallible, stateful code

    A Go function that reads and changes the world and returns [(T, error)] is
    a function from the world to a [result] and a new world.  Effects made
    before an error are kept: the world component is returned on both
    branches, as in Go, where an early [return err] undoes nothing. *)
Inductive result (E A : Type) : Type :=
| Ok (a : A)
| Err (e : E).
Arguments Ok {E A} _ : assert.
Arguments Err {E A} _ : assert.

Definition is_ok {E A} (r : result E A) : bool :=
  match r with Ok _ => true | Err _ => false end.

Definition GoM (W E A : Type) : Type := W → result E A * W.

#[global] Instance GoM_ret W E : MRet (GoM W E) := λ A a w, (Ok a, w).
#[global] Instance GoM_bind W E : MBind (GoM W E) := λ A B k m w,
  match m w with
  | (Ok a, w') => k a w'
  | (Err e, w') => (Err e, w')
  end.

Section GoM.
Context {W E : Type}.

(** [return err] *)
Definition throw {A} (e : E) : GoM W E A := λ w, (Err e, w).
(** Read from the world. *)
Definition gets {A} (f : W → A) : GoM W E A := λ w, (Ok (f w), w).
(** Change the world. *)
Definition modify (f : W → W) : GoM W E unit := λ w, (Ok tt, f w).
(** [v, err := m()] with both results in hand: the error becomes a value. *)
Definition attempt {A} (m : GoM W E A) : GoM W E (result E A) := λ w,
  let '(r, w') := m w in (Ok r, w').
(** [_ = m()]: run for effect, drop the error. *)
Definition ignore {A} (m : GoM W E A) : GoM W E unit := λ w, (Ok tt, (m w).2).
(** [if b { m }] *)
Definition when_ (b : bool) (m : GoM W E unit) : GoM W E unit :=
  if b then m else mret tt.
(** [for _, x := range l { f(x) }], an error of the body leaving the loop. *)
Fixpoint for_each {A} (f : A → GoM W E unit) (l : list A) : GoM W E unit :=
  match l with
  | [] => mret tt
  | x :: l' => f x ≫= λ _, for_each f l'
  end.

Lemma run_bind {A B} (m : GoM W E A) (k : A → GoM W E B) w :
  (m ≫= k) w = match m w with
               | (Ok a, w') => k a w'
               | (Err e, w') => (Err e, w')
               end.
Proof. reflexivity. Qed.

Lemma run_ret {A} (a : A) w : (mret a : GoM W E A) w = (Ok a, w).
Proof. reflexivity. Qed.

Lemma run_gets {A B} (f : W → A) (k : A → GoM W E B) w : (gets f ≫= k) w = k (f w) w.
Proof. reflexivity. Qed.

Lemma run_attempt {A B} (m : GoM W E A) (k : result E A → GoM W E B) w :
  (attempt m ≫= k) w = k (m w).1 (m w).2.
Proof. rewrite run_bind. unfold attempt. by destruct (m w). Qed.

Lemma run_modify {B} f (k : unit → GoM W E B) w : (modify f ≫= k) w = k tt (f w).
Proof. reflexivity. Qed.

Lemma run_bind_ok {A B} (m : GoM W E A) (k : A → GoM W E B) w a w' :
  m w = (Ok a, w') → (m ≫= k) w = k a w'.
Proof. intros H. by rewrite run_bind, H. Qed.

Lemma run_bind_err {A B} (m : GoM W E A) (k : A → GoM W E B) w e w' :
  m w = (Err e, w') → (m ≫= k) w = (Err e, w').
Proof. intros H. by rewrite run_bind, H. Qed.

Lemma run_bind_inv {A B} (m : GoM W E A) (k : A → GoM W E B) w b w' :
  (m ≫= k) w = (Ok b, w') →
  ∃ a w1, m w = (Ok a, w1) ∧ k a w1 = (Ok b, w').
Proof. rewrite run_bind. destruct (m w) as [[a|e] w1]; naive_solver. Qed.

(** *** World invariants

    [preserves P m]: [m] takes a world satisfying [P] to one satisfying
    [P], whether or not it fails. *)
Definition preserves {A} (P : W → Prop) (m : GoM W E A) : Prop :=
  ∀ w, P w → P (m w).2.

Lemma preserves_ret {A} P (a : A) : preserves P (mret a : GoM W E A).
Proof. intros w Hw. exact Hw. Qed.
Lemma preserves_throw {A} P e : preserves P (throw e : GoM W E A).
Proof. intros w Hw. exact Hw. Qed.
Lemma preserves_gets {A} P (f : W → A) : preserves P (gets f).
Proof. intros w Hw. exact Hw. Qed.
Lemma preserves_modify P f : (∀ w, P w → P (f w)) → preserves P (modify f).
Proof. intros Hf w Hw. by apply Hf. Qed.
Lemma preserves_bind {A B} P (m : GoM W E A) (k : A → GoM W E B) :
  preserves P m → (∀ a, preserves P (k a)) → preserves P (m ≫= k).
Proof.
  intros Hm Hk w Hw. rewrite run_bind. specialize (Hm w Hw).
  destruct (m w) as [[a|e] w']; [by apply Hk | done].
Qed.
Lemma preserves_attempt {A} P (m : GoM W E A) :
  preserves P m → preserves P (attempt m).
Proof.
  intros Hm w Hw. unfold attempt. specialize (Hm w Hw).
  by destruct (m w).
Qed.
Lemma preserves_ignore {A} P (m : GoM W E A) :
  preserves P m → preserves P (ignore m).
Proof. intros Hm w Hw. exact (Hm w Hw). Qed.
Lemma preserves_when P b (m : GoM W E unit) :
  preserves P m → preserves P (when_ b m).
Proof. intros Hm. destruct b; [done | apply preserves_ret]. Qed.
Lemma preserves_for_each {A} P (f : A → GoM W E unit) l :
  (∀ x, preserves P (f x)) → preserves P (for_each f l).
Proof.
  intros Hf. induction l as [|x l IH]; simpl;
    [apply preserves_ret | by apply preserves_bind].
Qed.

(** *** Best-effort code

    [keeps P m]: [m] always succeeds and keeps [P]. *)
Definition keeps {A} (P : W → Prop) (m : GoM W E A) : Prop :=
  ∀ w, P w → ∃ a w', m w = (Ok a, w') ∧ P w'.

Lemma keeps_ret {A} P (a : A) : keeps P (mret a : GoM W E A).
Proof. intros w Hw. by exists a, w. Qed.
Lemma keeps_gets {A} P (f : W → A) : keeps P (gets f).
Proof. intros w Hw. by exists (f w), w. Qed.
Lemma keeps_modify P f : (∀ w, P w → P (f w)) → keeps P (modify f).
Proof. intros Hf w Hw. exists tt, (f w). auto. Qed.
Lemma keeps_attempt {A} P (m : GoM W E A) : preserves P m → keeps P (attempt m).
Proof.
  intros Hm w Hw. unfold attempt. specialize (Hm w Hw).
  destruct (m w) as [r w']. eauto.
Qed.
Lemma keeps_ignore {A} P (m : GoM W E A) : preserves P m → keeps P (ignore m).
Proof. intros Hm w Hw. exists tt, (m w).2. split; [done | by apply Hm]. Qed.
Lemma keeps_bind {A B} P (m : GoM W E A) (k : A → GoM W E B) :
  keeps P m → (∀ a, keeps P (k a)) → keeps P (m ≫= k).
Proof.
  intros Hm Hk w Hw. destruct (Hm w Hw) as (a & w' & Em & Hw').
  rewrite run_bind, Em. by apply Hk.
Qed.
Lemma keeps_when P b (m : GoM W E unit) : keeps P m → keeps P (when_ b m).
Proof. intros Hm. destruct b; [done | apply keeps_ret]. Qed.
Lemma keeps_for_each {A} P (f : A → GoM W E unit) l :
  (∀ x, keeps P (f x)) → keeps P (for_each f l).
Proof.
  intros Hf. induction l as [|x l IH]; simpl;
    [apply keeps_ret | by apply keeps_bind].
Qed.

(** *** Results

    [returns P m]: what [m] returns, when it returns, satisfies [P]. *)
Definition returns {A} (P : A → Prop) (m : GoM W E A) : Prop :=
  ∀ w a w', m w = (Ok a, w') → P a.

Lemma returns_ret {A} (P : A → Prop) a : P a → returns P (mret a : GoM W E A).
Proof. intros Ha w b w' [= <- _]. exact Ha. Qed.
Lemma returns_throw {A} (P : A → Prop) e : returns P (throw e : GoM W E A).
Proof. intros w b w' [=]. Qed.
Lemma returns_bind {A B} (Q : A → Prop) (P : B → Prop) (m : GoM W E A) (k : A → GoM W E B) :
  returns Q m → (∀ a, Q a → returns P (k a)) → returns P (m ≫= k).
Proof. intros Hm Hk w b w' (a & w1 & Ea & Eb)%run_bind_inv. exact (Hk a (Hm w a w1 Ea) w1 b w' Eb). Qed.
(** A step whose value does not matter. *)
Lemma returns_after {A B} (P : B → Prop) (m : GoM W E A) (k : A → GoM W E B) :
  (∀ a, returns P (k a)) → returns P (m ≫= k).
Proof. intros Hk. apply (returns_bind (λ _, True)); [done|]. by intros a _. Qed.
Lemma returns_mono {A} (P Q : A → Prop) (m : GoM W E A) : (∀ a, P a → Q a) → returns P m → returns Q m.
Proof. intros H Hm w a w' E'. by eapply H, Hm. Qed.
End GoM.

Create HintDb gom.
#[export] Hint Resolve preserves_ret preserves_throw preserves_gets : gom.

(** Case analysis on every test a goal is stuck on. *)
Ltac split_ifs :=
  repeat (case_match || case_decide || case_bool_decide); simplify_eq/=.

(** Evaluate the string tests between constants. *)
Ltac eval_tests :=
  repeat match goal with
  | |- context [bool_decide (@eq string ?a ?b)] =>
      let v := eval vm_compute in (bool_decide (a = b)) in
      first [ constr_eq v true | constr_eq v false ];
      change (bool_decide (a = b)) with v
  end; cbv beta iota.

(** Decompose a [preserves] goal along the structure of the program; what is
    left over is looked up in [gom]. *)
Ltac preserves_step :=
  match goal with
  | |- preserves _ (mret _) => apply preserves_ret
  | |- preserves _ (throw _) => apply preserves_throw
  | |- preserves _ (gets _) => apply preserves_gets
  | |- preserves _ (attempt _) => apply preserves_attempt
  | |- preserves _ (ignore _) => apply preserves_ignore
  | |- preserves _ (when_ _ _) => apply preserves_when
  | |- preserves _ (for_each _ _) => apply preserves_for_each; intros ?
  | |- preserves _ (_ ≫= _) => apply preserves_bind; [|intros ?]
  | |- preserves _ (match ?x with _ => _ end) => destruct x
  | |- preserves _ _ => solve [auto with gom]
  end.
Ltac preserves_tac := repeat preserves_step.

(** The same for [keeps]. *)
Ltac keeps_step :=
  match goal with
  | |- keeps _ (mret _) => apply keeps_ret
  | |- keeps _ (gets _) => apply keeps_gets
  | |- keeps _ (attempt _) => apply keeps_attempt
  | |- keeps _ (ignore _) => apply keeps_ignore
  | |- keeps _ (when_ _ _) => apply keeps_when
  | |- keeps _ (for_each _ _) => apply keeps_for_each; intros ?
  | |- keeps _ (_ ≫= _) => apply keeps_bind; [|intros ?]
  | |- keeps _ (match ?x with _ => _ end) => destruct x
  | |- keeps _ _ => solve [auto with gom]
  end.
Ltac keeps_tac := repeat keeps_step.

(** ** Errors

    [fmt.Errorf(format, args...)] and, for a wrapped cause, [%w].  The format
    text identifies the failure; arguments are rendered as strings. *)
Inductive error :=
| Errorf (format : string) (args : list string)
| Wrapf (context : string) (cause : error).

#[global] Instance error_eq_dec : EqDecision error.
Proof. solve_decision. Defined.

(** ** Lists and maps *)
Lemma alter_as_insert {A} (f : A → A) (l : list A) i x :
  l !! i = Some x → alter f i l = <[i := f x]> l.
Proof. intros Hx. rewrite list_insert_alter. apply list_alter_ext; [|done]. naive_solver. Qed.

Lemma insert_is_Some {A} (m : gmap string A) i x j :
  is_Some (m !! j) → is_Some (<[i := x]> m !! j).
Proof. intros Hj. rewrite lookup_insert. case_decide; [by eexists | done]. Qed.
