(* ===== verification/GoStrings.v ===== *)
(** * The parts of Go's [strings], [strconv] and [path/filepath] the program uses

    A Go string is a byte sequence, as is a Rocq [string].  Letter case and
    white space are the ASCII ones: the program applies these functions to
    kernel tables, MAC addresses, flags and file names that are ASCII. *)
From stdpp Require Import pretty.
From S2P Require Import Prelude.

(** ** Characters *)
Definition code (c : ascii) : N := N_of_ascii c.
Definition in_range (lo hi c : ascii) : bool :=
  (code lo <=? code c)%N && (code c <=? code hi)%N.
Definition is_upper (c : ascii) : bool := in_range "A" "Z" c.
Definition is_lower (c : ascii) : bool := in_range "a" "z" c.
Definition is_digit (c : ascii) : bool := in_range "0" "9" c.
Definition is_space (c : ascii) : bool := Ascii.is_space c.
Definition lower_char (c : ascii) : ascii :=
  if is_upper c then ascii_of_N (code c + 32) else c.

(** ** strings *)
Fixpoint smap (f : ascii → ascii) (s : string) : string :=
  match s with "" => "" | String c s => String (f c) (smap f s) end.

Fixpoint sfilter (f : ascii → bool) (s : string) : string :=
  match s with
  | "" => ""
  | String c s => if f c then String c (sfilter f s) else sfilter f s
  end.

Fixpoint sforall (f : ascii → bool) (s : string) : bool :=
  match s with "" => true | String c s => f c && sforall f s end.

(** [strings.ToLower] *)
Definition ToLower (s : string) : string := smap lower_char s.

(** [strings.HasPrefix] *)
Fixpoint HasPrefix (s p : string) {struct p} : bool :=
  match p, s with
  | "", _ => true
  | String a p, String b s => bool_decide (a = b) && HasPrefix s p
  | String _ _, "" => false
  end.

(** [strings.Contains] *)
Fixpoint Contains (s sub : string) : bool :=
  HasPrefix s sub || match s with "" => false | String _ s => Contains s sub end.

(** [strings.HasSuffix] *)
Fixpoint HasSuffix (s suf : string) : bool :=
  bool_decide (s = suf) || match s with "" => false | String _ s => HasSuffix s suf end.

(** [strings.TrimSuffix] *)
Definition TrimSuffix (s suf : string) : string :=
  if HasSuffix s suf then String.substring 0 (String.length s - String.length suf) s else s.

(** [strings.TrimLeft] with the cutset given as a test. *)
Fixpoint trim_left (f : ascii → bool) (s : string) : string :=
  match s with
  | "" => ""
  | String c s' => if f c then trim_left f s' else s
  end.

(** [strings.TrimRight] *)
Fixpoint trim_right (f : ascii → bool) (s : string) : string :=
  match s with
  | "" => ""
  | String c s' =>
      match trim_right f s' with
      | "" => if f c then "" else String c ""
      | t => String c t
      end
  end.

Definition Trim (f : ascii → bool) (s : string) : string := trim_right f (trim_left f s).
Definition TrimSpace (s : string) : string := Trim is_space s.

(** [strings.Split] on a one-byte separator: always at least one piece. *)
Fixpoint Split (sep : ascii) (s : string) : list string :=
  match s with
  | "" => [""]
  | String c s' =>
      if bool_decide (c = sep) then "" :: Split sep s'
      else match Split sep s' with
           | [] => [String c ""]
           | w :: ws => String c w :: ws
           end
  end.

(** [strings.Fields]: maximal runs of non-space bytes. *)
Definition Fields (s : string) : list string := String.words s.

(** [strings.Join] *)
Fixpoint Join (sep : string) (l : list string) : string :=
  match l with
  | [] => ""
  | [x] => x
  | x :: l' => x +:+ sep +:+ Join sep l'
  end.

(** [strings.Cut]: the text around the first [sep]. *)
Fixpoint Cut (sep : ascii) (s : string) : string * string * bool :=
  match s with
  | "" => ("", "", false)
  | String c s' =>
      if bool_decide (c = sep) then ("", s', true)
      else let '(a, b, ok) := Cut sep s' in (String c a, b, ok)
  end.

(** [strings.LastIndex(s, c)] for one byte: the text around its last place. *)
Fixpoint cut_last (c : ascii) (s : string) : option (string * string) :=
  match s with
  | "" => None
  | String d s' =>
      match cut_last c s' with
      | Some (a, b) => Some (String d a, b)
      | None => if bool_decide (d = c) then Some ("", s') else None
      end
  end.
(** The last byte of a string and what precedes it. *)
Fixpoint unsnoc (s : string) : option (string * ascii) :=
  match s with
  | "" => None
  | String c s' => match unsnoc s' with
                   | None => Some ("", c)
                   | Some (p, l) => Some (String c p, l)
                   end
  end.

(** Drop [n] leading bytes: [s[n:]] *)
Fixpoint sdrop (n : nat) (s : string) : string :=
  match n, s with
  | S n, String _ s => sdrop n s
  | _, _ => s
  end.

(** The suffix of [s] starting at the last occurrence of [sub], or [s] when
    there is none: [if i := strings.LastIndex(s, sub); i >= 0 { s = s[i:] }] *)
Fixpoint last_from (s sub : string) : option string :=
  match s with
  | "" => if HasPrefix "" sub then Some "" else None
  | String c s' =>
      match last_from s' sub with
      | Some t => Some t
      | None => if HasPrefix s sub then Some s else None
      end
  end.

(** ** strconv *)
Definition dquote : ascii := "034".
(** [hex.EncodeToString] *)
Definition hex_digit (n : N) : ascii := default "0"%char (String.get (N.to_nat n) "0123456789abcdef").
Definition hex_string (bs : list N) : string :=
  foldr (λ b s, String (hex_digit (N.div b 16)) (String (hex_digit (N.modulo b 16)) s)) "" bs.

(** [%q]: a Go string literal.  Bytes above ASCII are taken to belong to
    printable characters, which are written as they are. *)
Definition quote_char (c : ascii) : string :=
  if bool_decide (c = dquote) then String "\" (String dquote "")
  else if bool_decide (c = "\"%char) then "\\"
  else if bool_decide (c = "007"%char) then "\a" else if bool_decide (c = "008"%char) then "\b"
  else if bool_decide (c = "012"%char) then "\f" else if bool_decide (c = "010"%char) then "\n"
  else if bool_decide (c = "013"%char) then "\r" else if bool_decide (c = "009"%char) then "\t"
  else if bool_decide (c = "011"%char) then "\v"
  else if (code c <? 32)%N || (code c =? 127)%N then "\x" +:+ hex_string [code c]
  else String c "".
Definition concat_map (f : ascii → string) (s : string) : string :=
  foldr (λ c acc, f c +:+ acc) "" (String.list_ascii_of_string s).
Definition dq (s : string) : string := String dquote (s +:+ String dquote "").
Definition Quote (s : string) : string := dq (concat_map quote_char s).

Definition Itoa (z : Z) : string := pretty z.

Definition digit_val (c : ascii) : Z := (Z.of_N (code c) - 48)%Z.

Fixpoint digits_val (acc : Z) (s : string) : option Z :=
  match s with
  | "" => Some acc
  | String c s => if is_digit c then digits_val (acc * 10 + digit_val c) s else None
  end.

(** Unsigned decimal text, at least one digit. *)
Definition parse_digits (s : string) : option Z :=
  match s with "" => None | _ => digits_val 0 s end.

Definition max_int : Z := (2 ^ 63 - 1)%Z.
Definition min_int : Z := (- 2 ^ 63)%Z.

(** [strconv.Atoi]: optional sign, decimal digits, a 64-bit result. *)
Definition Atoi (s : string) : option Z :=
  match s with
  | String "-" t => z ← parse_digits t; if (- z <? min_int)%Z then None else Some (- z)%Z
  | String "+" t => z ← parse_digits t; if (max_int <? z)%Z then None else Some z
  | _ => z ← parse_digits s; if (max_int <? z)%Z then None else Some z
  end.

(** [strconv.ParseUint(s, 10, 64)] *)
Definition ParseUint64 (s : string) : option Z :=
  n ← parse_digits s; if (n <? 2 ^ 64)%Z then Some n else None.
Definition wrapu64 (z : Z) : Z := (z mod 2 ^ 64)%Z.

(** ** path/filepath, with "/" as separator *)
Definition IsAbs (p : string) : bool := HasPrefix p "/".

(** One component of a path being cleaned; [out] holds the components kept so
    far, last first. *)
Definition clean_step (rooted : bool) (out : list string) (w : string) : list string :=
  if bool_decide (w = "") || bool_decide (w = ".") then out
  else if bool_decide (w = "..") then
    match out with
    | x :: out' => if bool_decide (x = "..") then ".." :: out else out'
    | [] => if rooted then [] else [".."]
    end
  else w :: out.

Definition Clean (p : string) : string :=
  let body := Join "/" (rev (foldl (clean_step (IsAbs p)) [] (Split "/" p))) in
  if IsAbs p then "/" +:+ body else if bool_decide (body = "") then "." else body.

(** [filepath.Join]: leading empty elements are dropped, the rest joined and
    cleaned; all empty gives the empty string. *)
Fixpoint PathJoin (l : list string) : string :=
  match l with
  | [] => ""
  | "" :: l' => PathJoin l'
  | _ => Clean (Join "/" l)
  end.

(** [filepath.Base]: the last element, trailing slashes removed. *)
Definition Base (p : string) : string :=
  if bool_decide (p = "") then "." else
  let t := trim_right (λ c, bool_decide (c = "/"%char)) p in
  match rev (Split "/" t) with
  | "" :: _ => "/"
  | w :: _ => w
  | [] => "/"
  end.

(** ** Lemmas *)
Lemma append_nil_l s : "" +:+ s = s.
Proof. reflexivity. Qed.
Lemma append_cons c s t : String c s +:+ t = String c (s +:+ t).
Proof. reflexivity. Qed.

Lemma append_assoc (a b c : string) : (a +:+ b) +:+ c = a +:+ b +:+ c.
Proof. induction a as [|x a IH]; [done|]. by rewrite !append_cons, IH. Qed.

Lemma append_nil (a : string) : a +:+ "" = a.
Proof. induction a as [|x a IH]; [done|]. by rewrite append_cons, IH. Qed.

Lemma append_inj (p s t : string) : p +:+ s = p +:+ t → s = t.
Proof. induction p as [|c p IH]; [done|]. rewrite !append_cons. intros [= E]. by apply IH. Qed.

Lemma HasSuffix_app s suf : HasSuffix (s +:+ suf) suf = true.
Proof.
  induction s as [|c s IH]; cbn.
  - change ("" +:+ suf) with suf. destruct suf; [done|]. simpl.
    by rewrite bool_decide_eq_true_2.
  - change (String.append (String c s) suf) with (String c (s +:+ suf)). cbn.
    rewrite IH. apply orb_true_r.
Qed.

Lemma HasPrefix_spec s p : HasPrefix s p = true ↔ ∃ t, s = p +:+ t.
Proof.
  revert s. induction p as [|a p IH]; intros s; cbn.
  - split; [intros _; by exists s | done].
  - destruct s as [|b s]; [split; [done | by intros []]|].
    rewrite andb_true_iff, bool_decide_eq_true, IH. split.
    + intros [-> [t ->]]. by exists t.
    + intros [t Ht]. change (String a p +:+ t) with (String a (p +:+ t)) in Ht.
      simplify_eq. split; [done | by exists t].
Qed.

Lemma Contains_spec s sub : Contains s sub = true ↔ ∃ a b, s = a +:+ sub +:+ b.
Proof.
  induction s as [|c s IH]; simpl; rewrite orb_true_iff, HasPrefix_spec.
  - split.
    + intros [[t Ht]|]; [|done]. by exists "", t.
    + intros (a & b & H). left. destruct a; [by exists b | done].
  - rewrite IH. split.
    + intros [[t Ht]|(a & b & ->)]; [by exists "", t | by exists (String c a), b].
    + intros ([|c' a] & b & H); [left; by exists b | right].
      change (String c' a +:+ sub +:+ b) with (String c' (a +:+ sub +:+ b)) in H.
      simplify_eq. by exists a, b.
Qed.

Lemma length_append s t : String.length (s +:+ t) = String.length s + String.length t.
Proof.
  induction s as [|c s IH]; [done|].
  change (String c s +:+ t) with (String c (s +:+ t)). cbn. by rewrite IH.
Qed.

(** *** Decimal numerals *)
Lemma pretty_char_digit x : (x < 10)%N →
  is_digit (pretty_N_char x) = true ∧ digit_val (pretty_N_char x) = Z.of_N x.
Proof.
  intros Hx.
  assert (x ∈ [0; 1; 2; 3; 4; 5; 6; 7; 8; 9])%N as Hin.
  { rewrite !elem_of_cons. lia. }
  rewrite !elem_of_cons, elem_of_nil in Hin.
  by repeat destruct Hin as [->|Hin].
Qed.

Lemma pretty_go_digits x s : sforall is_digit (pretty_N_go x s) = sforall is_digit s.
Proof.
  revert s. induction (N.lt_wf_0 x) as [x _ IH]. intros s.
  destruct (decide (x = 0)%N) as [->|Hx]; [done|].
  rewrite pretty_N_go_step by lia. rewrite IH by (apply N.div_lt; lia). cbn.
  destruct (pretty_char_digit (x mod 10)) as [-> _]; [apply N.mod_lt; done|done].
Qed.

Lemma pretty_go_val x s : digits_val 0 (pretty_N_go x s) = digits_val (Z.of_N x) s.
Proof.
  revert s. induction (N.lt_wf_0 x) as [x _ IH]. intros s.
  destruct (decide (x = 0)%N) as [->|Hx]; [done|].
  rewrite pretty_N_go_step by lia. rewrite IH by (apply N.div_lt; lia). cbn.
  destruct (pretty_char_digit (x mod 10)) as [-> ->]; [apply N.mod_lt; done|].
  f_equal. pose proof (N.div_mod x 10). lia.
Qed.

Lemma Itoa_pos z : (0 < z)%Z → Itoa z = pretty_N_go (Z.to_N z) "".
Proof.
  intros Hz. unfold Itoa. destruct z as [|p|p]; [lia| |lia]. cbn.
  unfold pretty, pretty_positive, pretty, pretty_N. by destruct (decide _).
Qed.

Lemma Itoa_digits z : (0 < z)%Z → sforall is_digit (Itoa z) = true.
Proof. intros Hz. by rewrite Itoa_pos, pretty_go_digits. Qed.

Lemma Itoa_nonempty z : (0 < z)%Z → Itoa z ≠ "".
Proof.
  intros Hz E. pose proof (pretty_go_val (Z.to_N z) "") as Hv. rewrite Itoa_pos in E by done.
  rewrite E in Hv. cbn in Hv. injection Hv. lia.
Qed.

Lemma digit_not_sign c s : is_digit c = true → Atoi (String c s) =
  (z ← parse_digits (String c s); if (max_int <? z)%Z then None else Some z).
Proof.
  intros Hc. destruct c as [[] [] [] [] [] [] [] []]; (try done); exfalso; vm_compute in Hc; done.
Qed.

Lemma parse_digits_Itoa z : (0 < z)%Z → parse_digits (Itoa z) = Some z.
Proof.
  intros Hz. pose proof (Itoa_nonempty z Hz) as Hn.
  unfold parse_digits. destruct (Itoa z) as [|c s] eqn:E; [done|]. rewrite <-E, Itoa_pos by done.
  rewrite pretty_go_val. cbn. f_equal. lia.
Qed.

Lemma Atoi_Itoa z : (0 < z <= max_int)%Z → Atoi (Itoa z) = Some z.
Proof.
  intros [Hz Hm]. pose proof (Itoa_digits z Hz) as Hd. pose proof (Itoa_nonempty z Hz) as Hn.
  pose proof (parse_digits_Itoa z Hz) as Hp.
  destruct (Itoa z) as [|c s]; [done|]. cbn in Hd. apply andb_true_iff in Hd as [Hc _].
  rewrite digit_not_sign, Hp by done. cbn. destruct (Z.ltb_spec max_int z); [lia|done].
Qed.

(** White space is trimmed only where there is some. *)
Lemma trim_left_id f c s : f c = false → trim_left f (String c s) = String c s.
Proof. cbn. by intros ->. Qed.

Lemma trim_right_id f s : sforall (λ c, negb (f c)) s = true → trim_right f s = s.
Proof.
  induction s as [|c s IH]; [done|]. cbn. intros [Hc Hs]%andb_true_iff. rewrite IH by done.
  apply negb_true_iff in Hc. rewrite Hc. by destruct s.
Qed.

Lemma TrimSpace_id s : sforall (λ c, negb (is_space c)) s = true → TrimSpace s = s.
Proof.
  intros Hs. unfold TrimSpace, Trim. destruct s as [|c s]; [done|].
  rewrite trim_left_id; [by apply trim_right_id|]. cbn in Hs.
  apply andb_true_iff in Hs as [Hc _]. by apply negb_true_iff.
Qed.

Lemma sforall_app f s t : sforall f (s +:+ t) = sforall f s && sforall f t.
Proof.
  induction s as [|c s IH]; [done|]. change (String c s +:+ t) with (String c (s +:+ t)).
  cbn. by rewrite IH, andb_assoc.
Qed.

Lemma sforall_impl (f g : ascii → bool) s :
  (∀ c, f c = true → g c = true) → sforall f s = true → sforall g s = true.
Proof.
  intros Hfg. induction s as [|c s IH]; [done|]. cbn. rewrite !andb_true_iff. naive_solver.
Qed.

(** Trimming only shortens. *)
Lemma sforall_trim_left f g s : sforall g s = true → sforall g (trim_left f s) = true.
Proof. induction s as [|c s IH]; [done|]. cbn. intros [Hc Hs]%andb_true_iff. destruct (f c); [by apply IH|]. cbn. by rewrite Hc. Qed.

Lemma sforall_trim_right f g s : sforall g s = true → sforall g (trim_right f s) = true.
Proof.
  induction s as [|c s IH]; [done|]. cbn. intros [Hc Hs]%andb_true_iff. specialize (IH Hs).
  destruct (trim_right f s); cbn in *; [by destruct (f c); cbn; rewrite ?Hc|by rewrite Hc].
Qed.

Lemma sforall_concat_map g f s : sforall g s = true → (∀ c, g c = true → sforall g (f c) = true) → sforall g (concat_map f s) = true.
Proof.
  intros Hs Hf. induction s as [|c s IH]; [done|]. cbn in Hs. apply andb_true_iff in Hs as [Hc Hs].
  change (concat_map f (String c s)) with (f c +:+ concat_map f s). rewrite sforall_app, Hf by done. by apply IH.
Qed.

Lemma trim_right_app f s t : trim_right f t ≠ "" → trim_right f (s +:+ t) = s +:+ trim_right f t.
Proof.
  intros Ht. induction s as [|c s IH]; [done|]. rewrite !append_cons. cbn. rewrite IH.
  destruct (s +:+ trim_right f t) eqn:E; [|done]. destruct s; [by rewrite append_nil_l in E|]. by rewrite append_cons in E.
Qed.

(** ** Trimming leaves nothing to trim *)
(** No byte that [f] holds of at either end. *)
Definition head_ok (f : ascii → bool) (s : string) : bool :=
  match s with "" => true | String c _ => negb (f c) end.

Lemma trim_left_head f s : head_ok f (trim_left f s) = true.
Proof. induction s as [|c s IH]; [done|]. cbn. destruct (f c) eqn:E; [done|]. cbn. by rewrite E. Qed.

Lemma trim_right_head f s : head_ok f s = true → head_ok f (trim_right f s) = true.
Proof.
  destruct s as [|c s]; [done|]. cbn. intros Hc%negb_true_iff.
  destruct (trim_right f s); rewrite ?Hc; cbn; by rewrite Hc.
Qed.

Lemma trim_left_fixed f s : head_ok f s = true → trim_left f s = s.
Proof. destruct s as [|c s]; [done|]. cbn. by intros ->%negb_true_iff. Qed.

Lemma trim_right_idemp f s : trim_right f (trim_right f s) = trim_right f s.
Proof.
  induction s as [|c s IH]; [done|]. cbn. destruct (trim_right f s) as [|d t] eqn:E.
  - destruct (f c) eqn:Ec; [done|]. cbn. by rewrite Ec.
  - cbn [trim_right] in IH |- *. by rewrite IH.
Qed.

Lemma Trim_idemp f s : Trim f (Trim f s) = Trim f s.
Proof.
  unfold Trim. rewrite trim_left_fixed; [apply trim_right_idemp|]. apply trim_right_head, trim_left_head.
Qed.

(** ** Cutting off a suffix *)
Lemma substring_prefix s t : String.substring 0 (String.length s) (s +:+ t) = s.
Proof. induction s as [|c s IH]; [by destruct t|]. rewrite append_cons. cbn. by rewrite IH. Qed.
Lemma TrimSuffix_app s suf : TrimSuffix (s +:+ suf) suf = s.
Proof.
  unfold TrimSuffix. rewrite HasSuffix_app, length_append, Nat.add_sub. apply substring_prefix.
Qed.

(** ** The last byte *)
Lemma unsnoc_app s c : unsnoc (s +:+ String c "") = Some (s, c).
Proof.
  induction s as [|x s IH]; [done|].
  change (String x s +:+ String c "") with (String x (s +:+ String c "")). cbn. by rewrite IH.
Qed.

Lemma unsnoc_last f s p c : unsnoc s = Some (p, c) → sforall f s = true → f c = true.
Proof.
  revert p. induction s as [|x s IH]; [done|]. cbn. intros p. destruct (unsnoc s) as [[p' l]|] eqn:E.
  - intros [= <- <-] [_ Hs]%andb_true_iff. by eapply IH.
  - intros [= <- <-] [Hx _]%andb_true_iff. done.
Qed.

Lemma unsnoc_some s : s ≠ "" → ∃ p c, unsnoc s = Some (p, c).
Proof. destruct s as [|x s]; [done|]. intros _. cbn. destruct (unsnoc s) as [[? ?]|]; eauto. Qed.
