(* ===== verification/Boot.v ===== *)
(** * Boot phases

    [internal/boot/phasewatcher.go]: the phase of a starting VM, read off its
    serial console.  The log arrives in pieces; a poll of the watcher sees the
    time, whether its context is cancelled, and the bytes new since the last
    poll.  Regular expressions are matched by hand, each by the definition its
    table entry names. *)
From S2P Require Import Prelude GoStrings.

Open Scope Z_scope.

Module PhaseWatcher.

(** ** Phases *)
Inductive Phase :=
| PhaseUnknown | PhaseBIOSPost | PhaseBootloader | PhaseKernelBoot | PhaseInit
| PhaseCloudInit | PhaseInstall | PhaseReady | PhaseFailed.
#[global] Instance Phase_eq_dec : EqDecision Phase.
Proof. solve_decision. Defined.

(** The constants' text, as recorded in a VM's state. *)
Definition phase_string (p : Phase) : string :=
  match p with
  | PhaseUnknown => "" | PhaseBIOSPost => "BIOS POST" | PhaseBootloader => "Bootloader"
  | PhaseKernelBoot => "Kernel boot" | PhaseInit => "Init" | PhaseCloudInit => "Cloud-init"
  | PhaseInstall => "Installing" | PhaseReady => "Ready" | PhaseFailed => "Failed"
  end.

Definition rank (p : Phase) : Z :=
  match p with
  | PhaseBIOSPost => 1 | PhaseBootloader => 2 | PhaseKernelBoot => 3 | PhaseInit => 4
  | PhaseCloudInit => 5 | PhaseInstall => 6 | PhaseReady => 7
  | PhaseUnknown | PhaseFailed => 0
  end.

Record Event := mkEvent { ev_Phase : Phase; ev_Detail : string; ev_PanicLine : string; ev_At : Z }.

(** ** Patterns *)
Definition nl : ascii := "010"%char.
Definition re_space (c : ascii) : bool :=
  bool_decide (c = " "%char) || bool_decide (c = "009"%char) || bool_decide (c = nl)
  || bool_decide (c = "012"%char) || bool_decide (c = "013"%char).

(** The longest prefix on which [f] holds, and the rest. *)
Fixpoint span (f : ascii → bool) (s : string) : string * string :=
  match s with
  | "" => ("", "")
  | String c s' => if f c then let '(a, b) := span f s' in (String c a, b) else ("", s)
  end.

(** [p] at some position of [s]. *)
Fixpoint anywhere {A} (p : string → option A) (s : string) : option A :=
  match p s with
  | Some a => Some a
  | None => match s with "" => None | String _ s' => anywhere p s' end
  end.

Definition lit (l s : string) : option string :=
  if HasPrefix s l then Some (sdrop (String.length l) s) else None.

(** [\d+] *)
Definition digits1 (s : string) : option string :=
  match span is_digit s with ("", _) => None | (_, rest) => Some rest end.

(** [cloud-init.*finished], in which [.] is no newline *)
Definition m_finished (s : string) : option unit :=
  rest ← lit "cloud-init" s;
  let '(line, _) := span (λ c, negb (bool_decide (c = nl))) rest in
  if Contains line "finished" then Some tt else None.
(** [cloud-init\[\d+\]:] *)
Definition m_cloud_init (s : string) : option unit :=
  rest ← lit "cloud-init[" s; rest ← digits1 rest; _ ← lit "]:" rest; Some tt.
(** [^\[\s*0\.\d+\] ] *)
Definition m_kernel_time (s : string) : option unit :=
  rest ← lit "[" s; rest ← lit "0." (span re_space rest).2; rest ← digits1 rest; _ ← lit "] " rest; Some tt.
(** [==> vee-install: stage=(\S+)], with the group *)
Definition m_stage (s : string) : option string :=
  rest ← lit "==> vee-install: stage=" s;
  match span (λ c, negb (re_space c)) rest with ("", _) => None | (g, _) => Some g end.

Definition has (sub line : string) : option string := if Contains line sub then Some "" else None.
Definition somewhere (p : string → option unit) (line : string) : option string :=
  match anywhere p line with Some _ => Some "" | None => None end.
Definition at_start (p : string → option unit) (line : string) : option string :=
  match p line with Some _ => Some "" | None => None end.

(** A match yields its detail group, empty when the pattern has none. *)
Record pattern := mkPattern { p_re : string → option string; p_phase : Phase; p_fail : bool; p_detail : bool }.

Definition installStageLabels : list (string * string) :=
  [("clock-sync", "waiting for clock sync"); ("clock-sync-done", "clock synced");
   ("network-wait", "waiting for network"); ("network-ready", "network ready");
   ("partition", "partitioning disk"); ("reflector", "selecting mirrors");
   ("reflector-done", "mirrors selected"); ("reflector-failed", "mirrors: using fallback");
   ("pacstrap", "installing base system (this takes a while)"); ("pacstrap-done", "base system installed");
   ("fstab", "generating fstab"); ("locale", "configuring locale"); ("users", "creating users");
   ("services", "enabling services"); ("grub", "installing bootloader");
   ("cleanup", "finalising install"); ("done", "install complete")].

Definition patterns : list pattern :=
  [mkPattern (has "Kernel panic") PhaseFailed true false;
   mkPattern (has "end Kernel panic") PhaseFailed true false;
   mkPattern (has "Oops:") PhaseFailed true false;
   mkPattern (has "BUG:") PhaseFailed true false;
   mkPattern (has "No bootable device") PhaseFailed true false;
   mkPattern (has "==> vee-install: FAILED") PhaseFailed true false;
   mkPattern (anywhere m_stage) PhaseInstall false true;
   mkPattern (somewhere m_finished) PhaseReady false false;
   mkPattern (somewhere m_cloud_init) PhaseCloudInit false false;
   mkPattern (has "Cloud-init v.") PhaseCloudInit false false;
   mkPattern (has "Reached target") PhaseInit false false;
   mkPattern (has "systemd[1]:") PhaseInit false false;
   mkPattern (has "Welcome to ") PhaseInit false false;
   mkPattern (has "Linux version ") PhaseKernelBoot false false;
   mkPattern (at_start m_kernel_time) PhaseKernelBoot false false;
   mkPattern (has "Command line:") PhaseKernelBoot false false;
   mkPattern (has "GRUB version") PhaseBootloader false false;
   mkPattern (at_start (λ s, _ ← lit "Booting " s; Some tt)) PhaseBootloader false false;
   mkPattern (has "Loading initial ramdisk") PhaseBootloader false false;
   mkPattern (has "systemd-boot") PhaseBootloader false false;
   mkPattern (has "BdsDxe:") PhaseBIOSPost false false;
   mkPattern (has "UEFI Interactive Shell") PhaseBIOSPost false false;
   mkPattern (has "SeaBIOS") PhaseBIOSPost false false].

Definition stage_label (token : string) : string :=
  match find (λ kv : string * string, bool_decide (kv.1 = token)) installStageLabels with
  | Some (_, label) => label
  | None => token
  end.

(** Phase, failure, the line, detail. *)
Fixpoint classify_with (ps : list pattern) (line : string) : Phase * bool * string * string :=
  match ps with
  | [] => (PhaseUnknown, false, "", "")
  | p :: ps' =>
      match p_re p line with
      | Some g => (p_phase p, p_fail p, line, if p_detail p then stage_label g else "")
      | None => classify_with ps' line
      end
  end.
Definition classify : string → Phase * bool * string * string := classify_with patterns.

(** [Duration.String], of a duration in milliseconds *)
Definition frac_text (ms : Z) : string :=
  if ms =? 0 then ""
  else let d := Itoa ms in
       "." +:+ trim_right (λ c, bool_decide (c = "0"%char))
                          ((if ms <? 10 then "00" else if ms <? 100 then "0" else "") +:+ d).
Definition duration_string (ms : Z) : string :=
  if ms =? 0 then "0s"
  else if ms <? 1000 then Itoa ms +:+ "ms"
  else
    let secs := ms / 1000 in
    let mins := secs / 60 in
    (if 0 <? mins / 60 then Itoa (mins / 60) +:+ "h" else "")
    +:+ (if 0 <? mins then Itoa (mins mod 60) +:+ "m" else "")
    +:+ Itoa (secs mod 60) +:+ frac_text (ms mod 1000) +:+ "s".

(** ** The watcher *)
Record Watcher := mkWatcher { w_IdleTimeout : Z; w_PollInterval : Z }.
Definition NewWatcher : Watcher := mkWatcher 120000 200.

Record WState := mkWState { ws_last : Phase; ws_leftover : string; ws_lastLineAt : Z }.
#[global] Instance WState_eta : Settable WState := λ s, mkWState (ws_last s) (ws_leftover s) (ws_lastLineAt s).

(** What a call of [reader.ReadString] after another finds: the complete lines,
    each with its newline, and the partial line at the end of the file. *)
Fixpoint split_lines (s : string) : list string * string :=
  match s with
  | "" => ([], "")
  | String c s' =>
      let '(ls, rest) := split_lines s' in
      if bool_decide (c = nl) then (String c "" :: ls, rest)
      else match ls with
           | [] => ([], String c rest)
           | l :: ls' => (String c l :: ls', rest)
           end
  end.

(** One complete line: the events, and the state to go on with unless the
    watcher returns. *)
Definition on_line (now : Z) (s : WState) (line : string) : list Event * option WState :=
  let full := ws_leftover s +:+ line in
  let s := s <| ws_leftover := "" |> <| ws_lastLineAt := now |> in
  let '(phase, fail, panicLine, detail) := classify full in
  if bool_decide (phase = PhaseUnknown) then ([], Some s)
  else if (fail : bool) then ([mkEvent PhaseFailed "" panicLine now], None)
  else if bool_decide (phase = PhaseInstall) then ([mkEvent phase detail "" now], Some (s <| ws_last := phase |>))
  else if rank phase <=? rank (ws_last s) then ([], Some s)
  else ([mkEvent phase detail "" now],
        if bool_decide (phase = PhaseReady) then None else Some (s <| ws_last := phase |>)).

Fixpoint on_lines (now : Z) (s : WState) (lines : list string) : list Event * option WState :=
  match lines with
  | [] => ([], Some s)
  | l :: ls =>
      match on_line now s l with
      | (evs, None) => (evs, None)
      | (evs, Some s') => let '(evs', r) := on_lines now s' ls in (evs ++ evs', r)
      end
  end.

(** The inner loop, on the bytes that are new. *)
Definition read_available (now : Z) (s : WState) (data : string) : list Event * option WState :=
  let '(lines, partial) := split_lines data in
  match on_lines now s lines with
  | (evs, None) => (evs, None)
  | (evs, Some s') => (evs, Some (s' <| ws_leftover := ws_leftover s' +:+ partial |>))
  end.

Record Poll := mkPoll { pl_now : Z; pl_cancelled : bool; pl_data : string; pl_err : option error }.

Inductive outcome :=
| Returned                (* nil *)
| Failed (e : error)      (* a read error or the context's *)
| Waiting (s : WState).   (* asleep until the next poll *)

Definition idle_over (w : Watcher) (now : Z) (s : WState) : bool :=
  (0 <? w_IdleTimeout w) && (w_IdleTimeout w <? now - ws_lastLineAt s)
  && negb (bool_decide (ws_last s = PhaseReady)) && negb (bool_decide (ws_last s = PhaseFailed)).

Definition idle_event (w : Watcher) (now : Z) : Event :=
  mkEvent PhaseFailed "" ("boot timeout: no serial activity for " +:+ duration_string (w_IdleTimeout w)) now.

Fixpoint Run (w : Watcher) (s : WState) (polls : list Poll) : list Event * outcome :=
  match polls with
  | [] => ([], Waiting s)
  | p :: ps =>
      if pl_cancelled p then ([], Failed (Errorf "context canceled" [])) else
      match read_available (pl_now p) s (pl_data p) with
      | (evs, None) => (evs, Returned)
      | (evs, Some s') =>
          match pl_err p with
          | Some e => (evs, Failed e)
          | None =>
              if idle_over w (pl_now p) s'
              then (evs ++ [idle_event w (pl_now p)], Returned)
              else let '(evs', r) := Run w s' ps in (evs ++ evs', r)
          end
      end
  end.

(** The state [Run] starts in. *)
Definition run_start (now : Z) : WState := mkWState PhaseUnknown "" now.

(** ** What the watcher promises of the log as a whole

    The log is one text; its lines are classified in order, and what is
    reported of each depends on the phase before it.  Time plays no part. *)
Definition report : Type := Phase * string * string.
Definition report_of (e : Event) : report := (ev_Phase e, ev_Detail e, ev_PanicLine e).

Definition line_reports (last : Phase) (line : string) : list report * option Phase :=
  let '(phase, fail, panicLine, detail) := classify line in
  if bool_decide (phase = PhaseUnknown) then ([], Some last)
  else if (fail : bool) then ([(PhaseFailed, "", panicLine)], None)
  else if bool_decide (phase = PhaseInstall) then ([(phase, detail, "")], Some phase)
  else if rank phase <=? rank last then ([], Some last)
  else ([(phase, detail, "")], if bool_decide (phase = PhaseReady) then None else Some phase).

Fixpoint log_reports (last : Phase) (lines : list string) : list report * option Phase :=
  match lines with
  | [] => ([], Some last)
  | l :: ls =>
      match line_reports last l with
      | (rs, None) => (rs, None)
      | (rs, Some last') => let '(rs', r) := log_reports last' ls in (rs ++ rs', r)
      end
  end.

(** The reports of a text, after which [None]: the watcher has returned, or
    [Some]: the phase it is in and the unfinished line. *)
Definition text_reports (last : Phase) (text : string) : list report * option (Phase * string) :=
  let '(lines, partial) := split_lines text in
  let '(rs, r) := log_reports last lines in
  (rs, match r with Some last' => Some (last', partial) | None => None end).

(** ** Lines *)
(** The last line of the first piece is completed by the second. *)
Definition join_lines (a b : list string * string) : list string * string :=
  match b.1 with
  | [] => (a.1, a.2 +:+ b.2)
  | l :: ls => (a.1 ++ (a.2 +:+ l) :: ls, b.2)
  end.

Lemma split_lines_app a b : split_lines (a +:+ b) = join_lines (split_lines a) (split_lines b).
Proof.
  induction a as [|c a IH].
  - unfold join_lines. change ("" +:+ b) with b. by destruct (split_lines b) as [[|l ls] r].
  - rewrite append_cons. cbn. rewrite IH. unfold join_lines.
    destruct (split_lines a) as [[|la lsa] ra], (split_lines b) as [[|lb lsb] rb]; cbn;
      by case_bool_decide.
Qed.

Lemma log_reports_app last l1 l2 :
  log_reports last (l1 ++ l2) =
  match log_reports last l1 with
  | (rs, None) => (rs, None)
  | (rs, Some last') => let '(rs', r) := log_reports last' l2 in (rs ++ rs', r)
  end.
Proof.
  revert last. induction l1 as [|l l1 IH]; intros last; cbn.
  - by destruct (log_reports last l2).
  - destruct (line_reports last l) as [rs [last'|]]; [|done]. rewrite IH.
    destruct (log_reports last' l1) as [rs1 [last1|]]; [|done].
    destruct (log_reports last1 l2) as [rs2 r2]. by rewrite (assoc (++)).
Qed.

(** Reading on after a text is reading the two texts together. *)
Lemma text_reports_app last a b :
  text_reports last (a +:+ b) =
  match text_reports last a with
  | (rs, None) => (rs, None)
  | (rs, Some (last', partial)) => let '(rs', r) := text_reports last' (partial +:+ b) in (rs ++ rs', r)
  end.
Proof.
  unfold text_reports. rewrite split_lines_app.
  destruct (split_lines a) as [la ra] eqn:Ea.
  assert (split_lines ra = ([], ra)) as Era.
  { revert la ra Ea. induction a as [|c a IH]; cbn; intros la ra Ea; simplify_eq/=; [done|].
    destruct (split_lines a) as [l r] eqn:E. specialize (IH l r eq_refl).
    case_bool_decide; simplify_eq/=; [done|]. destruct l; simplify_eq/=; [|done].
    rewrite IH. by rewrite bool_decide_false. }
  destruct (log_reports last la) as [rs [last'|]] eqn:El; cycle 1.
  - unfold join_lines. destruct (split_lines b) as [[|lb lsb] rb]; cbn; [by rewrite El|].
    by rewrite log_reports_app, El.
  - rewrite split_lines_app, Era. unfold join_lines.
    destruct (split_lines b) as [[|lb lsb] rb]; cbn -[log_reports].
    + rewrite El. cbn. by rewrite (right_id_L [] (++)).
    + rewrite log_reports_app, El. by destruct (log_reports last' (_ :: _)) as [? [?|]].
Qed.

(** ** One read *)
Definition view (s : WState) : Phase * string := (ws_last s, ws_leftover s).
(** The buffered partial line holds no newline. *)
Definition partial_ok (s : WState) : Prop := split_lines (ws_leftover s) = ([], ws_leftover s).

Lemma split_lines_partial text : split_lines (split_lines text).2 = ([], (split_lines text).2).
Proof.
  induction text as [|c a IH]; [done|]. cbn. destruct (split_lines a) as [l r]; cbn in IH |- *.
  case_bool_decide; [done|]. destruct l; cbn; [|done]. rewrite IH. by rewrite bool_decide_false.
Qed.

Lemma on_line_reports now s line evs r : on_line now s line = (evs, r) →
  line_reports (ws_last s) (ws_leftover s +:+ line) = (report_of <$> evs, ws_last <$> r) ∧
  (∀ s', r = Some s' → ws_leftover s' = "" ∧ ws_lastLineAt s' = now).
Proof.
  unfold on_line, line_reports. destruct (classify _) as [[[phase fail] pl] detail].
  intros E. cbn in E. split_ifs; naive_solver.
Qed.

Lemma on_lines_reports now s lines evs r :
  ws_leftover s = "" → on_lines now s lines = (evs, r) →
  log_reports (ws_last s) lines = (report_of <$> evs, ws_last <$> r) ∧
  (∀ s', r = Some s' → ws_leftover s' = "" ∧ ws_lastLineAt s' = if lines is [] then ws_lastLineAt s else now).
Proof.
  revert s evs r. induction lines as [|l ls IH]; intros s evs r Hs E; cbn in E |- *.
  - simplify_eq/=. naive_solver.
  - destruct (on_line now s l) as [e1 r1] eqn:E1. apply on_line_reports in E1 as [E1 H1].
    rewrite Hs in E1. change ("" +:+ l) with l in E1. rewrite E1.
    destruct r1 as [s1|]; cbn; [|naive_solver].
    destruct (on_lines now s1 ls) as [e2 r2] eqn:E2. destruct (H1 s1 eq_refl) as [Hs1 Ht1].
    apply IH in E2 as [E2 H2]; [|done]. rewrite E2. simplify_eq/=. rewrite fmap_app.
    split; [done|]. intros s' ->. destruct (H2 s' eq_refl) as [-> ->]. split; [done|]. by destruct ls.
Qed.

(** The new bytes finish the buffered line and go on from there. *)
Lemma read_available_reports now s data evs r : partial_ok s → read_available now s data = (evs, r) →
  text_reports (ws_last s) (ws_leftover s +:+ data) = (report_of <$> evs, view <$> r) ∧
  (∀ s', r = Some s' → partial_ok s').
Proof.
  unfold partial_ok, read_available, text_reports. intros Hp E. rewrite split_lines_app, Hp.
  pose proof (split_lines_partial data) as Hd.
  destruct (split_lines data) as [lines partial]; cbn in Hd. unfold join_lines. cbn.
  destruct lines as [|l ls].
  - cbn in *. simplify_eq/=. split; [done|]. intros ? [= <-]. cbn. by rewrite split_lines_app, Hp, Hd.
  - cbn in E |- *. destruct (on_line now s l) as [e1 r1] eqn:E1. apply on_line_reports in E1 as [-> H1].
    destruct r1 as [s1|]; cbn; [|naive_solver]. destruct (H1 s1 eq_refl) as [Hs1 _].
    destruct (on_lines now s1 ls) as [e2 r2] eqn:E2. apply on_lines_reports in E2 as [-> H2]; [|done].
    destruct r2 as [s2|]; simplify_eq/=; rewrite fmap_app; [|naive_solver].
    destruct (H2 s2 eq_refl) as [Hl _]. destruct s2. cbn in *. subst. naive_solver.
Qed.

(** ** Order *)
Definition terminal (p : Phase) : bool := bool_decide (p = PhaseReady) || bool_decide (p = PhaseFailed).

(** A terminal phase ends the reports; any other is above the one before, but
    for a repeated install stage. *)
Fixpoint advancing (last : Phase) (phases : list Phase) : Prop :=
  match phases with
  | [] => True
  | p :: ps =>
      if terminal p then ps = [] ∧ (p = PhaseReady → rank last < rank PhaseReady)
      else (rank last < rank p ∨ p = PhaseInstall) ∧ rank last <= rank p ∧ advancing p ps
  end.

(** The phase a watcher that has not returned is in. *)
Definition underway (p : Phase) : Prop := terminal p = false.

Lemma underway_rank p : underway p → 0 <= rank p <= 6.
Proof. by destruct p. Qed.

(** The phase a list of reports leaves the watcher in. *)
Definition phase_after (last : Phase) (phases : list Phase) : Phase := List.last phases last.

Lemma phase_after_cons p q ps : phase_after p (q :: ps) = phase_after q ps.
Proof.
  revert p q. induction ps as [|q' ps IH]; intros p q; [done|].
  change (phase_after p (q' :: ps) = phase_after q (q' :: ps)). by rewrite !IH.
Qed.

Lemma phase_after_app last ps qs : phase_after last (ps ++ qs) = phase_after (phase_after last ps) qs.
Proof.
  revert last. induction ps as [|p ps IH]; intros last; [done|].
  by rewrite <-app_comm_cons, !phase_after_cons, IH.
Qed.

Lemma advancing_app last ps qs :
  advancing last ps → Forall underway ps → advancing (phase_after last ps) qs → advancing last (ps ++ qs).
Proof.
  revert last. induction ps as [|p ps IH]; intros last Hp Hu Hq; [done|].
  apply Forall_cons in Hu as [Hu Hus]. rewrite phase_after_cons in Hq. cbn in Hp |- *.
  rewrite Hu in Hp |- *. naive_solver.
Qed.

Lemma classify_fail line : ∀ phase fail pl detail, classify line = (phase, fail, pl, detail) →
  (fail = true ↔ phase = PhaseFailed) ∧ (detail ≠ "" → phase = PhaseInstall).
Proof.
  intros phase fail pl detail. unfold classify, patterns.
  repeat (cbn [classify_with p_re p_phase p_fail p_detail]; case_match; [naive_solver|]).
  cbn. naive_solver.
Qed.

Lemma line_reports_advancing last line rs r : underway last → line_reports last line = (rs, r) →
  advancing last rs.*1.*1 ∧
  match r with
  | Some last' => Forall underway rs.*1.*1 ∧ last' = phase_after last rs.*1.*1 ∧ underway last'
  | None => terminal (phase_after last rs.*1.*1) = true
  end.
Proof.
  intros Hu E. pose proof (underway_rank last Hu). unfold line_reports in E.
  destruct (classify line) as [[[phase fail] pl] detail] eqn:Ec. apply classify_fail in Ec as [Hf _].
  unfold underway in *. repeat case_bool_decide; simplify_eq/=; [done|..].
  - destruct fail; simplify_eq/=; [naive_solver|]. split; [|by repeat constructor].
    split; [|by split; [lia|]]. by right.
  - destruct fail; simplify_eq/=; [naive_solver|]. destruct (Z.leb_spec 7 (rank last)); simplify_eq/=; [lia|].
    split; [|done]. by split; [|lia].
  - destruct fail; simplify_eq/=; [naive_solver|]. assert (terminal phase = false) as Ht.
    { unfold terminal. rewrite !bool_decide_false; naive_solver. }
    destruct (Z.leb_spec (rank phase) (rank last)); simplify_eq/=; [done|]. rewrite Ht.
    split; [split; [by left|split; [lia|done]]|]. split; [by constructor|done].
Qed.

Lemma log_reports_advancing lines : ∀ last rs r, underway last → log_reports last lines = (rs, r) →
  advancing last rs.*1.*1 ∧
  match r with
  | Some last' => Forall underway rs.*1.*1 ∧ last' = phase_after last rs.*1.*1 ∧ underway last'
  | None => terminal (phase_after last rs.*1.*1) = true
  end.
Proof.
  induction lines as [|l ls IH]; intros last rs r Hu E; cbn in E; simplify_eq/=; [done|].
  destruct (line_reports last l) as [r1 o1] eqn:E1. apply line_reports_advancing in E1 as [Ha1 H1]; [|done].
  destruct o1 as [last1|]; simplify_eq/=.
  - destruct H1 as (Hf1 & -> & Hu1). destruct (log_reports _ ls) as [r2 o2] eqn:E2.
    apply IH in E2 as [Ha2 H2]; [|done]. simplify_eq/=. rewrite !fmap_app.
    split; [by apply advancing_app|].
    rewrite phase_after_app. destruct r; [|done]. rewrite Forall_app. naive_solver.
  - done.
Qed.

(** ** The whole run *)
Definition live (p : Poll) : Prop := pl_cancelled p = false ∧ pl_err p = None.
Definition log_text (polls : list Poll) : string := foldr (λ p t, pl_data p +:+ t) "" polls.

Lemma text_reports_advancing last text rs r : underway last → text_reports last text = (rs, r) →
  advancing last rs.*1.*1 ∧
  match r with
  | Some (last', _) => Forall underway rs.*1.*1 ∧ last' = phase_after last rs.*1.*1 ∧ underway last'
  | None => terminal (phase_after last rs.*1.*1) = true
  end.
Proof.
  unfold text_reports. destruct (split_lines text) as [lines partial]. intros Hu E.
  destruct (log_reports last lines) as [rs' r'] eqn:El. apply log_reports_advancing in El; [|done].
  simplify_eq/=. by destruct r'.
Qed.

(** A read, seen through the reports of the buffered line and the new bytes. *)
Lemma read_available_advances now s data evs r :
  partial_ok s → underway (ws_last s) → read_available now s data = (evs, r) →
  advancing (ws_last s) (ev_Phase <$> evs) ∧
  match r with
  | Some s' => Forall underway (ev_Phase <$> evs) ∧ ws_last s' = phase_after (ws_last s) (ev_Phase <$> evs) ∧
               underway (ws_last s') ∧ partial_ok s'
  | None => terminal (phase_after (ws_last s) (ev_Phase <$> evs)) = true
  end.
Proof.
  intros Hp Hu E. apply read_available_reports in E as [E Hp']; [|done].
  apply text_reports_advancing in E; [|done]. rewrite <-!list_fmap_compose in E.
  change (fst ∘ (fst ∘ report_of)) with ev_Phase in E. destruct r; cbn in E; naive_solver.
Qed.

Lemma run_advances_from w polls : ∀ s evs r, partial_ok s → underway (ws_last s) → Run w s polls = (evs, r) →
  advancing (ws_last s) (ev_Phase <$> evs) ∧
  (r = Returned → terminal (phase_after (ws_last s) (ev_Phase <$> evs)) = true) ∧
  (∀ s', r = Waiting s' → underway (ws_last s') ∧ ws_last s' = phase_after (ws_last s) (ev_Phase <$> evs)).
Proof.
  induction polls as [|p ps IH]; intros s evs r Hp Hu E; cbn in E; [naive_solver|].
  destruct (pl_cancelled p); [naive_solver|].
  destruct (read_available _ _ _) as [e1 r1] eqn:E1. apply read_available_advances in E1 as [Ha H1]; [|done..].
  destruct r1 as [s1|]; [|simplify_eq; naive_solver]. destruct H1 as (Hf & Hl & Hu1 & Hp1).
  destruct (pl_err p); [simplify_eq; naive_solver|]. case_match; simplify_eq/=.
  - rewrite fmap_app, phase_after_app. split; [|naive_solver]. apply advancing_app; [done..|]. cbn. naive_solver.
  - destruct (Run w s1 ps) as [e2 r2] eqn:E2. apply IH in E2 as (Ha2 & H2 & H2'); [|done..]. simplify_eq/=.
    rewrite Hl in *. rewrite fmap_app, phase_after_app. split; [by apply advancing_app|]. naive_solver.
Qed.

(** The phases [Run] reports only advance, whatever the log holds and
    however it arrives: each is above the one before, an install stage may
    repeat, and nothing follows [Ready] or [Failed]; a run that returns without
    an error has reported one of the two, and one that waits is below both. *)
Theorem run_advances w now polls evs r : Run w (run_start now) polls = (evs, r) →
  advancing PhaseUnknown (ev_Phase <$> evs) ∧
  (r = Returned → terminal (phase_after PhaseUnknown (ev_Phase <$> evs)) = true) ∧
  (∀ s, r = Waiting s → underway (ws_last s) ∧ ws_last s = phase_after PhaseUnknown (ev_Phase <$> evs)).
Proof. by apply (run_advances_from w polls (run_start now)). Qed.

(** What a run tells of the text it was given, from any state. *)
Definition follows_text (w : Watcher) (s : WState) (polls : list Poll) (evs : list Event) (r : outcome) : Prop :=
  match text_reports (ws_last s) (ws_leftover s +:+ log_text polls) with
  | (rs, None) => report_of <$> evs = rs ∧ r = Returned
  | (rs, Some v) => report_of <$> evs = rs ∧ ∃ s', r = Waiting s' ∧ view s' = v
  end.
Definition times_out (w : Watcher) (s : WState) (polls : list Poll) (evs : list Event) (r : outcome) : Prop :=
  ∃ k p rs s', polls !! k = Some p ∧ r = Returned ∧
    text_reports (ws_last s) (ws_leftover s +:+ log_text (take (S k) polls)) = (rs, Some (view s')) ∧
    idle_over w (pl_now p) s' = true ∧
    report_of <$> evs = rs ++ [report_of (idle_event w (pl_now p))].

Lemma run_text_from w polls : Forall live polls → ∀ s evs r, partial_ok s → Run w s polls = (evs, r) →
  follows_text w s polls evs r ∨ times_out w s polls evs r.
Proof.
  unfold follows_text. induction 1 as [|p ps [Hc He] Hl IH]; intros s evs r Hp E; cbn in E.
  { left. cbn [log_text foldr]. rewrite append_nil. unfold text_reports. rewrite Hp. cbn. simplify_eq.
    split; [done|]. by exists s. }
  rewrite Hc, He in E. cbn [log_text foldr]. fold (log_text ps).
  destruct (read_available _ _ _) as [e1 r1] eqn:E1.
  apply read_available_reports in E1 as [E1 Hp1]; [|done].
  rewrite <-append_assoc, text_reports_app, E1.
  destruct r1 as [s1|]; cbn; [|left; by simplify_eq].
  case_match eqn:Hi; simplify_eq/=.
  - right. exists 0%nat, p, (report_of <$> e1), s1. rewrite fmap_app. cbn [take log_text foldr].
    by rewrite append_nil.
  - destruct (Run w s1 ps) as [e2 r2] eqn:E2. simplify_eq/=. apply IH in E2 as [E2|E2]; [left|right|auto].
    + destruct (text_reports (ws_last s1) _) as [rs2 [v|]]; rewrite fmap_app; naive_solver.
    + destruct E2 as (k & q & rs & s' & Hk & Hr & Ht & Hi' & Hev). exists (S k), q, ((report_of <$> e1) ++ rs), s'.
      split; [done|]. split; [done|]. cbn [take log_text foldr]. fold (log_text (take (S k) ps)).
      rewrite <-append_assoc, text_reports_app, E1. cbn. rewrite Ht, fmap_app, Hev, (assoc (++)). done.
Qed.

(** C40: the watcher reads the log, not its pieces.  However the serial output
    is cut into reads, in the middle of a line included, [Run] reports what
    classifying the lines of the whole text in order gives, and returns exactly
    when that does; the one exception is a run the idle timeout ends, which
    reports the text up to there and then the timeout. *)
Theorem run_refines_log w now polls evs r : Forall live polls → Run w (run_start now) polls = (evs, r) →
  follows_text w (run_start now) polls evs r ∨ times_out w (run_start now) polls evs r.
Proof. intros Hl. by apply run_text_from. Qed.

(** ** Idle timeout *)
(** No line ends in the bytes of a quiet poll. *)
Definition quiet (p : Poll) : Prop := live p ∧ (split_lines (pl_data p)).1 = [].

Lemma quiet_read p s : quiet p →
  read_available (pl_now p) s (pl_data p) = ([], Some (s <| ws_leftover := ws_leftover s +:+ pl_data p |>)).
Proof.
  intros [_ Hq]. unfold read_available. pose proof (split_lines_app (pl_data p) "") as Hs.
  assert (∀ t, (split_lines t).1 = [] → (split_lines t).2 = t) as Ht.
  { clear. induction t as [|c t IH]; [done|]. cbn. destruct (split_lines t) as [[|l ls] r]; cbn in *.
    - case_bool_decide; [done|]. cbn. intros _. by rewrite IH.
    - by case_bool_decide. }
  specialize (Ht _ Hq). destruct (split_lines (pl_data p)) as [l r]; cbn in Hq, Ht. by subst.
Qed.

(** a silent console ends the watch.  With an idle timeout set, [Run]
    returns at the latest at the first poll later than the timeout after the
    last complete line, and what it reports then is one [Failed] event naming
    the timeout, even when bytes of an unfinished line kept arriving. *)
Theorem run_idle_returns w s polls p :
  0 < w_IdleTimeout w → underway (ws_last s) → Forall quiet (polls ++ [p]) →
  w_IdleTimeout w < pl_now p - ws_lastLineAt s →
  ∃ q, q ∈ polls ++ [p] ∧ Run w s (polls ++ [p]) = ([idle_event w (pl_now q)], Returned).
Proof.
  intros Hw. revert s. induction polls as [|q polls IH]; intros s Hu Hq Ht.
  - exists p. split; [by left|]. cbn in Hq |- *. apply Forall_cons in Hq as [Hq _].
    rewrite (quiet_read p s Hq). destruct Hq as [[-> ->] _]. unfold idle_over. cbn.
    unfold underway, terminal in Hu. apply orb_false_iff in Hu as [-> ->].
    by rewrite !(proj2 (Z.ltb_lt _ _)).
  - apply Forall_cons in Hq as [Hq Hqs]. cbn. rewrite (quiet_read q s Hq). destruct Hq as [[-> ->] _].
    case_match; [exists q; split; [by left|done]|].
    destruct (IH (s <| ws_leftover := ws_leftover s +:+ pl_data q |>)) as (x & Hx & E); [done..|].
    exists x. split; [by right|]. by rewrite E.
Qed.

(** ** On concrete consoles *)
Definition line_of (s : string) : string := s +:+ String nl "".
Definition poll_at (now : Z) (data : string) : Poll := mkPoll now false data None.

(** An Arch install: the kernel, an install stage cut in two reads, the end. *)
Definition arch_boot : list Poll :=
  [poll_at 200 (line_of "[    0.000000] Linux version 6.9" +:+ "==> vee-install: sta");
   poll_at 400 (line_of "ge=pacstrap" +:+ line_of "Welcome to Arch Linux!");
   poll_at 600 (line_of "cloud-init[812]: Cloud-init v. 24.1 finished")].

Lemma arch_boot_events : (Run NewWatcher (run_start 0) arch_boot).1 =
  [mkEvent PhaseKernelBoot "" "" 200;
   mkEvent PhaseInstall "installing base system (this takes a while)" "" 400;
   mkEvent PhaseReady "" "" 600].
Proof. vm_compute. reflexivity. Qed.

Lemma run_advances_witness :
  advancing PhaseUnknown (ev_Phase <$> (Run NewWatcher (run_start 0) arch_boot).1).
Proof.
  destruct (Run NewWatcher (run_start 0) arch_boot) as [evs r] eqn:E. apply (run_advances _ _ _ _ _ E).
Defined.

Lemma run_refines_log_witness : report_of <$> (Run NewWatcher (run_start 0) arch_boot).1 =
  (text_reports PhaseUnknown (log_text arch_boot)).1.
Proof.
  destruct (Run NewWatcher (run_start 0) arch_boot) as [evs r] eqn:E.
  destruct (run_refines_log NewWatcher 0 arch_boot evs r) as [H|H].
  - by repeat constructor.
  - done.
  - vm_compute in H. destruct H as [H _]. vm_compute in E. injection E as <- <-. vm_compute. reflexivity.
  - exfalso. destruct H as (k & p & rs & s' & Hk & _ & Ht & Hi & Hev). vm_compute in E. injection E as <- <-.
    apply (f_equal (λ l : list report, List.last l (PhaseUnknown, "", ""))) in Hev. rewrite last_last in Hev.
    vm_compute in Hev. done.
Defined.

Lemma run_idle_returns_witness :
  ∃ q, q ∈ [poll_at 60000 "login: "; poll_at 130000 ""] ∧
       Run NewWatcher (run_start 0) [poll_at 60000 "login: "; poll_at 130000 ""] =
       ([idle_event NewWatcher (pl_now q)], Returned).
Proof.
  apply (run_idle_returns NewWatcher (run_start 0) [poll_at 60000 "login: "] (poll_at 130000 ""));
    [by vm_compute | done | by repeat constructor | by vm_compute].
Defined.

(** A console line that mentions [DEBUG:] contains [BUG:] and is taken for a
    kernel failure. *)
Theorem debug_line_fails : Run NewWatcher (run_start 0) [poll_at 200 (line_of "DEBUG: probing virtio-net")] =
  ([mkEvent PhaseFailed "" (line_of "DEBUG: probing virtio-net") 200], Returned).
Proof. vm_compute. reflexivity. Qed.

End PhaseWatcher.
