(* ===== verification/Config.v ===== *)
(** * VM configuration and runtime state

    The data of [internal/vm/config.go] and [internal/vm/state.go], with the
    accessors the rest of the package uses, plus [internal/backend/backend.go].
    A Go struct is a record whose field names carry a short prefix; a nil-able
    pointer is an [option]; a slice is a list ([nil] and the empty slice are
    the same value for every reader modelled here); [int], [uint32], [int64]
    and times are [Z]. *)
From S2P Require Import Prelude GoStrings.

Open Scope Z_scope.

(** ** backend.Name *)
Definition QEMU : string := "qemu".
Definition VZ : string := "vz".

Definition Valid (n : string) : bool :=
  bool_decide (n = "") || bool_decide (n = QEMU) || bool_decide (n = VZ).

Record StartResult := mkStartResult {
  r_PID : Z;
  r_ControlSocket : string;
  r_GuestAgentSocket : string;
  r_LeaseBaseline : Z;
}.

(** ** DiskConfig *)
Record DiskConfig := mkDiskConfig {
  d_Path : string;
  d_Size : string;
  d_Format : string;
  d_Interface : string;
  d_Media : string;
  d_Cache : string;
  d_Readonly : bool;
  d_BackingFile : string;
  d_Serial : string;
  d_Passthrough : bool;
  d_ImageFile : bool;
  d_BootIndex : Z;
  d_InstallISO : bool;
  d_Scratch : bool;
}.
#[export] Instance DiskConfig_eta : Settable DiskConfig := λ d,
  mkDiskConfig (d_Path d) (d_Size d) (d_Format d) (d_Interface d) (d_Media d)
    (d_Cache d) (d_Readonly d) (d_BackingFile d) (d_Serial d) (d_Passthrough d)
    (d_ImageFile d) (d_BootIndex d) (d_InstallISO d) (d_Scratch d).
#[export] Instance DiskConfig_eq_dec : EqDecision DiskConfig.
Proof. solve_decision. Defined.

(** The zero value of the struct. *)
Definition zeroDisk : DiskConfig :=
  mkDiskConfig "" "" "" "" "" "" false "" "" false false 0 false false.

Definition IsInstallISO (d : DiskConfig) : bool :=
  d_InstallISO d || bool_decide (d_Media d = "cdrom").

Definition IsScratch (d : DiskConfig) : bool := d_Scratch d.

(** ** NICConfig, GPUConfig *)
Record NICConfig := mkNICConfig {
  nic_Mode : string;
  nic_Bridge : string;
  nic_Model : string;
  nic_MAC : string;
  nic_HostFwds : list string;
}.
#[export] Instance NICConfig_eta : Settable NICConfig := λ n,
  mkNICConfig (nic_Mode n) (nic_Bridge n) (nic_Model n) (nic_MAC n) (nic_HostFwds n).
#[export] Instance NICConfig_eq_dec : EqDecision NICConfig.
Proof. solve_decision. Defined.

Definition GPUNone : string := "none".
Definition GPUVirtio : string := "virtio".
Definition GPUPassthrough : string := "passthrough".
Definition GPUAppleGFX : string := "apple-gfx".
Definition GPUHelios : string := "helios".

Record GPUConfig := mkGPUConfig {
  g_Mode : string;
  g_PCIAddr : string;
  g_ExtraVFIOAddrs : list string;
  g_ROMFile : string;
  g_ROMBar : bool;
  g_RebindReset : bool;
  g_RebindResetDriver : string;
  g_AntiDetect : bool;
  g_GLBackend : string;
  g_Venus : bool;
  g_HostMem : string;
  g_Pointer : string;
  g_VNC : string;
  g_RenderNode : string;
  g_disableGL : bool;
}.
#[export] Instance GPUConfig_eta : Settable GPUConfig := λ g,
  mkGPUConfig (g_Mode g) (g_PCIAddr g) (g_ExtraVFIOAddrs g) (g_ROMFile g)
    (g_ROMBar g) (g_RebindReset g) (g_RebindResetDriver g) (g_AntiDetect g)
    (g_GLBackend g) (g_Venus g) (g_HostMem g) (g_Pointer g) (g_VNC g)
    (g_RenderNode g) (g_disableGL g).
#[export] Instance GPUConfig_eq_dec : EqDecision GPUConfig.
Proof. solve_decision. Defined.

Record MacOSConfig := mkMacOSConfig {
  mac_AuxiliaryStorage : string;
  mac_HardwareModel : list Byte.byte;
  mac_MachineIdentifier : list Byte.byte;
  mac_ScreenSharingGrantPending : bool;
  mac_ScreenSharingUnsupported : bool;
  mac_DisplayWidthPx : Z;
  mac_DisplayHeightPx : Z;
  mac_DisplayPPI : Z;
  mac_MinCPUs : Z;
  mac_MinMemoryBytes : Z;
}.
#[export] Instance byte_eq_dec : EqDecision Byte.byte := Byte.byte_eq_dec.
#[export] Instance MacOSConfig_eq_dec : EqDecision MacOSConfig.
Proof. solve_decision. Defined.

Record UEFIConfig := mkUEFIConfig {
  u_Enabled : bool;
  u_CodePath : string;
  u_VarsPath : string;
}.
#[export] Instance UEFIConfig_eta : Settable UEFIConfig := λ u,
  mkUEFIConfig (u_Enabled u) (u_CodePath u) (u_VarsPath u).
#[export] Instance UEFIConfig_eq_dec : EqDecision UEFIConfig.
Proof. solve_decision. Defined.

Record SPICEConfig := mkSPICEConfig {
  sp_Port : Z;
  sp_DisableTicketing : bool;
}.
#[export] Instance SPICEConfig_eta : Settable SPICEConfig := λ s,
  mkSPICEConfig (sp_Port s) (sp_DisableTicketing s).
#[export] Instance SPICEConfig_eq_dec : EqDecision SPICEConfig.
Proof. solve_decision. Defined.

Record VirtiofsMount := mkVirtiofsMount {
  vf_SocketPath : string;
  vf_SharedDir : string;
  vf_Tag : string;
  vf_Readonly : bool;
}.
#[export] Instance VirtiofsMount_eq_dec : EqDecision VirtiofsMount.
Proof. solve_decision. Defined.

Record TPMConfig := mkTPMConfig { tpm_Enabled : bool }.
#[export] Instance TPMConfig_eq_dec : EqDecision TPMConfig.
Proof. solve_decision. Defined.

(** ** Cloud-init, seeds, services *)
Record CloudInitWriteFile := mkCloudInitWriteFile {
  wf_Path : string;
  wf_Content : string;
  wf_Permissions : string;
  wf_Owner : string;
  wf_Defer : bool;
  wf_Encoding : string;
}.
#[export] Instance CloudInitWriteFile_eq_dec : EqDecision CloudInitWriteFile.
Proof. solve_decision. Defined.

Record CloudInitConfig := mkCloudInitConfig {
  ci_Hostname : string;
  ci_User : string;
  ci_Password : string;
  ci_DefaultUser : string;
  ci_SSHKeys : list string;
  ci_Packages : list string;
  ci_RunCmds : list string;
  ci_WriteFiles : list CloudInitWriteFile;
}.
#[export] Instance CloudInitConfig_eq_dec : EqDecision CloudInitConfig.
Proof. solve_decision. Defined.

Record SeedFile := mkSeedFile { sf_Name : string; sf_Content : string }.
#[export] Instance SeedFile_eq_dec : EqDecision SeedFile.
Proof. solve_decision. Defined.

Definition ServiceHTTP : string := "http".
Definition ServiceHTTPS : string := "https".
Definition ServiceSPICE : string := "spice".
Definition ServiceTCP : string := "tcp".

Record ServiceEntry := mkServiceEntry {
  se_Name : string;
  se_Port : Z;
  se_Protocol : string;
}.
#[export] Instance ServiceEntry_eta : Settable ServiceEntry := λ s,
  mkServiceEntry (se_Name s) (se_Port s) (se_Protocol s).
#[export] Instance ServiceEntry_eq_dec : EqDecision ServiceEntry.
Proof. solve_decision. Defined.

(** ** VMConfig *)
Record VMConfig := mkVMConfig {
  c_Name : string;
  c_Template : string;
  c_Backend : string;
  c_Arch : string;
  c_QemuBinary : string;
  c_QemuEnv : list string;
  c_Memory : string;
  c_CPUs : Z;
  c_Sockets : Z;
  c_Cores : Z;
  c_Threads : Z;
  c_CPUModel : string;
  c_CPUFlags : list string;
  c_MachineType : string;
  c_Nested : bool;
  c_Globals : list string;
  c_Disks : list DiskConfig;
  c_NIC : NICConfig;
  c_GPU : GPUConfig;
  c_UEFI : UEFIConfig;
  c_MacOS : option MacOSConfig;
  c_SPICE : option SPICEConfig;
  c_VirtiofsMounts : list VirtiofsMount;
  c_CloudInit : option CloudInitConfig;
  c_SeedFiles : list SeedFile;
  c_TPM : option TPMConfig;
  c_SSHUser : string;
  c_SSHHost : string;
  c_SSHShare : bool;
  c_Vsock : bool;
  c_VsockCID : Z;
  c_Headless : bool;
  c_SSHPort : Z;
  c_GuestAgent : bool;
  c_ExtraDevices : list string;
  c_InstallDevices : list string;
  c_VGA : string;
  c_Hostname : string;
  c_TrueNASAPIKey : string;
  c_TrueNASUser : string;
  c_VPNProvider : string;
  c_Services : list ServiceEntry;
  c_CPUPinning : list Z;
  c_RTC : string;
  c_AutoStart : bool;
  c_SkipInstall : bool;
  c_Kernel : string;
  c_Cmdline : string;
  c_Initrd : string;
  c_CreatedAt : Z;
}.
#[export] Instance VMConfig_eta : Settable VMConfig := λ r,
  mkVMConfig (c_Name r) (c_Template r) (c_Backend r) (c_Arch r) (c_QemuBinary r)
    (c_QemuEnv r) (c_Memory r) (c_CPUs r) (c_Sockets r) (c_Cores r)
    (c_Threads r) (c_CPUModel r) (c_CPUFlags r) (c_MachineType r)
    (c_Nested r) (c_Globals r) (c_Disks r) (c_NIC r) (c_GPU r) (c_UEFI r)
    (c_MacOS r) (c_SPICE r) (c_VirtiofsMounts r) (c_CloudInit r)
    (c_SeedFiles r) (c_TPM r) (c_SSHUser r) (c_SSHHost r) (c_SSHShare r)
    (c_Vsock r) (c_VsockCID r) (c_Headless r) (c_SSHPort r)
    (c_GuestAgent r) (c_ExtraDevices r) (c_InstallDevices r) (c_VGA r)
    (c_Hostname r) (c_TrueNASAPIKey r) (c_TrueNASUser r)
    (c_VPNProvider r) (c_Services r) (c_CPUPinning r) (c_RTC r)
    (c_AutoStart r) (c_SkipInstall r) (c_Kernel r) (c_Cmdline r)
    (c_Initrd r) (c_CreatedAt r).
#[export] Instance VMConfig_eq_dec : EqDecision VMConfig.
Proof. solve_decision. Defined.

Definition zeroNIC : NICConfig := mkNICConfig "" "" "" "" [].
Definition zeroGPU : GPUConfig :=
  mkGPUConfig "" "" [] "" false false "" false "" false "" "" "" "" false.
Definition zeroUEFI : UEFIConfig := mkUEFIConfig false "" "".

(** [VMConfig{}]: what unmarshalling the stub row [{}] yields. *)
Definition zeroConfig : VMConfig :=
  {| c_Name := "";
     c_Template := "";
     c_Backend := "";
     c_Arch := "";
     c_QemuBinary := "";
     c_QemuEnv := [];
     c_Memory := "";
     c_CPUs := 0;
     c_Sockets := 0;
     c_Cores := 0;
     c_Threads := 0;
     c_CPUModel := "";
     c_CPUFlags := [];
     c_MachineType := "";
     c_Nested := false;
     c_Globals := [];
     c_Disks := [];
     c_NIC := zeroNIC;
     c_GPU := zeroGPU;
     c_UEFI := zeroUEFI;
     c_MacOS := None;
     c_SPICE := None;
     c_VirtiofsMounts := [];
     c_CloudInit := None;
     c_SeedFiles := [];
     c_TPM := None;
     c_SSHUser := "";
     c_SSHHost := "";
     c_SSHShare := false;
     c_Vsock := false;
     c_VsockCID := 0;
     c_Headless := false;
     c_SSHPort := 0;
     c_GuestAgent := false;
     c_ExtraDevices := [];
     c_InstallDevices := [];
     c_VGA := "";
     c_Hostname := "";
     c_TrueNASAPIKey := "";
     c_TrueNASUser := "";
     c_VPNProvider := "";
     c_Services := [];
     c_CPUPinning := [];
     c_RTC := "";
     c_AutoStart := false;
     c_SkipInstall := false;
     c_Kernel := "";
     c_Cmdline := "";
     c_Initrd := "";
     c_CreatedAt := 0 |}.

(** [BackendName] of a config: the empty field means QEMU. *)
Definition BackendName (c : VMConfig) : string :=
  if bool_decide (c_Backend c = "") then QEMU else c_Backend c.

Definition WindowsGuest (c : VMConfig) : bool := Contains (ToLower (c_Template c)) "windows".

Definition SSHUsername (c : VMConfig) : string :=
  if negb (bool_decide (c_SSHUser c = "")) then c_SSHUser c else
  match c_CloudInit c with
  | None => ""
  | Some ci =>
      if negb (bool_decide (ci_User ci = "")) then ci_User ci
      else ci_DefaultUser ci
  end.

(** ** VMState *)
Definition InstallStatePending : string := "pending".
Definition InstallStateReady : string := "ready".

Definition DesiredStateRunning : string := "running".
Definition DesiredStateStopped : string := "stopped".

Definition ShutdownReasonUser : string := "user".
Definition ShutdownReasonGuest : string := "guest".
Definition ShutdownReasonCrash : string := "crash".
Definition ShutdownReasonHost : string := "host".
Definition ShutdownReasonReboot : string := "reboot".

Record HealthCheck := mkHealthCheck {
  hc_Name : string;
  hc_OK : bool;
  hc_Detail : string;
}.
#[export] Instance HealthCheck_eq_dec : EqDecision HealthCheck.
Proof. solve_decision. Defined.

Record VMState := mkVMState {
  s_PID : Z;
  s_Backend : string;
  s_QMPSocket : string;
  s_QGASocket : string;
  s_ControlSocket : string;
  s_LeaseBaseline : Z;
  s_SPICEPort : Z;
  s_SSHPort : Z;
  s_VirtiofsdPIDs : list Z;
  s_StartedAt : option Z;
  s_Running : bool;
  s_InstallState : string;
  s_InstalledAt : option Z;
  s_DesiredState : string;
  s_LastShutdownReason : string;
  s_BootPhase : string;
  s_PhaseStartedAt : option Z;
  s_LastPanicLine : string;
  s_PostInstallChecks : list HealthCheck;
  s_PostInstallCheckedAt : option Z;
}.
#[export] Instance VMState_eta : Settable VMState := λ r,
  mkVMState (s_PID r) (s_Backend r) (s_QMPSocket r) (s_QGASocket r)
    (s_ControlSocket r) (s_LeaseBaseline r) (s_SPICEPort r) (s_SSHPort r)
    (s_VirtiofsdPIDs r) (s_StartedAt r) (s_Running r) (s_InstallState r)
    (s_InstalledAt r) (s_DesiredState r) (s_LastShutdownReason r)
    (s_BootPhase r) (s_PhaseStartedAt r) (s_LastPanicLine r)
    (s_PostInstallChecks r) (s_PostInstallCheckedAt r).
#[export] Instance VMState_eq_dec : EqDecision VMState.
Proof. solve_decision. Defined.

(** [VMState{}] *)
Definition zeroState : VMState :=
  {| s_PID := 0;
     s_Backend := "";
     s_QMPSocket := "";
     s_QGASocket := "";
     s_ControlSocket := "";
     s_LeaseBaseline := 0;
     s_SPICEPort := 0;
     s_SSHPort := 0;
     s_VirtiofsdPIDs := [];
     s_StartedAt := None;
     s_Running := false;
     s_InstallState := "";
     s_InstalledAt := None;
     s_DesiredState := "";
     s_LastShutdownReason := "";
     s_BootPhase := "";
     s_PhaseStartedAt := None;
     s_LastPanicLine := "";
     s_PostInstallChecks := [];
     s_PostInstallCheckedAt := None |}.

(** [BackendName] of a state; a nil state, like an empty field, means QEMU. *)
Definition StateBackendName (s : option VMState) : string :=
  match s with
  | None => QEMU
  | Some s => if bool_decide (s_Backend s = "") then QEMU else s_Backend s
  end.
