(* ===== verification/Store.v ===== *)
(** * The VM store

    [internal/vm/db.go] (SQLite) and [internal/vm/store.go] (YAML/JSON files),
    and the dispatch between them in [internal/vm/manager.go].  [VMStore] is
    the interface the manager programs against and [VMStoreLaws] what it may
    rely on; both backings are instances and discharge the laws. *)
From S2P Require Import Prelude GoStrings Config.

Open Scope Z_scope.

(** What survives encoding a config to JSON or YAML: every exported field.
    [disableGL] is unexported, so a reload always has it unset. *)
Definition persisted (c : VMConfig) : VMConfig :=
  c <| c_GPU := (c_GPU c) <| g_disableGL := false |> |>.

Lemma persisted_idemp c : persisted (persisted c) = persisted c.
Proof. reflexivity. Qed.
Lemma persisted_Name c : c_Name (persisted c) = c_Name c.
Proof. reflexivity. Qed.

(** ** The interface *)
Class VMStore (S : Type) := {
  saveConfig : VMConfig → GoM S error unit;
  loadConfig : string → GoM S error VMConfig;
  saveState : string → VMState → GoM S error unit;
  loadState : string → GoM S error VMState;
  listAllConfigs : GoM S error (list VMConfig);
  (** [if m.db != nil { _ = dbDeleteVM(m.db, name) }] *)
  deleteRecords : string → GoM S error unit;
}.

(** The laws are stated on an abstract view: the configs and states on record,
    by VM name.  [healthy] says no storage fault is pending. *)
Class VMStoreLaws (S : Type) `{VMStore S} := {
  cfg_view : S → gmap string VMConfig;
  st_view : S → gmap string VMState;
  healthy : S → Prop;
  loadConfig_pure n s : (loadConfig n s).2 = s;
  loadState_pure n s : (loadState n s).2 = s;
  listAllConfigs_pure s : (listAllConfigs s).2 = s;
  loadConfig_ok n s c :
    healthy s → (loadConfig n s).1 = Ok c ↔ cfg_view s !! n = Some c;
  loadState_ok n s :
    healthy s → (loadState n s).1 = Ok (default zeroState (st_view s !! n));
  listAll_ok s : healthy s → ∃ cs, (listAllConfigs s).1 = Ok cs ∧
    (∀ c, c ∈ cs ↔ ∃ n, cfg_view s !! n = Some c) ∧
    ((∀ n c, cfg_view s !! n = Some c → c_Name c = n) → NoDup (c_Name <$> cs));
  saveConfig_ok c s : healthy s → ∃ s',
    saveConfig c s = (Ok tt, s') ∧ healthy s' ∧ st_view s' = st_view s ∧
    cfg_view s' = <[c_Name c := persisted c]> (cfg_view s);
  saveState_ok n st s : healthy s → is_Some (cfg_view s !! n) → ∃ s',
    saveState n st s = (Ok tt, s') ∧ healthy s' ∧ cfg_view s' = cfg_view s ∧
    st_view s' = <[n := st]> (st_view s);
  saveConfig_err c s e s' :
    saveConfig c s = (Err e, s') → cfg_view s' = cfg_view s ∧ st_view s' = st_view s;
  saveState_err n st s e s' :
    saveState n st s = (Err e, s') → st_view s' = st_view s;
}.

(** ** SQLite *)
Module Db.
(** A row of [vms]: the decoded [config_json] and the [created_at] column. *)
Record row := mkRow { row_config : VMConfig; row_created : Z }.

(** [vm_states.vm_name] references [vms.name], cascading on delete.
    [db_now] is the clock; the faults are pending statement errors. *)
Record DB := mkDB {
  vms : gmap string row;
  vm_states : gmap string VMState;
  db_now : Z;
  read_fault : option error;
  write_fault : option error;
}.
#[global] Instance DB_eta : Settable DB := λ d,
  mkDB (vms d) (vm_states d) (db_now d) (read_fault d) (write_fault d).

Definition exec (f : DB → DB) : GoM DB error unit := λ d,
  match write_fault d with Some e => (Err e, d) | None => (Ok tt, f d) end.
Definition query {A} (f : DB → A) : GoM DB error A := λ d,
  match read_fault d with Some e => (Err e, d) | None => (Ok (f d), d) end.

(** Upsert: on conflict the config is replaced, [created_at] is not. *)
Definition dbSaveConfig (c : VMConfig) : GoM DB error unit :=
  exec (λ d, d <| vms :=
    let created := match vms d !! c_Name c with
                   | Some r => row_created r
                   | None => c_CreatedAt c
                   end in
    <[c_Name c := mkRow (persisted c) created]> (vms d) |>).

Definition dbLoadConfig (name : string) : GoM DB error VMConfig :=
  r ← query (λ d, vms d !! name);
  match r with
  | None => throw (Errorf "VM %q not found" [name])
  | Some r => mret (row_config r)
  end.

Definition dbSaveState (name : string) (st : VMState) : GoM DB error unit := λ d,
  match write_fault d with
  | Some e => (Err e, d)
  | None =>
      match vms d !! name with
      | None => (Err (Errorf "FOREIGN KEY constraint failed" []), d)
      | Some _ => (Ok tt, d <| vm_states := <[name := st]> (vm_states d) |>)
      end
  end.

Definition dbLoadState (name : string) : GoM DB error VMState :=
  r ← query (λ d, vm_states d !! name);
  mret (default (zeroState <| s_Running := false |>) r).

Definition created_le (a b : string * row) : Prop :=
  row_created (a.2) ≤ row_created (b.2).
#[export] Instance created_le_dec : RelDecision created_le.
Proof. intros a b. unfold created_le. apply _. Defined.

Definition dbListAll : GoM DB error (list VMConfig) :=
  query (λ d, (λ kr, row_config kr.2) <$> merge_sort created_le (map_to_list (vms d))).

Definition dbDeleteVM (name : string) : GoM DB error unit :=
  exec (λ d, d <| vms := delete name (vms d) |>
               <| vm_states := delete name (vm_states d) |>).

(** [INSERT OR IGNORE] of the stub config [{}]. *)
Definition dbEnsureVM (name : string) : GoM DB error unit :=
  exec (λ d, match vms d !! name with
             | Some _ => d
             | None => d <| vms := <[name := mkRow zeroConfig (db_now d)]> (vms d) |>
             end).

(** [Manager.saveState] with a database. *)
Definition saveState_db (name : string) (st : VMState) : GoM DB error unit :=
  ignore (dbEnsureVM name) ≫= λ _, dbSaveState name st.

#[global] Instance DbStore : VMStore DB := {
  saveConfig := dbSaveConfig;
  loadConfig := dbLoadConfig;
  saveState := saveState_db;
  loadState := dbLoadState;
  listAllConfigs := dbListAll;
  deleteRecords := dbDeleteVM;
}.

(** Referential integrity, as declared by the schema, and: a row's config
    is the one saved under that name, or the stub. *)
Record db_wf (d : DB) : Prop := {
  wf_fk : ∀ n st, vm_states d !! n = Some st → is_Some (vms d !! n);
  wf_name : ∀ n r, vms d !! n = Some r →
    c_Name (row_config r) = n ∨ row_config r = zeroConfig;
  wf_persisted : ∀ n r, vms d !! n = Some r →
    persisted (row_config r) = row_config r;
}.

Definition db_cfg_view (d : DB) : gmap string VMConfig := row_config <$> vms d.
Definition db_healthy (d : DB) : Prop := read_fault d = None ∧ write_fault d = None.

Lemma exec_wf f : (∀ d, db_wf d → db_wf (f d)) → preserves db_wf (exec f).
Proof. intros Hf d Hd. unfold exec. case_match; simpl; auto. Qed.
Lemma query_pure {A} (f : DB → A) d : (query f d).2 = d.
Proof. unfold query. by case_match. Qed.
Lemma query_wf {A} (f : DB → A) : preserves db_wf (query f).
Proof. intros d Hd. by rewrite query_pure. Qed.
#[export] Hint Resolve query_wf : gom.

Lemma dbSaveConfig_wf c : preserves db_wf (dbSaveConfig c).
Proof.
  apply exec_wf. intros d [Hfk Hn Hp]. split; cbn.
  - intros n st Hst. apply Hfk in Hst. rewrite lookup_insert. case_decide; eauto.
  - intros n r. rewrite lookup_insert. case_decide; [|by apply Hn].
    intros; simplify_eq/=. by left.
  - intros n r. rewrite lookup_insert. case_decide; [|by apply Hp].
    intros; by simplify_eq/=.
Qed.

Lemma dbEnsureVM_wf n : preserves db_wf (dbEnsureVM n).
Proof.
  apply exec_wf. intros d Hd. case_match eqn:E; [done|].
  destruct Hd as [Hfk Hn Hp]. split; cbn.
  - intros n' st Hst. apply Hfk in Hst. rewrite lookup_insert. case_decide; eauto.
  - intros n' r. rewrite lookup_insert. case_decide; [|by apply Hn].
    intros; simplify_eq/=. by right.
  - intros n' r. rewrite lookup_insert. case_decide; [|by apply Hp].
    intros; by simplify_eq/=.
Qed.

Lemma dbSaveState_wf n st : preserves db_wf (dbSaveState n st).
Proof.
  intros d [Hfk Hn Hp]. unfold dbSaveState. repeat case_match; split; cbn; auto.
  intros n' st'. rewrite lookup_insert. case_decide; [naive_solver | by apply Hfk].
Qed.

Lemma dbDeleteVM_wf n : preserves db_wf (dbDeleteVM n).
Proof.
  apply exec_wf. intros d [Hfk Hn Hp]. split; cbn.
  - intros n' st. rewrite !lookup_delete. case_decide; [done|]. apply Hfk.
  - intros n' r. rewrite lookup_delete. case_decide; [done|]. apply Hn.
  - intros n' r. rewrite lookup_delete. case_decide; [done|]. apply Hp.
Qed.
#[export] Hint Resolve dbSaveConfig_wf dbEnsureVM_wf dbSaveState_wf
  dbDeleteVM_wf : gom.

(** Every statement the manager issues keeps the database well-formed. *)
Lemma db_ops_wf :
  (∀ c, preserves db_wf (saveConfig c)) ∧
  (∀ n, preserves db_wf (loadConfig (S := DB) n)) ∧
  (∀ n st, preserves db_wf (saveState n st)) ∧
  (∀ n, preserves db_wf (loadState (S := DB) n)) ∧
  preserves db_wf (listAllConfigs (S := DB)) ∧
  (∀ n, preserves db_wf (deleteRecords (S := DB) n)).
Proof.
  split_and!; intros; cbn;
    unfold saveState_db, dbLoadConfig, dbLoadState, dbListAll; preserves_tac.
Qed.

Lemma saveState_db_run n st d :
  db_healthy d → is_Some (vms d !! n) →
  saveState_db n st d = (Ok tt, d <| vm_states := <[n := st]> (vm_states d) |>).
Proof.
  intros [_ Hw] [r Hr].
  unfold saveState_db, dbEnsureVM, exec, ignore, dbSaveState. rewrite run_bind.
  rewrite Hw. cbn. by rewrite Hr, Hw, Hr.
Qed.

(** With a healthy database saving a state cannot trip the foreign key: the
    stub row is inserted first. *)
Lemma saveState_db_total n st d :
  write_fault d = None → (saveState_db n st d).1 = Ok tt.
Proof.
  intros Hw. unfold saveState_db, dbEnsureVM, exec, ignore, dbSaveState.
  rewrite run_bind. rewrite Hw. cbn.
  destruct (vms d !! n) eqn:E; cbn; rewrite Hw; [by rewrite E|].
  by rewrite lookup_insert_eq.
Qed.

Lemma saveState_db_err n st d e d' :
  saveState_db n st d = (Err e, d') → vm_states d' = vm_states d.
Proof.
  unfold saveState_db, dbEnsureVM, exec, ignore, dbSaveState.
  rewrite run_bind. cbn. intros H.
  destruct (write_fault d) eqn:Hw; cbn in H; [rewrite Hw in H; by simplify_eq|].
  destruct (vms d !! n) eqn:E; cbn in H; rewrite Hw in H;
    [by rewrite E in H | by rewrite lookup_insert_eq in H].
Qed.

Lemma db_list_NoDup d :
  (∀ n c, db_cfg_view d !! n = Some c → c_Name c = n) →
  NoDup (c_Name <$> ((λ kr, row_config kr.2) <$> merge_sort created_le (map_to_list (vms d)))).
Proof.
  intros Hn. rewrite <-list_fmap_compose, merge_sort_Permutation.
  rewrite (list_fmap_ext _ fst); [apply NoDup_fst_map_to_list|].
  intros i [n r] Hi. cbn. apply Hn. unfold db_cfg_view. rewrite lookup_fmap.
  apply list_elem_of_lookup_2, elem_of_map_to_list in Hi. by rewrite Hi.
Qed.

#[global] Program Instance DbStoreLaws : VMStoreLaws DB := {
  cfg_view := db_cfg_view;
  st_view := vm_states;
  healthy := db_healthy;
}.
Next Obligation.
  intros n d. cbn. unfold dbLoadConfig. rewrite run_bind. unfold query.
  repeat (case_match; simplify_eq/=); done.
Qed.
Next Obligation.
  intros n d. cbn. unfold dbLoadState. rewrite run_bind. unfold query.
  repeat (case_match; simplify_eq/=); done.
Qed.
Next Obligation. intros d. cbn. apply query_pure. Qed.
Next Obligation.
  intros n d c [Hr _]. cbn. unfold dbLoadConfig, query, db_cfg_view.
  rewrite run_bind, Hr, lookup_fmap.
  destruct (vms d !! n); cbn; split; intros; by simplify_eq/=.
Qed.
Next Obligation.
  intros n d [Hr _]. cbn. unfold dbLoadState, query. by rewrite run_bind, Hr.
Qed.
Next Obligation.
  intros d [Hr _]. cbn. unfold dbListAll, query. rewrite Hr.
  eexists; split; [done|]. split; [|apply db_list_NoDup].
  intros c. rewrite list_elem_of_fmap.
  unfold db_cfg_view. setoid_rewrite lookup_fmap. split.
  - intros ([n r] & -> & Hin). rewrite merge_sort_Permutation in Hin.
    apply elem_of_map_to_list in Hin. exists n. by rewrite Hin.
  - intros (n & Hn). apply fmap_Some in Hn as (r & Hr' & ->).
    exists (n, r). split; [done|]. rewrite merge_sort_Permutation.
    by apply elem_of_map_to_list.
Qed.
Next Obligation.
  intros c d [Hr Hw]. cbn. unfold dbSaveConfig, exec. rewrite Hw.
  eexists; split; [done|]. split; [done|]. split; [done|].
  unfold db_cfg_view. cbn. by rewrite fmap_insert.
Qed.
Next Obligation.
  intros n st d Hh Hc. cbn in *. unfold db_cfg_view in Hc.
  rewrite lookup_fmap, fmap_is_Some in Hc.
  eexists; split; [by apply saveState_db_run|]. done.
Qed.
Next Obligation.
  intros c d e d'. cbn. unfold dbSaveConfig, exec. case_match; naive_solver.
Qed.
Next Obligation. intros n st d e d' H. by apply saveState_db_err in H. Qed.


(** Saving the state of a VM that has no row inserts the stub row: the
    save succeeds, but a listing then contains a config with an empty name
    that no [vee] command created. *)
Theorem saveState_ghost_row n st d :
  db_healthy d → vms d !! n = None →
  ∃ d', saveState_db n st d = (Ok tt, d') ∧
    (loadConfig n d').1 = Ok zeroConfig ∧
    ∃ cs, (listAllConfigs d').1 = Ok cs ∧ zeroConfig ∈ cs.
Proof.
  intros [Hr Hw] Hn. unfold saveState_db, dbEnsureVM, exec, ignore, dbSaveState.
  rewrite run_bind. rewrite Hw, Hn. cbn. rewrite Hw, lookup_insert_eq.
  eexists; split; [done|]. set (d' := mkDB _ _ _ _ _) || set (d' := update _ _ _).
  assert (Hd : db_cfg_view d' !! n = Some zeroConfig)
    by (unfold db_cfg_view; cbn; by rewrite fmap_insert, lookup_insert_eq).
  assert (Hh : healthy (S := DB) d') by done.
  split; [by apply (loadConfig_ok n d' zeroConfig Hh)|].
  destruct (listAll_ok d' Hh) as (cs & E & Hcs & _).
  exists cs. split; [exact E|]. apply Hcs. by exists n.
Qed.
Lemma saveState_ghost_row_witness :
  ∃ d', saveState_db "gone" zeroState (mkDB ∅ ∅ 5 None None) = (Ok tt, d') ∧
    (loadConfig "gone" d').1 = Ok zeroConfig ∧
    ∃ cs, (listAllConfigs d').1 = Ok cs ∧ zeroConfig ∈ cs.
Proof. apply saveState_ghost_row; [split; reflexivity | reflexivity]. Defined.
End Db.

(** ** Files

    The storage directory is a map from VM directory to its entries; an entry
    holds the value its bytes decode to, or bytes that decode to neither. *)
Module Files.
Inductive content :=
| CConfig (c : VMConfig)
| CState (st : VMState)
| CRaw (bytes : string).

Definition as_config (x : content) : option VMConfig :=
  match x with CConfig c => Some c | _ => None end.
Definition as_state (x : content) : option VMState :=
  match x with CState st => Some st | _ => None end.

Record FS := mkFS {
  vmdirs : gmap string (gmap string content);
  fs_read_fault : option error;
  fs_write_fault : option error;
  fs_rename_fault : option error;
}.
#[global] Instance FS_eta : Settable FS := λ f,
  mkFS (vmdirs f) (fs_read_fault f) (fs_write_fault f) (fs_rename_fault f).

Definition configFile : string := "vm.yaml".
Definition stateFile : string := "state.json".

(** The error [os.ReadFile] and [os.WriteFile] give for a missing path. *)
Definition ErrNotExist : error := Errorf "file does not exist" [].

Definition ReadFile (dir file : string) : GoM FS error content := λ f,
  match fs_read_fault f with
  | Some e => (Err e, f)
  | None => match vmdirs f !! dir ≫= lookup file with
            | Some x => (Ok x, f)
            | None => (Err ErrNotExist, f)
            end
  end.

Definition MkdirAll (dir : string) : GoM FS error unit := λ f,
  match fs_write_fault f with
  | Some e => (Err e, f)
  | None => (Ok tt, f <| vmdirs := <[dir := default ∅ (vmdirs f !! dir)]> (vmdirs f) |>)
  end.

Definition WriteFile (dir file : string) (x : content) : GoM FS error unit := λ f,
  match fs_write_fault f, vmdirs f !! dir with
  | Some e, _ => (Err e, f)
  | None, None => (Err ErrNotExist, f)
  | None, Some ents => (Ok tt, f <| vmdirs := <[dir := <[file := x]> ents]> (vmdirs f) |>)
  end.

Definition Rename (dir from to : string) : GoM FS error unit := λ f,
  match fs_rename_fault f, vmdirs f !! dir ≫= lookup from with
  | Some e, _ => (Err e, f)
  | None, None => (Err ErrNotExist, f)
  | None, Some x =>
      (Ok tt, f <| vmdirs := alter (λ ents, <[to := x]> (delete from ents)) dir (vmdirs f) |>)
  end.

Definition Remove (dir file : string) : GoM FS error unit := λ f,
  match fs_write_fault f, vmdirs f !! dir ≫= lookup file with
  | Some e, _ => (Err e, f)
  | None, None => (Err ErrNotExist, f)
  | None, Some _ => (Ok tt, f <| vmdirs := alter (delete file) dir (vmdirs f) |>)
  end.

(** Write to [file.tmp], then rename over [file]. *)
Definition atomicWrite (dir file : string) (x : content) : GoM FS error unit :=
  WriteFile dir (file +:+ ".tmp") x ≫= λ _, Rename dir (file +:+ ".tmp") file.

Definition SaveConfig (c : VMConfig) : GoM FS error unit :=
  MkdirAll (c_Name c) ≫= λ _,
  atomicWrite (c_Name c) configFile (CConfig (persisted c)).

Definition LoadConfig (name : string) : GoM FS error VMConfig :=
  x ← ReadFile name configFile;
  match as_config x with
  | Some c => mret c
  | None => throw (Errorf "yaml: unmarshal errors" [])
  end.

Definition SaveStateForVM (name : string) (st : VMState) : GoM FS error unit :=
  atomicWrite name stateFile (CState st).

Definition LoadState (name : string) : GoM FS error VMState :=
  r ← attempt (ReadFile name stateFile);
  match r with
  | Err e => if decide (e = ErrNotExist) then mret (zeroState <| s_Running := false |>)
             else throw e
  | Ok x => match as_state x with
            | Some st => mret st
            | None => throw (Errorf "json: cannot unmarshal" [])
            end
  end.

Definition ClearState (name : string) : GoM FS error unit :=
  r ← attempt (Remove name stateFile);
  match r with
  | Ok _ => mret tt
  | Err e => if decide (e = ErrNotExist) then mret tt else throw e
  end.

(** [os.ReadDir] lists in name order; a directory whose config does not load
    is skipped. *)
Fixpoint load_each (names : list string) : GoM FS error (list VMConfig) :=
  match names with
  | [] => mret []
  | n :: ns =>
      r ← attempt (LoadConfig n);
      cs ← load_each ns;
      mret (match r with Ok c => c :: cs | Err _ => cs end)
  end.

Definition ListAll : GoM FS error (list VMConfig) := λ f,
  match fs_read_fault f with
  | Some e => (Err e, f)
  | None => load_each (merge_sort String.le (map_to_list (vmdirs f)).*1) f
  end.

#[global] Instance FileStore : VMStore FS := {
  saveConfig := SaveConfig;
  loadConfig := LoadConfig;
  saveState := SaveStateForVM;
  loadState := LoadState;
  listAllConfigs := ListAll;
  deleteRecords _ := mret tt;
}.

Definition fs_cfg_view (f : FS) : gmap string VMConfig :=
  omap (λ ents : gmap string content, ents !! configFile ≫= as_config) (vmdirs f).
Definition fs_st_view (f : FS) : gmap string VMState :=
  omap (λ ents : gmap string content, ents !! stateFile ≫= as_state) (vmdirs f).

(** No pending fault, and every [state.json] decodes. *)
Record fs_healthy (f : FS) : Prop := {
  no_read_fault : fs_read_fault f = None;
  no_write_fault : fs_write_fault f = None;
  no_rename_fault : fs_rename_fault f = None;
  states_decode : ∀ n ents x, vmdirs f !! n = Some ents →
    ents !! stateFile = Some x → is_Some (as_state x);
}.

(** *** Lemmas *)
Lemma ReadFile_pure d n f : (ReadFile d n f).2 = f.
Proof. unfold ReadFile. by repeat case_match. Qed.

Lemma replace_via_tmp (m : gmap string (gmap string content)) d n t x ents :
  alter (λ ents, <[n := x]> (delete t ents)) d (<[d := <[t := x]> ents]> m) =
  <[d := <[n := x]> (delete t ents)]> m.
Proof.
  apply map_eq. intros i. rewrite lookup_alter, !lookup_insert.
  repeat case_decide; simplify_eq/=; try done. by rewrite delete_insert_eq.
Qed.

(** An [atomicWrite] that succeeds replaces one entry and leaves no other
    entry changed, the temporary file included. *)
Lemma atomicWrite_run d n x f ents :
  fs_write_fault f = None → fs_rename_fault f = None → vmdirs f !! d = Some ents →
  atomicWrite d n x f =
    (Ok tt, f <| vmdirs := <[d := <[n := x]> (delete (n +:+ ".tmp") ents)]> (vmdirs f) |>).
Proof.
  intros Hw Hr Hd. unfold atomicWrite. rewrite run_bind. unfold WriteFile.
  rewrite Hw, Hd. unfold Rename. cbn. rewrite Hr, lookup_insert_eq. cbn.
  rewrite lookup_insert_eq. f_equal. unfold update; cbn. f_equal.
  apply replace_via_tmp.
Qed.

Lemma atomicWrite_other d n x f : ∀ d' n',
  (d', n') ≠ (d, n) → (d', n') ≠ (d, n +:+ ".tmp") →
  (vmdirs (atomicWrite d n x f).2 !! d' ≫= lookup n') = (vmdirs f !! d' ≫= lookup n').
Proof.
  intros d' n' H1 H2. unfold atomicWrite. rewrite run_bind. unfold WriteFile.
  destruct (fs_write_fault f); [done|]. destruct (vmdirs f !! d) eqn:Hd; [|done].
  unfold Rename. cbn. destruct (fs_rename_fault f); cbn.
  - rewrite lookup_insert. case_decide; [subst|done]. rewrite Hd. cbn.
    rewrite lookup_insert_ne; [done | naive_solver].
  - rewrite lookup_insert_eq. cbn. rewrite lookup_insert_eq. cbn.
    rewrite replace_via_tmp, lookup_insert. case_decide; [subst|done].
    rewrite Hd. cbn. rewrite lookup_insert_ne by naive_solver.
    by rewrite lookup_delete_ne by naive_solver.
Qed.

Lemma as_view_insert {A} (f : content → option A) key x d n ents (m : gmap string (gmap string content)) :
  m !! d = Some ents →
  n ≠ key → n +:+ ".tmp" ≠ key →
  omap (λ e : gmap string content, e !! key ≫= f)
    (<[d := <[n := x]> (delete (n +:+ ".tmp") ents)]> m) =
  omap (λ e : gmap string content, e !! key ≫= f) m.
Proof.
  intros Hd Hn Ht. apply map_eq. intros i. rewrite !lookup_omap, lookup_insert.
  case_decide; [subst|done]. rewrite Hd. cbn.
  by rewrite lookup_insert_ne, lookup_delete_ne.
Qed.

Lemma as_view_update {A} (f : content → option A) x a d n ents (m : gmap string (gmap string content)) :
  f x = Some a →
  omap (λ e : gmap string content, e !! n ≫= f)
    (<[d := <[n := x]> (delete (n +:+ ".tmp") ents)]> m) =
  <[d := a]> (omap (λ e : gmap string content, e !! n ≫= f) m).
Proof.
  intros Hx. apply map_eq. intros i. rewrite lookup_omap, !lookup_insert.
  case_decide; [subst|by rewrite lookup_omap]. cbn. by rewrite lookup_insert_eq.
Qed.

Lemma LoadConfig_pure n f : (LoadConfig n f).2 = f.
Proof.
  unfold LoadConfig. rewrite run_bind. pose proof (ReadFile_pure n configFile f).
  destruct (ReadFile n configFile f) as [[x|e] f']; simplify_eq/=; [|done].
  by destruct (as_config x).
Qed.

Lemma LoadState_pure n f : (LoadState n f).2 = f.
Proof.
  unfold LoadState. rewrite run_bind. unfold attempt.
  pose proof (ReadFile_pure n stateFile f).
  destruct (ReadFile n stateFile f) as [[x|e] f']; simplify_eq/=.
  - by destruct (as_state x).
  - by case_decide.
Qed.

Lemma LoadConfig_spec n f :
  fs_read_fault f = None →
  ∀ c, (LoadConfig n f).1 = Ok c ↔ fs_cfg_view f !! n = Some c.
Proof.
  intros Hr c. unfold LoadConfig, ReadFile, fs_cfg_view.
  rewrite run_bind, Hr, lookup_omap.
  destruct (vmdirs f !! n) as [ents|]; cbn; [|naive_solver].
  destruct (ents !! configFile) as [x|]; cbn; [|naive_solver].
  destruct (as_config x); cbn; naive_solver.
Qed.

Lemma load_each_spec ns f : fs_read_fault f = None →
  ∃ cs, load_each ns f = (Ok cs, f) ∧
    ∀ c, c ∈ cs ↔ ∃ n, n ∈ ns ∧ fs_cfg_view f !! n = Some c.
Proof.
  intros Hr. induction ns as [|n ns (cs & IH & Hcs)]; cbn.
  { exists []. split; [done|]. set_solver. }
  pose proof (LoadConfig_spec n f Hr) as Hn.
  pose proof (LoadConfig_pure n f) as Hp.
  rewrite run_bind. unfold attempt.
  destruct (LoadConfig n f) as [r f']; simplify_eq/=. rewrite run_bind, IH.
  eexists; split; [done|]. intros c. destruct r as [c0|e].
  - rewrite elem_of_cons, Hcs. setoid_rewrite elem_of_cons.
    specialize (Hn c0) as Hc0. split.
    + intros [->|(n' & ? & ?)]; [exists n; split; [by left | by apply Hc0]|eauto].
    + intros (n' & [->|?] & Hv); [|eauto]. left. by apply Hn in Hv as [= ->].
  - rewrite Hcs. setoid_rewrite elem_of_cons. split; [naive_solver|].
    intros (n' & [->|?] & Hv); [|eauto]. by apply Hn in Hv.
Qed.

Lemma load_each_NoDup ns f cs f' :
  (∀ n c, fs_cfg_view f !! n = Some c → c_Name c = n) → NoDup ns →
  fs_read_fault f = None → load_each ns f = (Ok cs, f') → NoDup (c_Name <$> cs).
Proof.
  intros Hn Hnd Hr. revert cs f'. induction Hnd as [|n ns Hin Hnd IH]; intros cs f'; cbn.
  { intros [= <- <-]. constructor. }
  destruct (load_each_spec ns f Hr) as (cs0 & E0 & Hcs0).
  pose proof (LoadConfig_spec n f Hr) as Hl. pose proof (LoadConfig_pure n f) as Hp.
  rewrite run_bind. unfold attempt. destruct (LoadConfig n f) as [r f0]. cbn in Hp. subst f0.
  rewrite run_bind, E0. intros [= <- <-]. specialize (IH _ _ E0).
  destruct r as [c|e]; [|done]. cbn. constructor; [|done].
  rewrite list_elem_of_fmap. intros (c' & Hc' & Hin').
  apply Hcs0 in Hin' as (n' & Hn' & Hv). apply Hn in Hv.
  assert (c_Name c = n) by (apply Hn; by apply Hl). congruence.
Qed.

Lemma atomicWrite_err d n x f e f' :
  (∀ s, n ≠ s +:+ ".tmp") → atomicWrite d n x f = (Err e, f') → ∀ d' n',
  (∀ s, n' ≠ s +:+ ".tmp") →
  (vmdirs f' !! d' ≫= lookup n') = (vmdirs f !! d' ≫= lookup n').
Proof.
  intros Hn. unfold atomicWrite. rewrite run_bind. unfold WriteFile.
  destruct (fs_write_fault f); [by intros; simplify_eq|].
  destruct (vmdirs f !! d) eqn:Hd; [|by intros; simplify_eq].
  unfold Rename. cbn. destruct (fs_rename_fault f); cbn.
  - intros [= <- <-] d' n' Hn'. cbn. rewrite lookup_insert.
    case_decide; [subst|done]. rewrite Hd. cbn.
    by rewrite lookup_insert_ne.
  - rewrite lookup_insert_eq. cbn. by rewrite lookup_insert_eq.
Qed.

Lemma tmp_ne_config s : configFile ≠ s +:+ ".tmp".
Proof.
  intros H. apply (f_equal (λ s, HasSuffix s ".tmp")) in H.
  rewrite HasSuffix_app in H. done.
Qed.
Lemma tmp_ne_state s : stateFile ≠ s +:+ ".tmp".
Proof.
  intros H. apply (f_equal (λ s, HasSuffix s ".tmp")) in H.
  rewrite HasSuffix_app in H. done.
Qed.

Lemma view_ext {A} (g : content → option A) key (m m' : gmap string (gmap string content)) :
  (∀ d, (m !! d ≫= lookup key) = (m' !! d ≫= lookup key)) →
  omap (λ e : gmap string content, e !! key ≫= g) m =
  omap (λ e : gmap string content, e !! key ≫= g) m'.
Proof.
  intros H. apply map_eq. intros d. rewrite !lookup_omap. specialize (H d).
  destruct (m !! d), (m' !! d); cbn in *;
    [by rewrite H | by rewrite H | by rewrite <-H | done].
Qed.

Lemma healthy_insert f d n x ents :
  fs_healthy f → vmdirs f !! d = Some ents → (n = stateFile → is_Some (as_state x)) →
  fs_healthy (f <| vmdirs := <[d := <[n := x]> (delete (n +:+ ".tmp") ents)]> (vmdirs f) |>).
Proof.
  intros [Hr Hw Hn Hs] Hd Hx. split; cbn; [done..|].
  intros d' ents' y. rewrite lookup_insert. case_decide; [|by apply Hs].
  intros [= <-]. rewrite lookup_insert. case_decide; [naive_solver|].
  rewrite lookup_delete. case_decide; [done|]. subst. by eapply Hs.
Qed.

Lemma mkdir_view {A} (g : content → option A) key d (m : gmap string (gmap string content)) :
  omap (λ e : gmap string content, e !! key ≫= g) (<[d := default ∅ (m !! d)]> m) =
  omap (λ e : gmap string content, e !! key ≫= g) m.
Proof.
  apply view_ext. intros d'. rewrite lookup_insert. case_decide; [subst|done].
  by destruct (m !! d').
Qed.

Lemma SaveConfig_run c f : fs_healthy f → ∃ f',
  SaveConfig c f = (Ok tt, f') ∧ fs_healthy f' ∧ fs_st_view f' = fs_st_view f ∧
  fs_cfg_view f' = <[c_Name c := persisted c]> (fs_cfg_view f).
Proof.
  intros Hf. pose proof Hf as [Hr Hw Hn Hs].
  unfold SaveConfig. rewrite run_bind. unfold MkdirAll. rewrite Hw.
  set (f1 := f <| vmdirs := _ |>).
  assert (Hf1 : fs_healthy f1).
  { split; cbn; [done..|]. intros d ents x. rewrite lookup_insert.
    case_decide; [|by eapply Hs]. intros [= <-].
    destruct (vmdirs f !! c_Name c) eqn:E; cbn; [subst; by eapply Hs|done]. }
  assert (Hd : vmdirs f1 !! c_Name c = Some (default ∅ (vmdirs f !! c_Name c)))
    by (cbn; by rewrite lookup_insert_eq).
  erewrite atomicWrite_run by done. eexists; split; [done|]. split_and!.
  - by apply healthy_insert.
  - unfold fs_st_view. cbn. erewrite as_view_insert; [by apply mkdir_view|exact Hd|done|done].
  - unfold fs_cfg_view. cbn. erewrite as_view_update; [|done]. by rewrite mkdir_view.
Qed.

Lemma SaveConfig_err c f e f' : SaveConfig c f = (Err e, f') →
  fs_cfg_view f' = fs_cfg_view f ∧ fs_st_view f' = fs_st_view f.
Proof.
  unfold SaveConfig. rewrite run_bind. unfold MkdirAll.
  destruct (fs_write_fault f); [by intros; simplify_eq|]. intros H.
  pose proof (atomicWrite_err _ _ _ _ _ _ tmp_ne_config H) as Hv.
  unfold fs_cfg_view, fs_st_view. split.
  - rewrite <-(mkdir_view as_config _ (c_Name c) (vmdirs f)).
    apply view_ext. intros d. apply Hv, tmp_ne_config.
  - rewrite <-(mkdir_view as_state _ (c_Name c) (vmdirs f)).
    apply view_ext. intros d. apply Hv, tmp_ne_state.
Qed.

Lemma SaveState_run n st f : fs_healthy f → is_Some (fs_cfg_view f !! n) → ∃ f',
  SaveStateForVM n st f = (Ok tt, f') ∧ fs_healthy f' ∧
  fs_cfg_view f' = fs_cfg_view f ∧ fs_st_view f' = <[n := st]> (fs_st_view f).
Proof.
  intros Hf [c Hc]. pose proof Hf as [Hr Hw Hn Hs].
  unfold fs_cfg_view in Hc. rewrite lookup_omap in Hc.
  destruct (vmdirs f !! n) as [ents|] eqn:Hd; [|done].
  unfold SaveStateForVM. erewrite atomicWrite_run by done.
  eexists; split; [done|]. split_and!.
  - apply healthy_insert; [done..|by eauto].
  - unfold fs_cfg_view. cbn. by erewrite as_view_insert.
  - unfold fs_st_view. cbn. by erewrite as_view_update.
Qed.

Lemma LoadState_ok n f : fs_healthy f →
  (LoadState n f).1 = Ok (default zeroState (fs_st_view f !! n)).
Proof.
  intros [Hr _ _ Hs]. unfold LoadState, attempt, ReadFile, fs_st_view.
  rewrite run_bind, Hr, lookup_omap.
  destruct (vmdirs f !! n) as [ents|] eqn:Hd; cbn; [|done].
  destruct (ents !! stateFile) as [x|] eqn:Hx; cbn; [|done].
  destruct (Hs _ _ _ Hd Hx) as [st ->]. done.
Qed.

Lemma tmp_ne n : n ≠ n +:+ ".tmp".
Proof.
  intros H. apply (f_equal String.length) in H. rewrite length_append in H. cbn in H. lia.
Qed.

#[global] Program Instance FileStoreLaws : VMStoreLaws FS := {
  cfg_view := fs_cfg_view;
  st_view := fs_st_view;
  healthy := fs_healthy;
}.
Next Obligation. apply LoadConfig_pure. Qed.
Next Obligation. apply LoadState_pure. Qed.
Next Obligation.
  intros f. cbn. unfold ListAll. destruct (fs_read_fault f) eqn:Hr; [done|].
  by destruct (load_each_spec (merge_sort String.le (map_to_list (vmdirs f)).*1) f Hr)
    as (cs & -> & _).
Qed.
Next Obligation. intros n f c Hf. apply LoadConfig_spec, Hf. Qed.
Next Obligation. apply LoadState_ok. Qed.
Next Obligation.
  intros f [Hr _ _ _]. cbn. unfold ListAll. rewrite Hr.
  destruct (load_each_spec (merge_sort String.le (map_to_list (vmdirs f)).*1) f Hr)
    as (cs & E & Hcs).
  rewrite E. exists cs; split; [done|]. split; [|intros Hn; eapply load_each_NoDup; [exact Hn| |exact Hr|done]].
  2: { rewrite merge_sort_Permutation. apply NoDup_fst_map_to_list. }
  intros c. rewrite Hcs. split; [naive_solver|].
  intros (n & Hn). exists n. split; [|done]. rewrite merge_sort_Permutation.
  unfold fs_cfg_view in Hn. rewrite lookup_omap in Hn.
  destruct (vmdirs f !! n) as [ents|] eqn:Hd; [|done].
  apply list_elem_of_fmap. exists (n, ents). split; [done|].
  by apply elem_of_map_to_list.
Qed.
Next Obligation. apply SaveConfig_run. Qed.
Next Obligation. apply SaveState_run. Qed.
Next Obligation. apply SaveConfig_err. Qed.
Next Obligation.
  intros n st f e f' H. cbn. unfold fs_st_view. apply view_ext. intros d.
  eapply atomicWrite_err; [apply tmp_ne_state | exact H | apply tmp_ne_state].
Qed.

(** [atomicWrite] is atomic for readers: after the temporary file has
    been written the target still holds its old bytes, and at the end it
    holds the new value if the call succeeded and the old one if it failed. *)
Theorem atomicWrite_atomic d n x f :
  let f1 := (WriteFile d (n +:+ ".tmp") x f).2 in
  (vmdirs f1 !! d ≫= lookup n) = (vmdirs f !! d ≫= lookup n) ∧
  let '(r, f2) := atomicWrite d n x f in
  (vmdirs f2 !! d ≫= lookup n) = if is_ok r then Some x else (vmdirs f !! d ≫= lookup n).
Proof.
  pose proof (tmp_ne n) as Hne. cbv zeta. unfold atomicWrite. rewrite run_bind. unfold WriteFile.
  destruct (fs_write_fault f); [done|]. destruct (vmdirs f !! d) as [ents|] eqn:Hd; [|cbn; by rewrite Hd].
  cbn. rewrite !lookup_insert_eq. cbn. rewrite lookup_insert_ne by done.
  split; [done|]. unfold Rename. cbn. rewrite lookup_insert_eq. cbn.
  destruct (fs_rename_fault f); cbn.
  - rewrite lookup_insert_eq. cbn. by rewrite lookup_insert_ne.
  - rewrite lookup_insert_eq. cbn. rewrite replace_via_tmp, lookup_insert_eq. cbn.
    by rewrite lookup_insert_eq.
Qed.
End Files.
