(* ===== verification/World.v ===== *)
(** * The host and the world the manager acts on

    [internal/platform/platform.go] (what the host is), the process, port and
    file primitives of [internal/vm/manager.go] and [internal/vm/store.go], and
    [internal/vm/hostname.go] (entries in /etc/hosts).

    The [World] holds what the manager reads and changes besides its own
    fields: the VM store, live processes, bound ports, existing files, the
    lines of /etc/hosts, the helper's stop results, the QEMU logs, the clock,
    and the watcher goroutines it has spawned. *)
From S2P Require Import Prelude GoStrings Config Store.

Open Scope Z_scope.

(** ** platform *)
Record Host := mkHost {
  GOOS : string;
  GOARCH : string;
}.

Definition HostOS (h : Host) : string := GOOS h.
Definition HostArch (h : Host) : string := GOARCH h.
Definition IsMacOS (h : Host) : bool := bool_decide (GOOS h = "darwin").
Definition IsLinux (h : Host) : bool := bool_decide (GOOS h = "linux").
Definition IsWindows (h : Host) : bool := bool_decide (GOOS h = "windows").

Definition GuestArchForHostArch (goarch : string) : string :=
  if bool_decide (goarch = "arm64") then "aarch64"
  else if bool_decide (goarch = "amd64") then "x86_64"
  else "x86_64".
Definition DefaultGuestArch (h : Host) : string := GuestArchForHostArch (GOARCH h).

Definition DefaultAccelerator (h : Host) : string :=
  if bool_decide (GOOS h = "darwin") then "hvf"
  else if bool_decide (GOOS h = "linux") then "kvm"
  else if bool_decide (GOOS h = "windows") then "whpx"
  else "tcg".

Definition MachineTypeForArch (arch : string) : string :=
  if bool_decide (arch = "aarch64") || bool_decide (arch = "arm64") then "virt" else "q35".
Definition DefaultMachineType (h : Host) : string := MachineTypeForArch (DefaultGuestArch h).
Definition QemuBinaryName (arch : string) : string := "qemu-system-" +:+ arch.
Definition DefaultQemuBinaryName (h : Host) : string := QemuBinaryName (DefaultGuestArch h).

Definition SupportsVFIO (h : Host) : bool := IsLinux h.
Definition SupportsVsock (h : Host) : bool := IsLinux h.
Definition SupportsVirtiofsd (h : Host) : bool := IsLinux h.
Definition SupportsBridgeNetworking (h : Host) : bool := IsLinux h.
Definition SupportsCPUPinning (h : Host) : bool := IsLinux h.
Definition SupportsSwTPM (h : Host) : bool := IsLinux h.

Definition effectiveBridge (h : Host) (c : VMConfig) : bool :=
  bool_decide (nic_Mode (c_NIC c) = "bridge") && SupportsBridgeNetworking h.

(** ** The world *)

(** [vzhelper.Result]: the stop outcome a vz helper leaves on disk. *)
Record VZResult := mkVZResult { res_StopRequested : bool; res_Error : string }.

(** A goroutine started for a VM's lifetime: its name and the socket watched. *)
Inductive watcher :=
| WatchQMP (name sock : string)
| WatchVZ (name sock : string).
#[export] Instance watcher_eq_dec : EqDecision watcher.
Proof. solve_decision. Defined.

Record World (S : Type) := mkWorld {
  w_store : S;
  w_alive : gset Z;
  (** processes that exit within the stop deadline when asked to power down *)
  w_acpi : gset Z;
  (** processes that do not exit on SIGTERM *)
  w_ignore_term : gset Z;
  w_ports : gset Z;
  (** the port the kernel hands out for a [:0] listen, if any *)
  w_free_port : option Z;
  w_files : gset string;
  w_hosts : list string;
  w_hosts_readable : bool;
  w_hosts_writable : bool;
  w_sudo : bool;
  w_vzresult : gmap string VZResult;
  w_qemulog : gmap string string;
  w_now : Z;
  w_watchers : list watcher;
}.
Arguments mkWorld {S} _ _ _ _ _ _ _ _ _ _ _ _ _ _ _ : assert.
Arguments w_store {S} _ : assert.
Arguments w_alive {S} _ : assert.
Arguments w_acpi {S} _ : assert.
Arguments w_ignore_term {S} _ : assert.
Arguments w_ports {S} _ : assert.
Arguments w_free_port {S} _ : assert.
Arguments w_files {S} _ : assert.
Arguments w_hosts {S} _ : assert.
Arguments w_hosts_readable {S} _ : assert.
Arguments w_hosts_writable {S} _ : assert.
Arguments w_sudo {S} _ : assert.
Arguments w_vzresult {S} _ : assert.
Arguments w_qemulog {S} _ : assert.
Arguments w_now {S} _ : assert.
Arguments w_watchers {S} _ : assert.
#[export] Instance World_eta {S} : Settable (World S) := λ w,
  mkWorld (w_store w) (w_alive w) (w_acpi w) (w_ignore_term w) (w_ports w)
    (w_free_port w) (w_files w) (w_hosts w) (w_hosts_readable w)
    (w_hosts_writable w) (w_sudo w)
    (w_vzresult w) (w_qemulog w) (w_now w) (w_watchers w).

(** ** /etc/hosts *)
Definition hostsMarker : string := "# vee-managed".

(** A line is dropped when it contains both the marker and the hostname. *)
Definition hosts_match (hostname line : string) : bool :=
  Contains line hostsMarker && Contains line hostname.
Definition keep_lines (hostname : string) (lines : list string) : list string :=
  filter (λ l, hosts_match hostname l = false) lines.

Definition hosts_entry (hostname ip : string) : string :=
  ip +:+ String "009" "" +:+ hostname +:+ String "009" "" +:+ hostname +:+ ".local " +:+ hostsMarker.

Section Prims.
Context {S : Type} `{VMStore S}.
Abbreviation M := (GoM (World S) error).

(** Run a store operation inside the world. *)
Definition st {A} (m : GoM S error A) : M A := λ w,
  let '(r, s') := m (w_store w) in (r, w <| w_store := s' |>).

(** *** Processes *)
Definition isAlive_in (w : World S) (pid : Z) : bool :=
  if pid <=? 0 then false else bool_decide (pid ∈ w_alive w).
Definition isAlive (pid : Z) : M bool := gets (λ w, isAlive_in w pid).

(** [proc.Kill()] and [terminateProcess], errors dropped. *)
Definition kill (pid : Z) : M unit :=
  modify (λ w, w <| w_alive := w_alive w ∖ {[pid]} |>).
Definition terminateProcess (pid : Z) : M unit :=
  modify (λ w, if bool_decide (pid ∈ w_ignore_term w) then w
               else w <| w_alive := w_alive w ∖ {[pid]} |>).

(** *** Ports *)
Definition isPortInUse (port : Z) : M bool := gets (λ w, bool_decide (port ∈ w_ports w)).
Definition isPortFree (port : Z) : M bool := gets (λ w, negb (bool_decide (port ∈ w_ports w))).
Definition freeTCPPort : M Z :=
  p ← gets w_free_port;
  match p with
  | Some p => mret p
  | None => throw (Errorf "listen tcp 127.0.0.1:0" [])
  end.

(** The scan of [availablePort]: the first free port of [n] candidates from
    [p] on, skipping the preferred one. *)
Fixpoint scan_ports (used : gset Z) (preferred p : Z) (n : nat) : option Z :=
  match n with
  | O => None
  | Datatypes.S n =>
      if negb (bool_decide (p = preferred)) && negb (bool_decide (p ∈ used)) then Some p
      else scan_ports used preferred (p + 1) n
  end.
Definition available_in (used : gset Z) (preferred lo hi : Z) : Z :=
  if bool_decide (preferred ∈ used)
  then default preferred (scan_ports used preferred lo (Z.to_nat (hi - lo + 1)))
  else preferred.
Definition availablePort (preferred lo hi : Z) : M Z :=
  gets (λ w, available_in (w_ports w) preferred lo hi).

(** *** Host names *)
(** [sudo -n tee] on the hosts file. *)
Definition write_hosts (f : list string → list string) : M unit :=
  ok ← gets w_sudo;
  if (ok : bool) then modify (λ w, w <| w_hosts := f (w_hosts w) |>)
  else throw (Errorf "write /etc/hosts" []).

Definition removeHostsEntry (hostname : string) : M unit :=
  readable ← gets w_hosts_readable;
  if negb readable then throw (Errorf "open /etc/hosts" []) else
  lines ← gets w_hosts;
  let kept := keep_lines hostname lines in
  if bool_decide (length kept = length lines) then mret tt
  else write_hosts (λ _, kept).

Definition UnregisterHostname (hostname : string) : M unit := removeHostsEntry hostname.

Definition RegisterHostname (hostname ip : string) : M unit :=
  _ ← removeHostsEntry hostname;
  write_hosts (λ lines, lines ++ [hosts_entry hostname ip]).

(** Writable file or passwordless sudo. *)
Definition CanWriteHosts : M bool := gets (λ w, w_hosts_writable w || w_sudo w).
End Prims.

(** ** Lemmas *)
Section PrimLemmas.
Context {S : Type} `{VMStoreLaws S}.
Implicit Types w : World S.

Lemma st_run {A} (m : GoM S error A) w r s' :
  m (w_store w) = (r, s') → st m w = (r, w <| w_store := s' |>).
Proof. intros E. unfold st. by rewrite E. Qed.

Lemma world_store_id w : w <| w_store := w_store w |> = w.
Proof. by destruct w. Qed.

Lemma st_loadState n w : healthy (w_store w) →
  st (loadState n) w = (Ok (default zeroState (st_view (w_store w) !! n)), w).
Proof.
  intros Hh. pose proof (loadState_ok n _ Hh) as H1. pose proof (loadState_pure n (w_store w)) as H2.
  unfold st. destruct (loadState n (w_store w)) as [r s]. cbn in *. subst.
  by rewrite world_store_id.
Qed.

Lemma st_loadConfig n w c : healthy (w_store w) → cfg_view (w_store w) !! n = Some c →
  st (loadConfig n) w = (Ok c, w).
Proof.
  intros Hh Hc. apply (loadConfig_ok n _ c Hh) in Hc. pose proof (loadConfig_pure n (w_store w)) as H2.
  unfold st. destruct (loadConfig n (w_store w)) as [r s]. cbn in *. subst.
  by rewrite world_store_id.
Qed.

Lemma st_loadConfig_none n w : healthy (w_store w) → cfg_view (w_store w) !! n = None →
  ∃ e, st (loadConfig n) w = (Err e, w).
Proof.
  intros Hh Hc. pose proof (loadConfig_pure n (w_store w)) as H2.
  pose proof (λ c, loadConfig_ok n _ c Hh) as H1.
  unfold st. destruct (loadConfig n (w_store w)) as [[c|e] s]; cbn in *; subst.
  - specialize (H1 c) as [H1 _]. rewrite H1 in Hc by done. done.
  - exists e. by rewrite world_store_id.
Qed.

Lemma st_saveState n x w : healthy (w_store w) → is_Some (cfg_view (w_store w) !! n) →
  ∃ s', st (saveState n x) w = (Ok tt, w <| w_store := s' |>) ∧ healthy s' ∧
    cfg_view s' = cfg_view (w_store w) ∧ st_view s' = <[n := x]> (st_view (w_store w)).
Proof.
  intros Hh Hc. destruct (saveState_ok n x _ Hh Hc) as (s' & E & ?).
  exists s'. split; [by apply st_run | done].
Qed.

Lemma st_saveConfig c w : healthy (w_store w) →
  ∃ s', st (saveConfig c) w = (Ok tt, w <| w_store := s' |>) ∧ healthy s' ∧
    st_view s' = st_view (w_store w) ∧
    cfg_view s' = <[c_Name c := persisted c]> (cfg_view (w_store w)).
Proof.
  intros Hh. destruct (saveConfig_ok c _ Hh) as (s' & E & ?).
  exists s'. split; [by apply st_run | done].
Qed.

(** Host-name work leaves the store and the processes alone. *)
Lemma removeHostsEntry_frame hn w :
  w_store (removeHostsEntry hn w).2 = w_store w ∧
  w_alive (removeHostsEntry hn w).2 = w_alive w.
Proof.
  unfold removeHostsEntry. rewrite run_bind. cbn.
  destruct (w_hosts_readable w); cbn; [|done]. rewrite run_bind. cbn.
  case_bool_decide; [done|]. unfold write_hosts. rewrite run_bind. cbn.
  by destruct (w_sudo w).
Qed.

Lemma scan_ports_spec used pref p n q :
  scan_ports used pref p n = Some q →
  (p ≤ q < p + Z.of_nat n) ∧ (q ∉ used) ∧ q ≠ pref.
Proof.
  revert p. induction n as [|n IH]; intros p Hs; [done|]. cbn in Hs.
  case_bool_decide; cbn in Hs.
  - apply IH in Hs as (? & ? & ?). split_and!; [lia|lia|done|done].
  - case_bool_decide; cbn in Hs.
    + apply IH in Hs as (? & ? & ?). split_and!; [lia|lia|done|done].
    + simplify_eq. split_and!; [lia|lia|done|done].
Qed.

Lemma scan_ports_none used pref p n :
  scan_ports used pref p n = None →
  ∀ q, p ≤ q < p + Z.of_nat n → q ≠ pref → q ∈ used.
Proof.
  revert p. induction n as [|n IH]; intros p Hs q Hq Hne; [lia|]. cbn in Hs.
  destruct (decide (q = p)) as [->|].
  - case_bool_decide; [done|]. cbn in Hs. by case_bool_decide; cbn in Hs.
  - case_bool_decide; cbn in Hs; [|case_bool_decide; cbn in Hs; [|done]];
      (apply (IH (p + 1)); [done|lia|done]).
Qed.
End PrimLemmas.

(** ** Host entries *)
Lemma entry_has_marker hn ip : ∃ a b, hosts_entry hn ip = a +:+ hostsMarker +:+ b.
Proof.
  exists (ip +:+ String "009" "" +:+ hn +:+ String "009" "" +:+ hn +:+ ".local "), "".
  unfold hosts_entry. rewrite append_nil, !append_assoc. reflexivity.
Qed.

Lemma keep_lines_app hn l1 l2 : keep_lines hn (l1 ++ l2) = keep_lines hn l1 ++ keep_lines hn l2.
Proof. apply filter_app. Qed.
Lemma keep_lines_idemp hn l : keep_lines hn (keep_lines hn l) = keep_lines hn l.
Proof. by apply list_filter_filter_l. Qed.
Lemma keep_lines_entry hn ip : keep_lines hn [hosts_entry hn ip] = [].
Proof.
  unfold keep_lines. rewrite filter_cons_False; [done|].
  unfold hosts_match. rewrite (proj2 (Contains_spec _ hostsMarker)), (proj2 (Contains_spec _ hn)).
  - done.
  - exists (ip +:+ String "009" ""). eexists.
    unfold hosts_entry. rewrite !append_assoc. reflexivity.
  - apply entry_has_marker.
Qed.

Lemma removeHostsEntry_run {S : Type} hn (w : World S) :
  w_sudo w = true → w_hosts_readable w = true →
  ∃ w', removeHostsEntry hn w = (Ok tt, w') ∧ w_hosts w' = keep_lines hn (w_hosts w) ∧
    w_sudo w' = true ∧ w_hosts_readable w' = true.
Proof.
  intros Hs Hr. unfold removeHostsEntry. rewrite run_gets, Hr. cbn -[write_hosts].
  rewrite run_gets. case_bool_decide as El.
  - exists w. split_and!; [done| |done|done]. unfold keep_lines in *.
    clear -El. induction (w_hosts w) as [|l ls IH]; [done|].
    rewrite filter_cons in *. case_decide; cbn in *.
    + f_equal. apply IH. lia.
    + pose proof (length_filter (λ l, hosts_match hn l = false) ls). lia.
  - unfold write_hosts. rewrite run_gets, Hs. eexists; split; [done|].
    split_and!; [done|exact Hs|exact Hr].
Qed.

(** ** Theorems *)

(** [availablePort] returns the preferred port when it is free; otherwise
    the first free port of the range, and the preferred one again only when
    the whole range is taken. *)
Theorem availablePort_spec used preferred lo hi :
  let p := available_in used preferred lo hi in
  (preferred ∉ used → p = preferred) ∧
  (p ∈ used → p = preferred ∧ ∀ q, lo ≤ q ≤ hi → q ∈ used) ∧
  (p ≠ preferred → lo ≤ p ≤ hi ∧ p ∉ used).
Proof.
  cbv zeta. unfold available_in. case_bool_decide as Hp; [|by split_and!].
  destruct (scan_ports used preferred lo (Z.to_nat (hi - lo + 1))) as [q|] eqn:E; cbn.
  - apply scan_ports_spec in E as (? & ? & ?). split_and!; [done|done|].
    intros _. split; [lia|done].
  - split_and!; [done| |done]. intros _. split; [done|]. intros q Hq.
    destruct (decide (q = preferred)) as [->|Hne]; [done|].
    eapply scan_ports_none; [exact E|lia|done].
Qed.

(** Registering a host name and unregistering it again leaves no managed
    line for that name and every line vee does not manage untouched, in
    order, as long as sudo is available. *)
Theorem hosts_roundtrip {S : Type} hn ip (w : World S) :
  w_sudo w = true → w_hosts_readable w = true →
  ∃ w1 w2, RegisterHostname hn ip w = (Ok tt, w1) ∧
    UnregisterHostname hn w1 = (Ok tt, w2) ∧
    w_hosts w2 = keep_lines hn (w_hosts w) ∧
    hosts_entry hn ip ∈ w_hosts w1 ∧
    filter (λ l, Contains l hostsMarker = false) (w_hosts w2) =
      filter (λ l, Contains l hostsMarker = false) (w_hosts w).
Proof.
  intros Hs Hr.
  destruct (removeHostsEntry_run hn w Hs Hr) as (w0 & E0 & H0 & Hs0 & Hr0).
  unfold RegisterHostname, UnregisterHostname.
  set (w1 := w0 <| w_hosts := w_hosts w0 ++ [hosts_entry hn ip] |>).
  destruct (removeHostsEntry_run hn w1) as (w2 & E2 & H2 & _ & _); [done..|].
  exists w1, w2. rewrite run_bind, E0. unfold write_hosts. rewrite run_gets, Hs0.
  split; [done|]. split; [done|]. rewrite H2.
  change (w_hosts w1) with (w_hosts w0 ++ [hosts_entry hn ip]).
  rewrite H0, keep_lines_app, keep_lines_idemp.
  rewrite (keep_lines_entry hn ip), app_nil_r. split; [done|]. split; [set_solver|].
  unfold keep_lines. apply list_filter_filter_l. intros l Hl. unfold hosts_match. by rewrite Hl.
Qed.

(** Host-name entries are matched by substring: unregistering one VM's
    name removes the entry of any other VM whose name contains it. *)
Theorem hosts_overmatch a hn b ip :
  keep_lines hn [hosts_entry (a +:+ hn +:+ b) ip] = [].
Proof.
  unfold keep_lines. rewrite filter_cons_False; [done|].
  unfold hosts_match. rewrite (proj2 (Contains_spec _ hostsMarker)), (proj2 (Contains_spec _ hn)).
  - done.
  - exists (ip +:+ String "009" "" +:+ a).
    eexists. unfold hosts_entry. rewrite !append_assoc. reflexivity.
  - apply entry_has_marker.
Qed.

Lemma hosts_roundtrip_witness :
  let w := mkWorld tt ∅ ∅ ∅ ∅ None ∅ ["127.0.0.1 localhost"] true true true ∅ ∅ 0 [] in
  ∃ w1 w2, RegisterHostname "nas" "10.0.0.7" w = (Ok tt, w1) ∧
    UnregisterHostname "nas" w1 = (Ok tt, w2) ∧
    w_hosts w2 = keep_lines "nas" (w_hosts w) ∧
    hosts_entry "nas" "10.0.0.7" ∈ w_hosts w1 ∧
    filter (λ l, Contains l hostsMarker = false) (w_hosts w2) =
      filter (λ l, Contains l hostsMarker = false) (w_hosts w).
Proof. apply hosts_roundtrip; reflexivity. Defined.
