(* ===== verification/Paths.v ===== *)
(** * Facts about file paths

    The last element of a path under [filepath.Join], [filepath.Clean] and
    [filepath.Base]: what the resolution of disk paths relies on. *)
From S2P Require Import Prelude GoStrings World.

Definition not_slash (c : ascii) : bool := negb (bool_decide (c = "/"%char)).
Definition no_slash (s : string) : Prop := sforall not_slash s = true.

(** [w] is what follows the last slash of [p]. *)
Definition last_elem (p w : string) : Prop := no_slash w ∧ (p = w ∨ ∃ a, p = a +:+ "/" +:+ w).

(** An element that cleaning keeps. *)
Definition proper_elem (w : string) : Prop := w ≠ "" ∧ w ≠ "." ∧ w ≠ "..".

(** ** Splitting *)
Lemma Split_nonempty sep s : Split sep s ≠ [].
Proof. destruct s as [|c s]; [done|]. cbn. case_bool_decide; [done|]. by destruct (Split sep s). Qed.

Lemma Split_no_slash s : no_slash s → Split "/" s = [s].
Proof.
  unfold no_slash, not_slash. induction s as [|c s IH]; [done|]. cbn. intros [Hc Hs]%andb_true_iff.
  rewrite IH by done. by case_bool_decide.
Qed.

Lemma Split_app_slash a w : Split "/" (a +:+ "/" +:+ w) = Split "/" a ++ Split "/" w.
Proof.
  induction a as [|c a IH]; [done|]. rewrite append_cons. cbn. rewrite IH.
  case_bool_decide; [done|]. pose proof (Split_nonempty "/" a). by destruct (Split "/" a).
Qed.

Lemma Split_last p w : last_elem p w → ∃ l, Split "/" p = l ++ [w].
Proof.
  intros [Hw [->|[a ->]]].
  - exists []. by apply Split_no_slash.
  - exists (Split "/" a). by rewrite Split_app_slash, (Split_no_slash w).
Qed.

Lemma last_elem_exists p : ∃ w, last_elem p w.
Proof.
  induction p as [|c p (w & Hw & H)]; [exists ""; by split; [|left]|].
  destruct (decide (c = "/"%char)) as [->|Hc].
  - exists w. split; [done|right]. destruct H as [->|[a ->]]; [by exists ""|by exists (String "/" a)].
  - destruct H as [->|[a ->]].
    + exists (String c w). split; [|by left]. unfold no_slash. cbn. rewrite Hw.
      unfold not_slash. by rewrite bool_decide_eq_false_2.
    + exists w. split; [done|right]. by exists (String c a).
Qed.

(** A slash-free suffix of a path is one of its last element. *)
Lemma HasSuffix_spec s suf : HasSuffix s suf = true ↔ ∃ t, s = t +:+ suf.
Proof.
  split; [|intros [t ->]; apply HasSuffix_app].
  induction s as [|c s IH]; cbn; rewrite orb_true_iff, bool_decide_eq_true.
  - intros [<-|]; [by exists ""|done].
  - intros [<-|[t ->]%IH]; [by exists ""|by exists (String c t)].
Qed.

Lemma suffix_split a w t suf : no_slash suf → a +:+ "/" +:+ w = t +:+ suf → ∃ t', w = t' +:+ suf.
Proof.
  intros Hs. revert t. induction a as [|c a IH]; intros t E.
  - destruct t as [|c' t].
    + change ("" +:+ suf) with suf in E. subst suf. by vm_compute in Hs.
    + injection E as _ E. by exists t.
  - destruct t as [|c' t].
    + change ("" +:+ suf) with suf in E. exfalso. subst suf. unfold no_slash in Hs.
      rewrite append_cons in Hs. cbn [sforall] in Hs. apply andb_true_iff in Hs as [_ Hs].
      rewrite sforall_app in Hs. apply andb_true_iff in Hs as [_ Hs]. done.
    + injection E as _ E. by apply (IH t).
Qed.

Lemma HasSuffix_last p w suf : last_elem p w → no_slash suf →
  HasSuffix p suf = true ↔ HasSuffix w suf = true.
Proof.
  intros [Hw [->|[a ->]]] Hs; [done|]. rewrite !HasSuffix_spec. split; intros [t E].
  - by eapply suffix_split.
  - exists (a +:+ "/" +:+ t). rewrite E. by rewrite !append_assoc.
Qed.

(** ** Base *)
Lemma trim_right_last f s c : f c = false → trim_right f (s +:+ String c "") = s +:+ String c "".
Proof.
  intros Hc. induction s as [|x s IH].
  - change ("" +:+ String c "") with (String c ""). cbn. by rewrite Hc.
  - rewrite append_cons. cbn. rewrite IH. by destruct s.
Qed.

Lemma string_snoc s : s ≠ "" → ∃ t c, s = t +:+ String c "".
Proof.
  induction s as [|x s IH]; [done|]. intros _. destruct s as [|y s].
  - by exists "", x.
  - destruct IH as (t & c & E); [done|]. exists (String x t), c. by rewrite E.
Qed.

Lemma Base_last p w : last_elem p w → w ≠ "" → Base p = w.
Proof.
  intros Hl Hw. pose proof Hl as [Hn Hp]. destruct (string_snoc w Hw) as (t & c & E).
  assert (Hc : bool_decide (c = "/"%char) = false).
  { unfold no_slash in Hn. rewrite E, sforall_app in Hn. apply andb_true_iff in Hn as [_ Hn]. cbn in Hn.
    rewrite andb_true_r in Hn. by apply negb_true_iff. }
  assert (p ≠ "").
  { destruct Hp as [->|[a ->]]; [done|]. by destruct a. }
  unfold Base. rewrite bool_decide_eq_false_2 by done.
  assert (trim_right (λ c0, bool_decide (c0 = "/"%char)) p = p) as ->.
  { destruct Hp as [->|[a ->]]; rewrite E; [by apply trim_right_last|].
    rewrite <-!append_assoc. by apply trim_right_last. }
  destruct (Split_last p w Hl) as [l ->]. rewrite rev_unit. by destruct w.
Qed.

(** ** Clean and Join *)
Lemma Join_snoc l w : Join "/" (l ++ [w]) = w ∨ ∃ a, Join "/" (l ++ [w]) = a +:+ "/" +:+ w.
Proof.
  induction l as [|x l IH]; [by left|]. right. destruct l as [|y l].
  - by exists x.
  - change ((x :: y :: l) ++ [w]) with (x :: (y :: l) ++ [w]).
    assert (Join "/" (x :: (y :: l) ++ [w]) = x +:+ "/" +:+ Join "/" ((y :: l) ++ [w])) as -> by done.
    destruct IH as [->|[a ->]]; [by exists x|].
    exists (x +:+ "/" +:+ a). by rewrite !append_assoc.
Qed.

Lemma IsAbs_Clean p : IsAbs p = true → IsAbs (Clean p) = true.
Proof. intros Hp. unfold Clean. by rewrite Hp. Qed.
Lemma Clean_nonempty p : Clean p ≠ "".
Proof. unfold Clean. destruct (IsAbs p); [discriminate|]. by case_bool_decide. Qed.

Lemma Clean_last p w : last_elem p w → proper_elem w → last_elem (Clean p) w.
Proof.
  intros Hl (Hw1 & Hw2 & Hw3). destruct (Split_last p w Hl) as [l E]. destruct Hl as [Hn _].
  assert (∀ r out, clean_step r out w = w :: out) as Hstep.
  { intros r out. unfold clean_step. by rewrite !bool_decide_eq_false_2. }
  split; [done|]. unfold Clean. rewrite E, foldl_app. cbn [foldl]. rewrite Hstep. cbn [rev].
  set (out := foldl _ [] l).
  destruct (IsAbs p).
  - right. destruct (Join_snoc (rev out) w) as [->|[a ->]]; [by exists ""|by exists ("/" +:+ a)].
  - rewrite bool_decide_eq_false_2; [apply Join_snoc|].
    destruct (Join_snoc (rev out) w) as [->|[a ->]]; [done|by destruct a].
Qed.

Lemma PathJoin_two a b : a ≠ "" → PathJoin [a; b] = Clean (a +:+ "/" +:+ b).
Proof. by destruct a. Qed.

Lemma PathJoin_last a b w : a ≠ "" → last_elem b w → proper_elem w → last_elem (PathJoin [a; b]) w.
Proof.
  intros Ha [Hn Hb] Hw. rewrite PathJoin_two by done. apply Clean_last; [|done].
  split; [done|right]. destruct Hb as [->|[c ->]]; [by exists a|].
  exists (a +:+ "/" +:+ c). by rewrite !append_assoc.
Qed.

Lemma IsAbs_nonempty p : IsAbs p = true → p ≠ "".
Proof. by destruct p. Qed.

Lemma IsAbs_PathJoin a b : IsAbs a = true → IsAbs (PathJoin [a; b]) = true.
Proof.
  intros Ha. rewrite PathJoin_two by by apply IsAbs_nonempty. apply IsAbs_Clean.
  destruct a as [|c a]; [done|]. by rewrite append_cons.
Qed.

Lemma Join_app (l l' : list string) : l ≠ [] → l' ≠ [] → Join "/" (l ++ l') = Join "/" l +:+ "/" +:+ Join "/" l'.
Proof.
  intros Hl Hl'. induction l as [|x l IH]; [done|]. destruct l as [|y l]; [by destruct l'|].
  change (x +:+ "/" +:+ Join "/" ((y :: l) ++ l') = (x +:+ "/" +:+ Join "/" (y :: l)) +:+ "/" +:+ Join "/" l').
  rewrite IH by done. by rewrite !append_assoc.
Qed.

(** ** Absolute paths, cleaned, and joined with a name *)
Definition plain_elem (w : string) : Prop := no_slash w ∧ proper_elem w.
Lemma clean_plain ws : ∀ out, Forall plain_elem out → Forall no_slash ws → Forall plain_elem (foldl (clean_step true) out ws).
Proof.
  induction ws as [|w ws IH]; intros out Ho Hws; [done|]. apply Forall_cons in Hws as [Hw Hws]. cbn [foldl]. apply IH; [|done].
  unfold clean_step. case_bool_decide as E1; [done|]. case_bool_decide as E2; [done|]. cbn [orb]. case_bool_decide as E3.
  - destruct out as [|x out]; [done|]. apply Forall_cons in Ho as [Hx Ho]. rewrite bool_decide_eq_false_2; [done|]. by destruct Hx as [_ (_ & _ & ?)].
  - constructor; [|done]. by split.
Qed.
Lemma Split_pieces s : Forall no_slash (Split "/" s).
Proof.
  induction s as [|c s IH]; [by repeat constructor|]. cbn [Split]. case_bool_decide as E; [by constructor|].
  destruct (Split "/" s) as [|w ws]; [constructor; [|done]|apply Forall_cons in IH as [Hw IH]; constructor; [|done]].
  all: unfold no_slash; cbn; unfold not_slash at 1; rewrite bool_decide_eq_false_2 by done; done.
Qed.
Lemma Split_elems ws : ws ≠ [] → Forall no_slash ws → Split "/" (Join "/" ws) = ws.
Proof.
  intros Hne Hws. induction ws as [|w ws IH]; [done|]. apply Forall_cons in Hws as [Hw Hws]. destruct ws as [|x ws].
  - by apply Split_no_slash.
  - change (Join "/" (w :: x :: ws)) with (w +:+ "/" +:+ Join "/" (x :: ws)). rewrite Split_app_slash, IH, Split_no_slash by done. done.
Qed.
Lemma clean_plain_id ws : ∀ out, Forall plain_elem ws → foldl (clean_step true) out ws = rev ws ++ out.
Proof.
  induction ws as [|w ws IH]; intros out Hws; [done|]. apply Forall_cons in Hws as [[_ (H1 & H2 & H3)] Hws]. cbn [foldl]. rewrite IH by done.
  unfold clean_step. rewrite !bool_decide_eq_false_2 by done. cbn. by rewrite <-app_assoc.
Qed.

(** A cleaned absolute path is a slash and its elements. *)
Definition abs_path (ws : list string) : string := "/" +:+ Join "/" ws.
Lemma clean_elems p : Forall plain_elem (rev (foldl (clean_step true) [] (Split "/" p))).
Proof. apply Forall_rev, clean_plain; [constructor|apply Split_pieces]. Qed.
Lemma PathJoin_child p w : IsAbs p = true → plain_elem w →
  PathJoin [p; w] = abs_path (rev (foldl (clean_step true) [] (Split "/" p)) ++ [w]).
Proof.
  intros Ha [Hw (H1 & H2 & H3)]. rewrite PathJoin_two by by apply IsAbs_nonempty. unfold Clean.
  assert (IsAbs (p +:+ "/" +:+ w) = true) as -> by (destruct p; [done|exact Ha]).
  unfold abs_path. rewrite Split_app_slash, (Split_no_slash w), foldl_app by done. cbn [foldl]. unfold clean_step at 1.
  by rewrite !bool_decide_eq_false_2 by done.
Qed.
Lemma PathJoin_abs ws w : Forall plain_elem ws → plain_elem w → PathJoin [abs_path ws; w] = abs_path (ws ++ [w]).
Proof.
  intros Hws Hw. rewrite PathJoin_child by done. do 2 f_equal. unfold abs_path.
  rewrite (Split_app_slash "" (Join "/" ws) : Split "/" ("/" +:+ Join "/" ws) = _). destruct ws as [|x ws]; [done|].
  rewrite Split_elems; [|done|by eapply Forall_impl; [exact Hws|intros ? []]]. change (rev (foldl (clean_step true) [] (x :: ws)) = x :: ws).
  rewrite clean_plain_id by done. by rewrite app_nil_r, rev_involutive.
Qed.
