(* ===== verification/Lifecycle.v ===== *)
(** * VM lifecycle

    The state-changing operations of [internal/vm/manager.go] (start, stop,
    force-stop, stale clean-up, list), with
    [internal/vm/glfallback.go], [internal/vm/recovery.go],
    [internal/vm/resources.go] and the dispatch of [internal/vm/backend.go].

    Machine construction is behind [MachineBuilder], the manager's view of
    [backend.Machine]; waiting, name resolution and the guest's own behaviour
    are parameters of the operations that use them. *)
From S2P Require Import Prelude GoStrings Config Store World.

Open Scope Z_scope.

(** ** Recovery plans *)
Inductive RecoveryMode :=
| RecoveryUnsupported
| RecoveryMacOS
| RecoveryLinuxKernel.
#[export] Instance RecoveryMode_eq_dec : EqDecision RecoveryMode.
Proof. solve_decision. Defined.

(** The mode of [RecoveryPlan]; its user-facing message is not modelled. *)
Definition RecoveryPlan (c : VMConfig) : RecoveryMode :=
  if bool_decide (BackendName c = VZ) then
    match c_MacOS c with
    | Some _ => RecoveryMacOS
    | None => if negb (bool_decide (c_Kernel c = "")) then RecoveryLinuxKernel
              else RecoveryUnsupported
    end
  else RecoveryUnsupported.

(** ** Install-state bookkeeping *)

(** A pending VM that ran long enough to shut down has completed its install. *)
Definition promote (install : string) : string :=
  if bool_decide (install = InstallStatePending) then InstallStateReady else install.

Definition desiredStateForReason (reason : string) : string :=
  if bool_decide (reason = ShutdownReasonHost) || bool_decide (reason = ShutdownReasonReboot)
  then DesiredStateRunning else DesiredStateStopped.

(** What a stop leaves on record. *)
Definition preservedAfterStop (s : VMState) (reason : string) : VMState :=
  zeroState <| s_InstallState := promote (s_InstallState s) |>
            <| s_InstalledAt := s_InstalledAt s |>
            <| s_DesiredState := desiredStateForReason reason |>
            <| s_LastShutdownReason := reason |>.

(** The record [cleanupStaleVM] leaves, given the helper's result file. *)
Definition preservedAfterCrash (s : VMState) (res : option VZResult) : VMState :=
  let p := zeroState <| s_InstallState := promote (s_InstallState s) |>
             <| s_InstalledAt := s_InstalledAt s |>
             <| s_DesiredState := s_DesiredState s |>
             <| s_LastShutdownReason := s_LastShutdownReason s |> in
  let p :=
    if bool_decide (s_LastShutdownReason p = "") then
      if bool_decide (StateBackendName (Some s) = VZ) then
        match res with
        | Some r =>
            if bool_decide (res_Error r = "") && negb (res_StopRequested r) then
              p <| s_LastShutdownReason := ShutdownReasonGuest |>
                <| s_DesiredState := DesiredStateStopped |>
            else p
        | None => p
        end
      else p
    else p in
  if bool_decide (s_LastShutdownReason p = "") then
    p <| s_LastShutdownReason := ShutdownReasonCrash |>
  else p.

(** ** Control sockets *)
Definition assignControlSockets (s : VMState) (c : VMConfig) (r : StartResult) : VMState :=
  if bool_decide (BackendName c = VZ) then s <| s_ControlSocket := r_ControlSocket r |>
  else s <| s_QMPSocket := r_ControlSocket r |>
         <| s_QGASocket := r_GuestAgentSocket r |>.

(** ** Disk paths *)
Definition diskFileSuffixes : list string :=
  ["qcow2"; "qcow"; "img"; "raw"; "iso"; "vmdk"; "vdi"; "vhd"].

Definition managedBootDiskAbsPath (vmName : string) (d : DiskConfig) : string :=
  if existsb (HasSuffix (d_Path d)) diskFileSuffixes then d_Path d
  else
    let format := if bool_decide (d_Format d = "") then "qcow2" else d_Format d in
    let name := "disk-" +:+ vmName +:+ "-" +:+ d_Size d +:+ "." +:+ format in
    if bool_decide (d_Path d = "") then name else PathJoin [d_Path d; name].

Definition scratchDiskPath : string → DiskConfig → string := managedBootDiskAbsPath.

(** ** GL fallback *)
Definition glCrashMarker : string := "OpenGL is not supported by display backend".

(** [glCrashInQEMULog] on the log's text: only the latest boot section counts. *)
Definition gl_crash_in (log : string) : bool :=
  Contains (default log (last_from log "=== boot on ")) glCrashMarker.

(** ** Machines *)
Class MachineBuilder (S : Type) := {
  machine : Type;
  (** Builds a machine, filling in config fields on the way (a deterministic
      MAC, the SSH port actually free); also the virtiofsd helper PIDs. *)
  buildBackendMachine : VMConfig → bool → GoM (World S) error (VMConfig * machine * list Z);
  StartDetached : machine → GoM (World S) error StartResult;
}.

(** What the environment answers while a start waits. *)
Record StartEnv (S : Type) := mkStartEnv {
  (** resolving the guest's address within the 30 s budget *)
  env_ip : VMConfig → VMState → option string;
  (** the TrueNAS key set-up over HTTP, for its effects *)
  env_truenas : VMConfig → string → World S → World S;
  (** the foreground wait: [true] when the context was cancelled, [false] when
      the process was seen to have exited *)
  env_wait : Z → World S → bool * World S;
}.
Arguments env_ip {S} _ _ _ : assert.
Arguments env_truenas {S} _ _ _ _ : assert.
Arguments env_wait {S} _ _ _ : assert.

Section Lifecycle.
Context {S : Type} `{VMStore S} `{MachineBuilder S} (host : Host) (env : StartEnv S).
Abbreviation M := (GoM (World S) error).

(** ** Settings *)
Definition updateConfig (name : string) (f : VMConfig → VMConfig) : M unit :=
  cfg ← st (loadConfig name); st (saveConfig (f cfg)).

Definition SetAutoStart (name : string) (enabled : bool) : M unit :=
  updateConfig name (λ c, c <| c_AutoStart := enabled |>).

Definition SetMemory (name memory : string) : M unit :=
  if bool_decide (memory = "") then throw (Errorf "memory must not be empty" [])
  else updateConfig name (λ c, c <| c_Memory := memory |>).

Definition SetCPUs (name : string) (cpus : Z) : M unit :=
  if cpus <=? 0 then throw (Errorf "cpus must be positive, got %d" [Itoa cpus])
  else updateConfig name (λ c, c <| c_CPUs := cpus |>).

Definition SetNICMode (name mode bridge : string) : M unit :=
  if negb (bool_decide (mode = "user")) && negb (bool_decide (mode = "bridge")) then
    throw (Errorf "nic mode must be %q or %q, got %q" ["user"; "bridge"; mode])
  else updateConfig name (λ c,
    let nic := (c_NIC c) <| nic_Mode := mode |> in
    let nic := if bool_decide (mode = "bridge")
               then nic <| nic_Bridge := if bool_decide (bridge = "") then "br0" else bridge |>
               else nic in
    c <| c_NIC := nic |>).

Definition ListAutoStart : M (list VMConfig) :=
  all ← st listAllConfigs; mret (filter (λ c, c_AutoStart c = true) all).

(** ** Stopping *)

(** A powerdown request reaches the guest over the backend's channel; the
    process exits in time if the guest honours it. *)
Definition gracefulShutdown (s : VMState) : M unit :=
  let asked := if bool_decide (StateBackendName (Some s) = VZ) then true
               else negb (bool_decide (s_QMPSocket s = "")) in
  modify (λ w, if asked && bool_decide (s_PID s ∈ w_acpi w)
               then w <| w_alive := w_alive w ∖ {[s_PID s]} |> else w).

Definition unregister_if_named (name : string) : M unit :=
  r ← attempt (st (loadConfig name));
  match r with
  | Ok cfg => when_ (negb (bool_decide (c_Hostname cfg = "")))
                (ignore (UnregisterHostname (c_Hostname cfg)))
  | Err _ => mret tt
  end.

Definition stopWithReason (name reason : string) : M unit :=
  s ← st (loadState name);
  if negb (s_Running s) || bool_decide (s_PID s = 0)
  then throw (Errorf "VM %q is not running" [name]) else
  _ ← gracefulShutdown s;
  alive ← isAlive (s_PID s);
  _ ← when_ alive (kill (s_PID s));
  _ ← for_each (λ pid, a ← isAlive pid;
                 when_ ((0 <? pid) && a) (terminateProcess pid)) (s_VirtiofsdPIDs s);
  _ ← unregister_if_named name;
  st (saveState name (preservedAfterStop s reason)).

Definition Stop (name : string) : M unit := stopWithReason name ShutdownReasonUser.

Definition forceStopWithReason (name reason : string) : M unit :=
  s ← st (loadState name);
  if negb (s_Running s) || bool_decide (s_PID s = 0)
  then throw (Errorf "VM %q is not running" [name]) else
  alive ← isAlive (s_PID s);
  _ ← when_ alive (kill (s_PID s));
  _ ← for_each (λ pid, a ← isAlive pid;
                 when_ ((0 <? pid) && a) (kill pid)) (s_VirtiofsdPIDs s);
  _ ← unregister_if_named name;
  st (saveState name (preservedAfterStop s reason)).

Definition ForceStop (name : string) : M unit := forceStopWithReason name ShutdownReasonUser.

(** ** Stale VMs *)
Definition cleanupStaleVM (name : string) (s : option VMState) : M unit :=
  res ← gets (λ w, w_vzresult w !! name);
  ignore (st (saveState name
    (match s with Some s => preservedAfterCrash s res | None => zeroState end))).

Definition ListEntry : Type := VMConfig * VMState.

(** One turn of [List]'s loop. *)
Definition list_entry (cfg : VMConfig) : M ListEntry :=
  r ← attempt (st (loadState (c_Name cfg)));
  let s := match r with Ok s => s | Err _ => zeroState end in
  a ← isAlive (s_PID s);
  if s_Running s && negb a then
    _ ← cleanupStaleVM (c_Name cfg) (Some s);
    mret (cfg, s <| s_Running := false |>)
  else mret (cfg, s).

Fixpoint list_entries (cfgs : list VMConfig) : M (list ListEntry) :=
  match cfgs with
  | [] => mret []
  | c :: cs => e ← list_entry c; es ← list_entries cs; mret (e :: es)
  end.

Definition List : M (list ListEntry) :=
  cfgs ← st listAllConfigs; list_entries cfgs.

(** ** Starting *)
Definition removeFile (path : string) : M unit :=
  modify (λ w, w <| w_files := w_files w ∖ {[path]} |>).

Definition deleteScratchDisk (vmName : string) (d : DiskConfig) : M unit :=
  let path := scratchDiskPath vmName d in
  if bool_decide (path = "") then mret tt else removeFile path.

Definition keep_installed (d : DiskConfig) : bool := negb (IsScratch d) && negb (IsInstallISO d).

(** Strip one-shot disks, deleting the scratch ones' backing files. *)
Definition strip_disks (cfg : VMConfig) : M (list DiskConfig) :=
  _ ← for_each (λ d, when_ (IsScratch d) (deleteScratchDisk (c_Name cfg) d)) (c_Disks cfg);
  mret (filter (λ d, keep_installed d = true) (c_Disks cfg)).

Definition saveConfigAs (what : string) (cfg : VMConfig) : M unit :=
  r ← attempt (st (saveConfig cfg));
  match r with Ok _ => mret tt | Err e => throw (Wrapf what e) end.
Definition saveStateAs (what name : string) (s : VMState) : M unit :=
  r ← attempt (st (saveState name s));
  match r with Ok _ => mret tt | Err e => throw (Wrapf what e) end.

(** [if cfg.SkipInstall && state.InstallState == ""] *)
Definition skip_install (name : string) (cfg : VMConfig) (s : VMState) : M (VMConfig * VMState) :=
  if c_SkipInstall cfg && bool_decide (s_InstallState s = "") then
    disks ← strip_disks cfg;
    let cfg := cfg <| c_Disks := disks |> <| c_InstallDevices := [] |> in
    _ ← saveConfigAs "save config (skip install)" cfg;
    now ← gets w_now;
    let s := s <| s_InstallState := InstallStateReady |> <| s_InstalledAt := Some now |> in
    _ ← saveStateAs "save state (skip install)" name s;
    mret (cfg, s)
  else mret (cfg, s).

(** The [switch state.InstallState] of [Start]. *)
Definition install_switch (name : string) (cfg : VMConfig) (s : VMState) : M (VMConfig * VMState) :=
  if bool_decide (s_InstallState s = "") then
    if existsb IsInstallISO (c_Disks cfg) then
      let s := s <| s_InstallState := InstallStatePending |> in
      _ ← saveStateAs "save install state" name s;
      mret (cfg, s)
    else mret (cfg, s)
  else if bool_decide (s_InstallState s = InstallStateReady) then
    disks ← strip_disks cfg;
    let stripped := negb (bool_decide (length disks = length (c_Disks cfg)))
                    || negb (bool_decide (c_InstallDevices cfg = [])) in
    let cfg := cfg <| c_Disks := disks |> <| c_InstallDevices := [] |> in
    _ ← when_ stripped (saveConfigAs "save config after stripping install ISOs" cfg);
    mret (cfg, s)
  else mret (cfg, s).

(** Move the SPICE server, and the services pointing at it, to [port]. *)
Definition set_spice_port (cfg : VMConfig) (port : Z) : VMConfig :=
  cfg <| c_SPICE := (λ sp, sp <| sp_Port := port |>) <$> c_SPICE cfg |>
      <| c_Services := (λ s, if bool_decide (se_Protocol s = ServiceSPICE)
                             then s <| se_Port := port |> else s) <$> c_Services cfg |>.

Definition realloc_spice (cfg : VMConfig) : M VMConfig :=
  match c_SPICE cfg with
  | Some sp =>
      if bool_decide (BackendName cfg = QEMU) && (0 <? sp_Port sp) then
        used ← isPortInUse (sp_Port sp);
        if (used : bool) then
          r ← attempt freeTCPPort;
          match r with
          | Err e => throw (Wrapf "alloc SPICE port" e)
          | Ok port =>
              let cfg := set_spice_port cfg port in
              _ ← saveConfigAs "save config after SPICE port realloc" cfg;
              mret cfg
          end
        else mret cfg
      else mret cfg
  | None => mret cfg
  end.

(** [retryStartWithoutGL] *)
Definition retryStartWithoutGL (cfg : VMConfig) (recovery : bool) (res : StartResult)
  : M StartResult :=
  let eligible := IsMacOS host && bool_decide (g_Mode (c_GPU cfg) = GPUVirtio)
                  && negb (c_Headless cfg)
                  && (match c_SPICE cfg with None => true | Some _ => false end)
                  && negb (g_disableGL (c_GPU cfg)) in
  if negb eligible then mret res else
  alive ← isAlive (r_PID res);
  log ← gets (λ w, w_qemulog w !! c_Name cfg);
  let crashed := match log with Some l => gl_crash_in l | None => false end in
  if alive || negb crashed then mret res else
  let retryCfg := cfg <| c_GPU := (c_GPU cfg) <| g_disableGL := true |> |> in
  r ← attempt (buildBackendMachine retryCfg recovery);
  match r with
  | Err e => throw (Wrapf "rebuild without GL" e)
  | Ok (_, m, _) => StartDetached m
  end.

(** The state record of a VM that has just been launched. *)
Definition launchedState (cfg : VMConfig) (s : VMState) (res : StartResult)
    (vfs : list Z) (now : Z) : VMState :=
  let n := zeroState <| s_PID := r_PID res |>
             <| s_Backend := BackendName cfg |>
             <| s_VirtiofsdPIDs := vfs |>
             <| s_StartedAt := Some now |>
             <| s_Running := true |>
             <| s_DesiredState := DesiredStateRunning |>
             <| s_InstallState := s_InstallState s |>
             <| s_InstalledAt := s_InstalledAt s |> in
  let n := assignControlSockets n cfg res in
  let n := match c_SPICE cfg with
           | Some sp => n <| s_SPICEPort := sp_Port sp |>
           | None => n
           end in
  if (0 <? c_SSHPort cfg) && negb (effectiveBridge host cfg)
  then n <| s_SSHPort := c_SSHPort cfg |> else n.

Definition spawn_watcher (cfg : VMConfig) (name : string) (n : VMState) : M unit :=
  if bool_decide (BackendName cfg = QEMU) && negb (bool_decide (s_QMPSocket n = "")) then
    modify (λ w, w <| w_watchers := w_watchers w ++ [WatchQMP name (s_QMPSocket n)] |>)
  else if bool_decide (BackendName cfg = VZ) && negb (bool_decide (s_ControlSocket n = "")) then
    modify (λ w, w <| w_watchers := w_watchers w ++ [WatchVZ name (s_ControlSocket n)] |>)
  else mret tt.

(** Host-name registration and key injection after a start; best-effort. *)
Definition publish (cfg : VMConfig) (n : VMState) : M unit :=
  if negb (bool_decide (c_Hostname cfg = "")) || bool_decide (c_Template cfg = "truenas") then
    match env_ip env cfg n with
    | None => mret tt
    | Some ip =>
        can ← CanWriteHosts;
        _ ← when_ (negb (bool_decide (c_Hostname cfg = "")) && can)
              (ignore (RegisterHostname (c_Hostname cfg) ip));
        when_ (bool_decide (c_Template cfg = "truenas")) (modify (env_truenas env cfg ip))
    end
  else mret tt.

(** The stale-state branch of [Start]: the record on disk is cleaned up, the
    start continues with an empty in-memory state. *)
Definition stale_state (name : string) (cfg : VMConfig) (s : VMState) : M VMState :=
  _ ← when_ (negb (bool_decide (c_Hostname cfg = ""))) (ignore (UnregisterHostname (c_Hostname cfg)));
  _ ← cleanupStaleVM name (Some s);
  mret zeroState.

(** Everything between the liveness check and launching the machine. *)
Definition prepare (name : string) (cfg : VMConfig) (s : VMState) : M (VMConfig * VMState) :=
  '(cfg, s) ← skip_install name cfg s;
  '(cfg, s) ← install_switch name cfg s;
  cfg ← realloc_spice cfg;
  mret (cfg, s).

(** The foreground loop: the wait ends, [Running] is cleared on record. *)
Definition block_until_exit (name : string) (n : VMState) : M unit := λ w,
  let '(cancelled, w) := env_wait env (s_PID n) w in
  let w := (st (saveState name (n <| s_Running := false |>)) w).2 in
  if (cancelled : bool) then (Err (Errorf "context canceled" []), w) else (Ok tt, w).

Definition Start (name : string) (foreground recovery : bool) : M unit :=
  cfg ← st (loadConfig name);
  let recovery := recovery && negb (bool_decide (RecoveryPlan cfg = RecoveryUnsupported)) in
  s ← st (loadState name);
  alive ← isAlive (s_PID s);
  if s_Running s && alive
  then throw (Errorf "VM %q is already running (PID %d)" [name; Itoa (s_PID s)]) else
  s ← (if s_Running s then stale_state name cfg s else mret s);
  '(cfg, s) ← prepare name cfg s;
  '(cfg, m, vfs) ← buildBackendMachine cfg recovery;
  _ ← saveConfigAs "save config" cfg;
  res ← StartDetached m;
  res ← retryStartWithoutGL cfg recovery res;
  now ← gets w_now;
  if foreground then
    let n := launchedState cfg s res [] now in
    _ ← saveStateAs "save state" name n;
    block_until_exit name n
  else
    let n := launchedState cfg s res vfs now in
    _ ← st (saveState name n);
    _ ← spawn_watcher cfg name n;
    publish cfg n.
End Lifecycle.

(** ** Lemmas *)
Section LifecycleLemmas.
Context {S : Type} `{VMStoreLaws S} `{MachineBuilder S} (host : Host) (env : StartEnv S).
Implicit Types w : World S.

(** Facts about the world a best-effort step keeps: the store, and that some
    processes are gone. *)
Definition frame (s : S) (dead : Z → Prop) w : Prop :=
  w_store w = s ∧ ∀ p, dead p → p ∉ w_alive w.

Lemma frame_alive s dead w A : A ⊆ w_alive w → frame s dead w →
  frame s dead (w <| w_alive := A |>).
Proof. intros HA [Hs Hd]. split; [done|]. intros p Hp Hin. by eapply Hd, HA. Qed.

Lemma kill_frame s dead pid : keeps (frame s dead) (kill pid).
Proof. apply keeps_modify. intros w. apply frame_alive. set_solver. Qed.
Lemma terminate_frame s dead pid : keeps (frame s dead) (terminateProcess pid).
Proof.
  apply keeps_modify. intros w. case_bool_decide; [done|].
  apply frame_alive. set_solver.
Qed.
Lemma gracefulShutdown_frame s dead x : keeps (frame s dead) (gracefulShutdown x).
Proof.
  apply keeps_modify. intros w. case_match; [|done].
  apply frame_alive. set_solver.
Qed.
Lemma isAlive_frame s dead pid : keeps (frame s dead) (isAlive pid).
Proof. apply keeps_gets. Qed.
Lemma unregister_frame s dead hn : preserves (frame s dead) (UnregisterHostname hn).
Proof.
  intros w [Hs Hd]. unfold UnregisterHostname.
  destruct (removeHostsEntry_frame hn w) as [E1 E2].
  split; [congruence|]. intros p. rewrite E2. auto.
Qed.
Lemma loadConfig_frame s dead n : preserves (frame s dead) (st (loadConfig n)).
Proof.
  intros w [Hs Hd]. pose proof (loadConfig_pure n (w_store w)).
  unfold st. destruct (loadConfig n (w_store w)); cbn in *. split; cbn; [congruence|done].
Qed.
#[local] Hint Resolve kill_frame terminate_frame gracefulShutdown_frame
  isAlive_frame unregister_frame loadConfig_frame : gom.

Lemma unregister_if_named_frame s dead n : keeps (frame s dead) (unregister_if_named n).
Proof. unfold unregister_if_named. keeps_tac; preserves_tac. Qed.
#[local] Hint Resolve unregister_if_named_frame : gom.

(** After the kill fallback the process is gone. *)
Lemma kill_if_alive pid s dead w :
  frame s dead w → ∃ w', (alive ← isAlive pid; when_ alive (kill pid)) w = (Ok tt, w') ∧
    frame s (λ p, dead p ∨ (p = pid ∧ 0 < p)) w'.
Proof.
  intros [Hs Hd]. unfold isAlive. rewrite run_bind. cbn. unfold isAlive_in.
  destruct (Z.leb_spec pid 0); cbn.
  { exists w. split; [done|]. split; [done|]. intros p [|[-> ?]]; [auto|lia]. }
  case_bool_decide; cbn; eexists; (split; [done|]); (split; [done|]); cbn;
    intros p [|[-> _]]; set_solver.
Qed.

(** The tail shared by both stops: helpers, host name, record. *)
Lemma stop_tail n pids x pid w (f : Z → GoM (World S) error unit) :
  (∀ s dead p, keeps (frame s dead) (f p)) →
  healthy (w_store w) → is_Some (cfg_view (w_store w) !! n) →
  ∃ w', (_ ← for_each f pids; _ ← unregister_if_named n; st (saveState n x))
      ((alive ← isAlive pid; when_ alive (kill pid)) w).2 = (Ok tt, w') ∧
    healthy (w_store w') ∧ cfg_view (w_store w') = cfg_view (w_store w) ∧
    st_view (w_store w') = <[n := x]> (st_view (w_store w)) ∧
    isAlive_in w' pid = false ∧ w_alive w' ⊆ w_alive w.
Proof.
  intros Hf Hh Hc.
  destruct (kill_if_alive pid (w_store w) (λ p, p ∉ w_alive w) w) as (w1 & -> & Hw1); [by split|].
  set (dead := λ p, p ∉ w_alive w ∨ p = pid ∧ 0 < p) in *. cbn.
  assert (Hp : keeps (frame (w_store w) dead) (for_each f pids))
    by (apply keeps_for_each; intros; apply Hf).
  destruct (Hp _ Hw1) as (? & w2 & E2 & Hw2). rewrite run_bind, E2.
  destruct (unregister_if_named_frame _ _ n _ Hw2) as (? & w3 & E3 & [Es Hd]).
  rewrite run_bind, E3.
  destruct (st_saveState n x w3) as (s' & -> & ? & ? & ?); [congruence..|].
  eexists; split; [done|]. cbn. rewrite <-Es. split_and!; [done|done|done| |].
  - unfold isAlive_in. destruct (Z.leb_spec pid 0); [done|].
    apply bool_decide_eq_false. cbn. apply Hd. right. lia.
  - intros p Hin. destruct (decide (p ∈ w_alive w)) as [|Hn]; [done|].
    exfalso. apply (Hd p); [by left|done].
Qed.

Lemma bind_assoc_run {A B C} (m : GoM (World S) error A) (k : A → GoM (World S) error B)
    (j : B → GoM (World S) error C) w :
  (m ≫= λ a, k a ≫= j) w = ((m ≫= k) ≫= j) w.
Proof. rewrite !run_bind. destruct (m w) as [[a|e] w']; reflexivity. Qed.

Lemma kill_if_alive_ok pid w :
  ((alive ← isAlive pid; when_ alive (kill pid)) w).1 = Ok tt.
Proof.
  destruct (kill_if_alive pid (w_store w) (λ _, False) w) as (w1 & -> & _); [by split|done].
Qed.

Lemma run_kill_if_alive {A} pid (k : GoM (World S) error A) w :
  (alive ← isAlive pid; _ ← when_ alive (kill pid); k) w =
  k ((alive ← isAlive pid; when_ alive (kill pid)) w).2.
Proof.
  pose proof (kill_if_alive_ok pid w) as Hok.
  rewrite (bind_assoc_run (isAlive pid) (λ alive, when_ alive (kill pid)) (λ _, k)).
  rewrite run_bind. destruct ((isAlive pid ≫= _) w) as [r w1]. cbn in *. by subst.
Qed.
End LifecycleLemmas.

(** ** Stopping *)
Section StopTheorems.
Context {S : Type} `{VMStoreLaws S}.

Lemma stopWithReason_spec n reason (w : World S) cfg s :
  healthy (w_store w) → cfg_view (w_store w) !! n = Some cfg →
  st_view (w_store w) !! n = Some s → s_Running s = true → s_PID s ≠ 0 →
  ∃ w', stopWithReason n reason w = (Ok tt, w') ∧
    healthy (w_store w') ∧ cfg_view (w_store w') = cfg_view (w_store w) ∧
    st_view (w_store w') = <[n := preservedAfterStop s reason]> (st_view (w_store w)) ∧
    isAlive_in w' (s_PID s) = false ∧ w_alive w' ⊆ w_alive w.
Proof.
  intros Hh Hc Hs Hr Hp. unfold stopWithReason.
  rewrite run_bind, st_loadState, Hs by done. cbn -[gracefulShutdown isAlive].
  rewrite Hr, bool_decide_eq_false_2 by done. cbn -[gracefulShutdown isAlive].
  destruct (gracefulShutdown_frame (w_store w) (λ p, p ∉ w_alive w) s w)
    as (? & w1 & E1 & [Es Hd]); [by split|].
  rewrite run_bind, E1, run_kill_if_alive. rewrite <-Es in *.
  destruct (stop_tail n (s_VirtiofsdPIDs s) (preservedAfterStop s reason) (s_PID s) w1
    (λ pid, a ← isAlive pid; when_ ((0 <? pid) && a) (terminateProcess pid)))
    as (w' & E & ? & ? & ? & ? & Hsub); [|done|by eexists|].
  { intros s' dead p. keeps_tac; [apply isAlive_frame | apply terminate_frame]. }
  exists w'. split; [exact E|]. split_and!; [done..|]. intros p Hin. apply Hsub in Hin.
  destruct (decide (p ∈ w_alive w)) as [|Hn]; [done|]. by apply Hd in Hn.
Qed.

Lemma forceStopWithReason_spec n reason (w : World S) cfg s :
  healthy (w_store w) → cfg_view (w_store w) !! n = Some cfg →
  st_view (w_store w) !! n = Some s → s_Running s = true → s_PID s ≠ 0 →
  ∃ w', forceStopWithReason n reason w = (Ok tt, w') ∧
    healthy (w_store w') ∧ cfg_view (w_store w') = cfg_view (w_store w) ∧
    st_view (w_store w') = <[n := preservedAfterStop s reason]> (st_view (w_store w)) ∧
    isAlive_in w' (s_PID s) = false ∧ w_alive w' ⊆ w_alive w.
Proof.
  intros Hh Hc Hs Hr Hp. unfold forceStopWithReason.
  rewrite run_bind, st_loadState, Hs by done. cbn -[isAlive].
  rewrite Hr, bool_decide_eq_false_2 by done. cbn -[isAlive].
  rewrite run_kill_if_alive. apply stop_tail; [|done|by eauto].
  intros s' dead p. keeps_tac; [apply isAlive_frame | apply kill_frame].
Qed.
End StopTheorems.

(** ** Starting *)

(** What the manager relies on when it builds and launches a machine. *)
(** A launch may rewrite the stored config of the machine's own VM, the macOS
    section at most. *)
Definition relaunch_view {S} `{VMStoreLaws S} (c : VMConfig) (s s' : S) : Prop :=
  healthy s' ∧ st_view s' = st_view s ∧
  (cfg_view s' = cfg_view s ∨
   ∃ mac, cfg_view s' = <[c_Name c := persisted (c <| c_MacOS := mac |>)]> (cfg_view s)).

Class MachineLaws (S : Type) `{VMStoreLaws S} `{MachineBuilder S} := {
  build_store c b w r w' : buildBackendMachine c b w = (r, w') → w_store w' = w_store w;
  build_cfg c b w c' m vfs w' : buildBackendMachine c b w = (Ok (c', m, vfs), w') →
    c_Name c' = c_Name c ∧ c_Disks c' = c_Disks c ∧ c_InstallDevices c' = c_InstallDevices c ∧
    c_Template c' = c_Template c;
  start_view c b w0 c' m vfs w1 w r w' : buildBackendMachine c b w0 = (Ok (c', m, vfs), w1) →
    StartDetached m w = (r, w') → healthy (w_store w) → relaunch_view c' (w_store w) (w_store w');
}.

(** The install state a start carries on with, and the disks it attaches. *)
Definition install_next (c : VMConfig) (s : VMState) : string :=
  if bool_decide (s_InstallState s = "") then
    if c_SkipInstall c then InstallStateReady
    else if existsb IsInstallISO (c_Disks c) then InstallStatePending else ""
  else s_InstallState s.

Definition installed_disks (l : list DiskConfig) : list DiskConfig :=
  filter (λ d, keep_installed d = true) l.

(** The config without its one-shot disks and devices. *)
Definition strip_cfg (c : VMConfig) : VMConfig :=
  c <| c_Disks := installed_disks (c_Disks c) |> <| c_InstallDevices := [] |>.

(** Configs [P] that a host can launch: a machine is built for them and comes
    up, and the changes a start makes to a config stay within [P]. *)
Class Launchable (S : Type) `{VMStore S} `{!MachineBuilder S} (P : VMConfig → Prop) := {
  launch_build c b w : P c →
    ∃ c' m vfs w', buildBackendMachine c b w = (Ok (c', m, vfs), w') ∧ P c' ∧
      ∀ w1, ∃ r w2, StartDetached m w1 = (Ok r, w2) ∧ isAlive_in w2 (r_PID r) = true;
  launch_strip c : P c → P (strip_cfg c);
  launch_port c p : P c → P (set_spice_port c p);
  launch_2d c : P c → P (c <| c_GPU := (c_GPU c) <| g_disableGL := true |> |>);
}.

Definition disks_next (c : VMConfig) (s : VMState) : list DiskConfig :=
  if bool_decide (install_next c s = InstallStateReady)
  then installed_disks (c_Disks c) else c_Disks c.

Lemma installed_disks_idemp l : installed_disks (installed_disks l) = installed_disks l.
Proof. unfold installed_disks. apply list_filter_filter_l. done. Qed.

Lemma installed_disks_no_iso l : existsb IsInstallISO (installed_disks l) = false.
Proof.
  apply not_true_iff_false. rewrite existsb_exists. intros (d & Hin & Hiso).
  apply list_elem_of_In in Hin. unfold installed_disks in Hin.
  apply list_elem_of_filter in Hin as [Hk _].
  unfold keep_installed in Hk. rewrite Hiso, andb_false_r in Hk. done.
Qed.

Lemma installed_disks_length l : length (installed_disks l) = length l → installed_disks l = l.
Proof.
  unfold installed_disks. induction l as [|d l IH]; [done|].
  rewrite filter_cons. case_decide; cbn.
  - intros E. f_equal. apply IH. lia.
  - pose proof (length_filter (λ d, keep_installed d = true) l). lia.
Qed.

Section StartLemmas.
Context {S : Type} `{VMStoreLaws S}.
Implicit Types w : World S.

Lemma strip_disks_run c w :
  ∃ w', strip_disks c w = (Ok (installed_disks (c_Disks c)), w') ∧
    w_store w' = w_store w ∧ w_alive w' = w_alive w ∧ w_free_port w' = w_free_port w.
Proof.
  assert (Hk : keeps (λ w', w_store w' = w_store w ∧ w_alive w' = w_alive w ∧
      w_free_port w' = w_free_port w)
    (for_each (λ d, when_ (IsScratch d) (deleteScratchDisk (S := S) (c_Name c) d)) (c_Disks c))).
  { keeps_tac. unfold deleteScratchDisk. keeps_tac. by apply keeps_modify. }
  destruct (Hk w) as ([] & w' & E & ?); [done|].
  exists w'. unfold strip_disks. by rewrite run_bind, E.
Qed.

Lemma saveConfigAs_run what c w : healthy (w_store w) →
  ∃ s', saveConfigAs what c w = (Ok tt, w <| w_store := s' |>) ∧ healthy s' ∧
    st_view s' = st_view (w_store w) ∧
    cfg_view s' = <[c_Name c := persisted c]> (cfg_view (w_store w)).
Proof.
  intros Hh. destruct (st_saveConfig c w Hh) as (s' & E & ?). exists s'.
  split; [|done]. unfold saveConfigAs, attempt. by rewrite run_bind, E.
Qed.

Lemma saveStateAs_run what n x w :
  healthy (w_store w) → is_Some (cfg_view (w_store w) !! n) →
  ∃ s', saveStateAs what n x w = (Ok tt, w <| w_store := s' |>) ∧ healthy s' ∧
    cfg_view s' = cfg_view (w_store w) ∧ st_view s' = <[n := x]> (st_view (w_store w)).
Proof.
  intros Hh Hc. destruct (st_saveState n x w Hh Hc) as (s' & E & ?). exists s'.
  split; [|done]. unfold saveStateAs, attempt. by rewrite run_bind, E.
Qed.

(** The part of the world a preparation step does not touch, and that the
    store stays usable for [n]. *)
Definition prepared n w w' : Prop :=
  healthy (w_store w') ∧ is_Some (cfg_view (w_store w') !! n) ∧
  w_alive w' = w_alive w ∧ w_free_port w' = w_free_port w.

Lemma skip_install_run n c s w :
  c_Name c = n → healthy (w_store w) → is_Some (cfg_view (w_store w) !! n) →
  ∃ c' s' w', skip_install n c s w = (Ok (c', s'), w') ∧ prepared n w w' ∧
    c_Name c' = n ∧ c_Template c' = c_Template c ∧ c_SkipInstall c' = c_SkipInstall c ∧
    c_Backend c' = c_Backend c ∧ c_SPICE c' = c_SPICE c ∧ (c' = c ∨ c' = strip_cfg c) ∧
    if c_SkipInstall c && bool_decide (s_InstallState s = "")
    then s_InstallState s' = InstallStateReady ∧ c_Disks c' = installed_disks (c_Disks c)
    else s' = s ∧ c' = c.
Proof.
  intros Hn Hh Hc. unfold skip_install.
  destruct (c_SkipInstall c && bool_decide (s_InstallState s = "")) eqn:Eb.
  2: { exists c, s, w. split; [done|]. split; [done|]. by split_and!; auto. }
  destruct (strip_disks_run c w) as (w1 & E1 & Es & Ea & Ef). rewrite run_bind, E1.
  set (c1 := c <| c_Disks := _ |> <| c_InstallDevices := [] |>).
  destruct (saveConfigAs_run "save config (skip install)" c1 w1) as (s2 & E2 & Hh2 & Hv2 & Hc2);
    [by rewrite Es|].
  rewrite run_bind, E2, run_gets.
  set (s3 := s <| s_InstallState := InstallStateReady |> <| s_InstalledAt := Some (w_now (w1 <| w_store := s2 |>)) |>).
  destruct (saveStateAs_run "save state (skip install)" n s3 (w1 <| w_store := s2 |>))
    as (s4 & E4 & Hh4 & Hc4 & Hv4); [done| |].
  { cbn. rewrite Hc2, Es. by apply insert_is_Some. }
  rewrite run_bind, E4. eexists c1, s3, _. split; [done|]. split.
  - split; [done|]. split; [|done]. cbn. rewrite Hc4. cbn. rewrite Hc2, Es.
    by apply insert_is_Some.
  - by split_and!; auto.
Qed.

Lemma install_switch_run n c s w :
  c_Name c = n → healthy (w_store w) → is_Some (cfg_view (w_store w) !! n) →
  ∃ c' s' w', install_switch n c s w = (Ok (c', s'), w') ∧ prepared n w w' ∧
    c_Name c' = n ∧ c_Template c' = c_Template c ∧
    c_Backend c' = c_Backend c ∧ c_SPICE c' = c_SPICE c ∧ (c' = c ∨ c' = strip_cfg c) ∧
    s_InstallState s' = (if bool_decide (s_InstallState s = "") && existsb IsInstallISO (c_Disks c)
                         then InstallStatePending else s_InstallState s) ∧
    c_Disks c' = (if bool_decide (s_InstallState s = InstallStateReady)
                  then installed_disks (c_Disks c) else c_Disks c).
Proof.
  intros Hn Hh Hc. unfold install_switch. case_bool_decide as E0; cbn.
  { rewrite E0. cbn. destruct (existsb IsInstallISO (c_Disks c)).
    - destruct (saveStateAs_run "save install state" n (s <| s_InstallState := InstallStatePending |>) w)
        as (s1 & E1 & Hh1 & Hc1 & Hv1); [done..|].
      rewrite run_bind, E1. eexists c, _, _. split; [done|]. split; [|by split_and!; auto].
      split_and!; [done| |done..]. cbn. by rewrite Hc1.
    - exists c, s, w. split; [done|]. split; [done|]. by split_and!; auto. }
  case_bool_decide as E1.
  2: { exists c, s, w. split; [done|]. split; [done|]. by split_and!; auto. }
  destruct (strip_disks_run c w) as (w1 & Ew & Es & Ea & Ef). rewrite run_bind, Ew.
  set (c1 := c <| c_Disks := _ |> <| c_InstallDevices := [] |>).
  set (b := negb _ || _). destruct b; cbn -[saveConfigAs].
  - destruct (saveConfigAs_run "save config after stripping install ISOs" c1 w1)
      as (s2 & E2 & Hh2 & Hv2 & Hc2); [by rewrite Es|].
    rewrite run_bind, E2. eexists c1, s, _. split; [done|]. split; [|by split_and!; auto].
    split; [done|]. split; [|done]. cbn. rewrite Hc2, Es. by apply insert_is_Some.
  - exists c1, s, w1. split; [done|]. split; [|by split_and!; auto].
    split_and!; [by rewrite Es|by rewrite Es|done..].
Qed.

Lemma realloc_spice_run n c w :
  c_Name c = n → healthy (w_store w) → is_Some (cfg_view (w_store w) !! n) →
  is_Some (w_free_port w) →
  ∃ c' w', realloc_spice c w = (Ok c', w') ∧ prepared n w w' ∧
    c_Name c' = n ∧ c_Template c' = c_Template c ∧ c_Disks c' = c_Disks c ∧
    c_Backend c' = c_Backend c ∧ (c' = c ∨ ∃ p, c' = set_spice_port c p) ∧
    (∀ sp, c_SPICE c' = Some sp → BackendName c = QEMU → 0 < sp_Port sp →
      sp_Port sp ∉ w_ports w ∨ Some (sp_Port sp) = w_free_port w).
Proof.
  intros Hn Hh Hc [p Hp]. unfold realloc_spice.
  destruct (c_SPICE c) as [sp|] eqn:Esp.
  2: { exists c, w. rewrite Esp. split; [done|]. split; [done|]. by split_and!; auto. }
  case_bool_decide as Eb; cbn.
  2: { exists c, w. split; [done|]. split; [done|]. by split_and!; auto. }
  destruct (Z.ltb_spec 0 (sp_Port sp)); cbn.
  2: { exists c, w. split; [done|]. split; [by repeat split|]. split_and!; [done..|by left|].
       intros ? E _ ?. rewrite Esp in E. simplify_eq. lia. }
  unfold isPortInUse. rewrite run_gets. case_bool_decide as Eu.
  2: { exists c, w. split; [done|]. split; [by repeat split|]. split_and!; [done..|by left|].
       intros ? E _ ?. rewrite Esp in E. simplify_eq. by left. }
  rewrite (run_bind_ok _ _ w (Ok p) w)
    by (unfold attempt, freeTCPPort; rewrite run_gets, Hp; done).
  destruct (saveConfigAs_run "save config after SPICE port realloc" (set_spice_port c p) w)
    as (s2 & E2 & Hh2 & Hv2 & Hc2); [done|].
  rewrite run_bind, E2. eexists _, _. split; [done|]. split; [|split_and!; [done..|by eauto|]].
  - split; [done|]. split; [|done]. cbn. rewrite Hc2. by apply insert_is_Some.
  - intros sp' E _ _. cbn in E. rewrite Esp in E. cbn in E. simplify_eq. by right.
Qed.
End StartLemmas.

Section StartTheorems.
Context {S : Type} `{VMStoreLaws S} `{!MachineBuilder S} `{!MachineLaws S}.
Context (P : VMConfig → Prop) `{!Launchable S P}.
Context (host : Host) (env : StartEnv S).
Implicit Types w : World S.

Lemma prepare_run n c s w :
  c_Name c = n → healthy (w_store w) → is_Some (cfg_view (w_store w) !! n) →
  is_Some (w_free_port w) → P c →
  ∃ c' s' w', prepare n c s w = (Ok (c', s'), w') ∧ prepared n w w' ∧
    c_Name c' = n ∧ c_Template c' = c_Template c ∧ P c' ∧
    s_InstallState s' = install_next c s ∧ c_Disks c' = disks_next c s.
Proof.
  intros Hn Hh Hc Hp HP. unfold prepare.
  destruct (skip_install_run n c s w) as (c1 & s1 & w1 & E1 & (Hh1 & Hc1 & Ha1 & Hf1)
    & Hn1 & Ht1 & Hk1 & Hb1 & Hsp1 & HP1 & Hif); [done..|].
  rewrite run_bind, E1.
  destruct (install_switch_run n c1 s1 w1) as (c2 & s2 & w2 & E2 & (Hh2 & Hc2 & Ha2 & Hf2)
    & Hn2 & Ht2 & Hb2 & Hsp2 & HP2 & Hi2 & Hd2); [done..|].
  rewrite run_bind, E2.
  destruct (realloc_spice_run n c2 w2) as (c3 & w3 & E3 & (Hh3 & Hc3 & Ha3 & Hf3)
    & Hn3 & Ht3 & Hd3 & _ & HP3 & _); [done..|by rewrite Hf2, Hf1|].
  rewrite run_bind, E3. exists c3, s2, w3. split; [done|].
  split; [split_and!; [done|done|congruence|congruence]|].
  split; [done|]. split; [congruence|].
  assert (P c1) by (destruct HP1 as [->| ->]; [done|by apply launch_strip]).
  assert (P c2) by (destruct HP2 as [->| ->]; [done|by apply launch_strip]).
  assert (P c3) by (destruct HP3 as [->|[p ->]]; [done|by apply launch_port]).
  split; [done|]. rewrite Hd3, Hi2, Hd2.
  unfold disks_next, install_next. clear -Hif.
  destruct (c_SkipInstall c); case_bool_decide as E; cbn in Hif; destruct Hif as [E1 E2].
  - rewrite E1, E2. cbn. by rewrite installed_disks_idemp.
  - subst. by rewrite (bool_decide_eq_false_2 _ E).
  - subst. rewrite E, bool_decide_eq_true_2 by done. cbn.
    by destruct (existsb IsInstallISO (c_Disks c)).
  - subst. by rewrite (bool_decide_eq_false_2 _ E).
Qed.

Lemma stale_state_run n c s w :
  healthy (w_store w) → is_Some (cfg_view (w_store w) !! n) →
  ∃ w', stale_state n c s w = (Ok zeroState, w') ∧
    healthy (w_store w') ∧ cfg_view (w_store w') = cfg_view (w_store w) ∧
    st_view (w_store w') = <[n := preservedAfterCrash s (w_vzresult w !! n)]> (st_view (w_store w)) ∧
    w_free_port w' = w_free_port w.
Proof.
  intros Hh Hc. unfold stale_state.
  assert (Hk : keeps (λ w', w_store w' = w_store w ∧ w_free_port w' = w_free_port w ∧
      w_vzresult w' = w_vzresult w)
    (when_ (negb (bool_decide (c_Hostname c = ""))) (ignore (UnregisterHostname (S := S) (c_Hostname c))))).
  { keeps_tac. unfold UnregisterHostname, removeHostsEntry. preserves_tac.
    unfold write_hosts. preserves_tac. by apply preserves_modify. }
  destruct (Hk w) as ([] & w1 & E1 & Es & Ef & Ev); [done|]. rewrite run_bind, E1.
  unfold cleanupStaleVM. rewrite run_bind, run_gets. unfold ignore. rewrite Ev.
  destruct (st_saveState n (preservedAfterCrash s (w_vzresult w !! n)) w1)
    as (s2 & -> & Hh2 & Hc2 & Hv2); [by rewrite Es..|].
  eexists; split; [done|]. cbn. by rewrite Hc2, Hv2, Es.
Qed.

(** The store after a launch: states are kept, and a config that was the one
    launched still has its disks. *)
Definition launch_kept (n : string) (l : list DiskConfig) (w w' : World S) : Prop :=
  healthy (w_store w') ∧ st_view (w_store w') = st_view (w_store w) ∧
  ∃ c', cfg_view (w_store w') !! n = Some c' ∧ c_Disks c' = l.

Lemma launch_kept_step n l c w w' : c_Name c = n → c_Disks c = l →
  relaunch_view c (w_store w) (w_store w') →
  (∃ c0, cfg_view (w_store w) !! n = Some c0 ∧ c_Disks c0 = l) → launch_kept n l w w'.
Proof.
  intros Hn Hd (Hh & Hv & Hc) Hc0. split; [done|]. split; [done|].
  destruct Hc as [->|[mac ->]]; [done|]. rewrite Hn, lookup_insert_eq. by eexists.
Qed.

(** Launching, with the 2D retry: the process recorded is alive. *)
Lemma launch_run c0 b m c vfs w0 w00 w : P c → buildBackendMachine c0 b w0 = (Ok (c, m, vfs), w00) →
  (∀ w1, ∃ r w2, StartDetached m w1 = (Ok r, w2) ∧ isAlive_in w2 (r_PID r) = true) →
  healthy (w_store w) → (∃ c', cfg_view (w_store w) !! c_Name c = Some c' ∧ c_Disks c' = c_Disks c) →
  ∃ res w', (res ← StartDetached m; retryStartWithoutGL host c b res) w = (Ok res, w') ∧
    launch_kept (c_Name c) (c_Disks c) w w' ∧ isAlive_in w' (r_PID res) = true.
Proof.
  intros HP Eb Hm Hh Hc. destruct (Hm w) as (r1 & w1 & E1 & Ha1).
  assert (launch_kept (c_Name c) (c_Disks c) w w1) as Hk1.
  { by eapply launch_kept_step; [..|eapply start_view|]. }
  rewrite run_bind, E1.
  unfold retryStartWithoutGL. case_match; [by eexists _, _|].
  unfold isAlive. rewrite run_gets, run_gets. cbv zeta.
  set (settled := isAlive_in _ _ || _). destruct settled; [by eexists _, _|].
  destruct (launch_build _ b w1 (launch_2d _ HP)) as (c2 & m2 & v2 & w2 & E2 & _ & Hm2).
  rewrite run_bind. unfold attempt. rewrite E2.
  destruct (Hm2 w2) as (r3 & w3 & E3 & Ha3).
  pose proof (build_cfg _ _ _ _ _ _ _ E2) as (Hn2 & Hd2 & _). pose proof (build_store _ _ _ _ _ E2) as Hs2.
  destruct Hk1 as (Hh1 & Hv1 & Hc1). rewrite <-Hs2 in Hh1, Hv1, Hc1.
  assert (launch_kept (c_Name c) (c_Disks c) w2 w3) as (Hh3 & Hv3 & Hc3).
  { by eapply launch_kept_step; [..|eapply start_view|]. }
  exists r3, w3. split; [done|]. split; [|done]. split; [done|]. split; [congruence|done].
Qed.

Lemma publish_frame c n w : c_Template c ≠ "truenas" →
  ∃ w', publish env c n w = (Ok tt, w') ∧ w_store w' = w_store w ∧ w_alive w' = w_alive w.
Proof.
  intros Ht.
  assert (Hw : ∀ f, preserves (λ w', w_store w' = w_store w ∧ w_alive w' = w_alive w)
    (write_hosts (S := S) f)).
  { intros f. unfold write_hosts. preserves_tac. by apply preserves_modify. }
  assert (Hk : keeps (λ w', w_store w' = w_store w ∧ w_alive w' = w_alive w) (publish env c n)).
  { unfold publish. case_match; [|keeps_tac]. case_match; [|keeps_tac].
    rewrite (bool_decide_eq_false_2 (c_Template c = "truenas")) by done.
    unfold CanWriteHosts, RegisterHostname, removeHostsEntry.
    change (when_ false _) with (mret tt : GoM (World S) error unit).
    keeps_tac; preserves_tac. }
  destruct (Hk w) as ([] & w' & ?); [done|]. by exists w'.
Qed.

Lemma spawn_watcher_frame c name n w :
  ∃ w', spawn_watcher c name n w = (Ok tt, w') ∧ w_store w' = w_store w ∧ w_alive w' = w_alive w.
Proof.
  unfold spawn_watcher. case_match; [by eexists|]. case_match; by eexists.
Qed.

(** The persisted outcome of a launch. *)
Definition launched n (w' : World S) c0 s0 : Prop :=
  ∃ s' c', st_view (w_store w') !! n = Some s' ∧ cfg_view (w_store w') !! n = Some c' ∧
    s_Running s' = true ∧ s_DesiredState s' = DesiredStateRunning ∧
    s_LastShutdownReason s' = "" ∧ s_InstallState s' = install_next c0 s0 ∧
    c_Disks c' = disks_next c0 s0 ∧ isAlive_in w' (s_PID s') = true.

Lemma launchedState_fields c s res vfs now :
  let n := launchedState host c s res vfs now in
  s_Running n = true ∧ s_DesiredState n = DesiredStateRunning ∧ s_LastShutdownReason n = "" ∧
  s_InstallState n = s_InstallState s ∧ s_PID n = r_PID res.
Proof.
  unfold launchedState, assignControlSockets.
  case_bool_decide; destruct (c_SPICE c), (_ && _); by split_and!.
Qed.

(** From a prepared world to a recorded launch. *)
Lemma start_tail n c s w b :
  c_Name c = n → healthy (w_store w) → is_Some (cfg_view (w_store w) !! n) →
  c_Template c ≠ "truenas" → P c →
  ∃ w' s' c',
    ('(cfg, m, vfs) ← buildBackendMachine c b;
     _ ← saveConfigAs "save config" cfg;
     res ← StartDetached m;
     res ← retryStartWithoutGL host cfg b res;
     now ← gets w_now;
     let n0 := launchedState host cfg s res vfs now in
     _ ← st (saveState n n0);
     _ ← spawn_watcher cfg n n0;
     publish env cfg n0) w = (Ok tt, w') ∧
    healthy (w_store w') ∧
    st_view (w_store w') !! n = Some s' ∧ cfg_view (w_store w') !! n = Some c' ∧
    s_Running s' = true ∧ s_DesiredState s' = DesiredStateRunning ∧
    s_LastShutdownReason s' = "" ∧ s_InstallState s' = s_InstallState s ∧
    c_Disks c' = c_Disks c ∧ isAlive_in w' (s_PID s') = true.
Proof.
  intros Hn Hh Hc Ht HP.
  destruct (launch_build c b w HP) as (c1 & m & vfs & w1 & E1 & HP1 & Hm). rewrite run_bind, E1.
  pose proof (build_store _ _ _ _ _ E1) as Hs1. pose proof E1 as Eb.
  apply build_cfg in E1 as (Hn1 & Hd1 & _ & Ht1). rewrite <-Hs1 in *.
  destruct (saveConfigAs_run "save config" c1 w1 Hh) as (s2 & E2 & Hh2 & Hv2 & Hc2).
  rewrite run_bind, E2. set (w2 := w1 <| w_store := s2 |>).
  destruct (launch_run c b m c1 vfs w w1 w2 HP1 Eb Hm) as (res & w3 & E3 & (Hh3 & Hv3 & c3 & Hc3 & Hd3) & Ha3);
    [done|cbn; rewrite Hc2, lookup_insert_eq; by eexists|]. rewrite Hn1, Hn in Hc3.
  rewrite (bind_assoc_run (StartDetached m) (λ res, retryStartWithoutGL host c1 b res)).
  rewrite run_bind, E3, run_gets.
  set (n0 := launchedState _ _ _ _ _ _).
  destruct (st_saveState n n0 w3) as (s4 & E4 & Hh4 & Hc4 & Hv4); [done|by eexists|].
  cbv zeta. rewrite run_bind, E4.
  destruct (spawn_watcher_frame c1 n n0 (w3 <| w_store := s4 |>)) as (w5 & E5 & Hs5 & Ha5).
  rewrite run_bind, E5.
  destruct (publish_frame c1 n0 w5) as (w6 & E6 & Hs6 & Ha6); [congruence|].
  destruct (launchedState_fields c1 s res vfs (w_now w3)) as (F1 & F2 & F3 & F4 & F5).
  exists w6, n0, c3. rewrite Hs6, Hs5. cbn. rewrite Hc4, Hv4, lookup_insert_eq, Hc3, Hd3, Hd1.
  split_and!; try done. fold n0 in F5. rewrite F5.
  unfold isAlive_in in *. rewrite Ha6, Ha5. done.
Qed.

Lemma Start_run n w c s b :
  healthy (w_store w) → cfg_view (w_store w) !! n = Some c → c_Name c = n →
  default zeroState (st_view (w_store w) !! n) = s →
  s_Running s && isAlive_in w (s_PID s) = false →
  c_Template c ≠ "truenas" → is_Some (w_free_port w) → P c →
  ∃ w', Start host env n false b w = (Ok tt, w') ∧ healthy (w_store w') ∧
    launched n w' c (if s_Running s then zeroState else s).
Proof.
  intros Hh Hc Hn Hs Hna Ht Hp HP. unfold Start.
  rewrite run_bind, (st_loadConfig _ _ c) by done.
  rewrite run_bind, st_loadState, Hs by done.
  unfold isAlive. rewrite run_gets, Hna. set (b' := b && _).
  assert (∃ w1, (if s_Running s then stale_state n c s else mret s) w =
      (Ok (if s_Running s then zeroState else s), w1) ∧ healthy (w_store w1) ∧
      is_Some (cfg_view (w_store w1) !! n) ∧ is_Some (w_free_port w1)) as (w1 & E1 & Hh1 & Hc1 & Hp1).
  { destruct (s_Running s); [|by exists w; eauto].
    destruct (stale_state_run n c s w) as (w1 & E1 & ? & Hc1 & _ & Hf); [by eauto..|].
    exists w1. rewrite Hc1, Hf. eauto. }
  rewrite run_bind, E1. set (s1 := if s_Running s then zeroState else s) in *.
  destruct (prepare_run n c s1 w1) as (c2 & s2 & w2 & E2 & (Hh2 & Hc2 & Ha2 & Hf2)
    & Hn2 & Ht2 & HP2 & Hi2 & Hd2); [done..|].
  rewrite run_bind, E2.
  destruct (start_tail n c2 s2 w2 b') as (w3 & s3 & c3 & E3 & Hh3 & F); [done|done|done|congruence|done|].
  exists w3. split; [exact E3|]. split; [done|].
  destruct F as (? & ? & ? & ? & ? & ? & ? & ?). exists s3, c3. by rewrite <-Hi2, <-Hd2.
Qed.
End StartTheorems.

(** ** A concrete scenario

    One VM, "dev", with an installer ISO, a scratch disk and an OS disk, kept
    in the database; machines are built as they are and get PID 4242. *)
Module Scenario.
Definition linux : Host := mkHost "linux" "amd64".

Definition iso : DiskConfig :=
  zeroDisk <| d_Path := "/iso/ubuntu.iso" |> <| d_Media := "cdrom" |> <| d_InstallISO := true |>.
Definition scratch : DiskConfig :=
  zeroDisk <| d_Path := "/vms/dev/scratch.qcow2" |> <| d_Media := "disk" |> <| d_Scratch := true |>.
Definition osdisk : DiskConfig :=
  zeroDisk <| d_Path := "/vms/dev/os.qcow2" |> <| d_Media := "disk" |> <| d_Format := "qcow2" |>.

Definition cfg : VMConfig :=
  zeroConfig <| c_Name := "dev" |> <| c_Disks := [iso; scratch; osdisk] |> <| c_AutoStart := true |>.

Definition running : VMState :=
  zeroState <| s_Running := true |> <| s_PID := 77 |> <| s_QMPSocket := "/vms/dev/qmp.sock" |>
            <| s_DesiredState := DesiredStateRunning |> <| s_InstallState := InstallStateReady |>.
Definition stopped : VMState := running <| s_Running := false |> <| s_PID := 0 |>.

Definition db_with (s : VMState) : Db.DB :=
  Db.mkDB {[ "dev" := Db.mkRow cfg 1 ]} {[ "dev" := s ]} 9 None None.
Definition world_with (s : VMState) (alive : gset Z) : World Db.DB :=
  mkWorld (db_with s) alive ∅ ∅ ∅ (Some 5930) ∅ [] true true true ∅ ∅ 100 [].

Definition env : StartEnv Db.DB :=
  mkStartEnv _ (λ _ _, None) (λ _ _ w, w) (λ _ w, (false, w)).

#[global] Instance builder : MachineBuilder Db.DB := {
  machine := VMConfig;
  buildBackendMachine c _ := mret (c, c, []);
  StartDetached _ := λ w,
    (Ok (mkStartResult 4242 "/vms/dev/qmp.sock" "" 0),
     w <| w_alive := {[ 4242 ]} ∪ w_alive w |>);
}.
#[global] Instance builder_laws : MachineLaws Db.DB.
Proof.
  split; cbn.
  - by intros c b w r w' [= <- <-].
  - by intros c b w c' m vfs w' [= <- <- <- <-].
  - intros c b w0 c' m vfs w1 w r w' _ [= <- <-] Hh. split; [done|]. split; [done|by left].
Qed.

#[global] Instance builder_launchable : Launchable Db.DB (λ _, True).
Proof.
  split; [|done..]. intros c b w _. eexists _, _, _, _. split; [done|]. split; [done|].
  intros w1. eexists _, _. split; [done|]. unfold isAlive_in. cbn. apply bool_decide_eq_true. set_solver.
Qed.
End Scenario.

(** ** Theorems *)
Section Claims.
Context {S : Type} `{VMStoreLaws S} `{!MachineBuilder S} `{!MachineLaws S}.
Context (P : VMConfig → Prop) `{!Launchable S P}.
Context (host : Host) (env : StartEnv S).

(** C1: Stopping a running VM, gracefully or by force, always ends with its
    process dead and its record replaced by one that keeps only the install
    state (a pending install counts as done), when it was installed, the
    reason, and whether it should come back; no other VM's record and no
    config changes. *)
Theorem stop_outcome n reason (w : World S) cfg s :
  healthy (w_store w) → cfg_view (w_store w) !! n = Some cfg →
  st_view (w_store w) !! n = Some s → s_Running s = true → s_PID s ≠ 0 →
  ∀ stop, stop = stopWithReason n reason ∨ stop = forceStopWithReason n reason →
  ∃ w', stop w = (Ok tt, w') ∧ cfg_view (w_store w') = cfg_view (w_store w) ∧
    st_view (w_store w') = <[n := preservedAfterStop s reason]> (st_view (w_store w)) ∧
    isAlive_in w' (s_PID s) = false ∧ w_alive w' ⊆ w_alive w.
Proof.
  intros Hh Hc Hs Hr Hp stop [-> | ->].
  - destruct (stopWithReason_spec n reason w cfg s) as (w' & ? & ? & ?); eauto.
  - destruct (forceStopWithReason_spec n reason w cfg s) as (w' & ? & ? & ?); eauto.
Qed.

(** A VM that is not on record as running cannot be stopped, and the
    attempt changes nothing. *)
Theorem stop_not_running n reason (w : World S) :
  healthy (w_store w) →
  s_Running (default zeroState (st_view (w_store w) !! n)) = false →
  stopWithReason n reason w = (Err (Errorf "VM %q is not running" [n]), w) ∧
  forceStopWithReason n reason w = (Err (Errorf "VM %q is not running" [n]), w).
Proof.
  intros Hh Hr. unfold stopWithReason, forceStopWithReason.
  rewrite !run_bind, !st_loadState by done. by rewrite Hr.
Qed.

(** A VM whose recorded process is alive is never launched twice: the
    start fails and the world is unchanged. *)
Theorem start_refuses_running n (w : World S) cfg s fg rec :
  healthy (w_store w) → cfg_view (w_store w) !! n = Some cfg →
  st_view (w_store w) !! n = Some s → s_Running s = true →
  isAlive_in w (s_PID s) = true →
  Start host env n fg rec w =
    (Err (Errorf "VM %q is already running (PID %d)" [n; Itoa (s_PID s)]), w).
Proof.
  intros Hh Hc Hs Hr Ha. unfold Start.
  rewrite run_bind, (st_loadConfig _ _ cfg), run_bind, st_loadState, Hs by done.
  unfold isAlive. rewrite run_gets. cbn. by rewrite Hr, Ha.
Qed.

(** C3: Starting a launchable VM that is not alive succeeds; its record then names a live process, says running
    and wanted, carries no shutdown reason, and the install state and disks
    are the ones the install state machine prescribes. *)
Theorem start_launches n (w : World S) cfg s rec :
  healthy (w_store w) → cfg_view (w_store w) !! n = Some cfg → c_Name cfg = n →
  default zeroState (st_view (w_store w) !! n) = s →
  s_Running s && isAlive_in w (s_PID s) = false →
  c_Template cfg ≠ "truenas" → is_Some (w_free_port w) → P cfg →
  ∃ w', Start host env n false rec w = (Ok tt, w') ∧
    launched n w' cfg (if s_Running s then zeroState else s).
Proof. intros. edestruct Start_run as (w' & ? & ? & ?); eauto. Qed.


(** The stale-state path of a start forgets a completed install: when a
    VM on record as running has died, its clean-up records the install as
    ready, but the start goes on with an empty state, so with an installer
    ISO still configured the record ends up pending again and the ISO stays
    attached. *)
Theorem stale_start_reinstalls n (w : World S) cfg s rec :
  healthy (w_store w) → cfg_view (w_store w) !! n = Some cfg → c_Name cfg = n →
  st_view (w_store w) !! n = Some s → s_Running s = true →
  isAlive_in w (s_PID s) = false → c_SkipInstall cfg = false →
  existsb IsInstallISO (c_Disks cfg) = true →
  c_Template cfg ≠ "truenas" → is_Some (w_free_port w) → P cfg →
  ∃ w' s' cfg', Start host env n false rec w = (Ok tt, w') ∧
    st_view (w_store w') !! n = Some s' ∧ s_InstallState s' = InstallStatePending ∧
    cfg_view (w_store w') !! n = Some cfg' ∧ c_Disks cfg' = c_Disks cfg.
Proof.
  intros Hh Hc Hn Hs Hr Ha Hk Hiso Ht Hp HP.
  destruct (Start_run P host env n w cfg s rec)
    as (w' & E & _ & s' & c' & Hs' & Hc' & _ & _ & _ & Hi & Hd & _);
    try done; [by rewrite Hs|by rewrite Hr, Ha|].
  exists w', s', c'. rewrite Hr in Hi, Hd. unfold disks_next, install_next in *.
  cbn in Hi, Hd. rewrite Hk, Hiso in Hi, Hd. by split_and!.
Qed.
End Claims.

Lemma stop_outcome_witness :
  ∃ w', Stop "dev" (Scenario.world_with Scenario.running {[77]}) = (Ok tt, w') ∧
    cfg_view (w_store w') = cfg_view (Scenario.db_with Scenario.running) ∧
    st_view (w_store w') = <["dev" := preservedAfterStop Scenario.running ShutdownReasonUser]>
      (st_view (Scenario.db_with Scenario.running)) ∧
    isAlive_in w' 77 = false ∧ w_alive w' ⊆ w_alive (Scenario.world_with Scenario.running {[77]}).
Proof.
  apply (stop_outcome "dev" ShutdownReasonUser (Scenario.world_with Scenario.running {[77]})
    Scenario.cfg Scenario.running); [split; reflexivity | reflexivity | reflexivity | reflexivity
    | discriminate | left; reflexivity].
Defined.

Lemma stop_not_running_witness :
  stopWithReason "dev" "user" (Scenario.world_with Scenario.stopped ∅) =
    (Err (Errorf "VM %q is not running" ["dev"]), Scenario.world_with Scenario.stopped ∅) ∧
  forceStopWithReason "dev" "user" (Scenario.world_with Scenario.stopped ∅) =
    (Err (Errorf "VM %q is not running" ["dev"]), Scenario.world_with Scenario.stopped ∅).
Proof. apply stop_not_running; [split; reflexivity | reflexivity]. Defined.

Lemma start_refuses_running_witness :
  Start Scenario.linux Scenario.env "dev" false false (Scenario.world_with Scenario.running {[77]}) =
    (Err (Errorf "VM %q is already running (PID %d)" ["dev"; Itoa 77]),
     Scenario.world_with Scenario.running {[77]}).
Proof.
  apply (start_refuses_running Scenario.linux Scenario.env "dev" _ Scenario.cfg Scenario.running);
    [split; reflexivity | reflexivity..].
Defined.

Lemma start_launches_witness :
  ∃ w', Start Scenario.linux Scenario.env "dev" false false (Scenario.world_with Scenario.stopped ∅) = (Ok tt, w') ∧
    launched "dev" w' Scenario.cfg Scenario.stopped.
Proof.
  apply (start_launches (λ _, True) Scenario.linux Scenario.env "dev" (Scenario.world_with Scenario.stopped ∅)
    Scenario.cfg Scenario.stopped false);
    [split; reflexivity | reflexivity | reflexivity | reflexivity | reflexivity | discriminate
    | by eexists | exact I].
Defined.


Lemma stale_start_reinstalls_witness :
  ∃ w' s' cfg', Start Scenario.linux Scenario.env "dev" false false (Scenario.world_with Scenario.running ∅) = (Ok tt, w') ∧
    st_view (w_store w') !! "dev" = Some s' ∧ s_InstallState s' = InstallStatePending ∧
    cfg_view (w_store w') !! "dev" = Some cfg' ∧ c_Disks cfg' = c_Disks Scenario.cfg.
Proof.
  apply (stale_start_reinstalls (λ _, True) Scenario.linux Scenario.env "dev" (Scenario.world_with Scenario.running ∅)
    Scenario.cfg Scenario.running false);
    [split; reflexivity | reflexivity | reflexivity | reflexivity | reflexivity | reflexivity
    | reflexivity | reflexivity | discriminate
    | by eexists | exact I].
Defined.
