(* ===== verification/Guest.v ===== *)
(** * Reaching a guest

    How the manager finds a guest's address and talks to its sshd:
    [parseIPNeigh], [equalMAC], [ResolveIPFromMAC], [ResolveIPFromQGA] and
    [waitIP] of [internal/vm/manager.go], the lease and ARP tables of
    [internal/vm/ipresolve_macos.go], the endpoint, the [scp] command line and
    the known-hosts file of [internal/vm/scp.go], and [shellQuote] of
    [internal/vm/sshexec.go].  Output of [ip], [arp] and the guest agent are
    arguments. *)
From S2P Require Import Prelude GoStrings Config World.

Open Scope Z_scope.

(** ** Text helpers of the Go library *)
Definition newline : ascii := "010"%char.
Definition colon : ascii := ":"%char.
(** Lines, each ended by a newline. *)
Fixpoint unlines (ls : list string) : string :=
  match ls with [] => "" | l :: ls' => l +:+ String newline (unlines ls') end.

(** [strings.TrimPrefix] *)
Definition TrimPrefix (s p : string) : string := if HasPrefix s p then sdrop (String.length p) s else s.
(** [strings.ReplaceAll] of one byte by another *)
Definition replace_char (a b : ascii) (s : string) : string := smap (λ c, if bool_decide (c = a) then b else c) s.
(** [strings.IndexByte] *)
Fixpoint IndexByte (s : string) (c : ascii) : Z :=
  match s with
  | "" => -1
  | String d s' => if bool_decide (d = c) then 0 else let i := IndexByte s' c in if i <? 0 then -1 else i + 1
  end.
(** [strings.Index] *)
Fixpoint Index (s sub : string) : Z :=
  if HasPrefix s sub then 0
  else match s with
       | "" => -1
       | String _ s' => let i := Index s' sub in if i <? 0 then -1 else i + 1
       end.
(** [s[i:j]] *)
Definition slice (i j : Z) (s : string) : string := String.substring (Z.to_nat i) (Z.to_nat (j - i)) s.

(** Hexadecimal digits: [strconv.ParseUint(s, 16, bits)] and
    [strconv.FormatUint(n, 16)]. *)
Definition hex_val (c : ascii) : option Z :=
  if is_digit c then Some (digit_val c)
  else if in_range "a" "f" c then Some (Z.of_N (code c) - 87)
  else if in_range "A" "F" c then Some (Z.of_N (code c) - 55)
  else None.
Fixpoint hex_digits (acc : Z) (s : string) : option Z :=
  match s with
  | "" => Some acc
  | String c s' => v ← hex_val c; hex_digits (acc * 16 + v) s'
  end.
Definition ParseHex (bits : Z) (s : string) : option Z :=
  match s with
  | "" => None
  | _ => n ← hex_digits 0 s; if n <? 2 ^ bits then Some n else None
  end.
Definition hex_char (n : Z) : ascii :=
  if n <? 10 then ascii_of_N (Z.to_N (48 + n)) else ascii_of_N (Z.to_N (87 + n)).
(** of a number below 256, the only ones the program formats *)
Definition FormatHexByte (n : Z) : string :=
  if n <? 16 then String (hex_char n) "" else String (hex_char (n / 16)) (String (hex_char (n mod 16)) "").

(** ** MAC addresses *)
Definition equal_mac_norm (s : string) : string :=
  smap (λ c, if in_range "A" "F" c then ascii_of_N (code c + 32) else c)
       (sfilter (λ c, negb (bool_decide (c = colon)) && negb (bool_decide (c = "-"%char))) s).
Definition equalMAC (a b : string) : bool := bool_decide (equal_mac_norm a = equal_mac_norm b).

Definition mac_octet (p : string) : option string :=
  if bool_decide (p = "") || (2 <? Z.of_nat (String.length p)) then None
  else n ← ParseHex 8 p; Some (FormatHexByte n).

Definition normalizeMAC (s : string) : result error string :=
  let bad := Err (Errorf "invalid MAC address" [s]) in
  let parts := Split colon (ToLower (TrimSpace s)) in
  if negb (Nat.eqb (length parts) 6) then bad
  else match mapM mac_octet parts with
       | Some ps => Ok (Join ":" ps)
       | None => bad
       end.

(** [m, err := normalizeMAC(s); err == nil && m == want] *)
Definition mac_is (s want : string) : bool :=
  match normalizeMAC s with Ok m => bool_decide (m = want) | Err _ => false end.

(** ** The neighbour table *)

(** The fields of one line, from index [i] on: an IPv4 address ends the scan,
    a global IPv6 address is remembered. *)
Fixpoint neigh_line (wantMAC ip : string) (fields : list string) (ipv6global : string) : string + string :=
  match fields with
  | f :: ((m :: _) as rest) =>
      if bool_decide (f = "lladdr") && equalMAC m wantMAC then
        if negb (Contains ip ":") then inl ip
        else neigh_line wantMAC ip rest
               (if negb (HasPrefix (ToLower ip) "fe80") && bool_decide (ipv6global = "") then ip else ipv6global)
      else neigh_line wantMAC ip rest ipv6global
  | _ => inr ipv6global
  end.

Fixpoint neigh_lines (wantMAC : string) (lines : list string) (ipv6global : string) : string + string :=
  match lines with
  | [] => inr ipv6global
  | line :: ls =>
      let fields := Fields line in
      match neigh_line wantMAC (default "" (head fields)) fields ipv6global with
      | inl ip => inl ip
      | inr v6 => neigh_lines wantMAC ls v6
      end
  end.

Definition parseIPNeigh (output wantMAC : string) : result error string :=
  match neigh_lines wantMAC (Split newline (TrimSpace output)) "" with
  | inl ip => Ok ip
  | inr v6 => if bool_decide (v6 = "") then Err (Errorf "MAC not found in neighbour table" [wantMAC]) else Ok v6
  end.

(** [arpSweepMaxHosts], and the addresses a sweep of one interface with
    address [self] and a prefix of [ones] bits writes to. *)
Definition arpSweepMaxHosts : Z := 1022.
Definition sweep_targets (self ones : Z) : list Z :=
  if (ones <? 0) || (31 <=? ones) then []
  else
    let network := Z.land self (2 ^ 32 - 2 ^ (32 - ones)) in
    let hosts := Z.min (2 ^ (32 - ones) - 2) arpSweepMaxHosts in
    filter (λ ip, ip ≠ self) ((λ i, (network + i) mod 2 ^ 32) <$> seqZ 1 hosts).

(** ** bootpd leases *)
Definition stripHWType (s : string) : string :=
  let '(_, rest, ok) := Cut "," s in if (ok : bool) then rest else s.

(** The best lease so far and the block being read. *)
Record LeaseScan := mkLeaseScan {
  ls_bestIP : string; ls_bestLease : Z; ls_found : bool;
  ls_ip : string; ls_lease : Z; ls_match : bool }.

Definition lease_reset (s : LeaseScan) : LeaseScan :=
  mkLeaseScan (ls_bestIP s) (ls_bestLease s) (ls_found s) "" 0 false.
Definition lease_flush (s : LeaseScan) : LeaseScan :=
  lease_reset
    (if ls_match s && negb (bool_decide (ls_ip s = "")) && (negb (ls_found s) || (ls_bestLease s <=? ls_lease s))
     then mkLeaseScan (ls_ip s) (ls_lease s) true (ls_ip s) (ls_lease s) (ls_match s)
     else s).

Definition lease_line (wantMAC : string) (s : LeaseScan) (line : string) : LeaseScan :=
  let line := TrimSpace line in
  if bool_decide (line = "{") then lease_reset s
  else if bool_decide (line = "}") then lease_flush s
  else
    let '(k, v, ok) := Cut "=" line in
    if negb ok then s
    else if bool_decide (k = "ip_address")
    then mkLeaseScan (ls_bestIP s) (ls_bestLease s) (ls_found s) v (ls_lease s) (ls_match s)
    else if bool_decide (k = "hw_address") || bool_decide (k = "identifier")
    then if mac_is (stripHWType v) wantMAC
         then mkLeaseScan (ls_bestIP s) (ls_bestLease s) (ls_found s) (ls_ip s) (ls_lease s) true
         else s
    else if bool_decide (k = "lease")
    then match ParseHex 64 (TrimPrefix v "0x") with
         | Some n => mkLeaseScan (ls_bestIP s) (ls_bestLease s) (ls_found s) (ls_ip s) n (ls_match s)
         | None => s
         end
    else s.

Definition lease_start : LeaseScan := mkLeaseScan "" 0 false "" 0 false.
Definition lease_scan (wantMAC : string) (lines : list string) (s : LeaseScan) : LeaseScan :=
  foldl (lease_line wantMAC) s lines.

Definition lookupDHCPDLease (content wantMAC : string) : option (string * Z) :=
  let s := lease_scan wantMAC (Split newline content) lease_start in
  if ls_found s then Some (ls_bestIP s, ls_bestLease s) else None.

(** ** The ARP table of macOS *)
Definition arp_line (wantMAC line : string) : option string :=
  let openIdx := IndexByte line "(" in
  let closeIdx := IndexByte line ")" in
  let atIdx := Index line " at " in
  if (openIdx <? 0) || (closeIdx <=? openIdx) || (atIdx <? closeIdx) then None
  else
    let macField := sdrop (Z.to_nat (atIdx + 4)) line in
    let sp := IndexByte macField " " in
    let macField := if 0 <? sp then slice 0 sp macField else macField in
    if mac_is macField wantMAC then Some (slice (openIdx + 1) closeIdx line) else None.

Fixpoint arp_lines (wantMAC : string) (lines : list string) : option string :=
  match lines with
  | [] => None
  | l :: ls => match arp_line wantMAC l with Some ip => Some ip | None => arp_lines wantMAC ls end
  end.
Definition lookupArpAn (out wantMAC : string) : option string := arp_lines wantMAC (Split newline out).

(** What the host's tools answer, each call of [ip neigh] in turn. *)
Record NetTables := mkNetTables {
  nt_leases : result error string;      (* /var/db/dhcpd_leases *)
  nt_arp : result error string;         (* arp -an *)
  nt_neigh : result error string;       (* ip neigh *)
  nt_neigh_swept : result error string; (* ip neigh after the sweep *)
}.

Definition resolveIPFromMACDarwin (t : NetTables) (mac : string) : result error string :=
  match normalizeMAC mac with
  | Err e => Err e
  | Ok want =>
      match (match nt_leases t with Ok data => lookupDHCPDLease data want | Err _ => None end) with
      | Some (ip, _) => Ok ip
      | None =>
          match nt_arp t with
          | Err e => Err (Wrapf "no dhcpd lease for MAC and ARP scan failed" e)
          | Ok out =>
              match lookupArpAn out want with
              | Some ip => Ok ip
              | None => Err (Errorf "no IP found for MAC in the leases or the ARP table" [mac])
              end
          end
      end
  end.

Definition dhcpLeaseExpiry (t : NetTables) (mac : string) : Z :=
  match normalizeMAC mac, nt_leases t with
  | Ok want, Ok data => match lookupDHCPDLease data want with Some (_, lease) => lease | None => 0 end
  | _, _ => 0
  end.

Definition ResolveIPFromMAC (host : Host) (t : NetTables) (mac : string) : result error string :=
  if IsMacOS host then resolveIPFromMACDarwin t mac
  else match nt_neigh t with
       | Err e => Err (Wrapf "ip neigh" e)
       | Ok out =>
           match parseIPNeigh out mac with
           | Ok ip => Ok ip
           | Err _ =>
               match nt_neigh_swept t with
               | Err e => Err (Wrapf "ip neigh" e)
               | Ok out => parseIPNeigh out mac
               end
           end
       end.

(** ** The guest agent *)
Record GuestIPAddress := mkGuestIPAddress { ga_Address : string; ga_Type : string; ga_Prefix : Z }.
Record GuestNetworkInterface := mkGuestNetworkInterface {
  gi_Name : string; gi_HardwareAddress : string; gi_IPAddresses : list GuestIPAddress }.

Definition qga_addr (a : GuestIPAddress) : bool :=
  bool_decide (ga_Type a = "ipv4") && negb (bool_decide (ga_Address a = "127.0.0.1")).

Definition ResolveIPFromQGA (answer : result error (list GuestNetworkInterface)) : result error string :=
  match answer with
  | Err e => Err e
  | Ok ifaces =>
      match head (filter (λ a, qga_addr a = true)
                   (mjoin ((λ i, if bool_decide (gi_Name i = "lo") then [] else gi_IPAddresses i) <$> ifaces))) with
      | Some a => Ok (ga_Address a)
      | None => Err (Errorf "no non-loopback IPv4 found via guest agent" [])
      end
  end.

(** ** The SSH endpoint *)

(** [net.SplitHostPort]: [host:port] or [[host]:port]. *)
Definition SplitHostPort (s : string) : option (string * string) :=
  match last_from s ":" with
  | None => None
  | Some (String _ port) =>
      let before := String.substring 0 (String.length s - String.length port - 1) s in
      match before with
      | String "[" rest =>
          let '(inner, after, ok) := Cut "]" rest in
          if (ok : bool) && bool_decide (after = "") && negb (Contains inner "[")
             && negb (Contains port "[") && negb (Contains port "]")
          then Some (inner, port) else None
      | _ =>
          if Contains before ":" || Contains s "[" || Contains s "]" then None else Some (before, port)
      end
  | Some "" => None
  end.

Definition splitSSHHostPort (s : string) : result error (string * Z) :=
  match SplitHostPort s with
  | None => Ok (s, 22)
  | Some (h, p) =>
      match Atoi p with
      | Some port => if port <=? 0 then Err (Errorf "invalid port in ssh_host" [p; s]) else Ok (h, port)
      | None => Err (Errorf "invalid port in ssh_host" [p; s])
      end
  end.

Definition guestSSHEndpoint (host : Host) (t : NetTables) (qga : result error (list GuestNetworkInterface))
    (cfg : VMConfig) (s : VMState) : result error (string * Z) :=
  if negb (bool_decide (c_SSHHost cfg = "")) then splitSSHHostPort (c_SSHHost cfg)
  else if 0 <? s_SSHPort s then Ok ("127.0.0.1", s_SSHPort s)
  else if negb (bool_decide (nic_MAC (c_NIC cfg) = "")) then
    let r := ResolveIPFromMAC host t (nic_MAC (c_NIC cfg)) in
    let r := match r with
             | Err e => if bool_decide (s_QGASocket s = "") then Err e else ResolveIPFromQGA qga
             | Ok ip => Ok ip
             end in
    match r with
    | Ok ip => Ok (ip, 22)
    | Err e => Err (Wrapf "could not resolve IP for VM" e)
    end
  else Err (Errorf "VM has no SSH port and no recorded MAC address" [c_Name cfg]).

(** ** scp *)
Record CopySpec := mkCopySpec {
  cs_VMName : string; cs_GuestPath : string; cs_HostPath : string;
  cs_ToGuest : bool; cs_Recursive : bool; cs_User : string }.

Definition scp_remote (user host : string) (spec : CopySpec) (windowsGuest : bool) : string :=
  let guestPath := if windowsGuest then replace_char "\" "/" (cs_GuestPath spec) else cs_GuestPath spec in
  (if bool_decide (user = "") then host else user +:+ "@" +:+ host) +:+ ":" +:+ guestPath.
Definition scp_local (spec : CopySpec) : string :=
  if negb (HasPrefix (cs_HostPath spec) "/") && Contains (cs_HostPath spec) ":"
  then "./" +:+ cs_HostPath spec else cs_HostPath spec.

Definition buildScpArgs (user host : string) (port : Z) (identity knownHosts : string)
    (spec : CopySpec) (windowsGuest : bool) : list string :=
  ["-o"; "BatchMode=yes"]
  ++ (if bool_decide (knownHosts = "") then []
      else ["-o"; "UserKnownHostsFile=" +:+ knownHosts; "-o"; "StrictHostKeyChecking=accept-new"])
  ++ (if port =? 22 then [] else ["-P"; Itoa port])
  ++ (if bool_decide (identity = "") then [] else ["-i"; identity])
  ++ (if cs_Recursive spec then ["-r"] else [])
  ++ (if cs_ToGuest spec then [scp_local spec; scp_remote user host spec windowsGuest]
      else [scp_remote user host spec windowsGuest; scp_local spec]).

Definition copy_user (cfg : VMConfig) (spec : CopySpec) : string :=
  let user := cs_User spec in
  let user := if bool_decide (user = "") then SSHUsername cfg else user in
  if bool_decide (user = "") && bool_decide (c_Template cfg = "truenas") then c_TrueNASUser cfg else user.

(** ** Known hosts *)

(** The lines a [bufio.Scanner] yields: split at newlines, a trailing carriage
    return cut, no empty last line. *)
Definition scan_lines (s : string) : list string :=
  let ls := Split newline s in
  let ls := match last ls with Some "" => take (length ls - 1) ls | _ => ls end in
  (λ l, if HasSuffix l (String "013" "") then String.substring 0 (String.length l - 1) l else l) <$> ls.

Definition drop_pattern (host : string) (port : Z) : string :=
  if port =? 22 then host else "[" +:+ host +:+ "]:" +:+ Itoa port.
Definition known_line_keep (drop line : string) : bool :=
  match Fields line with
  | [] => true
  | f :: _ => negb (bool_decide (drop ∈ Split "," f))
  end.
(** The new content of the file. *)
Definition ScrubKnownHost (data host : string) (port : Z) : string :=
  let kept := filter (λ l, known_line_keep (drop_pattern host port) l = true) (scan_lines data) in
  let out := Join (String newline "") kept in
  match kept with [] => out | _ => out +:+ String newline "" end.

(** ** Quoting for a POSIX shell *)
Definition quote : ascii := "'"%char.
Fixpoint quote_body (s : string) : string :=
  match s with
  | "" => ""
  | String c s' =>
      if bool_decide (c = quote) then String quote (String "\" (String quote (String quote (quote_body s'))))
      else String c (quote_body s')
  end.
Definition shellQuote (s : string) : string := String quote (quote_body s +:+ String quote "").

(** ** Quoting *)

(** How a POSIX shell reads one word: inside single quotes every byte stands
    for itself, outside them a backslash quotes the next byte and white space
    or an operator ends the word.  The word and what follows it. *)
Definition sh_special (c : ascii) : bool :=
  is_space c || bool_decide (c ∈ [";"; "&"; "|"; "<"; ">"; "("; ")"; "$"; "`"; "034"; "#"; "*"; "?"; "~"]%char).
Fixpoint sh_read (quoted : bool) (s : string) : option (string * string) :=
  match s with
  | "" => if quoted then None else Some ("", "")
  | String c s' =>
      if bool_decide (c = quote) then sh_read (negb quoted) s'
      else if quoted then '(w, r) ← sh_read quoted s'; Some (String c w, r)
      else if bool_decide (c = "\"%char) then
        match s' with
        | "" => None
        | String d s'' => '(w, r) ← sh_read quoted s''; Some (String d w, r)
        end
      else if sh_special c then Some ("", s)
      else '(w, r) ← sh_read quoted s'; Some (String c w, r)
  end.

(** Nothing, or something that ends a word. *)
Definition word_end (rest : string) : bool :=
  match rest with
  | "" => true
  | String c _ => sh_special c && negb (bool_decide (c = quote)) && negb (bool_decide (c = "\"%char))
  end.

Lemma word_end_read rest : word_end rest = true → sh_read false rest = Some ("", rest).
Proof.
  destruct rest as [|c rest]; [done|]. cbn. rewrite !andb_true_iff, !negb_true_iff.
  by intros [[-> ->] ->].
Qed.

Lemma quote_body_read s rest : word_end rest = true →
  sh_read true (quote_body s +:+ String quote rest) = Some (s, rest).
Proof.
  intros Hr. induction s as [|c s IH].
  - change (quote_body "" +:+ String quote rest) with (String quote rest). cbn [sh_read].
    rewrite bool_decide_true by done. by apply word_end_read.
  - cbn [quote_body]. case_bool_decide as Hc.
    + subst c. rewrite !append_cons. cbn [sh_read negb]. rewrite bool_decide_true by done.
      rewrite bool_decide_false by done. cbn [negb]. rewrite bool_decide_true by done. cbn [negb]. by rewrite IH.
    + rewrite append_cons. cbn [sh_read]. rewrite bool_decide_false by done. by rewrite IH.
Qed.

(** [shellQuote] is safe.  Whatever the text, quotes and operators
    included, a POSIX shell reads the quoted text as exactly one word, the text
    itself, and goes on with what follows it. *)
Theorem shellQuote_roundtrip s rest : word_end rest = true →
  sh_read false (shellQuote s +:+ rest) = Some (s, rest).
Proof.
  intros Hr. unfold shellQuote. rewrite append_cons, append_assoc. cbn [sh_read].
  rewrite bool_decide_true by done. change (String quote "" +:+ rest) with (String quote rest). by apply quote_body_read.
Qed.

Lemma shellQuote_roundtrip_witness :
  sh_read false (shellQuote "it's; rm -rf /" +:+ " > out") = Some ("it's; rm -rf /", " > out").
Proof. apply (shellQuote_roundtrip "it's; rm -rf /" " > out"). vm_compute. reflexivity. Defined.

(** ** scp's reading of its operands

    An operand is remote when a colon comes before any slash. *)
Fixpoint scp_is_remote (s : string) : bool :=
  match s with
  | "" => false
  | String c s' => if bool_decide (c = colon) then true else if bool_decide (c = "/"%char) then false else scp_is_remote s'
  end.

Definition free_of (c : ascii) (s : string) : bool := sforall (λ d, negb (bool_decide (d = c))) s.

Lemma free_of_Contains c s : free_of c s = negb (Contains s (String c "")).
Proof.
  unfold free_of. induction s as [|d s IH]; [done|]. cbn. rewrite IH, andb_true_r, negb_orb. f_equal.
  by rewrite (bool_decide_ext (d = c) (c = d)).
Qed.
Lemma free_of_app c s t : free_of c (s +:+ t) = free_of c s && free_of c t.
Proof. apply sforall_app. Qed.

Lemma remote_after_plain a b : free_of "/" a = true → free_of colon a = true → scp_is_remote (a +:+ ":" +:+ b) = true.
Proof.
  induction a as [|c a IH]; [done|]. rewrite append_cons. cbn.
  intros [H1 H2]%andb_true_iff [H3 H4]%andb_true_iff. apply negb_true_iff in H1, H3.
  rewrite H1, H3. by apply IH.
Qed.

Lemma local_without_colon s : free_of colon s = true → scp_is_remote s = false.
Proof.
  induction s as [|c s IH]; [done|]. cbn. intros [H1 H2]%andb_true_iff. apply negb_true_iff in H1. rewrite H1.
  destruct (bool_decide (c = "/"%char)); [done|by apply IH].
Qed.

(** The local operand is never taken for a remote one, and the remote one
    always is, when neither the account nor the host name holds a colon or a
    slash. *)
Theorem scp_operands user host spec windows :
  free_of colon (user +:+ host) = true → free_of "/" (user +:+ host) = true →
  scp_is_remote (scp_local spec) = false ∧ scp_is_remote (scp_remote user host spec windows) = true.
Proof.
  intros Hc Hs. rewrite free_of_app in Hc, Hs. apply andb_true_iff in Hc as [Hu Hh], Hs as [Hu' Hh']. split.
  - unfold scp_local. destruct (HasPrefix (cs_HostPath spec) "/") eqn:Hp; cbn.
    + by apply HasPrefix_spec in Hp as [t ->].
    + pose proof (free_of_Contains colon (cs_HostPath spec)) as Hf. change (String colon "") with ":" in Hf.
      destruct (Contains (cs_HostPath spec) ":"); [done|]. by apply local_without_colon.
  - unfold scp_remote. apply remote_after_plain; case_bool_decide; rewrite ?free_of_app; by repeat (apply andb_true_iff; split).
Qed.

(** An IPv6 address, which [parseIPNeigh] can answer, is not bracketed: the
    host [scp] reads is the text before its first colon. *)
Theorem scp_ipv6_host_cut spec : cs_GuestPath spec = "/etc/hosts" →
  (Cut colon (scp_remote "dev" "2001:db8::5" spec false)).1 = ("dev@2001", "db8::5:/etc/hosts").
Proof. unfold scp_remote. by intros ->. Qed.

(** ** MAC addresses *)

(** The octets a text denotes. *)
Definition octet_of (p : string) : option Z :=
  if bool_decide (p = "") || (2 <? Z.of_nat (String.length p)) then None else ParseHex 8 p.
Definition octets_of (s : string) : option (list Z) :=
  let parts := Split colon (ToLower (TrimSpace s)) in
  if Nat.eqb (length parts) 6 then mapM octet_of parts else None.
Definition print_mac (os : list Z) : string := Join ":" (FormatHexByte <$> os).
Definition is_octet (n : Z) : Prop := 0 <= n < 256.

Lemma octets_parts parts :
  mapM mac_octet parts = fmap (M := list) FormatHexByte <$> mapM octet_of parts.
Proof.
  induction parts as [|p ps IH]; [done|]. cbn. rewrite IH.
  assert (mac_octet p = FormatHexByte <$> octet_of p) as ->.
  { unfold mac_octet, octet_of. case_match; [done|]. by destruct (ParseHex 8 p). }
  destruct (octet_of p); [|done]. cbn. by destruct (mapM octet_of ps).
Qed.

Lemma normalizeMAC_octets s :
  normalizeMAC s = match octets_of s with
                   | Some os => Ok (print_mac os)
                   | None => Err (Errorf "invalid MAC address" [s])
                   end.
Proof.
  unfold normalizeMAC, octets_of. destruct (Nat.eqb _ 6); cbn; [|done]. rewrite octets_parts.
  by destruct (mapM octet_of _).
Qed.

Lemma hex_val_range c v : hex_val c = Some v → 0 <= v.
Proof.
  unfold hex_val, digit_val, is_digit, in_range. intros E.
  repeat case_match; simplify_eq;
    repeat match goal with H : _ && _ = true |- _ => apply andb_true_iff in H as [?%N.leb_le ?%N.leb_le] end;
    change (code "0") with 48%N in *; change (code "a") with 97%N in *; change (code "A") with 65%N in *; lia.
Qed.

Lemma hex_digits_range s : ∀ acc n, 0 <= acc → hex_digits acc s = Some n → 0 <= n.
Proof.
  induction s as [|c s IH]; intros acc n Ha E; cbn in E; [by simplify_eq|].
  apply bind_Some in E as (v & Hv%hex_val_range & E). eapply IH; [|exact E]. lia.
Qed.

Lemma octets_range s os : octets_of s = Some os → length os = 6%nat ∧ Forall is_octet os.
Proof.
  unfold octets_of. destruct (Nat.eqb _ 6) eqn:El; [|done]. apply Nat.eqb_eq in El. intros E.
  split; [by rewrite <-(length_mapM _ _ _ E), El|].
  apply mapM_Some in E. clear El. induction E as [|p o ps os Hp _ IH]; constructor; [|done].
  unfold octet_of, ParseHex in Hp. case_match; [done|]. destruct p as [|c p]; [done|].
  apply bind_Some in Hp as (n & Hn & Hp). destruct (Z.ltb_spec n (2 ^ 8)); simplify_eq. split; [|lia].
  eapply hex_digits_range; [|exact Hn]. done.
Qed.

(** A property of every octet is checked on the 256 of them. *)
Lemma all_octets (f : Z → bool) : forallb f (seqZ 0 256) = true → ∀ n, is_octet n → f n = true.
Proof. rewrite forallb_forall. intros H n Hn. apply H, list_elem_of_In, elem_of_seqZ. unfold is_octet in Hn. lia. Qed.

Definition plain_octet (p : string) : bool :=
  free_of colon p && bool_decide (ToLower p = p) && sforall (λ c, negb (is_space c)) p && negb (bool_decide (p = "")).

Lemma format_plain n : is_octet n → plain_octet (FormatHexByte n) = true.
Proof. apply (all_octets (λ n, plain_octet (FormatHexByte n))). by vm_compute. Qed.
Lemma format_octet n : is_octet n → octet_of (FormatHexByte n) = Some n.
Proof.
  intros Hn. apply (bool_decide_eq_true (octet_of (FormatHexByte n) = Some n)).
  revert n Hn. apply (all_octets (λ n, bool_decide (octet_of (FormatHexByte n) = Some n))). by vm_compute.
Qed.

Lemma Split_free sep s : free_of sep s = true → Split sep s = [s].
Proof.
  induction s as [|c s IH]; [done|]. cbn. intros [Hc Hs]%andb_true_iff. apply negb_true_iff in Hc.
  by rewrite Hc, IH.
Qed.
Lemma Split_app sep s t : free_of sep s = true → Split sep (s +:+ String sep t) = s :: Split sep t.
Proof.
  induction s as [|c s IH]; intros Hs.
  - change ("" +:+ String sep t) with (String sep t). cbn. by rewrite bool_decide_true.
  - rewrite append_cons. cbn in Hs |- *. apply andb_true_iff in Hs as [Hc Hs]. apply negb_true_iff in Hc.
    by rewrite Hc, IH.
Qed.
Lemma Split_Join (sep : ascii) ps : ps ≠ [] → Forall (λ p, free_of sep p = true) ps →
  Split sep (Join (String sep "") ps) = ps.
Proof.
  intros Hn Hf. induction Hf as [|p ps Hp Hf IH]; [done|]. destruct ps as [|q ps].
  - by apply Split_free.
  - change (Join (String sep "") (p :: q :: ps)) with (p +:+ String sep (Join (String sep "") (q :: ps))).
    rewrite Split_app by done. f_equal. by apply IH.
Qed.

Lemma unlines_app a b : unlines (a ++ b) = unlines a +:+ unlines b.
Proof. induction a as [|l a IH]; [done|]. cbn [app unlines]. rewrite IH. by rewrite append_assoc, append_cons. Qed.

Lemma Split_unlines ls : Forall (λ l, free_of newline l = true) ls → Split newline (unlines ls) = ls ++ [""].
Proof. induction 1 as [|l ls Hl _ IH]; [done|]. cbn [unlines]. rewrite Split_app by done. by rewrite IH. Qed.

Lemma smap_app f s t : smap f (s +:+ t) = smap f s +:+ smap f t.
Proof. induction s as [|c s IH]; [done|]. rewrite append_cons. cbn. by rewrite IH. Qed.

Lemma print_mac_plain os : Forall is_octet os →
  ToLower (print_mac os) = print_mac os ∧ sforall (λ c, negb (is_space c)) (print_mac os) = true.
Proof.
  unfold print_mac. induction 1 as [|o os Ho Hos IH]; [done|].
  pose proof (format_plain o Ho) as Hp. unfold plain_octet in Hp. rewrite !andb_true_iff, bool_decide_eq_true in Hp.
  destruct Hp as [[[_ Hl] Hs] _]. destruct os as [|o' os]; [done|]. destruct IH as [IHl IHs].
  change (Join ":" (FormatHexByte <$> o :: o' :: os))
    with (FormatHexByte o +:+ ":" +:+ Join ":" (FormatHexByte <$> o' :: os)).
  unfold ToLower in *. rewrite !smap_app, !sforall_app, Hl, Hs, IHl, IHs. done.
Qed.

(** Printing and reading octets is the identity. *)
Lemma octets_print os : length os = 6%nat → Forall is_octet os → octets_of (print_mac os) = Some os.
Proof.
  intros Hl Hos. destruct (print_mac_plain os Hos) as [Hlow Hsp]. unfold octets_of.
  rewrite TrimSpace_id, Hlow by done. unfold print_mac, colon. change ":" with (String ":" "").
  rewrite Split_Join; [|by destruct os|].
  - rewrite length_fmap, Hl. cbn [Nat.eqb]. apply mapM_Some. clear Hl Hlow Hsp.
    induction Hos as [|o os Ho Hos IH]; [constructor|]. constructor; [by apply format_octet|done].
  - apply Forall_fmap. eapply Forall_impl; [exact Hos|]. intros o Ho%format_plain. cbn.
    unfold plain_octet in Ho. by rewrite !andb_true_iff in Ho; destruct Ho as [[[? _] _] _].
Qed.

(** [normalizeMAC] is a canonical form.  Two texts normalise to the same
    string exactly when they denote the same six octets, however they are
    padded and in whichever case; the normal form is its own normal form; and
    a text is refused exactly when it denotes no six octets. *)
Theorem normalizeMAC_canonical s t :
  (is_ok (normalizeMAC s) = true → normalizeMAC s = normalizeMAC t ↔ octets_of s = octets_of t) ∧
  (∀ m, normalizeMAC s = Ok m → normalizeMAC m = Ok m) ∧
  (is_ok (normalizeMAC s) = false ↔ octets_of s = None).
Proof.
  rewrite !normalizeMAC_octets. destruct (octets_of s) as [os|] eqn:Es; [|by repeat split].
  destruct (octets_range s os Es) as [Hl Ho]. repeat split; cbn; intros; simplify_eq; try done.
  - destruct (octets_of t) as [ot|] eqn:Et; simplify_eq/=. destruct (octets_range t ot Et) as [Hl' Ho'].
    assert (print_mac os = print_mac ot) as E by congruence.
    apply (f_equal octets_of) in E. by rewrite !octets_print in E.
  - by rewrite <-H0.
  - by rewrite normalizeMAC_octets, octets_print.
Qed.

Lemma normalizeMAC_canonical_witness :
  normalizeMAC "F6:38:41:01:E9:00" = normalizeMAC "f6:38:41:1:e9:0" ↔
  octets_of "F6:38:41:01:E9:00" = octets_of "f6:38:41:1:e9:0".
Proof. apply (normalizeMAC_canonical "F6:38:41:01:E9:00" "f6:38:41:1:e9:0"). vm_compute. reflexivity. Defined.

(** ** Leases *)

(** What one block of the lease file says, by the last line of each key. *)
Definition body_line (line : string) : Prop := TrimSpace line ≠ "{" ∧ TrimSpace line ≠ "}".
Definition value_of (keys : list string) (line : string) : option string :=
  let '(k, v, ok) := Cut "=" (TrimSpace line) in if (ok : bool) && bool_decide (k ∈ keys) then Some v else None.
Definition block_ip (body : list string) : string := default "" (last (omap (value_of ["ip_address"]) body)).
Definition block_lease (body : list string) : Z :=
  default 0 (last (omap (λ v, ParseHex 64 (TrimPrefix v "0x")) (omap (value_of ["lease"]) body))).
Definition block_is (want : string) (body : list string) : bool :=
  existsb (λ v, mac_is (stripHWType v) want) (omap (value_of ["hw_address"; "identifier"]) body).
Definition candidate (want : string) (body : list string) : bool :=
  block_is want body && negb (bool_decide (block_ip body = "")).
Definition lease_file (blocks : list (list string)) : list string :=
  mjoin ((λ body, "{" :: body ++ ["}"]) <$> blocks).

Lemma lease_line_body want s body : Forall body_line body →
  lease_scan want body (lease_reset s) =
  mkLeaseScan (ls_bestIP s) (ls_bestLease s) (ls_found s) (block_ip body) (block_lease body) (block_is want body).
Proof.
  induction body as [|line body IH] using rev_ind; intros Hb; [done|].
  apply Forall_app in Hb as [Hb Hl]. apply Forall_cons in Hl as [[H1 H2] _].
  unfold lease_scan in *. rewrite foldl_app, IH by done. cbn. unfold lease_line.
  rewrite !bool_decide_false by done.
  unfold block_ip, block_lease, block_is. rewrite !omap_app, existsb_app. cbn. unfold value_of.
  destruct (Cut "=" (TrimSpace line)) as [[k v] []]; cbn -[ParseHex]; [|by rewrite !app_nil_r, !orb_false_r].
  destruct (decide (k = "ip_address")) as [->|]; [|rewrite (bool_decide_false (k = "ip_address")) by done].
  { rewrite (bool_decide_true (_ ∈ ["ip_address"])), (bool_decide_false (_ ∈ ["lease"])),
      (bool_decide_false (_ ∈ ["hw_address"; "identifier"])) by set_solver.
    cbn -[ParseHex]. rewrite (bool_decide_true ("ip_address" = "ip_address")), !app_nil_r, !orb_false_r, last_snoc by done. done. }
  rewrite (bool_decide_false (k ∈ ["ip_address"])) by set_solver.
  destruct (decide (k ∈ ["hw_address"; "identifier"])) as [Hk|Hk].
  - rewrite (bool_decide_true (k ∈ ["hw_address"; "identifier"])) by done.
    rewrite (bool_decide_false (k ∈ ["lease"])) by set_solver.
    replace (bool_decide (k = "hw_address") || bool_decide (k = "identifier")) with true
      by (set_unfold in Hk; symmetry; apply orb_true_iff; rewrite !bool_decide_eq_true; tauto).
    cbn -[ParseHex]. rewrite !app_nil_r, !orb_false_r. destruct (mac_is _ want); [by rewrite orb_true_r|by rewrite orb_false_r].
  - rewrite (bool_decide_false (k ∈ ["hw_address"; "identifier"])) by done.
    rewrite (bool_decide_false (k = "hw_address")), (bool_decide_false (k = "identifier")) by set_solver. cbn -[ParseHex].
    rewrite !app_nil_r, !orb_false_r. case_bool_decide as Hl.
    + rewrite (bool_decide_true (k ∈ ["lease"])) by set_solver. cbn -[ParseHex].
      destruct (ParseHex 64 _); [by rewrite last_snoc|by rewrite app_nil_r].
    + rewrite (bool_decide_false (k ∈ ["lease"])) by set_solver. cbn -[ParseHex]. by rewrite app_nil_r.
Qed.

(** The best of the blocks read so far. *)
Definition better (want : string) (best : option (string * Z)) (body : list string) : option (string * Z) :=
  if candidate want body && (match best with Some (_, l) => l <=? block_lease body | None => true end)
  then Some (block_ip body, block_lease body) else best.
Definition best_of (s : LeaseScan) : option (string * Z) :=
  if ls_found s then Some (ls_bestIP s, ls_bestLease s) else None.

Lemma lease_scan_blocks want blocks : Forall (Forall body_line) blocks → ∀ s,
  best_of (lease_scan want (lease_file blocks) s) = foldl (better want) (best_of s) blocks.
Proof.
  induction 1 as [|body blocks Hb Hbs IH]; intros s; [done|].
  change (lease_file (body :: blocks)) with ("{" :: (body ++ ["}"]) ++ lease_file blocks). rewrite <-app_assoc.
  assert (lease_scan want ("{" :: body ++ ["}"] ++ lease_file blocks) s =
          lease_scan want (lease_file blocks) (lease_flush (lease_scan want body (lease_reset s)))) as ->.
  { unfold lease_scan. cbn. by rewrite foldl_app. }
  rewrite lease_line_body by done.
  rewrite IH. cbn [foldl]. f_equal. unfold lease_flush, better, candidate, best_of. cbn.
  destruct (block_is want body), (bool_decide (block_ip body = "")), (ls_found s); cbn; try done.
  by destruct (ls_bestLease s <=? block_lease body).
Qed.

Lemma best_spec want blocks : 
  match foldl (better want) None blocks with
  | Some (ip, l) => (∃ body, body ∈ blocks ∧ candidate want body = true ∧ ip = block_ip body ∧ l = block_lease body) ∧
                    (∀ body, body ∈ blocks → candidate want body = true → block_lease body <= l)
  | None => ∀ body, body ∈ blocks → candidate want body = false
  end.
Proof.
  induction blocks as [|b blocks IH] using rev_ind; [cbn; set_solver|].
  rewrite foldl_app. cbn. set (best := foldl _ _ blocks) in *. unfold better at 1.
  destruct (candidate want b) eqn:Hc; cbn [andb].
  - destruct best as [[ip l]|].
    + destruct IH as [(body & Hin & Hb) Hmax]. destruct (Z.leb_spec l (block_lease b)).
      * split; [exists b; set_solver|]. intros body' Hin' Hc'. apply elem_of_app in Hin' as [Hin'| ->%list_elem_of_singleton];
        [specialize (Hmax _ Hin' Hc'); lia|lia].
      * split; [exists body; set_solver|]. intros body' Hin' Hc'. apply elem_of_app in Hin' as [Hin'| ->%list_elem_of_singleton];
        [by apply Hmax|lia].
    + split; [exists b; set_solver|]. intros body' Hin' Hc'. apply elem_of_app in Hin' as [Hin'| ->%list_elem_of_singleton];
      [by rewrite IH in Hc'|lia].
  - destruct best as [[ip l]|]; [|set_solver]. destruct IH as [(body & Hin & Hb) Hmax].
    split; [exists body; set_solver|]. intros body' Hin' Hc'. apply elem_of_app in Hin' as [Hin'| ->%list_elem_of_singleton];
    [by apply Hmax|congruence].
Qed.

(** the lease lookup answers with the freshest lease.  On a file of blocks,
    [lookupDHCPDLease] returns the address and expiry of a block that names the
    wanted hardware address, and no other such block expires later; it finds
    nothing exactly when no block names it with an address. *)
Theorem freshest_lease content want blocks :
  Split newline content = lease_file blocks → Forall (Forall body_line) blocks →
  match lookupDHCPDLease content want with
  | Some (ip, l) => (∃ body, body ∈ blocks ∧ candidate want body = true ∧ ip = block_ip body ∧ l = block_lease body) ∧
                    (∀ body, body ∈ blocks → candidate want body = true → block_lease body <= l)
  | None => ∀ body, body ∈ blocks → candidate want body = false
  end.
Proof.
  intros Hc Hb. unfold lookupDHCPDLease. rewrite Hc. fold (best_of (lease_scan want (lease_file blocks) lease_start)).
  rewrite lease_scan_blocks by done. apply best_spec.
Qed.

Definition two_leases : list (list string) :=
  [["  name=old"; "  ip_address=192.168.64.3"; "  hw_address=1,f6:38:41:1:e9:e6"; "  lease=0x665f1e2c"];
   ["  name=new"; "  ip_address=192.168.64.9"; "  hw_address=1,f6:38:41:1:e9:e6"; "  lease=0x6660a000"]].
Lemma freshest_lease_witness :
  match lookupDHCPDLease (Join (String newline "") (lease_file two_leases)) "f6:38:41:1:e9:e6" with
  | Some (ip, l) => ip = "192.168.64.9" ∧
      (∀ body, body ∈ two_leases → candidate "f6:38:41:1:e9:e6" body = true → block_lease body <= l)
  | None => False
  end.
Proof.
  pose proof (freshest_lease (Join (String newline "") (lease_file two_leases)) "f6:38:41:1:e9:e6" two_leases) as H.
  destruct (lookupDHCPDLease _ _) as [[ip l]|] eqn:E.
  - destruct H as [_ H]; [by vm_compute|by repeat constructor|]. split; [|exact H].
    vm_compute in E. by injection E as <- _.
  - by vm_compute in E.
Defined.

(** ** The neighbour table *)

(** A line answers for a MAC address when it names it after [lladdr]. *)
Fixpoint names_mac (want : string) (fields : list string) : bool :=
  match fields with
  | f :: ((m :: _) as rest) => (bool_decide (f = "lladdr") && equalMAC m want) || names_mac want rest
  | _ => false
  end.
Definition neighbour (want line : string) : option string :=
  if names_mac want (Fields line) then head (Fields line) else None.
Definition is_v4 (ip : string) : bool := negb (Contains ip ":").
Definition is_global_v6 (ip : string) : bool := Contains ip ":" && negb (HasPrefix (ToLower ip) "fe80").

Definition keep_first (g ip : string) : string :=
  if negb (HasPrefix (ToLower ip) "fe80") && bool_decide (g = "") then ip else g.

Lemma neigh_line_spec want ip fields : ∀ g, neigh_line want ip fields g =
  if names_mac want fields then if is_v4 ip then inl ip else inr (keep_first g ip) else inr g.
Proof.
  unfold is_v4. induction fields as [|f [|m rest] IH]; intros g; [done|done|].
  change (neigh_line want ip (f :: m :: rest) g) with
    (if bool_decide (f = "lladdr") && equalMAC m want then
       if negb (Contains ip ":") then inl ip else neigh_line want ip (m :: rest) (keep_first g ip)
     else neigh_line want ip (m :: rest) g).
  change (names_mac want (f :: m :: rest)) with
    ((bool_decide (f = "lladdr") && equalMAC m want) || names_mac want (m :: rest)). rewrite !IH.
  destruct (bool_decide (f = "lladdr") && equalMAC m want); [|done]. cbn [orb].
  destruct (negb (Contains ip ":")); [done|]. destruct (names_mac want (m :: rest)); [|done].
  f_equal. unfold keep_first. destruct (negb (HasPrefix (ToLower ip) "fe80")); cbn; [|done].
  destruct (decide (g = "")) as [->|Hg]; cbn; [by destruct (decide (ip = "")) as [->|]; repeat case_bool_decide|].
  by rewrite !(bool_decide_false (g = "")).
Qed.

Lemma neigh_lines_spec want lines : ∀ g, neigh_lines want lines g =
  match find is_v4 (omap (neighbour want) lines) with
  | Some ip => inl ip
  | None => inr (if bool_decide (g = "") then default "" (find is_global_v6 (omap (neighbour want) lines)) else g)
  end.
Proof.
  induction lines as [|line ls IH]; intros g; cbn; [case_bool_decide; by subst|].
  rewrite neigh_line_spec. destruct (names_mac want (Fields line)) eqn:Hn.
  2: { assert (neighbour want line = None) as -> by (unfold neighbour; by rewrite Hn). by rewrite IH. }
  assert (neighbour want line = head (Fields line)) as -> by (unfold neighbour; by rewrite Hn).
  destruct (Fields line) as [|ip fs]; [done|]. cbn.
  destruct (is_v4 ip) eqn:Hv; [done|]. rewrite IH. destruct (find is_v4 _); [done|]. f_equal.
  unfold is_v4 in Hv. apply negb_false_iff in Hv.
  assert (is_global_v6 ip = negb (HasPrefix (ToLower ip) "fe80")) as -> by (unfold is_global_v6; by rewrite Hv).
  assert (ip ≠ "") by by intros ->.
  unfold keep_first. destruct (HasPrefix (ToLower ip) "fe80"); cbn; [done|].
  destruct (decide (g = "")) as [->|Hg].
  - rewrite (bool_decide_true ("" = "")), (bool_decide_false (ip = "")) by done. done.
  - by rewrite !(bool_decide_false (g = "")) by done.
Qed.

(** The neighbour table lookup prefers what the guest can be reached at.
    [parseIPNeigh] answers with the first IPv4 address listed for the MAC
    address, wherever it stands; without one, with the first IPv6 address that
    is not link-local; and with an error when there is neither. *)
Theorem parseIPNeigh_spec output want :
  let found := omap (neighbour want) (Split newline (TrimSpace output)) in
  parseIPNeigh output want =
  match find is_v4 found, find is_global_v6 found with
  | Some ip, _ => Ok ip
  | None, Some ip => Ok ip
  | None, None => Err (Errorf "MAC not found in neighbour table" [want])
  end.
Proof.
  intros found. unfold parseIPNeigh. rewrite neigh_lines_spec. fold found. destruct (find is_v4 found); [done|].
  rewrite (bool_decide_true ("" = "")) by done. destruct (find is_global_v6 found) as [ip|] eqn:Hf; cbn; [|done].
  rewrite bool_decide_false; [done|]. intros ->. by apply find_some in Hf as [_ Hf].
Qed.

(** ** Known hosts *)
Definition ends_cr (l : string) : bool := HasSuffix l (String "013" "").

Lemma scan_join ls : Forall (λ l, free_of newline l = true ∧ ends_cr l = false) ls →
  scan_lines (match ls with [] => "" | _ => Join (String newline "") ls +:+ String newline "" end) = ls.
Proof.
  intros Hf. assert (Split newline (match ls with [] => "" | _ => Join (String newline "") ls +:+ String newline "" end)
    = ls ++ [""]) as Hs.
  { induction Hf as [|l ls [Hl _] Hf IH]; [done|]. destruct ls as [|l' ls].
    - cbn [Join]. by rewrite Split_app.
    - change (Join (String newline "") (l :: l' :: ls)) with (l +:+ String newline (Join (String newline "") (l' :: ls))).
      rewrite append_assoc, append_cons, Split_app by done. by rewrite IH. }
  unfold scan_lines. rewrite Hs, last_snoc, length_app. cbn [length].
  replace (length ls + 1 - 1)%nat with (length ls) by lia. rewrite take_app_length. clear Hs.
  induction Hf as [|l ls [_ Hl] Hf IH]; [done|]. cbn [fmap list_fmap]. unfold ends_cr in Hl. by rewrite Hl, IH.
Qed.

(** scrubbing a known-hosts file forgets exactly one host.  After
    [ScrubKnownHost] the lines of the file are the ones before, in order, less
    those whose host list names the endpoint; in particular none names it any
    more and scrubbing again changes nothing. *)
Theorem scrub_known_host data host port :
  Forall (λ l, free_of newline l = true ∧ ends_cr l = false) (scan_lines data) →
  scan_lines (ScrubKnownHost data host port) =
    filter (λ l, known_line_keep (drop_pattern host port) l = true) (scan_lines data) ∧
  ScrubKnownHost (ScrubKnownHost data host port) host port = ScrubKnownHost data host port.
Proof.
  intros Hf. assert (scan_lines (ScrubKnownHost data host port) =
    filter (λ l, known_line_keep (drop_pattern host port) l = true) (scan_lines data)) as Hs.
  { unfold ScrubKnownHost. set (kept := filter _ _).
    assert (Forall (λ l, free_of newline l = true ∧ ends_cr l = false) kept) as Hk.
    { apply Forall_forall. intros l [_ Hl]%list_elem_of_filter. by eapply Forall_forall in Hf. }
    pose proof (scan_join kept Hk) as Hj. by destruct kept. }
  split; [done|]. unfold ScrubKnownHost at 1. rewrite Hs, list_filter_filter.
  unfold ScrubKnownHost. erewrite list_filter_iff; [done|]. naive_solver.
Qed.

Definition known_example : string :=
  Join (String newline "") ["[127.0.0.1]:2201 ssh-ed25519 AAAA"; "192.168.64.5,web ssh-ed25519 BBBB"; ""].
Lemma scrub_known_host_witness :
  scan_lines (ScrubKnownHost known_example "192.168.64.5" 22) = ["[127.0.0.1]:2201 ssh-ed25519 AAAA"].
Proof.
  destruct (scrub_known_host known_example "192.168.64.5" 22) as [-> _]; [by repeat constructor|].
  vm_compute. reflexivity.
Defined.
