(* ===== verification/Tables.v ===== *)
(** * Tables of words

    Tools print tables: lines of words with blanks between them.  The lemmas
    here read such text back with [strings.Fields], [strings.TrimSpace] and a
    split into lines, for the parsers of [Gpu] and [GuestNet]. *)
From S2P Require Import Prelude GoStrings Paths Guest.

(** The lines of a command's output. *)
Definition lines (output : string) : list string := Split newline (TrimSpace output).

Definition token (w : string) : bool := negb (bool_decide (w = "")) && sforall (λ c, negb (is_space c)) w.
Definition blanks (p : string) : bool := negb (bool_decide (p = "")) && sforall (λ c, bool_decide (c = " "%char)) p.
Definition print_table (pad : string) (rows : list (list string)) : string := unlines (Join pad <$> rows).

Lemma rev_app_append s t : String.rev_app s t = String.rev s +:+ t.
Proof.
  revert t. induction s as [|c s IH]; intros t; [done|]. unfold String.rev. cbn. rewrite !IH, append_assoc. done.
Qed.

Lemma words_go_token w cur s : sforall (λ c, negb (is_space c)) w = true → w ≠ "" ∨ is_Some cur →
  ∃ acc, String.words_go cur (w +:+ s) = String.words_go (Some acc) s ∧
         String.rev acc = String.rev (default "" cur) +:+ w.
Proof.
  revert cur. induction w as [|c w IH]; intros cur Hw Hne.
  - destruct Hne as [|[acc ->]]; [done|]. exists acc. split; [done|]. by rewrite append_nil.
  - cbn in Hw. apply andb_true_iff in Hw as [Hc Hw]. apply negb_true_iff in Hc.
    rewrite append_cons. cbn [String.words_go]. unfold is_space in Hc. rewrite Hc.
    destruct (IH (Some (from_option (String c) (String c "") cur)) Hw) as (acc & E & Hr); [eauto|].
    exists acc. split; [done|]. rewrite Hr. destruct cur as [a|]; [|done]. cbn.
    change (String.rev (String c a)) with (String.rev_app a (String c "")).
    by rewrite rev_app_append, append_assoc.
Qed.

Lemma Fields_token w : token w = true → Fields w = [w].
Proof.
  intros [Hn Hw]%andb_true_iff. apply negb_true_iff, bool_decide_eq_false in Hn.
  destruct (words_go_token w None "" Hw) as (acc & E & Hr); [by left|]. rewrite append_nil in E.
  unfold Fields, String.words. rewrite E. cbn. by rewrite Hr.
Qed.

Lemma Fields_blank c s : is_space c = true → Fields (String c s) = Fields s.
Proof. unfold is_space, Fields, String.words. cbn. by intros ->. Qed.

Lemma Fields_blanks p s : sforall (λ c, bool_decide (c = " "%char)) p = true → Fields (p +:+ s) = Fields s.
Proof.
  induction p as [|c p IH]; [done|]. cbn. intros [->%bool_decide_eq_true Hp]%andb_true_iff.
  rewrite append_cons, Fields_blank by done. by apply IH.
Qed.

Lemma Fields_cons w p s : token w = true → blanks p = true → Fields (w +:+ p +:+ s) = w :: Fields s.
Proof.
  intros [Hn Hw]%andb_true_iff [Hp Hb]%andb_true_iff. apply negb_true_iff, bool_decide_eq_false in Hn, Hp.
  destruct (words_go_token w None (p +:+ s) Hw) as (acc & E & Hr); [by left|].
  unfold Fields at 1, String.words. rewrite E. destruct p as [|c p]; [done|]. cbn in Hb.
  apply andb_true_iff in Hb as [->%bool_decide_eq_true Hb]. rewrite append_cons.
  cbn [String.words_go Ascii.is_space]. change (Ascii.is_space " ") with true. cbn. rewrite Hr. cbn.
  f_equal. by apply Fields_blanks.
Qed.

(** The words of a printed row. *)
Lemma Fields_Join pad ws : blanks pad = true → Forall (λ w, token w = true) ws → Fields (Join pad ws) = ws.
Proof.
  intros Hp. induction 1 as [|w ws Hw Hws IH]; [done|]. destruct ws as [|v ws]; [by apply Fields_token|].
  change (Join pad (w :: v :: ws)) with (w +:+ pad +:+ Join pad (v :: ws)).
  by rewrite Fields_cons, IH.
Qed.

(** A row starts and ends with a word, and is one line. *)
Definition row_ok (r : list string) : Prop := r ≠ [] ∧ Forall (λ w, token w = true) r.

Lemma token_free w : sforall (λ c, negb (is_space c)) w = true → free_of newline w = true.
Proof.
  apply sforall_impl. intros c Hc. apply negb_true_iff. apply bool_decide_eq_false. by intros ->.
Qed.
Lemma Join_free pad r : blanks pad = true → Forall (λ w, token w = true) r → free_of newline (Join pad r) = true.
Proof.
  intros [_ Hp]%andb_true_iff. induction 1 as [|w r [_ Hw]%andb_true_iff Hr IH]; [done|].
  destruct r as [|v r]; [by apply token_free|].
  change (Join pad (w :: v :: r)) with (w +:+ pad +:+ Join pad (v :: r)).
  rewrite !free_of_app, IH, token_free, andb_true_r by done.
  revert Hp. apply sforall_impl. by intros c ->%bool_decide_eq_true.
Qed.

Lemma row_head pad r : row_ok r → ∃ c s, Join pad r = String c s ∧ is_space c = false.
Proof.
  intros [Hn Hr]. destruct r as [|w r]; [done|]. apply Forall_cons in Hr as [[Hw Hs]%andb_true_iff _].
  destruct w as [|c w]; [done|]. cbn in Hs. apply andb_true_iff in Hs as [Hc _]. apply negb_true_iff in Hc.
  exists c. destruct r as [|v r]; [by exists w|]. by exists (w +:+ pad +:+ Join pad (v :: r)).
Qed.
Lemma row_last pad r : row_ok r → ∃ s c, Join pad r = s +:+ String c "" ∧ is_space c = false.
Proof.
  intros [Hn Hr]. induction Hr as [|w r Hw Hr IH]; [done|]. destruct r as [|v r].
  - apply andb_true_iff in Hw as [Hw Hs]. apply negb_true_iff, bool_decide_eq_false in Hw.
    destruct (string_snoc w Hw) as (t & c & ->). exists t, c. split; [done|].
    rewrite sforall_app in Hs. apply andb_true_iff in Hs as [_ Hs]. cbn in Hs.
    rewrite andb_true_r in Hs. by apply negb_true_iff.
  - destruct IH as (s & c & E & Hc); [done|]. exists (w +:+ pad +:+ s), c. split; [|done].
    change (Join pad (w :: v :: r)) with (w +:+ pad +:+ Join pad (v :: r)). by rewrite E, !append_assoc.
Qed.

Lemma trim_right_drop f s c : f c = true → trim_right f (s +:+ String c "") = trim_right f s.
Proof.
  intros Hc. induction s as [|d s IH]; [|rewrite append_cons; cbn; by rewrite IH].
  change ("" +:+ String c "") with (String c ""). cbn. by rewrite Hc.
Qed.

Lemma unlines_snoc ls l : unlines (ls ++ [l]) = unlines ls +:+ l +:+ String newline "".
Proof. by rewrite unlines_app. Qed.

(** Reading a printed table gives its rows. *)
Lemma lines_print pad rows : blanks pad = true → rows ≠ [] → Forall row_ok rows →
  lines (print_table pad rows) = Join pad <$> rows.
Proof.
  intros Hp Hn Hr. unfold lines, print_table, TrimSpace, Trim.
  destruct rows as [|r rows]; [done|]. destruct (row_head pad r) as (c & s & E & Hc); [by inversion Hr|].
  rewrite fmap_cons. cbn [unlines]. rewrite E, append_cons, trim_left_id, <- append_cons, <- E by done.
  change (Join pad r +:+ String newline (unlines (Join pad <$> rows))) with (unlines (Join pad <$> r :: rows)).
  change (Join pad r :: (Join pad <$> rows)) with (Join pad <$> r :: rows).
  clear c s E Hc Hn. destruct (exists_last (l := r :: rows) ltac:(done)) as (init & z & Ez). rewrite Ez in Hr |- *.
  apply Forall_app in Hr as [Hi Hz]. rewrite Forall_singleton in Hz.
  destruct (row_last pad z Hz) as (t & c & Et & Hc).
  rewrite fmap_app. change (Join pad <$> [z]) with [Join pad z].
  rewrite unlines_snoc, <- append_assoc, trim_right_drop by done. rewrite Et, <- append_assoc, trim_right_last by done.
  rewrite append_assoc, <- Et.
  assert (Hfree : ∀ r, row_ok r → free_of newline (Join pad r) = true) by (intros r' [_ ?]; by apply Join_free).
  clear Et Ez Hc. induction Hi as [|x init Hx Hi IH]; [cbn; by apply Split_free, Hfree|].
  rewrite fmap_cons. cbn [unlines]. rewrite append_assoc, append_cons, Split_app by by apply Hfree.
  by rewrite IH.
Qed.

Lemma fields_print pad rows : blanks pad = true → rows ≠ [] → Forall row_ok rows →
  Fields <$> lines (print_table pad rows) = rows.
Proof.
  intros Hp Hn Hr. rewrite lines_print by done. clear Hn. induction Hr as [|r rows [_ Hr] _ IH]; [done|].
  rewrite !fmap_cons, IH. by rewrite Fields_Join.
Qed.

(** Trimming a row does nothing. *)
Lemma row_trim pad r : row_ok r → TrimSpace (Join pad r) = Join pad r.
Proof.
  intros Hr. unfold TrimSpace, Trim. destruct (row_head pad r Hr) as (c & s & E & Hc).
  rewrite E, trim_left_id, <- E by done. destruct (row_last pad r Hr) as (t & d & E' & Hd).
  rewrite E'. by apply trim_right_last.
Qed.

(** ** Words *)
Lemma Cut_app sep a b : free_of sep a = true → Cut sep (a +:+ String sep b) = (a, b, true).
Proof.
  induction a as [|c a IH]; intros Ha.
  - change ("" +:+ String sep b) with (String sep b). cbn. by rewrite bool_decide_true.
  - rewrite append_cons. cbn in Ha |- *. apply andb_true_iff in Ha as [Hc%negb_true_iff Ha].
    by rewrite Hc, IH.
Qed.


Lemma digits_token s : sforall is_digit s = true → sforall (λ c, negb (is_space c)) s = true.
Proof.
  apply sforall_impl. intros c Hc. apply negb_true_iff. destruct (is_space c) eqn:E; [|done].
  revert Hc. unfold is_space in E. by destruct c as [[] [] [] [] [] [] [] []].
Qed.


Lemma token_app a b : token a = true → sforall (λ c, negb (is_space c)) b = true → token (a +:+ b) = true.
Proof.
  unfold token. rewrite !andb_true_iff, sforall_app. intros [Hn ->] ->. split; [|done].
  by destruct a.
Qed.

