(* ===== verification/Gpu.v ===== *)
(** * PCI devices for passthrough

    internal/gpu: reading devices, IOMMU groups and sibling functions from
    sysfs (iommu.go, companions.go, detect.go), power states and resets
    (reset.go), binding to vfio-pci (driver.go), the readiness check
    (preflight.go) and boot-time BAR resizes (rebar.go).

    sysfs and the kernel behind it are the class [Sysfs]: what a path reads
    as, and what a write or the passage of time changes.  [PciLaws] states the
    documented behaviour of driver binding that the rebind relies on. *)
From stdpp Require Import sorting.
From S2P Require Import Prelude GoStrings Guest Tables.

Open Scope Z_scope.

(** ** sysfs *)
Class Sysfs (K : Type) := {
  (** [os.ReadFile], [os.Readlink]; an error is its text *)
  sys_read : string → K → result string string;
  sys_link : string → K → result string string;
  (** [os.ReadDir]: names with whether each is a directory, in name order *)
  sys_dir : string → K → result string (list (string * bool));
  (** [os.Stat] without error; [os.OpenFile] for writing *)
  sys_stat : string → K → bool;
  sys_open : string → K → result string unit;
  (** [os.WriteFile] *)
  sys_write : string → string → K → result string unit * K;
  (** 200 ms pass *)
  sys_sleep : K → K;
}.

Definition pciDevices : string := "/sys/bus/pci/devices".
Definition iommuGroupsPath : string := "/sys/kernel/iommu_groups".

(** [strings.Count] of a byte *)
Fixpoint count_char (c : ascii) (s : string) : nat :=
  match s with
  | "" => 0
  | String d s => (if bool_decide (d = c) then 1 else 0) + count_char c s
  end%nat.
Definition normalizePCIAddr (addr : string) : string :=
  if negb (Contains addr ":") || Nat.eqb (count_char colon addr) 1 then "0000:" +:+ addr else addr.

Record PCIDevice := mkPCIDevice {
  pd_Address : string; pd_Vendor : string; pd_Device : string; pd_Class : string; pd_Driver : string; pd_IsGPU : bool }.
Record IOMMUGroup := mkIOMMUGroup { ig_ID : Z; ig_Devices : list PCIDevice }.

Definition IsAudioDevice (d : PCIDevice) : bool :=
  let classHex := ToLower (TrimPrefix (pd_Class d) "0x") in
  HasPrefix classHex "0403" || HasPrefix classHex "0480".

(** [fmt.Sscanf(name, "%d", &id)]: an optional sign and the leading digits. *)
Fixpoint leading_digits (s : string) : string :=
  match s with
  | String c s' => if is_digit c then String c (leading_digits s') else ""
  | "" => ""
  end.
Definition Sscanf_d (s : string) : option Z :=
  match s with
  | String "-" t => match leading_digits t with "" => None | d => Atoi (String "-" d) end
  | String "+" t => match leading_digits t with "" => None | d => Atoi d end
  | _ => match leading_digits s with "" => None | d => Atoi d end
  end.

(** ** Power states *)
Record DeviceState := mkDeviceState {
  ds_PCIAddr : string; ds_PowerState : string; ds_RuntimeStatus : string;
  ds_ResetAvailable : bool; ds_ResetMethod : string }.
Definition PowerStateD3cold : string := "D3cold".
Definition PowerStateUnknown : string := "unknown".
Definition NeedsReset (s : DeviceState) : bool := bool_decide (ds_PowerState s = PowerStateD3cold).
Definition NeedsAttention (s : DeviceState) : bool :=
  if NeedsReset s then false
  else if bool_decide (ds_RuntimeStatus s = "suspended") && Contains (ds_PowerState s) "D3" then true
  else bool_decide (ds_RuntimeStatus s = "error").

Section Read.
Context {K : Type} `{Sysfs K}.

Definition readSysFile (path : string) (k : K) : string :=
  match sys_read path k with Ok b => TrimSpace b | Err _ => "" end.

Definition isGPUClass (classHex : string) : bool := HasPrefix classHex "0300" || HasPrefix classHex "0302".

Definition readPCIDevice (addr : string) (k : K) : PCIDevice :=
  let base := PathJoin [pciDevices; addr] in
  let class := readSysFile (PathJoin [base; "class"]) k in
  {| pd_Address := addr;
     pd_Vendor := readSysFile (PathJoin [base; "vendor"]) k;
     pd_Device := readSysFile (PathJoin [base; "device"]) k;
     pd_Class := class;
     pd_Driver := match sys_link (PathJoin [base; "driver"]) k with Ok target => Base target | Err _ => "" end;
     pd_IsGPU := isGPUClass (TrimPrefix class "0x") |}.

Definition iommu_group_of (e : string * bool) (k : K) : option IOMMUGroup :=
  if negb e.2 then None else
  match Sscanf_d e.1 with
  | None => None
  | Some id =>
      match sys_dir (PathJoin [iommuGroupsPath; e.1; "devices"]) k with
      | Err _ => None
      | Ok devs => Some (mkIOMMUGroup id ((λ d, readPCIDevice d.1 k) <$> devs))
      end
  end.
Definition ListIOMMUGroups (k : K) : result error (list IOMMUGroup) :=
  if negb (sys_stat iommuGroupsPath k) then Err (Errorf "IOMMU not available" []) else
  match sys_dir iommuGroupsPath k with
  | Err e => Err (Errorf "" [e])
  | Ok entries => Ok (omap (λ e, iommu_group_of e k) entries)
  end.

Definition ListGPUAddresses (k : K) : list PCIDevice :=
  match sys_dir pciDevices k with
  | Err _ => []
  | Ok entries => filter (λ d, pd_IsGPU d = true) ((λ e, readPCIDevice e.1 k) <$> entries)
  end.

Definition IOMMUGroupPeers (addr : string) (k : K) : list PCIDevice :=
  let pciAddr := normalizePCIAddr addr in
  match sys_link (PathJoin [pciDevices; pciAddr; "iommu_group"]) k with
  | Err _ => []
  | Ok target =>
      let entries :=
        match sys_dir (PathJoin [target; "devices"]) k with
        | Ok entries => entries
        | Err _ => match sys_dir (PathJoin [iommuGroupsPath; Base target; "devices"]) k with
                   | Ok entries => entries
                   | Err _ => []
                   end
        end in
      (λ e, readPCIDevice e.1 k) <$> filter (λ e, e.1 ≠ pciAddr) entries
  end.

(** [pciAddr[:dot+1]] at the last dot, when a function number follows. *)
Definition function_prefix (pciAddr : string) : option string :=
  match last_from pciAddr "." with
  | None => None
  | Some t => if Nat.ltb (String.length t) 2 then None
              else Some (String.substring 0 (String.length pciAddr - String.length t + 1) pciAddr)
  end.
Definition SiblingFunctions (addr : string) (k : K) : list PCIDevice :=
  let pciAddr := normalizePCIAddr addr in
  match function_prefix pciAddr with
  | None => []
  | Some prefix =>
      (λ a, readPCIDevice a k) <$>
        filter (λ a, a ≠ pciAddr ∧ sys_stat (PathJoin [pciDevices; a]) k = true)
               ((λ fn, prefix +:+ Itoa fn) <$> [0; 1; 2; 3; 4; 5; 6; 7])
  end.

Definition vendor_of (id : string) : string :=
  if bool_decide (id = "1002") then "amd"
  else if bool_decide (id = "10de") then "nvidia"
  else if bool_decide (id = "8086") then "intel"
  else if bool_decide (id = "1af4") || bool_decide (id = "1b36") then "virtio"
  else "unknown".
(** The device decides: [None] passes to the next. *)
Definition host_gpu (addr : string) (k : K) : option string :=
  let base := PathJoin [pciDevices; addr] in
  let classHex := TrimPrefix (ToLower (readSysFile (PathJoin [base; "class"]) k)) "0x" in
  if negb (isGPUClass classHex) then None else
  let vfio := match sys_link (PathJoin [base; "driver"]) k with
              | Ok target => bool_decide (Base target = "vfio-pci")
              | Err _ => false
              end in
  if vfio then None
  else Some (vendor_of (ToLower (TrimPrefix (readSysFile (PathJoin [base; "vendor"]) k) "0x"))).
Definition DetectHostGPU (k : K) : string :=
  match sys_dir pciDevices k with
  | Err _ => "unknown"
  | Ok entries => default "unknown" (head (omap (λ e, host_gpu e.1 k) entries))
  end.

Definition ReadDeviceState (addr : string) (k : K) : DeviceState :=
  let pciAddr := normalizePCIAddr addr in
  let base := PathJoin [pciDevices; pciAddr] in
  let raw := readSysFile (PathJoin [base; "power_state"]) k in
  {| ds_PCIAddr := pciAddr;
     ds_PowerState := if bool_decide (raw = "") then PowerStateUnknown else raw;
     ds_RuntimeStatus := readSysFile (PathJoin [base; "power"; "runtime_status"]) k;
     ds_ResetAvailable := sys_stat (PathJoin [base; "reset"]) k;
     ds_ResetMethod := readSysFile (PathJoin [base; "reset_method"]) k |}.

Definition CurrentDriver (addr : string) (k : K) : string :=
  match sys_link (PathJoin [pciDevices; normalizePCIAddr addr; "driver"]) k with
  | Ok target => Base target
  | Err _ => ""
  end.
End Read.

(** ** Resets *)
Section Reset.
Context {K : Type} `{Sysfs K}.
Abbreviation M := (GoM K error).

(** [os.WriteFile]; the error is wrapped by the caller. *)
Definition write (what : error → error) (path data : string) : M unit := λ k,
  match sys_write path data k with
  | (Ok _, k) => (Ok tt, k)
  | (Err e, k) => (Err (what (Errorf "" [e])), k)
  end.
Definition sleep : M unit := modify sys_sleep.

(** Look every 200 ms until [good] or the deadline, [n] looks away. *)
Fixpoint poll (n : nat) (good : K → bool) : M bool :=
  match n with
  | O => mret false
  | S n => ok ← gets good; if (ok : bool) then mret true else _ ← sleep; poll n good
  end.

Definition awake (pciAddr : string) (k : K) : bool := negb (NeedsReset (ReadDeviceState pciAddr k)).
Definition still_down (pciAddr what : string) (k : K) : error :=
  let s := ReadDeviceState pciAddr k in
  Errorf what [pciAddr; ds_PowerState s; ds_RuntimeStatus s].

Definition Reset (addr : string) : M unit :=
  let pciAddr := normalizePCIAddr addr in
  let resetPath := PathJoin [pciDevices; pciAddr; "reset"] in
  there ← gets (sys_stat resetPath);
  if negb there then throw (Errorf "device does not support sysfs reset (no reset file)" [pciAddr]) else
  _ ← write (Wrapf "reset") resetPath "1";
  ok ← poll 50 (awake pciAddr);
  if (ok : bool) then mret tt else
  e ← gets (still_down pciAddr "device still down after reset"); throw e.

Definition WakeDevice (addr : string) : M unit :=
  let pciAddr := normalizePCIAddr addr in
  _ ← write (Wrapf "write power/control") (PathJoin [pciDevices; pciAddr; "power"; "control"]) "on";
  ok ← poll 50 (awake pciAddr);
  if (ok : bool) then mret tt else
  e ← gets (still_down pciAddr "device still down after wake"); throw e.

(** The state is returned beside the error. *)
Definition EnsureReady (addr : string) : M (DeviceState * option error) :=
  s ← gets (ReadDeviceState addr);
  if negb (NeedsReset s) then mret (s, None) else
  r ← attempt (WakeDevice addr);
  woken ← (match r with
           | Ok _ => s ← gets (ReadDeviceState addr); mret s
           | Err _ => mret s
           end : M DeviceState);
  if negb (NeedsReset woken) then mret (woken, None) else
  if negb (ds_ResetAvailable woken) then
    mret (woken, Some (Errorf "device is down and has no sysfs reset"
                         [ds_PCIAddr woken; ds_PowerState woken; ds_RuntimeStatus woken]))
  else
    r ← attempt (Reset addr);
    s ← gets (ReadDeviceState addr);
    mret (s, match r with Ok _ => None | Err e => Some (Wrapf "reset failed" e) end).

(** ** Drivers *)
Definition driver_path (pciAddr : string) : string := PathJoin [PathJoin [pciDevices; pciAddr]; "driver"].
Definition override_path (pciAddr : string) : string := PathJoin [PathJoin [pciDevices; pciAddr]; "driver_override"].
Definition unbind_path (pciAddr : string) : string := PathJoin [driver_path pciAddr; "unbind"].
Definition probe_path : string := "/sys/bus/pci/drivers_probe".
Definition nul : string := String "000" "".

(** [filepath.Base] of the driver link; a failed read gives the empty target. *)
Definition bound_to (pciAddr driver : string) (k : K) : bool :=
  match sys_link (driver_path pciAddr) k with
  | Ok target => bool_decide (Base target = driver)
  | Err _ => bool_decide (Base "" = driver)
  end.

Definition BindVFIO (root : bool) (modprobe : option error) (addr : string) : M unit :=
  if negb root then throw (Errorf "binding a device to vfio-pci requires root" []) else
  let pciAddr := normalizePCIAddr addr in
  there ← gets (sys_stat (PathJoin [pciDevices; pciAddr]));
  if negb there then throw (Errorf "PCI device not found" [pciAddr]) else
  match modprobe with
  | Some e => throw (Wrapf "modprobe vfio-pci" e)
  | None =>
      link ← gets (sys_link (driver_path pciAddr));
      _ ← (match link with
           | Ok target =>
               if bool_decide (Base target = "vfio-pci") then mret tt
               else write (Wrapf "unbind") (unbind_path pciAddr) pciAddr
           | Err _ => mret tt
           end : M unit);
      _ ← write (Wrapf "set driver_override") (override_path pciAddr) "vfio-pci";
      _ ← write (Wrapf "drivers_probe") probe_path pciAddr;
      _ ← sleep;
      link ← gets (sys_link (driver_path pciAddr));
      match link with
      | Ok target => if bool_decide (Base target = "vfio-pci") then mret tt
                     else throw (Errorf "device did not bind to vfio-pci" [pciAddr])
      | Err _ => throw (Errorf "device did not bind to vfio-pci" [pciAddr])
      end
  end.

Definition UnbindVFIO (root : bool) (addr originalDriver : string) : M unit :=
  if negb root then throw (Errorf "unbinding a device from vfio-pci requires root" []) else
  let pciAddr := normalizePCIAddr addr in
  link ← gets (sys_link (driver_path pciAddr));
  _ ← (match link with
       | Ok target => if bool_decide (Base target = "vfio-pci")
                      then write (Wrapf "unbind from vfio-pci") (unbind_path pciAddr) pciAddr else mret tt
       | Err _ => mret tt
       end : M unit);
  _ ← write (Wrapf "clear driver_override") (override_path pciAddr) nul;
  if bool_decide (originalDriver = "") then mret tt
  else write (Wrapf "bind") (PathJoin ["/sys/bus/pci/drivers"; originalDriver; "bind"]) pciAddr.

(** The three parts of a soft reset by rebinding. *)
Definition release (pciAddr : string) : M unit :=
  link ← gets (sys_link (driver_path pciAddr));
  match link with
  | Ok _ => _ ← write (Wrapf "unbind") (unbind_path pciAddr) pciAddr; sleep
  | Err _ => mret tt
  end.
Definition bind_native (pciAddr nativeDriver : string) : M unit :=
  _ ← write (Wrapf "set driver_override") (override_path pciAddr) nativeDriver;
  r ← attempt (write (Wrapf "probe") probe_path pciAddr);
  match r with
  | Err e => _ ← ignore (write id (override_path pciAddr) nul); throw e
  | Ok _ =>
      _ ← poll 50 (bound_to pciAddr nativeDriver);
      ok ← gets (bound_to pciAddr nativeDriver);
      if negb ok then throw (Errorf "device did not bind within timeout" [pciAddr; nativeDriver]) else mret tt
  end.
Definition rebind_vfio (pciAddr : string) : M unit :=
  _ ← write (Wrapf "set driver_override to vfio-pci") (override_path pciAddr) "vfio-pci";
  _ ← write (Wrapf "probe for vfio-pci bind") probe_path pciAddr;
  ok ← poll 25 (bound_to pciAddr "vfio-pci");
  if (ok : bool) then mret tt else throw (Errorf "device did not rebind to vfio-pci" [pciAddr]).
(** A hold of half a second is three waits. *)
Definition RebindReset (addr nativeDriver : string) : M unit :=
  let pciAddr := normalizePCIAddr addr in
  _ ← release pciAddr;
  _ ← bind_native pciAddr nativeDriver;
  _ ← sleep; _ ← sleep; _ ← sleep;
  _ ← write (Wrapf "unbind") (unbind_path pciAddr) pciAddr;
  _ ← sleep;
  rebind_vfio pciAddr.
End Reset.

(** ** Sizes *)
Definition max_uint64 : Z := 2 ^ 64 - 1.

Definition parseMemoryBytes (s : string) : result error Z :=
  let s := TrimSpace s in
  let num mult digits := match ParseUint64 digits with
                         | Some n => Ok (wrapu64 (n * mult))
                         | None => Err (Errorf "strconv.ParseUint" [digits])
                         end in
  match unsnoc s with
  | None => Err (Errorf "empty memory string" [])
  | Some (p, c) =>
      if bool_decide (c = "G"%char) || bool_decide (c = "g"%char) then num (2 ^ 30) p
      else if bool_decide (c = "M"%char) || bool_decide (c = "m"%char) then num (2 ^ 20) p
      else if bool_decide (c = "K"%char) || bool_decide (c = "k"%char) then num (2 ^ 10) p
      else num 1 s
  end.

(** [float64(b)], and [%.0f] of a quotient by a power of two: both round to
    nearest, ties to even. *)
Definition round_even (num den : Z) : Z :=
  let q := num / den in
  let r := num mod den in
  if (den <? 2 * r) || ((2 * r =? den) && Z.odd q) then q + 1 else q.
Definition float64_of (b : Z) : Z :=
  if b <? 2 ^ 53 then b else let u := 2 ^ (Z.log2 b - 52) in round_even b u * u.
Definition FormatBytes (b : Z) : string :=
  if b =? max_uint64 then "unlimited"
  else if 2 ^ 30 <=? b then Itoa (round_even (float64_of b) (2 ^ 30)) +:+ "G"
  else if 2 ^ 20 <=? b then Itoa (round_even (float64_of b) (2 ^ 20)) +:+ "M"
  else if 2 ^ 10 <=? b then Itoa (round_even (float64_of b) (2 ^ 10)) +:+ "K"
  else Itoa b +:+ "B".

(** ** Readiness *)
Record PreflightResult := mkPreflightResult {
  pf_PCIAddr : string; pf_Driver : string; pf_IOMMUGroup : Z; pf_GroupPeers : list PCIDevice;
  pf_VFIODevPath : string; pf_VFIOAccessible : bool;
  pf_MemlockSoftBytes : Z; pf_MemlockHardBytes : Z; pf_MemlockRequiredBytes : Z;
  pf_DeviceState : DeviceState; pf_Errors : gmap string error }.

Definition memlock_ok (soft required : Z) : bool :=
  if soft =? max_uint64 then true else (0 <? required) && (required <=? soft).
Definition MemlockOK (r : PreflightResult) : bool := memlock_ok (pf_MemlockSoftBytes r) (pf_MemlockRequiredBytes r).
Definition PreflightOK (r : PreflightResult) : bool := bool_decide (pf_Errors r = ∅).

Section Preflight.
Context {K : Type} `{Sysfs K}.

Definition preflight_group (pciAddr : string) (k : K) : Z :=
  match sys_link (PathJoin [pciDevices; pciAddr; "iommu_group"]) k with
  | Ok target => default (-1) (Sscanf_d (Base target))
  | Err _ => -1
  end.
Definition preflight_peers (pciAddr : string) (group : Z) (k : K) : list PCIDevice :=
  if group <? 0 then [] else
  match sys_dir (PathJoin [iommuGroupsPath; Itoa group; "devices"]) k with
  | Ok entries => (λ e, readPCIDevice e.1 k) <$> filter (λ e, e.1 ≠ pciAddr) entries
  | Err _ => []
  end.
Definition power_errors (s : DeviceState) : gmap string error :=
  if NeedsReset s then {[ "power_state" := Errorf "device is stuck" [ds_PowerState s; ds_RuntimeStatus s] ]} else ∅.
Definition driver_errors (pciAddr driver : string) : gmap string error :=
  if bool_decide (driver = "vfio-pci") then ∅
  else if bool_decide (driver = "") then {[ "driver" := Errorf "no driver bound" [pciAddr] ]}
  else {[ "driver" := Errorf "device bound to another driver" [driver] ]}.
Definition group_errors (pciAddr : string) (group : Z) (peers : list PCIDevice) : gmap string error :=
  if group <? 0 then {[ "iommu_group" := Errorf "device has no IOMMU group" [pciAddr] ]}
  else list_to_map ((λ p, ("iommu_group_peer_" +:+ pd_Address p, Errorf "peer device is bound to another driver" [pd_Driver p]))
                      <$> filter (λ p, pd_Driver p ≠ "vfio-pci") peers).
(** The device node, whether it opens, and the errors. *)
Definition preflight_node (group : Z) (k : K) : string * bool * gmap string error :=
  if group <? 0 then ("", false, ∅) else
  let path := "/dev/vfio/" +:+ Itoa group in
  if negb (sys_stat path k) then (path, false, {[ "vfio_dev" := Errorf "does not exist" [path] ]})
  else match sys_open path k with
       | Err e => (path, false, {[ "vfio_access" := Errorf "cannot open" [path; e] ]})
       | Ok _ => (path, true, ∅)
       end.
(** The required bytes and the errors. *)
Definition preflight_memlock (soft : Z) (memoryStr : string) : Z * gmap string error :=
  if bool_decide (memoryStr = "") then (0, ∅) else
  match parseMemoryBytes memoryStr with
  | Err _ => (0, ∅)
  | Ok bytes =>
      (bytes, if memlock_ok soft bytes then ∅
              else {[ "memlock" := Errorf "memlock soft limit < required" [FormatBytes soft; FormatBytes bytes] ]})
  end.

(** [limits]: the soft and hard memlock limits, when they can be read. *)
Definition PreflightCheck (limits : option (Z * Z)) (addr memoryStr : string) (k : K) : PreflightResult :=
  let pciAddr := normalizePCIAddr addr in
  let s := ReadDeviceState pciAddr k in
  let driver := CurrentDriver pciAddr k in
  let group := preflight_group pciAddr k in
  let peers := preflight_peers pciAddr group k in
  let '(path, accessible, node_errors) := preflight_node group k in
  let '(soft, hard) := default (0, 0) limits in
  let '(required, mem_errors) := preflight_memlock soft memoryStr in
  {| pf_PCIAddr := pciAddr; pf_Driver := driver; pf_IOMMUGroup := group; pf_GroupPeers := peers;
     pf_VFIODevPath := path; pf_VFIOAccessible := accessible;
     pf_MemlockSoftBytes := soft; pf_MemlockHardBytes := hard; pf_MemlockRequiredBytes := required;
     pf_DeviceState := s;
     pf_Errors := mem_errors ∪ node_errors ∪ group_errors pciAddr group peers
                  ∪ driver_errors pciAddr driver ∪ power_errors s |}.
End Preflight.

(** ** BAR resizes *)
Record RebarEntry := mkRebarEntry { rb_Addr : string; rb_Bar : Z; rb_Exp : Z }.
#[export] Instance RebarEntry_eq_dec : EqDecision RebarEntry.
Proof. solve_decision. Defined.

Definition SizeBytes (e : RebarEntry) : Z :=
  if (rb_Exp e <? 0) || (43 <? rb_Exp e) then 0 else 2 ^ (rb_Exp e + 20).

(** [bits.TrailingZeros64]: 64 for zero. *)
Fixpoint trailing_zeros (p : positive) : Z :=
  match p with xO p => 1 + trailing_zeros p | _ => 0 end.
Definition TrailingZeros64 (b : Z) : Z := match b with Z0 => 64 | Zpos p => trailing_zeros p | Zneg _ => 0 end.

Definition ParseRebarSize (s : string) : result error Z :=
  match parseMemoryBytes s with
  | Err e => Err (Wrapf "invalid size" e)
  | Ok b =>
      if (b <? 2 ^ 20) || negb (b mod 2 ^ 20 =? 0) then Err (Errorf "size must be a multiple of 1M" [s])
      else if negb (Z.land b (b - 1) =? 0) then Err (Errorf "size must be a power of two" [s])
      else Ok (TrailingZeros64 b - 20)
  end.

Definition RebarSupported {K} `{Sysfs K} (addr : string) (bar : Z) (k : K) : result error Z :=
  let pciAddr := normalizePCIAddr addr in
  let path := PathJoin [pciDevices; pciAddr; "resource" +:+ Itoa bar +:+ "_resize"] in
  match sys_read path k with
  | Err e => Err (Errorf "device BAR is not resizable" [pciAddr; path; e])
  | Ok raw => match ParseHex 64 (TrimSpace raw) with
              | Some mask => Ok mask
              | None => Err (Errorf "parse" [path])
              end
  end.

Definition FormatRebarSizes (mask : Z) : string :=
  Join ", " ((λ n, FormatBytes (wrapu64 (2 ^ (n + 20)))) <$> filter (λ n, Z.testbit mask n = true) (seqZ 0 64)).

Definition rebar_line (i : Z) (line : string) : result error (option RebarEntry) :=
  let line := TrimSpace line in
  if bool_decide (line = "") || HasPrefix line "#" then Ok None else
  match Fields line with
  | [a; b; e] =>
      match Atoi b with
      | None => Err (Errorf "rebar.conf line: bar index" [Itoa i])
      | Some bar =>
          match Atoi e with
          | None => Err (Errorf "rebar.conf line: size exponent" [Itoa i])
          | Some exp => Ok (Some (mkRebarEntry (normalizePCIAddr a) bar exp))
          end
      end
  | _ => Err (Errorf "rebar.conf line: want three fields" [Itoa i; line])
  end.
Fixpoint rebar_lines (i : Z) (ls : list string) : result error (list RebarEntry) :=
  match ls with
  | [] => Ok []
  | l :: ls =>
      match rebar_line i l with
      | Err e => Err e
      | Ok r => match rebar_lines (i + 1) ls with
                | Err e => Err e
                | Ok es => Ok (option_list r ++ es)
                end
      end
  end.
Definition ParseRebarConf (content : string) : result error (list RebarEntry) :=
  rebar_lines 1 (Split newline content).

Definition rebar_le (a b : RebarEntry) : Prop :=
  (rb_Addr a = rb_Addr b ∧ rb_Bar a ≤ rb_Bar b) ∨ (rb_Addr a ≠ rb_Addr b ∧ String.le (rb_Addr a) (rb_Addr b)).
#[export] Instance rebar_le_dec : RelDecision rebar_le.
Proof. unfold rebar_le. solve_decision. Defined.

Definition rebar_row (e : RebarEntry) : string := rb_Addr e +:+ " " +:+ Itoa (rb_Bar e) +:+ " " +:+ Itoa (rb_Exp e).
Definition rebar_header : list string :=
  ["# Written by `vee gpu rebar`. One boot-time BAR resize per line:";
   "# <pci-addr> <bar-index> <size-exponent>   (size = 2^exp MB)"].
Definition RenderRebarConf (entries : list RebarEntry) : string :=
  unlines (rebar_header ++ (rebar_row <$> merge_sort rebar_le entries)).

Definition same_slot (addr : string) (bar : Z) (e : RebarEntry) : bool :=
  bool_decide (rb_Addr e = addr) && (rb_Bar e =? bar).
Fixpoint replace_entry (entry : RebarEntry) (es : list RebarEntry) : list RebarEntry :=
  match es with
  | [] => [entry]
  | e :: es => if same_slot (rb_Addr entry) (rb_Bar entry) e then entry :: es else e :: replace_entry entry es
  end.
Definition MergeRebarEntry (entries : list RebarEntry) (entry : RebarEntry) : list RebarEntry :=
  replace_entry (mkRebarEntry (normalizePCIAddr (rb_Addr entry)) (rb_Bar entry) (rb_Exp entry)) entries.

Fixpoint drop_entry (addr : string) (bar : Z) (es : list RebarEntry) : list RebarEntry * bool :=
  match es with
  | [] => ([], false)
  | e :: es => if same_slot addr bar e then (es, true)
               else let '(es', found) := drop_entry addr bar es in (e :: es', found)
  end.
Definition RemoveRebarEntry (entries : list RebarEntry) (addr : string) (bar : Z) : list RebarEntry * bool :=
  drop_entry (normalizePCIAddr addr) bar entries.

(** ** Addresses *)
Lemma count_char_Contains c s : Contains s (String c "") = negb (Nat.eqb (count_char c s) 0).
Proof.
  induction s as [|d s IH]; [done|]. cbn. rewrite IH, andb_true_r. case_bool_decide as E1; case_bool_decide as E2; naive_solver.
Qed.

Lemma count_char_app c s t : count_char c (s +:+ t) = (count_char c s + count_char c t)%nat.
Proof. induction s as [|d s IH]; [done|]. rewrite append_cons. cbn [count_char]. rewrite IH. lia. Qed.

(** A second normalisation changes nothing, once there is a colon. *)
Lemma normalize_idemp addr : Contains addr ":" = true →
  normalizePCIAddr (normalizePCIAddr addr) = normalizePCIAddr addr.
Proof.
  intros Hc. unfold normalizePCIAddr. rewrite Hc. cbn [negb orb].
  destruct (Nat.eqb_spec (count_char colon addr) 1) as [E|E].
  - assert (count_char colon ("0000:" +:+ addr) = 2%nat) as Hn by (by rewrite count_char_app, E).
    change ":" with (String colon "") in *. rewrite count_char_Contains, Hn. done.
  - change ":" with (String colon "") in *. rewrite Hc. cbn. by rewrite (proj2 (Nat.eqb_neq _ _) E).
Qed.

(** ** Waking a device *)
Section Ready.
Context {K : Type} `{Sysfs K}.

Lemma poll_awake n good (k k' : K) : poll n good k = (Ok true, k') → good k' = true.
Proof.
  revert k. induction n as [|n IH]; intros k; cbn; [done|].
  unfold mbind, GoM_bind, gets. cbn. destruct (good k) eqn:E; [by intros [= <-]|]. apply IH.
Qed.
Lemma poll_total n good (k : K) : ∃ b k', poll n good k = (Ok b, k').
Proof.
  revert k. induction n as [|n IH]; intros k; cbn; [eauto|].
  unfold mbind, GoM_bind, gets. cbn. destruct (good k); [eauto|]. apply IH.
Qed.

Lemma Reset_awake addr (k k' : K) : Reset addr k = (Ok tt, k') → awake (normalizePCIAddr addr) k' = true.
Proof.
  unfold Reset. rewrite run_gets. destruct (negb _); [done|]. intros (? & k1 & _ & E)%run_bind_inv.
  apply run_bind_inv in E as (ok & k2 & Hp & E). destruct ok; [|done]. injection E as <-. by eapply poll_awake.
Qed.

(** A device handed out as ready is powered.  Making a device ready always
    ends with a state read from sysfs; without an error that state is the
    device's present one and is not D3cold, whatever the kernel did with the
    writes and during the waits. *)
Theorem ensure_ready_powered addr (k : K) : Contains addr ":" = true →
  ∃ s e k', EnsureReady addr k = (Ok (s, e), k') ∧
    (e = None → s = ReadDeviceState addr k' ∧ ds_PowerState s ≠ PowerStateD3cold).
Proof.
  intros Hc. unfold EnsureReady. rewrite run_gets. destruct (NeedsReset (ReadDeviceState addr k)) eqn:Hn; cbn [negb].
  2: { exists (ReadDeviceState addr k), None, k. split; [done|]. intros _. split; [done|]. by apply bool_decide_eq_false in Hn. }
  rewrite run_attempt. destruct (WakeDevice addr k) as [r k1] eqn:Hw. cbn [fst snd].
  rewrite run_bind.
  assert (∃ s1, match r with Ok _ => s ← gets (ReadDeviceState addr); mret s | Err _ => mret (ReadDeviceState addr k) end k1
                = (Ok s1, k1) ∧ (NeedsReset s1 = false → s1 = ReadDeviceState addr k1)) as (s1 & -> & Hs1).
  { destruct r; eexists; (split; [done|]); [done|congruence]. }
  destruct (NeedsReset s1) eqn:Hn1; cbn [negb].
  2: { exists s1, None, k1. split; [done|]. intros _. split; [by apply Hs1|]. by apply bool_decide_eq_false in Hn1. }
  destruct (ds_ResetAvailable s1); cbn [negb]; [|by eexists s1, _, k1].
  rewrite run_attempt. destruct (Reset addr k1) as [r2 k2] eqn:Hr. cbn [fst snd]. rewrite run_gets.
  eexists _, _, k2. split; [done|]. destruct r2 as [[]|]; [|done]. intros _. split; [done|].
  apply Reset_awake in Hr. unfold awake, NeedsReset in Hr. apply negb_true_iff, bool_decide_eq_false in Hr.
  unfold ReadDeviceState in Hr |- *. by rewrite normalize_idemp in Hr.
Qed.
End Ready.

(** ** What a passed readiness check means *)
Lemma map_union_empty_iff {A} (m1 m2 : gmap string A) : m1 ∪ m2 = ∅ ↔ m1 = ∅ ∧ m2 = ∅.
Proof.
  split; [|by intros [-> ->]; rewrite (left_id_L ∅ (∪))].
  intros E. split; apply map_empty; intros i; eapply (lookup_union_None m1 m2); by rewrite E.
Qed.

(** An error on record is no empty map. *)
Ltac recorded := intros E; exfalso; revert E; first [apply map_non_empty_singleton | apply insert_non_empty].

Section PreflightMeaning.
Context {K : Type} `{Sysfs K}.

Lemma power_errors_nil s : power_errors s = ∅ ↔ ds_PowerState s ≠ PowerStateD3cold.
Proof. unfold power_errors, NeedsReset. case_bool_decide; [|naive_solver]. split; [recorded|done]. Qed.
Lemma driver_errors_nil a d : driver_errors a d = ∅ ↔ d = "vfio-pci".
Proof.
  unfold driver_errors. case_bool_decide; [naive_solver|]. case_bool_decide; (split; [recorded|done]).
Qed.
Lemma group_errors_nil a g ps : group_errors a g ps = ∅ ↔ 0 <= g ∧ Forall (λ p, pd_Driver p = "vfio-pci") ps.
Proof.
  unfold group_errors. destruct (Z.ltb_spec g 0).
  - split; [recorded|lia].
  - induction ps as [|p ps IH]; [by rewrite Forall_nil|]. rewrite filter_cons, Forall_cons. case_decide as Hd.
    + cbn. split; [recorded|naive_solver].
    + rewrite IH. naive_solver.
Qed.
Lemma node_errors_nil g (k : K) : 0 <= g → let '(path, ok, errs) := preflight_node g k in
  errs = ∅ ↔ sys_stat ("/dev/vfio/" +:+ Itoa g) k = true ∧ sys_open ("/dev/vfio/" +:+ Itoa g) k = Ok tt.
Proof.
  intros Hg. unfold preflight_node. destruct (Z.ltb_spec g 0); [lia|]. destruct (sys_stat _ k); cbn [negb].
  - destruct (sys_open _ k) as [[]|]; [naive_solver|]. split; [recorded|naive_solver].
  - split; [recorded|naive_solver].
Qed.
Lemma memlock_errors_nil soft mem : (preflight_memlock soft mem).2 = ∅ ↔
  ∀ bytes, mem ≠ "" → parseMemoryBytes mem = Ok bytes → soft = max_uint64 ∨ 0 < bytes <= soft.
Proof.
  unfold preflight_memlock, memlock_ok. case_bool_decide; [naive_solver|].
  destruct (parseMemoryBytes mem) as [b|]; [|naive_solver]. cbn.
  destruct (Z.eqb_spec soft max_uint64); [naive_solver|].
  destruct (Z.ltb_spec 0 b), (Z.leb_spec b soft); cbn; (split; [first [recorded|naive_solver lia]|]);
    try done; naive_solver lia.
Qed.

End PreflightMeaning.

(** ** Binding

    The documented behaviour of a PCI bus (Documentation/ABI/testing/
    sysfs-bus-pci): writing an address to a driver's [unbind] releases the
    device, [driver_override] names the only driver that may take it (a NUL
    clears it), [drivers_probe] lets that driver take an unbound device and
    leaves a bound one alone, and a driver's [bind] takes an unbound device
    that is not reserved for another driver. *)
Class PciLaws (K : Type) `{Sysfs K} := {
  bus_devices : K → gset string;
  bus_drivers : K → gmap string string;
  bus_overrides : K → gmap string string;
  bus_loaded : K → gset string;
  (** the parts of the bus no write below changes *)
  bus_same (k k' : K) : Prop := bus_devices k' = bus_devices k ∧ bus_loaded k' = bus_loaded k;
  stat_spec k a : a ∈ bus_devices k → sys_stat (PathJoin [pciDevices; a]) k = true;
  link_spec k a : a ∈ bus_devices k →
    match bus_drivers k !! a with
    | Some d => ∃ t, sys_link (driver_path a) k = Ok t ∧ Base t = d
    | None => ∃ e, sys_link (driver_path a) k = Err e
    end;
  unbind_spec k a : a ∈ bus_devices k → is_Some (bus_drivers k !! a) → ∃ k',
    sys_write (unbind_path a) a k = (Ok tt, k') ∧ bus_same k k' ∧
    bus_drivers k' = delete a (bus_drivers k) ∧ bus_overrides k' = bus_overrides k;
  override_spec k a d : a ∈ bus_devices k → d ≠ nul → ∃ k',
    sys_write (override_path a) d k = (Ok tt, k') ∧ bus_same k k' ∧
    bus_drivers k' = bus_drivers k ∧ bus_overrides k' = <[a := d]> (bus_overrides k);
  clear_spec k a : a ∈ bus_devices k → ∃ k',
    sys_write (override_path a) nul k = (Ok tt, k') ∧ bus_same k k' ∧
    bus_drivers k' = bus_drivers k ∧ bus_overrides k' = delete a (bus_overrides k);
  probe_spec k a d : a ∈ bus_devices k → bus_overrides k !! a = Some d → d ∈ bus_loaded k → ∃ k',
    sys_write probe_path a k = (Ok tt, k') ∧ bus_same k k' ∧ bus_overrides k' = bus_overrides k ∧
    bus_drivers k' = <[a := default d (bus_drivers k !! a)]> (bus_drivers k);
  bind_spec k a d : a ∈ bus_devices k → bus_overrides k !! a = None → bus_drivers k !! a = None →
    d ∈ bus_loaded k → ∃ k',
    sys_write (PathJoin ["/sys/bus/pci/drivers"; d; "bind"]) a k = (Ok tt, k') ∧ bus_same k k' ∧
    bus_overrides k' = bus_overrides k ∧ bus_drivers k' = <[a := d]> (bus_drivers k);
  sleep_spec k : bus_same k (sys_sleep k) ∧ bus_drivers (sys_sleep k) = bus_drivers k ∧
    bus_overrides (sys_sleep k) = bus_overrides k;
}.

Section Binding.
Context {K : Type} `{PciLaws K}.

(** The state of the bus that binding depends on. *)
Definition bus_is (k : K) (devs loaded : gset string) (drv ovr : gmap string string) : Prop :=
  bus_devices k = devs ∧ bus_loaded k = loaded ∧ bus_drivers k = drv ∧ bus_overrides k = ovr.

Lemma write_ok {A} what path data (k k' : K) (m : unit → GoM K error A) :
  sys_write path data k = (Ok tt, k') → (write what path data ≫= m) k = m tt k'.
Proof. intros E. rewrite run_bind. unfold write. by rewrite E. Qed.
Lemma write_last what path data (k k' : K) :
  sys_write path data k = (Ok tt, k') → write what path data k = (Ok tt, k').
Proof. intros E. unfold write. by rewrite E. Qed.
Lemma bus_sleep (k : K) devs loaded drv ovr : bus_is k devs loaded drv ovr → bus_is (sys_sleep k) devs loaded drv ovr.
Proof. intros (? & ? & ? & ?). destruct (sleep_spec k) as ([? ?] & ? & ?). unfold bus_is. split_and!; congruence. Qed.

Lemma bound_to_spec (k : K) a d : a ∈ bus_devices k → bus_drivers k !! a = Some d → bound_to a d k = true.
Proof.
  intros Ha Hd. pose proof (link_spec k a Ha) as Hl. rewrite Hd in Hl. destruct Hl as (t & E & Hb).
  unfold bound_to. rewrite E, Hb. by apply bool_decide_eq_true.
Qed.
Lemma poll_now n good (k : K) : (0 < n)%nat → good k = true → poll n good k = (Ok true, k).
Proof. intros Hn Hg. destruct n; [lia|]. cbn. rewrite run_gets. by rewrite Hg. Qed.

(** A driver that is loaded takes an unbound device reserved for it. *)
Lemma take_device k a d devs loaded drv ovr : bus_is k devs loaded drv ovr → a ∈ devs → d ∈ loaded → d ≠ nul →
  drv !! a = None → ∃ k1 k2, sys_write (override_path a) d k = (Ok tt, k1) ∧ sys_write probe_path a k1 = (Ok tt, k2) ∧
    bus_is k2 devs loaded (<[a := d]> drv) (<[a := d]> ovr).
Proof.
  intros (<- & <- & <- & <-) Ha Hd Hn Hu.
  destruct (override_spec k a d Ha Hn) as (k1 & E1 & [Hd1 Hl1] & Hdr1 & Ho1).
  destruct (probe_spec k1 a d) as (k2 & E2 & [Hd2 Hl2] & Ho2 & Hdr2);
    [by rewrite Hd1|by rewrite Ho1, lookup_insert_eq|by rewrite Hl1|].
  exists k1, k2. split_and!; [done..|]. rewrite Hdr1, Hu in Hdr2. unfold bus_is. cbn in Hdr2. split_and!; congruence.
Qed.

Lemma release_device k a devs loaded drv ovr : bus_is k devs loaded drv ovr → a ∈ devs →
  ∃ k', release a k = (Ok tt, k') ∧ bus_is k' devs loaded (delete a drv) ovr.
Proof.
  intros (<- & <- & <- & <-) Ha. unfold release. rewrite run_gets. pose proof (link_spec k a Ha) as Hl.
  destruct (bus_drivers k !! a) as [d|] eqn:Hd.
  - destruct Hl as (t & E & _). rewrite E.
    destruct (unbind_spec k a Ha ltac:(eauto)) as (k1 & E1 & [? ?] & ? & ?).
    rewrite (write_ok _ _ _ _ _ _ E1). eexists. split; [done|]. by apply bus_sleep.
  - destruct Hl as (e & E). rewrite E. exists k. split; [done|]. by rewrite delete_id.
Qed.

(** A soft reset gives the device back.  On a bus that behaves as
    documented, with both drivers loaded, the rebind cycle succeeds whatever
    driver, if any, the device had, and leaves it bound to vfio-pci with every
    other device's driver as it was. *)
Theorem rebind_reset_restores addr native (k : K) : normalizePCIAddr addr ∈ bus_devices k →
  native ∈ bus_loaded k → "vfio-pci" ∈ bus_loaded k → native ≠ nul →
  ∃ k', RebindReset addr native k = (Ok tt, k') ∧
    bus_drivers k' = <[normalizePCIAddr addr := "vfio-pci"]> (bus_drivers k).
Proof.
  intros Ha Hnat Hvf Hnul. set (a := normalizePCIAddr addr) in *. unfold RebindReset. fold a. rewrite run_bind.
  destruct (release_device k a _ _ _ _ ltac:(by split_and!) Ha) as (k1 & -> & H1).
  assert (Hu1 : delete a (bus_drivers k) !! a = None) by apply lookup_delete_eq.
  destruct (take_device k1 a native _ _ _ _ H1 Ha Hnat Hnul Hu1) as (k2 & k3 & E2 & E3 & H3).
  rewrite run_bind. unfold bind_native at 1. rewrite (write_ok _ _ _ _ _ _ E2), run_attempt, (write_last _ _ _ _ _ E3). cbn [fst snd].
  assert (Hb : bound_to a native k3 = true).
  { destruct H3 as (E & _ & Hd & _). apply bound_to_spec; [by rewrite E|by rewrite Hd, lookup_insert_eq]. }
  rewrite run_bind, poll_now by (done || lia). rewrite run_gets, Hb. cbn [negb]. unfold sleep.
  rewrite run_ret, !run_modify. apply bus_sleep, bus_sleep, bus_sleep in H3. set (k4 := sys_sleep _) in *.
  pose proof H3 as (Hd4 & Hl4 & Hdr4 & Ho4).
  destruct (unbind_spec k4 a) as (k5 & E5 & [Hd5 Hl5] & Hdr5 & Ho5);
    [by rewrite Hd4|rewrite Hdr4, lookup_insert_eq; eauto|].
  rewrite (write_ok _ _ _ _ _ _ E5), run_modify.
  assert (H5 : bus_is k5 (bus_devices k) (bus_loaded k) (delete a (bus_drivers k)) (<[a:=native]> (bus_overrides k))).
  { unfold bus_is. rewrite Hd5, Hl5, Hdr5, Ho5, Hdr4. split_and!; try done. by rewrite delete_insert_eq, delete_delete_eq. }
  apply bus_sleep in H5.
  destruct (take_device _ a "vfio-pci" _ _ _ _ H5 Ha Hvf ltac:(done) Hu1) as (k6 & k7 & E6 & E7 & H7).
  unfold rebind_vfio. rewrite (write_ok _ _ _ _ _ _ E6), (write_ok _ _ _ _ _ _ E7).
  destruct H7 as (Hd7 & _ & Hdr7 & _). rewrite run_bind, poll_now.
  - eexists. split; [done|]. rewrite Hdr7. by rewrite insert_delete_eq.
  - lia.
  - apply bound_to_spec; [by rewrite Hd7|by rewrite Hdr7, lookup_insert_eq].
Qed.
Lemma link_of (k : K) a d devs loaded drv ovr : bus_is k devs loaded drv ovr → a ∈ devs → drv !! a = Some d →
  ∃ t, sys_link (driver_path a) k = Ok t ∧ Base t = d.
Proof. intros (<- & _ & <- & _) Ha Hd. pose proof (link_spec k a Ha) as Hl. by rewrite Hd in Hl. Qed.

Lemma unbind_device k a devs loaded drv ovr : bus_is k devs loaded drv ovr → a ∈ devs → is_Some (drv !! a) →
  ∃ k', sys_write (unbind_path a) a k = (Ok tt, k') ∧ bus_is k' devs loaded (delete a drv) ovr.
Proof.
  intros (<- & <- & <- & <-) Ha Hd. destruct (unbind_spec k a Ha Hd) as (k' & E & [? ?] & ? & ?).
  exists k'. by split_and!.
Qed.

(** Binding a device to vfio-pci and giving it back are inverse.  On a bus
    that behaves as documented, binding as root takes the device from its
    driver, and unbinding with that driver's name restores the drivers of all
    devices and leaves no override behind. *)
Theorem vfio_bind_roundtrip addr d (k : K) : normalizePCIAddr addr ∈ bus_devices k →
  "vfio-pci" ∈ bus_loaded k → d ∈ bus_loaded k → d ≠ "" → d ≠ "vfio-pci" →
  bus_drivers k !! normalizePCIAddr addr = Some d →
  ∃ k1 k2, BindVFIO true None addr k = (Ok tt, k1) ∧
    bus_drivers k1 = <[normalizePCIAddr addr := "vfio-pci"]> (bus_drivers k) ∧
    UnbindVFIO true addr d k1 = (Ok tt, k2) ∧
    bus_drivers k2 = bus_drivers k ∧ bus_overrides k2 !! normalizePCIAddr addr = None.
Proof.
  intros Ha Hvf Hl Hne Hnv Hd. set (a := normalizePCIAddr addr) in *.
  assert (Hk : bus_is k (bus_devices k) (bus_loaded k) (bus_drivers k) (bus_overrides k)) by by split_and!.
  destruct (link_of k a d _ _ _ _ Hk Ha Hd) as (t & Et & Hb).
  destruct (unbind_device k a _ _ _ _ Hk Ha ltac:(eauto)) as (k1 & E1 & H1).
  destruct (take_device k1 a "vfio-pci" _ _ _ _ H1 Ha Hvf ltac:(done) (lookup_delete_eq _ _)) as (k2 & k3 & E2 & E3 & H3).
  apply bus_sleep in H3. rewrite insert_delete_eq in H3. set (k4 := sys_sleep k3) in *.
  destruct (link_of k4 a "vfio-pci" _ _ _ _ H3 Ha (lookup_insert_eq _ _ _)) as (t4 & E4 & Hb4).
  exists k4. destruct (unbind_device k4 a _ _ _ _ H3 Ha ltac:(rewrite lookup_insert_eq; eauto)) as (k5 & E5 & H5).
  destruct H5 as (Hd5 & Hl5 & Hdr5 & Ho5). rewrite delete_insert_eq in Hdr5.
  destruct (clear_spec k5 a) as (k6 & E6 & [Hd6 Hl6] & Hdr6 & Ho6); [by rewrite Hd5|].
  destruct (bind_spec k6 a d) as (k7 & E7 & _ & Ho7 & Hdr7).
  { by rewrite Hd6, Hd5. } { by rewrite Ho6, lookup_delete_eq. } { by rewrite Hdr6, Hdr5, lookup_delete_eq. } { by rewrite Hl6, Hl5. }
  exists k7. split_and!.
  - unfold BindVFIO. cbn [negb]. rewrite run_gets. fold a. rewrite stat_spec by done. cbn [negb].
    rewrite run_gets, Et, Hb, bool_decide_false by done.
    rewrite (write_ok _ _ _ _ _ _ E1), (write_ok _ _ _ _ _ _ E2), (write_ok _ _ _ _ _ _ E3). unfold sleep.
    rewrite run_modify, run_gets. fold k4. by rewrite E4, Hb4.
  - apply H3.
  - unfold UnbindVFIO. cbn [negb]. fold a. rewrite run_gets, E4, Hb4, (bool_decide_false (d = "")) by done.
    rewrite bool_decide_true by done.
    rewrite (write_ok _ _ _ _ _ _ E5), (write_ok _ _ _ _ _ _ E6). by apply write_last.
  - rewrite Hdr7, Hdr6, Hdr5, insert_delete_eq. by apply insert_id.
  - by rewrite Ho7, Ho6, lookup_delete_eq.
Qed.
End Binding.

(** ** BAR sizes *)
Lemma land_pred_pow2 p : Z.land (Zpos p) (Zpos p - 1) = 0 → Zpos p = 2 ^ trailing_zeros p.
Proof.
  induction p as [p IH|p IH|]; cbn [trailing_zeros]; intros E; [exfalso| |done].
  - revert E. rewrite Pos2Z.inj_xI. replace (2 * Z.pos p + 1 - 1) with (2 * Z.pos p) by lia.
    intros E. assert (Z.testbit (Z.land (2 * Z.pos p + 1) (2 * Z.pos p)) (Z.succ (Z.log2 (Z.pos p))) = true).
    { rewrite Z.land_spec, Z.testbit_odd_succ, Z.testbit_even_succ by apply Z.log2_nonneg. rewrite Z.bit_log2 by lia. done. }
    rewrite E in *. by rewrite Z.bits_0 in *.
  - rewrite Pos2Z.inj_xO in E |- *. rewrite Z.pow_add_r by (try lia; clear; induction p; cbn; lia).
    rewrite <- IH; [lia|]. apply Z.bits_inj_0. intros n. destruct (Z.ltb_spec n 0); [by rewrite Z.testbit_neg_r|].
    assert (Z.testbit (Z.land (2 * Z.pos p) (2 * Z.pos p - 1)) (Z.succ n) = false) as Hb by (rewrite E; apply Z.bits_0).
    replace (2 * Z.pos p - 1) with (2 * (Z.pos p - 1) + 1) in Hb by lia.
    rewrite Z.land_spec, Z.testbit_even_succ, Z.testbit_odd_succ in Hb by lia. by rewrite Z.land_spec.
Qed.

Lemma parseMemoryBytes_range s b : parseMemoryBytes s = Ok b → 0 <= b < 2 ^ 64.
Proof.
  unfold parseMemoryBytes. destruct (unsnoc (TrimSpace s)) as [[p c]|]; [|done].
  repeat case_match; try done; intros [= <-]; by apply Z.mod_pos_bound.
Qed.


(** ** The resize table *)
Definition rebar_ok (e : RebarEntry) : Prop :=
  token (rb_Addr e) = true ∧ HasPrefix (rb_Addr e) "#" = false ∧ normalizePCIAddr (rb_Addr e) = rb_Addr e ∧
  0 <= rb_Bar e <= max_int ∧ 0 <= rb_Exp e <= max_int.

Lemma Itoa_nat z : 0 <= z <= max_int → Atoi (Itoa z) = Some z ∧ token (Itoa z) = true.
Proof.
  intros Hz. destruct (decide (z = 0)) as [->|]; [by vm_compute|]. split; [apply Atoi_Itoa; lia|].
  unfold token. rewrite digits_token by (apply Itoa_digits; lia). rewrite bool_decide_false by (apply Itoa_nonempty; lia). done.
Qed.

Lemma rebar_row_read i e : rebar_ok e → rebar_line i (rebar_row e) = Ok (Some e).
Proof.
  intros (Ha & Hh & Hn & Hb & He). destruct (Itoa_nat _ Hb) as [Pb Tb]. destruct (Itoa_nat _ He) as [Pe Te].
  unfold rebar_line. change (rebar_row e) with (Join " " [rb_Addr e; Itoa (rb_Bar e); Itoa (rb_Exp e)]).
  assert (Hr : row_ok [rb_Addr e; Itoa (rb_Bar e); Itoa (rb_Exp e)]) by (split; [done|by repeat constructor]).
  rewrite row_trim, Fields_Join by (done || apply Hr). rewrite Pb, Pe, Hn.
  destruct (row_head " " _ Hr) as (c & s & E & _). rewrite bool_decide_false by (rewrite E; done).
  assert (HasPrefix (Join " " [rb_Addr e; Itoa (rb_Bar e); Itoa (rb_Exp e)]) "#" = false) as ->.
  { destruct (rb_Addr e) as [|d a']; [done|]. exact Hh. }
  by destruct e.
Qed.

Lemma rebar_rows_read i es : Forall rebar_ok es → rebar_lines i ((rebar_row <$> es) ++ [""]) = Ok es.
Proof.
  intros Hes. revert i. induction Hes as [|e es He _ IH]; intros i; [done|]. cbn -[rebar_line rebar_row].
  rewrite rebar_row_read, IH by done. done.
Qed.

#[export] Instance rebar_le_total : Total rebar_le.
Proof.
  intros a b. unfold rebar_le. destruct (decide (rb_Addr a = rb_Addr b)) as [E|E].
  - destruct (decide (rb_Bar a ≤ rb_Bar b)); [left; by left|]. right. left. split; [done|lia].
  - destruct (total String.le (rb_Addr a) (rb_Addr b)); [left; by right|]. right. right. by split.
Qed.

Lemma rebar_row_free e : rebar_ok e → free_of newline (rebar_row e) = true.
Proof.
  intros (Ha & _ & _ & Hb & He). destruct (Itoa_nat _ Hb) as [_ Tb]. destruct (Itoa_nat _ He) as [_ Te].
  change (rebar_row e) with (Join " " [rb_Addr e; Itoa (rb_Bar e); Itoa (rb_Exp e)]).
  apply Join_free; [done|by repeat constructor].
Qed.

(** The boot-time resize table survives its file.  Rendering any entries
    (canonical addresses, indices and exponents in range) and parsing the text
    back gives these entries in the order of the file, which is a permutation
    of them. *)
Theorem rebar_conf_roundtrip es : Forall rebar_ok es →
  ∃ es', ParseRebarConf (RenderRebarConf es) = Ok es' ∧ es' ≡ₚ es ∧ Sorted rebar_le es'.
Proof.
  intros Hes. exists (merge_sort rebar_le es). pose proof (merge_sort_Permutation rebar_le es) as Hp.
  split_and!; [|done|apply (Sorted_merge_sort _)].
  assert (Hs : Forall rebar_ok (merge_sort rebar_le es)) by by rewrite Hp.
  unfold ParseRebarConf, RenderRebarConf. rewrite Split_unlines.
  - rewrite <- app_assoc. cbn -[rebar_line]. change (rebar_line _ _) with (Ok None : result error (option RebarEntry)).
    by rewrite rebar_rows_read.
  - apply Forall_app. split; [by repeat constructor|]. apply Forall_fmap. eapply Forall_impl; [done|]. apply rebar_row_free.
Qed.

Lemma merge_lookup es e addr bar :
  find (same_slot addr bar) (MergeRebarEntry es e) =
  if bool_decide (addr = normalizePCIAddr (rb_Addr e)) && (rb_Bar e =? bar)
  then Some (mkRebarEntry (normalizePCIAddr (rb_Addr e)) (rb_Bar e) (rb_Exp e))
  else find (same_slot addr bar) es.
Proof.
  unfold MergeRebarEntry. set (a := normalizePCIAddr (rb_Addr e)). set (n := mkRebarEntry a (rb_Bar e) (rb_Exp e)).
  assert (Hn : same_slot addr bar n = bool_decide (addr = a) && (rb_Bar e =? bar)).
  { unfold same_slot. cbn. f_equal. by apply bool_decide_ext. }
  rewrite <- Hn. induction es as [|x es IH]; [cbn; by destruct (same_slot addr bar n)|]. cbn.
  destruct (same_slot a (rb_Bar e) x) eqn:Hx; cbn.
  - unfold same_slot in Hx. apply andb_true_iff in Hx as [Hxa%bool_decide_eq_true Hxb%Z.eqb_eq].
    assert (same_slot addr bar x = same_slot addr bar n) as -> by (unfold same_slot; cbn; by rewrite Hxa, Hxb).
    by destruct (same_slot addr bar n).
  - rewrite IH. destruct (same_slot addr bar x) eqn:Ex; [|done]. destruct (same_slot addr bar n) eqn:En; [|done].
    exfalso. unfold same_slot in *. apply andb_true_iff in Ex as [Exa%bool_decide_eq_true Exb%Z.eqb_eq].
    apply andb_true_iff in En as [Ena%bool_decide_eq_true Enb%Z.eqb_eq]. cbn in Ena, Enb.
    by rewrite Exb, Enb, Z.eqb_refl, bool_decide_true in Hx by congruence.
Qed.

(** ** Examples *)
Module GpuExample.
Definition addr : string := "08:00.0".
Definition a0 : string := "0000:08:00.0".

(** A bus with one device, which amdgpu ([false]) and vfio-pci ([true]) drive. *)
Record Bus := mkBus { b_driver : option bool; b_override : option string; b_power : string }.
Definition name_of (b : bool) : string := if b then "vfio-pci" else "amdgpu".
Definition bind_file (b : bool) : string := PathJoin ["/sys/bus/pci/drivers"; name_of b; "bind"].

Definition probed (k : Bus) : option bool :=
  match b_driver k with
  | Some b => Some b
  | None => if bool_decide (b_override k = Some "vfio-pci") then Some true
            else if bool_decide (b_override k = Some "amdgpu") then Some false else None
  end.
Definition bus_write (path data : string) (k : Bus) : result string unit * Bus :=
  if bool_decide (path = unbind_path a0) then
    match b_driver k with
    | Some _ => (Ok tt, mkBus None (b_override k) (b_power k))
    | None => (Err "no such device", k)
    end
  else if bool_decide (path = override_path a0) then
    (Ok tt, mkBus (b_driver k) (if bool_decide (data = nul) then None else Some data) (b_power k))
  else if bool_decide (path = probe_path) then (Ok tt, mkBus (probed k) (b_override k) (b_power k))
  else match b_driver k, b_override k with
       | None, None =>
           if bool_decide (path = bind_file true) then (Ok tt, mkBus (Some true) None (b_power k))
           else if bool_decide (path = bind_file false) then (Ok tt, mkBus (Some false) None (b_power k))
           else (Err "no such file", k)
       | _, _ => (Err "no such file", k)
       end.

#[global] Instance bus_sysfs : Sysfs Bus := {
  sys_read path k := if bool_decide (path = PathJoin [PathJoin [pciDevices; a0]; "power_state"]) then Ok (b_power k)
                     else if bool_decide (path = PathJoin [PathJoin [pciDevices; a0]; "class"]) then Ok "0x030000"
                     else Err "no such file";
  sys_link path k := if bool_decide (path = driver_path a0) then
                       match b_driver k with
                       | Some b => Ok ("../../../bus/pci/drivers/" +:+ name_of b)
                       | None => Err "no such file"
                       end
                     else if bool_decide (path = PathJoin [pciDevices; a0; "iommu_group"])
                     then Ok "../../../kernel/iommu_groups/14" else Err "no such file";
  sys_dir path k := if bool_decide (path = PathJoin [iommuGroupsPath; "14"; "devices"])
                       || bool_decide (path = pciDevices) then Ok [(a0, true)] else Err "no such file";
  sys_stat path k := bool_decide (path = PathJoin [pciDevices; a0]) || bool_decide (path = "/dev/vfio/14");
  sys_open path k := if bool_decide (path = "/dev/vfio/14") then Ok tt else Err "permission denied";
  sys_write := bus_write;
  sys_sleep k := k;
}.

Definition drivers (k : Bus) : gmap string string :=
  match b_driver k with Some b => {[ a0 := name_of b ]} | None => ∅ end.
Definition overrides (k : Bus) : gmap string string :=
  match b_override k with Some d => {[ a0 := d ]} | None => ∅ end.

Definition devices (_ : Bus) : gset string := {[ a0 ]}.
Definition loaded (_ : Bus) : gset string := {[ "amdgpu"; "vfio-pci" ]}.
Lemma in_devices k a : a ∈ devices k → a = a0.
Proof. unfold devices. set_solver. Qed.
Lemma in_loaded k d : d ∈ loaded k → d = "amdgpu" ∨ d = "vfio-pci".
Proof. unfold loaded. set_solver. Qed.

#[global] Program Instance bus_laws : PciLaws Bus := {
  bus_devices := devices;
  bus_drivers := drivers;
  bus_overrides := overrides;
  bus_loaded := loaded;
}.
Next Obligation. intros k a ->%in_devices. reflexivity. Qed.
Next Obligation.
  intros k a ->%in_devices. destruct k as [[b|] o p]; [|by eexists].
  assert (drivers (mkBus (Some b) o p) !! a0 = Some (name_of b)) as -> by apply lookup_singleton_eq.
  eexists. split; [reflexivity|by destruct b].
Qed.
Next Obligation.
  intros k a ->%in_devices [d Hd]. destruct k as [[b|] o p]; [|done].
  eexists. split; [reflexivity|]. split; [done|]. split; [|done]. symmetry. apply delete_singleton_eq.
Qed.
Next Obligation.
  intros k a d ->%in_devices Hd. eexists. split; [reflexivity|]. split; [done|]. split; [done|].
  unfold overrides. cbn [b_override]. rewrite bool_decide_false by done. destruct (b_override k); [|done].
  symmetry. apply insert_singleton_eq.
Qed.
Next Obligation.
  intros k a ->%in_devices. eexists. split; [reflexivity|]. split; [done|]. split; [done|].
  unfold overrides. cbn [b_override]. destruct (b_override k); [|done]. symmetry. apply delete_singleton_eq.
Qed.
Next Obligation.
  intros k a d ->%in_devices Ho Hl. eexists. split; [reflexivity|]. split; [done|]. split; [done|].
  destruct k as [[b|] o p].
  - assert (drivers (mkBus (Some b) o p) !! a0 = Some (name_of b)) as -> by apply lookup_singleton_eq.
    symmetry. apply insert_singleton_eq.
  - destruct o as [o|]; [|done]. assert (overrides (mkBus None (Some o) p) !! a0 = Some o) as E by apply lookup_singleton_eq.
    rewrite E in Ho. injection Ho as ->. apply in_loaded in Hl as [-> | ->]; reflexivity.
Qed.
Next Obligation.
  intros k a d ->%in_devices Ho Hd Hl. destruct k as [[b|] [o|] p]; try done.
  apply in_loaded in Hl as [-> | ->]; by eexists.
Qed.
Next Obligation. done. Qed.
End GpuExample.

Lemma ensure_ready_powered_witness :
  ∃ s e k', EnsureReady GpuExample.addr (GpuExample.mkBus (Some true) None "D0") = (Ok (s, e), k') ∧
    (e = None → s = ReadDeviceState GpuExample.addr k' ∧ ds_PowerState s ≠ PowerStateD3cold).
Proof. apply (ensure_ready_powered GpuExample.addr (GpuExample.mkBus (Some true) None "D0")). reflexivity. Defined.

Lemma rebind_reset_restores_witness :
  ∃ k', RebindReset GpuExample.addr "amdgpu" (GpuExample.mkBus (Some true) None "D0") = (Ok tt, k') ∧
    GpuExample.drivers k' = {[ GpuExample.a0 := "vfio-pci" ]}.
Proof.
  destruct (rebind_reset_restores GpuExample.addr "amdgpu" (GpuExample.mkBus (Some true) None "D0")) as (k' & Hr & Hd).
  - apply (bool_decide_unpack _). vm_compute. exact I.
  - apply (bool_decide_unpack _). vm_compute. exact I.
  - apply (bool_decide_unpack _). vm_compute. exact I.
  - discriminate.
  - exists k'. split; [exact Hr|]. etransitivity; [exact Hd|]. vm_compute. reflexivity.
Defined.

Lemma vfio_bind_roundtrip_witness :
  ∃ k1 k2, BindVFIO true None GpuExample.addr (GpuExample.mkBus (Some false) None "D0") = (Ok tt, k1) ∧
    UnbindVFIO true GpuExample.addr "amdgpu" k1 = (Ok tt, k2) ∧
    GpuExample.drivers k2 = {[ GpuExample.a0 := "amdgpu" ]}.
Proof.
  destruct (vfio_bind_roundtrip GpuExample.addr "amdgpu" (GpuExample.mkBus (Some false) None "D0"))
    as (k1 & k2 & Hb & _ & Hu & Hd & _).
  - apply (bool_decide_unpack _). vm_compute. exact I.
  - apply (bool_decide_unpack _). vm_compute. exact I.
  - apply (bool_decide_unpack _). vm_compute. exact I.
  - discriminate.
  - discriminate.
  - vm_compute. reflexivity.
  - exists k1, k2. split; [exact Hb|]. split; [exact Hu|]. etransitivity; [exact Hd|]. vm_compute. reflexivity.
Defined.

Lemma rebar_conf_roundtrip_witness :
  ∃ es', ParseRebarConf (RenderRebarConf [mkRebarEntry "0000:0a:00.0" 2 8; mkRebarEntry GpuExample.a0 0 14]) = Ok es' ∧
    es' ≡ₚ [mkRebarEntry "0000:0a:00.0" 2 8; mkRebarEntry GpuExample.a0 0 14] ∧ Sorted rebar_le es'.
Proof.
  apply (rebar_conf_roundtrip [mkRebarEntry "0000:0a:00.0" 2 8; mkRebarEntry GpuExample.a0 0 14]).
  repeat apply List.Forall_cons; try apply List.Forall_nil; split_and!; try done.
Defined.

(** *** Surprising behaviour *)

(** A memory size without a unit is taken for bytes, where QEMU takes mebibytes:
    a guest of 16 GiB passes the check under the usual limit of 8 MiB. *)
Example bare_memory_is_bytes :
  parseMemoryBytes "16384" = Ok 16384 ∧
  PreflightOK (PreflightCheck (Some (2 ^ 23, 2 ^ 23)) GpuExample.addr "16384" (GpuExample.mkBus (Some true) None "D0")) = true ∧
  PreflightOK (PreflightCheck (Some (2 ^ 23, 2 ^ 23)) GpuExample.addr "16384M" (GpuExample.mkBus (Some true) None "D0")) = false.
Proof. vm_compute. split_and!; reflexivity. Qed.

(** The list of GPU addresses includes one bound to vfio-pci. *)
Example vfio_gpu_listed :
  pd_Driver <$> ListGPUAddresses (GpuExample.mkBus (Some true) None "D0") = ["vfio-pci"].
Proof. vm_compute. reflexivity. Qed.

(** A rebind that fails for want of the native driver leaves the device without
    a driver and its override on the native one. *)
Example failed_rebind_strands :
  ∃ e, RebindReset GpuExample.addr "nouveau" (GpuExample.mkBus (Some true) None "D0") =
       (Err e, GpuExample.mkBus None (Some "nouveau") "D0").
Proof. eexists. vm_compute. reflexivity. Qed.
