(* ===== verification/NetIP.v ===== *)
(** * The parts of Go's [net] the network diagnosis uses

    [net.ParseIP] (dotted quads and IPv6 text, an embedded quad included), the
    address classes, [net.CIDRMask] and [IPNet.Contains].  An address is its
    bytes: sixteen after parsing, four after [To4]. *)
From S2P Require Import Prelude GoStrings Guest.

Open Scope Z_scope.

(** ** Parsing *)
Definition dot : ascii := ".".

(** One octet of a dotted quad: digits, no leading zero, at most 255. *)
Definition parse_octet (s : string) : option Z :=
  match s with
  | String "0" (String _ _) => None
  | _ => v ← parse_digits s; if v <=? 255 then Some v else None
  end.
Definition parseIPv4 (s : string) : option (list Z) :=
  let parts := Split dot s in
  if Nat.eqb (length parts) 4 then mapM parse_octet parts else None.

(** The leading hexadecimal digits of a group: value, digit count, the rest. *)
Fixpoint hex_group (acc : Z) (n : nat) (s : string) : Z * nat * string :=
  match s with
  | String c s' => match hex_val c with
                   | Some v => hex_group (acc * 16 + v) (n + 1)%nat s'
                   | None => (acc, n, s)
                   end
  | "" => (acc, n, s)
  end.

(** The loop over groups: [ip] are the bytes so far, [ell] where a double
    colon stood.  One unit of [fuel] per group; an address has at most 8. *)
Fixpoint ipv6_groups (fuel : nat) (s : string) (ip : list Z) (ell : option nat)
    : option (list Z * option nat) :=
  match fuel with
  | O => if bool_decide (s = "") then Some (ip, ell) else None
  | S fuel' =>
      let '(acc, off, rest) := hex_group 0 0 s in
      if Nat.eqb off 0 || Nat.ltb 4 off then None else
      if HasPrefix rest "." then
        if (negb (bool_decide (is_Some ell)) && negb (Nat.eqb (length ip) 12)) || Nat.ltb 12 (length ip)
        then None
        else q ← parseIPv4 s; Some (ip ++ q, ell)
      else
        let ip := ip ++ [acc / 256; acc mod 256] in
        match rest with
        | "" => Some (ip, ell)
        | String c rest' =>
            if negb (bool_decide (c = colon)) then None else
            match rest' with
            | "" => None
            | String d rest'' =>
                if bool_decide (d = colon) then
                  if bool_decide (is_Some ell) then None else
                  let ell := Some (length ip) in
                  if bool_decide (rest'' = "") then Some (ip, ell) else ipv6_groups fuel' rest'' ip ell
                else ipv6_groups fuel' rest' ip ell
            end
        end
  end.

(** The zeros a double colon stands for. *)
Definition expand_ellipsis (r : list Z * option nat) : option (list Z) :=
  let '(ip, ell) := r in
  let n := length ip in
  if Nat.ltb n 16 then
    e ← ell; Some (take e ip ++ replicate (16 - n) 0 ++ drop e ip)
  else match ell with None => Some ip | Some _ => None end.

Definition parseIPv6 (s : string) : option (list Z) :=
  if HasPrefix s "::" then
    let s := sdrop 2 s in
    if bool_decide (s = "") then Some (replicate 16 0)
    else r ← ipv6_groups 8 s [] (Some 0%nat); expand_ellipsis r
  else r ← ipv6_groups 8 s [] None; expand_ellipsis r.

Definition v4InV6Prefix : list Z := [0; 0; 0; 0; 0; 0; 0; 0; 0; 0; 255; 255].

(** [netip.ParseAddr] looks for the first of a dot, a colon and a percent
    sign; [net.ParseIP] refuses a zone. *)
Fixpoint first_mark (s : string) : option ascii :=
  match s with
  | "" => None
  | String c s' =>
      if bool_decide (c = dot) || bool_decide (c = colon) || bool_decide (c = "%"%char) then Some c
      else first_mark s'
  end.
Definition ParseIP (s : string) : option (list Z) :=
  match first_mark s with
  | Some c =>
      if bool_decide (c = dot) then q ← parseIPv4 s; Some (v4InV6Prefix ++ q)
      else if bool_decide (c = colon) then
        if Contains s "%" then None else parseIPv6 s
      else None
  | None => None
  end.

(** ** Classes of addresses *)
Definition byte_at (i : nat) (ip : list Z) : Z := default 0 (ip !! i).

Definition To4 (ip : list Z) : option (list Z) :=
  if Nat.eqb (length ip) 4 then Some ip
  else if Nat.eqb (length ip) 16 && bool_decide (take 12 ip = v4InV6Prefix) then Some (drop 12 ip)
  else None.

Definition IsLoopback (ip : list Z) : bool :=
  match To4 ip with
  | Some q => byte_at 0 q =? 127
  | None => bool_decide (ip = replicate 15 0 ++ [1])
  end.
Definition IsUnspecified (ip : list Z) : bool :=
  bool_decide (To4 ip = Some [0; 0; 0; 0]) || bool_decide (ip = replicate 16 0).
Definition IsPrivate (ip : list Z) : bool :=
  match To4 ip with
  | Some q => (byte_at 0 q =? 10)
              || ((byte_at 0 q =? 172) && (Z.land (byte_at 1 q) 240 =? 16))
              || ((byte_at 0 q =? 192) && (byte_at 1 q =? 168))
  | None => Nat.eqb (length ip) 16 && (Z.land (byte_at 0 ip) 254 =? 252)
  end.
Definition IsLinkLocalUnicast (ip : list Z) : bool :=
  match To4 ip with
  | Some q => (byte_at 0 q =? 169) && (byte_at 1 q =? 254)
  | None => Nat.eqb (length ip) 16 && (byte_at 0 ip =? 254) && (Z.land (byte_at 1 ip) 192 =? 128)
  end.

(** ** Networks *)

(** [net.CIDRMask(ones, 32)]; [nil] for a prefix that is out of range. *)
Definition host_bits (ones i : Z) : Z := 8 - Z.max 0 (Z.min 8 (ones - 8 * i)).
Definition mask_byte (ones i : Z) : Z := 256 - 2 ^ host_bits ones i.
Definition CIDRMask32 (ones : Z) : list Z :=
  if (ones <? 0) || (32 <? ones) then [] else (mask_byte ones) <$> [0; 1; 2; 3].

Record IPNet := mkIPNet { net_IP : list Z; net_Mask : list Z }.

(** [ip.Mask(mask)] of a four-byte mask: [nil] when the lengths differ. *)
Definition Mask (ip mask : list Z) : list Z :=
  let ip := if Nat.eqb (length mask) 4 && Nat.eqb (length ip) 16 && bool_decide (take 12 ip = v4InV6Prefix)
            then drop 12 ip else ip in
  if Nat.eqb (length ip) (length mask) then zip_with Z.land ip mask else [].

(** [IPNet.Contains]; a network whose address and mask do not fit contains
    nothing. *)
Definition networkNumberAndMask (n : IPNet) : list Z * list Z :=
  match (match To4 (net_IP n) with
         | Some q => Some q
         | None => if Nat.eqb (length (net_IP n)) 16 then Some (net_IP n) else None
         end) with
  | None => ([], [])
  | Some ip =>
      let m := net_Mask n in
      if Nat.eqb (length m) 4 then if Nat.eqb (length ip) 4 then (ip, m) else ([], [])
      else if Nat.eqb (length m) 16 then (ip, if Nat.eqb (length ip) 4 then drop 12 m else m)
      else ([], [])
  end.
Definition net_Contains (n : IPNet) (ip : list Z) : bool :=
  let '(nn, m) := networkNumberAndMask n in
  let ip := default ip (To4 ip) in
  Nat.eqb (length ip) (length nn) && bool_decide (zip_with Z.land nn m = zip_with Z.land ip m).

(** ** Facts *)
Lemma parse_digits_nonneg s v : parse_digits s = Some v → 0 <= v.
Proof.
  unfold parse_digits. destruct s as [|c s]; [done|].
  generalize (String c s). clear. intros s.
  assert (∀ acc, 0 <= acc → digits_val acc s = Some v → 0 <= v) as H; [|by apply H].
  induction s as [|c s IH]; simpl; intros acc Ha; [naive_solver|].
  destruct (is_digit c) eqn:Hd; [|done]. apply IH. unfold digit_val.
  unfold is_digit, in_range in Hd. apply andb_prop in Hd as [Hd _].
  apply N.leb_le in Hd. change (code "0") with 48%N in Hd. lia.
Qed.

Lemma parse_octet_range s v : parse_octet s = Some v → 0 <= v <= 255.
Proof.
  intros H. assert ((x ← parse_digits s; if x <=? 255 then Some x else None) = Some v) as Hv.
  { unfold parse_octet in H. repeat case_match; done. }
  destruct (parse_digits s) as [x|] eqn:Hx; [|done]. simpl in Hv.
  destruct (Z.leb_spec x 255); simplify_eq. split; [by eapply parse_digits_nonneg|done].
Qed.

(** A parsed dotted quad is four bytes. *)
Lemma parseIPv4_bytes s q : parseIPv4 s = Some q → length q = 4%nat ∧ Forall (λ b, 0 <= b <= 255) q.
Proof.
  unfold parseIPv4. destruct (Nat.eqb _ _) eqn:Hn; [|done]. apply Nat.eqb_eq in Hn. intros H.
  apply mapM_Some in H. split; [by rewrite <- (Forall2_length _ _ _ H)|].
  clear Hn. induction H as [|x y l l' Hx _ IH]; constructor; [by eapply parse_octet_range|done].
Qed.

Lemma To4_v4 q : length q = 4%nat → To4 (v4InV6Prefix ++ q) = Some q.
Proof.
  intros Hq. unfold To4. rewrite length_app, Hq. by rewrite take_app_length', drop_app_length'.
Qed.

(** ** Bytes *)
Definition bytes (l : list Z) : Prop := Forall (λ b, 0 <= b <= 255) l.

Lemma hex_digit_range c v : hex_val c = Some v → 0 <= v < 16.
Proof.
  unfold hex_val, is_digit, in_range, digit_val.
  change (code "0") with 48%N. change (code "9") with 57%N. change (code "a") with 97%N.
  change (code "f") with 102%N. change (code "A") with 65%N. change (code "F") with 70%N.
  repeat case_match; intros; simplify_eq; rewrite ?andb_true_iff, ?N.leb_le in *; lia.
Qed.

Lemma hex_group_bound s acc n v k rest : hex_group acc n s = (v, k, rest) → 0 <= acc < 16 ^ Z.of_nat n →
  0 <= v < 16 ^ Z.of_nat k.
Proof.
  revert acc n. induction s as [|c s IH]; cbn; intros acc n H Ha; [by simplify_eq|].
  destruct (hex_val c) as [d|] eqn:Hd; [|by simplify_eq]. apply hex_digit_range in Hd.
  eapply IH; [done|]. replace (Z.of_nat (n + 1)) with (Z.of_nat n + 1) by lia. rewrite Z.pow_add_r by lia. lia.
Qed.

Lemma ipv6_groups_bytes fuel s ip ell ip' ell' : ipv6_groups fuel s ip ell = Some (ip', ell') →
  (length ip + 2 * fuel <= 16)%nat → bytes ip → (∀ e, ell = Some e → (e <= length ip)%nat) →
  (length ip' <= 16)%nat ∧ bytes ip' ∧ (∀ e, ell' = Some e → (e <= length ip')%nat).
Proof.
  revert s ip ell. induction fuel as [|fuel IH]; intros s ip ell H Hl Hb He; cbn [ipv6_groups] in H.
  { case_bool_decide; simplify_eq. split_and!; [lia|done|done]. }
  destruct (hex_group 0 0 s) as [[acc off] rest] eqn:Hg.
  destruct (Nat.eqb off 0 || Nat.ltb 4 off) eqn:Hoff; [done|]. apply orb_false_iff in Hoff as [_ Hoff].
  apply Nat.ltb_ge in Hoff. apply hex_group_bound in Hg; [|by vm_compute].
  assert (16 ^ Z.of_nat off <= 16 ^ 4) by (apply Z.pow_le_mono_r; lia). change (16 ^ 4) with 65536 in *.
  destruct (HasPrefix rest ".").
  { destruct (_ || Nat.ltb 12 (length ip)) eqn:Hc; [done|]. apply orb_false_iff in Hc as [_ Hc]. apply Nat.ltb_ge in Hc.
    destruct (parseIPv4 s) as [q|] eqn:Hq; [|done]. simplify_eq/=. apply parseIPv4_bytes in Hq as [Hq1 Hq2].
    rewrite length_app, Hq1. split_and!; [lia| |intros e Ee; specialize (He e Ee); lia].
    apply (proj2 (Forall_app _ _ _)). by split. }
  set (ip2 := ip ++ [acc / 256; acc mod 256]) in *.
  assert (Hl2 : length ip2 = (length ip + 2)%nat) by (unfold ip2; by rewrite length_app).
  assert (Hb2 : bytes ip2).
  { apply (proj2 (Forall_app _ _ _)). split; [done|]. rewrite !Forall_cons, Forall_nil.
    split_and!; [apply Z.div_pos; lia| |apply Z.mod_pos_bound; lia| |done].
    - apply Z.lt_succ_r, Z.div_lt_upper_bound; lia.
    - pose proof (Z.mod_pos_bound acc 256). lia. }
  assert (He2 : ∀ e, ell = Some e → (e <= length ip2)%nat) by (intros e Ee; specialize (He e Ee); lia).
  destruct rest as [|c rest]; [simplify_eq; split_and!; [lia|done|done]|].
  destruct (negb _); [done|]. destruct rest as [|d rest]; [done|].
  destruct (bool_decide (d = colon)); [|by eapply IH; [done|lia|..]].
  destruct (bool_decide (is_Some ell)); [done|]. destruct (bool_decide (rest = "")).
  - simplify_eq. split_and!; [lia|done|]. intros e Ee. simplify_eq. lia.
  - eapply IH; [done|lia|done|]. intros e Ee. simplify_eq. lia.
Qed.

Lemma expand_bytes ip ell ip' : expand_ellipsis (ip, ell) = Some ip' → (length ip <= 16)%nat → bytes ip →
  (∀ e, ell = Some e → (e <= length ip)%nat) → length ip' = 16%nat ∧ bytes ip'.
Proof.
  unfold expand_ellipsis. intros H Hl Hb He. destruct (Nat.ltb_spec (length ip) 16).
  - destruct ell as [e|]; [|done]. simplify_eq/=. specialize (He e eq_refl). split.
    + rewrite !length_app, length_take, length_replicate, length_drop. lia.
    + unfold bytes. rewrite <- (take_drop e ip) in Hb. apply Forall_app in Hb as [? ?].
      apply (proj2 (Forall_app _ _ _)). split; [done|]. apply (proj2 (Forall_app _ _ _)). split; [|done].
      apply Forall_replicate. lia.
  - destruct ell; simplify_eq. split; [lia|done].
Qed.

(** A parsed address is sixteen bytes. *)
Lemma ParseIP_bytes s ip : ParseIP s = Some ip → length ip = 16%nat ∧ bytes ip.
Proof.
  unfold ParseIP. destruct (first_mark s) as [c|]; [|done]. case_bool_decide.
  { destruct (parseIPv4 s) as [q|] eqn:Hq; [|done]. intros; simplify_eq/=. apply parseIPv4_bytes in Hq as [Hq1 Hq2].
    split; [by cbn; rewrite Hq1|]. apply (proj2 (Forall_app _ v4InV6Prefix q)). split; [|done].
    unfold v4InV6Prefix. repeat constructor; lia. }
  case_bool_decide; [|done]. destruct (Contains s "%"); [done|]. unfold parseIPv6.
  assert (∀ s ell, (∀ e, ell = Some e → (e <= 0)%nat) →
    (r ← ipv6_groups 8 s [] ell; expand_ellipsis r) = Some ip → length ip = 16%nat ∧ bytes ip) as Hg.
  { intros s' ell He Hr. destruct (ipv6_groups 8 s' [] ell) as [[ip1 ell1]|] eqn:E; [|done]. simpl in Hr.
    apply ipv6_groups_bytes in E as (? & ? & ?); [|cbn; lia|constructor|done]. by eapply expand_bytes. }
  destruct (HasPrefix s "::"); [|by apply Hg]. case_bool_decide.
  - intros; simplify_eq. split; [done|]. unfold bytes. apply Forall_replicate. lia.
  - apply Hg. intros e [= <-]. done.
Qed.

Lemma To4_bytes ip q : To4 ip = Some q → bytes ip → length q = 4%nat ∧ bytes q.
Proof.
  unfold To4. intros H Hb. destruct (Nat.eqb_spec (length ip) 4); [by simplify_eq|].
  destruct (Nat.eqb_spec (length ip) 16); [|done]. simpl in H. case_bool_decide; [|done]. simplify_eq.
  split; [rewrite length_drop; lia|by apply Forall_drop].
Qed.

(** ** Subnets *)
Definition v4_num (q : list Z) : Z := foldl (λ n b, n * 256 + b) 0 q.
(** Both addresses have the same first [p] bits. *)
Definition same_net (p : Z) (a b : list Z) : Prop := v4_num a / 2 ^ (32 - p) = v4_num b / 2 ^ (32 - p).

Lemma land_mask b j : 0 <= b <= 255 → 0 <= j <= 8 → Z.land b (256 - 2 ^ j) = b - b mod 2 ^ j.
Proof.
  intros Hb Hj.
  assert (forallb (λ b, forallb (λ j, Z.land b (256 - 2 ^ j) =? b - b mod 2 ^ j) (seqZ 0 9)) (seqZ 0 256) = true) as H
    by by vm_compute.
  rewrite forallb_forall in H. specialize (H b ltac:(apply list_elem_of_In, elem_of_seqZ; lia)).
  rewrite forallb_forall in H. specialize (H j ltac:(apply list_elem_of_In, elem_of_seqZ; lia)). by apply Z.eqb_eq.
Qed.

Lemma low_bits b c j : 0 <= j → b - b mod 2 ^ j = c - c mod 2 ^ j ↔ b / 2 ^ j = c / 2 ^ j.
Proof.
  intros Hj. assert (0 < 2 ^ j) by (by apply Z.pow_pos_nonneg).
  pose proof (Z.div_mod b (2 ^ j)). pose proof (Z.div_mod c (2 ^ j)). split; intros; [nia|].
  replace (b - b mod 2 ^ j) with (2 ^ j * (b / 2 ^ j)) by lia. replace (c - c mod 2 ^ j) with (2 ^ j * (c / 2 ^ j)) by lia.
  congruence.
Qed.

Lemma byte_high b : 0 <= b <= 255 → b / 2 ^ 8 = 0.
Proof. intros. apply Z.div_small. lia. Qed.

(** Digit by digit: dropping all of a byte, or some bits of it. *)
Lemma drop_byte m b i : 0 <= b <= 255 → 0 <= i → (m * 256 + b) / 2 ^ (8 + i) = m / 2 ^ i.
Proof.
  intros Hb Hi. rewrite Z.pow_add_r, <- Z.div_div by (try apply Z.pow_pos_nonneg; lia).
  change 256 with (2 ^ 8). rewrite Z.div_add_l, byte_high by lia. f_equal. lia.
Qed.
Lemma drop_bits m n b c j : 0 <= b <= 255 → 0 <= c <= 255 → 0 <= j <= 8 →
  (m * 256 + b) / 2 ^ j = (n * 256 + c) / 2 ^ j ↔ m = n ∧ b / 2 ^ j = c / 2 ^ j.
Proof.
  intros Hb Hc Hj. assert (Hk : 0 < 2 ^ j) by (apply Z.pow_pos_nonneg; lia).
  assert (E : 256 = 2 ^ (8 - j) * 2 ^ j) by (rewrite <- Z.pow_add_r by lia; by replace (8 - j + j) with 8 by lia).
  assert (∀ x, 0 <= x <= 255 → 0 <= x / 2 ^ j < 2 ^ (8 - j)) as Hs.
  { intros x Hx. split; [apply Z.div_pos; lia|]. apply Z.div_lt_upper_bound; [lia|]. rewrite Z.mul_comm. lia. }
  rewrite E, !Z.mul_assoc, !Z.div_add_l by lia. specialize (Hs b Hb) as Hsb. specialize (Hs c Hc) as Hsc.
  split; [|by intros [-> ->]]. intros Heq. apply (Z.div_mod_unique (2 ^ (8 - j))); lia.
Qed.

Lemma list4_eq {A} (a b c d a' b' c' d' : A) :
  [a; b; c; d] = [a'; b'; c'; d'] ↔ a = a' ∧ b = b' ∧ c = c' ∧ d = d'.
Proof. split; [intros [=]; auto|naive_solver]. Qed.

Lemma host_full p i : 8 * i + 8 <= p → 2 ^ host_bits p i = 1.
Proof. intros. unfold host_bits. by replace (8 - _) with 0 by lia. Qed.
Lemma host_none p i : p <= 8 * i → host_bits p i = 8.
Proof. unfold host_bits. lia. Qed.
Lemma host_part p i : 8 * i <= p <= 8 * i + 8 → host_bits p i = 8 * i + 8 - p.
Proof. unfold host_bits. lia. Qed.
(** Numbers agree when they agree above a byte and in it. *)
Lemma digit_eq m n b c : 0 <= b <= 255 → 0 <= c <= 255 → m * 256 + b = n * 256 + c ↔ m = n ∧ b = c.
Proof. lia. Qed.

Lemma masked_eq p a b : length a = 4%nat → length b = 4%nat → bytes a → bytes b → 0 <= p <= 32 →
  zip_with Z.land a (CIDRMask32 p) = zip_with Z.land b (CIDRMask32 p) ↔ same_net p a b.
Proof.
  intros La Lb Ha Hb Hp.
  destruct a as [|a0 [|a1 [|a2 [|a3 [|]]]]]; try done. destruct b as [|b0 [|b1 [|b2 [|b3 [|]]]]]; try done.
  unfold bytes in Ha, Hb. rewrite !Forall_cons in Ha, Hb.
  destruct Ha as (? & ? & ? & ? & _), Hb as (? & ? & ? & ? & _). clear La Lb.
  unfold CIDRMask32. rewrite (proj2 (Z.ltb_ge p 0)), (proj2 (Z.ltb_ge 32 p)) by lia. cbn [orb fmap list_fmap zip_with].
  assert (∀ i, 0 <= host_bits p i <= 8) by (intros; unfold host_bits; lia).
  unfold mask_byte. rewrite !land_mask by done. unfold same_net, v4_num. cbn [foldl].
  rewrite list4_eq, !low_bits by naive_solver. change (0 * 256 + a0) with a0. change (0 * 256 + b0) with b0.
  destruct (decide (p <= 8)); [|destruct (decide (p <= 16)); [|destruct (decide (p <= 24))]].
  - rewrite (host_part p 0), (host_none p 1), (host_none p 2), (host_none p 3), !byte_high by lia.
    replace (32 - p) with (8 + (8 + (8 + (8 * 0 + 8 - p)))) by lia. rewrite !drop_byte by lia. naive_solver.
  - rewrite (host_full p 0), (host_part p 1), (host_none p 2), (host_none p 3), !byte_high, !Z.div_1_r by lia.
    replace (32 - p) with (8 + (8 + (8 * 1 + 8 - p))) by lia. rewrite !drop_byte, drop_bits by lia. naive_solver.
  - rewrite (host_full p 0), (host_full p 1), (host_part p 2), (host_none p 3), !byte_high, !Z.div_1_r by lia.
    replace (32 - p) with (8 + (8 * 2 + 8 - p)) by lia. rewrite !drop_byte, drop_bits by lia.
    rewrite !digit_eq by done. naive_solver.
  - rewrite (host_full p 0), (host_full p 1), (host_full p 2), (host_part p 3), !Z.div_1_r by lia.
    replace (32 - p) with (8 * 3 + 8 - p) by lia. rewrite !drop_bits by lia.
    rewrite !digit_eq by done. naive_solver.
Qed.

Lemma length_CIDRMask32 p : length (CIDRMask32 p) = if decide (0 <= p <= 32) then 4%nat else 0%nat.
Proof.
  unfold CIDRMask32. destruct (Z.ltb_spec p 0), (Z.ltb_spec 32 p); cbn; case_decide; try lia; done.
Qed.

Lemma To4_16 ip q : length ip = 16%nat → To4 ip = Some q → take 12 ip = v4InV6Prefix ∧ q = drop 12 ip.
Proof. unfold To4. intros ->. cbn -[take drop]. case_bool_decide; naive_solver. Qed.

Lemma land_twice a m : length a = length m → zip_with Z.land (zip_with Z.land a m) m = zip_with Z.land a m.
Proof.
  revert m. induction a as [|x a IH]; intros [|y m]; try done. cbn. intros [= Hl]. rewrite IH by done.
  by rewrite <- Z.land_assoc, Z.land_diag.
Qed.

(** An interface's network contains exactly the IPv4 addresses that share its
    prefix; a prefix out of range gives a network that contains nothing. *)
Lemma subnet_contains ia qa p ip : length ia = 16%nat → bytes ia → To4 ia = Some qa →
  length ip = 16%nat → bytes ip →
  net_Contains (mkIPNet (Mask ia (CIDRMask32 p)) (CIDRMask32 p)) ip = true ↔
  0 <= p <= 32 ∧ ∃ qi, To4 ip = Some qi ∧ same_net p qa qi.
Proof.
  intros La Ba Ha Lp Bp. pose proof (length_CIDRMask32 p) as Lm.
  destruct (To4_bytes _ _ Ha Ba) as [Lq Bq]. destruct (To4_16 _ _ La Ha) as [Ht Hd].
  destruct (decide (0 <= p <= 32)) as [Hp|Hp].
  - unfold net_Contains, networkNumberAndMask, Mask. cbn [net_IP net_Mask]. rewrite Lm, La.
    rewrite bool_decide_true by done. cbn [Nat.eqb andb]. rewrite <- Hd, Lq. cbn [Nat.eqb].
    assert (Lz : length (zip_with Z.land qa (CIDRMask32 p)) = 4%nat) by (rewrite length_zip_with; lia).
    unfold To4 at 1. rewrite Lz. cbn [Nat.eqb]. cbv beta iota zeta. rewrite Lz. cbn [Nat.eqb]. cbv beta iota zeta.
    rewrite land_twice, Lz by lia. destruct (To4 ip) as [qi|] eqn:Hi; cbn [from_option id].
    + destruct (To4_bytes _ _ Hi Bp) as [Li Bi]. rewrite Li. cbn [Nat.eqb andb].
      rewrite bool_decide_eq_true, masked_eq by done. naive_solver.
    + rewrite Lp. cbn. naive_solver.
  - split; [|naive_solver lia]. apply length_zero_iff_nil in Lm. rewrite Lm.
    assert (Mask ia [] = []) as -> by (unfold Mask; cbn; by rewrite La). unfold net_Contains.
    change (networkNumberAndMask _) with ([] : list Z, [] : list Z). cbv beta iota zeta.
    assert (Nat.eqb (length (default ip (To4 ip))) (length (A := Z) []) = false) as ->; [|done].
    destruct (To4 ip) as [qi|] eqn:Hi; cbn [from_option id]; [|by rewrite Lp].
    destruct (To4_bytes _ _ Hi Bp) as [Li _]. by rewrite Li.
Qed.
