(* ===== verification/GuestNet.v ===== *)
(** * Looking into a running guest

    [execGuestShell], [runCheckScript] and [RunHealthCheck] of
    [internal/vm/manager.go], the network diagnosis of
    [internal/vm/guestnet.go] (parsers, probes, judgments) and the listening
    ports of [internal/vm/guestports.go].

    What the guest agent, [ssh], the guest's commands and the trace service
    answer is the [NetEnv]; each call is identified by what it asks for.  An
    error of theirs is its text.  [%q] is modelled for ASCII text. *)
From S2P Require Import Prelude GoStrings Config Store World Paths Lifecycle Guest Tables NetIP.

Open Scope Z_scope.

(** ** Running a command in the guest *)

(** What a connection to the guest agent is opened for. *)
Inductive qga_call :=
| CallPing
| CallInterfaces
| CallExec (path : string) (args : list string).
#[export] Instance qga_call_eq_dec : EqDecision qga_call.
Proof. solve_decision. Defined.

(** [exec.Command("ssh", args...).Output()]: the output, a non-zero exit with
    the output so far, or a failure to run at all. *)
Inductive ssh_outcome :=
| SSHDone (out : string)
| SSHExit (out stderr : string) (code : Z)
| SSHFail (msg : string).

Record NetEnv := mkNetEnv {
  ne_host : Host;
  ne_tables : NetTables;
  ne_home : string;
  (** a TCP dial to an address *)
  ne_dial : string → result string unit;
  (** [NewQGAClient] on the VM's socket *)
  ne_connect : qga_call → result string unit;
  ne_ping : result string unit;
  (** [GuestNetworkGetInterfaces]; [None] is the nil slice *)
  ne_ifaces : result string (option (list GuestNetworkInterface));
  (** [RunCommand]: stdout, stderr and exit code *)
  ne_run : string → list string → result string (string * string * Z);
  ne_ssh : list string → ssh_outcome;
  (** the body of the trace response, as the host gets it *)
  ne_trace : result string string;
  (** [json.Unmarshal] of a vee-check document into its checks *)
  ne_checks_json : string → result string (list HealthCheck);
}.

Section Exec.
Variable env : NetEnv.

Definition ssh_exec_args (cfg : VMConfig) (s : VMState) (script : string) : list string :=
  let identity := ne_home env +:+ "/.vee/ssh/id_ed25519" in
  let user := SSHUsername cfg in
  let user := if bool_decide (user = "") then "root" else user in
  ["-i"; identity; "-o"; "StrictHostKeyChecking=no"; "-o"; "UserKnownHostsFile=/dev/null";
   "-o"; "ConnectTimeout=5"; "-o"; "LogLevel=ERROR"; "-p"; Itoa (s_SSHPort s);
   user +:+ "@127.0.0.1"; script].

Definition execGuestShell (cfg : VMConfig) (s : VMState) (script : string)
    : result error (string * string * Z) :=
  if negb (bool_decide (s_QGASocket s = "")) then
    match ne_connect env (CallExec "/bin/sh" ["-c"; script]) with
    | Err e => Err (Errorf "connect QGA socket" [s_QGASocket s; e])
    | Ok _ =>
        match ne_run env "/bin/sh" ["-c"; script] with
        | Err e => Err (Errorf "QGA exec" [script; e])
        | Ok r => Ok r
        end
    end
  else if 0 <? s_SSHPort s then
    match ne_ssh env (ssh_exec_args cfg s script) with
    | SSHDone out => Ok (out, "", 0)
    | SSHExit out stderr code =>
        if negb (code =? 255) then Ok (out, stderr, code) else Err (Errorf "ssh exec" [])
    | SSHFail e => Err (Errorf "ssh exec" [e])
    end
  else Err (Errorf "no QGA socket or SSH port available for guest exec" []).

Definition veeCheck : string := "/usr/local/bin/vee-check".
Definition runCheckScript (cfg : VMConfig) (s : VMState) : result error string :=
  match execGuestShell cfg s veeCheck with
  | Err e => Err e
  | Ok (out, stderr, exitCode) =>
      if negb (exitCode =? 0) then
        let detail := TrimSpace stderr in
        let detail := if bool_decide (detail = "") then TrimSpace out else detail in
        Err (Errorf "/usr/local/bin/vee-check exited" [Itoa exitCode; detail])
      else Ok (TrimSpace out)
  end.

(** [QueryGuestPorts]: one connection, two candidate paths of [ss]. *)
Record GuestPort := mkGuestPort { gp_Port : string; gp_Process : string; gp_Addr : string }.
#[export] Instance GuestPort_eq_dec : EqDecision GuestPort.
Proof. solve_decision. Defined.

Definition extractPort (addr : string) : string :=
  match last_from addr ":" with Some t => sdrop 1 t | None => "" end.

Definition extractProcessName (field : string) : string :=
  if negb (HasPrefix field "users:") then "" else
  let '(_, rest, ok) := Cut dquote field in
  if negb ok then "" else
  let '(name, _, ok) := Cut dquote rest in
  if negb ok then "" else name.

Definition ss_line (line : string) : option GuestPort :=
  let line := TrimSpace line in
  if bool_decide (line = "") || HasPrefix line "State" || HasPrefix line "Netid" then None else
  let fields := Fields line in
  if Nat.ltb (length fields) 4 then None else
  let localAddr := default "" (fields !! 3%nat) in
  let port := extractPort localAddr in
  if bool_decide (port = "") then None else
  let process := if Nat.leb 6 (length fields) then extractProcessName (default "" (last fields)) else "" in
  Some (mkGuestPort port process localAddr).
Definition ParseSSOutput (output : string) : list GuestPort :=
  omap ss_line (Split newline (TrimSpace output)).

Definition QueryGuestPorts : result error (list GuestPort) :=
  match ne_connect env (CallExec "/bin/ss" ["-tlnp"]) with
  | Err e => Err (Errorf "connect QGA socket" [e])
  | Ok _ =>
      match ne_run env "/bin/ss" ["-tlnp"] with
      | Ok (stdout, _, _) => Ok (ParseSSOutput stdout)
      | Err _ =>
          match ne_run env "/usr/sbin/ss" ["-tlnp"] with
          | Ok (stdout, _, _) => Ok (ParseSSOutput stdout)
          | Err e => Err (Errorf "run ss in guest" [e])
          end
      end
  end.
End Exec.

Section HealthCheck.
Context {S : Type} `{VMStore S}.
Abbreviation M := (GoM (World S) error).

Definition health_record (checks : list HealthCheck) (now : Z) (s : VMState) : VMState :=
  s <| s_PostInstallChecks := checks |> <| s_PostInstallCheckedAt := Some now |>.

Definition RunHealthCheck (env : NetEnv) (name : string) : M (list HealthCheck) :=
  cfg ← st (loadConfig name);
  s ← st (loadState name);
  if negb (s_Running s) then throw (Errorf "VM is not running" [name]) else
  match runCheckScript env cfg s with
  | Err e => throw (Wrapf "run vee-check" e)
  | Ok out =>
      match ne_checks_json env out with
      | Err e => throw (Errorf "parse vee-check output" [e; out])
      | Ok checks =>
          now ← gets w_now;
          r ← attempt (st (saveState name (health_record checks now s)));
          match r with
          | Err e => throw (Wrapf "persist health checks" e)
          | Ok _ => mret checks
          end
      end
  end.
End HealthCheck.

(** ** The report *)
Definition NetCheckPass : string := "pass".
Definition NetCheckFail : string := "fail".
Definition NetCheckInfo : string := "info".
Definition NetCheckUnavailable : string := "unavailable".

Record NetCheck := mkNetCheck { nc_Name : string; nc_Status : string; nc_Detail : string }.
#[export] Instance NetCheck_eq_dec : EqDecision NetCheck.
Proof. solve_decision. Defined.

Record HostNetwork := mkHostNetwork {
  hn_NICMode : string; hn_MAC : string; hn_ResolvedIP : string; hn_SSHPort : Z;
  hn_QGA : bool; hn_PublicIP : string; hn_Checks : list NetCheck }.

Record UFWState := mkUFWState {
  ufw_Available : bool; ufw_Active : bool; ufw_DefaultOutgoing : string; ufw_RuleCount : Z }.
#[export] Instance UFWState_eta : Settable UFWState := λ u,
  mkUFWState (ufw_Available u) (ufw_Active u) (ufw_DefaultOutgoing u) (ufw_RuleCount u).

Record IPTablesState := mkIPTablesState {
  ipt_Available : bool; ipt_OutputPolicy : string; ipt_RuleCount : Z }.
#[export] Instance IPTablesState_eta : Settable IPTablesState := λ u,
  mkIPTablesState (ipt_Available u) (ipt_OutputPolicy u) (ipt_RuleCount u).

Record VPNState := mkVPNState {
  vpn_Provider : string; vpn_Available : bool; vpn_Connected : bool;
  vpn_Killswitch : string; vpn_Endpoint : string; vpn_Detail : string }.
#[export] Instance VPNState_eta : Settable VPNState := λ v,
  mkVPNState (vpn_Provider v) (vpn_Available v) (vpn_Connected v)
    (vpn_Killswitch v) (vpn_Endpoint v) (vpn_Detail v).

Record GuestNetwork := mkGuestNetwork {
  gn_Interfaces : option (list GuestNetworkInterface);
  gn_DefaultRoute : string;
  gn_PolicyRoute : string;
  gn_DNSServers : list string;
  gn_UFW : UFWState;
  gn_IPTables : IPTablesState;
  gn_VPN : VPNState;
  gn_EgressIP : string;
  gn_DNSEgressIP : string;
  gn_Checks : list NetCheck;
}.
#[export] Instance GuestNetwork_eta : Settable GuestNetwork := λ g,
  mkGuestNetwork (gn_Interfaces g) (gn_DefaultRoute g) (gn_PolicyRoute g) (gn_DNSServers g)
    (gn_UFW g) (gn_IPTables g) (gn_VPN g) (gn_EgressIP g) (gn_DNSEgressIP g) (gn_Checks g).

Definition zeroUFW : UFWState := mkUFWState false false "" 0.
Definition zeroIPTables : IPTablesState := mkIPTablesState false "" 0.
Definition zeroVPN : VPNState := mkVPNState "" false false "" "" "".
Definition zeroGuestNetwork : GuestNetwork :=
  mkGuestNetwork None "" "" [] zeroUFW zeroIPTables zeroVPN "" "" [].

Record NetworkReport := mkNetworkReport { nr_Host : HostNetwork; nr_Guest : GuestNetwork }.
Record NetworkOptions := mkNetworkOptions { SkipEgress : bool }.

Definition guestUnavailable : string := "VEE_UNAVAILABLE".
Definition cloudflareTraceURL : string := "https://www.cloudflare.com/cdn-cgi/trace".

(** ** Parsers *)

(** [strings.CutPrefix], [strings.CutSuffix] *)
Definition CutPrefix (s p : string) : option string :=
  if HasPrefix s p then Some (sdrop (String.length p) s) else None.
Definition CutSuffix (s suf : string) : option string :=
  if HasSuffix s suf then Some (TrimSuffix s suf) else None.

(** The word after the last keyword [k1] and after the last [k2] of a line. *)
Fixpoint keyword_pair (k1 k2 : string) (fields : list string) (r : string * string) : string * string :=
  match fields with
  | f :: ((g :: _) as rest) =>
      keyword_pair k1 k2 rest
        (if bool_decide (f = k1) then (g, r.2) else if bool_decide (f = k2) then (r.1, g) else r)
  | _ => r
  end.

Fixpoint route_lines (ls : list string) (r : string * string) : string * string :=
  match ls with
  | [] => r
  | line :: ls =>
      let fields := Fields line in
      if bool_decide (head fields = Some "default") then
        let r := keyword_pair "via" "dev" fields r in
        if negb (bool_decide (r.2 = "")) then r else route_lines ls r
      else route_lines ls r
  end.
Definition ParseDefaultRoute (output : string) : string * string := route_lines (lines output) ("", "").

Definition builtin_table (table : string) : bool :=
  bool_decide (table = "main") || bool_decide (table = "local") || bool_decide (table = "default").
Fixpoint rule_lines (ls : list string) : string * string :=
  match ls with
  | [] => ("", "")
  | line :: ls =>
      let '(fwmark, table) := keyword_pair "fwmark" "lookup" (Fields line) ("", "") in
      if negb (bool_decide (fwmark = "")) && negb (bool_decide (table = "")) && negb (builtin_table table)
      then (fwmark, table) else rule_lines ls
  end.
Definition ParseIPRuleFwmark (output : string) : string * string := rule_lines (lines output).

(** The servers found so far are also the keys of [seen]. *)
Fixpoint dns_fields (fields : list string) (servers : list string) : list string :=
  match fields with
  | [] => servers
  | f :: fields =>
      let f := (Cut "%" f).1.1 in
      dns_fields fields
        (if bool_decide (is_Some (ParseIP f)) && negb (bool_decide (f ∈ servers)) then servers ++ [f] else servers)
  end.
Fixpoint dns_lines (resolvConf : bool) (ls : list string) (servers : list string) : list string :=
  match ls with
  | [] => servers
  | line :: ls =>
      let fields := Fields (TrimSpace line) in
      let first := default "" (head fields) in
      if bool_decide (fields = []) || HasPrefix first "#" then dns_lines resolvConf ls servers
      else if resolvConf && negb (bool_decide (first = "nameserver")) then dns_lines resolvConf ls servers
      else dns_lines resolvConf ls (dns_fields fields servers)
  end.
Definition ParseDNSServers (output : string) : list string :=
  dns_lines (Contains output "nameserver") (lines output) [].

Definition ufw_default (u : UFWState) (part : string) : UFWState :=
  match CutSuffix (TrimSpace part) " (outgoing)" with
  | Some policy => u <| ufw_DefaultOutgoing := policy |>
  | None => u
  end.
Definition ufw_line (u : UFWState) (line : string) : UFWState :=
  let line := TrimSpace line in
  if HasPrefix line "Status:" then
    u <| ufw_Active := Contains line "active" && negb (Contains line "inactive") |>
  else if HasPrefix line "Default:" then
    foldl ufw_default u (Split "," (TrimPrefix line "Default:"))
  else if Contains line "ALLOW" || Contains line "DENY" || Contains line "REJECT" || Contains line "LIMIT" then
    u <| ufw_RuleCount := ufw_RuleCount u + 1 |>
  else u.
Definition ParseUFWStatus (output : string) : UFWState :=
  foldl ufw_line (mkUFWState true false "" 0) (lines output).

Definition ipt_fields (u : IPTablesState) (fields : list string) : IPTablesState :=
  match fields with
  | [a; b; p] =>
      if bool_decide (a = "-P") && bool_decide (b = "OUTPUT") then u <| ipt_OutputPolicy := p |>
      else if bool_decide (a = "-A") then u <| ipt_RuleCount := ipt_RuleCount u + 1 |> else u
  | a :: _ => if bool_decide (a = "-A") then u <| ipt_RuleCount := ipt_RuleCount u + 1 |> else u
  | [] => u
  end.
Definition ParseIPTablesRules (output : string) : IPTablesState :=
  foldl ipt_fields (mkIPTablesState true "" 0) (Fields <$> lines output).

Definition spinner (c : ascii) : bool :=
  bool_decide (c ∈ ["-"; "\"; "|"; "/"; "013"; " "]%char).
Definition sanitizeNordVPNLine (line : string) : string := trim_left spinner (TrimSpace line).

Record NordScan := mkNordScan { nd_connected : bool; nd_server : string; nd_parts : list string }.
Definition nord_line (n : NordScan) (line : string) : NordScan :=
  let line := sanitizeNordVPNLine line in
  if HasPrefix line "Status:" then
    mkNordScan (Contains line "Connected") (nd_server n) (nd_parts n ++ [line])
  else if HasPrefix line "Hostname:" then
    mkNordScan (nd_connected n) (TrimSpace (TrimPrefix line "Hostname:")) (nd_parts n)
  else if HasPrefix line "Current server:" then
    mkNordScan (nd_connected n) (TrimSpace (TrimPrefix line "Current server:")) (nd_parts n)
  else if HasPrefix line "Country:" || HasPrefix line "IP:" || HasPrefix line "Current technology:" then
    mkNordScan (nd_connected n) (nd_server n) (nd_parts n ++ [line])
  else n.
(** connected, server, detail *)
Definition ParseNordVPNStatus (output : string) : bool * string * string :=
  let n := foldl nord_line (mkNordScan false "" []) (lines output) in
  let whole := (nd_connected n, nd_server n, Join "; " (nd_parts n)) in
  match nd_parts n with
  | [] => match find (λ l, negb (bool_decide (l = ""))) (sanitizeNordVPNLine <$> lines output) with
          | Some line => (false, "", line)
          | None => whole
          end
  | _ => whole
  end.

Definition ParseNordVPNSettings (output : string) : string :=
  match find (λ l, HasPrefix l "Kill Switch:") (sanitizeNordVPNLine <$> lines output) with
  | Some line => if Contains line "enabled" || Contains line "on" then "on" else "off"
  | None => ""
  end.

(** endpoint, handshake *)
Definition wg_line (r : string * string) (line : string) : string * string :=
  let line := TrimSpace line in
  let r := match CutPrefix line "endpoint:" with Some v => (TrimSpace v, r.2) | None => r end in
  match CutPrefix line "latest handshake:" with Some v => (r.1, "handshake " +:+ TrimSpace v) | None => r end.
Definition ParseWGShow (output : string) : string * string := foldl wg_line ("", "") (lines output).

Definition ParseCloudflareTrace (output : string) : string :=
  match omap (λ line, CutPrefix (TrimSpace line) "ip=") (lines output) with
  | v :: _ => TrimSpace v
  | [] => ""
  end.

(** One address of [ip -o addr]: the interface's name and the address. *)
Definition addr_fields (fields : list string) : option (string * GuestIPAddress) :=
  if Nat.ltb (length fields) 4 then None else
  let name := TrimSuffix (default "" (fields !! 1%nat)) ":" in
  let family := default "" (fields !! 2%nat) in
  if negb (bool_decide (family = "inet")) && negb (bool_decide (family = "inet6")) then None else
  let '(addr, prefixStr, ok) := Cut "/" (default "" (fields !! 3%nat)) in
  if negb ok then None else
  match Atoi prefixStr with
  | None => None
  | Some prefix =>
      Some (name, mkGuestIPAddress addr (if bool_decide (family = "inet6") then "ipv6" else "ipv4") prefix)
  end.
(** [byName] and [order] together: the entries in order of first appearance. *)
Fixpoint add_addr (name : string) (a : GuestIPAddress) (ifs : list GuestNetworkInterface)
    : list GuestNetworkInterface :=
  match ifs with
  | [] => [mkGuestNetworkInterface name "" [a]]
  | i :: ifs =>
      if bool_decide (gi_Name i = name)
      then mkGuestNetworkInterface (gi_Name i) (gi_HardwareAddress i) (gi_IPAddresses i ++ [a]) :: ifs
      else i :: add_addr name a ifs
  end.
Definition ParseIPAddrBrief (output : string) : list GuestNetworkInterface :=
  foldl (λ ifs na, add_addr na.1 na.2 ifs) [] (omap addr_fields (Fields <$> lines output)).

(** ** Judgments *)
Definition vpnMechNone : string := "".
Definition vpnMechNordVPN : string := "nordvpn".
Definition vpnMechWireGuard : string := "wireguard".
Definition vpnMechanism (provider : string) : string :=
  if bool_decide (provider = "") then vpnMechNone
  else if bool_decide (provider = "nordvpn") then vpnMechNordVPN
  else vpnMechWireGuard.

Definition isTunnelDev (name : string) : bool :=
  bool_decide (name = "nordlynx") || HasPrefix name "wg" || HasPrefix name "tun".

Definition isPublicIP (s : string) : bool :=
  match ParseIP s with
  | None => false
  | Some ip => negb (IsPrivate ip) && negb (IsLoopback ip) && negb (IsLinkLocalUnicast ip) && negb (IsUnspecified ip)
  end.

Definition lan_of (a : GuestIPAddress) : option IPNet :=
  ip ← ParseIP (ga_Address a);
  if bool_decide (is_Some (To4 ip)) then
    let mask := CIDRMask32 (ga_Prefix a) in Some (mkIPNet (Mask ip mask) mask)
  else None.
Definition lanNetworks (ifaces : list GuestNetworkInterface) : list IPNet :=
  mjoin ((λ i, if bool_decide (gi_Name i = "lo") || isTunnelDev (gi_Name i) then []
               else omap lan_of (gi_IPAddresses i)) <$> ifaces).

Section Checks.
Variables (cfg : VMConfig) (opts : NetworkOptions) (host : HostNetwork) (guest : GuestNetwork).

Definition tunnelDev : string :=
  if bool_decide (vpnMechanism (c_VPNProvider cfg) = vpnMechNordVPN) then "nordlynx" else "wg0".

Definition route_check : NetCheck :=
  if Contains (gn_PolicyRoute guest) ("dev " +:+ tunnelDev) then
    mkNetCheck "guest:route" NetCheckPass ("policy-routed: " +:+ gn_PolicyRoute guest)
  else if bool_decide (gn_DefaultRoute guest = "") then
    mkNetCheck "guest:route" NetCheckUnavailable "default route not readable"
  else if Contains (gn_DefaultRoute guest) ("dev " +:+ tunnelDev) then
    mkNetCheck "guest:route" NetCheckPass (gn_DefaultRoute guest)
  else mkNetCheck "guest:route" NetCheckFail
         (gn_DefaultRoute guest +:+ " — expected dev " +:+ tunnelDev +:+ " (no fwmark policy rule found)").

(** The servers on the LAN, the others, and the last loopback one. *)
Record DnsScan := mkDnsScan { ds_lan : list string; ds_public : list string; ds_loopback : string }.
Definition dns_server (lans : list IPNet) (d : DnsScan) (s : string) : DnsScan :=
  match ParseIP s with
  | None => d
  | Some ip =>
      if IsLoopback ip then mkDnsScan (ds_lan d) (ds_public d) s
      else if existsb (λ lan, net_Contains lan ip) lans
      then mkDnsScan (ds_lan d ++ [s]) (ds_public d) (ds_loopback d)
      else mkDnsScan (ds_lan d) (ds_public d ++ [s]) (ds_loopback d)
  end.
Definition dns_scan : DnsScan :=
  foldl (dns_server (lanNetworks (default [] (gn_Interfaces guest)))) (mkDnsScan [] [] "") (gn_DNSServers guest).

Definition dns_check : NetCheck :=
  match gn_DNSServers guest with
  | [] => mkNetCheck "guest:dns-leak" NetCheckUnavailable "DNS configuration not readable"
  | _ =>
      let d := dns_scan in
      match ds_lan d, ds_public d with
      | _ :: _, _ :: _ =>
          mkNetCheck "guest:dns-leak" NetCheckInfo
            (Join ", " (ds_lan d) +:+ " is on the LAN but VPN DNS " +:+ Join ", " (ds_public d)
             +:+ " is also configured; see guest:dns-egress")
      | l :: _, [] => mkNetCheck "guest:dns-leak" NetCheckFail (l +:+ " is the LAN resolver — DNS bypasses the VPN")
      | [], _ =>
          if negb (bool_decide (ds_loopback d = "")) then
            mkNetCheck "guest:dns-leak" NetCheckInfo
              (ds_loopback d +:+ " is a local resolver stub; upstream not verified")
          else mkNetCheck "guest:dns-leak" NetCheckPass (Join ", " (gn_DNSServers guest))
      end
  end.

Definition firewall_check : NetCheck :=
  let u := gn_UFW guest in
  if ufw_Available u && negb (ufw_Active u) then mkNetCheck "guest:firewall" NetCheckFail "ufw inactive"
  else if ufw_Available u then
    mkNetCheck "guest:firewall" NetCheckPass
      ("ufw active, outgoing=" +:+ ufw_DefaultOutgoing u +:+ " (" +:+ Itoa (ufw_RuleCount u) +:+ " rules)")
  else if ipt_Available (gn_IPTables guest) then
    mkNetCheck "guest:firewall" NetCheckPass
      ("iptables, OUTPUT policy " +:+ ipt_OutputPolicy (gn_IPTables guest) +:+ " ("
       +:+ Itoa (ipt_RuleCount (gn_IPTables guest)) +:+ " rules)")
  else mkNetCheck "guest:firewall" NetCheckUnavailable "no ufw or iptables state readable in guest".

Definition wg_killswitch_check : NetCheck :=
  let u := gn_UFW guest in
  let ipt := gn_IPTables guest in
  if ufw_Available u && ufw_Active u then
    if bool_decide (ufw_DefaultOutgoing u = "deny") then
      mkNetCheck "guest:killswitch" NetCheckPass "ufw default deny (outgoing)"
    else mkNetCheck "guest:killswitch" NetCheckFail
           ("ufw default outgoing is " +:+ Quote (ufw_DefaultOutgoing u) +:+ ", expected deny")
  else if ipt_Available ipt then
    if bool_decide (ipt_OutputPolicy ipt = "DROP") then
      mkNetCheck "guest:killswitch" NetCheckPass "iptables OUTPUT policy DROP"
    else mkNetCheck "guest:killswitch" NetCheckFail
           ("iptables OUTPUT policy is " +:+ Quote (ipt_OutputPolicy ipt) +:+ ", expected DROP")
  else mkNetCheck "guest:killswitch" NetCheckUnavailable "no firewall state readable in guest".

Definition vpn_check : NetCheck :=
  let v := gn_VPN guest in
  if negb (vpn_Available v) then
    mkNetCheck "guest:vpn" NetCheckUnavailable (c_VPNProvider cfg +:+ " state not readable in guest")
  else if vpn_Connected v then
    let detail := vpn_Endpoint v in
    let detail := if bool_decide (detail = "") then vpn_Detail v else detail in
    mkNetCheck "guest:vpn" NetCheckPass (TrimSpace (c_VPNProvider cfg +:+ " connected " +:+ detail))
  else mkNetCheck "guest:vpn" NetCheckFail (c_VPNProvider cfg +:+ " not connected: " +:+ vpn_Detail v).

Definition nord_killswitch_check : NetCheck :=
  if bool_decide (vpn_Killswitch (gn_VPN guest) = "on") then
    mkNetCheck "guest:killswitch" NetCheckPass "nordvpn kill switch enabled"
  else if bool_decide (vpn_Killswitch (gn_VPN guest) = "off") then
    mkNetCheck "guest:killswitch" NetCheckFail "nordvpn kill switch disabled"
  else mkNetCheck "guest:killswitch" NetCheckUnavailable "nordvpn settings not readable".

Definition egress_check : NetCheck :=
  let e := gn_EgressIP guest in
  let h := hn_PublicIP host in
  if bool_decide (e = "") then
    mkNetCheck "guest:egress-ip" NetCheckUnavailable "egress lookup failed (no curl/wget or no connectivity)"
  else if negb (isPublicIP e) then
    mkNetCheck "guest:egress-ip" NetCheckFail (e +:+ " is not a public address")
  else if negb (bool_decide (h = "")) && bool_decide (e = h) then
    mkNetCheck "guest:egress-ip" NetCheckFail (e +:+ " matches the host's public IP — traffic is not tunnelled")
  else if bool_decide (h = "") then
    mkNetCheck "guest:egress-ip" NetCheckInfo (e +:+ " (host public IP unknown; could not compare)")
  else mkNetCheck "guest:egress-ip" NetCheckPass (e +:+ " differs from host " +:+ h).

Definition dns_egress_check : NetCheck :=
  let e := gn_DNSEgressIP guest in
  let h := hn_PublicIP host in
  if bool_decide (e = "") then
    mkNetCheck "guest:dns-egress" NetCheckUnavailable
      "whoami.cloudflare lookup failed (dig missing or port 53 blocked)"
  else if negb (bool_decide (h = "")) && bool_decide (e = h) then
    mkNetCheck "guest:dns-egress" NetCheckFail
      (e +:+ " matches the host's public IP — DNS queries leak outside the VPN")
  else if bool_decide (h = "") then
    mkNetCheck "guest:dns-egress" NetCheckInfo (e +:+ " (host public IP unknown; could not compare)")
  else mkNetCheck "guest:dns-egress" NetCheckPass (e +:+ " differs from host " +:+ h).

Definition guestChecks : list NetCheck :=
  if bool_decide (c_VPNProvider cfg = "") then [] else
  let mech := vpnMechanism (c_VPNProvider cfg) in
  [route_check; dns_check; firewall_check]
  ++ (if bool_decide (mech = vpnMechWireGuard) then [wg_killswitch_check] else [])
  ++ [vpn_check]
  ++ (if bool_decide (mech = vpnMechNordVPN) then [nord_killswitch_check] else [])
  ++ (if SkipEgress opts then [] else [egress_check; dns_egress_check]).
End Checks.

(** ** Gathering *)
Section Gather.
Variables (env : NetEnv) (cfg : VMConfig) (state : VMState) (opts : NetworkOptions).

Definition fetchPublicIP : result error string :=
  match ne_trace env with
  | Err e => Err (Errorf "trace" [e])
  | Ok body =>
      let ip := ParseCloudflareTrace body in
      if bool_decide (ip = "") then Err (Errorf "no ip= line in trace response" []) else Ok ip
  end.

(** The resolved address and the check. *)
Definition arp_check : string * NetCheck :=
  let hostVisible := bool_decide (StateBackendName (Some state) = VZ)
                     || bool_decide (nic_Mode (c_NIC cfg) = "bridge") in
  let mac := nic_MAC (c_NIC cfg) in
  if negb hostVisible then
    ("", mkNetCheck "host:arp" NetCheckInfo "user-mode NIC; guest is never visible on the LAN")
  else if bool_decide (mac = "") then
    ("", mkNetCheck "host:arp" NetCheckUnavailable "no MAC recorded in config")
  else match ResolveIPFromMAC (ne_host env) (ne_tables env) mac with
       | Ok ip => (ip, mkNetCheck "host:arp" NetCheckPass ("resolved " +:+ ip))
       | Err _ =>
           if negb (bool_decide (c_VPNProvider cfg = "")) then
             ("", mkNetCheck "host:arp" NetCheckInfo
                    "no ARP entry — expected: VPN kill-switch blocks LAN visibility")
           else ("", mkNetCheck "host:arp" NetCheckFail ("MAC " +:+ mac +:+ " not in neighbour table"))
       end.

Definition ssh_check : NetCheck :=
  if 0 <? s_SSHPort state then
    let addr := "127.0.0.1:" +:+ Itoa (s_SSHPort state) in
    match ne_dial env addr with
    | Ok _ => mkNetCheck "host:ssh" NetCheckPass (addr +:+ " reachable")
    | Err e => mkNetCheck "host:ssh" NetCheckFail (addr +:+ ": " +:+ e)
    end
  else mkNetCheck "host:ssh" NetCheckInfo "no SSH port recorded".

Definition qga_check : NetCheck :=
  if negb (bool_decide (s_QGASocket state = "")) then
    match ne_connect env CallPing with
    | Ok _ =>
        match ne_ping env with
        | Ok _ => mkNetCheck "host:qga" NetCheckPass "guest agent responding"
        | Err e => mkNetCheck "host:qga" NetCheckFail ("guest-ping: " +:+ e)
        end
    | Err e => mkNetCheck "host:qga" NetCheckFail ("connect: " +:+ e)
    end
  else mkNetCheck "host:qga" NetCheckInfo "no guest agent socket".

Definition hostNetwork : HostNetwork :=
  let mode := nic_Mode (c_NIC cfg) in
  let '(ip, arp) := arp_check in
  {| hn_NICMode := if bool_decide (mode = "") then "user" else mode;
     hn_MAC := nic_MAC (c_NIC cfg);
     hn_ResolvedIP := ip;
     hn_SSHPort := s_SSHPort state;
     hn_QGA := negb (bool_decide (s_QGASocket state = ""));
     hn_PublicIP := if SkipEgress opts then ""
                    else match fetchPublicIP with Ok ip => ip | Err _ => "" end;
     hn_Checks := [arp; ssh_check; qga_check] |}.

Definition guest_probe (script : string) : option string :=
  match execGuestShell env cfg state script with
  | Err _ => None
  | Ok (out, _, _) =>
      let out := TrimSpace out in
      if bool_decide (out = guestUnavailable) || bool_decide (out = "") then None else Some out
  end.
(** A command line that says so when it cannot be run. *)
Definition or_unavailable (cmd : string) : string := cmd +:+ " 2>/dev/null || echo " +:+ guestUnavailable.
(** The same, with a passwordless [sudo] as second try. *)
Definition or_sudo (cmd : string) : string :=
  cmd +:+ " 2>/dev/null || sudo -n " +:+ cmd +:+ " 2>/dev/null || echo " +:+ guestUnavailable.

Definition gather_ifaces : option (list GuestNetworkInterface) :=
  let native :=
    if negb (bool_decide (s_QGASocket state = "")) then
      match ne_connect env CallInterfaces with
      | Ok _ => match ne_ifaces env with Ok ifs => ifs | Err _ => None end
      | Err _ => None
      end
    else None in
  match native with
  | Some ifs => Some ifs
  | None => ParseIPAddrBrief <$> guest_probe (or_unavailable "ip -o addr")
  end.

Definition gather_route : string :=
  match guest_probe (or_unavailable "ip route show default") with
  | None => ""
  | Some out =>
      let '(via, dev) := ParseDefaultRoute out in
      if bool_decide (dev = "") then ""
      else if bool_decide (via = "") then "dev " +:+ dev
      else TrimSpace ("via " +:+ via +:+ " dev " +:+ dev)
  end.

Definition gather_policy : string :=
  if bool_decide (c_VPNProvider cfg = "") then "" else
  match guest_probe (or_unavailable "ip rule") with
  | None => ""
  | Some out =>
      let '(fwmark, table) := ParseIPRuleFwmark out in
      if bool_decide (table = "") then "" else
      let dev := match guest_probe (or_unavailable ("ip route show table " +:+ table)) with
                 | Some tout => (ParseDefaultRoute tout).2
                 | None => ""
                 end in
      if bool_decide (dev = "") then "fwmark " +:+ fwmark +:+ " lookup " +:+ table
      else TrimSpace ("fwmark " +:+ fwmark +:+ " lookup " +:+ table +:+ " dev " +:+ dev)
  end.

Definition dns_script : string :=
  "resolvectl dns 2>/dev/null || cat /etc/resolv.conf 2>/dev/null || echo " +:+ guestUnavailable.
Definition gather_dns : list string :=
  match guest_probe dns_script with Some out => ParseDNSServers out | None => [] end.

Definition gather_ufw : UFWState :=
  match guest_probe (or_sudo "ufw status verbose") with Some out => ParseUFWStatus out | None => zeroUFW end.

Definition gather_iptables (ufw : UFWState) : IPTablesState :=
  if negb (ufw_Available ufw) then
    match guest_probe (or_sudo "iptables -S") with Some out => ParseIPTablesRules out | None => zeroIPTables end
  else zeroIPTables.

Definition gather_vpn : VPNState :=
  let v := zeroVPN <| vpn_Provider := c_VPNProvider cfg |> in
  let mech := vpnMechanism (c_VPNProvider cfg) in
  if bool_decide (mech = vpnMechNordVPN) then
    let v := match guest_probe (or_unavailable "nordvpn status") with
             | Some out =>
                 let '(connected, server, detail) := ParseNordVPNStatus out in
                 v <| vpn_Available := true |> <| vpn_Connected := connected |>
                   <| vpn_Endpoint := server |> <| vpn_Detail := detail |>
             | None => v
             end in
    match guest_probe (or_unavailable "nordvpn settings") with
    | Some out => v <| vpn_Killswitch := ParseNordVPNSettings out |>
    | None => v
    end
  else if bool_decide (mech = vpnMechWireGuard) then
    match guest_probe (or_sudo "wg show wg0") with
    | Some out =>
        let '(endpoint, handshake) := ParseWGShow out in
        v <| vpn_Available := true |> <| vpn_Endpoint := endpoint |>
          <| vpn_Connected := negb (bool_decide (handshake = "")) |> <| vpn_Detail := handshake |>
    | None => v
    end
  else v.

Definition trace_script : string :=
  "curl -4fsS --max-time 5 " +:+ cloudflareTraceURL +:+ " 2>/dev/null || wget -4qO- -T 5 -t 1 "
  +:+ cloudflareTraceURL +:+ " 2>/dev/null || echo " +:+ guestUnavailable.
Definition dig_script : string :=
  "o=$(dig -4 +short +time=3 +tries=1 CH TXT whoami.cloudflare @1.1.1.1 2>/dev/null) && echo "
  +:+ String dquote ("$o" +:+ String dquote (" || echo " +:+ guestUnavailable)).
Definition gather_egress : string :=
  if SkipEgress opts then "" else
  match guest_probe trace_script with Some out => ParseCloudflareTrace out | None => "" end.
Definition gather_dns_egress : string :=
  if SkipEgress opts then "" else
  match guest_probe dig_script with
  | Some out =>
      let ip := Trim (λ c, bool_decide (c = dquote)) (TrimSpace out) in
      if bool_decide (is_Some (ParseIP ip)) then ip else ""
  | None => ""
  end.

Definition guestFacts : GuestNetwork :=
  let ufw := gather_ufw in
  {| gn_Interfaces := gather_ifaces;
     gn_DefaultRoute := gather_route;
     gn_PolicyRoute := gather_policy;
     gn_DNSServers := gather_dns;
     gn_UFW := ufw;
     gn_IPTables := gather_iptables ufw;
     gn_VPN := gather_vpn;
     gn_EgressIP := gather_egress;
     gn_DNSEgressIP := gather_dns_egress;
     gn_Checks := [] |}.

Definition guestNetwork (host : HostNetwork) : GuestNetwork :=
  if bool_decide (s_QGASocket state = "") && (s_SSHPort state <=? 0) then
    zeroGuestNetwork
      <| gn_VPN := zeroVPN <| vpn_Provider := c_VPNProvider cfg |> |>
      <| gn_Checks := [mkNetCheck "guest:probe" NetCheckUnavailable
                         "no QGA socket or SSH port; guest state cannot be inspected"] |>
  else guestFacts <| gn_Checks := guestChecks cfg opts host guestFacts |>.
End Gather.

Section Query.
Context {S : Type} `{VMStore S}.
Abbreviation M := (GoM (World S) error).

Definition QueryNetwork (env : NetEnv) (name : string) (opts : NetworkOptions) : M NetworkReport :=
  cfg ← st (loadConfig name);
  s ← st (loadState name);
  if negb (s_Running s) then throw (Errorf "VM is not running" [name]) else
  let host := hostNetwork env cfg s opts in
  mret (mkNetworkReport host (guestNetwork env cfg s opts host)).
End Query.

(** ** Interfaces

    [ip -o addr] prints one row per address: the interface's number and name,
    the family, the address with its prefix, and further words. *)
Definition family (a : GuestIPAddress) : string := if bool_decide (ga_Type a = "ipv6") then "inet6" else "inet".
Definition addr_row (extra : GuestIPAddress → list string) (k : nat) (i : GuestNetworkInterface)
    (a : GuestIPAddress) : list string :=
  [Itoa (Z.of_nat k + 1) +:+ ":"; gi_Name i; family a; ga_Address a +:+ "/" +:+ Itoa (ga_Prefix a)] ++ extra a.
Definition addr_rows extra (ifs : list GuestNetworkInterface) : list (list string) :=
  mjoin (imap (λ k i, addr_row extra k i <$> gi_IPAddresses i) ifs).

Definition addr_ok (a : GuestIPAddress) : Prop :=
  token (ga_Address a) = true ∧ free_of "/" (ga_Address a) = true ∧
  (ga_Type a = "ipv4" ∨ ga_Type a = "ipv6") ∧ 0 <= ga_Prefix a <= 128.
Definition iface_ok (i : GuestNetworkInterface) : Prop :=
  token (gi_Name i) = true ∧ HasSuffix (gi_Name i) ":" = false ∧ gi_HardwareAddress i = "" ∧
  gi_IPAddresses i ≠ [] ∧ Forall addr_ok (gi_IPAddresses i).

Lemma Itoa_prefix p : 0 <= p <= 128 → Atoi (Itoa p) = Some p ∧ sforall is_digit (Itoa p) = true.
Proof.
  intros Hp. destruct (decide (p = 0)) as [->|]; [by vm_compute|].
  split; [apply Atoi_Itoa; unfold max_int; lia|apply Itoa_digits; lia].
Qed.

Lemma addr_row_ok extra k i a : iface_ok i → addr_ok a → Forall (λ w, token w = true) (extra a) →
  row_ok (addr_row extra k i a).
Proof.
  intros (Hi & _) (Ha & _ & _ & Hp) He. split; [done|]. unfold addr_row.
  destruct (Itoa_prefix _ Hp) as [_ Hd].
  apply Forall_app. split; [|done]. rewrite !Forall_cons, Forall_nil. split_and!; try done.
  - apply token_app; [|done]. unfold token.
    rewrite digits_token by (apply Itoa_digits; lia). rewrite bool_decide_false by (apply Itoa_nonempty; lia). done.
  - unfold family. by case_bool_decide.
  - apply token_app; [done|]. by apply (digits_token (Itoa (ga_Prefix a))).
Qed.

Lemma addr_fields_row extra k i a : iface_ok i → addr_ok a →
  addr_fields (addr_row extra k i a) = Some (gi_Name i, a).
Proof.
  intros (_ & Hs & _) (_ & Hf & Ht & Hp). unfold addr_fields, addr_row. cbn -[Cut TrimSuffix].
  unfold TrimSuffix. rewrite Hs. destruct (Itoa_prefix _ Hp) as [Hat _].
  change ("/" +:+ Itoa (ga_Prefix a)) with (String "/" (Itoa (ga_Prefix a))). rewrite Cut_app by done. rewrite Hat.
  unfold family. destruct a as [ad ty p]; cbn in *. destruct Ht as [-> | ->]; done.
Qed.

Lemma add_addrs_new name ifs done_ addrs : name ∉ gi_Name <$> ifs →
  foldl (λ ifs na, add_addr na.1 na.2 ifs) (ifs ++ [mkGuestNetworkInterface name "" done_]) (pair name <$> addrs) =
  ifs ++ [mkGuestNetworkInterface name "" (done_ ++ addrs)].
Proof.
  intros Hn. revert done_. induction addrs as [|a addrs IH]; intros done_; [by rewrite app_nil_r|]. cbn.
  assert (add_addr name a (ifs ++ [mkGuestNetworkInterface name "" done_]) =
          ifs ++ [mkGuestNetworkInterface name "" (done_ ++ [a])]) as ->.
  { clear IH. induction ifs as [|i ifs IHi]; cbn; [by rewrite bool_decide_true|]. cbn in Hn.
    apply not_elem_of_cons in Hn as [Hne Hn]. rewrite bool_decide_false by done. by rewrite IHi. }
  by rewrite IH, <- app_assoc.
Qed.

Lemma add_addr_fresh name a ifs : name ∉ gi_Name <$> ifs →
  add_addr name a ifs = ifs ++ [mkGuestNetworkInterface name "" [a]].
Proof.
  induction ifs as [|i ifs IH]; [done|]. cbn. intros [Hne Hn]%not_elem_of_cons.
  rewrite bool_decide_false by done. by rewrite IH.
Qed.

Lemma add_ifaces ifs pre : Forall iface_ok ifs → NoDup (gi_Name <$> pre ++ ifs) →
  foldl (λ ifs na, add_addr na.1 na.2 ifs) pre (mjoin ((λ i, pair (gi_Name i) <$> gi_IPAddresses i) <$> ifs)) =
  pre ++ ifs.
Proof.
  intros Hok. revert pre. induction Hok as [|i ifs (_ & _ & Hh & Ha & _) Hok IH]; intros pre Hnd; [by rewrite app_nil_r|].
  cbn. rewrite foldl_app. destruct i as [name hw addrs]; cbn in *. subst hw.
  destruct addrs as [|a addrs]; [done|]. cbn.
  assert (name ∉ gi_Name <$> pre) as Hf.
  { rewrite fmap_app in Hnd. apply NoDup_app in Hnd as (_ & Hd & _). intros Hin. apply (Hd _ Hin). by left. }
  rewrite add_addr_fresh, add_addrs_new by done. cbn.
  rewrite IH by (by rewrite <- app_assoc). by rewrite <- app_assoc.
Qed.

Lemma omap_read {A B C} (f : A → B) (g : B → option C) (h : A → C) l :
  Forall (λ a, g (f a) = Some (h a)) l → omap g (f <$> l) = h <$> l.
Proof. induction 1 as [|a l Ha _ IH]; [done|]. cbn. by rewrite Ha, <- IH. Qed.

Lemma addr_rows_read extra (g : nat → nat) ifs : (∀ a, Forall (λ w, token w = true) (extra a)) → Forall iface_ok ifs →
  let rows := mjoin (imap (λ k i, addr_row extra (g k) i <$> gi_IPAddresses i) ifs) in
  omap addr_fields rows = mjoin ((λ i, pair (gi_Name i) <$> gi_IPAddresses i) <$> ifs) ∧ Forall row_ok rows.
Proof.
  intros Hex Hok. revert g. induction Hok as [|i ifs Hi Hok IH]; intros g; [done|]. cbv zeta.
  destruct (IH (λ k, g (S k))) as [IH1 IH2]. rewrite imap_cons, fmap_cons.
  change (mjoin (?x :: ?l)) with (x ++ mjoin l).
  change (imap (_ ∘ S) ifs) with (imap (λ k i, addr_row extra (g (S k)) i <$> gi_IPAddresses i) ifs).
  rewrite omap_app, Forall_app, IH1. split; [f_equal|split; [|done]]; pose proof Hi as (_ & _ & _ & _ & Ha).
  - apply omap_read. eapply Forall_impl; [done|]. intros a ?. by apply addr_fields_row.
  - apply Forall_fmap. eapply Forall_impl; [done|]. intros a ?. by apply addr_row_ok.
Qed.

(** The SSH fallback reads interfaces back.  Whatever [ip -o addr] prints
    for a list of interfaces with distinct names and addresses, with any
    further words on each row and any spacing, is parsed to exactly these
    interfaces, in order, each with all its addresses. *)
Theorem interfaces_roundtrip pad extra ifs : blanks pad = true → Forall iface_ok ifs → NoDup (gi_Name <$> ifs) →
  (∀ a, Forall (λ w, token w = true) (extra a)) →
  ParseIPAddrBrief (print_table pad (addr_rows extra ifs)) = ifs.
Proof.
  intros Hp Hok Hnd Hex. unfold ParseIPAddrBrief.
  destruct (addr_rows_read extra id ifs Hex Hok) as [Hrows Hall].
  change (mjoin (imap _ ifs)) with (addr_rows extra ifs) in Hrows, Hall.
  destruct (decide (addr_rows extra ifs = [])) as [E|E].
  - rewrite E in Hrows |- *. destruct Hok as [|i ifs (_ & _ & _ & Ha & _)]; [by vm_compute|].
    cbn in Hrows. by destruct (gi_IPAddresses i).
  - rewrite fields_print, Hrows by done. by rewrite (add_ifaces ifs []).
Qed.

(** ** What a report without complaints means *)

(** [ip] is in the IPv4 subnet of an address of a LAN interface. *)
Definition on_link (a : GuestIPAddress) (ip : list Z) : Prop :=
  0 <= ga_Prefix a <= 32 ∧ ∃ ia qa qi,
    ParseIP (ga_Address a) = Some ia ∧ To4 ia = Some qa ∧ To4 ip = Some qi ∧ same_net (ga_Prefix a) qa qi.
Definition on_lan (ifs : list GuestNetworkInterface) (ip : list Z) : Prop :=
  ∃ i a, i ∈ ifs ∧ gi_Name i ≠ "lo" ∧ isTunnelDev (gi_Name i) = false ∧ a ∈ gi_IPAddresses i ∧ on_link a ip.

Lemma lan_of_contains a s ip : ParseIP s = Some ip →
  (∃ n, lan_of a = Some n ∧ net_Contains n ip = true) ↔ on_link a ip.
Proof.
  intros Hs. destruct (ParseIP_bytes _ _ Hs) as [Lp Bp]. unfold lan_of, on_link.
  destruct (ParseIP (ga_Address a)) as [ia|] eqn:Ea; cbn; [|naive_solver].
  destruct (ParseIP_bytes _ _ Ea) as [La Ba]. destruct (To4 ia) as [qa|] eqn:Hq.
  - rewrite bool_decide_true by eauto. pose proof (subnet_contains ia qa (ga_Prefix a) ip La Ba Hq Lp Bp) as Hc.
    split.
    + intros (n & [= <-] & Hn). apply Hc in Hn as (? & qi & ? & ?). naive_solver.
    + intros (Hp & ia' & qa' & qi & [= <-] & Hq' & Hi & Hn). simplify_eq.
      eexists. split; [done|]. apply Hc. eauto.
  - rewrite bool_decide_false by (intros [? ?]; congruence). naive_solver.
Qed.

Lemma lans_contain ifs s ip : ParseIP s = Some ip →
  existsb (λ lan, net_Contains lan ip) (lanNetworks ifs) = true ↔ on_lan ifs ip.
Proof.
  intros Hs. rewrite existsb_exists. setoid_rewrite <- list_elem_of_In. unfold lanNetworks, on_lan.
  setoid_rewrite list_elem_of_join. split.
  - intros (n & (l & Hn & Hl) & Hc). apply list_elem_of_fmap in Hl as (i & -> & Hi).
    destruct (bool_decide (gi_Name i = "lo") || isTunnelDev (gi_Name i)) eqn:Hd; [by apply elem_of_nil in Hn|].
    apply orb_false_iff in Hd as [Hlo Ht]. apply bool_decide_eq_false in Hlo.
    apply list_elem_of_omap in Hn as (a & Ha & Hn). exists i, a. split_and!; try done.
    apply (lan_of_contains a s ip Hs). eauto.
  - intros (i & a & Hi & Hlo & Ht & Ha & Hl). apply (lan_of_contains a s ip Hs) in Hl as (n & Hn & Hc).
    exists n. split; [|done]. eexists. split; [|apply list_elem_of_fmap; by exists i].
    rewrite bool_decide_false, Ht by done. cbn. apply list_elem_of_omap. eauto.
Qed.

(** No server that parses is a loopback address or on the LAN. *)
Definition server_clean (lans : list IPNet) (s : string) : Prop :=
  ∀ ip, ParseIP s = Some ip → IsLoopback ip = false ∧ existsb (λ lan, net_Contains lan ip) lans = false.

Lemma dns_scan_clean lans servers d :
  let r := foldl (dns_server lans) d servers in
  ds_lan r = [] ∧ ds_loopback r = "" ↔ ds_lan d = [] ∧ ds_loopback d = "" ∧ Forall (server_clean lans) servers.
Proof.
  revert d. induction servers as [|s servers IH]; intros d; cbn; [rewrite Forall_nil; tauto|].
  rewrite IH, Forall_cons. unfold dns_server, server_clean at 2. destruct (ParseIP s) as [ip|] eqn:Hs; [|naive_solver].
  assert (s ≠ "") by (intros ->; done). destruct (IsLoopback ip) eqn:Hl; cbn.
  { split; [naive_solver|]. intros (_ & _ & Hc & _). destruct (Hc ip eq_refl). congruence. }
  destruct (existsb _ lans) eqn:Hx; cbn; [|naive_solver]. split; [intros (Hn & _); by destruct (ds_lan d)|].
  intros (_ & _ & Hc & _). destruct (Hc ip eq_refl). congruence.
Qed.

Section Verdicts.
Variables (cfg : VMConfig) (opts : NetworkOptions) (host : HostNetwork) (guest : GuestNetwork).
Abbreviation passes c := (nc_Status c = NetCheckPass).

Definition through_tunnel : Prop :=
  Contains (gn_PolicyRoute guest) ("dev " +:+ tunnelDev cfg) = true ∨
  Contains (gn_DefaultRoute guest) ("dev " +:+ tunnelDev cfg) = true.
Definition resolvers_clean : Prop :=
  gn_DNSServers guest ≠ [] ∧ ∀ s ip, s ∈ gn_DNSServers guest → ParseIP s = Some ip →
    IsLoopback ip = false ∧ ¬ on_lan (default [] (gn_Interfaces guest)) ip.
Definition firewalled : Prop :=
  if ufw_Available (gn_UFW guest) then ufw_Active (gn_UFW guest) = true else ipt_Available (gn_IPTables guest) = true.
Definition wg_killswitch : Prop :=
  if ufw_Available (gn_UFW guest) && ufw_Active (gn_UFW guest) then ufw_DefaultOutgoing (gn_UFW guest) = "deny"
  else ipt_Available (gn_IPTables guest) = true ∧ ipt_OutputPolicy (gn_IPTables guest) = "DROP".
Definition killswitch_on : Prop :=
  if bool_decide (c_VPNProvider cfg = "nordvpn") then vpn_Killswitch (gn_VPN guest) = "on" else wg_killswitch.
Definition connected : Prop := vpn_Available (gn_VPN guest) = true ∧ vpn_Connected (gn_VPN guest) = true.
Definition egress_hidden : Prop :=
  hn_PublicIP host ≠ "" ∧ gn_EgressIP guest ≠ hn_PublicIP host ∧ isPublicIP (gn_EgressIP guest) = true ∧
  gn_DNSEgressIP guest ≠ "" ∧ gn_DNSEgressIP guest ≠ hn_PublicIP host.

Lemma route_pass : passes (route_check cfg guest) ↔ through_tunnel.
Proof.
  unfold route_check, through_tunnel. destruct (Contains (gn_PolicyRoute guest) _); [naive_solver|].
  case_bool_decide as E; [rewrite E; naive_solver|]. destruct (Contains (gn_DefaultRoute guest) _); naive_solver.
Qed.

Lemma dns_pass : passes (dns_check guest) ↔ resolvers_clean.
Proof.
  unfold dns_check, resolvers_clean. set (ifs := default [] (gn_Interfaces guest)).
  assert (Forall (server_clean (lanNetworks ifs)) (gn_DNSServers guest) ↔ ∀ s ip, s ∈ gn_DNSServers guest →
    ParseIP s = Some ip → IsLoopback ip = false ∧ ¬ on_lan ifs ip) as Hc.
  { rewrite Forall_forall. unfold server_clean. apply forall_proper; intros s.
    split; [intros H ip Hs Hp; specialize (H Hs ip Hp)|intros H Hs ip Hp; specialize (H ip Hs Hp)];
      pose proof (lans_contain ifs s ip Hp) as Hl; destruct (existsb _ _); naive_solver. }
  rewrite <- Hc. clear Hc. destruct (gn_DNSServers guest) as [|s servers] eqn:E; [naive_solver|].
  pose proof (dns_scan_clean (lanNetworks ifs) (s :: servers) (mkDnsScan [] [] "")) as Hd. cbv zeta in Hd.
  unfold dns_scan. rewrite E. fold ifs. destruct (foldl _ _ _) as [lan public loop]; cbn in *.
  destruct lan as [|l lan], public as [|p public]; cbn; try case_bool_decide; cbn; naive_solver.
Qed.

Lemma firewall_pass : passes (firewall_check guest) ↔ firewalled.
Proof.
  unfold firewall_check, firewalled.
  destruct (ufw_Available (gn_UFW guest)), (ufw_Active (gn_UFW guest)), (ipt_Available (gn_IPTables guest)); naive_solver.
Qed.

Lemma wg_pass : passes (wg_killswitch_check guest) ↔ wg_killswitch.
Proof.
  unfold wg_killswitch_check, wg_killswitch.
  destruct (ufw_Available (gn_UFW guest) && ufw_Active (gn_UFW guest)); [case_bool_decide; naive_solver|].
  destruct (ipt_Available (gn_IPTables guest)); [case_bool_decide|]; naive_solver.
Qed.

Lemma nord_pass : passes (nord_killswitch_check guest) ↔ vpn_Killswitch (gn_VPN guest) = "on".
Proof. unfold nord_killswitch_check. repeat case_bool_decide; naive_solver. Qed.

Lemma vpn_pass : passes (vpn_check cfg guest) ↔ connected.
Proof. unfold vpn_check, connected. destruct (vpn_Available (gn_VPN guest)), (vpn_Connected (gn_VPN guest)); naive_solver. Qed.

Lemma egress_pass : passes (egress_check host guest) ∧ passes (dns_egress_check host guest) ↔ egress_hidden.
Proof.
  unfold egress_check, dns_egress_check, egress_hidden.
  assert (isPublicIP "" = false) by done.
  repeat case_bool_decide; destruct (isPublicIP (gn_EgressIP guest)) eqn:Hp; cbn; naive_solver congruence.
Qed.
End Verdicts.

(** ** The kill-switch on [iptables] guests

    [iptables -S] prints the chains' policies, the user's chains and the rules. *)
Definition policy_row (cp : string * string) : list string := ["-P"; cp.1; cp.2].
Definition chain_row (c : string) : list string := ["-N"; c].
Definition rule_row (r : list string) : list string := "-A" :: r.
Definition iptables_rows (pols : list (string * string)) (chains : list string) (rules : list (list string))
    : list (list string) :=
  (policy_row <$> pols) ++ (chain_row <$> chains) ++ (rule_row <$> rules).
Definition iptables_ok (pols : list (string * string)) (chains : list string) (rules : list (list string)) : Prop :=
  pols ≠ [] ∧ NoDup pols.*1 ∧ Forall (λ cp, token cp.1 = true ∧ token cp.2 = true) pols ∧
  Forall (λ c, token c = true) chains ∧ Forall (Forall (λ w, token w = true)) rules.

Lemma iptables_rows_ok pols chains rules : iptables_ok pols chains rules →
  iptables_rows pols chains rules ≠ [] ∧ Forall row_ok (iptables_rows pols chains rules).
Proof.
  intros (Hn & _ & Hp & Hc & Hr). unfold iptables_rows. split; [by destruct pols|].
  rewrite !Forall_app, !Forall_fmap. split_and!; (eapply Forall_impl; [done|]); cbn.
  - intros [c p] [? ?]. split; [done|]. by repeat constructor.
  - intros c ?. split; [done|]. by repeat constructor.
  - intros r ?. split; [done|]. by constructor.
Qed.

Definition output_policy (pols : list (string * string)) (p0 : string) : string :=
  foldl (λ p cp, if bool_decide (cp.1 = "OUTPUT") then cp.2 else p) p0 pols.

Lemma output_policy_spec pols p : NoDup pols.*1 → p ≠ "" → output_policy pols "" = p ↔ ("OUTPUT", p) ∈ pols.
Proof.
  intros Hnd Hp. unfold output_policy.
  assert (∀ p0, foldl (λ p cp, if bool_decide (cp.1 = "OUTPUT") then cp.2 else p) p0 pols = p ↔
    ("OUTPUT", p) ∈ pols ∨ (p0 = p ∧ "OUTPUT" ∉ pols.*1)) as ->; [|naive_solver].
  induction pols as [|[c q] pols IH]; intros p0; cbn; [set_solver|].
  cbn in Hnd. apply NoDup_cons in Hnd as [Hc Hnd]. rewrite IH by done. clear IH Hnd.
  assert (("OUTPUT", p) ∈ pols → "OUTPUT" ∈ pols.*1) by (intros; by apply (list_elem_of_fmap_2 fst _ ("OUTPUT", p))).
  rewrite elem_of_cons. case_bool_decide; subst; set_solver.
Qed.

Lemma policies_read pols p0 n : foldl ipt_fields (mkIPTablesState true p0 n) (policy_row <$> pols) =
  mkIPTablesState true (output_policy pols p0) n.
Proof.
  unfold output_policy. revert p0. induction pols as [|[c q] pols IH]; intros p0; [done|].
  rewrite fmap_cons. cbn [foldl fst snd].
  assert (ipt_fields (mkIPTablesState true p0 n) (policy_row (c, q)) =
          mkIPTablesState true (if bool_decide (c = "OUTPUT") then q else p0) n) as ->; [|apply IH].
  unfold ipt_fields, policy_row. cbn [fst snd]. eval_tests. cbn [andb]. by case_bool_decide.
Qed.

Lemma iptables_read pols chains rules out : Fields <$> lines out = iptables_rows pols chains rules →
  ParseIPTablesRules out = mkIPTablesState true (output_policy pols "") (Z.of_nat (length rules)).
Proof.
  intros Ho. unfold ParseIPTablesRules. rewrite Ho. unfold iptables_rows. rewrite !foldl_app. clear Ho.
  rewrite policies_read.
  assert (∀ u, foldl ipt_fields u (chain_row <$> chains) = u) as ->.
  { intros u. by induction chains. }
  generalize (output_policy pols "") as p. intros p. replace (Z.of_nat (length rules)) with (0 + Z.of_nat (length rules)) by lia.
  generalize 0 as n. induction rules as [|r rules IH]; intros n; [by rewrite Z.add_0_r|]. cbn -[ipt_fields].
  assert (ipt_fields (mkIPTablesState true p n) (rule_row r) = mkIPTablesState true p (n + 1)) as ->.
  { by destruct r as [|? [|? [|? ?]]]. }
  rewrite IH. f_equal. lia.
Qed.

(** ** Probes that answer *)
Lemma lines_TrimSpace out : lines (TrimSpace out) = lines out.
Proof. unfold lines, TrimSpace. by rewrite Trim_idemp. Qed.

Lemma probe_print env cfg s script pad rows err code :
  execGuestShell env cfg s script = Ok (print_table pad rows, err, code) →
  blanks pad = true → rows ≠ [] → Forall row_ok rows → rows ≠ [[guestUnavailable]] →
  ∃ out, guest_probe env cfg s script = Some out ∧ Fields <$> lines out = rows.
Proof.
  intros He Hp Hn Hr Hu. unfold guest_probe. rewrite He.
  assert (Hf : Fields <$> Split newline (TrimSpace (print_table pad rows)) = rows) by by apply fields_print.
  rewrite bool_decide_false, bool_decide_false.
  - eexists. split; [done|]. rewrite lines_TrimSpace. exact Hf.
  - intros E. rewrite E in Hf. cbn in Hf. subst rows. by apply Forall_inv in Hr as [? _].
  - intros E. rewrite E in Hf. apply Hu. rewrite <- Hf. by vm_compute.
Qed.

(** ** Theorems *)
Section Reports.
Context {S : Type} `{VMStoreLaws S}.
Variables (env : NetEnv) (opts : NetworkOptions).
Abbreviation all_pass := (Forall (λ c, nc_Status c = NetCheckPass)).

Lemma query_network_run n (w : World S) cfg s : healthy (w_store w) → cfg_view (w_store w) !! n = Some cfg →
  st_view (w_store w) !! n = Some s → s_Running s = true →
  let host := hostNetwork env cfg s opts in
  QueryNetwork env n opts w = (Ok (mkNetworkReport host (guestNetwork env cfg s opts host)), w).
Proof.
  intros Hh Hc Hs Hr. unfold QueryNetwork. rewrite run_bind, (st_loadConfig n w cfg) by done.
  rewrite run_bind, st_loadState, Hs by done. cbn [from_option id]. by rewrite Hr.
Qed.

Lemma checks_all_pass cfg host g : c_VPNProvider cfg ≠ "" → SkipEgress opts = false →
  all_pass (guestChecks cfg opts host g) ↔
  through_tunnel cfg g ∧ resolvers_clean g ∧ firewalled g ∧ killswitch_on cfg g ∧ connected g ∧ egress_hidden host g.
Proof.
  intros Hv Hs. unfold guestChecks, killswitch_on, vpnMechanism. rewrite Hs, (bool_decide_false (c_VPNProvider cfg = "")) by done.
  cbv zeta. destruct (bool_decide (c_VPNProvider cfg = "nordvpn")); eval_tests; cbn [app]; rewrite !Forall_cons, Forall_nil, route_pass, dns_pass, firewall_pass, vpn_pass,
    ?nord_pass, ?wg_pass, <- egress_pass; tauto.
Qed.


Lemma silent_facts cfg s : (∀ script, guest_probe env cfg s script = None) →
  guestFacts env cfg s opts =
  zeroGuestNetwork <| gn_Interfaces := gather_ifaces env cfg s |>
                   <| gn_VPN := zeroVPN <| vpn_Provider := c_VPNProvider cfg |> |>.
Proof.
  intros Hp. unfold guestFacts, gather_route, gather_policy, gather_dns, gather_iptables, gather_ufw, gather_vpn,
    gather_egress, gather_dns_egress. rewrite !Hp.
  repeat case_bool_decide; destruct (SkipEgress opts); done.
Qed.

(** A guest that does not answer is never judged.  When no probe gets an
    answer, through a dead agent, a refused connection or missing tools, every
    check on the guest's side reads unavailable: none passes and none fails. *)
Theorem silent_guest_unjudged n (w : World S) cfg s : healthy (w_store w) → cfg_view (w_store w) !! n = Some cfg →
  st_view (w_store w) !! n = Some s → s_Running s = true →
  (∀ script out err code, execGuestShell env cfg s script = Ok (out, err, code) →
     TrimSpace out = "" ∨ TrimSpace out = guestUnavailable) →
  ∃ r, QueryNetwork env n opts w = (Ok r, w) ∧
    Forall (λ c, nc_Status c = NetCheckUnavailable) (gn_Checks (nr_Guest r)).
Proof.
  intros Hh Hc Hs Hr Hq. eexists. split; [by apply query_network_run|]. cbn [nr_Guest].
  assert (Hp : ∀ script, guest_probe env cfg s script = None).
  { intros script. unfold guest_probe. destruct (execGuestShell _ _ _ _) as [[[out err] code]|] eqn:E; [|done].
    destruct (Hq _ _ _ _ E) as [-> | ->]; done. }
  unfold guestNetwork. destruct (_ && _); [by cbn; rewrite Forall_singleton|]. cbn [gn_Checks update].
  change (Forall (λ c, nc_Status c = NetCheckUnavailable)
    (guestChecks cfg opts (hostNetwork env cfg s opts) (guestFacts env cfg s opts))).
  rewrite (silent_facts cfg s Hp). unfold guestChecks. case_bool_decide as Hv; [constructor|].
  rewrite !Forall_app, !Forall_cons, !Forall_nil. split_and!; try done;
    (case_bool_decide || destruct (SkipEgress opts)); rewrite ?Forall_cons, ?Forall_nil; done.
Qed.
Lemma exec_reachable cfg s script r : execGuestShell env cfg s script = Ok r →
  bool_decide (s_QGASocket s = "") && (s_SSHPort s <=? 0) = false.
Proof.
  unfold execGuestShell. case_bool_decide; [|done]. cbn. destruct (Z.ltb_spec 0 (s_SSHPort s)); [|done].
  intros _. by apply Z.leb_gt.
Qed.

(** The only check of that name in a WireGuard guest's report. *)
Lemma wg_killswitch_only cfg host g c : c_VPNProvider cfg ≠ "" → c_VPNProvider cfg ≠ "nordvpn" →
  c ∈ guestChecks cfg opts host g → nc_Name c = "guest:killswitch" → c = wg_killswitch_check g.
Proof.
  intros Hv Hn Hc Hname. unfold guestChecks, vpnMechanism in Hc.
  rewrite (bool_decide_false (c_VPNProvider cfg = "")), (bool_decide_false (c_VPNProvider cfg = "nordvpn")) in Hc by done.
  change (bool_decide (vpnMechWireGuard = vpnMechWireGuard)) with true in Hc.
  change (bool_decide (vpnMechWireGuard = vpnMechNordVPN)) with false in Hc. cbn [app] in Hc.
  assert (∀ x, nc_Name x ≠ "guest:killswitch" → c ≠ x) as Hne by (intros ? ? ->; done).
  rewrite !elem_of_cons in Hc. destruct Hc as [Hc|[Hc|[Hc|[Hc|[Hc|Hc]]]]]; [exfalso; revert Hc; apply Hne..|done| |].
  - unfold route_check. by repeat case_match.
  - unfold dns_check. by repeat case_match.
  - unfold firewall_check. by repeat case_match.
  - exfalso; revert Hc; apply Hne. unfold vpn_check. by repeat case_match.
  - exfalso. destruct (SkipEgress opts); [by apply elem_of_nil in Hc|]. rewrite !elem_of_cons in Hc.
    destruct Hc as [Hc|[Hc|Hc%elem_of_nil]]; [| |done]; revert Hc; apply Hne.
    + unfold egress_check. by repeat case_match.
    + unfold dns_egress_check. by repeat case_match.
Qed.

Lemma wg_killswitch_there cfg host g : c_VPNProvider cfg ≠ "" → c_VPNProvider cfg ≠ "nordvpn" →
  wg_killswitch_check g ∈ guestChecks cfg opts host g ∧ nc_Name (wg_killswitch_check g) = "guest:killswitch".
Proof.
  intros Hv Hn. unfold guestChecks, vpnMechanism.
  rewrite (bool_decide_false (c_VPNProvider cfg = "")), (bool_decide_false (c_VPNProvider cfg = "nordvpn")) by done.
  change (bool_decide (vpnMechWireGuard = vpnMechWireGuard)) with true. split; [set_solver|].
  unfold wg_killswitch_check. by repeat case_match.
Qed.

(** The kill-switch verdict is the firewall's.  For a running WireGuard
    guest without [ufw] whose [iptables -S] prints any policies, chains and
    rules, the report's kill-switch check passes when the OUTPUT policy is
    DROP and fails in every other case, a missing OUTPUT line included; the
    rules are counted. *)
Theorem iptables_killswitch n (w : World S) cfg s pad pols chains rules err code :
  healthy (w_store w) → cfg_view (w_store w) !! n = Some cfg →
  st_view (w_store w) !! n = Some s → s_Running s = true →
  c_VPNProvider cfg ≠ "" → c_VPNProvider cfg ≠ "nordvpn" →
  guest_probe env cfg s (or_sudo "ufw status verbose") = None →
  execGuestShell env cfg s (or_sudo "iptables -S") = Ok (print_table pad (iptables_rows pols chains rules), err, code) →
  blanks pad = true → iptables_ok pols chains rules →
  ∃ r, QueryNetwork env n opts w = (Ok r, w) ∧
    ipt_RuleCount (gn_IPTables (nr_Guest r)) = Z.of_nat (length rules) ∧
    (∃ c, c ∈ gn_Checks (nr_Guest r) ∧ nc_Name c = "guest:killswitch") ∧
    ∀ c, c ∈ gn_Checks (nr_Guest r) → nc_Name c = "guest:killswitch" →
      nc_Status c = if bool_decide (("OUTPUT", "DROP") ∈ pols) then NetCheckPass else NetCheckFail.
Proof.
  intros Hh Hc Hs Hr Hv Hn Hu Hx Hpad Hok. eexists. split; [by apply query_network_run|]. cbn [nr_Guest].
  unfold guestNetwork. rewrite (exec_reachable _ _ _ _ Hx).
  destruct (iptables_rows_ok _ _ _ Hok) as [Hne Hrows].
  destruct (probe_print _ _ _ _ _ _ _ _ Hx Hpad Hne Hrows) as (out & Hp & Hf).
  { destruct Hok as (Hpol & _). by destruct pols. }
  apply iptables_read in Hf.
  assert (gn_IPTables (guestFacts env cfg s opts) = mkIPTablesState true (output_policy pols "") (Z.of_nat (length rules))) as Hi.
  { cbn. unfold gather_ufw, gather_iptables. rewrite Hu. cbn. by rewrite Hp, Hf. }
  split; [by change (ipt_RuleCount (gn_IPTables (guestFacts env cfg s opts)) = Z.of_nat (length rules)); rewrite Hi|].
  split; [eexists; by apply wg_killswitch_there|].
  intros c Hin Hname. apply wg_killswitch_only in Hin; [|done..]. subst c.
  assert (gn_UFW (guestFacts env cfg s opts) = zeroUFW) as Hz by (cbn; unfold gather_ufw; by rewrite Hu).
  unfold wg_killswitch_check. rewrite Hz, Hi. cbn -[output_policy].
  destruct Hok as (_ & Hnd & _). pose proof (output_policy_spec pols "DROP" Hnd ltac:(done)).
  repeat case_bool_decide; naive_solver.
Qed.
End Reports.

Section Health.
Context {S : Type} `{VMStoreLaws S}.

(** A health check of a VM on record either returns the checks of the guest's
    document, having changed nothing but the VM's recorded checks and their
    time, or fails and changes no record. *)
Theorem health_check_records env n (w : World S) cfg : healthy (w_store w) → cfg_view (w_store w) !! n = Some cfg →
  let s := default zeroState (st_view (w_store w) !! n) in
  (∃ e, RunHealthCheck env n w = (Err e, w)) ∨
  ∃ out checks w', runCheckScript env cfg s = Ok out ∧ ne_checks_json env out = Ok checks ∧
    RunHealthCheck env n w = (Ok checks, w') ∧ cfg_view (w_store w') = cfg_view (w_store w) ∧
    st_view (w_store w') = <[n := health_record checks (w_now w) s]> (st_view (w_store w)).
Proof.
  intros Hh Hc s. unfold RunHealthCheck. rewrite run_bind, (st_loadConfig n w cfg) by done.
  rewrite run_bind, st_loadState by done. fold s. destruct (s_Running s); cbn [negb]; [|left; eexists; done].
  destruct (runCheckScript env cfg s) as [out|e] eqn:Ho; [|left; eexists; done].
  destruct (ne_checks_json env out) as [checks|e] eqn:Hj; [|left; eexists; done]. right.
  rewrite run_gets, run_attempt.
  destruct (st_saveState n (health_record checks (w_now w) s) w Hh ltac:(eauto)) as (s' & -> & ? & ? & ?).
  by eexists _, _, _.
Qed.
End Health.

(** ** Examples *)
Module GuestNetExample.
Definition cfg : VMConfig := Scenario.cfg <| c_VPNProvider := "wireguard" |>.
Definition state : VMState := Scenario.running <| s_SSHPort := 2222 |>.
Definition db : Db.DB := Db.mkDB {[ "dev" := Db.mkRow cfg 1 ]} {[ "dev" := state ]} 9 None None.
Definition world : World Db.DB :=
  mkWorld db {[ 77 ]} ∅ ∅ ∅ (Some 5930) ∅ [] true true true ∅ ∅ 100 [].
Definition tables : NetTables := mkNetTables (Err (Errorf "" [])) (Err (Errorf "" [])) (Ok "") (Ok "").

(** A guest reached over SSH that answers scripts. *)
Definition env (answers : list (string * string)) : NetEnv := {|
  ne_host := Scenario.linux; ne_tables := tables; ne_home := "/home/u";
  ne_dial _ := Ok tt; ne_connect _ := Err "no agent"; ne_ping := Err "no agent"; ne_ifaces := Err "no agent";
  ne_run _ _ := Err "no agent";
  ne_ssh args := match list_find (λ a, Some a.1 = last args) answers with
                 | Some (_, (_, out)) => SSHDone out
                 | None => SSHDone (unlines [guestUnavailable])
                 end;
  ne_trace := Ok (unlines ["fl=1"; "ip=203.0.113.9"]);
  ne_checks_json _ := Err "" |}.
Definition all : NetworkOptions := mkNetworkOptions false.

Definition pols : list (string * string) := [("INPUT", "ACCEPT"); ("FORWARD", "DROP"); ("OUTPUT", "DROP")].
Definition rules : list (list string) := [["OUTPUT"; "-o"; "wg0"; "-j"; "ACCEPT"]].
Definition ifs : list GuestNetworkInterface :=
  [mkGuestNetworkInterface "lo" "" [mkGuestIPAddress "127.0.0.1" "ipv4" 8];
   mkGuestNetworkInterface "eth0" "" [mkGuestIPAddress "192.168.1.5" "ipv4" 24; mkGuestIPAddress "fd00::5" "ipv6" 64];
   mkGuestNetworkInterface "wg0" "" [mkGuestIPAddress "10.2.0.2" "ipv4" 32]].
Definition scope (_ : GuestIPAddress) : list string := ["scope"; "global"].
Definition guest : list (string * string) :=
  [(or_unavailable "ip -o addr", print_table "    " (addr_rows scope ifs));
   (or_unavailable "ip route show default", unlines ["default via 192.168.1.1 dev eth0 proto dhcp"]);
   (or_unavailable "ip rule", unlines ["0: from all lookup local"; "32764: not from all fwmark 0xca6c lookup 51820"]);
   (or_unavailable "ip route show table 51820", unlines ["default dev wg0 scope link"]);
   (dns_script, unlines ["Global:"; "Link 3 (wg0): 10.2.0.1"]);
   (or_sudo "iptables -S", print_table " " (iptables_rows pols ["LOG"] rules));
   (or_sudo "wg show wg0", unlines ["interface: wg0"; "  endpoint: 198.51.100.7:51820"; "  latest handshake: 4 seconds ago"]);
   (trace_script, unlines ["fl=1"; "ip=198.51.100.7"]);
   (dig_script, unlines [String dquote ("198.51.100.8" +:+ String dquote "")])].
End GuestNetExample.

Lemma interfaces_roundtrip_witness :
  ParseIPAddrBrief (print_table "    " (addr_rows GuestNetExample.scope GuestNetExample.ifs)) = GuestNetExample.ifs.
Proof.
  apply (interfaces_roundtrip "    " GuestNetExample.scope GuestNetExample.ifs).
  - vm_compute. reflexivity.
  - unfold GuestNetExample.ifs. repeat apply List.Forall_cons; try apply List.Forall_nil; unfold iface_ok; cbn;
      split_and!; try done; repeat apply List.Forall_cons; try apply List.Forall_nil; unfold addr_ok; cbn;
      split_and!; try done; auto.
  - apply (bool_decide_unpack _). vm_compute. exact I.
  - intros a. repeat constructor.
Defined.


Lemma silent_guest_unjudged_witness :
  ∃ r, QueryNetwork (GuestNetExample.env []) "dev" GuestNetExample.all GuestNetExample.world
       = (Ok r, GuestNetExample.world) ∧ length (gn_Checks (nr_Guest r)) = 7%nat ∧
    Forall (λ c, nc_Status c = NetCheckUnavailable) (gn_Checks (nr_Guest r)).
Proof.
  destruct (silent_guest_unjudged (GuestNetExample.env []) GuestNetExample.all
              "dev" GuestNetExample.world GuestNetExample.cfg GuestNetExample.state) as (r & Hr & Hf);
    [by split|vm_compute; reflexivity|vm_compute; reflexivity|reflexivity| |].
  - intros script out err code [= <- <- <-]. right. vm_compute. reflexivity.
  - exists r. split; [exact Hr|]. split; [|exact Hf]. vm_compute in Hr. by injection Hr as <-.
Defined.

Lemma iptables_killswitch_witness :
  ∃ r, QueryNetwork (GuestNetExample.env GuestNetExample.guest) "dev" GuestNetExample.all GuestNetExample.world
       = (Ok r, GuestNetExample.world) ∧ ipt_RuleCount (gn_IPTables (nr_Guest r)) = 1.
Proof.
  destruct (iptables_killswitch (GuestNetExample.env GuestNetExample.guest) GuestNetExample.all
              "dev" GuestNetExample.world GuestNetExample.cfg GuestNetExample.state " " GuestNetExample.pols ["LOG"]
              GuestNetExample.rules "" 0) as (r & Hr & Hn & _);
    [by split|vm_compute; reflexivity|vm_compute; reflexivity|reflexivity|discriminate|discriminate|vm_compute; reflexivity|vm_compute; reflexivity|vm_compute; reflexivity| |].
  - split_and!; [done|apply (bool_decide_unpack _); vm_compute; exact I|repeat constructor..].
  - by exists r.
Defined.

(** *** Surprising behaviour *)
Definition verdict (name : string) (answers : list (string * string)) : option string :=
  match QueryNetwork (GuestNetExample.env answers) "dev" GuestNetExample.all GuestNetExample.world with
  | (Ok r, _) => nc_Status <$> find (λ c, bool_decide (nc_Name c = name)) (gn_Checks (nr_Guest r))
  | (Err _, _) => None
  end.

(** A LAN resolver is only recognised when the interfaces could be read: with
    none, the DHCP router passes the leak check. *)
Example unread_lan_resolver_passes :
  verdict "guest:dns-leak" [(dns_script, "Link 2 (eth0): 192.168.1.1")] = Some NetCheckPass.
Proof. vm_compute. reflexivity. Qed.

(** Only IPv4 networks count as the LAN: a resolver on the same IPv6 prefix as
    the LAN interface passes. *)
Example ipv6_lan_resolver_passes :
  verdict "guest:dns-leak" [(or_unavailable "ip -o addr", print_table " " (addr_rows GuestNetExample.scope GuestNetExample.ifs));
                            (dns_script, "Link 2 (eth0): fd00::1")] = Some NetCheckPass.
Proof. vm_compute. reflexivity. Qed.

(** A rule that sends only marked packets into the tunnel, the opposite of the
    diversion looked for, passes the route check. *)
Example marked_only_rule_passes :
  verdict "guest:route" [(or_unavailable "ip rule", "100: from all fwmark 0x1 lookup 51820");
                         (or_unavailable "ip route show table 51820", "default dev wg0 scope link");
                         (or_unavailable "ip route show default", "default via 192.168.1.1 dev eth0")] = Some NetCheckPass.
Proof. vm_compute. reflexivity. Qed.

(** With an agent socket on record, a dead agent is the end of it: the SSH port
    is not tried, though the guest would answer there. *)
Example dead_agent_no_fallback script :
  let s := GuestNetExample.state <| s_QGASocket := "/vms/dev/qga.sock" |> in
  is_ok (execGuestShell (GuestNetExample.env []) GuestNetExample.cfg GuestNetExample.state script) = true ∧
  is_ok (execGuestShell (GuestNetExample.env []) GuestNetExample.cfg s script) = false.
Proof. split; reflexivity. Qed.
