(* ===== verification/Iso.v ===== *)
(** * The ISO 9660 writer of seed volumes

    [internal/cloudinit/iso9660.go] and [internal/cloudinit/seed.go]: the image
    cloud-init and the installers read their files from, byte for byte, and a
    reader of such volumes to state what the image means.  A byte is a [Z]
    below 256; 32-bit arithmetic wraps. *)
From S2P Require Import Prelude GoStrings Config.

Open Scope Z_scope.

(** ** Bytes and buffers *)
Definition u32 (z : Z) : Z := z mod 2 ^ 32.
Definition bytes_of (s : string) : list Z := (λ c, Z.of_N (N_of_ascii c)) <$> String.list_ascii_of_string s.

(** [binary.LittleEndian] and [binary.BigEndian] *)
Fixpoint le_bytes (n : nat) (v : Z) : list Z :=
  match n with O => [] | S n' => v mod 256 :: le_bytes n' (v / 256) end.
Definition be_bytes (n : nat) (v : Z) : list Z := reverse (le_bytes n v).

Fixpoint le_val (l : list Z) : Z := match l with [] => 0 | b :: l' => b + 256 * le_val l' end.
Definition be_val (l : list Z) : Z := le_val (reverse l).

(** [copy(buf[off:], data)] *)
Definition copy_at (off : nat) (data buf : list Z) : list Z :=
  take off buf ++ take (length buf - off) data ++ drop (off + length data) buf.
Definition zeros (n : Z) : list Z := replicate (Z.to_nat n) 0.

(** [buf[off:off+n]] *)
Definition read_at (off n : nat) (buf : list Z) : list Z := take n (drop off buf).

(** A [make([]byte, n)] filled in by copies, in order. *)
Definition apply_writes (ws : list (nat * list Z)) (buf : list Z) : list Z :=
  foldl (λ b w, copy_at w.1 w.2 b) buf ws.

(** ** Text *)

(** [[]rune(s)]: UTF-8, a byte that does not decode being U+FFFD. *)
Definition cont (lo hi b : Z) : bool := (lo <=? b) && (b <=? hi).
Definition decode_rune (b0 : Z) (l : list Z) : Z * nat :=
  let bad := (65533, 0%nat) in
  if b0 <? 128 then (b0, 0%nat)
  else if cont 194 223 b0 then
    match l with
    | b1 :: _ => if cont 128 191 b1 then ((b0 - 192) * 64 + (b1 - 128), 1%nat) else bad
    | _ => bad
    end
  else if cont 224 239 b0 then
    match l with
    | b1 :: b2 :: _ =>
        if cont (if b0 =? 224 then 160 else 128) (if b0 =? 237 then 159 else 191) b1 && cont 128 191 b2
        then (((b0 - 224) * 64 + (b1 - 128)) * 64 + (b2 - 128), 2%nat) else bad
    | _ => bad
    end
  else if cont 240 244 b0 then
    match l with
    | b1 :: b2 :: b3 :: _ =>
        if cont (if b0 =? 240 then 144 else 128) (if b0 =? 244 then 143 else 191) b1 && cont 128 191 b2 && cont 128 191 b3
        then ((((b0 - 240) * 64 + (b1 - 128)) * 64 + (b2 - 128)) * 64 + (b3 - 128), 3%nat) else bad
    | _ => bad
    end
  else bad.

(** [skip] bytes belong to the rune just decoded. *)
Fixpoint runes_from (skip : nat) (l : list Z) : list Z :=
  match l with
  | [] => []
  | b :: l' =>
      match skip with
      | S k => runes_from k l'
      | O => let '(r, k) := decode_rune b l' in r :: runes_from k l'
      end
  end.
Definition runes (s : string) : list Z := runes_from 0 (bytes_of s).

(** [utf16.Encode] *)
Definition utf16 (r : Z) : list Z :=
  if r <? 65536 then [r]
  else [55296 + (r - 65536) / 1024; 56320 + (r - 65536) mod 1024].

Definition ucs2BE (s : string) : list Z := mbind (be_bytes 2) (mbind utf16 (runes s)).

(** ** Volume descriptors *)
Definition isoSectorSize : Z := 2048.
Definition sec (sector : Z) : nat := Z.to_nat (sector * isoSectorSize).

Definition putBothEndian32 (v : Z) : list Z := le_bytes 4 v ++ be_bytes 4 v.
Definition putBothEndian16 (v : Z) : list Z := le_bytes 2 v ++ be_bytes 2 v.

(** The padding of a text region of [n] bytes. *)
Definition fillTextFields (n : nat) (joliet : bool) : list Z :=
  if joliet then mjoin (replicate (n / 2) [0; 32]) else replicate n 32.

Definition writeStrField (n : nat) (s : string) (joliet : bool) : list Z :=
  if joliet then
    let enc := take (2 * (n / 2)) (ucs2BE s) in
    enc ++ fillTextFields (n - length enc) true
  else take n (bytes_of s) ++ replicate (n - String.length s) 32.

Definition rootPathTableSize : Z := 10.

Record dirRecord := mkDirRecord { dr_name : string; dr_startSector : Z; dr_length : Z; dr_isDir : bool }.
Inductive dirKind := dirNormal | dirSelf | dirParent.

Definition dirIdent (name : string) (joliet : bool) : list Z :=
  if joliet then ucs2BE name else bytes_of (name +:+ ";1").

(** A record's length is one byte, and even where that leaves room. *)
Definition recLen (ident : list Z) : Z :=
  let n := 33 + Z.of_nat (length ident) in
  let n := if n mod 2 =? 0 then n else n + 1 in
  if 255 <? n then 255 else n.

Definition buildDirRecord (r : dirRecord) (kind : dirKind) (joliet : bool) : list Z :=
  let ident := match kind with
               | dirSelf => [0]
               | dirParent => [1]
               | dirNormal => dirIdent (dr_name r) joliet
               end in
  apply_writes
    [(0%nat, [recLen ident]); (2%nat, putBothEndian32 (dr_startSector r)); (10%nat, putBothEndian32 (dr_length r));
     (25%nat, [if dr_isDir r then 2 else 0]); (28%nat, putBothEndian16 1);
     (32%nat, [Z.of_nat (length ident) mod 256]); (33%nat, ident)]
    (zeros (recLen ident)).

Record volDescParams := mkVolDescParams {
  vd_descType : Z; vd_joliet : bool; vd_volID : string; vd_totalSectors : Z;
  vd_pathTableLBA : Z; vd_pathTableMLBA : Z; vd_rootDirLBA : Z }.

Definition CD001 : list Z := bytes_of "CD001".

Definition buildVolumeDescriptor (p : volDescParams) : list Z :=
  apply_writes
    ([(0%nat, [vd_descType p]); (1%nat, CD001); (6%nat, [1])] ++
     (if vd_joliet p then [(88%nat, [37; 47; 69])] else []) ++
     [(40%nat, writeStrField 32 (vd_volID p) (vd_joliet p));
      (80%nat, putBothEndian32 (vd_totalSectors p));
      (120%nat, putBothEndian16 1); (124%nat, putBothEndian16 1); (128%nat, putBothEndian16 isoSectorSize);
      (132%nat, putBothEndian32 rootPathTableSize);
      (140%nat, le_bytes 4 (vd_pathTableLBA p)); (148%nat, be_bytes 4 (vd_pathTableMLBA p));
      (156%nat, buildDirRecord (mkDirRecord "" (vd_rootDirLBA p) isoSectorSize true) dirSelf (vd_joliet p));
      (190%nat, fillTextFields 623 (vd_joliet p));
      (881%nat, [1])])
    (zeros isoSectorSize).

Definition buildRootPathTable (rootDirLBA : Z) (bigEndian : bool) : list Z :=
  apply_writes
    [(0%nat, [1]); (1%nat, [0]);
     (2%nat, if bigEndian then be_bytes 4 rootDirLBA else le_bytes 4 rootDirLBA);
     (6%nat, if bigEndian then be_bytes 2 1 else le_bytes 2 1); (8%nat, [0]); (9%nat, [0])]
    (zeros isoSectorSize).

(** ** The directory

    A record past the end of the extent is a slice out of range. *)
Definition panic : error := Errorf "runtime error: slice bounds out of range" [].

Fixpoint dir_records (s : list Z) (off : nat) (recs : list (list Z)) : result error (list Z) :=
  match recs with
  | [] => Ok s
  | rec :: recs' =>
      if (length s <? off)%nat then Err panic
      else dir_records (copy_at off rec s) (off + length rec) recs'
  end.

Definition buildDirectory (dirLBA : Z) (files : list dirRecord) (joliet : bool) : result error (list Z) :=
  let dot kind := buildDirRecord (mkDirRecord "" dirLBA isoSectorSize true) kind joliet in
  dir_records (zeros isoSectorSize) 0
    (dot dirSelf :: dot dirParent :: ((λ f, buildDirRecord f dirNormal joliet) <$> files)).

(** ** The image *)
Record isoFile := mkIsoFile { if_name : string; if_data : list Z }.

Definition maxFileBytes : Z := 64 * 2 ^ 20.

(** Sectors a file takes; an empty one takes one too. *)
Definition file_sectors (f : isoFile) : Z :=
  let n := u32 ((Z.of_nat (length (if_data f)) + isoSectorSize - 1) / isoSectorSize) in
  if n =? 0 then 1 else n.

(** The files with their first sectors, and the sector after the last. *)
Fixpoint place (sector : Z) (files : list isoFile) : list (isoFile * Z) * Z :=
  match files with
  | [] => ([], sector)
  | f :: files' =>
      let '(placed, total) := place (u32 (sector + file_sectors f)) files' in
      ((f, sector) :: placed, total)
  end.

Definition pvdSector : Z := 16.
Definition jolietSector : Z := 17.
Definition terminatorSec : Z := 18.
Definition pathLPrimary : Z := 19.
Definition pathMPrimary : Z := 20.
Definition pathLJoliet : Z := 21.
Definition pathMJoliet : Z := 22.
Definition rootPrimarySec : Z := 23.
Definition rootJolietSec : Z := 24.
Definition firstFileSec : Z := 25.

Definition terminator : list Z := apply_writes [(0%nat, [255]); (1%nat, CD001); (6%nat, [1])] (zeros isoSectorSize).

Definition dir_entry (p : isoFile * Z) : dirRecord :=
  mkDirRecord (if_name p.1) p.2 (u32 (Z.of_nat (length (if_data p.1)))) false.

Definition writeISO (volID : string) (files : list isoFile) : result error (list Z) :=
  match find (λ f, maxFileBytes <? Z.of_nat (length (if_data f))) files with
  | Some f => Err (Errorf "cidata seed file exceeds the limit" [if_name f])
  | None =>
      let '(placed, total) := place firstFileSec files in
      let vd t j := buildVolumeDescriptor (mkVolDescParams t j volID total
                      (if j : bool then pathLJoliet else pathLPrimary) (if j then pathMJoliet else pathMPrimary)
                      (if j then rootJolietSec else rootPrimarySec)) in
      match buildDirectory rootPrimarySec (dir_entry <$> placed) false with
      | Err e => Err e
      | Ok dirP =>
          match buildDirectory rootJolietSec (dir_entry <$> placed) true with
          | Err e => Err e
          | Ok dirJ =>
              Ok (apply_writes
                    ([(sec pvdSector, vd 1 false); (sec jolietSector, vd 2 true); (sec terminatorSec, terminator);
                      (sec pathLPrimary, buildRootPathTable rootPrimarySec false);
                      (sec pathMPrimary, buildRootPathTable rootPrimarySec true);
                      (sec pathLJoliet, buildRootPathTable rootJolietSec false);
                      (sec pathMJoliet, buildRootPathTable rootJolietSec true);
                      (sec rootPrimarySec, dirP); (sec rootJolietSec, dirJ)] ++
                     ((λ p, (sec p.2, if_data p.1)) <$> placed))
                    (zeros (total * isoSectorSize)))
          end
      end
  end.

(** ** The seed volumes *)
Record IsoEnv := mkIsoEnv { ie_mkdir : option error; ie_write : option error }.

(** [GenerateSeed], with the image that is written. *)
Definition GenerateSeed (env : IsoEnv) (vmDir : string) (files : list SeedFile) : result error (string * list Z) :=
  match files with
  | [] => Err (Errorf "seed ISO: no files given" [])
  | _ =>
      match ie_mkdir env with
      | Some e => Err e
      | None =>
          match writeISO "cidata" ((λ f, mkIsoFile (sf_Name f) (bytes_of (sf_Content f))) <$> files) with
          | Err e => Err e
          | Ok img => match ie_write env with
                      | Some e => Err (Wrapf "write ISO" e)
                      | None => Ok (PathJoin [vmDir; "seed.iso"], img)
                      end
          end
      end
  end.

(** [buildISONative], from the two files' contents. *)
Definition buildISONative (ud md : list Z) : result error (list Z) :=
  writeISO "cidata" [mkIsoFile "user-data" ud; mkIsoFile "meta-data" md].

(** ** Reading a volume (ECMA-119): what the image says *)
Record entry := mkEntry { e_ident : list Z; e_start : Z; e_length : Z; e_dir : bool }.

Definition read_record (rec : list Z) : entry :=
  mkEntry (read_at 33 (Z.to_nat (nth 32 rec 0)) rec) (le_val (read_at 2 4 rec)) (le_val (read_at 10 4 rec))
    (Z.testbit (nth 25 rec 0) 1).

(** The records of an extent up to the first of length zero. *)
Fixpoint read_records (fuel : nat) (dir : list Z) : list entry :=
  match fuel, dir with
  | S fuel', len :: _ =>
      if len =? 0 then []
      else read_record (take (Z.to_nat len) dir) :: read_records fuel' (drop (Z.to_nat len) dir)
  | _, _ => []
  end.

Definition readISO (joliet : bool) (img : list Z) : option (list (list Z * list Z)) :=
  let vd := read_at (sec (if joliet then jolietSector else pvdSector)) (Z.to_nat isoSectorSize) img in
  if bool_decide (read_at 0 7 vd = [if joliet then 2 else 1] ++ CD001 ++ [1]) then
    let root := read_record (read_at 156 34 vd) in
    let dir := read_at (sec (e_start root)) (Z.to_nat (e_length root)) img in
    Some ((λ e, (e_ident e, read_at (sec (e_start e)) (Z.to_nat (e_length e)) img)) <$>
          filter (λ e, e_dir e = false) (read_records (length dir) dir))
  else None.

(** ** Lemmas on buffers *)
Lemma length_copy_at off d buf : (off + length d <= length buf)%nat → length (copy_at off d buf) = length buf.
Proof. intros Hl. unfold copy_at. rewrite !length_app, !length_take, length_drop. lia. Qed.

Lemma copy_at_eq off d buf : (off + length d <= length buf)%nat →
  copy_at off d buf = take off buf ++ d ++ drop (off + length d) buf.
Proof. intros Hl. unfold copy_at. by rewrite (take_ge d) by lia. Qed.

Lemma read_copy_same off d buf : (off + length d <= length buf)%nat → read_at off (length d) (copy_at off d buf) = d.
Proof.
  intros Hl. rewrite copy_at_eq by done. unfold read_at.
  rewrite drop_app_length' by (rewrite length_take; lia). by rewrite take_app_length.
Qed.
Lemma read_copy_before off n o d buf : (off + n <= o)%nat → (o + length d <= length buf)%nat →
  read_at off n (copy_at o d buf) = read_at off n buf.
Proof.
  intros Hb Hl. rewrite copy_at_eq by done. unfold read_at. rewrite !take_drop_commute. f_equal.
  rewrite take_app_le by (rewrite length_take; lia). rewrite take_take. f_equal. lia.
Qed.
Lemma read_copy_after off n o d buf : (o + length d <= off)%nat → (o + length d <= length buf)%nat →
  read_at off n (copy_at o d buf) = read_at off n buf.
Proof.
  intros Hb Hl. rewrite copy_at_eq by done. unfold read_at. rewrite (app_assoc (take o buf)).
  rewrite drop_app_ge by (rewrite length_app, length_take; lia). rewrite length_app, length_take, drop_drop.
  do 2 f_equal. lia.
Qed.
(** A piece of a piece. *)
Lemma read_read a n b m buf : (b + m <= n)%nat → read_at b m (read_at a n buf) = read_at (a + b) m buf.
Proof.
  intros Hl. unfold read_at. rewrite <-drop_drop. set (l := drop a buf).
  rewrite !take_drop_commute, take_take. do 2 f_equal. lia.
Qed.

(** Writes that follow one another. *)
Fixpoint chain (lo : nat) (ws : list (nat * list Z)) (hi : nat) : Prop :=
  match ws with
  | [] => (lo <= hi)%nat
  | (o, d) :: ws' => (lo <= o)%nat ∧ chain (o + length d) ws' hi
  end.
Lemma chain_le lo ws hi : chain lo ws hi → (lo <= hi)%nat.
Proof. revert lo. induction ws as [|[o d] ws IH]; cbn; intros lo; [done|]. intros [? ?%IH]. lia. Qed.
Lemma chain_app lo ws1 ws2 mid hi : chain lo ws1 mid → chain mid ws2 hi → chain lo (ws1 ++ ws2) hi.
Proof.
  revert lo. induction ws1 as [|[o d] ws1 IH]; cbn; intros lo.
  - intros Hl. destruct ws2 as [|[o d] ws2]; cbn; [lia|]. intros [? ?]. split; [lia|done].
  - intros [? ?] ?. split; [done|]. by apply IH.
Qed.

Lemma length_writes lo ws buf : chain lo ws (length buf) → length (apply_writes ws buf) = length buf.
Proof.
  revert lo buf. induction ws as [|[o d] ws IH]; intros lo buf; [done|]. cbn [chain]. intros [_ Hc].
  pose proof (chain_le _ _ _ Hc). change (apply_writes ((o, d) :: ws) buf) with (apply_writes ws (copy_at o d buf)).
  erewrite IH; rewrite length_copy_at; done.
Qed.
Lemma read_before off n lo ws buf : chain lo ws (length buf) → (off + n <= lo)%nat →
  read_at off n (apply_writes ws buf) = read_at off n buf.
Proof.
  revert lo buf. induction ws as [|[o d] ws IH]; intros lo buf; [done|]. cbn [chain]. intros [? Hc] Hl.
  pose proof (chain_le _ _ _ Hc). change (apply_writes ((o, d) :: ws) buf) with (apply_writes ws (copy_at o d buf)).
  rewrite (IH (o + length d)%nat); [apply read_copy_before; lia|by rewrite length_copy_at|lia].
Qed.
(** What was written is read back. *)
Lemma read_written lo ws buf o d : chain lo ws (length buf) → (o, d) ∈ ws →
  read_at o (length d) (apply_writes ws buf) = d.
Proof.
  revert lo buf. induction ws as [|[o' d'] ws IH]; intros lo buf; [by rewrite elem_of_nil|]. cbn [chain].
  intros [? Hc] Hin. pose proof (chain_le _ _ _ Hc).
  change (apply_writes ((o', d') :: ws) buf) with (apply_writes ws (copy_at o' d' buf)).
  apply elem_of_cons in Hin as [[= -> ->]|Hin].
  - rewrite (read_before _ _ (o' + length d')); [by apply read_copy_same|by rewrite length_copy_at|lia].
  - apply (IH (o' + length d')%nat); [by rewrite length_copy_at|done].
Qed.

Lemma length_zeros n : length (zeros n) = Z.to_nat n.
Proof. apply length_replicate. Qed.

(** ** Lemmas on numbers *)
Lemma length_le_bytes n v : length (le_bytes n v) = n.
Proof. revert v. induction n as [|n IH]; intros v; [done|]. cbn. by rewrite IH. Qed.
Lemma length_be_bytes n v : length (be_bytes n v) = n.
Proof. unfold be_bytes. by rewrite length_reverse, length_le_bytes. Qed.
Lemma le_val_bytes n v : le_val (le_bytes n v) = v mod 256 ^ Z.of_nat n.
Proof.
  revert v. induction n as [|n IH]; intros v; [cbn; by rewrite Z.mod_1_r|]. cbn [le_bytes le_val]. rewrite IH.
  rewrite Nat2Z.inj_succ, Z.pow_succ_r by lia. rewrite Z.rem_mul_r by lia. lia.
Qed.
Lemma be_val_bytes n v : be_val (be_bytes n v) = v mod 256 ^ Z.of_nat n.
Proof. unfold be_val, be_bytes. by rewrite reverse_involutive, le_val_bytes. Qed.

Lemma read_nth o buf x : read_at o 1 buf = [x] → nth o buf 0 = x.
Proof.
  unfold read_at. revert buf. induction o as [|o IH]; intros [|b buf]; cbn; try done.
  - by intros [= ->].
  - apply IH.
Qed.

(** ** Lemmas on directory records *)
Lemma length_both32 v : length (putBothEndian32 v) = 8%nat.
Proof. unfold putBothEndian32. by rewrite length_app, length_le_bytes, length_be_bytes. Qed.
Lemma length_both16 v : length (putBothEndian16 v) = 4%nat.
Proof. unfold putBothEndian16. by rewrite length_app, length_le_bytes, length_be_bytes. Qed.
Lemma both32_le v : le_val (read_at 0 4 (putBothEndian32 v)) = u32 v.
Proof.
  unfold read_at, putBothEndian32. rewrite drop_0, take_app_length' by by rewrite length_le_bytes.
  rewrite le_val_bytes. done.
Qed.
Lemma both32_be v : be_val (read_at 4 4 (putBothEndian32 v)) = u32 v.
Proof.
  unfold read_at, putBothEndian32. rewrite drop_app_length' by by rewrite length_le_bytes.
  rewrite take_ge by by rewrite length_be_bytes. rewrite be_val_bytes. done.
Qed.

Definition ident_of (r : dirRecord) (kind : dirKind) (joliet : bool) : list Z :=
  match kind with dirSelf => [0] | dirParent => [1] | dirNormal => dirIdent (dr_name r) joliet end.

Lemma recLen_range ident : (length ident <= 222)%nat →
  33 + Z.of_nat (length ident) <= recLen ident <= 255 ∧ 33 <= recLen ident.
Proof.
  intros Hl. unfold recLen. destruct (_ =? 0), (255 <? _) eqn:E; try (apply Z.ltb_lt in E || apply Z.ltb_ge in E); try lia.
Qed.

Section Record.
Context (r : dirRecord) (kind : dirKind) (joliet : bool).
Let ident := ident_of r kind joliet.
Context (Hfit : (length ident <= 222)%nat).

Definition record_writes : list (nat * list Z) :=
  [(0%nat, [recLen ident]); (2%nat, putBothEndian32 (dr_startSector r)); (10%nat, putBothEndian32 (dr_length r));
   (25%nat, [if dr_isDir r then 2 else 0]); (28%nat, putBothEndian16 1);
   (32%nat, [Z.of_nat (length ident) mod 256]); (33%nat, ident)].
Lemma record_eq : buildDirRecord r kind joliet = apply_writes record_writes (zeros (recLen ident)).
Proof. done. Qed.

Lemma record_chain : chain 0 record_writes (length (zeros (recLen ident))).
Proof.
  pose proof (recLen_range ident Hfit). rewrite length_zeros.
  unfold record_writes. cbn [chain]. rewrite !length_both32, length_both16. cbn [length]. lia.
Qed.
Lemma record_length : length (buildDirRecord r kind joliet) = Z.to_nat (recLen ident).
Proof. rewrite record_eq, (length_writes 0) by exact record_chain. apply length_zeros. Qed.

Lemma record_field o d : (o, d) ∈ record_writes → read_at o (length d) (buildDirRecord r kind joliet) = d.
Proof. rewrite record_eq. apply read_written with 0%nat, record_chain. Qed.

Lemma record_head : ∃ rest, buildDirRecord r kind joliet = recLen ident :: rest.
Proof.
  pose proof (record_field 0 [recLen ident]) as Hf. unfold read_at in Hf. rewrite drop_0 in Hf.
  destruct (buildDirRecord r kind joliet) as [|b rest]; cbn in Hf.
  - discriminate Hf. by left.
  - exists rest. f_equal. assert ([b] = [recLen ident]) as Hb by (rewrite <-Hf; [done|by left]). by injection Hb.
Qed.

Lemma record_read : read_record (buildDirRecord r kind joliet) =
  mkEntry ident (u32 (dr_startSector r)) (u32 (dr_length r)) (dr_isDir r).
Proof.
  unfold read_record.
  rewrite (read_nth 32 _ (Z.of_nat (length ident) mod 256)) by (apply (record_field 32 [_]); unfold record_writes; set_solver).
  rewrite (read_nth 25 _ (if dr_isDir r then 2 else 0)) by (apply (record_field 25 [_]); unfold record_writes; set_solver).
  rewrite Z.mod_small, Nat2Z.id by lia. f_equal.
  - apply (record_field 33). unfold record_writes. set_solver.
  - rewrite <-(Nat.add_0_r 2), <-(read_read 2 8) by lia. rewrite <-(length_both32 (dr_startSector r)).
    rewrite record_field by (unfold record_writes; set_solver). apply both32_le.
  - rewrite <-(Nat.add_0_r 10), <-(read_read 10 8) by lia. rewrite <-(length_both32 (dr_length r)).
    rewrite record_field by (unfold record_writes; set_solver). apply both32_le.
  - by destruct (dr_isDir r).
Qed.
End Record.

(** ** Lemmas on directories *)
Lemma dir_records_ok s off recs : (off + length (mjoin recs) <= length s)%nat →
  dir_records s off recs = Ok (take off s ++ mjoin recs ++ drop (off + length (mjoin recs)) s).
Proof.
  revert s off. induction recs as [|rec recs IH]; intros s off.
  - intros _. change (mjoin (M:=list) []) with (@nil Z). cbn. by rewrite Nat.add_0_r, take_drop.
  - change (mjoin (rec :: recs)) with (rec ++ mjoin recs). rewrite length_app. intros Hl. cbn [dir_records].
    destruct (Nat.ltb_spec (length s) off); [lia|].
    rewrite IH by (rewrite length_copy_at; lia). f_equal. rewrite copy_at_eq by lia.
    rewrite (app_assoc (take off s)). rewrite take_app_length' by (rewrite length_app, length_take; lia).
    rewrite <-!app_assoc. do 3 f_equal.
    rewrite (app_assoc (take off s)), drop_app_ge by (rewrite length_app, length_take; lia).
    rewrite length_app, length_take, drop_drop. f_equal. lia.
Qed.

(** A record that says how long it is. *)
Definition sized (rec : list Z) : Prop := ∃ len rest, rec = len :: rest ∧ 1 < len ∧ length rec = Z.to_nat len.

Lemma read_records_all fuel recs k : Forall sized recs → (length recs < fuel)%nat →
  read_records fuel (mjoin recs ++ replicate k 0) = read_record <$> recs.
Proof.
  intros Hs. revert fuel. induction Hs as [|rec recs (len & rest & Hr & Hp & Hl) _ IH]; intros fuel Hf;
    (destruct fuel as [|fuel]; [cbn in Hf; lia|]).
  - by destruct k.
  - change (mjoin (rec :: recs)) with (rec ++ mjoin recs). rewrite <-app_assoc.
    assert (∃ tl, rec ++ mjoin recs ++ replicate k 0 = len :: tl) as [tl E] by (rewrite Hr; by eexists).
    rewrite E at 1. cbn [read_records]. rewrite <-E. destruct (Z.eqb_spec len 0); [lia|]. cbn [fmap list_fmap].
    rewrite <-Hl, take_app_length, drop_app_length. rewrite IH; [done|cbn in Hf; lia].
Qed.

Definition dir_size (joliet : bool) (names : list string) : Z :=
  68 + foldr (λ n acc, recLen (dirIdent n joliet) + acc) 0 names.

Lemma build_sized r kind j : (length (ident_of r kind j) <= 222)%nat → sized (buildDirRecord r kind j).
Proof.
  intros Hf. destruct (record_head r kind j Hf) as (rest & E). pose proof (recLen_range _ Hf).
  eexists _, rest. split; [exact E|]. split; [lia|]. by apply record_length.
Qed.

Lemma buildDirectory_ok lba files j : Forall (λ f, length (dirIdent (dr_name f) j) <= 222)%nat files →
  dir_size j (dr_name <$> files) <= isoSectorSize →
  ∃ dir, buildDirectory lba files j = Ok dir ∧ length dir = Z.to_nat isoSectorSize ∧
    filter (λ e, e_dir e = false) (read_records (length dir) dir) =
      filter (λ e, e_dir e = false)
        ((λ f, mkEntry (dirIdent (dr_name f) j) (u32 (dr_startSector f)) (u32 (dr_length f)) (dr_isDir f)) <$> files).
Proof.
  intros Hfit Hsz. unfold buildDirectory. set (root := mkDirRecord "" lba isoSectorSize true).
  set (recs := buildDirRecord root dirSelf j :: buildDirRecord root dirParent j :: _).
  assert (Hj : Z.of_nat (length (mjoin recs)) = dir_size j (dr_name <$> files)).
  { unfold recs, dir_size. change (mjoin (?a :: ?b :: ?l)) with (a ++ b ++ mjoin l).
    rewrite !length_app, !record_length by (cbn; lia). cbn [ident_of].
    change (recLen [0]) with 34. change (recLen [1]) with 34.
    enough (Z.of_nat (length (mjoin ((λ f, buildDirRecord f dirNormal j) <$> files))) =
      foldr (λ n acc, recLen (dirIdent n j) + acc) 0 (dr_name <$> files)) by lia.
    clear -Hfit. induction Hfit as [|f files Hf _ IH]; [done|].
    change (mjoin ((λ f, buildDirRecord f dirNormal j) <$> f :: files))
      with (buildDirRecord f dirNormal j ++ mjoin ((λ f, buildDirRecord f dirNormal j) <$> files)).
    rewrite length_app, record_length, Nat2Z.inj_add, IH by exact Hf. cbn [fmap list_fmap foldr].
    pose proof (recLen_range _ Hf). cbn [ident_of]. lia. }
  assert (Hall : Forall sized recs).
  { unfold recs. constructor; [apply build_sized; cbn; lia|]. constructor; [apply build_sized; cbn; lia|].
    apply Forall_fmap. eapply Forall_impl; [exact Hfit|]. intros f Hf. exact (build_sized f dirNormal j Hf). }
  assert (Hn : (2 * length recs <= length (mjoin recs))%nat).
  { clear -Hall. induction Hall as [|rec recs (len & rest & _ & Hp & Hl) _ IH]; [done|].
    change (mjoin (rec :: recs)) with (rec ++ mjoin recs). rewrite length_app, Hl. cbn [length]. lia. }
  assert (Hr : (2 <= length recs)%nat) by (unfold recs; cbn [length]; lia).
  rewrite dir_records_ok by (rewrite length_zeros; unfold isoSectorSize in *; lia).
  eexists. split; [done|]. rewrite take_0. cbn [app].
  assert (drop (0 + length (mjoin recs)) (zeros isoSectorSize) =
    replicate (Z.to_nat isoSectorSize - length (mjoin recs)) 0) as ->.
  { unfold zeros. by rewrite drop_replicate. }
  rewrite length_app, length_replicate. split; [unfold isoSectorSize in *; lia|].
  rewrite read_records_all; [|done|unfold isoSectorSize in *; lia].
  unfold recs. cbn [fmap list_fmap]. rewrite !record_read by (cbn; lia).
  rewrite !filter_cons_False by done. f_equal. rewrite <-list_fmap_compose. apply list_fmap_ext.
  intros i f Hf. rewrite Forall_lookup in Hfit. exact (record_read f dirNormal j (Hfit _ _ Hf)).
Qed.

(** ** Lemmas on descriptors *)
Lemma length_fill n j : (length (fillTextFields n j) <= n)%nat.
Proof.
  unfold fillTextFields. destruct j; [|by rewrite length_replicate].
  assert (length (mjoin (replicate (n / 2) [0; 32])) = (2 * (n / 2))%nat) as ->.
  { induction (n / 2)%nat as [|k IH]; [done|]. change (replicate (S k) [0; 32]) with ([0; 32] :: replicate k [0; 32]).
    change (mjoin ([0; 32] :: replicate k [0; 32])) with ([0; 32] ++ mjoin (replicate k [0; 32])).
    rewrite length_app, IH. cbn [length]. lia. }
  apply Nat.Div0.mul_div_le.
Qed.
Lemma length_bytes_of s : length (bytes_of s) = String.length s.
Proof. unfold bytes_of. rewrite length_fmap. induction s; cbn; congruence. Qed.
Lemma length_field n s j : (length (writeStrField n s j) <= n)%nat.
Proof.
  unfold writeStrField. destruct j.
  - rewrite length_app. set (enc := take _ _). assert (length enc <= n)%nat.
    { unfold enc. rewrite length_take. pose proof (Nat.Div0.mul_div_le n 2). lia. }
    pose proof (length_fill (n - length enc) true). lia.
  - rewrite length_app, length_take, length_replicate, length_bytes_of. lia.
Qed.

Section Descriptor.
Context (p : volDescParams).

(** The writes, in two runs each in order. *)
Definition head_writes : list (nat * list Z) :=
  [(0%nat, [vd_descType p]); (1%nat, CD001); (6%nat, [1])] ++ (if vd_joliet p then [(88%nat, [37; 47; 69])] else []).
Definition body_writes : list (nat * list Z) :=
  [(40%nat, writeStrField 32 (vd_volID p) (vd_joliet p));
   (80%nat, putBothEndian32 (vd_totalSectors p));
   (120%nat, putBothEndian16 1); (124%nat, putBothEndian16 1); (128%nat, putBothEndian16 isoSectorSize);
   (132%nat, putBothEndian32 rootPathTableSize);
   (140%nat, le_bytes 4 (vd_pathTableLBA p)); (148%nat, be_bytes 4 (vd_pathTableMLBA p));
   (156%nat, buildDirRecord (mkDirRecord "" (vd_rootDirLBA p) isoSectorSize true) dirSelf (vd_joliet p));
   (190%nat, fillTextFields 623 (vd_joliet p)); (881%nat, [1])].

Let buf := apply_writes head_writes (zeros isoSectorSize).
Lemma descriptor_eq : buildVolumeDescriptor p = apply_writes body_writes buf.
Proof.
  unfold buildVolumeDescriptor, buf, apply_writes. rewrite (app_assoc [_; _; _]), foldl_app. done.
Qed.
Lemma head_length : length buf = Z.to_nat isoSectorSize.
Proof.
  unfold buf. rewrite (length_writes 0), length_zeros; [done|]. rewrite length_zeros. unfold head_writes, isoSectorSize.
  destruct (vd_joliet p); cbn [app chain length CD001]; change (length CD001) with 5%nat; lia.
Qed.
Lemma body_chain : chain 40 body_writes (length buf).
Proof.
  rewrite head_length. unfold body_writes. cbn [chain].
  rewrite !length_both32, !length_both16, length_le_bytes, length_be_bytes.
  pose proof (length_field 32 (vd_volID p) (vd_joliet p)). pose proof (length_fill 623 (vd_joliet p)).
  rewrite record_length by (cbn; lia). change (Z.to_nat (recLen _)) with 34%nat. cbn [length]. unfold isoSectorSize. lia.
Qed.
Lemma descriptor_length : length (buildVolumeDescriptor p) = Z.to_nat isoSectorSize.
Proof. rewrite descriptor_eq, (length_writes 40) by exact body_chain. exact head_length. Qed.

Lemma descriptor_magic : vd_descType p = (if vd_joliet p then 2 else 1) →
  read_at 0 7 (buildVolumeDescriptor p) = [if vd_joliet p then 2 else 1] ++ CD001 ++ [1].
Proof.
  intros Htype. rewrite descriptor_eq, (read_before _ _ 40) by (exact body_chain || lia).
  unfold buf, head_writes. rewrite Htype. destruct (vd_joliet p); vm_compute; reflexivity.
Qed.
Lemma descriptor_root : read_record (read_at 156 34 (buildVolumeDescriptor p)) =
  mkEntry [0] (u32 (vd_rootDirLBA p)) isoSectorSize true.
Proof.
  rewrite descriptor_eq.
  assert (read_at 156 34 (apply_writes body_writes buf) =
    buildDirRecord (mkDirRecord "" (vd_rootDirLBA p) isoSectorSize true) dirSelf (vd_joliet p)) as ->.
  { etrans; [|apply (read_written 40 body_writes buf 156)]; [|exact body_chain|unfold body_writes; set_solver].
    by rewrite record_length by (cbn; lia). }
  by rewrite record_read by (cbn; lia).
Qed.
Lemma descriptor_size : le_val (read_at 80 4 (buildVolumeDescriptor p)) = u32 (vd_totalSectors p) ∧
  be_val (read_at 84 4 (buildVolumeDescriptor p)) = u32 (vd_totalSectors p).
Proof.
  assert (read_at 80 8 (buildVolumeDescriptor p) = putBothEndian32 (vd_totalSectors p)) as E.
  { rewrite descriptor_eq, <-(length_both32 (vd_totalSectors p)).
    apply (read_written 40); [exact body_chain|unfold body_writes; set_solver]. }
  split; [rewrite <-both32_le|rewrite <-both32_be]; by rewrite <-E, read_read by lia.
Qed.
End Descriptor.

(** ** Lemmas on the placement of files *)
Lemma file_sectors_spec f : Z.of_nat (length (if_data f)) <= maxFileBytes →
  1 <= file_sectors f <= 32768 ∧ Z.of_nat (length (if_data f)) <= file_sectors f * isoSectorSize.
Proof.
  unfold maxFileBytes, file_sectors, isoSectorSize. intros Hl. set (n := Z.of_nat _) in *.
  assert (0 <= (n + 2048 - 1) / 2048 <= 32768) as Hr.
  { split; [apply Z.div_pos; lia|]. apply Z.lt_succ_r, Z.div_lt_upper_bound; lia. }
  unfold u32. rewrite Z.mod_small by lia. pose proof (Z.div_mod (n + 2048 - 1) 2048 ltac:(lia)).
  pose proof (Z.mod_pos_bound (n + 2048 - 1) 2048 ltac:(lia)).
  destruct (Z.eqb_spec ((n + 2048 - 1) / 2048) 0); lia.
Qed.

Lemma place_ok s files : Forall (λ f, Z.of_nat (length (if_data f)) <= maxFileBytes) files →
  0 <= s → s + 32768 * Z.of_nat (length files) < 2 ^ 32 →
  let '(placed, total) := place s files in
  placed.*1 = files ∧ s <= total < 2 ^ 32 ∧ Forall (λ p, 0 <= p.2 < 2 ^ 32) placed ∧
  chain (sec s) ((λ p, (sec p.2, if_data p.1)) <$> placed) (sec total).
Proof.
  intros Hf. revert s. induction Hf as [|f files Hf _ IH]; intros s Hs Hb; cbn [place].
  - cbn [length] in Hb. split_and!; (done || lia || constructor).
  - destruct (file_sectors_spec f Hf) as [Hn Hl]. cbn [length] in Hb.
    assert (u32 (s + file_sectors f) = s + file_sectors f) as Hu by (unfold u32; rewrite Z.mod_small; lia).
    specialize (IH (u32 (s + file_sectors f)) ltac:(lia) ltac:(lia)).
    destruct (place (u32 (s + file_sectors f)) files) as [placed total].
    destruct IH as (IH1 & IH2 & IH3 & IH4). rewrite Hu in *. cbn [fmap list_fmap]. split_and!.
    + by rewrite IH1.
    + lia.
    + lia.
    + constructor; [cbn; lia|done].
    + cbn [chain fst snd]. split; [done|]. 
      assert (Hle : (sec s + length (if_data f) <= sec (s + file_sectors f))%nat) by (unfold sec, isoSectorSize in *; lia).
      clear -IH4 Hle. destruct ((λ p : isoFile * Z, (sec p.2, if_data p.1)) <$> placed) as [|[o d] ws]; cbn in *; [lia|].
      destruct IH4. split; [lia|done].
Qed.

(** ** Claims *)

(** A set of files a one-sector root directory can hold. *)
Definition fits (files : list isoFile) : bool :=
  forallb (λ f, (Z.of_nat (length (if_data f)) <=? maxFileBytes) &&
                forallb (λ j, Z.of_nat (length (dirIdent (if_name f) j)) <=? 222) [false; true]) files &&
  forallb (λ j, dir_size j (if_name <$> files) <=? isoSectorSize) [false; true].

Lemma fits_spec files : fits files = true →
  Forall (λ f, Z.of_nat (length (if_data f)) <= maxFileBytes) files ∧
  (∀ j, Forall (λ f, length (dirIdent (if_name f) j) <= 222)%nat files) ∧
  (∀ j, dir_size j (if_name <$> files) <= isoSectorSize) ∧ (length files <= 60)%nat.
Proof.
  unfold fits. intros [Hf Hd]%andb_true_iff. rewrite forallb_forall in Hf.
  assert (Hfile : ∀ f, f ∈ files → Z.of_nat (length (if_data f)) <= maxFileBytes ∧
    ∀ j, (length (dirIdent (if_name f) j) <= 222)%nat).
  { intros f Hin. apply list_elem_of_In, Hf, andb_true_iff in Hin as [Hs Hn]. apply Z.leb_le in Hs. split; [done|].
    cbn [forallb] in Hn. rewrite !andb_true_iff in Hn. destruct Hn as (H1%Z.leb_le & H2%Z.leb_le & _). intros []; lia. }
  assert (Hsz : ∀ j, dir_size j (if_name <$> files) <= isoSectorSize).
  { cbn [forallb] in Hd. rewrite !andb_true_iff in Hd. destruct Hd as (H1%Z.leb_le & H2%Z.leb_le & _). by intros []. }
  split_and!; [apply Forall_forall; intros f Hin; by apply Hfile|intros j; apply Forall_forall; intros f Hin; by apply Hfile|done|].
  specialize (Hsz false). unfold dir_size, isoSectorSize in Hsz.
  enough (33 * Z.of_nat (length files) <= foldr (λ n acc, recLen (dirIdent n false) + acc) 0 (if_name <$> files)) by lia.
  clear -Hfile. induction files as [|f files IH]; [done|]. cbn [length fmap list_fmap foldr].
  destruct (Hfile f) as [_ Hn]; [by left|]. pose proof (recLen_range _ (Hn false)).
  assert (33 * Z.of_nat (length files) <= foldr (λ n acc, recLen (dirIdent n false) + acc) 0 (if_name <$> files)).
  { apply IH. intros g Hg. apply Hfile. by right. }
  unfold fmap in *. lia.
Qed.

Lemma length_path_table lba be : length (buildRootPathTable lba be) = Z.to_nat isoSectorSize.
Proof.
  unfold buildRootPathTable. rewrite (length_writes 0), length_zeros; [done|]. rewrite length_zeros. unfold isoSectorSize.
  destruct be; cbn [chain]; rewrite ?length_le_bytes, ?length_be_bytes; cbn [length]; lia.
Qed.
Lemma length_terminator : length terminator = Z.to_nat isoSectorSize.
Proof.
  unfold terminator. rewrite (length_writes 0), length_zeros; [done|]. rewrite length_zeros. unfold isoSectorSize.
  cbn [chain]. change (length CD001) with 5%nat. cbn [length]. lia.
Qed.

Section Image.
Context (volID : string) (placed : list (isoFile * Z)) (total : Z) (dir : bool → list Z).
Context (Hdir : ∀ j, length (dir j) = Z.to_nat isoSectorSize) (Htotal : firstFileSec <= total).
Context (Hplaced : chain (sec firstFileSec) ((λ p, (sec p.2, if_data p.1)) <$> placed) (sec total)).

Definition descriptor (j : bool) : volDescParams :=
  mkVolDescParams (if j then 2 else 1) j volID total (if j then pathLJoliet else pathLPrimary)
    (if j then pathMJoliet else pathMPrimary) (if j then rootJolietSec else rootPrimarySec).
Definition system_writes : list (nat * list Z) :=
  [(sec pvdSector, buildVolumeDescriptor (descriptor false)); (sec jolietSector, buildVolumeDescriptor (descriptor true));
   (sec terminatorSec, terminator);
   (sec pathLPrimary, buildRootPathTable rootPrimarySec false); (sec pathMPrimary, buildRootPathTable rootPrimarySec true);
   (sec pathLJoliet, buildRootPathTable rootJolietSec false); (sec pathMJoliet, buildRootPathTable rootJolietSec true);
   (sec rootPrimarySec, dir false); (sec rootJolietSec, dir true)].
Definition image_writes : list (nat * list Z) := system_writes ++ ((λ p, (sec p.2, if_data p.1)) <$> placed).
Definition image : list Z := apply_writes image_writes (zeros (total * isoSectorSize)).

Lemma image_chain : chain 0 image_writes (length (zeros (total * isoSectorSize))).
Proof.
  rewrite length_zeros. apply (chain_app _ _ _ (sec firstFileSec)); [|exact Hplaced]. unfold system_writes. cbn [chain].
  rewrite !descriptor_length, length_terminator, !length_path_table, !Hdir.
  unfold sec, isoSectorSize, pvdSector, jolietSector, terminatorSec, pathLPrimary, pathMPrimary, pathLJoliet, pathMJoliet,
    rootPrimarySec, rootJolietSec, firstFileSec. lia.
Qed.
Lemma image_read o d : (o, d) ∈ image_writes → read_at o (length d) image = d.
Proof. apply read_written with 0%nat, image_chain. Qed.

Lemma image_descriptor (j : bool) : read_at (sec (if j then jolietSector else pvdSector)) (Z.to_nat isoSectorSize) image =
  buildVolumeDescriptor (descriptor j).
Proof.
  rewrite <-(descriptor_length (descriptor j)). apply image_read. apply elem_of_app. left. unfold system_writes.
  destruct j; set_solver.
Qed.
Lemma image_dir (j : bool) : read_at (sec (if j then rootJolietSec else rootPrimarySec)) (Z.to_nat isoSectorSize) image = dir j.
Proof.
  rewrite <-(Hdir j). apply image_read. apply elem_of_app. left. unfold system_writes. destruct j; set_solver.
Qed.
Lemma image_file p : p ∈ placed → read_at (sec p.2) (length (if_data p.1)) image = if_data p.1.
Proof.
  intros Hp. apply image_read. apply elem_of_app. right. apply list_elem_of_fmap. by exists p.
Qed.

Lemma read_image j : readISO j image = Some ((λ e, (e_ident e, read_at (sec (e_start e)) (Z.to_nat (e_length e)) image)) <$>
  filter (λ e, e_dir e = false) (read_records (length (dir j)) (dir j))).
Proof.
  unfold readISO. rewrite image_descriptor, descriptor_magic by by destruct j.
  rewrite bool_decide_true by by destruct j. rewrite descriptor_root. cbn [e_start e_length].
  assert (u32 (vd_rootDirLBA (descriptor j)) = if j then rootJolietSec else rootPrimarySec) as -> by by destruct j.
  by rewrite image_dir.
Qed.
End Image.

(** Both directories are built, and list the files where they were placed. *)
Lemma directories_built placed (j : bool) : Forall (λ f, Z.of_nat (length (if_data f)) <= maxFileBytes) (placed.*1) →
  Forall (λ f, length (dirIdent (if_name f) j) <= 222)%nat (placed.*1) →
  dir_size j (if_name <$> placed.*1) <= isoSectorSize → Forall (λ p, 0 <= p.2 < 2 ^ 32) placed →
  ∃ dir, buildDirectory (if j then rootJolietSec else rootPrimarySec) (dir_entry <$> placed) j = Ok dir ∧
    length dir = Z.to_nat isoSectorSize ∧ filter (λ e, e_dir e = false) (read_records (length dir) dir) =
      (λ p, mkEntry (dirIdent (if_name p.1) j) p.2 (Z.of_nat (length (if_data p.1))) false) <$> placed.
Proof.
  intros Hsize Hident Hdir Hrange.
  assert (Hnames : dr_name <$> (dir_entry <$> placed) = if_name <$> placed.*1) by by rewrite <-!list_fmap_compose.
  destruct (buildDirectory_ok (if j then rootJolietSec else rootPrimarySec) (dir_entry <$> placed) j)
    as (dir & E & Hl & Hr); [|by rewrite Hnames|].
  - apply Forall_fmap. rewrite Forall_fmap in Hident. exact Hident.
  - exists dir. split_and!; [done..|]. rewrite Hr, <-list_fmap_compose.
    rewrite Forall_forall in Hrange. rewrite Forall_forall in Hsize. clear -Hrange Hsize.
    induction placed as [|q placed IH]; [done|]. cbn [fmap list_fmap]. rewrite filter_cons_True by done. f_equal.
    + unfold compose, dir_entry. cbn [dr_name dr_startSector dr_length dr_isDir]. pose proof (Hrange q (list_elem_of_here _ _)).
      pose proof (Hsize q.1 (list_elem_of_here _ _)). unfold u32, maxFileBytes in *.
      by rewrite !Z.mod_small by (rewrite ?Z.mod_small; lia).
    + apply IH; [intros x Hx; apply Hsize; by right|intros x Hx; apply Hrange; by right].
Qed.

(** Files that fit are written, and read back under their encoded names. *)
Lemma writeISO_reads volID files : fits files = true → ∃ img, writeISO volID files = Ok img ∧
  ∀ joliet, readISO joliet img = Some ((λ f, (dirIdent (if_name f) joliet, if_data f)) <$> files).
Proof.
  intros (Hsize & Hident & Hdir & Hlen)%fits_spec. unfold writeISO.
  destruct (find _ files) as [f|] eqn:Ef.
  { apply find_some in Ef as [Hin%list_elem_of_In Hlt%Z.ltb_lt]. rewrite Forall_forall in Hsize. specialize (Hsize f Hin). lia. }
  pose proof (place_ok firstFileSec files Hsize ltac:(done) ltac:(unfold firstFileSec; lia)) as Hp.
  destruct (place firstFileSec files) as [placed total]. destruct Hp as (Hfst & Htot & Hrange & Hchain).
  pose proof (directories_built placed) as Hbuild. rewrite Hfst in Hbuild. 
  destruct (Hbuild false Hsize (Hident _) (Hdir _) Hrange) as (dirP & EP & HlP & HrP).
  destruct (Hbuild true Hsize (Hident _) (Hdir _) Hrange) as (dirJ & EJ & HlJ & HrJ).
  rewrite EP, EJ. set (dir := λ j : bool, if j then dirJ else dirP).
  assert (Hld : ∀ j, length (dir j) = Z.to_nat isoSectorSize) by (intros []; [exact HlJ|exact HlP]).
  eexists. split; [reflexivity|]. intros joliet.
  change (readISO joliet (image volID placed total dir) = Some ((λ f, (dirIdent (if_name f) joliet, if_data f)) <$> files)).
  rewrite read_image by (exact Hld || exact Hchain || lia).
  assert (filter (λ e, e_dir e = false) (read_records (length (dir joliet)) (dir joliet)) =
      (λ p, mkEntry (dirIdent (if_name p.1) joliet) p.2 (Z.of_nat (length (if_data p.1))) false) <$> placed) as -> by (destruct joliet; [exact HrJ|exact HrP]).
  f_equal. rewrite <-Hfst, <-!list_fmap_compose. apply list_fmap_ext. intros i q Hq. unfold compose. cbn [e_ident e_start e_length]. rewrite Nat2Z.id.
  f_equal. apply image_file; [exact Hld|exact Hchain|]. by eapply list_elem_of_lookup_2.
Qed.

(** *** Names *)
Fixpoint ucs2_text (l : list Z) : option string :=
  match l with
  | [] => Some ""
  | hi :: lo :: l' => if (hi =? 0) && (lo <? 128) then String (ascii_of_N (Z.to_N lo)) <$> ucs2_text l' else None
  | _ => None
  end.
Fixpoint byte_text (l : list Z) : string :=
  match l with [] => "" | b :: l' => String (ascii_of_N (Z.to_N b)) (byte_text l') end.

(** The name a reader shows: without the version on the primary tree. *)
Definition shown_name (joliet : bool) (ident : list Z) : option string :=
  if joliet then ucs2_text ident
  else let n := (length ident - 2)%nat in
       if bool_decide (drop n ident = bytes_of ";1") then Some (byte_text (take n ident)) else None.

Definition listing (j : bool) (img : list Z) : option (list (option string * list Z)) :=
  match readISO j img with
  | Some l => Some ((λ p : list Z * list Z, (shown_name j p.1, p.2)) <$> l)
  | None => None
  end.

Definition is_ascii (c : ascii) : bool := (N_of_ascii c <? 128)%N.

Lemma bytes_of_app s t : bytes_of (s +:+ t) = bytes_of s ++ bytes_of t.
Proof. induction s as [|c s IH]; [done|]. rewrite append_cons. unfold bytes_of in *. cbn. by rewrite IH. Qed.
Lemma byte_text_of s : byte_text (bytes_of s) = s.
Proof.
  induction s as [|c s IH]; [done|]. unfold bytes_of in *. cbn. rewrite IH, N2Z.id. f_equal. apply ascii_N_embedding.
Qed.
Lemma runes_ascii s : sforall is_ascii s = true → runes s = bytes_of s.
Proof.
  unfold runes. induction s as [|c s IH]; [done|]. cbn [sforall]. intros [Hc Hs]%andb_true_iff.
  unfold bytes_of in *. cbn. unfold decode_rune. unfold is_ascii in Hc. apply N.ltb_lt in Hc.
  destruct (Z.ltb_spec (Z.of_N (N_of_ascii c)) 128); [|lia]. f_equal. exact (IH Hs).
Qed.
Lemma ucs2_text_of s : sforall is_ascii s = true → ucs2_text (ucs2BE s) = Some s.
Proof.
  intros Hs. unfold ucs2BE. rewrite runes_ascii by done. induction s as [|c s IH]; [done|]. cbn [sforall] in Hs.
  apply andb_true_iff in Hs as [Hc Hs]. unfold is_ascii in Hc. apply N.ltb_lt in Hc.
  unfold bytes_of in *. cbn [String.list_ascii_of_string fmap list_fmap mbind list_bind]. unfold utf16 at 1.
  destruct (Z.ltb_spec (Z.of_N (N_of_ascii c)) 65536); [|lia]. cbn [app mbind list_bind].
  assert (be_bytes 2 (Z.of_N (N_of_ascii c)) = [0; Z.of_N (N_of_ascii c)]) as ->.
  { unfold be_bytes. cbn [le_bytes reverse rev_append app]. unfold reverse. cbn [rev_append].
    rewrite Z.div_small by lia. rewrite !Z.mod_small by lia. done. }
  cbn [app ucs2_text]. rewrite Z.eqb_refl. destruct (Z.ltb_spec (Z.of_N (N_of_ascii c)) 128); [|lia]. cbn [andb].
  match goal with |- context [ucs2_text ?x] => assert (ucs2_text x = Some s) as -> by exact (IH Hs) end.
  cbn. by rewrite N2Z.id, ascii_N_embedding.
Qed.
Lemma shown_ident j name : sforall is_ascii name = true → shown_name j (dirIdent name j) = Some name.
Proof.
  intros Hn. unfold shown_name, dirIdent. destruct j; [by apply ucs2_text_of|]. rewrite bytes_of_app, length_app.
  change (length (bytes_of ";1")) with 2%nat. rewrite Nat.add_sub, drop_app_length, take_app_length.
  by rewrite bool_decide_true, byte_text_of.
Qed.

(** C34: what is written is what is read.  Files with ASCII names that fit a
    one-sector root directory are written as one volume in which a reader,
    following either the primary or the Joliet descriptor, finds exactly these
    files, in order, under their names and with their contents. *)
Theorem iso_roundtrip volID files : fits files = true → Forall (λ f, sforall is_ascii (if_name f) = true) files →
  ∃ img, writeISO volID files = Ok img ∧ ∀ j,
    listing j img = Some ((λ f, (Some (if_name f), if_data f)) <$> files).
Proof.
  intros Hf Hn. destruct (writeISO_reads volID files Hf) as (img & E & Hr). exists img. split; [done|]. intros j.
  unfold listing. rewrite Hr. f_equal. rewrite <-list_fmap_compose. apply list_fmap_ext.
  intros i f Hi. cbn. rewrite Forall_lookup in Hn. by rewrite shown_ident by eauto.
Qed.

Lemma native_reads ud md : Z.of_nat (length ud) <= maxFileBytes → Z.of_nat (length md) <= maxFileBytes →
  ∃ img, buildISONative ud md = Ok img ∧ ∀ j, listing j img = Some [(Some "user-data", ud); (Some "meta-data", md)].
Proof.
  intros Hu Hm. destruct (writeISO_reads "cidata" [mkIsoFile "user-data" ud; mkIsoFile "meta-data" md]) as (img & E & Hr).
  { unfold fits. cbn [forallb if_data if_name]. apply Z.leb_le in Hu, Hm. by rewrite Hu, Hm. }
  exists img. split; [done|]. intros j. unfold listing. rewrite Hr. by destruct j.
Qed.
Lemma native_refuses ud md : maxFileBytes < Z.of_nat (length ud) ∨ maxFileBytes < Z.of_nat (length md) →
  is_ok (buildISONative ud md) = false.
Proof.
  intros Hb. unfold buildISONative, writeISO. cbn [find if_data].
  destruct (Z.ltb_spec maxFileBytes (Z.of_nat (length ud))); [done|].
  destruct (Z.ltb_spec maxFileBytes (Z.of_nat (length md))); [done|]. lia.
Qed.

(** The writer needs every name to be in the one sector: past it the last name
    is cut without an error, and one more file is a crash. *)
Definition numbered (k : nat) : dirRecord := mkDirRecord ("file-" +:+ Itoa (1000 + Z.of_nat k)) 25 1 false.
Theorem directory_overflow :
  let names n := (λ f, dirIdent (dr_name f) true) <$> (numbered <$> seq 0 n) in
  let listed n := match buildDirectory rootJolietSec (numbered <$> seq 0 n) true with
                  | Ok dir => Some (e_ident <$> filter (λ e, e_dir e = false) (read_records (length dir) dir))
                  | Err _ => None
                  end in
  listed 38%nat = Some (names 38%nat) ∧
  (match listed 39%nat with Some l => last l | None => None end) = Some [] ∧
  buildDirectory rootJolietSec (numbered <$> seq 0 40) true = Err panic.
Proof. vm_compute. by split_and!. Qed.

Module IsoExample.
Definition seed : list isoFile :=
  [mkIsoFile "user_configuration.json" (bytes_of "{}"); mkIsoFile "user_credentials.json" []].
Lemma iso_roundtrip_witness : ∃ img, writeISO "cidata" seed = Ok img ∧ is_ok (writeISO "cidata" seed) = true.
Proof.
  destruct (iso_roundtrip "cidata" seed) as (img & E & _).
  - vm_compute. reflexivity.
  - repeat constructor; vm_compute; reflexivity.
  - exists img. split; [exact E|]. rewrite E. reflexivity.
Defined.
End IsoExample.
