(* ===== verification/CloudInit.v ===== *)
(** * Cloud-init seeds

    [internal/cloudinit/cloudinit.go], [mdns.go] and [packages.go]: the
    user-data and meta-data documents, how the seed volume is built from them,
    and the package lists.  [cloudinit.Config] has the fields of the config's
    own section, so both are [CloudInitConfig] here.

    The documents are YAML; the part of YAML the renderer relies on, the
    reading of a literal block scalar, is defined here to state what the text
    means. *)
From S2P Require Import Prelude GoStrings Config Guest Iso.

Open Scope Z_scope.

(** ** Rendering

    A document is its lines, each ended by a newline. *)
(** The lines of a text, indented. *)
Definition indented (pad text : string) : list string := (λ l, pad +:+ l) <$> Split newline text.
Definition items (pad : string) (l : list string) : list string := (λ x, pad +:+ x) <$> l.
Definition line_if (b : bool) (ls : list string) : list string := if b then ls else [].

Definition hasUsersBlock (cfg : CloudInitConfig) : bool :=
  negb (bool_decide (ci_User cfg = "")) && negb (bool_decide (ci_User cfg = ci_DefaultUser cfg)).
Definition hasKeys (cfg : CloudInitConfig) : bool := negb (bool_decide (ci_SSHKeys cfg = [])).

Definition users_lines (cfg : CloudInitConfig) : list string :=
  ["users:"] ++
  (if negb (bool_decide (ci_DefaultUser cfg = "")) && hasKeys cfg then
     ["  - name: " +:+ ci_DefaultUser cfg; "    sudo: ALL=(ALL) NOPASSWD:ALL";
      "    groups: [adm, cdrom, dip, lxd, sudo, plugdev]"; "    shell: /bin/bash"; "    ssh_authorized_keys:"] ++
     items "      - " (ci_SSHKeys cfg)
   else ["  - default"]) ++
  ["  - name: " +:+ ci_User cfg; "    sudo: ALL=(ALL) NOPASSWD:ALL"; "    shell: /bin/bash"; "    no_user_group: true"] ++
  line_if (hasKeys cfg) (["    ssh_authorized_keys:"] ++ items "      - " (ci_SSHKeys cfg)).

(** The commands that set the passwords come first. *)
Definition password_cmds (cfg : CloudInitConfig) : list string :=
  if bool_decide (ci_Password cfg = "") then []
  else
    let targets := line_if (negb (bool_decide (ci_User cfg = ""))) [ci_User cfg] ++
                   line_if (negb (bool_decide (ci_DefaultUser cfg = "")) && negb (bool_decide (ci_DefaultUser cfg = ci_User cfg)))
                     [ci_DefaultUser cfg] in
    (λ t, "echo '" +:+ t +:+ ":" +:+ quote_body (ci_Password cfg) +:+ "' | chpasswd") <$> targets.
Definition run_cmds (cfg : CloudInitConfig) : list string := password_cmds cfg ++ ci_RunCmds cfg.

Definition file_meta (wf : CloudInitWriteFile) : list string :=
  ["    permissions: '" +:+ (if bool_decide (wf_Permissions wf = "") then "0644" else wf_Permissions wf) +:+ "'"] ++
  line_if (negb (bool_decide (wf_Owner wf = ""))) ["    owner: '" +:+ wf_Owner wf +:+ "'"] ++
  line_if (wf_Defer wf) ["    defer: true"] ++
  line_if (negb (bool_decide (wf_Encoding wf = ""))) ["    encoding: " +:+ wf_Encoding wf].
Definition file_lines (wf : CloudInitWriteFile) : list string :=
  ("  - path: " +:+ wf_Path wf) :: file_meta wf ++ ["    content: |"] ++ indented "      " (wf_Content wf).

Definition section_if (key : string) (ls : list string) : list string := if bool_decide (ls = []) then [] else key :: ls.

Definition user_data_lines (cfg : CloudInitConfig) : list string :=
  ["#cloud-config"] ++
  line_if (negb (bool_decide (ci_Hostname cfg = ""))) ["hostname: " +:+ ci_Hostname cfg] ++
  line_if (hasKeys cfg && negb (hasUsersBlock cfg)) (["ssh_authorized_keys:"] ++ items "  - " (ci_SSHKeys cfg)) ++
  line_if (hasUsersBlock cfg) (users_lines cfg) ++
  section_if "write_files:" (mbind file_lines (ci_WriteFiles cfg)) ++
  line_if (negb (bool_decide (ci_Packages cfg = [])))
    (["packages:"] ++ items "  - " (ci_Packages cfg) ++ ["package_update: true"; "package_upgrade: false"]) ++
  section_if "runcmd:" (mbind (λ c, "  - |" :: indented "    " c) (run_cmds cfg)).
Definition renderUserData (cfg : CloudInitConfig) : string := unlines (user_data_lines cfg).

Definition renderMetaData (cfg : CloudInitConfig) : string :=
  let hostname := if bool_decide (ci_Hostname cfg = "") then "vee-vm" else ci_Hostname cfg in
  unlines ["instance-id: " +:+ hostname; "local-hostname: " +:+ hostname].

(** ** Building the volume *)
Record SeedEnv := mkSeedEnv {
  se_os : string;
  se_has : string → bool;                              (* a tool is on the path *)
  se_run : string → list string → result error (list Z); (* a tool's image *)
  se_tmp : result error string;                         (* a fresh directory *)
  se_mkdir : option error;
  se_write : string → option error;
  se_read : string → option error;
}.

Definition mkisofsTool (env : SeedEnv) (isoPath udPath mdPath : string) : option (string * list string) :=
  if se_has env "xorriso"
  then Some ("xorriso", ["-as"; "mkisofs"; "-output"; isoPath; "-volid"; "cidata"; "-joliet"; "-rock"; udPath; mdPath])
  else if se_has env "genisoimage"
  then Some ("genisoimage", ["-output"; isoPath; "-volid"; "cidata"; "-joliet"; "-rock"; udPath; mdPath])
  else None.

Definition runISOTool (env : SeedEnv) (tool : string) (args : list string) : result error (list Z) :=
  match se_run env tool args with Ok img => Ok img | Err e => Err (Wrapf tool e) end.

(** One document copied into the directory that is imaged. *)
Definition stage (env : SeedEnv) (src dst : string) (e : string) : result error unit :=
  match se_read env src with
  | Some err => Err (Wrapf e err)
  | None => match se_write env dst with Some err => Err (Wrapf e err) | None => Ok tt end
  end.
Definition buildISOHdiutil (env : SeedEnv) (isoPath udPath mdPath : string) : result error (list Z) :=
  match se_tmp env with
  | Err e => Err (Wrapf "hdiutil seed dir" e)
  | Ok dir =>
      match stage env udPath (PathJoin [dir; "user-data"]) "hdiutil seed user-data" with
      | Err e => Err e
      | Ok _ =>
          match stage env mdPath (PathJoin [dir; "meta-data"]) "hdiutil seed meta-data" with
          | Err e => Err e
          | Ok _ => runISOTool env "hdiutil" ["makehybrid"; "-iso"; "-joliet"; "-default-volume-name"; "cidata"; "-o"; isoPath; dir]
          end
      end
  end.

(** The native writer, between its reads and its write. *)
Definition native_at (env : SeedEnv) (isoPath udPath mdPath : string) (ud md : list Z) : result error (list Z) :=
  match se_read env udPath with
  | Some e => Err (Wrapf "read user-data" e)
  | None =>
      match se_read env mdPath with
      | Some e => Err (Wrapf "read meta-data" e)
      | None =>
          match buildISONative ud md with
          | Err e => Err e
          | Ok img => match se_write env isoPath with Some e => Err (Wrapf "write ISO" e) | None => Ok img end
          end
      end
  end.

(** The image that ends up at [isoPath]. *)
Definition buildISO (env : SeedEnv) (isoPath udPath mdPath : string) (ud md : list Z) : result error (list Z) :=
  match mkisofsTool env isoPath udPath mdPath with
  | Some (tool, args) => runISOTool env tool args
  | None =>
      if bool_decide (se_os env = "darwin") && se_has env "hdiutil" then buildISOHdiutil env isoPath udPath mdPath
      else native_at env isoPath udPath mdPath ud md
  end.

Definition Generate (env : SeedEnv) (vmDir : string) (cfg : CloudInitConfig) : result error (string * list Z) :=
  match se_mkdir env with
  | Some e => Err e
  | None =>
      let udPath := PathJoin [vmDir; "user-data"] in
      let mdPath := PathJoin [vmDir; "meta-data"] in
      match se_write env udPath with
      | Some e => Err e
      | None =>
          match se_write env mdPath with
          | Some e => Err e
          | None =>
              let isoPath := PathJoin [vmDir; "cidata.iso"] in
              match buildISO env isoPath udPath mdPath (bytes_of (renderUserData cfg)) (bytes_of (renderMetaData cfg)) with
              | Err e => Err e
              | Ok img => Ok (isoPath, img)
              end
          end
      end
  end.

(** ** Package lists *)
Definition packages_of (distro cat : string) : option (list string) :=
  if bool_decide (distro = "ubuntu") then Some
    (if bool_decide (cat = "gaming") then ["mesa-vulkan-drivers"; "libvulkan1"; "vulkan-tools"; "xorg"; "openbox"]
     else if bool_decide (cat = "gaming-virtigl") then ["mesa-vulkan-drivers"; "libvulkan1"; "vulkan-tools"; "mesa-utils"]
     else if bool_decide (cat = "torrent") then ["qbittorrent-nox"; "ufw"; "curl"; "wget"; "qemu-guest-agent"]
     else if bool_decide (cat = "devbox") then
       ["git"; "curl"; "wget"; "build-essential"; "zsh"; "neovim"; "tmux"; "jq"; "ca-certificates"; "gnupg"; "lsb-release"]
     else if bool_decide (cat = "server") then
       ["openssh-server"; "ufw"; "fail2ban"; "htop"; "curl"; "wget"; "unattended-upgrades"]
     else if bool_decide (cat = "desktop") then ["mesa-utils"; "libgl1-mesa-dri"; "mesa-vulkan-drivers"; "vulkan-tools"]
     else [])
  else if bool_decide (distro = "fedora") then Some
    (if bool_decide (cat = "gaming") then ["mesa-vulkan-drivers"; "vulkan-tools"; "xorg-x11-server-Xorg"; "openbox"]
     else if bool_decide (cat = "torrent") then ["qbittorrent"; "firewalld"; "curl"; "wget"; "qemu-guest-agent"]
     else if bool_decide (cat = "devbox") then ["git"; "curl"; "wget"; "gcc"; "make"; "zsh"; "neovim"; "tmux"; "jq"]
     else if bool_decide (cat = "server") then ["openssh-server"; "firewalld"; "fail2ban"; "htop"; "curl"; "wget"]
     else if bool_decide (cat = "desktop") then
       ["mesa-dri-drivers"; "mesa-vulkan-drivers"; "mesa-libGL"; "mesa-libEGL"; "vulkan-tools"; "glx-utils"]
     else [])
  else if bool_decide (distro = "arch") then Some
    (if bool_decide (cat = "gaming") then
       ["mesa"; "lib32-mesa"; "vulkan-radeon"; "lib32-vulkan-radeon"; "vulkan-icd-loader"; "lib32-vulkan-icd-loader";
        "vulkan-tools"; "plasma"; "plasma-wayland-session"; "sddm"; "xdg-desktop-portal-kde"; "steam"; "wine"; "winetricks";
        "gamemode"; "lib32-gamemode"; "pipewire"; "pipewire-pulse"; "pipewire-alsa"; "wireplumber"; "openssh";
        "systemd-journal-remote"]
     else if bool_decide (cat = "gaming-virtigl") then ["mesa"; "lib32-mesa"; "vulkan-virtio"; "lib32-vulkan-mesa-layers"]
     else if bool_decide (cat = "torrent") then ["qbittorrent-nox"; "ufw"; "curl"; "wget"; "qemu-guest-agent"]
     else if bool_decide (cat = "devbox") then ["git"; "curl"; "wget"; "base-devel"; "zsh"; "neovim"; "tmux"; "jq"]
     else if bool_decide (cat = "server") then ["openssh"; "ufw"; "htop"; "curl"; "wget"]
     else [])
  else if bool_decide (distro = "bazzite") then Some
    (if bool_decide (cat = "server") then ["htop"; "curl"; "wget"] else [])
  else None.

(** Each package once, where it first comes. *)
Fixpoint add_packages (seen : list string) (ps : list string) : list string :=
  match ps with
  | [] => []
  | p :: ps' => if bool_decide (p ∈ seen) then add_packages seen ps' else p :: add_packages (p :: seen) ps'
  end.
Definition PackagesFor (distro : string) (cats : list string) : list string :=
  match packages_of distro "" with
  | None => []
  | Some _ => add_packages [] (mbind (λ c, default [] (packages_of distro c)) cats)
  end.

Definition MDNSPackages (distro : string) : list string :=
  if bool_decide (distro = "ubuntu") then ["avahi-daemon"; "libnss-mdns"]
  else if bool_decide (distro = "arch") then ["avahi"; "nss-mdns"]
  else if bool_decide (distro = "fedora") then ["avahi"; "nss-mdns"]
  else ["avahi-daemon"].
Definition MDNSRunCmds : list string := ["systemctl enable --now avahi-daemon"].
Definition MDNSFirewallCmds (firewall : string) : list string :=
  if bool_decide (firewall = "ufw") then ["ufw allow 5353/udp"]
  else if bool_decide (firewall = "firewalld")
  then ["firewall-cmd --permanent --add-service=mdns"; "firewall-cmd --reload"]
  else [].

Lemma add_packages_spec seen ps :
  NoDup (add_packages seen ps) ∧ ∀ p, p ∈ add_packages seen ps ↔ p ∈ ps ∧ p ∉ seen.
Proof.
  revert seen. induction ps as [|q ps IH]; intros seen; cbn.
  - split; [constructor|]. intros p. rewrite elem_of_nil. tauto.
  - destruct (bool_decide (q ∈ seen)) eqn:E.
    + apply bool_decide_eq_true in E. destruct (IH seen) as [Hn Hi]. split; [done|]. intros p. rewrite Hi, elem_of_cons. naive_solver.
    + apply bool_decide_eq_false in E. destruct (IH (q :: seen)) as [Hn Hi]. split.
      * constructor; [|done]. rewrite Hi, elem_of_cons. naive_solver.
      * intros p. rewrite !elem_of_cons, Hi, elem_of_cons. destruct (decide (p = q)) as [->|]; naive_solver.
Qed.

(** The packages of several categories: all of them, each once. *)
Lemma PackagesFor_spec distro cats : is_Some (packages_of distro "") →
  NoDup (PackagesFor distro cats) ∧
  ∀ p, p ∈ PackagesFor distro cats ↔ ∃ c, c ∈ cats ∧ p ∈ default [] (packages_of distro c).
Proof.
  intros [l E]. unfold PackagesFor. rewrite E.
  destruct (add_packages_spec [] (mbind (λ c, default [] (packages_of distro c)) cats)) as [Hn Hi]. split; [done|].
  intros p. rewrite Hi, list_elem_of_bind, elem_of_nil. naive_solver.
Qed.

(** ** How YAML reads the documents

    A literal block scalar (YAML 1.2, 8.1.2) is indented as its first line that
    is not blank; it ends at the first less indented line; the newlines that
    end it are clipped to one. *)
Definition space : ascii := " "%char.
Fixpoint spaces (l : string) : nat :=
  match l with String c l' => if bool_decide (c = space) then S (spaces l') else O | "" => O end.
Definition blank (l : string) : bool := sforall (λ c, bool_decide (c = space)) l.
Fixpoint sdrop (n : nat) (l : string) : string :=
  match n, l with S n', String _ l' => sdrop n' l' | _, _ => l end.

Fixpoint block_indent (ls : list string) : nat :=
  match ls with
  | [] => O
  | l :: ls' => if blank l then block_indent ls' else spaces l
  end.
Fixpoint take_block (n : nat) (ls : list string) : list string * list string :=
  match ls with
  | [] => ([], [])
  | l :: ls' => if blank l || (n <=? spaces l)%nat then let '(b, r) := take_block n ls' in (l :: b, r) else ([], ls)
  end.
Fixpoint chomp (ls : list string) : list string :=
  match ls with
  | [] => []
  | l :: ls' => match chomp ls' with [] => if bool_decide (l = "") then [] else [l] | r => l :: r end
  end.
(** The scalar, and the lines after it. *)
Definition read_block (ls : list string) : string * list string :=
  let n := block_indent ls in
  let '(body, rest) := take_block n ls in
  (unlines (chomp (sdrop n <$> body)), rest).

(** The lines under a top-level key. *)
Fixpoint under (key : string) (ls : list string) : list string :=
  match ls with [] => [] | l :: ls' => if bool_decide (l = key) then ls' else under key ls' end.

(** A sequence of literal scalars. *)
Fixpoint read_cmds (fuel : nat) (ls : list string) : list string :=
  match fuel, ls with
  | S fuel', l :: ls' =>
      if bool_decide (l = "  - |") then let '(c, rest) := read_block ls' in c :: read_cmds fuel' rest else []
  | _, _ => []
  end.
Definition read_runcmd (doc : string) : list string :=
  let ls := under "runcmd:" (Split newline doc) in read_cmds (length ls) ls.

(** Files, by their paths. *)
Fixpoint cut_prefix (p s : string) : option string :=
  match p, s with
  | "", _ => Some s
  | String a p', String b s' => if bool_decide (a = b) then cut_prefix p' s' else None
  | _, "" => None
  end.
Fixpoint read_files (fuel : nat) (ls : list string) : list (string * string) :=
  match fuel, ls with
  | S fuel', l :: ls' =>
      match cut_prefix "  - path: " l with
      | Some p => let '(c, rest) := read_block (under "    content: |" ls') in (p, c) :: read_files fuel' rest
      | None => []
      end
  | _, _ => []
  end.
Definition read_write_files (doc : string) : list (string * string) :=
  let ls := under "write_files:" (Split newline doc) in read_files (length ls) ls.

(** A text as cloud-init gets it: its final newlines are one. *)
Definition is_newline (c : ascii) : bool := bool_decide (c = newline).
Definition clipped (text : string) : string := trim_right is_newline text +:+ String newline "".

(** Texts a literal block carries: the first line that is not empty does not
    start with a space. *)
Fixpoint carried (text : string) : bool :=
  match text with
  | "" => false
  | String c text' => if bool_decide (c = newline) then carried text' else negb (bool_decide (c = space))
  end.

(** ** Lemmas on blocks *)
Lemma Split_cons c s : c ≠ newline → ∃ x xs, Split newline s = x :: xs ∧ Split newline (String c s) = String c x :: xs.
Proof.
  intros Hc. cbn. rewrite bool_decide_false by done. destruct (Split newline s) as [|x xs] eqn:E.
  - destruct s as [|d s]; [done|]. cbn in E. destruct (bool_decide _); [done|]. by destruct (Split newline s).
  - by exists x, xs.
Qed.

Lemma chomp_clip s : unlines (chomp (Split newline s)) =
  (if bool_decide (trim_right is_newline s = "") then "" else clipped s) ∧
  (chomp (Split newline s) = [] ↔ trim_right is_newline s = "").
Proof.
  induction s as [|c s [IH1 IH2]]; [done|]. destruct (decide (c = newline)) as [->|Hc].
  - cbn [Split]. rewrite bool_decide_true by done. cbn [chomp trim_right]. unfold clipped in *. cbn [trim_right].
    destruct (chomp (Split newline s)) as [|l r] eqn:E.
    + rewrite (proj1 IH2 eq_refl). done.
    + assert (trim_right is_newline s ≠ "") as Hn by (intros H; by apply IH2 in H).
      rewrite bool_decide_false in IH1 by done. destruct (trim_right is_newline s) as [|d t] eqn:Et; [done|].
      rewrite bool_decide_false by done. split; [|done]. cbn [unlines] in *. rewrite IH1. done.
  - destruct (Split_cons c s Hc) as (x & xs & E & E'). rewrite E'. rewrite E in *. cbn [chomp trim_right] in *. unfold clipped in *.
    cbn [trim_right]. assert (is_newline c = false) as Hf by (unfold is_newline; by rewrite bool_decide_false). rewrite Hf.
    destruct (chomp xs) as [|l r].
    + rewrite (bool_decide_false (String c x = "")) by done. destruct (decide (x = "")) as [->|Hx].
      * rewrite (bool_decide_true ("" = "")) in IH2 by done. rewrite (proj1 IH2 eq_refl). by split.
      * rewrite (bool_decide_false (x = "")) in IH1, IH2 by done.
        destruct (trim_right is_newline s) as [|d t]; [by destruct IH2 as [_ H]; specialize (H eq_refl)|].
        rewrite bool_decide_false in IH1 |- * by done. split; [|done]. cbn [unlines] in IH1 |- *.
        rewrite !append_cons. rewrite append_cons in IH1. by rewrite IH1.
    + destruct (trim_right is_newline s) as [|d t] eqn:Et; [by destruct IH2 as [_ H]; specialize (H eq_refl)|].
      rewrite bool_decide_false in IH1 |- * by done. split; [|done]. cbn [unlines] in IH1 |- *.
      rewrite !append_cons. rewrite append_cons in IH1. by rewrite IH1.
Qed.

Lemma chomp_clipped s : carried s = true → unlines (chomp (Split newline s)) = clipped s.
Proof.
  intros Hc. destruct (chomp_clip s) as [-> _]. rewrite bool_decide_false; [done|].
  induction s as [|c s IH]; [done|]. cbn in Hc |- *. unfold is_newline. case_bool_decide as Hn.
  - destruct (trim_right _ s); [by specialize (IH Hc)|done].
  - by destruct (trim_right _ s).
Qed.
Lemma chomp_snoc ls : chomp (ls ++ [""]) = chomp ls.
Proof. induction ls as [|l ls IH]; [done|]. cbn [app chomp]. by rewrite IH. Qed.

(** [n] spaces. *)
Fixpoint pad (n : nat) : string := match n with O => "" | S n' => String space (pad n') end.

Lemma spaces_pad n l : spaces (pad n +:+ l) = (n + spaces l)%nat.
Proof. induction n as [|n IH]; [done|]. cbn [pad]. rewrite append_cons. cbn. by rewrite IH. Qed.
Lemma sdrop_pad n l : sdrop n (pad n +:+ l) = l.
Proof. induction n as [|n IH]; [done|]. cbn [pad]. by rewrite append_cons. Qed.
Lemma sdrop_pads n (ls : list string) : sdrop n <$> ((λ l, pad n +:+ l) <$> ls) = ls.
Proof. induction ls as [|l ls IH]; [done|]. cbn. rewrite sdrop_pad. by f_equal. Qed.
Lemma blank_pad n l : blank (pad n +:+ l) = blank l.
Proof. induction n as [|n IH]; [done|]. cbn [pad]. rewrite append_cons. unfold blank in *. cbn. by rewrite IH. Qed.

(** What may follow a block indented by [n], and what of it is left. *)
Inductive follows (n : nat) : list string → list string → Prop :=
| follows_end : follows n [""] []
| follows_line l ls : blank l = false → (spaces l < n)%nat → follows n (l :: ls) (l :: ls).

Lemma take_block_pads n (ls tail rest : list string) : follows n tail rest → ∃ extra,
  take_block n (((λ l, pad n +:+ l) <$> ls) ++ tail) = (((λ l, pad n +:+ l) <$> ls) ++ extra, rest) ∧
  chomp (sdrop n <$> (((λ l, pad n +:+ l) <$> ls) ++ extra)) = chomp ls.
Proof.
  intros Hf. exists (match tail with [""] => [""] | _ => [] end).
  assert (Ht : take_block n tail = (match tail with [""] => [""] | _ => [] end, rest)).
  { destruct Hf as [|l ls' Hb Hs]; [done|]. cbn. rewrite Hb. destruct (Nat.leb_spec n (spaces l)); [lia|]. cbn.
    destruct l; [done|]. by destruct ls'. }
  split.
  - induction ls as [|l ls IH]; [exact Ht|]. cbn [fmap list_fmap app take_block].
    rewrite spaces_pad. destruct (Nat.leb_spec n (n + spaces l)); [|lia]. rewrite orb_true_r.
    by rewrite IH.
  - rewrite fmap_app, sdrop_pads. destruct Hf as [|l ls' Hb Hs].
    + replace (sdrop n <$> [""]) with [""] by by destruct n. apply chomp_snoc.
    + destruct l; [done|]. by rewrite app_nil_r.
Qed.

Lemma read_block_text n text tail rest : follows n tail rest → carried text = true →
  read_block (indented (pad n) text ++ tail) = (clipped text, rest).
Proof.
  intros Hf Hc. unfold read_block, indented. destruct (take_block_pads n (Split newline text) tail rest Hf) as (extra & Et & Ec).
  assert (block_indent (((λ l, pad n +:+ l) <$> Split newline text) ++ tail) = n) as ->.
  { clear -Hc. induction text as [|c s IH]; [done|]. cbn in Hc. destruct (bool_decide_reflect (c = newline)) as [->|Hnl].
    { change (Split newline (String newline s)) with ("" :: Split newline s). cbn [fmap list_fmap app block_indent].
      rewrite blank_pad. by apply IH. }
    apply negb_true_iff, bool_decide_eq_false in Hc.
    destruct (Split_cons c s Hnl) as (x & xs & _ & ->). cbn [fmap list_fmap app block_indent].
    rewrite blank_pad, spaces_pad. unfold blank. cbn [sforall spaces]. rewrite bool_decide_false by done. cbn [andb]. lia. }
  rewrite Et, Ec. by rewrite chomp_clipped.
Qed.

(** A sequence of commands, with the end of the document after them. *)
Lemma read_cmds_all fuel (cmds : list string) : Forall (λ c, carried c = true) cmds → (length cmds <= fuel)%nat →
  read_cmds fuel (mbind (λ c, "  - |" :: indented "    " c) cmds ++ [""]) = clipped <$> cmds.
Proof.
  intros Hc. revert fuel. induction Hc as [|c cmds Hc Hcs IH]; intros fuel Hl.
  - by destruct fuel.
  - destruct fuel as [|fuel]; [cbn in Hl; lia|].
    change (mbind (λ c, "  - |" :: indented "    " c) (c :: cmds))
      with (("  - |" :: indented "    " c) ++ mbind (λ c, "  - |" :: indented "    " c) cmds).
    rewrite <-app_assoc. cbn [app read_cmds]. rewrite bool_decide_true by done. change "    " with (pad 4) at 1.
    destruct cmds as [|c' cmds'].
    + cbn [mbind list_bind app]. rewrite (read_block_text 4 c [""] []) by (constructor || done). by destruct fuel.
    + set (tail := mbind _ (c' :: cmds') ++ [""]) in *.
      rewrite (read_block_text 4 c tail tail); [|apply (follows_line 4 "  - |"); [done|change (spaces "  - |") with 2%nat; lia]|done].
      cbn [fmap list_fmap]. f_equal.
      apply IH. cbn in Hl |- *. lia.
Qed.

(** The lines before a key. *)
Lemma under_app key ls ls' : Forall (λ l, l ≠ key) ls → under key (ls ++ key :: ls') = ls'.
Proof.
  induction 1 as [|l ls Hl _ IH]; cbn; [by rewrite bool_decide_true|]. by rewrite bool_decide_false.
Qed.

(** *** Whole documents *)
Abbreviation one_line := (free_of newline).

(** Values that stay on their lines. *)
Definition file_plain (wf : CloudInitWriteFile) : bool :=
  one_line (wf_Path wf) && one_line (wf_Permissions wf) && one_line (wf_Owner wf) && one_line (wf_Encoding wf) &&
  carried (wf_Content wf).
Definition plain_values (cfg : CloudInitConfig) : bool :=
  one_line (ci_Hostname cfg) && one_line (ci_User cfg) && one_line (ci_DefaultUser cfg) &&
  forallb one_line (ci_SSHKeys cfg) && forallb one_line (ci_Packages cfg) &&
  forallb file_plain (ci_WriteFiles cfg) && forallb carried (ci_RunCmds cfg).

Lemma one_line_app a b : one_line (a +:+ b) = one_line a && one_line b.
Proof. apply sforall_app. Qed.
Lemma Split_one_line s : Forall (λ l, one_line l = true) (Split newline s).
Proof.
  induction s as [|c s IH]; [by repeat constructor|]. cbn. destruct (decide (c = newline)) as [->|Hc].
  - rewrite bool_decide_true by done. by constructor.
  - rewrite bool_decide_false by done. destruct IH as [|x xs Hx Hxs]; [|].
    + constructor; [|done]. cbn. by rewrite bool_decide_false.
    + constructor; [|done]. cbn. by rewrite bool_decide_false.
Qed.
Lemma indented_one_line p s : one_line p = true → Forall (λ l, one_line l = true) (indented p s).
Proof.
  intros Hp. unfold indented. apply Forall_fmap. eapply Forall_impl; [apply Split_one_line|].
  intros l Hl. change (one_line (p +:+ l) = true). by rewrite one_line_app, Hp, Hl.
Qed.
Lemma items_one_line p l : one_line p = true → forallb one_line l = true → Forall (λ l, one_line l = true) (items p l).
Proof.
  intros Hp Hl. unfold items. apply Forall_fmap, Forall_forall. intros x Hx. change (one_line (p +:+ x) = true). rewrite one_line_app, Hp.
  rewrite forallb_forall in Hl. by apply Hl, list_elem_of_In.
Qed.
Lemma line_if_Forall (P : string → Prop) b ls : Forall P ls → Forall P (line_if b ls).
Proof. by destruct b. Qed.

(** Every line is one line. *)
Ltac one_line_tac :=
  repeat first [apply Forall_app; split | apply line_if_Forall | apply indented_one_line | apply items_one_line
    | apply Forall_cons; split | apply Forall_nil];
  rewrite ?one_line_app, ?andb_true_iff; split_and?; try done.

Lemma file_lines_one_line wf : file_plain wf = true → Forall (λ l, one_line l = true) (file_lines wf).
Proof.
  unfold file_plain. rewrite !andb_true_iff. intros ((((Hp & Hm) & Ho) & He) & _). unfold file_lines, file_meta.
  one_line_tac. by destruct (bool_decide _).
Qed.

Lemma user_data_one_line cfg : plain_values cfg = true → Forall (λ l, one_line l = true) (user_data_lines cfg).
Proof.
  unfold plain_values. rewrite !andb_true_iff. intros ((((((Hh & Hu) & Hd) & Hk) & Hp) & Hf) & Hr).
  unfold user_data_lines, section_if. one_line_tac.
  - unfold users_lines. destruct (_ && _); one_line_tac.
  - destruct (bool_decide _); [constructor|]. constructor; [done|]. rewrite Forall_bind. apply Forall_forall.
    intros wf Hwf. apply file_lines_one_line. rewrite forallb_forall in Hf. by apply Hf, list_elem_of_In.
  - destruct (bool_decide _); [constructor|]. constructor; [done|]. rewrite Forall_bind. apply Forall_forall.
    intros c _. one_line_tac.
Qed.

Definition starts_with (c : ascii) (l : string) : bool := match l with String d _ => bool_decide (d = c) | "" => false end.
Lemma under_none key ls : Forall (λ l, l ≠ key) ls → under key ls = [].
Proof. induction 1 as [|l ls Hl _ IH]; [done|]. cbn. by rewrite bool_decide_false. Qed.
Lemma starts_other c k ls : starts_with c k = true → Forall (λ l, starts_with c l = false) ls → Forall (λ l, l ≠ k) ls.
Proof. intros Hk Hls. eapply Forall_impl; [exact Hls|]. intros l Hl ->. congruence. Qed.

(** The lines before the files, between them and the commands. *)
Definition head_lines (cfg : CloudInitConfig) : list string :=
  ["#cloud-config"] ++
  line_if (negb (bool_decide (ci_Hostname cfg = ""))) ["hostname: " +:+ ci_Hostname cfg] ++
  line_if (hasKeys cfg && negb (hasUsersBlock cfg)) (["ssh_authorized_keys:"] ++ items "  - " (ci_SSHKeys cfg)) ++
  line_if (hasUsersBlock cfg) (users_lines cfg).
Definition package_lines (cfg : CloudInitConfig) : list string :=
  line_if (negb (bool_decide (ci_Packages cfg = [])))
    (["packages:"] ++ items "  - " (ci_Packages cfg) ++ ["package_update: true"; "package_upgrade: false"]).
Definition cmd_lines (cfg : CloudInitConfig) : list string :=
  mbind (λ c, "  - |" :: indented "    " c) (run_cmds cfg).
Lemma user_data_split cfg : user_data_lines cfg =
  head_lines cfg ++ section_if "write_files:" (mbind file_lines (ci_WriteFiles cfg)) ++ package_lines cfg ++
  section_if "runcmd:" (cmd_lines cfg).
Proof. unfold user_data_lines, head_lines, package_lines, cmd_lines. by rewrite <-!app_assoc. Qed.

(** Nothing the renderer writes elsewhere starts like a key. *)
Ltac starts_tac :=
  repeat first [apply Forall_app; split | apply line_if_Forall | apply Forall_cons; split | apply Forall_nil
    | apply Forall_fmap, Forall_forall; intros ? _]; try done.
Definition nowhere (c : ascii) : Prop := c = "r"%char ∨ c = "w"%char.
Lemma items_start c l : nowhere c → Forall (λ l, starts_with c l = false) (items "  - " l) ∧
  Forall (λ l, starts_with c l = false) (items "      - " l).
Proof. intros [->| ->]; split; unfold items; starts_tac. Qed.
Lemma head_start c cfg : nowhere c → Forall (λ l, starts_with c l = false) (head_lines cfg).
Proof.
  intros Hc. destruct (items_start c (ci_SSHKeys cfg) Hc) as [H1 H2]. unfold head_lines, users_lines.
  destruct (negb (bool_decide (ci_DefaultUser cfg = "")) && hasKeys cfg), Hc as [->| ->]; starts_tac.
Qed.
Lemma package_start c cfg : nowhere c → Forall (λ l, starts_with c l = false) (package_lines cfg).
Proof.
  intros Hc. destruct (items_start c (ci_Packages cfg) Hc) as [H1 _]. unfold package_lines.
  destruct Hc as [->| ->]; starts_tac.
Qed.
Lemma files_start cfg : Forall (λ l, starts_with "r" l = false) (section_if "write_files:" (mbind file_lines (ci_WriteFiles cfg))).
Proof.
  unfold section_if. destruct (bool_decide _); [constructor|]. constructor; [done|]. rewrite Forall_bind. apply Forall_forall.
  intros wf _. unfold file_lines, file_meta, indented. starts_tac.
Qed.

Lemma run_cmds_carried cfg : forallb carried (ci_RunCmds cfg) = true → Forall (λ c, carried c = true) (run_cmds cfg).
Proof.
  intros Hr. unfold run_cmds. apply Forall_app. split.
  - unfold password_cmds. destruct (bool_decide _); [constructor|]. apply Forall_fmap, Forall_forall. intros t _. done.
  - apply Forall_forall. intros c Hc. rewrite forallb_forall in Hr. by apply Hr, list_elem_of_In.
Qed.

Lemma cmd_lines_nil cfg : cmd_lines cfg = [] → run_cmds cfg = [].
Proof. unfold cmd_lines. by destruct (run_cmds cfg). Qed.

Lemma under_runcmd cfg : under "runcmd:" (user_data_lines cfg ++ [""]) =
  if bool_decide (cmd_lines cfg = []) then [] else cmd_lines cfg ++ [""].
Proof.
  rewrite user_data_split. set (pre := head_lines cfg ++ section_if "write_files:" (mbind file_lines (ci_WriteFiles cfg)) ++ package_lines cfg).
  assert (Hpre : Forall (λ l, l ≠ "runcmd:") pre).
  { apply (starts_other "r"); [done|]. unfold pre. apply Forall_app. split; [apply head_start; by left|].
    apply Forall_app. split; [apply files_start|apply package_start; by left]. }
  replace ((head_lines cfg ++ section_if "write_files:" (mbind file_lines (ci_WriteFiles cfg)) ++ package_lines cfg ++
    section_if "runcmd:" (cmd_lines cfg)) ++ [""]) with (pre ++ section_if "runcmd:" (cmd_lines cfg) ++ [""])
    by (unfold pre; by rewrite <-!app_assoc).
  unfold section_if. destruct (bool_decide (cmd_lines cfg = [])).
  - apply under_none, Forall_app. split; [exact Hpre|]. by repeat constructor.
  - cbn [app]. by apply under_app.
Qed.

Lemma read_runcmd_all cfg : plain_values cfg = true → read_runcmd (renderUserData cfg) = clipped <$> run_cmds cfg.
Proof.
  intros Hp. unfold read_runcmd, renderUserData. rewrite Split_unlines by by apply user_data_one_line.
  assert (Hr : forallb carried (ci_RunCmds cfg) = true) by (revert Hp; unfold plain_values; rewrite !andb_true_iff; tauto).
  rewrite under_runcmd. destruct (bool_decide (cmd_lines cfg = [])) eqn:E.
  - apply bool_decide_eq_true, cmd_lines_nil in E. by rewrite E.
  - apply read_cmds_all; [by apply run_cmds_carried|]. rewrite length_app. unfold cmd_lines.
    clear. induction (run_cmds cfg) as [|c cs IH]; cbn in *; [lia|]. rewrite length_app. lia.
Qed.

(** *** Files *)
Lemma cut_prefix_app p s : cut_prefix p (p +:+ s) = Some s.
Proof. induction p as [|c p IH]; [by destruct s|]. rewrite append_cons. cbn. by rewrite bool_decide_true. Qed.

Lemma file_meta_key wf : Forall (λ l, l ≠ "    content: |") (file_meta wf).
Proof. unfold file_meta. starts_tac. Qed.

Lemma read_files_all fuel wfs tail rest : forallb file_plain wfs = true → (length wfs <= fuel)%nat →
  follows 6 tail rest → (∀ k, read_files k rest = []) → (∀ k, read_files k tail = []) →
  read_files fuel (mbind file_lines wfs ++ tail) = (λ wf, (wf_Path wf, clipped (wf_Content wf))) <$> wfs.
Proof.
  intros Hp Hl Hf Hrest Htail. revert fuel Hp Hl. induction wfs as [|wf wfs IH]; intros fuel Hp Hl; [apply Htail|].
  destruct fuel as [|fuel]; [cbn in Hl; lia|]. cbn [forallb] in Hp. apply andb_true_iff in Hp as [Hw Hp].
  change (mbind file_lines (wf :: wfs)) with (file_lines wf ++ mbind file_lines wfs). rewrite <-app_assoc.
  unfold file_lines at 1. cbn [app read_files]. rewrite cut_prefix_app, <-app_assoc. cbn [app].
  rewrite under_app by apply file_meta_key. change "      " with (pad 6).
  assert (Hc : carried (wf_Content wf) = true) by (revert Hw; unfold file_plain; rewrite !andb_true_iff; tauto).
  destruct wfs as [|wf' wfs'].
  - cbn [mbind list_bind app]. rewrite (read_block_text 6 _ tail rest) by done. by rewrite Hrest.
  - set (more := mbind file_lines (wf' :: wfs') ++ tail) in *.
    rewrite (read_block_text 6 _ more more); [|apply (follows_line 6 ("  - path: " +:+ wf_Path wf')); [done|]|done].
    + rewrite IH; [done|done|cbn in Hl |- *; lia].
    + change ("  - path: " +:+ wf_Path wf') with (pad 2 +:+ ("- path: " +:+ wf_Path wf')). rewrite spaces_pad.
      change (spaces ("- path: " +:+ wf_Path wf')) with 0%nat. lia.
Qed.

Lemma follows_tail cfg : ∃ rest, follows 6 (package_lines cfg ++ section_if "runcmd:" (cmd_lines cfg) ++ [""]) rest ∧
  (∀ k, read_files k rest = []) ∧
  (∀ k, read_files k (package_lines cfg ++ section_if "runcmd:" (cmd_lines cfg) ++ [""]) = []).
Proof.
  unfold package_lines, section_if. destruct (negb _); cbn [line_if].
  - eexists. split; [apply (follows_line 6 "packages:"); [done|change (spaces "packages:") with 0%nat; lia]|]. by split; intros [].
  - destruct (bool_decide (cmd_lines cfg = [])).
    + eexists. split; [constructor|]. by split; intros [].
    + eexists. split; [apply (follows_line 6 "runcmd:"); [done|change (spaces "runcmd:") with 0%nat; lia]|]. by split; intros [].
Qed.

Lemma cmds_start cfg : Forall (λ l, starts_with "w" l = false) (section_if "runcmd:" (cmd_lines cfg)).
Proof.
  unfold section_if. destruct (bool_decide _); [constructor|]. constructor; [done|]. unfold cmd_lines. rewrite Forall_bind.
  apply Forall_forall. intros c _. unfold indented. starts_tac.
Qed.

Lemma read_write_files_all cfg : plain_values cfg = true → read_write_files (renderUserData cfg) =
  (λ wf, (wf_Path wf, clipped (wf_Content wf))) <$> ci_WriteFiles cfg.
Proof.
  intros Hp. unfold read_write_files, renderUserData. rewrite Split_unlines by by apply user_data_one_line.
  assert (Hw : forallb file_plain (ci_WriteFiles cfg) = true) by (revert Hp; unfold plain_values; rewrite !andb_true_iff; tauto).
  assert (Hhead : Forall (λ l, l ≠ "write_files:") (head_lines cfg)).
  { apply (starts_other "w"); [done|]. apply head_start. by right. }
  rewrite user_data_split. destruct (ci_WriteFiles cfg) as [|wf wfs] eqn:E.
  - change (section_if "write_files:" (mbind file_lines [])) with (@nil string). cbn [app]. rewrite under_none; [done|].
    apply Forall_app. split; [|by repeat constructor]. apply Forall_app. split; [done|].
    apply (starts_other "w"); [done|]. apply Forall_app. split; [apply package_start; by right|apply cmds_start].
  - set (tail := package_lines cfg ++ section_if "runcmd:" (cmd_lines cfg) ++ [""]).
    assert (under "write_files:" ((head_lines cfg ++ section_if "write_files:" (mbind file_lines (wf :: wfs)) ++
      package_lines cfg ++ section_if "runcmd:" (cmd_lines cfg)) ++ [""]) = mbind file_lines (wf :: wfs) ++ tail) as ->.
    { rewrite <-!app_assoc. unfold section_if at 1. rewrite bool_decide_false by done. cbn [app]. by apply under_app. }
    destruct (follows_tail cfg) as (rest & Hf & Hr & Ht). apply (read_files_all _ _ tail rest); [done| |done..].
    rewrite length_app. clear. induction (wf :: wfs) as [|w ws IH]; cbn in *; [lia|]. rewrite !length_app. lia.
Qed.

(** A password command, as the shell reads its argument. *)
Lemma quote_body_app a b : quote_body (a +:+ b) = quote_body a +:+ quote_body b.
Proof.
  induction a as [|c a IH]; [done|]. rewrite append_cons. cbn [quote_body]. rewrite IH.
  destruct (bool_decide _); by rewrite !append_cons.
Qed.
Lemma quote_body_free a : free_of quote a = true → quote_body a = a.
Proof.
  induction a as [|c a IH]; [done|]. cbn. intros [Hc Ha]%andb_true_iff. apply negb_true_iff in Hc. by rewrite Hc, IH.
Qed.
Lemma password_cmd_read u pw : free_of quote u = true →
  sh_read false ("'" +:+ u +:+ ":" +:+ quote_body pw +:+ "' | chpasswd") = Some (u +:+ ":" +:+ pw, " | chpasswd").
Proof.
  intros Hu. change ("'" +:+ u +:+ ":" +:+ quote_body pw +:+ "' | chpasswd")
    with (String quote (u +:+ ":" +:+ quote_body pw +:+ String quote " | chpasswd")).
  cbn [sh_read]. rewrite bool_decide_true by done. cbn [negb].
  rewrite <-(quote_body_free u Hu) at 1. change ":" with (quote_body ":") at 1.
  rewrite <-!append_assoc, <-!quote_body_app, quote_body_read by done. by rewrite append_assoc.
Qed.

(** ** Claims *)

(** the documents mean what they were made from.  When the single-line
    values are single lines and the first text of no command or file is indented, a
    YAML reader of the user-data finds the commands, those that set passwords
    first, and the files with their contents, each text with its final newlines
    as one, whatever characters they contain. *)
Theorem user_data_roundtrip cfg : plain_values cfg = true →
  read_runcmd (renderUserData cfg) = clipped <$> run_cmds cfg ∧
  read_write_files (renderUserData cfg) = (λ wf, (wf_Path wf, clipped (wf_Content wf))) <$> ci_WriteFiles cfg.
Proof. intros Hp. split; [by apply read_runcmd_all|by apply read_write_files_all]. Qed.

Lemma line_if_elem b l x : x ∈ line_if b l ↔ b = true ∧ x ∈ l.
Proof. destruct b; cbn; [naive_solver|]. rewrite elem_of_nil. naive_solver. Qed.

(** A password is set as it was given.  Each command the password adds
    echoes exactly "user:password", whatever the password's characters, into
    chpasswd, for the custom user or the distribution's own; and each of the two
    that is named has such a command. *)
Theorem password_cmds_exact cfg : ci_Password cfg ≠ "" → free_of quote (ci_User cfg) = true →
  free_of quote (ci_DefaultUser cfg) = true →
  (∀ cmd, cmd ∈ password_cmds cfg → ∃ u w, u ≠ "" ∧ u ∈ [ci_User cfg; ci_DefaultUser cfg] ∧ cmd = "echo " +:+ w ∧
     sh_read false w = Some (u +:+ ":" +:+ ci_Password cfg, " | chpasswd")) ∧
  (∀ u, u ≠ "" → u ∈ [ci_User cfg; ci_DefaultUser cfg] → ∃ w, "echo " +:+ w ∈ password_cmds cfg ∧
     sh_read false w = Some (u +:+ ":" +:+ ci_Password cfg, " | chpasswd")).
Proof.
  intros Hpw Hu Hd. unfold password_cmds. rewrite (bool_decide_false (ci_Password cfg = "")) by done.
  set (targets := line_if _ [ci_User cfg] ++ line_if _ [ci_DefaultUser cfg]).
  assert (Ht : ∀ u, u ∈ targets ↔ u ≠ "" ∧ u ∈ [ci_User cfg; ci_DefaultUser cfg]).
  { intros u. unfold targets. rewrite elem_of_app, !line_if_elem, andb_true_iff, !negb_true_iff, !bool_decide_eq_false.
    rewrite !elem_of_cons, elem_of_nil. split.
    - intros [[Hn [->|[]]]|[[Hn _] [->|[]]]]; auto.
    - intros (Hn & [->|[->|[]]]); [by left; auto|].
      destruct (decide (ci_DefaultUser cfg = ci_User cfg)) as [E|E]; [left; rewrite <-E|right]; auto. }
  assert (Hq : ∀ u, u ∈ targets → free_of quote u = true) by (intros u (_ & Hin)%Ht; set_solver).
  split.
  - intros cmd (u & -> & Hin)%list_elem_of_fmap. pose proof (Hq u Hin). apply Ht in Hin as [Hn Hin].
    exists u, ("'" +:+ u +:+ ":" +:+ quote_body (ci_Password cfg) +:+ "' | chpasswd"). split_and!; try done. by apply password_cmd_read.
  - intros u Hn Hin. assert (Hin' : u ∈ targets) by by apply Ht.
    exists ("'" +:+ u +:+ ":" +:+ quote_body (ci_Password cfg) +:+ "' | chpasswd"). split; [|by apply password_cmd_read, Hq].
    apply list_elem_of_fmap. by exists u.
Qed.


Module SeedExample.
Definition file : CloudInitWriteFile :=
  mkCloudInitWriteFile "/etc/motd" (unlines ["welcome: # not a comment"; "  indented"]) "" "" false "".
Definition cfg : CloudInitConfig :=
  mkCloudInitConfig "dev" "me" "it's" "ubuntu" ["ssh-ed25519 AAAA"] ["git"] ["echo 'a: b' > /tmp/x"] [file].
Definition env : SeedEnv := mkSeedEnv "windows" (λ _, false) (λ _ _, Ok []) (Ok "/tmp/s") None (λ _, None) (λ _, None).

Lemma user_data_roundtrip_witness : read_runcmd (renderUserData cfg) = clipped <$> run_cmds cfg.
Proof. apply (user_data_roundtrip cfg). vm_compute. reflexivity. Defined.

Lemma password_cmds_exact_witness : ∃ w, "echo " +:+ w ∈ password_cmds cfg ∧
  sh_read false w = Some ("me:it's", " | chpasswd").
Proof.
  destruct (password_cmds_exact cfg) as [_ Hall]; [discriminate|vm_compute; reflexivity..|].
  apply (Hall "me"); [discriminate|left].
Defined.


(** A command whose first line is indented is not carried as it is: its other
    lines are outside the block. *)
Theorem indented_command_cut :
  let c := mkCloudInitConfig "dev" "" "" "" [] [] [Join (String newline "") ["  if true; then"; "reboot"; "fi"]] [] in
  read_runcmd (renderUserData c) = [unlines ["if true; then"]].
Proof. vm_compute. reflexivity. Qed.
End SeedExample.
