(* ===== verification/Ready.v ===== *)
(** * Waiting for a guest

    [WaitReadyWithPhases], [WaitReady], [persistPhase] and [markReady] of
    [internal/vm/manager.go], [waitReadyVZ] of [internal/vm/backend_vz.go],
    [WaitSSHReady], [authProbeSpec] and [waitCloudInitDone] of
    [internal/vm/waitssh.go] and [SetSSHPort] of [internal/vm/sshport.go].

    A waiting goroutine sleeps in a [select]; what wakes it, and what happens
    in the world between two wake-ups, is a list of [wake]s.  Network probes
    are functions of the world. *)
From S2P Require Import Prelude GoStrings Boot Config Store World Lifecycle Guest.

Open Scope Z_scope.

(** ** Records *)
Section Records.
Context {S : Type} `{VMStore S}.
Abbreviation M := (GoM (World S) error).

Definition ready_record (now : Z) (s : VMState) : VMState :=
  s <| s_InstallState := InstallStateReady |> <| s_InstalledAt := Some now |>
    <| s_BootPhase := PhaseWatcher.phase_string PhaseWatcher.PhaseReady |>
    <| s_PhaseStartedAt := Some now |>.

Definition markReady (name : string) : M unit :=
  s ← st (loadState name);
  now ← gets w_now;
  st (saveState name (ready_record now s)).

Definition phase_record (ev : PhaseWatcher.Event) (s : VMState) : VMState :=
  let s := s <| s_BootPhase := PhaseWatcher.phase_string (PhaseWatcher.ev_Phase ev) |>
             <| s_PhaseStartedAt := Some (PhaseWatcher.ev_At ev) |> in
  if bool_decide (PhaseWatcher.ev_Phase ev = PhaseWatcher.PhaseFailed)
  then s <| s_LastPanicLine := TrimSpace (PhaseWatcher.ev_PanicLine ev) |> else s.

(** Best effort: an error is logged. *)
Definition persistPhase (name : string) (ev : PhaseWatcher.Event) : M unit :=
  r ← attempt (st (loadState name));
  match r with
  | Err _ => mret tt
  | Ok s => ignore (st (saveState name (phase_record ev s)))
  end.
End Records.

(** ** Probes *)
Definition authProbeSpec (cfg : VMConfig) : option (string * string) :=
  if bool_decide (c_Template cfg = "truenas") then None
  else
    let user := SSHUsername cfg in
    if bool_decide (user = "") then None
    else Some (user, if WindowsGuest cfg then "ver" else "true").

Record ReadyEnv (S : Type) := mkReadyEnv {
  (** the vee private key, when the home directory and the key can be read *)
  re_key : option string;
  re_tables : World S → NetTables;
  re_qga : World S → result error (list GuestNetworkInterface);
  (** an authenticated exec of a command by a user at an address *)
  re_exec : string → string → string → World S → bool;
  (** something accepts a TCP connection at the address *)
  re_dial : string → World S → bool;
  (** the guest agent on the socket answers a ping *)
  re_ping : string → World S → bool;
}.
Arguments re_key {S} _ : assert.
Arguments re_tables {S} _ _ : assert.
Arguments re_qga {S} _ _ : assert.
Arguments re_exec {S} _ _ _ _ _ : assert.
Arguments re_dial {S} _ _ _ : assert.
Arguments re_ping {S} _ _ _ : assert.

Definition addr_of (host : string) (port : Z) : string := host +:+ ":" +:+ Itoa port.

(** What wakes the waiting loop. *)
Inductive wake (S : Type) :=
| WPhase (ev : PhaseWatcher.Event)   (* an event reaches the fan-out goroutine *)
| WFailed                            (* the loop receives from the failure channel *)
| WCancel                            (* the context is done *)
| WTick (t : Z)                      (* the ticker fires *)
| WWorld (f : World S → World S).    (* something else happens meanwhile *)
Arguments WPhase {S} _ : assert.
Arguments WFailed {S} : assert.
Arguments WCancel {S} : assert.
Arguments WTick {S} _ : assert.
Arguments WWorld {S} _ : assert.

(** The loop's variables: its copy of the state, the failure channel's one
    slot, and the events handed to the caller. *)
Record Waiter := mkWaiter { wt_state : VMState; wt_failed : option PhaseWatcher.Event; wt_out : list PhaseWatcher.Event }.

Definition context_canceled : error := Errorf "context canceled" [].

Section Wait.
Context {S : Type} `{VMStore S} (host : Host) (env : ReadyEnv S).
Abbreviation M := (GoM (World S) error).

(** The account, command and key of the authenticated tier, if it applies. *)
Definition auth_tier (cfg : result error VMConfig) : option (VMConfig * string * string) :=
  match cfg with
  | Err _ => None
  | Ok c => match authProbeSpec c, re_key env with
            | Some (user, cmd), Some _ => Some (c, user, cmd)
            | _, _ => None
            end
  end.

Definition probe (tier : option (VMConfig * string * string)) (s : VMState) (w : World S) : bool :=
  match tier with
  | Some (cfg, user, cmd) =>
      match guestSSHEndpoint host (re_tables env w) (re_qga env w) cfg s with
      | Err _ => false
      | Ok (h, p) => re_exec env (addr_of h p) user cmd w
      end
  | None =>
      ((0 <? s_SSHPort s) && re_dial env (addr_of "127.0.0.1" (s_SSHPort s)) w)
      || (negb (bool_decide (s_QGASocket s = "")) && re_ping env (s_QGASocket s) w)
  end.

Definition exited (name : string) (pid : Z) : error :=
  Errorf "VM process exited - check: vee logs" [name; Itoa pid].
Definition not_ready (name : string) (tier : option (VMConfig * string * string)) : error :=
  match tier with
  | Some (_, user, _) => Errorf "VM did not answer an authenticated SSH probe in time" [name; user]
  | None => Errorf "VM did not become ready in time" [name]
  end.

(** The fan-out of one event: persist, hand on, and for a failure fill the
    channel's slot if it is empty. *)
Definition fan_out (name : string) (ev : PhaseWatcher.Event) (v : Waiter) : M Waiter :=
  _ ← persistPhase name ev;
  mret (mkWaiter (wt_state v)
          (if bool_decide (PhaseWatcher.ev_Phase ev = PhaseWatcher.PhaseFailed)
           then match wt_failed v with Some e => Some e | None => Some ev end else wt_failed v)
          (wt_out v ++ [ev])).

(** One tick: [inl] the wait is over, [inr] it goes on. *)
Definition on_tick (name : string) (tier : option (VMConfig * string * string)) (deadline t : Z) (v : Waiter)
  : M (result error unit + Waiter) :=
  let s := wt_state v in
  alive ← isAlive (s_PID s);
  if negb alive then
    mret (inl (if bool_decide (s_InstallState s = InstallStatePending)
                  && bool_decide (s_LastShutdownReason s = ShutdownReasonGuest)
               then Ok tt else Err (exited name (s_PID s))))
  else if deadline <? t then mret (inl (Err (not_ready name tier)))
  else
    r ← attempt (st (loadState name));
    let s := match r with Ok s => s | Err _ => s end in
    let v := mkWaiter s (wt_failed v) (wt_out v) in
    ok ← gets (probe tier s);
    if (ok : bool) then r ← attempt (markReady name); mret (inl r) else mret (inr v).

Definition wait_step (name : string) (tier : option (VMConfig * string * string)) (deadline : Z) (wk : wake S) (v : Waiter)
  : M (result error unit + Waiter) :=
  match wk with
  | WPhase ev => v ← fan_out name ev v; mret (inr v)
  | WFailed =>
      mret (match wt_failed v with
            | Some ev => inl (Err (Errorf "VM boot failed" [name; TrimSpace (PhaseWatcher.ev_PanicLine ev)]))
            | None => inr v
            end)
  | WCancel => mret (inl (Err context_canceled))
  | WTick t => on_tick name tier deadline t v
  | WWorld f => _ ← modify f; mret (inr v)
  end.

(** [None]: still waiting when the wake-ups ran out. *)
Fixpoint wait_loop (name : string) (tier : option (VMConfig * string * string)) (deadline : Z) (wks : list (wake S)) (v : Waiter)
  : M (option (result error unit)) :=
  match wks with
  | [] => mret None
  | wk :: wks' =>
      r ← wait_step name tier deadline wk v;
      match r with
      | inl res => mret (Some res)
      | inr v' => wait_loop name tier deadline wks' v'
      end
  end.

(** *** vz guests *)
Definition vzGuestSSHReachable (mac : string) (w : World S) : bool :=
  match ResolveIPFromMAC host (re_tables env w) mac with
  | Err _ => false
  | Ok ip => re_dial env (addr_of ip 22) w
  end.
Definition vz_probe (mac : string) (baseline : Z) (w : World S) : bool :=
  let exp := dhcpLeaseExpiry (re_tables env w) mac in
  ((0 <? exp) && (baseline <? exp)) || vzGuestSSHReachable mac w.

Fixpoint vz_loop (name mac : string) (s : VMState) (deadline : Z) (wks : list (wake S)) : M (option (result error unit)) :=
  match wks with
  | [] => mret None
  | WCancel :: _ => mret (Some (Err context_canceled))
  | WTick t :: wks' =>
      alive ← isAlive (s_PID s);
      if negb alive then mret (Some (Err (exited name (s_PID s))))
      else
        ok ← gets (vz_probe mac (s_LeaseBaseline s));
        if (ok : bool) then r ← attempt (markReady name); mret (Some r)
        else if deadline <? t then mret (Some (Err (Errorf "VM did not acquire a DHCP lease in time" [name; mac])))
        else vz_loop name mac s deadline wks'
  | WWorld f :: wks' => _ ← modify f; vz_loop name mac s deadline wks'
  | _ :: wks' => vz_loop name mac s deadline wks'
  end.

Definition waitReadyVZ (name : string) (s : VMState) (timeout : Z) (wks : list (wake S)) : M (option (result error unit)) :=
  alive ← isAlive (s_PID s);
  if negb alive then mret (Some (Err (exited name (s_PID s))))
  else
    cfg ← attempt (st (loadConfig name));
    let mac := match cfg with Ok c => nic_MAC (c_NIC c) | Err _ => "" end in
    if bool_decide (mac = "") then r ← attempt (markReady name); mret (Some r)
    else now ← gets w_now; vz_loop name mac s (now + timeout) wks.

(** *** The whole wait *)

(** [late]: events the fan-out still persists after the answer is decided,
    while the watcher is being cancelled. *)
Definition WaitReadyWithPhases (name : string) (timeout : Z) (wks : list (wake S)) (late : list PhaseWatcher.Event)
  : M (option (result error unit)) :=
  r ← attempt (st (loadState name));
  match r with
  | Err e => mret (Some (Err e))
  | Ok s =>
      if negb (s_Running s) || (s_PID s =? 0) then mret (Some (Err (Errorf "VM is not running" [name])))
      else if bool_decide (StateBackendName (Some s) = VZ) then waitReadyVZ name s timeout wks
      else
        res ← (if (s_SSHPort s =? 0) && bool_decide (s_QGASocket s = "") then
                 alive ← isAlive (s_PID s);
                 if negb alive then mret (Some (Err (exited name (s_PID s))))
                 else if bool_decide (s_InstallState s = InstallStatePending) then mret (Some (Ok tt))
                 else r ← attempt (markReady name); mret (Some r)
               else
                 now ← gets w_now;
                 cfg ← attempt (st (loadConfig name));
                 let tier := auth_tier cfg in
                 ok ← gets (probe tier s);
                 if (ok : bool) then r ← attempt (markReady name); mret (Some r)
                 else wait_loop name tier (now + timeout) wks (mkWaiter s None []));
        _ ← for_each (persistPhase name) late;
        mret res
  end.

(** The idle timeout the watcher is given. *)
Definition wait_watcher (timeout : Z) : PhaseWatcher.Watcher :=
  if 30000 <? timeout then PhaseWatcher.mkWatcher (timeout - 30000) 200 else PhaseWatcher.NewWatcher.
End Wait.

(** ** Waiting for SSH *)

(** How a command run over SSH ended: exit status 0, another one, or the
    connection failed. *)
Inductive run_result := RunOk | RunExit (status : Z) | RunLost (e : error).

Inductive cloud_init_error := CloudInitFailed (status : Z) | CloudInitNotFinished (e : error).

Definition waitCloudInitDone (r : run_result) : result cloud_init_error unit :=
  match r with
  | RunOk => Ok tt
  | RunExit status => if (status =? 2) || (status =? 127) then Ok tt else Err (CloudInitFailed status)
  | RunLost e => Err (CloudInitNotFinished e)
  end.

Definition cloudInitWaitCmd : string :=
  "command -v cloud-init >/dev/null 2>&1 || exit 127; if sudo -n true 2>/dev/null; then sudo -n cloud-init status --wait; else cloud-init status --wait; fi".

(** One turn of the retry loop, as the world answers it: the time at its head,
    whether the context is done, what happened since the turn before, the dial
    and the commands run over the connection; and whether the context is done
    after the cloud-init wait. *)
Record Attempt (S : Type) := mkAttempt {
  at_now : Z;
  at_cancelled : bool;
  at_world : World S → World S;
  at_dial : string → string → result error unit;
  at_run : string → run_result;
  at_cancelled_after : bool;
}.
Arguments mkAttempt {S} _ _ _ _ _ _ : assert.
Arguments at_now {S} _ : assert.
Arguments at_cancelled {S} _ : assert.
Arguments at_world {S} _ _ : assert.
Arguments at_dial {S} _ _ _ : assert.
Arguments at_run {S} _ _ : assert.
Arguments at_cancelled_after {S} _ : assert.

Definition run_error (r : run_result) : option error :=
  match r with
  | RunOk => None
  | RunExit status => Some (Errorf "ssh command failed" [Itoa status])
  | RunLost e => Some e
  end.
Definition cloud_error (e : cloud_init_error) : error :=
  match e with
  | CloudInitFailed status => Errorf "cloud-init finished with an error status" [Itoa status]
  | CloudInitNotFinished e => Wrapf "cloud-init not finished" e
  end.

Section WaitSSH.
Context {S : Type} `{VMStore S} (host : Host) (env : ReadyEnv S).
Abbreviation M := (GoM (World S) error).

Definition ssh_user (cfg : VMConfig) : string :=
  let user := SSHUsername cfg in
  if bool_decide (user = "") && bool_decide (c_Template cfg = "truenas") then c_TrueNASUser cfg else user.

(** What a turn does: end the wait, or go on with the state it has loaded and
    the error to report should the time run out. *)
Definition ssh_turn (name : string) (cfg : VMConfig) (user : string) (cloudInit : bool) (a : Attempt S) (s : VMState)
  : M (result error unit + VMState * error) :=
  _ ← modify (at_world a);
  r ← attempt (st (loadState name));
  let s := match r with Ok s => s | Err _ => s end in
  alive ← isAlive (s_PID s);
  if negb (s_Running s) || negb alive then
    if bool_decide (s_LastShutdownReason s = ShutdownReasonReboot)
    then mret (inr (s, Errorf "VM is power-cycling after a guest-requested reboot" [name]))
    else mret (inl (Err (Errorf "VM process exited while waiting" [name])))
  else
    w ← gets id;
    match guestSSHEndpoint host (re_tables env w) (re_qga env w) cfg s with
    | Err e => mret (inr (s, e))
    | Ok (h, p) =>
        match at_dial a (addr_of h p) user with
        | Err e => mret (inr (s, e))
        | Ok _ =>
            match run_error (at_run a (if WindowsGuest cfg then "ver" else "true")) with
            | Some e => mret (inr (s, e))
            | None =>
                if cloudInit && negb (WindowsGuest cfg) then
                  match waitCloudInitDone (at_run a cloudInitWaitCmd) with
                  | Ok _ => mret (inl (Ok tt))
                  | Err (CloudInitFailed status) => mret (inl (Err (Wrapf "VM" (cloud_error (CloudInitFailed status)))))
                  | Err e => if at_cancelled_after a then mret (inl (Err (Wrapf "VM" (cloud_error e))))
                             else mret (inr (s, Wrapf "cloud-init wait interrupted" (cloud_error e)))
                  end
                else mret (inl (Ok tt))
            end
        end
    end.

Definition deadline_exceeded : error := Errorf "context deadline exceeded" [].

Fixpoint ssh_loop (name : string) (cfg : VMConfig) (user : string) (cloudInit : bool) (deadline : Z)
    (attempts : list (Attempt S)) (s : VMState) (lastErr : option error) : M (option (result error unit)) :=
  match attempts with
  | [] => mret None
  | a :: attempts' =>
      if deadline <=? at_now a
      then mret (Some (Err (Wrapf "VM not SSH-ready in time" (default deadline_exceeded lastErr))))
      else if at_cancelled a then mret (Some (Err context_canceled))
      else
        r ← ssh_turn name cfg user cloudInit a s;
        match r with
        | inl res => mret (Some res)
        | inr (s', e) => ssh_loop name cfg user cloudInit deadline attempts' s' (Some e)
        end
  end.

Definition WaitSSHReady (name : string) (timeout : Z) (cloudInit : bool) (attempts : list (Attempt S))
  : M (option (result error unit)) :=
  cfg ← attempt (st (loadConfig name));
  match cfg with
  | Err e => mret (Some (Err (Wrapf "VM not found" e)))
  | Ok cfg =>
      r ← attempt (st (loadState name));
      match r with
      | Err e => mret (Some (Err e))
      | Ok s =>
          if negb (s_Running s) then mret (Some (Err (Errorf "VM is not running" [name])))
          else
            let user := ssh_user cfg in
            if bool_decide (user = "") then mret (Some (Err (Errorf "VM has no SSH account recorded" [name])))
            else match re_key env with
                 | None => mret (Some (Err (Errorf "read vee ssh key" [])))
                 | Some _ => now ← gets w_now; ssh_loop name cfg user cloudInit (now + timeout) attempts s None
                 end
      end
  end.

(** ** Changing the forwarded port *)

(** The QMP monitor: whether it can be reached, and its answer to a command. *)
Record Monitor := mkMonitor { mon_dial : option error; mon_answer : string → result error string }.

Definition hostfwd_remove (port : Z) : string := "hostfwd_remove net0 tcp:127.0.0.1:" +:+ Itoa port.
Definition hostfwd_add (port : Z) : string := "hostfwd_add net0 tcp:127.0.0.1:" +:+ Itoa port +:+ "-:22".

(** The monitor commands sent, whether the port was applied live, and the
    error if there was one. *)
Definition SetSSHPort (mon : Monitor) (name : string) (port : Z) : M (list string * bool * option error) :=
  if (port <=? 0) || (65535 <? port) then mret ([], false, Some (Errorf "invalid SSH port" [Itoa port])) else
  r ← attempt (st (loadConfig name));
  match r with
  | Err e => mret ([], false, Some e)
  | Ok cfg =>
      if bool_decide (BackendName cfg = VZ)
      then mret ([], false, Some (Errorf "the vz backend does not support ssh_port" []))
      else
        let cfg := cfg <| c_SSHPort := port |> in
        r ← attempt (st (saveConfig cfg));
        match r with
        | Err e => mret ([], false, Some e)
        | Ok _ =>
            r ← attempt (st (loadState name));
            match r with
            | Err _ => mret ([], false, None)
            | Ok s =>
                alive ← isAlive (s_PID s);
                if negb (s_Running s) || negb alive || effectiveBridge host cfg || bool_decide (s_QMPSocket s = "")
                then mret ([], false, None)
                else match mon_dial mon with
                | Some e => mret ([], false, Some (Wrapf "VM is running but its QMP socket is unreachable" e))
                | None =>
                    let sent := if (0 <? s_SSHPort s) && negb (s_SSHPort s =? port)
                                then [hostfwd_remove (s_SSHPort s)] else [] in
                    let sent := sent ++ [hostfwd_add port] in
                    match mon_answer mon (hostfwd_add port) with
                    | Err e => mret (sent, false, Some (Wrapf "apply port to running VM" e))
                    | Ok out =>
                        if negb (bool_decide (TrimSpace out = ""))
                        then mret (sent, false, Some (Errorf "apply port to running VM" [TrimSpace out]))
                        else
                          r ← attempt (st (saveState name (s <| s_SSHPort := port |>)));
                          mret (sent, true, match r with
                                            | Ok _ => None
                                            | Err e => Some (Wrapf "port forwarded live, but recording it failed" e)
                                            end)
                    end
                end
            end
        end
  end.
End WaitSSH.

(** ** The wait ends *)
Section Ends.
Context {S : Type} `{VMStore S} (host : Host) (env : ReadyEnv S).
Abbreviation M := (GoM (World S) error).

Definition total {A} (m : M A) : Prop := keeps (λ _, True) m.

Lemma attempt_total {A} (m : M A) : total (attempt m).
Proof. apply keeps_attempt. by intros w _. Qed.
Lemma ignore_total {A} (m : M A) : total (ignore m).
Proof. apply keeps_ignore. by intros w _. Qed.
Lemma modify_total (f : World S → World S) : total (modify f).
Proof. by apply keeps_modify. Qed.
Lemma persistPhase_total name ev : total (persistPhase (S := S) name ev).
Proof.
  unfold persistPhase, total. apply keeps_bind; [apply attempt_total|]. intros [s|e]; [apply ignore_total|apply keeps_ret].
Qed.

Lemma isAlive_total pid : total (isAlive (S := S) pid).
Proof. apply keeps_gets. Qed.

Lemma on_tick_total name tier deadline t v : total (on_tick host env name tier deadline t v).
Proof.
  unfold on_tick, total. apply keeps_bind; [apply isAlive_total|]. intros alive.
  destruct (negb alive); [apply keeps_ret|]. destruct (deadline <? t); [apply keeps_ret|].
  apply keeps_bind; [apply attempt_total|]. intros r. apply keeps_bind; [apply keeps_gets|]. intros [].
  - apply keeps_bind; [apply attempt_total|]. intros ?. apply keeps_ret.
  - apply keeps_ret.
Qed.

Lemma wait_step_total name tier deadline wk v : total (wait_step host env name tier deadline wk v).
Proof.
  unfold total. destruct wk; cbn; try apply keeps_ret.
  - apply keeps_bind; [|intros ?; apply keeps_ret]. unfold fan_out.
    apply keeps_bind; [apply persistPhase_total|intros ?; apply keeps_ret].
  - apply on_tick_total.
  - apply keeps_bind; [apply modify_total|intros ?; apply keeps_ret].
Qed.

(** A tick past the deadline decides, whatever is going on. *)
Lemma late_tick name tier deadline t v w : deadline < t →
  ∃ res w', on_tick host env name tier deadline t v w = (Ok (inl res), w').
Proof.
  intros Ht. unfold on_tick. rewrite run_bind. cbn. destruct (negb _); [by do 2 eexists|].
  rewrite (proj2 (Z.ltb_lt _ _)) by done. by do 2 eexists.
Qed.

Lemma wait_loop_ends name tier deadline t wks : WTick t ∈ wks → deadline < t → ∀ v w,
  ∃ res w', wait_loop host env name tier deadline wks v w = (Ok (Some res), w').
Proof.
  intros Hin Ht. induction wks as [|wk wks IH]; [by apply not_elem_of_nil in Hin|]. intros v w. cbn. rewrite run_bind.
  destruct (wait_step_total name tier deadline wk v w I) as (r & w' & E & _).
  destruct r as [res|v'].
  - rewrite E. by do 2 eexists.
  - apply elem_of_cons in Hin as [<-|Hin].
    + cbn in E |- *. destruct (late_tick name tier deadline t v w Ht) as (res & w1 & E1). rewrite E1. by do 2 eexists.
    + rewrite E. by apply IH.
Qed.

Lemma markReady_then {A} name (f : result error unit → A) w :
  ∃ r w', (r ← attempt (markReady (S := S) name); mret (f r)) w = (Ok (f r), w').
Proof. rewrite run_attempt. by do 2 eexists. Qed.

Lemma vz_loop_ends name mac s deadline t wks : WTick t ∈ wks → deadline < t → ∀ w,
  ∃ res w', vz_loop host env name mac s deadline wks w = (Ok (Some res), w').
Proof.
  intros Hin Ht. induction wks as [|wk wks IH]; [by apply not_elem_of_nil in Hin|]. intros w.
  assert (wk = WTick t ∨ WTick t ∈ wks) as Hin' by (by apply elem_of_cons in Hin as [<-|]; [left|right]).
  destruct wk as [ev| | |t'|f]; cbn [vz_loop]; try (destruct Hin' as [Hd|Hin']; [discriminate Hd|]).
  - by apply IH.
  - by apply IH.
  - by do 2 eexists.
  - rewrite run_bind. cbn [isAlive gets]. destruct (negb _); [by do 2 eexists|]. rewrite run_gets.
    destruct (vz_probe _ _ _ _ _); [rewrite run_attempt; by do 2 eexists|].
    destruct Hin' as [[= ->]|Hin']; [rewrite (proj2 (Z.ltb_lt _ _)) by done; by do 2 eexists|].
    destruct (deadline <? t'); [by do 2 eexists|by apply IH].
  - rewrite run_modify. by apply IH.
Qed.

(** C24: the wait for a guest ends.  For every backend and whatever the guest,
    the log and the rest of the host do meanwhile, [WaitReadyWithPhases] has
    answered by the first tick after its timeout. *)
Theorem wait_ready_ends name timeout t wks late w : WTick t ∈ wks → w_now w + timeout < t →
  ∃ res w', WaitReadyWithPhases host env name timeout wks late w = (Ok (Some res), w').
Proof.
  intros Hin Ht. unfold WaitReadyWithPhases. rewrite run_attempt.
  assert (w_now ((st (loadState name) w).2) = w_now w) as Hnow by (unfold st; by destruct (loadState _ _)).
  destruct (st (loadState name) w) as [[s|e] w1]; cbn [fst snd] in *; [|by do 2 eexists].
  destruct (_ || _); [by do 2 eexists|]. case_bool_decide.
  - unfold waitReadyVZ. rewrite run_bind. cbn [isAlive gets]. destruct (negb _); [by do 2 eexists|].
    rewrite run_attempt.
    assert (w_now ((st (loadConfig name) w1).2) = w_now w1) as Hnow1 by (unfold st; by destruct (loadConfig _ _)).
    destruct (st (loadConfig name) w1) as [r w2]; cbn [fst snd] in *.
    case_bool_decide; [rewrite run_attempt; by do 2 eexists|]. rewrite run_gets.
    eapply vz_loop_ends; [exact Hin|]. lia.
  - assert (∀ (m : M (option (result error unit))) w0, (∃ res w', m w0 = (Ok (Some res), w')) →
      ∃ res w', (res ← m; _ ← for_each (persistPhase name) late; mret res) w0 = (Ok (Some res), w')) as Hk.
    { intros m w0 (res & w' & E). rewrite run_bind, E.
      assert (total (for_each (persistPhase (S := S) name) late)) as Ht' by (apply keeps_for_each; intros; apply persistPhase_total).
      destruct (Ht' w' I) as ([] & w2 & E2 & _). rewrite run_bind, E2. by do 2 eexists. }
    apply Hk. clear Hk. destruct (_ && _).
    + rewrite run_bind. cbn [isAlive gets]. destruct (negb _); [by do 2 eexists|].
      case_bool_decide; [by do 2 eexists|]. rewrite run_attempt. by do 2 eexists.
    + rewrite run_gets, run_attempt, run_gets.
      destruct (probe _ _ _ _ _); [rewrite run_attempt; by do 2 eexists|].
      eapply wait_loop_ends; [exact Hin|]. lia.
Qed.
End Ends.

(** ** What a finished wait leaves on record *)
Section Outcome.
Context {S : Type} `{VMStoreLaws S} (host : Host) (env : ReadyEnv S) (name : string).
Abbreviation M := (GoM (World S) error).

(** The store answers and knows the VM. *)
Definition good (w : World S) : Prop := healthy (w_store w) ∧ is_Some (cfg_view (w_store w) !! name).

(** What is known of the VM's record, all along. *)
Definition on_record (w : World S) : VMState := default zeroState (st_view (w_store w) !! name).
Definition settled (Q : VMState → Prop) (w : World S) : Prop := good w ∧ Q (on_record w).
(** Nothing that happens meanwhile breaks it. *)
Definition harmless (Q : VMState → Prop) (wk : wake S) : Prop :=
  match wk with WWorld f => ∀ w, settled Q w → settled Q (f w) | _ => True end.

Definition marked_ready (w : World S) : Prop :=
  ∃ s now, st_view (w_store w) !! name = Some (ready_record now s).

Lemma loadState_good w : good w →
  st (loadState name) w = (Ok (default zeroState (st_view (w_store w) !! name)), w).
Proof. intros [Hh _]. by apply st_loadState. Qed.

Lemma saveState_good x w : good w → ∃ w', st (saveState name x) w = (Ok tt, w') ∧ good w' ∧
  st_view (w_store w') = <[name := x]> (st_view (w_store w)) ∧ w_alive w' = w_alive w.
Proof.
  intros [Hh Hc]. destruct (saveState_ok name x (w_store w) Hh Hc) as (s' & Es & Hh' & Hc' & Hs').
  exists (w <| w_store := s' |>). split; [by apply st_run|]. split; [|done]. split; [done|]. cbn. by rewrite Hc'.
Qed.

Lemma markReady_run w : good w → ∃ w', markReady name w = (Ok tt, w') ∧ good w' ∧ marked_ready w'.
Proof.
  intros Hg. unfold markReady. rewrite run_bind, loadState_good, run_gets by done.
  destruct (saveState_good (ready_record (w_now w) (default zeroState (st_view (w_store w) !! name))) w Hg)
    as (w' & -> & Hg' & Hs & _).
  exists w'. split; [done|]. split; [done|]. unfold marked_ready. rewrite Hs. do 2 eexists. by rewrite lookup_insert_eq.
Qed.

Lemma persistPhase_run ev w : good w → ∃ w', persistPhase name ev w = (Ok tt, w') ∧ good w' ∧
  st_view (w_store w') = <[name := phase_record ev (default zeroState (st_view (w_store w) !! name))]> (st_view (w_store w)).
Proof.
  intros Hg. unfold persistPhase. rewrite run_attempt, loadState_good by done. cbn [fst snd].
  destruct (saveState_good (phase_record ev (default zeroState (st_view (w_store w) !! name))) w Hg)
    as (w' & E & Hg' & Hs & _).
  unfold ignore. rewrite E. by exists w'.
Qed.

(** The install pass is over: the copy of the state the wait went by says an
    install is under way, and either nothing can be probed or the guest has
    powered itself off. *)
Definition install_pass (s : VMState) : Prop :=
  s_InstallState s = InstallStatePending ∧
  ((s_SSHPort s = 0 ∧ s_QGASocket s = "") ∨ s_LastShutdownReason s = ShutdownReasonGuest).

(** [Q] holds of the record throughout: a boot phase does not change it. *)
Context (Q : VMState → Prop) (HQ : ∀ ev s, Q s → Q (phase_record ev s)).

Lemma on_tick_outcome tier deadline t v w r w' : settled Q w → Q (wt_state v) →
  on_tick host env name tier deadline t v w = (Ok r, w') →
  good w' ∧ match r with
            | inl res => res = Ok tt → marked_ready w' ∨ ∃ s, Q s ∧ install_pass s
            | inr v' => settled Q w' ∧ Q (wt_state v')
            end.
Proof.
  intros [Hg HQw] Hv. unfold on_tick. rewrite run_bind. cbn [isAlive gets].
  destruct (negb (isAlive_in w (s_PID (wt_state v)))).
  { intros [= <- <-]. split; [done|]. intros [= Hr]. right. exists (wt_state v). split; [done|].
    destruct (bool_decide (s_InstallState _ = _)) eqn:E1, (bool_decide (s_LastShutdownReason _ = _)) eqn:E2; cbn in Hr;
      simplify_eq. apply bool_decide_eq_true in E1, E2. split; [done|by right]. }
  destruct (deadline <? t); [intros [= <- <-]; split; [done|discriminate]|].
  rewrite run_attempt, loadState_good, run_gets by done. cbn [fst snd].
  destruct (probe _ _ _ _ _).
  - rewrite run_attempt. destruct (markReady_run w Hg) as (w1 & -> & Hg1 & Hm). cbn. intros [= <- <-]. auto.
  - intros [= <- <-]. split; [done|]. by split.
Qed.

Lemma wait_loop_outcome tier deadline wks : Forall (harmless Q) wks → ∀ v w r w', settled Q w → Q (wt_state v) →
  wait_loop host env name tier deadline wks v w = (Ok r, w') →
  r = Some (Ok tt) → marked_ready w' ∨ ∃ s, Q s ∧ install_pass s.
Proof.
  induction 1 as [|wk wks Hk Hks IH]; intros v w r w' Hw Hv; cbn [wait_loop].
  { by intros [= <- <-]. }
  rewrite run_bind.
  assert (∃ r1 w1, wait_step host env name tier deadline wk v w = (Ok r1, w1) ∧ match r1 with
            | inl res => res = Ok tt → marked_ready w1 ∨ ∃ s, Q s ∧ install_pass s
            | inr v' => settled Q w1 ∧ Q (wt_state v')
            end) as (r1 & w1 & -> & H1).
  { destruct wk as [ev| | |t|f].
    - cbn. unfold fan_out. rewrite run_bind, run_bind. destruct Hw as [Hg HQw].
      destruct (persistPhase_run ev w Hg) as (w1 & -> & Hg1 & Hs). rewrite run_ret. cbn. eexists _, _.
      split; [reflexivity|]. split; [|done]. split; [done|]. unfold on_record. rewrite Hs, lookup_insert_eq. by apply HQ.
    - cbn. eexists _, _. split; [reflexivity|]. by destruct (wt_failed v).
    - cbn. eexists _, _. by split; [reflexivity|].
    - cbn [wait_step]. destruct (on_tick_total host env name tier deadline t v w I) as (r1 & w1 & E & _).
      exists r1, w1. split; [done|]. by apply on_tick_outcome in E as [_ ?].
    - cbn [wait_step]. rewrite run_modify. eexists _, _. split; [reflexivity|]. split; [by apply Hk|done]. }
  destruct r1 as [res|v'].
  - intros [= <- <-] [= ->]. by apply H1.
  - intros E. destruct H1. by eapply IH.
Qed.

(** what a successful wait means.  When [WaitReadyWithPhases] answers nil
    for a QEMU guest, the VM's record says its install is done and its boot
    phase is [Ready]; or the record was that of an install pass of a guest that
    cannot be probed or has powered itself off: every property [Q] of the record
    that holds at the start and that nobody breaks meanwhile holds of it, so for
    a VM that is not being installed it is always the first.  The empty list: no
    boot event is still in flight. *)
Theorem wait_ready_record timeout wks w w' :
  settled Q w → Forall (harmless Q) wks →
  StateBackendName (st_view (w_store w) !! name) = QEMU →
  WaitReadyWithPhases host env name timeout wks [] w = (Ok (Some (Ok tt)), w') →
  marked_ready w' ∨ ∃ s, Q s ∧ install_pass s.
Proof.
  intros [Hg HQw] Hk Hb. unfold WaitReadyWithPhases. rewrite run_attempt, loadState_good by done. cbn [fst snd].
  set (s := default zeroState _) in *. destruct (_ || _); [intros [=]|].
  rewrite bool_decide_false.
  2: { assert (StateBackendName (Some s) = QEMU) as -> by (unfold s; by destruct (st_view _ !! name)). done. }
  rewrite run_bind. destruct (_ && _) eqn:Hp.
  - rewrite run_bind. cbn [isAlive gets]. destruct (negb _); [intros [=]|].
    destruct (bool_decide (s_InstallState s = InstallStatePending)) eqn:Hi.
    + apply bool_decide_eq_true in Hi. intros _. right. exists s. split; [done|]. split; [done|]. left. apply andb_true_iff in Hp as [Hp1 Hp2].
      apply bool_decide_eq_true in Hp2. split; [by apply Z.eqb_eq|done].
    + rewrite run_attempt. destruct (markReady_run w Hg) as (w1 & -> & Hg1 & Hm). cbn. intros [= <-]. by left.
  - rewrite run_gets, run_attempt.
    assert ((st (loadConfig name) w).2 = w) as Hw1.
    { destruct Hg as [Hh [c Hc]]. by rewrite (st_loadConfig name w c). }
    destruct (st (loadConfig name) w) as [rc w1]; cbn [fst snd] in *. subst w1. rewrite run_gets.
    destruct (probe _ _ _ _ _).
    + rewrite run_attempt. destruct (markReady_run w Hg) as (w2 & -> & Hg2 & Hm). cbn. intros [= <-]. by left.
    + destruct (wait_loop _ _ _ _ _ _ _ _) as [[r|e] w2] eqn:E; [|intros [=]]. cbn. intros [= -> <-].
      by eapply wait_loop_outcome in E.
Qed.
End Outcome.

Section SSHOutcome.
Context {S : Type} `{VMStore S} (host : Host) (env : ReadyEnv S).
Abbreviation M := (GoM (World S) error).

(** An attempt in which the guest was used: a login, a command, and where asked
    for the end of its provisioning. *)
Definition guest_used (cfg : VMConfig) (cloudInit : bool) (deadline : Z) (a : Attempt S) : Prop :=
  at_now a < deadline ∧
  (∃ addr, at_dial a addr (ssh_user cfg) = Ok tt) ∧
  at_run a (if WindowsGuest cfg then "ver" else "true") = RunOk ∧
  (cloudInit = true → WindowsGuest cfg = false →
   ∃ r, at_run a cloudInitWaitCmd = r ∧ (r = RunOk ∨ r = RunExit 2 ∨ r = RunExit 127)).

Lemma waitCloudInitDone_ok r : waitCloudInitDone r = Ok tt → r = RunOk ∨ r = RunExit 2 ∨ r = RunExit 127.
Proof.
  destruct r as [|status|e]; cbn; [auto| |done].
  destruct (Z.eqb_spec status 2) as [->|]; [auto|]. destruct (Z.eqb_spec status 127) as [->|]; [auto|done].
Qed.

Lemma ssh_turn_total name cfg user ci a s : total (ssh_turn host env name cfg user ci a s).
Proof.
  unfold total, ssh_turn. apply keeps_bind; [apply modify_total|]. intros [].
  apply keeps_bind; [apply attempt_total|]. intros r. apply keeps_bind; [apply isAlive_total|]. intros alive.
  set (s' := match r with Ok s' => s' | Err _ => s end).
  destruct (_ || _); [destruct (bool_decide _); apply keeps_ret|].
  apply keeps_bind; [apply keeps_gets|]. intros w. repeat case_match; apply keeps_ret.
Qed.

Lemma ssh_turn_used name cfg ci deadline a s w w' : at_now a < deadline →
  ssh_turn host env name cfg (ssh_user cfg) ci a s w = (Ok (inl (Ok tt)), w') → guest_used cfg ci deadline a.
Proof.
  intros Hnow. unfold ssh_turn. rewrite run_modify, run_attempt, run_bind. cbn [isAlive gets].
  destruct (_ || _); [destruct (bool_decide _); intros [=]|]. rewrite run_gets.
  destruct (guestSSHEndpoint _ _ _ _ _) as [[h p]|]; [|intros [=]].
  destruct (at_dial a (addr_of h p) (ssh_user cfg)) as [[]|] eqn:Hd; [|intros [=]].
  destruct (at_run a (if WindowsGuest cfg then "ver" else "true")) eqn:Hr; cbn [run_error]; [|intros [=]..].
  intros E. split; [done|]. split; [by eexists|]. split; [done|]. intros -> Hw. rewrite Hw in E. cbn [andb negb] in E.
  eexists. split; [reflexivity|]. apply waitCloudInitDone_ok.
  destruct (waitCloudInitDone _) as [[]|[]]; [done|discriminate E|destruct (at_cancelled_after a); discriminate E].
Qed.

Lemma ssh_loop_used name cfg ci deadline attempts : ∀ s e w w',
  ssh_loop host env name cfg (ssh_user cfg) ci deadline attempts s e w = (Ok (Some (Ok tt)), w') →
  ∃ a, a ∈ attempts ∧ guest_used cfg ci deadline a.
Proof.
  induction attempts as [|a attempts IH]; intros s e w w'; cbn [ssh_loop]; [intros [=]|].
  destruct (Z.leb_spec deadline (at_now a)); [intros [=]|]. destruct (at_cancelled a); [intros [=]|].
  rewrite run_bind. destruct (ssh_turn _ _ _ _ _ _ _ _ _) as [[[res|[s' e']]|er] w1] eqn:E; [| |intros [=]].
  - intros [= -> ->]. exists a. split; [by left|]. by eapply ssh_turn_used.
  - intros [b [Hb Hu]]%IH. exists b. split; [by right|done].
Qed.

Lemma ssh_loop_ends name cfg user ci deadline attempts a : a ∈ attempts → deadline <= at_now a → ∀ s e w,
  ∃ res w', ssh_loop host env name cfg user ci deadline attempts s e w = (Ok (Some res), w').
Proof.
  intros Hin Ha. induction attempts as [|b attempts IH]; [by apply not_elem_of_nil in Hin|].
  intros s e w. cbn [ssh_loop]. destruct (Z.leb_spec deadline (at_now b)); [by do 2 eexists|].
  destruct (at_cancelled b); [by do 2 eexists|]. apply elem_of_cons in Hin as [<-|Hin]; [lia|].
  rewrite run_bind. destruct (ssh_turn_total name cfg user ci b s w I) as ([res|[s' e']] & w1 & -> & _);
    [by do 2 eexists|by apply IH].
Qed.

(** [WaitSSHReady] promises a usable guest in bounded time.  It answers nil
    only if, before the deadline, a login as the VM's account succeeded and a
    command ran there, and with [cloudInit] on a POSIX guest only once
    cloud-init has finished (or there is none); and it has answered by the
    first attempt at or after the deadline. *)
Theorem wait_ssh_usable name timeout cloudInit attempts w :
  (∀ w', WaitSSHReady host env name timeout cloudInit attempts w = (Ok (Some (Ok tt)), w') →
     ∃ cfg a, (loadConfig name (w_store w)).1 = Ok cfg ∧ ssh_user cfg ≠ "" ∧
       a ∈ attempts ∧ guest_used cfg cloudInit (w_now w + timeout) a) ∧
  ((∃ a, a ∈ attempts ∧ w_now w + timeout <= at_now a) →
     ∃ res w', WaitSSHReady host env name timeout cloudInit attempts w = (Ok (Some res), w')).
Proof.
  unfold WaitSSHReady. rewrite run_attempt.
  assert (st (loadConfig name) w = ((loadConfig name (w_store w)).1, w <| w_store := (loadConfig name (w_store w)).2 |>)) as ->
    by (unfold st; by destruct (loadConfig name (w_store w))).
  cbn [fst snd]. destruct (loadConfig name (w_store w)) as [[cfg|e] s1]; cbn [fst snd];
    [|split; [intros w' [=]|intros _; by do 2 eexists]].
  rewrite run_attempt.
  match goal with |- context [st (loadState name) ?x] => set (w1 := x) end.
  assert (w_now ((st (loadState name) w1).2) = w_now w) as Hnow by (unfold st; by destruct (loadState _ _)).
  destruct (st (loadState name) w1) as [[s|e] w2]; cbn [fst snd] in *;
    [|split; [intros w' [=]|intros _; by do 2 eexists]].
  destruct (negb (s_Running s)); [split; [intros w' [=]|intros _; by do 2 eexists]|].
  destruct (bool_decide (ssh_user cfg = "")) eqn:Hu; [split; [intros w' [=]|intros _; by do 2 eexists]|].
  apply bool_decide_eq_false in Hu. destruct (re_key env); [|split; [intros w' [=]|intros _; by do 2 eexists]].
  rewrite run_gets, Hnow. split.
  - intros w' [a [Ha Hg]]%ssh_loop_used. by exists cfg, a.
  - intros (a & Ha & Ht). by eapply ssh_loop_ends.
Qed.
End SSHOutcome.

(** ** On concrete worlds *)
Module ReadyScenario.
Import Lifecycle.Scenario.

Definition up : VMState :=
  running <| s_SSHPort := 2201 |> <| s_InstallState := InstallStatePending |>.
(** The forwarded port accepts once the clock has passed [t]. *)
Definition renv (t : Z) : ReadyEnv Db.DB :=
  mkReadyEnv Db.DB None (λ _, mkNetTables (Ok "") (Ok "") (Ok "") (Ok "")) (λ _, Ok [])
    (λ _ _ _ _, false) (λ _ w, t <? w_now w) (λ _ _, false).
Definition clock (t : Z) : World Db.DB → World Db.DB := λ w, w <| w_now := t |>.
(** Another process replaces the VM's record and its processes. *)
Definition relaunch (s : VMState) (alive : gset Z) : World Db.DB → World Db.DB :=
  λ w, w <| w_store := db_with s |> <| w_alive := alive |>.

Lemma wait_ready_ends_witness :
  ∃ res w', WaitReadyWithPhases linux (renv 7000) "dev" 60000 [WTick 5100; WTick 70000] []
              (world_with up {[77]}) = (Ok (Some res), w').
Proof.
  apply (wait_ready_ends linux (renv 7000) "dev" 60000 70000 [WTick 5100; WTick 70000] [] (world_with up {[77]}));
    [right; left | vm_compute; reflexivity].
Defined.

Definition boots : list (wake Db.DB) :=
  [WPhase (PhaseWatcher.mkEvent PhaseWatcher.PhaseKernelBoot "" "" 3000); WTick 5100; WWorld (clock 9000); WTick 10100].

(** Nobody touches the port or reports a poweroff. *)
Definition calm (s : VMState) : Prop := s_SSHPort s = 2201 ∧ s_LastShutdownReason s = "".
Lemma wait_ready_record_witness :
  marked_ready "dev" (WaitReadyWithPhases linux (renv 7000) "dev" 60000 boots [] (world_with up {[77]})).2.
Proof.
  destruct (wait_ready_record linux (renv 7000) "dev" calm) with (timeout := 60000) (wks := boots) (w := world_with up {[77]})
    (w' := (WaitReadyWithPhases linux (renv 7000) "dev" 60000 boots [] (world_with up {[77]})).2)
    as [Hm|(s & [Hp Hr] & _ & [[Hp' _]|Hr'])].
  - intros ev s Hs. unfold phase_record. by destruct (bool_decide _).
  - split; [split; [vm_compute; repeat split|vm_compute; by eexists]|]. by vm_compute.
  - unfold boots. rewrite !Forall_cons, Forall_nil. split; [done|]. split; [done|]. split; [by intros w|done].
  - vm_compute. reflexivity.
  - vm_compute. reflexivity.
  - exact Hm.
  - congruence.
  - rewrite Hr in Hr'. discriminate.
Defined.

Definition attempt_at (t : Z) (ok : bool) : Attempt Db.DB :=
  mkAttempt t false (λ w, w) (λ _ _, if ok then Ok tt else Err (Errorf "refused" [])) (λ _, RunOk) false.

Lemma wait_ssh_usable_witness :
  ∃ res w', WaitSSHReady linux (renv 0) "dev" 60000 true [attempt_at 200 false; attempt_at 90000 false]
              (world_with up {[77]}) = (Ok (Some res), w').
Proof.
  apply (wait_ssh_usable linux (renv 0) "dev" 60000 true [attempt_at 200 false; attempt_at 90000 false] (world_with up {[77]})).
  exists (attempt_at 90000 false). split; [right; left | vm_compute; discriminate].
Defined.

(** The guest powers itself off at the end of its install pass, between two
    ticks.  The event is on record, but the loop goes by the copy of the state
    it loaded a tick earlier and reports a crash. *)
Theorem install_poweroff_misreported :
  (WaitReadyWithPhases linux (renv 99000) "dev" 60000
     [WTick 5100; WWorld (relaunch (up <| s_LastShutdownReason := ShutdownReasonGuest |>) ∅); WTick 10100] []
     (world_with up {[77]})).1 = Ok (Some (Err (exited "dev" 77))).
Proof. vm_compute. reflexivity. Qed.

(** A guest reboot power-cycles the VM into a new process between two ticks:
    the record names a live process, and the loop reports the old one's exit. *)
Theorem power_cycle_misreported :
  (WaitReadyWithPhases linux (renv 99000) "dev" 60000
     [WTick 5100; WWorld (relaunch (up <| s_PID := 78 |>) {[78]}); WTick 10100] []
     (world_with up {[77]})).1 = Ok (Some (Err (exited "dev" 77))).
Proof. vm_compute. reflexivity. Qed.

(** A boot event still in flight when the guest turns out to be ready is
    persisted after [markReady] and puts the recorded phase back. *)
Theorem late_event_unmarks :
  let late := PhaseWatcher.mkEvent PhaseWatcher.PhaseInit "" "" 9500 in
  let '(r, w) := WaitReadyWithPhases linux (renv 7000) "dev" 60000 boots [late] (world_with up {[77]}) in
  r = Ok (Some (Ok tt)) ∧ s_BootPhase <$> st_view (w_store w) !! "dev" = Some "Init".
Proof. vm_compute. by split. Qed.
End ReadyScenario.
