(* ===== verification/Daemon.v ===== *)
(** * The daemon

    [internal/vm/daemon.go] (autostart, the shutdown inhibitor, host
    shutdown), [internal/vm/qmp_registry.go] (QMP owners, guest shutdown and
    reset events, adoption of running VMs) and [StopAllRunning] of
    [internal/vm/manager.go]. *)
From S2P Require Import Prelude GoStrings Config Store World Lifecycle.

Open Scope Z_scope.

(** ** The autostart decision *)
Definition shouldDaemonStart (s : option VMState) : bool :=
  match s with
  | None => true
  | Some s =>
      if bool_decide (s_DesiredState s = DesiredStateStopped) then false
      else if bool_decide (s_LastShutdownReason s = ShutdownReasonGuest) then false
      else true
  end.

(** ** QMP owners

    The registry maps a VM to the identity of the connection that owns its QMP
    socket. *)
Definition owner : Type := nat.

Definition reg_set (r : gmap string owner) (name : string) (o : owner) : gmap string owner :=
  <[name := o]> r.
Definition reg_get (r : gmap string owner) (name : string) : option owner := r !! name.
Definition reg_deleteIf (r : gmap string owner) (name : string) (o : owner) : gmap string owner :=
  match r !! name with
  | Some cur => if bool_decide (cur = o) then delete name r else r
  | None => r
  end.

(** ** Guest events *)
Record ShutdownEventData := mkShutdownEventData { ev_Guest : bool; ev_Reason : string }.

(** What an event handler asks for: whether the watcher stops, and whether a
    power-cycle goroutine was started. *)
Record Handled := mkHandled { h_stop : bool; h_cycle : bool }.

(** The record [recordGuestShutdown] writes. *)
Definition guestShutdownRecord (s : VMState) : VMState :=
  (if bool_decide (s_LastShutdownReason s = "")
   then s <| s_LastShutdownReason := ShutdownReasonGuest |> else s)
  <| s_DesiredState := DesiredStateStopped |>.

Section Events.
Context {S : Type} `{VMStore S} `{MachineBuilder S} (host : Host) (env : StartEnv S).
Abbreviation M := (GoM (World S) error).

Definition shouldPowerCycleOnGuestReset (name : string) : M bool :=
  r ← attempt (st (loadState name));
  mret (match r with
        | Err _ => false
        | Ok s => s_Running s && negb (bool_decide (s_InstallState s = InstallStatePending))
        end).

Definition recordGuestShutdown (name : string) : M unit :=
  r ← attempt (st (loadState name));
  match r with
  | Err _ => mret tt
  | Ok s => ignore (st (saveState name (guestShutdownRecord s)))
  end.

Definition handleShutdownEvent (name : string) (ev : ShutdownEventData) : M Handled :=
  if negb (ev_Guest ev) then mret (mkHandled true false) else
  cycle ← (if bool_decide (ev_Reason ev = "guest-reset")
           then shouldPowerCycleOnGuestReset name else mret false);
  if (cycle : bool) then mret (mkHandled true true) else
  _ ← recordGuestShutdown name;
  mret (mkHandled true false).

Definition handleResetEvent (name : string) (guest : bool) : M Handled :=
  if negb guest then mret (mkHandled false false) else
  cycle ← shouldPowerCycleOnGuestReset name;
  if negb cycle then mret (mkHandled false false) else mret (mkHandled true true).

(** The power-cycle goroutine: force-stop, then relaunch. *)
Definition powerCycleAfterGuestReset (name : string) : M unit :=
  r ← attempt (forceStopWithReason name ShutdownReasonReboot);
  match r with
  | Err _ => mret tt
  | Ok _ => ignore (Start host env name false false)
  end.

(** ** Adoption *)

(** The watcher [adoptRunningVMs] starts for one entry, if any. *)
Definition adopt_entry (reg : gmap string owner) (w : World S) (e : ListEntry) : option watcher :=
  let '(cfg, s) := e in
  if negb (s_Running s) then None
  else if bool_decide (StateBackendName (Some s) = VZ) then
    if negb (bool_decide (s_ControlSocket s = "")) && isAlive_in w (s_PID s)
    then Some (WatchVZ (c_Name cfg) (s_ControlSocket s)) else None
  else if bool_decide (s_QMPSocket s = "") || negb (isAlive_in w (s_PID s)) then None
  else match reg !! c_Name cfg with
       | Some _ => None
       | None => Some (WatchQMP (c_Name cfg) (s_QMPSocket s))
       end.

Definition adoptRunningVMs (reg : gmap string owner) : M unit :=
  r ← attempt List;
  match r with
  | Err _ => mret tt
  | Ok es => modify (λ w, w <| w_watchers := w_watchers w ++ omap (adopt_entry reg w) es |>)
  end.

(** ** Autostart *)
Definition autostart_one (cfg : VMConfig) (lastErr : option error) : M (option error) :=
  r ← attempt (st (loadState (c_Name cfg)));
  w ← gets id;
  let running := match r with
                 | Ok s => s_Running s && isAlive_in w (s_PID s)
                 | Err _ => false
                 end in
  let skip := match r with
              | Ok s => negb (shouldDaemonStart (Some s))
              | Err _ => false
              end in
  if running || skip then mret lastErr else
  started ← attempt (Start host env (c_Name cfg) false false);
  mret (match started with Ok _ => lastErr | Err e => Some e end).

Fixpoint autostart_all (cfgs : list VMConfig) (lastErr : option error) : M (option error) :=
  match cfgs with
  | [] => mret lastErr
  | c :: cs => e ← autostart_one c lastErr; autostart_all cs e
  end.

Definition startAutoStartVMs : M unit :=
  cfgs ← ListAutoStart;
  e ← autostart_all cfgs None;
  match e with Some e => throw e | None => mret tt end.

(** ** Running VMs *)
Definition running_names (w : World S) (es : list ListEntry) : list string :=
  omap (λ e : ListEntry, if s_Running e.2 && isAlive_in w (s_PID e.2)
                         then Some (c_Name e.1) else None) es.

Definition runningVMCount : M nat :=
  r ← attempt List;
  w ← gets id;
  mret (match r with Ok es => length (running_names w es) | Err _ => O end).

(** The concurrent stops of [StopAllRunning], in some order; every VM is
    attempted and the errors are collected. *)
Fixpoint stop_each (reason : string) (names : list string) : M (list error) :=
  match names with
  | [] => mret []
  | n :: ns =>
      r ← attempt (stopWithReason n reason);
      es ← stop_each reason ns;
      mret (match r with Ok _ => es | Err e => Wrapf n e :: es end)
  end.

Definition StopAllRunning (order : list string → list string) (reason : string) : M unit :=
  r ← attempt List;
  match r with
  | Err e => throw (Wrapf "list VMs" e)
  | Ok es =>
      w ← gets id;
      match running_names w es with
      | [] => mret tt
      | names =>
          errs ← stop_each reason (order names);
          match errs with [] => mret tt | e :: _ => throw (Wrapf "join" e) end
      end
  end.

(** Host shutdown: notifications aside, stop everything that runs. *)
Definition handleHostShutdown (order : list string → list string) : M unit :=
  n ← runningVMCount;
  match n with
  | O => mret tt
  | _ => ignore (StopAllRunning order ShutdownReasonHost)
  end.
End Events.

(** ** The daemon loop

    [conn]: the host's shutdown service (logind, launchd) was reachable when
    the daemon started; [lock]: the shutdown inhibitor is held; [acq] tells
    whether the service grants it when asked.  The SSH proxies and tunnels the
    daemon also reconciles on a tick keep state of their own. *)
Record Daemon (S : Type) := mkDaemon {
  dm_world : World S;
  dm_conn : bool;
  dm_lock : bool;
  dm_done : bool;
}.
Arguments mkDaemon {S} _ _ _ _ : assert.
Arguments dm_world {S} _ : assert.
Arguments dm_conn {S} _ : assert.
Arguments dm_lock {S} _ : assert.
Arguments dm_done {S} _ : assert.

Inductive DaemonEvent :=
| EvTick (acq : bool)
| EvShutdown
| EvCtxDone (preparing : bool).

Section Loop.
Context {S : Type} `{VMStore S} `{MachineBuilder S} (host : Host) (env : StartEnv S).
Context (reg : gmap string owner) (order : list string → list string).

Definition reconcileInhibitor (acq : bool) (d : Daemon S) : Daemon S :=
  if negb (dm_conn d) then d else
  let '(r, w) := runningVMCount (dm_world d) in
  let running := match r with Ok n => n | Err _ => O end in
  let lock := if bool_decide (0 < running)%nat && negb (dm_lock d) then acq
              else if bool_decide (running = 0%nat) && dm_lock d then false
              else dm_lock d in
  mkDaemon w (dm_conn d) lock (dm_done d).

(** Before the loop: adopt, autostart, reconcile. *)
Definition daemon_start (conn acq : bool) (w : World S) : Daemon S :=
  let w := (adoptRunningVMs reg w).2 in
  let w := (startAutoStartVMs host env w).2 in
  reconcileInhibitor acq (mkDaemon w conn false false).

(** One turn of the loop.  Without a connection the shutdown channel is nil
    and never fires. *)
Definition daemon_step (ev : DaemonEvent) (d : Daemon S) : Daemon S :=
  if dm_done d then d else
  match ev with
  | EvTick acq =>
      let w := (startAutoStartVMs host env (dm_world d)).2 in
      let w := (adoptRunningVMs reg w).2 in
      reconcileInhibitor acq (mkDaemon w (dm_conn d) (dm_lock d) false)
  | EvShutdown =>
      if dm_conn d
      then mkDaemon (handleHostShutdown order (dm_world d)).2 (dm_conn d) false true
      else d
  | EvCtxDone preparing =>
      let w := if dm_conn d && preparing
               then (handleHostShutdown order (dm_world d)).2 else dm_world d in
      mkDaemon w (dm_conn d) false true
  end.
End Loop.

(** ** Intent: the abstract specification

    What a user may rely on is one bit per VM: should the daemon keep it up?
    Starting asks for it; a user stop or a poweroff from inside the guest
    withdraws it; a host shutdown, a guest reboot and a crash do not. *)
Inductive Event :=
| Launch (host : Host) (c : VMConfig) (res : StartResult) (vfs : list Z) (now : Z)
| StopFor (reason : string)
| GuestPoweroff
| Cleanup (res : option VZResult).

(** The record after the event, as the operations write it. *)
Definition record_step (ev : Event) (s : VMState) : VMState :=
  match ev with
  | Launch h c res vfs now =>
      launchedState h c (if s_Running s then zeroState else s) res vfs now
  | StopFor reason => preservedAfterStop s reason
  | GuestPoweroff => guestShutdownRecord s
  | Cleanup res => preservedAfterCrash s res
  end.

(** A vz helper that stopped cleanly, unasked: the guest powered itself off. *)
Definition clean_vz_poweroff (s : VMState) (res : option VZResult) : bool :=
  bool_decide (StateBackendName (Some s) = VZ) &&
  match res with
  | Some r => bool_decide (res_Error r = "") && negb (res_StopRequested r)
  | None => false
  end.

Definition intent_step (ev : Event) (s : VMState) (wanted : bool) : bool :=
  match ev with
  | Launch _ _ _ _ _ => true
  | StopFor reason => bool_decide (reason = ShutdownReasonHost) || bool_decide (reason = ShutdownReasonReboot)
  | GuestPoweroff => false
  | Cleanup res => wanted && negb (bool_decide (s_LastShutdownReason s = "") && clean_vz_poweroff s res)
  end.

(** Runs of a VM's record, paired with the abstract bit. *)
Inductive runs : VMState → bool → Prop :=
| runs_init : runs zeroState true
| runs_step ev s b : runs s b → runs (record_step ev s) (intent_step ev s b).

Lemma should_stop_rec s reason :
  shouldDaemonStart (Some (preservedAfterStop s reason)) =
  bool_decide (reason = ShutdownReasonHost) || bool_decide (reason = ShutdownReasonReboot).
Proof.
  unfold shouldDaemonStart, preservedAfterStop, desiredStateForReason. cbn.
  repeat (case_bool_decide; cbn; simplify_eq); done.
Qed.

Lemma should_cleanup_rec s res :
  shouldDaemonStart (Some (preservedAfterCrash s res)) =
  shouldDaemonStart (Some s) &&
  negb (bool_decide (s_LastShutdownReason s = "") && clean_vz_poweroff s res).
Proof.
  unfold shouldDaemonStart, preservedAfterCrash, clean_vz_poweroff. cbn -[StateBackendName].
  set (V := bool_decide (StateBackendName (Some s) = VZ)). clearbody V.
  destruct (bool_decide_reflect (s_LastShutdownReason s = "")) as [E|E]; cbn.
  - destruct V; cbn; rewrite ?E; [|by eval_tests; cbn; rewrite andb_true_r].
    destruct res as [[r1 r2]|]; cbn;
      [destruct (bool_decide (r2 = "") && negb r1); cbn; rewrite ?E|];
      eval_tests; cbn; by rewrite ?andb_true_r, ?andb_false_r.
  - rewrite (bool_decide_eq_false_2 _ E). cbn. by rewrite andb_true_r.
Qed.

Lemma should_launch_rec h c s res vfs now :
  shouldDaemonStart (Some (launchedState h c s res vfs now)) = true.
Proof.
  destruct (launchedState_fields h c s res vfs now) as (_ & Hd & Hr & _).
  unfold shouldDaemonStart. by rewrite Hd, Hr.
Qed.

Lemma should_guest_rec s : shouldDaemonStart (Some (guestShutdownRecord s)) = false.
Proof. unfold shouldDaemonStart, guestShutdownRecord. by case_bool_decide. Qed.

Section DaemonTheorems.
Context {S : Type} `{VMStoreLaws S}.
Implicit Types w : World S.

Lemma dead_mono w w' pid :
  w_alive w' ⊆ w_alive w → isAlive_in w pid = false → isAlive_in w' pid = false.
Proof.
  intros Hs. unfold isAlive_in. destruct (pid <=? 0); [done|].
  rewrite !bool_decide_eq_false. set_solver.
Qed.

(** A VM that is on record as running, with its config. *)
Definition runnable w n : Prop :=
  ∃ c s, cfg_view (w_store w) !! n = Some c ∧ st_view (w_store w) !! n = Some s ∧
    s_Running s = true ∧ s_PID s ≠ 0.

Lemma stop_each_spec reason ns w :
  healthy (w_store w) → NoDup ns → (∀ n, n ∈ ns → runnable w n) →
  ∃ w', stop_each reason ns w = (Ok [], w') ∧ healthy (w_store w') ∧
    cfg_view (w_store w') = cfg_view (w_store w) ∧ w_alive w' ⊆ w_alive w ∧
    ∀ n, if decide (n ∈ ns)
         then ∃ s, st_view (w_store w) !! n = Some s ∧
           st_view (w_store w') !! n = Some (preservedAfterStop s reason) ∧
           isAlive_in w' (s_PID s) = false
         else st_view (w_store w') !! n = st_view (w_store w) !! n.
Proof.
  intros Hh Hnd. revert w Hh. induction Hnd as [|n ns Hn Hnd IH]; intros w Hh Hr; cbn.
  { exists w. split_and!; [done..|]. intros n. by case_decide; [set_solver|]. }
  destruct (Hr n) as (c & s & Hc & Hs & Hrun & Hp); [set_solver|].
  destruct (stopWithReason_spec n reason w c s Hh Hc Hs Hrun Hp)
    as (w1 & E1 & Hh1 & Hc1 & Hs1 & Hk1 & Ha1).
  rewrite run_bind. unfold attempt. rewrite E1.
  destruct (IH w1 Hh1) as (w2 & E2 & Hh2 & Hc2 & Ha2 & Hs2).
  { intros m Hm. destruct (Hr m) as (cm & sm & ? & ? & ? & ?); [set_solver|].
    exists cm, sm. rewrite Hc1, Hs1, lookup_insert_ne by set_solver. done. }
  rewrite run_bind, E2. exists w2. split_and!; [done..|congruence|set_solver|].
  intros m. specialize (Hs2 m). rewrite Hs1 in Hs2. destruct (decide (m = n)) as [->|Hne].
  - rewrite decide_True by set_solver. rewrite decide_False in Hs2 by done.
    rewrite lookup_insert_eq in Hs2. exists s. split_and!; [done..|].
    by eapply dead_mono.
  - rewrite lookup_insert_ne in Hs2 by done. repeat case_decide; set_solver.
Qed.

(** On record as running, with a live process. *)
Definition up w n s : Prop :=
  st_view (w_store w) !! n = Some s ∧ s_Running s = true ∧ isAlive_in w (s_PID s) = true.

Lemma list_entry_run c w :
  let n := c_Name c in
  let s := default zeroState (st_view (w_store w) !! n) in
  healthy (w_store w) → is_Some (cfg_view (w_store w) !! n) →
  ∃ w' s', list_entry c w = (Ok (c, s'), w') ∧ healthy (w_store w') ∧
    cfg_view (w_store w') = cfg_view (w_store w) ∧ w_alive w' = w_alive w ∧
    (∀ m, m ≠ n → st_view (w_store w') !! m = st_view (w_store w) !! m) ∧
    s_Running s' && isAlive_in w (s_PID s') = s_Running s && isAlive_in w (s_PID s) ∧
    (s_Running s && isAlive_in w (s_PID s) = true →
      st_view (w_store w') !! n = Some s ∧ st_view (w_store w) !! n = Some s).
Proof.
  cbv zeta. intros Hh Hc. unfold list_entry. rewrite run_bind. unfold attempt.
  rewrite st_loadState by done. unfold isAlive. rewrite run_gets.
  set (s := default zeroState _). destruct (s_Running s) eqn:Hr; cbn.
  2: { exists w, s. rewrite Hr. by split_and!. }
  destruct (isAlive_in w (s_PID s)) eqn:Ha; cbn.
  { exists w, s. rewrite Hr, Ha. split_and!; try done. intros _.
    unfold s in *. by destruct (st_view (w_store w) !! c_Name c). }
  unfold cleanupStaleVM. rewrite run_bind, run_gets. unfold ignore.
  set (p := preservedAfterCrash _ _).
  destruct (st_saveState (c_Name c) p w Hh Hc) as (s2 & -> & Hh2 & Hc2 & Hv2).
  eexists _, _. split; [done|]. cbn. split_and!; try done.
  intros m Hm. by rewrite Hv2, lookup_insert_ne.
Qed.

Lemma list_entries_run cs w :
  healthy (w_store w) → NoDup (c_Name <$> cs) →
  (∀ c, c ∈ cs → is_Some (cfg_view (w_store w) !! c_Name c)) →
  ∃ es w', list_entries cs w = (Ok es, w') ∧ healthy (w_store w') ∧
    cfg_view (w_store w') = cfg_view (w_store w) ∧ w_alive w' = w_alive w ∧
    (∀ m, m ∉ c_Name <$> cs → st_view (w_store w') !! m = st_view (w_store w) !! m) ∧
    NoDup (running_names w' es) ∧ (∀ n, n ∈ running_names w' es → n ∈ c_Name <$> cs) ∧
    (∀ n, n ∈ running_names w' es ↔ n ∈ c_Name <$> cs ∧ ∃ s, up w n s) ∧
    (∀ n s, n ∈ c_Name <$> cs → up w n s → st_view (w_store w') !! n = Some s).
Proof.
  revert w. induction cs as [|c cs IH]; intros w Hh Hnd Hc; cbn.
  { exists [], w. unfold running_names; cbn.
    split_and!; [done|done|done|done|done|constructor|set_solver|set_solver|set_solver]. }
  apply NoDup_cons in Hnd as [Hn Hnd].
  destruct (list_entry_run c w) as (w1 & s1 & E1 & Hh1 & Hc1 & Ha1 & Ho1 & Hr1 & Hk1);
    [done|apply Hc; set_solver|].
  rewrite run_bind, E1.
  destruct (IH w1) as (es & w2 & E2 & Hh2 & Hc2 & Ha2 & Ho2 & Hd2 & Hi2 & Hs2 & Hv2);
    [done|done|intros; rewrite Hc1; apply Hc; set_solver|].
  rewrite run_bind, E2. eexists _, w2. split; [done|].
  unfold running_names in *. cbn.
  assert (Hal : ∀ p, isAlive_in w2 p = isAlive_in w p)
    by (intros p; unfold isAlive_in; by rewrite Ha2, Ha1).
  rewrite Hal, Hr1. set (s := default zeroState (st_view (w_store w) !! c_Name c)) in *.
  assert (Hrest : ∀ n, n ∈ c_Name <$> cs → st_view (w_store w1) !! n = st_view (w_store w) !! n).
  { intros n Hin. apply Ho1. intros ->. done. }
  assert (Hup : ∀ n s0, n ∈ c_Name <$> cs → up w1 n s0 ↔ up w n s0).
  { intros n s0 Hin. unfold up, isAlive_in. by rewrite Hrest, Ha1. }
  remember (s_Running s && isAlive_in w (s_PID s)) as b eqn:Eb.
  split_and!; [done|congruence|congruence| | | | |].
  - intros m Hm. rewrite Ho2, Ho1; set_solver.
  - destruct b; cbn; [|exact Hd2]. constructor; [|exact Hd2]. intros Hin. by apply Hi2 in Hin.
  - intros n. destruct b; cbn; [|intros; right; by apply Hi2]. rewrite !elem_of_cons. naive_solver.
  - intros n. rewrite elem_of_cons. destruct b; symmetry in Eb; cbn.
    + apply andb_true_iff in Eb as [Eb1 Eb2]. destruct (Hk1 eq_refl) as [Hk2 Hk3].
      rewrite elem_of_cons, Hs2. split.
      * intros [->|[Hin [s0 ?]]]; [split; [by left|by exists s]|].
        split; [by right|]. exists s0. by apply Hup.
      * intros [[->|Hin] [s0 ?]]; [by left|right]. split; [done|]. exists s0. by apply Hup.
    + rewrite Hs2. split.
      * intros [Hin [s0 ?]]. split; [by right|]. exists s0. by apply Hup.
      * intros [[->|Hin] [s0 Hu]]; [|split; [done|]; exists s0; by apply Hup].
        destruct Hu as (E & Er & Ea). unfold s in Eb. rewrite E in Eb. cbn in Eb.
        by rewrite Er, Ea in Eb.
  - intros n s0. rewrite elem_of_cons. intros [->|Hin] Hu.
    + destruct Hu as (E & Er & Ea). assert (s = s0) as -> by (unfold s; by rewrite E).
      rewrite Er, Ea in Eb. destruct (Hk1 Eb) as [Hk2 _]. by rewrite Ho2.
    + apply Hv2; [done|]. by apply Hup.
Qed.

(** Every config is on record under its own name and every state has one. *)
Definition names_ok w : Prop :=
  (∀ n c, cfg_view (w_store w) !! n = Some c → c_Name c = n) ∧
  (∀ n s, st_view (w_store w) !! n = Some s → is_Some (cfg_view (w_store w) !! n)).

Lemma List_run w : healthy (w_store w) → names_ok w →
  ∃ es w', List w = (Ok es, w') ∧ healthy (w_store w') ∧
    cfg_view (w_store w') = cfg_view (w_store w) ∧ w_alive w' = w_alive w ∧
    NoDup (running_names w' es) ∧
    (∀ n, n ∈ running_names w' es ↔ ∃ s, up w n s) ∧
    (∀ n s, up w n s → st_view (w_store w') !! n = Some s) ∧ names_ok w'.
Proof.
  intros Hh [Hn Hf]. unfold List. rewrite run_bind.
  destruct (listAll_ok (w_store w) Hh) as (cs & El & Hcs & Hnd).
  pose proof (listAllConfigs_pure (w_store w)) as Hp.
  unfold st. destruct (listAllConfigs (w_store w)) as [r s0]. cbn in El, Hp. subst.
  rewrite world_store_id.
  destruct (list_entries_run cs w) as (es & w' & E & Hh' & Hc' & Ha' & Ho & Hnd' & _ & Hiff & Hv);
    [done|by apply Hnd| |].
  { intros c Hc. apply Hcs in Hc as (n & Hc). rewrite (Hn _ _ Hc). by eexists. }
  assert (Hin : ∀ n s, up w n s → n ∈ c_Name <$> cs).
  { intros n s (Hs & _). destruct (Hf _ _ Hs) as [c Hc]. apply list_elem_of_fmap.
    exists c. split; [by rewrite (Hn _ _ Hc)|]. apply Hcs. by exists n. }
  exists es, w'. split_and!; try done; [|by eauto|].
  { intros n. rewrite Hiff. split; [by intros [_ ?]|]. intros [s Hs]. eauto. }
  split; rewrite Hc'; [done|]. intros n s Hs.
  destruct (decide (n ∈ c_Name <$> cs)) as [Hi|Hi]; [|rewrite Ho in Hs by done; eauto].
  apply list_elem_of_fmap in Hi as (c & -> & Hi). apply Hcs in Hi as (m & Hm).
  rewrite (Hn _ _ Hm). by eexists.
Qed.

Lemma StopAllRunning_run order reason w :
  (∀ l, order l ≡ₚ l) → healthy (w_store w) → names_ok w →
  ∃ w', StopAllRunning order reason w = (Ok tt, w') ∧
    ∀ n s, up w n s → st_view (w_store w') !! n = Some (preservedAfterStop s reason) ∧
      isAlive_in w' (s_PID s) = false.
Proof.
  intros Ho Hh Hok. unfold StopAllRunning. rewrite run_bind. unfold attempt.
  destruct (List_run w Hh Hok) as (es & w1 & -> & Hh1 & Hc1 & Ha1 & Hnd & Hin & Hv1 & _).
  rewrite run_gets. set (ns := running_names (id w1) es) in *. change (id w1) with w1 in ns.
  destruct (stop_each_spec reason (order ns) w1) as (w2 & E2 & _ & _ & _ & Hs2);
    [done|by rewrite Ho| |].
  { intros n Hn. rewrite Ho in Hn. apply Hin in Hn as (s & Hu).
    pose proof (Hv1 _ _ Hu) as Hs'. destruct Hu as (Hs & Hr & Ha).
    destruct (proj2 Hok _ _ Hs) as [c Hc]. exists c, s. rewrite Hc1. split_and!; try done.
    intros Hp. unfold isAlive_in in Ha. by rewrite Hp in Ha. }
  exists w2. split.
  { destruct ns; [|by rewrite run_bind, E2].
    assert (order [] = []) as Eo by (apply Permutation_nil_r, Ho). rewrite Eo in E2.
    by injection E2 as <-. }
  intros n s Hs. pose proof (Hv1 _ _ Hs) as Hv. specialize (Hs2 n).
  rewrite decide_True in Hs2 by (rewrite Ho; apply Hin; by exists s).
  destruct Hs2 as (s' & Hs' & ? & ?). by simplify_eq.
Qed.

Lemma runningVMCount_run w : healthy (w_store w) → names_ok w →
  ∃ k w', runningVMCount w = (Ok k, w') ∧ healthy (w_store w') ∧ names_ok w' ∧
    (k ≠ O ↔ ∃ n s, up w n s) ∧ (∀ n s, up w n s → up w' n s).
Proof.
  intros Hh Hok. unfold runningVMCount. rewrite run_bind. unfold attempt.
  destruct (List_run w Hh Hok) as (es & w1 & -> & Hh1 & _ & Ha1 & _ & Hin & Hv1 & Hok1).
  rewrite run_gets. eexists _, w1. split; [done|]. split; [done|]. split; [done|]. split.
  - change (id w1) with w1. destruct (running_names w1 es) as [|n ns]; cbn.
    + split; [done|]. intros (n & Hn). apply Hin in Hn. set_solver.
    + split; [|done]. intros _. exists n. apply Hin. set_solver.
  - intros n s Hu. pose proof (Hv1 _ _ Hu). destruct Hu as (? & ? & ?).
    split_and!; [done..|]. unfold isAlive_in in *. by rewrite Ha1.
Qed.

Lemma shouldPowerCycle_run n w : healthy (w_store w) →
  shouldPowerCycleOnGuestReset n w =
    (Ok (let s := default zeroState (st_view (w_store w) !! n) in
         s_Running s && negb (bool_decide (s_InstallState s = InstallStatePending))), w).
Proof.
  intros Hh. unfold shouldPowerCycleOnGuestReset. rewrite run_bind. unfold attempt.
  by rewrite st_loadState.
Qed.

Lemma recordGuestShutdown_run n w c :
  healthy (w_store w) → cfg_view (w_store w) !! n = Some c →
  ∃ s', recordGuestShutdown n w = (Ok tt, w <| w_store := s' |>) ∧ healthy s' ∧
    cfg_view s' = cfg_view (w_store w) ∧
    st_view s' = <[n := guestShutdownRecord (default zeroState (st_view (w_store w) !! n))]>
      (st_view (w_store w)).
Proof.
  intros Hh Hc. unfold recordGuestShutdown. rewrite run_bind. unfold attempt.
  rewrite st_loadState by done. unfold ignore.
  destruct (st_saveState n (guestShutdownRecord (default zeroState (st_view (w_store w) !! n))) w)
    as (s' & -> & ?); [done|by eauto|]. by exists s'.
Qed.
End DaemonTheorems.

(** ** Theorems *)

(** C2: Over every sequence of launches, stops, guest poweroffs and clean-ups,
    the persisted record implements the one-bit intent: the daemon starts a VM
    exactly when the last thing that spoke for or against it asked for it. *)
Theorem intent_refinement s b : runs s b → shouldDaemonStart (Some s) = b.
Proof.
  induction 1 as [|ev s b Hr IH]; [done|].
  destruct ev as [h c res vfs now|reason| |res]; cbn [record_step intent_step].
  - apply should_launch_rec.
  - apply should_stop_rec.
  - apply should_guest_rec.
  - by rewrite should_cleanup_rec, IH.
Qed.

Lemma intent_refinement_witness :
  shouldDaemonStart (Some (record_step (Cleanup None) (record_step (StopFor ShutdownReasonHost)
    (record_step (StopFor ShutdownReasonUser) zeroState)))) = true.
Proof.
  apply (intent_refinement _ (intent_step (Cleanup None)
    (record_step (StopFor ShutdownReasonHost) (record_step (StopFor ShutdownReasonUser) zeroState))
    true)).
  repeat constructor.
  exact (runs_step (StopFor ShutdownReasonHost) _ _ (runs_step (StopFor ShutdownReasonUser) _ _ runs_init)).
Defined.

Section DaemonClaims.
Context {S : Type} `{VMStoreLaws S} `{!MachineBuilder S} `{!MachineLaws S}.
Context (P : VMConfig → Prop) `{!Launchable S P}.
Context (host : Host) (env : StartEnv S).

Lemma autostart_one_skips cfg e (w : World S) s :
  healthy (w_store w) → default zeroState (st_view (w_store w) !! c_Name cfg) = s →
  s_Running s && isAlive_in w (s_PID s) || negb (shouldDaemonStart (Some s)) = true →
  autostart_one host env cfg e w = (Ok e, w).
Proof.
  intros Hh Hs Hb. unfold autostart_one. rewrite run_bind. unfold attempt.
  rewrite st_loadState, Hs by done. rewrite run_gets. cbv zeta.
  change (id w) with w. by rewrite Hb.
Qed.

(** C9: On a daemon tick a VM is left exactly as it is when its process is
    alive or its record says it should stay down; otherwise a launchable VM is
    started again, so a crashed VM comes back. *)
Theorem autostart_decides cfg e (w : World S) s :
  healthy (w_store w) → cfg_view (w_store w) !! c_Name cfg = Some cfg →
  default zeroState (st_view (w_store w) !! c_Name cfg) = s →
  c_Template cfg ≠ "truenas" → is_Some (w_free_port w) → P cfg →
  ∃ w', autostart_one host env cfg e w = (Ok e, w') ∧
    if s_Running s && isAlive_in w (s_PID s) || negb (shouldDaemonStart (Some s))
    then w' = w
    else launched (c_Name cfg) w' cfg (if s_Running s then zeroState else s).
Proof.
  intros Hh Hc Hs Ht Hp HP.
  destruct (s_Running s && isAlive_in w (s_PID s) || negb (shouldDaemonStart (Some s))) eqn:Eb.
  { exists w. split; [by eapply autostart_one_skips|done]. }
  unfold autostart_one. rewrite run_bind. unfold attempt.
  rewrite st_loadState, Hs by done. rewrite run_gets. cbv zeta. change (id w) with w. rewrite Eb.
  apply orb_false_iff in Eb as [Ea _].
  destruct (Start_run P host env (c_Name cfg) w cfg s false) as (w' & E & _ & Hl); try done.
  exists w'. by rewrite run_bind, E.
Qed.

(** C10: A poweroff from inside the guest is recorded by the event handler,
    survives in the record, and the next daemon tick leaves the VM down. *)
Theorem guest_poweroff_stays_down n ev e (w : World S) cfg :
  healthy (w_store w) → cfg_view (w_store w) !! n = Some cfg → c_Name cfg = n →
  ev_Guest ev = true → ev_Reason ev ≠ "guest-reset" →
  ∃ w' s', handleShutdownEvent n ev w = (Ok (mkHandled true false), w') ∧
    st_view (w_store w') !! n = Some s' ∧ s_DesiredState s' = DesiredStateStopped ∧
    autostart_one host env cfg e w' = (Ok e, w').
Proof.
  intros Hh Hc Hn Hg Hr. unfold handleShutdownEvent.
  rewrite Hg, bool_decide_eq_false_2 by done. cbn. rewrite run_bind, run_ret.
  destruct (recordGuestShutdown_run n w cfg Hh Hc) as (st' & E & Hh' & _ & Hv).
  rewrite run_bind, E. set (s' := guestShutdownRecord _) in Hv.
  exists (w <| w_store := st' |>), s'. split; [done|]. cbn. rewrite Hv, lookup_insert_eq.
  split; [done|]. split; [done|].
  apply (autostart_one_skips cfg e _ s'); [done|cbn; by rewrite Hn, Hv, lookup_insert_eq|].
  unfold s'. by rewrite should_guest_rec, orb_true_r.
Qed.

(** A reset from inside the guest power-cycles the VM exactly when it is
    on record as running and not mid-install: an installer's own reboot is
    left to QEMU, keeps the watcher, and touches nothing. *)
Theorem guest_reset_decision n (w : World S) :
  healthy (w_store w) →
  let s := default zeroState (st_view (w_store w) !! n) in
  let cycle := s_Running s && negb (bool_decide (s_InstallState s = InstallStatePending)) in
  handleResetEvent n true w = (Ok (mkHandled cycle cycle), w) ∧
  handleResetEvent n false w = (Ok (mkHandled false false), w) ∧
  (cycle = true → handleShutdownEvent n (mkShutdownEventData true "guest-reset") w =
    (Ok (mkHandled true true), w)).
Proof.
  intros Hh s cycle. pose proof (shouldPowerCycle_run n w Hh) as E. cbv zeta in E.
  fold s cycle in E. split_and!.
  - unfold handleResetEvent. cbn. rewrite run_bind, E. by destruct cycle.
  - done.
  - intros Hc. unfold handleShutdownEvent. cbn [ev_Guest ev_Reason negb]. eval_tests.
    by rewrite run_bind, E, Hc.
Qed.

Lemma forceStop_free_port n reason p :
  preserves (λ w : World S, w_free_port w = p) (forceStopWithReason n reason).
Proof.
  assert (Hst : ∀ A (m : GoM S error A), preserves (λ w : World S, w_free_port w = p) (st m)).
  { intros A m w Hw. unfold st. by destruct (m (w_store w)). }
  unfold forceStopWithReason, unregister_if_named, UnregisterHostname, removeHostsEntry,
    isAlive, kill, write_hosts.
  preserves_tac; auto; try (apply preserves_modify; intros; repeat case_match; done).
Qed.

(** C7: The power cycle that follows a guest reset ends with the VM up again,
    under a new live process; a pending install counts as done, so its
    installer disks are gone. *)
Theorem power_cycle_restarts n (w : World S) cfg s :
  healthy (w_store w) → cfg_view (w_store w) !! n = Some cfg → c_Name cfg = n →
  st_view (w_store w) !! n = Some s → s_Running s = true → s_PID s ≠ 0 →
  c_Template cfg ≠ "truenas" → is_Some (w_free_port w) → P cfg →
  ∃ w', powerCycleAfterGuestReset host env n w = (Ok tt, w') ∧
    launched n w' cfg (preservedAfterStop s ShutdownReasonReboot).
Proof.
  intros Hh Hc Hn Hs Hr Hp Ht Hf HP. unfold powerCycleAfterGuestReset.
  rewrite run_bind. unfold attempt.
  destruct (forceStopWithReason_spec n ShutdownReasonReboot w cfg s)
    as (w1 & E1 & Hh1 & Hc1 & Hs1 & _ & _); try done.
  pose proof (forceStop_free_port n ShutdownReasonReboot _ w eq_refl) as Hf1.
  rewrite E1 in *. cbn in Hf1.
  destruct (Start_run P host env n w1 cfg (preservedAfterStop s ShutdownReasonReboot) false)
    as (w2 & E2 & _ & Hl); try done.
  { by rewrite Hc1. }
  { by rewrite Hs1, lookup_insert_eq. }
  { by rewrite Hf1. }
  exists w2. unfold ignore. by rewrite E2.
Qed.

(** C6: On host shutdown every VM that was up is stopped, in whatever order
    the concurrent stops run, and each record still asks for the VM: the next
    daemon brings all of them back. *)
Theorem host_shutdown_stops_all order (w : World S) :
  (∀ l, order l ≡ₚ l) → healthy (w_store w) → names_ok w →
  ∃ w', handleHostShutdown order w = (Ok tt, w') ∧
    ∀ n s, up w n s → ∃ s', st_view (w_store w') !! n = Some s' ∧ s_Running s' = false ∧
      isAlive_in w' (s_PID s) = false ∧ shouldDaemonStart (Some s') = true.
Proof.
  intros Ho Hh Hok. unfold handleHostShutdown.
  destruct (runningVMCount_run w Hh Hok) as (k & w1 & E1 & Hh1 & Hok1 & Hk & Hu).
  rewrite run_bind, E1. destruct k as [|k].
  { exists w1. split; [done|]. intros n s Hn. by destruct (proj2 Hk); eauto. }
  destruct (StopAllRunning_run order ShutdownReasonHost w1 Ho Hh1 Hok1) as (w2 & E2 & Hv).
  exists w2. unfold ignore. rewrite E2. split; [done|]. intros n s Hn.
  destruct (Hv n s (Hu _ _ Hn)) as [? ?]. eexists. split; [done|].
  split_and!; [done..|]. by rewrite should_stop_rec.
Qed.

(** After reconciliation the daemon holds the shutdown inhibitor only if
    some VM is up, and, when it was granted, exactly then; when the daemon
    leaves its loop it holds none. *)
Theorem inhibitor_tracks_running acq reg order (d : Daemon S) :
  healthy (w_store (dm_world d)) → names_ok (dm_world d) → dm_conn d = true →
  (dm_lock (reconcileInhibitor acq d) = true → ∃ n s, up (dm_world d) n s) ∧
  ((∃ n s, up (dm_world d) n s) → dm_lock (reconcileInhibitor acq d) = dm_lock d || acq) ∧
  (∀ ev, dm_done d = false → dm_done (daemon_step host env reg order ev d) = true →
    dm_lock (daemon_step host env reg order ev d) = false).
Proof.
  intros Hh Hok Hc. unfold reconcileInhibitor. rewrite Hc. cbn [negb].
  destruct (runningVMCount_run (dm_world d) Hh Hok) as (k & w1 & -> & _ & _ & Hk & _). cbn.
  split_and!.
  - intros Hl. apply Hk. intros ->. by destruct (dm_lock d).
  - intros Hu. destruct k; [by apply Hk in Hu|]. by destruct (dm_lock d).
  - intros ev. unfold daemon_step. intros ->. rewrite Hc. destruct ev; [|done..].
    unfold reconcileInhibitor. cbn. by destruct (runningVMCount _).
Qed.
End DaemonClaims.

Lemma scenario_names_ok s alive :
  names_ok (Scenario.world_with s alive).
Proof.
  split; cbn; intros n x Hx.
  - unfold Db.db_cfg_view in Hx. rewrite lookup_fmap in Hx.
    destruct (decide (n = "dev")) as [->|Hn]; [by injection Hx as <-|].
    by rewrite lookup_singleton_ne in Hx by done.
  - destruct (decide (n = "dev")) as [->|Hn]; [by eexists|].
    by rewrite lookup_singleton_ne in Hx by done.
Qed.

(** The VM crashed: it is started again. *)
Lemma autostart_decides_witness :
  ∃ w', autostart_one Scenario.linux Scenario.env Scenario.cfg None
      (Scenario.world_with Scenario.running ∅) = (Ok None, w') ∧
    launched "dev" w' Scenario.cfg zeroState.
Proof.
  destruct (autostart_decides (λ _, True) Scenario.linux Scenario.env Scenario.cfg None
    (Scenario.world_with Scenario.running ∅) Scenario.running) as (w' & E & Hl);
    [split; reflexivity | reflexivity | reflexivity | discriminate | by eexists
    | exact I |].
  exists w'. split; [exact E|].
  assert (isAlive_in (Scenario.world_with Scenario.running ∅) 77 = false) as Ha
    by (vm_compute; reflexivity).
  cbn -[isAlive_in launched] in Hl. rewrite Ha in Hl. exact Hl.
Defined.

Lemma guest_poweroff_stays_down_witness :
  ∃ w' s', handleShutdownEvent "dev" (mkShutdownEventData true "guest-shutdown")
      (Scenario.world_with Scenario.running ∅) = (Ok (mkHandled true false), w') ∧
    st_view (w_store w') !! "dev" = Some s' ∧ s_DesiredState s' = DesiredStateStopped ∧
    autostart_one Scenario.linux Scenario.env Scenario.cfg None w' = (Ok None, w').
Proof.
  apply (guest_poweroff_stays_down Scenario.linux Scenario.env "dev"
    (mkShutdownEventData true "guest-shutdown") None _ Scenario.cfg);
    [split; reflexivity | reflexivity | reflexivity | reflexivity | discriminate].
Defined.

Lemma guest_reset_decision_witness :
  handleResetEvent "dev" true (Scenario.world_with Scenario.running {[77]}) =
    (Ok (mkHandled true true), Scenario.world_with Scenario.running {[77]}).
Proof.
  destruct (guest_reset_decision "dev" (Scenario.world_with Scenario.running {[77]})) as [E _];
    [split; reflexivity|].
  rewrite E. do 2 f_equal.
Defined.

Lemma power_cycle_restarts_witness :
  ∃ w', powerCycleAfterGuestReset Scenario.linux Scenario.env "dev"
      (Scenario.world_with Scenario.running {[77]}) = (Ok tt, w') ∧
    launched "dev" w' Scenario.cfg (preservedAfterStop Scenario.running ShutdownReasonReboot).
Proof.
  apply (power_cycle_restarts (λ _, True) Scenario.linux Scenario.env "dev"
    (Scenario.world_with Scenario.running {[77]}) Scenario.cfg Scenario.running);
    [split; reflexivity | reflexivity | reflexivity | reflexivity | reflexivity | discriminate
    | discriminate | by eexists | exact I].
Defined.

Lemma host_shutdown_stops_all_witness :
  ∃ w', handleHostShutdown reverse (Scenario.world_with Scenario.running {[77]}) = (Ok tt, w') ∧
    ∀ n s, up (Scenario.world_with Scenario.running {[77]}) n s →
      ∃ s', st_view (w_store w') !! n = Some s' ∧ s_Running s' = false ∧
        isAlive_in w' (s_PID s) = false ∧ shouldDaemonStart (Some s') = true.
Proof.
  apply (host_shutdown_stops_all reverse);
    [intros l; apply reverse_Permutation | split; reflexivity | apply scenario_names_ok].
Defined.

Lemma inhibitor_tracks_running_witness :
  let d := mkDaemon (Scenario.world_with Scenario.running {[77]}) true false false in
  (dm_lock (reconcileInhibitor true d) = true → ∃ n s, up (dm_world d) n s) ∧
  ((∃ n s, up (dm_world d) n s) → dm_lock (reconcileInhibitor true d) = dm_lock d || true) ∧
  (∀ ev, dm_done d = false → dm_done (daemon_step Scenario.linux Scenario.env ∅ id ev d) = true →
    dm_lock (daemon_step Scenario.linux Scenario.env ∅ id ev d) = false).
Proof.
  apply (inhibitor_tracks_running Scenario.linux Scenario.env true);
    [split; reflexivity | apply scenario_names_ok | reflexivity].
Defined.
