(* ===== verification/Sha1.v ===== *)
(** * SHA-1, as [crypto/sha1.Sum] computes it (FIPS 180-4)

    The program derives stable MAC addresses and vsock context ids from VM
    names with it.  Words are 32-bit, kept reduced modulo 2^32. *)
From S2P Require Import Prelude GoStrings.

Module SHA1.
#[local] Open Scope N_scope.

Definition word32 : N := 2 ^ 32.
Definition w32 (x : N) : N := x mod word32.
Definition rotl (n x : N) : N := N.lor (w32 (N.shiftl x n)) (N.shiftr x (32 - n)).
Definition wnot (x : N) : N := word32 - 1 - x.

Definition bytes_of (s : string) : list N := N_of_ascii <$> String.list_ascii_of_string s.

(** Big-endian bytes of [x], [n] of them. *)
Fixpoint be_bytes (n : nat) (x : N) : list N :=
  match n with
  | O => []
  | S n => (N.shiftr x (8 * N.of_nat n)) mod 256 :: be_bytes n x
  end.

Definition pad (msg : list N) : list N :=
  let l := length msg in
  let zeros := ((119 - l mod 64) mod 64)%nat in
  msg ++ [128] ++ replicate zeros 0 ++ be_bytes 8 (8 * N.of_nat l).

(** Big-endian 32-bit words. *)
Fixpoint words (l : list N) : list N :=
  match l with
  | a :: b :: c :: d :: l' => (((a * 256 + b) * 256 + c) * 256 + d) :: words l'
  | _ => []
  end.

(** The message schedule, latest word first. *)
Fixpoint schedule (n : nat) (w : list N) : list N :=
  match n with
  | O => w
  | S n =>
      let x := rotl 1 (N.lxor (N.lxor (nth 2 w 0) (nth 7 w 0)) (N.lxor (nth 13 w 0) (nth 15 w 0))) in
      schedule n (x :: w)
  end.

Definition round_fk (t : nat) (b c d : N) : N * N :=
  if (t <? 20)%nat then (N.lor (N.land b c) (N.land (wnot b) d), 1518500249)
  else if (t <? 40)%nat then (N.lxor b (N.lxor c d), 1859775393)
  else if (t <? 60)%nat then (N.lor (N.lor (N.land b c) (N.land b d)) (N.land c d), 2400959708)
  else (N.lxor b (N.lxor c d), 3395469782).

Definition state5 : Type := N * N * N * N * N.

Fixpoint rounds (t : nat) (ws : list N) (s : state5) : state5 :=
  match ws with
  | [] => s
  | w :: ws =>
      let '(a, b, c, d, e) := s in
      let '(f, k) := round_fk t b c d in
      rounds (S t) ws (w32 (rotl 5 a + f + e + k + w), a, rotl 30 b, c, d)
  end.

Definition compress (h : state5) (block : list N) : state5 :=
  let '(a, b, c, d, e) := rounds 0 (rev (schedule 64 (rev (words block)))) h in
  let '(h0, h1, h2, h3, h4) := h in
  (w32 (h0 + a), w32 (h1 + b), w32 (h2 + c), w32 (h3 + d), w32 (h4 + e)).

Fixpoint blocks (fuel : nat) (l : list N) (h : state5) : state5 :=
  match fuel, l with
  | S fuel, _ :: _ => blocks fuel (drop 64 l) (compress h (take 64 l))
  | _, _ => h
  end.

(** [sha1.Sum]: 20 bytes.  One block is consumed per unit of fuel, and the
    padded message is never shorter than the number of its blocks. *)
Definition Sum (msg : list N) : list N :=
  let p := pad msg in
  let '(h0, h1, h2, h3, h4) :=
    blocks (length p) p (1732584193, 4023233417, 2562383102, 271733878, 3285377520) in
  be_bytes 4 h0 ++ be_bytes 4 h1 ++ be_bytes 4 h2 ++ be_bytes 4 h3 ++ be_bytes 4 h4.

(** The standard's test vectors. *)
Example Sum_abc :
  Sum (bytes_of "abc") =
  [169; 153; 62; 54; 71; 6; 129; 106; 186; 62; 37; 113; 120; 80; 194; 108; 156; 208; 216; 157].
Proof. vm_compute. reflexivity. Qed.

Example Sum_two_blocks :
  Sum (bytes_of "abcdbcdecdefdefgefghfghighijhijkijkljklmklmnlmnomnopnopq") =
  [132; 152; 62; 68; 28; 59; 210; 110; 186; 174; 74; 161; 249; 81; 41; 229; 229; 70; 112; 241].
Proof. vm_compute. reflexivity. Qed.

Lemma be_bytes_length n x : length (be_bytes n x) = n.
Proof. induction n as [|n IH]; [done|]. cbn. by rewrite IH. Qed.

Lemma be_bytes_range n x b : b ∈ be_bytes n x → b < 256.
Proof.
  induction n as [|n IH]; cbn; [by rewrite elem_of_nil|].
  rewrite elem_of_cons. intros [->|Hb]; [|by apply IH]. apply N.mod_lt. done.
Qed.

Lemma Sum_length msg : length (Sum msg) = 20%nat.
Proof.
  unfold Sum. destruct (blocks _ _ _) as [[[[h0 h1] h2] h3] h4].
  by rewrite !length_app, !be_bytes_length.
Qed.

Lemma Sum_range msg b : b ∈ Sum msg → b < 256.
Proof.
  unfold Sum. destruct (blocks _ _ _) as [[[[h0 h1] h2] h3] h4].
  rewrite !elem_of_app. intros [?|[?|[?|[?|?]]]]; by eapply be_bytes_range.
Qed.
End SHA1.
