(* ===== verification/Shacrypt.v ===== *)
(** * Password hashes (internal/shacrypt/shacrypt.go)

    The SHA-512 crypt of a password that an unattended installer receives, over
    SHA-512 as [crypto/sha512] computes it.  Bytes and 64-bit words are [N], the
    words kept reduced modulo 2^64. *)
From S2P Require Import Prelude GoStrings Guest Sha1.

#[local] Open Scope N_scope.

(** ** SHA-512 (FIPS 180-4) *)
Module SHA512.
Import SHA1 (be_bytes).

Definition Size : nat := 64.
Definition word64 : N := 2 ^ 64.
Definition w64 (x : N) : N := x mod word64.
Definition rotr (n x : N) : N := N.lor (N.shiftr x n) (w64 (N.shiftl x (64 - n))).
Definition wnot (x : N) : N := word64 - 1 - x.

Definition Ch (x y z : N) : N := N.lxor (N.land x y) (N.land (wnot x) z).
Definition Maj (x y z : N) : N := N.lxor (N.lxor (N.land x y) (N.land x z)) (N.land y z).
Definition Sigma0 (x : N) : N := N.lxor (N.lxor (rotr 28 x) (rotr 34 x)) (rotr 39 x).
Definition Sigma1 (x : N) : N := N.lxor (N.lxor (rotr 14 x) (rotr 18 x)) (rotr 41 x).
Definition sigma0 (x : N) : N := N.lxor (N.lxor (rotr 1 x) (rotr 8 x)) (N.shiftr x 7).
Definition sigma1 (x : N) : N := N.lxor (N.lxor (rotr 19 x) (rotr 61 x)) (N.shiftr x 6).

Definition K : list N :=
  [0x428a2f98d728ae22; 0x7137449123ef65cd; 0xb5c0fbcfec4d3b2f; 0xe9b5dba58189dbbc;
   0x3956c25bf348b538; 0x59f111f1b605d019; 0x923f82a4af194f9b; 0xab1c5ed5da6d8118;
   0xd807aa98a3030242; 0x12835b0145706fbe; 0x243185be4ee4b28c; 0x550c7dc3d5ffb4e2;
   0x72be5d74f27b896f; 0x80deb1fe3b1696b1; 0x9bdc06a725c71235; 0xc19bf174cf692694;
   0xe49b69c19ef14ad2; 0xefbe4786384f25e3; 0x0fc19dc68b8cd5b5; 0x240ca1cc77ac9c65;
   0x2de92c6f592b0275; 0x4a7484aa6ea6e483; 0x5cb0a9dcbd41fbd4; 0x76f988da831153b5;
   0x983e5152ee66dfab; 0xa831c66d2db43210; 0xb00327c898fb213f; 0xbf597fc7beef0ee4;
   0xc6e00bf33da88fc2; 0xd5a79147930aa725; 0x06ca6351e003826f; 0x142929670a0e6e70;
   0x27b70a8546d22ffc; 0x2e1b21385c26c926; 0x4d2c6dfc5ac42aed; 0x53380d139d95b3df;
   0x650a73548baf63de; 0x766a0abb3c77b2a8; 0x81c2c92e47edaee6; 0x92722c851482353b;
   0xa2bfe8a14cf10364; 0xa81a664bbc423001; 0xc24b8b70d0f89791; 0xc76c51a30654be30;
   0xd192e819d6ef5218; 0xd69906245565a910; 0xf40e35855771202a; 0x106aa07032bbd1b8;
   0x19a4c116b8d2d0c8; 0x1e376c085141ab53; 0x2748774cdf8eeb99; 0x34b0bcb5e19b48a8;
   0x391c0cb3c5c95a63; 0x4ed8aa4ae3418acb; 0x5b9cca4f7763e373; 0x682e6ff3d6b2b8a3;
   0x748f82ee5defb2fc; 0x78a5636f43172f60; 0x84c87814a1f0ab72; 0x8cc702081a6439ec;
   0x90befffa23631e28; 0xa4506cebde82bde9; 0xbef9a3f7b2c67915; 0xc67178f2e372532b;
   0xca273eceea26619c; 0xd186b8c721c0c207; 0xeada7dd6cde0eb1e; 0xf57d4f7fee6ed178;
   0x06f067aa72176fba; 0x0a637dc5a2c898a6; 0x113f9804bef90dae; 0x1b710b35131c471b;
   0x28db77f523047d84; 0x32caab7b40c72493; 0x3c9ebe0a15c9bebc; 0x431d67c49c100d4c;
   0x4cc5d4becb3e42b6; 0x597f299cfc657e2a; 0x5fcb6fab3ad6faec; 0x6c44198c4a475817].
Definition H : list N :=
  [0x6a09e667f3bcc908; 0xbb67ae8584caa73b; 0x3c6ef372fe94f82b; 0xa54ff53a5f1d36f1;
   0x510e527fade682d1; 0x9b05688c2b3e6c1f; 0x1f83d9abfb41bd6b; 0x5be0cd19137e2179].

Definition pad (msg : list N) : list N :=
  let l := length msg in
  let zeros := ((239 - l mod 128) mod 128)%nat in
  msg ++ [128] ++ replicate zeros 0 ++ be_bytes 16 (8 * N.of_nat l).

Definition be_word (l : list N) : N := foldl (λ acc b, acc * 256 + b) 0 l.
Fixpoint words (n : nat) (l : list N) : list N :=
  match n with O => [] | S n => be_word (take 8 l) :: words n (drop 8 l) end.

(** The message schedule, latest word first. *)
Fixpoint schedule (n : nat) (w : list N) : list N :=
  match n with
  | O => w
  | S n => schedule n (w64 (sigma1 (nth 1 w 0) + nth 6 w 0 + sigma0 (nth 14 w 0) + nth 15 w 0) :: w)
  end.

Definition round (s : list N) (kw : N * N) : list N :=
  match s with
  | [a; b; c; d; e; f; g; h] =>
      let t1 := h + Sigma1 e + Ch e f g + kw.1 + kw.2 in
      let t2 := Sigma0 a + Maj a b c in
      [w64 (t1 + t2); a; b; c; w64 (d + t1); e; f; g]
  | _ => s
  end.
Definition compress (h : list N) (block : list N) : list N :=
  zip_with (λ x y, w64 (x + y)) h (foldl round h (zip K (rev (schedule 64 (rev (words 16 block)))))).

Fixpoint blocks (fuel : nat) (l : list N) (h : list N) : list N :=
  match fuel, l with
  | S fuel, _ :: _ => blocks fuel (drop 128 l) (compress h (take 128 l))
  | _, _ => h
  end.

(** [h := sha512.New(); h.Write(msg); h.Sum(nil)]: 64 bytes. *)
Definition Sum (msg : list N) : list N :=
  let p := pad msg in mjoin (be_bytes 8 <$> blocks (length p) p H).

(** The standard's test vector. *)
Example Sum_abc512 :
  Sum (SHA1.bytes_of "abc") =
  mjoin (be_bytes 8 <$>
    [0xddaf35a193617aba; 0xcc417349ae204131; 0x12e6fa4e89a97ea2; 0x0a9eeee64b55d39a;
     0x2192992a274fc1a8; 0x36ba3c23a3feebbd; 0x454d4423643ce80e; 0x2a9ac94fa54ca49f]).
Proof. vm_compute. reflexivity. Qed.

Lemma length_round s kw : length (round s kw) = length s.
Proof. by destruct s as [|? [|? [|? [|? [|? [|? [|? [|? [|? ?]]]]]]]]]. Qed.
Lemma length_rounds kws : ∀ s, length (foldl round s kws) = length s.
Proof. induction kws as [|kw kws IH]; intros s; [done|]. cbn. by rewrite IH, length_round. Qed.
Lemma length_blocks fuel : ∀ l h, length (blocks fuel l h) = length h.
Proof.
  induction fuel as [|fuel IH]; intros [|b l] h; try done. cbn [blocks]. rewrite IH. unfold compress.
  rewrite length_zip_with, length_rounds. lia.
Qed.

Lemma Sum_length512 msg : length (Sum msg) = Size.
Proof.
  unfold Sum. cbv zeta. pose proof (length_blocks (length (pad msg)) (pad msg) H) as Hl.
  destruct (blocks _ _ _) as [|? [|? [|? [|? [|? [|? [|? [|? [|? ?]]]]]]]]]; try discriminate Hl.
  reflexivity.
Qed.
Lemma Sum_bytes msg : Forall (λ b, b < 256) (Sum msg).
Proof.
  unfold Sum. cbv zeta. apply Forall_forall. intros b (l & Hb & Hl)%list_elem_of_join.
  apply list_elem_of_fmap in Hl as (h & -> & _). by eapply SHA1.be_bytes_range.
Qed.
End SHA512.

(** ** The package *)
Definition defaultRounds : nat := 5000.
Definition saltAlphabet : string := "./0123456789ABCDEFGHIJKLMNOPQRSTUVWXYZabcdefghijklmnopqrstuvwxyz".
Definition maxSaltLen : nat := 16.

(** [saltAlphabet[i]], for an index in range. *)
Definition alphabet (i : N) : ascii := default "."%char (String.get (N.to_nat i) saltAlphabet).

(** [writeRepeated] and [expand] make the same bytes, one into a hash and one
    into a slice.  A unit of fuel is one block of 64 bytes. *)
Fixpoint repeat_to (fuel : nat) (digest : list N) (n : nat) : list N :=
  match fuel with
  | S fuel => if (SHA512.Size <? n)%nat then digest ++ repeat_to fuel digest (n - SHA512.Size) else take n digest
  | O => take n digest
  end.
Definition writeRepeated (h digest : list N) (n : nat) : list N := h ++ repeat_to n digest n.
Definition expand (digest : list N) (n : nat) : list N := repeat_to n digest n.

(** The bits of the password's length, low to high. *)
Fixpoint length_bits (digestB password : list N) (cnt : positive) : list N :=
  match cnt with
  | xH => digestB
  | xI cnt => digestB ++ length_bits digestB password cnt
  | xO cnt => password ++ length_bits digestB password cnt
  end.

Definition round_input (p s c : list N) (i : nat) : list N :=
  (if Nat.odd i then p else c)
  ++ (if (i mod 3 =? 0)%nat then [] else s)
  ++ (if (i mod 7 =? 0)%nat then [] else p)
  ++ (if Nat.odd i then c else p).

Definition triples : list (nat * nat * nat) :=
  [(0, 21, 42); (22, 43, 1); (44, 2, 23); (3, 24, 45); (25, 46, 4); (47, 5, 26); (6, 27, 48);
   (28, 49, 7); (50, 8, 29); (9, 30, 51); (31, 52, 10); (53, 11, 32); (12, 33, 54); (34, 55, 13);
   (56, 14, 35); (15, 36, 57); (37, 58, 16); (59, 17, 38); (18, 39, 60); (40, 61, 19); (62, 20, 41)]%nat.

(** [n] characters of [w], low six bits first. *)
Fixpoint sextets (n : nat) (w : N) : string :=
  match n with O => "" | S n => String (alphabet (N.land w 0x3f)) (sextets n (N.shiftr w 6)) end.
Definition triple_word (digest : list N) (t : nat * nat * nat) : N :=
  N.lor (N.lor (N.shiftl (nth t.1.1 digest 0) 16) (N.shiftl (nth t.1.2 digest 0) 8)) (nth t.2 digest 0).
Definition encode (digest : list N) : string :=
  foldr (λ t s, sextets 4 (triple_word digest t) +:+ s) (sextets 2 (nth 63 digest 0)) triples.

(** The digest the rounds end with. *)
Definition crypt_digest (password salt : list N) (rounds : nat) : list N :=
  let digestB := SHA512.Sum (password ++ salt ++ password) in
  let digestA := SHA512.Sum (writeRepeated (password ++ salt) digestB (length password)
    ++ match N.of_nat (length password) with N0 => [] | Npos cnt => length_bits digestB password cnt end) in
  let p := expand (SHA512.Sum (mjoin (replicate (length password) password))) (length password) in
  let s := expand (SHA512.Sum (mjoin (replicate (16 + N.to_nat (nth 0 digestA 0)) salt))) (length salt) in
  foldl (λ c i, SHA512.Sum (round_input p s c i)) digestA (seq 0 rounds).
Definition sha512crypt (password salt : list N) (rounds : nat) : string :=
  encode (crypt_digest password salt rounds).

Definition Sha512Crypt (password salt : string) : result error string :=
  if bool_decide (salt = "") || (maxSaltLen <? String.length salt)%nat
  then Err (Errorf "shacrypt: salt must be 1-16 characters" [])
  else if negb (sforall (λ c, bool_decide (c ∈ String.list_ascii_of_string saltAlphabet)) salt)
  then Err (Errorf "shacrypt: salt contains invalid character" [salt])
  else Ok ("$6$" +:+ salt +:+ "$" +:+ sha512crypt (SHA1.bytes_of password) (SHA1.bytes_of salt) defaultRounds).

(** [raw]: what [rand.Read] fills the sixteen bytes with. *)
Definition GenerateHash (raw : result string (list N)) (password : string) : result error string :=
  match raw with
  | Err e => Err (Wrapf "shacrypt: salt" (Errorf e []))
  | Ok raw => Sha512Crypt password
      (String.string_of_list_ascii ((λ b, alphabet (b mod N.of_nat (String.length saltAlphabet))) <$> raw))
  end.


(** ** Sequences

    The specification's wording: a block of digest for every 64 bytes, then the
    first bytes of one more. *)
Lemma repeat_to_cycles digest : length digest = SHA512.Size → ∀ fuel n, (n <= fuel)%nat →
  length (repeat_to fuel digest n) = n ∧
  ∀ i, (i < n)%nat → repeat_to fuel digest n !! i = digest !! (i mod SHA512.Size)%nat.
Proof.
  intros Hd. unfold SHA512.Size in *. induction fuel as [|fuel IH]; intros n Hn.
  { replace n with O by lia. split; [done|]. lia. }
  cbn [repeat_to]. unfold SHA512.Size. destruct (Nat.ltb_spec 64 n) as [Hlt|Hge].
  - destruct (IH (n - 64)%nat ltac:(lia)) as [Hl Hi]. split; [rewrite length_app, Hl, Hd; lia|]. intros i Hin.
    destruct (decide (i < 64)%nat).
    + rewrite lookup_app_l by lia. by rewrite Nat.mod_small.
    + rewrite lookup_app_r, Hd, Hi by lia. replace i with (i - 64 + 1 * 64)%nat at 2 by lia. by rewrite Nat.Div0.mod_add.
  - split; [rewrite length_take; lia|]. intros i Hin. rewrite lookup_take_lt by lia.
    by rewrite Nat.mod_small by lia.
Qed.

Theorem expand_cycles msg n :
  length (expand (SHA512.Sum msg) n) = n ∧
  ∀ i, (i < n)%nat → expand (SHA512.Sum msg) n !! i = SHA512.Sum msg !! (i mod SHA512.Size)%nat.
Proof. apply repeat_to_cycles; [apply SHA512.Sum_length512|done]. Qed.

(** ** The encoding, read back *)
Definition unalphabet (c : ascii) : N :=
  match list_find (c =.) (String.list_ascii_of_string saltAlphabet) with Some (i, _) => N.of_nat i | None => 0 end.
Fixpoint read_sextets (n : nat) (s : string) : N * string :=
  match n, s with
  | S n, String c s => let '(w, rest) := read_sextets n s in (unalphabet c + 64 * w, rest)
  | _, _ => (0, s)
  end.
Fixpoint decode_bytes (ts : list (nat * nat * nat)) (s : string) : list (nat * N) :=
  match ts with
  | [] => [(63%nat, (read_sextets 2 s).1)]
  | t :: ts => let '(w, rest) := read_sextets 4 s in
      [(t.1.1, w / 2 ^ 16); (t.1.2, (w / 2 ^ 8) mod 2 ^ 8); (t.2, w mod 2 ^ 8)] ++ decode_bytes ts rest
  end.
Definition decode (s : string) : list N :=
  let m : gmap nat N := list_to_map (decode_bytes triples s) in (λ i, m !!! i) <$> seq 0 SHA512.Size.

Lemma alphabet_inv i : i < 64 → unalphabet (alphabet i) = i ∧ alphabet i ∈ String.list_ascii_of_string saltAlphabet.
Proof.
  intros Hi. assert (Hall : forallb (λ j, bool_decide (unalphabet (alphabet (N.of_nat j)) = N.of_nat j ∧
    alphabet (N.of_nat j) ∈ String.list_ascii_of_string saltAlphabet)) (seq 0 64) = true) by by vm_compute.
  rewrite forallb_forall in Hall. specialize (Hall (N.to_nat i) ltac:(apply in_seq; lia)). apply bool_decide_eq_true in Hall.
  by rewrite N2Nat.id in Hall.
Qed.

Lemma read_sextets_inv n : ∀ w rest, w < 64 ^ N.of_nat n → read_sextets n (sextets n w +:+ rest) = (w, rest).
Proof.
  induction n as [|n IH]; intros w rest Hw; [cbn in *; f_equal; lia|].
  cbn [sextets]. rewrite append_cons. cbn [read_sextets].
  change 0x3f with (N.ones 6). rewrite N.land_ones, N.shiftr_div_pow2. change (2 ^ 6) with 64.
  rewrite IH. 2: { apply N.Div0.div_lt_upper_bound. rewrite Nat2N.inj_succ, N.pow_succ_r' in Hw. lia. }
  destruct (alphabet_inv (w mod 64)) as [-> _]; [apply N.mod_lt; lia|]. f_equal.
  pose proof (N.Div0.div_mod w 64). lia.
Qed.

Lemma lor_low a b n : a mod 2 ^ n = 0 → b < 2 ^ n → N.lor a b = a + b.
Proof.
  intros Ha Hb. assert (N.land a b = 0) as Hd.
  { apply N.bits_inj_0. intros i. rewrite N.land_spec. destruct (N.lt_ge_cases i n) as [Hi|Hi].
    - rewrite <-(N.mod_pow2_bits_low a n i), Ha, N.bits_0 by done. done.
    - rewrite <-(N.mod_small b (2 ^ n)), N.mod_pow2_bits_high, andb_false_r by done. done. }
  rewrite <-N.lxor_lor, <-N.add_nocarry_lxor by done. done.
Qed.

Lemma triple_word_bytes a b c : a < 2 ^ 8 → b < 2 ^ 8 → c < 2 ^ 8 →
  let w := N.lor (N.lor (N.shiftl a 16) (N.shiftl b 8)) c in
  w < 64 ^ 4 ∧ w / 2 ^ 16 = a ∧ (w / 2 ^ 8) mod 2 ^ 8 = b ∧ w mod 2 ^ 8 = c.
Proof.
  intros Ha Hb Hc w. assert (w = a * 2 ^ 16 + b * 2 ^ 8 + c) as ->; [|].
  { subst w. rewrite !N.shiftl_mul_pow2. rewrite (lor_low (a * 2 ^ 16) (b * 2 ^ 8) 16), (lor_low _ c 8); [done|..].
    - by replace (a * 2 ^ 16 + b * 2 ^ 8) with ((a * 2 ^ 8 + b) * 2 ^ 8) by lia; rewrite N.Div0.mod_mul.
    - done.
    - by rewrite N.Div0.mod_mul.
    - lia. }
  change (2 ^ 16) with 65536. change (2 ^ 8) with 256 in *. change (64 ^ 4) with 16777216.
  repeat split.
  - lia.
  - symmetry. apply (N.div_unique _ _ _ (b * 256 + c)); lia.
  - replace ((a * 65536 + b * 256 + c) / 256) with (a * 256 + b); [symmetry; apply (N.mod_unique _ _ a); lia|].
    apply (N.div_unique _ _ _ c); lia.
  - symmetry. apply (N.mod_unique _ _ (a * 256 + b)); lia.
Qed.

Definition byte_list (d : list N) : Prop := length d = SHA512.Size ∧ Forall (λ b, b < 2 ^ 8) d.

Lemma nth_byte d i : byte_list d → nth i d 0 < 2 ^ 8.
Proof.
  intros [_ Hd]. rewrite nth_lookup. destruct (d !! i) eqn:E; [|done]. exact (Forall_lookup_1 _ _ _ _ Hd E).
Qed.

Lemma decode_bytes_inv d ts : byte_list d →
  decode_bytes ts (foldr (λ t s, sextets 4 (triple_word d t) +:+ s) (sextets 2 (nth 63 d 0)) ts) =
  (λ i, (i, nth i d 0)) <$> (ts ≫= (λ t, [t.1.1; t.1.2; t.2]) ) ++ [63%nat].
Proof.
  intros Hd. induction ts as [|[[i j] k] ts IH].
  - cbn -[read_sextets sextets nth]. rewrite <-(append_nil (sextets 2 _)), read_sextets_inv; [done|].
    pose proof (nth_byte d 63 Hd). cbn in *. lia.
  - cbn -[read_sextets sextets nth N.pow N.div N.modulo]. unfold triple_word at 1. cbn [fst snd].
    destruct (triple_word_bytes (nth i d 0) (nth j d 0) (nth k d 0)) as (Hw & Ha & Hb & Hc); try by apply nth_byte.
    rewrite read_sextets_inv by done. cbn [fst snd]. rewrite Ha, Hb, Hc, IH. done.
Qed.

(** Every byte of the digest is in the encoding, at a place of its own. *)
Lemma triples_cover :
  let idx := (triples ≫= (λ t, [t.1.1; t.1.2; t.2])) ++ [63%nat] in NoDup idx ∧ ∀ i, (i < 64)%nat → i ∈ idx.
Proof.
  intros idx. split; [by apply (bool_decide_unpack _); vm_compute|]. intros i Hi.
  assert (Hall : forallb (λ i, bool_decide (i ∈ idx)) (seq 0 64) = true) by by vm_compute.
  rewrite forallb_forall in Hall. apply (bool_decide_unpack _), Is_true_true, Hall, in_seq. lia.
Qed.

Lemma decode_encode d : byte_list d → decode (encode d) = d.
Proof.
  intros Hd. unfold decode, encode. rewrite decode_bytes_inv by done. destruct triples_cover as [Hn Hc].
  set (idx := _ ++ [63%nat]) in *. apply list_eq. intros i. rewrite list_lookup_fmap. destruct Hd as [Hl _].
  destruct (decide (i < 64)%nat) as [Hi|Hi].
  - rewrite lookup_seq_lt by done. cbn [fmap option_fmap option_map Nat.add].
    rewrite (lookup_total_correct _ i (nth i d 0)); [|apply elem_of_list_to_map_1].
    + rewrite nth_lookup.
      destruct (lookup_lt_is_Some_2 d i) as [x ->]; [by rewrite Hl|done].
    + rewrite <-list_fmap_compose. change (_ ∘ _) with (@id nat). by rewrite list_fmap_id.
    + apply list_elem_of_fmap. exists i. auto.
  - rewrite lookup_seq_ge, lookup_ge_None_2 by (rewrite ?Hl; unfold SHA512.Size; lia). done.
Qed.

Lemma sextets_alphabet n w :
  sforall (λ c, bool_decide (c ∈ String.list_ascii_of_string saltAlphabet)) (sextets n w) = true ∧
  String.length (sextets n w) = n.
Proof.
  revert w. induction n as [|n IH]; intros w; [done|]. cbn [sextets sforall String.length].
  destruct (IH (N.shiftr w 6)) as [-> ->]. split; [|done]. rewrite andb_true_r. apply bool_decide_eq_true, alphabet_inv.
  change 0x3f with (N.ones 6). rewrite N.land_ones. by apply N.mod_lt.
Qed.

Lemma encode_alphabet d :
  sforall (λ c, bool_decide (c ∈ String.list_ascii_of_string saltAlphabet)) (encode d) = true ∧
  String.length (encode d) = 86%nat.
Proof.
  unfold encode. assert (∀ ts, sforall (λ c, bool_decide (c ∈ String.list_ascii_of_string saltAlphabet))
      (foldr (λ t s, sextets 4 (triple_word d t) +:+ s) (sextets 2 (nth 63 d 0)) ts) = true ∧
    String.length (foldr (λ t s, sextets 4 (triple_word d t) +:+ s) (sextets 2 (nth 63 d 0)) ts) = (4 * length ts + 2)%nat)
    as Hts; [|apply (Hts triples)].
  induction ts as [|t ts [IHa IHl]]; [apply sextets_alphabet|]. cbn [foldr length].
  rewrite sforall_app, length_append, IHa, IHl. destruct (sextets_alphabet 4 (triple_word d t)) as [-> ->]. split; [done|lia].
Qed.

Lemma alphabet_no_dollar s :
  sforall (λ c, bool_decide (c ∈ String.list_ascii_of_string saltAlphabet)) s = true → free_of "$" s = true.
Proof.
  unfold free_of. induction s as [|c s IH]; [done|]. cbn [sforall]. intros [Hc Hs]%andb_true_iff. rewrite IH by done.
  rewrite andb_true_r. apply negb_true_iff, bool_decide_eq_false. intros ->. by vm_compute in Hc.
Qed.

Lemma crypt_digest_bytes pw salt n : byte_list (crypt_digest pw salt n).
Proof.
  assert (∀ m, byte_list (SHA512.Sum m)) as Hs by (intros m; split; [apply SHA512.Sum_length512|apply SHA512.Sum_bytes]).
  unfold crypt_digest. cbv zeta. generalize (seq 0 n). intros l.
  match goal with |- byte_list (foldl ?f ?a l) => assert (∀ c, byte_list c → byte_list (foldl f c l)) as Hf; [|by apply Hf] end.
  induction l as [|i l IH]; intros c Hc; [done|]. cbn [foldl]. by apply IH.
Qed.

(** ** Hashes and passwords

    How crypt(3) checks a password: hash it with the salt of the hash on record
    and compare. *)
Definition crypt_verify (hash password : string) : bool :=
  match Split "$" hash with
  | [_; id; salt; _] => bool_decide (id = "6") &&
      match Sha512Crypt password salt with Ok h => bool_decide (h = hash) | Err _ => false end
  | _ => false
  end.

(** The digest behind a hash, with the default number of rounds. *)
Definition final_digest (password salt : string) : list N :=
  crypt_digest (SHA1.bytes_of password) (SHA1.bytes_of salt) defaultRounds.

Lemma final_digest_bytes pw salt : byte_list (final_digest pw salt).
Proof. unfold final_digest. apply crypt_digest_bytes. Qed.

Definition valid_salt (salt : string) : Prop :=
  salt ≠ "" ∧ (String.length salt <= 16)%nat ∧
  sforall (λ c, bool_decide (c ∈ String.list_ascii_of_string saltAlphabet)) salt = true.

Lemma sha512crypt_final pw salt :
  sha512crypt (SHA1.bytes_of pw) (SHA1.bytes_of salt) defaultRounds = encode (final_digest pw salt).
Proof. unfold sha512crypt, final_digest. reflexivity. Qed.
#[local] Opaque final_digest.

Lemma Sha512Crypt_ok pw salt h :
  Sha512Crypt pw salt = Ok h ↔ valid_salt salt ∧ h = Join "$" [""; "6"; salt; encode (final_digest pw salt)].
Proof.
  unfold Sha512Crypt, valid_salt, maxSaltLen. rewrite sha512crypt_final. generalize (final_digest pw salt). intros d.
  set (ok := sforall _ salt). destruct (bool_decide_reflect (salt = "")) as [->|Hne]; cbn [orb].
  { split; [done|]. by intros [[? _] _]. }
  destruct (Nat.ltb_spec 16 (String.length salt)) as [Hlt|Hge].
  { split; [done|]. intros [(_ & ? & _) _]. lia. }
  destruct ok; cbn [negb]; [|split; [done|]; by intros [(_ & _ & ?) _]].
  split; [intros [= <-]|intros [_ ->]]; [|done]. split; [|done]. auto.
Qed.

Lemma Split_hash pw salt : valid_salt salt →
  Split "$" (Join "$" [""; "6"; salt; encode (final_digest pw salt)]) = [""; "6"; salt; encode (final_digest pw salt)].
Proof.
  intros (_ & _ & Hs). change "$" with (String "$" ""). apply Split_Join; [done|]. repeat constructor.
  - by apply alphabet_no_dollar.
  - apply alphabet_no_dollar, encode_alphabet.
Qed.

(** A hash on record admits its password and no other, up to collisions of
    the hash function.  A hash made from sixteen random bytes has the form
    [$6$salt$hash] with a salt of sixteen and a hash of eighty-six characters
    of crypt's alphabet, and a password passes crypt's check against it exactly
    when its final digest under that salt is the one recorded: the encoding
    keeps all sixty-four bytes. *)
Theorem hash_verifies raw pw : length raw = 16%nat →
  ∃ salt hash, GenerateHash (Ok raw) pw = Ok hash ∧
    Split "$" hash = [""; "6"; salt; encode (final_digest pw salt)] ∧
    String.length salt = 16%nat ∧ String.length (encode (final_digest pw salt)) = 86%nat ∧
    decode (encode (final_digest pw salt)) = final_digest pw salt ∧
    ∀ pw', crypt_verify hash pw' = true ↔ final_digest pw' salt = final_digest pw salt.
Proof.
  intros Hr. set (salt := String.string_of_list_ascii
    ((λ b, alphabet (b mod N.of_nat (String.length saltAlphabet))) <$> raw)).
  assert (String.length salt = 16%nat ∧
    sforall (λ c, bool_decide (c ∈ String.list_ascii_of_string saltAlphabet)) salt = true) as [Hl Ha].
  { subst salt. rewrite <-Hr. clear Hr. induction raw as [|b raw [IHl IHa]]; [done|]. cbn [fmap list_fmap String.string_of_list_ascii].
    cbn [String.length sforall length]. rewrite IHl, IHa, andb_true_r. split; [done|].
    apply bool_decide_eq_true, alphabet_inv. by apply N.mod_lt. }
  assert (Hv : valid_salt salt). { split_and!; [|lia|done]. intros E. by rewrite E in Hl. }
  exists salt, (Join "$" [""; "6"; salt; encode (final_digest pw salt)]).
  pose proof (λ p, final_digest_bytes p salt) as Hd. split_and!.
  { unfold GenerateHash. fold salt. by apply Sha512Crypt_ok. }
  { by apply Split_hash. } { exact Hl. } { apply encode_alphabet. } { by apply decode_encode. }
  intros pw'. unfold crypt_verify. rewrite Split_hash by done.
  rewrite (proj2 (Sha512Crypt_ok pw' salt _) (conj Hv eq_refl)), bool_decide_true, andb_true_l, bool_decide_eq_true by done.
  split; [|by intros ->]. intros E. rewrite <-(decode_encode _ (Hd pw)), <-(decode_encode _ (Hd pw')). f_equal.
  cbn [Join] in E. do 6 apply append_inj in E. exact E.
Qed.

Lemma hash_verifies_witness : length (replicate 16 (7 : N)) = 16%nat ∧
  ∃ salt hash, GenerateHash (Ok (replicate 16 7)) "secret" = Ok hash ∧
    Split "$" hash = [""; "6"; salt; encode (final_digest "secret" salt)] ∧ crypt_verify hash "secret" = true.
Proof.
  split; [reflexivity|]. destruct (hash_verifies (replicate 16 7) "secret" eq_refl) as (salt & hash & Hg & Hs & _ & _ & _ & Hv).
  exists salt, hash. split; [exact Hg|]. split; [exact Hs|]. apply Hv. reflexivity.
Defined.

(** The salt is unbiased: each character comes from four of the 256 bytes. *)
Theorem salt_unbiased c : c ∈ String.list_ascii_of_string saltAlphabet →
  length (filter (λ b, alphabet (N.of_nat b mod N.of_nat (String.length saltAlphabet)) = c) (seq 0 256)) = 4%nat.
Proof.
  intros Hc. assert (Hall : forallb (λ c, (length (filter (λ b, alphabet (N.of_nat b mod N.of_nat (String.length saltAlphabet)) = c)
    (seq 0 256)) =? 4)%nat) (String.list_ascii_of_string saltAlphabet) = true) by by vm_compute.
  rewrite forallb_forall in Hall. by apply Nat.eqb_eq, Hall, list_elem_of_In.
Qed.

(** Two rounds of the hash of the specification's first example, as the
    reference implementation computes them. *)
Example sha512crypt_two_rounds :
  sha512crypt (SHA1.bytes_of "Hello world!") (SHA1.bytes_of "saltstring") 2 =
  ".lIuKHNHCJLOO6O9VPwv68RRJnhsiqZCPr1lpaRQPcqdOrFbXhOKq/jrHcktdwecZ1k81HIDAt.NMIYXe8.F20".
Proof. vm_compute. reflexivity. Qed.
