(* ===== verification/Images.v ===== *)
(** * Operating-system images (internal/images)

    The catalogue of distributions and versions, and the download of each kind
    of image into the cache directory.

    The cache is a map from paths to file contents.  What servers answer is the
    [FetchEnv]: the reply to a request may depend on how many were made before
    it, and a reply may break off after some bytes. *)
From S2P Require Import Prelude GoStrings Config World Guest Sha1 Shacrypt.

Open Scope Z_scope.

(** ** Requests and files *)
Record Response := mkResponse {
  r_StatusCode : Z;
  r_Body : string;            (* the bytes that arrive *)
  r_cut : option error;       (* the error the body ends with, if it does *)
}.

(** One entry of the list of Windows builds. *)
Record uupdumpBuild := mkuupdumpBuild { ub_UUID : string; ub_Title : string; ub_Arch : string; ub_Created : Z }.

Record FetchEnv := mkFetchEnv {
  (** [httpClient.Do]: the answer to the [n]th request *)
  fe_do : nat → string → result error Response;
  fe_mkdir : string → option error;
  fe_create : string → option error;
  fe_remove : string → option error;
  fe_rename : string → option error;
  fe_open : string → option error;
  fe_close : string → option error;
  (** [checksum.SHA256sum] of a file with this content *)
  fe_sha256 : string → string;
  (** [url.Parse(u)]: the decoded path *)
  fe_url_path : string → result error string;
  (** [vzhelper.ResolveHelper] and [LatestRestoreImageURL] *)
  fe_helper : result error string;
  fe_restore_url : string → result error string;
  (** [json.Decode] of the two answers of UUP dump; maps as lists in the order
      they are iterated over *)
  fe_builds : Response → result error (list uupdumpBuild);
  fe_files : Response → result error (list (string * string));
  (** [exec.LookPath] finds the container runtime *)
  fe_lookpath : string → bool;
  (** the ISO a container run leaves in the cache, and whether it succeeds *)
  fe_container : list (string * string) → option string * option error;
}.

Record ImgWorld := mkImgWorld { iw_files : gmap string string; iw_requests : nat }.
#[export] Instance ImgWorld_eta : Settable ImgWorld := λ w, mkImgWorld (iw_files w) (iw_requests w).

Abbreviation ImgM := (GoM ImgWorld error).

Section Env.
Context (env : FetchEnv).

Definition http_get (url : string) : ImgM Response := λ w,
  (fe_do env (iw_requests w) url, w <| iw_requests := S (iw_requests w) |>).
(** [io.ReadAll(resp.Body)] *)
Definition ReadAll (r : Response) : ImgM string :=
  match r_cut r with Some e => throw e | None => mret (r_Body r) end.
(** [os.Stat(path)] succeeds *)
Definition exists_file (path : string) : ImgM bool := gets (λ w, bool_decide (is_Some (iw_files w !! path))).
Definition or_fail (o : option error) : ImgM unit := match o with Some e => throw e | None => mret tt end.
Definition put_file (path content : string) : ImgM unit := modify (λ w, w <| iw_files := <[path := content]> (iw_files w) |>).
(** [os.Remove] *)
Definition remove_file (path : string) : ImgM unit :=
  _ ← or_fail (fe_remove env path); modify (λ w, w <| iw_files := delete path (iw_files w) |>).
(** [os.Rename] *)
Definition rename_file (from to : string) : ImgM unit :=
  _ ← or_fail (fe_rename env from);
  modify (λ w, match iw_files w !! from with
               | Some c => w <| iw_files := <[to := c]> (delete from (iw_files w)) |>
               | None => w
               end).
Definition no_such_file : error := Errorf "no such file" [].
(** The content of a file that is opened and read to its end. *)
Definition read_file (path : string) : ImgM string :=
  _ ← or_fail (fe_open env path);
  c ← gets (λ w, iw_files w !! path);
  match c with Some c => mret c | None => throw no_such_file end.
Definition SHA256sum (path : string) : ImgM string := c ← read_file path; mret (fe_sha256 env c).

(** [BaseImage.CreateImage]: the bytes that arrive are in the file, also when
    the transfer breaks off. *)
Definition CreateImage (path : string) (r : Response) : ImgM unit :=
  _ ← put_file path (r_Body r); or_fail (r_cut r).

(** The lines every [Download] ends with: request, directory, file, copy.
    [status]: whether an answer other than 200 is refused. *)
Definition fetch_to (status : option (Z → error)) (url basePath path : string) : ImgM unit :=
  resp ← http_get url;
  _ ← or_fail (if r_StatusCode resp =? 200 then None else (λ f, f (r_StatusCode resp)) <$> status);
  _ ← or_fail (fe_mkdir env basePath);
  _ ← or_fail (fe_create env path);
  _ ← put_file path "";
  CreateImage path resp.
Definition mismatch (expected got : string) : error := Errorf "checksum mismatch" [expected; got].
Definition verify (path targetChecksum : string) : ImgM unit :=
  sha256 ← SHA256sum path;
  if bool_decide (sha256 = targetChecksum) then mret tt else throw (mismatch targetChecksum sha256).

(** A cached file: kept when it has the published checksum (the result says
    so), removed otherwise. *)
Definition keep_cached (path targetChecksum : string) : ImgM bool :=
  here ← exists_file path;
  if negb (here : bool) then mret false else
  sha256 ← SHA256sum path;
  if bool_decide (sha256 = targetChecksum) then mret true else
  _ ← remove_file path; mret false.

(** The first field of the first line that names the image. *)
Fixpoint checksum_line (name : string) (ls : list string) : string :=
  match ls with
  | [] => ""
  | line :: ls => if Contains line name then default "" (head (Fields line)) else checksum_line name ls
  end.
Definition body_checksum (name body : string) : string := checksum_line name (Split newline body).

(** [os.Remove] of a file that may be absent *)
Definition delete_image (path : string) : ImgM unit :=
  here ← exists_file path; if (here : bool) then remove_file path else mret tt.
End Env.

(** ** Arch *)
Definition KnownArchVersions : list string := ["2026.07.01"; "2026.06.01"; "2026.05.01"].
Definition ArchDownloadURL (v : string) : string :=
  "https://geo.mirror.pkgbuild.com/iso/" +:+ v +:+ "/archlinux-" +:+ v +:+ "-x86_64.iso".
Definition ArchDownloadChecksumURL (v : string) : string := "https://geo.mirror.pkgbuild.com/iso/" +:+ v +:+ "/sha256sums.txt".
Record ArchImage := mkArchImage { ai_version : string }.
Definition ArchImage_Name (a : ArchImage) : string := "archlinux-" +:+ ai_version a +:+ "-x86_64.iso".

Definition checksum_not_found (name : string) : error := Errorf "checksum not found" [name].

Section Downloads.
Context (env : FetchEnv) (basePath : string).

Definition ArchImage_AbsolutePath (a : ArchImage) : string := PathJoin [basePath; ArchImage_Name a].
Definition ArchImage_Download (a : ArchImage) : ImgM unit :=
  resp ← http_get env (ArchDownloadChecksumURL (ai_version a));
  b ← ReadAll resp;
  let targetChecksum := body_checksum (ArchImage_Name a) b in
  if bool_decide (targetChecksum = "") then throw (checksum_not_found (ArchImage_Name a)) else
  kept ← keep_cached env (ArchImage_AbsolutePath a) targetChecksum;
  if (kept : bool) then mret tt else
  _ ← fetch_to env None (ArchDownloadURL (ai_version a)) basePath (ArchImage_AbsolutePath a);
  verify env (ArchImage_AbsolutePath a) targetChecksum.

(** ** Bazzite and Omarchy *)
Definition KnownBazziteVersions : list string := ["stable"].
Definition KnownOmarchyVersions : list string := ["4.0.1"].
Definition BazziteDownloadURL (v : string) : string := "https://download.bazzite.gg/bazzite-" +:+ v +:+ "-amd64.iso".
Definition OmarchyDownloadURL (v : string) : string := "https://iso.omarchy.org/omarchy-" +:+ v +:+ ".iso".
Record BazziteImage := mkBazziteImage { bi_version : string }.
Record OmarchyImage := mkOmarchyImage { oi_version : string }.
Definition BazziteImage_Name (b : BazziteImage) : string := "bazzite-" +:+ bi_version b +:+ "-amd64.iso".
Definition OmarchyImage_Name (o : OmarchyImage) : string := "omarchy-" +:+ oi_version o +:+ ".iso".
Definition BazziteImage_AbsolutePath (b : BazziteImage) : string := PathJoin [basePath; BazziteImage_Name b].
Definition OmarchyImage_AbsolutePath (o : OmarchyImage) : string := PathJoin [basePath; OmarchyImage_Name o].

(** A sidecar names the image or holds the bare hash. *)
Definition sidecar_checksum (name body : string) : string :=
  let c := body_checksum name body in
  if bool_decide (c = "") then
    match Fields body with [f] => if Nat.eqb (String.length f) 64 then f else "" | _ => "" end
  else c.

Definition http_status (what url : string) (code : Z) : error := Errorf what [url; Itoa code].

Definition BazziteImage_Download (b : BazziteImage) : ImgM unit :=
  let checksumURL := BazziteDownloadURL (bi_version b) +:+ "-CHECKSUM" in
  resp ← http_get env checksumURL;
  if negb (r_StatusCode resp =? 200) then throw (http_status "bazzite: fetch checksum" checksumURL (r_StatusCode resp)) else
  body ← ReadAll resp;
  let targetChecksum := sidecar_checksum (BazziteImage_Name b) body in
  if bool_decide (targetChecksum = "") then throw (checksum_not_found (BazziteImage_Name b)) else
  kept ← keep_cached env (BazziteImage_AbsolutePath b) targetChecksum;
  if (kept : bool) then mret tt else
  let isoURL := BazziteDownloadURL (bi_version b) in
  _ ← fetch_to env (Some (http_status "bazzite: fetch ISO" isoURL)) isoURL basePath (BazziteImage_AbsolutePath b);
  verify env (BazziteImage_AbsolutePath b) targetChecksum.

Definition OmarchyImage_Download (o : OmarchyImage) : ImgM unit :=
  let checksumURL := OmarchyDownloadURL (oi_version o) +:+ ".sha256" in
  resp ← http_get env checksumURL;
  if negb (r_StatusCode resp =? 200) then throw (http_status "omarchy: fetch checksum" checksumURL (r_StatusCode resp)) else
  body ← ReadAll resp;
  let targetChecksum := sidecar_checksum (OmarchyImage_Name o) body in
  if bool_decide (targetChecksum = "") then throw (checksum_not_found (OmarchyImage_Name o)) else
  kept ← keep_cached env (OmarchyImage_AbsolutePath o) targetChecksum;
  if (kept : bool) then mret tt else
  let isoURL := OmarchyDownloadURL (oi_version o) in
  _ ← fetch_to env (Some (http_status "omarchy: fetch ISO" isoURL)) isoURL basePath (OmarchyImage_AbsolutePath o);
  verify env (OmarchyImage_AbsolutePath o) targetChecksum.

(** ** Fedora *)
Definition KnownFedoraVersions : list string := ["42"; "41"].
Definition fedoraCompose (v : string) : option string :=
  if bool_decide (v = "42") then Some "1.1" else if bool_decide (v = "41") then Some "1.4" else None.
Definition fedoraReleasesBase : string := "https://download.fedoraproject.org/pub/fedora/linux/releases".
Record FedoraCloudImage := mkFedoraCloudImage { fi_version : string; fi_arch : string }.
Definition NewFedoraCloudImage (version hostArch : string) : FedoraCloudImage :=
  mkFedoraCloudImage version (GuestArchForHostArch hostArch).
Definition FedoraCloudImage_compose (f : FedoraCloudImage) : string := default "" (fedoraCompose (fi_version f)).
Definition FedoraCloudImage_Name (f : FedoraCloudImage) : string :=
  "Fedora-Cloud-Base-Generic-" +:+ fi_version f +:+ "-" +:+ FedoraCloudImage_compose f +:+ "." +:+ fi_arch f +:+ ".qcow2".
Definition FedoraCloudImage_AbsolutePath (f : FedoraCloudImage) : string := PathJoin [basePath; FedoraCloudImage_Name f].
Definition fedora_dir (f : FedoraCloudImage) : string :=
  fedoraReleasesBase +:+ "/" +:+ fi_version f +:+ "/Cloud/" +:+ fi_arch f +:+ "/images/".
Definition FedoraCloudImage_imageURL (f : FedoraCloudImage) : string := fedora_dir f +:+ FedoraCloudImage_Name f.
Definition FedoraCloudImage_checksumURL (f : FedoraCloudImage) : string :=
  fedora_dir f +:+ "Fedora-Cloud-" +:+ fi_version f +:+ "-" +:+ FedoraCloudImage_compose f +:+ "-" +:+ fi_arch f +:+ "-CHECKSUM".

(** BSD style: [SHA256 (file) = hash]; the first such line decides. *)
Fixpoint bsd_checksum (name : string) (ls : list string) : string :=
  match ls with
  | [] => ""
  | line :: ls =>
      if Contains line name && HasPrefix (TrimSpace line) "SHA256"
      then match Split "=" line with [_; h] => TrimSpace h | _ => "" end
      else bsd_checksum name ls
  end.

Definition FedoraCloudImage_Download (f : FedoraCloudImage) : ImgM unit :=
  match fedoraCompose (fi_version f) with
  | None => throw (Errorf "unsupported Fedora version" [fi_version f])
  | Some _ =>
      resp ← http_get env (FedoraCloudImage_checksumURL f);
      b ← ReadAll resp;
      let targetChecksum := bsd_checksum (FedoraCloudImage_Name f) (Split newline b) in
      if bool_decide (targetChecksum = "") then throw (checksum_not_found (FedoraCloudImage_Name f)) else
      kept ← keep_cached env (FedoraCloudImage_AbsolutePath f) targetChecksum;
      if (kept : bool) then mret tt else
      _ ← fetch_to env None (FedoraCloudImage_imageURL f) basePath (FedoraCloudImage_AbsolutePath f);
      verify env (FedoraCloudImage_AbsolutePath f) targetChecksum
  end.

(** ** TrueNAS *)
Definition KnownTrueNASVersions : list string := ["25.10.4"; "25.04.2.1"; "24.10.2.4"].
Definition truenasCodenames (train : string) : option string :=
  if bool_decide (train = "24.04") then Some "Dragonfish"
  else if bool_decide (train = "24.10") then Some "ElectricEel"
  else if bool_decide (train = "25.04") then Some "Fangtooth"
  else if bool_decide (train = "25.10") then Some "Goldeye" else None.
Record TrueNASImage := mkTrueNASImage { ti_version : string }.
Definition TrueNASImage_codename (t : TrueNASImage) : result error string :=
  match Split "." (ti_version t) with
  | a :: b :: _ =>
      match truenasCodenames (a +:+ "." +:+ b) with
      | Some cn => Ok cn
      | None => Err (Errorf "truenas: unknown release train" [a +:+ "." +:+ b])
      end
  | _ => Err (Errorf "truenas: cannot derive train from version" [ti_version t])
  end.
Definition TrueNASImage_Name (t : TrueNASImage) : string := "TrueNAS-SCALE-" +:+ ti_version t +:+ ".iso".
Definition TrueNASImage_AbsolutePath (t : TrueNASImage) : string := PathJoin [basePath; TrueNASImage_Name t].
Definition TrueNASDownloadURL (cn v : string) : string :=
  "https://download.sys.truenas.net/TrueNAS-SCALE-" +:+ cn +:+ "/" +:+ v +:+ "/TrueNAS-SCALE-" +:+ v +:+ ".iso".
Definition lift_result {A} (r : result error A) : ImgM A := match r with Ok a => mret a | Err e => throw e end.

Definition fetchRemoteChecksum (t : TrueNASImage) : ImgM string :=
  cn ← lift_result (TrueNASImage_codename t);
  let checksumURL := TrueNASDownloadURL cn (ti_version t) +:+ ".sha256" in
  resp ← http_get env checksumURL;
  if negb (r_StatusCode resp =? 200) then throw (http_status "fetching checksum: unexpected status" checksumURL (r_StatusCode resp)) else
  b ← ReadAll resp;
  match Fields b with
  | f :: _ => mret f
  | [] => throw (checksum_not_found (TrueNASImage_Name t))
  end.

(** The download proper, after what was cached is out of the way. *)
Definition truenas_fetch (t : TrueNASImage) : ImgM unit :=
  targetChecksum ← fetchRemoteChecksum t;
  cn ← lift_result (TrueNASImage_codename t);
  let isoURL := TrueNASDownloadURL cn (ti_version t) in
  _ ← fetch_to env (Some (http_status "downloading ISO: unexpected status" isoURL)) isoURL basePath (TrueNASImage_AbsolutePath t);
  verify env (TrueNASImage_AbsolutePath t) targetChecksum.
Definition TrueNASImage_Download (t : TrueNASImage) : ImgM unit :=
  here ← exists_file (TrueNASImage_AbsolutePath t);
  if negb (here : bool) then truenas_fetch t else
  sum ← attempt (fetchRemoteChecksum t);
  match sum with
  | Err _ => mret tt
  | Ok targetChecksum =>
      sha256 ← SHA256sum env (TrueNASImage_AbsolutePath t);
      if bool_decide (sha256 = targetChecksum) then mret tt else
      _ ← remove_file env (TrueNASImage_AbsolutePath t);
      truenas_fetch t
  end.

(** ** Alpine *)
Definition KnownAlpineVersions : list string := ["3.21"; "3.20"; "3.19"].
Record AlpineImage := mkAlpineImage { al_version : string }.
Definition AlpineImage_fullVersion (a : AlpineImage) : string := al_version a.
Definition AlpineImage_Name (a : AlpineImage) : string :=
  "nocloud_alpine-" +:+ AlpineImage_fullVersion a +:+ "-x86_64-bios-cloudinit-r0.qcow2".
Definition AlpineImage_AbsolutePath (a : AlpineImage) : string := PathJoin [basePath; AlpineImage_Name a].

(** The text from the first [sub] on, [sub] left out. *)
Fixpoint after (s sub : string) : option string :=
  if HasPrefix s sub then Some (sdrop (String.length sub) s)
  else match s with "" => None | String _ s => after s sub end.
Definition alpine_line (line : string) : option string :=
  if Contains line "nocloud_alpine-" && Contains line "x86_64-bios-cloudinit-r" && negb (Contains line "-metal-")
     && Contains line (".qcow2" +:+ String dquote "") && negb (Contains line ".sha512") && negb (Contains line ".asc")
  then rest ← after line ("href=" +:+ String dquote "");
       match Cut dquote rest with (candidate, _, true) => Some candidate | _ => None end
  else None.
(** [candidate > target]: the comparison of Go strings is bytewise. *)
Definition string_gt (a b : string) : bool := String.ltb b a.
Definition newest (target : string) (cs : list string) : string :=
  foldl (λ target candidate, if string_gt candidate target then candidate else target) target cs.
Definition alpine_target (body : string) : string := newest "" (omap alpine_line (Split newline body)).

Definition sha512_of (content : string) : string := hex_string (SHA512.Sum (SHA1.bytes_of content)).
Definition sha512File (path : string) : ImgM string := c ← read_file env path; mret (sha512_of c).

Definition AlpineImage_Download (a : AlpineImage) : ImgM unit :=
  here ← exists_file (AlpineImage_AbsolutePath a);
  if (here : bool) then mret tt else
  let indexURL := "https://dl-cdn.alpinelinux.org/alpine/v" +:+ al_version a +:+ "/releases/cloud/" in
  resp ← http_get env indexURL;
  body ← ReadAll resp;
  let target := alpine_target body in
  if bool_decide (target = "") then throw (Errorf "alpine: no cloud image found" [indexURL]) else
  let checksumURL := indexURL +:+ target +:+ ".sha512" in
  resp ← http_get env checksumURL;
  if negb (r_StatusCode resp =? 200) then throw (http_status "alpine: fetch checksum" checksumURL (r_StatusCode resp)) else
  checksumBody ← ReadAll resp;
  match Fields checksumBody with
  | [] => throw (Errorf "alpine: empty checksum file" [checksumURL])
  | f :: _ =>
      let targetChecksum := ToLower f in
      if negb (Nat.eqb (String.length targetChecksum) 128) then throw (Errorf "alpine: unexpected checksum content" [checksumURL]) else
      let destPath := PathJoin [basePath; target] in
      _ ← fetch_to env None (indexURL +:+ target) basePath destPath;
      sum ← sha512File destPath;
      if negb (bool_decide (sum = targetChecksum)) then throw (mismatch targetChecksum sum) else
      rename_file env destPath (AlpineImage_AbsolutePath a)
  end.

(** ** Ubuntu *)
Definition Ubuntu2004 : string := "20.04".
Definition Ubuntu2204 : string := "22.04".
Definition Ubuntu2404 : string := "24.04".
Definition KnownUbuntuVersions : list string := [Ubuntu2404; Ubuntu2204; Ubuntu2004].
Definition UbuntuServer : string := "live-server".
Record UbuntuImage := mkUbuntuImage { ui_imageType : string; ui_version : string; ui_arch : string; ui_resolvedName : string }.
#[local] Instance UbuntuImage_eta : Settable UbuntuImage := λ u,
  mkUbuntuImage (ui_imageType u) (ui_version u) (ui_arch u) (ui_resolvedName u).
Definition NewUbuntuImage (imageType version arch : string) : UbuntuImage := mkUbuntuImage imageType version arch "".
Definition nameSuffix (u : UbuntuImage) : string := "-" +:+ ui_imageType u +:+ "-" +:+ ui_arch u +:+ ".iso".
Definition UbuntuImage_Name (u : UbuntuImage) : string :=
  if bool_decide (ui_resolvedName u = "") then "ubuntu-" +:+ ui_version u +:+ nameSuffix u else ui_resolvedName u.
Definition UbuntuImage_AbsolutePath (u : UbuntuImage) : string := PathJoin [basePath; UbuntuImage_Name u].

(** The checksum and the file name of a line of SHA256SUMS that is about this
    image. *)
Definition ubuntu_line (u : UbuntuImage) (line : string) : option (string * string) :=
  match Fields line with
  | [sum; f] =>
      let fname := TrimPrefix f "*" in
      if HasPrefix fname ("ubuntu-" +:+ ui_version u) && HasSuffix fname (nameSuffix u) then Some (sum, fname) else None
  | _ => None
  end.
Definition ubuntu_newest (cur : string * string) (cs : list (string * string)) : string * string :=
  foldl (λ cur c, if string_gt c.2 cur.2 then c else cur) cur cs.
(** The image with its resolved name is the result; a caller drops an image
    whose download failed. *)
Definition UbuntuImage_Download (u : UbuntuImage) : ImgM UbuntuImage :=
  here ← exists_file (UbuntuImage_AbsolutePath u);
  if (here : bool) then mret u else
  let checksumURL := "https://releases.ubuntu.com/" +:+ ui_version u +:+ "/SHA256SUMS" in
  resp ← http_get env checksumURL;
  if negb (r_StatusCode resp =? 200) then throw (http_status "ubuntu: fetch checksums" checksumURL (r_StatusCode resp)) else
  b ← ReadAll resp;
  let '(targetChecksum, resolvedName) := ubuntu_newest ("", ui_resolvedName u) (omap (ubuntu_line u) (Split newline b)) in
  let u := u <| ui_resolvedName := resolvedName |> in
  if bool_decide (resolvedName = "") || bool_decide (targetChecksum = "")
  then throw (Errorf "no ISO found for ubuntu" [ui_imageType u; ui_version u; checksumURL]) else
  here ← exists_file (UbuntuImage_AbsolutePath u);
  if (here : bool) then mret u else
  let isoURL := "https://releases.ubuntu.com/" +:+ ui_version u +:+ "/" +:+ resolvedName in
  _ ← fetch_to env (Some (http_status "ubuntu: fetch ISO" isoURL)) isoURL basePath (UbuntuImage_AbsolutePath u);
  _ ← verify env (UbuntuImage_AbsolutePath u) targetChecksum;
  mret u.

Record UbuntuCloudImage := mkUbuntuCloudImage { uc_version : string; uc_arch : string }.
Definition NewUbuntuCloudImage (version arch : string) : UbuntuCloudImage :=
  mkUbuntuCloudImage version (if bool_decide (arch = "") then "amd64" else arch).
Definition UbuntuCloudImage_Name (u : UbuntuCloudImage) : string :=
  "ubuntu-" +:+ uc_version u +:+ "-server-cloudimg-" +:+ uc_arch u +:+ ".img".
Definition UbuntuCloudImage_AbsolutePath (u : UbuntuCloudImage) : string := PathJoin [basePath; UbuntuCloudImage_Name u].
Definition ubuntu_cloud_dir (u : UbuntuCloudImage) : string :=
  "https://cloud-images.ubuntu.com/releases/" +:+ uc_version u +:+ "/release/".
Definition UbuntuCloudImage_Download (u : UbuntuCloudImage) : ImgM unit :=
  here ← exists_file (UbuntuCloudImage_AbsolutePath u);
  if (here : bool) then mret tt else
  resp ← http_get env (ubuntu_cloud_dir u +:+ "SHA256SUMS");
  b ← ReadAll resp;
  let targetChecksum := body_checksum (UbuntuCloudImage_Name u) b in
  if bool_decide (targetChecksum = "") then throw (checksum_not_found (UbuntuCloudImage_Name u)) else
  kept ← keep_cached env (UbuntuCloudImage_AbsolutePath u) targetChecksum;
  if (kept : bool) then mret tt else
  _ ← fetch_to env None (ubuntu_cloud_dir u +:+ UbuntuCloudImage_Name u) basePath (UbuntuCloudImage_AbsolutePath u);
  verify env (UbuntuCloudImage_AbsolutePath u) targetChecksum.

(** ** Windows *)
Definition Windows11 : string := "win11".
Definition Windows10 : string := "win10".
Definition WindowsServer2025 : string := "server2025".
Definition WindowsServer2022 : string := "server2022".
Definition KnownWindowsVersions : list string := [Windows11; Windows10; WindowsServer2025; WindowsServer2022].
Definition WindowsHostArch (host : Host) : string := if bool_decide (HostArch host = "arm64") then "arm64" else "amd64".
Definition KnownWindowsVersionsForArch (arch : string) : list string :=
  if bool_decide (arch = "arm64") then [Windows11; Windows10] else KnownWindowsVersions.
Record windowsParams := mkwindowsParams { wp_search : string; wp_edition : string }.
Definition windowsVersionParams (v : string) : windowsParams :=
  if bool_decide (v = Windows11) then mkwindowsParams "Windows 11 24H2" "Core"
  else if bool_decide (v = Windows10) then mkwindowsParams "Windows 10 22H2" "Core"
  else if bool_decide (v = WindowsServer2025) then mkwindowsParams "Windows Server 2025" "ServerStandard"
  else if bool_decide (v = WindowsServer2022) then mkwindowsParams "Windows Server 2022" "ServerStandard"
  else mkwindowsParams "" "".
Record WindowsImage := mkWindowsImage { wi_version : string; wi_arch : string; wi_params : windowsParams }.
Definition NewWindowsImage (host : Host) (version : string) : WindowsImage :=
  mkWindowsImage version (WindowsHostArch host) (windowsVersionParams version).
Definition WindowsImage_Name (w : WindowsImage) : string :=
  if bool_decide (wi_arch w = "arm64") then "windows-" +:+ wi_version w +:+ "-arm64.iso" else "windows-" +:+ wi_version w +:+ ".iso".
Definition WindowsImage_AbsolutePath (w : WindowsImage) : string := PathJoin [basePath; WindowsImage_Name w].

Definition isCumulative (title : string) : bool := Contains (ToLower title) "cumulative update".
Definition isFeatureUpdate (title : string) : bool := Contains (ToLower title) "feature update".
Definition consider (best : option uupdumpBuild) (b : uupdumpBuild) : option uupdumpBuild :=
  match best with
  | Some x => if ub_Created x <? ub_Created b then Some b else best
  | None => Some b
  end.
Definition arch_fits (w : WindowsImage) (b : uupdumpBuild) : bool :=
  bool_decide (ub_Arch b = "") || bool_decide (ub_Arch b = wi_arch w).
Definition best_build (keep : uupdumpBuild → bool) (builds : list uupdumpBuild) : option uupdumpBuild :=
  foldl consider None (filter (λ b, keep b = true) builds).
Definition pick_build (w : WindowsImage) (builds : list uupdumpBuild) : option uupdumpBuild :=
  match best_build (λ b, arch_fits w b && isFeatureUpdate (ub_Title b)) builds with
  | Some b => Some b
  | None => best_build (λ b, arch_fits w b && negb (isCumulative (ub_Title b))) builds
  end.

(** [url.QueryEscape] of the search terms above, whose only special byte is
    the space. *)
Definition query_escape (s : string) : string := smap (λ c, if bool_decide (c = " "%char) then "+"%char else c) s.
Definition uupdumpLang : string := "en-us".
Definition fetchBuildUUID (w : WindowsImage) : ImgM string :=
  let p := wi_params w in
  resp ← http_get env ("https://api.uupdump.net/listid.php?search=" +:+ query_escape (wp_search p) +:+ "&lang=" +:+ uupdumpLang
                       +:+ "&edition=" +:+ wp_edition p);
  if negb (r_StatusCode resp =? 200) then throw (Errorf "UUP dump list HTTP" [Itoa (r_StatusCode resp)]) else
  builds ← lift_result (fe_builds env resp);
  match builds with
  | [] => throw (Errorf "no builds found" [wp_search p; wp_edition p])
  | _ => match pick_build w builds with
         | Some b => mret (ub_UUID b)
         | None => throw (Errorf "no full (non-cumulative) build found" [wi_arch w; wp_search p; wp_edition p])
         end
  end.
Definition fetchESDURLs (w : WindowsImage) (uuid : string) : ImgM (list (string * string)) :=
  resp ← http_get env ("https://api.uupdump.net/get.php?id=" +:+ uuid +:+ "&lang=" +:+ uupdumpLang +:+ "&edition="
                       +:+ wp_edition (wi_params w) +:+ "&noLinks=0");
  if negb (r_StatusCode resp =? 200) then throw (Errorf "UUP dump get HTTP" [Itoa (r_StatusCode resp)]) else
  files ← lift_result (fe_files env resp);
  match filter (λ f : string * string, f.2 ≠ "") files with
  | [] => throw (Errorf "no ESD download URLs returned" [uuid])
  | out => mret out
  end.

(** The download command of one file, in the script the container runs. *)
Definition wget_line (f : string * string) : string :=
  "wget -q --show-progress -O /work/esd/'" +:+ quote_body f.1 +:+ "' '" +:+ quote_body f.2 +:+ "'".
Definition findWindowsContainerRuntime : result error string :=
  if fe_lookpath env "nerdctl" then Ok "nerdctl"
  else if fe_lookpath env "docker" then Ok "docker"
  else Err (Errorf "windows ISO build requires nerdctl or docker" []).
Definition buildISOInContainer (w : WindowsImage) (esdURLs : list (string * string)) : ImgM unit :=
  _ ← lift_result findWindowsContainerRuntime;
  _ ← or_fail ((λ e, Wrapf "create iso cache dir" e) <$> fe_mkdir env basePath);
  let '(iso, err) := fe_container env esdURLs in
  _ ← match iso with Some c => put_file (WindowsImage_AbsolutePath w) c | None => mret tt end;
  or_fail err.
Definition wrap_error {A} (what : string) (m : ImgM A) : ImgM A :=
  r ← attempt m; match r with Ok a => mret a | Err e => throw (Wrapf what e) end.
Definition WindowsImage_Download (w : WindowsImage) : ImgM unit :=
  here ← exists_file (WindowsImage_AbsolutePath w);
  if (here : bool) then mret tt else
  uuid ← wrap_error "uupdump list builds" (fetchBuildUUID w);
  esdURLs ← wrap_error "uupdump get links" (fetchESDURLs w uuid);
  _ ← wrap_error "build windows ISO" (buildISOInContainer w esdURLs);
  here ← exists_file (WindowsImage_AbsolutePath w);
  if (here : bool) then mret tt else throw (Errorf "container finished but ISO not found" [WindowsImage_AbsolutePath w]).

(** ** macOS *)
Record MacOSImage := mkMacOSImage { mi_url : string; mi_version : string }.
Definition macOSVersionFromFilename (base : string) : string :=
  match Split "_" base with
  | p :: v :: _ => if HasPrefix p "UniversalMac" then v else TrimSuffix base ".ipsw"
  | _ => TrimSuffix base ".ipsw"
  end.
Definition setURL (ipswURL : string) : result error MacOSImage :=
  if negb (HasPrefix ipswURL "https://") then Err (Errorf "macos version must be latest or an https IPSW URL" [ipswURL]) else
  match fe_url_path env ipswURL with
  | Err e => Err (Wrapf "parse IPSW URL" e)
  | Ok path =>
      let base := Base path in
      if bool_decide (base ∈ [""; "/"; "."]) || negb (HasSuffix base ".ipsw")
      then Err (Errorf "IPSW URL must end in a .ipsw filename" [ipswURL])
      else Ok (mkMacOSImage ipswURL (macOSVersionFromFilename base))
  end.
Definition NewMacOSImage (version : string) : result error MacOSImage :=
  if bool_decide (version ∈ [""; "latest"]) then Ok (mkMacOSImage "" "latest") else setURL version.
Definition MacOSImage_Name (m : MacOSImage) : string :=
  if bool_decide (mi_url m = "") then ""
  else Base (match fe_url_path env (mi_url m) with Ok p => p | Err _ => "" end).
Definition MacOSImage_AbsolutePath (m : MacOSImage) : string := PathJoin [basePath; MacOSImage_Name m].

(** The cached restore images: [UniversalMac_*_Restore.ipsw] in the cache
    directory. *)
Definition cached_ipsw (path : string) : option string :=
  let base := Base path in
  if bool_decide (path = PathJoin [basePath; base]) && HasPrefix base "UniversalMac_" && HasSuffix base "_Restore.ipsw"
     && (String.length "UniversalMac__Restore.ipsw" <=? String.length base)%nat
  then Some base else None.
Definition newestCached : ImgM string :=
  gets (λ w, newest "" (omap cached_ipsw (map_to_list (iw_files w)).*1)).
Definition resolve_macos (m : MacOSImage) : ImgM MacOSImage :=
  if negb (bool_decide (mi_url m = "")) then mret m else
  helperPath ← lift_result (fe_helper env);
  match fe_restore_url env helperPath with
  | Ok u => lift_result (setURL u)
  | Err e => cached ← newestCached;
             if bool_decide (cached = "") then throw e else lift_result (setURL ("https://cached.invalid/" +:+ cached))
  end.
Definition MacOSImage_Download (m : MacOSImage) : ImgM MacOSImage :=
  m ← resolve_macos m;
  let dst := MacOSImage_AbsolutePath m in
  here ← exists_file dst;
  if (here : bool) then mret m else
  _ ← or_fail (fe_mkdir env basePath);
  resp ← http_get env (mi_url m);
  if negb (r_StatusCode resp =? 200) then throw (http_status "download" (mi_url m) (r_StatusCode resp)) else
  let tmp := dst +:+ ".partial" in
  _ ← or_fail (fe_create env tmp);
  _ ← put_file tmp "";
  copied ← attempt (_ ← CreateImage tmp resp; or_fail (fe_close env tmp));
  match copied with
  | Err e => _ ← ignore (remove_file env tmp); throw e
  | Ok _ => _ ← rename_file env tmp dst; mret m
  end.
Definition MacOSImage_Delete (m : MacOSImage) : ImgM unit :=
  if bool_decide (MacOSImage_Name m = "") then throw (Errorf "nothing cached: the restore image URL was never resolved" [])
  else remove_file env (MacOSImage_AbsolutePath m).

(** ** The catalogue *)
Definition DistroUbuntu : string := "ubuntu".
Definition DistroArch : string := "arch".
Definition DistroFedora : string := "fedora".
Definition DistroTrueNAS : string := "truenas".
Definition DistroWindows : string := "windows".
Definition DistroAlpine : string := "alpine".
Definition DistroBazzite : string := "bazzite".
Definition DistroOmarchy : string := "omarchy".
Definition DistroMacOS : string := "macos".
Definition SupportedDistros : list string :=
  [DistroUbuntu; DistroArch; DistroFedora; DistroTrueNAS; DistroWindows; DistroAlpine; DistroBazzite; DistroOmarchy].
Definition PullableDistros : list string := SupportedDistros ++ [DistroMacOS].

Definition ImageArch (host : Host) (distro : string) : string :=
  if bool_decide (distro ∈ [DistroUbuntu; DistroFedora; DistroWindows; DistroMacOS]) then DefaultGuestArch host else "x86_64".

Definition DistroVersions (host : Host) (distro : string) : list string :=
  if bool_decide (distro = DistroUbuntu) then KnownUbuntuVersions
  else if bool_decide (distro = DistroArch) then KnownArchVersions
  else if bool_decide (distro = DistroFedora) then KnownFedoraVersions
  else if bool_decide (distro = DistroTrueNAS) then KnownTrueNASVersions
  else if bool_decide (distro = DistroWindows) then KnownWindowsVersionsForArch (WindowsHostArch host)
  else if bool_decide (distro = DistroAlpine) then KnownAlpineVersions
  else if bool_decide (distro = DistroBazzite) then KnownBazziteVersions
  else if bool_decide (distro = DistroOmarchy) then KnownOmarchyVersions
  else if bool_decide (distro = DistroMacOS) then ["latest"]
  else [].

Definition DefaultUser (distro : string) : string :=
  if bool_decide (distro ∈ [DistroUbuntu; DistroArch; DistroFedora; DistroAlpine]) then distro else "".

(** The implementations of the interface [Image]. *)
Inductive Image :=
| IUbuntu (u : UbuntuImage)
| IUbuntuCloud (u : UbuntuCloudImage)
| IArch (a : ArchImage)
| IFedora (f : FedoraCloudImage)
| ITrueNAS (t : TrueNASImage)
| IWindows (w : WindowsImage)
| IAlpine (a : AlpineImage)
| IBazzite (b : BazziteImage)
| IOmarchy (o : OmarchyImage)
| IMacOS (m : MacOSImage).

Definition ImageDistro (i : Image) : string :=
  match i with
  | IUbuntu _ | IUbuntuCloud _ => DistroUbuntu | IArch _ => DistroArch | IFedora _ => DistroFedora
  | ITrueNAS _ => DistroTrueNAS | IWindows _ => DistroWindows | IAlpine _ => DistroAlpine | IBazzite _ => DistroBazzite
  | IOmarchy _ => DistroOmarchy | IMacOS _ => DistroMacOS
  end.
Definition ImageVersion (i : Image) : string :=
  match i with
  | IUbuntu u => ui_version u | IUbuntuCloud u => uc_version u | IArch a => ai_version a | IFedora f => fi_version f
  | ITrueNAS t => ti_version t | IWindows w => wi_version w | IAlpine a => al_version a | IBazzite b => bi_version b
  | IOmarchy o => oi_version o | IMacOS m => mi_version m
  end.
Definition ImageName (i : Image) : string :=
  match i with
  | IUbuntu u => UbuntuImage_Name u | IUbuntuCloud u => UbuntuCloudImage_Name u | IArch a => ArchImage_Name a
  | IFedora f => FedoraCloudImage_Name f | ITrueNAS t => TrueNASImage_Name t | IWindows w => WindowsImage_Name w
  | IAlpine a => AlpineImage_Name a | IBazzite b => BazziteImage_Name b | IOmarchy o => OmarchyImage_Name o
  | IMacOS m => MacOSImage_Name m
  end.
Definition AbsolutePath (i : Image) : string := PathJoin [basePath; ImageName i].
Definition Download (i : Image) : ImgM Image :=
  match i with
  | IUbuntu u => u ← UbuntuImage_Download u; mret (IUbuntu u)
  | IUbuntuCloud u => _ ← UbuntuCloudImage_Download u; mret i
  | IArch a => _ ← ArchImage_Download a; mret i
  | IFedora f => _ ← FedoraCloudImage_Download f; mret i
  | ITrueNAS t => _ ← TrueNASImage_Download t; mret i
  | IWindows w => _ ← WindowsImage_Download w; mret i
  | IAlpine a => _ ← AlpineImage_Download a; mret i
  | IBazzite b => _ ← BazziteImage_Download b; mret i
  | IOmarchy o => _ ← OmarchyImage_Download o; mret i
  | IMacOS m => m ← MacOSImage_Download m; mret (IMacOS m)
  end.
Definition DeleteImage (i : Image) : ImgM unit :=
  match i with
  | IMacOS m => MacOSImage_Delete m
  | _ => delete_image env (AbsolutePath i)
  end.

Definition NewImage (host : Host) (distro version : string) : result error Image :=
  let resolved := if bool_decide (version ∈ ["latest"; ""]) then head (DistroVersions host distro) else Some version in
  match resolved with
  | None => Err (Errorf "unknown distro" [distro])
  | Some version =>
      if bool_decide (distro = DistroMacOS) then
        if negb (IsMacOS host) || negb (bool_decide (HostArch host = "arm64"))
        then Err (Errorf "macos restore images require an Apple Silicon macOS host" [])
        else match NewMacOSImage version with Ok m => Ok (IMacOS m) | Err e => Err e end
      else if bool_decide (distro = DistroUbuntu) then Ok (IUbuntuCloud (NewUbuntuCloudImage version (HostArch host)))
      else if bool_decide (distro = DistroArch) then Ok (IArch (mkArchImage version))
      else if bool_decide (distro = DistroFedora) then Ok (IFedora (NewFedoraCloudImage version (HostArch host)))
      else if bool_decide (distro = DistroTrueNAS) then Ok (ITrueNAS (mkTrueNASImage version))
      else if bool_decide (distro = DistroWindows) then
        let arch := WindowsHostArch host in
        if bool_decide (arch = "arm64") && negb (bool_decide (version ∈ KnownWindowsVersionsForArch arch))
        then Err (Errorf "windows is not available for arm64 hosts" (version :: KnownWindowsVersionsForArch arch))
        else Ok (IWindows (NewWindowsImage host version))
      else if bool_decide (distro = DistroAlpine) then Ok (IAlpine (mkAlpineImage version))
      else if bool_decide (distro = DistroBazzite) then Ok (IBazzite (mkBazziteImage version))
      else if bool_decide (distro = DistroOmarchy) then Ok (IOmarchy (mkOmarchyImage version))
      else Err (Errorf "unknown distro" [distro])
  end.
End Downloads.

(** ** What a download leaves in the cache *)
Section Verified.
Context (env : FetchEnv) (basePath : string).
Implicit Types (w : ImgWorld) (i : Image).

Definition has_sum (path sum : string) w : Prop := ∃ c, iw_files w !! path = Some c ∧ fe_sha256 env c = sum.

Lemma SHA256sum_ok path w s w' : SHA256sum env path w = (Ok s, w') → w' = w ∧ has_sum path s w.
Proof.
  cbv [SHA256sum read_file or_fail mbind GoM_bind gets mret GoM_ret throw]. destruct (fe_open env path); [done|].
  destruct (iw_files w !! path) as [c|] eqn:E; [|done]. intros [= <- <-]. split; [done|]. by exists c.
Qed.

Lemma verify_ok path sum w w' : verify env path sum w = (Ok tt, w') → w' = w ∧ has_sum path sum w.
Proof.
  unfold verify. intros (s & w1 & H1 & H2)%run_bind_inv. apply SHA256sum_ok in H1 as [-> Hs].
  case_bool_decide; [|done]. cbn in H2. injection H2 as <-. by subst.
Qed.

Lemma keep_cached_ok path sum w b w' : keep_cached env path sum w = (Ok b, w') →
  iw_requests w' = iw_requests w ∧ if b then w' = w ∧ has_sum path sum w else iw_files w' = delete path (iw_files w).
Proof.
  unfold keep_cached. rewrite run_bind. unfold exists_file, gets. case_bool_decide as Hx; cbn [negb].
  - intros (s & w1 & H1 & H2)%run_bind_inv. apply SHA256sum_ok in H1 as [-> Hs].
    case_bool_decide; [cbn in H2; injection H2 as <- <-; by subst|].
    unfold remove_file, or_fail in H2. rewrite !run_bind in H2. destruct (fe_remove env path); [done|]. cbn in H2.
    by injection H2 as <- <-.
  - cbn. intros [= <- <-]. split; [done|]. symmetry. apply delete_id. by apply eq_None_not_Some.
Qed.

(** The shared end of the checked downloads. *)
Lemma checked_end path sum status url w w' :
  (kept ← keep_cached env path sum; if (kept : bool) then mret tt else
   _ ← fetch_to env status url basePath path; verify env path sum) w = (Ok tt, w') → has_sum path sum w'.
Proof.
  intros (b & w1 & H1 & H2)%run_bind_inv. apply keep_cached_ok in H1 as [_ H1]. destruct b.
  - destruct H1 as [-> Hs]. cbn in H2. by injection H2 as <-.
  - apply run_bind_inv in H2 as ([] & w2 & _ & H2). apply verify_ok in H2 as [-> Hs]. done.
Qed.

(** Where an image's checksum is published, and how it is read off the page. *)
Definition checksum_source i : option (string * (string → string)) :=
  match i with
  | IArch a => Some (ArchDownloadChecksumURL (ai_version a), body_checksum (ArchImage_Name a))
  | IFedora f => Some (FedoraCloudImage_checksumURL f, λ b, bsd_checksum (FedoraCloudImage_Name f) (Split newline b))
  | IBazzite b => Some (BazziteDownloadURL (bi_version b) +:+ "-CHECKSUM", sidecar_checksum (BazziteImage_Name b))
  | IOmarchy o => Some (OmarchyDownloadURL (oi_version o) +:+ ".sha256", sidecar_checksum (OmarchyImage_Name o))
  | IUbuntuCloud u => Some (ubuntu_cloud_dir u +:+ "SHA256SUMS",
                            body_checksum (UbuntuCloudImage_Name u))
  | _ => None
  end.

Lemma get_ok {A} url (k : Response → ImgM A) w a w' : (http_get env url ≫= k) w = (Ok a, w') →
  ∃ r w1, fe_do env (iw_requests w) url = Ok r ∧ iw_files w1 = iw_files w ∧ k r w1 = (Ok a, w').
Proof.
  rewrite run_bind. unfold http_get. destruct (fe_do env (iw_requests w) url) as [r|]; [|done]. intros H. eexists r, _. split; [done|]. split; [|exact H]. done.
Qed.
Lemma ReadAll_ok {A} r (k : string → ImgM A) w a w' : (ReadAll r ≫= k) w = (Ok a, w') →
  r_cut r = None ∧ k (r_Body r) w = (Ok a, w').
Proof. rewrite run_bind. unfold ReadAll. by destruct (r_cut r). Qed.

Lemma keep_result {A} (m : ImgM unit) (x : A) w y w' : (m ≫= λ _, mret x) w = (Ok y, w') → y = x ∧ m w = (Ok tt, w').
Proof. intros ([] & w1 & H & [= -> ->])%run_bind_inv. done. Qed.


(** *** Frame *)
Lemma http_get_preserves (P : ImgWorld → Prop) url :
  (∀ w n, P w → P (w <| iw_requests := n |>)) → preserves P (http_get env url).
Proof. intros Hp w Hw. unfold http_get. cbn. by apply Hp. Qed.

(** The file at another path is what it was. *)
Definition other_file (p : string) (c : option string) w : Prop := iw_files w !! p = c.

Lemma get_other p c url : preserves (other_file p c) (http_get env url).
Proof. by apply http_get_preserves. Qed.
Lemma put_other p c path x : p ≠ path → preserves (other_file p c) (put_file path x).
Proof. intros Hp. apply preserves_modify. intros w Hw. unfold other_file in *. cbn. by rewrite lookup_insert_ne. Qed.
Lemma fail_other p c o : preserves (other_file p c) (or_fail o).
Proof. destruct o; [apply preserves_throw|apply preserves_ret]. Qed.
Lemma remove_other p c path : p ≠ path → preserves (other_file p c) (remove_file env path).
Proof.
  intros Hp. apply preserves_bind; [apply fail_other|intros _]. apply preserves_modify. intros w Hw. unfold other_file in *.
  cbn. by rewrite lookup_delete_ne.
Qed.
Lemma lift_other {A} p c (r : result error A) : preserves (other_file p c) (lift_result r).
Proof. destruct r; [apply preserves_ret|apply preserves_throw]. Qed.
Hint Resolve get_other put_other fail_other remove_other lift_other : gom.
Lemma sum_other p c path : preserves (other_file p c) (SHA256sum env path).
Proof. unfold SHA256sum, read_file. preserves_tac. Qed.
Lemma ReadAll_other p c r : preserves (other_file p c) (ReadAll r).
Proof. unfold ReadAll. preserves_tac. Qed.
Hint Resolve sum_other ReadAll_other : gom.
Lemma keep_other p c path s : p ≠ path → preserves (other_file p c) (keep_cached env path s).
Proof. intros Hp. unfold keep_cached, exists_file. preserves_tac. Qed.
Lemma fetch_other p c st url path : p ≠ path → preserves (other_file p c) (fetch_to env st url basePath path).
Proof. intros Hp. unfold fetch_to, CreateImage. preserves_tac. Qed.
Lemma verify_other p c path s : preserves (other_file p c) (verify env path s).
Proof. unfold verify. preserves_tac. Qed.
Hint Resolve keep_other fetch_other verify_other : gom.
Lemma truenas_other p c t : p ≠ TrueNASImage_AbsolutePath basePath t → preserves (other_file p c) (truenas_fetch env basePath t).
Proof. intros Hp. unfold truenas_fetch, fetchRemoteChecksum. preserves_tac. Qed.
Hint Resolve truenas_other : gom.
Lemma windows_other p c wi : p ≠ WindowsImage_AbsolutePath basePath wi → preserves (other_file p c) (WindowsImage_Download env basePath wi).
Proof.
  intros Hp. unfold WindowsImage_Download, exists_file, wrap_error, fetchBuildUUID, fetchESDURLs, buildISOInContainer.
  preserves_tac.
Qed.
Hint Resolve windows_other : gom.

(** The kinds whose file has a name that is known beforehand. *)
Definition fixed_name i : bool := match i with IUbuntu _ | IAlpine _ | IMacOS _ => false | _ => true end.

(** A download of such an image touches no file of the cache but its own,
    whether or not it succeeds. *)
Theorem download_frame i p w : fixed_name i = true → p ≠ AbsolutePath env basePath i →
  iw_files (Download env basePath i w).2 !! p = iw_files w !! p.
Proof.
  intros Hf Hp. assert (preserves (other_file p (iw_files w !! p)) (Download env basePath i)) as H; [|by apply H].
  destruct i; try discriminate Hf; cbn [Download].
  all: apply preserves_bind; [|intros; apply preserves_ret].
  - unfold UbuntuCloudImage_Download, exists_file. preserves_tac.
  - unfold ArchImage_Download. preserves_tac.
  - unfold FedoraCloudImage_Download. preserves_tac.
  - unfold TrueNASImage_Download, exists_file, fetchRemoteChecksum. preserves_tac.
  - auto with gom.
  - unfold BazziteImage_Download. preserves_tac.
  - unfold OmarchyImage_Download. preserves_tac.
Qed.
End Verified.

(** *** Repeated downloads *)
Section Again.
Context (env : FetchEnv) (basePath : string).
Implicit Types (w : ImgWorld) (i : Image).

Lemma SHA256sum_run path sum w : fe_open env path = None → has_sum env path sum w → SHA256sum env path w = (Ok sum, w).
Proof.
  intros Ho (c & Hc & <-). cbv [SHA256sum read_file or_fail mbind GoM_bind gets mret GoM_ret throw]. by rewrite Ho, Hc.
Qed.

Lemma keep_cached_hit path sum w : fe_open env path = None → has_sum env path sum w →
  keep_cached env path sum w = (Ok true, w).
Proof.
  intros Ho Hs. unfold keep_cached. rewrite run_bind. unfold exists_file, gets.
  rewrite bool_decide_true by (destruct Hs as (c & -> & _); eauto). cbn [negb].
  rewrite run_bind, (SHA256sum_run _ sum) by done. by rewrite bool_decide_true.
Qed.

(** Whether the checksum page must be answered with 200. *)
Definition needs_200 i : bool := match i with IBazzite _ | IOmarchy _ => true | _ => false end.

(** A download that was verified is not made again.  With the image's file
    in the cache and its checksum the published one, [Download] asks for the
    checksum page, succeeds, and changes no file. *)
Theorem download_idempotent i url sum_of page w :
  checksum_source i = Some (url, sum_of) →
  match i with IFedora f => is_Some (fedoraCompose (fi_version f)) | IUbuntuCloud _ => False | _ => True end →
  fe_do env (iw_requests w) url = Ok page → r_cut page = None → (needs_200 i = true → r_StatusCode page = 200) →
  sum_of (r_Body page) ≠ "" → fe_open env (AbsolutePath env basePath i) = None →
  has_sum env (AbsolutePath env basePath i) (sum_of (r_Body page)) w →
  Download env basePath i w = (Ok i, w <| iw_requests := S (iw_requests w) |>).
Proof.
  intros Hsrc Hk Hp Hcut H200 Hsum Ho Hs. set (w1 := w <| iw_requests := S (iw_requests w) |>).
  assert (Hs1 : has_sum env (AbsolutePath env basePath i) (sum_of (r_Body page)) w1) by exact Hs.
  assert (Hget : ∀ (k : Response → ImgM unit), (http_get env url ≫= k) w = k page w1).
  { intros k. rewrite run_bind. unfold http_get. by rewrite Hp. }
  assert (Hread : ∀ (k : string → ImgM unit) w, (ReadAll page ≫= k) w = k (r_Body page) w).
  { intros k w'. rewrite run_bind. unfold ReadAll. by rewrite Hcut. }
  destruct i as [u|u|a|f|t|wi|a|b|o|m]; (discriminate Hsrc || injection Hsrc as <- <-); cbn [Download needs_200] in *; try done.
  - rewrite run_bind. unfold ArchImage_Download. rewrite Hget, Hread, bool_decide_false by done.
    by rewrite run_bind, (keep_cached_hit (ArchImage_AbsolutePath basePath a) _ _ Ho Hs1).
  - rewrite run_bind. unfold FedoraCloudImage_Download. destruct Hk as [x Hx]. rewrite Hx. rewrite Hget, Hread, bool_decide_false by done.
    by rewrite run_bind, (keep_cached_hit (FedoraCloudImage_AbsolutePath basePath f) _ _ Ho Hs1).
  - rewrite run_bind. unfold BazziteImage_Download. cbv zeta. rewrite Hget, H200 by done. cbn [Z.eqb Pos.eqb negb].
    rewrite Hread, bool_decide_false by done. by rewrite run_bind, (keep_cached_hit (BazziteImage_AbsolutePath basePath b) _ _ Ho Hs1).
  - rewrite run_bind. unfold OmarchyImage_Download. cbv zeta. rewrite Hget, H200 by done. cbn [Z.eqb Pos.eqb negb].
    rewrite Hread, bool_decide_false by done. by rewrite run_bind, (keep_cached_hit (OmarchyImage_AbsolutePath basePath o) _ _ Ho Hs1).
Qed.
End Again.

(** ** The catalogue is consistent *)
(** What the download of an image looks up by its version is there. *)
Definition resolvable (i : Image) : Prop :=
  match i with
  | IFedora f => is_Some (fedoraCompose (fi_version f))
  | ITrueNAS t => is_ok (TrueNASImage_codename t) = true
  | IWindows w => wp_search (wi_params w) ≠ "" ∧ wp_edition (wi_params w) ≠ ""
  | _ => True
  end.

(** Every entry of the catalogue can be had.  For each distribution offered
    for guests and each of its listed versions there is an image, of that
    distribution and version, whose download finds the release it asks for;
    [latest] and no version at all mean the first of the list, which is never
    empty. *)
Theorem catalogue_complete env host d : d ∈ SupportedDistros →
  (∀ v, v ∈ DistroVersions host d → ∃ i, NewImage env host d v = Ok i ∧ ImageDistro i = d ∧ ImageVersion i = v ∧ resolvable i) ∧
  ∃ v, head (DistroVersions host d) = Some v ∧ NewImage env host d "latest" = NewImage env host d v ∧
    NewImage env host d "" = NewImage env host d v.
Proof.
  intros Hd. destruct (bool_decide_reflect (HostArch host = "arm64")) as [Ha|Ha].
  all: unfold SupportedDistros in Hd; repeat (apply elem_of_cons in Hd as [->|Hd]); [..|by apply elem_of_nil in Hd].
  all: unfold NewImage, DistroVersions, WindowsHostArch, KnownWindowsVersionsForArch, KnownWindowsVersions;
    rewrite ?(bool_decide_true (HostArch host = "arm64")), ?(bool_decide_false (HostArch host = "arm64")) by done.
  all: split; [|eexists; by split_and!].
  all: intros v Hv; cbn in Hv; repeat (apply elem_of_cons in Hv as [->|Hv]); [..|by apply elem_of_nil in Hv].
  all: eexists; split_and!; try reflexivity; try done; cbn; eauto.
Qed.

(** ** The choice of a Windows build *)
Lemma best_build_from keep builds : ∀ x,
  let r := foldl consider x (filter (λ b, keep b = true) builds) in
  (∀ b, r = Some b → x = Some b ∨ (b ∈ builds ∧ keep b = true)) ∧
  (∀ b', x = Some b' ∨ (b' ∈ builds ∧ keep b' = true) → ∃ b, r = Some b ∧ ub_Created b' <= ub_Created b).
Proof.
  induction builds as [|b0 builds IH]; intros x r.
  - subst r. cbn. split; [auto|]. intros b' [->|[Hb _]]; [|by apply elem_of_nil in Hb]. exists b'. auto with lia.
  - subst r. rewrite filter_cons. destruct (decide (keep b0 = true)) as [Hk|Hk].
    + cbn [foldl]. destruct (IH (consider x b0)) as [H1 H2]. split.
      * intros b Hb%H1. destruct Hb as [Hb|[Hb Hbk]]; [|set_solver]. unfold consider in Hb.
        destruct x as [x|]; [destruct (_ <? _)|]; injection Hb as <-; set_solver.
      * intros b' Hb'. assert (Hx : ∃ b, consider x b0 = Some b ∧ (x = Some b' ∨ b' = b0 → ub_Created b' <= ub_Created b)).
        { unfold consider. destruct x as [x|]; [destruct (Z.ltb_spec (ub_Created x) (ub_Created b0))|]; eexists; (split; [done|]);
            intros [[= ->]| ->]; lia. }
        destruct Hx as (b & Hb & Hle). destruct Hb' as [Hb'|[[->|Hb']%elem_of_cons Hbk]].
        -- destruct (H2 b (or_introl Hb)) as (b1 & -> & ?). exists b1. split; [done|]. specialize (Hle (or_introl Hb')). lia.
        -- destruct (H2 b (or_introl Hb)) as (b1 & -> & ?). exists b1. split; [done|]. specialize (Hle (or_intror eq_refl)). lia.
        -- by apply H2; right.
    + destruct (IH x) as [H1 H2]. split; [intros b Hb%H1; set_solver|].
      intros b' [Hb'|[[->|Hb']%elem_of_cons Hbk]]; [|done|]; apply H2; auto.
Qed.

Lemma best_build_spec keep builds :
  match best_build keep builds with
  | Some b => b ∈ builds ∧ keep b = true ∧ ∀ b', b' ∈ builds → keep b' = true → ub_Created b' <= ub_Created b
  | None => ∀ b', b' ∈ builds → keep b' = false
  end.
Proof.
  unfold best_build. destruct (best_build_from keep builds None) as [H1 H2]. destruct (foldl _ _ _) as [b|].
  - destruct (H1 b eq_refl) as [?|[Hb Hk]]; [done|]. split_and!; [done|done|]. intros b' Hb' Hk'.
    destruct (H2 b' (or_intror (conj Hb' Hk'))) as (? & [= <-] & ?). done.
  - intros b' Hb'. destruct (keep b') eqn:Hk; [|done]. by destruct (H2 b' (or_intror (conj Hb' Hk))) as (? & ? & _).
Qed.

(** Windows media is built from a full build.  Of the builds listed for the
    image's architecture the newest feature update is taken; only when there is
    none, the newest build that is not a cumulative update; and when nothing is
    taken every build of the architecture is a cumulative update and no feature
    update.  With distinct creation times the order in which the list is walked
    makes no difference. *)
Theorem windows_build_choice w builds :
  match pick_build w builds with
  | Some b => b ∈ builds ∧ arch_fits w b = true ∧
      ((isFeatureUpdate (ub_Title b) = true ∧
        ∀ b', b' ∈ builds → arch_fits w b' = true → isFeatureUpdate (ub_Title b') = true → ub_Created b' <= ub_Created b) ∨
       (isCumulative (ub_Title b) = false ∧
        (∀ b', b' ∈ builds → arch_fits w b' = true → isFeatureUpdate (ub_Title b') = false) ∧
        ∀ b', b' ∈ builds → arch_fits w b' = true → isCumulative (ub_Title b') = false → ub_Created b' <= ub_Created b))
  | None => ∀ b, b ∈ builds → arch_fits w b = true → isFeatureUpdate (ub_Title b) = false ∧ isCumulative (ub_Title b) = true
  end ∧
  ∀ builds', builds ≡ₚ builds' → NoDup (ub_Created <$> builds) → pick_build w builds' = pick_build w builds.
Proof.
  split.
  - unfold pick_build. pose proof (best_build_spec (λ b, arch_fits w b && isFeatureUpdate (ub_Title b)) builds) as Hf.
    destruct (best_build _ builds) as [b|].
    { destruct Hf as (Hb & [Ha Hu]%andb_true_iff & Hn). split_and!; [done|done|]. left. split; [done|]. intros b' Hb' Ha' Hu'.
      apply Hn; [done|]. by rewrite Ha', Hu'. }
    pose proof (best_build_spec (λ b, arch_fits w b && negb (isCumulative (ub_Title b))) builds) as Hc.
    assert (Hnf : ∀ b', b' ∈ builds → arch_fits w b' = true → isFeatureUpdate (ub_Title b') = false).
    { intros b' Hb' Ha'. specialize (Hf b' Hb'). by rewrite Ha' in Hf. }
    destruct (best_build _ builds) as [b|].
    + destruct Hc as (Hb & [Ha Hu%negb_true_iff]%andb_true_iff & Hn). split_and!; [done|done|]. right. split_and!; [done|done|].
      intros b' Hb' Ha' Hu'. apply Hn; [done|]. by rewrite Ha', Hu'.
    + intros b Hb Ha. split; [by apply Hnf|]. specialize (Hc b Hb). rewrite Ha in Hc. by apply negb_false_iff in Hc.
  - intros builds' Hp Hnd. assert (Hbest : ∀ keep, best_build keep builds' = best_build keep builds).
    { intros keep. pose proof (best_build_spec keep builds) as H1. pose proof (best_build_spec keep builds') as H2.
      destruct (best_build keep builds) as [b|], (best_build keep builds') as [b'|]; [|..|done].
      - destruct H1 as (Hb & Hk & Hn), H2 as (Hb' & Hk' & Hn'). f_equal. rewrite <-Hp in Hb'.
        assert (ub_Created b = ub_Created b') as E.
        { apply Z.le_antisymm; [apply Hn'; [by rewrite <-Hp|done]|by apply Hn]. }
        apply list_elem_of_lookup in Hb as [i Hi], Hb' as [j Hj].
        assert (i = j) as ->; [|congruence]. apply (NoDup_lookup (ub_Created <$> builds) i j (ub_Created b) Hnd); rewrite list_lookup_fmap, ?Hi, ?Hj; cbn; congruence.
      - destruct H1 as (Hb & Hk & _). rewrite Hp in Hb. by rewrite (H2 b Hb) in Hk.
      - destruct H2 as (Hb & Hk & _). rewrite <-Hp in Hb. by rewrite (H1 b' Hb) in Hk. }
    unfold pick_build. by rewrite !Hbest.
Qed.

(** The shell reads a file's name and address back from the command that
    downloads it, whatever bytes they hold. *)
Theorem wget_line_read f :
  ∃ rest, wget_line f = "wget -q --show-progress -O /work/esd/" +:+ rest ∧
    ∃ rest', sh_read false rest = Some (f.1, " " +:+ rest') ∧ sh_read false rest' = Some (f.2, "").
Proof.
  exists (String quote (quote_body f.1 +:+ String quote (String " " (String quote (quote_body f.2 +:+ String quote ""))))).
  split; [by destruct f|]. exists (String quote (quote_body f.2 +:+ String quote "")).
  split; cbn [sh_read]; rewrite bool_decide_true by done; cbn [negb]; by rewrite quote_body_read.
Qed.

Module ImagesExample.
Definition arch : Image := IArch (mkArchImage "2026.07.01").
Definition cloud : Image := IUbuntuCloud (NewUbuntuCloudImage "24.04" "amd64").
Definition reset : error := Errorf "connection reset" [].

(** Servers that publish a checksum and then send [body], which may break off. *)
Definition env (sums body : string) (cut : option error) : FetchEnv := {|
  fe_do n _ := Ok (if Nat.eqb n 0 then mkResponse 200 sums None else mkResponse 200 body cut);
  fe_mkdir _ := None; fe_create _ := None; fe_remove _ := None; fe_rename _ := None; fe_open _ := None; fe_close _ := None;
  fe_sha256 c := "sum-of-" +:+ c;
  fe_url_path _ := Err reset; fe_helper := Err reset; fe_restore_url _ := Err reset;
  fe_builds _ := Ok []; fe_files _ := Ok []; fe_lookpath _ := false; fe_container _ := (None, None) |}.
Definition empty : ImgWorld := mkImgWorld ∅ 0.

Definition arch_env : FetchEnv := env "sum-of-iso  archlinux-2026.07.01-x86_64.iso" "iso" None.


Lemma download_idempotent_witness :
  let w := mkImgWorld {[ AbsolutePath arch_env "/cache" arch := "iso" ]} 0 in
  Download arch_env "/cache" arch w = (Ok arch, w <| iw_requests := 1%nat |>).
Proof.
  intros w. apply (download_idempotent arch_env "/cache" arch (ArchDownloadChecksumURL "2026.07.01")
    (body_checksum (ArchImage_Name (mkArchImage "2026.07.01"))) (mkResponse 200 "sum-of-iso  archlinux-2026.07.01-x86_64.iso" None));
    [reflexivity|exact I|reflexivity|reflexivity|intros _; reflexivity|vm_compute; discriminate|reflexivity|].
  exists "iso". split; vm_compute; reflexivity.
Defined.

Lemma catalogue_complete_witness : DistroFedora ∈ SupportedDistros ∧
  ∃ v, head (DistroVersions (mkHost "linux" "amd64") DistroFedora) = Some v ∧
    NewImage arch_env (mkHost "linux" "amd64") DistroFedora "latest" = NewImage arch_env (mkHost "linux" "amd64") DistroFedora v.
Proof.
  assert (H : DistroFedora ∈ SupportedDistros) by (apply (bool_decide_unpack _); vm_compute; exact I). split; [exact H|].
  destruct (proj2 (catalogue_complete arch_env (mkHost "linux" "amd64") DistroFedora H)) as (v & Hv & Hl & _).
  exists v. split; [exact Hv|exact Hl].
Defined.
End ImagesExample.

(** *** Surprising behaviour *)
Import ImagesExample.

(** An interrupted download of an Ubuntu cloud image fails and leaves what
    arrived; the next one finds the file, takes it for verified and succeeds,
    with content that does not have the published checksum. *)
Example interrupted_image_accepted :
  let e := env "sum-of-iso  ubuntu-24.04-server-cloudimg-amd64.img" "i" (Some reset) in
  let first := Download e "/cache" cloud empty in
  let second := Download e "/cache" cloud first.2 in
  first.1 = Err reset ∧ second.1 = Ok cloud ∧ iw_files second.2 !! AbsolutePath e "/cache" cloud = Some "i" ∧
  fe_sha256 e "i" ≠ "sum-of-iso".
Proof. cbv zeta. split_and!; [vm_compute; reflexivity..|discriminate]. Qed.

(** The newest patch release is chosen by comparing names bytewise, so 3.21.9
    is taken to be newer than 3.21.10. *)
Example patch_ten_is_older :
  let link n := "<a href=" +:+ String dquote n +:+ String dquote ">" in
  let file v := "nocloud_alpine-" +:+ v +:+ "-x86_64-bios-cloudinit-r0.qcow2" in
  alpine_target (link (file "3.21.9") +:+ String newline (link (file "3.21.10"))) = file "3.21.9".
Proof. vm_compute. reflexivity. Qed.

(** The name taken from Alpine's index is joined to the cache directory as it
    is, and may leave it. *)
Example index_name_escapes :
  let line := "<a href=" +:+ String dquote "../x/nocloud_alpine-3.21.3-x86_64-bios-cloudinit-r0.qcow2" +:+ String dquote ">" in
  PathJoin ["/cache"; alpine_target line] = "/x/nocloud_alpine-3.21.3-x86_64-bios-cloudinit-r0.qcow2".
Proof. vm_compute. reflexivity. Qed.
