(* ===== verification/Media.v ===== *)
(** * Media sources (internal/media)

    The media specs of the command line (spec.go), what each source adds to a
    VM (source.go), and the collection of the passwords sources need
    (cmd/media.go).  Secrets are a map from prompt keys to answers. *)
From S2P Require Import Prelude GoStrings Config Guest Images.

Open Scope Z_scope.

(** ** Sources *)
Definition KindHostDir : string := "host-dir".
Definition KindNFS : string := "nfs".
Definition KindSMB : string := "smb".
Definition KindBlock : string := "block".
Definition KindUSB : string := "usb".

Record NFSSource := mkNFSSource { nfs_Server : string; nfs_Export : string; nfs_Version : string; nfs_Options : string }.
Record SMBSource := mkSMBSource { smb_Server : string; smb_Share : string; smb_Domain : string; smb_Username : string }.
Record BlockSource := mkBlockSource { bs_DevPath : string; bs_Serial : string; bs_FSType : string }.
Record USBSource := mkUSBSource {
  usb_VendorID : string; usb_ProductID : string; usb_HostBus : string; usb_HostAddr : string; usb_MountFSType : string }.
Record Source := mkSource {
  src_Kind : string;
  src_GuestPath : string;
  src_ReadOnly : bool;
  src_HostDir : string;
  src_NFS : option NFSSource;
  src_SMB : option SMBSource;
  src_Block : option BlockSource;
  src_USB : option USBSource;
}.

(** ** Parsing a spec *)
Definition err_spec (what spec : string) : result error Source := Err (Errorf what [spec]).

Definition parse_hostdir (spec head guestPath suffix : string) : result error Source :=
  let hostDir := TrimPrefix head "hostdir:" in
  if bool_decide (hostDir = "") then err_spec "media spec: hostdir: missing host path" spec
  else Ok (mkSource KindHostDir guestPath (bool_decide (suffix = "ro")) hostDir None None None None).

Definition parse_nfs (spec head guestPath suffix : string) : result error Source :=
  let '(server, export, ok) := Cut "/" (TrimPrefix head "nfs://") in
  if negb ok || bool_decide (server = "") || bool_decide (export = "") then err_spec "media spec: nfs needs server/export" spec
  else Ok (mkSource KindNFS guestPath (bool_decide (suffix = "ro")) ""
             (Some (mkNFSSource server ("/" +:+ export) "" "")) None None None).

Definition parse_smb (spec head guestPath suffix : string) : result error Source :=
  let rest := TrimPrefix head "smb://" in
  let '(user, rest) := match Cut "@" rest with (u, r, true) => (u, r) | _ => ("", rest) end in
  let '(server, share, ok) := Cut "/" rest in
  if negb ok || bool_decide (server = "") || bool_decide (share = "") then err_spec "media spec: smb needs server/share" spec
  else Ok (mkSource KindSMB guestPath (bool_decide (suffix = "ro")) "" None (Some (mkSMBSource server share "" user)) None None).

Definition parse_block (spec head guestPath suffix : string) : result error Source :=
  let devPath := TrimPrefix head "block:" in
  if bool_decide (devPath = "") then err_spec "media spec: block: missing device path" spec
  else let fsType := if bool_decide (suffix = "ro") then "" else suffix in
       Ok (mkSource KindBlock guestPath false "" None None (Some (mkBlockSource devPath "" fsType)) None).

(** One [key=value] of the bus form. *)
Definition usb_field (u : USBSource) (kv : string) : USBSource :=
  match Cut "=" kv with
  | (k, v, true) =>
      let k := TrimSpace k in
      if bool_decide (k = "bus") then mkUSBSource (usb_VendorID u) (usb_ProductID u) v (usb_HostAddr u) (usb_MountFSType u)
      else if bool_decide (k = "addr") then mkUSBSource (usb_VendorID u) (usb_ProductID u) (usb_HostBus u) v (usb_MountFSType u)
      else u
  | _ => u
  end.
Definition usb_id (body : string) : option USBSource :=
  if Contains body "bus=" || Contains body "addr="
  then Some (foldl usb_field (mkUSBSource "" "" "" "" "") (Split "," body))
  else let '(vendor, product, found) := Cut colon body in
       if negb found || bool_decide (vendor = "") || bool_decide (product = "") then None
       else Some (mkUSBSource vendor product "" "" "").
Definition parse_usb (spec head guestPath suffix : string) : result error Source :=
  match usb_id (TrimPrefix head "usb:") with
  | None => err_spec "media spec: usb needs VENDOR:PRODUCT or bus=N,addr=M" spec
  | Some u =>
      let fs := if negb (bool_decide (suffix = "")) && negb (bool_decide (suffix = "ro")) then suffix else usb_MountFSType u in
      Ok (mkSource KindUSB guestPath false "" None None None
            (Some (mkUSBSource (usb_VendorID u) (usb_ProductID u) (usb_HostBus u) (usb_HostAddr u) fs)))
  end.

(** The guest path and the text after its last colon, if that is not first. *)
Definition split_suffix (tail : string) : string * string :=
  match cut_last colon tail with
  | Some (String c a, b) => (String c a, b)
  | _ => (tail, "")
  end.

Definition ParseSpec (spec : string) : result error Source :=
  match cut_last "@" spec with
  | None => err_spec "media spec: missing @<guest-path>" spec
  | Some (head, tail) =>
      if bool_decide (head = "") || bool_decide (tail = "") then err_spec "media spec: empty source or guest path" spec else
      let '(guestPath, suffix) := split_suffix tail in
      if negb (HasPrefix guestPath "/") then err_spec "media spec: guest path must be absolute" guestPath
      else if HasPrefix head "hostdir:" then parse_hostdir spec head guestPath suffix
      else if HasPrefix head "nfs://" then parse_nfs spec head guestPath suffix
      else if HasPrefix head "smb://" then parse_smb spec head guestPath suffix
      else if HasPrefix head "block:" then parse_block spec head guestPath suffix
      else if HasPrefix head "usb:" then parse_usb spec head guestPath suffix
      else err_spec "media spec: unknown kind" spec
  end.

Fixpoint ParseSpecs (specs : list string) : result error (list Source) :=
  match specs with
  | [] => Ok []
  | s :: specs =>
      match ParseSpec s with
      | Err e => Err e
      | Ok src => match ParseSpecs specs with Err e => Err e | Ok srcs => Ok (src :: srcs) end
      end
  end.

(** ** Plans *)
Record Patch := mkPatch {
  p_VirtiofsMounts : list VirtiofsMount;
  p_Disks : list DiskConfig;
  p_ExtraDevices : list string;
  p_Packages : list string;
  p_RunCmds : list string;
  p_WriteFiles : list CloudInitWriteFile;
}.
Definition emptyPatch : Patch := mkPatch [] [] [] [] [] [].
Definition Merge (p other : Patch) : Patch :=
  mkPatch (p_VirtiofsMounts p ++ p_VirtiofsMounts other) (p_Disks p ++ p_Disks other) (p_ExtraDevices p ++ p_ExtraDevices other)
    (p_Packages p ++ p_Packages other) (p_RunCmds p ++ p_RunCmds other) (p_WriteFiles p ++ p_WriteFiles other).
Record PendingPrompt := mkPendingPrompt { pp_Key : string; pp_Prompt : string; pp_Secret : bool }.

Abbreviation plan_result := (result error (Patch * list PendingPrompt)).
Definition err_plan (what : string) : plan_result := Err (Errorf what []).

Definition is_slash (c : ascii) : bool := bool_decide (c = "/"%char).
Definition unitName (absPath : string) : string :=
  let trimmed := Trim is_slash absPath in
  if bool_decide (trimmed = "") then "-"
  else concat_map (λ c, if is_slash c then "-" else if bool_decide (c = " "%char) then "\x20" else String c "") trimmed.
Definition virtiofsTag (guestPath : string) : string :=
  let trimmed := Trim is_slash guestPath in
  if bool_decide (trimmed = "") then "share"
  else concat_map (λ c, if is_slash c then "-" else if bool_decide (c = " "%char) then "_" else String c "") trimmed.

(** The command that adds a line to fstab once. *)
Definition fstab_cmd (guestPath line : string) : string :=
  "grep -qF " +:+ Quote guestPath +:+ " /etc/fstab || echo " +:+ Quote line +:+ " >> /etc/fstab".

Definition planHostDir (s : Source) : plan_result :=
  if bool_decide (src_HostDir s = "") then err_plan "media: HostDir is required for kind=host-dir" else
  let tag := virtiofsTag (src_GuestPath s) in
  let mountOpts := if src_ReadOnly s then "ro,defaults" else "defaults" in
  Ok (mkPatch [mkVirtiofsMount "" (src_HostDir s) tag false] [] [] []
        ["mkdir -p " +:+ src_GuestPath s;
         "mount -t virtiofs " +:+ tag +:+ " " +:+ src_GuestPath s +:+ " -o " +:+ mountOpts;
         fstab_cmd (src_GuestPath s) (tag +:+ " " +:+ src_GuestPath s +:+ " virtiofs " +:+ mountOpts +:+ " 0 0")] [], []).

(** A unit file for the guest. *)
Definition unit_file (name content : string) : CloudInitWriteFile :=
  mkCloudInitWriteFile ("/etc/systemd/system/" +:+ name) content "0644" "" false "".
Definition mount_unit (what type source guestPath options : string) : string :=
  unlines ["[Unit]"; "Description=" +:+ what +:+ " mount for " +:+ guestPath; "After=network-online.target";
           "Wants=network-online.target"; ""; "[Mount]"; "What=" +:+ source; "Where=" +:+ guestPath; "Type=" +:+ type;
           "Options=" +:+ options; ""; "[Install]"; "WantedBy=multi-user.target"].
Definition automount_unit (guestPath : string) : string :=
  unlines ["[Unit]"; "Description=Automount for " +:+ guestPath; ""; "[Automount]"; "Where=" +:+ guestPath;
           "TimeoutIdleSec=600"; ""; "[Install]"; "WantedBy=multi-user.target"].
Definition mount_cmds (guestPath : string) : list string :=
  ["mkdir -p " +:+ guestPath;
   "systemctl daemon-reload && systemctl enable --now " +:+ unitName guestPath +:+ ".automount"].

Definition nfsPackages (distro : string) : list string :=
  if bool_decide (distro ∈ ["arch"; "fedora"]) then ["nfs-utils"] else ["nfs-common"].
Definition smbPackages (distro : string) : list string := ["cifs-utils"].

Definition planNFS (s : Source) (distro : string) : plan_result :=
  match src_NFS s with
  | None => err_plan "media: NFSSource Server and Export are required"
  | Some n =>
      if bool_decide (nfs_Server n = "") || bool_decide (nfs_Export n = "")
      then err_plan "media: NFSSource Server and Export are required" else
      let version := if bool_decide (nfs_Version n = "") then "4.2" else nfs_Version n in
      let opts := ["_netdev"; "nofail"; "soft"; "timeo=30"; "retrans=2"; "vers=" +:+ version]
                  ++ (if src_ReadOnly s then ["ro"] else [])
                  ++ (if bool_decide (nfs_Options n = "") then [] else [nfs_Options n]) in
      let unitBase := unitName (src_GuestPath s) in
      Ok (mkPatch [] [] [] (nfsPackages distro) (mount_cmds (src_GuestPath s))
            [unit_file (unitBase +:+ ".mount")
               (mount_unit "NFS" "nfs4" (nfs_Server n +:+ ":" +:+ nfs_Export n) (src_GuestPath s) (Join "," opts));
             unit_file (unitBase +:+ ".automount") (automount_unit (src_GuestPath s))], [])
  end.

Definition smb_key (n : SMBSource) : string := "smb-password:" +:+ smb_Server n +:+ "/" +:+ smb_Share n.
Definition creds_file (s : Source) (n : SMBSource) (user password : string) : CloudInitWriteFile :=
  mkCloudInitWriteFile ("/etc/cifs-credentials-" +:+ unitName (src_GuestPath s))
    (unlines (["username=" +:+ user; "password=" +:+ password]
              ++ (if bool_decide (smb_Domain n = "") then [] else ["domain=" +:+ smb_Domain n]))) "0600" "" false "".

Definition planSMB (s : Source) (distro : string) (secrets : gmap string string) : plan_result :=
  match src_SMB s with
  | None => err_plan "media: SMBSource Server and Share are required"
  | Some n =>
      if bool_decide (smb_Server n = "") || bool_decide (smb_Share n = "")
      then err_plan "media: SMBSource Server and Share are required" else
      let user := if bool_decide (smb_Username n = "") then "guest" else smb_Username n in
      let share := "//" +:+ smb_Server n +:+ "/" +:+ smb_Share n in
      let '(password, prompts) :=
        match secrets !! smb_key n with
        | Some p => (p, [])
        | None => ("", [mkPendingPrompt (smb_key n) ("SMB password for " +:+ share +:+ " (user " +:+ user +:+ ")") true])
        end in
      let creds := creds_file s n user password in
      let opts := ["_netdev"; "nofail"; "credentials=" +:+ wf_Path creds; "iocharset=utf8"; "uid=0"; "gid=0"]
                  ++ (if src_ReadOnly s then ["ro"] else []) in
      let unitBase := unitName (src_GuestPath s) in
      Ok (mkPatch [] [] [] (smbPackages distro) (mount_cmds (src_GuestPath s))
            [creds;
             unit_file (unitBase +:+ ".mount") (mount_unit "SMB" "cifs" share (src_GuestPath s) (Join "," opts));
             unit_file (unitBase +:+ ".automount") (automount_unit (src_GuestPath s))], prompts)
  end.

(** The text before the last occurrence of [sub], if that is not at the start. *)
Definition before_last (s sub : string) : string :=
  match last_from s sub with
  | Some t => let idx := (String.length s - String.length t)%nat in if Nat.eqb idx 0 then s else String.substring 0 idx s
  | None => s
  end.
Definition blockSerialFromPath (devPath : string) : string :=
  let base := foldl TrimPrefix (Base devPath) ["ata-"; "scsi-"; "nvme-"; "wwn-"; "usb-"] in
  let base := before_last base "-part" in
  if (20 <? String.length base)%nat then String.substring 0 20 base else base.

Definition planBlock (s : Source) : plan_result :=
  match src_Block s with
  | None => err_plan "media: BlockSource DevPath is required"
  | Some b =>
      if bool_decide (bs_DevPath b = "") then err_plan "media: BlockSource DevPath is required" else
      let serial := if bool_decide (bs_Serial b = "") then blockSerialFromPath (bs_DevPath b) else bs_Serial b in
      let disk := zeroDisk <| d_Path := bs_DevPath b |> <| d_Format := "raw" |> <| d_Interface := "virtio" |>
                           <| d_Media := "disk" |> <| d_Cache := "none" |> <| d_Passthrough := true |>
                           <| d_Serial := serial |> <| d_Readonly := src_ReadOnly s |> in
      let opts := if src_ReadOnly s then "ro,nofail" else "defaults,nofail" in
      let cmds := if bool_decide (bs_FSType b = "") then [] else
        ["mkdir -p " +:+ src_GuestPath s;
         fstab_cmd (src_GuestPath s) ("/dev/disk/by-id/virtio-" +:+ serial +:+ " " +:+ src_GuestPath s +:+ " " +:+ bs_FSType b
                                      +:+ " " +:+ opts +:+ " 0 2");
         "mount " +:+ src_GuestPath s +:+ " || true"] in
      Ok (mkPatch [] [disk] [] [] cmds [], [])
  end.

Definition usb_device (u : USBSource) : option string :=
  if negb (bool_decide (usb_VendorID u = "")) && negb (bool_decide (usb_ProductID u = ""))
  then Some ("usb-host,vendorid=0x" +:+ usb_VendorID u +:+ ",productid=0x" +:+ usb_ProductID u)
  else if negb (bool_decide (usb_HostBus u = "")) && negb (bool_decide (usb_HostAddr u = ""))
  then Some ("usb-host,hostbus=" +:+ usb_HostBus u +:+ ",hostaddr=" +:+ usb_HostAddr u)
  else None.
Definition planUSB (s : Source) : plan_result :=
  match src_USB s with
  | None => err_plan "media: USBSource is required for kind=usb"
  | Some u =>
      match usb_device u with
      | None => err_plan "media: USBSource requires VendorID+ProductID or HostBus+HostAddr"
      | Some qdev =>
          let opts := if src_ReadOnly s then "ro,nofail,x-systemd.automount" else "defaults,nofail,x-systemd.automount" in
          let g := src_GuestPath s in
          let cmds := if bool_decide (usb_MountFSType u = "") then [] else
            ["mkdir -p " +:+ g;
             "USBDEV=$(lsblk -ndo NAME,TRAN | awk '$2==" +:+ dq "usb" +:+ "{print " +:+ dq "/dev/" +:+ "$1; exit}'); "
             +:+ "if [ -n " +:+ dq "$USBDEV" +:+ " ]; then grep -qF " +:+ Quote g +:+ " /etc/fstab || echo "
             +:+ dq ("$USBDEV " +:+ g +:+ " " +:+ usb_MountFSType u +:+ " " +:+ opts +:+ " 0 0") +:+ " >> /etc/fstab; mount "
             +:+ g +:+ " || true; fi"] in
          Ok (mkPatch [] [] [qdev] [] cmds [], [])
      end
  end.

Definition Plan (s : Source) (distro : string) (secrets : gmap string string) : plan_result :=
  if bool_decide (src_GuestPath s = "") then err_plan "media: GuestPath is required"
  else if negb (HasPrefix (src_GuestPath s) "/") then Err (Errorf "media: GuestPath must be absolute" [src_GuestPath s])
  else if bool_decide (src_Kind s = KindHostDir) then planHostDir s
  else if bool_decide (src_Kind s = KindNFS) then planNFS s distro
  else if bool_decide (src_Kind s = KindSMB) then planSMB s distro secrets
  else if bool_decide (src_Kind s = KindBlock) then planBlock s
  else if bool_decide (src_Kind s = KindUSB) then planUSB s
  else Err (Errorf "media: unknown Kind" [src_Kind s]).

(** ** Collecting secrets (cmd/media.go)

    [ask] is the terminal: what the user answers to the prompt for a key, or
    the error of reading it. *)
Section Collect.
Context (ask : PendingPrompt → result error string).

Fixpoint answer_prompts (prompts : list PendingPrompt) (secrets : gmap string string) : result error (gmap string string) :=
  match prompts with
  | [] => Ok secrets
  | pp :: prompts =>
      match secrets !! pp_Key pp with
      | Some _ => answer_prompts prompts secrets
      | None => match ask pp with
                | Err e => Err e
                | Ok v => answer_prompts prompts (<[pp_Key pp := v]> secrets)
                end
      end
  end.
Fixpoint collect_secrets (sources : list Source) (secrets : gmap string string) : result error (gmap string string) :=
  match sources with
  | [] => Ok secrets
  | src :: sources =>
      match Plan src "ubuntu" secrets with
      | Err e => Err (Wrapf "plan" e)
      | Ok (_, prompts) =>
          match answer_prompts prompts secrets with
          | Err e => Err e
          | Ok secrets => collect_secrets sources secrets
          end
      end
  end.
Definition collectMediaSecrets (sources : list Source) : result error (gmap string string) := collect_secrets sources ∅.
End Collect.

(** The prompts still owed and the combined patch, as the template gathers them. *)
Fixpoint gather_media (sources : list Source) (secrets : gmap string string) (p : Patch) (missing : list PendingPrompt)
  : result error (Patch * list PendingPrompt) :=
  match sources with
  | [] => Ok (p, missing)
  | src :: sources =>
      match Plan src "ubuntu" secrets with
      | Err e => Err (Wrapf "jellyfin: media" e)
      | Ok (patch, prompts) => gather_media sources secrets (Merge p patch) (missing ++ prompts)
      end
  end.

(** ** Secrets *)
(** A plan that succeeds with some secrets succeeds with any, and owes nothing
    once what it asked for is there. *)
Lemma plan_answered s d secrets secrets' p prompts : Plan s d secrets = Ok (p, prompts) →
  ∃ p' prompts', Plan s d secrets' = Ok (p', prompts') ∧
    (secrets ⊆ secrets' → (∀ pp, pp ∈ prompts → is_Some (secrets' !! pp_Key pp)) → prompts' = []).
Proof.
  unfold Plan. destruct (bool_decide (src_GuestPath s = "")); [done|]. destruct (negb _); [done|].
  destruct (bool_decide (src_Kind s = KindHostDir)).
  { intros H. exists p, prompts. split; [done|]. unfold planHostDir in H. by destruct (bool_decide _); simplify_eq. }
  destruct (bool_decide (src_Kind s = KindNFS)).
  { intros H. exists p, prompts. split; [done|]. unfold planNFS in H. destruct (src_NFS s); [|done]. by destruct (_ || _); simplify_eq. }
  destruct (bool_decide (src_Kind s = KindSMB)).
  { unfold planSMB. destruct (src_SMB s) as [n|]; [|done]. destruct (_ || _); [done|]. intros H.
    destruct (secrets' !! smb_key n) as [pw'|] eqn:E'; eexists _, _; (split; [done|]); [done|].
    intros Hsub Hall. destruct (secrets !! smb_key n) as [pw|] eqn:E.
    - by rewrite (lookup_weaken _ _ _ _ E Hsub) in E'.
    - injection H as _ <-. destruct (Hall (mkPendingPrompt (smb_key n)
        ("SMB password for " +:+ ("//" +:+ smb_Server n +:+ "/" +:+ smb_Share n) +:+ " (user " +:+
         (if bool_decide (smb_Username n = "") then "guest" else smb_Username n) +:+ ")") true)) as [x Hx];
        [by apply list_elem_of_singleton|]. cbn in Hx. congruence. }
  destruct (bool_decide (src_Kind s = KindBlock)).
  { intros H. exists p, prompts. split; [done|]. unfold planBlock in H. destruct (src_Block s); [|done]. by destruct (bool_decide _); simplify_eq. }
  destruct (bool_decide (src_Kind s = KindUSB)); [|done].
  intros H. exists p, prompts. split; [done|]. unfold planUSB in H. destruct (src_USB s) as [u|]; [|done]. by destruct (usb_device u); simplify_eq.
Qed.

Lemma answer_prompts_all ask prompts : ∀ secrets secrets', answer_prompts ask prompts secrets = Ok secrets' →
  secrets ⊆ secrets' ∧ ∀ pp, pp ∈ prompts → is_Some (secrets' !! pp_Key pp).
Proof.
  induction prompts as [|pp prompts IH]; intros secrets secrets' H; cbn in H.
  { injection H as <-. split; [done|]. intros pp Hpp. by apply elem_of_nil in Hpp. }
  destruct (secrets !! pp_Key pp) as [v|] eqn:E.
  - apply IH in H as [Hs Ha]. split; [done|]. intros q [->|Hq]%elem_of_cons; [|by apply Ha].
    exists v. by eapply lookup_weaken.
  - destruct (ask pp) as [v|]; [|done]. apply IH in H as [Hs Ha]. split.
    + etrans; [|exact Hs]. by apply insert_subseteq.
    + intros q [->|Hq]%elem_of_cons; [|by apply Ha]. exists v. eapply lookup_weaken; [|exact Hs]. apply lookup_insert_eq.
Qed.

Lemma collect_answers ask sources : ∀ secrets secrets', collect_secrets ask sources secrets = Ok secrets' →
  secrets ⊆ secrets' ∧ Forall (λ s, ∃ p, Plan s "ubuntu" secrets' = Ok (p, [])) sources.
Proof.
  induction sources as [|s sources IH]; intros secrets secrets' H; cbn in H; [injection H as <-; auto|].
  destruct (Plan s "ubuntu" secrets) as [[p prompts]|] eqn:Hp; [|done].
  destruct (answer_prompts ask prompts secrets) as [s1|] eqn:Ha; [|done].
  apply answer_prompts_all in Ha as [Hsub Hall]. apply IH in H as [Hsub' Hrest]. split; [by etrans|]. constructor; [|done].
  destruct (plan_answered _ _ _ secrets' _ _ Hp) as (p' & prompts' & Hp' & Hnone). exists p'. rewrite Hp', Hnone; [done|by etrans|].
  intros pp [v Hv]%Hall. exists v. by eapply lookup_weaken.
Qed.

Lemma gather_answered sources secrets : Forall (λ s, ∃ p, Plan s "ubuntu" secrets = Ok (p, [])) sources →
  ∀ p, ∃ p', gather_media sources secrets p [] = Ok (p', []).
Proof.
  induction 1 as [|s sources [q Hq] _ IH]; intros p; cbn; [eauto|]. rewrite Hq. cbn. apply IH.
Qed.

(** The passwords asked for are enough.  Once the command line has collected
    the secrets of a list of sources, every source plans without an open prompt,
    and so a template that gathers them finds none missing. *)
Theorem collected_secrets_suffice ask sources secrets : collectMediaSecrets ask sources = Ok secrets →
  ∃ p, gather_media sources secrets emptyPatch [] = Ok (p, []).
Proof. intros [_ H]%collect_answers. by apply gather_answered. Qed.

(** A password ends up in files only root can read.  What a source adds to a
    VM is the same whatever the secrets are, except for files with mode 0600
    under /etc/cifs-credentials-, which keep their path. *)
Theorem secrets_confined s d secrets secrets' p prompts : Plan s d secrets = Ok (p, prompts) →
  ∃ p' prompts', Plan s d secrets' = Ok (p', prompts') ∧
    p_VirtiofsMounts p' = p_VirtiofsMounts p ∧ p_Disks p' = p_Disks p ∧ p_ExtraDevices p' = p_ExtraDevices p ∧
    p_Packages p' = p_Packages p ∧ p_RunCmds p' = p_RunCmds p ∧
    Forall2 (λ f f', f = f' ∨ (wf_Path f = wf_Path f' ∧ HasPrefix (wf_Path f) "/etc/cifs-credentials-" = true ∧
                               wf_Permissions f = "0600" ∧ wf_Permissions f' = "0600"))
      (p_WriteFiles p) (p_WriteFiles p').
Proof.
  intros H. destruct (bool_decide (src_Kind s = KindSMB)) eqn:Hk.
  2: { exists p, prompts. assert (Plan s d secrets' = Plan s d secrets) as -> by (unfold Plan; by rewrite Hk).
       split; [done|]. split_and!; try done. apply Forall_Forall2_diag, Forall_true. auto. }
  apply bool_decide_eq_true in Hk. unfold Plan in *. destruct (bool_decide (src_GuestPath s = "")); [done|].
  destruct (negb _); [done|]. rewrite Hk in *. change (bool_decide (KindSMB = KindHostDir)) with false in *.
  change (bool_decide (KindSMB = KindNFS)) with false in *. change (bool_decide (KindSMB = KindSMB)) with true in *.
  cbv iota in *. unfold planSMB in *. destruct (src_SMB s) as [n|]; [|done]. destruct (_ || _); [done|].
  destruct (secrets !! smb_key n), (secrets' !! smb_key n); injection H as <- <-; eexists _, _; (split; [done|]); split_and!; try done.
  all: cbn [p_WriteFiles]; repeat constructor; right; by split_and!.
Qed.

(** ** The grammar of specs *)
Lemma cut_last_none_iff c s : cut_last c s = None ↔ free_of c s = true.
Proof.
  unfold free_of. induction s as [|d s IH]; [done|]. cbn. destruct (cut_last c s) as [[a b]|].
  - split; [done|]. intros [_ H]%andb_true_iff. by apply IH in H.
  - destruct IH as [IH _]. rewrite IH, andb_true_r by done. by destruct (bool_decide (d = c)).
Qed.
Lemma cut_last_iff c s a b : cut_last c s = Some (a, b) ↔ s = a +:+ String c b ∧ free_of c b = true.
Proof.
  revert a. induction s as [|d s IH]; intros a; cbn.
  - split; [done|]. intros [H _]. by destruct a.
  - destruct (cut_last c s) as [[a' b']|] eqn:E.
    + split.
      * intros [= <- <-]. destruct (proj1 (IH a') eq_refl) as [-> Hb]. auto.
      * intros [H Hb]. destruct a as [|d' a]; rewrite ?append_cons in H.
        -- injection H as -> ->. by apply cut_last_none_iff in Hb; rewrite Hb in E.
        -- injection H as -> ->. by injection (proj2 (IH a) (conj eq_refl Hb)) as -> ->.
    + apply cut_last_none_iff in E. split.
      * case_bool_decide; [|done]. intros [= <- <-]. by subst.
      * intros [H Hb]. destruct a as [|d' a]; rewrite ?append_cons in H.
        -- injection H as -> ->. by rewrite bool_decide_true.
        -- injection H as -> ->. rewrite free_of_app in E. unfold free_of in E at 2. cbn in E. rewrite bool_decide_true in E by done.
           by rewrite andb_false_r in E.
Qed.
Lemma Cut_iff c s a b : Cut c s = (a, b, true) ↔ s = a +:+ String c b ∧ free_of c a = true.
Proof.
  unfold free_of. revert a. induction s as [|d s IH]; intros a; cbn.
  - split; [done|]. intros [H _]. by destruct a.
  - destruct (bool_decide_reflect (d = c)) as [->|Hd].
    + split; [by intros [= <- <-]|]. intros [H Ha]. destruct a as [|d' a]; rewrite ?append_cons, ?append_nil_l in H; simplify_eq; [done|].
      cbn in Ha. by rewrite bool_decide_true in Ha.
    + destruct (Cut c s) as [[a' b'] ok]. split.
      * intros [= <- <- ->]. destruct (proj1 (IH a') eq_refl) as [-> Ha]. split; [done|]. cbn. by rewrite bool_decide_false.
      * intros [H Ha]. destruct a as [|d' a]; rewrite ?append_cons, ?append_nil_l in H; simplify_eq. cbn in Ha.
        apply andb_true_iff in Ha as [_ Ha]. by injection (proj2 (IH a) (conj eq_refl Ha)) as -> -> ->.
Qed.
Lemma Cut_none_iff c s : (∃ a b, Cut c s = (a, b, false)) ↔ free_of c s = true.
Proof.
  unfold free_of. induction s as [|d s IH]; cbn; [naive_solver|]. destruct (bool_decide (d = c)); cbn; [naive_solver|].
  rewrite <-IH. destruct (Cut c s) as [[a b] ok]. naive_solver.
Qed.
Lemma HasPrefix_app p s : HasPrefix (p +:+ s) p = true.
Proof. apply HasPrefix_spec. by exists s. Qed.
Lemma TrimPrefix_app p s : TrimPrefix (p +:+ s) p = s.
Proof.
  unfold TrimPrefix. rewrite HasPrefix_app. induction p as [|c p IH]; [by destruct s|]. exact IH.
Qed.

(** The guest path and its optional suffix. *)
Inductive tail_of : string → string → string → Prop :=
| tail_plain g : HasPrefix g "/" = true → free_of "@" g = true → free_of colon g = true → tail_of g "" g
| tail_suffix g suf : HasPrefix g "/" = true → free_of "@" g = true → free_of "@" suf = true → free_of colon suf = true →
    tail_of g suf (g +:+ String colon suf).

Definition bus_form (body : string) : bool := Contains body "bus=" || Contains body "addr=".
Definition usb_bus (body : string) : USBSource := foldl usb_field (mkUSBSource "" "" "" "" "") (Split "," body).
Definition with_fs (u : USBSource) (suf : string) : USBSource :=
  mkUSBSource (usb_VendorID u) (usb_ProductID u) (usb_HostBus u) (usb_HostAddr u)
    (if negb (bool_decide (suf = "")) && negb (bool_decide (suf = "ro")) then suf else usb_MountFSType u).

(** The forms of the documentation of [ParseSpec]. *)
Inductive denotes : string → Source → Prop :=
| den_hostdir dir g suf tail : dir ≠ "" → tail_of g suf tail →
    denotes ("hostdir:" +:+ dir +:+ String "@" tail)
      (mkSource KindHostDir g (bool_decide (suf = "ro")) dir None None None None)
| den_nfs server export g suf tail : server ≠ "" → free_of "/" server = true → export ≠ "" → tail_of g suf tail →
    denotes ("nfs://" +:+ (server +:+ String "/" export) +:+ String "@" tail)
      (mkSource KindNFS g (bool_decide (suf = "ro")) "" (Some (mkNFSSource server ("/" +:+ export) "" "")) None None None)
| den_smb server share g suf tail : server ≠ "" → free_of "/" server = true → share ≠ "" →
    free_of "@" (server +:+ String "/" share) = true → tail_of g suf tail →
    denotes ("smb://" +:+ (server +:+ String "/" share) +:+ String "@" tail)
      (mkSource KindSMB g (bool_decide (suf = "ro")) "" None (Some (mkSMBSource server share "" "")) None None)
| den_smb_user user server share g suf tail : free_of "@" user = true → server ≠ "" → free_of "/" server = true → share ≠ "" →
    tail_of g suf tail →
    denotes ("smb://" +:+ (user +:+ String "@" (server +:+ String "/" share)) +:+ String "@" tail)
      (mkSource KindSMB g (bool_decide (suf = "ro")) "" None (Some (mkSMBSource server share "" user)) None None)
| den_block dev g suf tail : dev ≠ "" → tail_of g suf tail →
    denotes ("block:" +:+ dev +:+ String "@" tail)
      (mkSource KindBlock g false "" None None (Some (mkBlockSource dev "" (if bool_decide (suf = "ro") then "" else suf))) None)
| den_usb_id vendor product g suf tail : vendor ≠ "" → free_of colon vendor = true → product ≠ "" →
    bus_form (vendor +:+ String colon product) = false → tail_of g suf tail →
    denotes ("usb:" +:+ (vendor +:+ String colon product) +:+ String "@" tail)
      (mkSource KindUSB g false "" None None None (Some (with_fs (mkUSBSource vendor product "" "" "") suf)))
| den_usb_bus body g suf tail : bus_form body = true → tail_of g suf tail →
    denotes ("usb:" +:+ body +:+ String "@" tail)
      (mkSource KindUSB g false "" None None None (Some (with_fs (usb_bus body) suf))).

Lemma free_of_cons c d s : free_of c (String d s) = negb (bool_decide (d = c)) && free_of c s.
Proof. reflexivity. Qed.
Lemma slash_nonempty g : HasPrefix g "/" = true → ∃ g', g = String "/" g'.
Proof. intros [t ->]%HasPrefix_spec. by exists t. Qed.

Lemma tail_of_iff g suf tail : tail_of g suf tail ↔
  free_of "@" tail = true ∧ split_suffix tail = (g, suf) ∧ HasPrefix g "/" = true.
Proof.
  unfold split_suffix. split.
  - intros [g' Hs Ha Hc|g' suf' Hs Ha Hb Hc].
    + apply cut_last_none_iff in Hc. rewrite Hc. auto.
    + rewrite free_of_app, free_of_cons, Ha, Hb. split; [done|].
      rewrite (proj2 (cut_last_iff colon _ g' suf') (conj eq_refl Hc)). destruct (slash_nonempty _ Hs) as [x ->]. auto.
  - intros (Ha & Hs & Hp). destruct (cut_last colon tail) as [[a b]|] eqn:E.
    + apply cut_last_iff in E as [-> Hb]. destruct a as [|x a].
      * injection Hs as <- <-. by rewrite append_nil_l in Hp.
      * injection Hs as <- <-. rewrite free_of_app, free_of_cons in Ha. apply andb_true_iff in Ha as [Ha [_ Hb']%andb_true_iff].
        by constructor.
    + injection Hs as <- <-. apply cut_last_none_iff in E. by constructor.
Qed.

(** Parsing, once the spec is cut at its last [@]. *)
Definition parse_head (spec head guestPath suffix : string) : result error Source :=
  if HasPrefix head "hostdir:" then parse_hostdir spec head guestPath suffix
  else if HasPrefix head "nfs://" then parse_nfs spec head guestPath suffix
  else if HasPrefix head "smb://" then parse_smb spec head guestPath suffix
  else if HasPrefix head "block:" then parse_block spec head guestPath suffix
  else if HasPrefix head "usb:" then parse_usb spec head guestPath suffix
  else err_spec "media spec: unknown kind" spec.

Lemma ParseSpec_iff spec s : ParseSpec spec = Ok s ↔
  ∃ head g suf tail, head ≠ "" ∧ spec = head +:+ String "@" tail ∧ tail_of g suf tail ∧ parse_head spec head g suf = Ok s.
Proof.
  unfold ParseSpec. fold parse_head. split.
  - destruct (cut_last "@" spec) as [[head tail]|] eqn:E; [|done]. apply cut_last_iff in E as [-> Ht].
    case_bool_decide as Hh; [done|]. case_bool_decide as Htl; [done|]. cbn [orb].
    destruct (split_suffix tail) as [g suf] eqn:Hs. destruct (HasPrefix g "/") eqn:Hg; [|done]. cbn [negb]. intros H.
    exists head, g, suf, tail. split_and!; [done|done|by apply tail_of_iff|exact H].
  - intros (head & g & suf & tail & Hh & -> & Ht%tail_of_iff & H). destruct Ht as (Ha & Hs & Hg).
    rewrite (proj2 (cut_last_iff "@" _ head tail) (conj eq_refl Ha)), Hs, Hg.
    rewrite (bool_decide_false (head = "")) by done. rewrite bool_decide_false; [exact H|].
    intros ->. injection Hs as <- <-. done.
Qed.

(** Which of the forms a head has is decided by its prefix. *)
Lemma parse_head_forms spec x g suf :
  parse_head spec ("hostdir:" +:+ x) g suf = parse_hostdir spec ("hostdir:" +:+ x) g suf ∧
  parse_head spec ("nfs://" +:+ x) g suf = parse_nfs spec ("nfs://" +:+ x) g suf ∧
  parse_head spec ("smb://" +:+ x) g suf = parse_smb spec ("smb://" +:+ x) g suf ∧
  parse_head spec ("block:" +:+ x) g suf = parse_block spec ("block:" +:+ x) g suf ∧
  parse_head spec ("usb:" +:+ x) g suf = parse_usb spec ("usb:" +:+ x) g suf.
Proof. split_and!; reflexivity. Qed.

Lemma parse_head_inv spec head g suf s : parse_head spec head g suf = Ok s → ∃ x,
  (head = "hostdir:" +:+ x ∧ parse_hostdir spec head g suf = Ok s) ∨ (head = "nfs://" +:+ x ∧ parse_nfs spec head g suf = Ok s) ∨
  (head = "smb://" +:+ x ∧ parse_smb spec head g suf = Ok s) ∨ (head = "block:" +:+ x ∧ parse_block spec head g suf = Ok s) ∨
  (head = "usb:" +:+ x ∧ parse_usb spec head g suf = Ok s).
Proof.
  unfold parse_head. destruct (HasPrefix head "hostdir:") eqn:E1; [apply HasPrefix_spec in E1 as [x ->]; eauto 12|].
  destruct (HasPrefix head "nfs://") eqn:E2; [apply HasPrefix_spec in E2 as [x ->]; eauto 12|].
  destruct (HasPrefix head "smb://") eqn:E3; [apply HasPrefix_spec in E3 as [x ->]; eauto 12|].
  destruct (HasPrefix head "block:") eqn:E4; [apply HasPrefix_spec in E4 as [x ->]; eauto 12|].
  destruct (HasPrefix head "usb:") eqn:E5; [apply HasPrefix_spec in E5 as [x ->]; eauto 12|done].
Qed.

Lemma parse_nfs_inv spec x g suf s : parse_nfs spec ("nfs://" +:+ x) g suf = Ok s ↔
  ∃ server export, x = server +:+ String "/" export ∧ free_of "/" server = true ∧ server ≠ "" ∧ export ≠ "" ∧
    s = mkSource KindNFS g (bool_decide (suf = "ro")) "" (Some (mkNFSSource server ("/" +:+ export) "" "")) None None None.
Proof.
  unfold parse_nfs. rewrite TrimPrefix_app. split.
  - destruct (Cut "/" x) as [[server export] [|]] eqn:E; [|done]. apply Cut_iff in E as [-> Hf].
    case_bool_decide; [done|]. case_bool_decide; [done|]. intros [= <-]. eauto 10.
  - intros (server & export & -> & Hf & Hs & He & ->). rewrite (proj2 (Cut_iff "/" _ server export) (conj eq_refl Hf)).
    by rewrite (bool_decide_false (server = "")), (bool_decide_false (export = "")) by done.
Qed.

Lemma parse_smb_inv spec x g suf s : parse_smb spec ("smb://" +:+ x) g suf = Ok s ↔
  ∃ user rest server share, ((user = "" ∧ rest = x ∧ free_of "@" x = true) ∨ (x = user +:+ String "@" rest ∧ free_of "@" user = true)) ∧
    rest = server +:+ String "/" share ∧ free_of "/" server = true ∧ server ≠ "" ∧ share ≠ "" ∧
    s = mkSource KindSMB g (bool_decide (suf = "ro")) "" None (Some (mkSMBSource server share "" user)) None None.
Proof.
  unfold parse_smb. rewrite TrimPrefix_app.
  assert (Hu : ∀ user rest, (match Cut "@" x with (u, r, true) => (u, r) | _ => ("", x) end) = (user, rest) ↔
    (user = "" ∧ rest = x ∧ free_of "@" x = true) ∨ (x = user +:+ String "@" rest ∧ free_of "@" user = true)).
  { intros user rest. rewrite <-Cut_none_iff, <-Cut_iff. destruct (Cut "@" x) as [[u r] [|]]; naive_solver. }
  destruct (match Cut "@" x with (u, r, true) => _ | _ => _ end) as [user rest]. split.
  - pose proof (proj1 (Hu user rest) eq_refl) as Hur. destruct (Cut "/" rest) as [[server share] [|]] eqn:Ec; [|done]. apply Cut_iff in Ec as [-> Hf].
    case_bool_decide; [done|]. case_bool_decide; [done|]. intros [= <-]. eexists user, _, server, share. by split_and!.
  - intros (user' & rest' & server & share & Hur & -> & Hf & Hs & He & ->). apply Hu in Hur.
    injection Hur as -> ->. rewrite (proj2 (Cut_iff "/" _ server share) (conj eq_refl Hf)).
    by rewrite (bool_decide_false (server = "")), (bool_decide_false (share = "")) by done.
Qed.

Lemma parse_usb_inv spec x g suf s : parse_usb spec ("usb:" +:+ x) g suf = Ok s ↔
  ∃ u, s = mkSource KindUSB g false "" None None None (Some (with_fs u suf)) ∧
    ((bus_form x = true ∧ u = usb_bus x) ∨
     (bus_form x = false ∧ ∃ vendor product, x = vendor +:+ String colon product ∧ free_of colon vendor = true ∧ vendor ≠ "" ∧
        product ≠ "" ∧ u = mkUSBSource vendor product "" "" "")).
Proof.
  unfold parse_usb. rewrite TrimPrefix_app. unfold usb_id. fold (bus_form x) (usb_bus x). destruct (bus_form x).
  { split; [intros [= <-]; eexists; by split; [|left]|]. intros (u & -> & [[_ ->]|[? _]]); done. }
  split.
  - destruct (Cut colon x) as [[vendor product] [|]] eqn:E; [|done]. apply Cut_iff in E as [-> Hf].
    case_bool_decide; [done|]. case_bool_decide; [done|]. intros [= <-]. exists (mkUSBSource vendor product "" "" ""). split; [done|]. right. eauto 10.
  - intros (u & -> & [[? _]|(_ & vendor & product & -> & Hf & Hv & Hp & ->)]); [done|].
    rewrite (proj2 (Cut_iff colon _ vendor product) (conj eq_refl Hf)).
    by rewrite (bool_decide_false (vendor = "")), (bool_decide_false (product = "")) by done.
Qed.

Lemma ParseSpec_denotes spec s : ParseSpec spec = Ok s ↔ denotes spec s.
Proof.
  rewrite ParseSpec_iff. split.
  - intros (head & g & suf & tail & _ & -> & Ht & H). apply parse_head_inv in H as (x & [[-> H]|[[-> H]|[[-> H]|[[-> H]|[-> H]]]]]);
      rewrite append_assoc.
    + unfold parse_hostdir in H. rewrite TrimPrefix_app in H. case_bool_decide; [done|]. injection H as <-. by constructor.
    + apply parse_nfs_inv in H as (server & export & -> & Hf & Hs & He & ->). by constructor.
    + apply parse_smb_inv in H as (user & rest & server & share & [(-> & -> & Hx)|[-> Hu]] & Er & Hf & Hs & He & ->); subst; by constructor.
    + unfold parse_block in H. rewrite TrimPrefix_app in H. case_bool_decide; [done|]. injection H as <-. by constructor.
    + apply parse_usb_inv in H as (u & -> & [[Hb ->]|(Hb & vendor & product & -> & Hf & Hv & Hp & ->)]); by constructor.
  - intros Hd. destruct Hd as [dir g suf tail Hne Ht|server export g suf tail Hs Hf He Ht|server share g suf tail Hs Hf He Ha Ht
      |user server share g suf tail Hu Hs Hf He Ht|dev g suf tail Hne Ht|vendor product g suf tail Hv Hf Hp Hb Ht|body g suf tail Hb Ht];
      rewrite <-append_assoc; eexists _, g, suf, tail; (split; [|split; [done|split; [exact Ht|]]]); try done.
    + rewrite (proj1 (parse_head_forms _ _ _ _)). unfold parse_hostdir. rewrite TrimPrefix_app. by rewrite bool_decide_false.
    + rewrite (proj1 (proj2 (parse_head_forms _ _ _ _))). apply parse_nfs_inv. eauto 10.
    + rewrite (proj1 (proj2 (proj2 (parse_head_forms _ _ _ _)))). apply parse_smb_inv. exists "", (server +:+ String "/" share), server, share.
      split_and!; auto.
    + rewrite (proj1 (proj2 (proj2 (parse_head_forms _ _ _ _)))). apply parse_smb_inv.
      exists user, (server +:+ String "/" share), server, share. split_and!; auto.
    + rewrite (proj1 (proj2 (proj2 (proj2 (parse_head_forms _ _ _ _))))). unfold parse_block. rewrite TrimPrefix_app. by rewrite bool_decide_false.
    + rewrite (proj2 (proj2 (proj2 (proj2 (parse_head_forms _ _ _ _))))). apply parse_usb_inv. eexists. split; [done|]. right. eauto 10.
    + rewrite (proj2 (proj2 (proj2 (proj2 (parse_head_forms _ _ _ _))))). apply parse_usb_inv. eexists. split; [done|]. by left.
Qed.


(** Every spec that is parsed can be planned, but for a USB device given by bus
    and address with one of them missing. *)
Theorem parsed_plans spec s d secrets : ParseSpec spec = Ok s →
  is_ok (Plan s d secrets) = true ∨ ∃ u, src_USB s = Some u ∧ usb_device u = None.
Proof.
  rewrite ParseSpec_denotes. intros Hd.
  assert (Hg : ∀ g suf tail, tail_of g suf tail → bool_decide (g = "") = false ∧ HasPrefix g "/" = true).
  { intros g suf tail (_ & _ & Hp)%tail_of_iff. split; [|done]. apply bool_decide_eq_false. by intros ->. }
  destruct Hd as [dir g suf tail Hne Ht|server export g suf tail Hs Hf He Ht|server share g suf tail Hs Hf He Ha Ht
      |user server share g suf tail Hu Hs Hf He Ht|dev g suf tail Hne Ht|vendor product g suf tail Hv Hf Hp Hb Ht|body g suf tail Hb Ht];
    destruct (Hg _ _ _ Ht) as [Hg1 Hg2]; unfold Plan; cbn [src_GuestPath src_Kind src_USB]; rewrite Hg1, Hg2; cbn [negb]; eval_tests.
  - left. unfold planHostDir. cbn [src_HostDir]. by rewrite bool_decide_false.
  - left. unfold planNFS. cbn [src_NFS nfs_Server nfs_Export]. by rewrite (bool_decide_false (server = "")).
  - left. unfold planSMB. cbn [src_SMB smb_Server smb_Share]. rewrite !bool_decide_false by done. by destruct (secrets !! _).
  - left. unfold planSMB. cbn [src_SMB smb_Server smb_Share]. rewrite (bool_decide_false (server = "")), (bool_decide_false (share = "")) by done. by destruct (secrets !! _).
  - left. unfold planBlock. cbn [src_Block bs_DevPath]. by rewrite (bool_decide_false (dev = "")).
  - left. unfold planUSB, usb_device. cbn [src_USB with_fs usb_VendorID usb_ProductID]. by rewrite (bool_decide_false (vendor = "")), (bool_decide_false (product = "")).
  - unfold planUSB. cbn [src_USB]. destruct (usb_device (with_fs (usb_bus body) suf)) eqn:E; [by left|right]. eauto.
Qed.

(** ** Names of units

    How systemd names the unit of a path (systemd.unit(5)): slashes around the
    path and doubled ones go, the others become dashes, and a byte that is not a
    letter, a digit or one of [:], [_] and [.], or a dot in front, is written in
    hexadecimal. *)
Definition unit_plain (c : ascii) : bool :=
  is_digit c || in_range "a" "z" c || in_range "A" "Z" c || bool_decide (c ∈ [":"; "_"; "."]%char).
Definition hex_escape (c : ascii) : string := "\x" +:+ hex_string [code c].
Definition unit_char (c : ascii) : string :=
  if is_slash c then "-" else if unit_plain c then String c "" else hex_escape c.
Definition path_parts (p : string) : list string := filter (λ x, x ≠ "" ∧ x ≠ ".") (Split "/" p).
Definition systemd_escape (p : string) : string :=
  match Join "/" (path_parts p) with
  | "" => "-"
  | String c s => (if bool_decide (c = "."%char) then hex_escape c else unit_char c) +:+ concat_map unit_char s
  end.

(** A part of a path made of plain characters and spaces. *)
Definition plain_part (x : string) : Prop :=
  x ≠ "" ∧ x ≠ "." ∧ sforall (λ c, unit_plain c || bool_decide (c = " "%char)) x = true.


Lemma plain_no_slash x : plain_part x → sforall (λ c, negb (is_slash c)) x = true ∧ free_of "/" x = true.
Proof.
  intros (_ & _ & Hx). assert (sforall (λ c, negb (is_slash c)) x = true) as H; [|split; exact H].
  induction x as [|c x IH]; [done|]. cbn in Hx |- *. apply andb_true_iff in Hx as [Hc Hx]. rewrite IH by done.
  rewrite andb_true_r. apply negb_true_iff, bool_decide_eq_false. intros ->. by vm_compute in Hc.
Qed.

Lemma Join_cons2 sep x y l : Join sep (x :: y :: l) = x +:+ sep +:+ Join sep (y :: l).
Proof. reflexivity. Qed.

Lemma Join_nonempty x l : x ≠ "" → Join "/" (x :: l) ≠ "".
Proof. destruct l, x; done. Qed.

Lemma trim_parts ps : Forall plain_part ps → ps ≠ [] → Trim is_slash ("/" +:+ Join "/" ps) = Join "/" ps.
Proof.
  intros Hps Hne. unfold Trim. assert (trim_left is_slash ("/" +:+ Join "/" ps) = Join "/" ps) as ->.
  { destruct ps as [|x ps]; [done|]. apply Forall_cons in Hps as [Hx _]. destruct (plain_no_slash x Hx) as [Hs _].
    destruct Hx as (Hx & _). destruct x as [|c x]; [done|]. cbn in Hs. apply andb_true_iff in Hs as [Hc%negb_true_iff _].
    change ("/" +:+ ?s) with (String "/" s). destruct ps; cbn [Join]; rewrite ?append_cons; cbn [trim_left]; by rewrite Hc. }
  induction ps as [|x ps IH]; [done|]. apply Forall_cons in Hps as [Hx Hps]. destruct ps as [|y ps].
  - cbn [Join]. apply trim_right_id. by apply plain_no_slash.
  - rewrite Join_cons2, <-append_assoc. rewrite trim_right_app.
    + by rewrite IH.
    + rewrite IH by done. apply Join_nonempty. apply Forall_cons in Hps as [[? _] _]. done.
Qed.

Lemma concat_map_ext f g s : sforall (λ c, bool_decide (f c = g c)) s = true → concat_map f s = concat_map g s.
Proof.
  induction s as [|c s IH]; [done|]. cbn. intros [Hc Hs]%andb_true_iff. apply bool_decide_eq_true in Hc.
  unfold concat_map in *. cbn. by rewrite Hc, IH.
Qed.

Lemma filter_Forall {A} (P : A → Prop) `{∀ x, Decision (P x)} l : Forall P l → filter P l = l.
Proof. induction 1 as [|x l Hx Hl IH]; [done|]. rewrite filter_cons, decide_True by done. by rewrite IH. Qed.

Lemma path_parts_join ps : Forall plain_part ps → ps ≠ [] → path_parts ("/" +:+ Join "/" ps) = ps.
Proof.
  intros Hps Hne. unfold path_parts. change ("/" +:+ Join "/" ps) with ("" +:+ "/" +:+ Join "/" ps).
  assert ("" +:+ "/" +:+ Join "/" ps = Join (String "/" "") ("" :: ps)) as -> by by destruct ps.
  rewrite Split_Join; [|done|].
  - cbn. rewrite decide_False by naive_solver. apply filter_Forall. eapply Forall_impl; [exact Hps|]. intros x (? & ? & _). done.
  - constructor; [done|]. eapply Forall_impl; [exact Hps|]. intros x Hx. by apply plain_no_slash.
Qed.

(** A space or a plain character is written as systemd writes it. *)
Lemma unit_char_plain c : unit_plain c || bool_decide (c = " "%char) || is_slash c = true →
  (if is_slash c then "-" else if bool_decide (c = " "%char) then "\x20" else String c "") = unit_char c.
Proof.
  unfold unit_char. destruct (is_slash c); [done|]. rewrite orb_false_r. case_bool_decide as Hs; [subst; reflexivity|].
  rewrite orb_false_r. by intros ->.
Qed.

Lemma plain_join f sep ps : sforall f sep = true → Forall (λ x, sforall f x = true) ps → sforall f (Join sep ps) = true.
Proof.
  intros Hs. induction 1 as [|x ps Hx Hps IH]; [done|]. destruct ps as [|y ps]; [done|].
  rewrite Join_cons2, !sforall_app, Hx, Hs, IH. done.
Qed.

(** Mount units have the names systemd looks for.  For a guest path whose
    parts are made of letters, digits, [:], [_], [.] and spaces, and that has no
    dot in front, the name vee gives the unit is the one systemd derives from
    the path, so the unit's [Where] matches its file name. *)
Theorem unit_name_systemd ps : Forall plain_part ps → ps ≠ [] → HasPrefix (Join "/" ps) "." = false →
  unitName ("/" +:+ Join "/" ps) = systemd_escape ("/" +:+ Join "/" ps).
Proof.
  intros Hps Hne Hd. unfold unitName, systemd_escape. rewrite trim_parts, path_parts_join by done.
  assert (Hj : Join "/" ps ≠ "").
  { destruct ps as [|x ps]; [done|]. apply Forall_cons in Hps as [[? _] _]. by apply Join_nonempty. }
  assert (Hall : sforall (λ c, bool_decide ((if is_slash c then "-" else if bool_decide (c = " "%char) then "\x20" else String c "")
                                            = unit_char c)) (Join "/" ps) = true).
  { eapply sforall_impl; [intros c Hc; apply bool_decide_eq_true, unit_char_plain; exact Hc|]. apply plain_join; [done|].
    eapply Forall_impl; [exact Hps|]. intros x (_ & _ & Hx). eapply sforall_impl; [|exact Hx]. intros c Hc. by rewrite Hc. }
  rewrite bool_decide_false by done. rewrite (concat_map_ext _ unit_char) by exact Hall.
  destruct (Join "/" ps) as [|c s]; [done|]. cbn in Hd. rewrite andb_true_r in Hd.
  assert (bool_decide (c = "."%char) = false) as ->; [|done]. apply bool_decide_eq_false. intros ->. by rewrite bool_decide_true in Hd.
Qed.

Module MediaExample.
Definition movies : list string := ["media"; "my movies"].
Lemma unit_name_systemd_witness : Forall plain_part movies ∧
  unitName "/media/my movies" = systemd_escape "/media/my movies".
Proof.
  assert (H : Forall plain_part movies) by (repeat constructor; discriminate). split; [exact H|].
  apply (unit_name_systemd movies); [exact H|discriminate|reflexivity].
Defined.

Definition smb : Source := mkSource KindSMB "/media/music" false "" None (Some (mkSMBSource "nas" "music" "" "")) None None.
Definition terminal : PendingPrompt → result error string := λ _, Ok "hunter2".
Lemma collected_secrets_suffice_witness : ∃ secrets, collectMediaSecrets terminal [smb] = Ok secrets ∧
  ∃ p, gather_media [smb] secrets emptyPatch [] = Ok (p, []).
Proof.
  exists {[ "smb-password:nas/music" := "hunter2" ]}. assert (H : collectMediaSecrets terminal [smb] =
    Ok {[ "smb-password:nas/music" := "hunter2" ]}) by (vm_compute; reflexivity).
  split; [exact H|]. apply (collected_secrets_suffice terminal [smb] _ H).
Defined.
Lemma secrets_confined_witness : ∃ p prompts p' prompts', Plan smb "ubuntu" ∅ = Ok (p, prompts) ∧
  Plan smb "ubuntu" {[ "smb-password:nas/music" := "hunter2" ]} = Ok (p', prompts') ∧ p_RunCmds p' = p_RunCmds p.
Proof.
  destruct (Plan smb "ubuntu" ∅) as [[p prompts]|] eqn:H; [|vm_compute in H; discriminate H].
  destruct (secrets_confined smb "ubuntu" ∅ {[ "smb-password:nas/music" := "hunter2" ]} p prompts H)
    as (p' & prompts' & H' & _ & _ & _ & _ & Hr & _).
  exists p, prompts, p', prompts'. split; [reflexivity|]. split; [exact H'|exact Hr].
Defined.
End MediaExample.

(** *** Surprising behaviour *)
(** A block device asked for read-only is attached for writing. *)
Example block_ro_writable : ∃ s p q, ParseSpec "block:/dev/disk/by-id/ata-X@/data:ro" = Ok s ∧ Plan s "ubuntu" ∅ = Ok (p, q) ∧
  d_Readonly <$> p_Disks p = [false].
Proof. eexists _, _, _. split; [reflexivity|]. split; reflexivity. Qed.

(** A shared directory asked for read-only is exported for writing: only the
    guest's own mount option says otherwise. *)
Example hostdir_ro_exported_writable : ∃ s p q, ParseSpec "hostdir:/srv/photos@/media/photos:ro" = Ok s ∧
  Plan s "ubuntu" ∅ = Ok (p, q) ∧ vf_Readonly <$> p_VirtiofsMounts p = [false].
Proof. eexists _, _, _. split; [reflexivity|]. split; reflexivity. Qed.

(** The unit of a path with a dash has a name systemd does not look for. *)
Example dashed_path_unit : unitName "/media/my-movies" = "media-my-movies" ∧
  systemd_escape "/media/my-movies" = "media-my\x2dmovies".
Proof. split; reflexivity. Qed.

(** Two guest paths share a unit, and a virtiofs tag. *)
Example units_collide : unitName "/media/a/b" = unitName "/media/a-b" ∧ virtiofsTag "/media/a/b" = virtiofsTag "/media/a-b".
Proof. split; reflexivity. Qed.
