(* ===== verification/Vpn.v ===== *)
(** * VPN configurations (internal/vpn)

    WireGuard configuration files, key pairs, and the exchange of a NordVPN
    token for a WireGuard configuration.

    What NordVPN's API answers is the [NordEnv]; the decoding of its JSON is a
    parameter too, since the source leaves it to a library.  So are the random
    bytes of a key and the Curve25519 function. *)
From S2P Require Import Prelude GoStrings Config Guest Sha1 Images Media.

Open Scope Z_scope.

Record NordVPNConfig := mkNordVPNConfig { nord_Token : string; nord_Country : string }.
Record WireGuardConfig := mkWireGuardConfig {
  wg_PrivateKey : string;
  wg_Address : string;
  wg_DNS : string;
  wg_Endpoint : string;
  wg_PublicKey : string;
}.
#[export] Instance WireGuardConfig_eta : Settable WireGuardConfig := λ c,
  mkWireGuardConfig (wg_PrivateKey c) (wg_Address c) (wg_DNS c) (wg_Endpoint c) (wg_PublicKey c).
Definition zeroWireGuard : WireGuardConfig := mkWireGuardConfig "" "" "" "" "".

(** ** Configuration files *)
Definition equals : ascii := "=".
Definition wg_set (cfg : WireGuardConfig) (k v : string) : WireGuardConfig :=
  if bool_decide (k = "PrivateKey") then cfg <| wg_PrivateKey := v |>
  else if bool_decide (k = "Address") then cfg <| wg_Address := v |>
  else if bool_decide (k = "DNS") then cfg <| wg_DNS := v |>
  else if bool_decide (k = "PublicKey") then cfg <| wg_PublicKey := v |>
  else if bool_decide (k = "Endpoint") then cfg <| wg_Endpoint := v |>
  else cfg.
Definition wg_line (cfg : WireGuardConfig) (line : string) : WireGuardConfig :=
  let '(k, v, ok) := Cut equals (TrimSpace line) in
  if (ok : bool) then wg_set cfg (TrimSpace k) (TrimSpace v) else cfg.
Definition ParseWireGuardConf (content : string) : result error WireGuardConfig :=
  let cfg := foldl wg_line zeroWireGuard (Split newline content) in
  if bool_decide (wg_PrivateKey cfg = "") || bool_decide (wg_PublicKey cfg = "") || bool_decide (wg_Endpoint cfg = "")
  then Err (Errorf "WireGuard config missing required fields" [])
  else Ok cfg.

Definition RenderWireGuardConf (cfg : WireGuardConfig) : string :=
  unlines ["[Interface]";
           "PrivateKey = " +:+ wg_PrivateKey cfg;
           "Address = " +:+ wg_Address cfg;
           "DNS = " +:+ wg_DNS cfg;
           "";
           "[Peer]";
           "PublicKey = " +:+ wg_PublicKey cfg;
           "AllowedIPs = 0.0.0.0/0, ::/0";
           "Endpoint = " +:+ wg_Endpoint cfg;
           "PersistentKeepalive = 25"].

(** ** Base64 ([encoding/base64]) *)
Module Base64.
Definition std : string := "ABCDEFGHIJKLMNOPQRSTUVWXYZabcdefghijklmnopqrstuvwxyz0123456789+/".
Definition url : string := "ABCDEFGHIJKLMNOPQRSTUVWXYZabcdefghijklmnopqrstuvwxyz0123456789-_".
Definition digit (alphabet : string) (n : N) : ascii := default "A"%char (String.get (N.to_nat n) alphabet).

(** Three bytes are four digits; the padding of a short last group is
    [pad], which is empty for the raw encodings. *)
Fixpoint encode (alphabet pad : string) (bs : list N) : string :=
  match bs with
  | [] => ""
  | [a] => String (digit alphabet (a / 4)) (String (digit alphabet (a mod 4 * 16)) (pad +:+ pad))
  | [a; b] => String (digit alphabet (a / 4)) (String (digit alphabet (a mod 4 * 16 + b / 16))
                (String (digit alphabet (b mod 16 * 4)) pad))
  | a :: b :: c :: bs =>
      String (digit alphabet (a / 4)) (String (digit alphabet (a mod 4 * 16 + b / 16))
        (String (digit alphabet (b mod 16 * 4 + c / 64)) (String (digit alphabet (c mod 64)) (encode alphabet pad bs))))
  end%N.
Definition EncodeToString (bs : list N) : string := encode std "=" bs.
Definition RawURLEncodeToString (bs : list N) : string := encode url "" bs.
End Base64.

(** ** Key pairs *)
Record WireGuardKeyPair := mkWireGuardKeyPair { kp_PrivateKey : string; kp_PublicKey : string }.
(** The private key as RFC 7748 clamps it. *)
Definition clamp (priv : list N) : list N :=
  let priv := <[0%nat := N.land (nth 0 priv 0%N) 248]> priv in
  <[31%nat := N.lor (N.land (nth 31 priv 0%N) 127) 64]> priv.
(** [random]: the 32 bytes of [rand.Read]; [X25519]: the point for a scalar
    over the base point. *)
Definition GenerateWireGuardKeyPair (X25519 : list N → result error (list N)) (random : result error (list N))
  : result error WireGuardKeyPair :=
  match random with
  | Err e => Err (Wrapf "generate private key" e)
  | Ok r =>
      match X25519 (clamp r) with
      | Err e => Err (Wrapf "derive public key" e)
      | Ok pub => Ok (mkWireGuardKeyPair (Base64.EncodeToString (clamp r)) (Base64.EncodeToString pub))
      end
  end.

(** ** NordVPN *)
Record nordWireGuardServer := mknordWireGuardServer { ns_Hostname : string; ns_Station : string; ns_PublicKey : string }.
(** One recommended server as the API describes it. *)
Record nordTechnology := mknordTechnology { nt_Identifier : string; nt_Metadata : list (string * string) }.
Record nordServer := mknordServer { nv_Hostname : string; nv_Station : string; nv_Technologies : list nordTechnology }.

Record NordEnv := mkNordEnv {
  (** [hc.Do] of a GET, with the token of the basic authentication *)
  na_do : option string → string → result error Response;
  (** [json.Unmarshal] of the three answers *)
  na_credentials : string → result error string;
  na_servers : string → result error (list nordServer);
  na_countries : string → result error (list (Z * string));
}.

Section Nord.
Context (env : NordEnv).
Definition nordAPIBase : string := "https://api.nordvpn.com/v1".

Definition rejected : error := Errorf "NordVPN rejected the access token" [].
Definition is_rejected (code : Z) : bool := (code =? 401) || (code =? 403).
Definition empty_token : error := Errorf "NordVPN access token is empty" [].

Definition ValidateToken (token : string) : result error unit :=
  if bool_decide (TrimSpace token = "") then Err empty_token else
  match na_do env (Some token) (nordAPIBase +:+ "/users/services/credentials") with
  | Err e => Err (Wrapf "NordVPN API unreachable" e)
  | Ok resp =>
      if is_rejected (r_StatusCode resp) then Err rejected
      else if negb (r_StatusCode resp =? 200) then Err (Errorf "NordVPN token check failed: HTTP" [Itoa (r_StatusCode resp)])
      else Ok tt
  end.

(** [sort.Strings] *)
Definition string_le (a b : string) : Prop := string_gt a b = false.
#[export] Instance string_le_dec a b : Decision (string_le a b) := decide (string_gt a b = false).
Definition Countries : result error (list string) :=
  match na_do env None (nordAPIBase +:+ "/servers/countries") with
  | Err e => Err (Wrapf "fetch countries" e)
  | Ok resp =>
      match na_countries env (r_Body resp) with
      | Err e => Err (Wrapf "parse countries" e)
      | Ok raw => Ok (merge_sort string_le (filter (λ n, n ≠ "") raw.*2))
      end
  end.

Definition nordLynxPrivateKey (token : string) : result error string :=
  match na_do env (Some token) (nordAPIBase +:+ "/users/services/credentials") with
  | Err e => Err (Wrapf "NordVPN API unreachable" e)
  | Ok resp =>
      if is_rejected (r_StatusCode resp) then Err rejected
      else if negb (r_StatusCode resp =? 200) then Err (Errorf "NordVPN credentials request failed: HTTP" [Itoa (r_StatusCode resp)])
      else
        match na_credentials env (r_Body resp) with
        | Err e => Err (Wrapf "parse NordVPN credentials" e)
        | Ok key => if bool_decide (key = "") then Err (Errorf "NordVPN returned no NordLynx key for this account" []) else Ok key
        end
  end.

(** [strings.EqualFold] of ASCII names *)
Definition EqualFold (a b : string) : bool := bool_decide (ToLower a = ToLower b).
Fixpoint country_id (country : string) (raw : list (Z * string)) : option Z :=
  match raw with
  | [] => None
  | (id, name) :: raw => if EqualFold name country then Some id else country_id country raw
  end.
Definition nordCountryID (country : string) : result error Z :=
  match na_do env None (nordAPIBase +:+ "/servers/countries") with
  | Err e => Err (Wrapf "fetch NordVPN countries" e)
  | Ok resp =>
      match na_countries env (r_Body resp) with
      | Err e => Err (Wrapf "parse NordVPN countries" e)
      | Ok raw => match country_id country raw with
                  | Some id => Ok id
                  | None => Err (Errorf "NordVPN has no servers in a country named" [country])
                  end
      end
  end.

(** The first public key of the WireGuard technology. *)
Definition key_of (m : string * string) : option string :=
  if bool_decide (m.1 = "public_key") && negb (bool_decide (m.2 = "")) then Some m.2 else None.
Definition server_key (s : nordServer) : option string :=
  head (omap key_of (mjoin (nt_Metadata <$> filter (λ t, nt_Identifier t = "wireguard_udp") (nv_Technologies s)))).

Definition recommendations : string :=
  nordAPIBase +:+ "/servers/recommendations?filters[servers_technologies][identifier]=wireguard_udp&limit=1".
Definition recommendation_url (country : string) : result error string :=
  if bool_decide (country = "") then Ok recommendations else
  match nordCountryID country with
  | Err e => Err e
  | Ok id => Ok (recommendations +:+ "&filters[country_id]=" +:+ Itoa id)
  end.
Definition nordRecommendedWireGuardServer (country : string) : result error nordWireGuardServer :=
  match recommendation_url country with
  | Err e => Err e
  | Ok url =>
      match na_do env None url with
      | Err e => Err (Wrapf "fetch NordVPN server recommendation" e)
      | Ok resp =>
          match na_servers env (r_Body resp) with
          | Err e => Err (Wrapf "parse NordVPN recommendations" e)
          | Ok [] => Err (if bool_decide (country = "") then Errorf "NordVPN returned no WireGuard servers" []
                          else Errorf "NordVPN has no WireGuard servers available in" [country])
          | Ok (s :: _) =>
              match server_key s with
              | Some k => Ok (mknordWireGuardServer (nv_Hostname s) (nv_Station s) k)
              | None => Err (Errorf "NordVPN server advertises no WireGuard public key" [nv_Hostname s])
              end
          end
      end
  end.

Definition NordLynxConfig (token country : string) : result error WireGuardConfig :=
  if bool_decide (TrimSpace token = "") then Err empty_token else
  match nordLynxPrivateKey token with
  | Err e => Err e
  | Ok privateKey =>
      match nordRecommendedWireGuardServer country with
      | Err e => Err e
      | Ok server =>
          Ok (mkWireGuardConfig privateKey "10.5.0.2/32" "103.86.96.100" (ns_Hostname server +:+ ":51820") (ns_PublicKey server))
      end
  end.
End Nord.

(** ** Reading back a rendered configuration *)
Definition plain_value (v : string) : bool := bool_decide (TrimSpace v = v) && free_of newline v.
Definition plain_key (k : string) : bool :=
  negb (bool_decide (k = "")) && sforall (λ c, negb (is_space c) && negb (bool_decide (c = equals))) k.

Lemma trim_right_cons f c s : trim_right f s ≠ "" → trim_right f (String c s) = String c (trim_right f s).
Proof. intros H. cbn. by destruct (trim_right f s). Qed.
Lemma TrimSpace_fixed v : TrimSpace v = v → trim_right is_space v = v ∧ head_ok is_space v = true.
Proof.
  unfold TrimSpace, Trim. intros H. rewrite <-H. split; [apply trim_right_idemp|]. apply trim_right_head, trim_left_head.
Qed.

Lemma wg_line_kv cfg k v : plain_key k = true → TrimSpace v = v → wg_line cfg (k +:+ " = " +:+ v) = wg_set cfg k v.
Proof.
  intros [Hk Hc]%andb_true_iff Hv. apply negb_true_iff, bool_decide_eq_false in Hk.
  pose proof (TrimSpace_fixed v Hv) as [Hr Hh].
  assert (sforall (λ c, negb (is_space c)) k = true) as Hs.
  { eapply sforall_impl; [|exact Hc]. intros c. by intros [? _]%andb_true_iff. }
  assert (free_of equals k = true) as Hf.
  { eapply sforall_impl; [|exact Hc]. intros c. by intros [_ ?]%andb_true_iff. }
  unfold wg_line. assert (∃ w, TrimSpace (k +:+ " = " +:+ v) = (k +:+ " ") +:+ String equals w ∧ TrimSpace w = v) as (w & -> & Hw).
  { unfold TrimSpace at 1, Trim. rewrite trim_left_fixed.
    2:{ destruct k as [|c k]; [done|]. cbn [sforall] in Hs. by apply andb_true_iff in Hs as [? _]. }
    exists (trim_right is_space (String " " v)). split.
    - change (" = " +:+ v) with (" " +:+ String equals (String " " v)). rewrite <-append_assoc. rewrite trim_right_app.
      + f_equal. destruct v as [|c v]; [done|]. rewrite (trim_right_cons _ equals); [done|].
        by rewrite trim_right_cons, Hr by by rewrite Hr.
      + cbn. by destruct (trim_right is_space v).
    - destruct v as [|c v]; [done|]. rewrite trim_right_cons, Hr by by rewrite Hr.
      change (TrimSpace (String " " (String c v))) with (TrimSpace (String c v)). exact Hv. }
  rewrite (proj2 (Cut_iff equals _ (k +:+ " ") w)).
  - rewrite Hw. f_equal. unfold TrimSpace, Trim. rewrite trim_left_fixed.
    2:{ destruct k as [|c k]; [done|]. cbn [sforall] in Hs. by apply andb_true_iff in Hs as [? _]. }
    clear -Hs. induction k as [|c k IH]; [done|]. rewrite append_cons. cbn in Hs |- *. apply andb_true_iff in Hs as [Hc Hs].
    rewrite IH by done. apply negb_true_iff in Hc. rewrite Hc. by destruct k.
  - split; [done|]. by rewrite free_of_app, Hf.
Qed.

Lemma wg_line_at cfg line k v : line = k +:+ " = " +:+ v → plain_key k = true → TrimSpace v = v → wg_line cfg line = wg_set cfg k v.
Proof. intros ->. apply wg_line_kv. Qed.

(** C23: A WireGuard configuration survives being written for the guest.  A
    configuration whose fields are single lines without blanks around them, and
    which has its two keys and its endpoint, is what the parser reads from the
    [wg0.conf] rendered for it; the keys may contain any number of equals
    signs, as base64 text does. *)
Theorem wg_conf_roundtrip cfg :
  Forall (λ v, plain_value v = true) [wg_PrivateKey cfg; wg_Address cfg; wg_DNS cfg; wg_Endpoint cfg; wg_PublicKey cfg] →
  wg_PrivateKey cfg ≠ "" → wg_PublicKey cfg ≠ "" → wg_Endpoint cfg ≠ "" →
  ParseWireGuardConf (RenderWireGuardConf cfg) = Ok cfg.
Proof.
  intros Hp H1 H2 H3. rewrite !Forall_cons in Hp. destruct Hp as (P1 & P2 & P3 & P4 & P5 & _).
  unfold plain_value in *. apply andb_true_iff in P1 as [T1%bool_decide_eq_true F1], P2 as [T2%bool_decide_eq_true F2],
    P3 as [T3%bool_decide_eq_true F3], P4 as [T4%bool_decide_eq_true F4], P5 as [T5%bool_decide_eq_true F5].
  unfold ParseWireGuardConf, RenderWireGuardConf. rewrite Split_unlines.
  2:{ repeat (apply Forall_cons; split; [rewrite ?free_of_app, ?F1, ?F2, ?F3, ?F4, ?F5; done|]). apply Forall_nil_2. }
  cbn [foldl app].
  change (wg_line zeroWireGuard "[Interface]") with zeroWireGuard.
  rewrite (wg_line_at _ ("PrivateKey = " +:+ wg_PrivateKey cfg) "PrivateKey" (wg_PrivateKey cfg)) by done.
  rewrite (wg_line_at _ ("Address = " +:+ wg_Address cfg) "Address" (wg_Address cfg)) by done.
  rewrite (wg_line_at _ ("DNS = " +:+ wg_DNS cfg) "DNS" (wg_DNS cfg)) by done.
  rewrite (wg_line_at _ ("PublicKey = " +:+ wg_PublicKey cfg) "PublicKey" (wg_PublicKey cfg)) by done.
  rewrite (wg_line_at _ ("Endpoint = " +:+ wg_Endpoint cfg) "Endpoint" (wg_Endpoint cfg)) by done.
  cbn.
  by rewrite !bool_decide_false; destruct cfg.
Qed.

Lemma country_id_named country raw id : country_id country raw = Some id → ∃ name, (id, name) ∈ raw ∧ EqualFold name country = true.
Proof.
  induction raw as [|[i n] raw IH]; [done|]. cbn. destruct (EqualFold n country) eqn:E.
  - intros [= ->]. exists n. split; [left|done].
  - intros (name & ? & ?)%IH. exists name. split; [by right|done].
Qed.
Lemma server_key_advertised s k : server_key s = Some k →
  k ≠ "" ∧ ∃ t, t ∈ nv_Technologies s ∧ nt_Identifier t = "wireguard_udp" ∧ ("public_key", k) ∈ nt_Metadata t.
Proof.
  unfold server_key. intros H%head_Some_elem_of. apply list_elem_of_omap in H as ([n v] & Hm & Hk).
  apply list_elem_of_join in Hm as (md & Hm & Ht). apply list_elem_of_fmap in Ht as (t & -> & [Hi Ht]%list_elem_of_filter).
  unfold key_of in Hk. cbn in Hk. destruct (bool_decide_reflect (n = "public_key")) as [->|]; [|done].
  destruct (bool_decide_reflect (v = "")) as [|]; [done|]. cbn in Hk. simplify_eq. split; [done|]. by exists t.
Qed.

(** A token is exchanged for a tunnel into the country asked for, or
    refused.  When a country is named and a configuration comes back, the
    countries the API lists have an entry of that name (up to case), the
    request for a server carried that entry's number, and the configuration
    has the host name of the server answered, on port 51820, a public key that
    server advertises for WireGuard, and the account's own private key. *)
Theorem nordlynx_country env token country cfg : country ≠ "" → NordLynxConfig env token country = Ok cfg →
  ∃ countries raw id name reply server servers key creds,
    na_do env None (nordAPIBase +:+ "/servers/countries") = Ok countries ∧ na_countries env (r_Body countries) = Ok raw ∧
    (id, name) ∈ raw ∧ EqualFold name country = true ∧
    na_do env None (recommendations +:+ "&filters[country_id]=" +:+ Itoa id) = Ok reply ∧
    na_servers env (r_Body reply) = Ok (server :: servers) ∧
    na_do env (Some token) (nordAPIBase +:+ "/users/services/credentials") = Ok creds ∧
    na_credentials env (r_Body creds) = Ok (wg_PrivateKey cfg) ∧
    wg_Endpoint cfg = nv_Hostname server +:+ ":51820" ∧ wg_PublicKey cfg = key ∧ key ≠ "" ∧
    ∃ t, t ∈ nv_Technologies server ∧ nt_Identifier t = "wireguard_udp" ∧ ("public_key", key) ∈ nt_Metadata t.
Proof.
  intros Hc. unfold NordLynxConfig. case_bool_decide; [done|].
  unfold nordLynxPrivateKey. destruct (na_do env (Some token) _) as [creds|e] eqn:Hd; [|done].
  destruct (is_rejected (r_StatusCode creds)); [done|]. destruct (negb _); [done|].
  destruct (na_credentials env _) as [priv|e] eqn:Hp; [|done]. case_bool_decide; [done|].
  unfold nordRecommendedWireGuardServer, recommendation_url. rewrite bool_decide_false by done.
  unfold nordCountryID. destruct (na_do env None (nordAPIBase +:+ "/servers/countries")) as [cs|e] eqn:Hcs; [|done].
  destruct (na_countries env _) as [raw|e] eqn:Hraw; [|done]. destruct (country_id country raw) as [id|] eqn:Hid; [|done].
  destruct (country_id_named _ _ _ Hid) as (name & Hin & Heq).
  destruct (na_do env None (recommendations +:+ _)) as [reply|e] eqn:Hr; [|done].
  destruct (na_servers env _) as [[|server servers]|e] eqn:Hs; [done| |done].
  destruct (server_key server) as [key|] eqn:Hk; [|done]. intros [= <-]. cbn.
  destruct (server_key_advertised _ _ Hk) as [Hne Ht].
  exists cs, raw, id, name, reply, server, servers, key, creds. done.
Qed.

Module VpnExample.
Definition cfg : WireGuardConfig :=
  mkWireGuardConfig "cHJpdmF0ZQ==" "10.5.0.2/32" "" "nl1254.nordvpn.com:51820" "cHVibGljaw==".
Definition server : nordServer :=
  mknordServer "nl1254.nordvpn.com" "192.0.2.10"
    [mknordTechnology "openvpn_udp" []; mknordTechnology "wireguard_udp" [("public_key", "cHVibGljaw==")]].
(** The stub server of the tests: Germany and the Netherlands. *)
Definition env : NordEnv := {|
  na_do := λ auth url, Ok (mkResponse 200 url None);
  na_credentials := λ _, Ok "cHJpdmF0ZQ==";
  na_servers := λ body, Ok (if HasSuffix body "=153" then [server] else []);
  na_countries := λ _, Ok [(81, "Germany"); (153, "Netherlands")];
|}.

Lemma wg_conf_roundtrip_witness : ParseWireGuardConf (RenderWireGuardConf cfg) = Ok cfg.
Proof. apply wg_conf_roundtrip; [repeat constructor|done|done|done]. Defined.

Lemma nordlynx_country_witness : ∃ cfg, NordLynxConfig env "tok" "netherlands" = Ok cfg ∧ wg_Endpoint cfg = "nl1254.nordvpn.com:51820".
Proof.
  eexists. split; [vm_compute; reflexivity|].
  destruct (nordlynx_country env "tok" "netherlands" (mkWireGuardConfig "cHJpdmF0ZQ==" "10.5.0.2/32" "103.86.96.100" "nl1254.nordvpn.com:51820" "cHVibGljaw=="))
    as (cs & raw & id & name & reply & s & ss & key & cr & _); [done|vm_compute; reflexivity|]. reflexivity.
Defined.

Example unknown_country : is_ok (NordLynxConfig env "tok" "Atlantis") = false.
Proof. vm_compute. reflexivity. Qed.
Example base64_padding : Base64.EncodeToString [77; 97]%N = "TWE=" ∧ Base64.RawURLEncodeToString [251; 255]%N = "-_8".
Proof. vm_compute. done. Qed.
End VpnExample.
