(* ===== verification/KillSwitch.v ===== *)
(** * Guests behind a VPN (internal/templates: wgkillswitch, torrent,
    torrent_alpine, bitmagnet, qbittorrent)

    The files and first-boot commands of the guests whose traffic must not
    leave outside a WireGuard tunnel: the endpoint's addresses and their
    refresh, the [iptables] and [ufw] rules, the mounts and the services.

    [Firewall] gives the commands their meaning and states what they let out;
    [Templates] assembles the configurations. *)
From S2P Require Import Prelude GoStrings Config Guest NetIP Gpu Sha1 Images Media Vpn.

Open Scope Z_scope.

Definition plain_file (path content perms : string) : CloudInitWriteFile :=
  mkCloudInitWriteFile path content perms "" false "".

(** ** The endpoint *)
Definition wgEndpointAddrsFile : string := "/etc/wireguard/endpoint-addrs".
Definition wgDefaultEndpointPort : Z := 51820.

(** The text before the first [c], if that is not at the start. *)
Definition before_first (c : ascii) (s : string) : option string :=
  let '(a, _, ok) := Cut c s in if (ok : bool) && negb (bool_decide (a = "")) then Some a else None.
Definition endpoint_host (ep : string) : string :=
  match (if HasPrefix ep "[" then before_first "]" ep else None) with
  | Some a => sdrop 1 a
  | None => match cut_last colon ep with Some (h, _) => h | None => ep end
  end.
(** A nil configuration has no endpoint. *)
Definition wireGuardEndpointHost (cfg : option WireGuardConfig) : string :=
  match cfg with None => "" | Some c => endpoint_host (wg_Endpoint c) end.

Definition is_blank (c : ascii) : bool := is_space c && negb (bool_decide (c = newline)).
Definition endpoint_port (ep : string) : Z :=
  match cut_last colon ep with
  | None => wgDefaultEndpointPort
  | Some (_, p) =>
      match Sscanf_d (trim_left is_blank p) with
      | Some port => if (port <=? 0) || (65535 <? port) then wgDefaultEndpointPort else port
      | None => wgDefaultEndpointPort
      end
  end.
Definition wireGuardEndpointPort (cfg : option WireGuardConfig) : Z :=
  match cfg with None => wgDefaultEndpointPort | Some c => endpoint_port (wg_Endpoint c) end.

Definition wgResolveEndpointCmd (cfg : option WireGuardConfig) : string :=
  "mkdir -p /etc/wireguard && getent ahostsv4 " +:+ Quote (wireGuardEndpointHost cfg)
  +:+ " | awk '{print $1}' | sort -u > " +:+ wgEndpointAddrsFile.

Definition wgEndpointIsLiteralIP (cfg : option WireGuardConfig) : bool := bool_decide (is_Some (ParseIP (wireGuardEndpointHost cfg))).

(** ** The refresh of the endpoint's addresses *)
Definition wgRefreshScriptPath : string := "/usr/local/sbin/vee-wg-refresh-endpoint".
Record wgFirewallCmds := mkwgFirewallCmds {
  fw_allowDNS : string; fw_denyDNS : string; fw_allowEndpoint : string; fw_denyEndpoint : string; fw_restartTunnel : string }.
Definition tab : string := String "009" "".

Definition wgRefreshEndpointScript (cfg : option WireGuardConfig) (fw : wgFirewallCmds) : string :=
  unlines
    ["#!/bin/sh";
     "# Re-resolve the WireGuard endpoint and re-pin the handshake hole.";
     "#";
     "# Installed only for hostname endpoints. Managed by vee; edits are not preserved";
     "# when the VM is recreated.";
     "set -u";
     "";
     "HOST=" +:+ Quote (wireGuardEndpointHost cfg);
     "PORT=" +:+ Itoa (wireGuardEndpointPort cfg);
     "ADDRS=" +:+ Quote wgEndpointAddrsFile;
     "";
     "# Nameservers to consult. Resolution has to survive the deny policy, so the";
     "# lookup gets a temporary, narrowly-scoped hole rather than an always-open one.";
     "nameservers() {";
     tab +:+ "resolvectl status 2>/dev/null | sed -n 's/.*DNS Servers: //p' | tr ' ' '\n'";
     tab +:+ "sed -n 's/^nameserver[[:space:]]*//p' /etc/resolv.conf 2>/dev/null";
     "}";
     "";
     "NS=$(nameservers | grep -E '^[0-9]+\.[0-9]+\.[0-9]+\.[0-9]+$' | grep -v '^127\.' | sort -u)";
     "";
     "for ns in $NS; do";
     tab +:+ fw_allowDNS fw;
     "done";
     "";
     "NEW=$(getent ahostsv4 " +:+ dq "$HOST" +:+ " | awk '{print $1}' | sort -u)";
     "";
     "for ns in $NS; do";
     tab +:+ fw_denyDNS fw;
     "done";
     "";
     "# Fail closed: no answer means keep the addresses already pinned. A stale rule";
     "# keeps a working tunnel working; dropping the rules would leave no kill-switch.";
     "if [ -z " +:+ dq "$NEW" +:+ " ]; then";
     tab +:+ "exit 0";
     "fi";
     "";
     "OLD=$(cat " +:+ dq "$ADDRS" +:+ " 2>/dev/null || true)";
     "if [ " +:+ dq "$NEW" +:+ " = " +:+ dq "$OLD" +:+ " ]; then";
     tab +:+ "exit 0";
     "fi";
     "";
     "# Install the new holes before withdrawing the old ones, so there is never a";
     "# moment where the handshake has no way out.";
     "for ip in $NEW; do";
     tab +:+ fw_allowEndpoint fw;
     "done";
     "";
     "printf '%s\n' " +:+ dq "$NEW" +:+ " > " +:+ dq "$ADDRS";
     "";
     "for ip in $OLD; do";
     tab +:+ "if ! printf '%s\n' " +:+ dq "$NEW" +:+ " | grep -qx " +:+ dq "$ip" +:+ "; then";
     tab +:+ tab +:+ fw_denyEndpoint fw;
     tab +:+ "fi";
     "done";
     "";
     "# wg-quick pins the peer address when the interface comes up, so a corrected";
     "# firewall is not enough on its own — the tunnel has to re-read its config.";
     fw_restartTunnel fw].

Definition wgRefreshWriteFile (cfg : option WireGuardConfig) (fw : wgFirewallCmds) : option CloudInitWriteFile :=
  if wgEndpointIsLiteralIP cfg then None else
  Some (mkCloudInitWriteFile wgRefreshScriptPath
          (Base64.EncodeToString (SHA1.bytes_of (wgRefreshEndpointScript cfg fw))) "0755" "" false "b64").

Definition wgDropIPv6Cmds : list string :=
  ["ip6tables -P INPUT DROP"; "ip6tables -P OUTPUT DROP"; "ip6tables -P FORWARD DROP"; "ip6tables -F";
   "ip6tables -A INPUT -i lo -j ACCEPT"; "ip6tables -A OUTPUT -o lo -j ACCEPT"].
Definition wgPersistIPv6Cmds : list string := ["/etc/init.d/ip6tables save"; "rc-update add ip6tables default"].

Definition ufwFirewallCmds (cfg : option WireGuardConfig) : wgFirewallCmds :=
  let port := Itoa (wireGuardEndpointPort cfg) in
  mkwgFirewallCmds
    ("ufw allow out to " +:+ dq "$ns" +:+ " port 53 >/dev/null 2>&1 || true")
    ("ufw delete allow out to " +:+ dq "$ns" +:+ " port 53 >/dev/null 2>&1 || true")
    ("ufw allow out to " +:+ dq "$ip" +:+ " port " +:+ port +:+ " proto udp >/dev/null 2>&1 || true")
    ("ufw delete allow out to " +:+ dq "$ip" +:+ " port " +:+ port +:+ " proto udp >/dev/null 2>&1 || true")
    "systemctl restart wg-quick@wg0 >/dev/null 2>&1 || true".
Definition alpineFirewallCmds (cfg : option WireGuardConfig) : wgFirewallCmds :=
  let port := Itoa (wireGuardEndpointPort cfg) in
  mkwgFirewallCmds
    ("iptables -I OUTPUT -d " +:+ dq "$ns" +:+ " -p udp --dport 53 -j ACCEPT 2>/dev/null || true")
    ("iptables -D OUTPUT -d " +:+ dq "$ns" +:+ " -p udp --dport 53 -j ACCEPT 2>/dev/null || true")
    ("iptables -A OUTPUT -d " +:+ dq "$ip" +:+ " -p udp --dport " +:+ port +:+ " -j ACCEPT 2>/dev/null || true")
    ("iptables -D OUTPUT -d " +:+ dq "$ip" +:+ " -p udp --dport " +:+ port +:+ " -j ACCEPT 2>/dev/null || true")
    ("/etc/init.d/iptables save >/dev/null 2>&1 || true" +:+ String newline ("wg-quick down wg0 >/dev/null 2>&1 || true"
     +:+ String newline "wg-quick up wg0 >/dev/null 2>&1 || true")).

(** ** Mounts *)
Record ShareMount := mkShareMount { sm_HostDir : string; sm_GuestPath : string }.
Record NFSMount := mkNFSMount { nm_Server : string; nm_Export : string; nm_GuestPath : string; nm_Options : string }.
Definition incompletePath : string := "/var/lib/qbittorrent/incomplete".
Definition nfsMountOptions : string := "rw,hard,proto=tcp,timeo=600,retrans=2,_netdev".

Definition add_server (out : list string) (m : NFSMount) : list string :=
  if bool_decide (nm_Server m = "") || bool_decide (nm_Server m ∈ out) then out else out ++ [nm_Server m].
Definition nfsServers (mounts : list NFSMount) : list string := foldl add_server [] mounts.

Definition fstabEntry (source target fstype options : string) : string :=
  source +:+ " " +:+ target +:+ " " +:+ fstype +:+ " " +:+ options +:+ " 0 0".
Definition appendFstab (line target : string) : string :=
  "grep -qs ' " +:+ target +:+ " ' /etc/fstab || echo " +:+ Quote line +:+ " >> /etc/fstab".

Definition replace_path (s : string) : string :=
  smap (λ c, if bool_decide (c = "/"%char) then "-"%char else if bool_decide (c = " "%char) then "_"%char else c) s.
Definition virtiofsTagFor (m : ShareMount) (i : nat) : string :=
  if bool_decide (sm_GuestPath m = "") then "share" +:+ Itoa (Z.of_nat i) else replace_path (TrimPrefix (sm_GuestPath m) "/").
Definition share_path (m : ShareMount) (i : nat) : string :=
  if bool_decide (sm_GuestPath m = "") then "/share" +:+ Itoa (Z.of_nat i) else sm_GuestPath m.
Definition virtiofs_mounts (mounts : list ShareMount) : list VirtiofsMount :=
  imap (λ i m, mkVirtiofsMount "" (sm_HostDir m) (virtiofsTagFor m i) false) mounts.

(** The commands of one share, with what the base does after mounting it. *)
Definition share_cmds (after : string → list string) (i : nat) (m : ShareMount) : list string :=
  let guestPath := share_path m i in
  let tag := virtiofsTagFor m i in
  ["mkdir -p " +:+ guestPath; appendFstab (fstabEntry tag guestPath "virtiofs" "defaults,nofail") guestPath;
   "mount -t virtiofs " +:+ tag +:+ " " +:+ guestPath] ++ after guestPath.
Definition nfs_cmds (m : NFSMount) : list string :=
  if bool_decide (nm_GuestPath m = "") then [] else
  let opts := if bool_decide (nm_Options m = "") then nfsMountOptions else nm_Options m in
  let source := nm_Server m +:+ ":" +:+ nm_Export m in
  ["mkdir -p " +:+ nm_GuestPath m; appendFstab (fstabEntry source (nm_GuestPath m) "nfs4" opts) (nm_GuestPath m);
   "for i in 1 2 3 4 5 6 7 8 9 10; do mount -t nfs4 -o " +:+ opts +:+ " " +:+ source +:+ " " +:+ nm_GuestPath m
   +:+ " && break || sleep 3; done"].

(** The save path: that of the first mount. *)
Definition save_path (mounts : list ShareMount) (nfsMounts : list NFSMount) : string :=
  match mounts with
  | mkShareMount _ (String c p) :: _ => String c p
  | _ => match nfsMounts with
         | mkNFSMount _ _ (String c p) _ :: _ => String c p
         | _ => "/downloads"
         end
  end.

(** ** qBittorrent *)
Definition qbittorrentListenPort : Z := 6881.
Definition session (kv : string) : string := "Session\" +:+ kv.
Definition qbittorrentConf (savePath tempPath iface : string) : string :=
  let savePath := if bool_decide (savePath = "") then "/downloads" else savePath in
  let tempPath := if bool_decide (tempPath = "") then savePath +:+ "/incomplete" else tempPath in
  unlines
    (["[BitTorrent]"] ++
     (session <$>
       ["DefaultSavePath=" +:+ savePath; "TempPath=" +:+ tempPath; "TempPathEnabled=true"; "Encryption=1";
        "GlobalDownloadSpeedLimit=0"; "GlobalUploadSpeedLimit=0"; "AlternativeGlobalDownloadSpeedLimit=0";
        "AlternativeGlobalUploadSpeedLimit=0"; "MaxActiveDownloads=20"; "MaxActiveUploads=20"; "MaxActiveTorrents=40";
        "MaxConnections=1000"; "MaxConnectionsPerTorrent=100"; "MaxUploads=40"; "MaxUploadsPerTorrent=10"; "MaxRatio=3";
        "MaxRatioAction=0"; "MaxSeedingTime=-1"; "MaxRatioEnabled=true"; "MaxSeedingTimeEnabled=false"; "PeerTurnover=4";
        "PeerTurnoverCutoff=90"; "PeerTurnoverInterval=30"; "UseOSCache=true"; "CoalesceReadWrite=true"; "DHTEnabled=true";
        "PeXEnabled=true"; "LSDEnabled=true"; "AnonymousModeEnabled=true"; "AnnounceToAllTrackers=true";
        "AnnounceToAllTiers=true"; "ValidateHTTPSTrackerCertificate=true"; "IPv6Enabled=false";
        "Port=" +:+ Itoa qbittorrentListenPort; "UseRandomPort=false"]) ++
     (if bool_decide (iface = "") then [] else [session ("Interface=" +:+ iface); session ("InterfaceName=" +:+ iface)]) ++
     [""; "[Preferences]"; "WebUI\Address=127.0.0.1"; "WebUI\Port=8080"; "WebUI\LocalHostAuth=false";
      "WebUI\CSRFProtection=false"; "WebUI\HostHeaderValidation=false"]).

(** ** The Ubuntu base *)
Definition torrentBaseRunCmds : list string :=
  ["ufw allow OpenSSH"; "ufw --force enable"; "systemctl enable --now qemu-guest-agent"].
Definition torrentMountAndAppCmds (mounts : list ShareMount) (nfsMounts : list NFSMount) : list string :=
  mjoin (imap (share_cmds (λ p, ["chown vee " +:+ p])) mounts) ++ mjoin (nfs_cmds <$> nfsMounts) ++
  ["mkdir -p /home/vee/.config/qBittorrent"; "chown -R vee /home/vee/.config"; "mkdir -p " +:+ incompletePath;
   "chown -R vee " +:+ incompletePath; "systemctl enable --now qbittorrent-nox@vee"].

Definition nordVPNCmds (token connectCmd : string) (nfsMounts : list NFSMount) : list string :=
  ["snap install nordvpn"; "snap connect nordvpn:network-control"; "snap connect nordvpn:firewall-control";
   "snap connect nordvpn:network-observe"; "snap connect nordvpn:system-observe"; "snap connect nordvpn:hardware-observe";
   "snap connect nordvpn:login-session-observe"; "snap connect nordvpn:network-manager";
   "for i in 1 2 3 4 5 6 7 8 9 10; do nordvpn status >/dev/null 2>&1 && break || sleep 3; done";
   "nordvpn set analytics off"; "nordvpn login --token " +:+ token; "nordvpn set technology nordlynx";
   "nordvpn set killswitch on"; "nordvpn set autoconnect on"; "groupadd -f nordvpn"; "usermod -aG nordvpn vee";
   "usermod -aG nordvpn ubuntu"] ++
  ((λ server, "nordvpn whitelist add subnet " +:+ server +:+ "/32") <$> nfsServers nfsMounts) ++
  ["nordvpn whitelist add port 22"; connectCmd].

Definition retry_unit (first : list string) : string :=
  unlines (["[Unit]"; "Description=Retry the WireGuard tunnel until it comes up"; "After=network-online.target"; "";
            "[Service]"; "Type=oneshot"] ++ first ++
           ["ExecStart=/bin/sh -c 'wg show wg0 >/dev/null 2>&1 || systemctl restart wg-quick@wg0'"]).
Definition retry_timer : string :=
  unlines ["[Unit]"; "Description=Periodically retry the WireGuard tunnel"; ""; "[Timer]"; "OnBootSec=30s";
           "OnUnitActiveSec=60s"; ""; "[Install]"; "WantedBy=timers.target"].
Definition printf_to (content path : string) : string := "printf " +:+ Quote content +:+ " > " +:+ path.
Definition torrentWGRetryCmds : list string :=
  [printf_to (retry_unit []) "/etc/systemd/system/vee-wg-retry.service";
   printf_to retry_timer "/etc/systemd/system/vee-wg-retry.timer";
   "systemctl daemon-reload"; "systemctl enable --now vee-wg-retry.timer"].
Definition torrentWGEndpointRefreshCmds (cfg : option WireGuardConfig) : list string :=
  if wgEndpointIsLiteralIP cfg then [] else
  [printf_to (retry_unit ["ExecStart=" +:+ wgRefreshScriptPath]) "/etc/systemd/system/vee-wg-retry.service";
   "systemctl daemon-reload"].
Definition nfsBypassRules (mounts : list NFSMount) : list string := (λ s, "ufw allow out to " +:+ s) <$> nfsServers mounts.

Definition torrentWGKillSwitchCmds (wgConf : option WireGuardConfig) (nfsMounts : list NFSMount) : list string :=
  [wgResolveEndpointCmd wgConf; "ufw default deny outgoing"; "ufw default deny forward"; "ufw allow out on wg0"; "ufw allow out on lo";
   "for ip in $(cat " +:+ wgEndpointAddrsFile +:+ "); do ufw allow out to " +:+ dq "$ip" +:+ " port "
     +:+ Itoa (wireGuardEndpointPort wgConf) +:+ " proto udp; done";
   "ufw allow out 22/tcp"] ++
  nfsBypassRules nfsMounts ++ ["systemctl enable --now wg-quick@wg0"] ++ torrentWGRetryCmds ++ torrentWGEndpointRefreshCmds wgConf.

(** The commands of the Ubuntu guest, by the kind of VPN. *)
Definition torrentRunCmds (nordConf : option NordVPNConfig) (wgConf : option WireGuardConfig)
    (mounts : list ShareMount) (nfsMounts : list NFSMount) : list string :=
  match nordConf, wgConf with
  | Some n, _ =>
      let connectCmd := if bool_decide (nord_Country n = "") then "nordvpn connect" else "nordvpn connect " +:+ Quote (nord_Country n) in
      torrentBaseRunCmds ++ nordVPNCmds (nord_Token n) connectCmd nfsMounts
  | None, Some _ => torrentWGKillSwitchCmds wgConf nfsMounts ++ torrentBaseRunCmds
  | None, None => nfsBypassRules nfsMounts ++ torrentBaseRunCmds
  end ++ torrentMountAndAppCmds mounts nfsMounts.

(** ** The Alpine base *)
Definition torrentAlpineUser : string := "alpine".
Definition torrentAlpineConfigDir : string := "/home/" +:+ torrentAlpineUser +:+ "/.config".
Definition torrentAlpineConfPath : string := torrentAlpineConfigDir +:+ "/qBittorrent/config/qBittorrent.conf".

(** The commands the Alpine guests start with, and those that let [vee tunnel]
    forward over SSH. *)
Definition alpine_network_cmds : list string :=
  ["for i in $(seq 1 60); do ip -4 route show default | grep -qv '169.254' && break; sleep 2; done";
   "sed -i 's|^#\(.*/v[0-9.]*/community\)|\1|' /etc/apk/repositories";
   "for i in 1 2 3 4 5; do apk update && break; sleep 5; done"].
Definition apk_add (pkgs : list string) : string :=
  "for i in 1 2 3 4 5; do apk add --no-cache " +:+ Join " " pkgs +:+ " && break; sleep 5; done".
Definition alpine_ssh_cmds : list string :=
  ["rc-update add qemu-guest-agent default"; "rc-service qemu-guest-agent start"; "mkdir -p /etc/ssh/sshd_config.d";
   "printf 'AllowTcpForwarding yes\n' > /etc/ssh/sshd_config.d/10-vee-tunnel.conf";
   "grep -qs '^Include /etc/ssh/sshd_config.d/\*.conf' /etc/ssh/sshd_config || sed -i '1i Include /etc/ssh/sshd_config.d/*.conf' /etc/ssh/sshd_config";
   "sshd -t && rc-service sshd reload"].

Definition torrentAlpineMountCmds (mounts : list ShareMount) (nfsMounts : list NFSMount) : list string :=
  let owner := torrentAlpineUser +:+ ":" +:+ torrentAlpineUser in
  mjoin (imap (share_cmds (λ _, [])) mounts) ++ mjoin (nfs_cmds <$> nfsMounts) ++
  ["mkdir -p " +:+ torrentAlpineConfigDir +:+ "/qBittorrent/config"; "chown -R " +:+ owner +:+ " " +:+ torrentAlpineConfigDir;
   "mkdir -p " +:+ incompletePath; "chown -R " +:+ owner +:+ " " +:+ incompletePath].

Definition alpine_inbound_cmds : list string :=
  ["iptables -P INPUT DROP"; "iptables -P FORWARD DROP"; "iptables -A INPUT -i lo -j ACCEPT";
   "iptables -A INPUT -m conntrack --ctstate ESTABLISHED,RELATED -j ACCEPT"; "iptables -A INPUT -p tcp --dport 22 -j ACCEPT"].
(** The deny policy with its holes, in both Alpine templates. *)
Definition alpine_outbound_cmds (wgConf : option WireGuardConfig) : list string :=
  [wgResolveEndpointCmd wgConf; "iptables -P OUTPUT DROP"; "iptables -A OUTPUT -o lo -j ACCEPT"; "iptables -A OUTPUT -o wg0 -j ACCEPT";
   "for ip in $(cat " +:+ wgEndpointAddrsFile +:+ "); do iptables -A OUTPUT -d " +:+ dq "$ip" +:+ " -p udp --dport "
     +:+ Itoa (wireGuardEndpointPort wgConf) +:+ " -j ACCEPT; done";
   "iptables -A OUTPUT -p tcp --sport 22 -m conntrack --ctstate ESTABLISHED -j ACCEPT";
   "iptables -A OUTPUT -p udp --sport 68 --dport 67 -d 255.255.255.255 -j ACCEPT"].
Definition wg_boot_hook : list string :=
  ["printf '#!/bin/sh\nwg-quick up wg0\n' > /etc/local.d/wg0.start"; "chmod 0755 /etc/local.d/wg0.start"].
Definition alpineWGEndpointRefreshCmds (cfg : option WireGuardConfig) : list string :=
  if wgEndpointIsLiteralIP cfg then [] else
  ["printf '#!/bin/sh\n" +:+ wgRefreshScriptPath +:+ "\nwg-quick up wg0\n' > /etc/local.d/wg0.start"; "chmod 0755 /etc/local.d/wg0.start";
   "mkdir -p /etc/periodic/1min"; "printf '#!/bin/sh\n" +:+ wgRefreshScriptPath +:+ "\n' > /etc/periodic/1min/vee-wg-refresh";
   "chmod 0755 /etc/periodic/1min/vee-wg-refresh";
   "grep -q '/etc/periodic/1min' /etc/crontabs/root || printf '* * * * * run-parts /etc/periodic/1min\n' >> /etc/crontabs/root";
   "rc-update add crond default"; "rc-service crond restart"].
Definition alpine_persist_cmds : list string :=
  ["/etc/init.d/iptables save"; "rc-update add iptables default"] ++ wgPersistIPv6Cmds.

Definition torrentAlpineKillSwitchCmds (wgConf : option WireGuardConfig) (nfsMounts : list NFSMount) : list string :=
  alpine_inbound_cmds ++ wgDropIPv6Cmds ++
  match wgConf with
  | Some _ =>
      alpine_outbound_cmds wgConf ++
      ((λ server, "iptables -A OUTPUT -d " +:+ server +:+ " -j ACCEPT") <$> nfsServers nfsMounts) ++
      ["wg-quick up wg0"] ++ wg_boot_hook ++ ["rc-update add local default"] ++ alpineWGEndpointRefreshCmds wgConf
  | None => []
  end ++ alpine_persist_cmds.

Definition torrentAlpineRunCmds (mounts : list ShareMount) (nfsMounts : list NFSMount) (wgConf : option WireGuardConfig) : list string :=
  let nfs := negb (bool_decide (nfsMounts = [])) in
  let pkgs := ["ca-certificates"; "curl"; "iptables"; "ip6tables"; "qbittorrent-nox"; "qemu-guest-agent"; "bind-tools"]
              ++ (if wgConf then ["wireguard-tools"] else []) ++ (if nfs then ["nfs-utils"] else []) in
  alpine_network_cmds ++ [apk_add pkgs] ++ (if nfs then ["rc-update add nfsmount default"] else []) ++
  alpine_ssh_cmds ++ torrentAlpineMountCmds mounts nfsMounts ++
  ["rc-update add qbittorrent default"; "rc-service qbittorrent start"] ++
  torrentAlpineKillSwitchCmds wgConf nfsMounts.

Definition torrentQbittorrentOpenRCService : string :=
  let owner := torrentAlpineUser +:+ ":" +:+ torrentAlpineUser in
  unlines
    ["#!/sbin/openrc-run"; ""; "name=" +:+ dq "qbittorrent"; "description=" +:+ dq "qBittorrent headless BitTorrent client"; "";
     "command=" +:+ dq "/usr/bin/qbittorrent-nox"; "command_args=" +:+ dq ("--profile=" +:+ torrentAlpineConfigDir);
     "command_user=" +:+ dq owner; "command_background=" +:+ dq "yes"; "pidfile=" +:+ dq "/run/qbittorrent.pid";
     "output_log=" +:+ dq "/var/log/qbittorrent.log"; "error_log=" +:+ dq "/var/log/qbittorrent.log";
     "supervisor=" +:+ dq "supervise-daemon"; "respawn_delay=5"; "respawn_max=0"; ""; "depend() {"; tab +:+ "need net";
     tab +:+ "# The shares are fstab mounts, brought up by localmount/netmount rather than";
     tab +:+ "# by cloud-init on any boot after the first. Starting before them sends";
     tab +:+ "# every download to the VM's own disk.";
     tab +:+ "after firewall localmount netmount nfsmount"; "}"; ""; "start_pre() {";
     tab +:+ "checkpath --directory --owner " +:+ owner +:+ " --mode 0755 " +:+ torrentAlpineConfigDir;
     tab +:+ "checkpath --file --owner " +:+ owner +:+ " --mode 0644 /var/log/qbittorrent.log"; "}"].

Definition wg_files (wgConf : option WireGuardConfig) (fw : wgFirewallCmds) : list CloudInitWriteFile :=
  match wgConf with
  | None => []
  | Some c => plain_file "/etc/wireguard/wg0.conf" (RenderWireGuardConf c) "0600" :: option_list (wgRefreshWriteFile wgConf fw)
  end.
Definition torrentAlpineWriteFiles (savePath : string) (wgConf : option WireGuardConfig) : list CloudInitWriteFile :=
  [plain_file torrentAlpineConfPath (qbittorrentConf savePath incompletePath (if wgConf then "wg0" else "")) "0600";
   plain_file "/etc/init.d/qbittorrent" torrentQbittorrentOpenRCService "0755"] ++ wg_files wgConf (alpineFirewallCmds wgConf).

(** ** bitmagnet *)
Definition BitmagnetWebPort : Z := 3333.
Definition BitmagnetVersion : string := "v0.10.0".
Definition BitmagnetPGDataDir : string := "/var/lib/postgresql/data".
Definition bitmagnetPGVirtiofsTag : string := "pgdata".
Definition bitmagnetPGUser : string := "bitmagnet".
Definition bitmagnetPGDatabase : string := "bitmagnet".
Definition bitmagnetConfigDir : string := "/var/lib/bitmagnet".
Definition bitmagnetDHTPort : Z := 3334.
Record BitmagnetOptions := mkBitmagnetOptions {
  bo_PGDataHostDir : string;
  bo_PGDataHostUID : Z;
  bo_PGDataHostGID : Z;
  bo_PGPassword : string;
  bo_WireGuard : option WireGuardConfig;
  bo_VPNProvider : string;
  bo_Bridge : string;
  bo_DiskSize : string;
  bo_Emulate : bool;
}.

Definition bitmagnetInstallCmds : list string :=
  let url := "https://github.com/bitmagnet-io/bitmagnet/releases/download/" +:+ BitmagnetVersion +:+ "/bitmagnet_"
             +:+ TrimPrefix BitmagnetVersion "v" +:+ "_linux_x86_64.tar.gz" in
  ["for i in 1 2 3 4 5; do curl -fsSL --retry 3 --retry-delay 5 -o /tmp/bitmagnet.tar.gz " +:+ url +:+ " && break; sleep 5; done";
   "mkdir -p /tmp/bitmagnet"; "tar -xzf /tmp/bitmagnet.tar.gz -C /tmp/bitmagnet";
   "install -m 0755 /tmp/bitmagnet/bitmagnet /usr/local/bin/bitmagnet"; "rm -rf /tmp/bitmagnet /tmp/bitmagnet.tar.gz";
   "addgroup -S bitmagnet 2>/dev/null || true"; "adduser -S -D -H -G bitmagnet -s /sbin/nologin bitmagnet 2>/dev/null || true";
   "chown -R bitmagnet:bitmagnet " +:+ bitmagnetConfigDir].

Definition vacatedUID : string := Itoa 1500.
(** [su postgres -c "..."] around a statement for [psql], with the quotes of
    the two shells. *)
Definition psql (flags statement : string) : string :=
  "su postgres -c " +:+ dq ("psql " +:+ flags +:+ " \" +:+ dq (statement +:+ "\")).
Definition bitmagnetPostgresCmds (opts : BitmagnetOptions) : list string :=
  let dir := BitmagnetPGDataDir in
  let uid := Itoa (bo_PGDataHostUID opts) in
  let gid := Itoa (bo_PGDataHostGID opts) in
  let shared := negb (bool_decide (bo_PGDataHostDir opts = "")) in
  (if shared
   then ["mkdir -p " +:+ dir; appendFstab (fstabEntry bitmagnetPGVirtiofsTag dir "virtiofs" "defaults,nofail") dir;
         "mount -t virtiofs " +:+ bitmagnetPGVirtiofsTag +:+ " " +:+ dir]
   else ["mkdir -p " +:+ dir]) ++
  (if shared
   then ["if getent passwd " +:+ uid +:+ " >/dev/null; then occupant=$(getent passwd " +:+ uid +:+ " | cut -d ':' -f1); usermod -u "
           +:+ vacatedUID +:+ " " +:+ dq "$occupant" +:+ "; chown -R " +:+ vacatedUID +:+ " " +:+ dq "/home/$occupant" +:+ " 2>/dev/null || true; fi";
         "if getent group " +:+ gid +:+ " >/dev/null; then groupmod -g " +:+ vacatedUID +:+ " " +:+ dq ("$(getent group " +:+ gid
           +:+ " | cut -d ':' -f1)") +:+ "; fi";
         "groupmod -g " +:+ gid +:+ " postgres";
         "usermod -u " +:+ uid +:+ " -g " +:+ gid +:+ " postgres";
         "chown -R " +:+ uid +:+ ":" +:+ gid +:+ " /var/lib/postgresql /run/postgresql /var/log/postgresql 2>/dev/null || true"]
   else ["chown postgres:postgres " +:+ dir]) ++
  ["chmod 0700 " +:+ dir;
   "printf 'data_dir=" +:+ dq dir +:+ "\n' > /etc/conf.d/postgresql";
   "test -f " +:+ dir +:+ "/PG_VERSION || su postgres -c '/usr/libexec/postgresql16/initdb --auth-local=peer --auth-host=scram-sha-256 -D "
     +:+ dir +:+ "'";
   "printf " +:+ dq "listen_addresses = '127.0.0.1'\n" +:+ " >> " +:+ dir +:+ "/postgresql.conf";
   "rc-update add postgresql default"; "rc-service postgresql start";
   "for i in $(seq 1 30); do su postgres -c 'pg_isready -q' && break; sleep 2; done";
   psql "-tAc" ("SELECT 1 FROM pg_roles WHERE rolname='" +:+ bitmagnetPGUser +:+ "'") +:+ " | grep -q 1 || "
     +:+ psql "-c" ("CREATE ROLE " +:+ bitmagnetPGUser +:+ " LOGIN PASSWORD '" +:+ bo_PGPassword opts +:+ "'");
   psql "-tAc" ("SELECT 1 FROM pg_database WHERE datname='" +:+ bitmagnetPGDatabase +:+ "'") +:+ " | grep -q 1 || su postgres -c "
     +:+ dq ("createdb -O " +:+ bitmagnetPGUser +:+ " " +:+ bitmagnetPGDatabase)].

Definition bitmagnetKillSwitchCmds (opts : BitmagnetOptions) : list string :=
  let wgConf := bo_WireGuard opts in
  alpine_inbound_cmds ++ wgDropIPv6Cmds ++
  match wgConf with
  | Some _ =>
      let refresh := alpineWGEndpointRefreshCmds wgConf in
      alpine_outbound_cmds wgConf ++
      ["iptables -A OUTPUT ! -o wg0 -m owner --gid-owner bitmagnet -j REJECT";
       "rc-update add wireguard default 2>/dev/null || true"; "wg-quick up wg0"] ++
      refresh ++ (if bool_decide (refresh = []) then wg_boot_hook else []) ++ ["rc-update add local default"]
  | None => []
  end ++ alpine_persist_cmds.

Definition bitmagnetRunCmds (opts : BitmagnetOptions) : list string :=
  alpine_network_cmds ++
  [apk_add ["ca-certificates"; "curl"; "tar"; "iptables"; "ip6tables"; "postgresql16"; "postgresql16-client"; "postgresql16-contrib";
            "wireguard-tools"; "qemu-guest-agent"]] ++
  bitmagnetInstallCmds ++ bitmagnetPostgresCmds opts ++
  ["rc-update add bitmagnet default"; "rc-service bitmagnet start"] ++ alpine_ssh_cmds ++ bitmagnetKillSwitchCmds opts.

Definition bitmagnetConfig (pgPassword : string) (crawlEnabled : bool) : string :=
  unlines
    ["http_server:"; "  local_address: " +:+ dq (":" +:+ Itoa BitmagnetWebPort); "dht_crawler:";
     "  enabled: " +:+ (if crawlEnabled then "true" else "false"); "dht_server:"; "  port: " +:+ Itoa bitmagnetDHTPort;
     "postgres:"; "  host: 127.0.0.1"; "  port: 5432"; "  name: " +:+ bitmagnetPGDatabase; "  user: " +:+ bitmagnetPGUser;
     "  password: " +:+ Quote pgPassword; "  ssl_mode: disable"; "log:"; "  level: info"].
Definition bitmagnetOpenRCService (crawlEnabled : bool) : string :=
  let keys := "--keys=http_server --keys=queue_server" +:+ (if crawlEnabled then " --keys=dht_crawler" else "") in
  unlines
    ["#!/sbin/openrc-run"; ""; "name=" +:+ dq "bitmagnet"; "description=" +:+ dq "Self-hosted BitTorrent DHT crawler and indexer"; "";
     "command=" +:+ dq "/usr/local/bin/bitmagnet"; "command_args=" +:+ dq ("worker run " +:+ keys);
     "command_user=" +:+ dq "bitmagnet:bitmagnet"; "command_background=" +:+ dq "yes"; "pidfile=" +:+ dq "/run/bitmagnet.pid";
     "output_log=" +:+ dq "/var/log/bitmagnet.log"; "error_log=" +:+ dq "/var/log/bitmagnet.log";
     "# bitmagnet reads ./config.yml relative to its working directory and has no";
     "# flag or environment variable to override that, so the directory is the";
     "# configuration mechanism."; "directory=" +:+ dq bitmagnetConfigDir;
     "# The credentials are deliberately NOT exported here. bitmagnet also reads";
     "# POSTGRES_* from the environment, but this init script has to stay executable";
     "# by OpenRC (0755), so a password embedded in it would be world-readable —";
     "# strictly worse than the 0600 config.yml in the working directory above.";
     "# Restart rather than stay dead: bitmagnet panics and exits if PostgreSQL is";
     "# not ready when it starts, and a crawler that gave up hours ago looks";
     "# identical to one that is merely idle.";
     "supervisor=" +:+ dq "supervise-daemon"; "respawn_delay=5"; "respawn_max=0"; ""; "depend() {"; tab +:+ "need net";
     tab +:+ "after firewall postgresql"; "}"; ""; "start_pre() {";
     tab +:+ "checkpath --file --mode 0644 --owner bitmagnet:bitmagnet /var/log/bitmagnet.log"; "}"].
Definition bitmagnet_files (opts : BitmagnetOptions) : list CloudInitWriteFile :=
  let crawl := if bo_WireGuard opts then true else false in
  [plain_file (bitmagnetConfigDir +:+ "/config.yml") (bitmagnetConfig (bo_PGPassword opts) crawl) "0600";
   plain_file "/etc/init.d/bitmagnet" (bitmagnetOpenRCService crawl) "0755"] ++
  wg_files (bo_WireGuard opts) (alpineFirewallCmds (bo_WireGuard opts)).
(** [random]: the 24 bytes of [rand.Read] *)
Definition GeneratePGPassword (random : result error (list N)) : result error string :=
  match random with
  | Err e => Err (Wrapf "generate database password" e)
  | Ok buf => Ok (Base64.RawURLEncodeToString buf)
  end.
