(* ===== verification/Firewall.v ===== *)
(** * What leaves a guest behind a VPN

    The meaning of the firewall commands of [KillSwitch], and what they let out
    of the guest.

    The semantics here is the specification: [iptables(8)] appends, inserts and
    deletes rules of the built-in chains, a packet takes the verdict of the
    first rule that matches it and the chain's policy if none does; [ufw(8)]
    accepts established connections and the loopback device, then its own
    rules, then its default.  A name as a destination needs a lookup, and a
    lookup needs a firewall that lets the query out.  Commands that are none of
    these leave the firewall as it is; the shell's quoting is read only where
    the templates rely on it. *)
From S2P Require Import Prelude GoStrings Config Guest Tables NetIP Gpu Images Media Vpn KillSwitch.

Open Scope Z_scope.

(** ** Packets and rules *)
Record packet := mkpacket {
  p_in : string;          (* the device it came in on, for INPUT *)
  p_out : string;         (* the device it goes out on, for OUTPUT *)
  p_dst : string;
  p_proto : string;
  p_sport : Z;
  p_dport : Z;
  p_established : bool;
  p_gid : string;         (* the group of the process that sends it *)
}.

Inductive cond :=
| COut (dev : string) | CNotOut (dev : string) | CIn (dev : string) | CDst (addr : string) | CProto (proto : string)
| CSport (port : Z) | CDport (port : Z) | CState (states : list string) | CGid (group : string).
#[export] Instance cond_eq_dec : EqDecision cond.
Proof. solve_decision. Defined.
Record rule := mkrule { ru_conds : list cond; ru_target : string }.
#[export] Instance rule_eq_dec : EqDecision rule.
Proof. solve_decision. Defined.

Definition holds (p : packet) (c : cond) : bool :=
  match c with
  | COut d => bool_decide (p_out p = d)
  | CNotOut d => negb (bool_decide (p_out p = d))
  | CIn d => bool_decide (p_in p = d)
  | CDst a => bool_decide (p_dst p = a)
  | CProto t => bool_decide (p_proto p = t)
  | CSport n => p_sport p =? n
  | CDport n => p_dport p =? n
  | CState l => p_established p && bool_decide ("ESTABLISHED" ∈ l)
  | CGid g => bool_decide (p_gid p = g)
  end.
Definition matches (p : packet) (r : rule) : bool := forallb (holds p) (ru_conds r).

Record chain := mkchain { ch_policy : string; ch_rules : list rule }.
Fixpoint first_match (p : packet) (rs : list rule) : option string :=
  match rs with
  | [] => None
  | r :: rs => if matches p r then Some (ru_target r) else first_match p rs
  end.
Definition accepts (c : chain) (p : packet) : bool :=
  bool_decide (default (ch_policy c) (first_match p (ch_rules c)) = "ACCEPT").

Record table := mktable { t_input : chain; t_output : chain; t_forward : chain }.
#[export] Instance table_eta : Settable table := λ t, mktable (t_input t) (t_output t) (t_forward t).
Definition open_chain : chain := mkchain "ACCEPT" [].
Definition open_table : table := mktable open_chain open_chain open_chain.
Definition on_chain (name : string) (f : chain → chain) (t : table) : table :=
  if bool_decide (name = "INPUT") then t <| t_input := f (t_input t) |>
  else if bool_decide (name = "OUTPUT") then t <| t_output := f (t_output t) |>
  else if bool_decide (name = "FORWARD") then t <| t_forward := f (t_forward t) |>
  else t.
Definition with_rules (f : list rule → list rule) (c : chain) : chain := mkchain (ch_policy c) (f (ch_rules c)).
Definition with_policy (p : string) (c : chain) : chain := mkchain p (ch_rules c).

(** The conditions and the target of a rule; the destination is kept apart,
    since a name stands for its addresses. *)
Record spec := mkspec { sp_conds : list cond; sp_dst : option string; sp_target : string }.
Definition add_cond (c : cond) (s : option spec) : option spec :=
  (λ s, mkspec (c :: sp_conds s) (sp_dst s) (sp_target s)) <$> s.
Fixpoint parse_spec (ws : list string) : option spec :=
  match ws with
  | f :: v :: rest =>
      if bool_decide (f = "-j") then Some (mkspec [] None v)
      else if bool_decide (f = "!") then
        match rest with
        | d :: rest => if bool_decide (v = "-o") then add_cond (CNotOut d) (parse_spec rest) else None
        | [] => None
        end
      else if bool_decide (f = "-o") then add_cond (COut v) (parse_spec rest)
      else if bool_decide (f = "-i") then add_cond (CIn v) (parse_spec rest)
      else if bool_decide (f = "-p") then add_cond (CProto v) (parse_spec rest)
      else if bool_decide (f = "--sport") then match Atoi v with Some n => add_cond (CSport n) (parse_spec rest) | None => None end
      else if bool_decide (f = "--dport") then match Atoi v with Some n => add_cond (CDport n) (parse_spec rest) | None => None end
      else if bool_decide (f = "-m") then parse_spec rest
      else if bool_decide (f = "--ctstate") then add_cond (CState (Split "," v)) (parse_spec rest)
      else if bool_decide (f = "--gid-owner") then add_cond (CGid v) (parse_spec rest)
      else if bool_decide (f = "-d") then (λ s, mkspec (sp_conds s) (Some v) (sp_target s)) <$> parse_spec rest
      else None
  | _ => None
  end.

(** ** [ufw] *)
Record ufw := mkufw { u_active : bool; u_outgoing : string; u_rules : list rule }.
#[export] Instance ufw_eta : Settable ufw := λ u, mkufw (u_active u) (u_outgoing u) (u_rules u).
Definition ufw_accepts (u : ufw) (p : packet) : bool :=
  negb (u_active u) || p_established p || bool_decide (p_out p = "lo") || existsb (matches p) (u_rules u)
  || bool_decide (u_outgoing u = "allow").

(** ** The guest *)
Record guest := mkguest {
  g_v4 : table;
  g_v6 : table;
  g_ufw : ufw;
  g_addrs : list string;           (* /etc/wireguard/endpoint-addrs *)
  g_saved4 : option table;         (* what a boot restores *)
  g_saved6 : option table;
  g_started : list string;         (* OpenRC services that were started *)
}.
#[export] Instance guest_eta : Settable guest := λ g,
  mkguest (g_v4 g) (g_v6 g) (g_ufw g) (g_addrs g) (g_saved4 g) (g_saved6 g) (g_started g).
Definition fresh : guest := mkguest open_table open_table (mkufw false "allow" []) [] None None [].
Definition egress (g : guest) (p : packet) : bool := accepts (t_output (g_v4 g)) p && ufw_accepts (g_ufw g) p.
Definition egress6 (g : guest) (p : packet) : bool := accepts (t_output (g_v6 g)) p.
Definition ingress (g : guest) (p : packet) : bool := accepts (t_input (g_v4 g)) p.

(** An IPv4 address in dotted form, and the words that can be host names. *)
Definition literal4 (s : string) : bool :=
  sforall (λ c, is_digit c || bool_decide (c = "."%char)) s && bool_decide (is_Some (ParseIP s)).
Definition host_char (c : ascii) : bool :=
  is_digit c || is_lower c || is_upper c || bool_decide (c = "."%char) || bool_decide (c = "-"%char) || bool_decide (c = ":"%char).
Definition host_word (s : string) : bool := negb (bool_decide (s = "")) && sforall host_char s.

(** What the name server answers, and where it is: [getent ahostsv4] prints
    dotted addresses. *)
Class Resolver := {
  dns : string → list string;
  nameserver : string;
  dns_literal : ∀ h a, a ∈ dns h → literal4 a = true;
}.

Section Guest.
Context {R : Resolver}.

Definition dns_query : packet := mkpacket "" "eth0" nameserver "udp" 40000 53 false "root".
(** [sort -u] *)
Definition sort_u (l : list string) : list string := merge_sort string_le (remove_dups l).
Definition resolve (g : guest) (name : string) : list string :=
  match ParseIP name with
  | Some _ => if literal4 name then [name] else []
  | None => if egress g dns_query then sort_u (dns name) else []
  end.

(** The rules a command stands for: one per address of its destination. *)
Definition rules_of (g : guest) (args : list string) : list rule :=
  match parse_spec args with
  | None => []
  | Some s => match sp_dst s with
              | None => [mkrule (sp_conds s) (sp_target s)]
              | Some d => (λ a, mkrule (CDst a :: sp_conds s) (sp_target s)) <$> resolve g d
              end
  end.
Fixpoint delete_one (r : rule) (rs : list rule) : list rule :=
  match rs with
  | [] => []
  | r' :: rs => if bool_decide (r' = r) then rs else r' :: delete_one r rs
  end.
Definition iptables (g : guest) (args : list string) (t : table) : table :=
  match args with
  | ["-F"] => mktable (with_rules (λ _, []) (t_input t)) (with_rules (λ _, []) (t_output t)) (with_rules (λ _, []) (t_forward t))
  | op :: ch :: args =>
      if bool_decide (op = "-P") then on_chain ch (with_policy (default "" (head args))) t
      else if bool_decide (op = "-A") then on_chain ch (with_rules (λ rs, rs ++ rules_of g args)) t
      else if bool_decide (op = "-I") then on_chain ch (with_rules (λ rs, rules_of g args ++ rs)) t
      else if bool_decide (op = "-D") then on_chain ch (with_rules (λ rs, foldr delete_one rs (rules_of g args))) t
      else t
  | _ => t
  end.

(** [ufw allow out ...]; an address must be a literal. *)
Definition ufw_spec (args : list string) : option rule :=
  match args with
  | ["on"; d] => Some (mkrule [COut d] "ACCEPT")
  | ["to"; a] => if bool_decide (is_Some (ParseIP a)) then Some (mkrule [CDst a] "ACCEPT") else None
  | ["to"; a; "port"; n] =>
      if bool_decide (is_Some (ParseIP a)) then (λ n, mkrule [CDst a; CDport n] "ACCEPT") <$> Atoi n else None
  | ["to"; a; "port"; n; "proto"; t] =>
      if bool_decide (is_Some (ParseIP a)) then (λ n, mkrule [CDst a; CDport n; CProto t] "ACCEPT") <$> Atoi n else None
  | [s] => match Cut "/" s with
           | (n, t, true) => (λ n, mkrule [CDport n; CProto t] "ACCEPT") <$> Atoi n
           | _ => None
           end
  | _ => None
  end.
Definition add_rule (r : rule) (rs : list rule) : list rule := if bool_decide (r ∈ rs) then rs else rs ++ [r].
Definition ufw_run (args : list string) (u : ufw) : ufw :=
  match args with
  | ["--force"; "enable"] => u <| u_active := true |>
  | ["default"; policy; "outgoing"] => u <| u_outgoing := policy |>
  | "allow" :: "out" :: args => match ufw_spec args with Some r => u <| u_rules := add_rule r (u_rules u) |> | None => u end
  | "delete" :: "allow" :: "out" :: args =>
      match ufw_spec args with Some r => u <| u_rules := delete_one r (u_rules u) |> | None => u end
  | _ => u
  end.

(** ** Commands *)
Definition unquote (w : string) : string := TrimSuffix (TrimPrefix w (String dquote "")) (String dquote "").
(** The words of a command before its redirections. *)
Fixpoint before_redirect (ws : list string) : list string :=
  match ws with
  | [] => []
  | w :: ws => if Contains w ">" || bool_decide (w = "||") then [] else w :: before_redirect ws
  end.
Definition simple (ws : list string) (g : guest) : guest :=
  match before_redirect ws with
  | w :: args =>
      if bool_decide (w = "iptables") then g <| g_v4 := iptables g args (g_v4 g) |>
      else if bool_decide (w = "ip6tables") then g <| g_v6 := iptables g args (g_v6 g) |>
      else if bool_decide (w = "ufw") then g <| g_ufw := ufw_run args (g_ufw g) |>
      else if bool_decide (w = "/etc/init.d/iptables") then g <| g_saved4 := Some (g_v4 g) |>
      else if bool_decide (w = "/etc/init.d/ip6tables") then g <| g_saved6 := Some (g_v6 g) |>
      else if bool_decide (w = "rc-service") then
        match args with
        | [s; a] => if bool_decide (a = "start") then g <| g_started := g_started g ++ [s] |> else g
        | _ => g
        end
      else g
  | [] => g
  end.
(** A word of the command with a variable replaced. *)
Definition subst (var value : string) (ws : list string) : list string :=
  (λ w, if bool_decide (w = dq var) then value else w) <$> ws.
(** The body of [for ip in $(cat FILE); do BODY; done]. *)
Fixpoint loop_body (ws : list string) : list string :=
  match ws with
  | [] => []
  | [w; d] => [TrimSuffix w ";"]
  | w :: ws => w :: loop_body ws
  end.
Definition getent_words : list string := ["mkdir"; "-p"; "/etc/wireguard"; "&&"; "getent"; "ahostsv4"].
Definition cat_words : list string := ["for"; "ip"; "in"; "$(cat"; wgEndpointAddrsFile +:+ ");"; "do"].
Definition exec (cmd : string) (g : guest) : guest :=
  let ws := Fields cmd in
  if bool_decide (take 6 ws = getent_words) then g <| g_addrs := resolve g (unquote (default "" (ws !! 6%nat))) |>
  else if bool_decide (take 6 ws = cat_words)
  then foldl (λ g ip, simple (subst "$ip" ip (loop_body (drop 6 ws))) g) g (g_addrs g)
  else simple ws g.
Definition run (cmds : list string) (g : guest) : guest := foldl (λ g c, exec c g) g cmds.
End Guest.

(** ** Words *)
Lemma literal4_host a : literal4 a = true → host_word a = true.
Proof.
  intros [Hc Hp]%andb_true_iff. unfold host_word. apply andb_true_iff. split.
  - apply negb_true_iff, bool_decide_eq_false. intros ->. by vm_compute in Hp.
  - revert Hc. apply sforall_impl. intros c. unfold host_char. by intros [->| ->]%orb_true_iff; rewrite ?orb_true_r.
Qed.
Lemma host_char_plain c : host_char c = true →
  is_space c = false ∧ c ≠ dquote ∧ c ≠ ">"%char ∧ c ≠ "|"%char ∧ quote_char c = String c "".
Proof.
  intros H. assert (∀ d, host_char d = true →
    bool_decide (is_space d = false ∧ d ≠ dquote ∧ d ≠ ">"%char ∧ d ≠ "|"%char ∧ quote_char d = String d "") = true) as Hall.
  { clear. intros [[][][][][][][][]] H; vm_compute in H |- *; congruence. }
  eapply bool_decide_eq_true, Hall, H.
Qed.
Lemma host_token s : host_word s = true → token s = true.
Proof.
  intros [Hn Hc]%andb_true_iff. unfold token. apply andb_true_iff. split; [done|]. revert Hc. apply sforall_impl.
  intros c Hc. destruct (host_char_plain c Hc) as [-> _]. done.
Qed.
Lemma host_quote s : sforall host_char s = true → Quote s = dq s.
Proof.
  intros Hc. unfold Quote. f_equal. induction s as [|c s IH]; [done|]. cbn in Hc. apply andb_true_iff in Hc as [Hc Hs].
  change (concat_map quote_char (String c s)) with (quote_char c +:+ concat_map quote_char s).
  destruct (host_char_plain c Hc) as (_ & _ & _ & _ & ->). by rewrite IH.
Qed.
Lemma Contains_char_free c s : free_of c s = true → Contains s (String c "") = false.
Proof. intros H. rewrite free_of_Contains in H. by apply negb_true_iff. Qed.
Lemma host_no_redirect s : host_word s = true → Contains s ">" || bool_decide (s = "||") = false.
Proof.
  intros [Hn Hc]%andb_true_iff. apply orb_false_iff. split.
  - apply Contains_char_free. revert Hc. apply sforall_impl. intros c Hc.
    destruct (host_char_plain c Hc) as (_ & _ & ? & _). by rewrite bool_decide_false.
  - apply bool_decide_eq_false. by intros ->.
Qed.
Lemma Itoa_word z : 0 < z → host_word (Itoa z) = true.
Proof.
  intros Hz. unfold host_word. apply andb_true_iff. split.
  - apply negb_true_iff, bool_decide_eq_false. by apply Itoa_nonempty.
  - eapply sforall_impl; [|by apply Itoa_digits]. intros c Hc. unfold host_char. by rewrite Hc.
Qed.
Lemma endpoint_port_range ep : 0 < endpoint_port ep <= 65535.
Proof.
  unfold endpoint_port, wgDefaultEndpointPort. destruct (cut_last colon ep) as [[h p]|]; [|lia].
  destruct (Sscanf_d _) as [n|]; [|lia]. destruct ((n <=? 0) || (65535 <? n)) eqn:E; [lia|]. apply orb_false_iff in E. lia.
Qed.
Lemma unquote_dq s : unquote (dq s) = s.
Proof.
  unfold unquote, dq. change (String dquote (s +:+ String dquote "")) with (String dquote "" +:+ (s +:+ String dquote "")).
  by rewrite TrimPrefix_app, TrimSuffix_app.
Qed.
Lemma dq_token s : sforall (λ c, negb (is_space c)) s = true → token (dq s) = true.
Proof. intros H. unfold token, dq. cbn. by rewrite sforall_app, H. Qed.

(** The words of a command. *)
Lemma words_of cmd ws : cmd = Join " " ws → Forall (λ w, token w = true) ws → Fields cmd = ws.
Proof. intros ->. by apply Fields_Join. Qed.

Ltac tokens :=
  repeat (apply Forall_cons_2; [first [reflexivity | eauto with firewall]|]); apply Forall_nil_2.
Create HintDb firewall.
#[export] Hint Resolve host_token Itoa_word dq_token literal4_host : firewall.

(** ** Verdicts *)
Lemma accepts_drop rs p : Forall (λ r, ru_target r = "ACCEPT") rs → accepts (mkchain "DROP" rs) p = existsb (matches p) rs.
Proof.
  intros Hr. unfold accepts. cbn [ch_policy ch_rules]. induction Hr as [|r rs Ht _ IH]; [done|]. cbn [first_match existsb].
  destruct (matches p r); [by rewrite Ht|]. done.
Qed.
Lemma first_match_app p rs rs' : first_match p (rs ++ rs') = match first_match p rs with Some t => Some t | None => first_match p rs' end.
Proof. induction rs as [|r rs IH]; [done|]. cbn. by destruct (matches p r). Qed.

Section Run.
Context {R : Resolver}.

Lemma run_app a b g : run (a ++ b) g = run b (run a g).
Proof. apply foldl_app. Qed.
Lemma run_cons c cs g : run (c :: cs) g = run cs (exec c g).
Proof. done. Qed.

(** Commands that leave the firewall alone. *)
Definition quiet (cmd : string) : Prop := ∀ g, ∃ s, exec cmd g = g <| g_started := s |>.
Lemma quiet_word cmd w rest : Fields cmd = w :: rest →
  w ∉ ["iptables"; "ip6tables"; "ufw"; "/etc/init.d/iptables"; "/etc/init.d/ip6tables"; "rc-service"; "mkdir"; "for"] → quiet cmd.
Proof.
  intros Hf Hw g. exists (g_started g). unfold exec. rewrite Hf. rewrite !not_elem_of_cons in Hw.
  destruct Hw as (H1 & H2 & H3 & H4 & H5 & H6 & H7 & H8 & _).
  rewrite bool_decide_false by (unfold getent_words; cbn; congruence).
  rewrite bool_decide_false by (unfold cat_words; cbn; congruence).
  unfold simple. cbn [before_redirect]. destruct (_ || _); [by destruct g|].
  rewrite !bool_decide_false by done. by destruct g.
Qed.
Lemma quiet_mkdir p : token p = true → quiet ("mkdir -p " +:+ p).
Proof.
  intros Hp g. exists (g_started g). unfold exec. rewrite (words_of _ ["mkdir"; "-p"; p]); [|done|tokens].
  rewrite bool_decide_false by done. rewrite bool_decide_false by done. by destruct g.
Qed.
Lemma run_quiet cmds g : Forall quiet cmds → ∃ s, run cmds g = g <| g_started := s |>.
Proof.
  intros H. revert g. induction H as [|c cs Hc _ IH]; intros g; [exists (g_started g); by destruct g|].
  destruct (Hc g) as [s Hs]. rewrite run_cons, Hs. destruct (IH (g <| g_started := s |>)) as [s' ->]. by exists s'.
Qed.

(** ** The commands of the Alpine guests *)
Definition accept (cs : list cond) : rule := mkrule cs "ACCEPT".
Definition input_rules : list rule :=
  [accept [CIn "lo"]; accept [CState ["ESTABLISHED"; "RELATED"]]; accept [CProto "tcp"; CDport 22]].
Definition inbound_table : table := mktable (mkchain "DROP" input_rules) open_chain (mkchain "DROP" []).
Definition ipv6_table : table :=
  mktable (mkchain "DROP" [accept [CIn "lo"]]) (mkchain "DROP" [accept [COut "lo"]]) (mkchain "DROP" []).
Definition pin (port : Z) (a : string) : rule := accept [CDst a; CProto "udp"; CDport port].
Definition hole_rules (port : Z) (ends : list string) : list rule :=
  [accept [COut "lo"]; accept [COut "wg0"]] ++ (pin port <$> ends) ++
  [accept [CProto "tcp"; CSport 22; CState ["ESTABLISHED"]];
   accept [CDst "255.255.255.255"; CProto "udp"; CSport 68; CDport 67]].

Lemma run_inbound g : g_v4 g = open_table → g_v6 g = open_table →
  run (alpine_inbound_cmds ++ wgDropIPv6Cmds) g = g <| g_v4 := inbound_table |> <| g_v6 := ipv6_table |>.
Proof. destruct g. cbn. intros -> ->. vm_compute. reflexivity. Qed.

Definition append_output (rs : list rule) (g : guest) : guest :=
  g <| g_v4 := mktable (t_input (g_v4 g)) (with_rules (λ old, old ++ rs) (t_output (g_v4 g))) (t_forward (g_v4 g)) |>.
Lemma append_output_app g a b : append_output b (append_output a g) = append_output (a ++ b) g.
Proof.
  destruct g as [[i [p o] f] v6 u a' s4 s6 st]. unfold append_output, with_rules, update. cbn. by rewrite app_assoc.
Qed.

Lemma exec_resolve cfg g : host_word (wireGuardEndpointHost cfg) = true →
  exec (wgResolveEndpointCmd cfg) g = g <| g_addrs := resolve g (wireGuardEndpointHost cfg) |>.
Proof.
  intros Hh. unfold exec, wgResolveEndpointCmd. set (h := wireGuardEndpointHost cfg) in *.
  pose proof Hh as [_ Hc]%andb_true_iff. rewrite host_quote by done.
  rewrite (words_of _ (getent_words ++ [dq h; "|"; "awk"; "'{print"; "$1}'"; "|"; "sort"; "-u"; ">"; wgEndpointAddrsFile])).
  - rewrite bool_decide_true by done. change (default _ _) with (dq h). by rewrite unquote_dq.
  - done.
  - apply Forall_app_2; [tokens|]. apply Forall_cons_2; [|tokens]. apply dq_token.
    apply host_token, andb_true_iff in Hh as [_ Hh]. done.
Qed.

Lemma before_redirect_id ws : Forall (λ w, Contains w ">" || bool_decide (w = "||") = false) ws → before_redirect ws = ws.
Proof. induction 1 as [|w ws Hw _ IH]; [done|]. cbn [before_redirect]. by rewrite Hw, IH. Qed.
Lemma simple_append args g : before_redirect args = args →
  simple ("iptables" :: "-A" :: "OUTPUT" :: args) g = append_output (rules_of g args) g.
Proof.
  intros Ha. unfold simple. change (before_redirect ("iptables" :: "-A" :: "OUTPUT" :: args))
    with ("iptables" :: "-A" :: "OUTPUT" :: before_redirect args). by rewrite Ha.
Qed.
Lemma resolve_literal g a : literal4 a = true → resolve g a = [a].
Proof.
  intros H. unfold resolve. pose proof H as [_ Hp]%andb_true_iff. apply bool_decide_eq_true in Hp as [ip ->]. by rewrite H.
Qed.
Lemma pin_rule g a port : literal4 a = true → 0 < port <= 65535 →
  rules_of g ["-d"; a; "-p"; "udp"; "--dport"; Itoa port; "-j"; "ACCEPT"] = [pin port a].
Proof.
  intros Ha Hp. unfold rules_of. assert (parse_spec ["-d"; a; "-p"; "udp"; "--dport"; Itoa port; "-j"; "ACCEPT"]
    = Some (mkspec [CProto "udp"; CDport port] (Some a) "ACCEPT")) as ->.
  { cbn [parse_spec]. rewrite Atoi_Itoa by (unfold max_int; lia). reflexivity. }
  cbn [sp_dst sp_conds sp_target]. by rewrite resolve_literal.
Qed.
Lemma host_not_var w var : host_word w = true → w ≠ dq var.
Proof.
  intros [_ Hc]%andb_true_iff ->. unfold dq in Hc. cbn [sforall] in Hc. apply andb_true_iff in Hc as [Hc _].
  by vm_compute in Hc.
Qed.

Definition pin_cmd (port : Z) : string :=
  "for ip in $(cat " +:+ wgEndpointAddrsFile +:+ "); do iptables -A OUTPUT -d " +:+ dq "$ip" +:+ " -p udp --dport "
  +:+ Itoa port +:+ " -j ACCEPT; done".
Lemma exec_pin port g : Forall (λ a, literal4 a = true) (g_addrs g) → 0 < port <= 65535 →
  exec (pin_cmd port) g = append_output (pin port <$> g_addrs g) g.
Proof.
  intros Ha Hp. unfold exec, pin_cmd. assert (token (Itoa port) = true) by (apply host_token, Itoa_word; lia).
  rewrite (words_of _ (cat_words ++ ["iptables"; "-A"; "OUTPUT"; "-d"; dq "$ip"; "-p"; "udp"; "--dport"; Itoa port; "-j"; "ACCEPT;"; "done"]))
    by first [done | apply Forall_app_2; tokens].
  rewrite bool_decide_false by done. rewrite bool_decide_true by done.
  set (body := loop_body _).
  assert (body = ["iptables"; "-A"; "OUTPUT"; "-d"; dq "$ip"; "-p"; "udp"; "--dport"; Itoa port; "-j"; "ACCEPT"]) as -> by reflexivity.
  assert (∀ a h, literal4 a = true →
    simple (subst "$ip" a ["iptables"; "-A"; "OUTPUT"; "-d"; dq "$ip"; "-p"; "udp"; "--dport"; Itoa port; "-j"; "ACCEPT"]) h
    = append_output [pin port a] h) as Hstep.
  { intros a h Hl. unfold subst. cbn [fmap list_fmap]. rewrite (bool_decide_false (Itoa port = dq "$ip")) by (apply host_not_var, Itoa_word; lia).
    change (simple _ h) with (simple ("iptables" :: "-A" :: "OUTPUT" :: ["-d"; a; "-p"; "udp"; "--dport"; Itoa port; "-j"; "ACCEPT"]) h).
    rewrite simple_append; [by rewrite pin_rule|]. apply before_redirect_id.
    repeat (apply Forall_cons_2; [first [reflexivity | apply host_no_redirect; first [by apply literal4_host | apply Itoa_word; lia]]|]).
    apply Forall_nil_2. }
  remember (g_addrs g) as l eqn:E. clear E. revert g.
  induction Ha as [|a l Ha _ IH]; intros g.
  - cbn. destruct g as [[i [p o] f] v6 u a' s4 s6 st]. unfold append_output, with_rules, update. cbn. by rewrite app_nil_r.
  - cbn [foldl]. rewrite Hstep by done. rewrite IH by done. by rewrite append_output_app.
Qed.

Lemma elem_of_sort_u a l : a ∈ sort_u l ↔ a ∈ l.
Proof. unfold sort_u. rewrite merge_sort_Permutation. apply elem_of_remove_dups. Qed.
Lemma resolve_literals g h : Forall (λ a, literal4 a = true) (resolve g h).
Proof.
  unfold resolve. destruct (ParseIP h); [destruct (literal4 h) eqn:E; by repeat constructor|].
  destruct (egress g dns_query); [|constructor]. apply Forall_forall. intros a Ha%(proj1 (elem_of_sort_u _ _)). exact (dns_literal h a Ha).
Qed.
Lemma resolve_from g h a : a ∈ resolve g h → a = h ∨ a ∈ dns h.
Proof.
  unfold resolve. destruct (ParseIP h); [destruct (literal4 h); intros Ha; set_solver|].
  destruct (egress g dns_query); [|set_solver]. intros Ha%(proj1 (elem_of_sort_u _ _)). by right.
Qed.
Lemma resolve_open g h : t_output (g_v4 g) = open_chain → u_active (g_ufw g) = false → resolve g h = resolve fresh h.
Proof. intros Ho Hu. unfold resolve, egress, ufw_accepts. by rewrite Ho, Hu. Qed.
Lemma wireGuardEndpointPort_range cfg : 0 < wireGuardEndpointPort cfg <= 65535.
Proof. destruct cfg as [c|]; [apply endpoint_port_range|]. done. Qed.

Definition outbound_table (port : Z) (ends : list string) : table :=
  mktable (mkchain "DROP" input_rules) (mkchain "DROP" (hole_rules port ends)) (mkchain "DROP" []).
(** A command that adds one fixed rule. *)
Ltac fixed_rule := intros g; destruct g as [[? ? ?] ? ? ? ? ? ?]; vm_compute; reflexivity.
Lemma exec_lo : ∀ g, exec "iptables -A OUTPUT -o lo -j ACCEPT" g = append_output [accept [COut "lo"]] g.
Proof. fixed_rule. Qed.
Lemma exec_wg : ∀ g, exec "iptables -A OUTPUT -o wg0 -j ACCEPT" g = append_output [accept [COut "wg0"]] g.
Proof. fixed_rule. Qed.
Lemma exec_ssh : ∀ g, exec "iptables -A OUTPUT -p tcp --sport 22 -m conntrack --ctstate ESTABLISHED -j ACCEPT" g
  = append_output [accept [CProto "tcp"; CSport 22; CState ["ESTABLISHED"]]] g.
Proof. fixed_rule. Qed.
Lemma exec_dhcp : ∀ g, exec "iptables -A OUTPUT -p udp --sport 68 --dport 67 -d 255.255.255.255 -j ACCEPT" g
  = append_output [accept [CDst "255.255.255.255"; CProto "udp"; CSport 68; CDport 67]] g.
Proof. fixed_rule. Qed.

Lemma run_outbound cfg g : host_word (wireGuardEndpointHost cfg) = true → g_v4 g = inbound_table → u_active (g_ufw g) = false →
  let ends := resolve fresh (wireGuardEndpointHost cfg) in
  run (alpine_outbound_cmds cfg) g = g <| g_addrs := ends |> <| g_v4 := outbound_table (wireGuardEndpointPort cfg) ends |>.
Proof.
  intros Hh H4 Hu. cbn zeta. unfold alpine_outbound_cmds. rewrite !run_cons, exec_resolve by done.
  rewrite resolve_open by by rewrite ?H4. set (ends := resolve fresh _).
  rewrite exec_lo, exec_wg, append_output_app. fold (pin_cmd (wireGuardEndpointPort cfg)).
  rewrite exec_pin by first [apply wireGuardEndpointPort_range | apply (resolve_literals fresh)].
  rewrite exec_ssh, exec_dhcp, !append_output_app. destruct g as [v4 v6 u a s4 s6 st]. cbn in H4. subst v4.
  change (exec "iptables -P OUTPUT DROP" _) with
    (mkguest (mktable (mkchain "DROP" input_rules) (mkchain "DROP" []) (mkchain "DROP" [])) v6 u ends s4 s6 st).
  unfold append_output, with_rules, update. cbn. done.
Qed.

Definition to_addr (a : string) : rule := accept [CDst a].
Lemma exec_server g server : host_word server = true →
  exec ("iptables -A OUTPUT -d " +:+ server +:+ " -j ACCEPT") g = append_output (to_addr <$> resolve g server) g.
Proof.
  intros Hs. unfold exec. rewrite (words_of _ ["iptables"; "-A"; "OUTPUT"; "-d"; server; "-j"; "ACCEPT"]) by (done || tokens).
  rewrite bool_decide_false by done. rewrite bool_decide_false by done. rewrite simple_append; [done|].
  apply before_redirect_id.
  repeat (apply Forall_cons_2; [first [reflexivity | by apply host_no_redirect]|]). apply Forall_nil_2.
Qed.
Lemma append_output_nil g : append_output [] g = g.
Proof. destruct g as [[i [p o] f] v6 u a' s4 s6 st]. unfold append_output, with_rules, update. cbn. by rewrite app_nil_r. Qed.
Lemma run_servers servers g : Forall (λ s, host_word s = true) servers → ∃ addrs,
  run ((λ server, "iptables -A OUTPUT -d " +:+ server +:+ " -j ACCEPT") <$> servers) g = append_output (to_addr <$> addrs) g ∧
  (∀ a, a ∈ addrs → ∃ s, s ∈ servers ∧ (a = s ∨ a ∈ dns s)) ∧ (∀ s, s ∈ servers → literal4 s = true → s ∈ addrs).
Proof.
  intros Hs. revert g. induction Hs as [|s ss Hs _ IH]; intros g.
  - exists []. rewrite append_output_nil. split_and!; [done|set_solver..].
  - rewrite fmap_cons, run_cons, exec_server by done. destruct (IH (append_output (to_addr <$> resolve g s) g)) as (addrs & -> & Hf & Hl).
    exists (resolve g s ++ addrs). rewrite append_output_app, fmap_app. split_and!; [done| |].
    + intros a [Ha%resolve_from|Ha]%elem_of_app; [exists s; split; [left|done]|].
      destruct (Hf a Ha) as (s' & ? & ?). exists s'. split; [by right|done].
    + intros s' [-> |Hs']%elem_of_cons Hl'; apply elem_of_app; [left|right; by apply Hl].
      rewrite resolve_literal by done. left.
Qed.
Lemma nfsServers_words mounts : Forall (λ m, nm_Server m = "" ∨ host_word (nm_Server m) = true) mounts →
  Forall (λ s, host_word s = true) (nfsServers mounts).
Proof.
  intros Hm. unfold nfsServers. assert (∀ out, Forall (λ s, host_word s = true) out →
    Forall (λ s, host_word s = true) (foldl add_server out mounts)) as H; [|by apply H].
  induction Hm as [|m ms Hm _ IH]; intros out Ho; [done|]. cbn. apply IH. unfold add_server.
  case_bool_decide; [done|]. case_bool_decide; [done|]. cbn. apply Forall_app_2; [done|]. destruct Hm; [done|]. by repeat constructor.
Qed.

(** ** What may leave *)
Inductive may_leave (port : Z) (ends lan : list string) (p : packet) : Prop :=
| leave_loopback : p_out p = "lo" → may_leave port ends lan p
| leave_tunnel : p_out p = "wg0" → may_leave port ends lan p
| leave_handshake : p_proto p = "udp" → p_dport p = port → p_dst p ∈ ends → may_leave port ends lan p
| leave_ssh_reply : p_proto p = "tcp" → p_sport p = 22 → p_established p = true → may_leave port ends lan p
| leave_dhcp : p_proto p = "udp" → p_sport p = 68 → p_dport p = 67 → p_dst p = "255.255.255.255" → may_leave port ends lan p
| leave_lan : p_dst p ∈ lan → may_leave port ends lan p.

Lemma existsb_pin p port ends : existsb (matches p) (pin port <$> ends) = true ↔ p_proto p = "udp" ∧ p_dport p = port ∧ p_dst p ∈ ends.
Proof.
  rewrite existsb_exists. split.
  - intros (r & (a & -> & Ha)%list_elem_of_In%list_elem_of_fmap & Hm). unfold matches, pin, accept in Hm. cbn in Hm.
    rewrite !andb_true_iff, !bool_decide_eq_true, Z.eqb_eq in Hm. naive_solver.
  - intros (Hp & Hd & Ha). exists (pin port (p_dst p)). split; [by apply list_elem_of_In, list_elem_of_fmap_2|].
    unfold matches, pin, accept. cbn. rewrite !andb_true_iff, !bool_decide_eq_true, Z.eqb_eq. done.
Qed.
Lemma existsb_to p addrs : existsb (matches p) (to_addr <$> addrs) = true ↔ p_dst p ∈ addrs.
Proof.
  rewrite existsb_exists. split.
  - intros (r & (a & -> & Ha)%list_elem_of_In%list_elem_of_fmap & Hm). unfold matches, to_addr, accept in Hm. cbn in Hm.
    rewrite andb_true_r, bool_decide_eq_true in Hm. naive_solver.
  - intros Ha. exists (to_addr (p_dst p)). split; [by apply list_elem_of_In, list_elem_of_fmap_2|].
    unfold matches, to_addr, accept. cbn. by rewrite bool_decide_true.
Qed.
Lemma holes_accept p port ends lan :
  accepts (mkchain "DROP" (hole_rules port ends ++ (to_addr <$> lan))) p = true ↔ may_leave port ends lan p.
Proof.
  rewrite accepts_drop.
  2:{ apply Forall_app_2; [apply Forall_app_2; [by repeat constructor|]; apply Forall_app_2; [|by repeat constructor]|];
      apply Forall_fmap, Forall_true; done. }
  unfold hole_rules. rewrite !existsb_app, !orb_true_iff, existsb_pin, existsb_to. unfold matches, accept. cbn.
  rewrite !orb_true_iff, !andb_true_iff, !bool_decide_eq_true, !Z.eqb_eq. split.
  - intros [[[[H _]|[[H _]|]]|[(H1 & H2 & H3)|[(H1 & H2 & [H3 _] & _)|[(H1 & H2 & H3 & H4 & _)|]]]]|H]; try done.
    + by apply leave_loopback.
    + by apply leave_tunnel.
    + by apply leave_handshake.
    + by apply leave_ssh_reply.
    + by apply leave_dhcp.
    + by apply leave_lan.
  - intros [H|H|H1 H2 H3|H1 H2 H3|H1 H2 H3 H4|H]; try tauto.
    left. right. right. left. split_and!; try done. set_solver.
Qed.

(** ** The commands around them *)
Definition firewall_words : list string := ["iptables"; "ip6tables"; "ufw"; "/etc/init.d/iptables"; "/etc/init.d/ip6tables"].
Definition quietb (cmd : string) : bool :=
  let ws := Fields cmd in
  negb (bool_decide (take 6 ws = getent_words)) && negb (bool_decide (take 6 ws = cat_words))
  && match before_redirect ws with w :: _ => negb (bool_decide (w ∈ firewall_words)) | [] => true end.
Lemma quietb_quiet cmd : quietb cmd = true → quiet cmd.
Proof.
  unfold quietb. rewrite !andb_true_iff, !negb_true_iff, !bool_decide_eq_false. intros [[H1 H2] H3] g.
  unfold exec. rewrite !bool_decide_false by done. unfold simple. destruct (before_redirect (Fields cmd)) as [|w args].
  { exists (g_started g). by destruct g. }
  apply negb_true_iff, bool_decide_eq_false in H3. unfold firewall_words in H3. rewrite !not_elem_of_cons in H3.
  destruct H3 as (? & ? & ? & ? & ? & _). rewrite !(bool_decide_false (w = _)) by done.
  case_bool_decide; [|exists (g_started g); by destruct g].
  destruct args as [|x [|y [|]]]; try (exists (g_started g); by destruct g).
  case_bool_decide; [|exists (g_started g); by destruct g]. by eexists.
Qed.
Lemma quiet_closed cmds : forallb quietb cmds = true → Forall quiet cmds.
Proof. rewrite forallb_forall. intros H. apply Forall_forall. intros c Hc. apply quietb_quiet, H. by apply list_elem_of_In. Qed.
Lemma quiet_first w rest : token w = true →
  w ∉ ["iptables"; "ip6tables"; "ufw"; "/etc/init.d/iptables"; "/etc/init.d/ip6tables"; "rc-service"; "mkdir"; "for"] →
  quiet (w +:+ " " +:+ rest).
Proof. intros Ht Hw. by eapply quiet_word; [apply Fields_cons|]. Qed.
Ltac not_listed := rewrite !not_elem_of_cons; split_and!; [done..|apply not_elem_of_nil].

Definition path_word (p : string) : bool := bool_decide (p = "") || token p.
Definition plain_share (m : ShareMount) : bool := path_word (sm_GuestPath m).
Definition plain_nfs (m : NFSMount) : bool :=
  path_word (nm_GuestPath m) && (bool_decide (nm_Server m = "") || host_word (nm_Server m)).
Lemma nat_token i : token (Itoa (Z.of_nat i)) = true.
Proof. destruct i as [|i]; [done|]. apply host_token, Itoa_word. lia. Qed.
Lemma share_path_token m i : plain_share m = true → token (share_path m i) = true.
Proof.
  unfold plain_share, path_word, share_path. case_bool_decide; [intros _|by intros ?]. unfold token.
  pose proof (nat_token i) as [_ Hs]%andb_true_iff. rewrite sforall_app, Hs. done.
Qed.
Lemma share_cmds_quiet after i m : plain_share m = true → Forall quiet (after (share_path m i)) → Forall quiet (share_cmds after i m).
Proof.
  intros Hm Ha. unfold share_cmds. apply Forall_app_2; [|done]. repeat apply Forall_cons_2; [..|apply Forall_nil_2].
  - by apply quiet_mkdir, share_path_token.
  - apply (quiet_first "grep"); [done|not_listed].
  - apply (quiet_first "mount"); [done|not_listed].
Qed.
Lemma quiet_for rest : quiet ("for i " +:+ rest).
Proof.
  intros g. exists (g_started g). assert (Fields ("for i " +:+ rest) = "for" :: "i" :: Fields rest) as Hf.
  { change ("for i " +:+ rest) with ("for" +:+ " " +:+ ("i" +:+ " " +:+ rest)). by rewrite !Fields_cons. }
  unfold exec. rewrite Hf. rewrite !bool_decide_false by done. by destruct g.
Qed.
Lemma nfs_cmds_quiet m : plain_nfs m = true → Forall quiet (nfs_cmds m).
Proof.
  intros [Hp _]%andb_true_iff. unfold nfs_cmds. unfold path_word in Hp. case_bool_decide as He; [constructor|].
  repeat apply Forall_cons_2; [..|apply Forall_nil_2].
  - by apply quiet_mkdir.
  - apply (quiet_first "grep"); [done|not_listed].
  - apply quiet_for.
Qed.
Lemma shares_quiet after mounts : Forall (λ m, plain_share m = true) mounts → (∀ p, Forall quiet (after p)) →
  Forall quiet (mjoin (imap (share_cmds after) mounts)).
Proof.
  intros Hm Ha. rewrite Forall_forall. intros c (l & Hc & Hl)%list_elem_of_join. apply elem_of_lookup_imap in Hl as (i & m & -> & Hi).
  eapply Forall_forall; [|exact Hc]. apply share_cmds_quiet; [|done]. eapply Forall_lookup in Hm; done.
Qed.
Lemma nfss_quiet mounts : Forall (λ m, plain_nfs m = true) mounts → Forall quiet (mjoin (nfs_cmds <$> mounts)).
Proof. intros Hm. apply Forall_join, Forall_fmap. eapply Forall_impl; [exact Hm|]. intros m. apply nfs_cmds_quiet. Qed.
Lemma alpine_prefix_quiet mounts nfs pkgs : Forall (λ m, plain_share m = true) mounts → Forall (λ m, plain_nfs m = true) nfs →
  Forall quiet (alpine_network_cmds ++ [apk_add pkgs] ++ (if negb (bool_decide (nfs = [])) then ["rc-update add nfsmount default"] else [])
    ++ alpine_ssh_cmds ++ torrentAlpineMountCmds mounts nfs ++ ["rc-update add qbittorrent default"; "rc-service qbittorrent start"]).
Proof.
  intros Hm Hn. repeat apply Forall_app_2; try (apply quiet_closed; vm_compute; reflexivity).
  - destruct (negb _); [apply quiet_closed; vm_compute; reflexivity|constructor].
  - by apply shares_quiet.
  - by apply nfss_quiet.
Qed.

Lemma run_persist g : run alpine_persist_cmds g = g <| g_saved4 := Some (g_v4 g) |> <| g_saved6 := Some (g_v6 g) |>.
Proof. destruct g. vm_compute. reflexivity. Qed.
Lemma refresh_quiet cfg : Forall quiet (alpineWGEndpointRefreshCmds cfg).
Proof. unfold alpineWGEndpointRefreshCmds. destruct (wgEndpointIsLiteralIP cfg); [constructor|]. apply quiet_closed. vm_compute. reflexivity. Qed.

(** The guest once the kill-switch is up: its tables, and what a boot restores. *)
Definition switched (port : Z) (ends : list string) (more : list rule) (g : guest) : Prop :=
  g_v4 g = mktable (mkchain "DROP" input_rules) (mkchain "DROP" (hole_rules port ends ++ more)) (mkchain "DROP" []) ∧
  g_v6 g = ipv6_table ∧ u_active (g_ufw g) = false ∧ g_saved4 g = Some (g_v4 g) ∧ g_saved6 g = Some (g_v6 g).

Lemma run_core cfg before g0 : host_word (wireGuardEndpointHost cfg) = true → Forall quiet before →
  g_v4 g0 = open_table → g_v6 g0 = open_table → u_active (g_ufw g0) = false →
  let g := run (before ++ (alpine_inbound_cmds ++ wgDropIPv6Cmds) ++ alpine_outbound_cmds cfg) g0 in
  g_v4 g = outbound_table (wireGuardEndpointPort cfg) (resolve fresh (wireGuardEndpointHost cfg)) ∧
  g_v6 g = ipv6_table ∧ g_ufw g = g_ufw g0.
Proof.
  intros Hh Hb H4 H6 Hu. cbn zeta. rewrite run_app, (run_app (alpine_inbound_cmds ++ wgDropIPv6Cmds)).
  destruct (run_quiet before g0 Hb) as [s ->]. rewrite run_inbound by done. by rewrite run_outbound.
Qed.
Lemma run_tail port ends mid extra after g : Forall quiet after → run mid g = append_output extra g →
  g_v4 g = outbound_table port ends → g_v6 g = ipv6_table → u_active (g_ufw g) = false →
  switched port ends extra (run (mid ++ after ++ alpine_persist_cmds) g).
Proof.
  intros Ha Hm H4 H6 Hu. rewrite !run_app, Hm. destruct (run_quiet after (append_output extra g) Ha) as [s ->].
  rewrite run_persist. destruct g as [v4 v6 u a s4 s6 st]. cbn in *. subst. done.
Qed.
Lemma switched_egress port ends lan g p : switched port ends (to_addr <$> lan) g → egress g p = true ↔ may_leave port ends lan p.
Proof.
  intros (H4 & _ & Hu & _). unfold egress, ufw_accepts. rewrite H4, Hu, andb_true_r. apply holes_accept.
Qed.
Lemma switched_ipv6 port ends more g p : switched port ends more g → egress6 g p = true ↔ p_out p = "lo".
Proof.
  intros (_ & H6 & _). unfold egress6. rewrite H6. cbn [t_output ipv6_table]. rewrite accepts_drop by by repeat constructor.
  unfold matches. cbn. by rewrite orb_false_r, andb_true_r, bool_decide_eq_true.
Qed.
Lemma switched_ingress port ends more g p : switched port ends more g →
  ingress g p = true ↔ p_in p = "lo" ∨ p_established p = true ∨ p_proto p = "tcp" ∧ p_dport p = 22.
Proof.
  intros (H4 & _). unfold ingress. rewrite H4. cbn [t_input]. rewrite accepts_drop by by repeat constructor.
  unfold matches. cbn. rewrite !orb_true_iff, !andb_true_iff, !bool_decide_eq_true, Z.eqb_eq.
  split.
  - intros [[? _]|[[[? _] _]|[(? & ? & _)|?]]]; [tauto..|done].
  - intros [?|[?|[??]]]; [tauto| |tauto]. right. left. split_and!; [done|set_solver|done].
Qed.

(** C15: The Alpine torrent guest lets nothing out beside the tunnel.  After the
    commands of its first boot, for any endpoint that is a host name or an
    address and any mounts with plain paths and servers, an IPv4 packet leaves
    exactly when it stays on the loopback device, goes through [wg0], is the
    handshake (UDP to the endpoint's port at an address the endpoint's name had
    before the policy closed), is a reply of an established SSH session, renews
    the DHCP lease, or goes to an address of one of the NFS servers, those given
    by address among them.  IPv6 leaves on the loopback device only, nothing
    comes in but loopback, established connections and SSH, and a reboot
    restores these very tables. *)
Theorem alpine_killswitch wg mounts nfs : host_word (endpoint_host (wg_Endpoint wg)) = true →
  Forall (λ m, plain_share m = true) mounts → Forall (λ m, plain_nfs m = true) nfs →
  let g := run (torrentAlpineRunCmds mounts nfs (Some wg)) fresh in
  ∃ lan, (∀ a, a ∈ lan → ∃ s, s ∈ nfsServers nfs ∧ (a = s ∨ a ∈ dns s)) ∧
    (∀ s, s ∈ nfsServers nfs → literal4 s = true → s ∈ lan) ∧
    (∀ p, egress g p = true ↔
      may_leave (endpoint_port (wg_Endpoint wg)) (resolve fresh (endpoint_host (wg_Endpoint wg))) lan p) ∧
    (∀ p, egress6 g p = true ↔ p_out p = "lo") ∧
    (∀ p, ingress g p = true ↔ p_in p = "lo" ∨ p_established p = true ∨ p_proto p = "tcp" ∧ p_dport p = 22) ∧
    g_saved4 g = Some (g_v4 g) ∧ g_saved6 g = Some (g_v6 g).
Proof.
  intros Hh Hm Hn. cbn zeta. pose proof (alpine_prefix_quiet mounts nfs
    (["ca-certificates"; "curl"; "iptables"; "ip6tables"; "qbittorrent-nox"; "qemu-guest-agent"; "bind-tools"; "wireguard-tools"]
     ++ (if negb (bool_decide (nfs = [])) then ["nfs-utils"] else [])) Hm Hn) as Hq.
  set (before := alpine_network_cmds ++ _) in Hq.
  set (after := ["wg-quick up wg0"] ++ wg_boot_hook ++ ["rc-update add local default"] ++ alpineWGEndpointRefreshCmds (Some wg)).
  assert (torrentAlpineRunCmds mounts nfs (Some wg) =
    (before ++ (alpine_inbound_cmds ++ wgDropIPv6Cmds) ++ alpine_outbound_cmds (Some wg)) ++
    ((λ server, "iptables -A OUTPUT -d " +:+ server +:+ " -j ACCEPT") <$> nfsServers nfs) ++ after ++ alpine_persist_cmds) as ->.
  { unfold torrentAlpineRunCmds, torrentAlpineKillSwitchCmds, before, after. by rewrite <-!app_assoc. }
  destruct (run_core (Some wg) before fresh Hh Hq) as (H4 & H6 & Hu); [done..|].
  rewrite run_app. set (g1 := run (before ++ _) fresh) in *. clearbody g1 before.
  destruct (run_servers (nfsServers nfs) g1) as (lan & Hrun & Hfrom & Hlit).
  { apply nfsServers_words. eapply Forall_impl; [exact Hn|]. intros m [_ [?%bool_decide_eq_true|?]%orb_true_iff]%andb_true_iff; tauto. }
  assert (Forall quiet after) as Ha.
  { unfold after. rewrite !app_assoc. apply Forall_app_2; [apply quiet_closed; vm_compute; reflexivity|apply refresh_quiet]. }
  assert (u_active (g_ufw g1) = false) as Hi by by rewrite Hu.
  pose proof (run_tail _ _ _ _ after g1 Ha Hrun H4 H6 Hi) as Hs.
  exists lan. split_and!; [done|done|intros p; by apply (switched_egress _ _ _ _ p Hs)|intros p; by apply (switched_ipv6 _ _ _ _ p Hs)
    |intros p; by apply (switched_ingress _ _ _ _ p Hs)|apply Hs|apply Hs].
Qed.

Definition reject_rule : rule := mkrule [CNotOut "wg0"; CGid "bitmagnet"] "REJECT".
Lemma exec_reject : ∀ g, exec "iptables -A OUTPUT ! -o wg0 -m owner --gid-owner bitmagnet -j REJECT" g = append_output [reject_rule] g.
Proof. fixed_rule. Qed.
Lemma accepts_last_reject rs r p : ru_target r ≠ "ACCEPT" → accepts (mkchain "DROP" (rs ++ [r])) p = accepts (mkchain "DROP" rs) p.
Proof.
  intros Hr. unfold accepts. cbn [ch_policy ch_rules]. rewrite first_match_app. destruct (first_match p rs); [done|]. cbn.
  destruct (matches p r); [|done]. by rewrite (bool_decide_false (_ = "ACCEPT")).
Qed.
Lemma bitmagnet_prefix_quiet opts : Forall quiet (alpine_network_cmds ++
  [apk_add ["ca-certificates"; "curl"; "tar"; "iptables"; "ip6tables"; "postgresql16"; "postgresql16-client"; "postgresql16-contrib";
            "wireguard-tools"; "qemu-guest-agent"]] ++
  bitmagnetInstallCmds ++ bitmagnetPostgresCmds opts ++
  ["rc-update add bitmagnet default"; "rc-service bitmagnet start"] ++ alpine_ssh_cmds).
Proof.
  assert (Forall quiet (bitmagnetPostgresCmds opts)) as Hp.
  { unfold bitmagnetPostgresCmds. generalize (Itoa (bo_PGDataHostUID opts)), (Itoa (bo_PGDataHostGID opts)), (bo_PGPassword opts).
    intros uid gid pw. destruct (negb _); apply quiet_closed; vm_compute; reflexivity. }
  rewrite !app_assoc. rewrite <-(app_assoc _ _ alpine_ssh_cmds). apply Forall_app_2; [|apply quiet_closed; vm_compute; reflexivity].
  apply Forall_app_2; [apply quiet_closed; vm_compute; reflexivity|exact Hp].
Qed.

(** The bitmagnet guest lets nothing out beside the tunnel.  After the
    commands of its first boot an IPv4 packet leaves exactly when it stays on
    the loopback device, goes through [wg0], is the handshake with the
    endpoint, a reply of an established SSH session or the renewal of the DHCP
    lease, whatever group its sender has; IPv6 leaves on the loopback device
    only, the web interface is not reachable from outside, and a reboot
    restores these tables. *)
Theorem bitmagnet_killswitch opts wg : bo_WireGuard opts = Some wg → host_word (endpoint_host (wg_Endpoint wg)) = true →
  let g := run (bitmagnetRunCmds opts) fresh in
  (∀ p, egress g p = true ↔
    may_leave (endpoint_port (wg_Endpoint wg)) (resolve fresh (endpoint_host (wg_Endpoint wg))) [] p) ∧
  (∀ p, egress6 g p = true ↔ p_out p = "lo") ∧
  (∀ p, ingress g p = true ↔ p_in p = "lo" ∨ p_established p = true ∨ p_proto p = "tcp" ∧ p_dport p = 22) ∧
  g_saved4 g = Some (g_v4 g) ∧ g_saved6 g = Some (g_v6 g).
Proof.
  intros Hw Hh. cbn zeta. pose proof (bitmagnet_prefix_quiet opts) as Hq. set (before := alpine_network_cmds ++ _) in Hq.
  set (boot := if bool_decide (alpineWGEndpointRefreshCmds (Some wg) = []) then wg_boot_hook else []).
  set (after := ["rc-update add wireguard default 2>/dev/null || true"; "wg-quick up wg0"] ++ alpineWGEndpointRefreshCmds (Some wg)
                ++ boot ++ ["rc-update add local default"]).
  assert (bitmagnetRunCmds opts = (before ++ (alpine_inbound_cmds ++ wgDropIPv6Cmds) ++ alpine_outbound_cmds (Some wg)) ++
    ["iptables -A OUTPUT ! -o wg0 -m owner --gid-owner bitmagnet -j REJECT"] ++ after ++ alpine_persist_cmds) as ->.
  { unfold bitmagnetRunCmds, bitmagnetKillSwitchCmds, before, after. rewrite Hw. by rewrite <-!app_assoc. }
  destruct (run_core (Some wg) before fresh Hh Hq) as (H4 & H6 & Hu); [done..|].
  rewrite run_app. set (g1 := run (before ++ _) fresh) in *. clearbody g1 before.
  assert (Forall quiet after) as Ha.
  { unfold after. apply Forall_app_2; [apply quiet_closed; vm_compute; reflexivity|]. apply Forall_app_2; [apply refresh_quiet|].
    unfold boot. case_bool_decide; apply quiet_closed; vm_compute; reflexivity. }
  assert (u_active (g_ufw g1) = false) as Hi by by rewrite Hu.
  pose proof (run_tail _ _ ["iptables -A OUTPUT ! -o wg0 -m owner --gid-owner bitmagnet -j REJECT"] _ after g1 Ha (exec_reject g1) H4 H6 Hi) as Hs.
  split_and!; [|intros p; by apply (switched_ipv6 _ _ _ _ p Hs)|intros p; by apply (switched_ingress _ _ _ _ p Hs)|apply Hs|apply Hs].
  intros p. destruct Hs as (H4' & _ & Hu' & _). unfold egress, ufw_accepts. rewrite H4', Hu', andb_true_r. cbn [t_output].
  rewrite accepts_last_reject by done. rewrite <-(holes_accept p _ _ []). by rewrite app_nil_r.
Qed.

(** ** The Ubuntu guest *)
Definition allow_out (r : rule) (g : guest) : guest := g <| g_ufw := (g_ufw g) <| u_rules := add_rule r (u_rules (g_ufw g)) |> |>.
Definition allow_all (rs : list rule) (g : guest) : guest := foldl (λ g r, allow_out r g) g rs.
Lemma elem_of_add_rule x r rs : x ∈ add_rule r rs ↔ x = r ∨ x ∈ rs.
Proof. unfold add_rule. case_bool_decide; set_solver. Qed.
Lemma allow_all_spec rs g : ∃ rs', allow_all rs g = g <| g_ufw := (g_ufw g) <| u_rules := rs' |> |> ∧ (∀ x, x ∈ rs' ↔ x ∈ rs ∨ x ∈ u_rules (g_ufw g)).
Proof.
  revert g. induction rs as [|r rs IH]; intros g.
  - exists (u_rules (g_ufw g)). split; [by destruct g as [? ? []]|set_solver].
  - destruct (IH (allow_out r g)) as (rs' & Hr & Hx). exists rs'. split; [exact Hr|]. intros x. rewrite Hx. cbn.
    rewrite elem_of_add_rule. set_solver.
Qed.
Lemma existsb_elem p rs rs' : (∀ x, x ∈ rs ↔ x ∈ rs') → existsb (matches p) rs = existsb (matches p) rs'.
Proof.
  intros H. apply eq_true_iff_eq. rewrite !existsb_exists. setoid_rewrite <-list_elem_of_In. by setoid_rewrite H.
Qed.

Definition ufw_pin (port : Z) (a : string) : rule := accept [CDst a; CDport port; CProto "udp"].
Definition ufw_pin_cmd (port : Z) : string :=
  "for ip in $(cat " +:+ wgEndpointAddrsFile +:+ "); do ufw allow out to " +:+ dq "$ip" +:+ " port " +:+ Itoa port +:+ " proto udp; done".
Lemma exec_ufw_pin port g : Forall (λ a, literal4 a = true) (g_addrs g) → 0 < port <= 65535 →
  exec (ufw_pin_cmd port) g = allow_all (ufw_pin port <$> g_addrs g) g.
Proof.
  intros Ha Hp. unfold exec, ufw_pin_cmd. assert (token (Itoa port) = true) by (apply host_token, Itoa_word; lia).
  rewrite (words_of _ (cat_words ++ ["ufw"; "allow"; "out"; "to"; dq "$ip"; "port"; Itoa port; "proto"; "udp;"; "done"]))
    by first [done | apply Forall_app_2; tokens].
  rewrite bool_decide_false by done. rewrite bool_decide_true by done. set (body := loop_body _).
  assert (body = ["ufw"; "allow"; "out"; "to"; dq "$ip"; "port"; Itoa port; "proto"; "udp"]) as -> by reflexivity.
  assert (∀ a h, literal4 a = true → simple (subst "$ip" a ["ufw"; "allow"; "out"; "to"; dq "$ip"; "port"; Itoa port; "proto"; "udp"]) h
    = allow_out (ufw_pin port a) h) as Hstep.
  { intros a h Hl. unfold subst. cbn [fmap list_fmap]. rewrite (bool_decide_false (Itoa port = dq "$ip")) by (apply host_not_var, Itoa_word; lia).
    unfold simple. rewrite before_redirect_id.
    2:{ repeat (apply Forall_cons_2; [first [reflexivity | apply host_no_redirect; first [by apply literal4_host | apply Itoa_word; lia]]|]).
        apply Forall_nil_2. }
    change (h <| g_ufw := ufw_run ["allow"; "out"; "to"; a; "port"; Itoa port; "proto"; "udp"] (g_ufw h) |> = allow_out (ufw_pin port a) h).
    unfold ufw_run. assert (ufw_spec ["to"; a; "port"; Itoa port; "proto"; "udp"] = Some (ufw_pin port a)) as ->; [|done].
    cbn [ufw_spec]. pose proof Hl as [_ Hip]%andb_true_iff. rewrite Hip, Atoi_Itoa by (unfold max_int; lia). done. }
  remember (g_addrs g) as l eqn:E. clear E. revert g. induction Ha as [|a l Ha _ IH]; intros g; [done|].
  cbn [foldl]. rewrite Hstep by done. by rewrite IH.
Qed.

Definition by_address (servers : list string) : list string := filter (λ s, is_Some (ParseIP s)) servers.
Lemma run_bypass servers g : Forall (λ s, host_word s = true) servers →
  run ((λ s, "ufw allow out to " +:+ s) <$> servers) g = allow_all (to_addr <$> by_address servers) g.
Proof.
  intros Hs. revert g. induction Hs as [|s ss Hs _ IH]; intros g; [done|]. rewrite fmap_cons, run_cons.
  assert (exec ("ufw allow out to " +:+ s) g = if bool_decide (is_Some (ParseIP s)) then allow_out (to_addr s) g else g) as ->.
  { unfold exec. rewrite (words_of _ ["ufw"; "allow"; "out"; "to"; s]) by (done || tokens).
    rewrite bool_decide_false by done. rewrite bool_decide_false by done. unfold simple. rewrite before_redirect_id.
    2:{ repeat (apply Forall_cons_2; [first [reflexivity | by apply host_no_redirect]|]). apply Forall_nil_2. }
    change (g <| g_ufw := ufw_run ["allow"; "out"; "to"; s] (g_ufw g) |> = if bool_decide (is_Some (ParseIP s)) then allow_out (to_addr s) g else g).
    unfold ufw_run. cbn [ufw_spec]. case_bool_decide; [done|]. by destruct g. }
  unfold by_address. rewrite filter_cons. destruct (decide (is_Some (ParseIP s))) as [Hd|Hd].
  - rewrite bool_decide_true by done. by rewrite IH.
  - rewrite bool_decide_false by done. by rewrite IH.
Qed.

Inductive ufw_may_leave (port : Z) (ends lan : list string) (p : packet) : Prop :=
| ufw_established : p_established p = true → ufw_may_leave port ends lan p
| ufw_loopback : p_out p = "lo" → ufw_may_leave port ends lan p
| ufw_tunnel : p_out p = "wg0" → ufw_may_leave port ends lan p
| ufw_handshake : p_proto p = "udp" → p_dport p = port → p_dst p ∈ ends → ufw_may_leave port ends lan p
| ufw_ssh : p_proto p = "tcp" → p_dport p = 22 → ufw_may_leave port ends lan p
| ufw_lan : p_dst p ∈ lan → ufw_may_leave port ends lan p.

Definition ufw_rules (port : Z) (ends lan : list string) : list rule :=
  [accept [COut "wg0"]; accept [COut "lo"]] ++ (ufw_pin port <$> ends) ++ [accept [CDport 22; CProto "tcp"]] ++ (to_addr <$> lan).
Lemma existsb_ufw_pin p port ends :
  existsb (matches p) (ufw_pin port <$> ends) = true ↔ p_proto p = "udp" ∧ p_dport p = port ∧ p_dst p ∈ ends.
Proof.
  rewrite <-existsb_pin. induction ends as [|a l IH]; [done|]. rewrite !fmap_cons. cbn [existsb]. rewrite !orb_true_iff, IH.
  unfold matches. cbn. rewrite !andb_true_iff. tauto.
Qed.
Lemma ufw_rules_match p port ends lan : p_established p = true ∨ p_out p = "lo" ∨ existsb (matches p) (ufw_rules port ends lan) = true
  ↔ ufw_may_leave port ends lan p.
Proof.
  unfold ufw_rules. rewrite !existsb_app, !orb_true_iff, existsb_to, existsb_ufw_pin. unfold matches, accept. cbn.
  rewrite !orb_true_iff, !andb_true_iff, !bool_decide_eq_true, !Z.eqb_eq. split.
  - intros [H|[H|[[[H _]|[[H _]|H]]|[(H1 & H2 & H3)|[[(H1 & H2 & _)|H]|H]]]]]; try done.
    + by apply ufw_established.
    + by apply ufw_loopback.
    + by apply ufw_tunnel.
    + by apply ufw_loopback.
    + by apply ufw_handshake.
    + by apply ufw_ssh.
    + by apply ufw_lan.
  - intros [H|H|H|H1 H2 H3|H1 H2|H]; tauto.
Qed.
Lemma exec_base g : run torrentBaseRunCmds g = g <| g_ufw := (g_ufw g) <| u_active := true |> |>.
Proof. destruct g as [? ? []]. vm_compute. reflexivity. Qed.
Lemma retry_quiet cfg : Forall quiet (torrentWGRetryCmds ++ torrentWGEndpointRefreshCmds cfg).
Proof.
  apply Forall_app_2; [apply quiet_closed; vm_compute; reflexivity|]. unfold torrentWGEndpointRefreshCmds.
  destruct (wgEndpointIsLiteralIP cfg); [constructor|]. apply quiet_closed. vm_compute. reflexivity.
Qed.
Lemma app_cmds_quiet mounts nfs : Forall (λ m, plain_share m = true) mounts → Forall (λ m, plain_nfs m = true) nfs →
  Forall quiet (torrentMountAndAppCmds mounts nfs).
Proof.
  intros Hm Hn. unfold torrentMountAndAppCmds. apply Forall_app_2; [|apply Forall_app_2; [by apply nfss_quiet|apply quiet_closed; vm_compute; reflexivity]].
  apply shares_quiet; [done|]. intros p. apply Forall_cons_2; [|constructor]. apply (quiet_first "chown"); [done|not_listed].
Qed.

Lemma exec_ufw_wg g : exec "ufw allow out on lo" (exec "ufw allow out on wg0" g) = allow_all [accept [COut "wg0"]; accept [COut "lo"]] g.
Proof. destruct g as [? ? []]. vm_compute. reflexivity. Qed.
Lemma exec_ufw_ssh g : exec "ufw allow out 22/tcp" g = allow_all [accept [CDport 22; CProto "tcp"]] g.
Proof. destruct g as [? ? []]. vm_compute. reflexivity. Qed.
Lemma allow_all_app a b g : allow_all (a ++ b) g = allow_all b (allow_all a g).
Proof. apply foldl_app. Qed.
Lemma allow_all_addrs rs g : g_addrs (allow_all rs g) = g_addrs g.
Proof. by destruct (allow_all_spec rs g) as (rs' & -> & _). Qed.

Lemma run_ufw_switch cfg nfs : host_word (wireGuardEndpointHost cfg) = true → Forall (λ m, plain_nfs m = true) nfs →
  ∃ s, run (torrentWGKillSwitchCmds cfg nfs) fresh =
    (allow_all (ufw_rules (wireGuardEndpointPort cfg) (resolve fresh (wireGuardEndpointHost cfg)) (by_address (nfsServers nfs)))
      (mkguest open_table open_table (mkufw false "deny" []) (resolve fresh (wireGuardEndpointHost cfg)) None None [])) <| g_started := s |>.
Proof.
  intros Hh Hn. unfold torrentWGKillSwitchCmds. rewrite run_app. rewrite !run_cons, exec_resolve by done.
  set (ends := resolve fresh (wireGuardEndpointHost cfg)).
  change (exec "ufw default deny forward" _) with (mkguest open_table open_table (mkufw false "deny" []) ends None None []).
  rewrite exec_ufw_wg. fold (ufw_pin_cmd (wireGuardEndpointPort cfg)).
  rewrite exec_ufw_pin by first [apply wireGuardEndpointPort_range | rewrite allow_all_addrs; apply (resolve_literals fresh)].
  rewrite allow_all_addrs, exec_ufw_ssh. change (g_addrs (mkguest _ _ _ ends _ _ _)) with ends.
  unfold nfsBypassRules. rewrite run_app, run_bypass.
  2:{ apply nfsServers_words. eapply Forall_impl; [exact Hn|]. intros m [_ [?%bool_decide_eq_true|?]%orb_true_iff]%andb_true_iff; tauto. }
  unfold ufw_rules. rewrite !allow_all_app. change (run []) with (λ g : guest, g). cbv beta.
  apply run_quiet. apply Forall_cons_2; [by apply quietb_quiet|]. apply retry_quiet.
Qed.


(** ** The refresh script

    [ns]: the name servers the script finds.  The fragments of the firewall are
    run with the variable they mention replaced. *)
Definition fragment (var cmd : string) (g : guest) (value : string) : guest := simple (subst var value (Fields cmd)) g.
Definition refresh (fw : wgFirewallCmds) (ns : list string) (host : string) (g : guest) : guest :=
  let g1 := foldl (fragment "$ns" (fw_allowDNS fw)) g ns in
  let new := resolve g1 host in
  let g2 := foldl (fragment "$ns" (fw_denyDNS fw)) g1 ns in
  if bool_decide (new = []) then g2 else
  let old := g_addrs g2 in
  if bool_decide (new = old) then g2 else
  let g3 := foldl (fragment "$ip" (fw_allowEndpoint fw)) g2 new in
  let g4 := g3 <| g_addrs := new |> in
  let g5 := foldl (λ g ip, if bool_decide (ip ∈ new) then g else fragment "$ip" (fw_denyEndpoint fw) g ip) g4 old in
  foldl (λ g line, simple (Fields line) g) g5 (Split newline (fw_restartTunnel fw)).

Definition with_output (f : list rule → list rule) (g : guest) : guest :=
  g <| g_v4 := mktable (t_input (g_v4 g)) (with_rules f (t_output (g_v4 g))) (t_forward (g_v4 g)) |>.
Lemma append_output_eq rs g : append_output rs g = with_output (λ old, old ++ rs) g.
Proof. done. Qed.
Lemma with_output_compose f h g : with_output f (with_output h g) = with_output (λ l, f (h l)) g.
Proof. by destruct g as [[? [? ?] ?] ? ? ? ? ? ?]. Qed.
Lemma with_output_ext f h g : (∀ l, f l = h l) → with_output f g = with_output h g.
Proof. intros H. destruct g as [[? [? rs] ?] ? ? ? ? ? ?]. unfold with_output, with_rules, update. cbn. by rewrite H. Qed.
Lemma with_output_id f g : f (ch_rules (t_output (g_v4 g))) = ch_rules (t_output (g_v4 g)) → with_output f g = g.
Proof. destruct g as [[? [? rs] ?] ? ? ? ? ? ?]. unfold with_output, with_rules, update. cbn. by intros ->. Qed.

Definition pin_text (op var : string) (port : Z) : string :=
  "iptables " +:+ op +:+ " OUTPUT -d " +:+ dq var +:+ " -p udp --dport " +:+ Itoa port +:+ " -j ACCEPT 2>/dev/null || true".
Definition pin_edit (op : string) (r : rule) (rs : list rule) : list rule :=
  if bool_decide (op = "-A") then rs ++ [r] else if bool_decide (op = "-I") then r :: rs else delete_one r rs.
Lemma fragment_pin op var port g a : op ∈ ["-A"; "-I"; "-D"] → var ∈ ["$ns"; "$ip"] → literal4 a = true → 0 < port <= 65535 →
  fragment var (pin_text op var port) g a = with_output (pin_edit op (pin port a)) g.
Proof.
  intros Ho Hv Ha Hp. assert (token (Itoa port) = true) as Ht by (apply host_token, Itoa_word; lia).
  assert (token op = true ∧ token (dq var) = true) as [Hto Htv] by (clear -Ho Hv; set_unfold; naive_solver).
  unfold fragment, pin_text.
  rewrite (words_of _ ["iptables"; op; "OUTPUT"; "-d"; dq var; "-p"; "udp"; "--dport"; Itoa port; "-j"; "ACCEPT"; "2>/dev/null"; "||"; "true"])
    by first [reflexivity | tokens].
  unfold subst. cbn [fmap list_fmap]. rewrite (bool_decide_false (Itoa port = dq var)) by (apply host_not_var, Itoa_word; lia).
  rewrite (bool_decide_true (dq var = dq var)) by done.
  rewrite !(bool_decide_false (_ = dq var)) by (clear -Ho Hv; set_unfold; naive_solver).
  assert (before_redirect ["iptables"; op; "OUTPUT"; "-d"; a; "-p"; "udp"; "--dport"; Itoa port; "-j"; "ACCEPT"; "2>/dev/null"; "||"; "true"]
    = ["iptables"; op; "OUTPUT"; "-d"; a; "-p"; "udp"; "--dport"; Itoa port; "-j"; "ACCEPT"]) as Hb.
  { cbn [before_redirect]. rewrite (host_no_redirect a), (host_no_redirect (Itoa port)) by (by apply literal4_host) || (apply Itoa_word; lia).
    clear -Ho. set_unfold. by destruct Ho as [-> |[-> |[-> |[]]]]. }
  unfold simple. rewrite Hb. pose proof (pin_rule g a port Ha Hp) as Hr.
  clear -Ho Hr. set_unfold. destruct Ho as [-> |[-> |[-> |[]]]]; destruct g as [[? [? ?] ?] ? ? ? ? ? ?];
    unfold with_output, with_rules, update; cbn -[rules_of Itoa] in *; rewrite Hr; reflexivity.
Qed.

Lemma foldl_pin op var port g l : op ∈ ["-A"; "-I"; "-D"] → var ∈ ["$ns"; "$ip"] → 0 < port <= 65535 →
  Forall (λ a, literal4 a = true) l →
  foldl (fragment var (pin_text op var port)) g l = with_output (λ rs, foldl (λ rs a, pin_edit op (pin port a) rs) rs l) g.
Proof.
  intros Ho Hv Hp Hl. revert g. induction Hl as [|a l Ha _ IH]; intros g; [by rewrite with_output_id|].
  cbn [foldl]. rewrite fragment_pin by done. by rewrite IH, with_output_compose.
Qed.
Lemma delete_one_app r H rs : r ∈ H → ∃ H', delete_one r (H ++ rs) = H' ++ rs ∧ H ≡ₚ r :: H'.
Proof.
  induction H as [|x H IH]; [set_solver|]. intros Hr. cbn. case_bool_decide as Hx.
  - subst. by exists H.
  - destruct IH as (H' & -> & HP); [set_solver|]. exists (x :: H'). split; [done|]. rewrite HP. apply Permutation_swap.
Qed.
Lemma delete_restores port l H rs : H ≡ₚ pin port <$> l → foldl (λ rs a, pin_edit "-D" (pin port a) rs) (H ++ rs) l = rs.
Proof.
  revert H. induction l as [|a l IH]; intros H HP.
  - apply Permutation_nil_r in HP. by subst.
  - cbn [foldl]. change (pin_edit "-D" (pin port a) (H ++ rs)) with (delete_one (pin port a) (H ++ rs)).
    destruct (delete_one_app (pin port a) H rs) as (H' & -> & HP'); [rewrite HP; set_solver|]. apply IH.
    rewrite HP' in HP. by apply Permutation_cons_inv in HP.
Qed.
Lemma insert_all port l rs : foldl (λ rs a, pin_edit "-I" (pin port a) rs) rs l = rev (pin port <$> l) ++ rs.
Proof.
  revert rs. induction l as [|a l IH]; intros rs; [done|]. cbn [foldl]. rewrite IH, fmap_cons. cbn [rev]. by rewrite <-app_assoc.
Qed.
Lemma append_all port l rs : foldl (λ rs a, pin_edit "-A" (pin port a) rs) rs l = rs ++ (pin port <$> l).
Proof.
  revert rs. induction l as [|a l IH]; intros rs; [by rewrite app_nil_r|]. cbn [foldl]. rewrite IH, fmap_cons.
  change (pin_edit "-A" (pin port a) rs) with (rs ++ [pin port a]). by rewrite <-app_assoc.
Qed.
Lemma delete_all port l pre post : (∀ a, pin port a ∉ pre) →
  foldl (λ rs a, pin_edit "-D" (pin port a) rs) (pre ++ (pin port <$> l) ++ post) l = pre ++ post.
Proof.
  intros Hpre. induction l as [|a l IH]; [done|]. cbn [foldl]. rewrite fmap_cons.
  change (pin_edit "-D" (pin port a) ?x) with (delete_one (pin port a) x).
  assert (delete_one (pin port a) (pre ++ (pin port a :: (pin port <$> l)) ++ post) = pre ++ (pin port <$> l) ++ post) as ->; [|done].
  clear IH. specialize (Hpre a). induction pre as [|x pre IHp]; cbn; [by rewrite bool_decide_true|].
  rewrite bool_decide_false by set_solver. f_equal. apply IHp. set_solver.
Qed.
Lemma restart_saves cfg g : foldl (λ g line, simple (Fields line) g) g (Split newline (fw_restartTunnel (alpineFirewallCmds cfg)))
  = g <| g_saved4 := Some (g_v4 g) |>.
Proof. destruct g. vm_compute. reflexivity. Qed.
Lemma sort_u_nil l : sort_u l = [] ↔ l = [].
Proof.
  split; [|by intros ->]. intros H. destruct l as [|a l]; [done|]. assert (a ∈ sort_u (a :: l)) as Ha by (apply elem_of_sort_u; left).
  rewrite H in Ha. set_solver.
Qed.

Lemma with_output_t f g : t_output (g_v4 (with_output f g)) = with_rules f (t_output (g_v4 g)).
Proof. done. Qed.
Lemma lookup_through_hole port ends more ns g host : switched port ends more g → Forall (λ r, ru_target r = "ACCEPT") more →
  ParseIP host = None → nameserver ∈ ns →
  resolve (with_output (λ rs, rev (pin 53 <$> ns) ++ rs) g) host = sort_u (dns host).
Proof.
  intros (H4 & _ & Hu & _) Hm Hh Hn. unfold resolve. rewrite Hh.
  assert (egress (with_output (λ rs, rev (pin 53 <$> ns) ++ rs) g) dns_query = true) as ->; [|done].
  unfold egress, ufw_accepts. change (g_ufw (with_output _ g)) with (g_ufw g). rewrite Hu, andb_true_r, with_output_t, H4. unfold with_rules.
  cbn [t_output ch_policy ch_rules]. rewrite accepts_drop.
  - rewrite existsb_app. apply orb_true_iff. left. apply existsb_exists. exists (pin 53 nameserver). split.
    + apply in_rev. rewrite rev_involutive. apply list_elem_of_In. by apply list_elem_of_fmap_2.
    + unfold matches. cbn. by rewrite bool_decide_true.
  - apply Forall_app_2; [apply Forall_rev; apply Forall_fmap, Forall_true; done|]. apply Forall_app_2; [|done].
    apply Forall_app_2; [by repeat constructor|]. apply Forall_app_2; [apply Forall_fmap, Forall_true; done|by repeat constructor].
Qed.

Lemma foldl_skip (f : guest → string → guest) (new old : list string) g : (∀ a, a ∈ old → a ∉ new) →
  foldl (λ g ip, if bool_decide (ip ∈ new) then g else f g ip) g old = foldl f g old.
Proof.
  revert g. induction old as [|a l IH]; intros g Ho; [done|]. cbn [foldl]. rewrite bool_decide_false by (apply Ho; left).
  apply IH. intros b Hb. apply Ho. by right.
Qed.

Definition rotated_rules (port : Z) (lan new : list string) : list rule :=
  hole_rules port [] ++ (to_addr <$> lan) ++ (pin port <$> new).
Lemma delete_rotated port old lan new :
  foldl (λ rs a, pin_edit "-D" (pin port a) rs) ((hole_rules port old ++ (to_addr <$> lan)) ++ (pin port <$> new)) old
  = rotated_rules port lan new.
Proof.
  unfold hole_rules, rotated_rules. rewrite <-!app_assoc. rewrite delete_all; [done|]. intros a Ha. set_unfold. by destruct Ha as [|[|]].
Qed.
Lemma rotated_accepts port lan new p :
  accepts (mkchain "DROP" (rotated_rules port lan new)) p = true ↔ may_leave port new lan p.
Proof.
  rewrite <-holes_accept. rewrite !accepts_drop.
  - rewrite (existsb_elem p (rotated_rules port lan new) (hole_rules port new ++ (to_addr <$> lan))); [done|].
    intros x. unfold rotated_rules, hole_rules. rewrite !elem_of_app. set_solver.
  - apply Forall_app_2; [apply Forall_app_2; [by repeat constructor|]; apply Forall_app_2; [|by repeat constructor]|];
      apply Forall_fmap, Forall_true; done.
  - apply Forall_app_2; [by repeat constructor|]. apply Forall_app_2; apply Forall_fmap, Forall_true; done.
Qed.

End Run.

(** ** Examples *)
Module FirewallExample.
Definition zone (answers : list string) (h : string) : list string :=
  if bool_decide (h = "vpn.example") then answers else if bool_decide (h = "nas.lan") then ["192.168.1.9"] else [].
Program Definition resolver (answers : list string) (H : forallb literal4 answers = true) : Resolver :=
  {| dns := zone answers; nameserver := "192.168.1.1" |}.
Next Obligation.
  intros answers H h a. unfold zone. case_bool_decide; [|case_bool_decide; [|set_solver]].
  - intros Ha. rewrite forallb_forall in H. by apply H, list_elem_of_In.
  - intros ->%list_elem_of_singleton. vm_compute. reflexivity.
Qed.
#[export] Instance day1 : Resolver := resolver ["198.51.100.7"] eq_refl.
Definition day2 : Resolver := resolver ["198.51.100.7"; "198.51.100.8"] eq_refl.
Definition day3 : Resolver := resolver ["198.51.100.8"] eq_refl.

Definition wg : WireGuardConfig := mkWireGuardConfig "a2V5" "10.5.0.2/32" "10.5.0.1" "vpn.example:51820" "cGVlcg==".
Definition shares : list ShareMount := [mkShareMount "/home/me/Downloads" "/downloads"].
Definition nfs : list NFSMount := [mkNFSMount "192.168.1.5" "/mnt/Movies" "/movies" ""; mkNFSMount "nas.lan" "/tv" "/tv" ""].
Definition opts : BitmagnetOptions := mkBitmagnetOptions "/srv/pg" 1000 1000 "pw" (Some wg) "wireguard" "" "" false.
(** A new connection to a host on the internet, past the tunnel. *)
Definition leak (dst proto : string) (dport : Z) : packet := mkpacket "" "eth0" dst proto 40000 dport false "users".
Definition handshake : packet := leak "198.51.100.7" "udp" 51820.

Lemma alpine_killswitch_witness : let g := run (torrentAlpineRunCmds shares nfs (Some wg)) fresh in
  egress g handshake = true ∧ egress g (leak "203.0.113.5" "tcp" 443) = false ∧ egress g (leak "203.0.113.5" "udp" 51820) = false.
Proof.
  destruct (alpine_killswitch wg shares nfs) as (lan & Hfrom & _ & He & _);
    [vm_compute; reflexivity|by repeat constructor|by repeat constructor|].
  cbn zeta. split_and!; [apply He, leave_handshake; [done|done|vm_compute; left]|..];
    apply not_true_is_false; intros H%He; destruct H as [H|H|? H H'|? H|? H|H]; try done;
    first [by vm_compute in H'; set_unfold in H'; naive_solver
          | destruct (Hfrom _ H) as (s & Hs & Ha); vm_compute in Hs; set_unfold in Hs; destruct Hs as [-> |[-> |[]]]; vm_compute in Ha;
            set_unfold in Ha; naive_solver].
Defined.

Lemma bitmagnet_killswitch_witness : let g := run (bitmagnetRunCmds opts) fresh in
  egress g handshake = true ∧ egress g (leak "203.0.113.5" "udp" 6881) = false.
Proof.
  destruct (bitmagnet_killswitch opts wg) as (He & _); [done|vm_compute; reflexivity|]. cbn zeta.
  split; [apply He, leave_handshake; [done|done|vm_compute; left]|].
  apply not_true_is_false. intros H%He. destruct H as [H|H|? H|? H|? H|H]; try done. set_solver.
Defined.


(** The rotation of the endpoint from its first address to its second. *)
Definition pinned (ends : list string) : guest :=
  mkguest (outbound_table 51820 ends) ipv6_table (mkufw false "allow" []) ends (Some (outbound_table 51820 ends)) (Some ipv6_table) [].

(** The rule of the Ubuntu guest for SSH replies is one for SSH clients: with
  the tunnel down, a new connection to port 22 of any host goes out. *)
Example ufw_ssh_open : egress (run (torrentRunCmds None (Some wg) shares nfs) fresh) (leak "203.0.113.5" "tcp" 22) = true.
Proof. vm_compute. reflexivity. Qed.

(** The crawler is started while everything may still leave. *)
Example crawler_starts_first : let g := run (take 32 (bitmagnetRunCmds opts)) fresh in
  g_started g = ["postgresql"; "bitmagnet"] ∧ egress g (leak "203.0.113.5" "udp" 6881) = true ∧ egress6 g (leak "2001:db8::5" "udp" 6881) = true.
Proof. vm_compute. done. Qed.

(** The rule that should stop the crawler if a hole were wider comes after the
  holes: a packet of the crawler through a wider hole is accepted. *)
Example reject_comes_last : accepts (mkchain "DROP" ([accept [CProto "udp"]] ++ [reject_rule]))
  (mkpacket "" "eth0" "203.0.113.5" "udp" 40000 6881 false "bitmagnet") = true.
Proof. vm_compute. reflexivity. Qed.

(** An NFS server given by name: the rule for it is added when names can no
  longer be looked up, and the share the guest has mounted is cut off. *)
Example named_server_cut_off : let g := run (torrentAlpineRunCmds shares nfs (Some wg)) fresh in
  egress g (leak "192.168.1.5" "tcp" 2049) = true ∧ dns "nas.lan" = ["192.168.1.9"] ∧ egress g (leak "192.168.1.9" "tcp" 2049) = false.
Proof. vm_compute. done. Qed.

(** An address that stays while another is added is pinned twice, and
  withdrawing it later removes one of the two rules. *)
Example stale_pin_stays :
  let fw := alpineFirewallCmds (Some wg) in
  let g2 := @refresh day2 fw ["192.168.1.1"] "vpn.example" (pinned ["198.51.100.7"]) in
  let g3 := @refresh day3 fw ["192.168.1.1"] "vpn.example" g2 in
  g_addrs g3 = ["198.51.100.8"] ∧ egress g3 handshake = true.
Proof. vm_compute. done. Qed.
End FirewallExample.
