(* ===== verification/Qemu.v ===== *)
(** * The QEMU command line

    [internal/qemu]: the device records, one [Args] function per device
    ([disk.go], [cpu.go], [nic.go], [graphics.go], [spice.go], [vfio.go],
    [uefi.go], [tpm.go], [vsock.go], [memory.go], [virtiofsd.go],
    [applegfx.go]) and the machine that puts them together ([machine.go]).
    Control addresses are the unix-socket ones ([control_unix.go]).

    Functional options are functions on the record they configure, applied in
    order, as in the code.  A disk points back to its machine for its name; here
    the machine's name is an argument.  [cwd] is the working directory
    [filepath.Abs] resolves against, [None] when it cannot be determined. *)
From S2P Require Import Prelude GoStrings Config Store World Sha1.


Open Scope Z_scope.

(** [%t] *)
Definition show_bool (b : bool) : string := if b then "true" else "false".

(** A flag with its value, as two arguments. *)
Definition flag (name value : string) : list string := [name; value].

(** [fmt.Sscanf(s, "%d", &n)]: leading blanks, an optional sign, then as many
    digits as there are; what follows is left unread. *)
Fixpoint take_digits (s : string) : string :=
  match s with
  | "" => ""
  | String c s => if is_digit c then String c (take_digits s) else ""
  end.
Definition is_newline (c : ascii) : bool := bool_decide (code c = 10%N).
Definition Sscanf_d (s : string) : option Z :=
  match trim_left (λ c, is_space c && negb (is_newline c)) s with
  | String "-" t => Atoi (String "-" (take_digits t))
  | String "+" t => Atoi (String "+" (take_digits t))
  | t => Atoi (take_digits t)
  end.

(** ** Disks *)
Definition CacheNone : string := "none".
Definition InterfaceVirtio : string := "virtio".
Definition InterfaceAHCI : string := "ahci".
Definition InterfaceNVMe : string := "nvme".
Definition InterfaceUSB : string := "usb".
Definition DiskMediaDisk : string := "disk".
Definition DiskMediaCdrom : string := "cdrom".
Definition usbDiskControllerID : string := "usbdisk0".

Record Disk := mkDisk {
  k_Path : string;
  k_Index : Z;
  k_diskIndex : Z;
  k_Format : string;
  k_Readonly : bool;
  k_Media : string;
  k_Interface : string;
  k_Cache : string;
  k_Size : string;
  k_Recreate : bool;
  k_BackingFile : string;
  k_Serial : string;
  k_Passthrough : bool;
  k_ImageFile : bool;
  k_BootIndex : Z;
}.
#[export] Instance Disk_eta : Settable Disk := λ d,
  mkDisk (k_Path d) (k_Index d) (k_diskIndex d) (k_Format d) (k_Readonly d) (k_Media d)
    (k_Interface d) (k_Cache d) (k_Size d) (k_Recreate d) (k_BackingFile d) (k_Serial d)
    (k_Passthrough d) (k_ImageFile d) (k_BootIndex d).

Definition DiskOptions : Type := Disk → Disk.
Definition WithRecreate (b : bool) : DiskOptions := λ d, d <| k_Recreate := b |>.
Definition WithSize (s : string) : DiskOptions := λ d, d <| k_Size := s |>.
Definition WithCustomPath (p : string) : DiskOptions := λ d, d <| k_Path := p |>.
Definition WithMedia (m : string) : DiskOptions := λ d, d <| k_Media := m |>.
Definition WithInterface (i : string) : DiskOptions := λ d, d <| k_Interface := i |>.
Definition WithCache (c : string) : DiskOptions := λ d, d <| k_Cache := c |>.
Definition WithFormat (f : string) : DiskOptions := λ d, d <| k_Format := f |>.
Definition WithReadonly (b : bool) : DiskOptions := λ d, d <| k_Readonly := b |>.
Definition WithBackingFile (p : string) : DiskOptions := λ d, d <| k_BackingFile := p |>.
Definition WithSerial (s : string) : DiskOptions := λ d, d <| k_Serial := s |>.
Definition WithPassthrough (b : bool) : DiskOptions := λ d, d <| k_Passthrough := b |>.
Definition WithImageFile (b : bool) : DiskOptions := λ d, d <| k_ImageFile := b |>.
Definition WithBootIndex (i : Z) : DiskOptions := λ d, d <| k_BootIndex := i |>.

(** Options are applied left to right. *)
Definition apply_opts {A} (opts : list (A → A)) (a : A) : A := foldl (λ a f, f a) a opts.

Definition NewDisk (defaultSize machinePath : string) (opts : list DiskOptions) : Disk :=
  apply_opts opts (mkDisk (PathJoin [machinePath; "storage"]) (-1) 0 "" false "disk"
    InterfaceVirtio CacheNone defaultSize false "" "" false false 0).

(** The first "file format:" line of [qemu-img info]'s output. *)
Definition detectImageFormat (out : option string) : result error string :=
  match out with
  | None => Err (Errorf "qemu-img info" [])
  | Some text =>
      Ok (match filter (λ l, HasPrefix l "file format:" = true) (Split "010" text) with
          | l :: _ => TrimSpace (sdrop 12 l)
          | [] => "raw"
          end)
  end.

(** [filepath.Abs] *)
Definition FileAbs (cwd : option string) (p : string) : option string :=
  if IsAbs p then Some (Clean p) else d ← cwd; Some (PathJoin [d; p]).

Definition DiskName (machine : string) (q : Disk) : string :=
  "disk-" +:+ machine +:+ "-" +:+ k_Size q +:+ "." +:+ k_Format q.

Definition DiskAbsolutePath (cwd : option string) (machine : string) (q : Disk) : string :=
  if k_Passthrough q then k_Path q
  else if k_ImageFile q then default (k_Path q) (FileAbs cwd (k_Path q))
  else if existsb (HasSuffix (k_Path q)) ["qcow2"; "qcow"; "img"; "raw"; "iso"; "vmdk"; "vdi"; "vhd"]
  then k_Path q
  else PathJoin [k_Path q; DiskName machine q].

(** A cdrom is read-only, unformatted and uncached, whatever was asked. *)
Definition FixOptions (q : Disk) : Disk :=
  if bool_decide (k_Media q = DiskMediaCdrom)
  then q <| k_Readonly := true |> <| k_Format := "" |> <| k_Cache := CacheNone |>
  else q.

(** The [aio] backend: the kernel interfaces exist on Linux only. *)
Definition diskAIO (h : Host) (linuxPreferred : string) : string :=
  if IsLinux h then linuxPreferred else "threads".

Definition bootindex_arg (q : Disk) : list string :=
  if 0 <? k_BootIndex q then ["bootindex=" +:+ Itoa (k_BootIndex q)] else [].

Definition DiskArgs (h : Host) (cwd : option string) (machine : string) (q0 : Disk) : list string :=
  let q := FixOptions q0 in
  let id := "disk" +:+ Itoa (k_diskIndex q) in
  let file := "file=" +:+ DiskAbsolutePath cwd machine q in
  if bool_decide (k_Interface q = InterfaceAHCI) then
    flag "-drive" (Join "," [file; "if=none"; "id=" +:+ id; "format=" +:+ k_Format q;
      "cache=" +:+ k_Cache q; "aio=" +:+ diskAIO h "native"; "discard=unmap"]) ++
    flag "-device" (Join "," (["ide-hd"; "drive=" +:+ id; "bus=ahci0." +:+ Itoa (k_diskIndex q)]
      ++ bootindex_arg q))
  else if bool_decide (k_Interface q = InterfaceNVMe) then
    flag "-drive" (Join "," ([file; "if=none"; "id=" +:+ id; "format=" +:+ k_Format q] ++
      (if bool_decide (k_Cache q = "") then [] else ["cache=" +:+ k_Cache q]))) ++
    flag "-device" (Join "," (["nvme"; "drive=" +:+ id; "serial=" +:+ id] ++ bootindex_arg q))
  else if bool_decide (k_Interface q = InterfaceUSB) then
    flag "-drive" (Join "," ([file; "if=none"; "id=" +:+ id; "media=" +:+ k_Media q;
      "readonly=" +:+ show_bool (k_Readonly q)] ++
      (if bool_decide (k_Media q = DiskMediaDisk) && negb (bool_decide (k_Format q = ""))
       then ["format=" +:+ k_Format q] else []))) ++
    flag "-device" (Join "," (["usb-storage"; "drive=" +:+ id; "bus=" +:+ usbDiskControllerID +:+ ".0"]
      ++ bootindex_arg q))
  else if k_Passthrough q || k_ImageFile q then
    let format := if k_ImageFile q && negb (bool_decide (k_Format q = "")) then k_Format q else "raw" in
    let iothreadID := "iothread-" +:+ id in
    flag "-object" ("iothread,id=" +:+ iothreadID) ++
    flag "-drive" (Join "," [file; "format=" +:+ format; "if=none"; "id=" +:+ id; "cache=none";
      "aio=" +:+ diskAIO h "native"; "discard=unmap"]) ++
    flag "-device" (Join "," (["virtio-blk-pci"; "drive=" +:+ id] ++
      (if bool_decide (k_Serial q = "") then [] else ["serial=" +:+ k_Serial q]) ++
      bootindex_arg q ++ ["iothread=" +:+ iothreadID]))
  else
    flag "-drive" (Join "," ([file; "readonly=" +:+ show_bool (k_Readonly q); "media=" +:+ k_Media q;
      "if=" +:+ k_Interface q; "id=" +:+ id] ++
      (if 0 <? k_Index q then ["index=" +:+ Itoa (k_Index q)] else []) ++
      (if bool_decide (k_Media q = DiskMediaDisk) then
         ["format=" +:+ k_Format q] ++
         (if bool_decide (k_Interface q = InterfaceVirtio) then
            ["cache=" +:+ (if bool_decide (k_Cache q = "") then CacheNone else k_Cache q);
             "aio=" +:+ diskAIO h "io_uring"; "discard=unmap"]
          else if bool_decide (k_Cache q = "") then [] else ["cache=" +:+ k_Cache q])
       else if bool_decide (k_Cache q = "") then [] else ["cache=" +:+ k_Cache q]))).

(** *** Disk images

    What [qemu-img] and the file system answer: whether the binary is found,
    directories can be made, what [info] prints and whether [create] succeeds
    on its arguments. *)
Record ImgTools := mkImgTools {
  img_lookpath : option error;
  img_mkdir : string → option error;
  img_info : string → option string;
  img_create : list string → option error;
  img_remove : string → option error;
}.

Section DiskFiles.
Context {S : Type} (tools : ImgTools) (cwd : option string) (machine : string).
Abbreviation M := (GoM (World S) error).

Definition try_ (e : option error) : M unit :=
  match e with Some e => throw e | None => mret tt end.

Definition file_exists (p : string) : M bool := gets (λ w, bool_decide (p ∈ w_files w)).

Definition DiskDelete (q : Disk) : M unit :=
  let path := DiskAbsolutePath cwd machine q in
  if bool_decide (k_Media q = DiskMediaCdrom)
  then throw (Errorf "iso disks should be deleted by the images package" []) else
  if k_Passthrough q then
    throw (Errorf "refusing to delete passthrough block device %s: it is not vee-managed storage" [k_Path q]) else
  if k_ImageFile q then
    throw (Errorf "refusing to delete adopted image file %s: it was supplied by the user, not created by vee" [path]) else
  e ← file_exists path;
  if negb e then mret tt else
  _ ← try_ (img_remove tools path);
  modify (λ w, w <| w_files := w_files w ∖ {[path]} |>).

Definition Dir (p : string) : string :=
  match rev (Split "/" p) with
  | _ :: ws => match Join "/" (rev ws) with
               | "" => if IsAbs p then "/" else "."
               | d => Clean d
               end
  | [] => "."
  end.

Definition DiskCreate (q : Disk) : M unit :=
  let path := DiskAbsolutePath cwd machine q in
  if bool_decide (k_Media q = DiskMediaCdrom) || k_Passthrough q || k_ImageFile q then mret tt else
  _ ← try_ (img_lookpath tools);
  _ ← when_ (k_Recreate q) (DiskDelete q);
  _ ← try_ (img_mkdir tools (Dir path));
  e ← file_exists path;
  if (e : bool) then mret tt else
  args ← (if bool_decide (k_BackingFile q = "")
          then mret ["create"; "-f"; k_Format q; path; k_Size q]
          else match detectImageFormat (img_info tools (k_BackingFile q)) with
               | Err e => throw (Wrapf "detect backing file format" e)
               | Ok fmt => mret ["create"; "-f"; k_Format q; "-b"; k_BackingFile q; "-F"; fmt; path; k_Size q]
               end);
  _ ← try_ (img_create tools args);
  modify (λ w, w <| w_files := {[path]} ∪ w_files w |>).
End DiskFiles.

(** ** CPU *)
Record CPU := mkCPU {
  p_CPU : string;
  p_Flags : list string;
  p_SMP : Z;
  p_Sockets : Z;
  p_Threads : Z;
  p_Cores : Z;
}.
#[export] Instance CPU_eta : Settable CPU := λ c,
  mkCPU (p_CPU c) (p_Flags c) (p_SMP c) (p_Sockets c) (p_Threads c) (p_Cores c).

Definition GamingCPUFlags : list string :=
  ["hypervisor=off"; "kvm=off"; "hv-time=on"; "hv-relaxed=on"; "hv-vapic=on";
   "hv-spinlocks=0x1fff"; "hv-vendor-id=AMDKVMAMD"; "invtsc=on"].

Definition WithCPUModel (m : string) : CPU → CPU := λ c, c <| p_CPU := m |>.
Definition WithCPUFlags (flags : list string) : CPU → CPU := λ c, c <| p_Flags := p_Flags c ++ flags |>.
Definition WithSMP (smp sockets threads cores : Z) : CPU → CPU := λ c,
  c <| p_SMP := smp |> <| p_Sockets := sockets |> <| p_Threads := threads |> <| p_Cores := cores |>.

Definition NewCPU (defaultModel : string) (defaultCPUs : Z) (opts : list (CPU → CPU)) : CPU :=
  apply_opts opts (mkCPU defaultModel [] defaultCPUs 0 0 0).

Definition CPUArgs (q : CPU) : list string :=
  let cpuVal := p_CPU q +:+ match p_Flags q with [] => "" | fs => "," +:+ Join "," fs end in
  let smpArgs :=
    (if 0 <? p_Sockets q then ["sockets=" +:+ Itoa (p_Sockets q)] else []) ++
    (if 0 <? p_Cores q then ["cores=" +:+ Itoa (p_Cores q)] else []) ++
    (if 0 <? p_Threads q then ["threads=" +:+ Itoa (p_Threads q)] else []) in
  let smp := Itoa (p_SMP q) +:+ match smpArgs with [] => "" | l => "," +:+ Join "," l end in
  flag "-cpu" cpuVal ++ flag "-smp" smp.

(** ** Host CPU topology: [internal/cpu/topology.go]

    [threads_per_core] is the text of the sysfs file, if readable. *)
Definition ThreadsPerCore (threads_per_core : option string) : Z :=
  match threads_per_core with
  | Some data => if bool_decide (TrimSpace data = "2") then 2 else 1
  | None => 1
  end.

(** Result: sockets, cores, threads.  Go's [%] and [/] truncate. *)
Definition AdjustSMP (tpc : option string) (cpus sockets cores threads : Z) : Z * Z * Z :=
  if threads =? 2 then
    (if sockets =? 0 then 1 else sockets, if cores =? 0 then cpus else cores, 2)
  else if (ThreadsPerCore tpc =? 2) && (Z.rem cpus 2 =? 0) then (1, Z.quot cpus 2, 2)
  else (1, cpus, 1).

(** ** NIC *)
Record NIC := mkNIC {
  n_Mode : string;
  n_Bridge : string;
  n_Model : string;
  n_MAC : string;
  n_HostFwds : list string;
  n_Queues : Z;
  n_BridgeHelper : string;
}.
#[export] Instance NIC_eta : Settable NIC := λ n,
  mkNIC (n_Mode n) (n_Bridge n) (n_Model n) (n_MAC n) (n_HostFwds n) (n_Queues n) (n_BridgeHelper n).

Definition NewNIC (mode bridge mac : string) (hostfwds : list string) : NIC :=
  mkNIC mode bridge "virtio-net-pci" mac hostfwds 0 "".

(** [%02x] of a byte. *)
Definition hex2 (b : N) : string :=
  String (hex_digit ((b / 16) mod 16)) (String (hex_digit (b mod 16)) "").

(** A stable MAC from the first four bytes of the name's SHA-1 digest. *)
Definition DeterministicMAC (name : string) : string :=
  let h := SHA1.Sum (SHA1.bytes_of name) in
  Join ":" ["52"; "54"; hex2 (nth 0 h 0%N); hex2 (nth 1 h 0%N); hex2 (nth 2 h 0%N); hex2 (nth 3 h 0%N)].

Definition NICArgs (n : NIC) : list string :=
  if bool_decide (n_Mode n = "bridge") then
    if 1 <? n_Queues n then
      let helper := if bool_decide (n_BridgeHelper n = "")
                    then "/usr/lib/qemu/qemu-bridge-helper" else n_BridgeHelper n in
      flag "-netdev" ("bridge,id=net0,br=" +:+ n_Bridge n +:+ ",helper=" +:+ helper) ++
      flag "-device" (n_Model n +:+ ",netdev=net0,mac=" +:+ n_MAC n +:+ ",mq=on,vectors=" +:+
        Itoa (2 * n_Queues n + 2))
    else
      flag "-nic" ("bridge,br=" +:+ n_Bridge n +:+ ",model=" +:+ n_Model n +:+ ",mac=" +:+ n_MAC n +:+
        (if bool_decide (n_BridgeHelper n = "") then "" else ",helper=" +:+ n_BridgeHelper n))
  else
    flag "-netdev" (Join "," ("user,id=net0" :: ((λ f, "hostfwd=" +:+ f) <$> n_HostFwds n))) ++
    flag "-device" (n_Model n +:+ ",netdev=net0,mac=" +:+ n_MAC n +:+ ",rombar=0").

(** ** Small devices *)
Record Spice := mkSpice { sp_port : Z; sp_noticket : bool }.
#[export] Instance Spice_eta : Settable Spice := λ s, mkSpice (sp_port s) (sp_noticket s).
Definition WithSpicePort (port : Z) : Spice → Spice := λ s, s <| sp_port := port |>.
Definition WithSpiceDisableTicketing (b : bool) : Spice → Spice := λ s, s <| sp_noticket := b |>.
Definition NewSpice (opts : list (Spice → Spice)) : Spice := apply_opts opts (mkSpice 5930 true).
Definition SpiceArgs (s : Spice) : list string :=
  flag "-spice" ("port=" +:+ Itoa (sp_port s) +:+ ",disable-ticketing=" +:+ show_bool (sp_noticket s)
    +:+ ",gl=off") ++
  flag "-device" "intel-hda" ++ flag "-device" "hda-duplex" ++
  flag "-device" "virtio-serial" ++ flag "-chardev" "spicevmc,id=vdagent,debug=0,name=vdagent" ++
  flag "-device" "virtserialport,chardev=vdagent,name=com.redhat.spice.0".

Record UEFI := mkUEFI { uf_CodePath : string; uf_VarsPath : string }.
Definition UEFIArgs (u : UEFI) : list string :=
  flag "-drive" ("if=pflash,format=raw,readonly=on,file=" +:+ uf_CodePath u) ++
  flag "-drive" ("if=pflash,format=raw,file=" +:+ uf_VarsPath u).

Record MemfdBackend := mkMemfd { mf_ID : string; mf_Size : string }.
Definition NewMemfdBackend (size : string) : MemfdBackend := mkMemfd "mem0" size.
Definition MemfdArgs (m : MemfdBackend) : list string :=
  flag "-object" ("memory-backend-memfd,id=" +:+ mf_ID m +:+ ",size=" +:+ mf_Size m +:+ ",share=on") ++
  flag "-numa" ("node,memdev=" +:+ mf_ID m).

Definition TPMArgs (socket : string) : list string :=
  flag "-chardev" ("socket,id=chrtpm,path=" +:+ socket) ++
  flag "-tpmdev" "emulator,id=tpm0,chardev=chrtpm" ++
  flag "-device" "tpm-tis,tpmdev=tpm0".

Definition VSockArgs (cid : Z) : list string :=
  flag "-device" ("vhost-vsock-pci,guest-cid=" +:+ Itoa cid).

Record Virtiofsd := mkVirtiofsd { vd_SocketPath : string; vd_Tag : string; vd_Chardev : string; vd_Device : string }.
Definition VirtiofsdArgs (q : Virtiofsd) : list string :=
  flag "-device" (vd_Device q +:+ ",chardev=" +:+ vd_Chardev q +:+ ",tag=" +:+ vd_Tag q) ++
  flag "-chardev" ("socket,id=" +:+ vd_Chardev q +:+ ",path=" +:+ vd_SocketPath q).

(** ** VFIO devices *)
Record VFIODevice := mkVFIO {
  v_PCIAddr : string;
  v_BusID : string;
  v_Slot : Z;
  v_EmitRootPort : bool;
  v_GuestFunction : Z;
  v_ROMBar : bool;
  v_ROMFile : string;
  v_Multifunction : bool;
}.
#[export] Instance VFIO_eta : Settable VFIODevice := λ v,
  mkVFIO (v_PCIAddr v) (v_BusID v) (v_Slot v) (v_EmitRootPort v) (v_GuestFunction v)
    (v_ROMBar v) (v_ROMFile v) (v_Multifunction v).

Definition NewVFIODevice (addr : string) : VFIODevice :=
  mkVFIO addr "pcie.1" 1 true 0 false "" true.
Definition NewVFIOPeerDevice (addr busID : string) (slot : Z) : VFIODevice :=
  mkVFIO addr busID slot true 0 false "" false.
Definition NewVFIOSiblingFunction (addr busID : string) (fn : Z) : VFIODevice :=
  mkVFIO addr busID 0 false fn false "" false.

Definition VFIOArgs (v : VFIODevice) : list string :=
  let addr := if 0 <? v_GuestFunction v then "addr=0." +:+ Itoa (v_GuestFunction v) else "addr=0x0" in
  let device := "vfio-pci,host=" +:+ v_PCIAddr v +:+ ",bus=" +:+ v_BusID v +:+ "," +:+ addr
    +:+ (if v_Multifunction v then ",multifunction=on" else "")
    +:+ (if v_ROMBar v then "" else ",rombar=0")
    +:+ (if bool_decide (v_ROMFile v = "") then "" else ",romfile=" +:+ v_ROMFile v) in
  (if v_EmitRootPort v
   then flag "-device" ("pcie-root-port,id=" +:+ v_BusID v +:+ ",slot=" +:+ Itoa (v_Slot v))
   else []) ++ flag "-device" device.

(** Text before and after the last "." *)
Fixpoint cut_last_dot (s : string) : option (string * string) :=
  match s with
  | "" => None
  | String c s' =>
      match cut_last_dot s' with
      | Some (a, b) => Some (String c a, b)
      | None => if bool_decide (c = "."%char) then Some ("", s') else None
      end
  end.

Definition FunctionNumber (addr : string) : Z :=
  match cut_last_dot addr with
  | None => 0
  | Some (_, "") => 0
  | Some (_, fn) => default 0 (Sscanf_d fn)
  end.

Definition SameSlot (a b : string) : bool :=
  match cut_last_dot a, cut_last_dot b with
  | Some (pa, _), Some (pb, _) => bool_decide (pa = pb) && negb (bool_decide (a = b))
  | _, _ => false
  end.

(** ** Graphics *)
Definition DefaultVenusHostMem : string := "8G".
Definition is_arm (arch : string) : bool := bool_decide (arch = "aarch64") || bool_decide (arch = "arm64").

Definition VirtioGPUDevice (arch : string) (gl venus : bool) (hostMem : string) : string :=
  let dev := if negb gl then "virtio-gpu-pci"
             else if is_arm arch then "virtio-gpu-gl-pci" else "virtio-vga-gl" in
  if gl && venus then
    dev +:+ "," +:+ Join "," ["blob=true"; "venus=true";
      "hostmem=" +:+ (if bool_decide (hostMem = "") then DefaultVenusHostMem else hostMem)]
  else dev.

Definition HeliosGPUDevice (hostMem : string) : string :=
  let mem := if bool_decide (hostMem = "") then DefaultVenusHostMem else hostMem in
  Join "," ["virtio-gpu-gl-pci"; "id=heliosgpu"; "max_outputs=1"; "blob=true"; "venus=true";
    "hostmem=" +:+ mem; "max_hostmem=" +:+ mem].

Definition HeliosDisplay (renderNode : string) : string :=
  if bool_decide (renderNode = "") then "egl-headless" else "egl-headless,rendernode=" +:+ renderNode.

Definition DefaultHeliosVNC : string := "127.0.0.1:0".

Definition HeliosVNCArg (addr : string) : string :=
  let addr := if bool_decide (addr = "") then DefaultHeliosVNC else addr in
  if Contains addr "share=" then addr else addr +:+ ",share=force-shared".

(** [net.JoinHostPort] *)
Definition JoinHostPort (host port : string) : string :=
  if Contains host ":" then "[" +:+ host +:+ "]:" +:+ port else host +:+ ":" +:+ port.

Definition VNCHostPort (addr : string) : result error string :=
  let addr := if bool_decide (addr = "") then DefaultHeliosVNC else addr in
  let '(addr, _, _) := Cut "," addr in
  let '(host, disp, ok) := Cut ":" addr in
  if negb ok then Err (Errorf "vnc address %q: want host:display" [addr]) else
  let bad := Err (Errorf "vnc address %q: display %q is not a non-negative number" [addr; disp]) in
  match Atoi disp with
  | None => bad
  | Some n =>
      if n <? 0 then bad else
      Ok (JoinHostPort (if bool_decide (host = "") then "localhost" else host) (Itoa (5900 + n)))
  end.

Definition PointerMouse : string := "mouse".

Definition VirtioInputDevicesFor (pointer : string) : list string :=
  ["virtio-keyboard-pci"; if bool_decide (pointer = PointerMouse) then "virtio-mouse-pci" else "virtio-tablet-pci"].

Definition DefaultGLBackend (hostOS : string) : string :=
  if bool_decide (hostOS = "darwin") then "es" else "on".

Definition DisplayArgFor (hostOS : string) (gl : bool) (backend pointer : string) : string :=
  let base := if bool_decide (hostOS = "darwin") then "cocoa"
              else if bool_decide (pointer = PointerMouse) then "sdl" else "gtk" in
  if negb gl then base
  else base +:+ ",gl=" +:+ (if bool_decide (backend = "") then DefaultGLBackend hostOS else backend).

Definition AppleGFXDevice (arch : string) : string :=
  if is_arm arch then "apple-gfx-mmio" else "apple-gfx-pci".

(** ** The machine *)
Definition AccelKVM : string := "kvm".
Definition AccelHVF : string := "hvf".
Definition AccelWHPX : string := "whpx".
Definition AccelTCG : string := "tcg".

Record BaseMachine := mkMachine {
  m_basePath : string;
  m_name : string;
  m_architecture : string;
  m_binaryPath : string;
  m_accelerator : string;
  m_cpu : CPU;
  m_machineType : string;
  m_memory : string;
  m_vga : string;
  m_display : string;
  m_vnc : string;
  m_extraEnv : list string;
  m_headless : bool;
  m_extraDevices : list string;
  m_disks : list Disk;
  m_virtiofsd : list Virtiofsd;
  m_spice : option Spice;
  m_nics : list NIC;
  m_uefi : option UEFI;
  m_qmpSocket : string;
  m_qgaSocket : string;
  m_memfd : option MemfdBackend;
  m_vfioDevices : list VFIODevice;
  m_tpm : option string;
  m_vsock : option Z;
  m_cpuPinning : list Z;
  m_rtc : string;
  m_bootOrder : string;
  m_globals : list string;
  m_nested : bool;
  m_vmportOff : bool;
}.
#[export] Instance BaseMachine_eta : Settable BaseMachine := λ m,
  mkMachine (m_basePath m) (m_name m) (m_architecture m) (m_binaryPath m) (m_accelerator m)
    (m_cpu m) (m_machineType m) (m_memory m) (m_vga m) (m_display m) (m_vnc m) (m_extraEnv m)
    (m_headless m) (m_extraDevices m) (m_disks m) (m_virtiofsd m) (m_spice m) (m_nics m)
    (m_uefi m) (m_qmpSocket m) (m_qgaSocket m) (m_memfd m) (m_vfioDevices m) (m_tpm m)
    (m_vsock m) (m_cpuPinning m) (m_rtc m) (m_bootOrder m) (m_globals m) (m_nested m) (m_vmportOff m).

Definition QemuOptions : Type := BaseMachine → BaseMachine.
Definition WithName (name : string) : QemuOptions := λ q, q <| m_name := name |>.
Definition WithMachineType (mt : string) : QemuOptions := λ q,
  if bool_decide (mt = "") then q else q <| m_machineType := mt |>.
Definition WithGlobal (g : string) : QemuOptions := λ q, q <| m_globals := m_globals q ++ [g] |>.
Definition WithVirtiofsd (socket tag : string) : QemuOptions := λ q,
  q <| m_virtiofsd := m_virtiofsd q ++ [mkVirtiofsd socket tag ("virtiofs-" +:+ tag) "vhost-user-fs-pci"] |>.
Definition WithVGA (vga : string) : QemuOptions := λ q, q <| m_vga := vga |>.
Definition AddDisk (d : Disk) : QemuOptions := λ q, q <| m_disks := m_disks q ++ [d] |>.
Definition WithMemory (m : string) : QemuOptions := λ q, q <| m_memory := m |>.
Definition WithCPU (c : CPU) : QemuOptions := λ q, q <| m_cpu := c |>.
Definition WithAccelerator (a : string) : QemuOptions := λ q, q <| m_accelerator := a |>.
Definition WithArchitecture (a : string) : QemuOptions := λ q, q <| m_architecture := a |>.
Definition WithBinary (p : string) : QemuOptions := λ q, q <| m_binaryPath := p |>.
Definition WithNested (b : bool) : QemuOptions := λ q, q <| m_nested := b |>.
Definition WithVMPortOff (b : bool) : QemuOptions := λ q, q <| m_vmportOff := b |>.
Definition WithNIC (n : NIC) : QemuOptions := λ q, q <| m_nics := m_nics q ++ [n] |>.
Definition WithUEFI (u : UEFI) : QemuOptions := λ q, q <| m_uefi := Some u |>.
Definition WithQMPSocket (p : string) : QemuOptions := λ q, q <| m_qmpSocket := p |>.
Definition WithQGASocket (p : string) : QemuOptions := λ q, q <| m_qgaSocket := p |>.
Definition WithMemfd (m : MemfdBackend) : QemuOptions := λ q, q <| m_memfd := Some m |>.
Definition WithSpice (s : Spice) : QemuOptions := λ q, q <| m_spice := Some s |>.
Definition WithVFIO (v : VFIODevice) : QemuOptions := λ q, q <| m_vfioDevices := m_vfioDevices q ++ [v] |>.
Definition WithDevice (d : string) : QemuOptions := λ q, q <| m_extraDevices := m_extraDevices q ++ [d] |>.
Definition WithDisplay (d : string) : QemuOptions := λ q, q <| m_display := d |>.
Definition WithEnv (env : list string) : QemuOptions := λ q, q <| m_extraEnv := m_extraEnv q ++ env |>.
Definition WithVNC (a : string) : QemuOptions := λ q, q <| m_vnc := a |>.
Definition WithBootOrder (o : string) : QemuOptions := λ q, q <| m_bootOrder := o |>.
Definition WithHeadless : QemuOptions := λ q, q <| m_headless := true |>.
Definition WithTPM (socket : string) : QemuOptions := λ q, q <| m_tpm := Some socket |>.
Definition WithVSock (cid : Z) : QemuOptions := λ q, q <| m_vsock := Some cid |>.
Definition WithCPUPinning (cpus : list Z) : QemuOptions := λ q, q <| m_cpuPinning := cpus |>.
Definition WithRTC (rtc : string) : QemuOptions := λ q, q <| m_rtc := rtc |>.

(** [provider.Config] *)
Record ProviderConfig := mkProviderConfig {
  pc_StoragePath : string;
  pc_ISOCachePath : string;
  pc_VirtiofsdPath : string;
  pc_QemuBinaryPath : string;
  pc_BridgeHelperPath : string;
  pc_OVMFCodePath : string;
  pc_OVMFVarsPath : string;
  pc_OVMFSecbootCodePath : string;
  pc_LogPath : string;
  pc_DefaultMemory : string;
  pc_DefaultCPUs : Z;
  pc_DefaultDiskSize : string;
  pc_DefaultCPUModel : string;
  pc_DefaultMachineType : string;
  pc_RecreateDisks : bool;
  pc_MirrorMode : string;
  pc_MirrorAddress : string;
}.

(** [petname] is the random name a machine has until [WithName]. *)
Definition NewEmptyMachine (h : Host) (conf : ProviderConfig) (petname : string) : BaseMachine :=
  mkMachine (pc_StoragePath conf) petname (DefaultGuestArch h) "" (DefaultAccelerator h)
    (NewCPU (pc_DefaultCPUModel conf) (pc_DefaultCPUs conf) []) (pc_DefaultMachineType conf)
    (pc_DefaultMemory conf) "" "" "" [] false [] [] [] None [] None "" "" None [] None None [] "" "" []
    false false.

Definition ErrNoDisks : error := Errorf "no disks provided" [].

Definition Validate (q : BaseMachine) : result error unit :=
  match m_disks q with [] => Err ErrNoDisks | _ => Ok tt end.

Definition BuildMachine (opts : list QemuOptions) (q : BaseMachine) : result error BaseMachine :=
  let q := apply_opts opts q in
  match Validate q with Ok _ => Ok q | Err e => Err e end.

(** Each step looks at the machine type the previous ones produced. *)
Definition effectiveMachineType (q : BaseMachine) : string :=
  let arm := is_arm (m_architecture q) in
  let mt := m_machineType q in
  let mt := if m_vmportOff q && (HasPrefix mt "q35" || HasPrefix mt "pc") && negb (Contains mt "vmport=")
            then mt +:+ ",vmport=off" else mt in
  let mt := if arm && HasPrefix mt "virt" && negb (Contains mt "gic-version")
            then mt +:+ ",gic-version=max" else mt in
  let mt := if m_nested q && arm && HasPrefix mt "virt" && negb (Contains mt "virtualization=")
            then mt +:+ ",virtualization=on" else mt in
  let mt := if m_nested q && bool_decide (m_accelerator q = AccelHVF) && HasPrefix mt "virt"
               && negb (Contains mt "kernel-irqchip")
            then mt +:+ ",kernel-irqchip=on" else mt in
  if bool_decide (m_accelerator q = AccelWHPX) && negb (Contains mt "kernel-irqchip")
  then mt +:+ ",kernel-irqchip=off" else mt.

Definition MachineAbsolutePath (q : BaseMachine) : string := PathJoin [m_basePath q; m_name q].
Definition SerialLogPath (q : BaseMachine) : string := PathJoin [MachineAbsolutePath q; "serial.log"].

Definition qmpArg (addr : string) : string := "unix:" +:+ addr +:+ ",server,nowait".
Definition qgaChardevArg (addr : string) : string :=
  "socket,path=" +:+ addr +:+ ",server=on,wait=off,id=qga0".

Definition opt_args {A} (f : A → list string) (o : option A) : list string :=
  match o with Some a => f a | None => [] end.
Definition when_set (name value : string) : list string :=
  if bool_decide (value = "") then [] else flag name value.

(** The controllers the disks attach to, ahead of the disks. *)
Definition controller_args (disks : list Disk) : list string :=
  (if existsb (λ d, bool_decide (k_Interface d = InterfaceAHCI)) disks
   then flag "-device" "ahci,id=ahci0" else []) ++
  (if existsb (λ d, bool_decide (k_Interface d = InterfaceUSB)) disks
   then flag "-device" ("qemu-xhci,id=" +:+ usbDiskControllerID) else []).

Definition indexed (disks : list Disk) : list Disk :=
  imap (λ i d, d <| k_diskIndex := Z.of_nat i |>) disks.

Definition boot_args (q : BaseMachine) : list string :=
  let nestedHVFBoot := m_nested q && bool_decide (m_accelerator q = AccelHVF) in
  if negb (bool_decide (m_bootOrder q = "")) then
    if nestedHVFBoot then flag "-boot" ("order=" +:+ m_bootOrder q +:+ ",menu=on,splash-time=0")
    else flag "-boot" ("order=" +:+ m_bootOrder q +:+ ",menu=off")
  else if nestedHVFBoot then flag "-boot" "menu=on,splash-time=0" else [].

Definition Args (h : Host) (cwd : option string) (q : BaseMachine) : list string :=
  flag "-machine" (effectiveMachineType q) ++
  (m_globals q ≫= flag "-global") ++
  when_set "-accel" (m_accelerator q) ++
  flag "-m" (m_memory q) ++
  opt_args MemfdArgs (m_memfd q) ++
  CPUArgs (m_cpu q) ++
  opt_args UEFIArgs (m_uefi q) ++
  controller_args (m_disks q) ++
  (indexed (m_disks q) ≫= DiskArgs h cwd (m_name q)) ++
  when_set "-vga" (m_vga q) ++
  (m_nics q ≫= NICArgs) ++
  (m_virtiofsd q ≫= VirtiofsdArgs) ++
  opt_args SpiceArgs (m_spice q) ++
  (m_vfioDevices q ≫= VFIOArgs) ++
  opt_args TPMArgs (m_tpm q) ++
  opt_args VSockArgs (m_vsock q) ++
  (m_extraDevices q ≫= flag "-device") ++
  (if m_headless q then flag "-display" "none" else when_set "-display" (m_display q)) ++
  when_set "-vnc" (m_vnc q) ++
  when_set "-rtc" (m_rtc q) ++
  boot_args q ++
  (if bool_decide (m_qmpSocket q = "") then [] else flag "-qmp" (qmpArg (m_qmpSocket q))) ++
  flag "-chardev" ("file,id=serial0,path=" +:+ SerialLogPath q +:+ ",signal=off") ++
  flag "-serial" "chardev:serial0" ++
  (if bool_decide (m_qgaSocket q = "") then []
   else flag "-device" "virtio-serial-pci,id=virtio-serial0" ++
        flag "-chardev" (qgaChardevArg (m_qgaSocket q)) ++
        flag "-device" "virtserialport,chardev=qga0,name=org.qemu.guest_agent.0").

(** ** Lemmas *)
Lemma Contains_append_l s t sub : Contains s sub = true → Contains (s +:+ t) sub = true.
Proof.
  rewrite !Contains_spec. intros (a & b & ->). exists a, (b +:+ t). by rewrite !append_assoc.
Qed.

Lemma Contains_append_r s t sub : Contains t sub = true → Contains (s +:+ t) sub = true.
Proof.
  rewrite !Contains_spec. intros (a & b & ->). exists (s +:+ a), b. by rewrite !append_assoc.
Qed.

(** Appending a further comma-separated field keeps the first one. *)
Lemma Cut_append_comma s t : (Cut "," (s +:+ String "," t)).1.1 = (Cut "," s).1.1.
Proof.
  induction s as [|c s IH]; [done|].
  change (String c s +:+ String "," t) with (String c (s +:+ String "," t)). cbn [Cut].
  case_bool_decide; [done|]. destruct (Cut "," s) as [[? ?] ?], (Cut "," (s +:+ _)) as [[? ?] ?].
  cbn in *. by rewrite IH.
Qed.

Lemma list_bind_split {A B} (f : A → list B) (l : list A) i x :
  l !! i = Some x → ∃ a b, l ≫= f = a ++ f x ++ b.
Proof.
  intros Hi. rewrite <-(take_drop_middle _ _ _ Hi), bind_app, bind_cons.
  by eexists _, _.
Qed.

Lemma indexed_lookup ds i d :
  ds !! i = Some d → indexed ds !! i = Some (d <| k_diskIndex := Z.of_nat i |>).
Proof. intros Hi. unfold indexed. by rewrite list_lookup_imap, Hi. Qed.

Lemma existsb_lookup {A} (f : A → bool) (l : list A) i x :
  l !! i = Some x → f x = true → existsb f l = true.
Proof.
  intros Hi Hf. apply existsb_exists. exists x. split; [|done].
  apply list_elem_of_In. by eapply list_elem_of_lookup_2.
Qed.

Lemma app_split7 {A} (a b c d e f g r : list A) :
  a ++ b ++ c ++ d ++ e ++ f ++ g ++ r = (a ++ b ++ c ++ d ++ e ++ f ++ g) ++ r.
Proof. by rewrite <-!app_assoc. Qed.

Lemma Args_split h cwd q : ∃ pre post,
  Args h cwd q = pre ++ controller_args (m_disks q) ++
    (indexed (m_disks q) ≫= DiskArgs h cwd (m_name q)) ++ post.
Proof. unfold Args. rewrite app_split7. by eexists _, _. Qed.

(** *** Machine type extension *)
Definition concat_opts (l : list (string * string)) : string := foldr (λ p s, p.2 +:+ s) "" l.

Lemma concat_opts_app l1 l2 : concat_opts (l1 ++ l2) = concat_opts l1 +:+ concat_opts l2.
Proof.
  unfold concat_opts. induction l1 as [|p l1 IH]; [done|]. cbn. by rewrite IH, append_assoc.
Qed.

(** [mt] is [mt0] extended by the options [added], all drawn from [avail] in
    order and none of a kind [mt0] already names. *)
Definition extends (mt0 : string) (avail added : list (string * string)) (mt : string) : Prop :=
  added `sublist_of` avail ∧ mt = mt0 +:+ concat_opts added ∧
  ∀ p, p ∈ added → Contains mt0 p.1 = false.

Lemma NoDup_sublist_fst (l1 l2 : list (string * string)) :
  l1 `sublist_of` l2 → NoDup l2.*1 → NoDup l1.*1.
Proof.
  induction 1 as [|x l1 l2 Hs IH|x l1 l2 Hs IH]; [done| |]; cbn.
  - rewrite !NoDup_cons. intros [Hx Hn]. split; [|by apply IH]. intros Hi. apply Hx.
    apply list_elem_of_fmap in Hi as (y & -> & Hy). apply list_elem_of_fmap. exists y.
    split; [done|]. eapply elem_of_submseteq; [exact Hy|by apply sublist_submseteq].
  - rewrite NoDup_cons. intros [_ Hn]. by apply IH.
Qed.

(** One extension step: prefixes and what is already named are kept, and when
    its condition holds its kind is named afterwards. *)
Lemma extends_step mt0 avail added mt (b : bool) k o :
  extends mt0 avail added mt → Contains o k = true →
  let mt' := if b && negb (Contains mt k) then mt +:+ o else mt in
  (∃ added', extends mt0 (avail ++ [(k, o)]) added' mt') ∧
  (∃ t, mt' = mt +:+ t) ∧ (b = true → Contains mt' k = true).
Proof.
  intros (Hs & -> & Hk) Ho. cbv zeta. destruct (b && _) eqn:E.
  - apply andb_true_iff in E as [-> E]. apply negb_true_iff in E.
    split; [|split; [by eexists|intros _; by apply Contains_append_r]].
    exists (added ++ [(k, o)]). split; [by apply sublist_app|]. split.
    + rewrite concat_opts_app. cbn. by rewrite append_nil, append_assoc.
    + intros p. rewrite elem_of_app, list_elem_of_singleton. intros [Hp| ->]; [by apply Hk|].
      cbn. apply not_true_iff_false. intros Hc. by rewrite Contains_append_l in E.
  - split; [|split; [exists ""; by rewrite append_nil|intros ->; by apply negb_false_iff in E]].
    exists added. split; [by apply sublist_inserts_r|]. done.
Qed.

Lemma extends_NoDup mt0 avail added mt avail' :
  extends mt0 avail added mt → avail `sublist_of` avail' → NoDup avail.*1 →
  extends mt0 avail' added mt ∧ NoDup added.*1.
Proof.
  intros (Hs & Hl) Ha Hn. split; [split; [by etrans|exact Hl]|]. by eapply NoDup_sublist_fst.
Qed.

Lemma HasPrefix_append s t p : HasPrefix s p = true → HasPrefix (s +:+ t) p = true.
Proof. rewrite !HasPrefix_spec. intros [u ->]. exists (u +:+ t). by rewrite append_assoc. Qed.

Definition machine_type_opts : list (string * string) :=
  [("vmport=", ",vmport=off"); ("gic-version", ",gic-version=max");
   ("virtualization=", ",virtualization=on"); ("kernel-irqchip", ",kernel-irqchip=on");
   ("kernel-irqchip", ",kernel-irqchip=off")].

(** ** Theorems *)

(** The effective machine type is the configured one, extended by options
    of the board's table in order: never two of a kind, and none of a kind the
    configuration already names, so explicit settings win.  Under WHPX the
    interrupt-controller option is always present, and a nested aarch64 guest
    on the virt board always gets its GIC version and EL2. *)
Theorem effective_machine_type q :
  ∃ added, added `sublist_of` machine_type_opts ∧ NoDup added.*1 ∧
    effectiveMachineType q = m_machineType q +:+ concat_opts added ∧
    (∀ p, p ∈ added → Contains (m_machineType q) p.1 = false) ∧
    (m_accelerator q = AccelWHPX → Contains (effectiveMachineType q) "kernel-irqchip" = true) ∧
    (is_arm (m_architecture q) = true → HasPrefix (m_machineType q) "virt" = true → m_nested q = true →
      Contains (effectiveMachineType q) "gic-version" = true ∧
      Contains (effectiveMachineType q) "virtualization=" = true).
Proof.
  unfold effectiveMachineType.
  assert (H0 : extends (m_machineType q) [] [] (m_machineType q))
    by (split; [done|]; split; [by rewrite append_nil|set_solver]).
  set (b1 := m_vmportOff q && (_ || _)).
  destruct (extends_step _ _ _ _ b1 "vmport=" ",vmport=off" H0) as ((l1 & H1) & [t1 E1] & _); [done|].
  set (mt1 := if b1 && _ then _ else _) in *.
  set (b2 := is_arm _ && HasPrefix mt1 "virt").
  destruct (extends_step _ _ _ _ b2 "gic-version" ",gic-version=max" H1) as ((l2 & H2) & [t2 E2] & C2); [done|].
  set (mt2 := if b2 && _ then _ else _) in *.
  set (b3 := m_nested q && _ && HasPrefix mt2 "virt").
  destruct (extends_step _ _ _ _ b3 "virtualization=" ",virtualization=on" H2) as ((l3 & H3) & [t3 E3] & C3); [done|].
  set (mt3 := if b3 && _ then _ else _) in *.
  set (b4 := m_nested q && _ && HasPrefix mt3 "virt").
  destruct (extends_step _ _ _ _ b4 "kernel-irqchip" ",kernel-irqchip=on" H3) as ((l4 & H4) & [t4 E4] & _); [done|].
  set (mt4 := if b4 && _ then _ else _) in *.
  set (b5 := bool_decide (m_accelerator q = AccelWHPX)).
  destruct (extends_step _ _ _ _ b5 "kernel-irqchip" ",kernel-irqchip=off" H4) as (_ & [t5 E5] & C5); [done|].
  assert (∃ l, extends (m_machineType q) machine_type_opts l
    (if b5 && negb (Contains mt4 "kernel-irqchip") then mt4 +:+ ",kernel-irqchip=off" else mt4) ∧
    NoDup l.*1) as (l & (Hs & Hmt & Hk) & Hnd).
  { destruct (bool_decide_reflect (m_accelerator q = AccelWHPX)) as [Ea|Ea]; unfold b5.
    - assert (mt4 = mt3) as -> by (unfold mt4, b4; rewrite Ea; by rewrite andb_false_r).
      destruct (extends_step _ _ _ _ true "kernel-irqchip" ",kernel-irqchip=off" H3) as ((l & Hl) & _); [done|].
      exists l. eapply extends_NoDup; [exact Hl|repeat constructor|].
      apply (bool_decide_unpack _). by vm_compute.
    - exists l4. eapply extends_NoDup; [exact H4|repeat constructor|].
      apply (bool_decide_unpack _). by vm_compute. }
  exists l. split_and!; try done; [intros E; apply C5; unfold b5; by rewrite E|].
  intros Harm Hv Hn. rewrite E5, E4. split; repeat apply Contains_append_l.
  - rewrite E3. apply Contains_append_l, C2. unfold b2. rewrite Harm, E1. by apply HasPrefix_append.
  - apply C3. unfold b3. rewrite Hn, Harm, E2, E1. by apply HasPrefix_append, HasPrefix_append.
Qed.

(** Each controller a disk attaches to is on the command line, ahead of the
    disk: QEMU resolves a device's bus in command-line order. *)
Theorem controllers_precede_disks h cwd q i d ctrl :
  m_disks q !! i = Some d →
  (k_Interface d = InterfaceUSB ∧ ctrl = "qemu-xhci,id=" +:+ usbDiskControllerID ∨
   k_Interface d = InterfaceAHCI ∧ ctrl = "ahci,id=ahci0") →
  ∃ pre mid post, Args h cwd q =
    pre ++ ["-device"; ctrl] ++ mid ++
    DiskArgs h cwd (m_name q) (d <| k_diskIndex := Z.of_nat i |>) ++ post.
Proof.
  intros Hi Hc.
  destruct (list_bind_split (DiskArgs h cwd (m_name q)) _ _ _ (indexed_lookup _ _ _ Hi)) as (a & b & Eb).
  assert (∃ c1 c2, controller_args (m_disks q) = c1 ++ ["-device"; ctrl] ++ c2) as (c1 & c2 & Ec).
  { unfold controller_args. destruct Hc as [[Hk ->]|[Hk ->]].
    - erewrite (existsb_lookup (λ d, bool_decide (k_Interface d = InterfaceUSB)))
        by (done || by apply bool_decide_eq_true).
      eexists _, []. by rewrite app_nil_r.
    - erewrite (existsb_lookup (λ d, bool_decide (k_Interface d = InterfaceAHCI)))
        by (done || by apply bool_decide_eq_true).
      by eexists [], _. }
  destruct (Args_split h cwd q) as (pre & post & ->). rewrite Eb, Ec.
  exists (pre ++ c1), (c2 ++ a), (b ++ post). by rewrite <-!app_assoc.
Qed.

(** The address a client dials for a Helios VM is the one QEMU was told to
    serve: adding the share policy to a VNC address changes neither the parsed
    host and port nor the failure. *)
Theorem vnc_dial_matches_serve addr : VNCHostPort (HeliosVNCArg addr) = VNCHostPort addr.
Proof.
  unfold HeliosVNCArg. set (a := if bool_decide (addr = "") then DefaultHeliosVNC else addr).
  assert (VNCHostPort addr = VNCHostPort a) as ->.
  { unfold a. case_bool_decide; [by subst|done]. }
  assert (a ≠ "") as Ha by (unfold a; by case_bool_decide).
  destruct (Contains a "share="); [done|]. unfold VNCHostPort.
  rewrite (bool_decide_eq_false_2 (a = "")), bool_decide_eq_false_2 by (done || by destruct a).
  pose proof (Cut_append_comma a "share=force-shared") as E.
  change (String "," "share=force-shared") with ",share=force-shared" in E.
  destruct (Cut "," a) as [[? ?] ?], (Cut "," (a +:+ ",share=force-shared")) as [[? ?] ?].
  cbn in E. by subst.
Qed.

(** For a guest without an explicit thread count, the topology handed to
    QEMU always multiplies out to the number of vCPUs. *)
Theorem adjust_smp_product tpc cpus sockets cores threads :
  threads ≠ 2 →
  let '(s, c, t) := AdjustSMP tpc cpus sockets cores threads in s * c * t = cpus.
Proof.
  intros Ht. unfold AdjustSMP. destruct (Z.eqb_spec threads 2); [done|].
  destruct (ThreadsPerCore tpc =? 2); cbn; [|lia].
  destruct (Z.eqb_spec (Z.rem cpus 2) 0) as [E|]; [|lia].
  pose proof (Z.quot_rem' cpus 2). lia.
Qed.

(** With two threads asked for and no core count, the topology describes
    twice as many vCPUs as the VM has, which QEMU refuses. *)
Theorem adjust_smp_doubles tpc cpus :
  0 < cpus →
  let '(s, c, t) := AdjustSMP tpc cpus 0 0 2 in s * c * t = 2 * cpus ∧ s * c * t ≠ cpus.
Proof. intros Hc. cbn. lia. Qed.

Definition vee_owned (q : Disk) : bool :=
  negb (bool_decide (k_Media q = DiskMediaCdrom)) && negb (k_Passthrough q) && negb (k_ImageFile q).

Section DiskFileTheorems.
Context {S : Type} (tools : ImgTools) (cwd : option string) (machine : string) (q : Disk).
Implicit Types w : World S.
Abbreviation path := (DiskAbsolutePath cwd machine q).

(** Only the disk's own file may appear or disappear. *)
Definition only_path w0 w : Prop :=
  ∀ p, p ≠ path → p ∈ w_files w ↔ p ∈ w_files w0.

Lemma try_preserves (P : World S → Prop) e : preserves P (try_ e).
Proof. unfold try_. preserves_tac. Qed.

Lemma DiskDelete_only w0 : preserves (only_path w0) (DiskDelete tools cwd machine q).
Proof.
  unfold DiskDelete, file_exists. preserves_tac; [apply try_preserves|].
  apply preserves_modify. intros w Hw p Hp. cbn. specialize (Hw p Hp). set_solver.
Qed.

Lemma DiskCreate_only w0 : preserves (only_path w0) (DiskCreate tools cwd machine q).
Proof.
  unfold DiskCreate, file_exists. preserves_tac; try apply try_preserves.
  all: try apply DiskDelete_only.
  apply preserves_modify. intros w Hw p Hp. cbn. specialize (Hw p Hp). set_solver.
Qed.

Lemma unowned_noop w : vee_owned q = false →
  (DiskDelete tools cwd machine q w).2 = w ∧ DiskCreate tools cwd machine q w = (Ok tt, w).
Proof.
  unfold vee_owned, DiskDelete, DiskCreate. intros Ho.
  destruct (bool_decide (k_Media q = DiskMediaCdrom)), (k_Passthrough q), (k_ImageFile q); done.
Qed.

Lemma DiskCreate_present w w' : vee_owned q = true →
  DiskCreate tools cwd machine q w = (Ok tt, w') → path ∈ w_files w'.
Proof.
  unfold vee_owned, DiskCreate. intros Ho.
  destruct (bool_decide (k_Media q = DiskMediaCdrom)), (k_Passthrough q), (k_ImageFile q); try done. cbn.
  intros E. do 3 (apply run_bind_inv in E as (? & ? & _ & E)).
  unfold file_exists in E. rewrite run_gets in E.
  case_bool_decide; [by injection E as <-|].
  repeat (apply run_bind_inv in E as (? & ? & _ & E)). injection E as <-. cbn. set_solver.
Qed.

(** Creating or deleting a disk never touches any file but the disk's own,
    and touches nothing at all when the disk is a cdrom, a passed-through block
    device or an image file the user supplied; a creation that succeeds leaves
    the managed disk's file in place. *)
Theorem disk_files_safe w :
  only_path w (DiskDelete tools cwd machine q w).2 ∧
  only_path w (DiskCreate tools cwd machine q w).2 ∧
  (if vee_owned q
   then ∀ w', DiskCreate tools cwd machine q w = (Ok tt, w') → path ∈ w_files w'
   else (DiskDelete tools cwd machine q w).2 = w ∧ DiskCreate tools cwd machine q w = (Ok tt, w)).
Proof.
  split; [by apply DiskDelete_only|]. split; [by apply DiskCreate_only|].
  destruct (vee_owned q) eqn:E; [intros w'; by apply DiskCreate_present | by apply unowned_noop].
Qed.
End DiskFileTheorems.

(** *** A concrete machine: a virtio disk and an installer on USB *)
Module MachineExample.
Definition linux : Host := mkHost "linux" "amd64".
Definition conf : ProviderConfig :=
  mkProviderConfig "/vms" "/isos" "/usr/bin/virtiofsd" "/usr/bin/qemu-system-x86_64"
    "/usr/lib/qemu/qemu-bridge-helper" "/fw/code.fd" "/fw/vars.fd" "/fw/sec.fd" "/var/log/vee.log"
    "4G" 2 "40G" "host" "q35" false "auto" "".
Definition os : Disk := NewDisk "40G" "/vms/dev" [WithCustomPath "/vms/dev/os.qcow2"; WithFormat "qcow2"].
Definition iso : Disk :=
  NewDisk "40G" "/vms/dev" [WithCustomPath "/iso/win.iso"; WithMedia "cdrom"; WithInterface InterfaceUSB].
Definition m : BaseMachine :=
  apply_opts [WithName "dev"; AddDisk os; AddDisk iso] (NewEmptyMachine linux conf "eager-panda").
End MachineExample.

Example machine_args :
  Args MachineExample.linux (Some "/root") MachineExample.m =
  ["-machine"; "q35"; "-accel"; "kvm"; "-m"; "4G"; "-cpu"; "host"; "-smp"; "2";
   "-device"; "qemu-xhci,id=usbdisk0";
   "-drive"; "file=/vms/dev/os.qcow2,readonly=false,media=disk,if=virtio,id=disk0,format=qcow2,cache=none,aio=io_uring,discard=unmap";
   "-drive"; "file=/iso/win.iso,if=none,id=disk1,media=cdrom,readonly=true";
   "-device"; "usb-storage,drive=disk1,bus=usbdisk0.0";
   "-chardev"; "file,id=serial0,path=/vms/dev/serial.log,signal=off"; "-serial"; "chardev:serial0"].
Proof. vm_compute. reflexivity. Qed.

Lemma controllers_precede_disks_witness :
  ∃ pre mid post, Args MachineExample.linux None MachineExample.m =
    pre ++ ["-device"; "qemu-xhci,id=" +:+ usbDiskControllerID] ++ mid ++
    DiskArgs MachineExample.linux None "dev" (MachineExample.iso <| k_diskIndex := 1 |>) ++ post.
Proof.
  apply (controllers_precede_disks MachineExample.linux None MachineExample.m 1 MachineExample.iso);
    [reflexivity | left; split; reflexivity].
Defined.

Lemma adjust_smp_product_witness :
  let '(s, c, t) := AdjustSMP (Some "2") 6 0 0 0 in s * c * t = 6.
Proof. apply (adjust_smp_product (Some "2") 6 0 0 0). lia. Defined.

Lemma adjust_smp_doubles_witness :
  let '(s, c, t) := AdjustSMP None 4 0 0 2 in s * c * t = 2 * 4 ∧ s * c * t ≠ 4.
Proof. apply (adjust_smp_doubles None 4). lia. Defined.
