(* ===== verification/Machine.v ===== *)
(** * From a VM config to a running QEMU

    [buildMachine], [buildBackendMachine] and their helpers of
    [internal/vm/manager.go] and [internal/vm/backend.go], [ValidateQemuEnv] of
    [internal/vm/qemuenv.go], [FirmwareForArch] of [provider/config.go], the
    detached branch of [start] of [internal/qemu/machine.go], and the
    manager-side view of disk paths.

    The result is the instance of the [MachineBuilder] interface the
    lifecycle is written against.  What lies outside the program (the host's
    QEMU binaries, sysfs, virtiofsd, swtpm, [qemu-img], process creation) is in
    the fields of [BuildEnv]; the vz builder and launcher are
    arguments, with the contract [vz_laws] that [Vz] shows they keep. *)
From S2P Require Import Prelude GoStrings Config Store World Lifecycle Gpu Sha1 Qemu.

Open Scope Z_scope.

(** ** Small pieces *)

(** [qemu_env] entries must be KEY=VALUE with a key and no NUL byte. *)
Definition qemu_env_ok (e : string) : bool :=
  let '(k, _, ok) := Cut "=" e in
  ok && negb (bool_decide (k = "")) && sforall (λ c, negb (bool_decide (code c = 0%N))) e.

Fixpoint ValidateQemuEnv (env : list string) : result error unit :=
  match env with
  | [] => Ok tt
  | e :: env => if qemu_env_ok e then ValidateQemuEnv env
                else Err (Errorf "qemu_env entry %q: want KEY=VALUE" [e])
  end.

(** A guest context id of at least 3, from the name's SHA-1 digest: the four
    bytes shifted and or-ed at 32 bits. *)
Definition deterministicCID (name : string) : Z :=
  let h := SHA1.Sum (SHA1.bytes_of name) in
  let b i := Z.of_N (nth i h 0%N) in
  let cid := Z.lor (Z.lor (Z.lor (Z.shiftl (b 0%nat) 24) (Z.shiftl (b 1%nat) 16))
                          (Z.shiftl (b 2%nat) 8)) (b 3%nat) in
  if cid <? 3 then cid + 3 else cid.

(** The first candidate among the existing [files], or the fallback. *)
Definition firstExisting (files : gset string) (fallback : string) (candidates : list string) : string :=
  match filter (λ c, c ∈ files) candidates with c :: _ => c | [] => fallback end.

(** Code, vars and Secure Boot firmware of an architecture. *)
Definition FirmwareForArch (files : gset string) (home arch : string) : string * string * string :=
  let vee f := PathJoin [home; ".vee"; "share"; "qemu"; f] in
  if is_arm arch then
    let veeCode := vee "edk2-aarch64-code.fd" in
    let veeVars := vee "edk2-arm-vars.fd" in
    let code := firstExisting files veeCode
      [veeCode; "/opt/homebrew/share/qemu/edk2-aarch64-code.fd";
       "/usr/local/share/qemu/edk2-aarch64-code.fd";
       "/Applications/UTM.app/Contents/Resources/qemu/edk2-aarch64-code.fd";
       "/usr/share/AAVMF/AAVMF_CODE.fd"] in
    let vars := firstExisting files veeVars
      [veeVars; "/opt/homebrew/share/qemu/edk2-arm-vars.fd";
       "/usr/local/share/qemu/edk2-arm-vars.fd";
       "/Applications/UTM.app/Contents/Resources/qemu/edk2-arm-vars.fd";
       "/usr/share/AAVMF/AAVMF_VARS.fd"] in
    (code, vars, code)
  else
    let code := firstExisting files "/usr/share/OVMF/x64/OVMF_CODE.4m.fd"
      [vee "edk2-x86_64-code.fd"; "/usr/share/OVMF/x64/OVMF_CODE.4m.fd";
       "/usr/share/OVMF/OVMF_CODE_4M.fd"; "/usr/share/edk2/ovmf/OVMF_CODE.fd";
       "/usr/share/qemu/ovmf-x86_64-4m-code.bin"; "/usr/share/OVMF/OVMF_CODE.fd"] in
    let vars := firstExisting files "/usr/share/OVMF/x64/OVMF_VARS.4m.fd"
      [vee "edk2-i386-vars.fd"; "/usr/share/OVMF/x64/OVMF_VARS.4m.fd";
       "/usr/share/OVMF/OVMF_VARS_4M.fd"; "/usr/share/edk2/ovmf/OVMF_VARS.fd";
       "/usr/share/qemu/ovmf-x86_64-4m-vars.bin"; "/usr/share/OVMF/OVMF_VARS.fd"] in
    let secboot := firstExisting files "/usr/share/OVMF/x64/OVMF_CODE.secboot.4m.fd"
      [vee "edk2-x86_64-secure-code.fd"; "/usr/share/OVMF/x64/OVMF_CODE.secboot.4m.fd";
       "/usr/share/OVMF/OVMF_CODE_4M.ms.fd"; "/usr/share/OVMF/OVMF_CODE_4M.secboot.fd";
       "/usr/share/edk2/ovmf/OVMF_CODE.secboot.fd"; code] in
    (code, vars, secboot).

(** ** The environment of a build *)
Record BuildEnv (S : Type) := mkBuildEnv {
  be_conf : ProviderConfig;
  be_cwd : option string;
  be_petname : string;
  be_home : option string;
  (** the sysfs threads-per-core file *)
  be_tpc : option string;
  (** [qemubin.EnsureForArch] *)
  be_EnsureForArch : string → result error string;
  (** [gpu.EnsureReady] *)
  be_EnsureReady : string → DeviceState * option error;
  (** starting virtiofsd for a mount on a socket: its PID *)
  be_virtiofsd : VirtiofsMount → string → result error Z;
  (** starting swtpm on a state directory and socket *)
  be_swtpm : string → string → option error;
  be_tools : ImgTools;
  (** preparing the VM directory and qemu.log *)
  be_log : string → option error;
  (** starting a process: its PID, and whether it is still up when looked at *)
  be_spawn : string → list string → result error (Z * bool);
  (** raising RLIMIT_MEMLOCK for VFIO *)
  be_memlock : Z → option error;
}.
Arguments be_conf {S} _ : assert.
Arguments be_cwd {S} _ : assert.
Arguments be_petname {S} _ : assert.
Arguments be_home {S} _ : assert.
Arguments be_tpc {S} _ : assert.
Arguments be_EnsureForArch {S} _ _ : assert.
Arguments be_EnsureReady {S} _ _ : assert.
Arguments be_virtiofsd {S} _ _ _ : assert.
Arguments be_swtpm {S} _ _ _ : assert.
Arguments be_tools {S} _ : assert.
Arguments be_log {S} _ _ : assert.
Arguments be_spawn {S} _ _ _ : assert.
Arguments be_memlock {S} _ _ : assert.

Section Build.
Context {S : Type} `{VMStore S} (host : Host) (be : BuildEnv S).
Abbreviation M := (GoM (World S) error).

Definition vmDir (name : string) : string := PathJoin [pc_StoragePath (be_conf be); name].
Definition controlSocketAddr (dir base : string) : string := PathJoin [dir; base +:+ ".sock"].

Definition guest_arch (cfg : VMConfig) : string :=
  if bool_decide (c_Arch cfg = "") then DefaultGuestArch host else c_Arch cfg.
Definition emulated (cfg : VMConfig) : bool := negb (bool_decide (guest_arch cfg = DefaultGuestArch host)).

(** Which QEMU binary runs the guest. *)
Definition arch_opts (cfg : VMConfig) : M (list QemuOptions) :=
  if emulated cfg then
    match be_EnsureForArch be (guest_arch cfg) with
    | Err e => throw (Wrapf "emulated guest" e)
    | Ok path => mret [WithArchitecture (guest_arch cfg); WithAccelerator AccelTCG; WithBinary path]
    end
  else if negb (bool_decide (c_QemuBinary cfg = "")) then
    e ← file_exists (c_QemuBinary cfg);
    if (e : bool) then mret [WithBinary (c_QemuBinary cfg)]
    else throw (Errorf "qemu_binary %q" [c_QemuBinary cfg])
  else if bool_decide (g_Mode (c_GPU cfg) = GPUHelios) then
    throw (Errorf "GPU mode helios needs the qemu-helios QEMU fork" [c_Name cfg])
  else mret [].

Definition env_opts (cfg : VMConfig) : M (list QemuOptions) :=
  match c_QemuEnv cfg with
  | [] => mret []
  | env => match ValidateQemuEnv env with
           | Err e => throw e
           | Ok _ => mret [WithEnv env]
           end
  end.

Definition cpu_of (cfg : VMConfig) : CPU :=
  let arm := bool_decide (guest_arch cfg = "aarch64") in
  let flags := c_CPUFlags cfg ++
    (if bool_decide (g_Mode (c_GPU cfg) = GPUPassthrough) && g_AntiDetect (c_GPU cfg)
     then GamingCPUFlags else []) in
  let flags := if arm then [] else flags in
  let model := c_CPUModel cfg in
  let model := if arm && negb (bool_decide (model = "host")) && negb (bool_decide (model = "max"))
               then "host" else model in
  let model := if emulated cfg && (bool_decide (model = "") || bool_decide (model = "host"))
               then "max" else model in
  let '(sockets, cores, threads) :=
    AdjustSMP (be_tpc be) (c_CPUs cfg) (c_Sockets cfg) (c_Cores cfg) (c_Threads cfg) in
  NewCPU (pc_DefaultCPUModel (be_conf be)) (pc_DefaultCPUs (be_conf be))
    [WithCPUModel model; WithSMP (c_CPUs cfg) sockets threads cores; WithCPUFlags flags].

Definition board_opts (cfg : VMConfig) : list QemuOptions :=
  let mt := if bool_decide (c_MachineType cfg = "") && emulated cfg
            then MachineTypeForArch (guest_arch cfg) else c_MachineType cfg in
  [WithMachineType mt] ++
  (if bool_decide (g_Mode (c_GPU cfg) = GPUVirtio) && bool_decide (g_Pointer (c_GPU cfg) = PointerMouse)
   then [WithVMPortOff true] else []) ++
  (if c_Nested cfg then [WithNested true] else []) ++
  (WithGlobal <$> c_Globals cfg).

Definition uefi_opts (files : gset string) (cfg : VMConfig) : list QemuOptions :=
  if u_Enabled (c_UEFI cfg) then
    let code :=
      if negb (bool_decide (u_CodePath (c_UEFI cfg) = "")) then u_CodePath (c_UEFI cfg)
      else if emulated cfg
      then (FirmwareForArch files (default "" (be_home be)) (guest_arch cfg)).1.1
      else pc_OVMFCodePath (be_conf be) in
    [WithUEFI (mkUEFI code (u_VarsPath (c_UEFI cfg)))]
  else [].

(** The NIC; fills in a missing MAC and the SSH port actually free. *)
Definition nic_step (cfg : VMConfig) : M (VMConfig * NIC) :=
  let cfg := if bool_decide (nic_MAC (c_NIC cfg) = "")
             then cfg <| c_NIC := (c_NIC cfg) <| nic_MAC := DeterministicMAC (c_Name cfg) |> |>
             else cfg in
  let mode := if bool_decide (nic_Mode (c_NIC cfg) = "bridge") && negb (effectiveBridge host cfg)
              then "user" else nic_Mode (c_NIC cfg) in
  let bridge := bool_decide (mode = "bridge") in
  cf ← (if (0 <? c_SSHPort cfg) && negb bridge then
          port ← availablePort (c_SSHPort cfg) 2200 2299;
          mret (cfg <| c_SSHPort := port |>, ["tcp:127.0.0.1:" +:+ Itoa port +:+ "-:22"])
        else mret (cfg, []));
  let '(cfg, extra) := (cf : VMConfig * list string) in
  let nic := NewNIC mode (nic_Bridge (c_NIC cfg)) (nic_MAC (c_NIC cfg)) (nic_HostFwds (c_NIC cfg) ++ extra) in
  let helper := pc_BridgeHelperPath (be_conf be) in
  have ← file_exists helper;
  let nic := if bridge && negb (bool_decide (helper = "")) && have then
               let nic := nic <| n_BridgeHelper := helper |> in
               if 1 <? c_CPUs cfg then nic <| n_Queues := Z.min (c_CPUs cfg) 8 |> else nic
             else nic in
  mret (cfg, nic).

(** A cdrom whose backing file is gone is left out. *)
Definition attachable (files : gset string) (d : DiskConfig) : bool :=
  negb (bool_decide (d_Media d = "cdrom") && negb (bool_decide (d_Path d = ""))
        && negb (bool_decide (d_Path d ∈ files))).

Definition disk_of (machinePath : string) (d : DiskConfig) : Disk :=
  NewDisk (pc_DefaultDiskSize (be_conf be)) machinePath
    [WithCustomPath (d_Path d); WithSize (d_Size d); WithFormat (d_Format d);
     WithInterface (d_Interface d); WithMedia (d_Media d); WithCache (d_Cache d);
     WithReadonly (d_Readonly d); WithBackingFile (d_BackingFile d); WithSerial (d_Serial d);
     WithPassthrough (d_Passthrough d); WithImageFile (d_ImageFile d); WithBootIndex (d_BootIndex d)].

Definition disk_opts (files : gset string) (machinePath : string) (cfg : VMConfig) : list QemuOptions :=
  (λ d, AddDisk (disk_of machinePath d)) <$> filter (λ d, attachable files d = true) (c_Disks cfg).

(** *** GPU *)

(** Passed-through functions beside the primary: a function of the same slot
    shares the primary's root port, anything else gets the next port. *)
Fixpoint vfio_peers (primary : VFIODevice) (nextSlot : Z) (addrs : list string) : list VFIODevice :=
  match addrs with
  | [] => []
  | a :: addrs =>
      if SameSlot (v_PCIAddr primary) a
      then NewVFIOSiblingFunction a (v_BusID primary) (FunctionNumber a) :: vfio_peers primary nextSlot addrs
      else NewVFIOPeerDevice a ("pcie." +:+ Itoa nextSlot) nextSlot :: vfio_peers primary (nextSlot + 1) addrs
  end.

Definition vfio_primary (g : GPUConfig) : VFIODevice :=
  let v := NewVFIODevice (g_PCIAddr g) in
  let v := if g_ROMBar g || negb (bool_decide (g_ROMFile g = "")) then v <| v_ROMBar := true |> else v in
  if bool_decide (g_ROMFile g = "") then v else v <| v_ROMFile := g_ROMFile g |>.

Definition vfio_devices (g : GPUConfig) : list VFIODevice :=
  vfio_primary g :: vfio_peers (vfio_primary g) 2 (g_ExtraVFIOAddrs g).

(** Devices that failed to wake and are still without power. *)
Definition stuck_devices (addrs : list string) : list string :=
  omap (λ a, match be_EnsureReady be a with
             | (ds, Some _) => if NeedsReset ds
                 then Some (a +:+ " (" +:+ ds_PowerState ds +:+ "/" +:+ ds_RuntimeStatus ds +:+ ")") else None
             | (_, None) => None
             end) addrs.

Definition passthrough_opts (cfg : VMConfig) : M (list QemuOptions) :=
  let g := c_GPU cfg in
  if negb (SupportsVFIO host) then
    throw (Errorf "GPU passthrough (gpu.mode=passthrough) is only supported on Linux hosts" [HostOS host]) else
  devs ← (if bool_decide (g_PCIAddr g = "") then mret []
          else match stuck_devices (g_PCIAddr g :: g_ExtraVFIOAddrs g) with
               | [] => mret (vfio_devices g)
               | stuck => throw (Errorf "VFIO device(s) stuck in D3cold" [Join ", " stuck])
               end);
  mret ((WithVFIO <$> devs) ++ [WithMemfd (NewMemfdBackend (c_Memory cfg))]).

Definition virtio_gpu_opts (cfg : VMConfig) : list QemuOptions :=
  let g := c_GPU cfg in
  let arch := guest_arch cfg in
  let edid := ",edid=on,xres=1920,yres=1080" in
  let spice := match c_SPICE cfg with Some _ => true | None => false end in
  [WithVGA "none"] ++
  (if c_Headless cfg || spice || emulated cfg then
     (if emulated cfg && negb (c_Headless cfg)
      then [WithDisplay (DisplayArgFor (HostOS host) false "" (g_Pointer g))] else []) ++
     [WithDevice (VirtioGPUDevice arch false false "")]
   else if g_disableGL g then
     [WithDisplay (DisplayArgFor (HostOS host) false "" (g_Pointer g) +:+
        (if IsMacOS host then ",show-cursor=on" else ""));
      WithDevice (VirtioGPUDevice arch false false "" +:+ edid)]
   else
     [WithDevice (VirtioGPUDevice arch true (g_Venus g) (g_HostMem g) +:+ edid);
      WithDisplay (DisplayArgFor (HostOS host) true (g_GLBackend g) (g_Pointer g))]) ++
  (if c_Headless cfg then [] else WithDevice <$> VirtioInputDevicesFor (g_Pointer g)).

Definition helios_opts (cfg : VMConfig) : M (list QemuOptions) :=
  let g := c_GPU cfg in
  if emulated cfg || negb (bool_decide (guest_arch cfg = "x86_64")) then
    throw (Errorf "GPU mode helios needs a KVM-accelerated x86_64 guest" [guest_arch cfg]) else
  if negb (IsLinux host) then throw (Errorf "GPU mode helios needs a Linux host" [HostOS host]) else
  let vnc := if bool_decide (g_VNC g = "") then DefaultHeliosVNC else g_VNC g in
  mret [WithVGA "none"; WithDevice (HeliosGPUDevice (g_HostMem g));
        WithDisplay (HeliosDisplay (g_RenderNode g)); WithVNC (HeliosVNCArg vnc)].

(** Options for the GPU, and whether a shared-memory backend is among them. *)
Definition gpu_opts (cfg : VMConfig) : M (list QemuOptions * bool) :=
  let mode := g_Mode (c_GPU cfg) in
  if bool_decide (mode = GPUPassthrough) then o ← passthrough_opts cfg; mret (o, true)
  else if bool_decide (mode = GPUVirtio) then mret (virtio_gpu_opts cfg, false)
  else if bool_decide (mode = GPUHelios) then o ← helios_opts cfg; mret (o, false)
  else if bool_decide (mode = GPUAppleGFX) then
    if negb (IsMacOS host)
    then throw (Errorf "GPU mode apple-gfx requires a macOS host (got %s)" [HostOS host])
    else throw (Errorf "GPU mode apple-gfx is unavailable" [])
  else mret ([], false).

(** *** The rest *)
Definition console_opts (cfg : VMConfig) : list QemuOptions :=
  (if bool_decide (c_VGA cfg = "") then [] else [WithVGA (c_VGA cfg)]) ++
  (if c_Headless cfg then [WithHeadless] else []) ++
  (match c_SPICE cfg with
   | Some sp => [WithSpice (NewSpice [WithSpicePort (sp_Port sp); WithSpiceDisableTicketing (sp_DisableTicketing sp)])]
   | None => []
   end) ++
  [WithQMPSocket (controlSocketAddr (vmDir (c_Name cfg)) "qmp")] ++
  (if c_GuestAgent cfg then [WithQGASocket (controlSocketAddr (vmDir (c_Name cfg)) "qga")] else []) ++
  (WithDevice <$> c_ExtraDevices cfg) ++
  (WithDevice <$> c_InstallDevices cfg).

(** virtiofsd for each mount: a daemon that does not start is skipped, its
    device is attached all the same. *)
Fixpoint mount_step (name : string) (mounts : list VirtiofsMount) : M (list QemuOptions * list Z) :=
  match mounts with
  | [] => mret ([], [])
  | m :: ms =>
      let sock := if bool_decide (vf_SocketPath m = "")
                  then PathJoin [vmDir name; vf_Tag m +:+ ".sock"] else vf_SocketPath m in
      pids ← (match be_virtiofsd be m sock with
              | Ok pid => _ ← modify (λ w, w <| w_alive := {[pid]} ∪ w_alive w |>); mret [pid]
              | Err _ => mret []
              end);
      r ← mount_step name ms;
      mret (WithVirtiofsd sock (vf_Tag m) :: r.1, pids ++ r.2)
  end.

Definition virtiofs_opts (cfg : VMConfig) (memfdAdded : bool) : M (list QemuOptions * list Z) :=
  let mounts := if SupportsVirtiofsd host then c_VirtiofsMounts cfg else [] in
  r ← mount_step (c_Name cfg) mounts;
  mret ((if negb (bool_decide (mounts = [])) && negb memfdAdded
         then [WithMemfd (NewMemfdBackend (c_Memory cfg))] else []) ++ r.1, r.2).

Definition tpm_opts (cfg : VMConfig) : M (list QemuOptions) :=
  match c_TPM cfg with
  | Some t =>
      if tpm_Enabled t && SupportsSwTPM host then
        let sock := PathJoin [vmDir (c_Name cfg); "tpm.sock"] in
        match be_swtpm be (PathJoin [vmDir (c_Name cfg); "tpm"]) sock with
        | Some e => throw (Wrapf "swtpm" e)
        | None => mret [WithTPM sock]
        end
      else mret []
  | None => mret []
  end.

Definition tail_opts (cfg : VMConfig) (installed : bool) : list QemuOptions :=
  (if (c_SSHShare cfg || c_Vsock cfg) && SupportsVsock host
   then [WithVSock (if c_VsockCID cfg =? 0 then deterministicCID (c_Name cfg) else c_VsockCID cfg)]
   else []) ++
  (match c_CPUPinning cfg with [] => [] | cpus => [WithCPUPinning cpus] end) ++
  (if bool_decide (c_RTC cfg = "") then [] else [WithRTC (c_RTC cfg)]) ++
  (if installed then [WithBootOrder "c"] else []).

Definition buildMachine (cfg : VMConfig) : M (VMConfig * BaseMachine * list Z) :=
  if negb (bool_decide (c_Kernel cfg = "")) || negb (bool_decide (c_Cmdline cfg = ""))
     || negb (bool_decide (c_Initrd cfg = ""))
  then throw (Errorf "direct-kernel boot (kernel/cmdline/initrd) is wired only for the vz backend" []) else
  let m0 := NewEmptyMachine host (be_conf be) (be_petname be) in
  arch ← arch_opts cfg;
  env ← env_opts cfg;
  files ← gets w_files;
  cn ← nic_step cfg;
  let '(cfg, nic) := (cn : VMConfig * NIC) in
  go ← gpu_opts cfg;
  let '(gpu, memfdAdded) := (go : list QemuOptions * bool) in
  vo ← virtiofs_opts cfg memfdAdded;
  let '(vfs, pids) := (vo : list QemuOptions * list Z) in
  tpm ← tpm_opts cfg;
  state ← attempt (st (loadState (c_Name cfg)));
  let installed := match state with
                   | Ok s => bool_decide (s_InstallState s = InstallStateReady)
                   | Err _ => false
                   end in
  let opts := [WithName (c_Name cfg); WithMemory (c_Memory cfg)] ++ arch ++ env ++
    [WithCPU (cpu_of cfg)] ++ board_opts cfg ++ uefi_opts files cfg ++ [WithNIC nic] ++
    disk_opts files (MachineAbsolutePath m0) cfg ++ gpu ++ console_opts cfg ++ vfs ++ tpm ++
    tail_opts cfg installed in
  match BuildMachine opts m0 with
  | Err e => throw e
  | Ok m => mret (cfg, m, pids)
  end.

(** *** Launching: [start] with [detach] *)
Definition start_detached (q : BaseMachine) : M StartResult :=
  _ ← for_each (DiskCreate (be_tools be) (be_cwd be) (m_name q)) (m_disks q);
  let binary := if bool_decide (m_binaryPath q = "") then pc_QemuBinaryPath (be_conf be) else m_binaryPath q in
  _ ← try_ (be_log be (MachineAbsolutePath q));
  match be_spawn be binary (Args host (be_cwd be) q) with
  | Err e => throw e
  | Ok (pid, up) =>
      _ ← modify (λ w, if up : bool then w <| w_alive := {[pid]} ∪ w_alive w |> else w);
      match (match m_vfioDevices q with [] => None | _ => be_memlock be pid end) with
      | Some e => _ ← kill pid; throw e
      | None => mret (mkStartResult pid (m_qmpSocket q) (m_qgaSocket q) 0)
      end
  end.
End Build.

(** ** The backends

    The Virtualization.framework backend is a parameter. *)
Section Backends.
Context {S : Type} `{VMStore S} (host : Host) (be : BuildEnv S).
Abbreviation M := (GoM (World S) error).
Context (Vz : Type) (buildVZMachine : VMConfig → bool → M (VMConfig * Vz)) (vzStart : Vz → M StartResult).

Inductive AnyMachine :=
| QemuMachine (m : BaseMachine)
| VzMachine (m : Vz).

Definition build_backend (cfg : VMConfig) (recovery : bool) : M (VMConfig * AnyMachine * list Z) :=
  if bool_decide (BackendName cfg = QEMU) then
    r ← buildMachine host be cfg;
    let '(cfg, m, pids) := (r : VMConfig * BaseMachine * list Z) in mret (cfg, QemuMachine m, pids)
  else if bool_decide (BackendName cfg = VZ) then
    r ← buildVZMachine cfg recovery; mret (r.1, VzMachine r.2, [])
  else throw (Errorf "unknown backend %q (valid: %q, %q)" [c_Backend cfg; QEMU; VZ]).

Definition start_machine (m : AnyMachine) : M StartResult :=
  match m with
  | QemuMachine q => start_detached host be q
  | VzMachine v => vzStart v
  end.

#[local] Instance vee_builder : MachineBuilder S := {|
  machine := AnyMachine;
  buildBackendMachine := build_backend;
  StartDetached := start_machine;
|}.
End Backends.
Arguments QemuMachine {Vz} _ : assert.
Arguments VzMachine {Vz} _ : assert.

(** ** The laws the lifecycle relies on *)
Section Laws.
Context {S : Type} `{VMStoreLaws S} (host : Host) (be : BuildEnv S).
Abbreviation M := (GoM (World S) error).
Implicit Types w : World S.

Definition same_store (w0 w : World S) : Prop := w_store w = w_store w0.

Lemma mount_step_store w0 n ms : preserves (same_store w0) (mount_step be n ms).
Proof. induction ms as [|m ms IH]; cbn; preserves_tac; try done. by apply preserves_modify. Qed.

(** Building reads the world and starts virtiofsd helpers; the store is left
    alone. *)
Lemma buildMachine_store w0 cfg : preserves (same_store w0) (buildMachine host be cfg).
Proof.
  assert (Hl : ∀ n, preserves (same_store w0) (st (loadState n))).
  { intros n w Hw. unfold st, same_store in *. pose proof (loadState_pure n (w_store w)).
    destruct (loadState n (w_store w)) as [r s']. cbn in *. congruence. }
  unfold buildMachine, arch_opts, env_opts, nic_step, gpu_opts, passthrough_opts, helios_opts,
    virtiofs_opts, tpm_opts, availablePort, file_exists.
  preserves_tac; auto using mount_step_store.
Qed.

Lemma start_detached_store w0 m : preserves (same_store w0) (start_detached host be m).
Proof.
  unfold start_detached, DiskCreate, DiskDelete, file_exists, try_, kill.
  preserves_tac; apply preserves_modify; intros; by repeat case_match.
Qed.

(** The fields of a config that building may fill in. *)
Definition filled (cfg : VMConfig) (mac : string) (port : Z) : VMConfig :=
  cfg <| c_NIC := (c_NIC cfg) <| nic_MAC := mac |> |> <| c_SSHPort := port |>.

Lemma filled_id cfg : filled cfg (nic_MAC (c_NIC cfg)) (c_SSHPort cfg) = cfg.
Proof. by destruct cfg as [? ? ? ? ? ? ? ? ? ? ? ? ? ? ? ? ? [] ?]. Qed.

Lemma nic_step_run cfg w :
  ∃ mac port nic, nic_step host be cfg w = (Ok (filled cfg mac port, nic), w).
Proof.
  unfold nic_step. set (c1 := if bool_decide (nic_MAC (c_NIC cfg) = "") then _ else _).
  assert (∃ mac, c1 = filled cfg mac (c_SSHPort cfg)) as [mac E1].
  { unfold c1. case_bool_decide; [|exists (nic_MAC (c_NIC cfg)); by rewrite filled_id].
    by eexists. }
  rewrite E1. set (mode := if _ && _ then "user" else _).
  destruct ((0 <? _) && _).
  - rewrite run_bind. unfold availablePort. rewrite run_gets. by eexists _, _, _.
  - rewrite run_bind. by eexists _, _, _.
Qed.

Lemma buildMachine_cfg cfg w c' m pids w' :
  buildMachine host be cfg w = (Ok (c', m, pids), w') → ∃ mac port, c' = filled cfg mac port.
Proof.
  unfold buildMachine. case_match; [done|]. intros E.
  do 2 (apply run_bind_inv in E as (? & ? & _ & E)). rewrite run_gets in E.
  apply run_bind_inv in E as ([c1 nic] & w1 & En & E).
  destruct (nic_step_run cfg x2) as (mac & port & nic' & En'). rewrite En' in En. injection En as <- <- <-.
  exists mac, port.
  apply run_bind_inv in E as ([? ?] & ? & _ & E). apply run_bind_inv in E as ([? ?] & ? & _ & E).
  do 2 (apply run_bind_inv in E as (? & ? & _ & E)). case_match; [by injection E|done].
Qed.
End Laws.

(** A host whose tools work: images can be created, QEMU comes up, swtpm
    starts and the memlock limit can be raised. *)
Record host_works {S} (be : BuildEnv S) : Prop := {
  hw_lookpath : img_lookpath (be_tools be) = None;
  hw_mkdir p : img_mkdir (be_tools be) p = None;
  hw_info p : is_Some (img_info (be_tools be) p);
  hw_create a : img_create (be_tools be) a = None;
  hw_remove p : img_remove (be_tools be) p = None;
  hw_log p : be_log be p = None;
  hw_swtpm d p : be_swtpm be d p = None;
  hw_memlock p : be_memlock be p = None;
  hw_spawn b a : ∃ pid, be_spawn be b a = Ok (pid, true) ∧ 0 < pid;
}.

(** Configs QEMU runs on any such host: native architecture, no GPU or a
    virtio one, and a disk that is neither an installer nor scratch space. *)
Definition plain (host : Host) (cfg : VMConfig) : Prop :=
  BackendName cfg = QEMU ∧ c_Kernel cfg = "" ∧ c_Cmdline cfg = "" ∧ c_Initrd cfg = "" ∧
  emulated host cfg = false ∧ c_QemuBinary cfg = "" ∧ ValidateQemuEnv (c_QemuEnv cfg) = Ok tt ∧
  g_Mode (c_GPU cfg) ∈ ["" ; GPUNone; GPUVirtio] ∧
  Exists (λ d, keep_installed d = true) (c_Disks cfg).

Section Plain.
Context {S : Type} `{VMStoreLaws S} (host : Host) (be : BuildEnv S) (Hbe : host_works be).
Implicit Types w : World S.

Lemma mount_step_run n ms w : ∃ r w', mount_step be n ms w = (Ok r, w').
Proof.
  revert w. induction ms as [|m ms IH]; intros w; cbn; [by eexists _, _|].
  rewrite run_bind. destruct (be_virtiofsd be m _).
  - rewrite run_modify, run_ret, run_bind.
    destruct (IH (w <| w_alive := {[a]} ∪ w_alive w |>)) as (r & w' & ->). by eexists _, _.
  - rewrite run_ret, run_bind. destruct (IH w) as (r & w' & ->). by eexists _, _.
Qed.

Lemma keep_attachable files d : keep_installed d = true → attachable files d = true.
Proof.
  unfold keep_installed, attachable, IsInstallISO. intros [_ Hi]%andb_true_iff.
  apply negb_true_iff in Hi. apply orb_false_iff in Hi as [_ Hm].
  apply bool_decide_eq_false in Hm. by rewrite bool_decide_eq_false_2.
Qed.

End Plain.

(** ** What ends up in the machine *)
Section Contents.
Context {S : Type} `{VMStoreLaws S} (host : Host) (be : BuildEnv S).
Implicit Types w : World S.

(** The parts of a machine most options leave alone. *)
Definition core (q : BaseMachine) :=
  (m_name q, m_memory q, m_disks q, m_nics q, m_qmpSocket q, m_bootOrder q).
Definition inert (o : QemuOptions) : Prop := ∀ q, core (o q) = core q.

Lemma apply_opts_app (l1 l2 : list QemuOptions) (q : BaseMachine) :
  apply_opts (l1 ++ l2) q = apply_opts l2 (apply_opts l1 q).
Proof. unfold apply_opts. by rewrite foldl_app. Qed.

Lemma core_inert l q : Forall inert l → core (apply_opts l q) = core q.
Proof.
  intros Hl. revert q. induction Hl as [|o l Ho Hl IH]; intros q; [done|].
  change (core (apply_opts l (o q)) = core q). by rewrite IH, Ho.
Qed.

(** What the other options do to the core. *)
Definition Core : Type := string * string * list Disk * list NIC * string * string.
Definition add_disks (ds : list Disk) (c : Core) : Core :=
  let '(n, m, d, ns, s, b) := c in (n, m, d ++ ds, ns, s, b).
Definition add_nic (nic : NIC) (c : Core) : Core :=
  let '(n, m, d, ns, s, b) := c in (n, m, d, ns ++ [nic], s, b).
Definition set_qmp (sock : string) (c : Core) : Core :=
  let '(n, m, d, ns, s, b) := c in (n, m, d, ns, sock, b).
Definition set_boot (order : string) (c : Core) : Core :=
  let '(n, m, d, ns, s, b) := c in (n, m, d, ns, s, order).

Lemma core_adds {A} (f : A → Disk) ds q :
  core (apply_opts ((λ d, AddDisk (f d)) <$> ds) q) = add_disks (f <$> ds) (core q).
Proof.
  revert q. induction ds as [|d ds IH]; intros q; [cbn; by rewrite app_nil_r|].
  rewrite fmap_cons. change (apply_opts (?o :: ?l) q) with (apply_opts l (o q)).
  rewrite IH. cbn. by rewrite <-app_assoc.
Qed.

Lemma inert_fmap {A} (f : A → QemuOptions) l : (∀ a, inert (f a)) → Forall inert (f <$> l).
Proof. intros Hf. apply Forall_fmap, Forall_true. intros a. apply Hf. Qed.

Lemma machine_type_inert mt : inert (WithMachineType mt).
Proof. intros q. unfold WithMachineType. by case_bool_decide. Qed.

Ltac inert_tac :=
  repeat first
    [ progress case_match
    | apply Forall_app; split
    | apply Forall_nil; exact I
    | apply Forall_cons; split
    | apply inert_fmap; intros ?
    | apply machine_type_inert
    | progress simpl
    | (intros ?; unfold core; cbn; repeat case_match; reflexivity) ].

Lemma arch_inert cfg w l w' : arch_opts host be cfg w = (Ok l, w') → Forall inert l.
Proof.
  unfold arch_opts, file_exists. intros E. repeat (case_match; try done).
  all: try (injection E as <- _; inert_tac).
  rewrite run_gets in E. case_bool_decide; [injection E as <- _; inert_tac|done].
Qed.

Lemma env_inert cfg w l w' : env_opts cfg w = (Ok l, w') → Forall inert l.
Proof.
  unfold env_opts. intros E. repeat (case_match; try done); injection E as <- _; inert_tac.
Qed.

Lemma gpu_inert cfg w l b w' : gpu_opts host be cfg w = (Ok (l, b), w') → Forall inert l.
Proof.
  unfold gpu_opts. case_bool_decide.
  { intros E. apply run_bind_inv in E as (o & w1 & E & [= <- _ _]). revert E. unfold passthrough_opts.
    case_match; [done|]. intros E. apply run_bind_inv in E as (ds & w2 & _ & [= <- _]). inert_tac. }
  case_bool_decide. { intros [= <- _ _]. unfold virtio_gpu_opts. inert_tac. }
  case_bool_decide.
  { intros E. apply run_bind_inv in E as (o & w1 & E & [= <- _ _]). revert E. unfold helios_opts.
    case_match; [done|]. case_match; [done|]. intros [= <- _]. inert_tac. }
  case_bool_decide; [by case_match|]. intros [= <- _ _]. inert_tac.
Qed.

Lemma mounts_inert n ms w r w' : mount_step be n ms w = (Ok r, w') → Forall inert r.1.
Proof.
  revert w r w'. induction ms as [|m ms IH]; intros w r w'; cbn; [intros [= <- _]; inert_tac|].
  intros E. apply run_bind_inv in E as (pids & w1 & _ & E).
  apply run_bind_inv in E as (r2 & w2 & E2 & [= <- _]). apply Forall_cons. split; [done|]. by eapply IH.
Qed.

Lemma virtiofs_inert cfg b w l pids w' :
  virtiofs_opts host be cfg b w = (Ok (l, pids), w') → Forall inert l.
Proof.
  unfold virtiofs_opts. intros E. apply run_bind_inv in E as (r & w1 & E & [= <- _ _]).
  apply mounts_inert in E. apply Forall_app. split; [inert_tac|done].
Qed.

Lemma tpm_inert cfg w l w' : tpm_opts host be cfg w = (Ok l, w') → Forall inert l.
Proof.
  unfold tpm_opts. intros E. repeat (case_match; try done); injection E as <- _; inert_tac.
Qed.

Lemma core_console cfg q : core (apply_opts (console_opts be cfg) q) =
  set_qmp (controlSocketAddr (vmDir be (c_Name cfg)) "qmp") (core q).
Proof.
  unfold console_opts. rewrite !apply_opts_app.
  rewrite (core_inert (WithDevice <$> c_InstallDevices cfg)), (core_inert (WithDevice <$> c_ExtraDevices cfg)),
    (core_inert (if c_GuestAgent cfg then _ else _)) by inert_tac.
  change (apply_opts [WithQMPSocket ?s] ?q) with (WithQMPSocket s q).
  change (core (WithQMPSocket ?s ?q)) with (set_qmp s (core q)).
  rewrite !core_inert; [done|inert_tac..].
Qed.

Lemma core_tail cfg installed q : core (apply_opts (tail_opts host cfg installed) q) =
  if installed then set_boot "c" (core q) else core q.
Proof.
  unfold tail_opts. rewrite !apply_opts_app. destruct installed.
  - change (apply_opts [WithBootOrder ?s] ?q) with (WithBootOrder s q).
    change (core (WithBootOrder ?s ?q)) with (set_boot s (core q)).
    rewrite !core_inert; [done|inert_tac..].
  - change (apply_opts [] ?q) with q. rewrite !core_inert; [done|inert_tac..].
Qed.

(** The steps of a build change nothing but the helper processes. *)
Lemma arch_pure cfg w0 : preserves (λ w, w = w0) (arch_opts host be cfg).
Proof. unfold arch_opts, file_exists. preserves_tac. Qed.
Lemma env_pure cfg w0 : preserves (λ w : World S, w = w0) (env_opts cfg).
Proof. unfold env_opts. preserves_tac. Qed.
Lemma gpu_store w0 cfg : preserves (same_store w0) (gpu_opts host be cfg).
Proof. unfold gpu_opts, passthrough_opts, helios_opts. preserves_tac. Qed.
Lemma virtiofs_store w0 cfg b : preserves (same_store w0) (virtiofs_opts host be cfg b).
Proof. unfold virtiofs_opts. preserves_tac; apply mount_step_store. Qed.
Lemma tpm_store w0 cfg : preserves (same_store w0) (tpm_opts host be cfg).
Proof. unfold tpm_opts. preserves_tac. Qed.

(** The disks, in the config's order, that can be attached. *)
Definition attached (files : gset string) (cfg : VMConfig) : list Disk :=
  disk_of be (MachineAbsolutePath (NewEmptyMachine host (be_conf be) (be_petname be))) <$>
    filter (λ d, attachable files d = true) (c_Disks cfg).

Lemma opts_core cfg arch env files nic gpu vfs tpm installed (m0 := NewEmptyMachine host (be_conf be) (be_petname be)) :
  Forall inert arch → Forall inert env → Forall inert gpu → Forall inert vfs → Forall inert tpm →
  core (apply_opts ([WithName (c_Name cfg); WithMemory (c_Memory cfg)] ++ arch ++ env ++
    [WithCPU (cpu_of host be cfg)] ++ board_opts host cfg ++ uefi_opts host be files cfg ++ [WithNIC nic] ++
    disk_opts be files (MachineAbsolutePath m0) cfg ++ gpu ++ console_opts be cfg ++ vfs ++ tpm ++
    tail_opts host cfg installed) m0) =
  (c_Name cfg, c_Memory cfg, attached files cfg, [nic],
   controlSocketAddr (vmDir be (c_Name cfg)) "qmp", if installed then "c" else "").
Proof.
  intros Ha He Hg Hv Ht. rewrite !apply_opts_app. rewrite core_tail.
  rewrite (core_inert tpm), (core_inert vfs), core_console, (core_inert gpu) by done.
  unfold disk_opts. rewrite core_adds.
  change (apply_opts [WithNIC nic] ?q) with (WithNIC nic q).
  change (core (WithNIC nic ?q)) with (add_nic nic (core q)).
  rewrite (core_inert (uefi_opts _ _ _ _)), (core_inert (board_opts _ _)), (core_inert [WithCPU _]),
    (core_inert env), (core_inert arch); [by destruct installed|..]; try done.
  all: unfold board_opts, uefi_opts; inert_tac.
Qed.

(** The store says the VM is installed. *)
Definition installed_in (w : World S) (name : string) : bool :=
  match (loadState name (w_store w)).1 with
  | Ok s => bool_decide (s_InstallState s = InstallStateReady)
  | Err _ => false
  end.

(** Inversion of a successful build. *)
Lemma buildMachine_inv cfg w c' m pids w' :
  buildMachine host be cfg w = (Ok (c', m, pids), w') →
  ∃ mac port nic, nic_step host be cfg w = (Ok (c', nic), w) ∧ c' = filled cfg mac port ∧
    core m = (c_Name cfg, c_Memory cfg, attached (w_files w) cfg, [nic],
      controlSocketAddr (vmDir be (c_Name cfg)) "qmp",
      if installed_in w (c_Name cfg) then "c" else "") ∧
    m_disks m ≠ [].
Proof.
  unfold buildMachine. case_match; [done|]. intros E.
  apply run_bind_inv in E as (arch & w1 & Ea & E). apply run_bind_inv in E as (env & w2 & Ee & E).
  assert (w1 = w) as -> by (pose proof (arch_pure cfg w w eq_refl); by rewrite Ea in *).
  assert (w2 = w) as -> by (pose proof (env_pure cfg w w eq_refl); by rewrite Ee in *).
  rewrite run_gets in E.
  destruct (nic_step_run host be cfg w) as (mac & port & nic & En).
  rewrite run_bind, En in E. exists mac, port, nic.
  apply run_bind_inv in E as ([gpu memfd] & w3 & Eg & E).
  apply run_bind_inv in E as ([vfs pids'] & w4 & Ev & E).
  apply run_bind_inv in E as (tpm & w5 & Et & E).
  assert (w_store w5 = w_store w) as Hw5.
  { pose proof (gpu_store w (filled cfg mac port) w eq_refl) as H3. rewrite Eg in H3.
    pose proof (virtiofs_store w (filled cfg mac port) memfd w3 H3) as H4. rewrite Ev in H4.
    pose proof (tpm_store w (filled cfg mac port) w4 H4) as H5. by rewrite Et in H5. }
  apply run_bind_inv in E as (state & w6 & Es & E).
  assert (state = (loadState (c_Name cfg) (w_store w)).1) as Hst.
  { change (c_Name (filled cfg mac port)) with (c_Name cfg) in Es.
    unfold attempt, st in Es. rewrite Hw5 in Es.
    destruct (loadState (c_Name cfg) (w_store w)) as [r s']. by injection Es. }
  subst state. revert E. unfold BuildMachine. set (opts := _ ++ _).
  destruct (Validate _) eqn:Ev'; [|done]. intros [= <- <- <- <-].
  split; [done|]. split; [done|]. split.
  - etransitivity.
    + apply (opts_core (filled cfg mac port) arch env (w_files w) nic gpu vfs tpm);
        eauto using arch_inert, env_inert, gpu_inert, virtiofs_inert, tpm_inert.
    + done.
  - unfold Validate in Ev'. by destruct (m_disks _).
Qed.
End Contents.

(** ** Plain configs are launchable *)
Section PlainLaunch.
Context {S : Type} `{VMStoreLaws S} (host : Host) (be : BuildEnv S) (Hbe : host_works be).
Implicit Types w : World S.

Lemma DiskCreate_run machine q w : ∃ w', DiskCreate (be_tools be) (be_cwd be) machine q w = (Ok tt, w').
Proof.
  destruct Hbe. unfold DiskCreate. case_match; [by eexists|].
  rewrite hw_lookpath0, run_bind. cbn [try_]. rewrite run_ret, run_bind.
  assert (∃ w1, when_ (k_Recreate q) (DiskDelete (be_tools be) (be_cwd be) machine q) w = (Ok tt, w1)) as [w1 ->].
  { destruct (k_Recreate q); [|by eexists]. cbn [when_]. unfold DiskDelete.
    apply orb_false_iff in H1 as [[-> ->]%orb_false_iff ->]. unfold file_exists. rewrite run_gets.
    case_bool_decide; [|by eexists]. cbn [negb]. rewrite run_bind, hw_remove0. by eexists. }
  rewrite run_bind, hw_mkdir0. cbn [try_]. rewrite run_ret. unfold file_exists. rewrite run_gets.
  destruct (bool_decide (_ ∈ w_files w1)); [by eexists|]. rewrite run_bind.
  destruct (bool_decide (k_BackingFile q = "")).
  - rewrite run_ret, run_bind, hw_create0. by eexists.
  - destruct (hw_info0 (k_BackingFile q)) as [out ->]. cbn [detectImageFormat].
    rewrite run_ret, run_bind, hw_create0. by eexists.
Qed.

Lemma start_detached_run m w : ∃ r w', start_detached host be m w = (Ok r, w') ∧ isAlive_in w' (r_PID r) = true.
Proof.
  unfold start_detached. rewrite run_bind.
  assert (∃ w1, for_each (DiskCreate (be_tools be) (be_cwd be) (m_name m)) (m_disks m) w = (Ok tt, w1)) as [w1 ->].
  { generalize (m_disks m) as ds. intros ds. revert w. induction ds as [|d ds IH]; intros w; [by eexists|].
    cbn. destruct (DiskCreate_run (m_name m) d w) as [w1 E]. rewrite run_bind, E. apply IH. }
  rewrite run_bind, hw_log by done. cbn [try_]. rewrite run_ret.
  edestruct (hw_spawn be Hbe) as (pid & -> & Hp). rewrite run_modify.
  assert ((match m_vfioDevices m with [] => None | _ => be_memlock be pid end) = None) as ->
    by (destruct (m_vfioDevices m); [done|by apply hw_memlock]).
  eexists _, _. split; [done|]. unfold isAlive_in. cbn.
  destruct (Z.leb_spec pid 0); [lia|]. apply bool_decide_eq_true. set_solver.
Qed.

Lemma gpu_plain cfg w : g_Mode (c_GPU cfg) ∈ [""; GPUNone; GPUVirtio] →
  ∃ o, gpu_opts host be cfg w = (Ok o, w).
Proof.
  intros Hg. unfold gpu_opts.
  rewrite !elem_of_cons, elem_of_nil in Hg. destruct Hg as [->|[->|[->|[]]]]; eval_tests; by eexists.
Qed.

Lemma attached_plain cfg files : Exists (λ d, keep_installed d = true) (c_Disks cfg) →
  attached host be files cfg ≠ [].
Proof.
  intros Hd Hn. apply fmap_nil_inv in Hn. apply Exists_exists in Hd as (d & Hd & Hk).
  assert (d ∈ filter (λ d, attachable files d = true) (c_Disks cfg)) as Hf
    by (apply list_elem_of_filter; split; [by apply keep_attachable|done]).
  rewrite Hn in Hf. set_solver.
Qed.

Lemma plain_filled cfg mac port : plain host cfg → plain host (filled cfg mac port).
Proof. done. Qed.

Lemma buildMachine_plain cfg w : plain host cfg →
  ∃ c' m pids w', buildMachine host be cfg w = (Ok (c', m, pids), w') ∧ plain host c'.
Proof.
  intros HP. pose proof HP as (Hb & Hk & Hc & Hi & He & Hq & Hv & Hg & Hd).
  unfold buildMachine. rewrite Hk, Hc, Hi. cbn [bool_decide]. eval_tests. cbn [negb orb].
  assert (arch_opts host be cfg w = (Ok [], w)) as Ea.
  { unfold arch_opts. rewrite He, Hq. eval_tests. cbn [negb].
    rewrite !elem_of_cons, elem_of_nil in Hg. by destruct Hg as [->|[->|[->|[]]]]; eval_tests. }
  rewrite run_bind, Ea.
  assert (∃ env, env_opts cfg w = (Ok env, w) ∧ Forall inert env) as (env & Ee & Hei).
  { unfold env_opts. destruct (c_QemuEnv cfg) eqn:Eq; [by eexists|]. rewrite Hv.
    eexists. split; [done|]. by apply Forall_singleton. }
  rewrite run_bind, Ee, run_gets.
  destruct (nic_step_run host be cfg w) as (mac & port & nic & En). rewrite run_bind, En.
  set (c := filled cfg mac port). destruct (gpu_plain c w Hg) as ([gpu memfd] & Eg). rewrite run_bind, Eg.
  assert (∃ o w1, virtiofs_opts host be c memfd w = (Ok o, w1)) as ([vfs pids] & w1 & Ev).
  { unfold virtiofs_opts. edestruct (mount_step_run be) as (r & w1 & E). rewrite run_bind, E. by eexists _, _. }
  rewrite run_bind, Ev.
  assert (∃ tpm, tpm_opts host be c w1 = (Ok tpm, w1)) as (tpm & Et).
  { unfold tpm_opts. repeat case_match; try by eexists. by rewrite hw_swtpm in *. }
  rewrite run_bind, Et, run_bind. unfold attempt. destruct (st (loadState (c_Name c)) w1) as [s w2].
  unfold BuildMachine. set (opts := _ ++ _).
  assert (m_disks (apply_opts opts (NewEmptyMachine host (be_conf be) (be_petname be))) = attached host be (w_files w) c) as Em.
  { eassert (core (apply_opts opts _) = _) as Ec
      by (apply (opts_core host be c [] env (w_files w) nic gpu vfs tpm); eauto using gpu_inert, virtiofs_inert, tpm_inert).
    by injection Ec. }
  unfold Validate. rewrite Em. destruct (attached host be (w_files w) c) eqn:Ed.
  { by apply attached_plain in Ed. }
  eexists _, _, _, _. split; [done|]. by apply plain_filled.
Qed.
End PlainLaunch.

(** ** The builder discharges the lifecycle's interface *)
Section VeeBuilder.
Context {S : Type} `{VMStoreLaws S} (host : Host) (be : BuildEnv S).
Context (Vz : Type) (buildVZMachine : VMConfig → bool → GoM (World S) error (VMConfig * Vz)).
Context (vzStart : Vz → GoM (World S) error StartResult).

(** What the manager relies on of the other backend. *)
Record vz_laws : Prop := {
  vz_build_store c b w r w' : buildVZMachine c b w = (r, w') → w_store w' = w_store w;
  vz_build_cfg c b w c' m w' : buildVZMachine c b w = (Ok (c', m), w') →
    c_Name c' = c_Name c ∧ c_Disks c' = c_Disks c ∧ c_InstallDevices c' = c_InstallDevices c ∧
    c_Template c' = c_Template c;
  vz_start_view c b w0 c' m w1 w r w' : buildVZMachine c b w0 = (Ok (c', m), w1) →
    vzStart m w = (r, w') → healthy (w_store w) → relaunch_view c' (w_store w) (w_store w');
}.
Context (Hvz : vz_laws).

#[local] Instance vee : MachineBuilder S := vee_builder host be Vz buildVZMachine vzStart.

#[local] Instance vee_machine_laws : MachineLaws S.
Proof.
  split; cbn.
  - intros c b w r w'. unfold build_backend. case_bool_decide.
    + rewrite run_bind. pose proof (buildMachine_store host be w c w eq_refl) as Hs.
      destruct (buildMachine host be c w) as [[[[c1 m] p]|e] w1]; by intros [= <- <-].
    + case_bool_decide; [|by intros [= <- <-]].
      rewrite run_bind. destruct (buildVZMachine c b w) as [[x|e] w1] eqn:E;
        intros [= <- <-]; by eapply vz_build_store.
  - intros c b w c' m vfs w'. unfold build_backend. case_bool_decide.
    + rewrite run_bind. destruct (buildMachine host be c w) as [[[[c1 m1] p]|e] w1] eqn:E; [|done].
      intros [= <- <- <- <-]. apply buildMachine_cfg in E as (mac & port & ->). done.
    + case_bool_decide; [|done]. rewrite run_bind.
      destruct (buildVZMachine c b w) as [[[c1 m1]|e] w1] eqn:E; [|done].
      intros [= <- <- <- <-]. by eapply vz_build_cfg.
  - intros c b w0 c' m vfs w1 w r w'. unfold build_backend. case_bool_decide.
    + rewrite run_bind. destruct (buildMachine host be c w0) as [[[[c1 q] p]|e] w2]; [|done].
      intros [= <- <- <- <-]. cbn. pose proof (start_detached_store host be w q w eq_refl) as Hs.
      destruct (start_detached host be q w) as [r' w3]. intros [= <- <-] Hh. unfold same_store in Hs. cbn in Hs.
      rewrite Hs. split; [done|]. split; [done|by left].
    + case_bool_decide; [|done]. rewrite run_bind.
      destruct (buildVZMachine c b w0) as [[[c1 v]|e] w2] eqn:E; [|done].
      intros [= <- <- <- <-]. cbn. by eapply vz_start_view.
Qed.

Context (Hbe : host_works be).

#[local] Instance plain_launchable : Launchable S (plain host).
Proof.
  split; cbn.
  - intros c b w HP. pose proof HP as (Hb & _). unfold build_backend. rewrite Hb. eval_tests.
    destruct (buildMachine_plain host be Hbe c w HP) as (c' & m & pids & w' & E & HP').
    rewrite run_bind, E. eexists _, _, _, _. split; [done|]. split; [done|].
    intros w1. by apply start_detached_run.
  - intros c (? & ? & ? & ? & ? & ? & ? & ? & Hd). split_and!; try done. cbn.
    apply Exists_exists in Hd as (d & Hd & Hk). apply Exists_exists. exists d. split; [|done].
    by apply list_elem_of_filter.
  - intros c p HP. exact HP.
  - intros c HP. exact HP.
Qed.

(** C8: On a host whose tools work, starting a stopped VM of plain shape through
    the real builder and launcher ends with a live QEMU process on record; the
    record says running and wanted, and carries the next install state. *)
Theorem vee_starts_plain_vm env n (w : World S) cfg s :
  healthy (w_store w) → cfg_view (w_store w) !! n = Some cfg → c_Name cfg = n →
  st_view (w_store w) !! n = Some s → s_Running s = false →
  c_Template cfg ≠ "truenas" → is_Some (w_free_port w) → plain host cfg →
  ∃ w', Start host env n false false w = (Ok tt, w') ∧ launched n w' cfg s.
Proof.
  intros Hh Hc Hn Hs Hr Ht Hp HP.
  destruct (Start_run (plain host) host env n w cfg s false) as (w' & E & _ & Hl); try done.
  - by rewrite Hs.
  - by rewrite Hr.
  - exists w'. by rewrite Hr in Hl.
Qed.
End VeeBuilder.

Section MachineClaims.
Context {S : Type} `{VMStoreLaws S} (host : Host) (be : BuildEnv S).


(** The manager and the QEMU layer agree on where a managed disk lives, so
    a disk that is moved or deleted is the one the guest runs on, for every
    disk with an explicit path and format. *)
Theorem disk_path_agrees cwd name machinePath d :
  d_Passthrough d = false → d_ImageFile d = false → d_Format d ≠ "" → d_Path d ≠ "" →
  managedBootDiskAbsPath name d = DiskAbsolutePath cwd name (disk_of be machinePath d).
Proof.
  intros Hp Hi Hf Hpath.
  unfold managedBootDiskAbsPath, DiskAbsolutePath, disk_of, NewDisk, apply_opts, diskFileSuffixes.
  cbn -[existsb PathJoin DiskName]. rewrite Hp, Hi. destruct (existsb _ _); [done|].
  by rewrite !bool_decide_eq_false_2.
Qed.

Lemma vfio_peers_ports primary k addrs v :
  v ∈ vfio_peers primary k addrs → v_EmitRootPort v = true →
  ∃ i, k <= i ∧ v_Slot v = i ∧ v_BusID v = "pcie." +:+ Itoa i.
Proof.
  revert k. induction addrs as [|a addrs IH]; intros k; cbn; [by rewrite elem_of_nil|].
  destruct (SameSlot _ _); rewrite elem_of_cons; intros [->|Hv]; cbn; intros He.
  - done.
  - by apply IH.
  - exists k. by split_and!.
  - destruct (IH _ Hv He) as (i & ? & ? & ?). exists i. split_and!; [lia|done..].
Qed.

Lemma lor_range n a b : 0 <= a < 2 ^ n → 0 <= b < 2 ^ n → 0 <= Z.lor a b < 2 ^ n.
Proof.
  intros Ha Hb. assert (0 <= n) by (destruct (Z.leb_spec 0 n); [done|rewrite Z.pow_neg_r in Ha; lia]).
  assert (0 <= Z.lor a b) as H0' by (apply Z.lor_nonneg; lia). split; [done|].
  destruct (Z.eq_dec (Z.lor a b) 0) as [->|Hne]; [by apply Z.pow_pos_nonneg; lia|].
  apply Z.log2_lt_pow2; [lia|]. rewrite Z.log2_lor by lia.
  assert (∀ x, 0 <= x < 2 ^ n → x = 0 ∨ Z.log2 x < n) as Hl.
  { intros x Hx. destruct (Z.eq_dec x 0); [by left|right]. apply Z.log2_lt_pow2; lia. }
  pose proof (Z.log2_nonneg a). pose proof (Z.log2_nonneg b).
  destruct (Hl a Ha) as [->|?], (Hl b Hb) as [->|?]; [done|..]; change (Z.log2 0) with 0 in *; lia.
Qed.

Lemma Itoa_inj : Inj (=) (=) Itoa.
Proof. unfold Itoa. apply _. Qed.

Lemma vfio_peers_NoDup primary k addrs :
  NoDup (v_BusID <$> filter (λ v, v_EmitRootPort v = true) (vfio_peers primary k addrs)) ∧
  NoDup (v_Slot <$> filter (λ v, v_EmitRootPort v = true) (vfio_peers primary k addrs)).
Proof.
  revert k. induction addrs as [|a addrs IH]; intros k; cbn; [by split; constructor|].
  destruct (SameSlot _ _); [by apply IH|]. rewrite filter_cons. cbn.
  destruct (IH (k + 1)) as [IH1 IH2]. split; cbn; constructor; try done.
  all: intros (v & E & [Hv Hin]%list_elem_of_filter)%list_elem_of_fmap.
  all: destruct (vfio_peers_ports _ _ _ _ Hin Hv) as (i & Hi & Es & Eb).
  - rewrite Eb in E. apply append_inj, Itoa_inj in E. lia.
  - cbn in E. lia.
Qed.

(** Every PCIe root port emitted for passed-through devices has its own id
    and slot, and each function of the primary's own slot sits on the primary's
    port. *)
Theorem vfio_ports_distinct g :
  let ports := filter (λ v, v_EmitRootPort v = true) (vfio_devices g) in
  NoDup (v_BusID <$> ports) ∧ NoDup (v_Slot <$> ports) ∧
  ∀ v, v ∈ vfio_devices g → v_EmitRootPort v = false →
    v_BusID v = v_BusID (vfio_primary g) ∧ SameSlot (g_PCIAddr g) (v_PCIAddr v) = true.
Proof.
  assert (Hprim : v_PCIAddr (vfio_primary g) = g_PCIAddr g ∧ v_BusID (vfio_primary g) = "pcie.1" ∧
    v_Slot (vfio_primary g) = 1 ∧ v_EmitRootPort (vfio_primary g) = true).
  { unfold vfio_primary. by repeat case_match. }
  destruct Hprim as (Ha & Hb & Hs & He). cbv zeta. unfold vfio_devices.
  rewrite filter_cons, decide_True, !fmap_cons by done.
  destruct (vfio_peers_NoDup (vfio_primary g) 2 (g_ExtraVFIOAddrs g)) as [N1 N2].
  split_and!.
  - constructor; [|done]. intros (v & E & [Hv Hin]%list_elem_of_filter)%list_elem_of_fmap.
    destruct (vfio_peers_ports _ _ _ _ Hin Hv) as (i & Hi & _ & Eb). rewrite Hb, Eb in E.
    change "pcie.1" with ("pcie." +:+ Itoa 1) in E. apply append_inj, Itoa_inj in E. lia.
  - constructor; [|done]. intros (v & E & [Hv Hin]%list_elem_of_filter)%list_elem_of_fmap.
    destruct (vfio_peers_ports _ _ _ _ Hin Hv) as (i & Hi & Es & _). rewrite Hs in E. lia.
  - intros v. rewrite elem_of_cons. intros [->|Hv]; [by rewrite He|]. revert Hv.
    clear N1 N2. generalize 2 as k.
    induction (g_ExtraVFIOAddrs g) as [|a l IH]; intros k; cbn [vfio_peers]; [by rewrite elem_of_nil|].
    destruct (SameSlot (v_PCIAddr (vfio_primary g)) a) eqn:E; rewrite elem_of_cons; intros [->|Hv]; eauto; cbn; try done.
    intros _. by rewrite <-Ha.
Qed.

(** The vsock context id derived from a VM name is a 32-bit number that is
    never one of the reserved ids 0, 1 and 2. *)
Theorem deterministicCID_range name : 3 <= deterministicCID name < 2 ^ 32.
Proof.
  unfold deterministicCID. set (h := SHA1.Sum _).
  assert (Hb : ∀ i k, 0 <= k <= 24 → 0 <= Z.shiftl (Z.of_N (nth i h 0%N)) k < 2 ^ 32).
  { intros i k Hk. rewrite Z.shiftl_mul_pow2 by lia.
    assert (nth i h 0%N < 256)%N as Hi.
    { destruct (nth_in_or_default i h 0%N) as [Hin| ->]; [|lia].
      apply (SHA1.Sum_range (SHA1.bytes_of name)). by apply list_elem_of_In. }
    assert (2 ^ k <= 2 ^ 24) by (apply Z.pow_le_mono_r; lia).
    assert (0 < 2 ^ k) by (apply Z.pow_pos_nonneg; lia).
    change (2 ^ 32) with (256 * 2 ^ 24). nia. }
  set (cid := Z.lor _ _).
  assert (0 <= cid < 2 ^ 32) by (repeat (apply lor_range); first [by apply Hb | apply (Hb 3%nat 0); lia]).
  destruct (Z.ltb_spec cid 3); lia.
Qed.
End MachineClaims.

(** ** A concrete host *)
Module HostExample.
Definition tools : ImgTools :=
  mkImgTools None (λ _, None) (λ _, Some "file format: raw") (λ _, None) (λ _, None).
Definition be : BuildEnv Db.DB :=
  mkBuildEnv _ MachineExample.conf (Some "/root") "eager-panda" (Some "/root") (Some "2")
    (λ _, Ok "/usr/bin/qemu-system-aarch64") (λ _, (mkDeviceState "" "D0" "active" false "", None))
    (λ _ _, Ok 900) (λ _ _, None) tools (λ _, None) (λ _ _, Ok (4242, true)) (λ _, None).

Lemma be_works : host_works be.
Proof. split; try done. intros; by exists 4242. Qed.

Definition vz_build (c : VMConfig) (b : bool) : GoM (World Db.DB) error (VMConfig * unit) :=
  throw (Errorf "the vz backend needs a macOS host" []).
Definition vz_start (m : unit) : GoM (World Db.DB) error StartResult :=
  throw (Errorf "the vz backend needs a macOS host" []).
Lemma vz_ok : vz_laws unit vz_build vz_start.
Proof. split; [by intros c b w r w' [= _ <-]|done|done]. Qed.

Lemma cfg_plain : plain Scenario.linux Scenario.cfg.
Proof.
  unfold plain. split_and!; try done; [set_solver|]. do 2 apply Exists_cons_tl. by apply Exists_cons_hd.
Qed.
End HostExample.

Lemma vee_starts_plain_vm_witness :
  ∃ w', @Start _ _ (vee_builder Scenario.linux HostExample.be unit HostExample.vz_build HostExample.vz_start)
      Scenario.linux Scenario.env "dev" false false (Scenario.world_with Scenario.stopped ∅) = (Ok tt, w') ∧
    launched "dev" w' Scenario.cfg Scenario.stopped.
Proof.
  apply (vee_starts_plain_vm Scenario.linux HostExample.be unit HostExample.vz_build HostExample.vz_start
    HostExample.vz_ok HostExample.be_works Scenario.env "dev" (Scenario.world_with Scenario.stopped ∅)
    Scenario.cfg Scenario.stopped);
    [split; reflexivity | reflexivity | reflexivity | reflexivity | reflexivity | discriminate
    | by eexists | exact HostExample.cfg_plain].
Defined.


Lemma disk_path_agrees_witness :
  managedBootDiskAbsPath "dev" Scenario.osdisk =
  DiskAbsolutePath None "dev" (disk_of HostExample.be "/vms/dev" Scenario.osdisk).
Proof. apply disk_path_agrees; [reflexivity|reflexivity|discriminate|discriminate]. Defined.
