(* ===== verification/Storage.v ===== *)
(** * Disks and directories of a VM

    The rest of [internal/vm/manager.go] that changes what is stored for a VM:
    [Create], [MoveBootDisk] with [moveFile], [Delete] with
    [relocatedBootDisk] and [deleteVMDir]; and [internal/vm/resize.go].

    Files are the set of existing paths of the [World].  [FsEnv] is what the
    file system and [qemu-img] answer to each call. *)
From S2P Require Import Prelude GoStrings Config Store World Paths Lifecycle Sha1 Qemu Machine.

Open Scope Z_scope.

(** ** The file system's answers *)
Inductive rename_outcome :=
| Renamed
| CrossDevice
| RenameErr (e : error).

Record FsEnv := mkFsEnv {
  fs_rename : string → string → rename_outcome;
  (** copying a file; on failure, whether a partial destination was left *)
  fs_copy : string → string → option (error * bool);
  fs_remove : string → option error;
  fs_mkdir : string → option error;
  (** [qemu-img info]: format and virtual size *)
  fs_image : string → result error (string * Z);
  (** [qemu-img resize -f format path bytes] *)
  fs_resize : string → string → Z → option error;
}.

(** ** Disk sizes *)
Definition KiB : Z := 2 ^ 10.
Definition MiB : Z := 2 ^ 20.
Definition GiB : Z := 2 ^ 30.
Definition TiB : Z := 2 ^ 40.

Definition size_mult (c : ascii) : Z :=
  if bool_decide (c = "k"%char) || bool_decide (c = "K"%char) then KiB
  else if bool_decide (c = "m"%char) || bool_decide (c = "M"%char) then MiB
  else if bool_decide (c = "g"%char) || bool_decide (c = "G"%char) then GiB
  else if bool_decide (c = "t"%char) || bool_decide (c = "T"%char) then TiB
  else 1.

(** Whether the size is relative, and its bytes. *)
Definition ParseDiskSize (spec : string) : result error (bool * Z) :=
  let s := TrimSpace spec in
  let '(relative, s) := match s with String "+" rest => (true, rest) | _ => (false, s) end in
  match unsnoc s with
  | None => Err (Errorf "empty disk size %q" [spec])
  | Some (prefix, last) =>
      let mult := size_mult last in
      let digits := if 1 <? mult then prefix else s in
      match Atoi digits with
      | None => Err (Errorf "invalid disk size %q (expected forms: 60G, 512M, +40G)" [spec])
      | Some n =>
          if n <=? 0 then Err (Errorf "invalid disk size %q (expected forms: 60G, 512M, +40G)" [spec])
          else if max_int `quot` mult <? n then Err (Errorf "disk size %q overflows" [spec])
          else Ok (relative, n * mult)
      end
  end.

Definition humanDiskSize (b : Z) : string :=
  let fits u := (u <=? b) && (b `rem` u =? 0) in
  if fits TiB then Itoa (b `quot` TiB) +:+ "T"
  else if fits GiB then Itoa (b `quot` GiB) +:+ "G"
  else if fits MiB then Itoa (b `quot` MiB) +:+ "M"
  else if fits KiB then Itoa (b `quot` KiB) +:+ "K"
  else Itoa b.

(** 64-bit wrap-around. *)
Definition wrap64 (z : Z) : Z := (z + 2 ^ 63) mod 2 ^ 64 - 2 ^ 63.

(** The size asked of [qemu-img]. *)
Definition resize_target (cur : Z) (relative : bool) (specBytes : Z) : result error Z :=
  let target := if relative then wrap64 (cur + specBytes) else specBytes in
  if target =? cur then Err (Errorf "boot disk is already %s" [humanDiskSize cur])
  else if target <? cur then
    Err (Errorf "boot disk is %s; shrinking to %s is not supported" [humanDiskSize cur; humanDiskSize target])
  else Ok target.

(** ** Which disk is the boot disk *)
Definition managed_boot (d : DiskConfig) : bool :=
  negb (d_Passthrough d || d_ImageFile d || negb (bool_decide (d_Media d = "disk"))
        || negb (bool_decide (d_Format d = "qcow2"))).

Definition resizable_boot (d : DiskConfig) : bool :=
  negb (d_Passthrough d || d_ImageFile d || negb (bool_decide (d_Media d = "disk")) || d_Readonly d)
  && (bool_decide (d_Format d = "qcow2") || bool_decide (d_Format d = "raw") || bool_decide (d_Format d = "")).

Definition find_disk (f : DiskConfig → bool) (cfg : VMConfig) : option (nat * DiskConfig) :=
  list_find (λ d, f d = true) (c_Disks cfg).
Definition findManagedBootDisk : VMConfig → option (nat * DiskConfig) := find_disk managed_boot.
Definition findResizableBootDisk : VMConfig → option (nat * DiskConfig) := find_disk resizable_boot.

(** [filepath.Rel] *)
Definition path_parts (p : string) : list string := filter (λ w, w ≠ "") (Split "/" p).

Fixpoint strip_common (b t : list string) : list string * list string :=
  match b, t with
  | x :: b', y :: t' => if bool_decide (x = y) then strip_common b' t' else (b, t)
  | _, _ => (b, t)
  end.

Definition Rel (base targ : string) : option string :=
  let b := Clean base in
  let t := Clean targ in
  if bool_decide (t = b) then Some "." else
  let b := if bool_decide (b = ".") then "" else b in
  if negb (Bool.eqb (IsAbs b) (IsAbs t)) then None else
  let '(b', t') := strip_common (path_parts b) (path_parts t) in
  match b' with
  | ".." :: _ => None
  | _ => Some (Join "/" (replicate (length b') ".." ++ t'))
  end.

Definition relocatedBootDisk (name dir : string) (cfg : VMConfig) : string :=
  match findManagedBootDisk cfg with
  | None => ""
  | Some (_, d) =>
      if bool_decide (d_Path d = "") then "" else
      let path := managedBootDiskAbsPath name d in
      if negb (IsAbs path) || negb (HasPrefix (Base path) ("disk-" +:+ name +:+ "-")) then "" else
      match Rel dir path with
      | Some rel => if HasPrefix rel ".." then path else ""
      | None => path
      end
  end.

(** ** What a creation consults

    What a creation asks of the rest of the program and of the user: the data
    check and its prompt, the preparation of vz Linux disks, and the seed
    images. *)
Record CreateEnv (S : Type) := mkCreateEnv {
  ce_warnings : VMConfig → result error (list string);
  ce_confirm : bool;
  ce_vz_linux : VMConfig → GoM (World S) error VMConfig;
  ce_cloudinit : string → CloudInitConfig → result error string;
  ce_seed : string → list SeedFile → result error string;
}.
Arguments ce_warnings {S} _ _ : assert.
Arguments ce_confirm {S} _ : assert.
Arguments ce_vz_linux {S} _ _ _ : assert.
Arguments ce_cloudinit {S} _ _ _ : assert.
Arguments ce_seed {S} _ _ _ : assert.

Section Storage.
Context {S : Type} `{VMStore S} (be : BuildEnv S) (fs : FsEnv).
Abbreviation M := (GoM (World S) error).

Definition add_file (p : string) : M unit := modify (λ w, w <| w_files := {[p]} ∪ w_files w |>).
Definition drop_file (p : string) : M unit := modify (λ w, w <| w_files := w_files w ∖ {[p]} |>).

Definition copyFile (src dst : string) : M unit :=
  match fs_copy fs src dst with
  | None => add_file dst
  | Some (e, partial) => _ ← when_ partial (add_file dst); throw e
  end.

(** [os.Remove] *)
Definition Remove (p : string) : M unit :=
  match fs_remove fs p with
  | Some e => throw e
  | None => drop_file p
  end.

Definition moveFile (src dst : string) : M unit :=
  match fs_rename fs src dst with
  | Renamed => _ ← drop_file src; add_file dst
  | RenameErr e => throw e
  | CrossDevice =>
      c ← attempt (copyFile src dst);
      match c with
      | Err e => _ ← ignore (Remove dst); throw e
      | Ok _ =>
          r ← attempt (Remove src);
          match r with
          | Err e => throw (Wrapf "copied but could not remove original" e)
          | Ok _ => mret tt
          end
      end
  end.

(** The boot disk's file, relative paths taken from the VM directory. *)
Definition boot_path (name : string) (d : DiskConfig) : string :=
  let p := managedBootDiskAbsPath name d in
  if IsAbs p then p else PathJoin [vmDir be name; p].

Definition set_disk_path (i : nat) (p : string) (cfg : VMConfig) : VMConfig :=
  cfg <| c_Disks := alter (λ d, d <| d_Path := p |>) i (c_Disks cfg) |>.

(** The move itself, then the new path persisted; the file goes back when the
    config cannot be saved. *)
Definition relocate (cfg : VMConfig) (idx : nat) (src dst : string) : M (string * string) :=
  r ← attempt (moveFile src dst);
  match r with
  | Err e => throw (Wrapf "move boot disk" e)
  | Ok _ =>
      saved ← attempt (st (saveConfig (set_disk_path idx dst cfg)));
      match saved with
      | Ok _ => mret (src, dst)
      | Err e =>
          back ← attempt (moveFile dst src);
          match back with
          | Err _ => throw (Wrapf "save config after move failed; disk left at the target" e)
          | Ok _ => throw (Wrapf "save config" e)
          end
      end
  end.

Definition MoveBootDisk (name targetDir : string) : M (string * string) :=
  state ← st (loadState name);
  alive ← isAlive (s_PID state);
  if s_Running state && alive then throw (Errorf "VM %q is running; stop it first" [name]) else
  cfg ← st (loadConfig name);
  match findManagedBootDisk cfg with
  | None => throw (Errorf "VM %q has no managed boot disk to move" [name])
  | Some (idx, d) =>
      let src := boot_path name d in
      have ← file_exists src;
      if negb have then throw (Errorf "boot disk not found at %s" [src]) else
      match FileAbs (be_cwd be) targetDir with
      | None => throw (Errorf "resolve target dir" [])
      | Some absTarget =>
          let dst := PathJoin [absTarget; Base src] in
          if bool_decide (dst = src) then throw (Errorf "boot disk is already at %s" [dst]) else
          taken ← file_exists dst;
          if (taken : bool) then throw (Errorf "a file already exists at target path %s" [dst]) else
          _ ← (match fs_mkdir fs absTarget with
               | Some e => throw (Wrapf "create target dir" e) | None => mret tt end);
          relocate cfg idx src dst
      end
  end.

(** *** Resizing *)

(** The advice of [guestGrowHint], by guest system. *)
Inductive GrowHint := ExtendVolume | ResizeContainer | GrownByCloudInit | GrowByHand.

Definition guestGrowHint (cfg : VMConfig) : GrowHint :=
  if WindowsGuest cfg then ExtendVolume
  else match c_MacOS cfg, c_CloudInit cfg with
       | Some _, _ => ResizeContainer
       | None, Some _ => GrownByCloudInit
       | None, None => GrowByHand
       end.

Record ResizeResult := mkResizeResult {
  rr_Path : string;
  rr_OldSize : string;
  rr_NewSize : string;
  rr_GuestHint : GrowHint;
}.

(** The file name of a managed disk embeds its size: rename it, or pin the old
    path when the new name is taken or the rename fails.  Yields the config
    and the file's final path. *)
Definition rename_resized (name src : string) (idx : nat) (cfg : VMConfig) : M (VMConfig * string) :=
  match c_Disks cfg !! idx with
  | None => mret (cfg, src)
  | Some d =>
      let dst := boot_path name d in
      if bool_decide (dst = src) then mret (cfg, src) else
      taken ← file_exists dst;
      if (taken : bool) then mret (set_disk_path idx src cfg, src) else
      match fs_rename fs src dst with
      | Renamed => _ ← drop_file src; _ ← add_file dst; mret (cfg, dst)
      | _ => mret (set_disk_path idx src cfg, src)
      end
  end.

Definition set_disk_size (i : nat) (sz : string) (cfg : VMConfig) : VMConfig :=
  cfg <| c_Disks := alter (λ d, d <| d_Size := sz |>) i (c_Disks cfg) |>.

Definition ResizeBootDisk (qemuImg : option error) (name spec : string) : M ResizeResult :=
  state ← st (loadState name);
  alive ← isAlive (s_PID state);
  if s_Running state && alive then throw (Errorf "VM %q is running; stop it first" [name]) else
  cfg ← st (loadConfig name);
  match findResizableBootDisk cfg with
  | None => throw (Errorf "VM %q has no managed boot disk image to resize" [name])
  | Some (idx, d) =>
      let src := boot_path name d in
      have ← file_exists src;
      if negb have then throw (Errorf "boot disk not found at %s" [src]) else
      match qemuImg with
      | Some e => throw e
      | None =>
      match fs_image fs src with
      | Err e => throw e
      | Ok (format, cur) =>
      match ParseDiskSize spec with
      | Err e => throw e
      | Ok (relative, specBytes) =>
      match resize_target cur relative specBytes with
      | Err e => throw e
      | Ok target =>
      match fs_resize fs format src target with
      | Some e => throw (Wrapf "qemu-img resize" e)
      | None =>
          cs ← rename_resized name src idx (set_disk_size idx (humanDiskSize target) cfg);
          let '(cfg', final) := (cs : VMConfig * string) in
          saved ← attempt (st (saveConfig cfg'));
          match saved with
          | Ok _ => mret (mkResizeResult final (humanDiskSize cur) (humanDiskSize target) (guestGrowHint cfg'))
          | Err e =>
              _ ← when_ (negb (bool_decide (final = src)))
                    (match fs_rename fs final src with
                     | Renamed => _ ← drop_file final; add_file src
                     | _ => mret tt
                     end);
              throw (Wrapf "save config" e)
          end
      end end end end end
  end.

(** *** Creating *)
Definition seed_disk (host : Host) (path : string) : DiskConfig :=
  zeroDisk <| d_Path := path |>
           <| d_Interface := if bool_decide (HostArch host = "arm64") then "virtio" else "ide" |>
           <| d_Media := "cdrom" |> <| d_Cache := "none" |> <| d_Readonly := true |>
           <| d_InstallISO := true |>.

(** The pairings [Create] refuses, before anything exists. *)
Definition create_guards (host : Host) (cfg : VMConfig) : result error unit :=
  let qemu := bool_decide (BackendName cfg = QEMU) in
  let vz := bool_decide (BackendName cfg = VZ) in
  let macos := match c_MacOS cfg with Some _ => true | None => false end in
  let set_ s := negb (bool_decide (s = "")) in
  if negb (Valid (c_Backend cfg)) then Err (Errorf "unknown backend %q (valid: %q, %q)" [c_Backend cfg; QEMU; VZ])
  else if macos && negb vz then Err (Errorf "a macos: section requires the vz backend (backend: %q)" [VZ])
  else if negb (set_ (c_Kernel cfg)) && (set_ (c_Cmdline cfg) || set_ (c_Initrd cfg))
  then Err (Errorf "cmdline / initrd only apply to a direct-kernel boot" [])
  else if set_ (c_Kernel cfg) && negb vz
  then Err (Errorf "direct-kernel boot (kernel:) requires the vz backend (backend: %q)" [VZ])
  else if set_ (c_Kernel cfg) && macos then Err (Errorf "direct-kernel boot is for Linux guests" [])
  else if c_Nested cfg && negb qemu
  then Err (Errorf "the vz backend does not support nested virtualization" [])
  else if c_Nested cfg && negb (bool_decide (DefaultGuestArch host = "aarch64"))
  then Err (Errorf "nested virtualization control is wired only for arm64 (aarch64) guests" [DefaultGuestArch host])
  else Ok tt.

Definition lift {A} (r : result error A) : M A := match r with Ok a => mret a | Err e => throw e end.
Definition lift_as {A} (what : string) (r : result error A) : M A :=
  match r with Ok a => mret a | Err e => throw (Wrapf what e) end.

(** The UEFI variable store, copied from its template. *)
Definition uefi_step (host : Host) (dir : string) (cfg : VMConfig) : M VMConfig :=
  let qemu := bool_decide (BackendName cfg = QEMU) in
  let cfg := if qemu && bool_decide (DefaultGuestArch host = "aarch64")
             then cfg <| c_UEFI := (c_UEFI cfg) <| u_Enabled := true |> |> else cfg in
  if negb (qemu && u_Enabled (c_UEFI cfg)) then mret cfg else
  files ← gets w_files;
  let src := if negb (bool_decide (u_VarsPath (c_UEFI cfg) = "")) then u_VarsPath (c_UEFI cfg)
             else if negb (bool_decide (c_Arch cfg = "")) && negb (bool_decide (c_Arch cfg = DefaultGuestArch host))
             then (FirmwareForArch files (default "" (be_home be)) (c_Arch cfg)).1.2
             else pc_OVMFVarsPath (be_conf be) in
  let dst := PathJoin [dir; "OVMF_VARS.fd"] in
  c ← attempt (copyFile src dst);
  match c with
  | Err e => throw (Wrapf "copy UEFI vars" e)
  | Ok _ => mret (cfg <| c_UEFI := (c_UEFI cfg) <| u_VarsPath := dst |> |>)
  end.

Definition add_disk (d : DiskConfig) (cfg : VMConfig) : VMConfig :=
  cfg <| c_Disks := c_Disks cfg ++ [d] |>.

(** The cloud-init and installer seed volumes. *)
Definition seed_step (host : Host) (env : CreateEnv S) (dir : string) (cfg : VMConfig) : M VMConfig :=
  let qemu := bool_decide (BackendName cfg = QEMU) in
  let macos := match c_MacOS cfg with Some _ => true | None => false end in
  cfg ← (match c_CloudInit cfg with
         | Some ci => if qemu || negb macos
                      then p ← lift_as "cloud-init" (ce_cloudinit env dir ci);
                           _ ← add_file p; mret (add_disk (seed_disk host p) cfg)
                      else mret cfg
         | None => mret cfg
         end);
  match c_SeedFiles cfg with
  | [] => mret cfg
  | files => if qemu then p ← lift_as "installer seed" (ce_seed env dir files);
                          _ ← add_file p; mret (add_disk (seed_disk host p) cfg)
             else mret cfg
  end.

(** A SPICE server without a port gets a free one. *)
Definition spice_step (cfg : VMConfig) : M VMConfig :=
  match c_SPICE cfg with
  | Some sp =>
      if bool_decide (BackendName cfg = QEMU) && (sp_Port sp =? 0) then
        r ← attempt freeTCPPort;
        match r with
        | Err e => throw (Wrapf "alloc SPICE port" e)
        | Ok port => mret (set_spice_port cfg port)
        end
      else mret cfg
  | None => mret cfg
  end.

(** Everything up to the save: the config as it will be persisted. *)
Definition create_config (host : Host) (env : CreateEnv S) (cfg : VMConfig) : M VMConfig :=
  _ ← lift (create_guards host cfg);
  let dir := vmDir be (c_Name cfg) in
  _ ← (match fs_mkdir fs dir with Some e => throw e | None => mret tt end);
  warnings ← lift_as "disk check" (ce_warnings env cfg);
  if negb (bool_decide (warnings = [])) && negb (ce_confirm env) then throw (Errorf "aborted" []) else
  cfg ← (if bool_decide (BackendName cfg = VZ) && (match c_MacOS cfg with None => true | Some _ => false end)
         then ce_vz_linux env cfg else mret cfg);
  cfg ← uefi_step host dir cfg;
  cfg ← seed_step host env dir cfg;
  spice_step cfg.

Definition Create (host : Host) (env : CreateEnv S) (cfg : VMConfig) : M unit :=
  cfg ← create_config host env cfg;
  st (saveConfig cfg).

(** *** Deleting

    [tunnels] is the removal of the VM's background tunnels, whose failure is
    only logged. *)

(** [p] lies below [dir], outside its backups. *)
Definition doomed (dir p : string) : bool :=
  HasPrefix p (dir +:+ "/") && negb (HasPrefix p (dir +:+ "/backups/")).

(** [fault]: the removal of an entry failed after the files [gone] went. *)
Definition deleteVMDir (fault : option (gset string * error)) (dir : string) : M unit :=
  match fault with
  | None => modify (λ w, w <| w_files := filter (λ p, doomed dir p = false) (w_files w) |>)
  | Some (gone, e) =>
      _ ← modify (λ w, w <| w_files := filter (λ p, ¬ (doomed dir p = true ∧ p ∈ gone)) (w_files w) |>);
      throw e
  end.

Definition Delete (tunnels : World S → World S) (fault : option (gset string * error))
    (name : string) : M unit :=
  state ← attempt (st (loadState name));
  w ← gets id;
  let running := match state with
                 | Ok s => s_Running s && isAlive_in w (s_PID s)
                 | Err _ => false
                 end in
  if running then throw (Errorf "VM %q is running; stop it first" [name]) else
  cfg ← attempt (st (loadConfig name));
  let relocated := match cfg with
                   | Ok cfg => relocatedBootDisk name (vmDir be name) cfg
                   | Err _ => ""
                   end in
  _ ← ignore (st (deleteRecords name));
  _ ← when_ (negb (bool_decide (relocated = ""))) (ignore (Remove relocated));
  _ ← modify tunnels;
  deleteVMDir fault (vmDir be name).
End Storage.

(** ** Lemmas on sizes *)
Lemma digit_chars c : is_digit c = true →
  negb (is_space c) = true ∧ size_mult c = 1 ∧ c ≠ "+"%char.
Proof. intros Hc. destruct c as [[] [] [] [] [] [] [] []]; vm_compute in Hc |- *; done. Qed.

(** Parsing [z] followed by a unit. *)
Lemma parse_unit z u : 0 < z → 1 < size_mult u → negb (is_space u) = true → z * size_mult u <= max_int →
  ParseDiskSize (Itoa z +:+ String u "") = Ok (false, z * size_mult u).
Proof.
  intros Hz Hu Hsp Hm. unfold ParseDiskSize.
  pose proof (Itoa_digits z Hz) as Hd. pose proof (Itoa_nonempty z Hz) as Hn.
  rewrite TrimSpace_id.
  2: { rewrite sforall_app. cbn. rewrite Hsp. rewrite andb_true_r.
       apply (sforall_impl is_digit); [|done]. intros c Hc. by apply digit_chars. }
  assert (∃ c t, Itoa z = String c t ∧ is_digit c = true) as (c & t & E & Hc).
  { destruct (Itoa z) as [|c t]; [done|]. cbn in Hd. apply andb_true_iff in Hd as [Hc _]. eauto. }
  assert ((match Itoa z +:+ String u "" with String "+" rest => (true, rest) | _ => (false, Itoa z +:+ String u "") end)
    = (false, Itoa z +:+ String u "")) as ->.
  { rewrite E. change (String c t +:+ String u "") with (String c (t +:+ String u "")).
    destruct c as [[] [] [] [] [] [] [] []]; (done || by vm_compute in Hc). }
  rewrite unsnoc_app. destruct (Z.ltb_spec 1 (size_mult u)); [|lia].
  rewrite Atoi_Itoa by nia. destruct (Z.leb_spec z 0); [lia|].
  destruct (Z.ltb_spec (max_int `quot` size_mult u) z) as [Hq|]; [|done].
  rewrite Z.quot_div_nonneg in Hq by (unfold max_int; lia).
  assert (z <= max_int / size_mult u) by (apply Z.div_le_lower_bound; lia). lia.
Qed.

Lemma parse_plain z : 0 < z <= max_int → ParseDiskSize (Itoa z) = Ok (false, z).
Proof.
  intros Hz. unfold ParseDiskSize.
  pose proof (Itoa_digits z ltac:(lia)) as Hd. pose proof (Itoa_nonempty z ltac:(lia)) as Hn.
  rewrite TrimSpace_id.
  2: { apply (sforall_impl is_digit); [|done]. intros c Hc. by apply digit_chars. }
  assert ((match Itoa z with String "+" rest => (true, rest) | _ => (false, Itoa z) end)
    = (false, Itoa z)) as ->.
  { destruct (Itoa z) as [|c t]; [done|]. cbn in Hd. apply andb_true_iff in Hd as [Hc _].
    destruct c as [[] [] [] [] [] [] [] []]; (done || by vm_compute in Hc). }
  destruct (unsnoc_some _ Hn) as (p & c & E). rewrite E.
  pose proof (unsnoc_last _ _ _ _ E Hd) as Hc. apply digit_chars in Hc as (_ & -> & _). cbn [Z.ltb].
  change (1 <? 1) with false. cbv iota. rewrite Atoi_Itoa by lia.
  destruct (Z.leb_spec z 0); [lia|]. rewrite Z.quot_1_r. destruct (Z.ltb_spec max_int z); [lia|].
  by rewrite Z.mul_1_r.
Qed.

(** ** Lemmas on image paths *)
Definition img (p : string) : Prop := existsb (HasSuffix p) diskFileSuffixes = true.

Lemma img_last p w : last_elem p w → img p ↔ img w.
Proof.
  intros Hl. unfold img. rewrite !existsb_exists.
  assert (Forall no_slash diskFileSuffixes) as Hs by (repeat constructor).
  rewrite Forall_forall in Hs.
  assert (∀ x, In x diskFileSuffixes → HasSuffix p x = true ↔ HasSuffix w x = true) as Hx.
  { intros x Hin. apply HasSuffix_last; [done|]. by apply Hs, list_elem_of_In. }
  split; intros (x & Hin & E); exists x; (split; [done|]); by apply (Hx x).
Qed.

Lemma img_proper w : img w → proper_elem w.
Proof. intros Hw. split_and!; intros ->; by vm_compute in Hw. Qed.

Lemma img_Base p : img p → img (Base p) ∧ last_elem (Base p) (Base p).
Proof.
  intros Hp. destruct (last_elem_exists p) as [w Hw]. pose proof Hw as [Hn _].
  apply (img_last _ _ Hw) in Hp. rewrite (Base_last _ _ Hw) by apply img_proper, Hp.
  split; [done|]. by split; [|left].
Qed.

Lemma img_PathJoin a b : a ≠ "" → img b → img (PathJoin [a; b]).
Proof.
  intros Ha Hb. destruct (last_elem_exists b) as [w Hw]. apply (img_last _ _ Hw) in Hb.
  apply (img_last _ w); [|done]. apply PathJoin_last; [done..|by apply img_proper].
Qed.

Lemma managed_img name d : d_Format d ∈ ["qcow2"; "raw"; ""] → img (managedBootDiskAbsPath name d).
Proof.
  intros Hf. unfold managedBootDiskAbsPath. destruct (existsb _ _) eqn:E; [exact E|].
  set (g := if bool_decide (d_Format d = "") then _ else _).
  assert (img ("disk-" +:+ name +:+ "-" +:+ d_Size d +:+ "." +:+ g)) as Hi.
  { assert (g = "qcow2" ∨ g = "raw") as Hg by (subst g; case_bool_decide; set_solver).
    unfold img. apply existsb_exists. exists g. split; [destruct Hg as [-> | ->]; cbn; auto|].
    rewrite <-!append_assoc. apply HasSuffix_app. }
  case_bool_decide; [done|]. by apply img_PathJoin.
Qed.

Lemma find_disk_spec f cfg i d : find_disk f cfg = Some (i, d) → c_Disks cfg !! i = Some d ∧ f d = true.
Proof. intros (? & ? & _)%list_find_Some. done. Qed.

Lemma managed_boot_format d : managed_boot d = true → d_Format d = "qcow2".
Proof. unfold managed_boot. intros [_ H]%negb_true_iff%orb_false_iff. by case_bool_decide. Qed.

Lemma resizable_boot_format d : resizable_boot d = true → d_Format d ∈ ["qcow2"; "raw"; ""].
Proof.
  unfold resizable_boot. intros [_ H]%andb_true_iff. rewrite !orb_true_iff, !bool_decide_eq_true in H. set_solver.
Qed.

(** ** Lemmas on moves *)
Section Moves.
Context {S : Type} `{VMStoreLaws S} (fs : FsEnv).
Implicit Types w : World S.

Lemma st_pure {A} (m : GoM S error A) w : (m (w_store w)).2 = w_store w → st m w = ((m (w_store w)).1, w).
Proof. unfold st. destruct (m (w_store w)) as [r s]. cbn. intros ->. by rewrite world_store_id. Qed.

(** What a move does to the set of files, whatever the file system answers. *)
Definition moved_or_kept (src dst : string) (F F' : gset string) : Prop :=
  (∀ p, p ≠ src → p ≠ dst → p ∈ F' ↔ p ∈ F) ∧ (src ∈ F' ∨ dst ∈ F').

Lemma world_files_id w : w <| w_files := w_files w |> = w.
Proof. by destruct w. Qed.

Lemma moveFile_run src dst w : src ≠ dst → src ∈ w_files w → ∃ r F,
  moveFile fs src dst w = (r, w <| w_files := F |>) ∧ moved_or_kept src dst (w_files w) F ∧
  (is_ok r = true → F = {[dst]} ∪ w_files w ∖ {[src]}) ∧
  (is_ok r = false → fs_rename fs src dst ≠ CrossDevice → F = w_files w) ∧
  (fs_rename fs src dst ≠ CrossDevice → is_ok r = true ↔ fs_rename fs src dst = Renamed).
Proof.
  intros Hne Hin. unfold moveFile.
  destruct (fs_rename fs src dst) as [| |e] eqn:Er.
  - eexists _, _. split; [reflexivity|]. split_and!; [split|done|done|done]; set_solver.
  - rewrite run_bind. unfold copyFile, Remove, attempt.
    destruct (fs_copy fs src dst) as [[e part]|].
    + set (F := if part then {[dst]} ∪ w_files w else w_files w).
      assert (Ew : (when_ part (add_file dst) ≫= λ _, throw e : GoM (World S) error unit) w = (Err e, w <| w_files := F |>)).
      { subst F. destruct part; [done|]. by rewrite world_files_id. }
      rewrite Ew. cbn -[update]. unfold ignore.
      destruct (fs_remove fs dst) as [e'|]; cbn -[update]; eexists _, _; (split; [reflexivity|]);
        (split_and!; [split|done|done|done]); subst F; destruct part; set_solver.
    + cbn -[update]. destruct (fs_remove fs src) as [e'|]; cbn -[update]; eexists _, _; (split; [reflexivity|]).
      * split_and!; [split|done|done|done]; set_solver.
      * split_and!; [split| |done|done]; set_solver.
  - exists (Err e), (w_files w). rewrite world_files_id. split_and!; [done|split|done|done|done]; set_solver.
Qed.

Lemma move_back (X : gset string) a b : a ≠ b → a ∈ X → b ∉ X →
  {[a]} ∪ ({[b]} ∪ X ∖ {[a]}) ∖ {[b]} = X.
Proof.
  intros Hab Ha Hb. apply set_eq. intros x. rewrite !elem_of_union, !elem_of_difference, !elem_of_union,
    !elem_of_difference, !elem_of_singleton.
  destruct (decide (x = a)) as [->|]; [tauto|]. destruct (decide (x = b)) as [->|]; tauto.
Qed.

Lemma relocate_fails cfg idx src dst w e w' : src ≠ dst → src ∈ w_files w → dst ∉ w_files w →
  relocate fs cfg idx src dst w = (Err e, w') →
  cfg_view (w_store w') = cfg_view (w_store w) ∧ st_view (w_store w') = st_view (w_store w) ∧
  moved_or_kept src dst (w_files w) (w_files w') ∧
  ((∀ a b, fs_rename fs a b ≠ CrossDevice) →
   (∀ a b, fs_rename fs a b = Renamed → fs_rename fs b a = Renamed) → w_files w' = w_files w).
Proof.
  intros Hne Hin Hout. unfold relocate. rewrite run_attempt.
  destruct (moveFile_run src dst w Hne Hin) as (r & F & -> & Hk & Hok & Herr & Hren). cbn [fst snd].
  destruct r as [[]|e1].
  2: { intros [= _ <-]. split_and!; [done..|]. intros Hx _. by apply Herr. }
  rewrite Hok in * by done. clear Hok Herr. rewrite run_attempt.
  set (w1 := w <| w_files := _ |>). unfold st at 1 2.
  destruct (saveConfig (set_disk_path idx dst cfg) (w_store w1)) as [[[]|e1] s'] eqn:Es; [done|].
  apply saveConfig_err in Es as [Ec Ev]. cbn [fst snd]. rewrite run_attempt.
  destruct (moveFile_run dst src (w1 <| w_store := s' |>)) as (r & F' & -> & Hk' & Hok' & _ & Hren');
    [done|set_solver|]. cbn [fst snd].
  change (w_files (w1 <| w_store := s' |>)) with ({[dst]} ∪ w_files w ∖ {[src]}) in *.
  intros E. assert (w' = w1 <| w_store := s' |> <| w_files := F' |>) as ->.
  { destruct r; by injection E. }
  split; [done|]. split; [done|]. split.
  { change (moved_or_kept src dst (w_files w) F'). destruct Hk' as [Hk1 Hk2]. split; [|tauto].
    intros p Hp1 Hp2. rewrite Hk1 by done. set_solver. }
  intros Hx Hback. change (F' = w_files w). rewrite Hok'; [by apply move_back|].
  apply (Hren' (Hx _ _)), Hback, (Hren (Hx _ _)). done.
Qed.
End Moves.

Section StorageLemmas.
Context {S : Type} `{VMStoreLaws S} (be : BuildEnv S) (fs : FsEnv).
Context (Hroot : IsAbs (pc_StoragePath (be_conf be)) = true).
Implicit Types w : World S.

Lemma vmDir_abs name : IsAbs (vmDir be name) = true.
Proof. by apply IsAbs_PathJoin. Qed.

Lemma boot_path_img name d : d_Format d ∈ ["qcow2"; "raw"; ""] →
  img (boot_path be name d) ∧ IsAbs (boot_path be name d) = true.
Proof.
  intros Hf%(managed_img name). unfold boot_path. destruct (IsAbs (managedBootDiskAbsPath name d)) eqn:E; [by split|].
  split; [apply img_PathJoin; [apply IsAbs_nonempty, vmDir_abs|done]|apply IsAbs_PathJoin, vmDir_abs].
Qed.

Lemma boot_path_pinned name d p : img p → IsAbs p = true → boot_path be name (d <| d_Path := p |>) = p.
Proof.
  intros Hp Ha. unfold boot_path, managedBootDiskAbsPath. cbn [d_Path update]. unfold img in Hp.
  change (d_Path (d <| d_Path := p |>)) with p. by rewrite Hp, Ha.
Qed.

(** The checks of [MoveBootDisk]: either one of them fails and nothing has
    changed, or the move is made between two distinct absolute image paths. *)
Lemma MoveBootDisk_checks name target w : (∀ d, be_cwd be = Some d → IsAbs d = true) →
  (∃ e, MoveBootDisk be fs name target w = (Err e, w)) ∨
  ∃ cfg idx d dst, let src := boot_path be name d in
    loadConfig name (w_store w) = (Ok cfg, w_store w) ∧ findManagedBootDisk cfg = Some (idx, d) ∧
    (∃ s, (loadState name (w_store w)).1 = Ok s ∧ s_Running s && isAlive_in w (s_PID s) = false) ∧
    src ≠ dst ∧ src ∈ w_files w ∧ dst ∉ w_files w ∧ img dst ∧ IsAbs dst = true ∧ Base dst = Base src ∧
    ((∃ e, MoveBootDisk be fs name target w = (Err e, w)) ∨
     MoveBootDisk be fs name target w = relocate fs cfg idx src dst w).
Proof.
  intros Hcwd. unfold MoveBootDisk. rewrite run_bind, st_pure by apply loadState_pure.
  destruct (loadState name (w_store w)).1 as [s|e] eqn:Es; [|by left; eexists].
  unfold isAlive. rewrite run_gets. destruct (s_Running s && isAlive_in w (s_PID s)) eqn:Er; [by left; eexists|].
  rewrite run_bind, st_pure by apply loadConfig_pure.
  destruct (loadConfig name (w_store w)).1 as [cfg|e] eqn:Ec; [|by left; eexists].
  destruct (findManagedBootDisk cfg) as [[idx d]|] eqn:Ef; [|by left; eexists].
  destruct (boot_path_img name d) as [Hi Ha].
  { apply find_disk_spec in Ef as [_ Ef]. rewrite (managed_boot_format _ Ef). set_solver. }
  unfold file_exists. cbv zeta. rewrite run_gets.
  case_bool_decide as Hsrc; cbn [negb]; [|by left; eexists].
  destruct (FileAbs (be_cwd be) target) as [absT|] eqn:Et; [|by left; eexists].
  assert (IsAbs absT = true) as HT.
  { unfold FileAbs in Et. destruct (IsAbs target) eqn:E.
    - injection Et as <-. by apply IsAbs_Clean.
    - destruct (be_cwd be) as [cwd|]; [|done]. injection Et as <-. apply IsAbs_PathJoin. by apply Hcwd. }
  destruct (img_Base _ Hi) as [Hb Hl].
  set (dst := PathJoin [absT; Base (boot_path be name d)]).
  case_bool_decide as Hne; [by left; eexists|]. rewrite run_gets.
  case_bool_decide as Hdst; [by left; eexists|].
  right. exists cfg, idx, d, dst. cbv zeta.
  split. { rewrite <-Ec. pose proof (loadConfig_pure name (w_store w)) as E.
    destruct (loadConfig name (w_store w)); cbn in *; congruence. }
  split; [done|]. split; [by exists s|]. split; [congruence|]. do 2 (split; [done|]).
  split; [apply img_PathJoin; [by apply IsAbs_nonempty|done]|]. split; [by apply IsAbs_PathJoin|].
  split.
  { apply Base_last; [|by apply img_proper in Hb as [? _]].
    apply PathJoin_last; [by apply IsAbs_nonempty|done|by apply img_proper]. }
  destruct (fs_mkdir fs absT) as [e|]; [left; by eexists|by right].
Qed.

(** The rename after a resize: the disk ends up, under its old or its new name,
    where the returned config resolves it. *)
Lemma rename_resized_run name idx cfg d w : c_Disks cfg !! idx = Some d →
  d_Format d ∈ ["qcow2"; "raw"; ""] → ∀ src, img src → IsAbs src = true → src ∈ w_files w →
  ∃ d' final F, let cfg' := cfg <| c_Disks := <[idx := d']> (c_Disks cfg) |> in
    rename_resized be fs name src idx cfg w = (Ok (cfg', final), w <| w_files := F |>) ∧
    boot_path be name d' = final ∧ final ∈ F ∧ d_Size d' = d_Size d ∧
    (∀ p, p ≠ src → p ≠ final → p ∈ F ↔ p ∈ w_files w).
Proof.
  intros Hd Hf src Hi Ha Hin. unfold rename_resized. rewrite Hd.
  assert (Hid : cfg <| c_Disks := <[idx := d]> (c_Disks cfg) |> = cfg).
  { rewrite list_insert_id by done. by destruct cfg. }
  assert (Hpin : (mret (set_disk_path idx src cfg, src) : GoM (World S) error _) w =
    (Ok (cfg <| c_Disks := <[idx := d <| d_Path := src |>]> (c_Disks cfg) |>, src), w <| w_files := w_files w |>)).
  { unfold set_disk_path. by rewrite (alter_as_insert _ _ _ _ Hd), world_files_id. }
  case_bool_decide as He.
  { exists d, src, (w_files w). cbv zeta. by rewrite Hid, world_files_id. }
  unfold file_exists. rewrite run_gets. case_bool_decide.
  { exists (d <| d_Path := src |>), src, (w_files w). rewrite Hpin. split_and!; [done|by apply boot_path_pinned|done..]. }
  destruct (fs_rename fs src (boot_path be name d)).
  2,3: exists (d <| d_Path := src |>), src, (w_files w); rewrite Hpin;
    split_and!; [done|by apply boot_path_pinned|done..].
  exists d, (boot_path be name d), ({[boot_path be name d]} ∪ w_files w ∖ {[src]}).
  cbv zeta. rewrite Hid. split_and!; [done..|set_solver|done|set_solver].
Qed.
End StorageLemmas.

(** ** Lemmas on creation *)
Lemma create_guards_qemu host cfg : BackendName cfg = QEMU → create_guards host cfg = Ok tt →
  c_Kernel cfg = "" ∧ c_Cmdline cfg = "" ∧ c_Initrd cfg = "" ∧ c_MacOS cfg = None.
Proof.
  intros Hq. unfold create_guards. rewrite Hq. change (bool_decide (QEMU = VZ)) with false.
  destruct (negb (Valid _)); [done|]. destruct (c_MacOS cfg); [done|]. cbn [andb negb].
  destruct (decide (c_Kernel cfg = "")) as [Hk|Hk];
    [rewrite (bool_decide_eq_true_2 _ Hk)|by rewrite (bool_decide_eq_false_2 _ Hk)]. cbn [andb negb].
  case_bool_decide; [|done]. case_bool_decide; [|done]. done.
Qed.

(** How many seed volumes a QEMU guest gets. *)
Definition seed_volumes (cfg : VMConfig) : nat :=
  match c_CloudInit cfg with Some _ => 1 | None => 0 end + match c_SeedFiles cfg with [] => 0 | _ => 1 end.

Section Creation.
Context {S : Type} (be : BuildEnv S) (fs : FsEnv) (host : Host) (env : CreateEnv S).
Implicit Types w : World S.

Lemma uefi_step_ok dir cfg w cfg1 w1 : BackendName cfg = QEMU →
  uefi_step be fs host dir cfg w = (Ok cfg1, w1) → ∃ u, cfg1 = cfg <| c_UEFI := u |> ∧
    w_store w1 = w_store w ∧ w_files w ⊆ w_files w1 ∧
    u_Enabled u = u_Enabled (c_UEFI cfg) || bool_decide (DefaultGuestArch host = "aarch64") ∧
    (u_Enabled u = true →
     u_VarsPath u = PathJoin [dir; "OVMF_VARS.fd"] ∧ u_VarsPath u ∈ w_files w1).
Proof.
  intros Hq. unfold uefi_step. rewrite Hq. rewrite (bool_decide_eq_true_2 (QEMU = QEMU)) by done. cbn [andb].
  set (a := bool_decide (DefaultGuestArch host = "aarch64")).
  set (cfg0 := if a then _ else cfg).
  assert (∃ u0, cfg0 = cfg <| c_UEFI := u0 |> ∧ u_Enabled u0 = u_Enabled (c_UEFI cfg) || a) as (u0 & -> & Hu0).
  { subst cfg0. destruct a.
    - exists ((c_UEFI cfg) <| u_Enabled := true |>). by rewrite orb_true_r.
    - exists (c_UEFI cfg). rewrite orb_false_r. by destruct cfg. }
  change (c_UEFI (cfg <| c_UEFI := u0 |>)) with u0.
  destruct (u_Enabled u0) eqn:Eu; cbn [negb].
  2: { intros [= <- <-]. exists u0. split_and!; (done || congruence). }
  rewrite run_gets, run_attempt. unfold copyFile.
  destruct (fs_copy fs _ _) as [[e part]|]; [by destruct part|]. intros [= <- <-].
  eexists. split; [by destruct cfg|]. split_and!; [done|set_solver|cbn; congruence|]. intros _.
  split; [done|]. set_solver.
Qed.

Lemma seed_step_ok dir cfg w cfg2 w2 : BackendName cfg = QEMU →
  seed_step host env dir cfg w = (Ok cfg2, w2) → ∃ seeds,
    cfg2 = cfg <| c_Disks := c_Disks cfg ++ seeds |> ∧ w_store w2 = w_store w ∧ w_files w ⊆ w_files w2 ∧
    (∀ d, d ∈ seeds → IsInstallISO d = true ∧ d_Readonly d = true ∧ d_Path d ∈ w_files w2) ∧
    length seeds = seed_volumes cfg.
Proof.
  intros Hq. unfold seed_step, seed_volumes. rewrite Hq. rewrite (bool_decide_eq_true_2 (QEMU = QEMU)) by done. cbn [orb].
  rewrite run_bind.
  assert (Hid : cfg = cfg <| c_Disks := c_Disks cfg ++ [] |>).
  { rewrite app_nil_r. by destruct cfg. }
  destruct (c_CloudInit cfg) as [ci|] eqn:Eci.
  - rewrite run_bind. destruct (ce_cloudinit env dir ci) as [p|e]; [|done]. cbn [lift_as].
    rewrite run_ret, run_bind. cbn -[update].
    change (c_SeedFiles (add_disk (seed_disk host p) cfg)) with (c_SeedFiles cfg).
    destruct (c_SeedFiles cfg) as [|f l].
    + intros [= <- <-]. exists [seed_disk host p]. split_and!; [done|done|set_solver| |done].
      intros d ->%list_elem_of_singleton. split_and!; [done|done|]. cbn. set_solver.
    + rewrite run_bind. destruct (ce_seed env dir _) as [p'|e]; [|done]. cbn [lift_as].
      rewrite run_ret, run_bind. cbn -[update]. intros [= <- <-].
      exists [seed_disk host p; seed_disk host p']. split_and!; [|done|cbn; set_solver| |done].
      * unfold add_disk. cbn. by rewrite <-app_assoc.
      * intros d [-> | ->%list_elem_of_singleton]%elem_of_cons; (split_and!; [done|done|]); cbn; set_solver.
  - rewrite run_ret. destruct (c_SeedFiles cfg) as [|f l].
    + intros [= <- <-]. exists []. split_and!; try done. set_solver.
    + rewrite run_bind. destruct (ce_seed env dir _) as [p'|e]; [|done]. cbn [lift_as].
      rewrite run_ret, run_bind. cbn -[update]. intros [= <- <-].
      exists [seed_disk host p']. split_and!; [done|done|cbn; set_solver| |done].
      intros d ->%list_elem_of_singleton. split_and!; [done|done|]. cbn. set_solver.
Qed.

Lemma spice_step_ok cfg w cfg3 w3 : spice_step cfg w = (Ok cfg3, w3) →
  w3 = w ∧ ∃ sp sv, cfg3 = cfg <| c_SPICE := sp |> <| c_Services := sv |>.
Proof.
  unfold spice_step. assert (Hid : cfg = cfg <| c_SPICE := c_SPICE cfg |> <| c_Services := c_Services cfg |>) by by destruct cfg.
  destruct (c_SPICE cfg) as [sp|] eqn:E; [|intros [= <- <-]; split; [done|by eexists _, _]].
  destruct (_ && _); [|intros [= <- <-]; split; [done|by eexists _, _]].
  rewrite run_attempt. unfold freeTCPPort. rewrite run_gets. destruct (w_free_port w); [|done].
  intros [= <- <-]. split; [done|]. by eexists _, _.
Qed.

(** What a QEMU creation settles before the save. *)
Lemma create_config_ok cfg w cfg' w' : BackendName cfg = QEMU →
  create_config be fs host env cfg w = (Ok cfg', w') → ∃ u seeds sp sv,
    cfg' = cfg <| c_UEFI := u |> <| c_Disks := c_Disks cfg ++ seeds |> <| c_SPICE := sp |> <| c_Services := sv |> ∧
    w_store w' = w_store w ∧ c_Kernel cfg = "" ∧ c_Cmdline cfg = "" ∧ c_Initrd cfg = "" ∧ c_MacOS cfg = None ∧
    (∀ d, d ∈ seeds → IsInstallISO d = true ∧ d_Readonly d = true ∧ d_Path d ∈ w_files w') ∧
    length seeds = seed_volumes cfg ∧
    u_Enabled u = u_Enabled (c_UEFI cfg) || bool_decide (DefaultGuestArch host = "aarch64") ∧
    (u_Enabled u = true →
     u_VarsPath u = PathJoin [vmDir be (c_Name cfg); "OVMF_VARS.fd"] ∧ u_VarsPath u ∈ w_files w').
Proof.
  intros Hq. unfold create_config. rewrite run_bind.
  destruct (create_guards host cfg) as [[]|e] eqn:Eg; [|done]. cbn [lift].
  destruct (create_guards_qemu host cfg Hq Eg) as (Hk & Hcm & Hin & Hm).
  rewrite run_ret, run_bind. destruct (fs_mkdir fs _); [done|]. rewrite run_ret, run_bind.
  destruct (ce_warnings env cfg) as [ws|e]; [|done]. cbn [lift_as]. rewrite run_ret.
  destruct (negb _ && _); [done|]. rewrite Hq. change (bool_decide (QEMU = VZ)) with false. cbn [andb].
  rewrite run_bind, run_ret, run_bind.
  destruct (uefi_step be fs host _ cfg w) as [[cfg1|e] w1] eqn:E1; [|done].
  destruct (uefi_step_ok _ _ _ _ _ Hq E1) as (u & -> & Es1 & Hsub1 & Hu & Hv).
  rewrite run_bind.
  destruct (seed_step host env _ _ w1) as [[cfg2|e] w2] eqn:E2; [|done].
  assert (Hq1 : BackendName (cfg <| c_UEFI := u |>) = QEMU) by exact Hq.
  destruct (seed_step_ok _ _ _ _ _ Hq1 E2) as (seeds & -> & Es2 & Hsub2 & Hseed & Hlen).
  destruct (spice_step _ w2) as [[cfg3|e] w3] eqn:E3; [|done].
  destruct (spice_step_ok _ _ _ _ E3) as (-> & sp & sv & ->). intros [= <- <-].
  exists u, seeds, sp, sv. split_and!; try done; [by rewrite Es2|]. intros Hen. destruct (Hv Hen). split; [done|]. set_solver.
Qed.

(** Nothing before the save touches a record or removes a file. *)
Definition records_kept (w0 w : World S) : Prop := w_store w = w_store w0 ∧ w_files w0 ⊆ w_files w.

Lemma add_file_keeps w0 p : preserves (records_kept w0) (add_file p).
Proof. apply preserves_modify. intros w [Hs Hf]. split; [done|]. set_solver. Qed.
#[local] Hint Resolve add_file_keeps : gom.

Lemma create_config_keeps w0 cfg : BackendName cfg = QEMU →
  preserves (records_kept w0) (create_config be fs host env cfg).
Proof.
  intros Hq. unfold create_config, uefi_step, seed_step, spice_step, copyFile, freeTCPPort, lift, lift_as. rewrite Hq.
  change (bool_decide (QEMU = VZ)) with false. cbn [andb]. preserves_tac.
Qed.
End Creation.

(** ** Lemmas on deletion *)
Lemma relocated_spec name dir cfg : relocatedBootDisk name dir cfg ≠ "" → ∃ i d,
  findManagedBootDisk cfg = Some (i, d) ∧ relocatedBootDisk name dir cfg = managedBootDiskAbsPath name d ∧
  IsAbs (relocatedBootDisk name dir cfg) = true ∧
  HasPrefix (Base (relocatedBootDisk name dir cfg)) ("disk-" +:+ name +:+ "-") = true.
Proof.
  unfold relocatedBootDisk. destruct (findManagedBootDisk cfg) as [[i d]|]; [|done].
  case_bool_decide; [done|]. cbv zeta. set (path := managedBootDiskAbsPath name d).
  destruct (IsAbs path) eqn:Ea; [|done]. destruct (HasPrefix (Base path) _) eqn:Eb; [|done]. cbn [negb orb].
  intros Hne. exists i, d. split; [done|].
  destruct (Rel dir path) as [rel|]; [|by split_and!]. destruct (HasPrefix rel ".."); [by split_and!|done].
Qed.

Section Deletion.
Context {S : Type} `{VMStore S} (fs : FsEnv).
Implicit Types w : World S.

Lemma st_files {A} (m : GoM S error A) w : w_files (st m w).2 = w_files w.
Proof. unfold st. by destruct (m (w_store w)). Qed.

Lemma delete_tail tunnels fault name dir rel w : (∀ w, w_files (tunnels w) = w_files w) → ∃ r w',
  (_ ← ignore (st (deleteRecords name));
   _ ← when_ (negb (bool_decide (rel = ""))) (ignore (Remove fs rel));
   _ ← modify tunnels; deleteVMDir fault dir : GoM (World S) error unit) w = (r, w') ∧
  w_files w' ⊆ w_files w ∧
  (∀ p, p ∈ w_files w → p ∉ w_files w' → doomed dir p = true ∨ p = rel ∧ rel ≠ "") ∧
  (is_ok r = true → ∀ p, p ∈ w_files w' → doomed dir p = false).
Proof.
  intros Ht. rewrite run_bind. unfold ignore at 1. pose proof (st_files (deleteRecords name) w) as E1.
  set (w1 := (st (deleteRecords name) w).2) in *. rewrite <-E1. clearbody w1. clear E1 w.
  assert (∃ w2, when_ (negb (bool_decide (rel = ""))) (ignore (Remove fs rel)) w1 = (Ok tt, w2) ∧
    (w_files w2 = w_files w1 ∨ rel ≠ "" ∧ w_files w2 = w_files w1 ∖ {[rel]})) as (w2 & E2 & Hw2).
  { case_bool_decide as Hr; [exists w1; split; [done|by left]|]. cbn [negb when_]. unfold ignore, Remove.
    destruct (fs_remove fs rel); eexists; (split; [done|]); [by left|by right]. }
  rewrite run_bind, E2, run_modify. rewrite <-(Ht w2) in Hw2. set (w3 := tunnels w2) in *. clearbody w3.
  assert (w_files w3 ⊆ w_files w1 ∧ ∀ p, p ∈ w_files w1 → p ∉ w_files w3 → p = rel ∧ rel ≠ "") as [Hsub Hlost].
  { destruct Hw2 as [->|[? ->]]; [done|]. split; [apply subseteq_difference_l; done|].
    intros p Hp Hn. destruct (decide (p = rel)); [done|]. exfalso. apply Hn.
    apply elem_of_difference. by rewrite elem_of_singleton. }
  clear Hw2. unfold deleteVMDir. destruct fault as [[gone e]|]; eexists _, _; (split; [reflexivity|]);
    change (w_files (w3 <| w_files := ?F |>)) with F.
  - split_and!; [|intros p Hp Hn|done].
    + intros p [_ ?]%elem_of_filter. by apply Hsub.
    + destruct (doomed dir p) eqn:Ed; [by left|]. right. apply Hlost; [done|]. intros H3. apply Hn, elem_of_filter.
      rewrite Ed. naive_solver.
  - split_and!; [|intros p Hp Hn|].
    + intros p [_ ?]%elem_of_filter. by apply Hsub.
    + destruct (doomed dir p) eqn:Ed; [by left|]. right. apply Hlost; [done|]. intros H3. by apply Hn, elem_of_filter.
    + by intros _ p [? _]%elem_of_filter.
Qed.
End Deletion.

(** ** Theorems *)

(** Every size the program prints for a disk is read back as the same number
    of bytes. *)
Theorem disk_size_roundtrip b : 0 < b <= max_int → ParseDiskSize (humanDiskSize b) = Ok (false, b).
Proof.
  intros Hb. unfold humanDiskSize.
  assert (Hu : ∀ u c, size_mult c = u → 1 < u → negb (is_space c) = true →
    (u <=? b) && (b `rem` u =? 0) = true → ParseDiskSize (Itoa (b `quot` u) +:+ String c "") = Ok (false, b)).
  { intros u c <- Hu Hsp [Hle Hr]%andb_true_iff. apply Z.leb_le in Hle. apply Z.eqb_eq in Hr.
    pose proof (Z.quot_rem' b (size_mult c)) as E. rewrite Hr, Z.add_0_r in E.
    assert (0 < b `quot` size_mult c) by (apply Z.quot_str_pos; lia).
    rewrite parse_unit by (done || lia). do 2 f_equal. lia. }
  destruct ((TiB <=? b) && _) eqn:E1; [by apply (Hu TiB "T"%char)|].
  destruct ((GiB <=? b) && _) eqn:E2; [by apply (Hu GiB "G"%char)|].
  destruct ((MiB <=? b) && _) eqn:E3; [by apply (Hu MiB "M"%char)|].
  destruct ((KiB <=? b) && _) eqn:E4; [by apply (Hu KiB "K"%char)|].
  by apply parse_plain.
Qed.

Lemma resize_target_grows cur relative specBytes target :
  resize_target cur relative specBytes = Ok target → cur < target.
Proof.
  unfold resize_target. set (t := if relative then _ else _).
  destruct (Z.eqb_spec t cur); [done|]. destruct (Z.ltb_spec t cur); [done|]. intros [= <-]. lia.
Qed.

(** A resize is only ever asked for with a size larger than the current one
    that fits 64 bits: an absolute smaller size and a relative increase that
    wraps around are both refused. *)
Theorem resize_never_shrinks cur relative specBytes target :
  0 <= cur <= max_int → 0 < specBytes <= max_int →
  resize_target cur relative specBytes = Ok target →
  cur < target <= max_int ∧ target = (if relative then cur + specBytes else specBytes).
Proof.
  intros Hc Hs. unfold resize_target. set (t := if relative then _ else _).
  destruct (Z.eqb_spec t cur); [done|]. destruct (Z.ltb_spec t cur); [done|]. intros [= <-].
  subst t. unfold wrap64, max_int in *. destruct relative; [|lia].
  destruct (decide (cur + specBytes < 2 ^ 63)).
  - rewrite Z.mod_small in * by lia. lia.
  - rewrite <-(Z.mod_unique_pos (cur + specBytes + 2 ^ 63) (2 ^ 64) 1 (cur + specBytes - 2 ^ 63)) in * by lia.
    lia.
Qed.

(** ** Moving, resizing, deleting, creating *)
Section StorageClaims.
Context {S : Type} `{VMStoreLaws S} (be : BuildEnv S) (fs : FsEnv).
Implicit Types w : World S.

(** C35: A successful move takes the boot disk, and no other file, to a path that
    was free, keeps its file name, and persists a config whose boot disk
    resolves to exactly that path; nothing else of the config changes. *)
Theorem move_boot_disk_moves name target w src dst w' :
  IsAbs (pc_StoragePath (be_conf be)) = true → (∀ d, be_cwd be = Some d → IsAbs d = true) →
  healthy (w_store w) →
  MoveBootDisk be fs name target w = (Ok (src, dst), w') →
  ∃ cfg idx d, cfg_view (w_store w) !! name = Some cfg ∧ findManagedBootDisk cfg = Some (idx, d) ∧
    src = boot_path be name d ∧ src ∈ w_files w ∧ dst ∉ w_files w ∧ Base dst = Base src ∧
    w_files w' = {[dst]} ∪ w_files w ∖ {[src]} ∧
    boot_path be name (d <| d_Path := dst |>) = dst ∧
    cfg_view (w_store w') =
      <[c_Name cfg := persisted (cfg <| c_Disks := <[idx := d <| d_Path := dst |>]> (c_Disks cfg) |>)]>
        (cfg_view (w_store w)).
Proof.
  intros Hroot Hcwd Hh E.
  destruct (MoveBootDisk_checks be fs Hroot name target w Hcwd)
    as [[e E']|(cfg & idx & d & dst' & Hc & Hf & _ & Hne & Hin & Hout & Hi & Ha & Hb & [[e E']|E'])];
    rewrite E' in E; try done.
  assert (Hcv : cfg_view (w_store w) !! name = Some cfg) by (apply loadConfig_ok; [done|by rewrite Hc]).
  pose proof Hf as [Hd _]%find_disk_spec.
  unfold relocate in E. rewrite run_attempt in E.
  destruct (moveFile_run fs _ _ w Hne Hin) as (r & F & Em & _ & Hok & _). rewrite Em in E.
  destruct r as [[]|e]; [|done]. rewrite Hok in E by done. cbn [fst snd] in E. rewrite run_attempt in E.
  set (w1 := w <| w_files := _ |>) in E.
  destruct (st_saveConfig (set_disk_path idx dst' cfg) w1 Hh) as (s' & Es & _ & _ & Ev). rewrite Es in E.
  injection E as <- <- <-. exists cfg, idx, d. split_and!; try done.
  - by apply boot_path_pinned.
  - etrans; [exact Ev|]. unfold set_disk_path. by rewrite (alter_as_insert _ _ _ _ Hd).
Qed.

(** A failed move changes no record and never loses the disk: it is at its
    old or its new path, every other file is untouched, and on one file system,
    where a rename can be undone, no file has changed at all. *)
Theorem move_boot_disk_fails name target w e w' :
  IsAbs (pc_StoragePath (be_conf be)) = true → (∀ d, be_cwd be = Some d → IsAbs d = true) →
  MoveBootDisk be fs name target w = (Err e, w') →
  cfg_view (w_store w') = cfg_view (w_store w) ∧ st_view (w_store w') = st_view (w_store w) ∧
  (w_files w' = w_files w ∨
   ∃ cfg idx d dst, loadConfig name (w_store w) = (Ok cfg, w_store w) ∧
     findManagedBootDisk cfg = Some (idx, d) ∧ boot_path be name d ∈ w_files w ∧
     moved_or_kept (boot_path be name d) dst (w_files w) (w_files w')) ∧
  ((∀ a b, fs_rename fs a b ≠ CrossDevice) →
   (∀ a b, fs_rename fs a b = Renamed → fs_rename fs b a = Renamed) → w_files w' = w_files w).
Proof.
  intros Hroot Hcwd E.
  destruct (MoveBootDisk_checks be fs Hroot name target w Hcwd)
    as [[e' E']|(cfg & idx & d & dst & Hc & Hf & _ & Hne & Hin & Hout & Hi & Ha & Hb & [[e' E']|E'])];
    rewrite E' in E.
  1,2: injection E as <- <-; split_and!; (done || by left).
  set (src := boot_path be name d) in *.
  destruct (relocate_fails fs cfg idx src dst w e w' Hne Hin Hout E) as (Hcv & Hsv & Hk & Hu).
  split_and!; [done..| |done]. right. by exists cfg, idx, d, dst.
Qed.

(** C36: After a successful resize the config on record names the disk's file as
    it now is on disk, at the new size, which is larger than the old one; the
    image was grown under its old name, and no other disk of the config and no
    other file changed. *)
Theorem resize_consistent qemuImg name spec w rr w' :
  IsAbs (pc_StoragePath (be_conf be)) = true → healthy (w_store w) →
  ResizeBootDisk be fs qemuImg name spec w = (Ok rr, w') →
  ∃ cfg idx d d' format cur target, let src := boot_path be name d in
    cfg_view (w_store w) !! name = Some cfg ∧ findResizableBootDisk cfg = Some (idx, d) ∧
    fs_image fs src = Ok (format, cur) ∧ cur < target ∧ fs_resize fs format src target = None ∧
    cfg_view (w_store w') =
      <[c_Name cfg := persisted (cfg <| c_Disks := <[idx := d']> (c_Disks cfg) |>)]> (cfg_view (w_store w)) ∧
    boot_path be name d' = rr_Path rr ∧ d_Size d' = humanDiskSize target ∧ rr_Path rr ∈ w_files w' ∧
    (∀ p, p ≠ src → p ≠ rr_Path rr → p ∈ w_files w' ↔ p ∈ w_files w).
Proof.
  intros Hroot Hh. unfold ResizeBootDisk. rewrite run_bind, st_loadState by done.
  unfold isAlive. rewrite run_gets. destruct (_ && _); [done|].
  destruct (cfg_view (w_store w) !! name) as [cfg|] eqn:Hc.
  2: { rewrite run_bind. destruct (st_loadConfig_none name w Hh Hc) as [e ->]. done. }
  rewrite run_bind, (st_loadConfig name w cfg Hh Hc).
  destruct (findResizableBootDisk cfg) as [[idx d]|] eqn:Hf; [|done].
  unfold file_exists. cbv zeta. rewrite run_gets. case_bool_decide as Hin; [|done]. cbn [negb].
  destruct qemuImg as [e|]; [done|].
  destruct (fs_image fs _) as [[format cur]|e] eqn:Ei; [|done].
  destruct (ParseDiskSize spec) as [[relative bytes]|e]; [|done].
  destruct (resize_target cur relative bytes) as [target|e] eqn:Et; [|done].
  destruct (fs_resize fs format _ target) as [e|] eqn:Er; [done|].
  pose proof Hf as [Hd Hb]%find_disk_spec. apply resizable_boot_format in Hb.
  destruct (boot_path_img be Hroot name d Hb) as [Hi Ha].
  set (cfg1 := set_disk_size idx (humanDiskSize target) cfg).
  set (d1 := d <| d_Size := humanDiskSize target |>).
  assert (Hd1 : c_Disks cfg1 !! idx = Some d1).
  { change (c_Disks cfg1) with (alter (λ d, d <| d_Size := humanDiskSize target |>) idx (c_Disks cfg)).
    by rewrite list_lookup_alter_eq, Hd. }
  destruct (rename_resized_run be fs Hroot name idx cfg1 d1 w Hd1 Hb (boot_path be name d) Hi Ha Hin)
    as (d' & final & F & E & Hp & HF & Hs & Hother).
  rewrite run_bind, E, run_attempt. set (w1 := w <| w_files := F |>).
  destruct (st_saveConfig (cfg1 <| c_Disks := <[idx := d']> (c_Disks cfg1) |>) w1 Hh) as (s' & -> & _ & _ & Ev).
  intros [= <- <-]. exists cfg, idx, d, d', format, cur, target. split_and!; try done.
  - by eapply resize_target_grows.
  - assert (<[idx := d']> (c_Disks cfg1) = <[idx := d']> (c_Disks cfg)) as El.
    { change (c_Disks cfg1) with (alter (λ d, d <| d_Size := humanDiskSize target |>) idx (c_Disks cfg)).
      by rewrite (alter_as_insert _ _ _ _ Hd), list_insert_insert_eq. }
    rewrite El in Ev. exact Ev.
Qed.

(** A QEMU creation that succeeds persists the given config with its seed
    volumes appended as install media and, when UEFI applies (always on
    aarch64), a private variable store that exists; it is never a direct-kernel
    or macOS guest, and no other VM's record changes. *)
Theorem create_persists host env cfg w w' :
  BackendName cfg = QEMU → healthy (w_store w) → Create be fs host env cfg w = (Ok tt, w') →
  ∃ cfg' seeds,
    cfg_view (w_store w') = <[c_Name cfg := persisted cfg']> (cfg_view (w_store w)) ∧
    st_view (w_store w') = st_view (w_store w) ∧ c_Name cfg' = c_Name cfg ∧
    c_Kernel cfg' = "" ∧ c_Cmdline cfg' = "" ∧ c_Initrd cfg' = "" ∧ c_MacOS cfg' = None ∧
    c_Disks cfg' = c_Disks cfg ++ seeds ∧
    (∀ d, d ∈ seeds → IsInstallISO d = true ∧ d_Readonly d = true ∧ d_Path d ∈ w_files w') ∧
    length seeds = seed_volumes cfg ∧
    u_Enabled (c_UEFI cfg') = u_Enabled (c_UEFI cfg) || bool_decide (DefaultGuestArch host = "aarch64") ∧
    (u_Enabled (c_UEFI cfg') = true →
     u_VarsPath (c_UEFI cfg') = PathJoin [vmDir be (c_Name cfg); "OVMF_VARS.fd"] ∧
     u_VarsPath (c_UEFI cfg') ∈ w_files w').
Proof.
  intros Hq Hh (cfg3 & w2 & E & Es)%run_bind_inv.
  apply create_config_ok in E as (u & seeds & sp & sv & -> & Es2 & Hk & Hcm & Hin & Hm & Hseed & Hlen & Hu & Hv); [|done].
  match type of Es with context [st (saveConfig ?c)] => set (cfg3 := c) in Es end.
  assert (Hh2 : healthy (w_store w2)) by (by rewrite Es2).
  destruct (st_saveConfig cfg3 w2 Hh2) as (s' & E5 & _ & Ev1 & Ev2). rewrite E5 in Es. injection Es as <-.
  rewrite Es2 in Ev1, Ev2. exists cfg3, seeds. split_and!; done.
Qed.

(** C38: A QEMU creation that fails, at whatever step, leaves every VM record as
    it was and removes no file. *)
Theorem create_fails_clean host env cfg w e w' :
  BackendName cfg = QEMU → Create be fs host env cfg w = (Err e, w') →
  cfg_view (w_store w') = cfg_view (w_store w) ∧ st_view (w_store w') = st_view (w_store w) ∧
  w_files w ⊆ w_files w'.
Proof.
  intros Hq. unfold Create. rewrite run_bind.
  pose proof (create_config_keeps be fs host env w cfg Hq w (conj eq_refl (reflexivity _))) as [Hs Hf].
  destruct (create_config be fs host env cfg w) as [[cfg1|e1] w1]; cbn [snd] in *.
  - unfold st. rewrite Hs. destruct (saveConfig cfg1 (w_store w)) as [[[]|e1] s'] eqn:E; [done|].
    apply saveConfig_err in E as [Ec Ev]. intros [= _ <-]. done.
  - intros [= _ <-]. by rewrite Hs.
Qed.

(** C37: Deleting a VM that is up is refused and changes nothing.  Otherwise the
    files it removes lie below the VM's directory outside backups/, or are the
    VM's own boot disk under its generated name; on success nothing else is
    left below the directory. *)
Theorem delete_scope tunnels fault name w r w' :
  (∀ w, w_files (tunnels w) = w_files w) →
  Delete be fs tunnels fault name w = (r, w') →
  ((∃ s, (loadState name (w_store w)).1 = Ok s ∧ s_Running s = true ∧ isAlive_in w (s_PID s) = true) →
   is_ok r = false ∧ w' = w) ∧
  w_files w' ⊆ w_files w ∧
  (∀ p, p ∈ w_files w → p ∉ w_files w' → doomed (vmDir be name) p = true ∨
    ∃ cfg i d, (loadConfig name (w_store w)).1 = Ok cfg ∧ findManagedBootDisk cfg = Some (i, d) ∧
      p = managedBootDiskAbsPath name d ∧ IsAbs p = true ∧
      HasPrefix (Base p) ("disk-" +:+ name +:+ "-") = true) ∧
  (is_ok r = true → ∀ p, p ∈ w_files w' → doomed (vmDir be name) p = false).
Proof.
  intros Ht. unfold Delete. rewrite run_attempt, st_pure by apply loadState_pure. cbn [fst snd]. rewrite run_gets.
  set (up := match (loadState name (w_store w)).1 with Ok s => _ | Err _ => false end).
  destruct up eqn:Eu.
  { intros [= <- <-]. split_and!; try done. }
  rewrite run_attempt, st_pure by apply loadConfig_pure. cbn [fst snd].
  set (rel := match (loadConfig name (w_store w)).1 with Ok cfg => _ | Err _ => "" end).
  destruct (delete_tail fs tunnels fault name (vmDir be name) rel w Ht) as (r1 & w1 & E & H1 & H2 & H3).
  unfold id. rewrite E. intros [= <- <-]. split_and!; [|done| |done].
  - intros (s & Es & Hr & Ha). subst up. unfold id in Eu. by rewrite Es, Hr, Ha in Eu.
  - intros p Hp Hn. destruct (H2 p Hp Hn) as [?|[-> Hne]]; [by left|right].
    subst rel. destruct (loadConfig name (w_store w)).1 as [cfg|]; [|done].
    apply relocated_spec in Hne as (i & d & Hf & -> & Ha & Hb). by exists cfg, i, d.
Qed.
End StorageClaims.

(** ** A concrete move, resize, creation and deletion *)
Module DiskExample.
Definition fs : FsEnv :=
  mkFsEnv (λ _ _, Renamed) (λ _ _, None) (λ _, None) (λ _, None)
    (λ _, Ok ("qcow2", 40 * GiB)) (λ _ _ _, None).
(** A file system on which renames fail. *)
Definition stuck : FsEnv :=
  mkFsEnv (λ _ _, RenameErr (Errorf "permission denied" [])) (λ _ _, None) (λ _, None) (λ _, None)
    (λ _, Ok ("qcow2", 40 * GiB)) (λ _ _ _, None).

Definition disk : DiskConfig :=
  zeroDisk <| d_Path := "/data" |> <| d_Size := "40G" |> <| d_Media := "disk" |> <| d_Format := "qcow2" |>.
Definition cfg : VMConfig := zeroConfig <| c_Name := "dev" |> <| c_Disks := [disk] |>.
Definition world : World Db.DB :=
  (Scenario.world_with Scenario.stopped ∅)
    <| w_store := Db.mkDB {[ "dev" := Db.mkRow cfg 1 ]} {[ "dev" := Scenario.stopped ]} 9 None None |>
    <| w_files := {["/data/disk-dev-40G.qcow2"; "/vms/dev/qemu.log"; "/vms/dev/backups/1.tar"]} |>.

Definition ci : CloudInitConfig := mkCloudInitConfig "dev" "me" "" "" [] [] [] [].
Definition new : VMConfig :=
  zeroConfig <| c_Name := "web" |> <| c_CloudInit := Some ci |>
             <| c_UEFI := (c_UEFI zeroConfig) <| u_Enabled := true |> |>.
Definition cenv : CreateEnv Db.DB :=
  mkCreateEnv _ (λ _, Ok []) true (λ c, mret c) (λ dir _, Ok (dir +:+ "/cidata.iso")) (λ dir _, Ok (dir +:+ "/seed.iso")).
End DiskExample.
Import DiskExample.

Lemma be_paths : IsAbs (pc_StoragePath (be_conf HostExample.be)) = true ∧
  ∀ d, be_cwd HostExample.be = Some d → IsAbs d = true.
Proof. split; [reflexivity|]. by intros d [= <-]. Qed.

Lemma world_healthy : healthy (w_store world).
Proof. by split. Qed.

Lemma disk_size_roundtrip_witness : ParseDiskSize (humanDiskSize (40 * GiB)) = Ok (false, 40 * GiB).
Proof. apply disk_size_roundtrip. vm_compute. split; discriminate || reflexivity. Defined.

Lemma resize_never_shrinks_witness : resize_target (40 * GiB) true (20 * GiB) = Ok (60 * GiB) ∧
  40 * GiB < 60 * GiB <= max_int ∧ 60 * GiB = 40 * GiB + 20 * GiB.
Proof.
  split; [reflexivity|]. apply (resize_never_shrinks (40 * GiB) true (20 * GiB) (60 * GiB)); [| |reflexivity];
    vm_compute; split; discriminate || reflexivity.
Defined.

Lemma move_boot_disk_moves_witness : ∃ w',
  MoveBootDisk HostExample.be fs "dev" "/big" world =
    (Ok ("/data/disk-dev-40G.qcow2", "/big/disk-dev-40G.qcow2"), w') ∧
  boot_path HostExample.be "dev" (disk <| d_Path := "/big/disk-dev-40G.qcow2" |>) = "/big/disk-dev-40G.qcow2".
Proof.
  eexists. split; [vm_compute; reflexivity|].
  destruct (move_boot_disk_moves HostExample.be fs "dev" "/big" world
    "/data/disk-dev-40G.qcow2" "/big/disk-dev-40G.qcow2" _ (proj1 be_paths) (proj2 be_paths)
    world_healthy ltac:(vm_compute; reflexivity)) as (c & i & d & Hc & Hf & _ & _ & _ & _ & _ & Hb & _).
  vm_compute in Hc. injection Hc as <-. vm_compute in Hf. injection Hf as <- <-. exact Hb.
Defined.

Lemma move_boot_disk_fails_witness : ∃ e w',
  MoveBootDisk HostExample.be stuck "dev" "/big" world = (Err e, w') ∧ w_files w' = w_files world.
Proof.
  eexists _, _. split; [vm_compute; reflexivity|].
  refine (proj2 (proj2 (proj2 (move_boot_disk_fails HostExample.be stuck "dev" "/big" world _ _
    (proj1 be_paths) (proj2 be_paths) _))) _ _); [vm_compute; reflexivity|done|done].
Defined.

Lemma resize_consistent_witness : ∃ rr w',
  ResizeBootDisk HostExample.be fs None "dev" "+20G" world = (Ok rr, w') ∧ rr_Path rr ∈ w_files w'.
Proof.
  eexists _, _. split; [vm_compute; reflexivity|].
  destruct (resize_consistent HostExample.be fs None "dev" "+20G" world _ _ (proj1 be_paths) world_healthy
    ltac:(vm_compute; reflexivity)) as (? & ? & ? & ? & ? & ? & ? & _ & _ & _ & _ & _ & _ & _ & _ & Hin & _).
  exact Hin.
Defined.

Lemma create_persists_witness : ∃ w' cfg',
  Create HostExample.be fs Scenario.linux cenv new world = (Ok tt, w') ∧
  u_Enabled (c_UEFI cfg') = true ∧ cfg_view (w_store w') !! "web" = Some (persisted cfg').
Proof.
  assert (∃ w', Create HostExample.be fs Scenario.linux cenv new world = (Ok tt, w')) as [w' E]
    by (eexists; vm_compute; reflexivity).
  destruct (create_persists HostExample.be fs Scenario.linux cenv new world w' eq_refl world_healthy E)
    as (cfg' & seeds & Hc & _ & _ & _ & _ & _ & _ & _ & _ & _ & Hu & _).
  exists w', cfg'. split; [exact E|]. split; [exact Hu|]. rewrite Hc. apply lookup_insert_eq.
Defined.

Lemma create_fails_clean_witness : ∃ e w',
  Create HostExample.be fs Scenario.linux cenv (new <| c_Kernel := "/boot/vmlinuz" |>) world = (Err e, w') ∧
  cfg_view (w_store w') = cfg_view (w_store world).
Proof.
  eexists _, _. split; [vm_compute; reflexivity|].
  refine (proj1 (create_fails_clean HostExample.be fs Scenario.linux cenv (new <| c_Kernel := "/boot/vmlinuz" |>)
    world _ _ eq_refl _)). vm_compute. reflexivity.
Defined.

Lemma delete_scope_witness : ∃ r w',
  Delete HostExample.be fs (λ w, w) None "dev" world = (r, w') ∧ w_files w' ⊆ w_files world.
Proof.
  destruct (Delete HostExample.be fs (λ w, w) None "dev" world) as [r w'] eqn:E. exists r, w'. split; [reflexivity|].
  exact (proj1 (proj2 (delete_scope HostExample.be fs (λ w, w) None "dev" world r w' (λ _, eq_refl) E))).
Defined.

(** The deletion of the example takes the log and the relocated disk, and leaves
    the backup. *)
Example delete_example :
  elements (w_files (Delete HostExample.be fs (λ w, w) None "dev" world).2) = ["/vms/dev/backups/1.tar"].
Proof. vm_compute. reflexivity. Qed.
