(* ===== verification/HostDev.v ===== *)
(** * Disks and processors of the host

    Whether a disk already holds data (internal/vm/diskcheck.go), the block
    devices offered for passthrough (internal/blockdev/blockdev.go), and the
    pinning of virtual CPUs (internal/vm/cpupinning.go).

    What devices, sysfs, /proc/mounts and qemu-img answer is the [DiskEnv]. *)
From S2P Require Import Prelude GoStrings Config Store World Paths Lifecycle Guest Tables Machine Storage.

Open Scope Z_scope.

(** ** Existing data *)
Record DiskWarning := mkDiskWarning { dw_Path : string; dw_Reason : string }.

Record DiskEnv := mkDiskEnv {
  (** the first read of up to 512 bytes of a device, or the error of opening it *)
  de_first : string → result string (list Z);
  (** [os.Stat] says the file does not exist *)
  de_missing : string → bool;
  (** the output of [qemu-img info], when it succeeds *)
  de_info : string → option string;
}.

Fixpoint le_uint (bs : list Z) : Z := match bs with [] => 0 | b :: bs => b + 256 * le_uint bs end.
Definition at_byte (i : nat) (buf : list Z) : Z := default 0 (buf !! i).

Section DiskCheck.
Variable env : DiskEnv.

Definition checkBlockDevice (path : string) : option DiskWarning :=
  match de_first env path with
  | Err e => Some (mkDiskWarning path ("could not open device to inspect: " +:+ e))
  | Ok buf =>
      if Nat.ltb (length buf) 512 then None
      else if (at_byte 510 buf =? 0x55) && (at_byte 511 buf =? 0xAA) then
        Some (mkDiskWarning path (if at_byte (446 + 4) buf =? 0xEE then "GPT partition table detected"
                                  else "MBR partition table detected"))
      else if le_uint (take 8 buf) =? 0x5452415020494645 then
        Some (mkDiskWarning path "GPT header detected at sector 0")
      else None
  end.

Definition virtual_size (line : string) : option string :=
  if HasPrefix line "virtual size:" then Some (sdrop 13 line) else None.
Definition checkImageFile (path : string) : option DiskWarning :=
  match de_info env path with
  | None => None
  | Some out =>
      match head (omap virtual_size (Split newline out)) with
      | Some val => Some (mkDiskWarning path ("existing image file (virtual size " +:+ TrimSpace val +:+ ")"))
      | None => None
      end
  end.

Definition check_disk (cfg : VMConfig) (d : DiskConfig) : option DiskWarning :=
  if IsInstallISO d then None
  else if (d_Passthrough d || d_ImageFile d) && c_SkipInstall cfg then None
  else if d_Passthrough d then checkBlockDevice (d_Path d)
  else if de_missing env (d_Path d) then None
  else checkImageFile (d_Path d).
(** The helpers never return an error. *)
Definition CheckDisksForData (cfg : VMConfig) : result error (list DiskWarning) :=
  if bool_decide (BackendName cfg = VZ) then Ok []
  else Ok (omap (check_disk cfg) (c_Disks cfg)).

(** As [Create] prints them. *)
Definition warning_line (w : DiskWarning) : string := dw_Path w +:+ ": " +:+ dw_Reason w.
Definition disk_warnings (cfg : VMConfig) : result error (list string) :=
  match CheckDisksForData cfg with Ok ws => Ok (warning_line <$> ws) | Err e => Err e end.
End DiskCheck.

(** ** Block devices *)
Record Device := mkDevice {
  dv_Name : string; dv_ByIDPath : string; dv_Model : string; dv_SizeBytes : Z; dv_Serial : string }.

Record BlockEnv := mkBlockEnv {
  bl_block : result error (list string);            (* names in /sys/block *)
  bl_byid : option (list (string * option string)); (* names in /dev/disk/by-id with their link targets *)
  bl_read : string → option string;                 (* files under /sys/block *)
  bl_mounts : result error (list string);           (* lines of /proc/mounts *)
}.

(** [s[i+1:]] and [s[:i]] at the last [sub] of one byte. *)
Definition after_last (c : ascii) (s : string) : option (string * string) :=
  match last_from s (String c "") with
  | Some t => Some (String.substring 0 (String.length s - String.length t) s, sdrop 1 t)
  | None => None
  end.

Definition parseSerial (byIDPath : string) : string :=
  match after_last "_" (Base byIDPath) with Some (_, t) => t | None => "" end.

Definition allDigits (s : string) : bool := negb (bool_decide (s = "")) && sforall is_digit s.
Definition parentDisk (name : string) : string :=
  match after_last "p" name with
  | Some (head, rest) =>
      if negb (bool_decide (head = "")) && allDigits rest then head
      else let t := trim_right is_digit name in if bool_decide (t = name) then "" else t
  | None => let t := trim_right is_digit name in if bool_decide (t = name) then "" else t
  end.

Definition mount_names (line : string) : list string :=
  match Fields line with
  | dev :: _ :: _ =>
      if negb (HasPrefix dev "/dev/") then [] else
      let kernel := Base dev in
      let parent := parentDisk kernel in
      kernel :: (if bool_decide (parent = "") then [] else [parent])
  | _ => []
  end.
Definition mountedKernelNames (ls : list string) : list string := mjoin (mount_names <$> ls).

Section Block.
Variable env : BlockEnv.

(** The first link to each kernel name wins. *)
Fixpoint by_id (entries : list (string * option string)) (m : gmap string string) : gmap string string :=
  match entries with
  | [] => m
  | (name, target) :: es =>
      match target with
      | None => by_id es m
      | Some t =>
          let kernel := Base t in
          by_id es (match m !! kernel with
                    | Some _ => m
                    | None => <[kernel := PathJoin ["/dev/disk/by-id"; name]]> m
                    end)
      end
  end.
Definition buildByIDMap : gmap string string :=
  match bl_byid env with Some es => by_id es ∅ | None => ∅ end.

Definition readSize (name : string) : Z :=
  match bl_read env (PathJoin ["/sys/block"; name; "size"]) with
  | None => 0
  | Some b => match ParseUint64 (TrimSpace b) with Some sectors => wrapu64 (sectors * 512) | None => 0 end
  end.
Definition readModel (name : string) : string :=
  match bl_read env (PathJoin ["/sys/block"; name; "device/model"]) with
  | Some b => TrimSpace b
  | None => match bl_read env (PathJoin ["/sys/block"; name; "device/device/model"]) with
            | Some b => TrimSpace b
            | None => ""
            end
  end.

Definition device_of (byID : gmap string string) (name : string) : Device :=
  let d := mkDevice name ("/dev/" +:+ name) (readModel name) (readSize name) "" in
  match byID !! name with
  | Some stable => mkDevice name stable (dv_Model d) (dv_SizeBytes d) (parseSerial stable)
  | None => d
  end.
Definition listByPrefix (prefix : string) : result error (list Device) :=
  match bl_block env with
  | Err e => Err e
  | Ok names =>
      let byID := buildByIDMap in
      Ok (device_of byID <$> filter (λ n, prefix = "" ∨ HasPrefix n prefix = true) names)
  end.
Definition ListNVMe : result error (list Device) := listByPrefix "nvme".
Definition ListAll : result error (list Device) := listByPrefix "".

Definition ListUnmounted : result error (list Device) :=
  match ListAll with
  | Err e => Err e
  | Ok all =>
      match bl_mounts env with
      | Err e => Err e
      | Ok ls => Ok (filter (λ d, dv_Name d ∉ mountedKernelNames ls) all)
      end
  end.
End Block.

(** Display.  [None] is a panic: an index out of the range of the units. *)
Fixpoint size_unit (fuel : nat) (n div : Z) (exp : nat) : Z * nat :=
  match fuel with
  | O => (div, exp)
  | S fuel => if 1000 <=? n then size_unit fuel (n / 1000) (div * 1000) (S exp) else (div, exp)
  end.
Definition humanSize (b : Z) : option string :=
  if b =? 0 then Some ""
  else if b <? 1000 then Some (Itoa b +:+ "B")
  else
    let '(div, exp) := size_unit 7 (b / 1000) 1000 0 in
    suffix ← ["KB"; "MB"; "GB"; "TB"; "PB"] !! exp;
    let whole := b / div in
    let frac := (b mod div) * 10 / div in
    Some (if (frac =? 0) || (100 <=? whole) then Itoa whole +:+ suffix
          else Itoa whole +:+ "." +:+ Itoa frac +:+ suffix).
Definition DescribeShort (d : Device) : option string :=
  size ← humanSize (dv_SizeBytes d);
  Some (Join " " ((if bool_decide (size = "") then [] else [size])
                  ++ (if bool_decide (dv_Model d = "") then [] else [dv_Model d])
                  ++ (if bool_decide (dv_Serial d = "") then [] else ["[" +:+ dv_Serial d +:+ "]"]))).
Definition Label (d : Device) : option string :=
  desc ← DescribeShort d;
  Some (if bool_decide (desc = "") then dv_ByIDPath d else dv_ByIDPath d +:+ "  " +:+ desc).

(** ** CPU pinning *)
Fixpoint cpu_parts (parts : list string) (out : list Z) : result error (list Z) :=
  match parts with
  | [] => Ok out
  | part :: parts =>
      let part := TrimSpace part in
      if bool_decide (part = "") then cpu_parts parts out else
      match Atoi part with
      | None => Err (Errorf "invalid CPU index" [part])
      | Some n =>
          if n <? 0 then Err (Errorf "invalid CPU index" [part])
          else if bool_decide (n ∈ out) then cpu_parts parts out
          else cpu_parts parts (out ++ [n])
      end
  end.
Definition ParseCPUPinning (s : string) : result error (list Z) :=
  let s := TrimSpace s in
  if bool_decide (s = "") then Ok [] else cpu_parts (Split "," s) [].

Definition ValidateCPUPinning (numCPU : Z) (cpus : list Z) : result error unit :=
  match find (λ c, numCPU <=? c) cpus with
  | Some c => Err (Errorf "CPU index is out of range" [Itoa c; Itoa numCPU])
  | None => Ok tt
  end.

Section Pinning.
Context {S : Type} `{VMStore S}.
Abbreviation M := (GoM (World S) error).

Definition SetCPUPinning (host : Host) (numCPU : Z) (name : string) (cpus : list Z) : M unit :=
  if negb (SupportsCPUPinning host) then throw (Errorf "CPU pinning is not supported" [HostOS host]) else
  match ValidateCPUPinning numCPU cpus with
  | Err e => throw e
  | Ok _ => updateConfig name (λ cfg, cfg <| c_CPUPinning := cpus |>)
  end.
End Pinning.

(** ** Lemmas *)
Lemma last_from_app s c t : free_of c t = true → last_from (s +:+ String c t) (String c "") = Some (String c t).
Proof.
  intros Ht. assert (Hn : last_from t (String c "") = None).
  { induction t as [|d t IH]; [done|]. cbn in Ht. apply andb_true_iff in Ht as [Hd Ht]. cbn -[HasPrefix]. rewrite IH by done.
    cbn. apply negb_true_iff in Hd. rewrite bool_decide_eq_false in Hd. by rewrite bool_decide_false. }
  induction s as [|d s IH].
  - change ("" +:+ String c t) with (String c t). cbn -[HasPrefix]. rewrite Hn. cbn. by rewrite bool_decide_true.
  - rewrite append_cons. cbn -[HasPrefix]. by rewrite IH.
Qed.


Lemma after_last_app s c t : free_of c t = true → after_last c (s +:+ String c t) = Some (s, t).
Proof.
  intros Ht. unfold after_last. rewrite last_from_app by done. f_equal. f_equal.
  rewrite length_append. replace (_ + _ - _)%nat with (String.length s) by lia. apply substring_prefix.
Qed.

Lemma digits_free (c : ascii) s : is_digit c = false → sforall is_digit s = true → free_of c s = true.
Proof.
  intros Hc. apply sforall_impl. intros d Hd. apply negb_true_iff, bool_decide_eq_false. intros ->. congruence.
Qed.

Lemma trim_digits s t : sforall is_digit t = true → trim_right is_digit (s +:+ t) = trim_right is_digit s.
Proof.
  intros Ht. revert s. induction t as [|c t IH]; intros s; [by rewrite append_nil|]. cbn in Ht.
  apply andb_true_iff in Ht as [Hc Ht]. change (s +:+ String c t) with (s +:+ (String c "" +:+ t)).
  rewrite <- append_assoc, IH by done. by apply trim_right_drop.
Qed.

Lemma trim_id_last f s : (∀ t c, s = t +:+ String c "" → f c = false) → trim_right f s = s.
Proof.
  intros Hl. destruct (decide (s = "")) as [->|Hn]; [done|]. destruct (string_snoc s Hn) as (t & c & E).
  rewrite E. apply trim_right_last. by eapply Hl.
Qed.

Lemma last_from_suffix c s t : free_of c t = true →
  last_from (s +:+ t) (String c "") = (λ u, u +:+ t) <$> last_from s (String c "").
Proof.
  intros Ht. induction s as [|d s IH].
  - change ("" +:+ t) with t. induction t as [|d t IH]; [done|]. cbn in Ht. apply andb_true_iff in Ht as [Hd Ht].
    cbn -[HasPrefix] in IH |- *. rewrite IH by done. cbn. apply negb_true_iff, bool_decide_eq_false in Hd.
    by rewrite bool_decide_false.
  - rewrite append_cons. cbn -[HasPrefix]. rewrite IH. destruct (last_from s _); [done|]. cbn.
    by case_bool_decide.
Qed.
Lemma last_from_head c s u : last_from s (String c "") = Some u → ∃ v, u = String c v.
Proof.
  induction s as [|d s IH]; [done|]. cbn -[HasPrefix]. destruct (last_from s _); [naive_solver|]. cbn.
  case_bool_decide; [|done]. naive_solver.
Qed.

Lemma string_snoc_inj s t c d : s +:+ String c "" = t +:+ String d "" → s = t ∧ c = d.
Proof. intros E%(f_equal unsnoc). rewrite !unsnoc_app in E. naive_solver. Qed.

(** ** Partitions

    A disk whose name ends in a digit (nvme0n1) has partitions named with a [p]
    and a number, any other (sda) with the number alone. *)
Definition ends_in (f : ascii → bool) (s : string) : Prop := ∃ t c, s = t +:+ String c "" ∧ f c = true.
Definition partition_of (disk part : string) : Prop := ∃ n, allDigits n = true ∧
  ((ends_in is_digit disk ∧ part = disk +:+ "p" +:+ n) ∨
   (ends_in (λ c, negb (is_digit c) && negb (bool_decide (c = "p"%char))) disk ∧ part = disk +:+ n)).

Lemma parent_of_partition disk part : partition_of disk part → parentDisk part = disk.
Proof.
  intros (n & [Hn Hd]%andb_true_iff & [((t & c & Ed & _) & ->)|((t & c & Ed & Hc) & ->)]); unfold parentDisk.
  - change ("p" +:+ n) with (String "p" n). rewrite (after_last_app disk "p" n) by (by apply digits_free). unfold allDigits. rewrite Hn, Hd.
    rewrite bool_decide_false by (rewrite Ed; by destruct t). done.
  - apply andb_true_iff in Hc as [Hcd%negb_true_iff Hcp%negb_true_iff]. rewrite bool_decide_eq_false in Hcp.
    assert (Ht : trim_right is_digit (disk +:+ n) = disk).
    { rewrite trim_digits by done. apply trim_id_last. intros t' c' E'. rewrite Ed in E'.
      by apply string_snoc_inj in E' as [_ <-]. }
    assert (Hne : bool_decide (disk = disk +:+ n) = false).
    { apply bool_decide_eq_false. intros E. apply (f_equal String.length) in E. rewrite length_append in E.
      destruct n; [done|]. cbn in E. lia. }
    assert (Hres : (if bool_decide (trim_right is_digit (disk +:+ n) = disk +:+ n) then "" else trim_right is_digit (disk +:+ n)) = disk).
    { by rewrite Ht, Hne. }
    destruct (after_last "p" (disk +:+ n)) as [[h r]|] eqn:Ea; [|exact Hres].
    assert (allDigits r = false) as ->; [|by rewrite andb_false_r].
    unfold after_last in Ea. rewrite Ed, append_assoc in Ea. change (String c "" +:+ n) with (String c n) in Ea.
    rewrite last_from_suffix in Ea by (cbn; rewrite bool_decide_false by done; by apply digits_free).
    destruct (last_from t _) as [u|] eqn:Eu; [|done]. apply last_from_head in Eu as (v & ->). cbn in Ea. injection Ea as _ <-.
    unfold allDigits. rewrite sforall_app. cbn. by rewrite Hcd, andb_false_r, andb_false_r.
Qed.

Lemma mount_names_spec line part mp rest : Fields line = ("/dev/" +:+ part) :: mp :: rest → no_slash part → part ≠ "" →
  mount_names line = part :: (if bool_decide (parentDisk part = "") then [] else [parentDisk part]).
Proof.
  intros Hf Hs Hn. unfold mount_names. rewrite Hf.
  assert (HasPrefix ("/dev/" +:+ part) "/dev/" = true) as -> by (apply HasPrefix_spec; by exists part). cbn [negb].
  rewrite (Base_last _ part); [done| |done]. split; [done|]. right. by exists "/dev".
Qed.


(** ** Creating over existing data *)

(** A device with a boot signature, or one that cannot be inspected; an image
    qemu-img reports a size for. *)
Definition device_used (env : DiskEnv) (path : string) : Prop :=
  (∃ e, de_first env path = Err e) ∨
  ∃ buf, de_first env path = Ok buf ∧ (512 <= length buf)%nat ∧ buf !! 510%nat = Some 0x55 ∧ buf !! 511%nat = Some 0xAA.
Definition image_used (env : DiskEnv) (path : string) : Prop :=
  de_missing env path = false ∧ ∃ out size, de_info env path = Some out ∧ "virtual size:" +:+ size ∈ Split newline out.
Definition holds_data (env : DiskEnv) (cfg : VMConfig) (d : DiskConfig) : Prop :=
  IsInstallISO d = false ∧
  if d_Passthrough d then c_SkipInstall cfg = false ∧ device_used env (d_Path d)
  else (d_ImageFile d = false ∨ c_SkipInstall cfg = false) ∧ image_used env (d_Path d).

Lemma check_disk_warns env cfg d : holds_data env cfg d → is_Some (check_disk env cfg d).
Proof.
  intros [Hi Hd]. unfold check_disk. rewrite Hi. destruct (d_Passthrough d); cbn [orb].
  - destruct Hd as [-> Hu]. unfold checkBlockDevice. destruct Hu as [[e ->]|(buf & -> & Hl & Ha & Hb)]; [eauto|].
    destruct (Nat.ltb_spec (length buf) 512); [lia|]. unfold at_byte. rewrite Ha, Hb. cbn. eauto.
  - destruct Hd as [Hs (Hm & out & size & Ho & Hin)].
    assert (d_ImageFile d && c_SkipInstall cfg = false) as -> by (destruct (d_ImageFile d); naive_solver).
    rewrite Hm. unfold checkImageFile. rewrite Ho.
    destruct (omap virtual_size (Split newline out)) as [|v vs] eqn:E; cbn; [|eauto]. exfalso.
    assert (size ∈ omap virtual_size (Split newline out)) as Hv.
    { apply list_elem_of_omap. eexists. split; [done|]. unfold virtual_size.
      rewrite (proj2 (HasPrefix_spec _ _)) by eauto. reflexivity. }
    rewrite E in Hv. by apply elem_of_nil in Hv.
Qed.

Section Create.
Context {S : Type} `{VMStoreLaws S} (be : BuildEnv S) (fs : FsEnv).

(** A VM is not created over existing data unasked.  When a disk of a new
    QEMU VM is a device with a partition table or one that cannot be
    inspected, or an image that exists, and the user does not confirm, the
    creation fails and leaves the world exactly as it was. *)
Theorem create_spares_data host env cenv cfg d (w : World S) :
  BackendName cfg = QEMU → ce_warnings cenv = disk_warnings env → ce_confirm cenv = false →
  d ∈ c_Disks cfg → holds_data env cfg d →
  ∃ e, Create be fs host cenv cfg w = (Err e, w).
Proof.
  intros Hq Hw Hc Hd Hh. apply check_disk_warns in Hh as [x Hx].
  assert (disk_warnings env cfg = Ok (warning_line <$> omap (check_disk env cfg) (c_Disks cfg))) as Hdw.
  { unfold disk_warnings, CheckDisksForData. rewrite bool_decide_false by (rewrite Hq; discriminate). done. }
  assert (warning_line <$> omap (check_disk env cfg) (c_Disks cfg) ≠ []) as Hne.
  { intros E%fmap_nil_inv. assert (x ∈ omap (check_disk env cfg) (c_Disks cfg)) as Hin by (apply list_elem_of_omap; eauto).
    rewrite E in Hin. by apply elem_of_nil in Hin. }
  unfold Create. rewrite run_bind. unfold create_config. rewrite run_bind. unfold lift.
  destruct (create_guards host cfg) as [[]|e]; [|eexists; done]. rewrite run_ret. cbv beta iota zeta. rewrite run_bind.
  destruct (fs_mkdir fs _) as [e|]; [eexists; done|]. rewrite run_ret. cbv beta iota. rewrite run_bind. unfold lift_as.
  rewrite Hw, Hdw. rewrite run_ret. cbv beta iota. rewrite Hc, bool_decide_false by done. eexists. done.
Qed.
End Create.

(** ** CPU lists *)
Lemma cpu_parts_spec parts out cpus : cpu_parts parts out = Ok cpus → NoDup out → Forall (λ c, 0 <= c) out →
  NoDup cpus ∧ Forall (λ c, 0 <= c) cpus ∧
  ∀ c, c ∈ cpus ↔ c ∈ out ∨ ∃ p, p ∈ parts ∧ TrimSpace p ≠ "" ∧ Atoi (TrimSpace p) = Some c.
Proof.
  revert out. induction parts as [|p parts IH]; cbn; intros out H Hn Hp.
  { injection H as <-. split_and!; [done..|]. set_solver. }
  case_bool_decide as Ep; [destruct (IH _ H Hn Hp) as (? & ? & Hc); split_and!; [done..|]; intros c; rewrite Hc; set_solver|].
  destruct (Atoi (TrimSpace p)) as [n|] eqn:Ea; [|done]. destruct (Z.ltb_spec n 0); [done|]. case_bool_decide as En.
  - destruct (IH _ H Hn Hp) as (? & ? & Hc). split_and!; [done..|]. intros c. rewrite Hc. set_solver.
  - destruct (IH _ H) as (? & ? & Hc).
    { apply NoDup_app. split_and!; [done|set_solver|apply NoDup_singleton]. }
    { apply Forall_app. split; [done|]. by apply Forall_singleton. }
    split_and!; [done..|]. intros c. rewrite Hc. set_solver.
Qed.

Lemma Join_sforall f sep l : sforall f sep = true → Forall (λ s, sforall f s = true) l → sforall f (Join sep l) = true.
Proof.
  intros Hs. induction 1 as [|x l Hx _ IH]; [done|]. destruct l as [|y l]; [done|].
  change (Join sep (x :: y :: l)) with (x +:+ sep +:+ Join sep (y :: l)). by rewrite !sforall_app, Hx, Hs, IH.
Qed.

Definition cpu_index (c : Z) : Prop := 0 <= c <= max_int.

Lemma cpu_text c : cpu_index c → Atoi (Itoa c) = Some c ∧ sforall is_digit (Itoa c) = true ∧ Itoa c ≠ "".
Proof.
  intros Hc. unfold cpu_index in Hc. destruct (decide (c = 0)) as [->|]; [by vm_compute|].
  split_and!; [apply Atoi_Itoa; lia|apply Itoa_digits; lia|apply Itoa_nonempty; lia].
Qed.

Lemma cpu_parts_read cpus out : Forall cpu_index cpus → NoDup (out ++ cpus) →
  cpu_parts (Itoa <$> cpus) out = Ok (out ++ cpus).
Proof.
  intros Hc. revert out. induction Hc as [|c cpus Hc _ IH]; intros out Hn; cbn; [by rewrite app_nil_r|].
  destruct (cpu_text c Hc) as (Ha & Hd & Hne). rewrite TrimSpace_id by by apply digits_token.
  rewrite bool_decide_false, Ha by done. unfold cpu_index in Hc. destruct (Z.ltb_spec c 0); [lia|].
  apply NoDup_app in Hn as Hn'. destruct Hn' as (_ & Hd' & _).
  rewrite bool_decide_false by (intros Hin; apply (Hd' c Hin); apply list_elem_of_here).
  rewrite IH by (by rewrite <- app_assoc). by rewrite <- app_assoc.
Qed.

(** CPU lists are read as they are written.  A list of distinct indices
    written with commas is parsed back exactly, in order; and whatever text is
    accepted gives distinct, non-negative indices, precisely those it names. *)
Theorem cpu_pinning_roundtrip :
  (∀ cpus, Forall cpu_index cpus → NoDup cpus → ParseCPUPinning (Join "," (Itoa <$> cpus)) = Ok cpus) ∧
  ∀ s cpus, ParseCPUPinning s = Ok cpus →
    NoDup cpus ∧ Forall (λ c, 0 <= c) cpus ∧
    ∀ c, c ∈ cpus ↔ ∃ p, p ∈ Split "," (TrimSpace s) ∧ TrimSpace p ≠ "" ∧ Atoi (TrimSpace p) = Some c.
Proof.
  split.
  - intros cpus Hc Hn. unfold ParseCPUPinning. rewrite TrimSpace_id.
    2: { apply Join_sforall; [done|]. apply Forall_fmap. eapply Forall_impl; [done|]. intros c Hx.
         apply digits_token. by destruct (cpu_text c Hx) as (_ & ? & _). }
    destruct cpus as [|c cpus]; [done|]. rewrite bool_decide_false.
    2: { apply Forall_cons in Hc as [Hx _]. destruct (cpu_text c Hx) as (_ & _ & Hne). rewrite fmap_cons. cbn.
         destruct (Itoa <$> cpus); [done|]. by destruct (Itoa c). }
    change "," with (String "," ""). rewrite Split_Join; [by apply (cpu_parts_read (c :: cpus) [])|done|].
    apply Forall_fmap. eapply Forall_impl; [exact Hc|]. intros x Hx. destruct (cpu_text x Hx) as (_ & Hd & _). by apply digits_free.
  - intros s cpus. unfold ParseCPUPinning. case_bool_decide as Es.
    + intros [= <-]. rewrite Es. split_and!; [constructor|constructor|]. intros c. split; [set_solver|].
      intros (p & Hp & Hne & _). cbn in Hp. apply list_elem_of_singleton in Hp as ->. done.
    + intros H. destruct (cpu_parts_spec _ _ _ H) as (? & ? & Hc); [constructor|constructor|].
      split_and!; [done..|]. intros c. rewrite Hc. set_solver.
Qed.

Section SetPinning.
Context {S : Type} `{VMStoreLaws S}.

(** A pinning is recorded as given, or refused with no change; an accepted one
    names CPUs of the host. *)
Theorem set_pinning_records host numCPU n cpus (w : World S) cfg :
  healthy (w_store w) → cfg_view (w_store w) !! n = Some cfg →
  (∃ e, SetCPUPinning host numCPU n cpus w = (Err e, w)) ∨
  Forall (λ c, c < numCPU) cpus ∧ ∃ w', SetCPUPinning host numCPU n cpus w = (Ok tt, w') ∧
    st_view (w_store w') = st_view (w_store w) ∧
    cfg_view (w_store w') = <[c_Name cfg := persisted (cfg <| c_CPUPinning := cpus |>)]> (cfg_view (w_store w)).
Proof.
  intros Hh Hc. unfold SetCPUPinning. destruct (negb _); [left; by eexists|]. unfold ValidateCPUPinning.
  destruct (find _ cpus) as [c|] eqn:Hf; [left; by eexists|]. right. split.
  - apply Forall_forall. intros c Hin. pose proof (find_none _ _ Hf c) as Hlt.
    specialize (Hlt ltac:(by apply list_elem_of_In)). by apply Z.leb_gt in Hlt.
  - unfold updateConfig. rewrite run_bind, (st_loadConfig n w cfg) by done.
    destruct (st_saveConfig (cfg <| c_CPUPinning := cpus |>) w Hh) as (s' & -> & _ & ? & ?). by eexists.
Qed.
End SetPinning.

(** ** Examples *)
Module HostDevExample.
Definition block : BlockEnv :=
  mkBlockEnv (Ok ["nvme0n1"; "sda"; "sdp"]) (Some [("ata-WDC_WD40_X123", Some "../../sda")])
    (λ p, if bool_decide (p = "/sys/block/sda/size") then Some (String.concat "" ["7814037168"; String newline ""]) else None)
    (Ok ["/dev/nvme0n1p2 / ext4 rw 0 0"; "/dev/sdp1 /data ext4 rw 0 0"; "proc /proc proc rw 0 0"]).
Definition sector : list Z := replicate 510 0 ++ [0x55; 0xAA].
Definition disk : DiskEnv := mkDiskEnv (λ _, Ok sector) (λ _, false) (λ _, None).
End HostDevExample.


Definition data_cenv : CreateEnv Db.DB :=
  mkCreateEnv _ (disk_warnings HostDevExample.disk) false (λ c, mret c) (λ dir _, Ok (dir +:+ "/cidata.iso"))
    (λ dir _, Ok (dir +:+ "/seed.iso")).
Definition data_disk : DiskConfig := zeroDisk <| d_Path := "/dev/sda" |> <| d_Passthrough := true |>.
Lemma create_spares_data_witness :
  ∃ e, Create HostExample.be DiskExample.fs Scenario.linux data_cenv (zeroConfig <| c_Name := "web" |> <| c_Disks := [data_disk] |>)
         DiskExample.world = (Err e, DiskExample.world).
Proof.
  apply (create_spares_data HostExample.be DiskExample.fs Scenario.linux HostDevExample.disk data_cenv
           (zeroConfig <| c_Name := "web" |> <| c_Disks := [data_disk] |>) data_disk DiskExample.world).
  - vm_compute. reflexivity.
  - reflexivity.
  - reflexivity.
  - apply list_elem_of_here.
  - split; [vm_compute; reflexivity|]. split; [reflexivity|]. right. exists HostDevExample.sector.
    split; [reflexivity|]. split; [vm_compute; lia|]. split; vm_compute; reflexivity.
Defined.

(** *** Surprising behaviour *)

(** The sixteenth SCSI disk: its partition is taken for one of a disk [sd], so
    the disk is offered for passthrough while its file system is mounted. *)
Example sdp_offered_while_mounted :
  parentDisk "sdp1" = "sd" ∧ parentDisk "sda1" = "sda" ∧
  ∃ devs, ListUnmounted HostDevExample.block = Ok devs ∧ "sdp" ∈ dv_Name <$> devs.
Proof.
  split; [vm_compute; reflexivity|]. split; [vm_compute; reflexivity|]. eexists. split; [vm_compute; reflexivity|].
  apply (bool_decide_unpack _). vm_compute. exact I.
Qed.

(** A whole NVMe disk is given a parent. *)
Example nvme_parent : parentDisk "nvme0n1" = "nvme0n".
Proof. vm_compute. reflexivity. Qed.

(** The order of a CPU list is kept, not sorted. *)
Example pinning_unsorted : ParseCPUPinning "3, 1,3" = Ok [3; 1].
Proof. vm_compute. reflexivity. Qed.

(** From an exabyte on, describing a device panics. *)
Example huge_device_panics : humanSize (10 ^ 18) = None ∧ humanSize (10 ^ 18 - 1) = Some "999PB".
Proof. vm_compute. split; reflexivity. Qed.
