(* ===== verification/Vz.v ===== *)
(** * The Virtualization.framework backend

    [internal/vm/backend_vz.go] with the contract of
    [internal/vzhelper/vzhelper.go]: the machine spec and its validation, the
    preparation of a Linux guest's disks at creation, the build, the detached
    start with its Screen Sharing grant, the control socket and the shutdown
    watcher.  The helper process and Apple's framework behind it are the
    [VzEnv]. *)
From S2P Require Import Prelude GoStrings Boot Config Store World Paths Lifecycle Guest Ready Daemon Sha1 Qemu Machine Storage.

Open Scope Z_scope.

(** ** The machine spec *)
Record DisplaySpec := mkDisplaySpec { dp_WidthPx : Z; dp_HeightPx : Z; dp_PPI : Z }.
Record DiskSpec := mkDiskSpec { ds_Path : string; ds_ReadOnly : bool }.

Record MachineSpec := mkMachineSpec {
  sp_Name : string;
  sp_CPUs : Z;
  sp_MemoryBytes : Z;
  sp_MAC : string;
  sp_Disks : list DiskSpec;
  sp_Platform : string;
  sp_AuxiliaryStorage : string;
  sp_HardwareModel : list Byte.byte;
  sp_MachineIdentifier : list Byte.byte;
  sp_Display : DisplaySpec;
  sp_EFIVariableStore : string;
  sp_Kernel : string;
  sp_Cmdline : string;
  sp_Initrd : string;
  sp_SerialLog : string;
  sp_Vsock : bool;
  sp_Recovery : bool;
}.
#[export] Instance MachineSpec_eta : Settable MachineSpec := λ s,
  mkMachineSpec (sp_Name s) (sp_CPUs s) (sp_MemoryBytes s) (sp_MAC s) (sp_Disks s) (sp_Platform s)
    (sp_AuxiliaryStorage s) (sp_HardwareModel s) (sp_MachineIdentifier s) (sp_Display s) (sp_EFIVariableStore s)
    (sp_Kernel s) (sp_Cmdline s) (sp_Initrd s) (sp_SerialLog s) (sp_Vsock s) (sp_Recovery s).

Definition PlatformMacOS : string := "macos".
Definition PlatformLinux : string := "linux".
Definition PlatformName (s : MachineSpec) : string :=
  if bool_decide (sp_Platform s = "") then PlatformMacOS else sp_Platform s.
Definition DefaultDisplay : DisplaySpec := mkDisplaySpec 1920 1200 80.
Definition ProtocolVersion : Z := 3.
Definition ProtocolRecovery : Z := 2.

Definition ControlSocketPath (vmDir : string) : string := PathJoin [vmDir; "vz-control.sock"].
Definition SpecPath (vmDir : string) : string := PathJoin [vmDir; "vz-machine.json"].
Definition ResultPath (vmDir : string) : string := PathJoin [vmDir; "vz-result.json"].
Definition LogPath (vmDir : string) : string := PathJoin [vmDir; "vz-helper.log"].
Definition EFIVariableStorePath (vmDir : string) : string := PathJoin [vmDir; "efi-vars.fd"].
Definition VzSerialLogPath (vmDir : string) : string := PathJoin [vmDir; "serial.log"].
Definition VsockBridgePath (vmDir : string) (port : Z) : string :=
  PathJoin [vmDir; "vz-vsock-" +:+ Itoa port +:+ ".sock"].

Definition given (s : string) : bool := negb (bool_decide (s = "")).
Definition exists_in (files : gset string) (p : string) : bool := bool_decide (p ∈ files).

Definition spec_err (what : string) : error := Errorf ("vz machine spec: " +:+ what) [].

Definition ValidateSpec (files : gset string) (s : MachineSpec) : result error unit :=
  if sp_CPUs s =? 0 then Err (spec_err "cpus must be > 0")
  else if sp_MemoryBytes s =? 0 then Err (spec_err "memory_bytes must be > 0")
  else if bool_decide (length (sp_Disks s) = 0%nat) then Err (spec_err "at least one disk is required")
  else if existsb (λ d, negb (exists_in files (ds_Path d))) (sp_Disks s) then Err (spec_err "disk image")
  else if negb (given (sp_MAC s)) then Err (spec_err "mac is required")
  else if bool_decide (PlatformName s = PlatformMacOS) then
    if negb (given (sp_AuxiliaryStorage s)) then Err (spec_err "auxiliary_storage is required")
    else if negb (exists_in files (sp_AuxiliaryStorage s)) then Err (spec_err "auxiliary storage")
    else if bool_decide (length (sp_HardwareModel s) = 0%nat) || bool_decide (length (sp_MachineIdentifier s) = 0%nat)
    then Err (spec_err "hardware_model and machine_identifier blobs are required")
    else if given (sp_Kernel s) || given (sp_Cmdline s) || given (sp_Initrd s)
    then Err (spec_err "kernel / cmdline / initrd are for direct-kernel Linux boot")
    else Ok tt
  else if bool_decide (PlatformName s = PlatformLinux) then
    let boot :=
      if given (sp_Kernel s) then
        if given (sp_EFIVariableStore s) then Err (spec_err "kernel and efi_variable_store are mutually exclusive")
        else if negb (exists_in files (sp_Kernel s)) then Err (spec_err "kernel image")
        else if given (sp_Initrd s) && negb (exists_in files (sp_Initrd s)) then Err (spec_err "initrd")
        else Ok tt
      else if given (sp_Cmdline s) || given (sp_Initrd s)
      then Err (spec_err "cmdline / initrd only apply to a direct-kernel boot")
      else if negb (given (sp_EFIVariableStore s)) then Err (spec_err "a linux guest needs a boot method")
      else Ok tt in
    match boot with
    | Err e => Err e
    | Ok _ =>
        if sp_Recovery s then Err (spec_err "recovery is a macOS start option")
        else if bool_decide (length (sp_HardwareModel s) ≠ 0%nat) || bool_decide (length (sp_MachineIdentifier s) ≠ 0%nat)
                || given (sp_AuxiliaryStorage s)
        then Err (spec_err "macOS restore artifacts on a linux guest")
        else Ok tt
    end
  else Err (spec_err "unknown platform").

(** The spec the helper loads: a macOS guest always has a display. *)
Definition LoadSpec (files : gset string) (s : MachineSpec) : result error MachineSpec :=
  let s := if bool_decide (PlatformName s = PlatformMacOS)
              && (dp_WidthPx (sp_Display s) =? 0) && (dp_HeightPx (sp_Display s) =? 0) && (dp_PPI (sp_Display s) =? 0)
           then s <| sp_Display := DefaultDisplay |> else s in
  match ValidateSpec files s with Ok _ => Ok s | Err e => Err e end.

Definition ParseMemoryBytes (s : string) : result error Z :=
  let t := TrimSpace s in
  match unsnoc t with
  | None => Err (Errorf "empty memory size" [])
  | Some (prefix, c) =>
      let mult := size_mult c in
      let '(mult, digits) := if 1 <? mult then (mult, prefix) else (MiB, t) in
      match ParseUint64 (TrimSpace digits) with
      | Some n => Ok (wrapu64 (n * mult))
      | None => Err (Errorf "parse memory size" [s])
      end
  end.

(** ** What the helper and the host answer *)

(** The outcome of [EnsureScreenSharingGrants]. *)
Inductive grant_outcome :=
| GrantDone (granted : bool)
| GrantDiskBusy (e : error)
| GrantNoTCCDB
| GrantUnknownSchema
| GrantFailed (e : error).

(** What becomes of a spawned helper within the start timeout. *)
Inductive helper_outcome :=
| HelperUp                       (* its control socket appeared *)
| HelperExited (detail : string) (* it exited; the error it recorded *)
| HelperSilent.                  (* neither *)

Record VzEnv (S : Type) := mkVzEnv {
  ve_helper : result error string;
  ve_protocol : string → Z;
  ve_write_spec : string → option error;
  ve_log : string → option error;
  ve_grants : string → grant_outcome;
  ve_tables : World S → NetTables;
  ve_spawn : string → string → result error (Z * helper_outcome);
  (** [qemu-img], when it is found, and its answers *)
  ve_qemu_img : option string;
  ve_mkdir : string → option error;
  ve_convert : string → string → option error;
  ve_resize : string → string → option error;
  ve_create : string → string → option error;
}.
Arguments ve_helper {S} _ : assert.
Arguments ve_protocol {S} _ _ : assert.
Arguments ve_write_spec {S} _ _ : assert.
Arguments ve_log {S} _ _ : assert.
Arguments ve_grants {S} _ _ : assert.
Arguments ve_tables {S} _ _ : assert.
Arguments ve_spawn {S} _ _ _ : assert.
Arguments ve_qemu_img {S} _ : assert.
Arguments ve_mkdir {S} _ _ : assert.
Arguments ve_convert {S} _ _ _ : assert.
Arguments ve_resize {S} _ _ _ : assert.
Arguments ve_create {S} _ _ _ : assert.

(** ** Disks of a Linux guest *)
Definition rawSuffixes : list string := [".qcow2"; ".qcow"; ".img"; ".vmdk"; ".vdi"; ".vhd"].
Definition vzRawDiskPath (path : string) : string :=
  match find (HasSuffix path) rawSuffixes with
  | Some suffix => TrimSuffix path suffix +:+ ".raw"
  | None => if HasSuffix path ".raw" then path else PathJoin [path; "disk-os.raw"]
  end.

Definition vzRepointDisk (d : DiskConfig) (target : string) : DiskConfig :=
  d <| d_Path := target |> <| d_Format := "raw" |> <| d_BackingFile := "" |> <| d_Cache := "" |>.

Definition AppleSilicon (host : Host) : bool := IsMacOS host && bool_decide (HostArch host = "arm64").
Definition not_apple (host : Host) : error :=
  Errorf "the vz backend requires an Apple Silicon macOS host" [HostOS host; HostArch host].

Section Vz.
Context {S : Type} `{VMStore S} (host : Host) (be : BuildEnv S) (ve : VzEnv S).
Abbreviation M := (GoM (World S) error).

Definition stat (p : string) : M bool := gets (λ w, exists_in (w_files w) p).

(** A command that writes [target]; on failure the target is removed. *)
Definition img_step (target what : string) (answer : option error) : M unit :=
  match answer with
  | None => add_file target
  | Some e => _ ← drop_file target; throw (Wrapf what e)
  end.

Definition materializeVZDisk (d : DiskConfig) : M DiskConfig :=
  let target := vzRawDiskPath (d_Path d) in
  there ← stat target;
  if (there : bool) then mret (vzRepointDisk d target) else
  _ ← (match ve_mkdir ve (Dir target) with Some e => throw e | None => mret tt end);
  match ve_qemu_img ve with
  | None => throw (Errorf "qemu-img not found" [])
  | Some _ =>
      _ ← (if given (d_BackingFile d) then
             _ ← img_step target "convert to raw" (ve_convert ve (d_BackingFile d) target);
             if given (d_Size d) then img_step target "resize" (ve_resize ve target (d_Size d)) else mret tt
           else img_step target "create raw disk" (ve_create ve target (d_Size d)));
      mret (vzRepointDisk d target)
  end.

Definition bad_format (d : DiskConfig) : bool := negb (bool_decide (d_Format d ∈ [""; "raw"; "qcow2"])).

(** The disks in order; the ones done before a failure stay on disk. *)
Fixpoint materializeVZLinuxDisks (ds : list DiskConfig) : M (list DiskConfig) :=
  match ds with
  | [] => mret []
  | d :: ds' =>
      d' ← (if bool_decide (d_Media d = "cdrom") then mret d
            else if bad_format d then throw (Errorf "the vz backend cannot use disk" [d_Path d; d_Format d])
            else materializeVZDisk d);
      rest ← materializeVZLinuxDisks ds';
      mret (d' :: rest)
  end.

Definition vz_refusal (cfg : VMConfig) : option error :=
  if negb (AppleSilicon host) then Some (not_apple host)
  else if given (g_Mode (c_GPU cfg)) && negb (bool_decide (g_Mode (c_GPU cfg) = GPUNone))
  then Some (Errorf "the vz backend has no GPU support" [g_Mode (c_GPU cfg)])
  else if (match c_TPM cfg with Some t => tpm_Enabled t | None => false end)
  then Some (Errorf "the vz backend does not support a TPM device" [])
  else if negb (bool_decide (length (c_VirtiofsMounts cfg) = 0%nat))
  then Some (Errorf "the vz backend does not support virtiofs shares for Linux guests yet" [])
  else if bool_decide (nic_Mode (c_NIC cfg) = "bridge")
  then Some (Errorf "the vz backend attaches guests to NAT only" [])
  else if existsb d_Passthrough (c_Disks cfg)
  then Some (Errorf "the vz backend does not support raw device passthrough" [])
  else None.

(** The kernel and the initrd, which are files of the host. *)
Definition boot_file (what p : string) : M unit :=
  if negb (given p) then mret tt
  else if negb (IsAbs p) then throw (Errorf "the vz backend requires an absolute path" [what; p])
  else there ← stat p; if (there : bool) then mret tt else throw (Errorf "no such image" [what; p]).

(** Devices a guest does without. *)
Definition vz_drop (cfg : VMConfig) : VMConfig :=
  let cfg := match c_SPICE cfg with
             | Some _ => cfg <| c_SPICE := None |>
                             <| c_Services := filter (λ s, negb (bool_decide (se_Protocol s = ServiceSPICE)) = true) (c_Services cfg) |>
             | None => cfg
             end in
  let cfg := if 0 <? c_SSHPort cfg then cfg <| c_SSHPort := 0 |> else cfg in
  cfg <| c_UEFI := mkUEFIConfig false "" "" |>.

Definition prepareVZLinuxCreate (cfg : VMConfig) : M VMConfig :=
  match vz_refusal cfg with
  | Some e => throw e
  | None =>
      _ ← boot_file "kernel" (c_Kernel cfg);
      _ ← boot_file "initrd" (c_Initrd cfg);
      let cfg := vz_drop cfg in
      ds ← materializeVZLinuxDisks (c_Disks cfg);
      mret (cfg <| c_Disks := ds |>)
  end.

(** ** Building *)
Fixpoint disk_specs (files : gset string) (ds : list DiskConfig) : result error (list DiskSpec) :=
  match ds with
  | [] => Ok []
  | d :: ds' =>
      if d_Passthrough d then Err (Errorf "the vz backend does not support raw device passthrough" [d_Path d])
      else if given (d_Format d) && negb (bool_decide (d_Format d = "raw"))
      then Err (Errorf "the vz backend supports raw disk images only" [d_Path d; d_Format d])
      else if negb (IsAbs (d_Path d)) then Err (Errorf "the vz backend requires absolute disk paths" [d_Path d])
      else
        let here := if bool_decide (d_Media d = "cdrom")
                    then if exists_in files (d_Path d) then [mkDiskSpec (d_Path d) true] else []
                    else [mkDiskSpec (d_Path d) (d_Readonly d)] in
        match disk_specs files ds' with
        | Ok rest => Ok (here ++ rest)
        | Err e => Err e
        end
  end.
Definition vzDiskSpecs (cfg : VMConfig) : M (list DiskSpec) := λ w, (disk_specs (w_files w) (c_Disks cfg), w).

(** The config, spec and helper of a start; the config gets a MAC address when
    it has none. *)
Definition fill_mac (cfg : VMConfig) : VMConfig :=
  if bool_decide (nic_MAC (c_NIC cfg) = "")
  then cfg <| c_NIC := (c_NIC cfg) <| nic_MAC := DeterministicMAC (c_Name cfg) |> |> else cfg.

Definition linuxRescueCmdline : string := "systemd.unit=rescue.target".

(** The recorded minimums of a restored macOS image. *)
Definition raise_to (minimum v : Z) : Z := if (0 <? minimum) && (v <? minimum) then minimum else v.

Definition macos_display (mac : MacOSConfig) : DisplaySpec :=
  if (0 <? mac_DisplayWidthPx mac) && (0 <? mac_DisplayHeightPx mac)
  then mkDisplaySpec (mac_DisplayWidthPx mac) (mac_DisplayHeightPx mac)
         (if mac_DisplayPPI mac <=? 0 then dp_PPI DefaultDisplay else mac_DisplayPPI mac)
  else DefaultDisplay.

Definition no_display : DisplaySpec := mkDisplaySpec 0 0 0.

(** The part of the spec that depends on the guest's platform. *)
Definition platform_spec (cfg : VMConfig) (recovery : bool) (helper : string) (base : MachineSpec)
  : result error MachineSpec :=
  match c_MacOS cfg with
  | Some mac =>
      if given (c_Kernel cfg) || given (c_Cmdline cfg) || given (c_Initrd cfg)
      then Err (Errorf "direct-kernel boot (kernel/cmdline/initrd) is for Linux guests" [])
      else if given (mac_AuxiliaryStorage mac) && negb (IsAbs (mac_AuxiliaryStorage mac))
      then Err (Errorf "the vz backend requires an absolute auxiliary_storage path" [mac_AuxiliaryStorage mac])
      else if recovery && (ve_protocol ve helper <? ProtocolRecovery)
      then Err (Errorf "the installed helper predates --recovery" [Itoa (ve_protocol ve helper)])
      else Ok (base <| sp_Platform := PlatformMacOS |> <| sp_AuxiliaryStorage := mac_AuxiliaryStorage mac |>
                    <| sp_HardwareModel := mac_HardwareModel mac |>
                    <| sp_MachineIdentifier := mac_MachineIdentifier mac |>
                    <| sp_Display := macos_display mac |> <| sp_Recovery := recovery |>)
  | None =>
      let base := base <| sp_Platform := PlatformLinux |> <| sp_SerialLog := VzSerialLogPath (vmDir be (c_Name cfg)) |> in
      if given (c_Kernel cfg) then
        if negb (IsAbs (c_Kernel cfg)) then Err (Errorf "the vz backend requires an absolute kernel path" [c_Kernel cfg])
        else if given (c_Initrd cfg) && negb (IsAbs (c_Initrd cfg))
        then Err (Errorf "the vz backend requires an absolute initrd path" [c_Initrd cfg])
        else Ok (base <| sp_Kernel := c_Kernel cfg |>
                      <| sp_Cmdline := if recovery then TrimSpace (c_Cmdline cfg +:+ " " +:+ linuxRescueCmdline)
                                       else c_Cmdline cfg |>
                      <| sp_Initrd := c_Initrd cfg |>)
      else if given (c_Cmdline cfg) || given (c_Initrd cfg)
      then Err (Errorf "cmdline / initrd only apply to a direct-kernel boot" [])
      else Ok (base <| sp_EFIVariableStore := EFIVariableStorePath (vmDir be (c_Name cfg)) |>)
  end.

Definition vz_spec (files : gset string) (cfg : VMConfig) (recovery : bool) : result error (VMConfig * MachineSpec * string) :=
  if negb (AppleSilicon host) then Err (not_apple host)
  else if 0 <? c_SSHPort cfg then Err (Errorf "the vz backend does not support ssh_port" [])
  else if c_Nested cfg then Err (Errorf "the vz backend does not support nested virtualization" [])
  else
    let cfg := fill_mac cfg in
    match ParseMemoryBytes (c_Memory cfg) with
    | Err e => Err e
    | Ok memBytes =>
        if c_CPUs cfg <=? 0 then Err (Errorf "the vz backend requires cpus > 0" [])
        else
          let '(cpus, memBytes) :=
            match c_MacOS cfg with
            | Some mac => (raise_to (mac_MinCPUs mac) (c_CPUs cfg), raise_to (mac_MinMemoryBytes mac) memBytes)
            | None => (c_CPUs cfg, memBytes)
            end in
          match disk_specs files (c_Disks cfg) with
          | Err e => Err e
          | Ok disks =>
              match ve_helper ve with
              | Err e => Err e
              | Ok helper =>
                  match platform_spec cfg recovery helper
                          (mkMachineSpec (c_Name cfg) cpus memBytes (nic_MAC (c_NIC cfg)) disks "" "" [] [] no_display
                             "" "" "" "" "" (c_Vsock cfg) false) with
                  | Err e => Err e
                  | Ok spec =>
                      match ValidateSpec files spec with
                      | Err e => Err e
                      | Ok _ => Ok (cfg, spec, helper)
                      end
                  end
              end
          end
    end.

Record vzMachine := mkVzMachine {
  vm_name : string; vm_dir : string; vm_helper : string; vm_mac : string; vm_disk : string; vm_cfg : VMConfig }.

Definition buildVZMachine (cfg : VMConfig) (recovery : bool) : M (VMConfig * vzMachine) :=
  files ← gets w_files;
  match vz_spec files cfg recovery with
  | Err e => throw e
  | Ok (cfg, spec, helper) =>
      let dir := vmDir be (c_Name cfg) in
      match ve_write_spec ve dir with
      | Some e => throw (Wrapf "write vz machine spec" e)
      | None =>
          _ ← add_file (SpecPath dir);
          mret (cfg, mkVzMachine (c_Name cfg) dir helper (nic_MAC (c_NIC cfg))
                       (match sp_Disks spec with d :: _ => ds_Path d | [] => "" end) cfg)
      end
  end.

(** ** Starting *)
Definition set_mac (cfg : VMConfig) (f : MacOSConfig → MacOSConfig) : VMConfig := cfg <| c_MacOS := f <$> c_MacOS cfg |>.
Definition grant_settled (unsupported : bool) (mac : MacOSConfig) : MacOSConfig :=
  mkMacOSConfig (mac_AuxiliaryStorage mac) (mac_HardwareModel mac) (mac_MachineIdentifier mac) false
    (unsupported || mac_ScreenSharingUnsupported mac) (mac_DisplayWidthPx mac) (mac_DisplayHeightPx mac)
    (mac_DisplayPPI mac) (mac_MinCPUs mac) (mac_MinMemoryBytes mac).

Definition grant_pending (cfg : VMConfig) : bool :=
  match c_MacOS cfg with Some mac => mac_ScreenSharingGrantPending mac | None => false end.

Definition grantScreenSharing (v : vzMachine) : M unit :=
  if negb (grant_pending (vm_cfg v)) then mret tt else
  let settle unsupported := ignore (st (saveConfig (set_mac (vm_cfg v) (grant_settled unsupported)))) in
  match ve_grants ve (vm_disk v) with
  | GrantDiskBusy e => throw (Wrapf "run hdiutil detach on the guest disk" e)
  | GrantNoTCCDB => mret tt
  | GrantUnknownSchema => settle true
  | GrantFailed _ => mret tt
  | GrantDone _ => settle false
  end.

Definition vz_StartDetached (v : vzMachine) : M StartResult :=
  let sock := ControlSocketPath (vm_dir v) in
  _ ← drop_file sock;
  match ve_log ve (LogPath (vm_dir v)) with
  | Some e => throw (Wrapf "open helper log" e)
  | None =>
      _ ← add_file (LogPath (vm_dir v));
      _ ← grantScreenSharing v;
      leaseBaseline ← gets (λ w, dhcpLeaseExpiry (ve_tables ve w) (vm_mac v));
      match ve_spawn ve (vm_helper v) (vm_dir v) with
      | Err e => throw (Wrapf "start vee-vz-helper" e)
      | Ok (pid, HelperUp) =>
          _ ← add_file sock;
          _ ← modify (λ w, w <| w_alive := {[pid]} ∪ w_alive w |>);
          mret (mkStartResult pid sock "" leaseBaseline)
      | Ok (pid, HelperExited detail) =>
          throw (if given detail then Errorf "vee-vz-helper failed to start the VM" [detail]
                 else Errorf "vee-vz-helper exited during startup" [])
      | Ok (pid, HelperSilent) =>
          _ ← modify (λ w, w <| w_alive := {[pid]} ∪ w_alive w |>);
          _ ← kill pid;
          throw (Errorf "vee-vz-helper did not open its control socket in time" [])
      end
  end.

(** ** The control socket *)
Definition vzControlSocket (name : string) : M (VMConfig * string) :=
  cfg ← st (loadConfig name);
  if negb (bool_decide (BackendName cfg = VZ)) then throw (Errorf "VM does not use the vz backend" [name]) else
  r ← attempt (st (loadState name));
  match r with
  | Err _ => throw (Errorf "VM is not running" [name])
  | Ok s =>
      alive ← isAlive (s_PID s);
      if negb (given (s_ControlSocket s)) || negb alive then throw (Errorf "VM is not running" [name])
      else mret (cfg, s_ControlSocket s)
  end.

Definition vzVsockControlSocket (name : string) : M string :=
  r ← vzControlSocket name;
  if c_Vsock r.1 then mret r.2 else throw (Errorf "VM has no vsock device" [name]).

Record Response := mkResponse { rs_OK : bool; rs_Error : string; rs_Reason : string; rs_Path : string }.

Definition vzHelperOpError (msg feature : string) : error :=
  if Contains msg "unknown op"
  then Errorf "the running vee-vz-helper predates the feature" [msg; feature; Itoa ProtocolVersion]
  else Errorf msg [].
Definition vzVsockOpError (msg : string) : error := vzHelperOpError msg "vsock support".

(** [ask op port path] is a request over the socket it is given. *)
Definition vz_op (what : string) (sock : M string) (answer : string → result error Response) (feature : string)
  : M Response :=
  s ← sock;
  match answer s with
  | Err e => throw (Wrapf what e)
  | Ok r => if rs_OK r then mret r else throw (Wrapf what (vzHelperOpError (rs_Error r) feature))
  end.

Definition VZVsockListen (ask : string → string → Z → string → result error Response) (name : string) (port : Z) (hostSocket : string) : M unit :=
  _ ← vz_op "vsock-listen" (vzVsockControlSocket name) (λ s, ask s "vsock-listen" port hostSocket) "vsock support";
  mret tt.

(** The path of the bridge a caller then dials. *)
Definition VZVsockConnect (ask : string → string → Z → string → result error Response) (name : string) (port : Z) : M string :=
  r ← vz_op "vsock-connect" (vzVsockControlSocket name) (λ s, ask s "vsock-connect" port "") "vsock support";
  mret (rs_Path r).

Definition VZShowDisplay (ask : string → string → Z → string → result error Response) (name : string) : M unit :=
  _ ← vz_op "show-display"
        (r ← vzControlSocket name;
         match c_MacOS r.1 with
         | None => throw (Errorf "VM is a headless Linux guest - it has no display device" [name])
         | Some _ => mret r.2
         end)
        (λ s, ask s "show-display" 0 "") "the native display window";
  mret tt.

(** ** The shutdown watcher *)
Definition watchVZShutdown (name : string) (answer : result error Response) : M unit :=
  match answer with
  | Err _ =>
      res ← gets (λ w, w_vzresult w !! name);
      match res with
      | Some r => if given (res_Error r) || res_StopRequested r then mret tt else recordGuestShutdown name
      | None => mret tt
      end
  | Ok r => if bool_decide (rs_Reason r = "guest") then recordGuestShutdown name else mret tt
  end.

(** The command line that powers a guest off. *)
Definition vzShutdownArgs (user ip home : string) : list string :=
  ["-i"; PathJoin [home; ".vee"; "ssh"; "id_ed25519"]; "-o"; "BatchMode=yes"; "-o"; "StrictHostKeyChecking=no";
   "-o"; "UserKnownHostsFile=" +:+ PathJoin [home; ".vee"; "ssh"; "known_hosts"]; "-o"; "ConnectTimeout=5";
   user +:+ "@" +:+ ip; "sudo -n /sbin/shutdown -h now"].

(** [run args]: nil, or the error of [ssh] and its output. *)
Definition vzShutdownOverSSH (home sshBin : result error string) (run : list string → option (error * string))
    (name : string) : M unit :=
  cfg ← st (loadConfig name);
  if bool_decide (SSHUsername cfg = "") then throw (Errorf "no ssh user recorded" [name])
  else if bool_decide (nic_MAC (c_NIC cfg) = "") then throw (Errorf "no MAC recorded" [name])
  else
    tables ← gets (ve_tables ve);
    match ResolveIPFromMAC host tables (nic_MAC (c_NIC cfg)) with
    | Err e => throw (Wrapf "resolve guest IP" e)
    | Ok ip =>
        match home, sshBin with
        | Err e, _ => throw e
        | Ok _, Err e => throw e
        | Ok home, Ok _ =>
            match run (vzShutdownArgs (SSHUsername cfg) ip home) with
            | None => mret tt
            | Some (e, out) =>
                if Contains out "closed by remote host" || Contains out "Connection to" then mret tt
                else throw (Wrapf (TrimSpace out) e)
            end
        end
    end.
End Vz.

(** ** The interface the manager relies on *)
Section VzLaws.
Context {S : Type} `{VMStoreLaws S} (host : Host) (be : BuildEnv S) (ve : VzEnv S).
Implicit Types w : World S.

Lemma fill_mac_kept cfg : c_Name (fill_mac cfg) = c_Name cfg ∧ c_Disks (fill_mac cfg) = c_Disks cfg ∧
  c_InstallDevices (fill_mac cfg) = c_InstallDevices cfg ∧ c_Template (fill_mac cfg) = c_Template cfg ∧
  c_MacOS (fill_mac cfg) = c_MacOS cfg.
Proof. unfold fill_mac. by case_bool_decide. Qed.

(** What a spec that was accepted is made of. *)
Lemma vz_spec_inv files cfg b cfg' spec helper : vz_spec host be ve files cfg b = Ok (cfg', spec, helper) →
  AppleSilicon host = true ∧ cfg' = fill_mac cfg ∧ ve_helper ve = Ok helper ∧ ValidateSpec files spec = Ok tt ∧
  disk_specs files (c_Disks cfg) = Ok (sp_Disks spec) ∧
  ∃ cpus mem, ParseMemoryBytes (c_Memory cfg) = Ok mem ∧ 0 < c_CPUs cfg ∧
    (cpus, sp_MemoryBytes spec) = match c_MacOS cfg with
      | Some mac => (raise_to (mac_MinCPUs mac) (c_CPUs cfg), raise_to (mac_MinMemoryBytes mac) mem)
      | None => (c_CPUs cfg, mem)
      end ∧ sp_CPUs spec = cpus ∧
    platform_spec be ve (fill_mac cfg) b helper
      (mkMachineSpec (c_Name cfg) cpus (sp_MemoryBytes spec) (nic_MAC (c_NIC (fill_mac cfg))) (sp_Disks spec) "" "" [] []
         no_display "" "" "" "" "" (c_Vsock cfg) false) = Ok spec.
Proof.
  destruct (fill_mac_kept cfg) as (Hn & Hd & _ & _ & Hm).
  assert (c_Memory (fill_mac cfg) = c_Memory cfg ∧ c_CPUs (fill_mac cfg) = c_CPUs cfg ∧ c_Vsock (fill_mac cfg) = c_Vsock cfg)
    as (Hmem & Hc & Hv) by (unfold fill_mac; by case_bool_decide).
  unfold vz_spec. rewrite Hn, Hd, Hm, Hmem, Hc, Hv.
  destruct (AppleSilicon host); cbn [negb]; [|discriminate]. destruct (0 <? c_SSHPort cfg); [discriminate|].
  destruct (c_Nested cfg); [discriminate|].
  destruct (ParseMemoryBytes (c_Memory cfg)) as [mem|]; [|discriminate].
  destruct (Z.leb_spec (c_CPUs cfg) 0); [discriminate|].
  destruct (match c_MacOS cfg with Some mac => _ | None => _ end) as [cpus mem'] eqn:Ep.
  destruct (disk_specs files (c_Disks cfg)) as [disks|]; [|discriminate].
  destruct (ve_helper ve) as [h|]; [|discriminate].
  destruct (platform_spec _ _ _ _ _ _) as [sp|] eqn:Es; [|discriminate].
  destruct (ValidateSpec files sp) as [[]|] eqn:Ev; [|discriminate]. intros [= <- <- <-].
  assert (sp_Disks sp = disks ∧ sp_MemoryBytes sp = mem' ∧ sp_CPUs sp = cpus) as (-> & -> & ->).
  { revert Es. unfold platform_spec. repeat case_match; intros; simplify_eq; done. }
  split_and!; try done. exists cpus, mem. by split_and!.
Qed.

Lemma buildVZMachine_inv cfg b w c' v w' : buildVZMachine host be ve cfg b w = (Ok (c', v), w') →
  ∃ spec helper, vz_spec host be ve (w_files w) cfg b = Ok (c', spec, helper) ∧ vm_cfg v = c' ∧ vm_helper v = helper ∧
    w_store w' = w_store w.
Proof.
  unfold buildVZMachine. rewrite run_gets. destruct (vz_spec _ _ _ _ _ _) as [[[c1 spec] helper]|]; [|done].
  destruct (ve_write_spec _ _); [done|]. intros [= <- <- <-]. by exists spec, helper.
Qed.

Lemma grant_view v w r w' : grantScreenSharing ve v w = (r, w') → healthy (w_store w) →
  relaunch_view (vm_cfg v) (w_store w) (w_store w').
Proof.
  intros E Hh. unfold grantScreenSharing in E.
  assert (relaunch_view (vm_cfg v) (w_store w) (w_store w)) as Hid by (split; [done|]; split; [done|by left]).
  destruct (negb (grant_pending (vm_cfg v))); [by injection E as <- <-|].
  assert (∀ u, relaunch_view (vm_cfg v) (w_store w)
            (w_store (ignore (st (saveConfig (set_mac (vm_cfg v) (grant_settled u)))) w).2)) as Hs.
  { intros u. destruct (st_saveConfig (set_mac (vm_cfg v) (grant_settled u)) w Hh) as (s' & Es & Hh' & Hv & Hc).
    unfold ignore. rewrite Es. cbn. split; [done|]. split; [done|]. right. eexists. exact Hc. }
  destruct (ve_grants ve (vm_disk v)); try (by injection E as <- <-).
  - specialize (Hs false). by rewrite E in Hs.
  - specialize (Hs true). by rewrite E in Hs.
Qed.

Lemma vz_start_run v w r w' : vz_StartDetached ve v w = (r, w') → healthy (w_store w) →
  relaunch_view (vm_cfg v) (w_store w) (w_store w').
Proof.
  intros E Hh. unfold vz_StartDetached, drop_file, add_file in E. rewrite run_modify in E.
  destruct (ve_log ve _); [injection E as <- <-; split; [done|split; [done|by left]]|].
  rewrite run_modify, run_bind in E.
  destruct (grantScreenSharing ve v _) as [[[]|e] w1] eqn:Eg; apply grant_view in Eg; try done;
    [|by injection E as <- <-].
  cbn in Eg. rewrite run_gets in E.
  destruct (ve_spawn ve (vm_helper v) (vm_dir v)) as [[pid []]|]; by injection E as <- <-.
Qed.

(** C32: the vz backend keeps the contract the manager's lifecycle is proved
    against.  Building a vz machine changes no record and fills in nothing but
    the MAC address; starting one changes no state and no config but the
    machine's own, whose macOS section it may update. *)
Theorem vz_backend_contract : vz_laws vzMachine (buildVZMachine host be ve) (vz_StartDetached ve).
Proof.
  split.
  - intros c b w r w'. unfold buildVZMachine. rewrite run_gets.
    destruct (vz_spec _ _ _ _ _ _) as [[[c1 spec] helper]|]; [|by intros [= _ <-]].
    destruct (ve_write_spec _ _); by intros [= _ <-].
  - intros c b w c' m w' (spec & helper & Hs & _)%buildVZMachine_inv.
    apply vz_spec_inv in Hs as (_ & -> & _). by destruct (fill_mac_kept c) as (? & ? & ? & ? & ?).
  - intros c b w0 c' m w1 w r w' (spec & helper & Hs & Hc & _)%buildVZMachine_inv E Hh. rewrite <-Hc. by eapply vz_start_run.
Qed.

Lemma ValidateSpec_disks files s : ValidateSpec files s = Ok tt → Forall (λ d, ds_Path d ∈ files) (sp_Disks s).
Proof.
  unfold ValidateSpec. destruct (_ =? 0); [discriminate|]. destruct (_ =? 0); [discriminate|].
  destruct (bool_decide _); [discriminate|]. destruct (existsb _ _) eqn:Hex; [discriminate|]. intros _.
  apply Forall_forall. intros d Hd'. destruct (decide (ds_Path d ∈ files)) as [|Hno]; [done|].
  exfalso. apply not_true_iff_false in Hex. apply Hex, existsb_exists. exists d. split; [by apply list_elem_of_In|].
  unfold exists_in. by rewrite bool_decide_false.
Qed.

Lemma raise_to_le minimum v : v <= raise_to minimum v ∧ (0 <= v → minimum <= raise_to minimum v).
Proof. unfold raise_to. destruct (Z.ltb_spec 0 minimum), (Z.ltb_spec v minimum); cbn; lia. Qed.

Lemma display_set mac : (dp_WidthPx (macos_display mac) =? 0) = false.
Proof.
  unfold macos_display. destruct (Z.ltb_spec 0 (mac_DisplayWidthPx mac)), (0 <? mac_DisplayHeightPx mac); cbn; try done.
  apply Z.eqb_neq. lia.
Qed.

(** The platform's part of an accepted spec. *)
Lemma platform_spec_facts cfg b helper base spec : platform_spec be ve cfg b helper base = Ok spec →
  sp_Recovery base = false →
  sp_Recovery spec = match c_MacOS cfg with Some _ => b | None => false end ∧
  (PlatformName spec = PlatformMacOS → (dp_WidthPx (sp_Display spec) =? 0) = false).
Proof.
  unfold platform_spec. intros E Hb. destruct (c_MacOS cfg) as [mac|].
  - destruct (_ || _); [discriminate|]. destruct (_ && _); [discriminate|]. destruct (_ && _); [discriminate|].
    injection E as <-. split; [done|]. intros _. apply display_set.
  - destruct (given (c_Kernel cfg)).
    + destruct (negb _); [discriminate|]. destruct (_ && _); [discriminate|]. by injection E as <-.
    + destruct (_ || _); [discriminate|]. by injection E as <-.
Qed.

Lemma ParseMemoryBytes_nonneg s mem : ParseMemoryBytes s = Ok mem → 0 <= mem < 2 ^ 64.
Proof.
  unfold ParseMemoryBytes. destruct (unsnoc _) as [[prefix c]|]; [|discriminate]. destruct (1 <? _).
  all: destruct (ParseUint64 _); [|discriminate]; intros [= <-]; unfold wrapu64; by apply Z.mod_pos_bound.
Qed.

(** what the helper is asked to run.  A vz machine that is built has a spec
    the helper loads unchanged; its disks are the config's in order, the
    read-only ones and installer media marked so; it has at least the CPUs and
    memory configured and the minimums a restored macOS image recorded; and the
    recovery option is on the spec, not in the config. *)
Theorem vz_machine_spec cfg recovery w c' v w' : buildVZMachine host be ve cfg recovery w = (Ok (c', v), w') →
  ∃ spec mem, vz_spec host be ve (w_files w) cfg recovery = Ok (c', spec, vm_helper v) ∧
    LoadSpec (w_files w) spec = Ok spec ∧
    disk_specs (w_files w) (c_Disks cfg) = Ok (sp_Disks spec) ∧
    Forall (λ d, ds_Path d ∈ w_files w) (sp_Disks spec) ∧
    ParseMemoryBytes (c_Memory cfg) = Ok mem ∧ c_CPUs cfg <= sp_CPUs spec ∧ mem <= sp_MemoryBytes spec ∧
    (∀ mac, c_MacOS cfg = Some mac → mac_MinCPUs mac <= sp_CPUs spec ∧ mac_MinMemoryBytes mac <= sp_MemoryBytes spec ∧
                                     sp_Recovery spec = recovery) ∧
    (c_MacOS cfg = None → sp_Recovery spec = false) ∧
    c' = fill_mac cfg.
Proof.
  intros (spec & helper & Hs & _ & <- & _)%buildVZMachine_inv. pose proof Hs as Hi.
  apply vz_spec_inv in Hi as (_ & -> & _ & Hv & Hd & cpus & mem & Hm & Hc & Hraise & <- & Hp).
  destruct (fill_mac_kept cfg) as (Hn & _ & _ & _ & Hmac).
  exists spec, mem. split; [done|].
  assert (Forall (λ d, ds_Path d ∈ w_files w) (sp_Disks spec)) as Hf.
  { by apply ValidateSpec_disks. }
  split; [|split; [done|split; [done|]]].
  - apply platform_spec_facts in Hp as [_ Hw]; [|done]. unfold LoadSpec.
    case_bool_decide as Hpl; [rewrite (Hw Hpl)|]; cbn [andb]; by rewrite Hv.
  - apply platform_spec_facts in Hp as [Hr _]; [|done]. rewrite Hmac in Hr.
    pose proof (ParseMemoryBytes_nonneg _ _ Hm). destruct (c_MacOS cfg) as [mac|]; injection Hraise as Hcp Hmb.
    + destruct (raise_to_le (mac_MinCPUs mac) (c_CPUs cfg)), (raise_to_le (mac_MinMemoryBytes mac) mem).
      rewrite Hcp, Hmb. split_and!; [done|lia|lia| |done|done]. intros m [= <-]. split_and!; [lia|lia|done].
    + rewrite Hcp, Hmb. split_and!; [done|lia|lia|done|done|done].
Qed.
End VzLaws.

(** ** From creation to start *)

(** A disk the backend can attach, given the files that exist. *)
Definition attachable_vz (files : gset string) (d : DiskConfig) : Prop :=
  d_Passthrough d = false ∧ d_Format d ∈ [""; "raw"] ∧ IsAbs (d_Path d) = true ∧
  (d_Media d ≠ "cdrom" → d_Path d ∈ files).
(** A disk as a template writes it: at an absolute path, and installer media
    not in another format. *)
Definition addressed (d : DiskConfig) : Prop :=
  IsAbs (d_Path d) = true ∧ (d_Media d = "cdrom" → d_Format d ∈ [""; "raw"]).

Lemma attachable_mono files files' d : files ⊆ files' → attachable_vz files d → attachable_vz files' d.
Proof. intros Hs (? & ? & ? & Hf). split_and!; [done..|]. intros Hm. apply Hs. by apply Hf. Qed.

Lemma disk_specs_ok files ds : Forall (attachable_vz files) ds →
  ∃ specs, disk_specs files ds = Ok specs ∧ Forall (λ d, ds_Path d ∈ files) specs ∧
    (Exists (λ d, d_Media d ≠ "cdrom") ds → specs ≠ []).
Proof.
  induction 1 as [|d ds (Hp & Hf & Ha & Hin) Hds (rest & E & Hr & Hn)]; cbn [disk_specs].
  { exists []. split_and!; [done|constructor|]. by intros []%Exists_nil. }
  rewrite Hp, Ha. cbn [negb].
  assert (given (d_Format d) && negb (bool_decide (d_Format d = "raw")) = false) as ->.
  { apply andb_false_iff. apply elem_of_cons in Hf as [Hf|Hf%list_elem_of_singleton].
    - left. unfold given. by rewrite bool_decide_true.
    - right. by rewrite bool_decide_true. }
  rewrite E. eexists. split; [done|].
  destruct (decide (d_Media d = "cdrom")) as [Hm|Hm].
  - rewrite bool_decide_true by done. split.
    + apply Forall_app. split; [|done]. unfold exists_in. case_bool_decide; by constructor.
    + intros [|Hx]%Exists_cons; [done|]. specialize (Hn Hx). by destruct (exists_in files (d_Path d)), rest.
  - rewrite bool_decide_false by done. split; [constructor; [by apply Hin|done]|done].
Qed.

Lemma PathJoin_given a b : b ≠ "" → PathJoin [a; b] ≠ "".
Proof. intros Hb. destruct a as [|c a]; [destruct b; [done|]|]; cbn -[Clean]; apply Clean_nonempty. Qed.

Section VzCreate.
Context {S : Type} `{VMStoreLaws S} (host : Host) (be : BuildEnv S) (fs : FsEnv) (ve : VzEnv S).
Implicit Types w : World S.

(** More files, the same records. *)
Definition grows w w' : Prop := w_files w ⊆ w_files w' ∧ w_store w' = w_store w.
Lemma grows_refl w : grows w w.
Proof. done. Qed.
Lemma grows_trans w1 w2 w3 : grows w1 w2 → grows w2 w3 → grows w1 w3.
Proof. intros [? ?] [? ?]. split; [set_solver|congruence]. Qed.

Lemma img_step_ok target what a w w' : img_step (S := S) target what a w = (Ok tt, w') →
  grows w w' ∧ target ∈ w_files w'.
Proof.
  unfold img_step. destruct a; [done|]. intros [= <-]. cbn. split; [split; [cbn; set_solver|done]|set_solver].
Qed.

Lemma materialize_ok d w d' w' : materializeVZDisk ve d w = (Ok d', w') →
  d' = vzRepointDisk d (vzRawDiskPath (d_Path d)) ∧ grows w w' ∧ d_Path d' ∈ w_files w'.
Proof.
  unfold materializeVZDisk, stat. rewrite run_gets. unfold exists_in. case_bool_decide as Hin.
  { intros [= <- <-]. by split_and!. }
  destruct (ve_mkdir ve _); [done|]. rewrite run_bind, run_ret. destruct (ve_qemu_img ve); [|done].
  rewrite run_bind. destruct (given (d_BackingFile d)).
  - rewrite run_bind. destruct (img_step _ _ (ve_convert _ _ _) w) as [[[]|] w1] eqn:E1; [|done].
    apply img_step_ok in E1 as [G1 H1]. destruct (given (d_Size d)).
    + destruct (img_step _ _ _ w1) as [[[]|] w2] eqn:E2; [|done]. apply img_step_ok in E2 as [G2 H2].
      intros [= <- <-]. split; [done|]. split; [by eapply grows_trans|done].
    + intros [= <- <-]. by split_and!.
  - destruct (img_step _ _ _ w) as [[[]|] w1] eqn:E1; [|done]. apply img_step_ok in E1 as [G1 H1].
    intros [= <- <-]. by split_and!.
Qed.

Lemma TrimSuffix_abs p suf : IsAbs p = true → suf ≠ "" → HasSuffix p suf = true → HasPrefix suf "/" = false →
  IsAbs (TrimSuffix p suf) = true.
Proof.
  intros Ha Hne Hs Hsl. unfold TrimSuffix. rewrite Hs. apply HasSuffix_spec in Hs as [t ->].
  rewrite length_append. replace (String.length t + String.length suf - String.length suf)%nat with (String.length t) by lia.
  destruct t as [|c t]; [exfalso; unfold IsAbs in Ha; change ("" +:+ suf) with suf in Ha; congruence|].
  rewrite append_cons in Ha |- *. cbn in Ha |- *. exact Ha.
Qed.

Lemma IsAbs_append p q : IsAbs p = true → IsAbs (p +:+ q) = true.
Proof. unfold IsAbs. rewrite !HasPrefix_spec. intros [t ->]. exists (t +:+ q). by rewrite append_assoc. Qed.

Lemma raw_path_abs p : IsAbs p = true → IsAbs (vzRawDiskPath p) = true.
Proof.
  intros Ha. unfold vzRawDiskPath. destruct (find (HasSuffix p) rawSuffixes) as [suf|] eqn:E.
  - apply find_some in E as [Hin Hs]. apply IsAbs_append, TrimSuffix_abs; [done| |done|];
      repeat (destruct Hin as [<-|Hin]; [by vm_compute|]); done.
  - case_match; [done|]. by apply IsAbs_PathJoin.
Qed.

Lemma materialize_all_ok ds : ∀ w ds' w', Forall addressed ds → existsb d_Passthrough ds = false →
  materializeVZLinuxDisks ve ds w = (Ok ds', w') →
  grows w w' ∧ Forall (attachable_vz (w_files w')) ds' ∧
  (Exists (λ d, d_Media d ≠ "cdrom") ds → Exists (λ d, d_Media d ≠ "cdrom") ds').
Proof.
  induction ds as [|d ds IH]; intros w ds' w' Ha Hp; cbn [materializeVZLinuxDisks].
  { intros [= <- <-]. by split_and!. }
  apply Forall_cons in Ha as [[Ha Hc] Has]. cbn in Hp. apply orb_false_iff in Hp as [Hp Hps].
  intros (d1 & w1 & E1 & (rest & w2 & E2 & [= <- <-])%run_bind_inv)%run_bind_inv.
  apply IH in E2 as (G2 & H2 & X2); [|done..].
  assert (grows w w1 ∧ attachable_vz (w_files w1) d1 ∧ (d_Media d ≠ "cdrom" → d_Media d1 ≠ "cdrom")) as (G1 & H1 & X1).
  { case_bool_decide as Hm.
    - injection E1 as <- <-. split; [done|]. split; [|done]. split_and!; [done|by apply Hc|done|done].
    - destruct (bad_format d); [done|]. apply materialize_ok in E1 as (-> & G1 & Hin). split; [done|].
      split; [|done]. split_and!; [done|set_solver|by apply raw_path_abs|done]. }
  split; [by eapply grows_trans|]. split.
  - constructor; [|done]. eapply attachable_mono; [|done]. by destruct G2.
  - rewrite !Exists_cons. naive_solver.
Qed.

Lemma boot_file_ok what p w w' : boot_file (S := S) what p w = (Ok tt, w') →
  w' = w ∧ (given p = true → IsAbs p = true ∧ p ∈ w_files w).
Proof.
  unfold boot_file, stat, exists_in. destruct (given p); cbn [negb]; [|by intros [= <-]].
  destruct (IsAbs p); cbn [negb]; [|done]. rewrite run_gets. case_bool_decide; [by intros [= <-]|done].
Qed.

Lemma vz_drop_kept cfg : c_Name (vz_drop cfg) = c_Name cfg ∧ c_Disks (vz_drop cfg) = c_Disks cfg ∧
  c_Memory (vz_drop cfg) = c_Memory cfg ∧ c_CPUs (vz_drop cfg) = c_CPUs cfg ∧ c_Kernel (vz_drop cfg) = c_Kernel cfg ∧
  c_Cmdline (vz_drop cfg) = c_Cmdline cfg ∧ c_Initrd (vz_drop cfg) = c_Initrd cfg ∧ c_MacOS (vz_drop cfg) = c_MacOS cfg ∧
  c_Nested (vz_drop cfg) = c_Nested cfg ∧ c_Backend (vz_drop cfg) = c_Backend cfg ∧ c_SPICE (vz_drop cfg) = None ∧
  (0 <? c_SSHPort (vz_drop cfg)) = false.
Proof. unfold vz_drop. destruct (c_SPICE cfg) eqn:E, (0 <? _) eqn:E2; cbn in *; split_and!; done. Qed.

(** What a creation leaves for a Linux guest: the config to build from, and the
    files it names. *)
Definition buildable (files : gset string) (cfg : VMConfig) : Prop :=
  (0 <? c_SSHPort cfg) = false ∧ c_Nested cfg = false ∧ c_MacOS cfg = None ∧
  Forall (attachable_vz files) (c_Disks cfg) ∧ Exists (λ d, d_Media d ≠ "cdrom") (c_Disks cfg) ∧
  (given (c_Kernel cfg) = true → IsAbs (c_Kernel cfg) = true ∧ c_Kernel cfg ∈ files) ∧
  (given (c_Initrd cfg) = true → IsAbs (c_Initrd cfg) = true ∧ c_Initrd cfg ∈ files) ∧
  (given (c_Kernel cfg) = false → given (c_Cmdline cfg) = false ∧ given (c_Initrd cfg) = false).

Lemma prepare_ok cfg w cfg' w' : Forall addressed (c_Disks cfg) → Exists (λ d, d_Media d ≠ "cdrom") (c_Disks cfg) →
  c_Nested cfg = false → c_MacOS cfg = None →
  (given (c_Kernel cfg) = false → given (c_Cmdline cfg) = false ∧ given (c_Initrd cfg) = false) →
  prepareVZLinuxCreate host ve cfg w = (Ok cfg', w') →
  AppleSilicon host = true ∧ grows w w' ∧ buildable (w_files w') cfg' ∧
  c_Name cfg' = c_Name cfg ∧ c_Memory cfg' = c_Memory cfg ∧ c_CPUs cfg' = c_CPUs cfg ∧ c_SPICE cfg' = None ∧
  c_Backend cfg' = c_Backend cfg.
Proof.
  intros Ha Hx Hn Hm Hk. unfold prepareVZLinuxCreate, vz_refusal.
  destruct (AppleSilicon host); cbn [negb]; [|done]. destruct (_ && _); [done|].
  destruct (match c_TPM cfg with Some t => tpm_Enabled t | None => false end); [done|].
  destruct (negb (bool_decide (length _ = _))); [done|]. destruct (bool_decide (nic_Mode _ = _)); [done|].
  destruct (existsb d_Passthrough (c_Disks cfg)) eqn:Hp; [done|].
  intros ([] & w1 & (-> & K)%boot_file_ok & ([] & w2 & (-> & I)%boot_file_ok & E)%run_bind_inv)%run_bind_inv.
  destruct (vz_drop_kept cfg) as (D1 & D2 & D3 & D4 & D5 & D6 & D7 & D8 & D9 & D10 & D11 & D12).
  cbv zeta in E. set (cfg1 := vz_drop cfg) in *. clearbody cfg1. rewrite D2 in E. apply run_bind_inv in E as (ds & w3 & E & [= <- <-]).
  apply materialize_all_ok in E as (G & Hd & Hx'); [|done..].
  assert (∀ p, p ∈ w_files w → p ∈ w_files w3) as Hsub by (destruct G as [Hs _]; set_solver).
  split; [done|]. split; [done|]. split; [|split_and!; done].
  unfold buildable. cbn. rewrite D5, D6, D7, D8, D9, D12. split_and!; try done; [by apply Hx'|naive_solver..].
Qed.

Lemma ValidateSpec_linux files s : sp_CPUs s ≠ 0 → sp_MemoryBytes s ≠ 0 → sp_Disks s ≠ [] →
  existsb (λ d, negb (exists_in files (ds_Path d))) (sp_Disks s) = false → given (sp_MAC s) = true →
  sp_Platform s = PlatformLinux → sp_Recovery s = false → sp_HardwareModel s = [] → sp_MachineIdentifier s = [] →
  sp_AuxiliaryStorage s = "" →
  (if given (sp_Kernel s) then given (sp_EFIVariableStore s) = false ∧ exists_in files (sp_Kernel s) = true ∧
      given (sp_Initrd s) && negb (exists_in files (sp_Initrd s)) = false
   else given (sp_Cmdline s) || given (sp_Initrd s) = false ∧ given (sp_EFIVariableStore s) = true) →
  ValidateSpec files s = Ok tt.
Proof.
  intros Hc Hm Hd Hex Hmac Hp Hr Hh Hi Ha Hb. unfold ValidateSpec, PlatformName.
  rewrite (proj2 (Z.eqb_neq _ _) Hc), (proj2 (Z.eqb_neq _ _) Hm), Hex, Hmac, Hp, Hr, Hh, Hi, Ha.
  rewrite (bool_decide_false (length (sp_Disks s) = 0%nat)) by by destruct (sp_Disks s).
  change (bool_decide (PlatformLinux = "")) with false. cbv iota.
  change (bool_decide (PlatformLinux = PlatformMacOS)) with false. change (bool_decide (PlatformLinux = PlatformLinux)) with true.
  cbn [negb length]. destruct (given (sp_Kernel s)).
  - destruct Hb as (-> & -> & ->). done.
  - destruct Hb as [-> ->]. done.
Qed.

(** A config with what a start needs is built. *)
Lemma buildable_builds cfg mem helper w : AppleSilicon host = true → buildable (w_files w) cfg →
  ParseMemoryBytes (c_Memory cfg) = Ok mem → mem ≠ 0 → 0 < c_CPUs cfg → ve_helper ve = Ok helper →
  ve_write_spec ve (vmDir be (c_Name cfg)) = None →
  ∃ c' v w', buildVZMachine host be ve cfg false w = (Ok (c', v), w').
Proof.
  intros Hh (Hs & Hn & Hm & Hd & Hx & Hk & Hi & Hb) Hmem Hm0 Hc He Hw.
  unfold buildVZMachine. rewrite run_gets. unfold vz_spec. rewrite Hh, Hs, Hn. cbn [negb].
  destruct (fill_mac_kept cfg) as (F1 & F2 & _ & _ & F5).
  assert (c_Memory (fill_mac cfg) = c_Memory cfg ∧ c_CPUs (fill_mac cfg) = c_CPUs cfg ∧
    c_Kernel (fill_mac cfg) = c_Kernel cfg ∧ c_Initrd (fill_mac cfg) = c_Initrd cfg ∧ c_Cmdline (fill_mac cfg) = c_Cmdline cfg ∧
    given (nic_MAC (c_NIC (fill_mac cfg))) = true) as (F6 & F7 & F8 & F9 & F10 & F11).
  { unfold fill_mac, given. case_bool_decide as E; split_and!; try done. by rewrite bool_decide_false. }
  rewrite F2, F5, F6, F7, Hm, Hmem. rewrite (proj2 (Z.leb_gt _ _)) by lia.
  destruct (disk_specs_ok (w_files w) (c_Disks cfg) Hd) as (specs & -> & Hsp & Hne). rewrite He.
  specialize (Hne Hx).
  assert (∃ spec, platform_spec be ve (fill_mac cfg) false helper
            (mkMachineSpec (c_Name (fill_mac cfg)) (c_CPUs cfg) mem (nic_MAC (c_NIC (fill_mac cfg))) specs "" "" [] [] no_display
               "" "" "" "" "" (c_Vsock (fill_mac cfg)) false) = Ok spec ∧ ValidateSpec (w_files w) spec = Ok tt) as (spec & -> & ->).
  2: { rewrite F1, Hw. by do 3 eexists. }
  assert (existsb (λ d, negb (exists_in (w_files w) (ds_Path d))) specs = false) as Hex.
  { apply not_true_iff_false. rewrite existsb_exists. intros (d & Hin%list_elem_of_In & Hd').
    eapply Forall_forall in Hsp; [|done]. unfold exists_in in Hd'. by rewrite bool_decide_true in Hd'. }
  unfold platform_spec. rewrite F5, Hm, F8, F9, F10. destruct (given (c_Kernel cfg)) eqn:Ek.
  - destruct (Hk eq_refl) as [Hka Hkf]. rewrite Hka. cbn [negb].
    assert (given (c_Initrd cfg) && negb (IsAbs (c_Initrd cfg)) = false) as ->.
    { destruct (given (c_Initrd cfg)); [|done]. destruct (Hi eq_refl) as [-> _]. done. }
    eexists. split; [reflexivity|]. apply ValidateSpec_linux; try done; [cbn; lia|]. cbn. rewrite Ek.
    split; [done|]. split; [unfold exists_in; by rewrite bool_decide_true|].
    destruct (given (c_Initrd cfg)); [|done]. destruct (Hi eq_refl) as [_ Hif]. unfold exists_in. by rewrite bool_decide_true.
  - destruct (Hb eq_refl) as [Hb1 Hb2]. rewrite Hb1, Hb2. cbn [orb].
    eexists. split; [reflexivity|]. apply ValidateSpec_linux; try done; [cbn; lia|].
    cbn -[given EFIVariableStorePath vmDir]. change (given "") with false. split; [done|].
    unfold given. apply negb_true_iff, bool_decide_eq_false. by apply PathJoin_given.
Qed.

Lemma seed_step_vz env dir cfg w cfg' w' : BackendName cfg = VZ → c_MacOS cfg = None →
  (∀ ci p, ce_cloudinit env dir ci = Ok p → IsAbs p = true) → buildable (w_files w) cfg →
  seed_step host env dir cfg w = (Ok cfg', w') →
  grows w w' ∧ buildable (w_files w') cfg' ∧ c_Name cfg' = c_Name cfg ∧ c_Memory cfg' = c_Memory cfg ∧
  c_CPUs cfg' = c_CPUs cfg ∧ c_SPICE cfg' = c_SPICE cfg.
Proof.
  intros Hb Hm Hp (B1 & B2 & B3 & B4 & B5 & B6 & B7 & B8). unfold seed_step. rewrite Hb, Hm.
  change (bool_decide (VZ = QEMU)) with false. cbn [negb orb].
  intros (c1 & w1 & E1 & E2)%run_bind_inv.
  assert (cfg' = c1 ∧ w' = w1) as [-> ->].
  { destruct (c_SeedFiles c1); by injection E2 as <- <-. }
  destruct (c_CloudInit cfg) as [ci|]; [|injection E1 as <- <-; by split_and!].
  apply run_bind_inv in E1 as (p & w2 & E1 & E3). unfold lift_as in E1.
  destruct (ce_cloudinit env dir ci) as [q|] eqn:Ec; [|done]. injection E1 as <- <-.
  apply run_bind_inv in E3 as ([] & w3 & [= <-] & [= <- <-]). cbn.
  split; [split; [cbn; set_solver|done]|]. split; [|done]. unfold buildable. cbn.
  split_and!; try done; [|by apply Exists_app; left|naive_solver set_solver|naive_solver set_solver].
  apply Forall_app. split.
  - eapply Forall_impl; [exact B4|]. intros d. apply attachable_mono. set_solver.
  - apply Forall_singleton. split_and!; [done|set_solver|by eapply Hp|]. intros _. cbn. set_solver.
Qed.

End VzCreate.

(** ** On a concrete Mac *)
Module VzExample.
Definition mac : Host := mkHost "darwin" "arm64".
Definition env : VzEnv Db.DB :=
  mkVzEnv Db.DB (Ok "/usr/local/bin/vee-vz-helper") (λ _, 3) (λ _, None) (λ _, None) (λ _, GrantNoTCCDB)
    (λ _, mkNetTables (Ok "") (Ok "") (Ok "") (Ok "")) (λ _ _, Ok (900, HelperUp))
    (Some "/opt/homebrew/bin/qemu-img") (λ _, None) (λ _ _, None) (λ _ _, None) (λ _ _, None).
Definition fs : FsEnv :=
  mkFsEnv (λ _ _, Renamed) (λ _ _, None) (λ _, None) (λ _, None) (λ _, Ok ("raw", 1)) (λ _ _ _, None).
Definition cenv : CreateEnv Db.DB :=
  mkCreateEnv Db.DB (λ _, Ok []) true (prepareVZLinuxCreate mac env)
    (λ dir _, Ok (PathJoin [dir; "cidata.iso"])) (λ dir _, Ok (PathJoin [dir; "seed.iso"])).

Definition boot : DiskConfig :=
  zeroDisk <| d_Path := "/vms/web/disk.qcow2" |> <| d_Media := "disk" |> <| d_Format := "qcow2" |>
           <| d_BackingFile := "/images/ubuntu.img" |> <| d_Size := "20G" |>.
Definition guest (d : DiskConfig) : VMConfig :=
  zeroConfig <| c_Name := "web" |> <| c_Backend := VZ |> <| c_Memory := "4G" |> <| c_CPUs := 2 |> <| c_SSHPort := 2222 |>
             <| c_Disks := [d] |>.
Definition empty_world : World Db.DB :=
  mkWorld (Db.mkDB ∅ ∅ 1 None None) ∅ ∅ ∅ ∅ (Some 5930) ∅ [] true true true ∅ ∅ 100 [].
Definition created (d : DiskConfig) : World Db.DB := (Create HostExample.be fs mac cenv (guest d) empty_world).2.


Definition stored_web : VMConfig :=
  default zeroConfig (cfg_view (w_store (created boot)) !! "web").
Lemma vz_machine_spec_witness :
  ∃ spec mem, vz_spec mac HostExample.be env (w_files (created boot)) stored_web false
                = Ok (fill_mac stored_web, spec, "/usr/local/bin/vee-vz-helper") ∧
    LoadSpec (w_files (created boot)) spec = Ok spec ∧ ParseMemoryBytes "4G" = Ok mem ∧ mem <= sp_MemoryBytes spec.
Proof.
  destruct (buildVZMachine mac HostExample.be env stored_web false (created boot)) as [[[c' v]|e] w'] eqn:E.
  - destruct (vz_machine_spec mac HostExample.be env stored_web false (created boot) c' v w' E)
      as (spec & mem & Hs & Hl & _ & _ & Hm & _ & Hle & _ & _ & Hc).
    exists spec, mem. rewrite <-Hc. split_and!; [|exact Hl|exact Hm|exact Hle].
    vm_compute in E. injection E as _ <- _. exact Hs.
  - vm_compute in E. discriminate E.
Defined.

(** A disk at a relative path is created without complaint and refused at the
    first start. *)
Theorem relative_disk_refused_late :
  let d := boot <| d_Path := "disks/web.qcow2" |> in
  (Create HostExample.be fs mac cenv (guest d) empty_world).1 = Ok tt ∧
  (stored ← cfg_view (w_store (created d)) !! "web";
   Some (buildVZMachine mac HostExample.be env stored false (created d)).1) =
  Some (Err (Errorf "the vz backend requires absolute disk paths" ["disks/web.raw"])).
Proof. vm_compute. by split. Qed.

(** The program with both backends: the manager's start runs over them. *)
Definition full_builder : MachineBuilder Db.DB :=
  vee_builder mac HostExample.be vzMachine (buildVZMachine mac HostExample.be env) (vz_StartDetached env).
Example vz_guest_starts :
  let '(r, w) := @Start _ _ full_builder mac Scenario.env "web" false false (created boot) in
  r = Ok tt ∧ (s_PID <$> st_view (w_store w) !! "web") = Some 900 ∧
  (s_ControlSocket <$> st_view (w_store w) !! "web") = Some (ControlSocketPath (vmDir HostExample.be "web")).
Proof. vm_compute. by split_and!. Qed.
End VzExample.
