(* ===== verification/Build.v ===== *)
(** * Assembling a VM configuration

    [internal/vm/build/build.go]: the dispatch to a template, the overrides of
    what the user asked for, the classification of disks, and the checks of
    GPU options; with [ParseDataDisk] ([internal/templates/truenas.go]),
    [ClampMacOSMinimums] ([internal/templates/macos.go]), [ValidatePointer]
    ([internal/vm/pointer.go]), the mirror decision ([internal/mirror]) and the
    companion functions of a GPU ([internal/gpu/companions.go]).

    The templates themselves are functions of the [Templates] record, which
    [Catalogue] fills with the constructors of [internal/templates]; an option
    that may be left out is an [option]. *)
From S2P Require Import Prelude GoStrings Boot Config Store World Paths Lifecycle Guest Gpu Ready Daemon Sha1 Qemu Machine Storage Vz Images.

Open Scope Z_scope.

(** ** What the templates take *)
Record GamingOptions := mkGamingOptions {
  go_VirtiofsMountDir : string; go_VirtiofsReadonly : bool; go_GPUVendor : string; go_Passthrough : bool;
  go_PCIAddr : string; go_NICMode : string; go_Bridge : string; go_MAC : string; go_Headless : bool;
  go_SSHPort : Z; go_User : string; go_Password : string; go_Emulate : bool }.
#[export] Instance GamingOptions_eta : Settable GamingOptions := λ g,
  mkGamingOptions (go_VirtiofsMountDir g) (go_VirtiofsReadonly g) (go_GPUVendor g) (go_Passthrough g) (go_PCIAddr g)
    (go_NICMode g) (go_Bridge g) (go_MAC g) (go_Headless g) (go_SSHPort g) (go_User g) (go_Password g) (go_Emulate g).

Record MacOSOptions := mkMacOSOptions {
  mo_DiskSize : string; mo_Memory : string; mo_CPUs : Z; mo_User : string; mo_Password : string;
  mo_SSHPublicKeys : list string; mo_Hostname : string; mo_IPSW : string; mo_MacosvmDir : string; mo_SkipFirstBoot : bool }.

Record HeliosOptions := mkHeliosOptions {
  ho_SetupExe : string; ho_QemuBinary : string; ho_HostMem : string; ho_VNC : string; ho_RenderNode : string;
  ho_BootstrapVGA : bool }.

Record MacOSExtras := mkMacOSExtras { mx_IPSW : string; mx_MacosvmDir : string; mx_SkipFirstBoot : bool }.
Record DNSSinkExtras := mkDNSSinkExtras { dx_AdminUser : string; dx_PasswordHash : string }.

(** What a caller collects for the interactive templates, passed on as it is. *)
Class Extras := {
  TorrentExtras : Type;
  JellyfinExtras : Type;
  BitmagnetExtras : Type;
  RunnerExtras : Type;
}.

Section Opts.
Context `{Extras}.

Record Opts := mkOpts {
  o_Name : string;
  o_Template : string;
  o_Backend : string;
  o_Memory : string;
  o_CPUs : Z;
  o_Distro : string;
  o_DistroVersion : string;
  o_NICMode : string;
  o_NICBridge : string;
  o_NICMAC : string;
  o_Disk : string;
  o_DataDisks : list string;
  o_BootDisk : string;
  o_BootDiskPath : string;
  o_SPICEPort : option Z;
  o_Headless : option bool;
  o_UEFI : option bool;
  o_GPUMode : string;
  o_GPUPCI : string;
  o_GPUVendor : string;
  o_AntiDetect : option bool;
  o_GLBackend : string;
  o_Venus : option bool;
  o_HostMem : string;
  o_Pointer : string;
  o_HeliosSetup : string;
  o_QemuBinary : string;
  o_QemuEnv : list string;
  o_VNC : string;
  o_RenderNode : string;
  o_HeliosBootstrapVGA : bool;
  o_VirtiofsDir : string;
  o_VirtiofsTag : string;
  o_VirtiofsReadonly : bool;
  o_SSHKeyFile : string;
  o_SSHShare : option bool;
  o_SSHPort : Z;
  o_Vsock : option bool;
  o_Hostname : string;
  o_User : string;
  o_Password : string;
  o_NVMeDev : string;
  o_OVMFVars : string;
  o_Nested : bool;
  o_Emulate : bool;
  o_NoAutoInstall : bool;
  o_Torrent : option TorrentExtras;
  o_Jellyfin : option JellyfinExtras;
  o_DNSSink : option DNSSinkExtras;
  o_Bitmagnet : option BitmagnetExtras;
  o_Runner : option RunnerExtras;
  o_MacOS : option MacOSExtras;
}.

(** One constructor of a config per template. *)
Record Templates := mkTemplates {
  t_GamingArch : string → list string → GamingOptions → result error VMConfig;
  t_GamingBazzite : string → GamingOptions → result error VMConfig;
  t_Passthrough : string → string → string → string → string → string → VMConfig;
  t_Torrent : string → list string → TorrentExtras → Z → string → bool → result error VMConfig;
  t_Devbox : string → list string → string → string → bool → result error VMConfig;
  t_Server : string → list string → string → string → bool → result error VMConfig;
  t_Desktop : string → list string → string → string → bool → result error VMConfig;
  t_Omarchy : string → list string → string → string → string → bool → result error VMConfig;
  t_Truenas : string → string → string → Z → list string → bool → result error VMConfig;
  t_MacOS : string → MacOSOptions → result error VMConfig;
  t_Windows : string → string → string → Z → list string → option HeliosOptions → result error VMConfig;
  t_Docker : string → list string → string → bool → result error VMConfig;
  t_Jellyfin : string → list string → option JellyfinExtras → string → result error VMConfig;
  t_DNSSink : string → list string → string → string → string → bool → result error VMConfig;
  t_Bitmagnet : string → list string → BitmagnetExtras → string → string → bool → result error VMConfig;
  t_UbuntuServer : string → string → result error VMConfig;
  t_UbuntuServerNoISO : string → string → result error VMConfig;
  t_GitHubRunner : string → list string → RunnerExtras → result error VMConfig;
}.
End Opts.
#[export] Instance Opts_eta `{Extras} : Settable Opts := λ o,
  mkOpts (o_Name o) (o_Template o) (o_Backend o) (o_Memory o) (o_CPUs o) (o_Distro o) (o_DistroVersion o) (o_NICMode o)
    (o_NICBridge o) (o_NICMAC o) (o_Disk o) (o_DataDisks o) (o_BootDisk o) (o_BootDiskPath o) (o_SPICEPort o) (o_Headless o)
    (o_UEFI o) (o_GPUMode o) (o_GPUPCI o) (o_GPUVendor o) (o_AntiDetect o) (o_GLBackend o) (o_Venus o) (o_HostMem o)
    (o_Pointer o) (o_HeliosSetup o) (o_QemuBinary o) (o_QemuEnv o) (o_VNC o) (o_RenderNode o) (o_HeliosBootstrapVGA o)
    (o_VirtiofsDir o) (o_VirtiofsTag o) (o_VirtiofsReadonly o) (o_SSHKeyFile o) (o_SSHShare o) (o_SSHPort o) (o_Vsock o)
    (o_Hostname o) (o_User o) (o_Password o) (o_NVMeDev o) (o_OVMFVars o) (o_Nested o) (o_Emulate o) (o_NoAutoInstall o)
    (o_Torrent o) (o_Jellyfin o) (o_DNSSink o) (o_Bitmagnet o) (o_Runner o) (o_MacOS o).

(** ** Disks named by the user *)
Record DataDisk := mkDataDisk { dd_Path : string; dd_Serial : string }.

Definition ParseDataDisk (s : string) : DataDisk :=
  match cut_last colon s with
  | Some (String c a, b) => mkDataDisk (String c a) b
  | _ => mkDataDisk s ""
  end.

Inductive diskKind := diskKindDevice | diskKindImage.

(** What [os.Stat] says of a path. *)
Inductive file_kind := FDevice | FRegular | FOther.

Record AsmEnv := mkAsmEnv {
  ae_stat : string → result error file_kind;
  ae_probe : string → result error string;   (* the format qemu-img reports *)
  ae_iommu_peers : string → list PCIDevice;
  ae_siblings : string → list PCIDevice;
  ae_host_gpu : string;                      (* the vendor detected on the host *)
  ae_keys : string → result error string;    (* a key file's text *)
  ae_vee_key : result error string;
  ae_mirror_active : bool;
}.

Definition probeImageFormat (ae : AsmEnv) (path : string) : result error string :=
  match ae_probe ae path with
  | Ok "" => Err (Errorf "qemu-img info reported no format" [])
  | r => r
  end.

Definition classifyDisk (ae : AsmEnv) (path : string) : result error (diskKind * string) :=
  match ae_stat ae path with
  | Err e => Err (Wrapf "disk" e)
  | Ok FDevice => Ok (diskKindDevice, "raw")
  | Ok FRegular =>
      match probeImageFormat ae path with
      | Ok format => Ok (diskKindImage, format)
      | Err e => Err (Wrapf "disk" e)
      end
  | Ok FOther => Err (Errorf "disk is neither a block device nor a regular file" [path])
  end.

(** ** GPUs *)
(** Audio functions among the candidates, each address once. *)
Fixpoint audio_addrs (seen : list string) (candidates : list PCIDevice) : list string :=
  match candidates with
  | [] => []
  | p :: ps =>
      if bool_decide (pd_Address p ∈ seen) then audio_addrs seen ps
      else (if IsAudioDevice p then [pd_Address p] else []) ++ audio_addrs (pd_Address p :: seen) ps
  end.
Definition companions (ae : AsmEnv) (addr : string) : list string :=
  audio_addrs [addr] (ae_iommu_peers ae addr ++ ae_siblings ae addr).

Definition GPUVendorAMD : string := "amd".
Definition GPUVendorNvidia : string := "nvidia".
Definition GPUVendorVirtio : string := "virtio".
Definition resolveGPUVendor (ae : AsmEnv) (v : string) : string :=
  let known v := bool_decide (v ∈ [GPUVendorAMD; GPUVendorNvidia; GPUVendorVirtio]) in
  if known (ToLower v) then ToLower v
  else if known (ae_host_gpu ae) then ae_host_gpu ae else GPUVendorAMD.

Definition ValidatePointer (p : string) : result error unit :=
  if bool_decide (p ∈ [""; "tablet"; "mouse"]) then Ok tt else Err (Errorf "unknown pointer" [p]).

(** ** Mirrors *)
Definition ParseMode (s : string) : string :=
  let m := ToLower (TrimSpace s) in
  if bool_decide (m ∈ ["on"; "force"]) then "on"
  else if bool_decide (m ∈ ["off"; "disabled"; "false"]) then "off" else "auto".

Definition GuestMirrorURL (addr : string) : string :=
  "http://" +:+ (if bool_decide (addr = "") then "10.0.2.2:9129" else addr) +:+ "/repo/archlinux/$repo/os/$arch".

(** The URL a guest is given, if any. *)
Definition Resolve (active : bool) (mode nicMode configAddr : string) : option string :=
  if bool_decide (mode = "off") then None
  else if bool_decide (nicMode = "bridge") && (bool_decide (configAddr = "") || HasPrefix configAddr "10.0.2.2:") then None
  else if bool_decide (mode = "auto") && negb active then None
  else Some (GuestMirrorURL configAddr).

Definition PacmanMirrorlistContent (guestURL : string) : string :=
  Join (String newline "")
    ["# Managed by vee — host pacoloco cache, falls back to upstream."; "Server = " +:+ guestURL;
     "Server = https://geo.mirror.pkgbuild.com/$repo/os/$arch"; ""].

Definition isArchDistro (cfg : VMConfig) : bool :=
  match c_CloudInit cfg with Some ci => bool_decide (ci_DefaultUser ci = "arch") | None => false end.

Definition add_write_file (f : CloudInitWriteFile) (ci : CloudInitConfig) : CloudInitConfig :=
  mkCloudInitConfig (ci_Hostname ci) (ci_User ci) (ci_Password ci) (ci_DefaultUser ci) (ci_SSHKeys ci)
    (ci_Packages ci) (ci_RunCmds ci) (ci_WriteFiles ci ++ [f]).

Definition applyMirror (conf : ProviderConfig) (ae : AsmEnv) (cfg : VMConfig) : VMConfig :=
  match c_CloudInit cfg with
  | None => cfg
  | Some ci =>
      if negb (isArchDistro cfg) then cfg
      else match Resolve (ae_mirror_active ae) (ParseMode (pc_MirrorMode conf)) (nic_Mode (c_NIC cfg)) (pc_MirrorAddress conf) with
           | None => cfg
           | Some url => cfg <| c_CloudInit := Some (add_write_file (mkCloudInitWriteFile "/etc/pacman.d/mirrorlist"
                                                       (PacmanMirrorlistContent url) "0644" "" false "") ci) |>
           end
  end.

(** ** SSH keys *)
Definition key_lines (data : string) : list string :=
  filter (λ l, negb (bool_decide (l = "")) && negb (HasPrefix l "#") = true) (TrimSpace <$> Split newline (TrimSpace data)).
Definition loadSSHKeys (ae : AsmEnv) (path : string) : result error (list string) :=
  let user := if bool_decide (path = "") then Ok []
              else match ae_keys ae path with Ok data => Ok (key_lines data) | Err e => Err (Wrapf "read SSH key file" e) end in
  match user with
  | Err e => Err e
  | Ok keys => match ae_vee_key ae with Ok k => Ok (keys ++ [k]) | Err e => Err (Wrapf "vee keypair" e) end
  end.

(** ** Overrides

    Each step folds what was asked for onto the template's config. *)
Section Assemble.
Context `{Extras} (host : Host) (conf : ProviderConfig) (ae : AsmEnv) (ts : Templates).
Implicit Types (o : Opts) (cfg : VMConfig).

Definition or_else (s dflt : string) : string := if bool_decide (s = "") then dflt else s.

(** The fields a flag replaces outright. *)
Definition override_machine o cfg : VMConfig :=
  let cfg := cfg <| c_Backend := or_else (o_Backend o) (c_Backend cfg) |>
                 <| c_Memory := or_else (o_Memory o) (c_Memory cfg) |> in
  let cfg := if 0 <? o_CPUs o then cfg <| c_CPUs := o_CPUs o |> <| c_Cores := o_CPUs o |> else cfg in
  let nic := c_NIC cfg in
  let cfg := cfg <| c_NIC := nic <| nic_Mode := or_else (o_NICMode o) (nic_Mode nic) |>
                                 <| nic_Bridge := or_else (o_NICBridge o) (nic_Bridge nic) |> |> in
  match o_UEFI o with
  | Some b => cfg <| c_UEFI := (c_UEFI cfg) <| u_Enabled := b |> |>
  | None => cfg
  end.

Definition override_qemu o cfg : result error VMConfig :=
  let cfg := cfg <| c_GPU := (c_GPU cfg) <| g_Mode := or_else (o_GPUMode o) (g_Mode (c_GPU cfg)) |> |>
                 <| c_QemuBinary := or_else (o_QemuBinary o) (c_QemuBinary cfg) |> in
  match o_QemuEnv o with
  | [] => Ok cfg
  | env => match ValidateQemuEnv env with Err e => Err e | Ok _ => Ok (cfg <| c_QemuEnv := env |>) end
  end.

Definition override_gpu o (g : GPUConfig) : GPUConfig :=
  let g := g <| g_VNC := or_else (o_VNC o) (g_VNC g) |> <| g_RenderNode := or_else (o_RenderNode o) (g_RenderNode g) |> in
  let g := if bool_decide (o_GPUPCI o = "") then g
           else let g := g <| g_PCIAddr := o_GPUPCI o |> in
                match g_ExtraVFIOAddrs g with
                | [] => g <| g_ExtraVFIOAddrs := companions ae (o_GPUPCI o) |>
                | _ => g
                end in
  g <| g_AntiDetect := default (g_AntiDetect g) (o_AntiDetect o) |>
    <| g_GLBackend := or_else (o_GLBackend o) (g_GLBackend g) |>
    <| g_Venus := default (g_Venus g) (o_Venus o) |>
    <| g_Pointer := or_else (o_Pointer o) (g_Pointer g) |>
    <| g_HostMem := or_else (o_HostMem o) (g_HostMem g) |>.

Definition override_spice o cfg : VMConfig :=
  match o_SPICEPort o with
  | Some port => if 0 <? port
                 then cfg <| c_SPICE := Some ((default (mkSPICEConfig 0 true) (c_SPICE cfg)) <| sp_Port := port |>) |>
                 else cfg
  | None => cfg
  end.

(** The first mount of the directory is changed, a new one is appended. *)
Fixpoint share_mounts o (ms : list VirtiofsMount) : list VirtiofsMount :=
  match ms with
  | [] => [mkVirtiofsMount "" (o_VirtiofsDir o) (or_else (o_VirtiofsTag o) "share") (o_VirtiofsReadonly o)]
  | m :: ms' =>
      if bool_decide (vf_SharedDir m = o_VirtiofsDir o)
      then mkVirtiofsMount (vf_SocketPath m) (vf_SharedDir m) (or_else (o_VirtiofsTag o) (vf_Tag m)) (o_VirtiofsReadonly o) :: ms'
      else m :: share_mounts o ms'
  end.
Definition override_virtiofs o cfg : VMConfig :=
  if bool_decide (o_VirtiofsDir o = "") then cfg else cfg <| c_VirtiofsMounts := share_mounts o (c_VirtiofsMounts cfg) |>.

(** *** Disks *)
Definition extra_disk o : DiskConfig :=
  zeroDisk <| d_Path := PathJoin [pc_StoragePath conf; o_Name o; "storage"; "disk-extra-" +:+ o_Disk o +:+ ".qcow2"] |>
           <| d_Size := o_Disk o |> <| d_Format := "qcow2" |> <| d_Interface := "virtio" |>
           <| d_Media := "disk" |> <| d_Cache := "none" |>.
Definition add_extra o cfg (ds : list DiskConfig) : list DiskConfig :=
  if negb (bool_decide (o_Disk o = "")) &&
     (negb (bool_decide (BackendName cfg = VZ)) || match c_MacOS cfg with None => true | Some _ => false end)
  then ds ++ [extra_disk o] else ds.

Definition own_qcow2 (d : DiskConfig) : bool := negb (d_Passthrough d) && bool_decide (d_Format d = "qcow2").
Definition strip_qcow2 o (ds : list DiskConfig) : list DiskConfig :=
  if o_NoAutoInstall o && negb (bool_decide (o_BootDisk o = ""))
  then filter (λ d, own_qcow2 d = false) ds else ds.

(** The devices and images to attach: the boot disk is one of them. *)
Definition all_disks o : list string :=
  if bool_decide (o_BootDisk o = "") || existsb (λ raw, bool_decide (dd_Path (ParseDataDisk raw) = o_BootDisk o)) (o_DataDisks o)
  then o_DataDisks o else o_DataDisks o ++ [o_BootDisk o].

Definition user_disk o (raw : string) : result error DiskConfig :=
  let dd := ParseDataDisk raw in
  match classifyDisk ae (dd_Path dd) with
  | Err e => Err e
  | Ok (kind, format) =>
      Ok (zeroDisk <| d_Path := dd_Path dd |> <| d_Format := format |> <| d_Interface := "virtio" |>
                   <| d_Media := "disk" |> <| d_Cache := "none" |> <| d_Serial := dd_Serial dd |>
                   <| d_Passthrough := match kind with diskKindDevice => true | diskKindImage => false end |>
                   <| d_ImageFile := match kind with diskKindDevice => false | diskKindImage => true end |>
                   <| d_BootIndex := if negb (bool_decide (o_BootDisk o = "")) && bool_decide (dd_Path dd = o_BootDisk o)
                                     then 1 else 0 |>)
  end.
Fixpoint user_disks o (raws : list string) : result error (list DiskConfig) :=
  match raws with
  | [] => Ok []
  | raw :: raws' =>
      match user_disk o raw with
      | Err e => Err e
      | Ok d => match user_disks o raws' with Ok ds => Ok (d :: ds) | Err e => Err e end
      end
  end.

(** The first managed boot disk is put under another directory. *)
Fixpoint retarget (dir : string) (ds : list DiskConfig) : list DiskConfig :=
  match ds with
  | [] => []
  | d :: ds' => if managed_boot d then d <| d_Path := dir |> :: ds' else d :: retarget dir ds'
  end.
Definition relocate_boot o (ds : list DiskConfig) : list DiskConfig :=
  if bool_decide (o_BootDiskPath o = "") then ds else retarget (o_BootDiskPath o) ds.

Definition override_disks o cfg : result error VMConfig :=
  let ds := strip_qcow2 o (add_extra o cfg (c_Disks cfg)) in
  match (if bool_decide (o_Template o = "truenas") then Ok [] else user_disks o (all_disks o)) with
  | Err e => Err e
  | Ok mine => Ok (cfg <| c_Disks := relocate_boot o (ds ++ mine) |>)
  end.

(** *** The rest *)
Definition set_password (pw : string) (ci : CloudInitConfig) : CloudInitConfig :=
  mkCloudInitConfig (ci_Hostname ci) (ci_User ci) pw (ci_DefaultUser ci) (ci_SSHKeys ci) (ci_Packages ci)
    (ci_RunCmds ci) (ci_WriteFiles ci).

Definition override_guest o cfg : VMConfig :=
  let cfg := cfg <| c_SSHShare := default (c_SSHShare cfg) (o_SSHShare o) |>
                 <| c_Vsock := default (c_Vsock cfg) (o_Vsock o) |>
                 <| c_Headless := default (c_Headless cfg) (o_Headless o) |> in
  let cfg := if 0 <? o_SSHPort o then cfg <| c_SSHPort := o_SSHPort o |> else cfg in
  let cfg := cfg <| c_Hostname := or_else (o_Hostname o) (or_else (c_Hostname cfg) (o_Name o)) |> in
  let cfg := if bool_decide (o_Password o = "") then cfg
             else cfg <| c_CloudInit := set_password (o_Password o) <$> c_CloudInit cfg |> in
  if o_NoAutoInstall o || (bool_decide (o_Template o = "") && negb (bool_decide (o_BootDisk o = "")))
  then cfg <| c_SkipInstall := true |> else cfg.

(** *** Checks *)
Definition wants (b : option bool) : bool := match b with Some true => true | _ => false end.
Definition set_opt {A} (o : option A) : bool := match o with Some _ => true | None => false end.

Definition validateHelios cfg o : result error unit :=
  if negb (bool_decide (g_Mode (c_GPU cfg) = GPUHelios)) then Err (Errorf "helios options apply to --gpu-mode=helios only" [])
  else if negb (bool_decide (c_Template cfg = "windows")) then Err (Errorf "--gpu-mode=helios needs --template windows" [c_Template cfg])
  else if c_Headless cfg then Err (Errorf "--gpu-mode=helios: drop --headless" [])
  else if set_opt (c_SPICE cfg) then Err (Errorf "--gpu-mode=helios: drop --spice-port" [])
  else if given (o_GLBackend o) || set_opt (o_Venus o) || given (o_Pointer o)
  then Err (Errorf "--gpu-gl-backend/--gpu-venus/--pointer do not apply to --gpu-mode=helios" [])
  else if bool_decide (c_QemuBinary cfg = "") then Err (Errorf "--gpu-mode=helios needs --qemu-binary" [])
  else Ok tt.

Definition validateGPUAccel cfg o : result error unit :=
  match ValidatePointer (o_Pointer o) with
  | Err e => Err e
  | Ok _ =>
      if bool_decide (g_Mode (c_GPU cfg) = GPUHelios) || given (o_HeliosSetup o) || given (o_VNC o)
         || given (o_RenderNode o) || o_HeliosBootstrapVGA o
      then validateHelios cfg o
      else if negb (bool_decide (g_Mode (c_GPU cfg) = GPUVirtio)) then
        if given (o_Pointer o) then Err (Errorf "--pointer applies to GPU mode virtio only" [])
        else if given (o_GLBackend o) then Err (Errorf "--gpu-gl-backend applies to GPU mode virtio only" [])
        else if wants (o_Venus o) then Err (Errorf "--gpu-venus applies to GPU mode virtio only" [])
        else if given (o_HostMem o) then Err (Errorf "--gpu-hostmem applies to GPU mode virtio only" [])
        else Ok tt
      else
        let asked := given (o_GLBackend o) || wants (o_Venus o) || given (o_HostMem o) in
        if asked && c_Headless cfg then Err (Errorf "virtio-GPU acceleration needs a windowed display - drop --headless" [])
        else if asked && set_opt (c_SPICE cfg) then Err (Errorf "SPICE and host GL are mutually exclusive" [])
        else if given (o_HostMem o) && negb (g_Venus (c_GPU cfg)) then Err (Errorf "--gpu-hostmem without --gpu-venus" [])
        else if bool_decide (g_GLBackend (c_GPU cfg) ∈ [""; "on"; "es"; "core"]) then Ok tt
        else Err (Errorf "invalid --gpu-gl-backend" [g_GLBackend (c_GPU cfg)])
  end.

Definition ClampMacOSMinimums cfg : VMConfig :=
  match c_MacOS cfg with
  | None => cfg
  | Some mac =>
      let cfg := if (0 <? mac_MinCPUs mac) && ((c_CPUs cfg <=? 0) || (c_CPUs cfg <? mac_MinCPUs mac))
                 then cfg <| c_CPUs := mac_MinCPUs mac |> else cfg in
      if 0 <? mac_MinMemoryBytes mac then
        let low := match ParseMemoryBytes (c_Memory cfg) with Err _ => true | Ok cur => cur <? mac_MinMemoryBytes mac end in
        if low then cfg <| c_Memory := Itoa (Z.shiftr (mac_MinMemoryBytes mac) 20) +:+ "M" |> else cfg
      else cfg
  end.

Definition applyOverrides cfg o : result error VMConfig :=
  match override_qemu o (override_machine o cfg) with
  | Err e => Err e
  | Ok cfg =>
      let cfg := cfg <| c_GPU := override_gpu o (c_GPU cfg) |> in
      let cfg := if o_Nested o then cfg <| c_Nested := true |> else cfg in
      let cfg := override_virtiofs o (override_spice o cfg) in
      match override_disks o cfg with
      | Err e => Err e
      | Ok cfg =>
          let cfg := override_guest o cfg in
          match validateGPUAccel cfg o with
          | Err e => Err e
          | Ok _ => Ok (ClampMacOSMinimums cfg)
          end
      end
  end.

(** ** The template *)
Definition validateVirtiofsRequest (dir : string) (supported : bool) : result error unit :=
  if bool_decide (dir = "") || supported then Ok tt
  else Err (Errorf "virtiofs shares need virtiofsd, which is Linux-only" [HostOS host]).

Definition KnownTemplates : list string :=
  ["ubuntu-server"; "devbox"; "server"; "desktop"; "omarchy"; "docker"; "gaming-arch"; "gaming-bazzite"; "gaming";
   "passthrough"; "torrent"; "jellyfin"; "dns-sink"; "bitmagnet"; "github-runner"; "windows"; "truenas"; "macos"].

Definition gamingOpts o : GamingOptions :=
  mkGamingOptions (o_VirtiofsDir o) (o_VirtiofsReadonly o) (resolveGPUVendor ae (o_GPUVendor o))
    (bool_decide (o_GPUMode o = "passthrough")) (o_GPUPCI o) (o_NICMode o) (o_NICBridge o) (o_NICMAC o)
    (wants (o_Headless o)) (o_SSHPort o) (o_User o) (o_Password o) (o_Emulate o).

Definition windows_version o : string :=
  if given (o_DistroVersion o) && negb (bool_decide (o_DistroVersion o = "latest")) then o_DistroVersion o
  else if bool_decide (WindowsHostArch host = "arm64") then Windows11 else Windows10.

Definition ubuntu_version o : string :=
  if bool_decide (o_DistroVersion o ∈ [""; "latest"]) then default "" (head KnownUbuntuVersions) else o_DistroVersion o.

(** A VM of no template. *)
Definition defaultConfig o : VMConfig :=
  let nicMode := or_else (o_NICMode o) "user" in
  let cpus := if bool_decide (o_CPUs o = 0) then 2 else o_CPUs o in
  zeroConfig
    <| c_Name := o_Name o |> <| c_Template := o_Template o |> <| c_Memory := or_else (o_Memory o) "2G" |>
    <| c_CPUs := cpus |> <| c_Sockets := 1 |> <| c_Cores := cpus |> <| c_Threads := 1 |>
    <| c_CPUModel := pc_DefaultCPUModel conf |>
    <| c_NIC := zeroNIC <| nic_Mode := nicMode |>
                        <| nic_Bridge := or_else (o_NICBridge o) (if bool_decide (nicMode = "bridge") then "br0" else "") |>
                        <| nic_Model := "virtio-net-pci" |> |>
    <| c_GPU := zeroGPU <| g_Mode := GPUNone |> |>
    <| c_UEFI := zeroUEFI <| u_Enabled := default (given (o_BootDisk o)) (o_UEFI o) |> |>.

Definition macos_options o (sshKeys : list string) : MacOSOptions :=
  let x := default (mkMacOSExtras "" "" false) (o_MacOS o) in
  mkMacOSOptions (o_Disk o) (o_Memory o) (o_CPUs o) (o_User o) (o_Password o) sshKeys (o_Hostname o)
    (mx_IPSW x) (mx_MacosvmDir x) (mx_SkipFirstBoot x).

Definition helios_options o : option HeliosOptions :=
  if bool_decide (o_GPUMode o = GPUHelios)
  then Some (mkHeliosOptions (o_HeliosSetup o) (o_QemuBinary o) (o_HostMem o) (o_VNC o) (o_RenderNode o) (o_HeliosBootstrapVGA o))
  else None.

Definition template_is o (s : string) : bool := bool_decide (o_Template o = s).

Definition configFromTemplate o (sshKeys : list string) : result error VMConfig :=
  let n := o_Name o in
  let spicePort := default 0 (o_SPICEPort o) in
  if template_is o "gaming-arch" then t_GamingArch ts n sshKeys (gamingOpts o)
  else if template_is o "gaming-bazzite" then t_GamingBazzite ts n (gamingOpts o)
  else if template_is o "gaming" then
    let g := gamingOpts o in
    t_GamingArch ts n sshKeys (if given (o_GPUPCI o) then g <| go_Passthrough := true |> else g)
  else if template_is o "passthrough" then
    if bool_decide (o_NVMeDev o = "") || bool_decide (o_OVMFVars o = "")
    then Err (Errorf "passthrough template requires --nvme-dev and --ovmf-vars" [])
    else Ok (t_Passthrough ts n (o_NVMeDev o) (o_OVMFVars o) (o_GPUPCI o) (o_VirtiofsDir o) (o_NICMAC o))
  else if template_is o "torrent" then
    match o_Torrent o with
    | None => Err (Errorf "torrent template requires interactive prompts (mounts, VPN)" [])
    | Some x => t_Torrent ts n sshKeys x spicePort (o_Distro o) (o_Emulate o)
    end
  else if template_is o "devbox" then t_Devbox ts n sshKeys (o_Distro o) (o_DistroVersion o) (o_Emulate o)
  else if template_is o "server" then t_Server ts n sshKeys (o_Distro o) (o_DistroVersion o) (o_Emulate o)
  else if template_is o "desktop" then t_Desktop ts n sshKeys (o_Distro o) (o_DistroVersion o) (o_Emulate o)
  else if template_is o "omarchy" then t_Omarchy ts n sshKeys (o_DistroVersion o) (o_User o) (o_Password o) (o_Emulate o)
  else if template_is o "truenas" then t_Truenas ts n (o_DistroVersion o) (o_NICBridge o) spicePort (o_DataDisks o) (o_Emulate o)
  else if template_is o "macos" then t_MacOS ts n (macos_options o sshKeys)
  else if template_is o "windows" then
    t_Windows ts (windows_version o) n
      (if given (o_VirtiofsDir o) then or_else (o_VirtiofsTag o) "share" else o_VirtiofsTag o) spicePort sshKeys (helios_options o)
  else if template_is o "docker" then t_Docker ts n sshKeys (o_DistroVersion o) (o_Emulate o)
  else if template_is o "jellyfin" then t_Jellyfin ts n sshKeys (o_Jellyfin o) (o_NICBridge o)
  else if template_is o "dns-sink" then
    let x := default (mkDNSSinkExtras "" "") (o_DNSSink o) in
    t_DNSSink ts n sshKeys (o_NICBridge o) (dx_AdminUser x) (dx_PasswordHash x) (o_Emulate o)
  else if template_is o "bitmagnet" then
    match o_Bitmagnet o with
    | None => Err (Errorf "bitmagnet template requires interactive prompts (VPN, database password)" [])
    | Some x => t_Bitmagnet ts n sshKeys x (o_NICBridge o) (o_Disk o) (o_Emulate o)
    end
  else if template_is o "ubuntu-server" then
    if o_NoAutoInstall o then t_UbuntuServerNoISO ts (ubuntu_version o) n else t_UbuntuServer ts (ubuntu_version o) n
  else if template_is o "github-runner" then
    match o_Runner o with
    | None => Err (Errorf "github-runner template requires interactive prompts" [])
    | Some x => t_GitHubRunner ts n sshKeys x
    end
  else Ok (defaultConfig o).

(** ** The whole *)
Definition Build o : result error VMConfig :=
  if bool_decide (o_Name o = "") then Err (Errorf "name is required" [])
  else if template_is o "" && bool_decide (o_BootDisk o = "") && bool_decide (o_DataDisks o = [])
  then Err (Errorf "template is required" [])
  else match validateVirtiofsRequest (o_VirtiofsDir o) (SupportsVirtiofsd host) with
  | Err e => Err e
  | Ok _ =>
      match loadSSHKeys ae (o_SSHKeyFile o) with
      | Err e => Err e
      | Ok sshKeys =>
          match configFromTemplate o sshKeys with
          | Err e => Err e
          | Ok cfg =>
              if given (c_Arch cfg) && negb (bool_decide (c_Arch cfg = DefaultGuestArch host)) && negb (o_Emulate o)
              then Err (Errorf "template builds a cross-arch guest: pass --emulate" [o_Template o; c_Arch cfg])
              else match applyOverrides cfg o with
                   | Err e => Err e
                   | Ok cfg => Ok (applyMirror conf ae cfg)
                   end
          end
      end
  end.
End Assemble.

(** ** Lemmas *)
Section Lemmas.
Context `{Extras} (host : Host) (conf : ProviderConfig) (ae : AsmEnv) (ts : Templates).
Implicit Types (o : Opts) (cfg : VMConfig).

Lemma Build_inv o cfg : Build host conf ae ts o = Ok cfg → ∃ keys base out,
  o_Name o ≠ "" ∧ loadSSHKeys ae (o_SSHKeyFile o) = Ok keys ∧ configFromTemplate host conf ae ts o keys = Ok base ∧
  (c_Arch base = "" ∨ c_Arch base = DefaultGuestArch host ∨ o_Emulate o = true) ∧
  (o_VirtiofsDir o = "" ∨ IsLinux host = true) ∧
  applyOverrides conf ae base o = Ok out ∧ cfg = applyMirror conf ae out.
Proof.
  unfold Build. destruct (bool_decide (o_Name o = "")) eqn:En; [done|]. destruct (_ && _); [done|].
  unfold validateVirtiofsRequest, SupportsVirtiofsd.
  destruct (bool_decide (o_VirtiofsDir o = "") || IsLinux host) eqn:Ev; [|done].
  destruct (loadSSHKeys _ _) as [keys|] eqn:Ek; [|done].
  destruct (configFromTemplate _ _ _ _ _ _) as [base|] eqn:Eb; [|done].
  destruct (given (c_Arch base) && negb (bool_decide (c_Arch base = DefaultGuestArch host)) && negb (o_Emulate o)) eqn:Ea; [done|].
  destruct (applyOverrides _ _ _ _) as [out|] eqn:Eo; [|done]. intros [= <-].
  exists keys, base, out. apply bool_decide_eq_false in En. split_and!; try done.
  - unfold given in Ea. destruct (decide (c_Arch base = "")) as [|Hn]; [by left|right].
    rewrite (bool_decide_false _ Hn) in Ea. destruct (decide (c_Arch base = DefaultGuestArch host)) as [|Hd]; [by left|right].
    rewrite (bool_decide_false _ Hd) in Ea. by destruct (o_Emulate o).
  - apply orb_true_iff in Ev as [E|E]; [left; by apply bool_decide_eq_true in E|by right].
Qed.

(** The steps before the disks. *)
Definition override_devices o cfg : VMConfig :=
  let cfg := cfg <| c_GPU := override_gpu ae o (c_GPU cfg) |> in
  let cfg := if o_Nested o then cfg <| c_Nested := true |> else cfg in
  override_virtiofs o (override_spice o cfg).

Lemma applyOverrides_inv o base out : applyOverrides conf ae base o = Ok out → ∃ c1 mine,
  override_qemu o (override_machine o base) = Ok c1 ∧
  (if bool_decide (o_Template o = "truenas") then Ok [] else user_disks ae o (all_disks o)) = Ok mine ∧
  let c2 := override_devices o c1 in
  out = ClampMacOSMinimums (override_guest o (c2 <| c_Disks :=
          relocate_boot o (strip_qcow2 o (add_extra conf o c2 (c_Disks c2)) ++ mine) |>)).
Proof.
  unfold applyOverrides. destruct (override_qemu _ _) as [c1|] eqn:E1; [|done].
  fold (override_devices o c1). unfold override_disks.
  destruct (if bool_decide (o_Template o = "truenas") then _ else _) as [mine|] eqn:E2; [|done].
  destruct (validateGPUAccel _ _); [|done]. intros [= <-]. by exists c1, mine.
Qed.

Lemma applyMirror_eq cfg : ∃ ci, applyMirror conf ae cfg = cfg <| c_CloudInit := ci |>.
Proof.
  assert (Hid : ∃ ci, cfg = cfg <| c_CloudInit := ci |>) by (exists (c_CloudInit cfg); by destruct cfg).
  unfold applyMirror. destruct (c_CloudInit cfg); [|done]. destruct (negb _); [done|].
  destruct (Resolve _ _ _ _); [by eexists|done].
Qed.

Lemma Clamp_eq cfg : ∃ cpus mem, ClampMacOSMinimums cfg = cfg <| c_CPUs := cpus |> <| c_Memory := mem |>.
Proof.
  assert (Hid : cfg = cfg <| c_CPUs := c_CPUs cfg |> <| c_Memory := c_Memory cfg |>) by by destruct cfg.
  unfold ClampMacOSMinimums. destruct (c_MacOS cfg) as [mac|]; [|by eexists _, _].
  destruct (0 <? mac_MinCPUs mac), (_ || _); cbn [andb]; destruct (0 <? mac_MinMemoryBytes mac);
    try destruct (match ParseMemoryBytes _ with Ok _ => _ | Err _ => _ end); by eexists _, _.
Qed.

Lemma override_qemu_inv o cfg c1 : override_qemu o cfg = Ok c1 → ∃ env,
  c1 = cfg <| c_GPU := (c_GPU cfg) <| g_Mode := or_else (o_GPUMode o) (g_Mode (c_GPU cfg)) |> |>
           <| c_QemuBinary := or_else (o_QemuBinary o) (c_QemuBinary cfg) |> <| c_QemuEnv := env |> ∧
  ((o_QemuEnv o = [] ∧ env = c_QemuEnv cfg) ∨ (env = o_QemuEnv o ∧ ValidateQemuEnv env = Ok tt)).
Proof.
  unfold override_qemu. destruct (o_QemuEnv o) as [|e env] eqn:Ee.
  - intros [= <-]. exists (c_QemuEnv cfg). split; [|by left]. by destruct cfg.
  - destruct (ValidateQemuEnv _) as [[]|] eqn:Ev; [|done]. intros [= <-]. exists (e :: env). split; [done|by right].
Qed.

Lemma override_spice_eq o cfg : ∃ sp, override_spice o cfg = cfg <| c_SPICE := sp |>.
Proof.
  assert (Hid : cfg = cfg <| c_SPICE := c_SPICE cfg |>) by by destruct cfg.
  unfold override_spice. destruct (o_SPICEPort o) as [p|]; [destruct (0 <? p)|]; by eexists.
Qed.
Lemma override_devices_eq o cfg : ∃ nested sp vfs, override_devices o cfg =
  cfg <| c_GPU := override_gpu ae o (c_GPU cfg) |> <| c_Nested := nested |> <| c_SPICE := sp |> <| c_VirtiofsMounts := vfs |>.
Proof.
  unfold override_devices. set (c1 := if o_Nested o then _ else _).
  assert (∃ b, c1 = cfg <| c_GPU := override_gpu ae o (c_GPU cfg) |> <| c_Nested := b |>) as (b & ->).
  { subst c1. destruct (o_Nested o); [by exists true|exists (c_Nested cfg)]. by destruct cfg. }
  destruct (override_spice_eq o (cfg <| c_GPU := override_gpu ae o (c_GPU cfg) |> <| c_Nested := b |>)) as (sp & ->).
  unfold override_virtiofs. destruct (bool_decide _); [|by eexists _, _, _].
  exists b, sp, (c_VirtiofsMounts cfg). by destruct cfg.
Qed.
Lemma override_gpu_mode o g : g_Mode (override_gpu ae o g) = g_Mode g.
Proof.
  unfold override_gpu. destruct (bool_decide (o_GPUPCI o = "")); [done|]. cbn. by destruct (g_ExtraVFIOAddrs g).
Qed.

Lemma override_guest_eq o cfg : ∃ ci, override_guest o cfg =
  cfg <| c_SSHShare := default (c_SSHShare cfg) (o_SSHShare o) |> <| c_Vsock := default (c_Vsock cfg) (o_Vsock o) |>
      <| c_Headless := default (c_Headless cfg) (o_Headless o) |>
      <| c_SSHPort := if 0 <? o_SSHPort o then o_SSHPort o else c_SSHPort cfg |>
      <| c_Hostname := or_else (o_Hostname o) (or_else (c_Hostname cfg) (o_Name o)) |>
      <| c_CloudInit := ci |>
      <| c_SkipInstall := o_NoAutoInstall o || (bool_decide (o_Template o = "") && given (o_BootDisk o)) || c_SkipInstall cfg |>.
Proof.
  exists (if bool_decide (o_Password o = "") then c_CloudInit cfg else set_password (o_Password o) <$> c_CloudInit cfg).
  unfold override_guest. fold (given (o_BootDisk o)).
  destruct (0 <? o_SSHPort o), (bool_decide (o_Password o = "")),
    (o_NoAutoInstall o || (bool_decide (o_Template o = "") && given (o_BootDisk o))) eqn:E;
    cbn -[set_password default or_else given]; by destruct cfg.
Qed.

Lemma override_machine_eq o cfg : override_machine o cfg =
  cfg <| c_Backend := or_else (o_Backend o) (c_Backend cfg) |> <| c_Memory := or_else (o_Memory o) (c_Memory cfg) |>
      <| c_CPUs := if 0 <? o_CPUs o then o_CPUs o else c_CPUs cfg |>
      <| c_Cores := if 0 <? o_CPUs o then o_CPUs o else c_Cores cfg |>
      <| c_NIC := (c_NIC cfg) <| nic_Mode := or_else (o_NICMode o) (nic_Mode (c_NIC cfg)) |>
                              <| nic_Bridge := or_else (o_NICBridge o) (nic_Bridge (c_NIC cfg)) |> |>
      <| c_UEFI := (c_UEFI cfg) <| u_Enabled := default (u_Enabled (c_UEFI cfg)) (o_UEFI o) |> |>.
Proof.
  unfold override_machine. destruct cfg; destruct (0 <? o_CPUs o); destruct (o_UEFI o); cbn; try done.
  all: match goal with |- context [u_Enabled ?u] => by destruct u end.
Qed.

(** A memory size the builder writes is read back. *)
Lemma ParseMemoryBytes_M z : 0 < z < 2 ^ 43 → ParseMemoryBytes (Itoa z +:+ "M") = Ok (z * 2 ^ 20).
Proof.
  intros Hz. unfold ParseMemoryBytes. pose proof (Itoa_digits z ltac:(lia)) as Hd.
  assert (Hs : sforall (λ c, negb (is_space c)) (Itoa z) = true).
  { apply (sforall_impl is_digit); [|done]. intros c Hc. by apply digit_chars. }
  rewrite TrimSpace_id by (rewrite sforall_app; cbn; by rewrite Hs).
  change "M" with (String "M" ""). rewrite unsnoc_app. change (size_mult "M") with (2 ^ 20). cbn [Z.ltb Z.compare].
  change (1 <? 2 ^ 20) with true. cbn iota. rewrite TrimSpace_id by done.
  unfold ParseUint64. rewrite parse_digits_Itoa by lia. cbn [mbind option_bind].
  destruct (Z.ltb_spec z (2 ^ 64)); [|lia]. unfold wrapu64. by rewrite Z.mod_small by lia.
Qed.

(** Raised to a minimum, CPUs and memory are at least it. *)
Lemma Clamp_minimums cfg mac : c_MacOS cfg = Some mac →
  mac_MinCPUs mac <= c_CPUs (ClampMacOSMinimums cfg) ∨ mac_MinCPUs mac <= 0.
Proof.
  intros Hm. unfold ClampMacOSMinimums. rewrite Hm.
  destruct (Z.ltb_spec 0 (mac_MinCPUs mac)); [left|by right].
  destruct (Z.leb_spec (c_CPUs cfg) 0), (Z.ltb_spec (c_CPUs cfg) (mac_MinCPUs mac)); cbn [andb orb];
    destruct (0 <? mac_MinMemoryBytes mac); cbn -[ParseMemoryBytes];
    try destruct (match ParseMemoryBytes _ with Ok _ => _ | Err _ => _ end); cbn; lia.
Qed.
Lemma Clamp_memory cfg mac : c_MacOS cfg = Some mac → 0 < mac_MinMemoryBytes mac < 2 ^ 63 →
  (2 ^ 20 | mac_MinMemoryBytes mac) →
  ∃ mem, ParseMemoryBytes (c_Memory (ClampMacOSMinimums cfg)) = Ok mem ∧ mac_MinMemoryBytes mac <= mem.
Proof.
  intros Hm Hr [k Hk]. unfold ClampMacOSMinimums. rewrite Hm. destruct (Z.ltb_spec 0 (mac_MinMemoryBytes mac)); [|lia].
  set (c1 := if _ && _ then _ else cfg).
  assert (c_Memory c1 = c_Memory cfg) as ->. { subst c1. by destruct (_ && _). }
  assert (Hlow : ∃ mem, ParseMemoryBytes (Itoa (Z.shiftr (mac_MinMemoryBytes mac) 20) +:+ "M") = Ok mem ∧ mac_MinMemoryBytes mac <= mem).
  { rewrite Z.shiftr_div_pow2, Hk, Z.div_mul by lia. rewrite ParseMemoryBytes_M by lia. eexists; split; [done|lia]. }
  destruct (ParseMemoryBytes (c_Memory cfg)) as [cur|] eqn:Ec; [|exact Hlow].
  destruct (Z.ltb_spec cur (mac_MinMemoryBytes mac)); [exact Hlow|]. exists cur. split; [|lia].
  subst c1. by destruct (_ && _).
Qed.
End Lemmas.

(** ** Lemmas on disks *)
Section DiskLemmas.
Context `{Extras} (conf : ProviderConfig) (ae : AsmEnv).
Implicit Types (o : Opts) (d : DiskConfig).

(** A disk the user named: attached as it is, with its real format. *)
Definition users d : Prop := d_Passthrough d = true ∨ d_ImageFile d = true.

Lemma classifyDisk_ok path kind format : classifyDisk ae path = Ok (kind, format) →
  match kind with
  | diskKindDevice => ae_stat ae path = Ok FDevice ∧ format = "raw"
  | diskKindImage => ae_stat ae path = Ok FRegular ∧ ae_probe ae path = Ok format ∧ format ≠ ""
  end.
Proof.
  unfold classifyDisk, probeImageFormat. destruct (ae_stat ae path) as [[]|]; [by intros [= <- <-]| |done|done].
  destruct (ae_probe ae path) as [[|c f]|] eqn:E; [done| |done]. by intros [= <- <-].
Qed.

Lemma user_disk_ok o raw d : user_disk ae o raw = Ok d → users d ∧ managed_boot d = false ∧ own_qcow2 d = d_ImageFile d && bool_decide (d_Format d = "qcow2") ∧
  d_Path d = dd_Path (ParseDataDisk raw) ∧ keep_installed d = true ∧ d_Media d = "disk" ∧
  d_BootIndex d = (if given (o_BootDisk o) && bool_decide (d_Path d = o_BootDisk o) then 1 else 0) ∧
  (d_Passthrough d = true → ae_stat ae (d_Path d) = Ok FDevice ∧ d_Format d = "raw") ∧
  (d_ImageFile d = true → ae_probe ae (d_Path d) = Ok (d_Format d)).
Proof.
  unfold user_disk. destruct (classifyDisk _ _) as [[kind format]|] eqn:E; [|done]. apply classifyDisk_ok in E.
  intros [= <-]. unfold users, own_qcow2. cbn. destruct kind; destruct_and?; split_and!; (done || by auto).
Qed.

Lemma user_disks_ok o raws ds : user_disks ae o raws = Ok ds → Forall2 (λ raw d, user_disk ae o raw = Ok d) raws ds.
Proof.
  revert ds. induction raws as [|raw raws IH]; cbn; intros ds; [intros [= <-]; constructor|].
  destruct (user_disk ae o raw) as [d|] eqn:E; [|done]. destruct (user_disks ae o raws) as [ds'|]; [|done].
  intros [= <-]. constructor; [done|by apply IH].
Qed.
Lemma user_disks_all o raws ds : user_disks ae o raws = Ok ds → Forall (λ d, ∃ raw, raw ∈ raws ∧ user_disk ae o raw = Ok d) ds.
Proof.
  intros Hf%user_disks_ok. apply Forall_forall. intros d Hd. apply list_elem_of_lookup in Hd as (i & Hi).
  eapply Forall2_lookup_r in Hf as (raw & Hr & Hu); [|done]. exists raw. split; [|done]. by eapply list_elem_of_lookup_2.
Qed.

(** The boot disk is among them. *)
Lemma all_disks_boot o : given (o_BootDisk o) = true → dd_Path (ParseDataDisk (o_BootDisk o)) = o_BootDisk o →
  ∃ raw, raw ∈ all_disks o ∧ dd_Path (ParseDataDisk raw) = o_BootDisk o.
Proof.
  intros Hg Hb. unfold all_disks. unfold given in Hg. apply negb_true_iff in Hg. rewrite Hg. cbn [orb].
  destruct (existsb _ _) eqn:E.
  - apply existsb_exists in E as (raw & Hin & Hp%bool_decide_eq_true). exists raw. split; [by apply list_elem_of_In|done].
  - exists (o_BootDisk o). split; [|done]. apply elem_of_app. right. by apply list_elem_of_singleton.
Qed.

(** Moving the managed disk changes no disk of the user. *)
Lemma retarget_keeps dir ds d : managed_boot d = false → d ∈ ds → d ∈ retarget dir ds.
Proof.
  intros Hm. induction ds as [|e ds IH]; cbn; [done|]. intros [->|Hd]%elem_of_cons.
  - rewrite Hm. by left.
  - destruct (managed_boot e); [by right|]. right. by apply IH.
Qed.
Lemma retarget_none dir ds : Forall (λ d, managed_boot d = false) ds → retarget dir ds = ds.
Proof. induction 1 as [|d ds Hd _ IH]; [done|]. cbn. by rewrite Hd, IH. Qed.
Lemma relocate_keeps o ds d : managed_boot d = false → d ∈ ds → d ∈ relocate_boot o ds.
Proof. intros Hm Hd. unfold relocate_boot. destruct (bool_decide _); [done|]. by apply retarget_keeps. Qed.
Lemma relocate_none o ds : Forall (λ d, managed_boot d = false) ds → relocate_boot o ds = ds.
Proof. intros Hf. unfold relocate_boot. destruct (bool_decide _); [done|]. by apply retarget_none. Qed.

Lemma managed_own d : managed_boot d = true → own_qcow2 d = true.
Proof.
  unfold managed_boot, own_qcow2. destruct (d_Passthrough d), (bool_decide (d_Format d = "qcow2")); try done.
  by rewrite orb_true_r.
Qed.
Lemma strip_none o ds : o_NoAutoInstall o = true → given (o_BootDisk o) = true →
  Forall (λ d, managed_boot d = false) (strip_qcow2 o ds).
Proof.
  intros Hn Hg. unfold strip_qcow2. rewrite Hn. fold (given (o_BootDisk o)). rewrite Hg. cbn [andb].
  apply Forall_forall. intros d [Ho _]%list_elem_of_filter. destruct (managed_boot d) eqn:E; [|done].
  apply managed_own in E. congruence.
Qed.
End DiskLemmas.

(** ** Claims *)
Section Claims.
Context `{Extras} (host : Host) (conf : ProviderConfig) (ae : AsmEnv) (ts : Templates).
Implicit Types (o : Opts) (cfg : VMConfig).

(** A config that was built, against the one its template gave. *)
Record built_from o base cfg : Prop := {
  bf_Name : c_Name cfg = c_Name base;
  bf_Template : c_Template cfg = c_Template base;
  bf_Arch : c_Arch cfg = c_Arch base;
  bf_boot : (c_Kernel cfg, c_Cmdline cfg, c_Initrd cfg, c_MacOS cfg) =
            (c_Kernel base, c_Cmdline base, c_Initrd base, c_MacOS base);
  bf_Backend : c_Backend cfg = or_else (o_Backend o) (c_Backend base);
  bf_NIC : nic_Mode (c_NIC cfg) = or_else (o_NICMode o) (nic_Mode (c_NIC base)) ∧
           nic_Bridge (c_NIC cfg) = or_else (o_NICBridge o) (nic_Bridge (c_NIC base));
  bf_UEFI : u_Enabled (c_UEFI cfg) = default (u_Enabled (c_UEFI base)) (o_UEFI o);
  bf_GPU : g_Mode (c_GPU cfg) = or_else (o_GPUMode o) (g_Mode (c_GPU base));
  bf_QemuBinary : c_QemuBinary cfg = or_else (o_QemuBinary o) (c_QemuBinary base);
  bf_QemuEnv : (o_QemuEnv o = [] ∧ c_QemuEnv cfg = c_QemuEnv base) ∨
               (c_QemuEnv cfg = o_QemuEnv o ∧ ValidateQemuEnv (c_QemuEnv cfg) = Ok tt);
  bf_guest : c_Headless cfg = default (c_Headless base) (o_Headless o) ∧
             c_Vsock cfg = default (c_Vsock base) (o_Vsock o) ∧
             c_SSHShare cfg = default (c_SSHShare base) (o_SSHShare o) ∧
             c_SSHPort cfg = (if 0 <? o_SSHPort o then o_SSHPort o else c_SSHPort base) ∧
             c_Hostname cfg = or_else (o_Hostname o) (or_else (c_Hostname base) (o_Name o));
  bf_SkipInstall : c_SkipInstall cfg =
    o_NoAutoInstall o || (bool_decide (o_Template o = "") && given (o_BootDisk o)) || c_SkipInstall base;
  bf_size : let c := base <| c_Memory := or_else (o_Memory o) (c_Memory base) |>
                          <| c_CPUs := if 0 <? o_CPUs o then o_CPUs o else c_CPUs base |> in
            c_Memory cfg = c_Memory (ClampMacOSMinimums c) ∧ c_CPUs cfg = c_CPUs (ClampMacOSMinimums c);
  bf_Disks : ∃ ds mine, c_Disks cfg = relocate_boot o (strip_qcow2 o ds ++ mine) ∧
    (o_Template o ≠ "truenas" → user_disks ae o (all_disks o) = Ok mine);
}.

Lemma Clamp_none c : c_MacOS c = None → ClampMacOSMinimums c = c.
Proof. intros Hm. unfold ClampMacOSMinimums. by rewrite Hm. Qed.

Lemma Clamp_cong c c' : c_MacOS c = c_MacOS c' → c_Memory c = c_Memory c' → c_CPUs c = c_CPUs c' →
  c_Memory (ClampMacOSMinimums c) = c_Memory (ClampMacOSMinimums c') ∧
  c_CPUs (ClampMacOSMinimums c) = c_CPUs (ClampMacOSMinimums c').
Proof.
  intros Hm He Hc. unfold ClampMacOSMinimums. rewrite <-Hm, <-Hc. destruct (c_MacOS c) as [mac|]; [|done].
  destruct (_ && _), (0 <? mac_MinMemoryBytes mac); cbn -[ParseMemoryBytes]; rewrite <-?He;
    try destruct (match ParseMemoryBytes _ with Ok _ => _ | Err _ => _ end); done.
Qed.

Lemma Build_from o cfg : Build host conf ae ts o = Ok cfg → ∃ keys base,
  loadSSHKeys ae (o_SSHKeyFile o) = Ok keys ∧ configFromTemplate host conf ae ts o keys = Ok base ∧
  (c_Arch base = "" ∨ c_Arch base = DefaultGuestArch host ∨ o_Emulate o = true) ∧ built_from o base cfg.
Proof.
  intros (keys & base & out & _ & Hk & Hb & Ha & _ & Ho & ->)%Build_inv. exists keys, base. split_and!; try done.
  destruct (applyMirror_eq conf ae out) as (ci & ->).
  apply applyOverrides_inv in Ho as (c1 & mine & Hq & Hm & ->).
  apply override_qemu_inv in Hq as (env & -> & He). rewrite override_machine_eq in He |- *.
  match goal with |- context [override_devices ae o ?c] => destruct (override_devices_eq ae o c) as (nested & sp & vfs & ->) end.
  match goal with |- context [override_guest o ?c] => destruct (override_guest_eq o c) as (ci' & ->) end.
  match goal with |- context [ClampMacOSMinimums ?c] => set (c3 := c) end.
  destruct (Clamp_eq c3) as (cpus & mem & Ec).
  assert (Hs : c_Memory (ClampMacOSMinimums c3) = mem ∧ c_CPUs (ClampMacOSMinimums c3) = cpus) by by rewrite Ec.
  destruct Hs as [Hs1 Hs2].
  split; try (rewrite Ec; subst c3; done).
  - rewrite Ec. subst c3. exact (override_gpu_mode ae o _).
  - split; apply Clamp_cong; done.
  - rewrite Ec. subst c3. eexists _, mine. split; [done|]. intros Ht. by rewrite (bool_decide_false _ Ht) in Hm.
Qed.

(** Each disk named is in the config. *)
Lemma Build_disk_in o cfg raw : Build host conf ae ts o = Ok cfg → o_Template o ≠ "truenas" → raw ∈ all_disks o →
  ∃ d, d ∈ c_Disks cfg ∧ user_disk ae o raw = Ok d.
Proof.
  intros (keys & base & _ & _ & _ & Hf)%Build_from Ht Hr. destruct (bf_Disks _ _ _ Hf) as (ds & mine & Hd & Hm).
  specialize (Hm Ht). apply list_elem_of_lookup in Hr as (i & Hi). pose proof (user_disks_ok _ _ _ _ Hm) as Hall.
  eapply Forall2_lookup_l in Hall as (d & Hdi & Hu); [|exact Hi]. exists d. split; [|done]. rewrite Hd.
  apply relocate_keeps; [by apply user_disk_ok in Hu as (_ & ? & _)|]. apply elem_of_app. right.
  by eapply list_elem_of_lookup_2.
Qed.

Lemma Build_boot_disk o cfg : Build host conf ae ts o = Ok cfg → o_Template o ≠ "truenas" →
  o_BootDisk o ≠ "" → dd_Path (ParseDataDisk (o_BootDisk o)) = o_BootDisk o →
  ∃ d, d ∈ c_Disks cfg ∧ d_Path d = o_BootDisk o ∧ users d ∧ d_BootIndex d = 1 ∧ keep_installed d = true.
Proof.
  intros Hb Ht Hg Hp. assert (given (o_BootDisk o) = true) as Hg' by (unfold given; by rewrite bool_decide_false).
  destruct (all_disks_boot o Hg' Hp) as (raw & Hr & Hraw). destruct (Build_disk_in _ _ _ Hb Ht Hr) as (d & Hdi & Hu).
  apply user_disk_ok in Hu as (Hus & _ & _ & Hp' & Hk & _ & Hbi & _). exists d. rewrite Hraw in Hp'.
  split_and!; try done. by rewrite Hbi, Hg', bool_decide_true.
Qed.


(** A name that is no template gives the blank VM. *)
Lemma template_default o keys : o_Template o ∉ KnownTemplates →
  configFromTemplate host conf ae ts o keys = Ok (defaultConfig conf o).
Proof.
  intros Hn. unfold configFromTemplate, template_is.
  repeat (rewrite (bool_decide_false (o_Template o = _));
    [|intros E; apply Hn; rewrite E; apply (bool_decide_unpack _); vm_compute; exact I]).
  done.
Qed.


(** a macOS guest is never built below its restored image's needs: whatever
    memory and CPUs are asked for, it has at least the CPUs recorded and a
    memory size that reads back as at least the bytes recorded. *)
Theorem build_macos_minimums o cfg mac : Build host conf ae ts o = Ok cfg → c_MacOS cfg = Some mac →
  0 < mac_MinCPUs mac → 0 < mac_MinMemoryBytes mac < 2 ^ 63 → (2 ^ 20 | mac_MinMemoryBytes mac) →
  mac_MinCPUs mac <= c_CPUs cfg ∧ ∃ mem, ParseMemoryBytes (c_Memory cfg) = Ok mem ∧ mac_MinMemoryBytes mac <= mem.
Proof.
  intros (keys & base & _ & _ & _ & Hf)%Build_from Hm Hc Hr Hd.
  pose proof (bf_boot _ _ _ Hf) as Hboot. injection Hboot as _ _ _ Hmac. rewrite Hm in Hmac.
  destruct (bf_size _ _ _ Hf) as [-> ->]. split; [|by apply Clamp_memory].
  edestruct Clamp_minimums as [Hle|]; [|exact Hle|lia]. done.
Qed.
End Claims.

(** From the options to a machine that runs. *)
Section Composition.
Context `{Extras} {S : Type} `{VMStoreLaws S} (host : Host) (be : BuildEnv S) (fs : FsEnv) (ae : AsmEnv) (ts : Templates).
Context (Hbe : host_works be).

(** A VM of no template around the user's disk, for plain QEMU. *)
Definition adopts_disk (o : Opts) : Prop :=
  o_Template o = "" ∧ o_BootDisk o ≠ "" ∧ dd_Path (ParseDataDisk (o_BootDisk o)) = o_BootDisk o ∧
  o_Backend o ∈ [""; QEMU] ∧ o_QemuBinary o = "" ∧ o_GPUMode o ∈ [""; GPUNone; GPUVirtio].

Lemma adopted_plain o cfg : adopts_disk o → Build host (be_conf be) ae ts o = Ok cfg →
  plain host cfg ∧ c_Name cfg = o_Name o ∧ c_SkipInstall cfg = true.
Proof.
  intros (Ht & Hg & Hp & Hback & Hqb & Hgpu) Hbuild.
  assert (o_Template o ≠ "truenas") as Htn by by rewrite Ht.
  destruct (Build_boot_disk host (be_conf be) ae ts o cfg Hbuild Htn Hg Hp) as (d & Hd & _ & _ & _ & Hdk).
  apply Build_from in Hbuild as (keys & base & _ & Hb & _ & Hf).
  rewrite template_default in Hb by (rewrite Ht; apply (bool_decide_unpack _); vm_compute; exact I).
  injection Hb as <-. pose proof (bf_boot _ _ _ _ Hf) as Hboot. injection Hboot as Hk Hc Hi _.
  split_and!; [|apply (bf_Name _ _ _ _ Hf)|].
  - unfold plain. rewrite Hk, Hc, Hi. unfold emulated, guest_arch, BackendName.
    rewrite (bf_Backend _ _ _ _ Hf), (bf_Arch _ _ _ _ Hf), (bf_QemuBinary _ _ _ _ Hf), Hqb, (bf_GPU _ _ _ _ Hf).
    split_and!; try done.
    + cbn. rewrite !elem_of_cons, elem_of_nil in Hback. by destruct Hback as [->|[->|[]]].
    + cbn. by rewrite bool_decide_true.
    + destruct (bf_QemuEnv _ _ _ _ Hf) as [[_ ->]|[_ ?]]; done.
    + unfold or_else. destruct (bool_decide (o_GPUMode o = "")); [|done]. cbn. set_solver.
    + apply Exists_exists. by exists d.
  - rewrite (bf_SkipInstall _ _ _ _ Hf), Ht. unfold given. rewrite (bool_decide_false (o_BootDisk o = "")) by done.
    by rewrite orb_true_r.
Qed.

(** from the options to a machine.  A VM of no template around an existing
    disk, once built and created, is stored under its name with the install
    skipped, and on a host whose tools work the machine built from the stored
    config carries that disk, first in the boot order. *)
Theorem adopted_disk_boots o cfg env w w' : adopts_disk o → Build host (be_conf be) ae ts o = Ok cfg →
  healthy (w_store w) → Create be fs host env cfg w = (Ok tt, w') →
  ∃ stored d c' m pids w'', cfg_view (w_store w') !! o_Name o = Some stored ∧ c_SkipInstall stored = true ∧
    d ∈ c_Disks stored ∧ d_Path d = o_BootDisk o ∧ d_BootIndex d = 1 ∧
    buildMachine host be stored w' = (Ok (c', m, pids), w'') ∧
    disk_of be (MachineAbsolutePath (NewEmptyMachine host (be_conf be) (be_petname be))) d ∈ m_disks m.
Proof.
  intros Ha Hb Hh Hcr. destruct (adopted_plain o cfg Ha Hb) as (Hpl & Hn & Hs).
  pose proof Ha as (Ht & Hg & Hp & _). assert (o_Template o ≠ "truenas") as Htn by by rewrite Ht.
  destruct (Build_boot_disk host (be_conf be) ae ts o cfg Hb Htn Hg Hp) as (d & Hd & Hdp & _ & Hdb & Hdk).
  apply run_bind_inv in Hcr as (cfg3 & w2 & E & Es).
  pose proof Hpl as (Hq & Hk & Hc & Hi & Hem & Hqb & Hqe & Hgm & Hex).
  apply create_config_ok in E as (u & seeds & sp & sv & -> & Es2 & _); [|done].
  match type of Es with context [st (saveConfig ?c)] => set (cfg3 := c) in Es end.
  destruct (st_saveConfig cfg3 w2) as (s' & E5 & _ & _ & Ev); [by rewrite Es2|].
  rewrite E5 in Es. injection Es as <-.
  assert (plain host (persisted cfg3)) as Hpl3.
  { unfold plain. split_and!; try done. cbn. apply Exists_app. by left. }
  destruct (buildMachine_plain host be Hbe (persisted cfg3) (w2 <| w_store := s' |>) Hpl3) as (c' & m & pids & w'' & Eb & _).
  exists (persisted cfg3), d, c', m, pids, w''. split_and!; try done.
  - cbn [w_store]. cbn. rewrite Ev, <-Hn. apply lookup_insert_eq.
  - cbn. apply elem_of_app. by left.
  - pose proof (buildMachine_inv host be _ _ _ _ _ _ Eb) as (mac & port & nic & _ & _ & Hcore & _).
    injection Hcore as _ _ Hds _ _ _. rewrite Hds. unfold attached. apply list_elem_of_fmap. exists d. split; [done|].
    apply list_elem_of_filter. split; [by apply keep_attachable|]. cbn. apply elem_of_app. by left.
Qed.
End Composition.

(** ** The functions that go with a GPU *)
Lemma audio_addrs_in seen ps a : a ∈ audio_addrs seen ps → a ∉ seen ∧ ∃ p, p ∈ ps ∧ pd_Address p = a ∧ IsAudioDevice p = true.
Proof.
  revert seen. induction ps as [|p ps IH]; intros seen; cbn; [by rewrite elem_of_nil|].
  destruct (bool_decide (pd_Address p ∈ seen)) eqn:E.
  - intros (Hs & q & ? & ?)%IH. split; [done|]. exists q. by split; [right|].
  - apply bool_decide_eq_false in E. intros [Ha|Ha]%elem_of_app.
    + destruct (IsAudioDevice p) eqn:Ep; [|by apply elem_of_nil in Ha]. apply list_elem_of_singleton in Ha as ->.
      split; [done|]. exists p. by split; [left|].
    + apply IH in Ha as (Hs & q & ? & ?). split; [set_solver|]. exists q. by split; [right|].
Qed.
Lemma audio_addrs_NoDup seen ps : NoDup (audio_addrs seen ps).
Proof.
  revert seen. induction ps as [|p ps IH]; intros seen; cbn; [constructor|].
  destruct (bool_decide (pd_Address p ∈ seen)); [done|]. destruct (IsAudioDevice p); [|apply IH]. cbn.
  constructor; [|apply IH]. intros [Hn _]%audio_addrs_in. apply Hn. by left.
Qed.
Lemma audio_addrs_complete seen ps p : p ∈ ps → pd_Address p ∉ seen →
  (∀ q, q ∈ ps → pd_Address q = pd_Address p → IsAudioDevice q = true) → pd_Address p ∈ audio_addrs seen ps.
Proof.
  revert seen. induction ps as [|r ps IH]; intros seen; [by rewrite elem_of_nil|]. intros Hp Hs Ha. cbn.
  destruct (bool_decide (pd_Address r ∈ seen)) eqn:E.
  - apply bool_decide_eq_true in E. apply elem_of_cons in Hp as [->|Hp]; [done|].
    apply IH; [done|done|]. intros q Hq. apply Ha. by right.
  - destruct (decide (pd_Address r = pd_Address p)) as [Er|Er].
    + rewrite (Ha r) by (done || by left). cbn [app]. rewrite <-Er. by left.
    + apply elem_of_app. right. apply elem_of_cons in Hp as [->|Hp]; [done|]. apply IH; [done| |].
      * intros [?|?]%elem_of_cons; [congruence|done].
      * intros q Hq. apply Ha. by right.
Qed.

(** Passing a GPU through takes its audio functions along: every audio
    function of the GPU's IOMMU group or of the same device is added, each
    once, and nothing else, the GPU's own address included. *)
Theorem companions_exact ae addr :
  NoDup (companions ae addr) ∧
  (∀ a, a ∈ companions ae addr → a ≠ addr ∧ ∃ p, p ∈ ae_iommu_peers ae addr ++ ae_siblings ae addr ∧
     pd_Address p = a ∧ IsAudioDevice p = true) ∧
  (∀ p, p ∈ ae_iommu_peers ae addr ++ ae_siblings ae addr → pd_Address p ≠ addr →
     (∀ q, q ∈ ae_iommu_peers ae addr ++ ae_siblings ae addr → pd_Address q = pd_Address p → IsAudioDevice q = true) →
     pd_Address p ∈ companions ae addr).
Proof.
  split_and!.
  - apply audio_addrs_NoDup.
  - intros a [Hn Hp]%audio_addrs_in. split; [|done]. set_solver.
  - intros p Hp Hn Ha. apply audio_addrs_complete; [done| |done]. set_solver.
Qed.

(** ** An example *)
Module BuildExample.
#[export] Instance no_extras : Extras := {| TorrentExtras := unit; JellyfinExtras := unit; BitmagnetExtras := unit; RunnerExtras := unit |}.

Definition os_disk : DiskConfig :=
  zeroDisk <| d_Path := "/vms/web/os.qcow2" |> <| d_Size := "40G" |> <| d_Media := "disk" |> <| d_Format := "qcow2" |>.
Definition guest (arch name : string) : VMConfig :=
  zeroConfig <| c_Name := name |> <| c_Arch := arch |> <| c_Memory := "2G" |> <| c_CPUs := 2 |> <| c_Disks := [os_disk] |>
             <| c_SSHPort := 2222 |>.
Definition restored (name : string) : VMConfig :=
  zeroConfig <| c_Name := name |> <| c_Backend := VZ |> <| c_Memory := "8G" |> <| c_CPUs := 4 |>
    <| c_MacOS := Some (mkMacOSConfig "/vms/mac/aux" [] [] false false 0 0 0 2 (4 * 2 ^ 30)) |>.
Definition ts : Templates :=
  mkTemplates (λ n _ _, Ok (guest "" n)) (λ n _, Ok (guest "" n)) (λ n _ _ _ _ _, guest "" n) (λ n _ _ _ _ _, Ok (guest "" n))
    (λ n _ _ _ _, Ok (guest "" n)) (λ n _ _ _ _, Ok (guest "aarch64" n)) (λ n _ _ _ _, Ok (guest "" n))
    (λ n _ _ _ _ _, Ok (guest "" n)) (λ n _ _ _ _ _, Ok (guest "" n)) (λ n _, Ok (restored n)) (λ _ n _ _ _ _, Ok (guest "" n))
    (λ n _ _ _, Ok (guest "" n)) (λ n _ _ _, Ok (guest "" n)) (λ n _ _ _ _ _, Ok (guest "" n)) (λ n _ _ _ _ _, Ok (guest "" n))
    (λ _ n, Ok (guest "" n)) (λ _ n, Ok (guest "" n)) (λ n _ _, Ok (guest "" n)).
Definition ae : AsmEnv :=
  mkAsmEnv (λ p, if HasPrefix p "/dev/" then Ok FDevice else Ok FRegular) (λ _, Ok "qcow2") (λ _, []) (λ _, []) "amd"
    (λ _, Ok "") (Ok "ssh-ed25519 AAAA vee") false.
Definition opts (name template : string) : Opts :=
  mkOpts name template "" "" 0 "" "" "" "" "" "" [] "" "" None None None "" "" "" None "" None "" "" "" "" [] "" "" false "" "" false
    "" None 0 None "" "" "" "" "" false false false None None None None None None.
Definition build (o : Opts) : result error VMConfig := Build Scenario.linux (be_conf HostExample.be) ae ts o.
Definition built (o : Opts) : VMConfig := match build o with Ok cfg => cfg | Err _ => zeroConfig end.

Definition served : Opts := (opts "web" "devbox") <| o_Memory := "4G" |> <| o_SSHPort := 2300 |>.

Definition adopted : Opts :=
  (opts "nas" "ubuntu-server") <| o_BootDisk := "/dev/sdb" |> <| o_DataDisks := ["/srv/a.qcow2:A1"] |> <| o_NoAutoInstall := true |>.

Definition mac : Opts := (opts "mac" "macos") <| o_Memory := "1G" |> <| o_CPUs := 1 |>.
Lemma build_macos_minimums_witness : 2 <= c_CPUs (built mac).
Proof.
  apply (build_macos_minimums Scenario.linux (be_conf HostExample.be) ae ts mac (built mac)
    (mkMacOSConfig "/vms/mac/aux" [] [] false false 0 0 0 2 (4 * 2 ^ 30))).
  - vm_compute. reflexivity.
  - vm_compute. reflexivity.
  - vm_compute. reflexivity.
  - cbn. lia.
  - cbn. by exists 4096.
Defined.

Definition plain_disk : Opts := (opts "nas" "") <| o_BootDisk := "/dev/sdb" |>.
Lemma adopted_disk_boots_witness : ∃ w' stored d, Create HostExample.be DiskExample.fs Scenario.linux DiskExample.cenv
    (built plain_disk) DiskExample.world = (Ok tt, w') ∧
  cfg_view (w_store w') !! "nas" = Some stored ∧ d ∈ c_Disks stored ∧ d_Path d = "/dev/sdb".
Proof.
  assert (∃ w', Create HostExample.be DiskExample.fs Scenario.linux DiskExample.cenv (built plain_disk) DiskExample.world
                = (Ok tt, w')) as [w' E] by (eexists; vm_compute; reflexivity).
  destruct (adopted_disk_boots Scenario.linux HostExample.be DiskExample.fs ae ts HostExample.be_works plain_disk
              (built plain_disk) DiskExample.cenv DiskExample.world w') as (stored & d & c' & m & pids & w'' & Hs & _ & Hd & Hp & _).
  - unfold adopts_disk. split_and!; try done; try (vm_compute; reflexivity); left.
  - vm_compute. reflexivity.
  - exact world_healthy.
  - exact E.
  - exists w', stored, d. split_and!; done.
Defined.

(** A server template that builds an aarch64 guest needs the opt-in on x86. *)
Example cross_arch_refused : is_ok (build (opts "arm" "server")) = false ∧
  is_ok (build ((opts "arm" "server") <| o_Emulate := true |>)) = true.
Proof. vm_compute. by split. Qed.

(** A size asked for beside a boot disk is dropped with the template's disks. *)
Theorem asked_disk_stripped :
  let o := adopted <| o_Disk := "100G" |> in
  is_ok (build o) = true ∧ existsb (λ d, bool_decide (d_Size d = "100G")) (c_Disks (built o)) = false ∧
  existsb (λ d, bool_decide (d_Size d = "100G")) (c_Disks (built (o <| o_BootDisk := "" |>))) = true.
Proof. vm_compute. by split_and!. Qed.

(** A boot disk whose path has a colon is cut at it: another path is attached,
    and nothing is first in the boot order. *)
Theorem boot_disk_colon :
  let o := (opts "nas" "") <| o_BootDisk := "/dev/disk/by-path/pci-0000:00:17.0-ata-1" |> in
  is_ok (build o) = true ∧
  (λ d, (d_Path d, d_Serial d, d_BootIndex d)) <$> c_Disks (built o) = [("/dev/disk/by-path/pci-0000:00", "17.0-ata-1", 0)].
Proof. vm_compute. by split. Qed.
End BuildExample.
