(* ===== verification/Templates.v ===== *)
(** * The VMs of the templates (internal/templates)

    The constructors of configurations for every template built from a Linux
    image: the machine, its disks and NIC, and the files and commands of the
    guest's first boot.  The guests behind a VPN take theirs from [KillSwitch].

    A constructor downloads its image ([Images]), so it runs over the image
    cache; the fields a Go literal leaves out have their zero values. *)
From S2P Require Import Prelude GoStrings Config World Guest Gpu Sha1 Shacrypt CloudInit Images Media Vpn KillSwitch Qemu Storage Build.

Open Scope Z_scope.

(** ** Helpers *)

(** FNV-1a over 32 bits ([hash/fnv]). *)
Definition fnv32a (s : string) : Z :=
  foldl (λ h b, (Z.lxor h (Z.of_N b) * 16777619) `mod` 2 ^ 32) 2166136261 (SHA1.bytes_of s).
Definition deterministicSSHPort (name : string) : Z := 2200 + fnv32a name `mod` 100.

Definition guestArchOn (hostArch imageArch distro : string) (emulate : bool) : result error string :=
  if bool_decide (imageArch = hostArch) then Ok ""
  else if negb emulate then Err (Errorf "the image does not fit this host - pass --emulate" [distro; imageArch; hostArch])
  else Ok imageArch.

(** ** JSON ([encoding/json]) *)
Module Json.
#[warnings="-register-all"]
Inductive value :=
| Null
| Bool (b : bool)
| Num (n : Z)
| Str (s : string)
| Arr (l : list value)
| Obj (fields : list (string * value)).

(** A byte of a string; the texts of this package are ASCII. *)
Definition escape (c : ascii) : string :=
  let n := N_of_ascii c in
  if bool_decide (c = dquote) then String "\" (String dquote "")
  else if bool_decide (c = "\"%char) then "\\"
  else if (n =? 8)%N then "\b" else if (n =? 9)%N then "\t" else if (n =? 10)%N then "\n"
  else if (n =? 12)%N then "\f" else if (n =? 13)%N then "\r"
  else if (n <? 32)%N || bool_decide (c ∈ ["<"; ">"; "&"]%char)
  then "\u00" +:+ String (hex_digit (n / 16)) (String (hex_digit (n mod 16)) "")
  else String c "".
Definition string_of (s : string) : string := dq (concat_map escape s).

(** The keys of a map are written in order. *)
Definition key_le {A} (a b : string * A) : Prop := string_le a.1 b.1.
#[export] Instance key_le_dec {A} (a b : string * A) : Decision (key_le a b) := string_le_dec a.1 b.1.

(** A bracketed list, one item to a line; an empty one on the same line. *)
Definition bracketed (opening closing : string) (indent cur : string) (items : list string) : string :=
  match items with
  | [] => opening +:+ closing
  | _ => opening +:+ String newline "" +:+ Join ("," +:+ String newline "") ((λ s, cur +:+ indent +:+ s) <$> items)
         +:+ String newline "" +:+ cur +:+ closing
  end.
Fixpoint render (indent cur : string) (v : value) : string :=
  match v with
  | Null => "null"
  | Bool b => if b then "true" else "false"
  | Num n => Itoa n
  | Str s => string_of s
  | Arr l => bracketed "[" "]" indent cur (map (render indent (cur +:+ indent)) l)
  | Obj fields =>
      bracketed "{" "}" indent cur
        ((λ kv : string * string, string_of kv.1 +:+ ": " +:+ kv.2) <$>
           merge_sort key_le (map (λ '(k, v), (k, render indent (cur +:+ indent) v)) fields))
  end.
Definition MarshalIndent (v : value) (indent : string) : string := render indent "" v.
Definition strings (l : list string) : value := Arr (Str <$> l).
End Json.

(** ** Parts of a configuration *)
Definition user_nic (fwds : list string) : NICConfig := mkNICConfig "user" "" "virtio-net-pci" "" fwds.
Definition bridge_nic (bridge : string) : NICConfig := mkNICConfig "bridge" bridge "virtio-net-pci" "" [].
Definition gpu (mode : string) : GPUConfig := zeroGPU <| g_Mode := mode |>.
Definition uefi (enabled : bool) : UEFIConfig := mkUEFIConfig enabled "" "".

(** A medium the guest is installed from. *)
Definition install_iso (path format interface cache : string) : DiskConfig :=
  mkDiskConfig path "" format interface "cdrom" cache true "" "" false false 0 true false.

Section Templates.
Context (env : FetchEnv) (host : Host) (conf : ProviderConfig) (now : Z).

Definition storage_file (name file : string) : string := PathJoin [PathJoin [pc_StoragePath conf; name]; "storage"; file].
(** An overlay on a cloud image. *)
Definition cloud_disk (name size image : string) : DiskConfig :=
  mkDiskConfig (storage_file name "disk-os.img") size "qcow2" "virtio" "disk" "writeback" false image "" false false 0 false false.
(** An empty disk to install on. *)
Definition fresh_disk (name size interface cache : string) : DiskConfig :=
  mkDiskConfig (storage_file name "disk-os.qcow2") size "qcow2" interface "disk" cache false "" "" false false 0 false false.

(** The fields every template sets. *)
Definition guest (name template arch memory : string) (cpus cores threads : Z) (nic : NICConfig) (mode : string)
    (firmware : bool) (disks : list DiskConfig) : VMConfig :=
  zeroConfig <| c_Name := name |> <| c_Template := template |> <| c_Arch := arch |> <| c_Memory := memory |>
    <| c_CPUs := cpus |> <| c_Sockets := 1 |> <| c_Cores := cores |> <| c_Threads := threads |>
    <| c_CPUModel := pc_DefaultCPUModel conf |> <| c_NIC := nic |> <| c_GPU := gpu mode |> <| c_UEFI := uefi firmware |>
    <| c_Disks := disks |> <| c_CreatedAt := now |>.

Definition guestArchFor (distro : string) (emulate : bool) : result error string :=
  guestArchOn (DefaultGuestArch host) (ImageArch host distro) distro emulate.

(** [images.NewImage], [Download], [AbsolutePath]. *)
Definition fetch_image (what distro version : string) : ImgM string :=
  img ← wrap_error (what +:+ " image") (lift_result (NewImage env host distro version));
  img ← wrap_error (what +:+ " image download") (Download env (pc_ISOCachePath conf) img);
  mret (AbsolutePath env (pc_ISOCachePath conf) img).

(** ** Ubuntu Server, installed from its ISO *)
Definition ubuntu_server (name : string) (disks : list DiskConfig) : VMConfig :=
  (guest name "ubuntu-server" "" (pc_DefaultMemory conf) (pc_DefaultCPUs conf) (pc_DefaultCPUs conf) 1 (user_nic []) GPUNone true disks)
    <| c_UEFI := mkUEFIConfig true (pc_OVMFCodePath conf) "" |>.
(** [petname]: the random name of [utils.GeneratePetname] *)
Definition NewUbuntuServerConfig (petname version name : string) : ImgM VMConfig :=
  let name := if bool_decide (name = "") then petname else name in
  if bool_decide (HostArch host = "arm64")
  then throw (Errorf "the ISO-based ubuntu-server template is x86_64-only" [])
  else
    img ← UbuntuImage_Download env (pc_ISOCachePath conf) (NewUbuntuImage UbuntuServer version "amd64");
    mret (ubuntu_server name
            [install_iso (UbuntuImage_AbsolutePath (pc_ISOCachePath conf) img) "" "virtio" "none";
             fresh_disk name (pc_DefaultDiskSize conf) "virtio" "writeback"]).
Definition NewUbuntuServer24Config (petname : string) : ImgM VMConfig := NewUbuntuServerConfig petname Ubuntu2404 "".
Definition NewUbuntuServerConfigNoISO (petname version name : string) : VMConfig :=
  let name := if bool_decide (name = "") then petname else name in
  ubuntu_server name [fresh_disk name (pc_DefaultDiskSize conf) "virtio" "writeback"].

(** ** Servers and developer machines *)
Definition vsockSSHAgentService : string :=
  Join (String newline "")
    ["[Unit]"; "Description=vee SSH agent vsock bridge"; "After=network.target"; ""; "[Service]"; "Type=simple";
     "ExecStartPre=/bin/mkdir -p /run/vee";
     "ExecStart=/usr/bin/socat UNIX-LISTEN:/run/vee/ssh_agent.sock,fork,mode=0600 VSOCK-CONNECT:2:2222"; "Restart=on-failure"; "";
     "[Install]"; "WantedBy=multi-user.target"].
Definition vsock_file : CloudInitWriteFile := plain_file "/etc/systemd/system/vee-ssh-agent.service" vsockSSHAgentService "0644".

Definition serverRunCmds (distro : string) : result error (list string * list CloudInitWriteFile) :=
  if bool_decide (distro = DistroUbuntu) then
    Ok (["ufw allow OpenSSH"; "ufw --force enable"; "systemctl enable --now fail2ban"; "apt-get install -y socat";
         "systemctl enable --now vee-ssh-agent"], [vsock_file])
  else if bool_decide (distro = DistroArch) then
    Ok (["pacman -Syu --noconfirm"; "pacman -S --noconfirm ufw socat"; "systemctl enable --now sshd"; "ufw allow SSH";
         "ufw --force enable"; "systemctl enable --now vee-ssh-agent"], [vsock_file])
  else if bool_decide (distro = DistroFedora) then
    Ok (["dnf install -y socat fail2ban"; "systemctl enable --now sshd"; "firewall-cmd --permanent --add-service=ssh";
         "firewall-cmd --reload"; "systemctl enable --now fail2ban"; "systemctl enable --now vee-ssh-agent"], [vsock_file])
  else Err (Errorf "unsupported distro for server" [distro]).

Definition or_default (s dflt : string) : string := if bool_decide (s = "") then dflt else s.

Definition NewServerConfig (name : string) (sshKeys : list string) (distro version : string) (emulate : bool) : ImgM VMConfig :=
  let distro := or_default distro DistroUbuntu in
  let version := or_default version "latest" in
  guestArch ← lift_result (guestArchFor distro emulate);
  image ← fetch_image "server" distro version;
  '(runCmds, writeFiles) ← lift_result (serverRunCmds distro);
  mret ((guest name "server" guestArch "8G" 2 2 1 (user_nic []) GPUNone false [cloud_disk name (pc_DefaultDiskSize conf) image])
          <| c_Headless := true |> <| c_SSHPort := deterministicSSHPort name |>
          <| c_CloudInit := Some (mkCloudInitConfig name "admin" "" (DefaultUser distro) sshKeys (PackagesFor distro ["server"])
                                    runCmds writeFiles) |>).

Definition archinstallConfig (hostname user : string) (pkgs : list string) : string :=
  Json.MarshalIndent
    (Json.Obj
      [("hostname", Json.Str hostname); ("bootloader", Json.Str "grub"); ("profile", Json.Obj [("main", Json.Str "minimal")]);
       ("packages", Json.strings pkgs);
       ("users", Json.Arr [Json.Obj [("username", Json.Str user); ("!password", Json.Str "vee"); ("sudo", Json.Bool true)]]);
       ("audio", Json.Null); ("kernels", Json.strings ["linux"]); ("mirror-region", Json.Obj []);
       ("disk_layouts", Json.Obj [("main_disk_layout", Json.Obj [("type", Json.Str "default_layout")])])]) "  ".

Definition devboxRunCmds (distro user hostname : string) (pkgs : list string) : result error (list string * list CloudInitWriteFile) :=
  if bool_decide (distro = DistroUbuntu) then
    Ok (["curl -fsSL https://get.docker.com | sh"; "usermod -aG docker " +:+ user; "chsh -s /bin/zsh " +:+ user;
         "apt-get install -y socat"; "systemctl enable --now vee-ssh-agent"], [vsock_file])
  else if bool_decide (distro = DistroArch) then
    Ok (["archinstall --config /tmp/archinstall.json --silent"; "pacman -Syu --noconfirm"; "pacman -S --noconfirm docker zsh socat";
         "systemctl enable --now docker"; "usermod -aG docker " +:+ user; "chsh -s /bin/zsh " +:+ user;
         "systemctl enable --now vee-ssh-agent"],
        [plain_file "/tmp/archinstall.json" (archinstallConfig hostname user pkgs) "0644"; vsock_file])
  else if bool_decide (distro = DistroFedora) then
    Ok (["dnf install -y dnf-plugins-core"; "dnf config-manager --add-repo https://download.docker.com/linux/fedora/docker-ce.repo";
         "dnf install -y docker-ce docker-ce-cli containerd.io zsh socat"; "systemctl enable --now docker";
         "usermod -aG docker " +:+ user; "chsh -s /bin/zsh " +:+ user; "systemctl enable --now vee-ssh-agent"], [vsock_file])
  else Err (Errorf "unsupported distro for devbox" [distro]).

(** ** Omarchy *)
Definition omarchyDiskBytes : Z := Z.shiftl 60 30.
Record OmarchyOptions := mkOmarchyOptions { oo_Template : string; oo_User : string; oo_Password : string; oo_Emulate : bool }.

Definition mib : Z := 2 ^ 20.
Definition gib : Z := 2 ^ 30.
Definition bootStart : Z := mib.
Definition bootSize : Z := 2 * gib.
Definition mainStart : Z := bootStart + bootSize.
Definition mainSize : Z := omarchyDiskBytes - mainStart - mib.
Definition sizeValue (v : Z) : Json.value :=
  Json.Obj [("sector_size", Json.Obj [("unit", Json.Str "B"); ("value", Json.Num 512)]); ("unit", Json.Str "B"); ("value", Json.Num v)].

Definition omarchy_partitions : list Json.value :=
  [Json.Obj
     [("btrfs", Json.Arr []); ("dev_path", Json.Null); ("flags", Json.strings ["boot"; "esp"]); ("fs_type", Json.Str "fat32");
      ("mount_options", Json.Arr []); ("mountpoint", Json.Str "/boot"); ("obj_id", Json.Str "ea21d3f2-82bb-49cc-ab5d-6f81ae94e18d");
      ("size", sizeValue bootSize); ("start", sizeValue bootStart); ("status", Json.Str "create"); ("type", Json.Str "primary")];
   Json.Obj
     [("btrfs", Json.Arr ((λ '(m, n), Json.Obj [("mountpoint", Json.Str m); ("name", Json.Str n)]) <$>
                            [("/", "@"); ("/home", "@home"); ("/var/log", "@log"); ("/var/cache/pacman/pkg", "@pkg")]));
      ("dev_path", Json.Null); ("flags", Json.Arr []); ("fs_type", Json.Str "btrfs"); ("mount_options", Json.strings ["compress=zstd"]);
      ("mountpoint", Json.Null); ("obj_id", Json.Str "8c2c2b92-1070-455d-b76a-56263bab24aa"); ("size", sizeValue mainSize);
      ("start", sizeValue mainStart); ("status", Json.Str "create"); ("type", Json.Str "primary")]].

Definition omarchyInstallConfig (hostname : string) : Json.value :=
  Json.Obj
    [("app_config", Json.Null); ("archinstall-language", Json.Str "English"); ("auth_config", Json.Obj []);
     ("audio_config", Json.Obj [("audio", Json.Str "pipewire")]);
     ("bootloader_config", Json.Obj [("bootloader", Json.Str "Limine"); ("uki", Json.Bool false); ("removable", Json.Bool false)]);
     ("custom_commands", Json.Arr []);
     ("omarchy_install", Json.Obj
        [("mode", Json.Str "full_disk"); ("defer_provisioning", Json.Bool false); ("target_mount", Json.Str "/mnt");
         ("boot", Json.Obj [("esp_mount", Json.Str "/boot"); ("esp_path", Json.Str "/EFI/limine");
                            ("efi_binary", Json.Str "limine_x64.efi"); ("enable_fallback", Json.Bool true)]);
         ("storage", Json.Obj [("kernel", Json.Str "linux")])]);
     ("disk_config", Json.Obj
        [("config_type", Json.Str "default_layout");
         ("device_modifications", Json.Arr
            [Json.Obj [("device", Json.Str "/dev/vda"); ("wipe", Json.Bool true); ("partitions", Json.Arr omarchy_partitions)]])]);
     ("hostname", Json.Str hostname); ("kernels", Json.strings ["linux"]); ("network_config", Json.Obj [("type", Json.Str "iso")]);
     ("ntp", Json.Bool true); ("parallel_downloads", Json.Num 8); ("script", Json.Null); ("services", Json.Arr []);
     ("swap", Json.Bool true); ("timezone", Json.Str "UTC");
     ("locale_config", Json.Obj [("kb_layout", Json.Str "us"); ("sys_enc", Json.Str "UTF-8"); ("sys_lang", Json.Str "en_US.UTF-8")]);
     ("mirror_config", Json.Obj
        [("custom_repositories", Json.Arr []);
         ("custom_servers", Json.Arr ((λ u, Json.Obj [("url", Json.Str u)]) <$>
            ["https://mirror.omarchy.org/$repo/os/$arch"; "https://mirror.rackspace.com/archlinux/$repo/os/$arch";
             "https://geo.mirror.pkgbuild.com/$repo/os/$arch"]));
         ("mirror_regions", Json.Obj []); ("optional_repositories", Json.Arr [])]);
     ("packages", Json.strings ["base-devel"; "git"; "omarchy-keyring"; "omarchy-settings"; "omarchy"]);
     ("profile_config", Json.Obj [("gfx_driver", Json.Null); ("greeter", Json.Null); ("profile", Json.Obj [])]);
     ("version", Json.Str "3.0.9")].

Definition endl (s : string) : string := s +:+ String newline "".
(** [salt]: the random bytes of the password's salt *)
Definition omarchySeedFiles (salt : result string (list N)) (hostname user password : string) (sshKeys : list string)
  : result error (list SeedFile) :=
  match GenerateHash salt password with
  | Err e => Err e
  | Ok hash =>
      let credentials :=
        Json.Obj [("root_enc_password", Json.Str hash);
                  ("users", Json.Arr [Json.Obj [("enc_password", Json.Str hash); ("groups", Json.Arr []); ("sudo", Json.Bool true);
                                                ("username", Json.Str user)]])] in
      Ok [mkSeedFile "user_configuration.json" (endl (Json.MarshalIndent (omarchyInstallConfig hostname) "    "));
          mkSeedFile "user_credentials.json" (endl (Json.MarshalIndent credentials "    "));
          mkSeedFile "user_full_name.txt" (endl user); mkSeedFile "user_email_address.txt" (endl "");
          mkSeedFile "user_encrypt_installation.txt" (endl "false");
          mkSeedFile "authorized_keys" (endl (Join (String newline "") sshKeys))]
  end.

Definition NewOmarchyConfig (salt : result string (list N)) (name : string) (sshKeys : list string) (version : string)
    (opts : OmarchyOptions) : ImgM VMConfig :=
  let template := or_default (oo_Template opts) "omarchy" in
  let user := or_default (oo_User opts) "omarchy" in
  let password := or_default (oo_Password opts) user in
  guestArch ← lift_result (guestArchFor DistroOmarchy (oo_Emulate opts));
  image ← fetch_image "omarchy" DistroOmarchy (or_default version "latest");
  seedFiles ← wrap_error "omarchy seed" (lift_result (omarchySeedFiles salt name user password sshKeys));
  mret ((guest name template guestArch "8G" 4 4 1 (user_nic []) GPUVirtio true
           [fresh_disk name (Itoa (Z.shiftr omarchyDiskBytes 30) +:+ "G") "virtio" "writeback"; install_iso image "raw" "ide" ""])
          <| c_SSHPort := deterministicSSHPort name |> <| c_SeedFiles := seedFiles |> <| c_SSHUser := user |>
          <| c_GuestAgent := true |>).

Definition NewDevboxConfig (salt : result string (list N)) (name : string) (sshKeys : list string) (distro version : string)
    (emulate : bool) : ImgM VMConfig :=
  let distro := or_default distro DistroUbuntu in
  let version := or_default version "latest" in
  if bool_decide (distro = DistroOmarchy)
  then NewOmarchyConfig salt name sshKeys version (mkOmarchyOptions "devbox" "dev" "" emulate)
  else
    guestArch ← lift_result (guestArchFor distro emulate);
    image ← fetch_image "devbox" distro version;
    let pkgs := PackagesFor distro ["devbox"] in
    '(runCmds, writeFiles) ← lift_result (devboxRunCmds distro "dev" name pkgs);
    mret ((guest name "devbox" guestArch "8G" 4 4 1 (user_nic []) GPUNone false [cloud_disk name (pc_DefaultDiskSize conf) image])
            <| c_Headless := true |> <| c_SSHPort := deterministicSSHPort name |>
            <| c_CloudInit := Some (mkCloudInitConfig name "dev" "" (DefaultUser distro) sshKeys pkgs runCmds writeFiles) |>).

(** ** Desktops *)
Definition desktopDconfProfile : string := unlines ["user-db:user"; "system-db:local"].
Definition desktopDconfNoLock : string :=
  unlines ["[org/gnome/desktop/screensaver]"; "lock-enabled=false"; ""; "[org/gnome/desktop/session]"; "idle-delay=uint32 0"; "";
           "[org/gnome/desktop/lockdown]"; "disable-lock-screen=true"].
Definition desktopDconfLocks : string :=
  unlines ["/org/gnome/desktop/screensaver/lock-enabled"; "/org/gnome/desktop/session/idle-delay";
           "/org/gnome/desktop/lockdown/disable-lock-screen"].
Definition desktopIssueBanner : string :=
  unlines [""; "vee: installing the GNOME desktop (first boot) — the GUI starts";
           "automatically when provisioning finishes: vee wait <name> --cloud-init"; ""].
Definition desktopIssuePath : string := "/etc/issue.d/50-vee-desktop.issue".
Definition desktopTTYBanner : string :=
  "printf '\n  vee: installing the GNOME desktop (first boot, takes a few minutes) —\n  the GUI starts automatically when provisioning finishes.\n\n' > /dev/tty1 || true".
Definition gdm_conf (user yes : string) : string :=
  unlines ["[daemon]"; "AutomaticLoginEnable=" +:+ yes; "AutomaticLogin=" +:+ user; "WaylandEnable=" +:+ yes].

Definition desktopRunCmds (distro user : string) : list string * list CloudInitWriteFile :=
  let writeFiles :=
    [vsock_file; plain_file "/etc/dconf/profile/user" desktopDconfProfile "0644";
     plain_file "/etc/dconf/db/local.d/00-vee-desktop" desktopDconfNoLock "0644";
     plain_file "/etc/dconf/db/local.d/locks/00-vee-desktop" desktopDconfLocks "0644";
     plain_file desktopIssuePath desktopIssueBanner "0644"] in
  if bool_decide (distro = DistroFedora) then
    ([desktopTTYBanner; "dnf install -y @base-x gnome-shell gnome-session gnome-terminal nautilus gnome-control-center gdm";
      "dnf install -y socat"; "dconf update"; "systemctl set-default graphical.target"; "systemctl enable gdm";
      "systemctl enable --now vee-ssh-agent"; "rm -f " +:+ desktopIssuePath; "systemctl --no-block isolate graphical.target"],
     writeFiles ++ [plain_file "/etc/gdm/custom.conf" (gdm_conf user "True") "0644"])
  else if bool_decide (distro = DistroUbuntu) then
    ([desktopTTYBanner; "apt-get update";
      "DEBIAN_FRONTEND=noninteractive apt-get install -y -o Dpkg::Options::=--force-confold ubuntu-desktop-minimal gdm3 socat";
      "dconf update"; "systemctl set-default graphical.target"; "systemctl enable gdm3"; "systemctl enable --now vee-ssh-agent";
      "netplan apply"; "rm -f " +:+ desktopIssuePath; "systemctl --no-block isolate graphical.target"],
     writeFiles ++ [plain_file "/etc/gdm3/custom.conf" (gdm_conf user "true") "0644"])
  else ([], writeFiles).

Definition NewDesktopConfig (salt : result string (list N)) (name : string) (sshKeys : list string) (distro version : string)
    (emulate : bool) : ImgM VMConfig :=
  let distro := or_default distro DistroFedora in
  let version := or_default version "latest" in
  if bool_decide (distro = DistroOmarchy)
  then NewOmarchyConfig salt name sshKeys version (mkOmarchyOptions "desktop" "" "" emulate)
  else if negb (bool_decide (distro = DistroFedora)) && negb (bool_decide (distro = DistroUbuntu))
  then throw (Errorf "unsupported distro for desktop" [distro])
  else
    guestArch ← lift_result (guestArchFor distro emulate);
    image ← fetch_image "desktop" distro version;
    let user := DefaultUser distro in
    let '(runCmds, writeFiles) := desktopRunCmds distro user in
    mret ((guest name "desktop" guestArch "8G" 4 4 1 (user_nic []) GPUVirtio true [cloud_disk name (pc_DefaultDiskSize conf) image])
            <| c_SSHPort := deterministicSSHPort name |>
            <| c_CloudInit := Some (mkCloudInitConfig name "" "" user sshKeys (PackagesFor distro ["desktop"]) runCmds writeFiles) |>
            <| c_SSHUser := user |>).

(** ** Docker *)
Definition DockerTCPPort : Z := 2375.
Definition docker_cmds : list string :=
  ["sed -i 's|#.*community|http://dl-cdn.alpinelinux.org/alpine/latest-stable/community|' /etc/apk/repositories"; "apk update";
   "apk add --no-cache docker docker-cli"; "mkdir -p /etc/docker";
   "printf '{" +:+ dq "hosts" +:+ ":[" +:+ dq "unix:///var/run/docker.sock" +:+ "," +:+ dq "tcp://0.0.0.0:2375"
     +:+ "]}\n' > /etc/docker/daemon.json";
   "addgroup alpine docker"; "rc-update add docker default"; "service docker start"].
(** The seed of a guest on Alpine: no user of its own. *)
Definition alpine_seed (name : string) (sshKeys runCmds : list string) (writeFiles : list CloudInitWriteFile) : CloudInitConfig :=
  mkCloudInitConfig name "" "" (DefaultUser DistroAlpine) sshKeys [] runCmds writeFiles.

Definition NewDockerConfig (name : string) (sshKeys : list string) (alpineVersion : string) (emulate : bool) : ImgM VMConfig :=
  guestArch ← lift_result (guestArchFor DistroAlpine emulate);
  image ← fetch_image "docker" DistroAlpine (or_default alpineVersion "latest");
  let port := Itoa DockerTCPPort in
  mret ((guest name "docker" guestArch "2G" 2 2 1 (user_nic ["tcp:127.0.0.1:" +:+ port +:+ "-:" +:+ port]) GPUNone false
           [cloud_disk name "10G" image])
          <| c_Headless := true |> <| c_SSHPort := deterministicSSHPort name |>
          <| c_CloudInit := Some (alpine_seed name sshKeys docker_cmds []) |>
          <| c_Services := [mkServiceEntry "docker" DockerTCPPort ServiceTCP] |>).

(** ** TrueNAS

    The SPICE port the caller passes is not used; the manager assigns one. *)
Definition truenasSerialFromPath (devPath : string) : string :=
  let base := foldl TrimPrefix (Base devPath) ["ata-"; "scsi-"; "nvme-"; "wwn-"; "usb-"] in
  let base := before_last base "-part" in
  if (20 <? String.length base)%nat then String.substring 0 20 base else base.

Definition data_disk (raw : string) : DiskConfig :=
  let dd := ParseDataDisk raw in
  mkDiskConfig (dd_Path dd) "" "raw" "virtio" "disk" "none" false ""
    (or_default (dd_Serial dd) (truenasSerialFromPath (dd_Path dd))) true false 0 false false.

Definition spice_auto : SPICEConfig := mkSPICEConfig 0 true.
Definition spice_service : ServiceEntry := mkServiceEntry "spice" 0 ServiceSPICE.

Definition NewTruenasConfig (name version bridge : string) (dataDisks : list string) (emulate : bool) : ImgM VMConfig :=
  guestArch ← lift_result (guestArchFor DistroTrueNAS emulate);
  image ← fetch_image "truenas" DistroTrueNAS (or_default version "latest");
  mret ((guest name "truenas" guestArch "6G" 2 1 2 (bridge_nic (or_default bridge "br0")) GPUNone true
           ([install_iso image "raw" "none" "none"; fresh_disk name "16G" "ahci" "none"] ++ (data_disk <$> dataDisks)))
          <| c_GuestAgent := true |> <| c_SPICE := Some spice_auto |>
          <| c_Services := [spice_service; mkServiceEntry "truenas-ui" 443 ServiceHTTPS] |>).

(** ** Passthrough of a whole disk *)
Definition games_share (dir : string) (readonly : bool) : list VirtiofsMount :=
  if bool_decide (dir = "") then [] else [mkVirtiofsMount "" dir "Games" readonly].
Definition second_display : list string := ["virtio-gpu-pci,edid=on,xres=1920,yres=1080"].
Definition vfio_gpu (pciAddr : string) : GPUConfig :=
  (gpu GPUPassthrough) <| g_PCIAddr := pciAddr |> <| g_AntiDetect := true |>.
Definition NewPassthroughConfig (name nvmeDev ovmfVarsPath pciAddr virtiofsMountDir mac : string) : VMConfig :=
  (guest name "passthrough" "" "8G" 6 3 2 (mkNICConfig "bridge" "br0" "virtio-net-pci" mac []) GPUPassthrough true
     [mkDiskConfig nvmeDev "" "raw" "virtio" "disk" "none" false "" "" true false 0 false false])
    <| c_GPU := vfio_gpu pciAddr |> <| c_UEFI := mkUEFIConfig true "" ovmfVarsPath |> <| c_SPICE := Some spice_auto |>
    <| c_VGA := "none" |> <| c_ExtraDevices := second_display |> <| c_Services := [spice_service] |>
    <| c_VirtiofsMounts := games_share virtiofsMountDir false |>.

(** ** Jellyfin *)
Definition jellyfin_setup : list string :=
  ["install -d /etc/apt/keyrings";
   "curl -fsSL https://repo.jellyfin.org/jellyfin_team.gpg.key -o /etc/apt/keyrings/jellyfin.asc";
   Join (String newline "")
     [". /etc/os-release && echo " +:+ String dquote "Types: deb"; "URIs: https://repo.jellyfin.org/${ID}"; "Suites: ${VERSION_CODENAME}";
      "Components: main"; "Architectures: $(dpkg --print-architecture)";
      "Signed-By: /etc/apt/keyrings/jellyfin.asc" +:+ String dquote " > /etc/apt/sources.list.d/jellyfin.sources"];
   "apt-get update"; "apt-get install -y jellyfin"; "systemctl enable --now jellyfin"; "systemctl enable --now qemu-guest-agent"].
Definition jellyfin_firewall : list string :=
  ["ufw allow OpenSSH"; "ufw allow 8096/tcp"; "ufw allow 8920/tcp"; "ufw allow 1900/udp"; "ufw allow 7359/udp"]
  ++ MDNSFirewallCmds "ufw" ++ ["ufw --force enable"].

Definition NewJellyfinConfig (name : string) (sshKeys : list string) (libraries : list Source) (bridge : string)
    (secrets : gmap string string) : ImgM VMConfig :=
  image ← fetch_image "jellyfin" DistroUbuntu "latest";
  '(combined, missing) ← lift_result (gather_media libraries secrets emptyPatch []);
  if negb (bool_decide (missing = [])) then throw (Errorf "jellyfin: missing secrets" (pp_Key <$> missing)) else
  let pkgs := ["curl"; "ca-certificates"; "gnupg"; "ufw"; "qemu-guest-agent"] ++ MDNSPackages "ubuntu" ++ p_Packages combined in
  let runCmds := p_RunCmds combined ++ jellyfin_setup ++ jellyfin_firewall ++ MDNSRunCmds in
  mret ((guest name "jellyfin" "" "1G" 2 1 2 (bridge_nic (or_default bridge "br0")) GPUNone false
           ([cloud_disk name (pc_DefaultDiskSize conf) image] ++ p_Disks combined))
          <| c_Headless := true |> <| c_GuestAgent := true |> <| c_Hostname := name |>
          <| c_VirtiofsMounts := p_VirtiofsMounts combined |> <| c_ExtraDevices := p_ExtraDevices combined |>
          <| c_CloudInit := Some (mkCloudInitConfig name "vee" "" (DefaultUser DistroUbuntu) sshKeys pkgs runCmds (p_WriteFiles combined)) |>
          <| c_Services := [mkServiceEntry "jellyfin" 8096 ServiceHTTP; mkServiceEntry "jellyfin-https" 8920 ServiceHTTPS] |>).

(** ** DNS sink *)
Definition DNSSinkDNSPort : Z := 53.
Definition DNSSinkUIPort : Z := 3000.
Definition DNSSinkAdGuardVersion : string := "v0.107.78".

Definition adguardOpenRCService : string :=
  unlines
    ["#!/sbin/openrc-run"; ""; "name=" +:+ dq "AdGuard Home";
     "description=" +:+ dq "Network-wide ads and trackers blocking DNS server"; ""; "command=" +:+ dq "/usr/local/bin/AdGuardHome";
     "command_args=" +:+ dq "--no-check-update --work-dir /opt/AdGuardHome --config /opt/AdGuardHome/AdGuardHome.yaml";
     "command_background=" +:+ dq "yes"; "pidfile=" +:+ dq "/run/adguardhome.pid"; "output_log=" +:+ dq "/var/log/adguardhome.log";
     "error_log=" +:+ dq "/var/log/adguardhome.log"; ""; "depend() {"; tab +:+ "need net"; tab +:+ "after firewall"; "}"; "";
     "start_pre() {"; tab +:+ "checkpath --directory --mode 0755 /opt/AdGuardHome";
     tab +:+ "checkpath --file --mode 0644 /var/log/adguardhome.log"; "}"].

Definition adguardHomeConfig (adminUser adminPasswordHash : string) : string :=
  unlines
    (["http:"; "  address: 0.0.0.0:" +:+ Itoa DNSSinkUIPort; "  session_ttl: 720h"] ++
     (if bool_decide (adminPasswordHash = "") then ["users: []"]
      else ["users:"; "  - name: " +:+ adminUser; "    password: " +:+ adminPasswordHash]) ++
     ["auth_attempts: 5"; "block_auth_min: 15"; "language: en"; "theme: auto"; "dns:"; "  bind_hosts:"; "    - 0.0.0.0";
      "  port: " +:+ Itoa DNSSinkDNSPort; "  anonymize_client_ip: false"; "  ratelimit: 0"; "  refuse_any: true"; "  upstream_dns:";
      "    - tls://1.1.1.1"; "    - tls://9.9.9.9"; "  bootstrap_dns:"; "    - 1.1.1.1"; "    - 9.9.9.9";
      "  upstream_mode: load_balance"; "  fallback_dns: []"; "  cache_size: 8388608"; "  cache_ttl_min: 60"; "  cache_ttl_max: 86400";
      "  cache_optimistic: true"; "  enable_dnssec: true"; "  filtering_enabled: true"; "  protection_enabled: true";
      "  blocking_mode: default"; "  filters_update_interval: 24"; "  safebrowsing_enabled: true"; "  parental_enabled: false";
      "  aaaa_disabled: false"; "  local_ptr_upstreams: []"; "filters:"; "  - enabled: true";
      "    url: https://adguardteam.github.io/HostlistsRegistry/assets/filter_1.txt"; "    name: AdGuard DNS filter"; "    id: 1";
      "  - enabled: true"; "    url: https://adguardteam.github.io/HostlistsRegistry/assets/filter_2.txt";
      "    name: AdAway Default Blocklist"; "    id: 2"; "  - enabled: true";
      "    url: https://raw.githubusercontent.com/StevenBlack/hosts/master/hosts"; "    name: StevenBlack unified hosts"; "    id: 3";
      "  - enabled: true"; "    url: https://adguardteam.github.io/HostlistsRegistry/assets/filter_9.txt";
      "    name: The Big List of Hacked Malware Web Sites"; "    id: 4"; "  - enabled: true";
      "    url: https://adguardteam.github.io/HostlistsRegistry/assets/filter_11.txt"; "    name: Malicious URL Blocklist (URLHaus)";
      "    id: 5"; "whitelist_filters: []"; "user_rules: []"; "querylog:"; "  enabled: true"; "  interval: 168h";
      "  size_memory: 1000"; "statistics:"; "  enabled: true"; "  interval: 720h"; "log:"; "  verbose: false"; "schema_version: 29"]).

(** The start of the Alpine guests is that of [KillSwitch]. *)
Definition dnssink_cmds : list string :=
  let port p := Itoa p in
  let ui net := "iptables -A INPUT -p tcp -s " +:+ net +:+ " --dport " +:+ port DNSSinkUIPort +:+ " -j ACCEPT" in
  alpine_network_cmds ++
  [apk_add ["ca-certificates"; "curl"; "tar"; "iptables"; "ip6tables"; "avahi"; "dbus"; "qemu-guest-agent"];
   "for i in 1 2 3 4 5; do curl -fsSL --retry 3 --retry-delay 5 -o /tmp/AdGuardHome.tar.gz "
     +:+ "https://github.com/AdguardTeam/AdGuardHome/releases/download/" +:+ DNSSinkAdGuardVersion
     +:+ "/AdGuardHome_linux_amd64.tar.gz && break; sleep 5; done";
   "tar -xzf /tmp/AdGuardHome.tar.gz -C /tmp"; "install -m 0755 /tmp/AdGuardHome/AdGuardHome /usr/local/bin/AdGuardHome";
   "rm -rf /tmp/AdGuardHome /tmp/AdGuardHome.tar.gz"; "printf 'nameserver 1.1.1.1\nnameserver 9.9.9.9\n' > /etc/resolv.conf";
   "chmod 0755 /etc/init.d/adguardhome"; "rc-update add adguardhome default"; "rc-service adguardhome start";
   "rc-update add dbus default"; "rc-service dbus start"; "rc-update add avahi-daemon default"; "rc-service avahi-daemon start";
   "rc-update add qemu-guest-agent default"; "rc-service qemu-guest-agent start"] ++
  alpine_inbound_cmds ++
  ["iptables -A INPUT -p udp --dport " +:+ port DNSSinkDNSPort +:+ " -j ACCEPT";
   "iptables -A INPUT -p tcp --dport " +:+ port DNSSinkDNSPort +:+ " -j ACCEPT";
   "iptables -A INPUT -p udp --dport 5353 -j ACCEPT"; ui "10.0.0.0/8"; ui "172.16.0.0/12"; ui "192.168.0.0/16";
   "iptables -A INPUT -p icmp -j ACCEPT"; "/etc/init.d/iptables save"; "rc-update add iptables default"].

Definition NewDNSSinkConfig (name : string) (sshKeys : list string) (bridge adminUser adminPasswordHash : string) (emulate : bool)
  : ImgM VMConfig :=
  guestArch ← lift_result (guestArchFor DistroAlpine emulate);
  image ← fetch_image "dns-sink" DistroAlpine "latest";
  let files :=
    [plain_file "/opt/AdGuardHome/AdGuardHome.yaml" (adguardHomeConfig (or_default adminUser "admin") adminPasswordHash) "0600";
     plain_file "/etc/init.d/adguardhome" adguardOpenRCService "0755"] in
  mret ((guest name "dns-sink" guestArch "512M" 1 1 1 (bridge_nic (or_default bridge "br0")) GPUNone false [cloud_disk name "4G" image])
          <| c_Headless := true |> <| c_GuestAgent := true |> <| c_Hostname := name |> <| c_SSHPort := deterministicSSHPort name |>
          <| c_CloudInit := Some (alpine_seed name sshKeys dnssink_cmds files) |>
          <| c_Services := [mkServiceEntry "adguard" DNSSinkUIPort ServiceHTTP; mkServiceEntry "dns" DNSSinkDNSPort ServiceTCP] |>).

(** ** A WireGuard server *)
Definition WGServerTunnelIP : string := "10.99.0.1".
Definition WGClientTunnelIP : string := "10.99.0.2".
Definition WGServerPort : Z := 51820.
Definition WGSubnet : string := "10.99.0.0/24".
Record WGServerConfig := mkWGServerConfig { ws_ServerKeys : WireGuardKeyPair; ws_ClientKeys : WireGuardKeyPair; ws_HostUDPPort : Z }.

Definition wg_server_conf (serverKeys clientKeys : WireGuardKeyPair) : string :=
  unlines
    ["[Interface]"; "PrivateKey = " +:+ kp_PrivateKey serverKeys; "Address = " +:+ WGServerTunnelIP +:+ "/24";
     "ListenPort = " +:+ Itoa WGServerPort;
     "PostUp = iptables -A FORWARD -i wg0 -j ACCEPT; iptables -t nat -A POSTROUTING -o eth0 -j MASQUERADE";
     "PostDown = iptables -D FORWARD -i wg0 -j ACCEPT; iptables -t nat -D POSTROUTING -o eth0 -j MASQUERADE"; "";
     "[Peer]"; "PublicKey = " +:+ kp_PublicKey clientKeys; "AllowedIPs = " +:+ WGClientTunnelIP +:+ "/32"].

(** [serverKeys], [clientKeys]: the two results of [GenerateWireGuardKeyPair] *)
Definition NewWGServerVMConfig (serverKeys clientKeys : result error WireGuardKeyPair) (name : string) (sshKeys : list string)
    (hostUDPPort : Z) : ImgM (VMConfig * WGServerConfig) :=
  serverKeys ← wrap_error "generate server keys" (lift_result serverKeys);
  clientKeys ← wrap_error "generate client keys" (lift_result clientKeys);
  image ← fetch_image "wg server" DistroUbuntu "latest";
  let runCmds :=
    ["sysctl -w net.ipv4.ip_forward=1"; "echo 'net.ipv4.ip_forward=1' >> /etc/sysctl.conf"; "systemctl enable --now wg-quick@wg0";
     "ufw allow OpenSSH"; "ufw allow " +:+ Itoa WGServerPort +:+ "/udp"; "ufw --force enable"] in
  mret ((guest name "wg-server" "" "1G" 1 1 1
           (user_nic ["udp:127.0.0.1:" +:+ Itoa hostUDPPort +:+ "-:" +:+ Itoa WGServerPort]) GPUNone false [cloud_disk name "10G" image])
          <| c_SSHPort := deterministicSSHPort name |> <| c_Headless := true |>
          <| c_CloudInit := Some (mkCloudInitConfig name "vee" "" (DefaultUser DistroUbuntu) sshKeys ["wireguard"; "ufw"; "iptables"]
                                    runCmds [plain_file "/etc/wireguard/wg0.conf" (wg_server_conf serverKeys clientKeys) "0600"]) |>,
        mkWGServerConfig serverKeys clientKeys hostUDPPort).

Definition ClientWireGuardConfig (wgs : WGServerConfig) : WireGuardConfig :=
  mkWireGuardConfig (kp_PrivateKey (ws_ClientKeys wgs)) (WGClientTunnelIP +:+ "/32") "1.1.1.1"
    ("127.0.0.1:" +:+ Itoa (ws_HostUDPPort wgs)) (kp_PublicKey (ws_ServerKeys wgs)).

(** ** Guests behind a VPN *)
Definition qbittorrent_service : ServiceEntry := mkServiceEntry "qbittorrent" 8080 ServiceHTTP.
Definition webui_nic : NICConfig := user_nic ["tcp:127.0.0.1:8080-:8080"].

Definition NewTorrentAlpineConfig (nord : NordEnv) (name : string) (sshKeys : list string) (mounts : list ShareMount)
    (nfsMounts : list NFSMount) (nordConf : option NordVPNConfig) (wgConf : option WireGuardConfig) (vpnProvider : string)
    (emulate : bool) : ImgM VMConfig :=
  '(wgConf, vpnProvider) ←
    match nordConf, wgConf with
    | None, _ => mret (wgConf, vpnProvider)
    | Some _, Some _ => throw (Errorf "pass either a NordVPN token or a WireGuard config, not both" [])
    | Some n, None =>
        lynx ← wrap_error "fetch NordLynx config" (lift_result (NordLynxConfig nord (nord_Token n) (nord_Country n)));
        mret (Some lynx, if bool_decide (vpnProvider ∈ [""; "nordvpn"]) then "nordlynx" else vpnProvider)
    end;
  guestArch ← lift_result (guestArchFor DistroAlpine emulate);
  image ← fetch_image "torrent" DistroAlpine "latest";
  mret ((guest name "torrent" guestArch "1G" 1 1 1 webui_nic GPUNone false [cloud_disk name (pc_DefaultDiskSize conf) image])
          <| c_SSHPort := deterministicSSHPort name |> <| c_Headless := true |> <| c_GuestAgent := true |>
          <| c_VirtiofsMounts := virtiofs_mounts mounts |> <| c_VPNProvider := vpnProvider |>
          <| c_CloudInit := Some (alpine_seed name sshKeys (torrentAlpineRunCmds mounts nfsMounts wgConf)
                                    (torrentAlpineWriteFiles (save_path mounts nfsMounts) wgConf)) |>
          <| c_Services := [qbittorrent_service] |>).

Definition torrent_files (nordConf : option NordVPNConfig) (wgConf : option WireGuardConfig) (savePath : string)
  : list CloudInitWriteFile :=
  let bindIface := match nordConf, wgConf with Some _, _ => "nordlynx" | None, Some _ => "wg0" | None, None => "" end in
  [mkCloudInitWriteFile "/home/vee/.config/qBittorrent/qBittorrent.conf" (qbittorrentConf savePath incompletePath bindIface) "0600"
     "vee" true ""] ++
  match nordConf with Some _ => [] | None => wg_files wgConf (ufwFirewallCmds wgConf) end.

(** [spicePort] is not used; the manager assigns one. *)
Definition NewTorrentConfig (nord : NordEnv) (name : string) (sshKeys : list string) (mounts : list ShareMount)
    (nfsMounts : list NFSMount) (nordConf : option NordVPNConfig) (wgConf : option WireGuardConfig) (vpnProvider : string)
    (distro : string) (emulate : bool) : ImgM VMConfig :=
  if bool_decide (distro = DistroAlpine)
  then NewTorrentAlpineConfig nord name sshKeys mounts nfsMounts nordConf wgConf vpnProvider emulate
  else if negb (bool_decide (distro = "")) && negb (bool_decide (distro = DistroUbuntu))
  then throw (Errorf "torrent template supports --distro ubuntu or alpine" [distro])
  else
    image ← fetch_image "torrent" DistroUbuntu "latest";
    let packages :=
      PackagesFor DistroUbuntu ["torrent"] ++
      match nordConf, wgConf with None, Some _ => ["wireguard"] | _, _ => [] end ++
      (if bool_decide (nfsMounts = []) then [] else ["nfs-common"]) in
    mret ((guest name "torrent" "" "2G" 1 1 1 webui_nic GPUNone false [cloud_disk name (pc_DefaultDiskSize conf) image])
            <| c_SSHPort := deterministicSSHPort name |> <| c_GuestAgent := true |>
            <| c_VirtiofsMounts := virtiofs_mounts mounts |> <| c_VPNProvider := vpnProvider |> <| c_SPICE := Some spice_auto |>
            <| c_CloudInit := Some (mkCloudInitConfig name "vee" "" (DefaultUser DistroUbuntu) sshKeys packages
                                      (torrentRunCmds nordConf wgConf mounts nfsMounts)
                                      (torrent_files nordConf wgConf (save_path mounts nfsMounts))) |>
            <| c_Services := [spice_service; qbittorrent_service] |>).

Definition NewBitmagnetConfig (name : string) (sshKeys : list string) (opts : BitmagnetOptions) : ImgM VMConfig :=
  if bool_decide (bo_PGPassword opts = "") then throw (Errorf "bitmagnet template requires a PostgreSQL password" []) else
  guestArch ← lift_result (guestArchFor DistroAlpine (bo_Emulate opts));
  image ← fetch_image "bitmagnet" DistroAlpine "latest";
  let nic := if bool_decide (bo_Bridge opts = "") then user_nic [] else bridge_nic (bo_Bridge opts) in
  mret ((guest name "bitmagnet" guestArch "2G" 2 2 1 nic GPUNone false [cloud_disk name (or_default (bo_DiskSize opts) "8G") image])
          <| c_Headless := true |> <| c_GuestAgent := true |> <| c_Hostname := name |> <| c_SSHPort := deterministicSSHPort name |>
          <| c_VirtiofsMounts := if bool_decide (bo_PGDataHostDir opts = "") then []
                                 else [mkVirtiofsMount "" (bo_PGDataHostDir opts) bitmagnetPGVirtiofsTag false] |>
          <| c_VPNProvider := bo_VPNProvider opts |>
          <| c_CloudInit := Some (alpine_seed name sshKeys (bitmagnetRunCmds opts) (bitmagnet_files opts)) |>
          <| c_Services := [mkServiceEntry "bitmagnet" BitmagnetWebPort ServiceHTTP] |>).
End Templates.
