(* ===== verification/Runner.v ===== *)
(** * GitHub Actions runners (internal/templates/runner.go, githubhostkeys.go)

    The configuration of a self-hosted runner: its services, the collection of
    garbage on its disk, the rootless container stack, and either the
    registration with a token or the restored credentials. *)
From S2P Require Import Prelude GoStrings Config World Guest Sha1 Images Vpn KillSwitch Qemu Build Templates.

Open Scope Z_scope.

Definition nerdctlFullVersion : string := "2.2.2".
Record RunnerCredFile := mkRunnerCredFile { rc_RelPath : string; rc_Content : list N; rc_Mode : Z }.

(** ** Files *)
Definition actionsRunnerService : string :=
  unlines
    ["[Unit]"; "Description=GitHub Actions Runner"; "After=network-online.target"; "Wants=network-online.target"; ""; "[Service]";
     "Type=simple"; "User=runner"; "WorkingDirectory=/opt/actions-runner"; "EnvironmentFile=/etc/actions-runner/runner.env";
     "ExecStart=/opt/actions-runner/run.sh"; "Restart=always"; "RestartSec=5"; ""; "[Install]"; "WantedBy=multi-user.target"].
Definition rootlesskitAppArmor : string :=
  unlines
    ["abi <abi/4.0>,"; "include <tunables/global>"; ""; "profile rootlesskit /usr/local/bin/rootlesskit flags=(unconfined) {";
     "  userns,"; "  include if exists <local/rootlesskit>"; "}"].
Definition runnerGC : string :=
  unlines
    ["#!/usr/bin/env bash"; "set -uo pipefail"; ""; "# Derive the rootless socket env from the runner's own UID rather than reading";
     "# /etc/actions-runner/runner.env: that file is root-owned 0600 and unreadable by";
     "# the runner user this script runs as. The UID-keyed paths are deterministic."; "RUNNER_UID=$(id -u)";
     "export XDG_RUNTIME_DIR=" +:+ dq "/run/user/${RUNNER_UID}";
     "export CONTAINERD_ADDRESS=" +:+ dq "/run/user/${RUNNER_UID}/containerd/containerd.sock";
     "export BUILDKIT_HOST=" +:+ dq "unix:///run/user/${RUNNER_UID}/buildkit/buildkitd.sock"; "export CONTAINERD_NAMESPACE=default";
     "export PATH=/usr/local/bin:/usr/bin:/bin"; "";
     "# Any container older than this is treated as an orphan and force-removed even if";
     "# still " +:+ dq "Up" +:+ ". A real CI job's containers live far under this; the ceiling only";
     "# needs to exceed the slowest legitimate job. 90 minutes is generous headroom."; "ORPHAN_MAX_AGE_SEC=$((90 * 60))";
     "NOW=$(date +%s)"; ""; "# Force-reap stale containers even if " +:+ dq "Up" +:+ ". nerdctl's own 'system prune' only";
     "# removes STOPPED containers, so a stack a canceled/crashed job left running is";
     "# never collected — that is the primary disk-growth source. Age-gating by each";
     "# container's StartedAt guarantees the current job's young containers survive, so";
     "# this is safe to run with a job in progress and needs no name allow-list.";
     "echo " +:+ dq "vee-runner-gc: reaping containers older than ${ORPHAN_MAX_AGE_SEC}s";
     "for id in $(nerdctl ps -aq 2>/dev/null); do";
     "  name=$(nerdctl inspect --format '{{.Name}}' " +:+ dq "${id}" +:+ " 2>/dev/null) || continue";
     "  started=$(nerdctl inspect --format '{{.State.StartedAt}}' " +:+ dq "${id}" +:+ " 2>/dev/null)";
     "  if [ -n " +:+ dq "${started}" +:+ " ] && [ " +:+ dq "${started}" +:+ " != " +:+ dq "0001-01-01T00:00:00Z" +:+ " ]; then";
     "    started_epoch=$(date -d " +:+ dq "${started}" +:+ " +%s 2>/dev/null || echo 0)"; "  else";
     "    # Created but never started — always safe to drop; treat as maximally old."; "    started_epoch=0"; "  fi";
     "  age=$((NOW - started_epoch))";
     "  if [ " +:+ dq "${started_epoch}" +:+ " -eq 0 ] || [ " +:+ dq "${age}" +:+ " -ge " +:+ dq "${ORPHAN_MAX_AGE_SEC}" +:+ " ]; then";
     "    echo " +:+ dq "vee-runner-gc: reaping ${name} (${id}, age ${age}s)";
     "    nerdctl rm -f " +:+ dq "${id}" +:+ " >/dev/null 2>&1 || true"; "  fi"; "done"; "";
     "# Standard prune of whatever is now stopped/dangling/unreferenced. Safe with a";
     "# job in progress: prune only touches stopped containers, dangling images, and";
     "# unused volumes/networks — an active build's resources are in use and skipped.";
     "echo " +:+ dq "vee-runner-gc: pruning containerd/nerdctl"; "nerdctl system prune -af  || true";
     "nerdctl volume prune -af  || true"; "nerdctl builder prune -af || true"; "";
     "# Cap BuildKit's local cache instead of dropping it entirely, so warm layers"; "# survive while runaway growth is bounded.";
     "echo " +:+ dq "vee-runner-gc: pruning BuildKit cache to 2GB ceiling"; "buildctl prune --keep-storage 2048 || true"; "";
     "# Bound the Go build cache by SIZE rather than clearing it wholesale. The old";
     "# behaviour was all-or-nothing — skip entirely while a job ran, otherwise wipe";
     "# every entry — which meant the cache either grew unchecked on a busy runner or";
     "# went fully cold on an idle one. GOCACHEPROG-free trimming is not exposed by";
     "# the go tool, so evict least-recently-used entries directly: the cache is";
     "# content-addressed under two-hex-digit subdirectories, and its files carry";
     "# atime-like mtimes that the go tool refreshes on use, so dropping the oldest";
     "# files first approximates Go's own LRU trimming closely enough for a CI box."; "#";
     "# Runs even with a job in progress: evicting a cold entry only costs that entry";
     "# a recompile, and the cache is designed to tolerate arbitrary eviction (a miss";
     "# is a rebuild, never a failure). Only entries untouched for GOCACHE_MIN_AGE_MIN";
     "# are eligible, so a live build's working set is never evicted."; "#";
     "# The age floor is in MINUTES, not days. A day-granularity guard (-mtime +1) is";
     "# useless here: a busy runner rewrites the whole cache within a single day, so";
     "# nothing is ever a day old and the ceiling can never be enforced — observed on";
     "# this runner with 16584 files, all stamped today, and 0 eligible for eviction.";
     "# 120 minutes comfortably exceeds the longest CI job while still leaving the"; "# bulk of a day's accumulation collectable.";
     "GOCACHE_CEILING_MB=1536"; "GOCACHE_MIN_AGE_MIN=120"; "GOCACHE_DIR=" +:+ dq "$HOME/.cache/go-build";
     "if [ -d " +:+ dq "$GOCACHE_DIR" +:+ " ]; then"; "  used_mb=$(du -xsm " +:+ dq "$GOCACHE_DIR" +:+ " 2>/dev/null | cut -f1)";
     "  used_mb=${used_mb:-0}"; "  if [ " +:+ dq "$used_mb" +:+ " -gt " +:+ dq "$GOCACHE_CEILING_MB" +:+ " ]; then";
     "    echo " +:+ dq "vee-runner-gc: go-build cache ${used_mb}MB over ${GOCACHE_CEILING_MB}MB ceiling, evicting LRU entries";
     "    # Track the running total by subtracting each file's own size rather than";
     "    # re-running du after every unlink: the cache holds tens of thousands of";
     "    # files, so a du per deletion would mean thousands of full-tree stat walks."; "    freed_kb=0";
     "    target_kb=$(( (used_mb - GOCACHE_CEILING_MB) * 1024 ))"; "    evicted=0";
     "    # Oldest first; stop as soon as enough has been freed."; "    while IFS= read -r line; do"; "      size_kb=${line%% *}";
     "      f=${line#* }"; "      [ -f " +:+ dq "$f" +:+ " ] || continue"; "      rm -f " +:+ dq "$f" +:+ " 2>/dev/null || continue";
     "      freed_kb=$(( freed_kb + size_kb ))"; "      evicted=$(( evicted + 1 ))";
     "      [ " +:+ dq "$freed_kb" +:+ " -ge " +:+ dq "$target_kb" +:+ " ] && break";
     "    done < <(find " +:+ dq "$GOCACHE_DIR" +:+ " -type f -mmin " +:+ dq "+${GOCACHE_MIN_AGE_MIN}" +:+ " -printf '%T@ %k %p\n' 2>/dev/null \";
     "               | sort -n | cut -d' ' -f2-)"; "    used_mb=$(du -xsm " +:+ dq "$GOCACHE_DIR" +:+ " 2>/dev/null | cut -f1)";
     "    used_mb=${used_mb:-0}"; "    echo " +:+ dq "vee-runner-gc: go-build cache now ${used_mb}MB (evicted ${evicted} entries)";
     "  else"; "    echo " +:+ dq "vee-runner-gc: go-build cache ${used_mb}MB within ${GOCACHE_CEILING_MB}MB ceiling"; "  fi"; "fi";
     ""; "# Bound the journal too. The drop-in config caps steady-state growth, but a";
     "# burst between rotations can still overshoot, so vacuum explicitly. Needs sudo:";
     "# the runner user cannot unlink files under /var/log/journal, and an";
     "# unprivileged vacuum fails per-file and frees nothing."; "echo " +:+ dq "vee-runner-gc: vacuuming journal";
     "sudo -n journalctl --vacuum-size=200M >/dev/null 2>&1 || true"; ""; "# Old runner diagnostics and stale per-job temp dirs.";
     "find /opt/actions-runner/_diag -type f -name '*.log' -mtime +3 -delete 2>/dev/null || true";
     "rm -rf /opt/actions-runner/_work/_temp/* 2>/dev/null || true"; ""; "echo " +:+ dq "vee-runner-gc: done"; "df -h / | tail -1"].
Definition journaldConf : string :=
  unlines
    ["[Journal]"; "SystemMaxUse=200M"; "SystemKeepFree=1G"; "MaxRetentionSec=1week"].
Definition runnerGCService : string :=
  unlines
    ["[Unit]"; "Description=vee runner disk garbage collection"; "After=actions-runner.service"; ""; "[Service]"; "Type=oneshot";
     "User=runner"; "ExecStart=/usr/local/bin/vee-runner-gc.sh"].
Definition runnerGCTimer : string :=
  unlines
    ["[Unit]"; "Description=Run vee runner disk garbage collection hourly"; ""; "[Timer]"; "OnCalendar=hourly"; "Persistent=true";
     "RandomizedDelaySec=120"; ""; "[Install]"; "WantedBy=timers.target"].
Definition journalVacuumSudoers : string := unlines ["runner ALL=(root) NOPASSWD: /usr/bin/journalctl --vacuum-size=200M"].
Definition runnerSSHDir : string := "/home/runner/.ssh".
Definition runnerSSHConfig : string :=
  unlines
    ["Host github.com"; "  HostName github.com"; "  User git"; "  IdentityFile /home/runner/.ssh/id_ed25519"; "  IdentitiesOnly yes"].
Definition GitHubKnownHosts : string :=
  unlines
    ["github.com ssh-ed25519 AAAAC3NzaC1lZDI1NTE5AAAAIOMqqnkVzrm0SdG6UOoqKLsabgH5C9okWi0dh2l9GKJl";
     "github.com ecdsa-sha2-nistp256 AAAAE2VjZHNhLXNoYTItbmlzdHAyNTYAAAAIbmlzdHAyNTYAAABBBEmKSENjQEezOmxkZMy7opKgwFB9nkt5YRrYMjNuG5N87uRgg6CLrbo5wAdT/y6v0mKV0U2w0WZ2YB/++Tpockg=";
     "github.com ssh-rsa AAAAB3NzaC1yc2EAAAADAQABAAABgQCj7ndNxQowgcQnjshcLrqPEiiphnt+VTTvDP6mHBL9j1aNUkY4Ue1gvwnGLVlOhGeYrnZaMgRK6+PKCUXaDbC7qtbW8gIkhL7aGCsOr/C56SJMy/BCZfxd1nWzAOxSDPgVsmerOBYfNqltV9/hWCqBywINIR+5dIg6JTJ72pcEpEjcYgXkE2YEFXV1JHnsKgbLWNlhScqb2UmyRkQyytRLtL+38TGxkxCflmO+5Z8CSSNY7GidjMIZ7Q4zMjA2n1nGrlTDkzwDCsw+wqFPGQA179cnfGWOWRVruj16z6XyvxvjJwbz0wQZ75XK5tKSb7FNyeIEs4TT4jk+S4dhPeAUC5y+bDYirYgM4GC7uEnztnZyaVWQ7B381AK4Qdrwt51ZqExKbQpTUNn+EjqoTwvqNj4kqx5QUCI0ThS/YkOxJCXmPUWZbhjpCg56i+2aB6CmK2JGhn57K5mj0MNdBXA4/WnwH6XoPWJzK5Nyu2zB3nAZp+S5hpQs+p1vN1/wsjk="].

Definition default_labels (labels : list string) : list string :=
  if bool_decide (labels = []) then ["self-hosted"; "linux"; "kvm"] else labels.
Definition runner_env (runnerURL runnerToken name : string) (labels : list string) : string :=
  unlines ["RUNNER_URL=" +:+ runnerURL; "RUNNER_TOKEN=" +:+ runnerToken; "RUNNER_LABELS=" +:+ Join "," labels; "RUNNER_NAME=" +:+ name].
Definition runner_files (runnerURL runnerToken name : string) (labels : list string) : list CloudInitWriteFile :=
  [plain_file "/etc/actions-runner/runner.env" (runner_env runnerURL runnerToken name labels) "0600";
   plain_file "/etc/systemd/system/actions-runner.service" actionsRunnerService "0644"; vsock_file;
   plain_file "/etc/apparmor.d/usr.local.bin.rootlesskit" rootlesskitAppArmor "0644";
   plain_file "/usr/local/bin/vee-runner-gc.sh" runnerGC "0755";
   plain_file "/etc/systemd/system/vee-runner-gc.service" runnerGCService "0644";
   plain_file "/etc/systemd/system/vee-runner-gc.timer" runnerGCTimer "0644";
   plain_file "/etc/systemd/journald.conf.d/vee-runner.conf" journaldConf "0644";
   plain_file "/etc/sudoers.d/vee-runner-gc" journalVacuumSudoers "0440"].

(** ** Commands *)
(** A file written through base64, whatever its bytes. *)
Definition decode_to (bs : list N) (path : string) : string :=
  "printf %s " +:+ Quote (Base64.EncodeToString bs) +:+ " | base64 -d > " +:+ path.
Definition githubRunnerSSHSetup (sshPrivKey : list N) : list string :=
  if bool_decide (sshPrivKey = []) then [] else
  ["install -d -m 700 -o runner -g runner " +:+ runnerSSHDir; decode_to sshPrivKey (runnerSSHDir +:+ "/id_ed25519");
   decode_to (SHA1.bytes_of GitHubKnownHosts) (runnerSSHDir +:+ "/known_hosts");
   decode_to (SHA1.bytes_of runnerSSHConfig) (runnerSSHDir +:+ "/config");
   "chmod 600 " +:+ runnerSSHDir +:+ "/id_ed25519 " +:+ runnerSSHDir +:+ "/config"; "chmod 644 " +:+ runnerSSHDir +:+ "/known_hosts";
   "chown -R runner:runner " +:+ runnerSSHDir].

Definition register_cmds (restored : list RunnerCredFile) : list string :=
  match restored with
  | [] =>
    [". /etc/actions-runner/runner.env && sudo -u runner /opt/actions-runner/config.sh --unattended --url " +:+ dq "$RUNNER_URL"
       +:+ " --token " +:+ dq "$RUNNER_TOKEN" +:+ " --labels " +:+ dq "$RUNNER_LABELS" +:+ " --name " +:+ dq "$RUNNER_NAME"]
  | _ =>
    ((λ rc, decode_to (rc_Content rc) ("/opt/actions-runner/" +:+ rc_RelPath rc)) <$> restored) ++
    ["chown -R runner:runner /opt/actions-runner"; "chmod 600 /opt/actions-runner/.credentials /opt/actions-runner/.runner"]
  end.

Definition nerdctl_url : string :=
  "https://github.com/containerd/nerdctl/releases/download/v" +:+ nerdctlFullVersion +:+ "/nerdctl-full-" +:+ nerdctlFullVersion
  +:+ "-linux-amd64.tar.gz".
Definition runner_setup : list string :=
  ["useradd --create-home --shell /bin/bash runner";
   "RUNNER_UID=$(id -u runner); { echo " +:+ dq "RUNNER_UID=${RUNNER_UID}" +:+ "; echo " +:+ dq "XDG_RUNTIME_DIR=/run/user/${RUNNER_UID}" +:+ "; echo " +:+ dq "CONTAINERD_ADDRESS=/run/user/${RUNNER_UID}/containerd/containerd.sock" +:+ "; echo " +:+ dq "BUILDKIT_HOST=unix:///run/user/${RUNNER_UID}/buildkit/buildkitd.sock" +:+ "; echo " +:+ dq "CONTAINERD_NAMESPACE=default" +:+ "; } >> /etc/actions-runner/runner.env";
   "mkdir -p /opt/actions-runner /etc/actions-runner";
   "chown runner:runner /etc/actions-runner /opt/actions-runner /etc/actions-runner/runner.env"; "usermod -aG kvm runner";
   "usermod --add-subuids 165536-231071 --add-subgids 165536-231071 runner";
   "curl -fsSL " +:+ Quote nerdctl_url +:+ " -o /tmp/nerdctl-full.tar.gz"; "tar -C /usr/local -xzf /tmp/nerdctl-full.tar.gz";
   "rm /tmp/nerdctl-full.tar.gz";
   "printf 'net.ipv4.ping_group_range=0 2147483647\nnet.ipv4.ip_unprivileged_port_start=0\n' > /etc/sysctl.d/99-rootless.conf";
   "sysctl --system"; "apparmor_parser -r /etc/apparmor.d/usr.local.bin.rootlesskit"; "loginctl enable-linger runner";
   "RUNNER_UID=$(id -u runner); for i in $(seq 1 30); do [ -S /run/user/${RUNNER_UID}/bus ] && break; sleep 1; done";
   "RUNNER_UID=$(id -u runner); sudo -u runner XDG_RUNTIME_DIR=/run/user/${RUNNER_UID} DBUS_SESSION_BUS_ADDRESS=unix:path=/run/user/${RUNNER_UID}/bus PATH=/usr/local/bin:/usr/bin:/bin /usr/local/bin/containerd-rootless-setuptool.sh install";
   "RUNNER_UID=$(id -u runner); sudo -u runner XDG_RUNTIME_DIR=/run/user/${RUNNER_UID} DBUS_SESSION_BUS_ADDRESS=unix:path=/run/user/${RUNNER_UID}/bus PATH=/usr/local/bin:/usr/bin:/bin /usr/local/bin/containerd-rootless-setuptool.sh install-buildkit";
   "RUNNER_UID=$(id -u runner); sudo -u runner XDG_RUNTIME_DIR=/run/user/${RUNNER_UID} systemctl --user enable containerd buildkit";
   "RUNNER_VERSION=$(curl -fsSL -o /dev/null -w '%{url_effective}' https://github.com/actions/runner/releases/latest | sed 's|.*/v||')";
   "curl -fsSL " +:+ dq "https://github.com/actions/runner/releases/download/v${RUNNER_VERSION}/actions-runner-linux-x64-${RUNNER_VERSION}.tar.gz" +:+ " -o /tmp/actions-runner.tar.gz";
   "tar -xzf /tmp/actions-runner.tar.gz -C /opt/actions-runner"; "rm /tmp/actions-runner.tar.gz";
   "chown -R runner:runner /opt/actions-runner"; "/opt/actions-runner/bin/installdependencies.sh"].
Definition runner_services : list string :=
  ["systemctl enable --now actions-runner"; "systemctl enable --now ssh"; "ufw allow OpenSSH"; "ufw --force enable";
   "systemctl enable --now vee-ssh-agent"; "systemctl enable --now qemu-guest-agent"; "systemctl enable --now vee-runner-gc.timer";
   "systemctl restart systemd-journald"].

Definition githubRunnerCloudInit (runnerURL runnerToken name : string) (labels : list string) (restored : list RunnerCredFile)
    (sshPrivKey : list N) : list CloudInitWriteFile * list string :=
  (runner_files runnerURL runnerToken name (default_labels labels),
   runner_setup ++ githubRunnerSSHSetup sshPrivKey ++ register_cmds restored ++ runner_services).

(** ** The configuration *)
Definition NewGitHubRunnerConfig (env : FetchEnv) (host : Host) (conf : ProviderConfig) (now : Z) (name : string)
    (sshKeys : list string) (runnerURL runnerToken : string) (labels : list string) (restored : list RunnerCredFile)
    (sshPrivKey : list N) : ImgM VMConfig :=
  if bool_decide (runnerURL = "") then throw (Errorf "github-runner: runnerURL is required" [])
  else if bool_decide (runnerToken = "") && match restored with [] => true | _ => false end
  then throw (Errorf "github-runner: runnerToken is required" [])
  else
    image ← fetch_image env host conf "github-runner" DistroUbuntu "latest";
    let '(writeFiles, runCmds) := githubRunnerCloudInit runnerURL runnerToken name (default_labels labels) restored sshPrivKey in
    mret ((guest conf now name "github-runner" "" "4G" 4 4 1 (user_nic []) GPUNone false
             [cloud_disk conf name (pc_DefaultDiskSize conf) image])
            <| c_Headless := true |> <| c_GuestAgent := true |> <| c_SSHPort := deterministicSSHPort name |>
            <| c_CloudInit := Some (mkCloudInitConfig name "admin" "" (DefaultUser DistroUbuntu) sshKeys
                 ["curl"; "ca-certificates"; "ufw"; "qemu-guest-agent"; "jq"; "libicu-dev"; "socat"; "uidmap"; "dbus-user-session";
                  "iptables"; "build-essential"; "pkg-config"] runCmds writeFiles) |>).
