(* ===== verification/Gaming.v ===== *)
(** * Gaming VMs (internal/templates/gaming.go)

    The Arch guest installs itself from the live ISO with a script that cloud-init
    runs; the Bazzite guest has an installer of its own.  The script is kept as
    its lines, in the sections of the installation; what of the shell is needed to
    say where its text ends up, here documents, is defined below. *)
From S2P Require Import Prelude GoStrings Boot Config World Guest Sha1 CloudInit Images KillSwitch Qemu Build Templates.

Open Scope Z_scope.

(** ** The installation script *)
Definition install_start (user password : string) : list string :=
  ["#!/bin/bash"; "# Redirect all output to both the install log and the serial console so that";
   "# vee can tail the serial port and show live progress to the user."; "exec > >(tee -a /var/log/vee-install.log /dev/ttyS0) 2>&1";
   "set -euxo pipefail"; "DISK=/dev/vda"; "USER=" +:+ user; "PASSWORD=" +:+ password; "";
   "# On failure, surface the line + unwind any mounts so a subsequent re-run";
   "# (manual or vee restart) is not blocked by stale partitions on $DISK."; "on_err() {"; "  rc=$?";
   "  echo " +:+ dq "==> vee-install: FAILED at line $1 (exit $rc)"; "  umount -R /mnt 2>/dev/null || true"; "  exit $rc"; "}";
   "trap 'on_err $LINENO' ERR"; ""; "echo " +:+ dq "==> vee-install: stage=clock-sync";
   "# Wait for time sync — the live ISO boots with the clock at 1970-01-01,";
   "# which makes every HTTPS cert look " +:+ dq "not yet valid" +:+ " and breaks pacman /";
   "# reflector. Force NTP up before any network fetch."; "timedatectl set-ntp true || true"; "for i in $(seq 1 30); do";
   "  if timedatectl show -p NTPSynchronized --value | grep -q '^yes$'; then"; "    break"; "  fi"; "  sleep 2"; "done";
   "echo " +:+ dq "==> vee-install: stage=clock-sync-done clock=$(date -u '+%Y-%m-%dT%H:%M:%SZ')"; "";
   "echo " +:+ dq "==> vee-install: stage=network-wait"; "# Wait for a default route + working DNS — runcmd fires before";
   "# network-online.target on some images."; "for i in $(seq 1 30); do";
   "  if ip route show default | grep -q '^default ' && getent hosts archlinux.org >/dev/null 2>&1; then"; "    break"; "  fi";
   "  sleep 2"; "done"; "echo " +:+ dq "==> vee-install: stage=network-ready"; ""].
Definition install_partition : list string :=
  ["echo " +:+ dq "==> vee-install: stage=partition"; "# Partition: 512M EFI + rest as root";
   "parted -s " +:+ dq "$DISK" +:+ " mklabel gpt"; "parted -s " +:+ dq "$DISK" +:+ " mkpart ESP fat32 1MiB 513MiB";
   "parted -s " +:+ dq "$DISK" +:+ " set 1 esp on"; "parted -s " +:+ dq "$DISK" +:+ " mkpart primary ext4 513MiB 100%"; "";
   "mkfs.fat -F32 " +:+ dq "${DISK}1"; "mkfs.ext4 -F " +:+ dq "${DISK}2"; ""; "mount " +:+ dq "${DISK}2" +:+ " /mnt";
   "mkdir -p /mnt/boot/efi"; "mount " +:+ dq "${DISK}1" +:+ " /mnt/boot/efi"; ""].
Definition install_mirrors : list string :=
  ["echo " +:+ dq "==> vee-install: stage=reflector"; "# Pick fastest mirrors before pacstrap. Reflector reaches out over HTTPS";
   "# only — rsync rate-tests routinely time out from this network. We write";
   "# to a tempfile so a partial/failed reflector run never leaves an empty";
   "# /etc/pacman.d/mirrorlist (which makes pacman -Sy fail with"; "# " +:+ dq "no servers configured for repository" +:+ ").";
   "pacman -Sy --noconfirm reflector"; "cp /etc/pacman.d/mirrorlist /etc/pacman.d/mirrorlist.iso";
   "if reflector --protocol https --latest 20 --sort rate \"; "     --save /etc/pacman.d/mirrorlist.new 2>&1 \";
   "   && [ -s /etc/pacman.d/mirrorlist.new ] \"; "   && grep -q '^Server = ' /etc/pacman.d/mirrorlist.new; then";
   "  mv /etc/pacman.d/mirrorlist.new /etc/pacman.d/mirrorlist";
   "  echo " +:+ dq "==> vee-install: stage=reflector-done mirrors=$(grep -c '^Server = ' /etc/pacman.d/mirrorlist)"; "else";
   "  echo " +:+ dq "==> vee-install: stage=reflector-failed using ISO mirrorlist"; "  rm -f /etc/pacman.d/mirrorlist.new";
   "  cp /etc/pacman.d/mirrorlist.iso /etc/pacman.d/mirrorlist"; "fi"; "";
   "# Enable multilib and strip empty/broken repo sections from live env pacman.conf.";
   "# The ISO ships a bare [custom] section with no servers; any repo without a";
   "# Server/Include line causes " +:+ dq "no servers configured" +:+ " for the whole sync."; "python3 - <<'PYEOF'"; "import re, pathlib";
   "p = pathlib.Path('/etc/pacman.conf')"; "txt = p.read_text()";
   "# Split into [options] block + repo blocks. Keep only repos that have at";
   "# least one Server= or Include= line, or are [core]/[extra] (which always do)."; "# Then append a clean [multilib] block regardless.";
   "parts = re.split(r'(?=\n\[(?!options))', txt)"; "kept = []"; "for part in parts:";
   "    header = re.search(r'^\[([^\]]+)\]', part.lstrip('\n'))"; "    if not header:"; "        kept.append(part)"; "        continue";
   "    name = header.group(1)"; "    if name in ('options',):"; "        kept.append(part)"; "        continue";
   "    # Drop commented-out or empty repo sections (no active Server/Include)";
   "    if not re.search(r'^(?:Server|Include)\s*=', part, re.MULTILINE):"; "        continue";
   "    # Drop any existing multilib block; we'll re-add a clean one below"; "    if name.startswith('multilib'):"; "        continue";
   "    kept.append(part)"; "txt = ''.join(kept).rstrip('\n') + '\n\n[multilib]\nInclude = /etc/pacman.d/mirrorlist\n'";
   "p.write_text(txt)"; "PYEOF"; "pacman -Sy --noconfirm"; ""].
Definition install_base (gpuPkgs : string) : list string :=
  ["echo " +:+ dq "==> vee-install: stage=pacstrap"; "# Base system + gaming stack";
   "pacstrap /mnt base linux linux-firmware grub efibootmgr sudo \"; "  networkmanager openssh qemu-guest-agent \";
   "  plasma sddm xdg-desktop-portal-kde konsole \"; "  steam wine winetricks gamemode lib32-gamemode \";
   "  pipewire pipewire-pulse pipewire-alsa wireplumber rtkit \"; "  libva-mesa-driver libva-utils \"; "  go git base-devel \";
   "  " +:+ gpuPkgs; ""; "echo " +:+ dq "==> vee-install: stage=pacstrap-done"; ""; "echo " +:+ dq "==> vee-install: stage=fstab";
   "genfstab -U /mnt >> /mnt/etc/fstab"; ""].
Definition install_locale (hostname : string) : list string :=
  ["echo " +:+ dq "==> vee-install: stage=locale"; "# Locale + timezone"; "arch-chroot /mnt ln -sf /usr/share/zoneinfo/UTC /etc/localtime";
   "echo " +:+ dq "en_US.UTF-8 UTF-8" +:+ " >> /mnt/etc/locale.gen"; "arch-chroot /mnt locale-gen";
   "echo " +:+ dq "LANG=en_US.UTF-8" +:+ " > /mnt/etc/locale.conf"; ""; "# Hostname"; "echo " +:+ dq hostname +:+ " > /mnt/etc/hostname";
   "cat >> /mnt/etc/hosts <<'HOSTSEOF'"; "127.0.0.1 localhost"; "::1       localhost"; "127.0.1.1 " +:+ hostname; "HOSTSEOF"; "";
   "# Enable multilib in installed system (same robust approach as live env above)"; "python3 - <<'PYEOF'"; "import re, pathlib";
   "p = pathlib.Path('/mnt/etc/pacman.conf')"; "txt = p.read_text()"; "parts = re.split(r'(?=\n\[(?!options))', txt)"; "kept = []";
   "for part in parts:"; "    header = re.search(r'^\[([^\]]+)\]', part.lstrip('\n'))"; "    if not header:"; "        kept.append(part)";
   "        continue"; "    name = header.group(1)"; "    if name in ('options',):"; "        kept.append(part)"; "        continue";
   "    if not re.search(r'^(?:Server|Include)\s*=', part, re.MULTILINE):"; "        continue"; "    if name.startswith('multilib'):";
   "        continue"; "    kept.append(part)";
   "txt = ''.join(kept).rstrip('\n') + '\n\n[multilib]\nInclude = /etc/pacman.d/mirrorlist\n'"; "p.write_text(txt)"; "PYEOF"; ""].
Definition install_users (sshKeys : list string) : list string :=
  ["echo " +:+ dq "==> vee-install: stage=users";
   "arch-chroot /mnt useradd -m -G wheel,gamemode,video,render,input -s /bin/bash " +:+ dq "$USER";
   "echo " +:+ dq "$USER:$PASSWORD" +:+ " | arch-chroot /mnt chpasswd";
   "sed -i 's/^# %wheel ALL=(ALL:ALL) NOPASSWD: ALL/%wheel ALL=(ALL:ALL) NOPASSWD: ALL/' /mnt/etc/sudoers"; ""; "# SSH keys";
   "mkdir -p /mnt/home/" +:+ dq "$USER" +:+ "/.ssh"; "chmod 700 /mnt/home/" +:+ dq "$USER" +:+ "/.ssh";
   "echo " +:+ dq (Join (String newline "") sshKeys) +:+ " > /mnt/home/" +:+ dq "$USER" +:+ "/.ssh/authorized_keys";
   "chmod 600 /mnt/home/" +:+ dq "$USER" +:+ "/.ssh/authorized_keys";
   "arch-chroot /mnt chown -R " +:+ dq "$USER" +:+ ":" +:+ dq "$USER" +:+ " /home/" +:+ dq "$USER" +:+ "/.ssh"; ""].
Definition install_yay : list string :=
  ["echo " +:+ dq "==> vee-install: stage=yay"; "# Build and install yay (AUR helper) as the gamer user inside the chroot.";
   "# yay is a small Go binary — build is fast and does not require a GPU.";
   "# GOPATH is set to a temp dir so the cache lands on the real disk, not tmpfs."; "arch-chroot /mnt su - " +:+ dq "$USER" +:+ " -c '";
   "  set -euo pipefail"; "  export GOPATH=/tmp/gopath"; "  mkdir -p /tmp/yay-build"; "  cd /tmp/yay-build";
   "  git clone https://aur.archlinux.org/yay.git ."; "  makepkg -si --noconfirm"; "'"; "rm -rf /mnt/tmp/yay-build /mnt/tmp/gopath"; ""].
Definition install_tuning : list string :=
  ["# Performance tuning"; "cat > /mnt/etc/security/limits.d/99-gaming.conf <<'EOF'"; "* soft nofile 524288"; "* hard nofile 524288";
   "* soft memlock unlimited"; "* hard memlock unlimited"; "* soft rtprio 99"; "* hard rtprio 99"; "* soft nice -11"; "* hard nice -11";
   "EOF"; ""; "cat > /mnt/etc/sysctl.d/99-gaming.conf <<'EOF'"; "vm.swappiness=10"; "kernel.split_lock_mitigate=0"; "vm.nr_hugepages=512";
   "net.core.rmem_max=26214400"; "net.core.wmem_max=26214400"; "EOF"; "";
   "# PipeWire: raise quantum to 1024 frames to absorb VM CPU scheduling jitter.";
   "# The default 256-frame quantum causes xruns when QEMU vCPU delivery is";
   "# delayed by host preemption — manifests as crackling in Sunshine streams."; "mkdir -p /mnt/etc/pipewire/pipewire.conf.d";
   "cat > /mnt/etc/pipewire/pipewire.conf.d/99-vm-quantum.conf <<'EOF'"; "context.properties = {";
   "    default.clock.rate          = 48000"; "    default.clock.quantum       = 1024"; "    default.clock.min-quantum   = 1024";
   "    default.clock.max-quantum   = 8192"; "}"; "EOF"; ""; "# WirePlumber: disable ALSA timer scheduling (tsched) and set a matching";
   "# headroom. tsched relies on the system clock staying smooth — inside a VM";
   "# the clock can stutter, causing the ALSA period to drift and produce xruns."; "mkdir -p /mnt/etc/wireplumber/wireplumber.conf.d";
   "cat > /mnt/etc/wireplumber/wireplumber.conf.d/99-vm-alsa.conf <<'EOF'"; "monitor.alsa.rules = ["; "    {";
   "        matches = [ { node.name = " +:+ dq "~alsa_*" +:+ " } ]"; "        actions = {"; "            update-props = {";
   "                api.alsa.period-size   = 1024"; "                api.alsa.headroom      = 8192";
   "                api.alsa.disable-tsched = true"; "            }"; "        }"; "    }"; "]"; "EOF"; "";
   "# GRUB kernel params. console=ttyS0,115200 is critical for vee: vee's boot";
   "# phase watcher tails serial.log to detect SSH-ready/multi-user. Without a";
   "# serial console on the installed kernel, the watcher idles past install and";
   "# vee start hangs until its 10-minute timeout even though SSH is up."; "mkdir -p /mnt/etc/default/grub.d";
   "cat > /mnt/etc/default/grub.d/99-gaming.cfg <<'EOF'";
   "GRUB_CMDLINE_LINUX_DEFAULT=" +:+ dq "$GRUB_CMDLINE_LINUX_DEFAULT console=tty0 console=ttyS0,115200 split_lock_detect=off video=DP-1:e video=HDMI-A-1:e";
   "EOF"; ""; "# SDDM autologin"; "mkdir -p /mnt/etc/sddm.conf.d"; "cat > /mnt/etc/sddm.conf.d/autologin.conf <<EOF"; "[Autologin]";
   "User=$USER"; "Session=plasma"; "EOF"; ""; "# journal-upload to vee host (gateway resolved at runtime)";
   "cat > /mnt/etc/systemd/journal-upload.conf <<'EOF'"; "[Upload]"; "URL=http://vee-host:19532"; "EOF"; ""].
Definition install_firstboot (hideVirtioRender : string) : list string :=
  ["# First-boot service to resolve vee-host and finish setup"; "cat > /mnt/etc/systemd/system/vee-firstboot.service <<'EOF'"; "[Unit]";
   "Description=vee first-boot finalisation"; "After=network-online.target"; "Wants=network-online.target";
   "ConditionPathExists=!/etc/vee-firstboot-done"; ""; "[Service]"; "Type=oneshot"; "RemainAfterExit=yes";
   "ExecStart=/bin/bash /etc/vee-firstboot.sh"; "ExecStartPost=/bin/touch /etc/vee-firstboot-done"; ""; "[Install]";
   "WantedBy=multi-user.target"; "EOF"; ""; "cat > /mnt/etc/vee-firstboot.sh <<'FBEOF'"; "#!/bin/bash"; "set -euo pipefail";
   "GW=$(ip route show default | awk '/default/{print $3; exit}')"; "if [ -n " +:+ dq "$GW" +:+ " ]; then";
   "  sed -i '/vee-host/d' /etc/hosts"; "  echo " +:+ dq "$GW vee-host" +:+ " >> /etc/hosts"; "fi";
   "systemctl enable --now systemd-journal-upload"; "sysctl --system"; ""; "VEEUSER=$(id -nu 1000 2>/dev/null || echo gamer)"; "";
   "echo " +:+ dq "==> vee-firstboot: stage=sunshine-install"; "# Install sunshine from AUR using yay (installed at image build time).";
   "sudo -u " +:+ dq "$VEEUSER" +:+ " yay -S --noconfirm --answerdiff None --answerclean None sunshine"; "";
   "echo " +:+ dq "==> vee-firstboot: stage=sunshine-config"; "SUNSHINE_CONF_DIR=" +:+ dq "/home/$VEEUSER/.config/sunshine";
   "mkdir -p " +:+ dq "$SUNSHINE_CONF_DIR"; ""; "# Sane defaults: KMS capture for amdgpu passthrough, VAAPI encoder on the";
   "# passthrough GPU render node (renderD129 — renderD128 is virtio-gpu).";
   "# Sunshine's web UI listens on port+1, so port=47990 → web UI on 47991.";
   "cat > " +:+ dq "$SUNSHINE_CONF_DIR/sunshine.conf" +:+ " <<'SEOF'"; "# Sunshine configuration — managed by vee"; "port = 47990";
   "capture = kms"; "encoder = vaapi"; "adapter_name = /dev/dri/renderD129"; "sunshine_name = vee-gaming"; "min_log_level = info"; "SEOF";
   ""; "# Force VAAPI to use the passthrough GPU render node, not virtio-gpu.";
   "mkdir -p " +:+ dq "/home/$VEEUSER/.config/systemd/user/sunshine.service.d";
   "cat > " +:+ dq "/home/$VEEUSER/.config/systemd/user/sunshine.service.d/vaapi-amd.conf" +:+ " <<'SEOF'"; "[Service]";
   "Environment=LIBVA_DRM_DEVICE=/dev/dri/renderD129"; "Environment=LIBVA_DRIVER_NAME=radeonsi"; "SEOF"; "";
   "# Hide the virtio-gpu *render* node from Vulkan (passthrough VMs only)."; "#";
   "# The passthrough VM carries a virtio-gpu-pci device alongside the VFIO GPU so";
   "# SPICE/KMS has a scanout surface. Since Mesa 26, RADV enumerates every DRM";
   "# render node during winsys init and routes each amdgpu device through the";
   "# virtio " +:+ dq "vdrm" +:+ " winsys when a virtio-gpu render node is present. On the VFIO";
   "# GPU that path fails (" +:+ dq "could not get caps: Function not implemented" +:+ " ->";
   "# vdrm_device_connect failed -> failed to initialize winsys), RADV aborts";
   "# entirely, and Vulkan silently falls back to llvmpipe — so Proton games run on"; "# the CPU. See docs/gpu-passthrough-gaming.md.";
   "#"; "# Making the virtio *render* node unreadable (mode 0000) stops RADV from";
   "# opening it, so RADV binds cleanly to the amdgpu node. The virtio *card* node";
   "# (scanout) is left untouched, so SPICE/KMS display and Sunshine KMS capture";
   "# keep working. Match by parent driver + render kernel name so the rule is";
   "# robust to non-deterministic renderD* / card* numbering."; "#";
   "# This is only correct when there IS another GPU to fall back to. On a";
   "# non-passthrough VM the virtio render node is the only one present, and";
   "# blanking it leaves guest Vulkan with no device at all (" +:+ (String dquote "Failed to detect any");
   "# valid GPUs" +:+ (String dquote "), which also kills the virgl/Venus path."); hideVirtioRender; "";
   "# PipeWire RT priority drop-ins — rtkit grants elevated scheduling but only";
   "# after PipeWire's direct setpriority() attempt fails. The drop-ins ensure";
   "# the unit has sufficient RLIMIT_NICE/RLIMIT_RTPRIO for rtkit to act on.";
   "mkdir -p " +:+ dq "/home/$VEEUSER/.config/systemd/user/pipewire.service.d";
   "cat > " +:+ dq "/home/$VEEUSER/.config/systemd/user/pipewire.service.d/99-limits.conf" +:+ " <<'SEOF'"; "[Service]"; "LimitNICE=-11";
   "LimitRTPRIO=99"; "LimitMEMLOCK=infinity"; "SEOF"; "mkdir -p " +:+ dq "/home/$VEEUSER/.config/systemd/user/wireplumber.service.d";
   "cp " +:+ dq "/home/$VEEUSER/.config/systemd/user/pipewire.service.d/99-limits.conf" +:+ " \";
   "   " +:+ dq "/home/$VEEUSER/.config/systemd/user/wireplumber.service.d/99-limits.conf"; "";
   "chown -R " +:+ dq "$VEEUSER:$VEEUSER" +:+ " " +:+ dq "$SUNSHINE_CONF_DIR" +:+ " " +:+ dq "/home/$VEEUSER/.config/systemd"; "";
   "echo " +:+ dq "==> vee-firstboot: stage=sunshine-enable"; "loginctl enable-linger " +:+ dq "$VEEUSER";
   "VEEUID=$(id -u " +:+ dq "$VEEUSER" +:+ ")"; "sudo -u " +:+ dq "$VEEUSER" +:+ " systemctl --user enable sunshine";
   "sudo -u " +:+ dq "$VEEUSER" +:+ " XDG_RUNTIME_DIR=" +:+ dq "/run/user/$VEEUID" +:+ " systemctl --user start sunshine || true"; "FBEOF"].
Definition install_services (kasmvncService nvidiaSetup : string) : list string :=
  ["chmod +x /mnt/etc/vee-firstboot.sh"; ""; kasmvncService; ""; "echo " +:+ dq "==> vee-install: stage=services";
   "arch-chroot /mnt systemctl enable NetworkManager sshd sddm qemu-guest-agent vee-firstboot rtkit-daemon";
   "arch-chroot /mnt systemctl --global enable pipewire pipewire-pulse wireplumber"; nvidiaSetup; ""].
Definition install_grub (kasmvncSetup : string) : list string :=
  ["echo " +:+ dq "==> vee-install: stage=grub";
   "arch-chroot /mnt grub-install --target=x86_64-efi --efi-directory=/boot/efi --bootloader-id=GRUB";
   "# Disable os-prober: it scans all block devices which hangs inside a VM";
   "# (IDE CDROMs, virtio disk) and is not needed — there is only one OS.";
   "echo " +:+ dq "GRUB_DISABLE_OS_PROBER=true" +:+ " >> /mnt/etc/default/grub"; "arch-chroot /mnt grub-mkconfig -o /boot/grub/grub.cfg";
   ""; "# Set GRUB as the only boot entry — delete PXE/misc entries so the VM";
   "# boots straight to GRUB on next start without waiting for PXE timeouts.";
   "# Run in a subshell with -eu disabled: efibootmgr may not surface EFI vars";
   "# inside the chroot on virtio VMs, so grub_num can be empty without error.";
   "# NOTE: heredoc avoids the quote-juggling that previously leaked $grub_num";
   "# into the outer (set -u) shell. Everything between BOOTORDER and BOOTORDER";
   "# is fed verbatim to the chrooted bash, which runs with -eu disabled."; "arch-chroot /mnt bash <<'BOOTORDER' || true"; "set +eu";
   "grub_num=$(efibootmgr 2>/dev/null | grep -i " +:+ dq "GRUB" +:+ " | grep -o " +:+ dq "Boot[0-9A-F]*" +:+ " | head -1 | grep -o " +:+ dq "[0-9A-F]*" +:+ " || true)";
   "if [ -n " +:+ dq "$grub_num" +:+ " ]; then"; "  efibootmgr --quiet --bootorder " +:+ dq "$grub_num" +:+ " || true";
   "  efibootmgr 2>/dev/null | grep " +:+ dq "^Boot[0-9A-F]*" +:+ " | grep -v " +:+ dq "Boot${grub_num}" +:+ " | grep -o " +:+ dq "Boot[0-9A-F]*" +:+ " | while read entry; do";
   "    num=" +:+ dq "${entry#Boot}"; "    efibootmgr --quiet --delete-bootnum --bootnum " +:+ dq "$num" +:+ " || true"; "  done"; "fi";
   "BOOTORDER"; ""; kasmvncSetup; ""].
Definition install_check : list string :=
  ["cat > /mnt/usr/local/bin/vee-check <<'CHECKEOF'"; "#!/bin/bash";
   "# Outputs {" +:+ dq "checks" +:+ ":[{" +:+ dq "name" +:+ ":" +:+ dq "..." +:+ "," +:+ dq "ok" +:+ ":true," +:+ dq "detail" +:+ ":" +:+ dq "..." +:+ "},...]}";
   "# Exit 0 always; callers inspect JSON for failures."; "set -euo pipefail"; ""; "checks=()"; ""; "svc_check() {"; "  local name=$1";
   "  local enabled active"; "  enabled=$(systemctl is-enabled " +:+ dq "$name" +:+ " 2>&1 || true)";
   "  active=$(systemctl is-active " +:+ dq "$name" +:+ " 2>&1 || true)";
   "  if [[ " +:+ dq "$enabled" +:+ " == " +:+ dq "enabled" +:+ " || " +:+ dq "$enabled" +:+ " == " +:+ dq "static" +:+ " ]] && [[ " +:+ dq "$active" +:+ " == " +:+ dq "active" +:+ " ]]; then";
   "    checks+=(" +:+ dq "{\" +:+ "name\" +:+ dq ":\" +:+ "svc:$name\" +:+ dq ",\" +:+ "ok\" +:+ dq ":true,\" +:+ "detail\" +:+ dq ":\" +:+ "enabled+active\" +:+ dq "}" +:+ ")";
   "  else";
   "    checks+=(" +:+ dq "{\" +:+ "name\" +:+ dq ":\" +:+ "svc:$name\" +:+ dq ",\" +:+ "ok\" +:+ dq ":false,\" +:+ "detail\" +:+ dq ":\" +:+ "enabled=$enabled active=$active\" +:+ dq "}" +:+ ")";
   "  fi"; "}"; ""; "# svc_enabled_check asserts the unit is enabled (persists across reboots) but";
   "# does not require it to be active right now. Used for display-manager services";
   "# that cannot start in headless/virtio mode but must still be present for real"; "# hardware boots."; "svc_enabled_check() {";
   "  local name=$1"; "  local enabled"; "  enabled=$(systemctl is-enabled " +:+ dq "$name" +:+ " 2>&1 || true)";
   "  if [[ " +:+ dq "$enabled" +:+ " == " +:+ dq "enabled" +:+ " || " +:+ dq "$enabled" +:+ " == " +:+ dq "static" +:+ " ]]; then";
   "    checks+=(" +:+ dq "{\" +:+ "name\" +:+ dq ":\" +:+ "svc-enabled:$name\" +:+ dq ",\" +:+ "ok\" +:+ dq ":true,\" +:+ "detail\" +:+ dq ":\" +:+ "enabled\" +:+ dq "}" +:+ ")";
   "  else";
   "    checks+=(" +:+ dq "{\" +:+ "name\" +:+ dq ":\" +:+ "svc-enabled:$name\" +:+ dq ",\" +:+ "ok\" +:+ dq ":false,\" +:+ "detail\" +:+ dq ":\" +:+ "enabled=$enabled\" +:+ dq "}" +:+ ")";
   "  fi"; "}"; ""; "# svc_oneshot_check passes if a oneshot ran to completion at least once.";
   "# A oneshot+RemainAfterExit unit gated by ConditionPathExists=!<marker> shows";
   "# active=active during the boot that ran it and active=inactive on every";
   "# subsequent boot (Condition suppresses the unit). Treat marker file presence"; "# AND ExecMainStatus=0 as success.";
   "svc_oneshot_check() {"; "  local name=$1 marker=$2"; "  local active result";
   "  active=$(systemctl is-active " +:+ dq "$name" +:+ " 2>&1 || true)";
   "  result=$(systemctl show " +:+ dq "$name" +:+ " -p ExecMainStatus --value 2>/dev/null || true)";
   "  if [[ " +:+ dq "$active" +:+ " == " +:+ dq "active" +:+ " ]]; then";
   "    checks+=(" +:+ dq "{\" +:+ "name\" +:+ dq ":\" +:+ "svc:$name\" +:+ dq ",\" +:+ "ok\" +:+ dq ":true,\" +:+ "detail\" +:+ dq ":\" +:+ "active (RemainAfterExit)\" +:+ dq "}" +:+ ")";
   "  elif [[ -e " +:+ dq "$marker" +:+ " && ( -z " +:+ dq "$result" +:+ " || " +:+ dq "$result" +:+ " == " +:+ dq "0" +:+ " ) ]]; then";
   "    checks+=(" +:+ dq "{\" +:+ "name\" +:+ dq ":\" +:+ "svc:$name\" +:+ dq ",\" +:+ "ok\" +:+ dq ":true,\" +:+ "detail\" +:+ dq ":\" +:+ "completed (marker=$marker exit=$result)\" +:+ dq "}" +:+ ")";
   "  else";
   "    checks+=(" +:+ dq "{\" +:+ "name\" +:+ dq ":\" +:+ "svc:$name\" +:+ dq ",\" +:+ "ok\" +:+ dq ":false,\" +:+ "detail\" +:+ dq ":\" +:+ "active=$active marker=$marker exit=$result\" +:+ dq "}" +:+ ")";
   "  fi"; "}"; ""; "pkg_check() {"; "  local name=$1"; "  local out"; "  out=$(pacman -Q " +:+ dq "$name" +:+ " 2>&1 || true)";
   "  if echo " +:+ dq "$out" +:+ " | grep -q " +:+ dq "^$name " +:+ "; then";
   "    checks+=(" +:+ dq "{\" +:+ "name\" +:+ dq ":\" +:+ "pkg:$name\" +:+ dq ",\" +:+ "ok\" +:+ dq ":true,\" +:+ "detail\" +:+ dq ":\" +:+ "$(echo " +:+ dq "$out" +:+ " | head -1)\" +:+ dq "}" +:+ ")";
   "  else";
   "    checks+=(" +:+ dq "{\" +:+ "name\" +:+ dq ":\" +:+ "pkg:$name\" +:+ dq ",\" +:+ "ok\" +:+ dq ":false,\" +:+ "detail\" +:+ dq ":\" +:+ "not installed\" +:+ dq "}" +:+ ")";
   "  fi"; "}"; ""; "file_check() {"; "  local name=$1 path=$2"; "  if [[ -e " +:+ dq "$path" +:+ " ]]; then";
   "    checks+=(" +:+ dq "{\" +:+ "name\" +:+ dq ":\" +:+ "file:$name\" +:+ dq ",\" +:+ "ok\" +:+ dq ":true,\" +:+ "detail\" +:+ dq ":\" +:+ "$path exists\" +:+ dq "}" +:+ ")";
   "  else";
   "    checks+=(" +:+ dq "{\" +:+ "name\" +:+ dq ":\" +:+ "file:$name\" +:+ dq ",\" +:+ "ok\" +:+ dq ":false,\" +:+ "detail\" +:+ dq ":\" +:+ "$path missing\" +:+ dq "}" +:+ ")";
   "  fi"; "}"; ""; "group_check() {"; "  local user=$1 group=$2";
   "  if id -nG " +:+ dq "$user" +:+ " 2>/dev/null | grep -qw " +:+ dq "$group" +:+ "; then";
   "    checks+=(" +:+ dq "{\" +:+ "name\" +:+ dq ":\" +:+ "group:$group\" +:+ dq ",\" +:+ "ok\" +:+ dq ":true,\" +:+ "detail\" +:+ dq ":\" +:+ "$user in $group\" +:+ dq "}" +:+ ")";
   "  else";
   "    checks+=(" +:+ dq "{\" +:+ "name\" +:+ dq ":\" +:+ "group:$group\" +:+ dq ",\" +:+ "ok\" +:+ dq ":false,\" +:+ "detail\" +:+ dq ":\" +:+ "$user not in $group\" +:+ dq "}" +:+ ")";
   "  fi"; "}"; ""; "# --- Point 1: self-integrity check -------------------------------------------";
   "# Verify this script matches the SHA256 written at install time. A broken";
   "# arch-chroot (wrong arch, missing deps) might still produce a file but with";
   "# truncated or garbage content; this catches that without trusting the installer.";
   "SELF_SHA=$(sha256sum /usr/local/bin/vee-check | awk '{print $1}')"; "EXPECTED_SHA=$(cat /etc/vee-check.sha256 2>/dev/null || true)";
   "if [[ -n " +:+ dq "$EXPECTED_SHA" +:+ " && " +:+ dq "$SELF_SHA" +:+ " == " +:+ dq "$EXPECTED_SHA" +:+ " ]]; then";
   "  checks+=(" +:+ dq "{\" +:+ "name\" +:+ dq ":\" +:+ "self-integrity\" +:+ dq ",\" +:+ "ok\" +:+ dq ":true,\" +:+ "detail\" +:+ dq ":\" +:+ "sha256 matches\" +:+ dq "}" +:+ ")";
   "elif [[ -z " +:+ dq "$EXPECTED_SHA" +:+ " ]]; then";
   "  checks+=(" +:+ dq "{\" +:+ "name\" +:+ dq ":\" +:+ "self-integrity\" +:+ dq ",\" +:+ "ok\" +:+ dq ":false,\" +:+ "detail\" +:+ dq ":\" +:+ "no reference checksum at /etc/vee-check.sha256\" +:+ dq "}" +:+ ")";
   "else";
   "  checks+=(" +:+ dq "{\" +:+ "name\" +:+ dq ":\" +:+ "self-integrity\" +:+ dq ",\" +:+ "ok\" +:+ dq ":false,\" +:+ "detail\" +:+ dq ":\" +:+ "sha256 mismatch: got $SELF_SHA want $EXPECTED_SHA\" +:+ dq "}" +:+ ")";
   "fi"; ""; "# --- Point 2: services -------------------------------------------------------";
   "# sddm: assert enabled (survives reboots) but do not require active — headless";
   "# virtio has no display so sddm will not activate on this boot."; "svc_check NetworkManager"; "svc_check sshd";
   "svc_enabled_check sddm"; "svc_check qemu-guest-agent";
   "# vee-firstboot is oneshot+RemainAfterExit gated by ConditionPathExists=!marker.";
   "# It is active only on the boot that ran it; subsequent boots skip via the";
   "# condition. Treat marker presence as a successful prior run."; "svc_oneshot_check vee-firstboot /etc/vee-firstboot-done"; "";
   "# --- Point 4: firstboot actually ran ----------------------------------------";
   "# The service writes this sentinel after ExecStart succeeds. Checking";
   "# is-active alone would pass if RemainAfterExit=yes is set but the script";
   "# never actually ran (e.g. ConditionPathExists suppressed it)."; "file_check firstboot-done /etc/vee-firstboot-done"; "";
   "# vee-firstboot.sh resolves the host gateway as vee-host; verify the entry";
   "# made it into /etc/hosts (proves the script body executed, not just the unit)."; "if grep -q 'vee-host' /etc/hosts 2>/dev/null; then";
   "  checks+=(" +:+ dq "{\" +:+ "name\" +:+ dq ":\" +:+ "firstboot-vee-host\" +:+ dq ",\" +:+ "ok\" +:+ dq ":true,\" +:+ "detail\" +:+ dq ":\" +:+ "vee-host in /etc/hosts\" +:+ dq "}" +:+ ")";
   "else";
   "  checks+=(" +:+ dq "{\" +:+ "name\" +:+ dq ":\" +:+ "firstboot-vee-host\" +:+ dq ",\" +:+ "ok\" +:+ dq ":false,\" +:+ "detail\" +:+ dq ":\" +:+ "vee-host missing from /etc/hosts\" +:+ dq "}" +:+ ")";
   "fi"; ""; "# User/group"; "group_check gamer wheel"; "group_check gamer gamemode"; ""; "# Packages"; "pkg_check steam";
   "pkg_check plasma-desktop"; "pkg_check pipewire"; "pkg_check wireplumber"; "pkg_check gamemode"; "pkg_check yay"; "pkg_check sunshine";
   ""; "# PipeWire VM audio tuning — verify config files are in place";
   "file_check pipewire-vm-quantum /etc/pipewire/pipewire.conf.d/99-vm-quantum.conf";
   "file_check wireplumber-vm-alsa /etc/wireplumber/wireplumber.conf.d/99-vm-alsa.conf"; "";
   "# Sunshine user service (runs under gamer user, enabled via linger)"; "VEEUSER=$(id -nu 1000 2>/dev/null || echo gamer)";
   "VEEUID=$(id -u " +:+ dq "$VEEUSER" +:+ " 2>/dev/null || echo 1000)";
   "sunshine_enabled=$(sudo -u " +:+ dq "$VEEUSER" +:+ " XDG_RUNTIME_DIR=" +:+ dq "/run/user/$VEEUID" +:+ " systemctl --user is-enabled sunshine 2>/dev/null || echo " +:+ dq "not-found" +:+ ")";
   "if [[ " +:+ dq "$sunshine_enabled" +:+ " == " +:+ dq "enabled" +:+ " ]]; then";
   "  checks+=(" +:+ dq "{\" +:+ "name\" +:+ dq ":\" +:+ "svc-user:sunshine\" +:+ dq ",\" +:+ "ok\" +:+ dq ":true,\" +:+ "detail\" +:+ dq ":\" +:+ "enabled\" +:+ dq "}" +:+ ")";
   "else";
   "  checks+=(" +:+ dq "{\" +:+ "name\" +:+ dq ":\" +:+ "svc-user:sunshine\" +:+ dq ",\" +:+ "ok\" +:+ dq ":false,\" +:+ "detail\" +:+ dq ":\" +:+ "enabled=$sunshine_enabled\" +:+ dq "}" +:+ ")";
   "fi"; "file_check sunshine-conf " +:+ dq "/home/$VEEUSER/.config/sunshine/sunshine.conf"; "";
   "# --- Point 3: GPU/SPICE validation ------------------------------------------";
   "# /dev/dri must exist — virtio-gpu creates at least renderD128 at boot.";
   "if [[ -d /dev/dri ]] && ls /dev/dri/renderD* /dev/dri/card* >/dev/null 2>&1; then"; "  dri_nodes=$(ls /dev/dri/ | tr '\n' ' ')";
   "  checks+=(" +:+ dq "{\" +:+ "name\" +:+ dq ":\" +:+ "gpu-dri-nodes\" +:+ dq ",\" +:+ "ok\" +:+ dq ":true,\" +:+ "detail\" +:+ dq ":\" +:+ "$dri_nodes\" +:+ dq "}" +:+ ")";
   "else";
   "  checks+=(" +:+ dq "{\" +:+ "name\" +:+ dq ":\" +:+ "gpu-dri-nodes\" +:+ dq ",\" +:+ "ok\" +:+ dq ":false,\" +:+ "detail\" +:+ dq ":\" +:+ "/dev/dri missing or empty\" +:+ dq "}" +:+ ")";
   "fi"; ""; "# Vulkan: verify radv can enumerate the amdgpu device.";
   "# Arch Mesa 26 ships with -D amdgpu-virtio=true which breaks Vulkan on VFIO";
   "# passthrough GPUs — radv routes init through vdrm_device_connect which fails";
   "# on non-virtio fds. The fix is to rebuild mesa with -D amdgpu-virtio=false.";
   "# Run as the user so DISPLAY/Wayland env isn't needed — we just check enumeration."; "vulkan_out=$(vulkaninfo --summary 2>&1 || true)";
   "if echo " +:+ dq "$vulkan_out" +:+ " | grep -q " +:+ dq "PHYSICAL_DEVICE_TYPE_DISCRETE_GPU" +:+ "; then";
   "  gpu_name=$(echo " +:+ dq "$vulkan_out" +:+ " | grep " +:+ dq "deviceName" +:+ " | head -1 | awk -F'= ' '{print $2}' | xargs)";
   "  checks+=(" +:+ dq "{\" +:+ "name\" +:+ dq ":\" +:+ "vulkan-radv\" +:+ dq ",\" +:+ "ok\" +:+ dq ":true,\" +:+ "detail\" +:+ dq ":\" +:+ "$gpu_name\" +:+ dq "}" +:+ ")";
   "elif echo " +:+ dq "$vulkan_out" +:+ " | grep -q " +:+ dq "vdrm_device_connect failed" +:+ "; then";
   "  checks+=(" +:+ dq "{\" +:+ "name\" +:+ dq ":\" +:+ "vulkan-radv\" +:+ dq ",\" +:+ "ok\" +:+ dq ":false,\" +:+ "detail\" +:+ dq ":\" +:+ "amdgpu-virtio Mesa bug — rebuild mesa with -D amdgpu-virtio=false (see docs/gpu-passthrough-gaming.md)\" +:+ dq "}" +:+ ")";
   "else";
   "  checks+=(" +:+ dq "{\" +:+ "name\" +:+ dq ":\" +:+ "vulkan-radv\" +:+ dq ",\" +:+ "ok\" +:+ dq ":false,\" +:+ "detail\" +:+ dq ":\" +:+ "no discrete GPU in Vulkan enumeration\" +:+ dq "}" +:+ ")";
   "fi"; ""; "# SPICE vdagent: the virtio-serial port must be present as a chardev.";
   "# The kernel exposes it as /dev/virtio-ports/com.redhat.spice.0 (symlink to";
   "# the vportNpM device). Its presence proves QEMU wired up the SPICE vdagent";
   "# chardev and the guest kernel loaded the virtio-serial driver."; "if [[ -e /dev/virtio-ports/com.redhat.spice.0 ]]; then";
   "  checks+=(" +:+ dq "{\" +:+ "name\" +:+ dq ":\" +:+ "spice-vdagent-chardev\" +:+ dq ",\" +:+ "ok\" +:+ dq ":true,\" +:+ "detail\" +:+ dq ":\" +:+ "/dev/virtio-ports/com.redhat.spice.0 present\" +:+ dq "}" +:+ ")";
   "else";
   "  checks+=(" +:+ dq "{\" +:+ "name\" +:+ dq ":\" +:+ "spice-vdagent-chardev\" +:+ dq ",\" +:+ "ok\" +:+ dq ":false,\" +:+ "detail\" +:+ dq ":\" +:+ "/dev/virtio-ports/com.redhat.spice.0 missing\" +:+ dq "}" +:+ ")";
   "fi"; ""; "# Config files"; "file_check sddm-autologin /etc/sddm.conf.d/autologin.conf"; ""; "# multilib in pacman.conf";
   "if grep -q '\[multilib\]' /etc/pacman.conf 2>/dev/null; then";
   "  checks+=(" +:+ dq "{\" +:+ "name\" +:+ dq ":\" +:+ "multilib\" +:+ dq ",\" +:+ "ok\" +:+ dq ":true,\" +:+ "detail\" +:+ dq ":\" +:+ "pacman.conf has [multilib]\" +:+ dq "}" +:+ ")";
   "else";
   "  checks+=(" +:+ dq "{\" +:+ "name\" +:+ dq ":\" +:+ "multilib\" +:+ dq ",\" +:+ "ok\" +:+ dq ":false,\" +:+ "detail\" +:+ dq ":\" +:+ "[multilib] missing from pacman.conf\" +:+ dq "}" +:+ ")";
   "fi"; ""; "# sudo nopasswd"; "if sudo -n true 2>/dev/null; then";
   "  checks+=(" +:+ dq "{\" +:+ "name\" +:+ dq ":\" +:+ "sudo-nopasswd\" +:+ dq ",\" +:+ "ok\" +:+ dq ":true,\" +:+ "detail\" +:+ dq ":\" +:+ "ok\" +:+ dq "}" +:+ ")";
   "else";
   "  checks+=(" +:+ dq "{\" +:+ "name\" +:+ dq ":\" +:+ "sudo-nopasswd\" +:+ dq ",\" +:+ "ok\" +:+ dq ":false,\" +:+ "detail\" +:+ dq ":\" +:+ "sudo -n true failed\" +:+ dq "}" +:+ ")";
   "fi"; ""; "# fstab >= 2 real entries"; "fstab_lines=$(grep -vc '^\s*#\|^\s*$' /etc/fstab 2>/dev/null || echo 0)";
   "if [[ " +:+ dq "$fstab_lines" +:+ " -ge 2 ]]; then";
   "  checks+=(" +:+ dq "{\" +:+ "name\" +:+ dq ":\" +:+ "fstab\" +:+ dq ",\" +:+ "ok\" +:+ dq ":true,\" +:+ "detail\" +:+ dq ":\" +:+ "$fstab_lines entries\" +:+ dq "}" +:+ ")";
   "else";
   "  checks+=(" +:+ dq "{\" +:+ "name\" +:+ dq ":\" +:+ "fstab\" +:+ dq ",\" +:+ "ok\" +:+ dq ":false,\" +:+ "detail\" +:+ dq ":\" +:+ "only $fstab_lines entries\" +:+ dq "}" +:+ ")";
   "fi"; ""; "joined=$(IFS=,; echo " +:+ dq "${checks[*]}" +:+ ")"; "printf '{" +:+ dq "checks" +:+ ":[%s]}\n' " +:+ dq "$joined";
   "CHECKEOF"].
Definition install_end : list string :=
  ["chmod 0755 /mnt/usr/local/bin/vee-check"; ""; "# Point 1: write the reference checksum so vee-check can verify itself.";
   "# The chroot is still mounted; compute against the mounted path.";
   "sha256sum /mnt/usr/local/bin/vee-check | awk '{print $1}' > /mnt/etc/vee-check.sha256"; "";
   "echo " +:+ dq "==> vee-install: stage=cleanup"; "umount -R /mnt"; "echo " +:+ dq "==> vee-install: stage=done"; "poweroff"].

Definition hide_virtio_render : string :=
  Join (String newline "")
    ["mkdir -p /mnt/etc/udev/rules.d"; "cat > /mnt/etc/udev/rules.d/90-vee-hide-virtio-render.rules <<'UEOF'";
     "# Managed by vee — hide virtio-gpu render node from Vulkan/RADV so the VFIO GPU";
     "# is selected. Keeps the virtio card (scanout) node available for SPICE.";
     "SUBSYSTEM==" +:+ dq "drm" +:+ ", KERNEL==" +:+ dq "renderD*" +:+ ", DRIVERS==" +:+ dq "virtio-pci" +:+ ", MODE=" +:+ dq "0000";
     "UEOF"].
Definition use_virtio_render : string :=
  Join (String newline "")
    ["mkdir -p /mnt/etc/udev/rules.d"; "cat > /mnt/etc/udev/rules.d/90-vee-virtio-render.rules <<'UEOF'";
     "# Managed by vee — virtio-gpu is the only GPU here; keep its render node usable.";
     "SUBSYSTEM==" +:+ dq "drm" +:+ ", KERNEL==" +:+ dq "renderD*" +:+ ", DRIVERS==" +:+ dq "virtio-pci" +:+ ", MODE=" +:+ dq "0660" +:+ ", GROUP=" +:+ dq "render";
     "UEOF"; "mkdir -p /mnt/etc/environment.d"; "cat > /mnt/etc/environment.d/99-vee-venus-icd.conf <<'UEOF'";
     "# Managed by vee — select the virtio (Venus) Vulkan ICD. RADV would otherwise";
     "# claim the virtio render node and fail in vdrm_device_connect."; "VK_DRIVER_FILES=/usr/share/vulkan/icd.d/virtio_icd.json"; "UEOF";
     "cat > /mnt/etc/environment.d/98-vee-kwin-udmabuf.conf <<'UEOF'";
     "# Managed by vee — keep kwin from importing client wl_shm buffers through";
     "# udmabuf. On virtio-gpu those imports become guest-memory blob resources that";
     "# the host virgl renderer cannot type; the first texture sampled from one is a";
     "# fatal " +:+ dq "Illegal resource" +:+ " context error and kwin stops rendering for good.";
     "# Triggered by any shm cursor image or software-rendered window (Steam,";
     "# Chromium, glxgears under Xwayland). Not needed on a passthrough GPU."; "KWIN_DISABLE_UDMABUF_IMPORT=1"; "UEOF"].

Definition radeon_packages : string :=
  "mesa lib32-mesa vulkan-radeon lib32-vulkan-radeon vulkan-icd-loader lib32-vulkan-icd-loader vulkan-tools".
Definition gpu_packages (opts : GamingOptions) : string :=
  if bool_decide (go_GPUVendor opts = GPUVendorNvidia)
  then "nvidia nvidia-utils lib32-nvidia-utils vulkan-icd-loader lib32-vulkan-icd-loader vulkan-tools"
  else radeon_packages +:+ (if go_Passthrough opts then "" else " vulkan-virtio lib32-vulkan-mesa-layers").

Definition install_script (user password : string) (sshKeys : list string) (hostname : string) (opts : GamingOptions) : string :=
  Join (String newline "")
    (install_start user password ++ install_partition ++ install_mirrors ++ install_base (gpu_packages opts) ++
     install_locale hostname ++ install_users sshKeys ++ install_yay ++ install_tuning ++
     install_firstboot (if go_Passthrough opts then hide_virtio_render else use_virtio_render) ++
     install_services "" (if bool_decide (go_GPUVendor opts = GPUVendorNvidia)
                          then "arch-chroot /mnt systemctl enable nvidia-persistenced" else "") ++
     install_grub "" ++ install_check ++ install_end).

Definition archGamingSetup (user password : string) (sshKeys : list string) (hostname : string) (opts : GamingOptions)
  : list CloudInitWriteFile * list string :=
  ([plain_file "/install.sh" (install_script user password sshKeys hostname opts) "0755"], ["bash /install.sh"]).

(** ** The configurations *)
Definition gamingGPUConfig (opts : GamingOptions) : GPUConfig := (gpu GPUVirtio) <| g_Pointer := "mouse" |>.
Definition gaming_gpu (opts : GamingOptions) : GPUConfig :=
  if go_Passthrough opts then vfio_gpu (go_PCIAddr opts) else gamingGPUConfig opts.
Definition gaming_nic (mode : string) (opts : GamingOptions) : NICConfig :=
  mkNICConfig mode (or_default (go_Bridge opts) "br0") "virtio-net-pci" (go_MAC opts) [].
Definition gaming_rtc : string := "base=localtime,clock=host".

Section Gaming.
Context (env : FetchEnv) (host : Host) (conf : ProviderConfig) (now : Z).

Definition NewGamingArchConfig (name : string) (sshKeys : list string) (opts : GamingOptions) : ImgM VMConfig :=
  let opts := opts <| go_GPUVendor := or_default (go_GPUVendor opts) GPUVendorAMD |> in
  guestArch ← lift_result (guestArchFor host DistroArch (go_Emulate opts));
  image ← fetch_image env host conf "gaming-arch" DistroArch "latest";
  let user := or_default (go_User opts) "gamer" in
  let '(writeFiles, runCmds) := archGamingSetup user (or_default (go_Password opts) user) sshKeys name opts in
  let nicMode := or_default (go_NICMode opts) "bridge" in
  let sshPort := if bool_decide (nicMode = "user") && (go_SSHPort opts =? 0) then deterministicSSHPort name else go_SSHPort opts in
  mret ((guest conf now name "gaming-arch" guestArch "16G" 8 8 1 (gaming_nic nicMode opts) GPUVirtio true
           [fresh_disk conf name "80G" "virtio" "writeback"; install_iso image "" "ide" "none"])
          <| c_GPU := gaming_gpu opts |> <| c_Headless := go_Headless opts |> <| c_SSHPort := sshPort |>
          <| c_CloudInit := Some (mkCloudInitConfig name user "" "" sshKeys [] runCmds writeFiles) |>
          <| c_SSHUser := user |> <| c_RTC := gaming_rtc |> <| c_GuestAgent := true |> <| c_SPICE := Some spice_auto |>
          <| c_Services := [spice_service; mkServiceEntry "sunshine" 47991 ServiceHTTPS] |>
          <| c_VGA := if go_Passthrough opts then "none" else "" |>
          <| c_ExtraDevices := if go_Passthrough opts then second_display else [] |>
          <| c_VirtiofsMounts := games_share (go_VirtiofsMountDir opts) (go_VirtiofsReadonly opts) |>).

Definition NewGamingBazziteConfig (name : string) (opts : GamingOptions) : ImgM VMConfig :=
  guestArch ← lift_result (guestArchFor host DistroBazzite (go_Emulate opts));
  image ← fetch_image env host conf "gaming-bazzite" DistroBazzite "latest";
  mret ((guest conf now name "gaming-bazzite" guestArch "16G" 8 8 1 (gaming_nic "bridge" opts) GPUVirtio true
           [fresh_disk conf name "80G" "virtio" "writeback"; install_iso image "raw" "ide" ""])
          <| c_GPU := gaming_gpu opts |> <| c_RTC := gaming_rtc |> <| c_GuestAgent := true |>
          <| c_VGA := if go_Passthrough opts then "none" else "" |>
          <| c_ExtraDevices := if go_Passthrough opts then second_display else [] |>
          <| c_SPICE := if go_Passthrough opts then Some spice_auto else None |>
          <| c_Services := if go_Passthrough opts then [spice_service] else [] |>
          <| c_VirtiofsMounts := games_share (go_VirtiofsMountDir opts) (go_VirtiofsReadonly opts) |>).
End Gaming.

Module GamingExample.
Import PhaseWatcher.
Definition passthrough : GamingOptions :=
  mkGamingOptions "" false GPUVendorAMD true "0000:03:00.0" "" "" "" false 0 "" "" false.
Definition script (user password : string) : list string :=
  Split newline (install_script user password ["ssh-ed25519 AAAA vee"] "box" passthrough).

(** The lines of the here-document that ends with [marker]. *)
Fixpoint until (marker : string) (ls : list string) : list string :=
  match ls with
  | [] => []
  | l :: ls' => if bool_decide (l = marker) then [] else l :: until marker ls'
  end.
Fixpoint heredoc (marker : string) (ls : list string) : list string :=
  match ls with
  | [] => []
  | l :: ls' => if HasSuffix l ("<<'" +:+ marker +:+ "'") then until marker ls' else heredoc marker ls'
  end.

(** The rule that hides the virtio render node is written by the script of the
    installed system's first boot, below the installer's mount point. *)
Theorem virtio_rule_misplaced :
  existsb (λ l, HasPrefix l "cat > /mnt/etc/udev/rules.d/") (heredoc "FBEOF" (script "gamer" "gamer")) = true.
Proof. vm_compute. reflexivity. Qed.

(** The password is put into the script as it is: what follows a space is a
    command. *)
Theorem password_unquoted : "PASSWORD=correct horse" ∈ script "gamer" "correct horse".
Proof. apply (bool_decide_unpack _). vm_compute. exact I. Qed.

(** The script is traced, so each stage is announced twice, once with a label
    that is not one. *)
Theorem traced_stage_unlabelled :
  "set -euxo pipefail" ∈ script "gamer" "gamer" ∧ "echo " +:+ dq "==> vee-install: stage=partition" ∈ script "gamer" "gamer" ∧
  (classify "==> vee-install: stage=partition").2 = "partitioning disk" ∧
  (classify "+ echo '==> vee-install: stage=partition'").2 = "partition'".
Proof. split_and!; [apply (bool_decide_unpack _); vm_compute; exact I..|vm_compute; reflexivity|vm_compute; reflexivity]. Qed.
End GamingExample.
