(* ===== verification/Windows.v ===== *)
(** * Windows VMs (internal/templates: windows, windows_unattend, windows_media,
    windows_helios)

    The unattended installation: the answer file, the script of the first logon,
    the extra ISO that carries them, the media without a boot prompt, and the
    configurations for x86_64, for arm64 and for Helios guests.

    The tools that are run (wine, udisksctl, a container) and the file system
    outside the image cache are the [WinEnv]. *)
From S2P Require Import Prelude GoStrings Config World Guest Sha1 Images Media Vpn KillSwitch Qemu Storage Build Templates.

Open Scope Z_scope.

(** ** Text *)

(** [strings.NewReplacer]: at each place the first pattern that matches is
    replaced; what is put in is not looked at again. *)
Fixpoint replace_from (pairs : list (string * string)) (skip : nat) (s : string) : string :=
  match s with
  | "" => ""
  | String c s' =>
      match skip with
      | S k => replace_from pairs k s'
      | O =>
          match find (λ p, HasPrefix s p.1) pairs with
          | Some (old, new) => new +:+ replace_from pairs (String.length old - 1) s'
          | None => String c (replace_from pairs 0 s')
          end
      end
  end.
Definition Replacer (pairs : list (string * string)) (s : string) : string := replace_from pairs 0 s.
(** [strings.Replace(s, old, new, 1)] *)
Fixpoint replace_once (old new s : string) : string :=
  if HasPrefix s old then new +:+ sdrop (String.length old) s else
  match s with "" => "" | String c s' => String c (replace_once old new s') end.

(** [filepath.Ext] *)
Definition Ext (p : string) : string := default "" (last_from (default "" (last (Split "/" p))) ".").

Definition virtioWinURL : string :=
  "https://fedorapeople.org/groups/virt/virtio-win/direct-downloads/archive-virtio/virtio-win-0.1.285-1/virtio-win-0.1.285.iso".
Definition virtioWinISO : string := "virtio-win-0.1.285.iso".
Definition winfspURL : string := "https://github.com/winfsp/winfsp/releases/download/v2.0/winfsp-2.0.23075.msi".
Definition winfspMSI : string := "winfsp-2.0.23075.msi".
Definition winUnattendVolID : string := "WIN_UNATTEND".
Definition winAdminUser : string := "vee".
Definition winAdminPass : string := "vee".

Definition virtioWinDriverDir (v : string) : option string :=
  if bool_decide (v = Windows11) then Some "w11" else if bool_decide (v = Windows10) then Some "w10"
  else if bool_decide (v = WindowsServer2025) then Some "2k25" else if bool_decide (v = WindowsServer2022) then Some "2k22" else None.
Definition winProductKey (v : string) : option string :=
  if bool_decide (v = Windows10) || bool_decide (v = Windows11) then Some "YTMG3-N6DKC-DKB77-7M9GH-8HVX7"
  else if bool_decide (v = WindowsServer2025) then Some "TX9XD-98N7V-6WMQ6-BX7FG-H8Q99"
  else if bool_decide (v = WindowsServer2022) then Some "VDYBN-27WPP-V4HQT-9VMD4-VMK7H" else None.
Definition windowsUnattendArch (arch : string) : string * string :=
  if bool_decide (arch = "arm64") then ("arm64", "ARM64") else ("amd64", "amd64").

(** ** The answer file *)
Definition unattend_template : string :=
  unlines
    ["<?xml version=" +:+ dq "1.0" +:+ " encoding=" +:+ dq "utf-8" +:+ "?>";
     "<unattend xmlns=" +:+ dq "urn:schemas-microsoft-com:unattend" +:+ " xmlns:wcm=" +:+ dq "http://schemas.microsoft.com/WMIConfig/2002/State" +:+ " xmlns:xsi=" +:+ dq "http://www.w3.org/2001/XMLSchema-instance" +:+ ">";
     "  <settings pass=" +:+ dq "windowsPE" +:+ ">";
     "    <!-- Locale for WinPE so Setup does not stop on the language/keyboard page. -->";
     "    <component name=" +:+ dq "Microsoft-Windows-International-Core-WinPE" +:+ " processorArchitecture=" +:+ dq "{{ARCH}}";
     "               publicKeyToken=" +:+ dq "31bf3856ad364e35" +:+ " language=" +:+ dq "neutral" +:+ " versionScope=" +:+ dq "nonSxS" +:+ ">";
     "      <SetupUILanguage>"; "        <UILanguage>en-US</UILanguage>"; "      </SetupUILanguage>";
     "      <InputLocale>0409:00000409</InputLocale>"; "      <SystemLocale>en-US</SystemLocale>";
     "      <UILanguage>en-US</UILanguage>"; "      <UserLocale>en-US</UserLocale>"; "    </component>"; "    <!--";
     "      NOTE: Windows 11 24H2's ConX Setup (setuphost/setupprep) FAILS the old";
     "      unattend driver-injection path. A <Microsoft-Windows-PnpCustomizationsWinPE>";
     "      <DriverPaths> block here locates the (correctly signed) viostor.inf but the";
     "      ExecuteUnattendDriverInstall action dies with 0x80070103 (ERROR_NO_MORE_ITEMS,";
     "      reported as 0x80070103-0x40031 in the Setup UI) in the down-level phase,";
     "      before any image is applied. This is a Microsoft-acknowledged 24H2 regression.";
     "      So no DriverPaths here. Instead: startnet.cmd drvloads viostor in WinPE so";
     "      Setup can see the virtio system disk during apply (see";
     "      internal/images/windows.go), and the offlineServicing pass below injects";
     "      viostor + NetKVM into the applied OS image so the installed OS boots from"; "      the virtio disk."; "    -->";
     "    <component name=" +:+ dq "Microsoft-Windows-Setup" +:+ " processorArchitecture=" +:+ dq "{{ARCH}}";
     "               publicKeyToken=" +:+ dq "31bf3856ad364e35" +:+ " language=" +:+ dq "neutral" +:+ " versionScope=" +:+ dq "nonSxS" +:+ ">";
     "      <RunSynchronous>"; "        <!-- Bypass Windows 11 hardware checks (Secure Boot keys are not";
     "             enrolled in the OVMF vars this VM boots with; TPM 2.0 is real).";
     "             Harmless on Windows 10. cmd /c so WinPE resolves the executable. -->";
     "        <RunSynchronousCommand wcm:action=" +:+ dq "add" +:+ ">"; "          <Order>1</Order>";
     "          <Path>cmd /c reg add HKLM\SYSTEM\Setup\LabConfig /v BypassTPMCheck /t REG_DWORD /d 1 /f</Path>";
     "        </RunSynchronousCommand>"; "        <RunSynchronousCommand wcm:action=" +:+ dq "add" +:+ ">";
     "          <Order>2</Order>";
     "          <Path>cmd /c reg add HKLM\SYSTEM\Setup\LabConfig /v BypassSecureBootCheck /t REG_DWORD /d 1 /f</Path>";
     "        </RunSynchronousCommand>"; "        <RunSynchronousCommand wcm:action=" +:+ dq "add" +:+ ">";
     "          <Order>3</Order>";
     "          <Path>cmd /c reg add HKLM\SYSTEM\Setup\LabConfig /v BypassRAMCheck /t REG_DWORD /d 1 /f</Path>";
     "        </RunSynchronousCommand>"; "        <RunSynchronousCommand wcm:action=" +:+ dq "add" +:+ ">";
     "          <Order>4</Order>";
     "          <Path>cmd /c reg add HKLM\SYSTEM\Setup\LabConfig /v BypassCPUCheck /t REG_DWORD /d 1 /f</Path>";
     "        </RunSynchronousCommand>"; "      </RunSynchronous>"; "      <DiskConfiguration>";
     "        <Disk wcm:action=" +:+ dq "add" +:+ ">"; "          <DiskID>0</DiskID>"; "          <WillWipeDisk>true</WillWipeDisk>";
     "          <CreatePartitions>"; "            <CreatePartition wcm:action=" +:+ dq "add" +:+ ">";
     "              <Order>1</Order>"; "              <Type>EFI</Type>"; "              <Size>260</Size>";
     "            </CreatePartition>"; "            <CreatePartition wcm:action=" +:+ dq "add" +:+ ">";
     "              <Order>2</Order>"; "              <Type>MSR</Type>"; "              <Size>16</Size>";
     "            </CreatePartition>"; "            <CreatePartition wcm:action=" +:+ dq "add" +:+ ">";
     "              <Order>3</Order>"; "              <Type>Primary</Type>"; "              <Extend>true</Extend>";
     "            </CreatePartition>"; "          </CreatePartitions>"; "          <ModifyPartitions>";
     "            <ModifyPartition wcm:action=" +:+ dq "add" +:+ ">"; "              <Order>1</Order>";
     "              <PartitionID>1</PartitionID>"; "              <Label>System</Label>"; "              <Format>FAT32</Format>";
     "            </ModifyPartition>"; "            <ModifyPartition wcm:action=" +:+ dq "add" +:+ ">";
     "              <Order>2</Order>"; "              <PartitionID>3</PartitionID>"; "              <Label>Windows</Label>";
     "              <Letter>C</Letter>"; "              <Format>NTFS</Format>"; "            </ModifyPartition>";
     "          </ModifyPartitions>"; "        </Disk>"; "      </DiskConfiguration>"; "      <ImageInstall>"; "        <OSImage>";
     "          <InstallTo>"; "            <DiskID>0</DiskID>"; "            <PartitionID>3</PartitionID>"; "          </InstallTo>";
     "          <InstallFrom>"; "            <MetaData wcm:action=" +:+ dq "add" +:+ ">"; "              <Key>/IMAGE/INDEX</Key>";
     "              <Value>{{IMAGEINDEX}}</Value>"; "            </MetaData>"; "          </InstallFrom>"; "        </OSImage>";
     "      </ImageInstall>"; "      <UserData>"; "        <ProductKey>"; "          <Key>{{PRODUCTKEY}}</Key>";
     "          <WillShowUI>OnError</WillShowUI>"; "        </ProductKey>"; "        <AcceptEula>true</AcceptEula>";
     "      </UserData>"; "    </component>"; "  </settings>"; ""; "  <settings pass=" +:+ dq "offlineServicing" +:+ ">"; "    <!--";
     "      Inject viostor (virtio-blk) + NetKVM into the APPLIED offline OS image via";
     "      DISM. This is the offlineServicing PnpCustomizationsNonWinPE mechanism —";
     "      distinct from the windowsPE PnpCustomizationsWinPE <DriverPaths> that 24H2";
     "      ConX Setup breaks (0x80070103). It runs against the on-disk image after it";
     "      is applied, so the installed OS boots from the virtio system disk without";
     "      the failing down-level unattend driver step. Paths scan both driver-CD";
     "      letters (D:/E:) since the assignment is not fixed."; "    -->";
     "    <component name=" +:+ dq "Microsoft-Windows-PnpCustomizationsNonWinPE" +:+ " processorArchitecture=" +:+ dq "{{ARCH}}";
     "               publicKeyToken=" +:+ dq "31bf3856ad364e35" +:+ " language=" +:+ dq "neutral" +:+ " versionScope=" +:+ dq "nonSxS" +:+ ">";
     "      <DriverPaths>"; "        <PathAndCredentials wcm:action=" +:+ dq "add" +:+ " wcm:keyValue=" +:+ dq "1" +:+ ">";
     "          <Path>D:\viostor\{{DRIVERDIR}}\{{DRIVERARCH}}</Path>"; "        </PathAndCredentials>";
     "        <PathAndCredentials wcm:action=" +:+ dq "add" +:+ " wcm:keyValue=" +:+ dq "2" +:+ ">";
     "          <Path>E:\viostor\{{DRIVERDIR}}\{{DRIVERARCH}}</Path>"; "        </PathAndCredentials>";
     "        <PathAndCredentials wcm:action=" +:+ dq "add" +:+ " wcm:keyValue=" +:+ dq "3" +:+ ">";
     "          <Path>D:\NetKVM\{{DRIVERDIR}}\{{DRIVERARCH}}</Path>"; "        </PathAndCredentials>";
     "        <PathAndCredentials wcm:action=" +:+ dq "add" +:+ " wcm:keyValue=" +:+ dq "4" +:+ ">";
     "          <Path>E:\NetKVM\{{DRIVERDIR}}\{{DRIVERARCH}}</Path>"; "        </PathAndCredentials>"; "      </DriverPaths>";
     "    </component>"; "  </settings>"; ""; "  <settings pass=" +:+ dq "specialize" +:+ ">";
     "    <component name=" +:+ dq "Microsoft-Windows-Shell-Setup" +:+ " processorArchitecture=" +:+ dq "{{ARCH}}";
     "               publicKeyToken=" +:+ dq "31bf3856ad364e35" +:+ " language=" +:+ dq "neutral" +:+ " versionScope=" +:+ dq "nonSxS" +:+ ">";
     "      <ComputerName>VEE-WIN</ComputerName>"; "    </component>"; "  </settings>"; "";
     "  <settings pass=" +:+ dq "oobeSystem" +:+ ">"; "    <!-- Locale for OOBE so the region/keyboard pages auto-skip. -->";
     "    <component name=" +:+ dq "Microsoft-Windows-International-Core" +:+ " processorArchitecture=" +:+ dq "{{ARCH}}";
     "               publicKeyToken=" +:+ dq "31bf3856ad364e35" +:+ " language=" +:+ dq "neutral" +:+ " versionScope=" +:+ dq "nonSxS" +:+ ">";
     "      <InputLocale>0409:00000409</InputLocale>"; "      <SystemLocale>en-US</SystemLocale>";
     "      <UILanguage>en-US</UILanguage>"; "      <UserLocale>en-US</UserLocale>"; "    </component>";
     "    <component name=" +:+ dq "Microsoft-Windows-Shell-Setup" +:+ " processorArchitecture=" +:+ dq "{{ARCH}}";
     "               publicKeyToken=" +:+ dq "31bf3856ad364e35" +:+ " language=" +:+ dq "neutral" +:+ " versionScope=" +:+ dq "nonSxS" +:+ ">";
     "      <OOBE>"; "        <HideEULAPage>true</HideEULAPage>"; "        <HideLocalAccountScreen>true</HideLocalAccountScreen>";
     "        <HideOnlineAccountScreens>true</HideOnlineAccountScreens>";
     "        <HideWirelessSetupInOOBE>true</HideWirelessSetupInOOBE>"; "        <ProtectYourPC>3</ProtectYourPC>";
     "        <SkipMachineOOBE>true</SkipMachineOOBE>"; "        <SkipUserOOBE>true</SkipUserOOBE>"; "      </OOBE>";
     "      <UserAccounts>"; "        <LocalAccounts>"; "          <LocalAccount wcm:action=" +:+ dq "add" +:+ ">";
     "            <Name>{{USER}}</Name>"; "            <Group>Administrators</Group>"; "            <Password>";
     "              <Value>{{PASS}}</Value>"; "              <PlainText>true</PlainText>"; "            </Password>";
     "          </LocalAccount>"; "        </LocalAccounts>"; "      </UserAccounts>"; "      <AutoLogon>";
     "        <Enabled>true</Enabled>"; "        <Username>{{USER}}</Username>"; "        <Password>";
     "          <Value>{{PASS}}</Value>"; "          <PlainText>true</PlainText>"; "        </Password>";
     "        <LogonCount>1</LogonCount>"; "      </AutoLogon>"; "      <FirstLogonCommands>";
     "        <SynchronousCommand wcm:action=" +:+ dq "add" +:+ ">"; "          <Order>1</Order>";
     "          <CommandLine>powershell -NoProfile -ExecutionPolicy Bypass -Command " +:+ dq "$d=(Get-Volume -FileSystemLabel '{{VOLID}}').DriveLetter; Start-Process powershell -ArgumentList '-NoProfile','-ExecutionPolicy','Bypass','-File',(\" +:+ "$($d):\setup-guest.ps1\" +:+ dq ") -Wait" +:+ "</CommandLine>";
     "          <Description>Run the vee guest setup script</Description>"; "        </SynchronousCommand>";
     "      </FirstLogonCommands>"; "    </component>"; "  </settings>"; "</unattend>"].

(** The virtiofs tag does not occur in the answer file. *)
Definition autounattendXML (version arch driverDir : string) : string :=
  let productKey := default (default "" (winProductKey Windows10)) (winProductKey version) in
  let '(procArch, driverLeaf) := windowsUnattendArch arch in
  Replacer [("{{ARCH}}", procArch); ("{{DRIVERARCH}}", driverLeaf); ("{{DRIVERDIR}}", driverDir); ("{{USER}}", winAdminUser);
            ("{{PASS}}", winAdminPass); ("{{VOLID}}", winUnattendVolID); ("{{IMAGEINDEX}}", "1"); ("{{PRODUCTKEY}}", productKey)]
    unattend_template.

(** ** The scripts of the first logon *)
(** A single-quoted PowerShell string. *)
Definition ps_quote (k : string) : string :=
  String quote (concat_map (λ c, if bool_decide (c = quote) then String quote (String quote "") else String c "") k +:+ String quote "").
Definition windowsAuthorizedKeysPS1 (sshKeys : list string) : string :=
  match ps_quote <$> filter (λ k, k ≠ "") (TrimSpace <$> sshKeys) with
  | [] => ""
  | quoted =>
      unlines
        [""; "# Authorize SSH public keys so 'vee ssh' works without touching the guest."; "try {";
         "  $sshDir = Join-Path $env:ProgramData 'ssh'"; "  New-Item -ItemType Directory -Force -Path $sshDir | Out-Null";
         "  $ak = Join-Path $sshDir 'administrators_authorized_keys'"; "  Set-Content -Path $ak -Encoding ascii -Value @(";
         "    " +:+ Join ("," +:+ String newline "    ") quoted; "  )";
         "  icacls.exe $ak /inheritance:r /grant 'Administrators:F' /grant 'SYSTEM:F' | Out-Null";
         "  Log " +:+ dq ("installed administrators_authorized_keys (" +:+ Itoa (Z.of_nat (length quoted)) +:+ " key(s))");
         "} catch { Log " +:+ dq "authorized_keys install failed: $_" +:+ " }"]
  end.

Definition heliosSetupName : string := "HeliosSetup.exe".
Definition heliosWatchName : string := "vee-helios-watch.ps1".
Definition heliosSetupPS1 : string :=
  unlines
    [""; "# 5. WinBoat Helios vGPU driver (test-signed; Secure Boot is off on this VM).";
     "# Persistent auto-logon first: the answer file auto-logs on once, and the";
     "# provisioning reboots below use that up. Helios' smoke tests (and any game";
     "# under test) need an interactive desktop session after every boot.";
     "$wl = 'HKLM:\SOFTWARE\Microsoft\Windows NT\CurrentVersion\Winlogon'";
     "Set-ItemProperty -Path $wl -Name AutoAdminLogon -Value '1'";
     "Set-ItemProperty -Path $wl -Name DefaultUserName -Value '{{USER}}'";
     "Set-ItemProperty -Path $wl -Name DefaultPassword -Value '{{PASS}}'";
     "Remove-ItemProperty -Path $wl -Name AutoLogonCount -ErrorAction SilentlyContinue";
     "Log " +:+ dq "persistent auto-logon enabled for {{USER}}"; "$heliosDir = " +:+ dq "$env:ProgramData\vee\helios";
     "$heliosSrc = " +:+ dq "$($unattend):\{{SETUP}}"; "if (Test-Path $heliosSrc) {";
     "  New-Item -ItemType Directory -Force -Path $heliosDir | Out-Null";
     "  Copy-Item -Force $heliosSrc " +:+ dq "$heliosDir\{{SETUP}}";
     "  Copy-Item -Force " +:+ dq "$($unattend):\{{WATCH}}" +:+ " " +:+ dq "$heliosDir\{{WATCH}}";
     "  $act = New-ScheduledTaskAction -Execute 'powershell.exe' -Argument " +:+ dq "-NoProfile -ExecutionPolicy Bypass -File $heliosDir\{{WATCH}}";
     "  $trg = New-ScheduledTaskTrigger -AtStartup";
     "  Register-ScheduledTask -TaskName 'VeeHeliosWatch' -Action $act -Trigger $trg -User 'SYSTEM' -RunLevel Highest -Force | Out-Null";
     "  Log " +:+ dq "installing Helios from $heliosSrc";
     "  $p = Start-Process " +:+ dq "$heliosDir\{{SETUP}}" +:+ " -ArgumentList @('--silent', '--automatic', '--log', " +:+ dq "$heliosDir\setup.log" +:+ ") -Wait -PassThru";
     "  Log " +:+ dq "HeliosSetup exit code: $($p.ExitCode) (3010 = reboot required)";
     "  $status = " +:+ dq "$env:ProgramData\Helios\provisioning-status.json"; "  if (Test-Path $status) {";
     "    $s = (Get-Content $status -Raw | ConvertFrom-Json).status"; "    Log " +:+ dq "Helios provisioning status: $s";
     "    Set-Content -Path " +:+ dq "$heliosDir\handled-status" +:+ " -Value $s"; "  }"; "} else {";
     "  Log " +:+ dq "WARNING: Helios installer not found at $heliosSrc"; "}"].
Definition heliosWatchPS1 : string :=
  unlines
    ["$ErrorActionPreference = 'Continue'"; "$dir = " +:+ dq "$env:ProgramData\vee\helios";
     "$log = " +:+ dq "$env:SystemDrive\vee-helios.log";
     "function Log($m) { " +:+ dq "$([DateTime]::Now.ToString('s')) $m" +:+ " | Out-File -FilePath $log -Append -Encoding utf8 }";
     "$status = " +:+ dq "$env:ProgramData\Helios\provisioning-status.json"; "$handled = " +:+ dq "$dir\handled-status";
     "$countFile = " +:+ dq "$dir\reboot-count"; "$count = 0";
     "if (Test-Path $countFile) { $count = [int](Get-Content $countFile -Raw) }"; "function Done($why) {"; "  Log $why";
     "  Unregister-ScheduledTask -TaskName 'VeeHeliosWatch' -Confirm:$false -ErrorAction SilentlyContinue"; "  exit 0"; "}";
     "Log " +:+ dq "watch start (reboots so far: $count)"; "for ($i = 0; $i -lt 180; $i++) {"; "  Start-Sleep -Seconds 10";
     "  if (-not (Test-Path $status)) { continue }"; "  try { $j = Get-Content $status -Raw | ConvertFrom-Json } catch { continue }";
     "  $s = [string]$j.status"; "  if ($s -eq 'finished') { Done " +:+ dq "Helios provisioning finished" +:+ " }";
     "  if ($s -eq 'failed') { Done " +:+ dq "Helios provisioning FAILED: $($j.message)" +:+ " }";
     "  if ($s -like '*restart-required') {"; "    $last = ''";
     "    if (Test-Path $handled) { $last = (Get-Content $handled -Raw).Trim() }"; "    if ($s -eq $last) { continue }";
     "    if ($count -ge 4) { Done " +:+ dq "giving up after $count reboots (status: $s)" +:+ " }";
     "    Set-Content -Path $handled -Value $s"; "    Set-Content -Path $countFile -Value ($count + 1)";
     "    Log " +:+ dq "status $s - rebooting"; "    Restart-Computer -Force"; "    exit 0"; "  }"; "}";
     "Log " +:+ dq "watch timed out; will retry next boot"].
Definition renderHeliosSetupPS1 : string :=
  Replacer [("{{SETUP}}", heliosSetupName); ("{{WATCH}}", heliosWatchName); ("{{USER}}", winAdminUser); ("{{PASS}}", winAdminPass)]
    heliosSetupPS1.

Definition guest_setup_template : string :=
  unlines
    ["$ErrorActionPreference = 'Continue'"; "$log = " +:+ dq "$env:SystemDrive\vee-guest-setup.log";
     "function Log($m) { " +:+ dq "$([DateTime]::Now.ToString('s')) $m" +:+ " | Tee-Object -FilePath $log -Append }"; "";
     "Log " +:+ dq "vee guest setup starting (virtiofs tag: {{TAG}})"; "";
     "# Locate the unattend volume (this script's drive) and the virtio-win volume.";
     "$unattend = (Get-Volume -FileSystemLabel '{{VOLID}}' -ErrorAction SilentlyContinue).DriveLetter";
     "$virtio   = (Get-Volume | Where-Object { Test-Path (" +:+ dq "$($_.DriveLetter):\virtio-win-guest-tools.exe" +:+ ") } | Select-Object -First 1).DriveLetter";
     "if (-not $virtio) {";
     "  $virtio = (Get-Volume | Where-Object { Test-Path (" +:+ dq "$($_.DriveLetter):\guest-agent" +:+ ") } | Select-Object -First 1).DriveLetter";
     "}"; "Log " +:+ dq "unattend drive: $unattend  virtio-win drive: $virtio"; "";
     "# 1. WinFsp (required before the virtiofs service can start)."; "$msi = " +:+ dq "$($unattend):\{{WINFSP}}";
     "if (Test-Path $msi) {"; "  Log " +:+ dq "installing WinFsp from $msi";
     "  Start-Process msiexec.exe -ArgumentList @('/i', $msi, '/qn', '/norestart', 'INSTALLLEVEL=1000') -Wait"; "} else {";
     "  Log " +:+ dq "WARNING: WinFsp MSI not found at $msi"; "}"; "";
     "# 2. virtio-win guest tools (installs viofs driver + VirtioFsSvc, plus NIC etc.).";
     "$gt = " +:+ dq "$($virtio):\virtio-win-guest-tools.exe"; "if (Test-Path $gt) {";
     "  Log " +:+ dq "installing virtio-win guest tools from $gt";
     "  Start-Process $gt -ArgumentList " +:+ dq "/install" +:+ "," +:+ dq "/quiet" +:+ "," +:+ dq "/passive" +:+ "," +:+ dq "/norestart" +:+ " -Wait";
     "} else {"; "  Log " +:+ dq "WARNING: virtio-win-guest-tools.exe not found on $virtio"; "}"; "";
     "# 3. Ensure the VirtioFS service is set to autostart and started, so the share"; "#    mounts on every boot.";
     "$svc = Get-Service -Name 'VirtioFsSvc' -ErrorAction SilentlyContinue"; "if ($svc) {";
     "  Set-Service -Name 'VirtioFsSvc' -StartupType Automatic";
     "  try { Start-Service -Name 'VirtioFsSvc' } catch { Log " +:+ dq "VirtioFsSvc start deferred to reboot: $_" +:+ " }";
     "  Log " +:+ dq "VirtioFsSvc configured (status: $((Get-Service VirtioFsSvc).Status))"; "} else {";
     "  Log " +:+ dq "WARNING: VirtioFsSvc not present after guest-tools install"; "}"; "";
     "# 4. Enable OpenSSH server for headless access (best-effort)."; "try {";
     "  Add-WindowsCapability -Online -Name 'OpenSSH.Server~~~~0.0.1.0' -ErrorAction Stop | Out-Null";
     "  Set-Service -Name sshd -StartupType Automatic"; "  Start-Service sshd";
     "  New-NetFirewallRule -Name sshd -DisplayName 'OpenSSH Server' -Enabled True -Direction Inbound -Protocol TCP -Action Allow -LocalPort 22 -ErrorAction SilentlyContinue | Out-Null";
     "  Log " +:+ dq "OpenSSH server enabled"; "} catch { Log " +:+ dq "OpenSSH enable skipped: $_" +:+ " }"; ""; "{{SSHKEYS}}";
     "{{HELIOS}}"; "Log " +:+ dq "vee guest setup complete; rebooting to mount virtiofs share"; "Start-Sleep -Seconds 3";
     "Restart-Computer -Force"].
Definition guestSetupPS1 (tag : string) (sshKeys : list string) (helios : bool) : string :=
  replace_once "{{HELIOS}}" (if helios then renderHeliosSetupPS1 else "")
    (Replacer [("{{TAG}}", tag); ("{{VOLID}}", winUnattendVolID); ("{{WINFSP}}", winfspMSI);
               ("{{SSHKEYS}}", windowsAuthorizedKeysPS1 sshKeys)] guest_setup_template).
Definition guest_setup_arm64_template : string :=
  unlines
    ["$ErrorActionPreference = 'Continue'"; "$log = " +:+ dq "$env:SystemDrive\vee-guest-setup.log";
     "function Log($m) { " +:+ dq "$([DateTime]::Now.ToString('s')) $m" +:+ " | Tee-Object -FilePath $log -Append }"; "";
     "Log " +:+ dq "vee guest setup starting (arm64)";
     "Log " +:+ dq "virtiofs skipped: no ARM64 virtio-win guest-tools installer, and the ARM64 viofs driver is test-signed (virtio-win issue #1337)";
     ""; "# Enable OpenSSH server for headless access (best-effort)."; "try {";
     "  Add-WindowsCapability -Online -Name 'OpenSSH.Server~~~~0.0.1.0' -ErrorAction Stop | Out-Null";
     "  Set-Service -Name sshd -StartupType Automatic"; "  Start-Service sshd";
     "  New-NetFirewallRule -Name sshd -DisplayName 'OpenSSH Server' -Enabled True -Direction Inbound -Protocol TCP -Action Allow -LocalPort 22 -ErrorAction SilentlyContinue | Out-Null";
     "  Log " +:+ dq "OpenSSH server enabled"; "} catch { Log " +:+ dq "OpenSSH enable skipped: $_" +:+ " }"; ""; "{{SSHKEYS}}";
     "Log " +:+ dq "vee guest setup complete"].
Definition guestSetupARM64PS1 (sshKeys : list string) : string :=
  Replacer [("{{SSHKEYS}}", windowsAuthorizedKeysPS1 sshKeys)] guest_setup_arm64_template.

(** ** Media *)
Record WinEnv := mkWinEnv {
  (** [os.Stat] of a path the user gave: whether it is a directory *)
  we_stat : string → result error bool;
  we_read : string → result error string;
  (** the exit of a udisksctl command, with its output *)
  we_udisksctl : list string → option error * string;
  (** [os.Stat] succeeds on a file outside the cache *)
  we_exists : string → bool;
  we_mkdir : string → option error;
  we_symlink : string → option error;
  we_write : string → option error;
  we_tempdir : result error string;
  (** wine with these arguments: the file it leaves at the target, if any *)
  we_wine : list string → option error * option string;
  (** the container over these staged files *)
  we_container : list string → list (string * string) → option error * option string;
}.

Section Windows.
Context (env : FetchEnv) (wenv : WinEnv) (host : Host) (conf : ProviderConfig) (now : Z).

(** [utils.DownloadToFile]: the target is renamed into place when it is
    complete. *)
Definition DownloadToFile (url dst : string) : ImgM unit :=
  resp ← http_get env url;
  if negb (r_StatusCode resp =? 200) then throw (Errorf "download: HTTP" [url; Itoa (r_StatusCode resp)]) else
  _ ← or_fail (fe_create env dst);
  content ← ReadAll resp;
  _ ← or_fail (fe_close env dst);
  _ ← or_fail (fe_rename env dst);
  put_file dst content.

Definition ensureCachedDownload (url name : string) : ImgM string :=
  let dst := PathJoin [pc_ISOCachePath conf; name] in
  here ← exists_file dst;
  if (here : bool) then mret dst else
  _ ← wrap_error "create cache dir" (or_fail (fe_mkdir env (Dir dst)));
  _ ← wrap_error ("download " +:+ name) (DownloadToFile url dst);
  mret dst.

Definition oscdimgURL : string := "https://msdl.microsoft.com/download/symbols/oscdimg.exe/688CABB065000/oscdimg.exe".
Definition oscdimgName : string := "oscdimg.exe".
Definition noPromptEFI : string := "efi/microsoft/boot/efisys_noprompt.bin".

(** The text after the last occurrence of [sub]. *)
Definition after_text (s sub : string) : option string := sdrop (String.length sub) <$> last_from s sub.
Definition loop_device (out : string) : string :=
  match find (λ f, HasPrefix f "/dev/loop") (Fields out) with Some f => trim_right (λ c, bool_decide (c = "."%char)) f | None => "" end.
(** The mount point; the loop device is detached by the caller. *)
Definition loopMountISO (iso : string) : result error string :=
  match we_udisksctl wenv ["loop-setup"; "-r"; "-f"; iso] with
  | (Some e, _) => Err (Wrapf "udisksctl loop-setup" e)
  | (None, out) =>
      let loopDev := loop_device out in
      if bool_decide (loopDev = "") then Err (Errorf "could not parse loop device" [out]) else
      match we_udisksctl wenv ["mount"; "-b"; loopDev] with
      | (Some e, _) => Err (Wrapf "udisksctl mount" e)
      | (None, mo) =>
          let mnt := TrimSpace (default "" (after_text mo " at ")) in
          if bool_decide (mnt = "") then Err (Errorf "could not parse mount point" [mo]) else Ok mnt
      end
  end.

Definition no_prompt_path (srcISO : string) : string := TrimSuffix srcISO (Ext srcISO) +:+ "-noprompt.iso".
Definition oscdimg_args (oscdimg dst : string) : list string :=
  [oscdimg; "-m"; "-o"; "-u2"; "-udfver102"; "-lWIN_INSTALL"; "-bootdata:1#pEF,e,bs:\" +:+ noPromptEFI; "s:\"; "t:\" +:+ Base dst].

(** Without the tools, or when one of them fails, the medium stays as it is. *)
Definition ensureNoPromptISO (srcISO : string) : ImgM string :=
  let dst := no_prompt_path srcISO in
  here ← exists_file dst;
  if (here : bool) then mret dst else
  if negb (fe_lookpath env "wine") || negb (fe_lookpath env "udisksctl") then mret srcISO else
  got ← attempt (ensureCachedDownload oscdimgURL oscdimgName);
  match got with
  | Err _ => mret srcISO
  | Ok oscdimg =>
      match loopMountISO srcISO with
      | Err _ => mret srcISO
      | Ok srcTree =>
          if negb (we_exists wenv (PathJoin [srcTree; noPromptEFI])) then mret srcISO else
          let prefix := PathJoin [PathJoin [pc_ISOCachePath conf; ".winehome"]; "prefix"] in
          let booted := we_exists wenv (PathJoin [prefix; "drive_c"; "windows"]) ||
                        match we_wine wenv ["wineboot"; "-u"] with (None, _) => true | (Some _, _) => false end in
          if negb booted then mret srcISO else
          _ ← or_fail (we_mkdir wenv (PathJoin [prefix; "dosdevices"]));
          _ ← or_fail (we_symlink wenv (PathJoin [prefix; "dosdevices"; "s:"]));
          _ ← or_fail (we_symlink wenv (PathJoin [prefix; "dosdevices"; "t:"]));
          match we_wine wenv (oscdimg_args oscdimg dst) with
          | (Some _, None) => mret srcISO
          | (Some _, Some content) => _ ← put_file dst content; mret srcISO
          | (None, None) => mret srcISO
          | (None, Some content) => _ ← put_file dst content; mret dst
          end
      end
  end.

(** ** Helios *)
Definition heliosBootstrapVGADevice : string := "VGA,id=bootstrap-gpu,bus=pcie.0,addr=0x1".
Definition validate (h : HeliosOptions) : result error unit :=
  if bool_decide (ho_SetupExe h = "") then Err (Errorf "helios: --helios-setup is required" [])
  else if negb (EqualFold (Ext (ho_SetupExe h)) ".exe") then Err (Errorf "helios: --helios-setup is not an .exe" [ho_SetupExe h])
  else match we_stat wenv (ho_SetupExe h) with
  | Err e => Err (Wrapf "helios: --helios-setup" e)
  | Ok true => Err (Errorf "helios: --helios-setup is a directory" [ho_SetupExe h])
  | Ok false =>
      if bool_decide (ho_QemuBinary h = "") then Err (Errorf "helios: --qemu-binary is required" [])
      else match we_stat wenv (ho_QemuBinary h) with Err e => Err (Wrapf "helios: --qemu-binary" e) | Ok _ => Ok tt end
  end.
Definition heliosVNCAddr (name : string) : string := "127.0.0.1:" +:+ Itoa (deterministicSSHPort name - 2200 + 10).
Definition applyHelios (cfg : VMConfig) (h : HeliosOptions) : VMConfig :=
  let cfg := if bool_decide (pc_OVMFCodePath conf = "") then cfg
             else cfg <| c_UEFI := (c_UEFI cfg) <| u_CodePath := pc_OVMFCodePath conf |> |> in
  cfg <| c_Globals := [] |> <| c_SPICE := None |> <| c_QemuBinary := ho_QemuBinary h |>
      <| c_GPU := (gpu GPUHelios) <| g_HostMem := ho_HostMem h |> <| g_VNC := or_default (ho_VNC h) (heliosVNCAddr (c_Name cfg)) |>
                                  <| g_RenderNode := ho_RenderNode h |> |>
      <| c_InstallDevices := c_InstallDevices cfg ++ (if ho_BootstrapVGA h then [heliosBootstrapVGADevice] else []) |>
      <| c_Memory := "16G" |> <| c_CPUs := 8 |> <| c_Cores := 8 |>.

(** ** The extra ISO *)
Definition stage_file (stage name content what : string) : result error (list (string * string)) :=
  match we_write wenv (PathJoin [stage; name]) with Some e => Err (Wrapf what e) | None => Ok [(name, content)] end.
Definition stageHelios (stage setupPath : string) : result error (list (string * string)) :=
  match we_read wenv setupPath with
  | Err e => Err (Wrapf "read Helios installer" e)
  | Ok data =>
      match stage_file stage heliosSetupName data "stage Helios installer" with
      | Err e => Err e
      | Ok a => match stage_file stage heliosWatchName heliosWatchPS1 "stage Helios watch script" with
                | Err e => Err e
                | Ok b => Ok (a ++ b)
                end
      end
  end.

Definition extras_script (outName : string) : string :=
  unlines
    ["set -e"; "apk add --no-cache cdrkit 7zip >/dev/null 2>&1"; "mkdir -p /iso";
     "# Unpack the virtio-win ISO (read-only bind) into the staging tree."; "7z x -y -o/iso /virtio.iso >/dev/null";
     "# Overlay the unattend files at the ISO root."; "cp -a /extra/. /iso/";
     "genisoimage -J -joliet-long -r -V " +:+ winUnattendVolID +:+ " -o /out/" +:+ outName +:+ " /iso >/dev/null 2>&1"].
Definition extras_args (virtioISOPath stage outPath : string) : list string :=
  ["run"; "--rm"; "-v"; virtioISOPath +:+ ":/virtio.iso:ro"; "-v"; stage +:+ ":/extra:ro"; "-v"; Dir outPath +:+ ":/out";
   "alpine:latest"; "sh"; "-c"; extras_script (Base outPath)].

Definition buildExtrasISO (outPath virtioISOPath autounattend setupScript winfspMSIPath heliosSetupPath : string) : ImgM unit :=
  _ ← lift_result (findWindowsContainerRuntime env);
  stage ← wrap_error "create extras staging dir" (lift_result (we_tempdir wenv));
  answer ← lift_result (stage_file stage "Autounattend.xml" autounattend "write Autounattend.xml");
  script ← lift_result (stage_file stage "setup-guest.ps1" setupScript "write setup-guest.ps1");
  winfsp ← (if bool_decide (winfspMSIPath = "") then mret [] else
            data ← wrap_error "read WinFsp MSI" (read_file env winfspMSIPath);
            lift_result (stage_file stage winfspMSI data "stage WinFsp MSI"));
  helios ← (if bool_decide (heliosSetupPath = "") then mret [] else lift_result (stageHelios stage heliosSetupPath));
  _ ← wrap_error "create extras iso dir" (or_fail (fe_mkdir env (Dir outPath)));
  let '(failed, iso) := we_container wenv (extras_args virtioISOPath stage outPath) (answer ++ script ++ winfsp ++ helios) in
  _ ← match iso with Some content => put_file outPath content | None => mret tt end;
  _ ← wrap_error "build extras ISO" (or_fail failed);
  made ← exists_file outPath;
  if (made : bool) then mret tt else throw (Errorf "extras ISO not produced" [outPath]).

(** ** The configurations *)
Definition windowsOSDiskSize : string :=
  match ParseDiskSize (pc_DefaultDiskSize conf) with
  | Ok (false, bytes) => if Z.shiftl 64 30 <=? bytes then pc_DefaultDiskSize conf else "64G"
  | _ => "64G"
  end.
Definition system_disk (name interface : string) : DiskConfig := fresh_disk conf name windowsOSDiskSize interface "writeback".
Definition scratch_disk (name interface : string) : DiskConfig :=
  mkDiskConfig (storage_file conf name "disk-scratch.qcow2") "8G" "qcow2" interface "disk" "writeback" false "" "" false false 0 false true.
Definition usb_input : list string := ["qemu-xhci,id=xhci"; "usb-kbd,bus=xhci.0"; "usb-tablet,bus=xhci.0"].
Definition windows_rtc : string := "base=localtime,clock=host".
Definition windows_disks (name media interface installISO extrasISO : string) : list DiskConfig :=
  [install_iso installISO "" media "none"; install_iso extrasISO "" media "none"; system_disk name interface; scratch_disk name interface].

Definition windowsARM64Config (name installISOPath extrasISO : string) : VMConfig :=
  (guest conf now name "windows" "" "8G" 4 4 1 (user_nic []) GPUNone true (windows_disks name "usb" "nvme" installISOPath extrasISO))
    <| c_CPUModel := "host" |> <| c_SSHPort := deterministicSSHPort name |> <| c_SSHUser := winAdminUser |>
    <| c_ExtraDevices := "ramfb" :: usb_input |> <| c_RTC := windows_rtc |>.

Definition windows_x86 (name installISOPath extrasISO : string) (spicePort : Z) : VMConfig :=
  (guest conf now name "windows" "" "8G" 4 4 1 (user_nic []) GPUNone true (windows_disks name "ide" "virtio" installISOPath extrasISO))
    <| c_CPUFlags := ["hv-relaxed=on"; "hv-vapic=on"; "hv-time=on"; "hv-spinlocks=0x1fff"] |> <| c_MachineType := "q35,smm=on" |>
    <| c_Globals := ["driver=cfi.pflash01,property=secure,value=on"] |> <| c_SSHPort := deterministicSSHPort name |>
    <| c_SSHUser := winAdminUser |> <| c_GuestAgent := true |>
    <| c_UEFI := mkUEFIConfig true (or_default (pc_OVMFSecbootCodePath conf) (pc_OVMFCodePath conf)) "" |>
    <| c_TPM := Some (mkTPMConfig true) |> <| c_ExtraDevices := usb_input |> <| c_SPICE := Some (mkSPICEConfig spicePort true) |>
    <| c_RTC := windows_rtc |>.

Definition helios_allowed (helios : option HeliosOptions) : result error unit :=
  match helios with
  | None => Ok tt
  | Some h =>
      match validate h with
      | Err e => Err e
      | Ok _ => if bool_decide (WindowsHostArch host = "arm64") then Err (Errorf "helios: the Helios driver is x64 only" []) else Ok tt
      end
  end.

Definition NewWindowsConfig (version name virtiofsTag : string) (spicePort : Z) (sshKeys : list string)
    (helios : option HeliosOptions) : ImgM VMConfig :=
  _ ← lift_result (helios_allowed helios);
  let arch := WindowsHostArch host in
  let arm := bool_decide (arch = "arm64") in
  if arm && negb (bool_decide (version ∈ KnownWindowsVersionsForArch arch))
  then throw (Errorf "windows has no arm64 build" [version])
  else
    let img := NewWindowsImage host version in
    let image := WindowsImage_AbsolutePath (pc_ISOCachePath conf) img in
    _ ← WindowsImage_Download env (pc_ISOCachePath conf) img;
    virtioISO ← wrap_error "virtio-win driver ISO" (ensureCachedDownload virtioWinURL virtioWinISO);
    winfspPath ← (if arm then mret "" else wrap_error "WinFsp MSI" (ensureCachedDownload winfspURL winfspMSI));
    let autounattend := autounattendXML version arch (default "w11" (virtioWinDriverDir version)) in
    let setupScript := if arm then guestSetupARM64PS1 sshKeys
                       else guestSetupPS1 virtiofsTag sshKeys (match helios with Some _ => true | None => false end) in
    installISOPath ← (if arm then mret image else wrap_error "prepare no-prompt install media" (ensureNoPromptISO image));
    let extrasISO := PathJoin [pc_ISOCachePath conf; "win-extras-" +:+ name +:+ ".iso"] in
    _ ← wrap_error "build extras ISO"
          (buildExtrasISO extrasISO virtioISO autounattend setupScript winfspPath
             (match helios with Some h => ho_SetupExe h | None => "" end));
    if arm then mret (windowsARM64Config name installISOPath extrasISO)
    else let cfg := windows_x86 name installISOPath extrasISO spicePort in
         mret (match helios with Some h => applyHelios cfg h | None => cfg end).
End Windows.
