(* ===== verification/Catalogue.v ===== *)
(** * The catalogue of templates, as the assembly uses it

    [configFromTemplate] ([internal/vm/build/build.go]) with the constructors of
    [Templates], [Runner], [Gaming] and [Windows]: what the caller collects for
    the interactive templates, the table of constructors, and what holds of
    every machine the catalogue makes. *)
From S2P Require Import Prelude GoStrings Config World Lifecycle Guest Gpu Sha1 Shacrypt CloudInit Images Media Vpn KillSwitch Qemu Storage Vz Build Templates Runner Gaming Windows.

Open Scope Z_scope.

(** ** What a caller collects *)
Record torrentExtras := mkTorrentExtras {
  tx_Mounts : list ShareMount; tx_NFSMounts : list NFSMount; tx_NordConf : option NordVPNConfig;
  tx_WireGuard : option WireGuardConfig; tx_VPNProvider : string }.
Record jellyfinExtras := mkJellyfinExtras { jx_Libraries : list Source; jx_Secrets : gmap string string }.
Record bitmagnetExtras := mkBitmagnetExtras {
  bx_PGDataHostDir : string; bx_PGDataHostUID : Z; bx_PGDataHostGID : Z; bx_PGPassword : string;
  bx_WireGuard : option WireGuardConfig; bx_VPNProvider : string }.
Record runnerExtras := mkRunnerExtras {
  rx_URL : string; rx_Token : string; rx_Labels : list string; rx_RestoredCreds : list RunnerCredFile; rx_SSHPrivKey : list N }.
#[export] Instance vee_extras : Extras :=
  {| TorrentExtras := torrentExtras; JellyfinExtras := jellyfinExtras; BitmagnetExtras := bitmagnetExtras; RunnerExtras := runnerExtras |}.

(** ** The constructors, started over a world

    [petname] and [salt] are random, [nord] answers for NordVPN, and [macos]
    stands for the constructor of macOS guests. *)
Section Catalogue.
Context (env : FetchEnv) (wenv : WinEnv) (nord : NordEnv) (host : Host) (conf : ProviderConfig) (now : Z).
Context (petname : string) (salt : result string (list N)) (macos : string → MacOSOptions → result error VMConfig).

Definition torrent_config (name : string) (keys : list string) (x : torrentExtras) (distro : string) (emulate : bool) : ImgM VMConfig :=
  NewTorrentConfig env host conf now nord name keys (tx_Mounts x) (tx_NFSMounts x) (tx_NordConf x) (tx_WireGuard x) (tx_VPNProvider x)
    distro emulate.
Definition jellyfin_config (name : string) (keys : list string) (x : option jellyfinExtras) (bridge : string) : ImgM VMConfig :=
  let x := default (mkJellyfinExtras [] ∅) x in
  NewJellyfinConfig env host conf now name keys (jx_Libraries x) bridge (jx_Secrets x).
Definition bitmagnet_options (x : bitmagnetExtras) (bridge disk : string) (emulate : bool) : BitmagnetOptions :=
  mkBitmagnetOptions (bx_PGDataHostDir x) (bx_PGDataHostUID x) (bx_PGDataHostGID x) (bx_PGPassword x) (bx_WireGuard x)
    (bx_VPNProvider x) bridge disk emulate.
Definition runner_config (name : string) (keys : list string) (x : runnerExtras) : ImgM VMConfig :=
  NewGitHubRunnerConfig env host conf now name keys (rx_URL x) (rx_Token x) (rx_Labels x) (rx_RestoredCreds x) (rx_SSHPrivKey x).

Definition vee_templates (w : ImgWorld) : Templates :=
  let run (m : ImgM VMConfig) : result error VMConfig := (m w).1 in
  {| t_GamingArch := λ n keys g, run (NewGamingArchConfig env host conf now n keys g);
     t_GamingBazzite := λ n g, run (NewGamingBazziteConfig env host conf now n g);
     t_Passthrough := NewPassthroughConfig conf now;
     t_Torrent := λ n keys x _ distro emulate, run (torrent_config n keys x distro emulate);
     t_Devbox := λ n keys distro version emulate, run (NewDevboxConfig env host conf now salt n keys distro version emulate);
     t_Server := λ n keys distro version emulate, run (NewServerConfig env host conf now n keys distro version emulate);
     t_Desktop := λ n keys distro version emulate, run (NewDesktopConfig env host conf now salt n keys distro version emulate);
     t_Omarchy := λ n keys version user password emulate,
       run (NewOmarchyConfig env host conf now salt n keys version (mkOmarchyOptions "" user password emulate));
     t_Truenas := λ n version bridge _ disks emulate, run (NewTruenasConfig env host conf now n version bridge disks emulate);
     t_MacOS := macos;
     t_Windows := λ version n tag spice keys helios, run (NewWindowsConfig env wenv host conf now version n tag spice keys helios);
     t_Docker := λ n keys version emulate, run (NewDockerConfig env host conf now n keys version emulate);
     t_Jellyfin := λ n keys x bridge, run (jellyfin_config n keys x bridge);
     t_DNSSink := λ n keys bridge user hash emulate, run (NewDNSSinkConfig env host conf now n keys bridge user hash emulate);
     t_Bitmagnet := λ n keys x bridge disk emulate,
       run (NewBitmagnetConfig env host conf now n keys (bitmagnet_options x bridge disk emulate));
     t_UbuntuServer := λ version n, run (NewUbuntuServerConfig env host conf now petname version n);
     t_UbuntuServerNoISO := λ version n, Ok (NewUbuntuServerConfigNoISO conf now petname version n);
     t_GitHubRunner := λ n keys x, run (runner_config n keys x) |}.
End Catalogue.

(** ** Well-formed machines *)
Definition size_ok (s : string) : Prop := ∃ bytes, ParseDiskSize s = Ok (false, bytes).
Definition memory_ok (s : string) : Prop := ∃ bytes, ParseMemoryBytes s = Ok bytes ∧ 0 < bytes.
Definition nic_ok (n : NICConfig) : Prop := nic_Mode n = "user" ∨ (nic_Mode n = "bridge" ∧ nic_Bridge n ≠ "").
Definition port_ok (p : Z) : Prop := 0 <= p <= 65535.

(** A disk is a medium the guest is installed from, an image among the files of
    the VM, or a device of the host. *)
Definition install_medium (d : DiskConfig) : Prop :=
  d_Media d = "cdrom" ∧ d_Readonly d = true ∧ d_InstallISO d = true ∧ d_Passthrough d = false.
Definition own_image (conf : ProviderConfig) (name : string) (d : DiskConfig) : Prop :=
  d_Media d = "disk" ∧ d_Format d = "qcow2" ∧ d_Readonly d = false ∧ d_Passthrough d = false ∧ d_InstallISO d = false ∧
  size_ok (d_Size d) ∧ ∃ file, d_Path d = storage_file conf name file.
Definition host_device (d : DiskConfig) : Prop :=
  d_Media d = "disk" ∧ d_Format d = "raw" ∧ d_Passthrough d = true ∧ d_Size d = "" ∧ d_InstallISO d = false.
Definition disk_ok (conf : ProviderConfig) (name : string) (d : DiskConfig) : Prop :=
  install_medium d ∨ own_image conf name d ∨ host_device d.

(** A file of the seed: where it goes, and who may read it. *)
Definition file_ok (wf : CloudInitWriteFile) : Prop :=
  HasPrefix (wf_Path wf) "/" = true ∧ wf_Permissions wf ∈ ["0440"; "0600"; "0644"; "0755"].

Record well_formed (host : Host) (conf : ProviderConfig) (name : string) (emulate : bool) (cfg : VMConfig) : Prop := {
  vm_named : c_Name cfg = name;
  vm_topology : 0 < c_CPUs cfg ∧ c_CPUs cfg = c_Sockets cfg * c_Cores cfg * c_Threads cfg;
  vm_memory : memory_ok (c_Memory cfg);
  vm_nic : nic_ok (c_NIC cfg);
  vm_ssh : port_ok (c_SSHPort cfg);
  vm_disks : Forall (disk_ok conf name) (c_Disks cfg);
  (** one disk of its own is the one to resize and move *)
  vm_boot : c_Template cfg = "passthrough" ∨ ∃ i d, findManagedBootDisk cfg = Some (i, d) ∧ own_image conf name d;
  vm_seed : ∀ ci, c_CloudInit cfg = Some ci → ci_Hostname ci = name ∧ Forall file_ok (ci_WriteFiles ci);
  (** another architecture was asked for *)
  vm_arch : c_Arch cfg = "" ∨ (emulate = true ∧ c_Arch cfg ≠ DefaultGuestArch host);
}.

(** What the templates take from the provider and from the user as it is. *)
Record sound_defaults (conf : ProviderConfig) : Prop := {
  default_memory : memory_ok (pc_DefaultMemory conf);
  default_cpus : 0 < pc_DefaultCPUs conf;
  default_disk : size_ok (pc_DefaultDiskSize conf);
}.
Record sound_options (o : Opts) : Prop := {
  asked_name : o_Name o ≠ "";
  asked_nic : o_NICMode o ∈ [""; "user"; "bridge"];
  asked_port : port_ok (o_SSHPort o);
  asked_disk : o_Disk o = "" ∨ size_ok (o_Disk o);
}.

(** *** Runs of a constructor *)
Lemma returns_lift {A} (P : A → Prop) (r : result error A) : (∀ a, r = Ok a → P a) → returns P (lift_result r).
Proof. intros H. unfold lift_result. destruct r as [a|e]; [apply returns_ret; by apply H|apply returns_throw]. Qed.

Lemma guest_arch host distro emulate :
  returns (λ arch, arch = "" ∨ (emulate = true ∧ arch ≠ DefaultGuestArch host)) (lift_result (guestArchFor host distro emulate)).
Proof.
  apply returns_lift. intros a. unfold guestArchFor, guestArchOn. case_bool_decide as Ha; [intros [= <-]; by left|].
  destruct emulate; cbn; [|discriminate]. intros [= <-]. right. done.
Qed.

Lemma ssh_port_range name : 2200 <= deterministicSSHPort name < 2300.
Proof. unfold deterministicSSHPort. pose proof (Z.mod_pos_bound (fnv32a name) 100). lia. Qed.
Lemma ssh_port_ok name : port_ok (deterministicSSHPort name).
Proof. pose proof (ssh_port_range name). unfold port_ok. lia. Qed.

(** Sizes given as constants. *)
Ltac literal_size := eexists; vm_compute; reflexivity.
Ltac literal_memory := eexists; split; [vm_compute; reflexivity|lia].

Section Shapes.
Context (conf : ProviderConfig).
Lemma fresh_own name size interface cache : size_ok size → own_image conf name (fresh_disk conf name size interface cache).
Proof. intros H. unfold own_image. split_and!; try done. by eexists. Qed.
Lemma cloud_own name size image : size_ok size → own_image conf name (cloud_disk conf name size image).
Proof. intros H. unfold own_image. split_and!; try done. by eexists. Qed.
Lemma scratch_own name interface : own_image conf name (scratch_disk conf name interface).
Proof. unfold own_image. split_and!; try done; [literal_size|by eexists]. Qed.
Lemma medium_ok name path format interface cache : disk_ok conf name (install_iso path format interface cache).
Proof. by left. Qed.
Lemma own_ok name d : own_image conf name d → disk_ok conf name d.
Proof. intros H. right. by left. Qed.
Lemma device_ok name d : host_device d → disk_ok conf name d.
Proof. intros H. right. by right. Qed.
Lemma user_nic_ok fwds : nic_ok (user_nic fwds).
Proof. by left. Qed.
Lemma bridge_nic_ok bridge : nic_ok (bridge_nic (or_default bridge "br0")).
Proof. right. split; [done|]. unfold or_default. cbn. by case_bool_decide. Qed.
Lemma vsock_file_ok : file_ok vsock_file.
Proof. split; [done|]. vm_compute. set_solver. Qed.
End Shapes.
Create HintDb catalogue.
#[export] Hint Resolve fresh_own cloud_own scratch_own medium_ok own_ok user_nic_ok bridge_nic_ok ssh_port_ok vsock_file_ok : catalogue.
#[export] Hint Extern 2 (size_ok _) => literal_size : catalogue.

(** Files whose path starts with a constant. *)
Ltac literal_files := repeat (apply Forall_cons; split; [split; [vm_compute; reflexivity|cbn; set_solver]|]); apply Forall_nil; exact I.
Ltac literal_file := split; [vm_compute; reflexivity|cbn; set_solver].

(** One step of a run. *)
Ltac step_template :=
  match goal with
  | |- returns _ (throw _) => apply returns_throw
  | |- returns _ (mret _) => apply returns_ret
  | |- returns _ (lift_result (guestArchFor ?h ?d ?e) ≫= _) => eapply (returns_bind _ _ _ _ (guest_arch h d e)); intros ? ?
  | |- returns _ (lift_result ?r ≫= _) => apply (returns_bind (λ a, r = Ok a)); [apply returns_lift; intros ? ?; assumption|intros ? ?]
  | |- returns _ (_ ≫= _) => apply returns_after; intros ?
  | |- returns _ (if bool_decide ?P then _ else _) => case_bool_decide
  | |- returns _ (if ?b then _ else _) => destruct b eqn:?
  | |- returns _ (match ?x with pair _ _ => _ end) => destruct x eqn:?
  end.
Ltac run_template := repeat (step_template; cbv beta zeta).

(** The fields of a literal, those given by constants decided. *)
Ltac well_formed_fields :=
  split; [reflexivity|]; constructor;
  [reflexivity
  |split; [reflexivity || (cbn; lia)|reflexivity || (cbn; lia)]
  |cbn; literal_memory || assumption
  |first [apply user_nic_ok|apply bridge_nic_ok|idtac]
  |first [apply ssh_port_ok|(split; cbn; lia)|idtac]
  |cbn; repeat (apply Forall_cons; split; [auto with catalogue|]); try (apply Forall_nil; exact I)
  |right; eexists _, _; split; [reflexivity|cbn; auto with catalogue]
  |intros ci Hci; first [discriminate Hci|injection Hci as <-; split; [reflexivity|unfold alpine_seed; cbn [ci_WriteFiles]; auto with catalogue]]
  |cbn; tauto].

Section WellFormed.
Context (env : FetchEnv) (wenv : WinEnv) (nord : NordEnv) (host : Host) (conf : ProviderConfig) (now : Z) (salt : result string (list N)).
Context (Hd : sound_defaults conf).
Abbreviation wf := (well_formed host conf).

Lemma server_files distro cmds files : serverRunCmds distro = Ok (cmds, files) → Forall file_ok files.
Proof. unfold serverRunCmds. repeat case_bool_decide; intros [= <- <-]; auto with catalogue. Qed.

Lemma server_ok name keys distro version emulate :
  returns (λ cfg, c_Template cfg = "server" ∧ wf name emulate cfg) (NewServerConfig env host conf now name keys distro version emulate).
Proof.
  destruct Hd. unfold NewServerConfig. run_template.
  well_formed_fields. by eapply server_files.
Qed.

Lemma devbox_files distro user hostname pkgs cmds files : devboxRunCmds distro user hostname pkgs = Ok (cmds, files) → Forall file_ok files.
Proof.
  unfold devboxRunCmds. repeat case_bool_decide; intros [= <- <-]; auto with catalogue;
    (apply Forall_cons; split; [literal_file|auto with catalogue]).
Qed.
Lemma omarchy_ok name keys version opts : returns (λ cfg, c_Template cfg = or_default (oo_Template opts) "omarchy" ∧ wf name (oo_Emulate opts) cfg)
  (NewOmarchyConfig env host conf now salt name keys version opts).
Proof. unfold NewOmarchyConfig. run_template. well_formed_fields. Qed.
Lemma devbox_ok name keys distro version emulate :
  returns (λ cfg, c_Template cfg = "devbox" ∧ wf name emulate cfg) (NewDevboxConfig env host conf now salt name keys distro version emulate).
Proof.
  destruct Hd. unfold NewDevboxConfig. cbv zeta. case_bool_decide; [apply omarchy_ok|]. run_template.
  well_formed_fields. by eapply devbox_files.
Qed.
Lemma desktop_files distro user : Forall file_ok (desktopRunCmds distro user).2.
Proof. unfold desktopRunCmds. repeat case_bool_decide; cbn [fst snd app]; literal_files. Qed.
Lemma desktop_ok name keys distro version emulate :
  returns (λ cfg, c_Template cfg = "desktop" ∧ wf name emulate cfg) (NewDesktopConfig env host conf now salt name keys distro version emulate).
Proof.
  destruct Hd. unfold NewDesktopConfig. cbv zeta. case_bool_decide; [apply omarchy_ok|]. run_template.
  well_formed_fields. change l0 with (l, l0).2. rewrite <-Heqp. apply desktop_files.
Qed.
Lemma docker_ok name keys version emulate :
  returns (λ cfg, c_Template cfg = "docker" ∧ wf name emulate cfg) (NewDockerConfig env host conf now name keys version emulate).
Proof. unfold NewDockerConfig. run_template. well_formed_fields. Qed.

Lemma data_disk_ok name raw : disk_ok conf name (data_disk raw).
Proof. by apply device_ok. Qed.
Lemma truenas_ok name version bridge disks emulate :
  returns (λ cfg, c_Template cfg = "truenas" ∧ wf name emulate cfg) (NewTruenasConfig env host conf now name version bridge disks emulate).
Proof.
  unfold NewTruenasConfig. run_template. well_formed_fields.
  apply Forall_fmap, Forall_true. intros raw. apply data_disk_ok.
Qed.
Lemma passthrough_ok name nvme vars pci dir mac :
  c_Template (NewPassthroughConfig conf now name nvme vars pci dir mac) = "passthrough" ∧
  wf name false (NewPassthroughConfig conf now name nvme vars pci dir mac).
Proof.
  split; [reflexivity|]. constructor; try reflexivity; try (by left).
  - by split.
  - literal_memory.
  - by right.
  - done.
  - apply Forall_singleton. by apply device_ok.
  - done.
Qed.
Lemma dnssink_ok name keys bridge user hash emulate :
  returns (λ cfg, c_Template cfg = "dns-sink" ∧ wf name emulate cfg) (NewDNSSinkConfig env host conf now name keys bridge user hash emulate).
Proof. unfold NewDNSSinkConfig. run_template. well_formed_fields. literal_files. Qed.
Lemma bazzite_ok name opts :
  returns (λ cfg, c_Template cfg = "gaming-bazzite" ∧ wf name (go_Emulate opts) cfg) (NewGamingBazziteConfig env host conf now name opts).
Proof. unfold NewGamingBazziteConfig. run_template. well_formed_fields. Qed.
Lemma ubuntu_ok name disks i d : Forall (disk_ok conf name) disks →
  findManagedBootDisk (ubuntu_server conf now name disks) = Some (i, d) → own_image conf name d →
  c_Template (ubuntu_server conf now name disks) = "ubuntu-server" ∧ wf name false (ubuntu_server conf now name disks).
Proof.
  intros Hds Hb Ho. destruct Hd. split; [reflexivity|]. constructor; try done.
  - cbn. lia.
  - by left.
  - right. eauto.
  - by left.
Qed.
Lemma ubuntu_iso_ok petname version name : name ≠ "" →
  returns (λ cfg, c_Template cfg = "ubuntu-server" ∧ wf name false cfg) (NewUbuntuServerConfig env host conf now petname version name).
Proof.
  intros Hn. destruct Hd. unfold NewUbuntuServerConfig. run_template; [done..|]. rewrite bool_decide_false by done.
  eapply ubuntu_ok; [|reflexivity|cbn; auto with catalogue]. repeat (apply Forall_cons; split; [auto with catalogue|]). by apply Forall_nil.
Qed.
Lemma ubuntu_no_iso_ok petname version name : name ≠ "" →
  let cfg := NewUbuntuServerConfigNoISO conf now petname version name in c_Template cfg = "ubuntu-server" ∧ wf name false cfg.
Proof.
  intros Hn. destruct Hd. unfold NewUbuntuServerConfigNoISO. cbv zeta. rewrite bool_decide_false by done.
  eapply ubuntu_ok; [|reflexivity|cbn; auto with catalogue]. apply Forall_singleton. auto with catalogue.
Qed.

Lemma windows_disk_size : size_ok (windowsOSDiskSize conf).
Proof.
  destruct Hd as [_ _ [bytes H]]. unfold windowsOSDiskSize. rewrite H. case_match; [by exists bytes|literal_size].
Qed.
Hint Resolve windows_disk_size : catalogue.
Lemma system_own name interface : own_image conf name (system_disk conf name interface).
Proof. apply fresh_own, windows_disk_size. Qed.
Hint Resolve system_own : catalogue.
Lemma windows_ok version name tag spice keys helios :
  returns (λ cfg, c_Template cfg = "windows" ∧ wf name false cfg) (NewWindowsConfig env wenv host conf now version name tag spice keys helios).
Proof.
  unfold NewWindowsConfig. run_template; [well_formed_fields..|].
  destruct helios as [h|]; [|well_formed_fields]. unfold applyHelios. cbv zeta.
  destruct (bool_decide (pc_OVMFCodePath conf = "")); well_formed_fields.
Qed.

Definition patch_ok (p : Patch) : Prop := Forall host_device (p_Disks p) ∧ Forall file_ok (p_WriteFiles p).
Lemma plan_ok src distro secrets p prompts : Plan src distro secrets = Ok (p, prompts) → patch_ok p.
Proof.
  unfold Plan, planHostDir, planNFS, planSMB, planBlock, planUSB, err_plan. cbv zeta. intros H.
  repeat (case_match; try discriminate H); injection H as <- <-; split; cbn; literal_files.
Qed.
Lemma gather_ok sources secrets p missing p' missing' : patch_ok p →
  gather_media sources secrets p missing = Ok (p', missing') → patch_ok p'.
Proof.
  revert p missing. induction sources as [|src sources IH]; cbn; intros p missing Hp; [by intros [= <- <-]|].
  destruct (Plan src "ubuntu" secrets) as [[q prompts]|e] eqn:Eq; [|done]. apply IH.
  destruct Hp as [Hp1 Hp2], (plan_ok _ _ _ _ _ Eq) as [Hq1 Hq2]. split; by apply Forall_app.
Qed.
Lemma jellyfin_ok name keys x bridge :
  returns (λ cfg, c_Template cfg = "jellyfin" ∧ wf name false cfg) (jellyfin_config env host conf now name keys x bridge).
Proof.
  destruct Hd. unfold jellyfin_config, NewJellyfinConfig. run_template.
  assert (Hp : patch_ok p) by by eapply (gather_ok _ _ emptyPatch). destruct Hp as [Hp1 Hp2]. well_formed_fields.
  eapply Forall_impl; [exact Hp1|]. apply device_ok.
Qed.
Lemma runner_ok name keys x :
  returns (λ cfg, c_Template cfg = "github-runner" ∧ wf name false cfg) (runner_config env host conf now name keys x).
Proof.
  destruct Hd. unfold runner_config, NewGitHubRunnerConfig, githubRunnerCloudInit. run_template. well_formed_fields.
  literal_files.
Qed.
Lemma wg_files_ok wgConf fw : Forall file_ok (wg_files wgConf fw).
Proof.
  unfold wg_files, wgRefreshWriteFile. destruct wgConf as [c|]; [|by apply Forall_nil].
  destruct (wgEndpointIsLiteralIP _); cbn; literal_files.
Qed.
Lemma torrent_files_ok nordConf wgConf path : Forall file_ok (torrent_files nordConf wgConf path).
Proof.
  unfold torrent_files. apply Forall_app. split; [literal_files|]. destruct nordConf; [by apply Forall_nil|apply wg_files_ok].
Qed.
Lemma alpine_files_ok path wgConf : Forall file_ok (torrentAlpineWriteFiles path wgConf).
Proof. unfold torrentAlpineWriteFiles. apply Forall_app. split; [literal_files|apply wg_files_ok]. Qed.
Lemma bitmagnet_files_ok opts : Forall file_ok (bitmagnet_files opts).
Proof. unfold bitmagnet_files. cbv zeta. apply Forall_app. split; [literal_files|]. apply wg_files_ok. Qed.
Hint Resolve torrent_files_ok alpine_files_ok bitmagnet_files_ok : catalogue.
Lemma torrent_alpine_ok name keys mounts nfs nordConf wgConf provider emulate :
  returns (λ cfg, c_Template cfg = "torrent" ∧ wf name emulate cfg)
    (NewTorrentAlpineConfig env host conf now nord name keys mounts nfs nordConf wgConf provider emulate).
Proof. destruct Hd. unfold NewTorrentAlpineConfig. run_template. well_formed_fields. Qed.
Lemma torrent_ok name keys x distro emulate :
  returns (λ cfg, c_Template cfg = "torrent" ∧ wf name emulate cfg) (torrent_config env nord host conf now name keys x distro emulate).
Proof.
  destruct Hd. unfold torrent_config, NewTorrentConfig. case_bool_decide; [apply torrent_alpine_ok|]. run_template. well_formed_fields.
Qed.
Lemma bitmagnet_ok name keys opts : bo_DiskSize opts = "" ∨ size_ok (bo_DiskSize opts) →
  returns (λ cfg, c_Template cfg = "bitmagnet" ∧ wf name (bo_Emulate opts) cfg) (NewBitmagnetConfig env host conf now name keys opts).
Proof.
  intros Hs. assert (Ho : size_ok (or_default (bo_DiskSize opts) "8G")).
  { unfold or_default. case_bool_decide; [literal_size|by destruct Hs]. }
  unfold NewBitmagnetConfig. run_template. well_formed_fields.
  cbn. case_bool_decide; [by left|by right].
Qed.
Lemma gaming_nic_ok opts : go_NICMode opts ∈ [""; "user"; "bridge"] → nic_ok (gaming_nic (or_default (go_NICMode opts) "bridge") opts).
Proof.
  intros H. assert (Hb : or_default (go_Bridge opts) "br0" ≠ "") by (unfold or_default; by case_bool_decide).
  unfold nic_ok, gaming_nic. cbn. unfold or_default at 1 2. case_bool_decide; [by right|]. set_solver.
Qed.
Lemma gaming_ok name keys opts : go_NICMode opts ∈ [""; "user"; "bridge"] → port_ok (go_SSHPort opts) →
  returns (λ cfg, c_Template cfg = "gaming-arch" ∧ wf name (go_Emulate opts) cfg) (NewGamingArchConfig env host conf now name keys opts).
Proof.
  intros Hn Hp. unfold NewGamingArchConfig, archGamingSetup. cbv zeta. run_template. well_formed_fields.
  - by apply (gaming_nic_ok opts).
  - cbn. destruct (_ && _); [apply ssh_port_ok|done].
  - literal_files.
Qed.
End WellFormed.

(** A run's result. *)
Lemma returns_run {A} (P : A → Prop) (m : ImgM A) w a : returns P m → (m w).1 = Ok a → P a.
Proof. intros H E. apply (H w a (m w).2). rewrite <-E. by destruct (m w). Qed.

Lemma weaken_arch host conf name emulate cfg : well_formed host conf name false cfg → well_formed host conf name emulate cfg.
Proof. intros []. constructor; try done. destruct vm_arch0 as [|[? _]]; [by left|done]. Qed.

Lemma weaken_run host conf name emulate t (m : ImgM VMConfig) :
  returns (λ cfg, c_Template cfg = t ∧ well_formed host conf name false cfg) m →
  returns (λ cfg, c_Template cfg = t ∧ well_formed host conf name emulate cfg) m.
Proof. apply returns_mono. intros cfg [? ?]. split; [done|]. by apply weaken_arch. Qed.

(** The template a machine says it was made from. *)
Definition made_from (o : Opts) : string := if template_is o "gaming" then "gaming-arch" else o_Template o.

(** *** The constructor of each template *)
Section Makes.
Context (env : FetchEnv) (wenv : WinEnv) (nord : NordEnv) (host : Host) (conf : ProviderConfig) (now : Z) (ae : AsmEnv).
Context (petname : string) (salt : result string (list N)) (macos : string → MacOSOptions → result error VMConfig).

(** [makes o keys m]: the options are served by the constructor [m]. *)
Inductive makes (o : Opts) (keys : list string) : ImgM VMConfig → Prop :=
| makes_ubuntu : o_Template o = "ubuntu-server" → o_NoAutoInstall o = false →
    makes o keys (NewUbuntuServerConfig env host conf now petname (ubuntu_version o) (o_Name o))
| makes_ubuntu_no_iso : o_Template o = "ubuntu-server" → o_NoAutoInstall o = true →
    makes o keys (mret (NewUbuntuServerConfigNoISO conf now petname (ubuntu_version o) (o_Name o)))
| makes_devbox : o_Template o = "devbox" →
    makes o keys (NewDevboxConfig env host conf now salt (o_Name o) keys (o_Distro o) (o_DistroVersion o) (o_Emulate o))
| makes_server : o_Template o = "server" →
    makes o keys (NewServerConfig env host conf now (o_Name o) keys (o_Distro o) (o_DistroVersion o) (o_Emulate o))
| makes_desktop : o_Template o = "desktop" →
    makes o keys (NewDesktopConfig env host conf now salt (o_Name o) keys (o_Distro o) (o_DistroVersion o) (o_Emulate o))
| makes_omarchy : o_Template o = "omarchy" →
    makes o keys (NewOmarchyConfig env host conf now salt (o_Name o) keys (o_DistroVersion o)
                    (mkOmarchyOptions "" (o_User o) (o_Password o) (o_Emulate o)))
| makes_docker : o_Template o = "docker" →
    makes o keys (NewDockerConfig env host conf now (o_Name o) keys (o_DistroVersion o) (o_Emulate o))
| makes_gaming_arch g : o_Template o ∈ ["gaming-arch"; "gaming"] → g = gamingOpts ae o ∨ g = (gamingOpts ae o) <| go_Passthrough := true |> →
    makes o keys (NewGamingArchConfig env host conf now (o_Name o) keys g)
| makes_gaming_bazzite : o_Template o = "gaming-bazzite" →
    makes o keys (NewGamingBazziteConfig env host conf now (o_Name o) (gamingOpts ae o))
| makes_passthrough : o_Template o = "passthrough" →
    makes o keys (mret (NewPassthroughConfig conf now (o_Name o) (o_NVMeDev o) (o_OVMFVars o) (o_GPUPCI o) (o_VirtiofsDir o) (o_NICMAC o)))
| makes_torrent x : o_Template o = "torrent" → o_Torrent o = Some x →
    makes o keys (torrent_config env nord host conf now (o_Name o) keys x (o_Distro o) (o_Emulate o))
| makes_jellyfin : o_Template o = "jellyfin" →
    makes o keys (jellyfin_config env host conf now (o_Name o) keys (o_Jellyfin o) (o_NICBridge o))
| makes_dns_sink x : o_Template o = "dns-sink" → x = default (mkDNSSinkExtras "" "") (o_DNSSink o) →
    makes o keys (NewDNSSinkConfig env host conf now (o_Name o) keys (o_NICBridge o) (dx_AdminUser x) (dx_PasswordHash x) (o_Emulate o))
| makes_bitmagnet x : o_Template o = "bitmagnet" → o_Bitmagnet o = Some x →
    makes o keys (NewBitmagnetConfig env host conf now (o_Name o) keys (bitmagnet_options x (o_NICBridge o) (o_Disk o) (o_Emulate o)))
| makes_runner x : o_Template o = "github-runner" → o_Runner o = Some x → makes o keys (runner_config env host conf now (o_Name o) keys x)
| makes_windows tag : o_Template o = "windows" →
    makes o keys (NewWindowsConfig env wenv host conf now (windows_version host o) (o_Name o) tag (default 0 (o_SPICEPort o)) keys
                    (helios_options o))
| makes_truenas : o_Template o = "truenas" →
    makes o keys (NewTruenasConfig env host conf now (o_Name o) (o_DistroVersion o) (o_NICBridge o) (o_DataDisks o) (o_Emulate o)).

(** The branch of a template. *)
Ltac dispatch H Ht :=
  unfold configFromTemplate, template_is in H; cbv zeta in H; rewrite Ht in H;
  repeat match type of H with
  | (if bool_decide (?a = ?b) then _ else _) = _ =>
      first [rewrite (bool_decide_true (a = b) eq_refl) in H|rewrite (bool_decide_false (a = b)) in H by discriminate]
  end.

Lemma template_makes w o keys cfg : o_Template o ∈ KnownTemplates → o_Template o ≠ "macos" →
  configFromTemplate host conf ae (vee_templates env wenv nord host conf now petname salt macos w) o keys = Ok cfg →
  ∃ m, makes o keys m ∧ (m w).1 = Ok cfg.
Proof.
  intros Ht Hm H. set (ts := vee_templates env wenv nord host conf now petname salt macos w) in H.
  repeat (apply elem_of_cons in Ht as [Ht|Ht]); [..|by apply not_elem_of_nil in Ht]; dispatch H Ht.
  - destruct (o_NoAutoInstall o) eqn:En; eexists; split; [by apply makes_ubuntu_no_iso|exact H|by apply makes_ubuntu|exact H].
  - eexists. split; [by apply makes_devbox|exact H].
  - eexists. split; [by apply makes_server|exact H].
  - eexists. split; [by apply makes_desktop|exact H].
  - eexists. split; [by apply makes_omarchy|exact H].
  - eexists. split; [by apply makes_docker|exact H].
  - eexists. split; [apply makes_gaming_arch; [|by left]|exact H]. rewrite Ht. set_solver.
  - eexists. split; [by apply makes_gaming_bazzite|exact H].
  - eexists. split; [apply makes_gaming_arch|exact H]; [rewrite Ht; set_solver|]. destruct (given _); [by right|by left].
  - destruct (_ || _); [done|]. eexists. split; [by apply makes_passthrough|exact H].
  - destruct (o_Torrent o) as [x|] eqn:Ex; [|done]. eexists. split; [by eapply makes_torrent|exact H].
  - eexists. split; [by apply makes_jellyfin|exact H].
  - eexists. split; [by eapply makes_dns_sink|exact H].
  - destruct (o_Bitmagnet o) as [x|] eqn:Ex; [|done]. eexists. split; [by eapply makes_bitmagnet|exact H].
  - destruct (o_Runner o) as [x|] eqn:Ex; [|done]. eexists. split; [by eapply makes_runner|exact H].
  - eexists. split; [by eapply makes_windows|exact H].
  - eexists. split; [by eapply makes_truenas|exact H].
  - done.
Qed.
End Makes.

(** C12: every template makes a well-formed machine.  Whatever the images, the
    network and the tools answer, a configuration that [configFromTemplate]
    returns for a template other than macOS has the name asked for and the
    template's name, as many CPUs as sockets, cores and threads make, a memory
    size that parses, a NIC with a bridge when it is bridged, a valid port for
    SSH, disks that are install media, devices of the host or images among the
    VM's files of a size that parses, one of which is the boot disk to resize
    and move, a seed with absolute paths and known modes for its host name, and
    it is of another architecture only when emulation was asked for. *)
Theorem template_well_formed env wenv nord host conf now petname salt macos ae w o keys cfg :
  sound_defaults conf → sound_options o → o_Template o ∈ KnownTemplates → o_Template o ≠ "macos" →
  configFromTemplate host conf ae (vee_templates env wenv nord host conf now petname salt macos w) o keys = Ok cfg →
  c_Template cfg = made_from o ∧ well_formed host conf (o_Name o) (o_Emulate o) cfg.
Proof.
  intros Hd [Hn Hnic Hp Hdisk] Ht Hm (m & Hmake & Hrun)%template_makes; [|done..].
  refine (returns_run (λ cfg, c_Template cfg = made_from o ∧ well_formed host conf (o_Name o) (o_Emulate o) cfg) m w cfg _ Hrun).
  unfold made_from, template_is. clear Ht Hm Hrun cfg.
  destruct Hmake as [Ht ?|Ht ?|Ht|Ht|Ht|Ht|Ht|g Ht Hg|Ht|Ht|x Ht Hx|Ht|x Ht Hx|x Ht Hx|x Ht Hx|tag Ht|Ht]; try rewrite Ht.
  - by apply weaken_run, ubuntu_iso_ok.
  - by apply weaken_run, returns_ret, ubuntu_no_iso_ok.
  - by apply devbox_ok.
  - by apply server_ok.
  - by apply desktop_ok.
  - exact (omarchy_ok env host conf now salt (o_Name o) keys (o_DistroVersion o) (mkOmarchyOptions "" (o_User o) (o_Password o) (o_Emulate o))).
  - by apply docker_ok.
  - assert (go_NICMode g = o_NICMode o ∧ go_SSHPort g = o_SSHPort o ∧ go_Emulate g = o_Emulate o) as (E1 & E2 & <-) by by destruct Hg as [->| ->].
    assert ((if bool_decide (o_Template o = "gaming") then "gaming-arch" else o_Template o) = "gaming-arch") as ->
      by (set_unfold in Ht; destruct_or! Ht; try rewrite Ht; done).
    apply gaming_ok; congruence.
  - exact (bazzite_ok env host conf now (o_Name o) (gamingOpts ae o)).
  - by apply weaken_run, returns_ret, passthrough_ok.
  - by apply torrent_ok.
  - by apply weaken_run, jellyfin_ok.
  - by apply dnssink_ok.
  - exact (bitmagnet_ok env host conf now Hd (o_Name o) keys (bitmagnet_options x (o_NICBridge o) (o_Disk o) (o_Emulate o)) Hdisk).
  - by apply weaken_run, runner_ok.
  - by apply weaken_run, windows_ok.
  - by apply truenas_ok.
Qed.

(** ** Secrets

    A seed without the contents of the files only root may read. *)
Definition redact_file (wf : CloudInitWriteFile) : CloudInitWriteFile :=
  if bool_decide (wf_Permissions wf = "0600")
  then mkCloudInitWriteFile (wf_Path wf) "" (wf_Permissions wf) (wf_Owner wf) (wf_Defer wf) (wf_Encoding wf) else wf.
Definition redact_seed (ci : CloudInitConfig) : CloudInitConfig :=
  mkCloudInitConfig (ci_Hostname ci) (ci_User ci) (ci_Password ci) (ci_DefaultUser ci) (ci_SSHKeys ci) (ci_Packages ci) (ci_RunCmds ci)
    (redact_file <$> ci_WriteFiles ci).
Definition redact (cfg : VMConfig) : VMConfig := cfg <| c_CloudInit := redact_seed <$> c_CloudInit cfg |>.
Definition redacted (r : result error VMConfig) : result error VMConfig := match r with Ok cfg => Ok (redact cfg) | Err e => Err e end.

(** Other secrets than those given: the private key of a tunnel, the token of a
    runner, the password hash of the DNS sink, the passwords of SMB shares. *)
Record secrets := mkSecrets { sec_key : string; sec_token : ascii * string; sec_hash : string; sec_smb : string → string }.
Definition with_key (s : secrets) (c : WireGuardConfig) : WireGuardConfig :=
  mkWireGuardConfig (sec_key s) (wg_Address c) (wg_DNS c) (wg_Endpoint c) (wg_PublicKey c).
Definition other_token (s : secrets) (token : string) : string :=
  if bool_decide (token = "") then "" else String (sec_token s).1 (sec_token s).2.
Definition with_torrent_key (s : secrets) (x : torrentExtras) : torrentExtras :=
  mkTorrentExtras (tx_Mounts x) (tx_NFSMounts x) (tx_NordConf x) (with_key s <$> tx_WireGuard x) (tx_VPNProvider x).
Definition with_bitmagnet_key (s : secrets) (x : bitmagnetExtras) : bitmagnetExtras :=
  mkBitmagnetExtras (bx_PGDataHostDir x) (bx_PGDataHostUID x) (bx_PGDataHostGID x) (bx_PGPassword x) (with_key s <$> bx_WireGuard x)
    (bx_VPNProvider x).
Definition with_token (s : secrets) (x : runnerExtras) : runnerExtras :=
  mkRunnerExtras (rx_URL x) (other_token s (rx_Token x)) (rx_Labels x) (rx_RestoredCreds x) (rx_SSHPrivKey x).
Definition with_shares (s : secrets) (x : jellyfinExtras) : jellyfinExtras := mkJellyfinExtras (jx_Libraries x) (sec_smb s <$> jx_Secrets x).
Definition with_hash (s : secrets) (x : DNSSinkExtras) : DNSSinkExtras := mkDNSSinkExtras (dx_AdminUser x) (sec_hash s).
Definition reseal (s : secrets) (o : Opts) : Opts :=
  mkOpts (o_Name o) (o_Template o) (o_Backend o) (o_Memory o) (o_CPUs o) (o_Distro o) (o_DistroVersion o) (o_NICMode o)
    (o_NICBridge o) (o_NICMAC o) (o_Disk o) (o_DataDisks o) (o_BootDisk o) (o_BootDiskPath o) (o_SPICEPort o) (o_Headless o)
    (o_UEFI o) (o_GPUMode o) (o_GPUPCI o) (o_GPUVendor o) (o_AntiDetect o) (o_GLBackend o) (o_Venus o) (o_HostMem o)
    (o_Pointer o) (o_HeliosSetup o) (o_QemuBinary o) (o_QemuEnv o) (o_VNC o) (o_RenderNode o) (o_HeliosBootstrapVGA o)
    (o_VirtiofsDir o) (o_VirtiofsTag o) (o_VirtiofsReadonly o) (o_SSHKeyFile o) (o_SSHShare o) (o_SSHPort o) (o_Vsock o)
    (o_Hostname o) (o_User o) (o_Password o) (o_NVMeDev o) (o_OVMFVars o) (o_Nested o) (o_Emulate o) (o_NoAutoInstall o)
    (with_torrent_key s <$> o_Torrent o) (with_shares s <$> o_Jellyfin o) (with_hash s <$> o_DNSSink o)
    (with_bitmagnet_key s <$> o_Bitmagnet o) (with_token s <$> o_Runner o) (o_MacOS o).

(** Two runs with the same effects and related results. *)
Definition alike {A} (R : A → A → Prop) (m m' : ImgM A) : Prop := ∀ w,
  (m w).2 = (m' w).2 ∧ match (m w).1, (m' w).1 with Ok a, Ok b => R a b | Err e, Err e' => e = e' | _, _ => False end.
Lemma alike_ret {A} (R : A → A → Prop) a b : R a b → alike R (mret a) (mret b).
Proof. intros H w. by split. Qed.
Lemma alike_throw {A} (R : A → A → Prop) e : alike R (throw e) (throw e).
Proof. intros w. by split. Qed.
Lemma alike_bind {A B} (R : B → B → Prop) (m : ImgM A) (k k' : A → ImgM B) :
  (∀ a, alike R (k a) (k' a)) → alike R (m ≫= k) (m ≫= k').
Proof. intros H w. rewrite !run_bind. destruct (m w) as [[a|e] w']; [apply H|by split]. Qed.
Lemma alike_known {A B} (R : B → B → Prop) (a b : A) (k k' : A → ImgM B) : alike R (k a) (k' b) → alike R (mret a ≫= k) (mret b ≫= k').
Proof. done. Qed.
Lemma alike_refl {A} (R : A → A → Prop) (m : ImgM A) : Reflexive R → alike R m m.
Proof. intros HR w. split; [done|]. by destruct (m w).1. Qed.

Abbreviation alike_but_secret := (alike (λ c c', redact c' = redact c)).
Lemma redacted_run m m' w : alike_but_secret m m' → redacted (m' w).1 = redacted (m w).1.
Proof. intros H. destruct (H w) as [_ H']. destruct (m w).1, (m' w).1; cbn; by f_equal. Qed.

Section Confined.
Context (env : FetchEnv) (wenv : WinEnv) (nord : NordEnv) (host : Host) (conf : ProviderConfig) (now : Z) (ae : AsmEnv).
Context (petname : string) (salt : result string (list N)) (macos : string → MacOSOptions → result error VMConfig) (s : secrets).

Lemma wg_files_sealed wg fw : redact_file <$> wg_files (with_key s <$> wg) fw = redact_file <$> wg_files wg fw.
Proof. by destruct wg. Qed.
Lemma alpine_cmds_sealed mounts nfs wg : torrentAlpineRunCmds mounts nfs (with_key s <$> wg) = torrentAlpineRunCmds mounts nfs wg.
Proof. by destruct wg. Qed.
Lemma alpine_files_sealed path wg :
  redact_file <$> torrentAlpineWriteFiles path (with_key s <$> wg) = redact_file <$> torrentAlpineWriteFiles path wg.
Proof. by destruct wg. Qed.
Lemma ubuntu_cmds_sealed nordConf mounts nfs wg : torrentRunCmds nordConf (with_key s <$> wg) mounts nfs = torrentRunCmds nordConf wg mounts nfs.
Proof. by destruct wg, nordConf. Qed.
Lemma ubuntu_files_sealed nordConf wg path :
  redact_file <$> torrent_files nordConf (with_key s <$> wg) path = redact_file <$> torrent_files nordConf wg path.
Proof. by destruct wg, nordConf. Qed.

Lemma redact_eq cfg cfg' : cfg <| c_CloudInit := None |> = cfg' <| c_CloudInit := None |> →
  redact_seed <$> c_CloudInit cfg = redact_seed <$> c_CloudInit cfg' → redact cfg = redact cfg'.
Proof. destruct cfg, cfg'. unfold redact, update. cbn. intros H1 ->. by injection H1; intros; subst. Qed.

Lemma seed_eq h u p d keys pkgs cmds fs fs' : redact_file <$> fs = redact_file <$> fs' →
  redact_seed (mkCloudInitConfig h u p d keys pkgs cmds fs) = redact_seed (mkCloudInitConfig h u p d keys pkgs cmds fs').
Proof. intros H. unfold redact_seed. cbn. by rewrite H. Qed.
(** The machines differ in files that are equal once redacted. *)
Ltac sealed E := apply redact_eq; [reflexivity|exact (f_equal Some (seed_eq _ _ _ _ _ _ _ _ _ E))].
Lemma torrent_alpine_sealed name keys mounts nfs nordConf wg provider emulate :
  alike_but_secret (NewTorrentAlpineConfig env host conf now nord name keys mounts nfs nordConf wg provider emulate)
    (NewTorrentAlpineConfig env host conf now nord name keys mounts nfs nordConf (with_key s <$> wg) provider emulate).
Proof.
  unfold NewTorrentAlpineConfig. destruct nordConf as [n|]; [destruct wg as [c|]; [apply alike_throw|by apply alike_refl]|].
  apply alike_known. cbv beta iota. rewrite alpine_cmds_sealed. do 2 (apply alike_bind; intros ?). apply alike_ret.
  sealed (alpine_files_sealed (save_path mounts nfs) wg).
Qed.
Lemma torrent_sealed name keys x distro emulate :
  alike_but_secret (torrent_config env nord host conf now name keys x distro emulate)
    (torrent_config env nord host conf now name keys
       (mkTorrentExtras (tx_Mounts x) (tx_NFSMounts x) (tx_NordConf x) (with_key s <$> tx_WireGuard x) (tx_VPNProvider x)) distro emulate).
Proof.
  unfold torrent_config, NewTorrentConfig. cbn [tx_Mounts tx_NFSMounts tx_NordConf tx_WireGuard tx_VPNProvider].
  case_bool_decide; [apply torrent_alpine_sealed|]. destruct (_ && _); [apply alike_throw|].
  rewrite ubuntu_cmds_sealed. apply alike_bind; intros image. cbv zeta. apply alike_ret.
  pose proof (ubuntu_files_sealed (tx_NordConf x) (tx_WireGuard x) (save_path (tx_Mounts x) (tx_NFSMounts x))) as E.
  replace (match tx_NordConf x with Some _ => _ | None => match with_key s <$> tx_WireGuard x with _ => _ end end) with
    (match tx_NordConf x, tx_WireGuard x with None, Some _ => ["wireguard"] | _, _ => [] end) by by destruct (tx_NordConf x), (tx_WireGuard x).
  sealed E.
Qed.
Lemma bitmagnet_sealed name keys x bridge disk emulate :
  alike_but_secret (NewBitmagnetConfig env host conf now name keys (bitmagnet_options x bridge disk emulate))
    (NewBitmagnetConfig env host conf now name keys
       (bitmagnet_options (mkBitmagnetExtras (bx_PGDataHostDir x) (bx_PGDataHostUID x) (bx_PGDataHostGID x) (bx_PGPassword x)
          (with_key s <$> bx_WireGuard x) (bx_VPNProvider x)) bridge disk emulate)).
Proof.
  unfold NewBitmagnetConfig. cbn [bitmagnet_options bo_PGPassword bo_Emulate bo_Bridge bo_DiskSize bo_PGDataHostDir bo_VPNProvider
    bx_PGPassword bx_PGDataHostDir bx_VPNProvider]. case_bool_decide; [apply alike_throw|].
  do 2 (apply alike_bind; intros ?). cbv zeta. apply alike_ret.
  apply redact_eq; [reflexivity|]. unfold bitmagnet_options. destruct x as [? ? ? ? [c|] ?]; reflexivity.
Qed.
Lemma dnssink_sealed name keys bridge user hash emulate :
  alike_but_secret (NewDNSSinkConfig env host conf now name keys bridge user hash emulate)
    (NewDNSSinkConfig env host conf now name keys bridge user (sec_hash s) emulate).
Proof. unfold NewDNSSinkConfig. do 2 (apply alike_bind; intros ?). cbv zeta. apply alike_ret. apply redact_eq; reflexivity. Qed.
Lemma runner_sealed name keys x :
  alike_but_secret (runner_config env host conf now name keys x)
    (runner_config env host conf now name keys
       (mkRunnerExtras (rx_URL x) (other_token s (rx_Token x)) (rx_Labels x) (rx_RestoredCreds x) (rx_SSHPrivKey x))).
Proof.
  unfold runner_config, NewGitHubRunnerConfig. cbn [rx_URL rx_Token rx_Labels rx_RestoredCreds rx_SSHPrivKey].
  case_bool_decide; [apply alike_throw|]. unfold other_token.
  assert (bool_decide ((if bool_decide (rx_Token x = "") then "" else String (sec_token s).1 (sec_token s).2) = "") =
          bool_decide (rx_Token x = "")) as -> by (repeat case_bool_decide; done).
  destruct (_ && _); [apply alike_throw|]. apply alike_bind. intros image. apply alike_ret. apply redact_eq; reflexivity.
Qed.

Definition redact_patch (p : Patch) : Patch :=
  mkPatch (p_VirtiofsMounts p) (p_Disks p) (p_ExtraDevices p) (p_Packages p) (p_RunCmds p) (redact_file <$> p_WriteFiles p).
Definition redact_plan (r : plan_result) : plan_result := match r with Ok (p, prompts) => Ok (redact_patch p, prompts) | Err e => Err e end.
Lemma plan_sealed src distro given : redact_plan (Plan src distro (sec_smb s <$> given)) = redact_plan (Plan src distro given).
Proof.
  unfold Plan. repeat (case_match; [reflexivity|]). case_match; [|done]. unfold planSMB.
  destruct (src_SMB src) as [n|]; [|done]. case_match; [done|]. rewrite lookup_fmap. by destruct (given !! smb_key n).
Qed.
Lemma merge_sealed p q : redact_patch (Merge p q) = Merge (redact_patch p) (redact_patch q).
Proof. unfold Merge, redact_patch. cbn. by rewrite fmap_app. Qed.
Lemma gather_sealed sources given p p' missing : redact_patch p' = redact_patch p →
  redact_plan (gather_media sources (sec_smb s <$> given) p' missing) = redact_plan (gather_media sources given p missing).
Proof.
  revert p p' missing. induction sources as [|src sources IH]; intros p p' missing Hp; cbn; [by rewrite Hp|].
  pose proof (plan_sealed src "ubuntu" given) as Hs.
  destruct (Plan src "ubuntu" (sec_smb s <$> given)) as [[q' prompts']|e'], (Plan src "ubuntu" given) as [[q prompts]|e]; try discriminate Hs.
  - injection Hs as Hv Hds Hx Hpk Hr Hw ->. apply IH. rewrite !merge_sealed, Hp. f_equal. unfold redact_patch. by f_equal.
  - by injection Hs as ->.
Qed.
Lemma jellyfin_sealed name keys x bridge :
  alike_but_secret (jellyfin_config env host conf now name keys x bridge)
    (jellyfin_config env host conf now name keys ((λ x, mkJellyfinExtras (jx_Libraries x) (sec_smb s <$> jx_Secrets x)) <$> x) bridge).
Proof.
  unfold jellyfin_config, NewJellyfinConfig. apply alike_bind. intros image. cbv zeta.
  set (x1 := default (mkJellyfinExtras [] ∅) x).
  assert (default (mkJellyfinExtras [] ∅) ((λ x, mkJellyfinExtras (jx_Libraries x) (sec_smb s <$> jx_Secrets x)) <$> x) =
          mkJellyfinExtras (jx_Libraries x1) (sec_smb s <$> jx_Secrets x1)) as -> by by (subst x1; destruct x; cbn; rewrite ?fmap_empty).
  cbn [jx_Libraries jx_Secrets]. pose proof (gather_sealed (jx_Libraries x1) (jx_Secrets x1) emptyPatch emptyPatch [] eq_refl) as Hs.
  destruct (gather_media _ (sec_smb s <$> _) _ _) as [[q' m']|e'], (gather_media _ (jx_Secrets x1) _ _) as [[q m]|e]; try discriminate Hs.
  - injection Hs as Hv Hds Hx Hpk Hr Hw ->. cbn [lift_result]. apply alike_known. cbv beta iota. destruct (negb _); [apply alike_throw|].
    rewrite Hv, Hds, Hx, Hpk, Hr. apply alike_ret. sealed Hw.
  - injection Hs as ->. cbn [lift_result]. apply alike_refl. done.
Qed.

(** The dispatch passes secrets to their templates only. *)
Lemma dispatch_sealed (ts : Templates) o keys :
  (∀ n x spice d e, redacted (t_Torrent ts n keys (with_torrent_key s x) spice d e) = redacted (t_Torrent ts n keys x spice d e)) →
  (∀ n x b, redacted (t_Jellyfin ts n keys (with_shares s <$> x) b) = redacted (t_Jellyfin ts n keys x b)) →
  (∀ n b u h e, redacted (t_DNSSink ts n keys b u (sec_hash s) e) = redacted (t_DNSSink ts n keys b u h e)) →
  (∀ n x b d e, redacted (t_Bitmagnet ts n keys (with_bitmagnet_key s x) b d e) = redacted (t_Bitmagnet ts n keys x b d e)) →
  (∀ n x, redacted (t_GitHubRunner ts n keys (with_token s x)) = redacted (t_GitHubRunner ts n keys x)) →
  redacted (configFromTemplate host conf ae ts (reseal s o) keys) = redacted (configFromTemplate host conf ae ts o keys).
Proof.
  intros Ht Hj Hd Hb Hr. unfold configFromTemplate. cbv zeta. rewrite (eq_refl : template_is (reseal s o) = template_is o).
  do 4 (destruct (template_is o _); [reflexivity|]). destruct (template_is o "torrent").
  { change (o_Torrent (reseal s o)) with (with_torrent_key s <$> o_Torrent o). destruct (o_Torrent o); [apply Ht|reflexivity]. }
  do 8 (destruct (template_is o _); [reflexivity|]). destruct (template_is o "jellyfin"); [apply Hj|].
  destruct (template_is o "dns-sink").
  { change (o_DNSSink (reseal s o)) with (with_hash s <$> o_DNSSink o).
    destruct (o_DNSSink o); [apply Hd|reflexivity]. }
  destruct (template_is o "bitmagnet").
  { change (o_Bitmagnet (reseal s o)) with (with_bitmagnet_key s <$> o_Bitmagnet o). destruct (o_Bitmagnet o); [apply Hb|reflexivity]. }
  destruct (template_is o "ubuntu-server"); [reflexivity|]. destruct (template_is o "github-runner"); [|reflexivity].
  change (o_Runner (reseal s o)) with (with_token s <$> o_Runner o). destruct (o_Runner o); [apply Hr|reflexivity].
Qed.

(** C13: secrets are in files only root may read.  With another private key of
    the tunnel, another registration token, another password hash or other
    passwords of the shares, [configFromTemplate] fails with the same error or
    makes the same machine but for the contents of files of mode 0600: no
    command line, unit, readable file or other field depends on them. *)
Theorem template_secrets_confined w o keys :
  let build := configFromTemplate host conf ae (vee_templates env wenv nord host conf now petname salt macos w) in
  redacted (build (reseal s o) keys) = redacted (build o keys).
Proof.
  cbv zeta. apply dispatch_sealed; intros n.
  - intros x spice d e. apply (redacted_run _ _ w (torrent_sealed n keys x d e)).
  - intros x b. apply (redacted_run _ _ w (jellyfin_sealed n keys x b)).
  - intros b u h e. apply (redacted_run _ _ w (dnssink_sealed n keys b u h e)).
  - intros x b d e. apply (redacted_run _ _ w (bitmagnet_sealed n keys x b d e)).
  - intros x. apply (redacted_run _ _ w (runner_sealed n keys x)).
Qed.
End Confined.

Module CatalogueExample.
(** A cache with every image in it, and tools that succeed. *)
Definition conf : ProviderConfig :=
  mkProviderConfig "/vms" "/cache" "" "" "" "/ovmf/code.fd" "" "" "" "2G" 2 "40G" "host" "q35" false "auto" "".
Definition env_with (has : string → bool) : FetchEnv := {|
  fe_do _ _ := Ok (Images.mkResponse 200 "body" None);
  fe_mkdir _ := None; fe_create _ := None; fe_remove _ := None; fe_rename _ := None; fe_open _ := None; fe_close _ := None;
  fe_sha256 c := "sum-of-" +:+ c; fe_url_path _ := Err ImagesExample.reset; fe_helper := Err ImagesExample.reset;
  fe_restore_url _ := Err ImagesExample.reset; fe_builds _ := Ok []; fe_files _ := Ok []; fe_lookpath := has; fe_container _ := (None, None) |}.
Definition env : FetchEnv := env_with (λ tool, bool_decide (tool = "docker")).
Definition cached : ImgWorld :=
  mkImgWorld (list_to_map ((λ p, (p, "data")) <$>
    [UbuntuCloudImage_AbsolutePath "/cache" (NewUbuntuCloudImage "24.04" "amd64");
     WindowsImage_AbsolutePath "/cache" (NewWindowsImage Scenario.linux Windows10); "/cache/" +:+ virtioWinISO; "/cache/" +:+ winfspMSI])) 0.
Definition tools : WinEnv := {|
  we_stat _ := Ok false; we_read _ := Ok ""; we_udisksctl _ := (None, ""); we_exists _ := true; we_mkdir _ := None;
  we_symlink _ := None; we_write _ := None; we_tempdir := Ok "/tmp/stage"; we_wine _ := (None, None);
  we_container _ _ := (None, Some "iso") |}.
Definition ae : AsmEnv :=
  mkAsmEnv (λ p, if HasPrefix p "/dev/" then Ok FDevice else Ok FRegular) (λ _, Ok "qcow2") (λ _, []) (λ _, []) "amd"
    (λ _, Ok "") (Ok "ssh-ed25519 AAAA vee") false.
Definition opts (name template : string) : Opts :=
  mkOpts name template "" "" 0 "" "" "" "" "" "" [] "" "" None None None "" "" "" None "" None "" "" "" "" [] "" "" false "" "" false
    "" None 0 None "" "" "" "" "" false false false None None None None None None.
Definition no_macos (name : string) (o : MacOSOptions) : result error VMConfig := Err (Errorf "not here" []).
Definition ts : Templates := vee_templates env tools VpnExample.env Scenario.linux conf 0 "petname" (Ok []) no_macos cached.
Definition make (o : Opts) : result error VMConfig := configFromTemplate Scenario.linux conf ae ts o ["ssh-ed25519 AAAA vee"].
Definition made (o : Opts) : VMConfig := match make o with Ok cfg => cfg | Err _ => zeroConfig end.
Definition build (o : Opts) : result error VMConfig := Build Scenario.linux conf ae ts o.
Definition built (o : Opts) : VMConfig := match build o with Ok cfg => cfg | Err _ => zeroConfig end.

Lemma conf_sound : sound_defaults conf.
Proof. split; [literal_memory|done|literal_size]. Qed.
Lemma opts_sound name template : name ≠ "" → sound_options (opts name template).
Proof. intros Hn. split; [done|vm_compute; set_solver|done|by left]. Qed.

Lemma template_well_formed_witness : let o := opts "web" "server" in
  c_Template (made o) = "server" ∧ well_formed Scenario.linux conf "web" false (made o).
Proof.
  apply (template_well_formed env tools VpnExample.env Scenario.linux conf 0 "petname" (Ok []) no_macos ae cached (opts "web" "server")
           ["ssh-ed25519 AAAA vee"]).
  - exact conf_sound.
  - by apply opts_sound.
  - apply (bool_decide_unpack _). vm_compute. exact I.
  - discriminate.
  - vm_compute. reflexivity.
Defined.

(** An override of the number of CPUs leaves the threads of the template: QEMU
    is given a topology of twice as many CPUs, which it refuses. *)
Theorem cpu_override_breaks_topology tpc :
  let cfg := built ((opts "player" "jellyfin") <| o_CPUs := 4 |>) in
  c_Template cfg = "jellyfin" ∧ c_CPUs cfg = 4 ∧ AdjustSMP tpc (c_CPUs cfg) (c_Sockets cfg) (c_Cores cfg) (c_Threads cfg) = (1, 4, 2).
Proof. vm_compute. by split_and!. Qed.
End CatalogueExample.
