(* ===== verification/Seeds.v ===== *)
(** * What the guests of the catalogue are told

    The seeds of the templates, read by the guest: the commands and files a
    template asks for arrive as they are, whatever the user's values are. *)
From S2P Require Import Prelude GoStrings Config World Lifecycle Guest Gpu Sha1 Shacrypt CloudInit Images Media Vpn KillSwitch Qemu Storage Vz Build Templates Runner Gaming Windows Catalogue.

Open Scope Z_scope.

(** ** Lists of commands *)
Section Lists.
Context {A : Type} (f : A → bool).
Lemma forallb_fmap_all {B} (g : B → A) (l : list B) : (∀ x, f (g x) = true) → forallb f (g <$> l) = true.
Proof. intros H. induction l as [|x l IH]; [done|]. cbn. by rewrite H. Qed.
Lemma forallb_mjoin (ls : list (list A)) : Forall (λ l, forallb f l = true) ls → forallb f (mjoin ls) = true.
Proof. induction 1 as [|l ls Hl _ IH]; [done|]. cbn. by rewrite forallb_app, Hl. Qed.
Lemma forallb_join_fmap {B} (g : B → list A) (l : list B) : (∀ x, forallb f (g x) = true) → forallb f (mjoin (g <$> l)) = true.
Proof. intros H. apply forallb_mjoin, Forall_fmap, Forall_true. exact H. Qed.
Lemma forallb_join_imap {B} (g : nat → B → list A) (l : list B) : (∀ i x, forallb f (g i x) = true) → forallb f (mjoin (imap g l)) = true.
Proof.
  intros H. apply forallb_mjoin. revert g H. induction l as [|x l IH]; intros g H; [constructor|]. cbn. constructor; [apply H|].
  apply (IH (g ∘ S)). intros i y. apply H.
Qed.
End Lists.

(** ** Commands and files whose text starts with a constant *)
Ltac plain_list := rewrite ?forallb_app, ?andb_true_iff; repeat split; try reflexivity.

Lemma packages_plain distro cats : forallb one_line (PackagesFor distro cats) = true.
Proof.
  assert (Hp : ∀ cat, forallb one_line (default [] (packages_of distro cat)) = true).
  { intros cat. unfold packages_of. repeat (case_bool_decide; [cbn; repeat case_bool_decide; reflexivity|]). done. }
  assert (Ha : ∀ ps seen, forallb one_line ps = true → forallb one_line (add_packages seen ps) = true).
  { induction ps as [|p ps IH]; intros seen; [done|]. cbn. intros [H1 H2]%andb_prop. case_bool_decide; [by apply IH|].
    cbn. by rewrite H1, IH. }
  unfold PackagesFor. destruct (packages_of distro ""); [|done]. apply Ha. induction cats as [|c cats IH]; [done|].
  cbn. by rewrite forallb_app, Hp.
Qed.
Lemma default_user_plain distro : one_line (DefaultUser distro) = true.
Proof. unfold DefaultUser. case_bool_decide as H; [|done]. set_unfold in H. by destruct_or! H; subst. Qed.

Lemma server_plain distro cmds files : serverRunCmds distro = Ok (cmds, files) → forallb file_plain files = true ∧ forallb carried cmds = true.
Proof. unfold serverRunCmds. repeat case_bool_decide; intros [= <- <-]; by split. Qed.
Lemma devbox_plain distro user hostname pkgs cmds files : devboxRunCmds distro user hostname pkgs = Ok (cmds, files) →
  forallb file_plain files = true ∧ forallb carried cmds = true.
Proof. unfold devboxRunCmds. repeat case_bool_decide; intros [= <- <-]; by split. Qed.
Lemma desktop_plain distro user : forallb file_plain (desktopRunCmds distro user).2 = true ∧ forallb carried (desktopRunCmds distro user).1 = true.
Proof. unfold desktopRunCmds. repeat case_bool_decide; by split. Qed.

Lemma wg_files_plain wg fw : forallb file_plain (wg_files wg fw) = true.
Proof. destruct wg as [c|]; [|done]. unfold wg_files, wgRefreshWriteFile. by destruct (wgEndpointIsLiteralIP _). Qed.
Lemma torrent_files_plain nordConf wg path : forallb file_plain (torrent_files nordConf wg path) = true.
Proof. unfold torrent_files. plain_list. destruct nordConf; [done|apply wg_files_plain]. Qed.
Lemma alpine_files_plain path wg : forallb file_plain (torrentAlpineWriteFiles path wg) = true.
Proof. unfold torrentAlpineWriteFiles. plain_list. apply wg_files_plain. Qed.
Lemma bitmagnet_files_plain opts : forallb file_plain (bitmagnet_files opts) = true.
Proof. unfold bitmagnet_files. cbv zeta. plain_list. apply wg_files_plain. Qed.

Lemma share_cmds_plain after i m : (∀ p, forallb carried (after p) = true) → forallb carried (share_cmds after i m) = true.
Proof. intros H. unfold share_cmds. plain_list. apply H. Qed.
Lemma nfs_cmds_plain m : forallb carried (nfs_cmds m) = true.
Proof. unfold nfs_cmds. by case_bool_decide. Qed.
Lemma torrent_cmds_plain nordConf wg mounts nfs : forallb carried (torrentRunCmds nordConf wg mounts nfs) = true.
Proof.
  assert (Hm : forallb carried (torrentMountAndAppCmds mounts nfs) = true).
  { unfold torrentMountAndAppCmds. plain_list; [|apply forallb_join_fmap, nfs_cmds_plain].
    apply forallb_join_imap. intros i m. by apply share_cmds_plain. }
  unfold torrentRunCmds. plain_list; [|exact Hm]. destruct nordConf as [n|]; [|destruct wg as [c|]].
  - unfold nordVPNCmds. plain_list; [by apply forallb_fmap_all|]. by case_bool_decide.
  - unfold torrentWGKillSwitchCmds, nfsBypassRules. plain_list; [by apply forallb_fmap_all|].
    unfold torrentWGEndpointRefreshCmds. by destruct (wgEndpointIsLiteralIP _).
  - unfold nfsBypassRules. plain_list. by apply forallb_fmap_all.
Qed.
Lemma refresh_cmds_plain wg : forallb carried (alpineWGEndpointRefreshCmds wg) = true.
Proof. unfold alpineWGEndpointRefreshCmds. by destruct (wgEndpointIsLiteralIP _). Qed.
Lemma alpine_cmds_plain mounts nfs wg : forallb carried (torrentAlpineRunCmds mounts nfs wg) = true.
Proof.
  unfold torrentAlpineRunCmds. cbv zeta. plain_list.
  - by destruct (negb _).
  - unfold torrentAlpineMountCmds. cbv zeta. plain_list; [|apply forallb_join_fmap, nfs_cmds_plain].
    apply forallb_join_imap. intros i m. by apply share_cmds_plain.
  - unfold torrentAlpineKillSwitchCmds. plain_list. destruct wg as [c|]; [|done]. plain_list; [by apply forallb_fmap_all|].
    apply refresh_cmds_plain.
Qed.
Lemma bitmagnet_cmds_plain opts : forallb carried (bitmagnetRunCmds opts) = true.
Proof.
  unfold bitmagnetRunCmds. plain_list.
  - unfold bitmagnetPostgresCmds. cbv zeta. plain_list; by case_bool_decide.
  - unfold bitmagnetKillSwitchCmds. cbv zeta. plain_list. destruct (bo_WireGuard opts) as [c|]; [|done]. plain_list; [apply refresh_cmds_plain|].
    by case_bool_decide.
Qed.
Lemma runner_cmds_plain key restored : forallb carried (runner_setup ++ githubRunnerSSHSetup key ++ register_cmds restored ++ runner_services) = true.
Proof.
  plain_list.
  - unfold githubRunnerSSHSetup. by case_bool_decide.
  - destruct restored; [done|]. unfold register_cmds. plain_list. by apply forallb_fmap_all.
Qed.

(** *** Media *)
Lemma unit_name_plain p : one_line p = true → one_line (unitName p) = true.
Proof.
  intros H. unfold unitName. case_bool_decide; [done|]. apply sforall_concat_map; [by apply sforall_trim_right, sforall_trim_left|].
  intros c Hc. destruct (is_slash c); [done|]. destruct (bool_decide (c = " "%char)); [done|]. cbn [sforall]. by rewrite Hc.
Qed.
Lemma plan_plain src secrets p prompts : one_line (src_GuestPath src) = true → Plan src "ubuntu" secrets = Ok (p, prompts) →
  forallb one_line (p_Packages p) = true ∧ forallb file_plain (p_WriteFiles p) = true ∧ forallb carried (p_RunCmds p) = true.
Proof.
  intros Hg. pose proof (unit_name_plain _ Hg) as Hu.
  unfold Plan, planHostDir, planNFS, planSMB, planBlock, planUSB, err_plan. cbv zeta. intros H.
  repeat (case_match; try discriminate H); injection H as <- <-; split_and!; try reflexivity;
    cbn [p_WriteFiles forallb]; unfold file_plain, unit_file, creds_file; cbn [wf_Path wf_Permissions wf_Owner wf_Encoding wf_Content];
    rewrite !one_line_app, Hu; reflexivity.
Qed.
Lemma gather_plain sources secrets p missing p' missing' : Forall (λ src, one_line (src_GuestPath src) = true) sources →
  forallb one_line (p_Packages p) = true → forallb file_plain (p_WriteFiles p) = true → forallb carried (p_RunCmds p) = true →
  gather_media sources secrets p missing = Ok (p', missing') →
  forallb one_line (p_Packages p') = true ∧ forallb file_plain (p_WriteFiles p') = true ∧ forallb carried (p_RunCmds p') = true.
Proof.
  intros Hs. revert p missing. induction Hs as [|src sources Hg _ IH]; cbn; intros p missing H1 H2 H3; [by intros [= <- <-]|].
  destruct (Plan src "ubuntu" secrets) as [[q prompts]|e] eqn:Eq; [|done].
  destruct (plan_plain _ _ _ _ Hg Eq) as (Q1 & Q2 & Q3). apply IH; cbn [Merge p_Packages p_WriteFiles p_RunCmds];
    rewrite forallb_app; by apply andb_true_iff.
Qed.

(** ** The seed of each template *)
Definition seed_plain (cfg : VMConfig) : Prop := ∀ ci, c_CloudInit cfg = Some ci → plain_values ci = true.

(** The values that are put on lines of their own. *)
Record plain_options (o : Opts) : Prop := {
  plain_name : one_line (o_Name o) = true;
  plain_user : one_line (o_User o) = true;
  plain_paths : ∀ x, o_Jellyfin o = Some x → Forall (λ src, one_line (src_GuestPath src) = true) (jx_Libraries x);
}.

Ltac seed_values :=
  intros ci [= <-]; unfold plain_values, alpine_seed;
  cbn [ci_Hostname ci_User ci_DefaultUser ci_SSHKeys ci_Packages ci_WriteFiles ci_RunCmds];
  rewrite !andb_true_iff; split_and!; try assumption; try reflexivity; try apply default_user_plain; try apply packages_plain.

Section Makes.
Context (env : FetchEnv) (wenv : WinEnv) (nord : NordEnv) (host : Host) (conf : ProviderConfig) (now : Z) (ae : AsmEnv).
Context (petname : string) (salt : result string (list N)).

Lemma omarchy_seed name keys version opts : returns seed_plain (NewOmarchyConfig env host conf now salt name keys version opts).
Proof. unfold NewOmarchyConfig. run_template. by intros ci Hci. Qed.

Lemma made_seed_plain o keys m : plain_options o → forallb one_line keys = true →
  makes env wenv nord host conf now ae petname salt o keys m → returns seed_plain m.
Proof.
  intros [Hn Hu Hj] Hk Hm. destruct Hm as [Ht ?|Ht ?|Ht|Ht|Ht|Ht|Ht|g Ht Hg|Ht|Ht|x Ht Hx|Ht|x Ht Hx|x Ht Hx|x Ht Hx|tag Ht|Ht].
  - unfold NewUbuntuServerConfig. run_template; by intros ci Hci.
  - apply returns_ret. by intros ci Hci.
  - unfold NewDevboxConfig. cbv zeta. case_bool_decide; [apply omarchy_seed|]. run_template. subst.
    match goal with H : devboxRunCmds _ _ _ _ = Ok _ |- _ => apply devbox_plain in H as [? ?] end. seed_values.
  - unfold NewServerConfig. run_template. subst.
    match goal with H : serverRunCmds _ = Ok _ |- _ => apply server_plain in H as [? ?] end. seed_values.
  - unfold NewDesktopConfig. cbv zeta. case_bool_decide; [apply omarchy_seed|]. run_template.
    match goal with H : desktopRunCmds ?d ?u = (?a, ?b) |- _ =>
      destruct (desktop_plain d u) as [Hf Hc]; rewrite H in Hf, Hc; cbn [fst snd] in Hf, Hc end. seed_values.
  - apply omarchy_seed.
  - unfold NewDockerConfig. run_template. seed_values.
  - unfold NewGamingArchConfig, archGamingSetup. cbv zeta. run_template. seed_values.
    cbn. unfold or_default. case_bool_decide; [done|]. by destruct Hg as [->| ->].
  - unfold NewGamingBazziteConfig. run_template. by intros ci Hci.
  - apply returns_ret. by intros ci Hci.
  - unfold torrent_config, NewTorrentConfig. case_bool_decide.
    + unfold NewTorrentAlpineConfig. run_template. seed_values; [apply alpine_files_plain|apply alpine_cmds_plain].
    + run_template. seed_values; [|apply torrent_files_plain|apply torrent_cmds_plain].
      by destruct (tx_NordConf x), (tx_WireGuard x), (bool_decide (tx_NFSMounts x = [])).
  - unfold jellyfin_config, NewJellyfinConfig. run_template. subst.
    match goal with H : gather_media _ _ _ _ = Ok _ |- _ => apply gather_plain in H as (? & ? & ?); [|..|reflexivity] end.
    + seed_values; plain_list; done.
    + destruct (o_Jellyfin o) as [x|]; [by apply Hj|constructor].
    + done.
    + done.
  - unfold NewDNSSinkConfig. run_template. seed_values.
  - unfold NewBitmagnetConfig. run_template; seed_values; apply bitmagnet_files_plain || apply bitmagnet_cmds_plain.
  - unfold runner_config, NewGitHubRunnerConfig, githubRunnerCloudInit. run_template. seed_values. apply runner_cmds_plain.
  - unfold NewWindowsConfig. run_template; try (by intros ci Hci). destruct (helios_options o); [|by intros ci Hci].
    unfold applyHelios. cbv zeta. intros ci. by destruct (bool_decide (pc_OVMFCodePath conf = "")).
  - unfold NewTruenasConfig. run_template. by intros ci Hci.
Qed.
End Makes.

(** ** The seed after the overrides *)
Definition add_files (fs : list CloudInitWriteFile) (ci : CloudInitConfig) : CloudInitConfig :=
  mkCloudInitConfig (ci_Hostname ci) (ci_User ci) (ci_Password ci) (ci_DefaultUser ci) (ci_SSHKeys ci) (ci_Packages ci) (ci_RunCmds ci)
    (ci_WriteFiles ci ++ fs).

Lemma guest_seed o cfg : ∃ pw, c_CloudInit (override_guest o cfg) = (λ ci, set_password (default (ci_Password ci) pw) ci) <$> c_CloudInit cfg.
Proof.
  exists (if bool_decide (o_Password o = "") then None else Some (o_Password o)). unfold override_guest.
  destruct (bool_decide (o_Password o = "")).
  - transitivity (c_CloudInit cfg); [by destruct (0 <? o_SSHPort o), (o_NoAutoInstall o || _)|].
    by destruct (c_CloudInit cfg) as [[]|].
  - by destruct (0 <? o_SSHPort o), (o_NoAutoInstall o || _).
Qed.
Lemma mirror_seed conf ae cfg : ∃ fs, forallb file_plain fs = true ∧ c_CloudInit (applyMirror conf ae cfg) = add_files fs <$> c_CloudInit cfg.
Proof.
  unfold applyMirror. destruct (c_CloudInit cfg) as [ci|] eqn:E; [|by exists []].
  assert (Hid : add_files [] ci = ci) by (unfold add_files; rewrite app_nil_r; by destruct ci).
  destruct (negb _); [exists []; by rewrite E; cbn; rewrite Hid|].
  destruct (Resolve _ _ _ _) as [url|]; [|exists []; by rewrite E; cbn; rewrite Hid].
  by exists [mkCloudInitWriteFile "/etc/pacman.d/mirrorlist" (PacmanMirrorlistContent url) "0644" "" false ""].
Qed.
Lemma overrides_seed conf ae base o out : applyOverrides conf ae base o = Ok out →
  ∃ pw, c_CloudInit out = (λ ci, set_password (default (ci_Password ci) pw) ci) <$> c_CloudInit base.
Proof.
  intros (c1 & mine & Hq & _ & ->)%applyOverrides_inv. apply override_qemu_inv in Hq as (env' & -> & _). rewrite override_machine_eq.
  match goal with |- context [override_devices ae o ?c] => destruct (override_devices_eq ae o c) as (nested & sp & vfs & ->) end.
  match goal with |- context [ClampMacOSMinimums ?c] => destruct (Clamp_eq c) as (cpus & mem & ->) end.
  match goal with |- context [override_guest o ?c] => destruct (guest_seed o c) as (pw & E) end.
  exists pw. exact E.
Qed.
Lemma Build_seed host conf ae ts o cfg : Build host conf ae ts o = Ok cfg → ∃ keys base pw fs,
  loadSSHKeys ae (o_SSHKeyFile o) = Ok keys ∧ configFromTemplate host conf ae ts o keys = Ok base ∧ forallb file_plain fs = true ∧
  c_CloudInit cfg = (λ ci, add_files fs (set_password (default (ci_Password ci) pw) ci)) <$> c_CloudInit base.
Proof.
  intros (keys & base & out & _ & Hk & Hb & _ & _ & Ho & ->)%Build_inv. apply overrides_seed in Ho as (pw & E).
  destruct (mirror_seed conf ae out) as (fs & Hf & E'). exists keys, base, pw, fs. split_and!; try done.
  rewrite E', E. by destruct (c_CloudInit base).
Qed.

(** The keys are lines of a file, and vee's own. *)
Lemma split_one_line s : Forall (λ l, one_line l = true) (Split newline s).
Proof.
  induction s as [|c s IH]; [by repeat constructor|]. destruct (decide (c = newline)) as [->|Hc]; [by constructor|].
  destruct (Split_cons c s Hc) as (x & xs & E & ->). rewrite E in IH. inversion IH as [|? ? Hx Hxs]; subst. constructor; [|done].
  apply andb_true_iff. split; [|exact Hx]. by apply negb_true_iff, bool_decide_eq_false.
Qed.
Lemma key_lines_plain data : forallb one_line (key_lines data) = true.
Proof.
  apply forallb_forall. intros l Hl%list_elem_of_In. unfold key_lines in Hl. apply list_elem_of_filter in Hl as [_ Hl].
  apply list_elem_of_fmap in Hl as (x & -> & Hx). apply sforall_trim_right, sforall_trim_left.
  exact (proj1 (Forall_forall _ _) (split_one_line _) x Hx).
Qed.
Lemma keys_plain ae path keys : (∀ k, ae_vee_key ae = Ok k → one_line k = true) → loadSSHKeys ae path = Ok keys → forallb one_line keys = true.
Proof.
  intros Hv. unfold loadSSHKeys. set (user := if bool_decide (path = "") then _ else _).
  assert (Hu : ∀ ks, user = Ok ks → forallb one_line ks = true).
  { subst user. intros ks. case_bool_decide; [by intros [= <-]|]. destruct (ae_keys ae path); [|done]. intros [= <-]. apply key_lines_plain. }
  destruct user as [ks|]; [|done]. destruct (ae_vee_key ae) as [k|]; [|done]. intros [= <-].
  rewrite forallb_app, (Hu ks eq_refl). cbn. by rewrite (Hv k eq_refl).
Qed.

Lemma delivered ci fs pw : plain_values ci = true → forallb file_plain fs = true →
  plain_values (add_files fs (set_password pw ci)) = true.
Proof. unfold plain_values. cbn. rewrite !andb_true_iff, forallb_app. intros; split_and!; tauto || (apply andb_true_iff; tauto). Qed.

(** C14: a guest is told what its template says.  A machine built from a
    template other than macOS, whose name, user and guest paths are single
    lines, has a seed from which a YAML reader gets every command of the
    template, in order and after those that set passwords, and every file of
    the template with its contents, whatever the other values are: tokens,
    keys, mounts and endpoints included. *)
Theorem template_seed_delivered env wenv nord host conf now petname salt macos ae w o cfg ci :
  plain_options o → (∀ k, ae_vee_key ae = Ok k → one_line k = true) → o_Template o ∈ KnownTemplates → o_Template o ≠ "macos" →
  Build host conf ae (vee_templates env wenv nord host conf now petname salt macos w) o = Ok cfg → c_CloudInit cfg = Some ci →
  ∃ keys base seed,
    configFromTemplate host conf ae (vee_templates env wenv nord host conf now petname salt macos w) o keys = Ok base ∧
    c_CloudInit base = Some seed ∧
    (clipped <$> ci_RunCmds seed) `suffix_of` read_runcmd (renderUserData ci) ∧
    ((λ wf, (wf_Path wf, clipped (wf_Content wf))) <$> ci_WriteFiles seed) `prefix_of` read_write_files (renderUserData ci).
Proof.
  intros Ho Hv Ht Hm (keys & base & pw & fs & Hk & Hb & Hf & Hc)%Build_seed Hci.
  destruct (template_makes _ _ _ _ _ _ _ _ _ _ _ _ _ _ Ht Hm Hb) as (m & Hmake & Hrun).
  assert (Hp : seed_plain base).
  { eapply returns_run; [|exact Hrun]. eapply made_seed_plain; [exact Ho|by eapply keys_plain|exact Hmake]. }
  rewrite Hci in Hc. destruct (c_CloudInit base) as [seed|] eqn:Es; [|done]. injection Hc as ->.
  destruct (user_data_roundtrip _ (delivered seed fs (default (ci_Password seed) pw) (Hp _ Es) Hf)) as [Hr Hw].
  exists keys, base, seed. split_and!; [done|done|rewrite Hr|rewrite Hw].
  - unfold run_cmds. rewrite fmap_app. by eexists.
  - cbn [add_files ci_WriteFiles set_password]. rewrite fmap_app. by eexists.
Qed.

Module SeedsExample.
Import CatalogueExample.
Lemma template_seed_delivered_witness : ∃ seed, (clipped <$> ci_RunCmds seed) `suffix_of`
  read_runcmd (renderUserData (default seed (c_CloudInit (built (opts "web" "server"))))).
Proof.
  destruct (template_seed_delivered env tools VpnExample.env Scenario.linux conf 0 "petname" (Ok []) no_macos ae cached (opts "web" "server")
    (built (opts "web" "server")) (default (mkCloudInitConfig "" "" "" "" [] [] [] []) (c_CloudInit (built (opts "web" "server")))))
    as (keys & base & seed & _ & _ & Hr & _).
  - split; [reflexivity|reflexivity|discriminate].
  - intros k [= <-]. reflexivity.
  - apply (bool_decide_unpack _). vm_compute. exact I.
  - discriminate.
  - vm_compute. reflexivity.
  - vm_compute. reflexivity.
  - exists seed. assert (E : ∀ d, default d (c_CloudInit (built (opts "web" "server"))) =
      default (mkCloudInitConfig "" "" "" "" [] [] [] []) (c_CloudInit (built (opts "web" "server")))) by (intros d; vm_compute; reflexivity).
    rewrite E. exact Hr.
Defined.
End SeedsExample.
