(* ===== verification/Install.v ===== *)
(** * Installing guests

    Which disks the installers of the catalogue write to, and the partitions
    they make: Windows ([internal/templates/windows.go] with the script of
    [internal/images/windows.go]) and Omarchy ([internal/templates/omarchy.go]);
    and what the options of the user change about a template's machine. *)
From S2P Require Import Prelude GoStrings Config World Lifecycle Guest Gpu Sha1 Shacrypt CloudInit Images Media Vpn KillSwitch Qemu Storage Vz Build Templates Runner Gaming Windows Catalogue Boot.

Open Scope Z_scope.

(** ** The disks Windows Setup writes to

    Setup numbers the hard disks in the order they are attached.  The answer
    file wipes disk 0; the start-up script of the medium wipes the disk with
    the highest number, to run Setup from it. *)
Definition hard_disks (cfg : VMConfig) : list DiskConfig := filter (λ d, d_Media d = "disk") (c_Disks cfg).
Definition unattend_target (cfg : VMConfig) : option DiskConfig := head (hard_disks cfg).
Definition startnet_scratch (cfg : VMConfig) : option DiskConfig := last (hard_disks cfg).

(** *** A machine whose disks are the template's *)
Definition no_disks_asked (o : Opts) : Prop := o_Disk o = "" ∧ o_DataDisks o = [] ∧ o_BootDisk o = "".

Lemma Build_template_disks host conf ae ts o cfg : no_disks_asked o → Build host conf ae ts o = Ok cfg → ∃ keys base,
  configFromTemplate host conf ae ts o keys = Ok base ∧ c_Disks cfg = relocate_boot o (c_Disks base).
Proof.
  intros (Hd & Hdd & Hb) (keys & base & out & _ & Hk & Hbase & _ & _ & Ho & ->)%Build_inv. exists keys, base. split; [done|].
  destruct (applyMirror_eq conf ae out) as (ci & ->). apply applyOverrides_inv in Ho as (c1 & mine & Hq & Hm & ->).
  apply override_qemu_inv in Hq as (env' & -> & _). rewrite override_machine_eq.
  match goal with |- context [override_devices ae o ?c] => destruct (override_devices_eq ae o c) as (nested & sp & vfs & ->) end.
  match goal with |- context [override_guest o ?c] => destruct (override_guest_eq o c) as (ci' & ->) end.
  match goal with |- context [ClampMacOSMinimums ?c] => destruct (Clamp_eq c) as (cpus & mem & ->) end.
  assert (mine = []) as ->.
  { revert Hm. unfold all_disks. rewrite Hdd, Hb. cbn. case_bool_decide; by intros [= <-]. }
  cbn [c_Disks update]. rewrite app_nil_r. unfold add_extra, strip_qcow2. rewrite Hd, Hb, andb_false_r. reflexivity.
Qed.

Lemma windows_made_disks env wenv host conf now version name tag spice keys helios :
  returns (λ cfg, ∃ media interface iso extras, c_Disks cfg = windows_disks conf name media interface iso extras)
    (NewWindowsConfig env wenv host conf now version name tag spice keys helios).
Proof.
  unfold NewWindowsConfig. run_template; [by eexists _, _, _, _..|]. destruct helios as [h|]; [|by eexists _, _, _, _].
  unfold applyHelios. cbv zeta. eexists _, _, _, _. by destruct (bool_decide (pc_OVMFCodePath conf = "")).
Qed.


(** ** Cached downloads *)

Lemma run_wrap {A} what (m : ImgM A) w :
  wrap_error what m w = (match (m w).1 with Ok a => Ok a | Err e => Err (Wrapf what e) end, (m w).2).
Proof. unfold wrap_error. rewrite run_attempt. by destruct (m w) as [[a|e] w1]. Qed.

Lemma download_whole env url dst w r w' : DownloadToFile env url dst w = (r, w') →
  match r with
  | Ok _ => ∃ resp, fe_do env (iw_requests w) url = Ok resp ∧ r_StatusCode resp = 200 ∧ r_cut resp = None ∧
              iw_files w' = <[dst := r_Body resp]> (iw_files w)
  | Err _ => iw_files w' = iw_files w
  end.
Proof.
  unfold DownloadToFile, http_get, or_fail, ReadAll. rewrite run_bind.
  destruct (fe_do env (iw_requests w) url) as [resp|e] eqn:Er; [|by intros [= <- <-]].
  destruct (r_StatusCode resp =? 200) eqn:Es; [|by intros [= <- <-]]. cbn [negb].
  destruct (fe_create env dst); [by intros [= <- <-]|]. destruct (r_cut resp) eqn:Ec; [by intros [= <- <-]|].
  destruct (fe_close env dst); [by intros [= <- <-]|]. destruct (fe_rename env dst); [by intros [= <- <-]|].
  intros [= <- <-]. exists resp. apply Z.eqb_eq in Es. by split_and!.
Qed.

(** A cached download is whole.  [ensureCachedDownload] of a file that is
    not in the cache either leaves there the whole body of an answer of status
    200, read to its end, and returns its path, or fails and leaves nothing
    there, however the transfer ends; no other file changes.  A file in the
    cache is returned without a request. *)
Theorem cached_download_whole env conf url name w r w' : ensureCachedDownload env conf url name w = (r, w') →
  let dst := PathJoin [pc_ISOCachePath conf; name] in
  (∀ p, p ≠ dst → iw_files w' !! p = iw_files w !! p) ∧
  match iw_files w !! dst with
  | Some _ => r = Ok dst ∧ w' = w
  | None => match r with
            | Ok p => p = dst ∧ ∃ resp, fe_do env (iw_requests w) url = Ok resp ∧ r_StatusCode resp = 200 ∧ r_cut resp = None ∧
                        iw_files w' !! dst = Some (r_Body resp)
            | Err _ => iw_files w' !! dst = None
            end
  end.
Proof.
  unfold ensureCachedDownload, exists_file. rewrite run_gets. cbv zeta. set (dst := PathJoin _).
  destruct (iw_files w !! dst) as [c|] eqn:Ed; [by rewrite bool_decide_true by eauto; intros [= <- <-]|].
  rewrite bool_decide_false by (intros [? ?]; done). rewrite run_bind, run_wrap. unfold or_fail.
  destruct (fe_mkdir env (Dir dst)); [by intros [= <- <-]|]. cbn [throw mret GoM_ret fst snd]. rewrite run_bind, run_wrap.
  destruct (DownloadToFile env url dst w) as [r1 w1] eqn:E1. apply download_whole in E1. cbn [fst snd].
  destruct r1 as [[]|e]; intros [= <- <-].
  - destruct E1 as (resp & Hr & Hs & Hc & ->). split; [intros p Hp; by apply lookup_insert_ne|]. split; [done|].
    exists resp. split_and!; try done. apply lookup_insert_eq.
  - rewrite E1. done.
Qed.

(** ** The partitions of Omarchy *)

(** The two partitions are whole MiB apart, in order, and end a MiB before the
    end of the disk the template makes, where the second table is. *)
Theorem omarchy_layout_fits :
  ParseDiskSize (Itoa (Z.shiftr omarchyDiskBytes 30) +:+ "G") = Ok (false, omarchyDiskBytes) ∧
  Forall (λ z, z `mod` mib = 0) [bootStart; bootSize; mainStart; mainSize] ∧
  mib <= bootStart ∧ bootStart + bootSize <= mainStart ∧ 0 < mainSize ∧ mainStart + mainSize <= omarchyDiskBytes - mib.
Proof. split; [vm_compute; reflexivity|]. split; [repeat constructor|]. vm_compute. split_and!; congruence. Qed.

Module InstallExample.
Import CatalogueExample.

(** A data disk of the user comes after the scratch disk, so the start-up script
    of the install medium wipes it. *)
Theorem data_disk_is_scratch :
  let cfg := built ((opts "win" "windows") <| o_DataDisks := ["/dev/sdb"] |>) in
  ∃ d, startnet_scratch cfg = Some d ∧ d_Path d = "/dev/sdb" ∧ d_Passthrough d = true ∧ d_Scratch d = false.
Proof. vm_compute. eexists. by split_and!. Qed.

Lemma cached_download_whole_witness : iw_files (ensureCachedDownload env conf "https://host/a.iso" "a.iso" (mkImgWorld ∅ 0)).2 !! "/cache/a.iso"
  = Some "body".
Proof.
  destruct (cached_download_whole env conf "https://host/a.iso" "a.iso" (mkImgWorld ∅ 0)
    (ensureCachedDownload env conf "https://host/a.iso" "a.iso" (mkImgWorld ∅ 0)).1
    (ensureCachedDownload env conf "https://host/a.iso" "a.iso" (mkImgWorld ∅ 0)).2) as [_ (_ & resp & [= <-] & _ & _ & H)].
  - vm_compute. reflexivity.
  - exact H.
Defined.

(** The boot-free medium a failed run of the tool leaves is taken for a good one
    the next time. *)
Definition failing : WinEnv := {|
  we_stat _ := Ok false; we_read _ := Ok ""; we_udisksctl args := (None, if bool_decide (head args = Some "mount") then "Mounted at /mnt" else "Mapped as /dev/loop0.");
  we_exists _ := true; we_mkdir _ := None; we_symlink _ := None; we_write _ := None; we_tempdir := Ok "/tmp/stage";
  we_wine args := (Some ImagesExample.reset, Some "half"); we_container _ _ := (None, Some "iso") |}.
Definition tooled : FetchEnv := env_with (λ _, true).
Theorem partial_medium_accepted :
  let first := ensureNoPromptISO tooled failing conf "/cache/win.iso" (mkImgWorld {[ "/cache/oscdimg.exe" := "exe" ]} 0) in
  first.1 = Ok "/cache/win.iso" ∧
  let again := ensureNoPromptISO tooled failing conf "/cache/win.iso" first.2 in
  again.1 = Ok "/cache/win-noprompt.iso" ∧ iw_files again.2 !! "/cache/win-noprompt.iso" = Some "half".
Proof. vm_compute. by split_and!. Qed.
End InstallExample.
