(* ===== verification/Identity.v ===== *)
(** * The identity of a CI runner, kept on the host

    [internal/runnercreds], [internal/runnerssh] and [internal/runnersetup]: the
    host's age identity, the encrypted snapshot of a runner's registration, the
    SSH keys of the runners, and what a (re)created runner gets of them.

    Every system call can fail: [ce_fails] says with what the [n]th one fails,
    if it does.  age, the two ends of tar and the keys' mathematics are
    interfaces; the guest is a function from commands to answers. *)
From S2P Require Import Prelude GoStrings Config Store World Paths Guest Tables Sha1 Images Media Vpn KillSwitch Qemu Build Templates Runner Catalogue.

Open Scope Z_scope.
#[local] Arguments PathJoin : simpl never.

(** ** Base64, read ([base64.StdEncoding.DecodeString]) *)
Definition digit_value (c : ascii) : option N :=
  (λ p, N.of_nat p.1) <$> list_find (c =.) (String.list_ascii_of_string Base64.std).
Definition pad : ascii := "=".
Definition corrupt : error := Errorf "illegal base64 data" [].
Definition byte (n : N) : ascii := ascii_of_N (n mod 256).

(** Groups of four digits; the last one may be padded. *)
Fixpoint decode_groups (cs : list ascii) : result error string :=
  match cs with
  | [] => Ok ""
  | a :: b :: c :: d :: cs =>
      match digit_value a, digit_value b with
      | Some a, Some b =>
          let first := byte (a * 4 + b / 16) in
          if bool_decide (d = pad) then
            if bool_decide (cs = []) then
              if bool_decide (c = pad) then Ok (String first "")
              else match digit_value c with Some c => Ok (String first (String (byte (b * 16 + c / 4)) "")) | None => Err corrupt end
            else Err corrupt
          else
            match digit_value c, digit_value d, decode_groups cs with
            | Some c, Some d, Ok s => Ok (String first (String (byte (b * 16 + c / 4)) (String (byte (c * 64 + d)) s)))
            | _, _, _ => Err corrupt
            end
      | _, _ => Err corrupt
      end
  | _ => Err corrupt
  end%N.
Definition is_line_end (c : ascii) : bool := bool_decide (c = newline) || bool_decide (c = "013"%char).
Definition DecodeString (s : string) : result error string :=
  decode_groups (filter (λ c, is_line_end c = false) (String.list_ascii_of_string s)).
Definition decodeBase64 (b : string) : result error string := DecodeString (TrimSpace b).

(** ** The host's files *)
Definition octal (u g o : Z) : Z := u * 64 + g * 8 + o.

Record CredEnv := mkCredEnv {
  ce_home : result error string;                 (* [os.UserHomeDir] *)
  ce_fails : nat → option string;                (* the failure of the [n]th call *)
  ce_partial : nat → string → string;            (* what a write that fails leaves *)
  ce_random : nat → result error (list N);       (* [rand.Read] of eight bytes *)
}.
(** A file has a content and a mode. *)
Record CredWorld := mkCredWorld { cw_files : gmap string (string * Z); cw_calls : nat }.
#[export] Instance CredWorld_eta : Settable CredWorld := λ w, mkCredWorld (cw_files w) (cw_calls w).
Abbreviation CredM := (GoM CredWorld error).

(** [filippo.io/age] with X25519 identities.  [encrypt] is [age.Encrypt] with its
    [Write] and [Close]; what is random in it and in [generate] depends on the
    moment of the call. *)
Class Age := {
  Identity : Type;
  ParseX25519Identity : string → result error Identity;
  identity_string : Identity → string;
  GenerateX25519Identity : nat → result error Identity;
  age_encrypt : nat → Identity → string → result error string;
  age_decrypt : Identity → string → result error string;
}.
(** What age documents: an identity is a line of printable text that denotes it,
    and decrypts what was encrypted to its recipient. *)
Class AgeLaws `{Age} : Prop := {
  identity_reads_back : ∀ id, ParseX25519Identity (identity_string id) = Ok id;
  identity_line : ∀ id, sforall (λ c, negb (is_line_end c)) (identity_string id) = true;
  decrypts : ∀ n id data enc, age_encrypt n id data = Ok enc → age_decrypt id enc = Ok data;
}.

(** [archive/tar], the reading end: the entries up to the end of the archive or
    an error. *)
Record TarEntry := mkTarEntry { te_Name : string; te_Regular : bool; te_Mode : Z; te_Content : result error string }.
Class TarReader := tar_read : string → list TarEntry * option error.

(** [ssh.MarshalAuthorizedKey] of a fresh ed25519 key, and its private half in
    OpenSSH's format. *)
Class KeyGen := generate_ed25519 : nat → result error (string * string).

Section HostFiles.
Context (env : CredEnv).

Definition failed (what : string) : error := Errorf "system call failed" [what].
Definition tick (w : CredWorld) : CredWorld := w <| cw_calls := S (cw_calls w) |>.
Definition sys : CredM unit := λ w,
  (match ce_fails env (cw_calls w) with Some e => Err (failed e) | None => Ok tt end, tick w).
Definition look (p : string) : CredM (option (string * Z)) := gets (λ w, cw_files w !! p).
Definition put (p : string) (f : string * Z) : CredM unit := modify (λ w, w <| cw_files := <[p := f]> (cw_files w) |>).

Definition MkdirAll (p : string) : CredM unit := sys.
Definition ReadFile (p : string) : CredM string :=
  _ ← sys; f ← look p; match f with Some (c, _) => mret c | None => throw Files.ErrNotExist end.
Definition Stat (p : string) : CredM unit :=
  _ ← sys; f ← look p; match f with Some _ => mret tt | None => throw Files.ErrNotExist end.
(** [os.OpenFile(p, O_WRONLY|O_CREATE|O_EXCL, perm)] *)
Definition OpenExcl (p : string) (perm : Z) : CredM unit :=
  _ ← sys; f ← look p; match f with Some _ => throw (Errorf "file exists" [p]) | None => put p ("", perm) end.
Definition WriteOpen (p : string) (perm : Z) (data : string) : CredM unit :=
  n ← gets cw_calls;
  r ← attempt sys;
  match r with
  | Ok _ => put p (data, perm)
  | Err e => _ ← put p (ce_partial env n data, perm); throw e
  end.
Definition Close : CredM unit := sys.
Definition Remove (p : string) : CredM unit :=
  _ ← sys; f ← look p;
  match f with Some _ => modify (λ w, w <| cw_files := delete p (cw_files w) |>) | None => throw Files.ErrNotExist end.
Definition Rename (from to : string) : CredM unit :=
  _ ← sys; f ← look from;
  match f with
  | Some f => modify (λ w, w <| cw_files := <[to := f]> (delete from (cw_files w)) |>)
  | None => throw Files.ErrNotExist
  end.
Definition random_nonce : CredM (list N) := λ w, (ce_random env (cw_calls w), tick w).

(** [if err := m(); err != nil { cleanup; return fmt.Errorf("...: %w", err) }] *)
Definition or_undo {A} (m : CredM A) (undo : CredM unit) (what : string) : CredM A :=
  r ← attempt m;
  match r with Ok a => mret a | Err e => _ ← ignore undo; throw (Wrapf what e) end.
Definition wrapped {A} (what : string) (m : CredM A) : CredM A := or_undo m (mret tt) what.
Definition lifted {A} (r : result error A) : CredM A := match r with Ok a => mret a | Err e => throw e end.

(** A directory under [~/.vee], made if missing. *)
Definition vee_dir (d what : string) : CredM string :=
  home ← wrapped "home dir" (lifted (ce_home env));
  let dir := PathJoin [home; ".vee"; d] in
  _ ← wrapped what (MkdirAll dir); mret dir.

(** The temporary file that [writeSecret] and [writeFileAtomic] fill next to the
    destination. *)
Definition temp_path (dst : string) (nonce : list N) : string := PathJoin [Dir dst; "." +:+ hex_string nonce +:+ ".tmp"].
Definition write_temp (what dst data : string) (perm : Z) : CredM string :=
  nonce ← wrapped "temp nonce" random_nonce;
  let tmp := temp_path dst nonce in
  _ ← wrapped ("create " +:+ what) (OpenExcl tmp perm);
  _ ← or_undo (WriteOpen tmp perm data) (_ ← ignore Close; Remove tmp) ("write " +:+ what);
  _ ← or_undo Close (Remove tmp) ("close " +:+ what);
  mret tmp.
Definition writeSecret (dst data : string) : CredM string := write_temp "secret temp" dst data (octal 6 0 0).
Definition writeFileAtomic (dst data : string) (perm : Z) : CredM unit :=
  tmp ← write_temp "temp" dst data perm;
  or_undo (Rename tmp dst) (Remove tmp) ("install " +:+ dst).
Definition writeSecretFile (dst data : string) : CredM unit := writeFileAtomic dst data (octal 6 0 0).
End HostFiles.
#[global] Arguments temp_path : simpl never.

(** ** The host's identity and the runner's snapshot ([internal/runnercreds]) *)
Definition CredFiles : list string := [".credentials"; ".credentials_rsaparams"; ".runner"].
Definition remoteRunnerDir : string := "/opt/actions-runner".
Definition trimNewline (b : string) : string := trim_right is_line_end b.
Definition isNotExist (e : error) : bool := bool_decide (e = Files.ErrNotExist).

(** A guest's answers to commands over SSH. *)
Definition SSHRunner : Type := nat → string → result error string.

(** A file of the runner, relative to [remoteRunnerDir]. *)
Record RestoredFile := mkRestoredFile { rf_RelPath : string; rf_Content : string; rf_Mode : Z }.

Section Credentials.
Context (env : CredEnv) `{Age, TarReader, KeyGen}.

Definition identityPath : CredM string := dir ← vee_dir env "age" "create age dir"; mret (PathJoin [dir; "identity.txt"]).
Definition LoadOrCreateIdentity : CredM Identity :=
  path ← identityPath;
  data ← attempt (ReadFile env path);
  match data with
  | Ok data => wrapped "parse age identity" (lifted (ParseX25519Identity (trimNewline data)))
  | Err e =>
      if negb (isNotExist e) then throw (Wrapf "read age identity" e) else
      n ← gets cw_calls;
      id ← wrapped "generate age identity" (lifted (GenerateX25519Identity n));
      tmp ← writeSecret env path (identity_string id +:+ String newline "");
      _ ← or_undo (Rename env tmp path) (Remove env tmp) "install age identity";
      mret id
  end.

Definition snapshotsDir : CredM string := vee_dir env "runner-creds" "create snapshots dir".
Definition SnapshotPath (name : string) : CredM string := dir ← snapshotsDir; mret (PathJoin [dir; name +:+ ".age"]).
Definition Has (name : string) : CredM bool :=
  path ← attempt (SnapshotPath name);
  match path with
  | Err _ => mret false
  | Ok path => r ← attempt (Stat env path); mret (is_ok r)
  end.

Definition Output (ssh : SSHRunner) (cmd : string) : CredM string := λ w, (ssh (cw_calls w) cmd, tick w).
Definition probeCmd : string := "test -f " +:+ remoteRunnerDir +:+ "/.credentials".
Definition tarCmd : string :=
  "cd " +:+ remoteRunnerDir +:+ " && files=''; for f in " +:+ Join " " CredFiles +:+ "; do [ -f " +:+ dq "$f" +:+ " ] && files="
  +:+ dq "$files $f" +:+ "; done; sudo tar -cf - $files | base64 -w0".
Definition Snapshot (ssh : SSHRunner) (id : Identity) (name : string) : CredM unit :=
  probe ← attempt (Output ssh probeCmd);
  if negb (is_ok probe) then throw (Wrapf "runner not yet registered (no .credentials)" Files.ErrNotExist) else
  out ← wrapped "tar runner creds" (Output ssh tarCmd);
  archive ← wrapped "decode cred archive" (lifted (decodeBase64 out));
  if bool_decide (archive = "") then throw (Errorf "empty cred archive from guest" []) else
  n ← gets cw_calls;
  enc ← wrapped "age encrypt" (lifted (age_encrypt n id archive));
  dst ← SnapshotPath name;
  tmp ← writeSecret env dst enc;
  or_undo (Rename env tmp dst) (Remove env tmp) "install cred snapshot".

(** The loop over the archive's entries. *)
Fixpoint restored_files (es : list TarEntry) (broken : option error) : result error (list RestoredFile) :=
  match es with
  | [] => match broken with Some e => Err (Wrapf "read tar entry" e) | None => Ok [] end
  | e :: es =>
      if negb (te_Regular e) then restored_files es broken else
      match te_Content e with
      | Err err => Err (Wrapf ("read tar file " +:+ te_Name e) err)
      | Ok content =>
          match restored_files es broken with
          | Ok fs => Ok (mkRestoredFile (Clean (te_Name e)) content (te_Mode e) :: fs)
          | Err err => Err err
          end
      end
  end.
Definition Restore (id : Identity) (name : string) : CredM (list RestoredFile) :=
  path ← SnapshotPath name;
  enc ← attempt (ReadFile env path);
  match enc with
  | Err e => throw (Wrapf (if isNotExist e then "no runner snapshot at " +:+ path else "read snapshot") e)
  | Ok enc =>
      archive ← wrapped "age decrypt" (lifted (age_decrypt id enc));
      let '(entries, broken) := tar_read archive in
      files ← lifted (restored_files entries broken);
      if bool_decide (files = []) then throw (Errorf "snapshot decrypted to no files" [path]) else mret files
  end.

(** [cancelled n]: whether the context has ended by the [n]th wait. *)
Fixpoint snapshot_loop (cancelled : nat → option error) (ssh : SSHRunner) (id : Identity) (name : string) (attempts : nat)
    (lastErr : option error) (i : nat) : CredM unit :=
  match attempts with
  | O => throw (match lastErr with
                | Some e => Wrapf "snapshot did not succeed" e
                | None => Errorf "snapshot did not succeed" []
                end)
  | S attempts =>
      r ← attempt (Snapshot ssh id name);
      match r with
      | Ok _ => mret tt
      | Err e => match cancelled i with
                 | Some stop => throw stop
                 | None => snapshot_loop cancelled ssh id name attempts (Some e) (S i)
                 end
      end
  end.
Definition SnapshotWithRetry (cancelled : nat → option error) (ssh : SSHRunner) (id : Identity) (name : string) (attempts : nat) : CredM unit :=
  snapshot_loop cancelled ssh id name attempts None 0.

(** ** SSH keys of the runners ([internal/runnerssh]) *)
Definition keyBase (name : string) : string := if bool_decide (name = "") then "global" else name.
Definition keyPaths (name : string) : CredM (string * string) :=
  d ← vee_dir env "runner-ssh" "create runner-ssh dir";
  mret (PathJoin [d; keyBase name +:+ ".age"], PathJoin [d; keyBase name +:+ ".pub"]).
Definition HasKey (name : string) : CredM bool :=
  paths ← attempt (keyPaths name);
  match paths with Err _ => mret false | Ok (agePath, _) => r ← attempt (Stat env agePath); mret (is_ok r) end.
Definition generateKeyPair : CredM (string * string) :=
  n ← gets cw_calls;
  '(authorized, priv) ← lifted (generate_ed25519 n);
  mret (TrimSpace authorized +:+ " vee-runner", priv).
Definition encrypt (id : Identity) (data : string) : CredM string :=
  n ← gets cw_calls; wrapped "age encrypt" (lifted (age_encrypt n id data)).

Definition EnsureKey (id : Identity) (name : string) : CredM (string * bool) :=
  '(agePath, pubPath) ← keyPaths name;
  stat ← attempt (Stat env agePath);
  match stat with
  | Ok _ => data ← wrapped ("read public key " +:+ pubPath) (ReadFile env pubPath); mret (TrimSpace data, false)
  | Err e =>
      if negb (isNotExist e) then throw (Wrapf ("stat private key " +:+ agePath) e) else
      '(pubKey, privPEM) ← generateKeyPair;
      enc ← encrypt id privPEM;
      _ ← writeSecretFile env agePath enc;
      r ← attempt (writeFileAtomic env pubPath (pubKey +:+ String newline "") (octal 6 4 4));
      match r with
      | Err e => _ ← ignore (Remove env agePath); throw e
      | Ok _ => mret (pubKey, true)
      end
  end.
Definition PublicKey (name : string) : CredM (option string) :=
  '(_, pubPath) ← keyPaths name;
  data ← attempt (ReadFile env pubPath);
  match data with
  | Ok data => mret (Some (TrimSpace data))
  | Err e => if isNotExist e then mret None else throw (Wrapf ("read public key " +:+ pubPath) e)
  end.
Definition LoadPrivateKey (id : Identity) (name : string) : CredM string :=
  '(agePath, _) ← keyPaths name;
  enc ← attempt (ReadFile env agePath);
  match enc with
  | Err e => throw (Wrapf (if isNotExist e then "no runner ssh key at " +:+ agePath else "read private key " +:+ agePath) e)
  | Ok enc => wrapped ("age decrypt " +:+ agePath) (lifted (age_decrypt id enc))
  end.

(** ** What a runner is created with ([internal/runnersetup]) *)
Definition DefaultLabels : list string := ["self-hosted"; "linux"; "kvm"].
Record Result := mkResult { re_Extras : runnerExtras; re_PubKey : string; re_KeyCreated : bool; re_RestoredFiles : nat }.
Definition cred_file (f : RestoredFile) : RunnerCredFile := mkRunnerCredFile (rf_RelPath f) (SHA1.bytes_of (rf_Content f)) (rf_Mode f).
Definition restore_creds (name : string) : CredM (list RunnerCredFile) :=
  has ← Has name;
  if negb (has : bool) then mret [] else
  id ← wrapped "load age identity" LoadOrCreateIdentity;
  files ← wrapped ("restore runner creds for " +:+ name) (Restore id name);
  mret (cred_file <$> files).
Definition Prepare (name url : string) (labels : list string) (perInstanceKey : bool) (tokenFn : CredM string) : CredM Result :=
  if bool_decide (url = "") then throw (Errorf "a repo or org URL is required for the github-runner template" []) else
  restored ← restore_creds name;
  token ← (if bool_decide (length restored = 0%nat) then tokenFn else mret "");
  let keyName := if perInstanceKey then name else "" in
  id ← wrapped "load age identity" LoadOrCreateIdentity;
  '(pub, createdKey) ← wrapped "ensure runner ssh key" (EnsureKey id keyName);
  priv ← wrapped "load runner ssh key" (LoadPrivateKey id keyName);
  mret (mkResult (mkRunnerExtras url token (if bool_decide (labels = []) then DefaultLabels else labels) restored (SHA1.bytes_of priv))
          pub createdKey (length restored)).
End Credentials.

(** ** Base64 reads back *)
Section Base64Facts.
Ltac Zify.zify_post_hook ::= Z.to_euclidean_division_equations.

Lemma digit_value_digit n : (n < 64)%N → digit_value (Base64.digit Base64.std n) = Some n.
Proof.
  intros Hn.
  assert (H : forallb (λ k, bool_decide (digit_value (Base64.digit Base64.std (N.of_nat k)) = Some (N.of_nat k))) (seq 0 64) = true)
    by (vm_compute; reflexivity).
  rewrite forallb_forall in H. specialize (H (N.to_nat n)). rewrite N2Nat.id in H.
  eapply bool_decide_eq_true_1, H, in_seq. lia.
Qed.
Lemma digit_not_pad n : (n < 64)%N → Base64.digit Base64.std n ≠ pad.
Proof. intros Hn E. pose proof (digit_value_digit n Hn) as H. rewrite E in H. discriminate. Qed.

(** The bytes of four digits. *)
Lemma byte_eq n a : (a < 256)%N → (n mod 256 = a)%N → byte n = ascii_of_N a.
Proof. intros _ E. unfold byte. by rewrite E. Qed.

Lemma groups_read_back bs : Forall (λ b, (b < 256)%N) bs →
  decode_groups (String.list_ascii_of_string (Base64.EncodeToString bs)) = Ok (String.string_of_list_ascii (ascii_of_N <$> bs)).
Proof.
  unfold Base64.EncodeToString. revert bs. fix IH 1. intros [|a [|b [|c bs]]] Hbs; [done|..].
  all: repeat match goal with H : Forall _ (_ :: _) |- _ => apply Forall_cons in H as [? H] end.
  all: cbn [Base64.encode String.list_ascii_of_string String.append decode_groups].
  all: rewrite !digit_value_digit by lia.
  all: rewrite ?(bool_decide_eq_false_2 (Base64.digit Base64.std _ = pad)) by (apply digit_not_pad; lia); rewrite ?IH by done.
  all: cbn [fmap list_fmap String.string_of_list_ascii]; f_equal; repeat (f_equal; [apply byte_eq; lia|]); try done.
  all: f_equal; apply byte_eq; clear IH; lia.
Qed.

Lemma digit_plain n : (n < 64)%N → is_space (Base64.digit Base64.std n) = false.
Proof.
  intros Hn.
  assert (H : forallb (λ k, negb (is_space (Base64.digit Base64.std (N.of_nat k)))) (seq 0 64) = true) by (vm_compute; reflexivity).
  rewrite forallb_forall in H. specialize (H (N.to_nat n)). rewrite N2Nat.id in H. apply negb_true_iff, H, in_seq. lia.
Qed.
Lemma encode_plain bs : Forall (λ b, (b < 256)%N) bs → sforall (λ c, negb (is_space c)) (Base64.EncodeToString bs) = true.
Proof.
  unfold Base64.EncodeToString. revert bs. fix IH 1. intros [|a [|b [|c bs]]] Hbs; [done|..].
  all: repeat match goal with H : Forall _ (_ :: _) |- _ => apply Forall_cons in H as [? H] end.
  all: cbn [Base64.encode String.append sforall]; rewrite ?IH by done; clear IH; rewrite !digit_plain by lia; reflexivity.
Qed.
End Base64Facts.

Lemma filter_plain s : sforall (λ c, negb (is_space c)) s = true →
  filter (λ c, is_line_end c = false) (String.list_ascii_of_string s) = String.list_ascii_of_string s.
Proof.
  induction s as [|c s IH]; [done|]. cbn [sforall String.list_ascii_of_string]. intros [Hc Hs]%andb_true_iff.
  rewrite filter_cons_True, IH; [done..|].
  unfold is_line_end. apply orb_false_iff. split; case_bool_decide as E; [subst c; discriminate Hc|done|subst c; discriminate Hc|done].
Qed.
Lemma bytes_below s : Forall (λ b, (b < 256)%N) (SHA1.bytes_of s).
Proof. unfold SHA1.bytes_of. apply Forall_fmap, Forall_true. intros c. cbn. apply N_ascii_bounded. Qed.
Lemma bytes_back s : String.string_of_list_ascii (ascii_of_N <$> SHA1.bytes_of s) = s.
Proof.
  unfold SHA1.bytes_of. rewrite <-list_fmap_compose.
  rewrite (list_fmap_ext _ id) by (intros; apply ascii_N_embedding). rewrite list_fmap_id. apply String.string_of_list_ascii_of_string.
Qed.
(** What [base64 -w0] prints is read back. *)
Lemma decodeBase64_encoded s : decodeBase64 (Base64.EncodeToString (SHA1.bytes_of s)) = Ok s.
Proof.
  pose proof (bytes_below s) as Hb. pose proof (encode_plain _ Hb) as Hp. unfold decodeBase64, DecodeString.
  rewrite TrimSpace_id, filter_plain, groups_read_back, bytes_back by done. done.
Qed.

(** ** Files are replaced whole *)
Section Atomic.
Context (env : CredEnv).

(** What an attempt to replace [dst] may leave beside it. *)
Definition leftover (dst : string) (perm : Z) (w w' : CredWorld) : Prop :=
  ∃ nonce c, cw_files w !! temp_path dst nonce = None ∧ cw_files w' = <[temp_path dst nonce := (c, perm)]> (cw_files w).

Lemma write_temp_spec what dst data perm w r w' : write_temp env what dst data perm w = (r, w') →
  match r with
  | Ok tmp => (∃ nonce, tmp = temp_path dst nonce) ∧ cw_files w !! tmp = None ∧ cw_files w' = <[tmp := (data, perm)]> (cw_files w)
  | Err _ => cw_files w' = cw_files w ∨ leftover dst perm w w'
  end.
Proof.
  unfold write_temp, wrapped, or_undo, OpenExcl, WriteOpen, Close, Remove, sys, look, put, random_nonce, tick.
  unfold mbind, GoM_bind, attempt, ignore, gets, modify, throw, mret, GoM_ret, update. cbn.
  destruct (ce_random env (cw_calls w)) as [nonce|e]; cbn; [|intros [= <- <-]; by left].
  set (tmp := temp_path dst nonce).
  destruct (ce_fails env (S (cw_calls w))) as [e|]; cbn; [intros [= <- <-]; by left|].
  destruct (cw_files w !! tmp) as [f|] eqn:Etmp; cbn; [intros [= <- <-]; by left|].
  destruct (ce_fails env (S (S (cw_calls w)))) as [e|]; cbn.
  - destruct (ce_fails env (S (S (S (cw_calls w))))) as [e'|]; cbn.
    all: destruct (ce_fails env (S (S (S (S (cw_calls w)))))) as [e''|]; cbn; rewrite ?lookup_insert_eq; intros [= <- <-]; cbn.
    all: rewrite ?insert_insert_eq, ?delete_insert_id by done.
    all: first [by left | right; eexists _, _; split; [exact Etmp|reflexivity]].
  - destruct (ce_fails env (S (S (S (cw_calls w))))) as [e'|]; cbn.
    + destruct (ce_fails env (S (S (S (S (cw_calls w)))))) as [e''|]; cbn; rewrite ?lookup_insert_eq; intros [= <- <-]; cbn.
      all: rewrite ?insert_insert_eq, ?delete_insert_id by done.
      all: first [by left | right; eexists _, _; split; [exact Etmp|reflexivity]].
    + intros [= <- <-]. cbn. rewrite insert_insert_eq. eauto.
Qed.

(** Temporary files are told by their suffix. *)
Lemma Dir_nonempty p : Dir p ≠ "".
Proof.
  unfold Dir. destruct (rev (Split "/" p)) as [|x ws]; [discriminate|].
  destruct (Join "/" (rev ws)); [by destruct (IsAbs p)|apply Clean_nonempty].
Qed.
Lemma hex_no_slash bs : no_slash (hex_string bs).
Proof.
  assert (Hd : ∀ n, not_slash (hex_digit n) = true).
  { intros n. unfold hex_digit. destruct (String.get _ _) as [c|] eqn:E; [|done]. cbn.
    destruct (N.to_nat n) as [|k]; [cbn in E; by injection E as <-|].
    do 15 (destruct k as [|k]; [cbn in E; by injection E as <-|]). by destruct k. }
  unfold no_slash, hex_string. induction bs as [|b bs IH]; [done|]. cbn [foldr sforall]. by rewrite !Hd, IH.
Qed.
Lemma no_slash_app a b : no_slash a → no_slash b → no_slash (a +:+ b).
Proof. unfold no_slash. rewrite sforall_app. by intros -> ->. Qed.

(** The last element of a path under a directory. *)
Lemma under_last d w : d ≠ "" → no_slash w → proper_elem w → last_elem (PathJoin [d; w]) w.
Proof. intros Hd Hw Hp. apply PathJoin_last; [done| |done]. split; [done|by left]. Qed.
Lemma under_suffix d w suf : d ≠ "" → no_slash w → proper_elem w → no_slash suf →
  HasSuffix (PathJoin [d; w]) suf = HasSuffix w suf.
Proof.
  intros Hd Hw Hp Hs. apply eq_bool_prop_intro. rewrite !Is_true_true. apply HasSuffix_last; [by apply under_last|done].
Qed.
Lemma temp_suffix dst nonce : HasSuffix (temp_path dst nonce) ".tmp" = true.
Proof.
  unfold temp_path. rewrite under_suffix; [|apply Dir_nonempty| | |done].
  - rewrite <-append_assoc. apply HasSuffix_app.
  - apply no_slash_app; [done|]. apply no_slash_app; [apply hex_no_slash|done].
  - split_and!; [done|..]; intros E; pose proof (f_equal String.length E) as L; rewrite !length_append in L; cbn in L; lia.
Qed.

(** Everything but temporary files is as it was. *)
Definition steady (w w' : CredWorld) : Prop := ∀ p, HasSuffix p ".tmp" = false → cw_files w' !! p = cw_files w !! p.
Lemma steady_eq w w' : cw_files w' = cw_files w → steady w w'.
Proof. intros E p _. by rewrite E. Qed.
Lemma steady_leftover dst perm w w' : leftover dst perm w w' → steady w w'.
Proof.
  intros (nonce & c & _ & E) p Hp. rewrite E, lookup_insert_ne; [done|]. intros <-. by rewrite temp_suffix in Hp.
Qed.

Definition install (what label dst data : string) (perm : Z) : CredM unit :=
  tmp ← write_temp env what dst data perm; or_undo (Rename env tmp dst) (Remove env tmp) label.
Lemma writeFileAtomic_install dst data perm : writeFileAtomic env dst data perm = install "temp" ("install " +:+ dst) dst data perm.
Proof. reflexivity. Qed.

Lemma install_bind {B} what label dst data perm (k : CredM B) w :
  (tmp ← write_temp env what dst data perm; _ ← or_undo (Rename env tmp dst) (Remove env tmp) label; k) w =
  (install what label dst data perm ≫= λ _, k) w.
Proof. unfold install. rewrite !run_bind. by destruct (write_temp _ _ _ _ _ w) as [[tmp|e] w']. Qed.

Lemma install_spec what label dst data perm w r w' : HasSuffix dst ".tmp" = false → install what label dst data perm w = (r, w') →
  match r with
  | Ok _ => cw_files w' = <[dst := (data, perm)]> (cw_files w)
  | Err _ => cw_files w' = cw_files w ∨ leftover dst perm w w'
  end.
Proof.
  intros Hdst. unfold install. rewrite run_bind. destruct (write_temp _ _ _ _ _ w) as [r1 w1] eqn:E1. apply write_temp_spec in E1.
  destruct r1 as [tmp|e]; [|intros [= <- <-]; exact E1]. destruct E1 as ([nonce ->] & Hnone & Hw1).
  unfold or_undo, Rename, Remove, sys, look, tick.
  unfold mbind, GoM_bind, attempt, ignore, gets, modify, throw, mret, GoM_ret, update. cbn.
  destruct (ce_fails env (cw_calls w1)) as [e|]; cbn.
  - destruct (ce_fails env (S (cw_calls w1))) as [e'|]; cbn; rewrite ?Hw1, ?lookup_insert_eq; intros [= <- <-]; cbn.
    + right. eexists _, _. split; [exact Hnone|done].
    + left. by apply delete_insert_id.
  - rewrite Hw1, lookup_insert_eq. intros [= <- <-]. cbn. by rewrite delete_insert_id.
Qed.
End Atomic.

(** ** What is sealed stays readable *)
Lemma append_suffix a b x y : a +:+ x = b +:+ y → String.length x = String.length y → x = y.
Proof.
  revert b. induction a as [|c a IH]; intros [|d b]; rewrite ?append_nil_l, ?append_cons.
  - done.
  - intros -> L. cbn in L. rewrite length_append in L. lia.
  - intros <- L. cbn in L. rewrite length_append in L. lia.
  - intros [= _ E] L. by apply (IH b).
Qed.
Lemma suffix_clash a x y : String.length x = String.length y → x ≠ y → HasSuffix (a +:+ x) y = false.
Proof. intros L N. apply not_true_is_false. intros [t E]%HasSuffix_spec. by apply N, (append_suffix a t). Qed.
Lemma with_suffix base suf : (2 < String.length suf)%nat → proper_elem (base +:+ suf).
Proof. intros L. split_and!; intros E; pose proof (f_equal String.length E) as F; rewrite length_append in F; cbn in F; lia. Qed.

Lemma wrapped_lift {A} what (r : result error A) w :
  wrapped what (lifted r) w = (match r with Ok a => Ok a | Err e => Err (Wrapf what e) end, w).
Proof. by destruct r. Qed.

(** A few operations only look. *)
Definition same_files (F : gmap string (string * Z)) (w : CredWorld) : Prop := cw_files w = F.
Section Looking.
Context (env : CredEnv) `{Age, TarReader, KeyGen} (F : gmap string (string * Z)).
Lemma sys_looks : preserves (same_files F) (sys env).
Proof. intros w Hw. exact Hw. Qed.
#[local] Hint Resolve sys_looks : gom.
Lemma vee_dir_looks d what : preserves (same_files F) (vee_dir env d what).
Proof. unfold vee_dir, wrapped, or_undo, lifted, MkdirAll. preserves_tac. Qed.
Lemma ReadFile_looks p : preserves (same_files F) (ReadFile env p).
Proof. unfold ReadFile, look. preserves_tac. Qed.
Lemma Stat_looks p : preserves (same_files F) (Stat env p).
Proof. unfold Stat, look. preserves_tac. Qed.
#[local] Hint Resolve vee_dir_looks ReadFile_looks Stat_looks : gom.
Lemma SnapshotPath_looks name : preserves (same_files F) (SnapshotPath env name).
Proof. unfold SnapshotPath, snapshotsDir. preserves_tac. Qed.
Lemma keyPaths_looks name : preserves (same_files F) (keyPaths env name).
Proof. unfold keyPaths. preserves_tac. Qed.
#[local] Hint Resolve SnapshotPath_looks keyPaths_looks : gom.
Lemma Has_looks name : preserves (same_files F) (Has env name).
Proof. unfold Has. preserves_tac. Qed.
Lemma Restore_looks id name : preserves (same_files F) (Restore env id name).
Proof. unfold Restore, wrapped, or_undo, lifted. preserves_tac. Qed.
Lemma LoadPrivateKey_looks id name : preserves (same_files F) (LoadPrivateKey env id name).
Proof. unfold LoadPrivateKey, wrapped, or_undo, lifted. preserves_tac. Qed.
Lemma generateKeyPair_looks : preserves (same_files F) generateKeyPair.
Proof. unfold generateKeyPair, lifted. preserves_tac. Qed.
Lemma encrypt_looks id data : preserves (same_files F) (encrypt id data).
Proof. unfold encrypt, wrapped, or_undo, lifted. preserves_tac. Qed.
Lemma Output_looks ssh cmd : preserves (same_files F) (Output ssh cmd).
Proof. intros w Hw. exact Hw. Qed.
End Looking.
(** So they keep whatever depends on the files only. *)
Lemma looks_preserve {A} (m : CredM A) (P : CredWorld → Prop) :
  (∀ F, preserves (same_files F) m) → (∀ w w', cw_files w' = cw_files w → P w → P w') → preserves P m.
Proof. intros Hm HP w Hw. apply (HP w); [|done]. by apply (Hm (cw_files w)). Qed.

Section Sealed.
Context `{Age} (home : string) (Hne : home ≠ "").

Definition vdir (d : string) : string := PathJoin [home; ".vee"; d].
Definition identity_file : string := PathJoin [vdir "age"; "identity.txt"].
Definition snapshot_file (name : string) : string := PathJoin [vdir "runner-creds"; name +:+ ".age"].
Definition key_file (name : string) : string := PathJoin [vdir "runner-ssh"; keyBase name +:+ ".age"].
Definition pub_file (name : string) : string := PathJoin [vdir "runner-ssh"; keyBase name +:+ ".pub"].

(** The identity on file, and the secrets sealed to it. *)
Definition holds (id : Identity) (w : CredWorld) : Prop :=
  ∃ m, cw_files w !! identity_file = Some (identity_string id +:+ String newline "", m).
Definition opened (id : Identity) (w : CredWorld) : Prop :=
  holds id w ∧ ∀ p enc m, HasSuffix p ".age" = true → cw_files w !! p = Some (enc, m) → ∃ data, age_decrypt id enc = Ok data.
(** The state of a host: nothing yet, or an identity that opens every secret. *)
Definition sealed (w : CredWorld) : Prop :=
  (cw_files w !! identity_file = None ∧ ∀ p, HasSuffix p ".age" = true → cw_files w !! p = None) ∨ ∃ id, opened id w.

Lemma vdir_nonempty d : vdir d ≠ "".
Proof. unfold vdir. destruct home as [|c h]; [done|]. apply Clean_nonempty. Qed.
Lemma vfile_suffix d base suf suf' : no_slash base → no_slash suf → no_slash suf' → (2 < String.length suf)%nat →
  HasSuffix (PathJoin [vdir d; base +:+ suf]) suf' = HasSuffix (base +:+ suf) suf'.
Proof.
  intros Hb Hs Hs' L. apply under_suffix; [apply vdir_nonempty|by apply no_slash_app|by apply with_suffix|done].
Qed.
Lemma identity_suffix suf : suf ∈ [".tmp"; ".age"; ".pub"] → HasSuffix identity_file suf = false.
Proof.
  intros Hs. unfold identity_file. change "identity.txt" with ("identity" +:+ ".txt").
  repeat (apply elem_of_cons in Hs as [->|Hs]); [rewrite vfile_suffix by (done || cbn; lia); reflexivity..|]. by apply elem_of_nil in Hs.
Qed.
Lemma vfile_suffixes d base suf suf' : no_slash base → suf ∈ [".age"; ".pub"] → suf' ∈ [".tmp"; ".age"; ".pub"] →
  HasSuffix (PathJoin [vdir d; base +:+ suf]) suf' = bool_decide (suf = suf').
Proof.
  intros Hb Hs Hs'. assert (no_slash suf ∧ String.length suf = 4%nat) as [Hns L] by (repeat (apply elem_of_cons in Hs as [->|Hs]); [done..|]; by apply elem_of_nil in Hs).
  assert (no_slash suf' ∧ String.length suf' = 4%nat) as [Hns' L'] by (repeat (apply elem_of_cons in Hs' as [->|Hs']); [done..|]; by apply elem_of_nil in Hs').
  rewrite vfile_suffix by (done || lia). case_bool_decide as E; [subst; apply HasSuffix_app|]. apply suffix_clash; [lia|done].
Qed.
Lemma keyBase_no_slash name : no_slash name → no_slash (keyBase name).
Proof. intros Hn. unfold keyBase. by case_bool_decide. Qed.

Lemma opened_files id w w' : steady w w' → opened id w → opened id w'.
Proof.
  intros Hs [[m Hm] Ho]. split.
  - exists m. rewrite Hs; [done|]. apply identity_suffix. set_solver.
  - intros p enc m' Hp Hf. rewrite Hs in Hf; [by eapply Ho|]. apply HasSuffix_spec in Hp as [t ->]. by apply suffix_clash.
Qed.
Lemma opened_sealed id w : opened id w → sealed w.
Proof. intros Ho. right. by exists id. Qed.
Lemma sealed_files w w' : steady w w' → sealed w → sealed w'.
Proof.
  intros Hs [[Hi Ha]|[id Ho]]; [|right; exists id; by eapply opened_files]. left. split.
  - rewrite Hs; [done|]. apply identity_suffix. set_solver.
  - intros p Hp. rewrite Hs; [by apply Ha|]. apply HasSuffix_spec in Hp as [t ->]. by apply suffix_clash.
Qed.
Lemma opened_same id w w' : cw_files w' = cw_files w → opened id w → opened id w'.
Proof. intros E. apply opened_files. by apply steady_eq. Qed.
Lemma sealed_same w w' : cw_files w' = cw_files w → sealed w → sealed w'.
Proof. intros E. apply sealed_files. by apply steady_eq. Qed.

(** A secret is added, or a public file replaced. *)
Lemma opened_insert id w w' p data m : cw_files w' = <[p := (data, m)]> (cw_files w) → p ≠ identity_file →
  (HasSuffix p ".age" = true → ∃ s, age_decrypt id data = Ok s) → opened id w → opened id w'.
Proof.
  intros E Hp Hd [[mi Hi] Ho]. split.
  - exists mi. by rewrite E, lookup_insert_ne.
  - intros q enc m' Hq. rewrite E, lookup_insert_Some. intros [[<- [= -> ->]]|[_ Hf]]; [by apply Hd|by eapply Ho].
Qed.
Lemma opened_delete id w w' p : cw_files w' = delete p (cw_files w) → p ≠ identity_file → opened id w → opened id w'.
Proof.
  intros E Hp [[mi Hi] Ho]. split.
  - exists mi. by rewrite E, lookup_delete_ne.
  - intros q enc m' Hq. rewrite E, lookup_delete_Some. intros [_ Hf]. by eapply Ho.
Qed.
Lemma vfile_not_identity d base suf : no_slash base → suf ∈ [".age"; ".pub"] → PathJoin [vdir d; base +:+ suf] ≠ identity_file.
Proof.
  intros Hb Hs E. pose proof (vfile_suffixes d base suf suf Hb Hs ltac:(set_solver)) as F.
  rewrite E, bool_decide_eq_true_2 in F by done. rewrite identity_suffix in F by set_solver. done.
Qed.
End Sealed.

Section Invariant.
Context (env : CredEnv) `{AgeLaws, TarReader, KeyGen} (home : string) (Hhome : ce_home env = Ok home) (Hne : home ≠ "").
#[local] Abbreviation opened := (opened home).
#[local] Abbreviation sealed := (sealed home).

Lemma vee_dir_result d what w r w' : vee_dir env d what w = (r, w') → cw_files w' = cw_files w ∧ ∀ dir, r = Ok dir → dir = vdir home d.
Proof.
  intros E. split.
  - pose proof (vee_dir_looks env (cw_files w) d what w eq_refl) as F. by rewrite E in F.
  - intros dir ->. revert E. unfold vee_dir. rewrite Hhome. unfold wrapped, or_undo, MkdirAll, lifted, sys, attempt, ignore.
    unfold mbind, GoM_bind, throw, mret, GoM_ret. destruct (ce_fails env (cw_calls w)); [discriminate|]. by intros [= <- _].
Qed.

Lemma SnapshotPath_result name w r w' : SnapshotPath env name w = (r, w') →
  cw_files w' = cw_files w ∧ ∀ p, r = Ok p → p = snapshot_file home name.
Proof.
  unfold SnapshotPath, snapshotsDir. rewrite run_bind. destruct (vee_dir _ _ _ w) as [[dir|e] w1] eqn:E; apply vee_dir_result in E as [Ef Hd].
  - intros [= <- <-]. split; [done|]. intros p [= <-]. by rewrite (Hd dir).
  - intros [= <- <-]. by split.
Qed.
Lemma keyPaths_result name w r w' : keyPaths env name w = (r, w') →
  cw_files w' = cw_files w ∧ ∀ p, r = Ok p → p = (key_file home name, pub_file home name).
Proof.
  unfold keyPaths. rewrite run_bind. destruct (vee_dir _ _ _ w) as [[dir|e] w1] eqn:E; apply vee_dir_result in E as [Ef Hd].
  - intros [= <- <-]. split; [done|]. intros p [= <-]. by rewrite (Hd dir).
  - intros [= <- <-]. by split.
Qed.
Lemma identityPath_result w r w' : identityPath env w = (r, w') → cw_files w' = cw_files w ∧ ∀ p, r = Ok p → p = identity_file home.
Proof.
  unfold identityPath. rewrite run_bind. destruct (vee_dir _ _ _ w) as [[dir|e] w1] eqn:E; apply vee_dir_result in E as [Ef Hd].
  - intros [= <- <-]. split; [done|]. intros p [= <-]. by rewrite (Hd dir).
  - intros [= <- <-]. by split.
Qed.

Lemma ReadFile_result p w r w' : ReadFile env p w = (r, w') → cw_files w' = cw_files w ∧
  match r with
  | Ok c => ∃ m, cw_files w !! p = Some (c, m)
  | Err e => isNotExist e = true → cw_files w !! p = None
  end.
Proof.
  unfold ReadFile, sys, look, tick. unfold mbind, GoM_bind, gets, throw, mret, GoM_ret, update. cbn.
  destruct (ce_fails env (cw_calls w)) as [e|]; cbn; [intros [= <- <-]; cbn; split; [done|]; by intros E%bool_decide_eq_true|].
  destruct (cw_files w !! p) as [[c m]|]; intros [= <- <-]; cbn; eauto.
Qed.

Lemma trimNewline_line id : trimNewline (identity_string id +:+ String newline "") = identity_string id.
Proof. unfold trimNewline. rewrite trim_right_drop by done. apply trim_right_id, identity_line. Qed.

(** Replacing a file keeps what is sealed, whatever fails. *)
Lemma install_opened id what label dst data perm : HasSuffix dst ".tmp" = false → dst ≠ identity_file home →
  (HasSuffix dst ".age" = true → ∃ s, age_decrypt id data = Ok s) → preserves (opened id) (install env what label dst data perm).
Proof.
  intros Hd Hi Hs w Hw. destruct (install _ _ _ _ _ _ w) as [r w'] eqn:E. apply install_spec in E; [|done]. cbn.
  destruct r as [[]|e]; [by eapply opened_insert|]. destruct E as [E|E]; [by eapply opened_same|].
  eapply opened_files; [done| |done]. by eapply steady_leftover.
Qed.

Lemma LoadOrCreateIdentity_sealed w r w' : LoadOrCreateIdentity env w = (r, w') → sealed w →
  match r with Ok id => opened id w' | Err _ => sealed w' end.
Proof.
  unfold LoadOrCreateIdentity. rewrite run_bind. destruct (identityPath env w) as [[path|e] w1] eqn:E1; apply identityPath_result in E1 as [F1 Hp].
  2:{ intros [= <- <-]. by apply sealed_same. }
  rewrite (Hp path eq_refl). clear Hp. rewrite run_attempt. destruct (ReadFile env _ w1) as [rd w2] eqn:E2.
  apply ReadFile_result in E2 as [F2 Hr]. cbn [fst snd]. intros Hrun Hs. apply (sealed_same home Hne w w2) in Hs; [|congruence].
  destruct rd as [data|e].
  - destruct Hr as [m Hm]. destruct Hs as [[Hno _]|[id Ho]]; [rewrite F2 in Hno; congruence|].
    pose proof Ho as [[mi Hi] _]. rewrite F2, Hm in Hi. injection Hi as -> <-.
    rewrite trimNewline_line, identity_reads_back, wrapped_lift in Hrun. by injection Hrun as <- <-.
  - destruct (isNotExist e) eqn:Ee; cbn [negb] in Hrun; [|injection Hrun as <- <-; done].
    rewrite run_gets, run_bind, wrapped_lift in Hrun.
    destruct (GenerateX25519Identity (cw_calls w2)) as [id|eg]; [|by injection Hrun as <- <-].
    assert (Hins : ∃ r', install env "secret temp" "install age identity" (identity_file home) (identity_string id +:+ String newline "") (octal 6 0 0) w2 = (r', w')
                     ∧ match r' with Ok _ => r = Ok id | Err e => r = Err e end).
    { revert Hrun. unfold writeSecret. rewrite install_bind, run_bind. destruct (install _ _ _ _ _ _ w2) as [[[]|eo] w3]; intros [= <- <-]; by eexists. }
    destruct Hins as (r' & E3 & Er). apply install_spec in E3; [|apply identity_suffix; [done|set_solver]].
    specialize (Hr eq_refl). destruct Hs as [[Hno Ha]|[id' [[m Hm] _]]]; [|rewrite F2 in Hm; congruence].
    destruct r' as [[]|e3]; subst r.
    + split; [exists (octal 6 0 0); by rewrite E3, lookup_insert_eq|]. intros p enc m Hsuf. rewrite E3, lookup_insert_ne.
      * rewrite Ha by done. discriminate.
      * intros <-. by rewrite identity_suffix in Hsuf by (done || set_solver).
    + destruct E3 as [E3|E3]; [eapply sealed_same; [done..|by left]|]. eapply sealed_files; [done|by eapply steady_leftover|by left].
Qed.

(** Steps whose result is known. *)
Lemma preserves_known {A B} (P : CredWorld → Prop) (m : CredM A) (k : A → CredM B) :
  (∀ w r w', m w = (r, w') → P w → P w' ∧ ∀ a, r = Ok a → preserves P (k a)) → preserves P (m ≫= k).
Proof.
  intros Hm w Hw. rewrite run_bind. destruct (m w) as [r w'] eqn:E. destruct (Hm w r w' E Hw) as [Hw' Hk].
  destruct r as [a|e]; [by apply (Hk a)|done].
Qed.
Lemma preserves_lifted {A B} (P : CredWorld → Prop) what (r : result error A) (k : A → CredM B) :
  (∀ a, r = Ok a → preserves P (k a)) → preserves P (wrapped what (lifted r) ≫= k).
Proof.
  intros Hk. apply preserves_known. intros w r' w'. rewrite wrapped_lift. intros [= <- <-] Hw. split; [done|].
  intros a. destruct r as [a'|e]; [intros [= <-]; by apply Hk|discriminate].
Qed.
Lemma opened_looks {A} id (m : CredM A) : (∀ F, preserves (same_files F) m) → preserves (opened id) m.
Proof. intros Hm. apply looks_preserve; [done|]. by apply opened_same. Qed.

Lemma Snapshot_opened ssh id name : no_slash name → preserves (opened id) (Snapshot env ssh id name).
Proof.
  intros Hn. unfold Snapshot. apply preserves_bind; [apply preserves_attempt, opened_looks; intros F; apply Output_looks|]. intros probe.
  destruct (negb (is_ok probe)); [apply preserves_throw|].
  apply preserves_bind; [unfold wrapped, or_undo; preserves_tac; apply opened_looks; intros F; apply Output_looks|]. intros out.
  apply preserves_lifted. intros archive _. case_bool_decide; [apply preserves_throw|].
  apply preserves_bind; [apply preserves_gets|]. intros n. apply preserves_lifted. intros enc Henc.
  apply preserves_known. intros w r w' [F Hp]%SnapshotPath_result Hw. split; [by eapply opened_same|]. intros p Ep. rewrite (Hp p Ep).
  apply (install_opened id "secret temp" "install cred snapshot"); [|by apply vfile_not_identity; [..|set_solver]|].
  - unfold snapshot_file. by rewrite vfile_suffixes by (done || set_solver).
  - intros _. exists archive. by eapply decrypts.
Qed.

Lemma EnsureKey_opened id name : no_slash name → preserves (opened id) (EnsureKey env id name).
Proof.
  intros Hn. pose proof (keyBase_no_slash _ Hn) as Hb. unfold EnsureKey.
  apply preserves_known. intros w r w' [F Hp]%keyPaths_result Hw. split; [by eapply opened_same|]. intros p Ep. rewrite (Hp p Ep).
  apply preserves_bind; [apply preserves_attempt, opened_looks; intros G; apply Stat_looks|]. intros st. destruct st as [[]|e].
  - unfold wrapped, or_undo. preserves_tac. apply opened_looks. intros G. apply ReadFile_looks.
  - destruct (negb (isNotExist e)); [apply preserves_throw|].
    apply preserves_bind; [apply opened_looks; intros G; apply generateKeyPair_looks|]. intros [pubKey priv].
    unfold encrypt. apply preserves_known. intros w1 r1 w1' Er Hw1. rewrite run_gets, wrapped_lift in Er. injection Er as Er <-.
    split; [done|]. intros enc ->. destruct (age_encrypt _ _ _) as [enc'|] eqn:Henc; [|discriminate]. injection Er as ->.
    apply preserves_bind.
    { unfold writeSecretFile. rewrite writeFileAtomic_install. apply install_opened; [|by apply vfile_not_identity; [..|set_solver]|].
      - unfold key_file. by rewrite vfile_suffixes by (done || set_solver).
      - intros _. exists priv. by eapply decrypts. }
    intros _. apply preserves_bind.
    { apply preserves_attempt. rewrite writeFileAtomic_install. apply install_opened; [|by apply vfile_not_identity; [..|set_solver]|].
      - unfold pub_file. by rewrite vfile_suffixes by (done || set_solver).
      - unfold pub_file. rewrite vfile_suffixes by (done || set_solver). discriminate. }
    intros [[]|e']; [apply preserves_ret|]. apply preserves_bind; [|intros _; apply preserves_throw]. apply preserves_ignore.
    unfold Remove, look. apply preserves_bind; [apply opened_looks; intros G; apply sys_looks|]. intros _.
    apply preserves_bind; [apply preserves_gets|]. intros [f|]; [|apply preserves_throw]. apply preserves_modify.
    intros w2 Hw2. eapply (opened_delete _ id w2); [reflexivity| |done]. apply vfile_not_identity; [done..|set_solver].
Qed.

(** [wrapped what LoadOrCreateIdentity] gives the identity that opens the secrets. *)
Lemma with_identity {B} what (k : Identity → CredM B) :
  (∀ id, preserves (opened id) (k id)) → preserves sealed (wrapped what (LoadOrCreateIdentity env) ≫= k).
Proof.
  intros Hk w Hw. rewrite run_bind. unfold wrapped, or_undo. rewrite run_attempt.
  destruct (LoadOrCreateIdentity env w) as [r w'] eqn:E. apply LoadOrCreateIdentity_sealed in E; [|done]. cbn [fst snd].
  destruct r as [id|e]; cbn; [|done]. eapply opened_sealed. by apply (Hk id).
Qed.
Lemma sealed_looks {A} (m : CredM A) : (∀ F, preserves (same_files F) m) → preserves sealed m.
Proof. intros Hm. apply looks_preserve; [done|]. by apply sealed_same. Qed.

Lemma restore_creds_sealed name : preserves sealed (restore_creds env name).
Proof.
  unfold restore_creds. apply preserves_bind; [apply sealed_looks; intros F; apply Has_looks|]. intros [|]; cbn [negb]; [|apply preserves_ret].
  apply with_identity. intros id. apply preserves_bind; [|intros fs; apply preserves_ret].
  unfold wrapped, or_undo. preserves_tac. apply opened_looks. intros F. apply Restore_looks.
Qed.
End Invariant.

(** C20: secrets on the host stay readable.  Once the host has an identity every
    snapshot and every private key under it decrypts with it, and preparing a
    runner, snapshotting one or making a key keeps it so, whichever system calls
    fail and however often a snapshot is tried: the identity is never replaced,
    not even when it cannot be read. *)
Theorem secrets_stay_readable env `{AgeLaws, TarReader, KeyGen} home name url labels perInstance tokenFn :
  ce_home env = Ok home → home ≠ "" → no_slash name → preserves (sealed home) tokenFn →
  preserves (sealed home) (Prepare env name url labels perInstance tokenFn) ∧
  (∀ cancelled ssh attempts, preserves (sealed home)
     (wrapped "load age identity" (LoadOrCreateIdentity env) ≫= λ id, SnapshotWithRetry env cancelled ssh id name attempts)) ∧
  preserves (sealed home) (wrapped "load age identity" (LoadOrCreateIdentity env) ≫= λ id, EnsureKey env id name).
Proof.
  intros Hh Hne Hn Ht. split_and!.
  - unfold Prepare. case_bool_decide; [apply preserves_throw|]. apply preserves_bind; [by apply restore_creds_sealed|]. intros restored.
    apply preserves_bind; [case_bool_decide; [done|apply preserves_ret]|]. intros token. apply with_identity; [done..|]. intros id.
    apply preserves_bind.
    { unfold wrapped, or_undo. preserves_tac. apply EnsureKey_opened; [done..|]. by destruct perInstance. }
    intros [pub created]. apply preserves_bind; [|intros priv; apply preserves_ret].
    unfold wrapped, or_undo. preserves_tac. apply opened_looks; [done|]. intros F. apply LoadPrivateKey_looks.
  - intros cancelled ssh attempts. apply with_identity; [done..|]. intros id. unfold SnapshotWithRetry. generalize (@None error), 0%nat.
    induction attempts as [|n IH]; intros last i; cbn; [apply preserves_throw|].
    apply preserves_bind; [apply preserves_attempt; by apply Snapshot_opened|]. intros [[]|e]; [apply preserves_ret|].
    destruct (cancelled i); [apply preserves_throw|apply IH].
  - apply with_identity; [done..|]. intros id. by apply EnsureKey_opened.
Qed.

(** ** On a host that works *)
Record working (env : CredEnv) `{Age, KeyGen} : Prop := {
  no_failures : ∀ n, ce_fails env n = None;
  randomness : ∀ n, ∃ nonce, ce_random env n = Ok nonce;
  identities : ∀ n, ∃ id, GenerateX25519Identity n = Ok id;
  encryption : ∀ n id data, ∃ enc, age_encrypt n id data = Ok enc;
  key_pairs : ∀ n, ∃ kp, generate_ed25519 n = Ok kp;
}.
(** No temporary file is left over. *)
Definition tidy (w : CredWorld) : Prop := ∀ p, HasSuffix p ".tmp" = true → cw_files w !! p = None.

Section Working.
Context (env : CredEnv) `{AgeLaws, TarReader, KeyGen} (Hw : working env).
Context (home : string) (Hhome : ce_home env = Ok home) (Hne : home ≠ "").

Lemma sys_ok w : sys env w = (Ok tt, tick w).
Proof. unfold sys. by rewrite (no_failures _ Hw). Qed.
Lemma ReadFile_ok p w c m : cw_files w !! p = Some (c, m) → ReadFile env p w = (Ok c, tick w).
Proof. intros E. unfold ReadFile, look. rewrite run_bind, sys_ok, run_gets. unfold tick, update. cbn. by rewrite E. Qed.
Lemma ReadFile_none p w : cw_files w !! p = None → ReadFile env p w = (Err Files.ErrNotExist, tick w).
Proof. intros E. unfold ReadFile, look. rewrite run_bind, sys_ok, run_gets. unfold tick, update. cbn. by rewrite E. Qed.
Lemma Stat_ok p w : Stat env p w = (match cw_files w !! p with Some _ => Ok tt | None => Err Files.ErrNotExist end, tick w).
Proof. unfold Stat, look. rewrite run_bind, sys_ok, run_gets. unfold tick, update. cbn. by destruct (cw_files w !! p). Qed.
Lemma vee_dir_ok d what w : vee_dir env d what w = (Ok (vdir home d), tick w).
Proof. unfold vee_dir. rewrite Hhome, run_bind, wrapped_lift, run_bind. unfold wrapped, or_undo, MkdirAll. by rewrite run_attempt, sys_ok. Qed.
Lemma SnapshotPath_ok name w : SnapshotPath env name w = (Ok (snapshot_file home name), tick w).
Proof. unfold SnapshotPath, snapshotsDir. by rewrite run_bind, vee_dir_ok. Qed.
Lemma keyPaths_ok name w : keyPaths env name w = (Ok (key_file home name, pub_file home name), tick w).
Proof. unfold keyPaths. by rewrite run_bind, vee_dir_ok. Qed.
Lemma identityPath_ok w : identityPath env w = (Ok (identity_file home), tick w).
Proof. unfold identityPath. by rewrite run_bind, vee_dir_ok. Qed.
Lemma tick_files w : cw_files (tick w) = cw_files w.
Proof. reflexivity. Qed.

Lemma install_ok what label dst data perm w : tidy w → HasSuffix dst ".tmp" = false →
  ∃ w', install env what label dst data perm w = (Ok tt, w') ∧ cw_files w' = <[dst := (data, perm)]> (cw_files w).
Proof.
  intros Ht Hd. destruct (install _ _ _ _ _ _ w) as [r w'] eqn:E. pose proof E as S. apply install_spec in S; [|done].
  destruct r as [[]|e]; [by exists w'|]. exfalso. revert E.
  destruct (randomness _ Hw (cw_calls w)) as [nonce Hr].
  unfold install, write_temp, wrapped, or_undo, OpenExcl, WriteOpen, Close, Remove, Rename, look, put, random_nonce, sys, tick.
  unfold mbind, GoM_bind, attempt, ignore, gets, modify, throw, mret, GoM_ret, update. cbn.
  rewrite Hr. cbn. rewrite (no_failures _ Hw). cbn. rewrite (Ht _ (temp_suffix dst nonce)). cbn.
  rewrite !(no_failures _ Hw). cbn. rewrite lookup_insert_eq. discriminate.
Qed.
Lemma tidy_insert w w' p f : tidy w → cw_files w' = <[p := f]> (cw_files w) → HasSuffix p ".tmp" = false → tidy w'.
Proof. intros Ht E Hp q Hq. rewrite E, lookup_insert_ne; [by apply Ht|]. intros <-. congruence. Qed.
Lemma tidy_same w w' : tidy w → cw_files w' = cw_files w → tidy w'.
Proof. intros Ht E p. rewrite E. apply Ht. Qed.

Lemma identity_again id w : holds home id w → ∃ w', LoadOrCreateIdentity env w = (Ok id, w') ∧ cw_files w' = cw_files w.
Proof.
  intros [m Hm]. unfold LoadOrCreateIdentity. rewrite run_bind, identityPath_ok, run_attempt. erewrite ReadFile_ok by done. cbn [fst snd].
  rewrite trimNewline_line, wrapped_lift, identity_reads_back. by eexists.
Qed.
Lemma identity_ok w : tidy w → sealed home w → ∃ id w', LoadOrCreateIdentity env w = (Ok id, w') ∧ opened home id w' ∧ tidy w' ∧
  ∀ p, p ≠ identity_file home → cw_files w' !! p = cw_files w !! p.
Proof.
  intros Ht [[Hi Ha]|[id Ho]].
  2:{ destruct (identity_again id w) as (w' & E & F); [apply Ho|]. exists id, w'. split; [done|].
      split; [by eapply opened_same|]. split; [by eapply tidy_same|]. intros p _. by rewrite F. }
  destruct (LoadOrCreateIdentity env w) as [r w'] eqn:E. pose proof (LoadOrCreateIdentity_sealed env home Hhome Hne w _ _ E (or_introl (conj Hi Ha))) as S.
  revert E. unfold LoadOrCreateIdentity. rewrite run_bind, identityPath_ok, run_attempt. rewrite ReadFile_none by done. cbn [fst snd isNotExist].
  unfold isNotExist. rewrite bool_decide_eq_true_2 by done. cbn [negb]. rewrite run_gets.
  set (w1 := tick (tick w)). rewrite run_bind, wrapped_lift. destruct (identities _ Hw (cw_calls w1)) as [id Hid]. rewrite Hid.
  destruct (install_ok "secret temp" "install age identity" (identity_file home) (identity_string id +:+ String newline "") (octal 6 0 0) w1)
    as (w2 & Ei & Fi); [done|apply identity_suffix; [done|set_solver]|].
  unfold writeSecret. rewrite install_bind, run_bind, Ei. intros [= <- <-].
  exists id, w2. split; [done|]. split; [done|]. split.
  - eapply tidy_insert; [done|exact Fi|apply identity_suffix; [done|set_solver]].
  - intros p Hp. by rewrite Fi, lookup_insert_ne.
Qed.

Lemma EnsureKey_ok id name w : no_slash name → tidy w → opened home id w →
  (is_Some (cw_files w !! key_file home name) → is_Some (cw_files w !! pub_file home name)) →
  ∃ pub created w', EnsureKey env id name w = (Ok (pub, created), w') ∧ opened home id w' ∧ is_Some (cw_files w' !! key_file home name).
Proof.
  intros Hn Ht Ho Hp. pose proof (keyBase_no_slash _ Hn) as Hb.
  assert (Hk : HasSuffix (key_file home name) ".tmp" = false) by (unfold key_file; by rewrite vfile_suffixes by (done || set_solver)).
  assert (Hpub : HasSuffix (pub_file home name) ".tmp" = false) by (unfold pub_file; by rewrite vfile_suffixes by (done || set_solver)).
  destruct (EnsureKey env id name w) as [r w'] eqn:E. pose proof (EnsureKey_opened env home Hhome Hne id name Hn w Ho) as So. rewrite E in So. cbn in So.
  revert E. unfold EnsureKey. rewrite run_bind, keyPaths_ok, run_attempt, Stat_ok. cbn [fst snd]. rewrite !tick_files.
  destruct (cw_files w !! key_file home name) as [[enc m]|] eqn:Ek.
  - destruct (Hp (mk_is_Some _ _ eq_refl)) as [[c m'] Hc]. rewrite run_bind. unfold wrapped, or_undo. rewrite run_attempt.
    erewrite ReadFile_ok by exact Hc. intros [= <- <-]. eexists _, _, _. split; [done|]. split; [done|]. rewrite !tick_files, Ek. by eexists.
  - unfold isNotExist. rewrite bool_decide_eq_true_2 by done. cbn [negb]. set (w1 := tick (tick w)). unfold generateKeyPair.
    rewrite run_bind, run_gets, run_bind. destruct (key_pairs _ Hw (cw_calls w1)) as [[authorized priv] Hkp]. rewrite Hkp. cbn [lifted].
    rewrite run_ret, run_ret. unfold encrypt. rewrite run_bind, run_gets, wrapped_lift.
    destruct (encryption _ Hw (cw_calls w1) id priv) as [enc Henc]. rewrite Henc.
    unfold writeSecretFile. rewrite run_bind, writeFileAtomic_install.
    destruct (install_ok "temp" ("install " +:+ key_file home name) (key_file home name) enc (octal 6 0 0) w1) as (w2 & -> & F2); [done..|].
    rewrite run_attempt, writeFileAtomic_install.
    destruct (install_ok "temp" ("install " +:+ pub_file home name) (pub_file home name) ((TrimSpace authorized +:+ " vee-runner") +:+ String newline "") (octal 6 4 4) w2)
      as (w3 & -> & F3); [by eapply tidy_insert|done|].
    cbn [fst snd]. intros [= <- <-]. eexists _, _, _. split; [done|]. split; [done|]. rewrite F3, F2. apply insert_is_Some.
    rewrite lookup_insert_eq. by eexists.
Qed.
Lemma LoadPrivateKey_ok id name w : no_slash name → opened home id w → is_Some (cw_files w !! key_file home name) →
  ∃ priv w', LoadPrivateKey env id name w = (Ok priv, w').
Proof.
  intros Hn [_ Ho] [[enc m] Hk]. assert (∃ priv, age_decrypt id enc = Ok priv) as [priv Hd].
  { apply (Ho (key_file home name) enc m); [|done]. unfold key_file. rewrite vfile_suffixes; [done|done|by apply keyBase_no_slash|set_solver|set_solver]. }
  unfold LoadPrivateKey. rewrite run_bind, keyPaths_ok, run_attempt. erewrite ReadFile_ok by exact Hk. cbn [fst snd].
  rewrite wrapped_lift, Hd. by eexists _, _.
Qed.

(** *** A registered guest *)
Context (tar_write : list (string * (string * Z)) → string).
Definition present (G : gmap string (string * Z)) : list (string * (string * Z)) := omap (λ f, pair f <$> G !! f) CredFiles.
(** The guest's tar writes what Go's reader reads, and a guest with these files
    answers the commands as its shell would. *)
Definition tar_agrees : Prop := ∀ es, tar_write es ≠ "" ∧
  tar_read (tar_write es) = ((λ '(f, (c, m)), mkTarEntry f true m (Ok c)) <$> es, None).
Definition answers (ssh : SSHRunner) (G : gmap string (string * Z)) : Prop := ∀ n,
  (is_ok (ssh n probeCmd) = true ↔ is_Some (G !! ".credentials")) ∧
  (present G ≠ [] → ssh n tarCmd = Ok (Base64.EncodeToString (SHA1.bytes_of (tar_write (present G))))).

Lemma Snapshot_ok ssh G id name w : tar_agrees → answers ssh G → is_Some (G !! ".credentials") → no_slash name → tidy w →
  ∃ enc w', Snapshot env ssh id name w = (Ok tt, w') ∧ cw_files w' = <[snapshot_file home name := (enc, octal 6 0 0)]> (cw_files w) ∧
    age_decrypt id enc = Ok (tar_write (present G)).
Proof.
  intros Htar Hans Hreg Hn Ht. unfold Snapshot. rewrite run_attempt. unfold Output at 1 2. cbn [fst snd].
  destruct (Hans (cw_calls w)) as [Hprobe _]. rewrite (proj2 Hprobe Hreg). cbn [negb].
  rewrite run_bind. unfold wrapped at 1, or_undo at 1. rewrite run_attempt. unfold Output. cbn [fst snd].
  destruct (Hans (cw_calls (tick w))) as [_ ->].
  2:{ destruct Hreg as [[c m] Hc]. unfold present. cbn. by rewrite Hc. }
  rewrite run_ret, run_bind, wrapped_lift, decodeBase64_encoded. destruct (Htar (present G)) as [Hne' _]. rewrite bool_decide_eq_false_2 by done.
  rewrite run_gets, run_bind, wrapped_lift. destruct (encryption _ Hw (cw_calls (tick (tick w))) id (tar_write (present G))) as [enc Henc]. rewrite Henc.
  rewrite run_bind, SnapshotPath_ok.
  destruct (install_ok "secret temp" "install cred snapshot" (snapshot_file home name) enc (octal 6 0 0) (tick (tick (tick w)))) as (w' & E & F);
    [done|unfold snapshot_file; by rewrite vfile_suffixes by (done || set_solver)|].
  exists enc, w'. split; [exact E|]. split; [done|]. by eapply decrypts.
Qed.

Lemma restored_all es : restored_files ((λ '(f, (c, m)), mkTarEntry f true m (Ok c)) <$> es) None =
  Ok ((λ '(f, (c, m)), mkRestoredFile (Clean f) c m) <$> es).
Proof. induction es as [|[f [c m]] es IH]; [done|]. cbn. by rewrite IH. Qed.
Lemma present_clean G : (λ '(f, (c, m)), mkRestoredFile (Clean f) c m) <$> present G = (λ '(f, (c, m)), mkRestoredFile f c m) <$> present G.
Proof.
  unfold present. cbn. by destruct (G !! ".credentials") as [[]|], (G !! ".credentials_rsaparams") as [[]|], (G !! ".runner") as [[]|].
Qed.
Lemma Restore_ok G id name w enc m : tar_agrees → present G ≠ [] → cw_files w !! snapshot_file home name = Some (enc, m) →
  age_decrypt id enc = Ok (tar_write (present G)) →
  ∃ w', Restore env id name w = (Ok ((λ '(f, (c, m)), mkRestoredFile f c m) <$> present G), w') ∧ cw_files w' = cw_files w.
Proof.
  intros Htar Hp Hf Hd. unfold Restore. rewrite run_bind, SnapshotPath_ok, run_attempt. erewrite ReadFile_ok by exact Hf. cbn [fst snd].
  rewrite run_bind, wrapped_lift, Hd. destruct (Htar (present G)) as [_ ->]. rewrite restored_all, present_clean. cbn [lifted].
  rewrite run_bind, run_ret, bool_decide_eq_false_2; [by eexists|]. by intros ?%fmap_nil_inv.
Qed.
End Working.

(** Files of different directories are different. *)
Lemma Join_two_last l x w : x ≠ "" → ∃ l', Split "/" (Join "/" ((l ++ [x]) ++ [w])) = l' ++ Split "/" x ++ Split "/" w.
Proof.
  intros Hx. induction l as [|y l [l' IH]].
  - exists []. change (Join "/" (([] ++ [x]) ++ [w])) with (x +:+ "/" +:+ w). apply Split_app_slash.
  - exists (Split "/" y ++ l'). cbn [app].
    assert (Join "/" (y :: (l ++ [x]) ++ [w]) = y +:+ "/" +:+ Join "/" ((l ++ [x]) ++ [w])) as -> by (by destruct l).
    by rewrite Split_app_slash, IH, <-app_assoc.
Qed.
Lemma PathJoin_in_dir d x w : last_elem d x → proper_elem x → no_slash w → proper_elem w → ∃ l, Split "/" (PathJoin [d; w]) = l ++ [x; w].
Proof.
  intros Hd Hx Hw Hpw. destruct (Split_last d x Hd) as [l El]. destruct Hd as [Hns _].
  assert (∀ y, proper_elem y → ∀ r out, clean_step r out y = y :: out) as Hstep.
  { intros y (H1 & H2 & H3) r out. unfold clean_step. by rewrite !bool_decide_eq_false_2. }
  rewrite PathJoin_two. 2:{ intros ->. cbn in El. destruct l as [|? [|]]; [|discriminate..]. injection El as <-. by destruct Hx. }
  unfold Clean. rewrite Split_app_slash, El, (Split_no_slash w) by done. rewrite <-app_assoc, foldl_app. cbn [app foldl].
  rewrite !Hstep by done. cbn [rev]. set (out := foldl _ [] l). destruct (Join_two_last (rev out) x w) as [l' E]; [apply Hx|].
  rewrite (Split_no_slash x), (Split_no_slash w) in E by done. destruct (IsAbs _).
  - exists ("" :: l'). transitivity ("" :: Split "/" (Join "/" ((rev out ++ [x]) ++ [w]))); [exact (Split_app_slash "" _)|]. by rewrite E.
  - rewrite bool_decide_eq_false_2; [by exists l'|]. intros F. rewrite F in E. cbn in E. destruct l' as [|? [|]]; discriminate.
Qed.
Lemma other_dir home d d' w w' : home ≠ "" → no_slash d → proper_elem d → no_slash d' → proper_elem d' → no_slash w → proper_elem w →
  no_slash w' → proper_elem w' → d ≠ d' → PathJoin [vdir home d; w] ≠ PathJoin [vdir home d'; w'].
Proof.
  intros Hne Hd Pd Hd' Pd' Hw Pw Hw' Pw' N E.
  assert (∀ d, no_slash d → proper_elem d → last_elem (vdir home d) d) as Hl.
  { intros x Hx Px. unfold vdir. change (PathJoin [home; ".vee"; x]) with (PathJoin [home; ".vee" +:+ "/" +:+ x]).
    apply PathJoin_last; [done| |done]. split; [done|]. right. by exists ".vee". }
  destruct (PathJoin_in_dir (vdir home d) d w) as [l El]; [by apply Hl|done..|].
  destruct (PathJoin_in_dir (vdir home d') d' w') as [l' El']; [by apply Hl|done..|].
  rewrite E, El' in El. change [d; w] with ([d] ++ [w]) in El. change [d'; w'] with ([d'] ++ [w']) in El.
  rewrite !app_assoc in El. apply app_inj_tail in El as [El _]. apply app_inj_tail in El as [_ El]. done.
Qed.
Lemma key_not_snapshot home name name' : home ≠ "" → no_slash name → no_slash name' → key_file home name ≠ snapshot_file home name'.
Proof.
  intros Hne Hn Hn'. unfold key_file, snapshot_file.
  apply other_dir; [done..| |by apply with_suffix; cbn; lia| |by apply with_suffix; cbn; lia|done].
  - apply no_slash_app; [by apply keyBase_no_slash|done].
  - by apply no_slash_app.
Qed.

(** Preparing a runner whose snapshot is on file. *)
Lemma restore_creds_ok env `{AgeLaws, TarReader, KeyGen} home tar_write G name id enc m w : working env → ce_home env = Ok home → home ≠ "" →
  tar_agrees tar_write → present G ≠ [] → holds home id w → cw_files w !! snapshot_file home name = Some (enc, m) →
  age_decrypt id enc = Ok (tar_write (present G)) →
  ∃ w', restore_creds env name w = (Ok ((λ '(f, (c, m)), mkRunnerCredFile f (SHA1.bytes_of c) m) <$> present G), w') ∧ cw_files w' = cw_files w.
Proof.
  intros Hw Hh Hne Htar Hpres Hid Hsnap Hd. unfold restore_creds. rewrite run_bind. unfold Has.
  rewrite run_attempt, (SnapshotPath_ok env Hw home Hh). cbn [fst snd].
  rewrite run_attempt, (Stat_ok env Hw). rewrite tick_files, Hsnap. cbn [fst snd is_ok]. rewrite run_ret. cbn [negb].
  destruct (identity_again env Hw home Hh id (tick (tick w))) as (w1 & E1 & F1); [exact Hid|].
  rewrite run_bind. unfold wrapped at 1, or_undo at 1. rewrite run_attempt, E1. cbn [fst snd]. rewrite run_ret.
  destruct (Restore_ok env Hw home Hh tar_write G id name w1 enc m) as (w2 & E2 & F2); [done|done|by rewrite F1|done|].
  rewrite run_bind. unfold wrapped, or_undo. rewrite run_attempt, E2. cbn [fst snd]. rewrite !run_ret. exists w2. split; [|by rewrite F2, F1].
  do 2 f_equal. rewrite <-list_fmap_compose. apply list_fmap_ext. by intros i [f [c m']].
Qed.

Lemma runner_writes_back fenv host conf now name keys x iw cfg iw' creds : rx_RestoredCreds x = creds → creds ≠ [] →
  runner_config fenv host conf now name keys x iw = (Ok cfg, iw') →
  ∃ ci, c_CloudInit cfg = Some ci ∧
    ∀ rc, rc ∈ creds → decode_to (rc_Content rc) ("/opt/actions-runner/" +:+ rc_RelPath rc) ∈ ci_RunCmds ci.
Proof.
  intros <- Hc. unfold runner_config, NewGitHubRunnerConfig. case_bool_decide; [discriminate|]. case_match; [discriminate|].
  intros (image & w1 & _ & E)%run_bind_inv. injection E as <- _. eexists. split; [reflexivity|]. intros rc Hrc. cbn [ci_RunCmds].
  change (decode_to (rc_Content rc) ("/opt/actions-runner/" +:+ rc_RelPath rc) ∈
    runner_setup ++ githubRunnerSSHSetup (rx_SSHPrivKey x) ++ register_cmds (rx_RestoredCreds x) ++ runner_services).
  destruct (rx_RestoredCreds x) as [|rc0 rcs]; [done|]. unfold register_cmds.
  do 2 (apply elem_of_app; right). apply elem_of_app. left. apply elem_of_app. left. apply list_elem_of_fmap. eauto.
Qed.

(** C19: a runner that is made again is the same runner.  On a host that works,
    the snapshot of a registered runner succeeds, and preparing a runner of that
    name afterwards, when the machine itself is gone, succeeds without a token
    and with exactly the credential files the guest had; the machine then made
    for it writes them back to the runner's directory. *)
Theorem reinstall_keeps_identity env `{AgeLaws, TarReader, KeyGen} home tar_write ssh G name url labels (perInstance : bool) tokenFn w :
  working env → ce_home env = Ok home → home ≠ "" → no_slash name → url ≠ "" →
  tar_agrees tar_write → answers tar_write ssh G → is_Some (G !! ".credentials") → tidy w → sealed home w →
  let keyName := if perInstance then name else "" in
  (is_Some (cw_files w !! key_file home keyName) → is_Some (cw_files w !! pub_file home keyName)) →
  ∃ w1, (id ← LoadOrCreateIdentity env; Snapshot env ssh id name) w = (Ok tt, w1) ∧
  ∀ w2, cw_files w2 = cw_files w1 →
  ∃ res w3, Prepare env name url labels perInstance tokenFn w2 = (Ok res, w3) ∧
    rx_Token (re_Extras res) = "" ∧
    rx_RestoredCreds (re_Extras res) = (λ '(f, (c, m)), mkRunnerCredFile f (SHA1.bytes_of c) m) <$> present G ∧
    ∀ fenv host conf now keys iw cfg iw', runner_config fenv host conf now name keys (re_Extras res) iw = (Ok cfg, iw') →
      ∃ ci, c_CloudInit cfg = Some ci ∧
        ∀ f c m, (f, (c, m)) ∈ present G → decode_to (SHA1.bytes_of c) ("/opt/actions-runner/" +:+ f) ∈ ci_RunCmds ci.
Proof.
  intros Hw Hh Hne Hn Hurl Htar Hans Hreg Ht Hs keyName Hpair.
  assert (Hkn : no_slash keyName) by (by destruct perInstance).
  assert (Hpres : present G ≠ []) by (destruct Hreg as [[c m] Hc]; unfold present; cbn; by rewrite Hc).
  destruct (identity_ok env Hw home Hh Hne w Ht Hs) as (id & wi & Ei & Hoi & Hti & Fi).
  destruct (Snapshot_ok env Hw home Hh Hne tar_write ssh G id name wi Htar Hans Hreg Hn Hti) as (enc & w1 & E1 & F1 & Hd).
  assert (Ho1 : opened home id w1) by (pose proof (Snapshot_opened env home Hh Hne ssh id name Hn wi Hoi) as P; by rewrite E1 in P).
  assert (Ht1 : tidy w1).
  { eapply tidy_insert; [exact Hti|exact F1|]. unfold snapshot_file. by rewrite vfile_suffixes by (done || set_solver). }
  exists w1. split; [by rewrite run_bind, Ei|]. intros w2 F2.
  assert (Ho2 : opened home id w2) by (by eapply opened_same).
  assert (Hkey : is_Some (cw_files w2 !! key_file home keyName) → is_Some (cw_files w2 !! pub_file home keyName)).
  { pose proof (keyBase_no_slash _ Hkn) as Hb. rewrite F2, F1, lookup_insert_ne by (intros E; symmetry in E; by apply key_not_snapshot in E).
    rewrite Fi by (apply vfile_not_identity; [done..|set_solver]). intros Hk. apply insert_is_Some. rewrite Fi; [auto|].
    apply vfile_not_identity; [done..|set_solver]. }
  destruct (restore_creds_ok env home tar_write G name id enc (octal 6 0 0) w2) as (w4 & E4 & F4); [done..|by apply Ho2| |done|].
  { by rewrite F2, F1, lookup_insert_eq. }
  destruct (identity_again env Hw home Hh id w4) as (w5 & E5 & F5); [apply (opened_same home Hne id w2); [done|done]|].
  destruct (EnsureKey_ok env Hw home Hh Hne id keyName w5) as (pub & created & w6 & E6 & Ho6 & Hk6);
    [done|by eapply tidy_same; [exact Ht1|congruence]|by eapply opened_same; [done| |exact Ho2]; congruence|by rewrite F5, F4|].
  destruct (LoadPrivateKey_ok env Hw home Hh Hne id keyName w6) as (priv & w7 & E7); [done..|].
  eexists _, w7. split; [|split; [|split]].
  - unfold Prepare. fold keyName. rewrite bool_decide_eq_false_2 by done. rewrite run_bind, E4.
    rewrite (bool_decide_eq_false_2 (length _ = 0%nat)) by (by intros ?%nil_length_inv%fmap_nil_inv). rewrite run_bind, run_ret.
    rewrite run_bind. unfold wrapped at 1, or_undo at 1. rewrite run_attempt, E5. cbn [fst snd]. rewrite run_ret.
    rewrite run_bind. unfold wrapped at 1, or_undo at 1. rewrite run_attempt, E6. cbn [fst snd]. rewrite run_ret.
    rewrite run_bind. unfold wrapped, or_undo. rewrite run_attempt, E7. reflexivity.
  - reflexivity.
  - reflexivity.
  - intros fenv host conf now keys iw cfg iw' Erun. eapply runner_writes_back in Erun as (ci & Eci & Hci); [|reflexivity|by intros ?%fmap_nil_inv].
    exists ci. split; [done|]. intros f c m Hf. apply (Hci (mkRunnerCredFile f (SHA1.bytes_of c) m)). apply list_elem_of_fmap. by exists (f, (c, m)).
Qed.

(** ** A host and a registered runner *)
Module IdentityExample.
(** Two identities, a cipher that puts the identity in front, and archives as
    bit strings. *)
Definition key (id : bool) : string := if id then "AGE-SECRET-KEY-1A" else "AGE-SECRET-KEY-1B".
Definition open_with (id : bool) (enc : string) : result error string :=
  if HasPrefix enc (key id) then Ok (TrimPrefix enc (key id)) else Err (Errorf "no identity matched" []).
#[export] Instance age : Age := {|
  Identity := bool;
  ParseX25519Identity s := if bool_decide (s = key true) then Ok true else if bool_decide (s = key false) then Ok false else Err (Errorf "malformed" []);
  identity_string := key;
  GenerateX25519Identity _ := Ok true;
  age_encrypt _ id data := Ok (key id +:+ data);
  age_decrypt := open_with |}.
#[export] Instance age_laws : AgeLaws.
Proof.
  split.
  - by intros [].
  - by intros [].
  - intros n id data enc [= <-]. cbn [age_decrypt age]. unfold open_with. by rewrite HasPrefix_app, TrimPrefix_app.
Qed.

Fixpoint bits (p : positive) : string :=
  match p with xH => "1" | xO p => String "0" (bits p) | xI p => String "1" (bits p) end.
Fixpoint unbits (s : string) : option positive :=
  match s with
  | "" => None
  | String c s => if bool_decide (s = "") then Some xH else p ← unbits s; Some (if bool_decide (c = "1"%char) then xI p else xO p)
  end.
Lemma bits_nonempty p : bits p ≠ "".
Proof. by destruct p. Qed.
Lemma unbits_bits p : unbits (bits p) = Some p.
Proof. induction p as [p IH|p IH|]; cbn; [rewrite bool_decide_eq_false_2 by apply bits_nonempty; by rewrite IH..|done]. Qed.
Definition tar_write (es : list (string * (string * Z))) : string := bits (encode es).
#[export] Instance tar : TarReader := λ s,
  match unbits s ≫= decode (A := list (string * (string * Z))) with
  | Some es => ((λ '(f, (c, m)), mkTarEntry f true m (Ok c)) <$> es, None)
  | None => ([], Some (Errorf "invalid tar header" []))
  end.
Lemma tar_ok : tar_agrees tar_write.
Proof. intros es. split; [apply bits_nonempty|]. unfold tar_read, tar, tar_write. rewrite unbits_bits. cbn. by rewrite decode_encode. Qed.
#[export] Instance keygen : KeyGen := λ _, Ok ("ssh-ed25519 AAAAC3Nza" +:+ String newline "", "PRIVATE KEY").

Definition env : CredEnv := mkCredEnv (Ok "/home/me") (λ _, None) (λ _ s, s) (λ _, Ok [222; 173; 190; 239; 0; 1; 2; 3]%N).
Definition w0 : CredWorld := mkCredWorld ∅ 0.
Definition G : gmap string (string * Z) := {[ ".credentials" := ("{}", 384); ".credentials_rsaparams" := ("RSA", 384); ".runner" := ("{1}", 420) ]}.
Definition ssh : SSHRunner := λ _ cmd,
  if bool_decide (cmd = probeCmd) then Ok ""
  else if bool_decide (cmd = tarCmd) then Ok (Base64.EncodeToString (SHA1.bytes_of (tar_write (present G)))) else Err (Errorf "exit status 127" []).

Lemma env_works : working env.
Proof. split; intros; cbn; eauto. Qed.
Lemma ssh_answers : answers tar_write ssh G.
Proof. intros n. split; [split; [intros _; by eexists|done]|]. intros _. unfold ssh. by rewrite bool_decide_eq_false_2, bool_decide_eq_true_2. Qed.

Lemma reinstall_keeps_identity_witness : ∃ w1, (id ← LoadOrCreateIdentity env; Snapshot env ssh id "ci") w0 = (Ok tt, w1) ∧
  ∃ res w3, Prepare env "ci" "https://github.com/o/r" [] false (throw (Errorf "no terminal" [])) w1 = (Ok res, w3) ∧
    rc_RelPath <$> rx_RestoredCreds (re_Extras res) = [".credentials"; ".credentials_rsaparams"; ".runner"].
Proof.
  destruct (reinstall_keeps_identity env "/home/me" tar_write ssh G "ci" "https://github.com/o/r" [] false (throw (Errorf "no terminal" [])) w0
    env_works eq_refl ltac:(discriminate) eq_refl ltac:(discriminate) tar_ok ssh_answers ltac:(by eexists) ltac:(done) ltac:(by left)
    ltac:(by intros [? ?])) as (w1 & E1 & H1).
  exists w1. split; [exact E1|]. destruct (H1 w1 eq_refl) as (res & w3 & E3 & _ & Hres & _).
  exists res, w3. split; [exact E3|]. rewrite Hres. reflexivity.
Defined.

Lemma secrets_stay_readable_witness : sealed "/home/me" (Prepare env "ci" "https://github.com/o/r" [] true (mret "token") w0).2.
Proof.
  apply (secrets_stay_readable env "/home/me" "ci" "https://github.com/o/r" [] true (mret "token") eq_refl ltac:(discriminate) eq_refl).
  - apply preserves_ret.
  - by left.
Defined.

(** *** Surprising behaviour *)
(** A runner named global with a key of its own gets the key of all runners. *)
Example global_runner_shares_key env w : keyPaths env "global" w = keyPaths env "" w.
Proof. reflexivity. Qed.

(** A host that stops between the two files of a key (here every call fails
    from the second file on) keeps the private half alone, and from then on no
    runner can be prepared: the public half is neither there nor made again. *)
Example orphan_key_stuck :
  let broken := mkCredEnv (Ok "/home/me") (λ n, if (n <? 8)%nat then None else Some "input/output error") (λ _ s, s) (ce_random env) in
  let w1 := (EnsureKey broken true "" w0).2 in
  is_Some (cw_files w1 !! key_file "/home/me" "") ∧ cw_files w1 !! pub_file "/home/me" "" = None ∧
  (EnsureKey env true "" w1).1 = Err (Wrapf "read public key /home/me/.vee/runner-ssh/global.pub" Files.ErrNotExist).
Proof. split; [vm_compute; by eexists|]. split; vm_compute; reflexivity. Qed.

(** The private RSA key of a restored registration keeps the mode it is written
    with: the modes of the two other files are set, its own is not. *)
Example rsa_key_left_readable :
  let cmds := register_cmds (cred_file <$> [mkRestoredFile ".credentials" "{}" 384; mkRestoredFile ".credentials_rsaparams" "RSA" 384]) in
  filter (λ c, Contains c "rsaparams" = true) cmds = [decode_to (SHA1.bytes_of "RSA") "/opt/actions-runner/.credentials_rsaparams"] ∧
  filter (λ c, Contains c "chmod" = true) cmds = ["chmod 600 /opt/actions-runner/.credentials /opt/actions-runner/.runner"].
Proof. split; vm_compute; reflexivity. Qed.
End IdentityExample.
