(* ===== verification/MacGuest.v ===== *)
(** * macOS guests

    [internal/templates/macos.go]: the constructor of a macOS guest for the vz
    backend, from a restore image or from an imported bundle; and
    [internal/vzfirstboot] (payload.go, firstboot.go): what is put on the disk
    of a restored guest so that it comes up without a display.

    The vz helper, the download of a restore image ([Images] models it), the
    edit of the guest's disk and the reading of JSON are the [MacEnv]. *)
From S2P Require Import Prelude GoStrings Config Store World Paths Guest Tables Lifecycle Images Media Vpn KillSwitch Qemu Storage Vz Build Templates Catalogue.

Open Scope Z_scope.
#[local] Arguments PathJoin : simpl never.

(** ** First boot ([internal/vzfirstboot]) *)
Definition text (ls : list string) : string := Join (String newline "") ls.
Definition LaunchDaemonLabel : string := "io.vee.firstboot".
Definition appleSetupDonePath : string := "private/var/db/.AppleSetupDone".
Definition skipBuddyPath : string := "Library/User Template/.skipbuddy".
Definition scriptPath : string := "usr/local/sbin/vee-firstboot.sh".
Definition plistPath : string := "Library/LaunchDaemons/" +:+ LaunchDaemonLabel +:+ ".plist".
Definition sudoersPath : string := "private/etc/sudoers.d/vee-shutdown".

(** The pieces of the script between its actions. *)
Definition fb_head : string :=
  text
    ["#!/bin/sh"; "# Written by vee (macOS guest first boot). Safe to re-run."; "set -u"; "";
     "log() { echo " +:+ dq "vee-firstboot: $*" +:+ "; }"; ""; "USER_NAME="].
Definition fb_account : string :=
  text
    [""; "USER_HOME=" +:+ dq "/Users/${USER_NAME}"; "MARKER=" +:+ dq "/private/var/db/.vee-firstboot-done"; "";
     "# 1. Admin account. sysadminctl is the supported non-interactive path; it";
     "#    reads the password from stdin with -password -.";
     "if /usr/bin/dscl . -read " +:+ dq "/Users/${USER_NAME}" +:+ " >/dev/null 2>&1; then";
     "	log " +:+ dq "account ${USER_NAME} already exists"; "else"; "	log " +:+ dq "creating admin account ${USER_NAME}";
     "	printf '%s' "].
Definition fb_account_rest : string :=
  text
    [" | /usr/sbin/sysadminctl \";
     "		-addUser " +:+ dq "${USER_NAME}" +:+ " -fullName " +:+ dq "vee" +:+ " -password - -admin -shell /bin/zsh \";
     "		>/dev/null 2>&1"; "	# sysadminctl does not always populate the home directory. When it did,";
     "	# ownership is already correct and the recursive chown has nothing to fix";
     "	# — but it does hit Desktop, Documents, Downloads and Library/Autosave";
     "	# Information, which are TCC-protected. A launch daemon has no Full Disk";
     "	# Access on first boot, so chown returns EPERM on each of them even as";
     "	# root, and the log fills with errors that look like a failed provision."; "	# Only chown what we created.";
     "	if [ ! -d " +:+ dq "${USER_HOME}" +:+ " ]; then"; "		log " +:+ dq "populating home directory for ${USER_NAME}";
     "		/usr/bin/ditto --noqtn " +:+ dq "/System/Library/User Template/English.lproj" +:+ " " +:+ dq "${USER_HOME}" +:+ " 2>/dev/null";
     "		UID_NUM=$(/usr/bin/id -u " +:+ dq "${USER_NAME}" +:+ " 2>/dev/null)"; "		if [ -n " +:+ dq "${UID_NUM}" +:+ " ]; then";
     "			/usr/sbin/chown -R " +:+ dq "${UID_NUM}:staff" +:+ " " +:+ dq "${USER_HOME}" +:+ " 2>/dev/null"; "		fi"; "	else";
     "		log " +:+ dq "home directory ownership already correct"; "	fi"; "	/bin/chmod 700 " +:+ dq "${USER_HOME}";
     "	/usr/sbin/dseditgroup -o edit -a " +:+ dq "${USER_NAME}" +:+ " -t user admin 2>/dev/null"; "fi"; ""; ""].
Definition fb_keys : string :=
  text
    [""; "# 2. Authorize the SSH keys vee will connect with."; "log " +:+ dq "installing authorized_keys";
     "/bin/mkdir -p " +:+ dq "${USER_HOME}/.ssh"; "/usr/bin/touch " +:+ dq "${USER_HOME}/.ssh/authorized_keys"; ""].
Definition fb_key : string :=
  text
    [""; "KEY="].
Definition fb_key_add : string :=
  text
    [""; "if ! /usr/bin/grep -qxF " +:+ dq "${KEY}" +:+ " " +:+ dq "${USER_HOME}/.ssh/authorized_keys" +:+ "; then";
     "	echo " +:+ dq "${KEY}" +:+ " >> " +:+ dq "${USER_HOME}/.ssh/authorized_keys"; "fi"; ""].
Definition fb_keys_rest : string :=
  text
    [""; "/bin/chmod 700 " +:+ dq "${USER_HOME}/.ssh"; "/bin/chmod 600 " +:+ dq "${USER_HOME}/.ssh/authorized_keys";
     "UID_NUM=$(/usr/bin/id -u " +:+ dq "${USER_NAME}" +:+ " 2>/dev/null)";
     "[ -n " +:+ dq "${UID_NUM}" +:+ " ] && /usr/sbin/chown -R " +:+ dq "${UID_NUM}:staff" +:+ " " +:+ dq "${USER_HOME}/.ssh"; ""].
Definition fb_ssh : string :=
  text
    [""; ""; "# 3. Remote Login (SSH). A fresh install ships ssh.plist disabled, so the";
     "#    service is not in the system domain yet: enable clears the persisted";
     "#    override for later boots, bootstrap loads it now, kickstart starts it.";
     "#    systemsetup -setremotelogin needs Full Disk Access in a daemon context on"; "#    modern macOS, so it is not used.";
     "log " +:+ dq "enabling Remote Login"; "/bin/launchctl enable system/com.openssh.sshd";
     "/bin/launchctl bootstrap system /System/Library/LaunchDaemons/ssh.plist 2>/dev/null";
     "/bin/launchctl kickstart system/com.openssh.sshd 2>/dev/null"; ""; ""].
Definition fb_screen : string :=
  text
    [""; "# 4. Screen Sharing (VNC :5900) so the guest's screen is reachable without a";
     "#    Virtualization.framework window. Note macOS 12.1+ also gates the";
     "#    screen-sharing agent behind TCC grants this script cannot create; vee";
     "#    writes those into the guest's disk from the host instead, at the first";
     "#    start that finds the privacy database macOS creates on this boot."; "log " +:+ dq "enabling Screen Sharing";
     "# kickstart activates and configures Remote Management. On macOS 26 it can no";
     "# longer grant screen recording/control by itself — it says as much (" +:+ (String dquote "must be");
     "# enabled from System Settings or via MDM" +:+ (String dquote ") — so a session is refused with");
     "# " +:+ dq "Screen Sharing is not permitted on <host>" +:+ " until vee writes those grants";
     "# from the host. It is still run because it configures everything it can and";
     "# helps on older guests; failures are non-fatal.";
     "ARD=/System/Library/CoreServices/RemoteManagement/ARDAgent.app/Contents/Resources/kickstart";
     "if [ -x " +:+ dq "${ARD}" +:+ " ]; then";
     "	" +:+ dq "${ARD}" +:+ " -activate -configure -access -on -restart -agent -privs -all -allowAccessFor -allUsers 2>/dev/null";
     "fi"; "/bin/launchctl enable system/com.apple.screensharing";
     "/bin/launchctl bootstrap system /System/Library/LaunchDaemons/com.apple.screensharing.plist 2>/dev/null";
     "/bin/launchctl kickstart system/com.apple.screensharing 2>/dev/null"; ""].
Definition fb_screen_rest : string :=
  text
    [""; ""; ""].
Definition fb_local_name : string :=
  text
    [""; "# 5. Hostname."; "/usr/sbin/scutil --set LocalHostName "].
Definition fb_computer_name : string :=
  text
    [" 2>/dev/null"; "/usr/sbin/scutil --set ComputerName "].
Definition fb_name_rest : string :=
  text
    [" 2>/dev/null"; ""].
Definition fb_finish : string :=
  text
    [""; ""; "# 6. Keep the guest quiet: no automatic update nagging in a disposable VM.";
     "/usr/bin/defaults write /Library/Preferences/com.apple.SoftwareUpdate AutomaticCheckEnabled -bool false 2>/dev/null"; "";
     "# Provisioning is complete only if the account exists and sshd is loaded.";
     "if /usr/bin/dscl . -read " +:+ dq "/Users/${USER_NAME}" +:+ " >/dev/null 2>&1 &&";
     "	/bin/launchctl print system/com.openssh.sshd >/dev/null 2>&1; then"; "	/usr/bin/touch " +:+ dq "${MARKER}";
     "	log " +:+ dq "provisioning complete"; "	# Remove the payload: this script holds the account password, and the";
     "	# settings above must not be forcibly re-applied on every later boot.";
     "	/bin/rm -f " +:+ dq "/Library/LaunchDaemons/io.vee.firstboot.plist"; "	/bin/rm -f " +:+ dq "$0";
     "	/bin/launchctl bootout system/io.vee.firstboot 2>/dev/null"; "	exit 0"; "fi"; "";
     "log " +:+ dq "provisioning incomplete; will retry on next boot"; "exit 1"; ""].
Definition launchDaemonPlist : string :=
  text
    ["<?xml version=" +:+ dq "1.0" +:+ " encoding=" +:+ dq "UTF-8" +:+ "?>";
     "<!DOCTYPE plist PUBLIC " +:+ dq "-//Apple//DTD PLIST 1.0//EN" +:+ " " +:+ dq "http://www.apple.com/DTDs/PropertyList-1.0.dtd" +:+ ">";
     "<plist version=" +:+ dq "1.0" +:+ ">"; "<dict>"; "	<key>Label</key>"; "	<string>io.vee.firstboot</string>";
     "	<key>ProgramArguments</key>"; "	<array>"; "		<string>/usr/local/sbin/vee-firstboot.sh</string>"; "	</array>";
     "	<key>RunAtLoad</key>"; "	<true/>"; "	<key>StandardOutPath</key>"; "	<string>/var/log/vee-firstboot.log</string>";
     "	<key>StandardErrorPath</key>"; "	<string>/var/log/vee-firstboot.log</string>"; "</dict>"; "</plist>"; ""].

Record Options := mkOptions {
  fo_User : string; fo_Password : string; fo_SSHPublicKeys : list string; fo_Hostname : string; fo_EnableScreenSharing : bool }.
Definition quoteAll (l : list string) : list string := shellQuote <$> filter (λ s, TrimSpace s ≠ "") l.
Definition renderFirstBootScript (opts : Options) (password : string) : string :=
  fb_head +:+ shellQuote (fo_User opts) +:+ fb_account +:+ shellQuote password +:+ fb_account_rest
  +:+ (if bool_decide (fo_SSHPublicKeys opts = []) then ""
       else fb_keys +:+ foldr (λ k s, fb_key +:+ k +:+ fb_key_add +:+ s) "" (quoteAll (fo_SSHPublicKeys opts)) +:+ fb_keys_rest)
  +:+ fb_ssh +:+ (if fo_EnableScreenSharing opts then fb_screen else "") +:+ fb_screen_rest
  +:+ (if bool_decide (fo_Hostname opts = "") then ""
       else fb_local_name +:+ shellQuote (fo_Hostname opts) +:+ fb_computer_name +:+ shellQuote (fo_Hostname opts) +:+ fb_name_rest)
  +:+ fb_finish.

Definition renderSudoers (user : string) : string :=
  if bool_decide (user = "") then "" else
  text ["# Written by vee so `vee stop` can ask the guest to power itself off.";
        "# macOS guests ignore the framework's stop request, and the alternative";
        "# is killing the VM, which is an unclean shutdown."; user +:+ " ALL=(ALL) NOPASSWD: /sbin/shutdown"; ""].

Record payloadFile := mkpayloadFile { pf_Path : string; pf_Mode : string; pf_Data : string; pf_Dir : bool; pf_Keep : bool }.
Definition payloadFiles (script sudoers : string) : list payloadFile :=
  [mkpayloadFile appleSetupDonePath "0400" "" false false; mkpayloadFile skipBuddyPath "0400" "" false false;
   mkpayloadFile (Dir scriptPath) "0755" "" true true; mkpayloadFile scriptPath "0700" script false false;
   mkpayloadFile plistPath "0644" launchDaemonPlist false false] ++
  (if bool_decide (sudoers = "") then [] else [mkpayloadFile sudoersPath "0440" sudoers false false]).

(** Account names: lowercase letters, digits, [-] and [_]. *)
Definition account_char (c : ascii) : bool :=
  (("a" <=? c)%char && (c <=? "z")%char) || is_digit c || bool_decide (c = "-"%char) || bool_decide (c = "_"%char).
Definition Validate (o : Options) : result error unit :=
  if bool_decide (fo_User o = "") then Err (Errorf "first-boot user is required" [])
  else if sforall account_char (fo_User o) then Ok tt
  else Err (Errorf "first-boot user must be lowercase alphanumeric, - or _" [fo_User o]).

Definition passwordAlphabet : string := "abcdefghijkmnopqrstuvwxyzABCDEFGHJKLMNPQRSTUVWXYZ23456789".
(** [draw]: the results of [rand.Int(rand.Reader, len(alphabet))] *)
Fixpoint draw_password (n : nat) (draw : nat → result error N) (i : nat) : result error string :=
  match n with
  | O => Ok ""
  | S n =>
      match draw i with
      | Err e => Err e
      | Ok k => match draw_password n draw (S i) with
                | Ok s => Ok (String (default "a"%char (String.get (N.to_nat k) passwordAlphabet)) s)
                | Err e => Err e
                end
      end
  end.
Definition GeneratePassword (n : Z) (draw : nat → result error N) : result error string :=
  if n <=? 0 then Err (Errorf "password length must be > 0" []) else draw_password (Z.to_nat n) draw 0.

(** ** The constructor *)
Record MacFile := mkMacFile { mf_size : Z; mf_data : string }.
Record MacWorld := mkMacWorld { mw_files : gmap string MacFile; mw_dirs : gset string }.
#[export] Instance MacWorld_eta : Settable MacWorld := λ w, mkMacWorld (mw_files w) (mw_dirs w).
Abbreviation MacM := (GoM MacWorld error).

Record RestoreResult := mkRestoreResult {
  rs_HardwareModel : list Byte.byte; rs_MachineIdentifier : list Byte.byte; rs_MinCPUs : Z; rs_MinMemoryBytes : Z }.
Record macosvmStorage := mkmacosvmStorage { ms_Type : string; ms_File : string }.
Record macosvmManifest := mkmacosvmManifest {
  mm_HardwareModel : list Byte.byte; mm_MachineID : list Byte.byte; mm_Storage : list macosvmStorage }.

Record MacEnv := mkMacEnv {
  me_mkdir : string → option error;
  me_open : string → option error;                    (* opening a file for writing *)
  me_truncate : string → option error;
  me_manifest : string → result error macosvmManifest;  (* reading and decoding [macosvm.json] *)
  me_clone : string → string → bool;                  (* [cp -c] succeeds *)
  me_copy : string → string → option (error * MacFile);  (* a copy that fails, and what it leaves *)
  me_helper : result error string;                    (* [vzhelper.ResolveHelper] *)
  me_pull : string → result error string;             (* [images.NewMacOSImage] and its [Download]: the path *)
  me_restore : list string → option error;            (* how the helper ends *)
  me_restored : list string → option (MacFile * MacFile);  (* the disk and aux images it writes, if it does *)
  me_result : string → result error RestoreResult;    (* [vzhelper.LoadRestoreResult] *)
  me_patch : string → Options → result error string;  (* [vzfirstboot.Patch]: the password set *)
  me_credentials : option error;                      (* writing the credentials file *)
}.

Section Mac.
Context (env : MacEnv) (host : Host) (conf : ProviderConfig).

Definition fail_with (e : option error) : MacM unit := match e with Some e => throw e | None => mret tt end.
Definition of_result {A} (r : result error A) : MacM A := match r with Ok a => mret a | Err e => throw e end.
Definition mac_exists (p : string) : MacM bool := gets (λ w, bool_decide (is_Some (mw_files w !! p)) || bool_decide (p ∈ mw_dirs w)).
Definition mac_put (p : string) (f : MacFile) : MacM unit := modify (λ w, w <| mw_files := <[p := f]> (mw_files w) |>).
(** [os.MkdirAll] of the storage directory of a VM *)
Definition make_storage (vmDir storageDir : string) : MacM unit :=
  _ ← fail_with (me_mkdir env storageDir); modify (λ w, w <| mw_dirs := {[vmDir; storageDir]} ∪ mw_dirs w |>).
Definition inside (d p : string) : bool := bool_decide (p = d) || HasPrefix p (d +:+ "/").
(** [os.RemoveAll] *)
Definition remove_all (d : string) : MacM unit :=
  modify (λ w, mkMacWorld (filter (λ '(p, _), inside d p = false) (mw_files w)) (filter (λ p, inside d p = false) (mw_dirs w))).

Definition minGuestPasswordLen : nat := 4.
(** The loop appends the name until there are enough characters: at most four
    times, as the name is not empty. *)
Fixpoint pad_password (fuel : nat) (user password : string) : string :=
  match fuel with
  | O => password
  | S fuel => if (String.length password <? minGuestPasswordLen)%nat then pad_password fuel user (password +:+ user) else password
  end.
Definition defaultGuestPassword (user : string) : string :=
  if bool_decide (user = "") then "" else pad_password minGuestPasswordLen user user.
Definition firstBootOptions (name : string) (opts : MacOSOptions) : result error Options :=
  let user := or_default (mo_User opts) "vee" in
  let fb := mkOptions user (or_default (mo_Password opts) (defaultGuestPassword user)) (mo_SSHPublicKeys opts)
              (or_default (mo_Hostname opts) name) true in
  if mo_SkipFirstBoot opts || negb (bool_decide (mo_MacosvmDir opts = "")) then Ok fb
  else match Validate fb with Err e => Err e | Ok _ => Ok fb end.

Definition createSparseFile (path : string) (size : Z) : MacM unit :=
  _ ← fail_with (me_open env path);
  old ← gets (λ w, default (mkMacFile 0 "") (mw_files w !! path));
  _ ← mac_put path old;
  if size <=? mf_size old then mret tt else
  _ ← fail_with (me_truncate env path); mac_put path (mkMacFile size (mf_data old)).
Definition copySparseAware (src dst : string) : MacM unit :=
  c ← gets (λ w, mw_files w !! src);
  match c with
  | None => throw (Errorf "no such file" [src])
  | Some f =>
      if IsMacOS host && me_clone env src dst then mac_put dst f else
      _ ← fail_with (me_open env dst);
      match me_copy env src dst with
      | Some (e, part) => _ ← mac_put dst part; throw e
      | None => mac_put dst f
      end
  end.

Definition storage_file_of (type : string) (ss : list macosvmStorage) : string :=
  foldl (λ acc s, if bool_decide (ms_Type s = type) then ms_File s else acc) "" ss.
Definition mac_section (aux : string) (model machine : list Byte.byte) (minCPUs minMem : Z) : MacOSConfig :=
  mkMacOSConfig aux model machine false false 0 0 0 minCPUs minMem.
Definition import_one (src dst : string) : MacM unit :=
  r ← attempt (copySparseAware src dst); match r with Ok _ => mret tt | Err e => throw (Wrapf ("import " +:+ src) e) end.
Definition importMacosvmBundle (dir diskPath auxPath : string) : MacM MacOSConfig :=
  manifest ← of_result (me_manifest env dir);
  if bool_decide (mm_HardwareModel manifest = []) || bool_decide (mm_MachineID manifest = [])
  then throw (Errorf "macosvm.json is missing hardwareModel or machineId" []) else
  let srcDisk := storage_file_of "disk" (mm_Storage manifest) in
  let srcAux := storage_file_of "aux" (mm_Storage manifest) in
  if bool_decide (srcDisk = "") || bool_decide (srcAux = "")
  then throw (Errorf "macosvm.json does not declare both a disk and an aux storage entry" []) else
  _ ← import_one (PathJoin [dir; srcDisk]) diskPath;
  _ ← import_one (PathJoin [dir; srcAux]) auxPath;
  mret (mac_section auxPath (mm_HardwareModel manifest) (mm_MachineID manifest) 0 0).

Definition restore_args (vmDir ipswPath diskPath auxPath : string) (cpus memBytes : Z) : list string :=
  ["--vm-dir"; vmDir; "--restore"; ipswPath; "--restore-disk"; diskPath; "--restore-aux"; auxPath;
   "--restore-cpus"; Itoa cpus; "--restore-memory"; Itoa memBytes].
Definition restoreMacOS (name ipsw diskSize diskPath auxPath : string) (cpus : Z) (memory : string) : MacM (MacOSConfig * Z * Z) :=
  _ ← of_result (me_helper env);
  local ← mac_exists ipsw;
  ipswPath ← (if (local : bool) && negb (bool_decide (ipsw = "")) then mret ipsw else of_result (me_pull env ipsw));
  diskBytes ← of_result (match ParseMemoryBytes (or_default diskSize "64G") with Ok b => Ok b | Err e => Err (Wrapf "disk size" e) end);
  _ ← createSparseFile diskPath diskBytes;
  memBytes ← of_result (ParseMemoryBytes memory);
  let vmDir := Dir (Dir diskPath) in
  let args := restore_args vmDir ipswPath diskPath auxPath cpus memBytes in
  _ ← match me_restored env args with
      | Some (disk, aux) => _ ← mac_put diskPath disk; mac_put auxPath aux
      | None => mret tt
      end;
  _ ← fail_with (match me_restore env args with Some e => Some (Wrapf ("macOS restore failed " +:+ name) e) | None => None end);
  res ← of_result (me_result env vmDir);
  mret (mac_section auxPath (rs_HardwareModel res) (rs_MachineIdentifier res) 0 0, rs_MinCPUs res, rs_MinMemoryBytes res).

Definition guestCredentialsFile : string := "macos-credentials.txt".
Definition writeGuestCredentials (vmDir user password : string) : MacM unit :=
  let body := text ["# Written by vee. GUI login for this macOS guest; SSH uses your vee key."; "user: " +:+ user; "password: " +:+ password; ""] in
  _ ← fail_with (me_credentials env);
  mac_put (PathJoin [vmDir; guestCredentialsFile]) (mkMacFile (Z.of_nat (String.length body)) body).
(** A failure of the patch is reported and nothing else: the guest is kept. *)
Definition patchFirstBoot (cfg : VMConfig) (vmDir diskPath : string) (opts : MacOSOptions) (fbOpts : Options) : MacM VMConfig :=
  if mo_SkipFirstBoot opts then mret cfg else
  match me_patch env diskPath fbOpts with
  | Err _ => mret cfg
  | Ok password =>
      _ ← ignore (writeGuestCredentials vmDir (fo_User fbOpts) password);
      mret (set_mac (cfg <| c_SSHUser := fo_User fbOpts |>)
              (λ m, mkMacOSConfig (mac_AuxiliaryStorage m) (mac_HardwareModel m) (mac_MachineIdentifier m) (fo_EnableScreenSharing fbOpts)
                      (mac_ScreenSharingUnsupported m) (mac_DisplayWidthPx m) (mac_DisplayHeightPx m) (mac_DisplayPPI m) (mac_MinCPUs m)
                      (mac_MinMemoryBytes m)))
  end.

(** A failure undoes what this call created. *)
Definition or_cleanup {A} (fresh : bool) (vmDir : string) (m : MacM A) : MacM A :=
  r ← attempt m; match r with Ok a => mret a | Err e => _ ← when_ fresh (remove_all vmDir); throw e end.
Definition mac_config (name memory : string) (cpus : Z) (diskPath : string) : VMConfig :=
  zeroConfig <| c_Name := name |> <| c_Template := "macos" |> <| c_Backend := "vz" |> <| c_Memory := memory |> <| c_CPUs := cpus |>
    <| c_Disks := [zeroDisk <| d_Path := diskPath |> <| d_Format := "raw" |>] |>
    <| c_NIC := mkNICConfig "" "" "" (DeterministicMAC name) [] |> <| c_SkipInstall := true |>.

Definition NewMacOSConfig (name : string) (opts : MacOSOptions) : MacM VMConfig :=
  if negb (IsMacOS host) || negb (bool_decide (HostArch host = "arm64"))
  then throw (Errorf "the macos template requires an Apple Silicon macOS host" [GOOS host; HostArch host]) else
  fbOpts ← of_result (firstBootOptions name opts);
  let memory := or_default (mo_Memory opts) "8G" in
  let cpus := if mo_CPUs opts <=? 0 then 4 else mo_CPUs opts in
  let vmDir := PathJoin [pc_StoragePath conf; name] in
  taken ← mac_exists (PathJoin [vmDir; "vm.yaml"]);
  if (taken : bool) then throw (Errorf "VM already exists" [name]) else
  there ← mac_exists vmDir;
  let freshDir := negb there in
  let storageDir := PathJoin [vmDir; "storage"] in
  _ ← make_storage vmDir storageDir;
  let diskPath := PathJoin [storageDir; "disk.img"] in
  let auxPath := PathJoin [storageDir; "aux.img"] in
  let cfg := mac_config name memory cpus diskPath in
  if negb (bool_decide (mo_MacosvmDir opts = "")) then
    mac ← or_cleanup freshDir vmDir (importMacosvmBundle (mo_MacosvmDir opts) diskPath auxPath);
    mret (cfg <| c_MacOS := Some mac |>)
  else
    '(mac, minCPUs, minMem) ← or_cleanup freshDir vmDir (restoreMacOS name (mo_IPSW opts) (mo_DiskSize opts) diskPath auxPath cpus memory);
    let mac := mac_section (mac_AuxiliaryStorage mac) (mac_HardwareModel mac) (mac_MachineIdentifier mac) minCPUs minMem in
    let cfg := ClampMacOSMinimums (cfg <| c_MacOS := Some mac |>) in
    or_cleanup freshDir vmDir (patchFirstBoot cfg vmDir diskPath opts fbOpts).
End Mac.

(** *** The default password is one macOS accepts *)
Lemma pad_password_long fuel user : user ≠ "" → ∀ password, (minGuestPasswordLen <= String.length password + fuel)%nat →
  (minGuestPasswordLen <= String.length (pad_password fuel user password))%nat.
Proof.
  intros Hu. induction fuel as [|fuel IH]; intros password Hl; cbn [pad_password]; [lia|].
  destruct (Nat.ltb_spec (String.length password) minGuestPasswordLen); [|lia]. apply IH. rewrite length_append.
  destruct user; [done|]. cbn [String.length]. lia.
Qed.
Theorem default_password_accepted user : user ≠ "" → (minGuestPasswordLen <= String.length (defaultGuestPassword user))%nat.
Proof.
  intros Hu. unfold defaultGuestPassword. rewrite bool_decide_eq_false_2 by done. apply pad_password_long; [done|]. lia.
Qed.

(** ** Only the VM's own directory is touched *)
Lemma inside_below ws l : ws ≠ [] → l ≠ [] → inside (abs_path ws) (abs_path (ws ++ l)) = true.
Proof.
  intros Hws Hl. unfold inside. apply orb_true_iff. right. apply HasPrefix_spec. exists (Join "/" l).
  unfold abs_path. rewrite Join_app by done. by rewrite !append_assoc.
Qed.

Section Scope.
Context (env : MacEnv) (host : Host) (conf : ProviderConfig) (vmDir : string).

(** Files that are not the VM's. *)
Definition others_kept (F : gmap string MacFile) (w : MacWorld) : Prop := ∀ p, inside vmDir p = false → mw_files w !! p = F !! p.

Lemma mac_put_kept F p f : inside vmDir p = true → preserves (others_kept F) (mac_put p f).
Proof.
  intros Hp. apply preserves_modify. intros w Hw q Hq. unfold update. cbn. rewrite lookup_insert_ne; [by apply Hw|]. intros <-. congruence.
Qed.
Lemma fail_with_kept F e : preserves (others_kept F) (fail_with e).
Proof. destruct e; [apply preserves_throw|apply preserves_ret]. Qed.
Lemma of_result_kept {A} F (r : result error A) : preserves (others_kept F) (of_result r).
Proof. destruct r; [apply preserves_ret|apply preserves_throw]. Qed.
Lemma remove_all_kept F : preserves (others_kept F) (remove_all vmDir).
Proof.
  apply preserves_modify. intros w Hw p Hp. cbn. rewrite <-(Hw p Hp). destruct (mw_files w !! p) as [f|] eqn:E.
  - by apply map_lookup_filter_Some_2.
  - by apply map_lookup_filter_None_2; left.
Qed.
#[local] Hint Resolve fail_with_kept of_result_kept remove_all_kept : gom.

Lemma createSparseFile_kept F p size : inside vmDir p = true → preserves (others_kept F) (createSparseFile env p size).
Proof. intros Hp. pose proof (mac_put_kept F p). unfold createSparseFile. preserves_tac; auto. Qed.
Lemma import_one_kept F src dst : inside vmDir dst = true → preserves (others_kept F) (import_one env host src dst).
Proof. intros Hp. pose proof (mac_put_kept F dst). unfold import_one, copySparseAware. preserves_tac; auto. Qed.
Lemma importMacosvmBundle_kept F dir disk aux : inside vmDir disk = true → inside vmDir aux = true →
  preserves (others_kept F) (importMacosvmBundle env host dir disk aux).
Proof.
  intros Hd Ha. unfold importMacosvmBundle. preserves_tac; by apply import_one_kept.
Qed.
Lemma restoreMacOS_kept F name ipsw size disk aux cpus memory : inside vmDir disk = true → inside vmDir aux = true →
  preserves (others_kept F) (restoreMacOS env name ipsw size disk aux cpus memory).
Proof.
  intros Hd Ha. pose proof (λ f, mac_put_kept F disk f Hd) as P1. pose proof (λ f, mac_put_kept F aux f Ha) as P2.
  pose proof (λ size, createSparseFile_kept F disk size Hd) as P3. unfold restoreMacOS, mac_exists. preserves_tac; auto.
Qed.
Lemma patchFirstBoot_kept F cfg disk opts fb : inside vmDir (PathJoin [vmDir; guestCredentialsFile]) = true →
  preserves (others_kept F) (patchFirstBoot env cfg vmDir disk opts fb).
Proof.
  intros Hc. pose proof (λ f, mac_put_kept F _ f Hc) as P1. unfold patchFirstBoot, writeGuestCredentials. preserves_tac; auto.
Qed.
Lemma or_cleanup_kept {A} F fresh (m : MacM A) : preserves (others_kept F) m → preserves (others_kept F) (or_cleanup fresh vmDir m).
Proof. intros Hm. unfold or_cleanup. preserves_tac. Qed.
Lemma make_storage_kept F d d' : preserves (others_kept F) (make_storage env d d').
Proof. unfold make_storage. preserves_tac. apply preserves_modify. intros w Hw p Hp. by apply Hw. Qed.
End Scope.

(** A call that fails under [or_cleanup] leaves nothing of the VM. *)
Lemma or_cleanup_clean {A} vmDir (m : MacM A) w e w' : or_cleanup true vmDir m w = (Err e, w') →
  ∀ p, inside vmDir p = true → mw_files w' !! p = None.
Proof.
  unfold or_cleanup. rewrite run_attempt. destruct (m w) as [[a|e'] w1]; cbn [fst snd]; [discriminate|]. cbn [when_].
  rewrite run_bind. intros [= _ <-] p Hp. cbn. apply map_lookup_filter_None_2. right. intros f _. cbn. congruence.
Qed.
Lemma or_cleanup_ok {A} fresh vmDir (m : MacM A) w a w' : or_cleanup fresh vmDir m w = (Ok a, w') → m w = (Ok a, w').
Proof.
  unfold or_cleanup. rewrite run_attempt. destruct (m w) as [[a'|e] w1]; cbn [fst snd]; [done|]. rewrite run_bind. by destruct fresh.
Qed.
(** The config of a guest whose account was created. *)
Definition provisioned (cfg : VMConfig) (fb : Options) : VMConfig :=
  set_mac (cfg <| c_SSHUser := fo_User fb |>)
    (λ m, mkMacOSConfig (mac_AuxiliaryStorage m) (mac_HardwareModel m) (mac_MachineIdentifier m) (fo_EnableScreenSharing fb)
            (mac_ScreenSharingUnsupported m) (mac_DisplayWidthPx m) (mac_DisplayHeightPx m) (mac_DisplayPPI m) (mac_MinCPUs m)
            (mac_MinMemoryBytes m)).
Lemma provisioned_cpus cfg fb : c_CPUs (provisioned cfg fb) = c_CPUs cfg.
Proof. reflexivity. Qed.
Lemma patch_result env cfg vmDir disk opts fb w cfg' w' : patchFirstBoot env cfg vmDir disk opts fb w = (Ok cfg', w') →
  cfg' = cfg ∨ cfg' = provisioned cfg fb.
Proof.
  unfold patchFirstBoot. destruct (mo_SkipFirstBoot opts); [intros [= <- _]; by left|].
  destruct (me_patch env disk fb); [|intros [= <- _]; by left]. intros (? & ? & _ & E)%run_bind_inv. injection E as <- _. by right.
Qed.

(** Making a macOS guest touches no other file than the VM's own; when it is
    refused because the VM has a [vm.yaml] nothing changes at all; and when it
    fails for a VM that had no directory, no file is left behind. *)
Theorem macos_scope env host conf name opts w : IsAbs (pc_StoragePath conf) = true → plain_elem name →
  let vmDir := PathJoin [pc_StoragePath conf; name] in
  let (r, w') := NewMacOSConfig env host conf name opts w in
  (∀ p, inside vmDir p = false → mw_files w' !! p = mw_files w !! p) ∧
  (is_Some (mw_files w !! PathJoin [vmDir; "vm.yaml"]) → is_ok r = false ∧ w' = w) ∧
  (is_ok r = false → (∀ p, inside vmDir p = true → mw_files w !! p = None) → vmDir ∉ mw_dirs w → mw_files w' = mw_files w).
Proof.
  intros Ha Hn vmDir.
  assert (∃ ws, vmDir = abs_path ws ∧ ws ≠ [] ∧ Forall plain_elem ws) as (ws & Ed & Hne & Hws).
  { eexists. split; [by apply PathJoin_child|]. split; [by intros []%app_eq_nil|]. apply Forall_app. split; [apply clean_elems|by apply Forall_singleton]. }
  assert (Hst : PathJoin [vmDir; "storage"] = abs_path (ws ++ ["storage"])) by (rewrite Ed; by apply PathJoin_abs).
  assert (Hin : ∀ f, plain_elem f → inside vmDir (PathJoin [PathJoin [vmDir; "storage"]; f]) = true).
  { intros f Hf. rewrite Hst, PathJoin_abs, <-app_assoc, Ed; [by apply inside_below| |done]. apply Forall_app. split; [done|by apply Forall_singleton]. }
  assert (Hcred : inside vmDir (PathJoin [vmDir; guestCredentialsFile]) = true) by (rewrite Ed, PathJoin_abs by done; by apply inside_below).
  pose proof (Hin "disk.img" ltac:(by repeat split)) as Hdisk. pose proof (Hin "aux.img" ltac:(by repeat split)) as Haux.
  assert (Hkept : preserves (others_kept vmDir (mw_files w)) (NewMacOSConfig env host conf name opts)).
  { unfold NewMacOSConfig. destruct (_ || _); [apply preserves_throw|]. apply preserves_bind; [apply of_result_kept|]. intros fb.
    apply preserves_bind; [apply preserves_gets|]. intros [|]; [apply preserves_throw|]. apply preserves_bind; [apply preserves_gets|]. intros there.
    apply preserves_bind; [apply make_storage_kept|]. intros _. destruct (negb (bool_decide (mo_MacosvmDir opts = ""))).
    - apply preserves_bind; [|intros mac; apply preserves_ret]. apply or_cleanup_kept. by apply importMacosvmBundle_kept.
    - apply preserves_bind; [apply or_cleanup_kept; by apply restoreMacOS_kept|]. intros [[mac c] m]. apply or_cleanup_kept.
      by apply patchFirstBoot_kept. }
  destruct (NewMacOSConfig env host conf name opts w) as [r w'] eqn:E.
  assert (Hout : others_kept vmDir (mw_files w) w') by (pose proof (Hkept w) as H; rewrite E in H; by apply H).
  split; [exact Hout|]. revert E. unfold NewMacOSConfig. destruct (_ || _); [intros [= <- <-]; done|].
  rewrite run_bind. destruct (firstBootOptions name opts) as [fb|e]; cbn [of_result]; [rewrite run_ret|intros [= <- <-]; done].
  unfold mac_exists. rewrite run_gets. fold vmDir. destruct (bool_decide (is_Some (mw_files w !! PathJoin [vmDir; "vm.yaml"])) || _) eqn:Et; [intros [= <- <-]; done|].
  intros Erun. split; [intros Hy; by rewrite bool_decide_eq_true_2 in Et|]. intros Hr Hempty Hdir. revert Erun. rewrite run_gets.
  assert (bool_decide (is_Some (mw_files w !! vmDir)) || bool_decide (vmDir ∈ mw_dirs w) = false) as ->.
  { rewrite bool_decide_eq_false_2, bool_decide_eq_false_2; [done|done|]. rewrite Hempty; [by intros []|]. unfold inside. by rewrite bool_decide_eq_true_2. }
  cbn [negb]. intros Erun. apply map_eq. intros p. destruct (inside vmDir p) eqn:Hp; [|by apply Hout]. rewrite (Hempty p Hp).
  revert Erun. rewrite run_bind. unfold make_storage at 1. rewrite run_bind.
  destruct (me_mkdir env _) as [e|]; cbn [fail_with]; [intros [= <- <-]; by apply Hempty|]. rewrite run_ret. unfold modify at 1.
  destruct (negb (bool_decide (mo_MacosvmDir opts = ""))); rewrite run_bind.
  - destruct (or_cleanup _ _ _ _) as [[mac|e] w1] eqn:E1; intros [= <- <-]; [discriminate|]. by eapply or_cleanup_clean.
  - destruct (or_cleanup _ _ (restoreMacOS _ _ _ _ _ _ _ _) _) as [[[[mac c] m]|e] w1] eqn:E1; [|intros [= <- <-]; by eapply or_cleanup_clean].
    intros E2. destruct r as [cfg|e]; [discriminate|]. by eapply or_cleanup_clean in E2.
Qed.

(** A macOS guest that was made runs on the vz backend from one raw disk under
    its directory, with the address its name determines and no install pass; its
    platform is the one of the bundle or of the restore, it has at least the
    CPUs the restored image needs, and the account to log in with is the one
    created, if one was. *)
Theorem macos_guest_made env host conf name opts w cfg w' : NewMacOSConfig env host conf name opts w = (Ok cfg, w') →
  let vmDir := PathJoin [pc_StoragePath conf; name] in
  let storage := PathJoin [vmDir; "storage"] in
  c_Name cfg = name ∧ c_Template cfg = "macos" ∧ c_Backend cfg = "vz" ∧ c_SkipInstall cfg = true ∧ nic_MAC (c_NIC cfg) = DeterministicMAC name ∧
  c_Disks cfg = [zeroDisk <| d_Path := PathJoin [storage; "disk.img"] |> <| d_Format := "raw" |>] ∧
  ∃ mac, c_MacOS cfg = Some mac ∧ mac_AuxiliaryStorage mac = PathJoin [storage; "aux.img"] ∧
    (mac_MinCPUs mac <= c_CPUs cfg ∨ mac_MinCPUs mac <= 0) ∧
    (c_SSHUser cfg = "" ∨ mac_ScreenSharingGrantPending mac = true ∧ c_SSHUser cfg = or_default (mo_User opts) "vee").
Proof.
  unfold NewMacOSConfig. destruct (_ || _); [discriminate|]. rewrite run_bind.
  destruct (firstBootOptions name opts) as [fb|e] eqn:Efb; cbn [of_result]; [rewrite run_ret|discriminate].
  assert (Huser : fo_User fb = or_default (mo_User opts) "vee" ∧ fo_EnableScreenSharing fb = true).
  { revert Efb. unfold firstBootOptions. destruct (_ || _); [by intros [= <-]|]. destruct (Validate _); [by intros [= <-]|discriminate]. }
  unfold mac_exists. rewrite run_gets. case_match; [discriminate|]. rewrite run_gets. intros (u & w1 & _ & E)%run_bind_inv. revert E.
  set (vmDir := PathJoin [pc_StoragePath conf; name]). set (disk := PathJoin [PathJoin [vmDir; "storage"]; "disk.img"]).
  set (aux := PathJoin [PathJoin [vmDir; "storage"]; "aux.img"]).
  destruct (negb (bool_decide (mo_MacosvmDir opts = ""))).
  - intros (mac & w2 & E1 & E2)%run_bind_inv. injection E2 as <- _. do 6 (split; [reflexivity|]). exists mac. split; [reflexivity|].
    apply or_cleanup_ok in E1. revert E1. unfold importMacosvmBundle.
    intros (m & w4 & _ & E4)%run_bind_inv. revert E4. case_match; [discriminate|]. case_match; [discriminate|].
    intros (? & ? & _ & E4)%run_bind_inv. revert E4. intros (? & ? & _ & E4)%run_bind_inv. injection E4 as <- _. cbn. split; [done|]. split; [by right|by left].
  - intros ([[mac minCPUs] minMem] & w2 & E1 & E2)%run_bind_inv. revert E2.
    set (mac' := mac_section _ _ _ _ _). match goal with |- context [ClampMacOSMinimums ?b] => set (base := b) end.
    assert (Haux : mac_AuxiliaryStorage mac = aux).
    { apply or_cleanup_ok in E1. revert E1. unfold restoreMacOS.
      repeat (intros (? & ? & _ & E4)%run_bind_inv; revert E4). by intros [= <- _ _]. }
    destruct (Clamp_eq base) as (cpus & mem & Ec). pose proof (Clamp_minimums base mac' eq_refl) as Hmin.
    intros [->| ->]%or_cleanup_ok%patch_result; rewrite Ec in *.
    + do 6 (split; [reflexivity|]). exists mac'. split; [reflexivity|]. split; [exact Haux|]. split; [exact Hmin|by left].
    + do 6 (split; [reflexivity|]). eexists. split; [reflexivity|]. split; [exact Haux|].
      split; [rewrite provisioned_cpus; exact Hmin|]. right. split; [apply Huser|]. transitivity (fo_User fb); [reflexivity|apply Huser].
Qed.

(** ** An Apple host *)
Module MacExample.
Definition host : Host := mkHost "darwin" "arm64".
Definition conf : ProviderConfig := CatalogueExample.conf.
Definition disk (w : MacWorld) : option MacFile := mw_files w !! PathJoin [pc_StoragePath conf; "mac"; "storage"; "disk.img"].
Definition env (fails : option error) : MacEnv :=
  mkMacEnv (λ _, None) (λ _, None) (λ _, None) (λ _, Err (Errorf "no manifest" [])) (λ _ _, true) (λ _ _, None) (Ok "/usr/local/bin/vee-vz-helper")
    (λ _, Ok "/cache/latest.ipsw") (λ _, fails) (λ _, Some (mkMacFile 65536 "a fresh macOS", mkMacFile 32 "aux"))
    (λ _, Ok (mkRestoreResult [Byte.x01] [Byte.x02] 6 (8 * 2 ^ 30))) (λ _ fb, Ok (fo_Password fb)) None.
Definition opts : MacOSOptions := mkMacOSOptions "" "" 0 "" "" ["ssh-ed25519 AAAA"] "" "" "" false.
Definition w0 : MacWorld := mkMacWorld ∅ ∅.
Definition made : VMConfig := Eval vm_compute in match (NewMacOSConfig (env None) host conf "mac" opts w0).1 with Ok cfg => cfg | Err _ => zeroConfig end.

Lemma macos_guest_made_witness : c_SSHUser made = "vee" ∧ c_CPUs made = 6 ∧ c_Backend made = "vz".
Proof.
  destruct (macos_guest_made (env None) host conf "mac" opts w0 made (NewMacOSConfig (env None) host conf "mac" opts w0).2) as (_ & _ & Hb & _).
  - vm_compute. reflexivity.
  - split; [reflexivity|]. split; [reflexivity|exact Hb].
Defined.
(** A restore that fails leaves nothing of the VM. *)
Lemma macos_scope_witness : mw_files (NewMacOSConfig (env (Some (Errorf "exit status 1" []))) host conf "mac" opts w0).2 = ∅.
Proof.
  pose proof (macos_scope (env (Some (Errorf "exit status 1" []))) host conf "mac" opts w0 eq_refl ltac:(by repeat split)) as H. cbv zeta in H.
  destruct (NewMacOSConfig (env (Some (Errorf "exit status 1" []))) host conf "mac" opts w0) as [r w'] eqn:E.
  destruct H as (_ & _ & H). apply H; [|done|set_solver]. change (is_ok (r, w').1 = false). rewrite <-E. vm_compute. reflexivity.
Defined.

(** *** Surprising behaviour *)
(** The check for an existing VM looks for its [vm.yaml], which only the file
    store writes: the images of a guest on record in the database are restored
    over. *)
Definition installed : MacWorld :=
  mkMacWorld {[ PathJoin [pc_StoragePath conf; "mac"; "storage"; "disk.img"] := mkMacFile 65536 "documents of years" ]}
    {[ PathJoin [pc_StoragePath conf; "mac"]; PathJoin [pc_StoragePath conf; "mac"; "storage"] ]}.
Theorem installed_guest_overwritten :
  mf_data <$> disk installed = Some "documents of years" ∧
  (let (r, w) := NewMacOSConfig (env None) host conf "mac" opts installed in is_ok r = true ∧ mf_data <$> disk w = Some "a fresh macOS").
Proof. split; vm_compute; done. Qed.
End MacExample.
