(* ===== verification/Backup.v ===== *)
(** * Backups of guest directories

    [internal/backup]: the record of backup runs in the database, the execution
    of a run over rsync, the listing of a guest's directories and its cache.

    The tables of a run are lists in the order of their row ids, as SQLite keeps
    them.  Statements may fail ([be_fails], by the number of the statement), as
    may the making of a directory and a transfer. *)
From S2P Require Import Prelude GoStrings Config Store World Paths Guest Tables.

Open Scope Z_scope.
#[local] Arguments PathJoin : simpl never.

(** ** The tables *)
Inductive Status := StatusPending | StatusRunning | StatusDone | StatusFailed.
#[export] Instance Status_eq_dec : EqDecision Status.
Proof. solve_decision. Defined.

(** A row of [backup_runs] *)
Record RunRow := mkRunRow {
  rr_id : Z; rr_vm_name : string; rr_dest : string; rr_status : Status;
  rr_started_at : option Z; rr_finished_at : option Z; rr_error : option string }.
#[export] Instance RunRow_eta : Settable RunRow := λ r,
  mkRunRow (rr_id r) (rr_vm_name r) (rr_dest r) (rr_status r) (rr_started_at r) (rr_finished_at r) (rr_error r).
(** What the package hands out of it *)
Record Run := mkRun {
  run_ID : Z; run_VMName : string; run_Dest : string; run_Status : Status;
  run_StartedAt : option Z; run_FinishedAt : option Z; run_Error : string; run_Dirs : list string }.

(** [dir_cache] holds the paths decoded. *)
Record BackupWorld := mkBackupWorld {
  bw_vms : list string;                     (* the names in [vms] *)
  bw_runs : list RunRow;
  bw_dirs : list (Z * string);
  bw_cache : gmap string (list string * Z);
  bw_copied : list (string * string);       (* transfers made: guest path, destination *)
  bw_calls : nat;
}.
#[export] Instance BackupWorld_eta : Settable BackupWorld := λ w,
  mkBackupWorld (bw_vms w) (bw_runs w) (bw_dirs w) (bw_cache w) (bw_copied w) (bw_calls w).
Abbreviation BackupM := (GoM BackupWorld error).

Record BackupEnv := mkBackupEnv {
  be_fails : nat → option error;                       (* the [n]th statement *)
  be_now : nat → Z;                                    (* the clock at it *)
  be_mkdir : string → option error;                    (* [os.MkdirAll] *)
  be_rsync_path : result error string;                 (* [exec.LookPath("rsync")] *)
  be_run : string → list string → option error;        (* how a command ends *)
  be_output : list string → result error string;       (* what [ssh] prints *)
  be_message : error → string;                         (* [err.Error()] *)
}.

(** ** SSH *)
Record SSHConn := mkSSHConn { conn_User : string; conn_Host : string; conn_Port : Z; conn_Identity : string }.
Definition destination (c : SSHConn) : string :=
  if bool_decide (conn_User c = "") then conn_Host c else conn_User c +:+ "@" +:+ conn_Host c.
Definition conn_args (c : SSHConn) (remote : string) : list string :=
  ["-o"; "StrictHostKeyChecking=no"; "-o"; "BatchMode=yes"] ++
  (if conn_Port c =? 22 then [] else ["-p"; Itoa (conn_Port c)]) ++
  (if bool_decide (conn_Identity c = "") then [] else ["-i"; conn_Identity c]) ++ [destination c; remote].

Record DirEntry := mkDirEntry { de_Path : string; de_Name : string; de_Depth : nat }.
(** the text after the last slash, or all of it *)
Definition after_slash (p : string) : string := default "" (last (Split "/" p)).
Definition pathToEntry (p : string) : DirEntry := mkDirEntry p (after_slash p) (length (Split "/" p) - 1).
Definition findCmd : string :=
  "find ~ -mindepth 1 -type d ! -path '*/proc/*' ! -path '*/sys/*' ! -path '*/.git/*' 2>/dev/null | sort".

Definition path_le (a b : DirEntry) : Prop := String.leb (de_Path a) (de_Path b) = true.
#[export] Instance path_le_dec : RelDecision path_le.
Proof. intros a b. unfold path_le. apply _. Defined.

Section Backup.
Context (env : BackupEnv).

Definition listed (out : string) : list DirEntry :=
  pathToEntry <$> filter (λ l, l ≠ "") (TrimSpace <$> Split newline out).
Definition EnumerateHome (conn : SSHConn) : result error (list DirEntry) :=
  match be_output env (conn_args conn findCmd) with
  | Err e => Err (Wrapf "enumerate guest dirs" e)
  | Ok out => Ok (merge_sort path_le (listed (TrimSpace out)))
  end.

(** ** Statements *)
Definition stmt {A} (f : BackupWorld → result error A * BackupWorld) : BackupM A := λ w,
  let w' := w <| bw_calls := S (bw_calls w) |> in
  match be_fails env (bw_calls w) with Some e => (Err e, w') | None => f w' end.
Definition now : BackupM Z := gets (λ w, be_now env (bw_calls w)).

Definition next_id (rows : list RunRow) : Z := match last rows with Some r => rr_id r + 1 | None => 1 end.
Definition foreign_key : error := Errorf "FOREIGN KEY constraint failed" [].
Definition insert_run (vmName dest : string) : BackupM Z :=
  stmt (λ w, if bool_decide (vmName ∈ bw_vms w) then
               let id := next_id (bw_runs w) in
               (Ok id, w <| bw_runs := bw_runs w ++ [mkRunRow id vmName dest StatusPending None None None] |>)
             else (Err foreign_key, w)).
Definition insert_dir (id : Z) (dir : string) : BackupM unit :=
  stmt (λ w, if bool_decide (id ∈ rr_id <$> bw_runs w) then (Ok tt, w <| bw_dirs := bw_dirs w ++ [(id, dir)] |>) else (Err foreign_key, w)).
(** A transaction that does not commit leaves the tables as they were. *)
Definition transaction {A} (m : BackupM A) : BackupM A :=
  before ← gets id;
  _ ← stmt (λ w, (Ok tt, w));
  r ← attempt (a ← m; _ ← stmt (λ w, (Ok tt, w)); mret a);
  match r with
  | Ok a => mret a
  | Err e => _ ← modify (λ w, w <| bw_runs := bw_runs before |> <| bw_dirs := bw_dirs before |>); throw e
  end.

Definition CreateRun (vmName dest : string) (dirs : list string) : BackupM Z :=
  transaction (id ← insert_run vmName dest; _ ← for_each (insert_dir id) dirs; mret id).

Definition update_run (id : Z) (f : RunRow → RunRow) : BackupM unit :=
  stmt (λ w, (Ok tt, w <| bw_runs := (λ r, if rr_id r =? id then f r else r) <$> bw_runs w |>)).
Definition SetStatus (id : Z) (status : Status) (errMsg : string) : BackupM unit :=
  t ← now;
  update_run id (λ r,
    match status with
    | StatusRunning => r <| rr_status := status |> <| rr_started_at := Some t |>
    | StatusDone | StatusFailed => r <| rr_status := status |> <| rr_finished_at := Some t |> <| rr_error := Some errMsg |>
    | StatusPending => r <| rr_status := status |>
    end).

Definition loadDirs (runID : Z) : BackupM (list string) :=
  stmt (λ w, (Ok (snd <$> filter (λ d, d.1 = runID) (bw_dirs w)), w)).
Definition incomplete (vmName : string) (r : RunRow) : Prop :=
  rr_vm_name r = vmName ∧ rr_status r ∈ [StatusPending; StatusFailed].
#[export] Instance incomplete_dec vmName r : Decision (incomplete vmName r).
Proof. unfold incomplete. apply _. Defined.
Definition LastIncomplete (vmName : string) : BackupM (option Run) :=
  row ← stmt (λ w, (Ok (head (rev (filter (incomplete vmName) (bw_runs w)))), w));
  match row with
  | None => mret None
  | Some r =>
      dirs ← loadDirs (rr_id r);
      mret (Some (mkRun (rr_id r) vmName (rr_dest r) (rr_status r) None None (default "" (rr_error r)) dirs))
  end.

Fixpoint with_dirs (rows : list RunRow) : BackupM (list Run) :=
  match rows with
  | [] => mret []
  | r :: rows =>
      dirs ← loadDirs (rr_id r);
      rest ← with_dirs rows;
      mret (mkRun (rr_id r) (rr_vm_name r) (rr_dest r) (rr_status r) (rr_started_at r) (rr_finished_at r) (default "" (rr_error r)) dirs :: rest)
  end.
Definition ListRuns (vmName : string) : BackupM (list Run) :=
  rows ← stmt (λ w, (Ok (rev (filter (λ r, rr_vm_name r = vmName) (bw_runs w))), w));
  with_dirs rows.

(** ** The cache of directory listings *)
Definition cacheTTL : Z := 3600.
Definition CacheGet (vmName : string) : BackupM (option (list DirEntry)) :=
  row ← stmt (λ w, (Ok (bw_cache w !! vmName), w));
  match row with
  | None => mret None
  | Some (paths, cachedAt) => t ← now; mret (if cacheTTL <? t - cachedAt then None else Some (pathToEntry <$> paths))
  end.
Definition CacheSet (vmName : string) (entries : list DirEntry) : BackupM unit :=
  t ← now; stmt (λ w, (Ok tt, w <| bw_cache := <[vmName := (de_Path <$> entries, t)]> (bw_cache w) |>)).
Definition CacheAge (vmName : string) : BackupM Z :=
  row ← stmt (λ w, (Ok (bw_cache w !! vmName), w));
  match row with None => mret (-1) | Some (_, cachedAt) => t ← now; mret (t - cachedAt) end.

(** ** Running a backup *)
Definition is_slash (c : ascii) : bool := bool_decide (c = "/"%char).
Definition rsync_args (conn : SSHConn) (guestPath localDest : string) : list string :=
  let sshCmd := "ssh -o StrictHostKeyChecking=no -o BatchMode=yes"
    +:+ (if conn_Port conn =? 22 then "" else " -p " +:+ Itoa (conn_Port conn))
    +:+ (if bool_decide (conn_Identity conn = "") then "" else " -i " +:+ conn_Identity conn) in
  ["-az"; "--info=progress2"; "--human-readable"; "-e"; sshCmd;
   destination conn +:+ ":" +:+ trim_right is_slash guestPath +:+ "/"; localDest +:+ "/"].
Definition RunRsyncCmd (conn : SSHConn) (guestPath localDest : string) : result error (string * list string) :=
  match be_rsync_path env with
  | Err e => Err (Wrapf "rsync not found" e)
  | Ok rsync => Ok (rsync, rsync_args conn guestPath localDest)
  end.
(** Where a guest path is copied to. *)
Definition local_dest (dest guestPath : string) : string := PathJoin [dest; trim_left is_slash guestPath].

(** One turn of the loop. *)
Definition transfer (conn : SSHConn) (dest guestPath : string) : BackupM unit :=
  let localDest := local_dest dest guestPath in
  match be_mkdir env localDest with
  | Some e => throw (Wrapf ("mkdir " +:+ localDest) e)
  | None =>
      match RunRsyncCmd conn guestPath localDest with
      | Err e => throw e
      | Ok (rsync, args) =>
          match be_run env rsync args with
          | Some e => throw (Wrapf ("rsync " +:+ guestPath) e)
          | None => modify (λ w, w <| bw_copied := bw_copied w ++ [(guestPath, localDest)] |>)
          end
      end
  end.
Definition Execute (conn : SSHConn) (runID : Z) (dest : string) (dirs : list string) : BackupM unit :=
  started ← attempt (SetStatus runID StatusRunning "");
  match started with
  | Err e => throw (Wrapf "mark running" e)
  | Ok _ =>
      r ← attempt (for_each (transfer conn dest) dirs);
      match r with
      | Err firstErr => _ ← ignore (SetStatus runID StatusFailed (be_message env firstErr)); throw firstErr
      | Ok _ => SetStatus runID StatusDone ""
      end
  end.
End Backup.

(** ** Consistent tables *)
(** Row ids ascend, runs belong to VMs and directories to runs. *)
Record consistent (w : BackupWorld) : Prop := {
  ids_ascend : StronglySorted Z.lt (rr_id <$> bw_runs w);
  runs_of_vms : ∀ r, r ∈ bw_runs w → rr_vm_name r ∈ bw_vms w;
  dirs_of_runs : ∀ d, d ∈ bw_dirs w → d.1 ∈ rr_id <$> bw_runs w;
}.

Lemma next_id_above rows : StronglySorted Z.lt (rr_id <$> rows) → Forall (λ i, i < next_id rows) (rr_id <$> rows).
Proof.
  unfold next_id. destruct rows as [|r rows _] using rev_ind; [constructor|]. rewrite last_snoc, fmap_app. cbn.
  intros Hs. apply Forall_app. split; [|repeat constructor; lia].
  apply Forall_forall. intros i Hi. enough (i < rr_id r) by lia.
  eapply (StronglySorted_app_1_elem_of Z.lt); [exact Hs|done|set_solver].
Qed.
Lemma sorted_snoc (l : list Z) x : StronglySorted Z.lt l → Forall (λ i, i < x) l → StronglySorted Z.lt (l ++ [x]).
Proof. intros Hl Hx. apply StronglySorted_app_2; [|done|repeat constructor]. intros a b Ha ->%list_elem_of_singleton. by eapply Forall_forall in Ha; [|exact Hx]. Qed.

Section Tables.
Context (env : BackupEnv).

(** Statements change nothing when they fail. *)
Lemma stmt_cases {A} (f : BackupWorld → result error A * BackupWorld) w :
  let w' := w <| bw_calls := S (bw_calls w) |> in
  (∃ e, stmt env f w = (Err e, w')) ∨ stmt env f w = f w'.
Proof. unfold stmt. destruct (be_fails env (bw_calls w)); eauto. Qed.
Lemma consistent_calls w n : consistent w → consistent (w <| bw_calls := n |>).
Proof. intros [H1 H2 H3]. by split. Qed.
Lemma stmt_preserves {A} (P : BackupWorld → Prop) (f : BackupWorld → result error A * BackupWorld) :
  (∀ w n, P w → P (w <| bw_calls := n |>)) → (∀ w, P w → P (f w).2) → preserves P (stmt env f).
Proof. intros HP Hf w Hw. destruct (stmt_cases f w) as [[e ->]| ->]; [by apply HP|by apply Hf, HP]. Qed.

Lemma insert_run_consistent vmName dest : preserves consistent (insert_run env vmName dest).
Proof.
  apply stmt_preserves; [apply consistent_calls|]. intros w [H1 H2 H3]. case_bool_decide as Hvm; cbn; [|done]. split; unfold update; cbn.
  - rewrite fmap_app. apply sorted_snoc; [done|by apply next_id_above].
  - intros r [Hr| ->%list_elem_of_singleton]%elem_of_app; [by apply H2|done].
  - intros d Hd. rewrite fmap_app. apply elem_of_app. left. by apply H3.
Qed.
Lemma insert_dir_consistent id dir : preserves consistent (insert_dir env id dir).
Proof.
  apply stmt_preserves; [apply consistent_calls|]. intros w [H1 H2 H3]. case_bool_decide as Hid; cbn; [|done]. split; unfold update; cbn; [done..|].
  intros d [Hd| ->%list_elem_of_singleton]%elem_of_app; [by apply H3|done].
Qed.
Lemma map_runs_consistent (f : RunRow → RunRow) w :
  (∀ r, rr_id (f r) = rr_id r ∧ rr_vm_name (f r) = rr_vm_name r) → consistent w → consistent (w <| bw_runs := f <$> bw_runs w |>).
Proof.
  intros Hf [H1 H2 H3]. assert (E : rr_id <$> (f <$> bw_runs w) = rr_id <$> bw_runs w).
  { rewrite <-list_fmap_compose. apply list_fmap_ext. intros i r _. by apply Hf. }
  split; unfold update; cbn.
  - by rewrite E.
  - intros r (r' & -> & Hr)%list_elem_of_fmap. destruct (Hf r') as [_ ->]. by apply H2.
  - rewrite E. done.
Qed.
Lemma SetStatus_consistent id status msg : preserves consistent (SetStatus env id status msg).
Proof.
  unfold SetStatus. apply preserves_bind; [apply preserves_gets|]. intros t. apply stmt_preserves; [apply consistent_calls|].
  intros w Hw. cbn [snd]. apply (map_runs_consistent (λ r, if rr_id r =? id then _ else r)); [|done].
  intros r. destruct (rr_id r =? id); [by destruct status|done].
Qed.
Lemma transaction_consistent {A} (m : BackupM A) : preserves consistent m → (∀ w, bw_vms (m w).2 = bw_vms w) →
  preserves consistent (transaction env m).
Proof.
  intros Hm Hv w Hw. unfold transaction. rewrite run_gets, run_bind.
  assert (Hbegin : ∀ w, consistent w → consistent (stmt env (λ w, (Ok tt, w)) w).2).
  { apply stmt_preserves; [apply consistent_calls|done]. }
  assert (Hvb : ∀ w, bw_vms (stmt env (λ w, (Ok tt, w)) w).2 = bw_vms w).
  { intros w'. destruct (stmt_cases (λ w, (Ok tt, w)) w') as [[e ->]| ->]; done. }
  pose proof (Hbegin w Hw) as Hw1. pose proof (Hvb w) as V1. destruct (stmt env (λ w, (Ok tt, w)) w) as [[[]|e] w1]; cbn in Hw1, V1; [|done].
  rewrite run_attempt. cbn [id].
  set (body := (a ← m; _ ← stmt env (λ w, (Ok tt, w)); mret a)).
  assert (Hb : consistent (body w1).2 ∧ bw_vms (body w1).2 = bw_vms w).
  { unfold body. rewrite run_bind. pose proof (Hm w1 Hw1) as Hw2. pose proof (Hv w1) as V2. destruct (m w1) as [[a|e] w2]; cbn in Hw2, V2; cbn.
    - rewrite run_bind. pose proof (Hbegin w2 Hw2) as Hw3. pose proof (Hvb w2) as V3. destruct (stmt env _ w2) as [[[]|e] w3]; cbn in *; split; congruence || done.
    - split; [done|congruence]. }
  destruct (body w1) as [[a|e] w2]; cbn in Hb; destruct Hb as [Hc V]; cbn; [done|].
  rewrite run_modify. destruct Hw as [H1 H2 H3]. split; unfold update; cbn; [done| |done]. by rewrite V.
Qed.

Lemma for_each_vms {A} (f : A → BackupM unit) l : (∀ x w, bw_vms (f x w).2 = bw_vms w) → ∀ w, bw_vms (for_each f l w).2 = bw_vms w.
Proof.
  intros Hf. induction l as [|x l IH]; intros w; [done|]. cbn [for_each]. rewrite run_bind. pose proof (Hf x w) as E.
  destruct (f x w) as [[[]|e] w']; cbn in E; [by rewrite IH|done].
Qed.
Lemma stmt_vms {A} (f : BackupWorld → result error A * BackupWorld) :
  (∀ w, bw_vms (f w).2 = bw_vms w) → ∀ w, bw_vms (stmt env f w).2 = bw_vms w.
Proof. intros Hf w. destruct (stmt_cases f w) as [[e ->]| ->]; [done|by rewrite Hf]. Qed.
Lemma insert_dir_vms id dir w : bw_vms (insert_dir env id dir w).2 = bw_vms w.
Proof. apply stmt_vms. intros w'. by case_bool_decide. Qed.
Lemma insert_run_vms vmName dest w : bw_vms (insert_run env vmName dest w).2 = bw_vms w.
Proof. apply stmt_vms. intros w'. by case_bool_decide. Qed.

Lemma CreateRun_consistent vmName dest dirs : preserves consistent (CreateRun env vmName dest dirs).
Proof.
  unfold CreateRun. apply transaction_consistent.
  - apply preserves_bind; [apply insert_run_consistent|]. intros id. apply preserves_bind; [|intros ?; apply preserves_ret].
    apply preserves_for_each. intros dir. apply insert_dir_consistent.
  - intros w. rewrite run_bind. pose proof (insert_run_vms vmName dest w) as E. destruct (insert_run _ _ _ w) as [[id|e] w1]; cbn in E; [|done].
    rewrite run_bind. pose proof (for_each_vms (insert_dir env id) dirs (insert_dir_vms id) w1) as F.
    destruct (for_each _ _ w1) as [[[]|e] w2]; cbn in F |- *; congruence.
Qed.
Lemma transfer_consistent conn dest p : preserves consistent (transfer env conn dest p).
Proof.
  unfold transfer. destruct (be_mkdir _ _); [apply preserves_throw|]. destruct (RunRsyncCmd _ _ _ _) as [[rsync args]|e]; [|apply preserves_throw].
  destruct (be_run _ _ _); [apply preserves_throw|]. apply preserves_modify. intros w [H1 H2 H3]. by split.
Qed.
Lemma Execute_consistent conn id dest dirs : preserves consistent (Execute env conn id dest dirs).
Proof.
  unfold Execute. apply preserves_bind; [apply preserves_attempt, SetStatus_consistent|]. intros [[]|e]; [|apply preserves_throw].
  apply preserves_bind; [apply preserves_attempt, preserves_for_each; intros p; apply transfer_consistent|].
  intros [[]|e]; [apply SetStatus_consistent|]. apply preserves_bind; [apply preserves_ignore, SetStatus_consistent|intros ?; apply preserves_throw].
Qed.
End Tables.

(** ** The outcome of a run *)
Section Outcome.
Context (env : BackupEnv) (Hdb : ∀ n, be_fails env n = None).

(** Whether a directory can be copied. *)
Definition copies (conn : SSHConn) (dest p : string) : bool :=
  bool_decide (be_mkdir env (local_dest dest p) = None) &&
  match RunRsyncCmd env conn p (local_dest dest p) with
  | Ok (rsync, args) => bool_decide (be_run env rsync args = None)
  | Err _ => false
  end.
Fixpoint copied_before (ok : string → bool) (dirs : list string) : list string :=
  match dirs with [] => [] | p :: dirs => if ok p then p :: copied_before ok dirs else [] end.

Lemma transfer_result conn dest p w : let (r, w') := transfer env conn dest p w in
  is_ok r = copies conn dest p ∧ bw_runs w' = bw_runs w ∧
  bw_copied w' = bw_copied w ++ (if copies conn dest p then [(p, local_dest dest p)] else []).
Proof.
  unfold transfer, copies. destruct (be_mkdir env _) as [e|]; cbn; [by rewrite app_nil_r|].
  destruct (RunRsyncCmd env _ _ _) as [[rsync args]|e]; cbn; [|by rewrite app_nil_r].
  destruct (be_run env rsync args) as [e|]; cbn; [by rewrite app_nil_r|done].
Qed.
Lemma transfers_result conn dest dirs : ∀ w, let (r, w') := for_each (transfer env conn dest) dirs w in
  is_ok r = forallb (copies conn dest) dirs ∧ bw_runs w' = bw_runs w ∧
  bw_copied w' = bw_copied w ++ ((λ p, (p, local_dest dest p)) <$> copied_before (copies conn dest) dirs).
Proof.
  induction dirs as [|p dirs IH]; intros w; [cbn; by rewrite app_nil_r|]. cbn [for_each forallb copied_before]. rewrite run_bind.
  pose proof (transfer_result conn dest p w) as H. destruct (transfer env conn dest p w) as [[[]|e] w1]; destruct H as (Hok & Hr & Hc); cbn in Hok; rewrite <-Hok in *.
  - specialize (IH w1). destruct (for_each _ dirs w1) as [r w2]. destruct IH as (-> & -> & ->). rewrite Hc, <-app_assoc. done.
  - cbn. by rewrite Hc, Hr.
Qed.
Lemma SetStatus_result id status msg w : ∃ w', SetStatus env id status msg w = (Ok tt, w') ∧ bw_copied w' = bw_copied w ∧
  ∃ t, bw_runs w' = (λ r, if rr_id r =? id then
    match status with
    | StatusRunning => r <| rr_status := status |> <| rr_started_at := Some t |>
    | StatusDone | StatusFailed => r <| rr_status := status |> <| rr_finished_at := Some t |> <| rr_error := Some msg |>
    | StatusPending => r <| rr_status := status |>
    end else r) <$> bw_runs w.
Proof. unfold SetStatus, update_run, now. rewrite run_gets. unfold stmt. rewrite Hdb. eexists. split; [reflexivity|]. split; [done|]. by eexists. Qed.

(** The row of a run that has ended. *)
Definition ended (status : Status) (msg : string) (r r' : RunRow) : Prop :=
  rr_id r' = rr_id r ∧ rr_vm_name r' = rr_vm_name r ∧ rr_dest r' = rr_dest r ∧ rr_status r' = status ∧
  is_Some (rr_started_at r') ∧ is_Some (rr_finished_at r') ∧ rr_error r' = Some msg.

(** A backup does what its record says.  With a working database, [Execute]
    copies the directories in order up to the first that fails, each to its
    place under the destination; it succeeds exactly when all were copied.  The
    run's row then says done, or failed with the text of the error returned,
    with both times set, and no other row changes. *)
Theorem execute_outcome conn id dest dirs w : let (r, w') := Execute env conn id dest dirs w in
  is_ok r = forallb (copies conn dest) dirs ∧
  bw_copied w' = bw_copied w ++ ((λ p, (p, local_dest dest p)) <$> copied_before (copies conn dest) dirs) ∧
  Forall2 (λ row row', if rr_id row =? id
                       then match r with Ok _ => ended StatusDone "" row row' | Err e => ended StatusFailed (be_message env e) row row' end
                       else row' = row) (bw_runs w) (bw_runs w').
Proof.
  unfold Execute. rewrite run_attempt. destruct (SetStatus_result id StatusRunning "" w) as (w1 & -> & Hc1 & t1 & Hr1). cbn [fst snd].
  rewrite run_attempt. pose proof (transfers_result conn dest dirs w1) as H. destruct (for_each _ dirs w1) as [r2 w2]. destruct H as (Hok & Hr2 & Hc2).
  assert (Hrows : ∀ status msg w3 t3, status = StatusDone ∨ status = StatusFailed →
    bw_runs w3 = (λ r, if rr_id r =? id then r <| rr_status := status |> <| rr_finished_at := Some t3 |> <| rr_error := Some msg |> else r) <$> bw_runs w2 →
    Forall2 (λ row row', if rr_id row =? id then ended status msg row row' else row' = row) (bw_runs w) (bw_runs w3)).
  { intros status msg w3 t3 _ E. rewrite E, Hr2, Hr1, <-list_fmap_compose. apply Forall2_fmap_r, Forall_Forall2_diag, Forall_true.
    intros r. cbn. destruct (rr_id r =? id) eqn:Eid; cbn; rewrite Eid; [|done]. repeat split; by eexists. }
  cbn [fst snd]. destruct r2 as [[]|e]; cbn in Hok.
  - destruct (SetStatus_result id StatusDone "" w2) as (w3 & -> & Hc3 & t3 & Hr3). split; [done|]. split; [congruence|]. eapply Hrows; eauto.
  - rewrite run_bind. unfold ignore at 1. destruct (SetStatus_result id StatusFailed (be_message env e) w2) as (w3 & -> & Hc3 & t3 & Hr3). cbn.
    split; [done|]. split; [congruence|]. eapply Hrows; eauto.
Qed.
End Outcome.

(** ** A run that was created is found *)
Section Found.
Context (env : BackupEnv) (Hdb : ∀ n, be_fails env n = None).

Lemma stmt_ok {A} (f : BackupWorld → result error A * BackupWorld) w : stmt env f w = f (w <| bw_calls := S (bw_calls w) |>).
Proof. unfold stmt. by rewrite Hdb. Qed.
Lemma insert_dirs_ok id dirs : ∀ w, id ∈ rr_id <$> bw_runs w → ∃ w', for_each (insert_dir env id) dirs w = (Ok tt, w') ∧
  bw_runs w' = bw_runs w ∧ bw_dirs w' = bw_dirs w ++ (pair id <$> dirs).
Proof.
  induction dirs as [|p dirs IH]; intros w Hid; [exists w; cbn; by rewrite app_nil_r|]. cbn [for_each]. rewrite run_bind.
  unfold insert_dir at 1. rewrite stmt_ok. rewrite bool_decide_eq_true_2 by done.
  match goal with |- ∃ w', _ _ ?w1 = _ ∧ _ => destruct (IH w1) as (w' & -> & Hr & Hd); [done|] end.
  exists w'. split; [done|]. rewrite Hr, Hd. unfold update. cbn. by rewrite <-app_assoc.
Qed.
Lemma old_dirs_differ w : consistent w → filter (λ d, d.1 = next_id (bw_runs w)) (bw_dirs w) = [].
Proof.
  intros [H1 _ H3]. pose proof (next_id_above _ H1) as Ha.
  induction (bw_dirs w) as [|d ds IH]; [done|]. rewrite filter_cons_False; [apply IH; set_solver|].
  intros E. specialize (H3 d ltac:(set_solver)). eapply Forall_forall in H3; [|exact Ha]. cbn in H3. lia.
Qed.
Lemma own_dirs id (dirs : list string) : snd <$> filter (λ d : Z * string, d.1 = id) (pair id <$> dirs) = dirs.
Proof. induction dirs as [|p dirs IH]; [done|]. rewrite fmap_cons, filter_cons_True by done. cbn. by rewrite IH. Qed.

(** A run that was created is the one offered for another attempt, with its
    directories in the order they were chosen. *)
Theorem created_run_found vmName dest dirs w : consistent w → vmName ∈ bw_vms w →
  ∃ id w' w'', CreateRun env vmName dest dirs w = (Ok id, w') ∧
    LastIncomplete env vmName w' = (Ok (Some (mkRun id vmName dest StatusPending None None "" dirs)), w'').
Proof.
  intros Hc Hvm. unfold CreateRun, transaction. rewrite run_gets, run_bind, stmt_ok, run_attempt, run_bind.
  set (w1 := w <| bw_calls := S (bw_calls w) |>). rewrite run_bind. unfold insert_run. rewrite stmt_ok.
  rewrite bool_decide_eq_true_2 by done. set (id := next_id _). rewrite run_bind.
  match goal with |- context [for_each (insert_dir env id) dirs ?w2] => destruct (insert_dirs_ok id dirs w2) as (w3 & -> & Hr & Hd) end.
  { unfold update. cbn. rewrite fmap_app. apply elem_of_app. right. by apply list_elem_of_singleton. }
  rewrite run_ret, run_bind, stmt_ok. eexists id, _, _. split; [reflexivity|].
  unfold LastIncomplete, loadDirs. rewrite run_bind, stmt_ok. unfold update in *. cbn in Hr, Hd |- *. rewrite Hr, Hd.
  rewrite filter_app, filter_cons_True, filter_nil, rev_app_distr by (split; [done|set_solver]). cbn.
  rewrite run_bind, stmt_ok. unfold update. cbn. rewrite filter_app, fmap_app, own_dirs.
  assert (filter (λ d, d.1 = id) (bw_dirs w) = []) as -> by exact (old_dirs_differ w Hc). reflexivity.
Qed.
End Found.

(** ** Copies stay under the destination *)
Definition kept (ws : list string) : list string := filter (λ w, w ≠ "" ∧ w ≠ ".") ws.
Lemma clean_kept r ws : ∀ out, Forall (λ w, w ≠ "..") ws → foldl (clean_step r) out ws = rev (kept ws) ++ out.
Proof.
  unfold kept. induction ws as [|w ws IH]; intros out Hws; [done|]. apply Forall_cons in Hws as [Hw Hws]. cbn [foldl]. rewrite IH by done.
  unfold clean_step at 1. destruct (decide (w ≠ "" ∧ w ≠ ".")) as [[H1 H2]|H].
  - rewrite !bool_decide_eq_false_2 by done. cbn [orb]. rewrite filter_cons_True by done. cbn. by rewrite <-app_assoc.
  - rewrite filter_cons_False by done. case_bool_decide; [done|]. case_bool_decide; [done|]. tauto.
Qed.
Lemma trim_left_split p : ∀ w, w ∈ Split "/" (trim_left is_slash p) → w ∈ Split "/" p.
Proof.
  induction p as [|c p IH]; intros w; [done|]. cbn [trim_left]. unfold is_slash at 1. case_bool_decide as E; [|done].
  intros Hw. subst c. change (Split "/" (String "/" p)) with ("" :: Split "/" p). right. by apply IH.
Qed.

(** A directory whose path has no parent reference is copied to the destination
    or below it. *)
Theorem copies_stay_inside dest p : IsAbs dest = true → Clean dest = dest → dest ≠ "/" → ".." ∉ Split "/" p →
  local_dest dest p = dest ∨ HasPrefix (local_dest dest p) (dest +:+ "/") = true.
Proof.
  intros Ha Hc Hroot Hp. unfold local_dest. rewrite PathJoin_two by by apply IsAbs_nonempty. set (rel := trim_left is_slash p).
  assert (Hrel : Forall (λ w, w ≠ "..") (Split "/" rel)).
  { apply Forall_forall. intros w Hw ->. by apply Hp, trim_left_split. }
  assert (Habs : IsAbs (dest +:+ "/" +:+ rel) = true) by (destruct dest; [done|exact Ha]).
  unfold Clean. rewrite Habs, Split_app_slash, foldl_app, clean_kept by done.
  unfold Clean in Hc. rewrite Ha in Hc. set (out := foldl (clean_step true) [] (Split "/" dest)) in *.
  destruct (decide (kept (Split "/" rel) = [])) as [->|Hk]; [left; exact Hc|]. right. apply HasPrefix_spec.
  rewrite rev_app_distr, rev_involutive.
  assert (rev out ≠ []) as Hout by (intros E; rewrite E in Hc; cbn in Hc; by symmetry in Hc).
  exists (Join "/" (kept (Split "/" rel))). rewrite Join_app by done. rewrite <-Hc at 1. by rewrite !append_assoc.
Qed.

(** ** A VM with two directories *)
Module BackupExample.
Definition conn : SSHConn := mkSSHConn "me" "127.0.0.1" 2222 "".
Definition env : BackupEnv :=
  mkBackupEnv (λ _, None) (λ n, 1000 + Z.of_nat n) (λ _, None) (Ok "/usr/bin/rsync")
    (λ _ args, if bool_decide (last args = Some "/backup/home/me/b/") then Some (Errorf "exit status 23" []) else None)
    (λ _, Ok "") (λ e, match e with Errorf f _ => f | Wrapf c _ => c end).
Definition w0 : BackupWorld := mkBackupWorld ["dev"] [] [] ∅ [] 0.

(** The second directory fails: one is copied, the run failed, and it is offered
    again with its directories. *)
Example second_fails :
  let dirs := ["/home/me/a"; "/home/me/b"] in
  let w := ((id ← CreateRun env "dev" "/backup" dirs; Execute env conn id "/backup" dirs) w0).2 in
  bw_copied w = [("/home/me/a", "/backup/home/me/a")] ∧ (rr_status <$> bw_runs w) = [StatusFailed] ∧
  match (LastIncomplete env "dev" w).1 with Ok (Some r) => run_Dirs r = dirs ∧ run_Error r = "rsync /home/me/b" | _ => False end.
Proof. vm_compute. done. Qed.
Lemma created_run_found_witness : ∃ id w' w'', CreateRun env "dev" "/backup" ["/home/me/a"] w0 = (Ok id, w') ∧
  LastIncomplete env "dev" w' = (Ok (Some (mkRun id "dev" "/backup" StatusPending None None "" ["/home/me/a"])), w'').
Proof.
  apply (created_run_found env ltac:(done) "dev" "/backup" ["/home/me/a"] w0); [|by apply list_elem_of_singleton].
  split; [constructor|set_solver..].
Defined.
Lemma copies_stay_inside_witness : HasPrefix (local_dest "/backup/dev" "/home/me/a") "/backup/dev/" = true.
Proof.
  destruct (copies_stay_inside "/backup/dev" "/home/me/a" eq_refl ltac:(vm_compute; reflexivity) ltac:(discriminate)
    ltac:(apply (bool_decide_unpack _); vm_compute; exact I)) as [E|E]; [vm_compute in E; discriminate|exact E].
Defined.

(** *** Surprising behaviour *)
(** The paths offered come from the guest; one with parent references is
    copied outside of the destination. *)
Example copy_escapes : local_dest "/home/me/.vee/backups/dev" "/../../../.ssh" = "/home/me/.ssh".
Proof. vm_compute. reflexivity. Qed.
(** A run the host did not see the end of is not offered again. *)
Example interrupted_run_forgotten :
  let w := ((id ← CreateRun env "dev" "/backup" ["/home/me/a"]; SetStatus env id StatusRunning "") w0).2 in
  (LastIncomplete env "dev" w).1 = Ok None.
Proof. vm_compute. reflexivity. Qed.
End BackupExample.
