(* ===== verification/Tunnels.v ===== *)
(** * Background tunnels

    [internal/vm/tunnel_registry.go] (the tunnels on record),
    [internal/vm/tunnel_daemon.go] (the daemon's listeners and their
    reconciliation with the record), the routing decisions of
    [internal/vm/tunnel_router.go], and [internal/vm/services.go].

    Host names are handled byte by byte: a byte outside ASCII is never part of a
    label, as the runes it belongs to are not. *)
From S2P Require Import Prelude GoStrings Config Store World Lifecycle.

Open Scope Z_scope.

(** ** Services *)
Definition resolve_service (cfg : VMConfig) (state : VMState) (s : ServiceEntry) : ServiceEntry :=
  if bool_decide (se_Protocol s = ServiceSPICE) then
    if 0 <? s_SPICEPort state then s <| se_Port := s_SPICEPort state |>
    else match c_SPICE cfg with
         | Some sp => s <| se_Port := sp_Port sp |>
         | None => s
         end
  else s.
Definition ResolvedServices (cfg : VMConfig) (state : VMState) : list ServiceEntry :=
  resolve_service cfg state <$> c_Services cfg.

(** [strings.SplitN(s, sep, 2)] as the parts around the first [sep]. *)
Fixpoint cut_at (sep s : string) : option (string * string) :=
  if HasPrefix s sep then Some ("", sdrop (String.length sep) s)
  else match s with
       | "" => None
       | String c s' => '(a, b) ← cut_at sep s'; Some (String c a, b)
       end.

(** [tcp:127.0.0.1:hostPort]: the text after the second colon. *)
Definition host_port_text (s : string) : option string :=
  '(_, rest) ← cut_at ":" s; '(_, p) ← cut_at ":" rest; Some p.

Fixpoint FindHostFwd (fwds : list string) (guestPort : Z) : Z :=
  match fwds with
  | [] => 0
  | fwd :: fwds' =>
      match cut_at "-:" fwd with
      | Some (host, guest) =>
          if bool_decide (guest = Itoa guestPort) then
            match host_port_text host ≫= Atoi with
            | Some p => p
            | None => FindHostFwd fwds' guestPort
            end
          else FindHostFwd fwds' guestPort
      | None => FindHostFwd fwds' guestPort
      end
  end.

Definition ServiceURL (cfg : VMConfig) (s : ServiceEntry) : string :=
  let scheme := if bool_decide (se_Protocol s = ServiceHTTP) then "http://"
                else if bool_decide (se_Protocol s = ServiceHTTPS) then "https://" else "" in
  let hostPort := FindHostFwd (nic_HostFwds (c_NIC cfg)) (se_Port s) in
  if bool_decide (se_Protocol s = ServiceSPICE) then "spice://localhost:" +:+ Itoa (se_Port s)
  else if bool_decide (nic_Mode (c_NIC cfg) = "user") && (0 <? hostPort)
  then scheme +:+ "localhost:" +:+ Itoa hostPort
  else scheme +:+ "localhost:<proxy> → guest:" +:+ Itoa (se_Port s).

(** ** The registry *)
Definition BindLoopback : string := "127.0.0.1".
Definition BindHost : string := "0.0.0.0".

Record TunnelSpec := mkTunnelSpec {
  t_VM : string;
  t_Service : string;
  t_Bind : string;
  t_Port : Z;
  t_Hostname : string;
  t_Protocol : string;
}.
#[export] Instance TunnelSpec_eta : Settable TunnelSpec := λ t,
  mkTunnelSpec (t_VM t) (t_Service t) (t_Bind t) (t_Port t) (t_Hostname t) (t_Protocol t).
#[export] Instance TunnelSpec_eq_dec : EqDecision TunnelSpec.
Proof. solve_decision. Defined.

Definition key_of (vm service : string) : string := vm +:+ "/" +:+ service.
Definition Key (t : TunnelSpec) : string := key_of (t_VM t) (t_Service t).
Definition BindAddr (t : TunnelSpec) : string :=
  if bool_decide (t_Bind t = BindHost) then BindHost else BindLoopback.
Definition VHost (t : TunnelSpec) : string :=
  if bool_decide (t_Hostname t = "") then t_Service t else t_Hostname t.

(** The registry file: absent, or a list of specs; [reg_read] and [reg_write]
    are the faults of reading it and of replacing it. *)
Record Registry := mkRegistry {
  reg_file : option (list TunnelSpec);
  reg_read : option error;
  reg_write : option error;
}.
#[export] Instance Registry_eta : Settable Registry := λ r,
  mkRegistry (reg_file r) (reg_read r) (reg_write r).

(** Not [less(b, a)] for the [less] of [sortSpecs]. *)
Definition spec_less (a b : TunnelSpec) : bool :=
  if negb (bool_decide (t_VM a = t_VM b)) then String.ltb (t_VM a) (t_VM b)
  else String.ltb (t_Service a) (t_Service b).
Definition spec_le (a b : TunnelSpec) : Prop := spec_less b a = false.
#[export] Instance spec_le_dec : RelDecision spec_le.
Proof. intros a b. unfold spec_le. apply _. Defined.
Definition sortSpecs : list TunnelSpec → list TunnelSpec := merge_sort spec_le.

Abbreviation R := (GoM Registry error).

Definition load : R (list TunnelSpec) := λ r,
  match reg_read r with
  | Some e => (Err (Wrapf "read tunnel registry" e), r)
  | None => (Ok (sortSpecs (default [] (reg_file r))), r)
  end.
(** Written to a temporary file that replaces the registry in one rename. *)
Definition save (specs : list TunnelSpec) : R unit := λ r,
  match reg_write r with
  | Some e => (Err (Wrapf "replace tunnel registry" e), r)
  | None => (Ok tt, r <| reg_file := Some (sortSpecs specs) |>)
  end.

Definition TunnelList : R (list TunnelSpec) := load.
Definition Add (spec : TunnelSpec) : R unit :=
  specs ← load;
  save (filter (λ s, Key s ≠ Key spec) specs ++ [spec]).
Definition RemoveTunnel (vmName service : string) : R bool :=
  specs ← load;
  let out := filter (λ s, Key s ≠ key_of vmName service) specs in
  if bool_decide (length out = length specs) then mret false
  else _ ← save out; mret true.
Definition RemoveVM (vmName : string) : R unit :=
  specs ← load;
  let out := filter (λ s, t_VM s ≠ vmName) specs in
  if bool_decide (length out = length specs) then mret tt else save out.

(** ** Host names *)
Definition label_char (c : ascii) : option ascii :=
  if is_lower c || is_digit c then Some c
  else if bool_decide (c = "-"%char) || bool_decide (c = " "%char) || bool_decide (c = "_"%char)
          || bool_decide (c = "."%char) then Some "-"%char
  else None.
Fixpoint label_chars (s : string) : string :=
  match s with
  | "" => ""
  | String c s' => match label_char c with
                   | Some d => String d (label_chars s')
                   | None => label_chars s'
                   end
  end.
Definition is_dash (c : ascii) : bool := bool_decide (c = "-"%char).
Definition SanitizeHostname (s : string) : string := Trim is_dash (label_chars (ToLower s)).

(** [net.SplitHostPort] *)
Fixpoint has_char (c : ascii) (s : string) : bool :=
  match s with "" => false | String d s' => bool_decide (c = d) || has_char c s' end.
Definition SplitHostPort (hostport : string) : option (string * string) :=
  match cut_last ":" hostport with
  | None => None
  | Some (host, port) =>
      match hostport with
      | String "[" rest =>
          match Cut "]" rest with
          | (inside, String ":" p, true) =>
              if has_char ":" p || has_char "[" rest || has_char "]" p then None else Some (inside, p)
          | _ => None
          end
      | _ => if has_char ":" host || has_char "[" hostport || has_char "]" hostport then None
             else Some (host, port)
      end
  end.

Definition is_dot (c : ascii) : bool := bool_decide (c = "."%char).
Definition routerLabel (host : string) : string :=
  let host := match SplitHostPort host with Some (h, _) => h | None => host end in
  let '(label, _, _) := Cut "." (Trim is_dot (ToLower host)) in
  SanitizeHostname label.

(** [hostname] is the host's name, [None] when it cannot be read. *)
Definition routerHostSuffix (hostname : option string) : string :=
  match hostname with
  | None | Some "" => "local"
  | Some h => let '(label, _, _) := Cut "." h in ToLower label
  end.

(** ** The daemon's listeners *)
Definition tunnelPortMin : Z := 2300.
Definition tunnelPortMax : Z := 2399.

(** A listener; [px_id] tells one from a later one on the same port. *)
Record Proxy := mkProxy { px_id : nat; px_bind : string; px_port : Z; px_target : Z }.

Record activeTunnel := mkActive {
  at_spec : TunnelSpec;
  at_proxy : Proxy;
  at_guestPort : Z;
  at_protocol : string;
}.

Record wantEntry := mkWant { wt_spec : TunnelSpec; wt_guestPort : Z; wt_protocol : string }.

(** The daemon's manager as far as tunnels are concerned: the world, the
    registry, [tunnelState], and the next listener identity. *)
Record TunnelDaemon (S : Type) := mkTunnelDaemon {
  td_world : World S;
  td_reg : Registry;
  td_active : gmap string activeTunnel;
  td_inactive : gmap string string;
  td_next : nat;
}.
Arguments mkTunnelDaemon {S} _ _ _ _ _ : assert.
Arguments td_world {S} _ : assert.
Arguments td_reg {S} _ : assert.
Arguments td_active {S} _ : assert.
Arguments td_inactive {S} _ : assert.
Arguments td_next {S} _ : assert.
#[export] Instance TunnelDaemon_eta {S} : Settable (TunnelDaemon S) := λ d,
  mkTunnelDaemon (td_world d) (td_reg d) (td_active d) (td_inactive d) (td_next d).

(** [err.Error()] *)
Fixpoint error_text (e : error) : string :=
  match e with
  | Errorf format _ => format
  | Wrapf ctx cause => ctx +:+ ": " +:+ error_text cause
  end.

(** *** Which tunnels should be up *)
Definition running_vms {S} (w : World S) (es : list ListEntry) : gmap string ListEntry :=
  foldl (λ m (e : ListEntry), if s_Running e.2 && isAlive_in w (s_PID e.2) then <[c_Name e.1 := e]> m else m) ∅ es.

Definition resolve_spec (running : gmap string ListEntry) (spec : TunnelSpec) : result string wantEntry :=
  match running !! t_VM spec with
  | None => Err "VM not running"
  | Some (cfg, state) =>
      match find (λ s, bool_decide (se_Name s = t_Service spec)) (ResolvedServices cfg state) with
      | None => Err ("VM " +:+ t_VM spec +:+ " no longer declares service " +:+ t_Service spec)
      | Some s => if se_Port s <=? 0 then Err "service port not yet assigned"
                  else Ok (mkWant spec (se_Port s) (se_Protocol s))
      end
  end.

Definition wanted_of (running : gmap string ListEntry) (specs : list TunnelSpec) : gmap string wantEntry :=
  foldl (λ m spec, match resolve_spec running spec with
                   | Ok we => <[Key spec := we]> m | Err _ => m end) ∅ specs.
Definition reasons_of (running : gmap string ListEntry) (specs : list TunnelSpec) : gmap string string :=
  foldl (λ m spec, match resolve_spec running spec with
                   | Ok _ => m | Err why => <[Key spec := why]> m end) ∅ specs.

(** The running listener honours what is wanted. *)
Definition still_good (wanted : gmap string wantEntry) (key : string) (t : activeTunnel) : bool :=
  match wanted !! key with
  | None => false
  | Some we => bool_decide (BindAddr (wt_spec we) = BindAddr (at_spec t))
               && (t_Port (wt_spec we) =? t_Port (at_spec t)) && (wt_guestPort we =? at_guestPort t)
  end.

Section TunnelDaemon.
Context {S : Type} `{VMStore S}.
(** The port the kernel gives a listener on port 0, by the ports in use, and
    refusals to bind other than a port in use. *)
Context (pick : gset Z → option Z) (refused : string → Z → option error).
Abbreviation TD := (TunnelDaemon S).

Definition ports (d : TD) : gset Z := w_ports (td_world d).
Definition set_ports (p : gset Z) (d : TD) : TD := d <| td_world := (td_world d) <| w_ports := p |> |>.

Definition startGuestProxy (bind : string) (port target : Z) (d : TD) : result error Proxy * TD :=
  let bind := if bool_decide (bind = "") then BindLoopback else bind in
  match refused bind port with
  | Some e => (Err (Wrapf "guest proxy" e), d)
  | None =>
      match (if port =? 0 then pick (ports d)
             else if bool_decide (port ∈ ports d) then None else Some port) with
      | None => (Err (Errorf "guest proxy: address already in use" []), d)
      | Some p => (Ok (mkProxy (td_next d) bind p target),
                   (set_ports ({[p]} ∪ ports d) d) <| td_next := Datatypes.S (td_next d) |>)
      end
  end.

Definition CloseProxy (p : Proxy) (d : TD) : TD := set_ports (ports d ∖ {[px_port p]}) d.

(** The first loop: listeners nobody wants as they are go down. *)
Definition stop_stale (wanted : gmap string wantEntry) (d : TD) : TD :=
  let stale := filter (λ kt : string * activeTunnel, still_good wanted kt.1 kt.2 = false) (td_active d) in
  let d := d <| td_active := filter (λ kt : string * activeTunnel, still_good wanted kt.1 kt.2 = true) (td_active d) |> in
  foldr (λ (kt : string * activeTunnel) d, CloseProxy (at_proxy kt.2) d) d (map_to_list stale).

(** The second loop, for one wanted tunnel. *)
Definition start_wanted (d : TD) (kw : string * wantEntry) : TD :=
  let '(key, want) := kw in
  match td_active d !! key with
  | Some _ => d
  | None =>
      let spec := wt_spec want in
      let port := if t_Port spec <=? 0
                  then available_in (ports d) 0 tunnelPortMin tunnelPortMax else t_Port spec in
      match startGuestProxy (BindAddr spec) port (wt_guestPort want) d with
      | (Err e, d) => d <| td_inactive := <[key := error_text e]> (td_inactive d) |>
      | (Ok proxy, d) =>
          let d := d <| td_active := <[key := mkActive spec proxy (wt_guestPort want) (wt_protocol want)]> (td_active d) |> in
          if negb (px_port proxy =? t_Port spec) || negb (bool_decide (t_Protocol spec = wt_protocol want))
          then let updated := spec <| t_Port := px_port proxy |> <| t_Protocol := wt_protocol want |> in
               d <| td_reg := (Add updated (td_reg d)).2 |>
          else d
      end
  end.

(** [order] is the order in which the wanted tunnels are iterated over. *)
Definition reconcileTunnels (order : list (string * wantEntry) → list (string * wantEntry)) (d : TD) : TD :=
  match (TunnelList (td_reg d)).1 with
  | Err _ => d
  | Ok specs =>
      let '(r, w) := List (td_world d) in
      let d := d <| td_world := w |> in
      match r with
      | Err _ => d
      | Ok es =>
          let running := running_vms w es in
          let wanted := wanted_of running specs in
          let d := stop_stale wanted (d <| td_inactive := reasons_of running specs |>) in
          foldl start_wanted d (order (map_to_list wanted))
      end
  end.

Definition stopAllTunnels (d : TD) : TD :=
  let all := map_to_list (td_active d) in
  foldr (λ (kt : string * activeTunnel) d, CloseProxy (at_proxy kt.2) d) (d <| td_active := ∅ |>) all.

(** *** What is reported and routed *)
Record TunnelStatus := mkTunnelStatus {
  ts_VM : string; ts_Service : string; ts_Hostname : string; ts_Bind : string;
  ts_Port : Z; ts_GuestPort : Z; ts_Protocol : string; ts_Active : bool; ts_Reason : string;
}.

Definition status_of (d : TD) (spec : TunnelSpec) : TunnelStatus :=
  match td_active d !! Key spec with
  | Some t => mkTunnelStatus (t_VM spec) (t_Service spec) (VHost spec) (px_bind (at_proxy t))
                (px_port (at_proxy t)) (at_guestPort t) (at_protocol t) true ""
  | None => mkTunnelStatus (t_VM spec) (t_Service spec) (VHost spec) (BindAddr spec) (t_Port spec) 0
              (t_Protocol spec) false (default "not started" (td_inactive d !! Key spec))
  end.
Definition TunnelStatuses (d : TD) : result error (list TunnelStatus) :=
  match (TunnelList (td_reg d)).1 with
  | Err e => Err e
  | Ok specs => Ok (status_of d <$> specs)
  end.
End TunnelDaemon.

(** The label a live tunnel is routed under, if it is routed at all. *)
Definition route_label (t : activeTunnel) : option string :=
  if bool_decide (at_protocol t = ServiceHTTP) || bool_decide (at_protocol t = ServiceHTTPS) then
    let label := SanitizeHostname (VHost (at_spec t)) in
    if bool_decide (label = "") then None else Some label
  else None.

(** One turn of the loop of [activeRoutes]. *)
Definition add_route (out : gmap string activeTunnel) (t : activeTunnel) : gmap string activeTunnel :=
  match route_label t with
  | None => out
  | Some label =>
      match out !! label with
      | Some existing => if String.ltb (Key (at_spec existing)) (Key (at_spec t)) then out
                         else <[label := t]> out
      | None => <[label := t]> out
      end
  end.
(** [ts]: the live tunnels, in the order the map is iterated over. *)
Definition activeRoutes (ts : list activeTunnel) : gmap string activeTunnel := foldl add_route ∅ ts.

(** The upstream a request for [host] is proxied to. *)
Definition tunnelTargetURL (t : activeTunnel) : string :=
  (if bool_decide (at_protocol t = ServiceHTTPS) then "https" else "http")
  +:+ "://127.0.0.1:" +:+ Itoa (px_port (at_proxy t)).
Definition route_request (routes : gmap string activeTunnel) (host : string) : option string :=
  tunnelTargetURL <$> routes !! routerLabel host.

(** ** Lemmas: the order of strings *)
Lemma string_compare_refl s : String.compare s s = Eq.
Proof. induction s as [|c s IH]; [done|]. cbn. unfold Ascii.compare. by rewrite N.compare_refl. Qed.

Lemma string_compare_trans a b c :
  String.compare a b = Lt → String.compare b c = Lt → String.compare a c = Lt.
Proof.
  revert b c. induction a as [|x a IH]; intros [|y b] [|z c]; try done. cbn. unfold Ascii.compare.
  destruct (N.compare_spec (N_of_ascii x) (N_of_ascii y)) as [E|E|E]; [|intros _|done];
    destruct (N.compare_spec (N_of_ascii y) (N_of_ascii z)) as [E'|E'|E']; try done.
  - rewrite E, E', N.compare_refl. apply IH.
  - intros _ _. rewrite (proj2 (N.compare_lt_iff _ _)); [done|lia].
  - intros _. rewrite (proj2 (N.compare_lt_iff _ _)); [done|lia].
  - intros _. rewrite (proj2 (N.compare_lt_iff _ _)); [done|lia].
Qed.

Lemma string_ltb_lt a b : String.ltb a b = true ↔ String.compare a b = Lt.
Proof. unfold String.ltb. by destruct (String.compare a b). Qed.

Lemma string_ltb_asym a b : String.ltb a b = true → String.ltb b a = false.
Proof. rewrite string_ltb_lt. unfold String.ltb. rewrite String.compare_antisym. by destruct (String.compare b a). Qed.

Lemma string_ltb_trichotomy a b : String.ltb a b = true ∨ a = b ∨ String.ltb b a = true.
Proof.
  unfold String.ltb. rewrite (String.compare_antisym b a). destruct (String.compare a b) eqn:E; auto.
  right; left. by apply String.compare_eq_iff.
Qed.

Lemma string_ltb_trans a b c : String.ltb a b = true → String.ltb b c = true → String.ltb a c = true.
Proof. rewrite !string_ltb_lt. apply string_compare_trans. Qed.

#[export] Instance spec_le_total : Total spec_le.
Proof.
  intros a b. unfold spec_le, spec_less.
  rewrite (bool_decide_ext (t_VM b = t_VM a) (t_VM a = t_VM b)) by (split; congruence).
  case_bool_decide; cbn [negb].
  - destruct (String.ltb (t_Service b) (t_Service a)) eqn:E; [right; by apply string_ltb_asym|by left].
  - destruct (String.ltb (t_VM b) (t_VM a)) eqn:E; [right; by apply string_ltb_asym|by left].
Qed.

(** ** Lemmas: the registry *)
Lemma sortSpecs_perm l : sortSpecs l ≡ₚ l.
Proof. apply merge_sort_Permutation. Qed.
Lemma sortSpecs_sorted l : Sorted spec_le (sortSpecs l).
Proof. unfold sortSpecs. apply Sorted_merge_sort. apply _. Qed.

Lemma filter_perm {A} (P : A → Prop) `{!∀ x, Decision (P x)} (l k : list A) : l ≡ₚ k → filter P l ≡ₚ filter P k.
Proof. by intros ->. Qed.

Lemma NoDup_keys_filter (P : TunnelSpec → Prop) `{!∀ x, Decision (P x)} l :
  NoDup (Key <$> l) → NoDup (Key <$> filter P l).
Proof.
  induction l as [|x l IH]; [done|]. rewrite fmap_cons, NoDup_cons, filter_cons. intros [Hx Hl].
  case_decide; [|by apply IH]. rewrite fmap_cons, NoDup_cons. split; [|by apply IH].
  intros (y & E & [_ Hy]%list_elem_of_filter)%list_elem_of_fmap. apply Hx. rewrite E. by apply list_elem_of_fmap_2.
Qed.

Lemma filter_same_length {A} (P : A → Prop) `{!∀ x, Decision (P x)} (l : list A) :
  length (filter P l) = length l → filter P l = l.
Proof.
  induction l as [|x l IH]; [done|]. rewrite filter_cons. case_decide.
  - intros [= E]. by rewrite IH.
  - intros E. pose proof (length_filter P l). cbn in E. lia.
Qed.

(** ** Lemmas: what is wanted *)
Lemma resolve_spec_want running spec we : resolve_spec running spec = Ok we →
  wt_spec we = spec ∧ 0 < wt_guestPort we ∧ ∃ cfg state s, running !! t_VM spec = Some (cfg, state) ∧
    s ∈ ResolvedServices cfg state ∧ se_Name s = t_Service spec ∧
    wt_guestPort we = se_Port s ∧ wt_protocol we = se_Protocol s.
Proof.
  unfold resolve_spec. destruct (running !! t_VM spec) as [[cfg state]|]; [|done].
  destruct (find _ _) as [s|] eqn:Ef; [|done]. apply find_some in Ef as [Hin Hn%bool_decide_eq_true].
  destruct (Z.leb_spec (se_Port s) 0); [done|]. intros [= <-]. split; [done|]. split; [done|].
  exists cfg, state, s. split_and!; try done. by apply list_elem_of_In.
Qed.

Lemma wanted_of_Some running specs k we : wanted_of running specs !! k = Some we →
  ∃ spec, spec ∈ specs ∧ Key spec = k ∧ resolve_spec running spec = Ok we.
Proof.
  unfold wanted_of. induction specs as [|x specs IH] using rev_ind; [done|]. rewrite foldl_app. cbn.
  destruct (resolve_spec running x) as [we'|] eqn:E.
  - rewrite lookup_insert. case_decide as Hk.
    + intros [= <-]. exists x. split; [set_solver|done].
    + intros (spec & ? & ?)%IH. exists spec. split; [set_solver|done].
  - intros (spec & ? & ?)%IH. exists spec. split; [set_solver|done].
Qed.

Lemma wanted_or_reason running specs spec : spec ∈ specs →
  is_Some (wanted_of running specs !! Key spec) ∨ is_Some (reasons_of running specs !! Key spec).
Proof.
  unfold wanted_of, reasons_of. induction specs as [|x specs IH] using rev_ind; [set_solver|].
  rewrite !foldl_app. cbn. intros [Hin|Hin%list_elem_of_singleton]%elem_of_app.
  - destruct (resolve_spec running x); (destruct (IH Hin) as [?|?]; [left|right]; (done || by apply insert_is_Some)).
  - subst x. destruct (resolve_spec running spec) as [we|why]; [left|right]; rewrite lookup_insert_eq; by eexists.
Qed.

(** ** Lemmas: the loops of a reconciliation *)
Section ReconcileLemmas.
Context {S : Type} `{VMStore S} (pick : gset Z → option Z) (refused : string → Z → option error).
Abbreviation TD := (TunnelDaemon S).
Implicit Types d : TD.

Lemma close_all_frame (l : list (string * activeTunnel)) d :
  let d' := foldr (λ (kt : string * activeTunnel) d, CloseProxy (at_proxy kt.2) d) d l in
  td_active d' = td_active d ∧ td_inactive d' = td_inactive d ∧ td_reg d' = td_reg d ∧ td_next d' = td_next d ∧
  ports d' = ports d ∖ list_to_set ((λ kt : string * activeTunnel, px_port (at_proxy kt.2)) <$> l).
Proof.
  cbv zeta. induction l as [|x l (E1 & E2 & E3 & E4 & E5)]; cbn; [split_and!; try done; set_solver|].
  rewrite E1, E2, E3, E4. split_and!; try done. change (ports (CloseProxy ?p ?d)) with (ports d ∖ {[px_port p]}).
  rewrite E5. set_solver.
Qed.

(** Starting adds at most the wanted tunnel, or a reason why not. *)
Lemma start_wanted_cases d k we : let d' := start_wanted pick refused d (k, we) in
  (is_Some (td_active d !! k) ∧ d' = d) ∨
  (td_active d !! k = None ∧ td_active d' = td_active d ∧ ports d' = ports d ∧ td_next d' = td_next d ∧
   ∃ e, td_inactive d' = <[k := e]> (td_inactive d)) ∨
  (td_active d !! k = None ∧ td_inactive d' = td_inactive d ∧ td_next d' = Datatypes.S (td_next d) ∧
   ∃ p, ports d' = {[p]} ∪ ports d ∧ (p ∉ ports d ∨ pick (ports d) = Some p) ∧
     td_active d' = <[k := mkActive (wt_spec we) (mkProxy (td_next d) (BindAddr (wt_spec we)) p (wt_guestPort we))
                             (wt_guestPort we) (wt_protocol we)]> (td_active d)).
Proof.
  cbv zeta. unfold start_wanted. destruct (td_active d !! k) as [t|] eqn:Ek; [by left; split; [eexists|]|right].
  unfold startGuestProxy. set (port := if t_Port (wt_spec we) <=? 0 then _ else _).
  rewrite (bool_decide_eq_false_2 (BindAddr (wt_spec we) = "")).
  2: { unfold BindAddr. by case_bool_decide. }
  destruct (refused _ port); [left; split_and!; try done; by eexists|].
  destruct (if port =? 0 then _ else _) as [p|] eqn:Ep; [right|left; split_and!; try done; by eexists].
  assert (Hp : p ∉ ports d ∨ pick (ports d) = Some p).
  { destruct (port =? 0); [by right|]. case_bool_decide; [done|]. injection Ep as <-. by left. }
  cbv zeta. destruct (negb _ || negb _); (split_and!; [done..|]); exists p; by split_and!.
Qed.
Lemma start_all l d : let d' := foldl (start_wanted pick refused) d l in
  (∀ k t, td_active d !! k = Some t → td_active d' !! k = Some t) ∧
  (∀ k t, td_active d' !! k = Some t → td_active d !! k = Some t ∨
     ∃ we, (k, we) ∈ l ∧ at_spec t = wt_spec we ∧ at_guestPort t = wt_guestPort we ∧ at_protocol t = wt_protocol we) ∧
  (∀ k we, (k, we) ∈ l → is_Some (td_active d' !! k) ∨ is_Some (td_inactive d' !! k)) ∧
  (∀ k, is_Some (td_inactive d !! k) → is_Some (td_inactive d' !! k)).
Proof.
  revert d. induction l as [|[k0 we0] l IH]; intros d; cbn [foldl].
  { split_and!; [done|by left|set_solver|done]. }
  destruct (IH (start_wanted pick refused d (k0, we0))) as (Ha & Hb & Hc & Hd).
  destruct (start_wanted_cases d k0 we0) as [[Hk E]|[(Hk & Ea & _ & _ & e & Ei)|(Hk & Ei & _ & p & _ & _ & Ea)]].
  - rewrite E in Ha, Hb, Hc, Hd |- *. split_and!; [exact Ha| | |exact Hd].
    + intros k t [?|(we & ? & ?)]%Hb; [by left|right; exists we; split; [set_solver|done]].
    + intros k we [[= -> ->]|Hin]%elem_of_cons; [left|by eapply Hc]. destruct Hk as [t Hk]. exists t. by apply Ha.
  - rewrite Ea in Ha, Hb. split_and!; [done| | |].
    + intros k t [?|(we & ? & ?)]%Hb; [by left|right; exists we; split; [set_solver|done]].
    + intros k we [[= -> ->]|Hin]%elem_of_cons; [right|by eapply Hc]. apply Hd. rewrite Ei, lookup_insert_eq. by eexists.
    + intros k Hik. apply Hd. rewrite Ei. by apply insert_is_Some.
  - rewrite Ea in Ha, Hb. rewrite Ei in Hd. split_and!; [| | |done].
    + intros k t Ht. apply Ha. rewrite lookup_insert_ne; [done|congruence].
    + intros k t [Ht|(we & ? & ?)]%Hb; [|right; exists we; split; [set_solver|done]].
      rewrite lookup_insert in Ht. case_decide as Ek; [|by left]. injection Ht as <-. subst k0.
      right. exists we0. split; [set_solver|done].
    + intros k we [[= -> ->]|Hin]%elem_of_cons; [left|by eapply Hc]. eexists. apply Ha, lookup_insert_eq.
Qed.

Lemma stop_stale_frame wanted d : let d' := stop_stale wanted d in
  td_active d' = filter (λ kt : string * activeTunnel, still_good wanted kt.1 kt.2 = true) (td_active d) ∧
  td_inactive d' = td_inactive d ∧ td_reg d' = td_reg d ∧ td_next d' = td_next d.
Proof.
  cbv zeta. unfold stop_stale.
  edestruct close_all_frame as (-> & -> & -> & -> & _). done.
Qed.

(** *** Listeners

    Every live tunnel holds a port of its own, under a listener of its own that
    serves what the tunnel is for. *)
Definition listeners_wf d : Prop :=
  (∀ k t, td_active d !! k = Some t →
     px_port (at_proxy t) ∈ ports d ∧ (px_id (at_proxy t) < td_next d)%nat ∧
     px_target (at_proxy t) = at_guestPort t ∧ px_bind (at_proxy t) = BindAddr (at_spec t)) ∧
  (∀ k1 k2 t1 t2, td_active d !! k1 = Some t1 → td_active d !! k2 = Some t2 → k1 ≠ k2 →
     px_port (at_proxy t1) ≠ px_port (at_proxy t2) ∧ px_id (at_proxy t1) ≠ px_id (at_proxy t2)).

Context (Hpick : ∀ used p, pick used = Some p → p ∉ used).

Lemma start_wanted_wf d kw : listeners_wf d → listeners_wf (start_wanted pick refused d kw).
Proof.
  destruct kw as [k we]. intros [W1 W2].
  destruct (start_wanted_cases d k we) as [[_ ->]|[(Hk & Ea & Ep & En & _)|(Hk & _ & En & p & Ep & Hp & Ea)]].
  - done.
  - split; rewrite Ea; [intros k1 t1 Ht; rewrite Ep, En; exact (W1 _ _ Ht)|exact W2].
  - assert (p ∉ ports d) as Hfree by (destruct Hp as [?|?%Hpick]; done). clear Hp.
    split; rewrite Ea.
    + intros k1 t1. rewrite lookup_insert, Ep, En. case_decide.
      { intros [= <-]. cbn. split_and!; [set_solver|lia|done|done]. }
      intros (? & ? & ? & ?)%W1. split_and!; try done; [set_solver|lia].
    + intros k1 k2 t1 t2. rewrite !lookup_insert. case_decide; case_decide; subst; try done.
      * intros [= <-] (? & ? & _)%W1 _. cbn. split; [set_solver|lia].
      * intros (? & ? & _)%W1 [= <-] _. cbn. split; [set_solver|lia].
      * apply W2.
Qed.

Lemma stop_stale_wf wanted d : listeners_wf d → listeners_wf (stop_stale wanted d).
Proof.
  intros [W1 W2]. destruct (stop_stale_frame wanted d) as (Ea & _ & _ & En).
  assert (Hsub : ∀ k t, td_active (stop_stale wanted d) !! k = Some t →
    td_active d !! k = Some t ∧ still_good wanted k t = true).
  { intros k t. rewrite Ea. by intros [? ?]%map_lookup_filter_Some. }
  split.
  - intros k t [Ht Hg]%Hsub. rewrite En. destruct (W1 k t Ht) as (Hp & ? & ? & ?). split_and!; try done.
    unfold stop_stale. edestruct close_all_frame as (_ & _ & _ & _ & ->). apply elem_of_difference. split; [done|].
    intros ([k' t'] & E & [Ht' Hs]%elem_of_map_to_list%map_lookup_filter_Some)%elem_of_list_to_set%list_elem_of_fmap.
    cbn in *. destruct (decide (k = k')) as [->|Hne]; [congruence|].
    by destruct (W2 k k' t t' Ht Ht' Hne) as [? _].
  - intros k1 k2 t1 t2 [? _]%Hsub [? _]%Hsub. by apply W2.
Qed.

Lemma List_ports w : w_ports (List w).2 = w_ports w.
Proof.
  assert (preserves (λ w', w_ports w' = w_ports w) (List (S := S))) as Hp; [|by apply Hp].
  assert (Hst : ∀ A (m : GoM S error A), preserves (λ w', w_ports w' = w_ports w) (st m)).
  { intros A m w' Hw. unfold st. by destruct (m (w_store w')). }
  apply preserves_bind; [apply Hst|]. intros cfgs. induction cfgs as [|c cfgs IH]; cbn; [apply preserves_ret|].
  apply preserves_bind; [|intros e; apply preserves_bind; [done|intros es; apply preserves_ret]].
  unfold list_entry, isAlive, cleanupStaleVM. preserves_tac; apply Hst.
Qed.
End ReconcileLemmas.

(** ** Lemmas: routes *)
Definition tkey (t : activeTunnel) : string := Key (at_spec t).

(** Of the tunnels under one label, the one with the least key. *)
Definition winner (ts : list activeTunnel) (label : string) (t : activeTunnel) : Prop :=
  t ∈ ts ∧ route_label t = Some label ∧
  ∀ t', t' ∈ ts → route_label t' = Some label → t' = t ∨ String.ltb (tkey t) (tkey t') = true.

Lemma winner_other ts x label t : route_label x ≠ Some label →
  winner (ts ++ [x]) label t ↔ winner ts label t.
Proof.
  intros Hx. split; intros (Hin & Hl & Hb).
  - apply elem_of_app in Hin as [Hin|Hin%list_elem_of_singleton]; [|subst; done].
    split_and!; try done. intros t' Ht'. apply Hb. set_solver.
  - split_and!; try done; [set_solver|].
    intros t' [Ht'|Ht'%list_elem_of_singleton]%elem_of_app Hl'; [by apply Hb|subst; done].
Qed.

Lemma winner_unique ts label t t' : winner ts label t → winner ts label t' → t = t'.
Proof.
  intros (Hin & Hl & Hb) (Hin' & Hl' & Hb'). destruct (Hb t' Hin' Hl') as [->|H1]; [done|].
  destruct (Hb' t Hin Hl) as [->|H2]; [done|]. apply string_ltb_asym in H1. congruence.
Qed.

Lemma routes_some ts label t : t ∈ ts → route_label t = Some label → is_Some (activeRoutes ts !! label).
Proof.
  unfold activeRoutes. induction ts as [|x ts IH] using rev_ind; [set_solver|]. rewrite foldl_app. cbn [foldl].
  set (out := foldl add_route ∅ ts) in *. intros Hin Hl. unfold add_route.
  apply elem_of_app in Hin as [Hin|Hin%list_elem_of_singleton].
  - destruct (route_label x); [|by apply IH]. repeat case_match; (by apply IH) || (by apply insert_is_Some, IH).
  - subst x. rewrite Hl. destruct (out !! label) eqn:E; [case_match|]; rewrite ?lookup_insert_eq; by eexists.
Qed.

(** A tunnel that joins wins its label exactly when no other has a lesser key. *)
Lemma winner_join ts x label e : (∀ y, y ∈ ts → tkey y ≠ tkey x) → route_label x = Some label →
  winner ts label e →
  winner (ts ++ [x]) label (if String.ltb (tkey e) (tkey x) then e else x).
Proof.
  intros Hkey Hx (Hin & Hl & Hb). destruct (String.ltb (tkey e) (tkey x)) eqn:Elt.
  - split_and!; [set_solver|done|].
    intros t' [Ht'|Ht'%list_elem_of_singleton]%elem_of_app Hl'; [by apply Hb|subst; by right].
  - assert (Hxe : String.ltb (tkey x) (tkey e) = true).
    { destruct (string_ltb_trichotomy (tkey x) (tkey e)) as [?|[E|?]]; [done| |congruence].
      by destruct (Hkey e Hin). }
    split_and!; [set_solver|done|].
    intros t' [Ht'|Ht'%list_elem_of_singleton]%elem_of_app Hl'; [|by left].
    right. destruct (Hb t' Ht' Hl') as [->|?]; [done|by eapply string_ltb_trans].
Qed.

Lemma routes_winner ts label t : NoDup (tkey <$> ts) → activeRoutes ts !! label = Some t → winner ts label t.
Proof.
  revert label t. induction ts as [|x ts IH] using rev_ind; intros label t Hnd; [done|].
  rewrite fmap_app, NoDup_app in Hnd. destruct Hnd as (Hnd & Hdis & _). specialize (λ l t, IH l t Hnd).
  pose proof (λ y, routes_some ts label y) as Hsome. unfold activeRoutes in *. rewrite foldl_app. cbn [foldl].
  set (out := foldl add_route ∅ ts) in *. unfold add_route. intros H.
  destruct (decide (route_label x = Some label)) as [Ex|Hne].
  - rewrite Ex in H. destruct (out !! label) as [e|] eqn:Ee.
    + assert (Hkey : ∀ y, y ∈ ts → tkey y ≠ tkey x).
      { intros y Hy E. apply (Hdis (tkey y)); [by apply list_elem_of_fmap_2|]. rewrite E. set_solver. }
      pose proof (winner_join ts x label e Hkey Ex (IH _ _ Ee)) as Hw.
      unfold tkey in Hw. destruct (String.ltb _ _); [rewrite Ee in H|rewrite lookup_insert_eq in H]; by injection H as <-.
    + rewrite lookup_insert_eq in H. injection H as <-. split_and!; [set_solver|done|].
      intros t' [Ht'|Ht'%list_elem_of_singleton]%elem_of_app Hl'; [|by left].
      by destruct (Hsome t' Ht' Hl').
  - apply winner_other; [done|]. apply IH. destruct (route_label x) as [lx|] eqn:Ex; [|done].
    assert (lx ≠ label) by congruence. repeat case_match; by rewrite ?lookup_insert_ne in H.
Qed.

(** ** Lemmas: labels *)
Definition label_ok (c : ascii) : bool := is_lower c || is_digit c || is_dash c.

Lemma label_char_ok c d : label_char c = Some d → label_ok d = true.
Proof.
  intros H. destruct c as [[] [] [] [] [] [] [] []]; vm_compute in H; (discriminate H || (injection H as <-; reflexivity)).
Qed.

Lemma label_ok_fixed c : label_ok c = true → lower_char c = c ∧ label_char c = Some c ∧ is_dot c = false.
Proof. intros Hc. destruct c as [[] [] [] [] [] [] [] []]; vm_compute in Hc |- *; done. Qed.

Lemma label_chars_ok s : sforall label_ok (label_chars s) = true.
Proof.
  induction s as [|c s IH]; [done|]. cbn. destruct (label_char c) eqn:E; [|done]. cbn.
  by rewrite IH, (label_char_ok c a E).
Qed.

Lemma label_chars_fixed s : sforall label_ok s = true → label_chars (ToLower s) = s.
Proof.
  induction s as [|c s IH]; [done|]. cbn [sforall]. intros [Hc Hs]%andb_true_iff.
  change (ToLower (String c s)) with (String (lower_char c) (ToLower s)). cbn [label_chars].
  destruct (label_ok_fixed c Hc) as (-> & -> & _). by rewrite IH.
Qed.

Lemma ToLower_fixed s : sforall label_ok s = true → ToLower s = s.
Proof.
  induction s as [|c s IH]; [done|]. cbn. intros [Hc Hs]%andb_true_iff.
  destruct (label_ok_fixed c Hc) as (-> & _). f_equal. by apply IH.
Qed.

Lemma sanitize_ok s : sforall label_ok (SanitizeHostname s) = true.
Proof. apply sforall_trim_right, sforall_trim_left, label_chars_ok. Qed.

Lemma sanitize_idemp s : SanitizeHostname (SanitizeHostname s) = SanitizeHostname s.
Proof.
  unfold SanitizeHostname at 1. rewrite label_chars_fixed by apply sanitize_ok.
  unfold SanitizeHostname. apply Trim_idemp.
Qed.

(** The first label of a name that starts with [l.]. *)
Lemma Cut_label l t : sforall label_ok l = true → (Cut "." (l +:+ "." +:+ t)).1.1 = l.
Proof.
  induction l as [|c l IH]; [done|]. cbn [sforall]. intros [Hc Hl]%andb_true_iff.
  change (String c l +:+ "." +:+ t) with (String c (l +:+ "." +:+ t)). cbn [Cut].
  rewrite bool_decide_eq_false_2.
  - specialize (IH Hl). destruct (Cut "." (l +:+ "." +:+ t)) as [[a b] ok]. cbn in *. by subst a.
  - intros ->. by vm_compute in Hc.
Qed.

Lemma Cut_none l : sforall label_ok l = true → (Cut "." l).1.1 = l.
Proof.
  induction l as [|c l IH]; [done|]. cbn [sforall]. intros [Hc Hl]%andb_true_iff. cbn [Cut].
  rewrite bool_decide_eq_false_2.
  - specialize (IH Hl). destruct (Cut "." l) as [[a b] ok]. cbn in *. by subst a.
  - intros ->. by vm_compute in Hc.
Qed.

Lemma trim_right_dots l t : sforall label_ok l = true →
  trim_right is_dot (l +:+ "." +:+ t) = l ∨ ∃ t', trim_right is_dot (l +:+ "." +:+ t) = l +:+ "." +:+ t'.
Proof.
  induction l as [|c l IH]; intros Hl.
  - change ("" +:+ "." +:+ t) with (String "." t). cbn. destruct (trim_right is_dot t); [by left|right; by eexists].
  - cbn [sforall] in Hl. apply andb_true_iff in Hl as [Hc Hl]. destruct (label_ok_fixed c Hc) as (_ & _ & Hd).
    change (String c l +:+ "." +:+ t) with (String c (l +:+ "." +:+ t)). cbn [trim_right].
    destruct (IH Hl) as [->|[t' ->]].
    + left. destruct l; [|done]. by rewrite Hd.
    + right. exists t'. by destruct l.
Qed.

(** Text with no colon and no bracket, as host names and ports are. *)
Definition plain_text (s : string) : Prop :=
  has_char ":" s = false ∧ has_char "[" s = false ∧ has_char "]" s = false.

Lemma has_char_app c s t : has_char c (s +:+ t) = has_char c s || has_char c t.
Proof.
  induction s as [|d s IH]; [done|]. change (String d s +:+ t) with (String d (s +:+ t)).
  cbn. by rewrite IH, orb_assoc.
Qed.

Lemma plain_text_app s t : plain_text s → plain_text t → plain_text (s +:+ t).
Proof. intros (? & ? & ?) (? & ? & ?). unfold plain_text. rewrite !has_char_app. by split_and!; apply orb_false_iff. Qed.

Lemma plain_label l : sforall label_ok l = true → plain_text l.
Proof.
  induction l as [|c l IH]; [by repeat split|]. cbn [sforall]. intros [Hc Hl]%andb_true_iff.
  destruct (IH Hl) as (H1 & H2 & H3). unfold plain_text. cbn. rewrite H1, H2, H3.
  split_and!; rewrite orb_false_r; apply bool_decide_eq_false; intros <-; by vm_compute in Hc.
Qed.

Lemma cut_last_none c s : has_char c s = false → cut_last c s = None.
Proof.
  induction s as [|d s IH]; [done|]. cbn. intros [Hd Hs]%orb_false_iff. rewrite IH by done.
  apply bool_decide_eq_false in Hd. by rewrite bool_decide_eq_false_2.
Qed.

Lemma cut_last_app h p : has_char ":" p = false → cut_last ":" (h +:+ ":" +:+ p) = Some (h, p).
Proof.
  intros Hp. induction h as [|c h IH].
  - change ("" +:+ ":" +:+ p) with (String ":" p). cbn. by rewrite cut_last_none.
  - change (String c h +:+ ":" +:+ p) with (String c (h +:+ ":" +:+ p)). cbn [cut_last]. by rewrite IH.
Qed.

Lemma SplitHostPort_no_bracket s : has_char "[" s = false → SplitHostPort s =
  match cut_last ":" s with
  | None => None
  | Some (host, port) => if has_char ":" host || has_char "[" s || has_char "]" s then None else Some (host, port)
  end.
Proof.
  intros Hs. unfold SplitHostPort. destruct (cut_last ":" s) as [[host port]|]; [|done].
  destruct s as [|c s]; [done|]. destruct c as [[] [] [] [] [] [] [] []]; (reflexivity || (by cbn in Hs)).
Qed.

Lemma split_host h p : plain_text h → plain_text p →
  SplitHostPort h = None ∧ SplitHostPort (h +:+ ":" +:+ p) = Some (h, p).
Proof.
  intros (Hh1 & Hh2 & Hh3) (Hp1 & Hp2 & Hp3). split.
  - rewrite SplitHostPort_no_bracket by done. by rewrite cut_last_none.
  - assert (has_char "[" (h +:+ ":" +:+ p) = false) as Hb by (by rewrite !has_char_app, Hh2, Hp2).
    rewrite SplitHostPort_no_bracket, cut_last_app, Hh1, Hb by done. by rewrite !has_char_app, Hh3, Hp3.
Qed.

Lemma ToLower_app s t : ToLower (s +:+ t) = ToLower s +:+ ToLower t.
Proof.
  induction s as [|c s IH]; [done|]. change (String c s +:+ t) with (String c (s +:+ t)).
  change (ToLower (String c (s +:+ t))) with (String (lower_char c) (ToLower (s +:+ t))). by rewrite IH.
Qed.

(** The first label of a host name, whatever follows it. *)
Lemma first_label l suffix : sforall label_ok l = true → l ≠ "" →
  (Cut "." (Trim is_dot (ToLower (l +:+ "." +:+ suffix)))).1.1 = l.
Proof.
  intros Hl Hne. rewrite !ToLower_app, (ToLower_fixed l) by done. change (ToLower ".") with ".".
  unfold Trim. rewrite trim_left_fixed.
  - destruct (trim_right_dots l (ToLower suffix) Hl) as [->|[t' ->]]; [by apply Cut_none|by apply Cut_label].
  - destruct l as [|c l]; [done|]. cbn [sforall] in Hl. apply andb_true_iff in Hl as [Hc _].
    destruct (label_ok_fixed c Hc) as (_ & _ & Hd).
    change (String c l +:+ "." +:+ ToLower suffix) with (String c (l +:+ "." +:+ ToLower suffix)). cbn. by rewrite Hd.
Qed.

(** ** Lemmas: registry operations *)
Lemma filter_keeps_all {A} (P : A → Prop) `{!∀ x, Decision (P x)} (l : list A) :
  (∀ x, x ∈ l → P x) → filter P l = l.
Proof.
  induction l as [|x l IH]; [done|]. intros Hl. rewrite filter_cons, decide_True by set_solver.
  f_equal. apply IH. set_solver.
Qed.

Section RegistryOps.
Context (r : Registry).
Abbreviation specs := (default [] (reg_file r)).
Context (Hnd : NoDup (Key <$> specs)).

Lemma Add_ok spec r' : Add spec r = (Ok tt, r') → ∃ l, reg_file r' = Some l ∧ Sorted spec_le l ∧
  NoDup (Key <$> l) ∧ l ≡ₚ spec :: filter (λ s, Key s ≠ Key spec) specs.
Proof.
  unfold Add. rewrite run_bind. unfold load, save. destruct (reg_read r); [done|]. destruct (reg_write r); [done|].
  intros [= <-]. eexists. split; [done|]. split; [apply sortSpecs_sorted|].
  assert (Hl : sortSpecs (filter (λ s, Key s ≠ Key spec) (sortSpecs specs) ++ [spec])
    ≡ₚ spec :: filter (λ s, Key s ≠ Key spec) specs).
  { rewrite sortSpecs_perm, (filter_perm _ _ _ (sortSpecs_perm specs)). apply Permutation_app_comm. }
  split; [|done]. rewrite Hl, fmap_cons, NoDup_cons. split; [|by apply NoDup_keys_filter].
  intros (y & E & [Hy _]%list_elem_of_filter)%list_elem_of_fmap. done.
Qed.

(** A removal writes only when something is removed. *)
Lemma filter_shrinks (P : TunnelSpec → Prop) `{!∀ x, Decision (P x)} :
  length (filter P (sortSpecs specs)) = length (sortSpecs specs) ↔ filter P specs = specs.
Proof.
  rewrite (filter_perm P _ _ (sortSpecs_perm specs)), sortSpecs_perm.
  split; [apply filter_same_length|by intros ->].
Qed.

Lemma RemoveTunnel_ok vm service b r' : RemoveTunnel vm service r = (Ok b, r') →
  (b = true ↔ key_of vm service ∈ Key <$> specs) ∧
  default [] (reg_file r') ≡ₚ filter (λ s, Key s ≠ key_of vm service) specs.
Proof.
  unfold RemoveTunnel. rewrite run_bind. unfold load. destruct (reg_read r); [done|]. cbv zeta.
  case_bool_decide as Hlen; rewrite filter_shrinks in Hlen.
  - intros [= <- <-]. split; [split; [done|]|by rewrite Hlen]. intros (y & E & Hy)%list_elem_of_fmap.
    rewrite <-Hlen in Hy. by apply list_elem_of_filter in Hy as [[] _].
  - rewrite run_bind. unfold save. destruct (reg_write r); [done|]. intros [= <- <-].
    split; [split; [intros _|done]|].
    + destruct (decide (key_of vm service ∈ Key <$> specs)) as [?|Hno]; [done|]. destruct Hlen.
      apply filter_keeps_all. intros y Hy E. apply Hno. rewrite <-E. by apply list_elem_of_fmap_2.
    + etrans; [apply sortSpecs_perm|]. apply filter_perm, sortSpecs_perm.
Qed.

Lemma RemoveVM_ok vm r' : RemoveVM vm r = (Ok tt, r') →
  default [] (reg_file r') ≡ₚ filter (λ s, t_VM s ≠ vm) specs.
Proof.
  unfold RemoveVM. rewrite run_bind. unfold load. destruct (reg_read r); [done|]. cbv zeta.
  case_bool_decide as Hlen; rewrite filter_shrinks in Hlen; [intros [= <-]; by rewrite Hlen|].
  unfold save. destruct (reg_write r); [done|]. intros [= <-].
  etrans; [apply sortSpecs_perm|]. apply filter_perm, sortSpecs_perm.
Qed.

Lemma registry_errs : (∀ spec e r', Add spec r = (Err e, r') → r' = r) ∧
  (∀ vm service e r', RemoveTunnel vm service r = (Err e, r') → r' = r) ∧
  (∀ vm e r', RemoveVM vm r = (Err e, r') → r' = r).
Proof.
  unfold Add, RemoveTunnel, RemoveVM. split_and!; intros *; rewrite run_bind; unfold load;
    (destruct (reg_read r); [by intros [= _ <-]|]); cbv zeta; try (case_bool_decide; [done|]);
    rewrite ?run_bind; unfold save; destruct (reg_write r); (done || by intros [= _ <-]).
Qed.
End RegistryOps.

(** ** Theorems *)

(** The registry holds one tunnel per VM and service: adding one replaces the
    tunnel with its key and keeps every other, removing takes exactly the
    matching ones and reports whether there were any, the file stays sorted, and
    an operation that fails changes nothing. *)
Theorem registry_updates r : let specs := default [] (reg_file r) in NoDup (Key <$> specs) →
  (∀ spec r', Add spec r = (Ok tt, r') → ∃ l, reg_file r' = Some l ∧ Sorted spec_le l ∧ NoDup (Key <$> l) ∧
     l ≡ₚ spec :: filter (λ s, Key s ≠ Key spec) specs) ∧
  (∀ vm service b r', RemoveTunnel vm service r = (Ok b, r') →
     (b = true ↔ key_of vm service ∈ Key <$> specs) ∧
     default [] (reg_file r') ≡ₚ filter (λ s, Key s ≠ key_of vm service) specs) ∧
  (∀ vm r', RemoveVM vm r = (Ok tt, r') → default [] (reg_file r') ≡ₚ filter (λ s, t_VM s ≠ vm) specs) ∧
  (∀ spec e r', Add spec r = (Err e, r') → r' = r) ∧
  (∀ vm service e r', RemoveTunnel vm service r = (Err e, r') → r' = r) ∧
  (∀ vm e r', RemoveVM vm r = (Err e, r') → r' = r).
Proof.
  cbv zeta. intros Hnd. destruct (registry_errs r) as (E1 & E2 & E3).
  split_and!; [by apply Add_ok|by apply RemoveTunnel_ok|by apply RemoveVM_ok|done..].
Qed.

Section TunnelClaims.
Context {S : Type} `{VMStore S} (pick : gset Z → option Z) (refused : string → Z → option error).
Implicit Types d : TunnelDaemon S.


(** The daemon's listeners stay well formed through every reconciliation and
    through the final tear-down: each live tunnel holds a bound port and a
    listener of its own, forwarding to its guest port on its bind address. *)
Theorem listeners_invariant order d :
  (∀ used p, pick used = Some p → p ∉ used) → listeners_wf d →
  listeners_wf (reconcileTunnels pick refused order d) ∧ listeners_wf (stopAllTunnels d) ∧
  td_active (stopAllTunnels d) = ∅.
Proof.
  intros Hpick Hwf. split; [|split].
  - unfold reconcileTunnels. destruct (TunnelList (td_reg d)).1 as [specs|]; [|done].
    pose proof (List_ports (td_world d)) as Hp.
    destruct (List (td_world d)) as [[es|e] w]; cbn in Hp; [|unfold listeners_wf, ports in *; cbn; by rewrite Hp].
    set (d1 := stop_stale _ _). assert (listeners_wf d1) as Hwf1.
    { apply stop_stale_wf. unfold listeners_wf, ports in *. cbn. by rewrite Hp. }
    generalize (order (map_to_list (wanted_of (running_vms w es) specs))). intros l. clearbody d1.
    revert d1 Hwf1. induction l as [|kw l IH]; intros d1 Hwf1; [done|]. cbn [foldl].
    apply IH. by apply start_wanted_wf.
  - unfold stopAllTunnels, listeners_wf.
    destruct (close_all_frame (map_to_list (td_active d)) (d <| td_active := ∅ |>)) as (-> & _ & _ & -> & _).
    change (td_active (d <| td_active := ∅ |>)) with (∅ : gmap string activeTunnel).
    split; intros *; by rewrite lookup_empty.
  - unfold stopAllTunnels.
    by destruct (close_all_frame (map_to_list (td_active d)) (d <| td_active := ∅ |>)) as (-> & _).
Qed.
End TunnelClaims.

(** Each label is routed to the live web tunnel with the least key among
    those that share it, so the routes do not depend on the order in which the
    tunnels are visited. *)
Theorem routes_deterministic ts ts' : NoDup (tkey <$> ts) → ts ≡ₚ ts' →
  activeRoutes ts = activeRoutes ts' ∧
  ∀ label t, activeRoutes ts !! label = Some t ↔ winner ts label t.
Proof.
  assert (Hiff : ∀ ts, NoDup (tkey <$> ts) → ∀ label t, activeRoutes ts !! label = Some t ↔ winner ts label t).
  { intros ts0 Hnd label t. split; [by apply routes_winner|]. intros Hw.
    destruct (routes_some ts0 label t) as [t' Ht']; [apply Hw..|].
    by rewrite (winner_unique ts0 label t t' Hw (routes_winner _ _ _ Hnd Ht')). }
  intros Hnd Hp. split; [|by apply Hiff].
  assert (Hnd' : NoDup (tkey <$> ts')) by by rewrite <-Hp.
  apply map_eq. intros label. apply option_eq. intros t. rewrite !Hiff by done.
  unfold winner. by setoid_rewrite Hp.
Qed.

(** A published name finds its way back: a sanitized label is its own
    sanitized form, and a request for that label under any host suffix, with or
    without a port, is looked up under exactly that label. *)
Theorem router_label_roundtrip s suffix port :
  SanitizeHostname s ≠ "" → plain_text suffix → plain_text port →
  let label := SanitizeHostname s in
  SanitizeHostname label = label ∧
  routerLabel (label +:+ "." +:+ suffix) = label ∧
  routerLabel ((label +:+ "." +:+ suffix) +:+ ":" +:+ port) = label.
Proof.
  intros Hne Hs Hp. cbv zeta. set (l := SanitizeHostname s) in *. pose proof (sanitize_ok s : sforall label_ok l = true) as Hl.
  assert (Hh : plain_text (l +:+ "." +:+ suffix)).
  { apply plain_text_app; [by apply plain_label|]. by apply plain_text_app. }
  destruct (split_host _ port Hh Hp) as [E1 E2].
  assert (Hlab : SanitizeHostname l = l) by apply sanitize_idemp.
  split; [done|]. unfold routerLabel. rewrite E1, E2. pose proof (first_label l suffix Hl Hne) as Hc.
  destruct (Cut "." _) as [[a b] ok]. cbn in Hc. by subst a.
Qed.

(** ** A daemon with one registered web service *)
Module TunnelExample.
Definition cfg : VMConfig :=
  Scenario.cfg <| c_Services := [mkServiceEntry "jellyfin" 8096 ServiceHTTP] |>.
Definition world : World Db.DB :=
  (Scenario.world_with Scenario.running {[77]})
    <| w_store := Db.mkDB {[ "dev" := Db.mkRow cfg 1 ]} {[ "dev" := Scenario.running ]} 9 None None |>.

Definition spec (port : Z) : TunnelSpec := mkTunnelSpec "dev" "jellyfin" BindLoopback port "" ServiceHTTP.
Definition daemon (port : Z) : TunnelDaemon Db.DB :=
  mkTunnelDaemon world (mkRegistry (Some [spec port]) None None) ∅ ∅ 0.

Definition pick (used : gset Z) : option Z := head (filter (λ p, p ∉ used) [49152; 49153]).
Definition refused (bind : string) (port : Z) : option error := None.
Definition tick : TunnelDaemon Db.DB → TunnelDaemon Db.DB := reconcileTunnels pick refused (λ l, l).
Definition listener (d : TunnelDaemon Db.DB) : option (nat * Z) :=
  t ← td_active d !! "dev/jellyfin"; Some (px_id (at_proxy t), px_port (at_proxy t)).

Lemma pick_fresh used p : pick used = Some p → p ∉ used.
Proof.
  unfold pick. intros Hp.
  assert (p ∈ filter (λ p, p ∉ used) [49152; 49153]) as [? _]%list_elem_of_filter; [|done].
  destruct (filter _ _); [done|]. injection Hp as <-. set_solver.
Qed.
Lemma daemon_wf port : listeners_wf (daemon port).
Proof.
  unfold listeners_wf. change (td_active (daemon port)) with (∅ : gmap string activeTunnel).
  split; intros *; by rewrite lookup_empty.
Qed.
End TunnelExample.

(** A tunnel whose port is on record keeps its listener from tick to tick. *)
Example recorded_tunnel_stays :
  TunnelExample.listener (TunnelExample.tick (TunnelExample.daemon 2300)) = Some (0%nat, 2300) ∧
  TunnelExample.listener (TunnelExample.tick (TunnelExample.tick (TunnelExample.daemon 2300))) = Some (0%nat, 2300).
Proof. by vm_compute. Qed.

(** A newly registered tunnel has no port yet.  Its port does not come from the
    tunnel range, and the tick after the one that starts it closes the listener
    and opens a new one on the same port: the port that was written to the
    registry differs from the one the live tunnel was started with. *)
Example new_tunnel_restarted :
  TunnelExample.listener (TunnelExample.tick (TunnelExample.daemon 0)) = Some (0%nat, 49152) ∧
  TunnelExample.listener (TunnelExample.tick (TunnelExample.tick (TunnelExample.daemon 0))) = Some (1%nat, 49152) ∧
  TunnelExample.listener (TunnelExample.tick (TunnelExample.tick (TunnelExample.tick (TunnelExample.daemon 0))))
    = Some (1%nat, 49152).
Proof. by vm_compute. Qed.

(** The router, which listens on every interface, serves a tunnel that was only
    ever bound to loopback. *)
Example loopback_tunnel_routed : ∀ d, d = TunnelExample.tick (TunnelExample.daemon 2300) →
  BindAddr (TunnelExample.spec 2300) = BindLoopback ∧
  route_request (activeRoutes (snd <$> map_to_list (td_active d))) "jellyfin.desktop:80"
    = Some "http://127.0.0.1:2300".
Proof. intros d ->. by vm_compute. Qed.

Lemma registry_updates_witness : ∃ r', Add (TunnelExample.spec 2301) (td_reg (TunnelExample.daemon 0)) = (Ok tt, r') ∧
  ∃ l, reg_file r' = Some l ∧ l ≡ₚ [TunnelExample.spec 2301].
Proof.
  eexists. split; [vm_compute; reflexivity|].
  destruct (registry_updates (td_reg (TunnelExample.daemon 0))) as [Hadd _]; [apply NoDup_singleton|].
  destruct (Hadd (TunnelExample.spec 2301) _ ltac:(vm_compute; reflexivity)) as (l & El & _ & _ & Hl).
  exists l. split; [exact El|exact Hl].
Defined.


Lemma listeners_invariant_witness : listeners_wf (TunnelExample.tick (TunnelExample.daemon 0)).
Proof.
  exact (proj1 (listeners_invariant TunnelExample.pick TunnelExample.refused (λ l, l) (TunnelExample.daemon 0)
    TunnelExample.pick_fresh (TunnelExample.daemon_wf 0))).
Defined.

Lemma routes_deterministic_witness :
  let a := mkActive (mkTunnelSpec "a" "web" "" 0 "" "") (mkProxy 0 "" 1 80) 80 ServiceHTTP in
  let b := mkActive (mkTunnelSpec "b" "web" "" 0 "" "") (mkProxy 1 "" 2 80) 80 ServiceHTTP in
  activeRoutes [a; b] = activeRoutes [b; a] ∧ activeRoutes [b; a] !! "web" = Some a.
Proof.
  cbv zeta. split; [|vm_compute; reflexivity]. refine (proj1 (routes_deterministic _ _ _ _)).
  - vm_compute. repeat constructor; set_solver.
  - apply Permutation_swap.
Defined.

Lemma router_label_roundtrip_witness :
  SanitizeHostname "Home Assistant" = "home-assistant" ∧
  routerLabel ((SanitizeHostname "Home Assistant" +:+ "." +:+ "desktop") +:+ ":" +:+ "80") = "home-assistant".
Proof.
  split; [reflexivity|].
  apply (router_label_roundtrip "Home Assistant" "desktop" "80"); [discriminate|by repeat split..].
Defined.
